(* ===== verification/_CoqProject ===== *)
-Q . S2P
Prelude.v
Custom.v
Interrupt.v
Cia.v
CiaFacts.v
CiaTimer.v
CiaSerial.v
CiaTod.v
ChipRam.v
Blitter.v
BlitterRef.v
BlitterLine.v
BlitterDma.v
BlitterFacts.v
BlitterCopy.v
Dma.v
Beam.v
BeamFacts.v
Copper.v
CopperFacts.v
CopperRun.v
Bytes.v
Mfm.v
MfmSector.v
MfmTrack.v
MfmDecode.v
Floppy.v
FloppyFacts.v
Disk.v
DiskSafety.v
DiskFacts.v
Serial.v
Input.v
Audio.v
AudioFacts.v
SpriteDma.v
Scheduler.v
SchedulerFacts.v
DenisePixel.v
DeniseSprites.v
Denise.v
DeniseFacts.v
Framebuffer.v
FramebufferFacts.v
Compositor.v
CompositorFacts.v
DeniseFrames.v
Rtc.v
RtcFacts.v
Machine.v
Registers.v
FloppyPort.v
Mmio.v
Chipset.v
Rigel.v
Callbacks.v
MachineFacts.v
MachineSafety.v
MachineInvariant.v
CopperMachine.v
ChipsetFacts.v
MmioFacts.v
RigelFacts.v
FloppyPortFacts.v
HostBytes.v
Atapi.v
Ata.v
Fastram.v
Lide.v
AtaFacts.v
LideFacts.v
LideTransfer.v
FastramFacts.v
Hunk.v
HunkSpec.v
HunkFacts.v
Host.v
HostFacts.v
HostProgram.v
HostIO.v
