(* ===== verification/Prelude.v ===== *)
(** * Rigel: a verification development for the Amiga chipset library

    Rigel (the C library under [src/include] and [src/src] of the repository)
    emulates the custom chips of the Amiga: Agnus (beam, DMA, blitter, copper),
    Paula (interrupts, audio, disk, serial, input), Denise (video), the two CIAs,
    the floppy drives and the real-time clock.  A host owns the processor and chip
    RAM: it steps the chipset, accesses the registers and gives callbacks for
    memory.  The repository's own host is [src/harness], with its memory, its disk
    board and its program loader.  This development models both as executable
    definitions that follow the C functions one by one, under the C names, and
    proves what makes each part correct, the whole machine, and the host that
    drives it.

    ** How the C code is read

    - An unsigned C integer of [w] bits is an integer in [0, 2^w); every
      conversion and every operation that can leave the range is written with
      [wrap w] ([u8], [u16], [u32], [u64]); signed 16-bit and 32-bit values are
      read with [i16] and [i32].  A conversion the C code makes is left out only
      where the operands make it the identity.
    - A struct is a record and a C function on a pointer to it is a function from
      state to state; [s <| f := v |>] is the assignment [s->f = v].  The guards
      [if (p == NULL) return] have no counterpart: a record is always there.
      Function pointers that may be [NULL] are options.
    - A chip that reaches other parts through a pointer works on the pair of its
      record and that part: a CIA with the interrupt controller ([CiaBoard]), the
      blitter with chip RAM and its sink, Paula's parts with a world [W] their
      callbacks act on, instantiated in [Machine] with the record [Bus] (interrupt
      controller, shadow registers, host memory).  No other pointer is shared.
    - Buffers are lists of bytes or words.  A store or a read outside one is
      undefined behaviour in C; the operation is then [None] ([Bytes],
      [HostBytes]), or, in the whole machine, sets the flag [fault] of
      [RigelContext].  The theorems show that [None] and [fault] do not occur.
    - Loops with a static bound are folds over the index range or [loop]; the
      others run on fuel, and it suffices:
      [beam_loop] ([2 * clocks + 2]: an iteration consumes a clock or moves to the
      next line), [advance_events_loop] (one per timer event), the periods of an
      audio step (one per period that ends), the loader of [Hunk] (any fuel above
      the number of longwords of the file, for well-formed files; [OutOfFuel] for
      every fuel on the malformed ones that make it loop), [drain_loop] and
      [audio_loop] of the host (one per waiting byte or due sample).  The host's
      [harness_run], which may not end, gives [None] when its fuel does.
    - What is not in the repository is a parameter: the host's callbacks and
      memory ([ChipRamIf], with the laws [RamLaws]), the C library's calendar
      ([rtc_lib]; one call of the library reads the host's clock once), the
      environment variables ([rigel_env]), the processor (its execution and the
      cycle each access is made at), the files on the host's disk.
    - What leaves the program is a value: the copy of a line to the host's frame
      buffer is a [target_write], the interrupt level, serial bytes, samples and
      observed accesses of the host program are [output]s.

    ** Files: words, registers, chips

    - [Prelude]: words and their bits, record update, the tactics [width] (ranges),
      [bitwise] (equality bit by bit), [closed_range], and the hint databases they
      use.  [Bytes]: buffers and counted loops.  [Custom]: custom register
      addresses and the SET/CLR rule.
    - [Interrupt] ([domains/interrupt], [paula_interrupts.c]); [Dma] (DMACON).
    - [Cia] (all of [src/cia]), with [CiaFacts] (the invariant of the reachable
      states, relation [cia_op]), [CiaTimer], [CiaSerial], [CiaTod].
    - [ChipRam]: the host's memory interface, the chip bus, the mirroring.
    - [Blitter] (registers, command, cost), [BlitterRef] (the backend that executes
      a command), [BlitterLine] (the incremental line drawer), [BlitterDma] (the
      slots), [BlitterFacts], [BlitterCopy].
    - [Beam] (counters, blank, raster windows, deadlines, the host's snapshot) and
      [BeamFacts]; [Copper], [CopperFacts], [CopperRun]: the copper reaches the
      machine through the class [CopperHost] with the laws [CopperHostLaws].
    - [Mfm] ([floppy_mfm.c]), [MfmSector], [MfmTrack], [MfmDecode] (with the
      decoder of [tests/test_mfm_decode.c]); [Floppy], [FloppyFacts]; [Disk],
      [DiskSafety], [DiskFacts] (class [DiskHost]).
    - [Serial], [Input], [Audio], [AudioFacts]; [SpriteDma] (refresh, sprite and
      bitplane fetches); [Scheduler], [SchedulerFacts] (the table of a line).
    - [DenisePixel], [DeniseSprites], [Denise], [DeniseFacts], [Framebuffer],
      [FramebufferFacts], [Compositor], [CompositorFacts], [DeniseFrames].
    - [Rtc], [RtcFacts].

    ** Files: the machine

    - [Machine]: [RigelContext] ([core/rigel_context.h]) with every chip, the
      wiring of the callbacks, the reset and [rigel_create].  [Registers]: the
      register files and [mmio/custom_regs.c].  [FloppyPort]: the CIA accesses,
      drives and media.  [Mmio]: the address map.  [Chipset]: a colour clock
      ([agnus_slot_scheduler_step]) and the step of the chipset.  [Rigel]: the
      interface of [core/rigel.c] (stepping, deadlines, bus state, snapshots).
    - [Callbacks] and [MachineFacts] (the laws of the machine as [CopperHost]),
      [MachineSafety] and [MachineInvariant] (the invariant [machine_ok], the
      relation [machine_op] of all operations of the interface), [CopperMachine],
      [ChipsetFacts], [MmioFacts], [RigelFacts], [FloppyPortFacts].

    ** Files: the host program

    - [HostBytes]: stores of several bytes, C strings, files, big-endian words.
    - [Ata] ([ata_ide.c]), [Atapi] ([atapi_cdrom.c]), [Lide] ([lide.c]: the board
      that carries both), with [AtaFacts], [LideFacts] (invariant of the
      board), [LideTransfer] (sectors through the registers, discs).
    - [Fastram] ([fastram.c], [zorro.c]) and [FastramFacts].
    - [Hunk] ([hunk.c]) over the class [GuestMemory]; [HunkSpec]: executables,
      their files ([encode]) and what loading them means ([load_spec]), the laws
      [MemoryLaws]; [HunkFacts].
    - [Host] ([harness.c]): the record [harness], whose chip RAM is the memory of
      the context it owns, the address map of the processor, the clock, the serial
      and audio outputs, the boards, ROM images, creation and program start;
      [HostFacts] (the clock), [HostProgram] (the loader behind the address map).
    - [HostIO] ([main.c], [harness_video.c]): the scripts of keys and pointer
      movements, the ring of samples for the sound card.

    ** What the theorems show

    - The whole machine: in every state reachable by the interface's operations no
      array is left, no loop runs out and every chip's invariant holds; the
      vertical blank interrupt comes in every frame whatever the programs do; the
      clocks do not drift however the host cuts its steps; refused accesses have
      no effect; copper lists in chip RAM set Denise's colours; port B of CIA-B
      selects drives whose status port A shows; a snapshot's restoration.
    - Interrupts: the cascade that encodes the level is the specified priority.
      CIA: register ranges and the interrupt line in every reachable state; the
      timers' closed form is the tick-by-tick timer; the serial link.
    - Blitter: a blit completes after exactly the announced slots, with the memory
      of the backend; both line drawers agree; the delayed writes of a copy are a
      read phase and a write phase when no source is overwritten; a plain copy
      moves a rectangle.  Beam: a step is single clocks.  Copper: MOVE and WAIT.
    - Disk: a track read through the controller decodes to the sectors of the
      image; the decoder inverts the encoder; the controller stays in its buffer.
      Serial: bytes are transmitted once, in order.  Audio: a channel plays the
      bytes of the words it fetches.  Sprites: the bands of lines they occupy.
      Scheduler: the table of a line is the priority of its requests; every
      bitplane word is fetched once.
    - Denise: each pixel of a composed line, whatever path drew it; the frame the
      host sees is its lines; the views and copies stay inside the buffers; the
      collision register.
    - Host: no access of the Amiga leaves a buffer of the disk board or changes
      the size of the disk image; written sectors are read back and the others are
      unchanged; disc changes are reported once, blocks are the file's; Fast RAM
      is a memory and is identified; the loader implements the specification of
      loading for every well-formed executable; behind the host's address map
      the program is started with its stack, its code and an empty screen; the
      chipset's time is half the processor's whatever it accesses; a scripted
      pointer arrives; the ring of samples is a bounded queue.
    - Places where the code does something else than it means to are theorems as
      well; each says what the code does.

    ** Not modelled

    The SIMD variants of pixel loops ([src/simd], the vector path of
    [planar_to_chunky]): vector intrinsics.  Logging, tracing and the probes of
    the slot scheduler: pure output.  The runtime shims ([src/runtime]) and the
    allocation of objects, which is assumed to succeed.  The helpers of Denise no
    target builds ([video/border.c], [video/sync.c], [video/beam.c],
    [output/rgb.c], [debug]).  Of the host program: its command line, file
    reading and writing and main loop ([main.c]), its diagnostics
    ([harness_diag.c]), its SDL window, keyboard table and sound device
    ([harness_video.c]), whose code is calls of other libraries and printing, and
    the processor's set-up.  The tests, tools and examples, except the MFM
    decoder. *)

From stdpp Require Export base numbers list tactics relations.
From Stdlib Require Export ZArith Lia Bool Btauto.

#[export] Set Default Goal Selector "!".
#[global] Open Scope Z_scope.

(** ** Machine words

    A C unsigned integer of [w] bits is an integer [x] with [0 <= x < 2^w].
    [wrap w] is the conversion to that type: [(uint8_t)e] is [u8 e]. *)

Definition wrap (w x : Z) : Z := x mod 2 ^ w.

Definition in_width (w x : Z) : Prop := 0 <= x < 2 ^ w.

Abbreviation u8 := (wrap 8).
Abbreviation u16 := (wrap 16).
Abbreviation u32 := (wrap 32).
Abbreviation u64 := (wrap 64).
Abbreviation is_u8 := (in_width 8).
Abbreviation is_u16 := (in_width 16).
Abbreviation is_u32 := (in_width 32).
Abbreviation is_u64 := (in_width 64).

(** Two's complement reading of the low [w] bits: [(int16_t)e] is [i16 e]. *)
Definition sign_extend (w x : Z) : Z :=
  if wrap w x <? 2 ^ (w - 1) then wrap w x else wrap w x - 2 ^ w.

Abbreviation i16 := (sign_extend 16).
Abbreviation i32 := (sign_extend 32).

Definition in_swidth (w x : Z) : Prop := - 2 ^ (w - 1) <= x < 2 ^ (w - 1).

Abbreviation is_i16 := (in_swidth 16).

(** C conditions: [if (x & m)] is [has x m]; a C [bool] stored in an integer
    is [b2u]. *)
Definition has (x m : Z) : bool := negb (Z.land x m =? 0).

Definition b2u (b : bool) : Z := if b then 1 else 0.

(** C's truth value of an integer used as a flag. *)
Definition truthy (x : Z) : bool := negb (x =? 0).

Declare Scope word_scope.
Delimit Scope word_scope with word.
Notation "a .& b" := (Z.land a b) (at level 37, left associativity) : word_scope.
Notation "a .^ b" := (Z.lxor a b) (at level 38, left associativity) : word_scope.
Notation "a .| b" := (Z.lor a b) (at level 39, left associativity) : word_scope.
Notation "a .<< b" := (Z.shiftl a b) (at level 36, left associativity) : word_scope.
Notation "a .>> b" := (Z.shiftr a b) (at level 36, left associativity) : word_scope.
Notation "~~ a" := (Z.lnot a) (at level 30, right associativity) : word_scope.
#[global] Open Scope word_scope.

#[global] Arguments Z.testbit : simpl never.
#[global] Arguments Z.land : simpl never.
#[global] Arguments Z.lor : simpl never.
#[global] Arguments Z.lxor : simpl never.
#[global] Arguments Z.lnot : simpl never.
#[global] Arguments Z.shiftl : simpl never.
#[global] Arguments Z.shiftr : simpl never.
#[global] Arguments Z.modulo : simpl never.
#[global] Arguments Z.div : simpl never.
#[global] Arguments Z.pow : simpl never.
#[global] Arguments wrap : simpl never.
#[global] Arguments sign_extend : simpl never.
#[global] Arguments has : simpl never.

(** ** Functional record update

    [s <| f := v |>] is the record [s] with the field [f] replaced.  [Eta R]
    lists the fields of [R] once; the setter of a field is derived from it. *)

Class Eta (R : Type) := eta : R -> R.

Class Update {R T : Type} (field : R -> T) := update : (T -> T) -> R -> R.

Arguments update {R T} field {Update} u s : rename.

Ltac derive_update :=
  lazymatch goal with
  | |- @Update ?R ?T ?field =>
      assert_fails (has_evar field);
      let inst := constr:(_ : Eta R) in
      let body := eval hnf in inst in
      lazymatch eval pattern field in body with
      | ?with_hole field =>
          lazymatch with_hole with
          | fun _ => ?constant => fail "the record update leaves the record as it is"
          | _ => idtac
          end;
          let set := eval cbv beta in
            (fun (u : T -> T) => with_hole (fun r => u (field r))) in
          exact set
      end
  end.

#[export] Hint Extern 1 (Update _) => derive_update : typeclass_instances.

Notation "s <| f := v |>" := (update f (fun _ => v) s)
  (at level 1, f at level 0, v at level 200, left associativity,
   format "s  <| f  :=  v |>").

(** ** Words and their bits *)

Create HintDb width discriminated.
Create HintDb consts discriminated.
Create Rewrite HintDb bits.

(** The lemmas of this section turn an equation between words into one
    boolean equation per bit. *)

Lemma wrap_range w x : 0 <= w -> in_width w (wrap w x).
Proof. intros Hw. unfold wrap, in_width. apply Z.mod_pos_bound. lia. Qed.

Lemma wrap_small w x : in_width w x -> wrap w x = x.
Proof. unfold wrap, in_width. intros H. apply Z.mod_small. lia. Qed.

Lemma wrap_idemp w x : 0 <= w -> wrap w (wrap w x) = wrap w x.
Proof. intros Hw. apply wrap_small, wrap_range, Hw. Qed.

Lemma wrap_add_l w x y : 0 <= w -> wrap w (wrap w x + y) = wrap w (x + y).
Proof. intros Hw. unfold wrap. apply Z.add_mod_idemp_l. lia. Qed.

Lemma wrap_add_r w x y : 0 <= w -> wrap w (x + wrap w y) = wrap w (x + y).
Proof. intros Hw. unfold wrap. apply Z.add_mod_idemp_r. lia. Qed.

Lemma wrap_sub_l w x y : 0 <= w -> wrap w (wrap w x - y) = wrap w (x - y).
Proof. intros Hw. unfold wrap. apply Zminus_mod_idemp_l. Qed.

Lemma testbit_wrap w x i :
  0 <= w -> 0 <= i -> Z.testbit (wrap w x) i = (i <? w) && Z.testbit x i.
Proof.
  intros Hw Hi. unfold wrap. destruct (Z.ltb_spec i w).
  - rewrite Z.mod_pow2_bits_low by lia. reflexivity.
  - rewrite Z.mod_pow2_bits_high by lia. reflexivity.
Qed.

Lemma testbit_high w x i : in_width w x -> w <= i -> Z.testbit x i = false.
Proof.
  intros Hx Hi. destruct (decide (i < 0)); [by apply Z.testbit_neg_r|].
  destruct (decide (0 <= w)) as [Hw|Hw].
  - rewrite <- (wrap_small w x Hx), testbit_wrap by lia.
    by replace (i <? w) with false by lia.
  - unfold in_width in Hx. rewrite Z.pow_neg_r in Hx by lia. lia.
Qed.

Lemma in_width_bits w x :
  0 <= w -> 0 <= x -> (forall i, w <= i -> Z.testbit x i = false) -> in_width w x.
Proof.
  intros Hw Hx Hbits. split; [done|].
  assert (x = wrap w x) as ->; [|by apply wrap_range].
  apply Z.bits_inj'. intros i Hi. rewrite testbit_wrap by lia.
  destruct (Z.ltb_spec i w); [done|]. by rewrite Hbits by lia.
Qed.

Lemma word_ext w a b :
  in_width w a -> in_width w b ->
  (forall i, 0 <= i < w -> Z.testbit a i = Z.testbit b i) -> a = b.
Proof.
  intros Ha Hb Hbits. apply Z.bits_inj'. intros i Hi.
  destruct (decide (i < w)); [by apply Hbits|].
  by rewrite (testbit_high w a), (testbit_high w b) by (done || lia).
Qed.

Lemma in_width_mono w w' x : in_width w x -> 0 <= w <= w' -> in_width w' x.
Proof.
  unfold in_width. intros Hx Hw. pose proof (Z.pow_le_mono_r 2 w w'). lia.
Qed.

Lemma in_width_wrap_le w w' x : 0 <= w <= w' -> in_width w' (wrap w x).
Proof. intros Hw. apply (in_width_mono w); [apply wrap_range; lia|done]. Qed.

Lemma in_width_0 w : 0 <= w -> in_width w 0.
Proof. unfold in_width. pose proof (Z.pow_pos_nonneg 2 w). lia. Qed.

Lemma in_width_land_l w a b : 0 <= w -> in_width w a -> in_width w (a .& b).
Proof.
  intros Hw Ha. unfold in_width in Ha.
  apply in_width_bits; [done|apply Z.land_nonneg; lia|].
  intros i Hi. rewrite Z.land_spec. by rewrite (testbit_high w a).
Qed.

Lemma in_width_land_r w a b : 0 <= w -> in_width w b -> in_width w (a .& b).
Proof. rewrite Z.land_comm. apply in_width_land_l. Qed.

Lemma in_width_lor w a b :
  0 <= w -> in_width w a -> in_width w b -> in_width w (a .| b).
Proof.
  intros Hw Ha Hb. pose proof Ha as [? _]. pose proof Hb as [? _].
  apply in_width_bits; [done|apply Z.lor_nonneg; lia|].
  intros i Hi. rewrite Z.lor_spec. by rewrite (testbit_high w a), (testbit_high w b).
Qed.

Lemma in_width_lxor w a b :
  0 <= w -> in_width w a -> in_width w b -> in_width w (a .^ b).
Proof.
  intros Hw Ha Hb. pose proof Ha as [? _]. pose proof Hb as [? _].
  apply in_width_bits; [done|apply Z.lxor_nonneg; lia|].
  intros i Hi. rewrite Z.lxor_spec. by rewrite (testbit_high w a), (testbit_high w b).
Qed.

Lemma in_width_shiftr w a n : 0 <= w -> 0 <= n -> in_width w a -> in_width w (a .>> n).
Proof.
  intros Hw Hn Ha. pose proof Ha as [? _].
  apply in_width_bits; [done|by apply Z.shiftr_nonneg|].
  intros i Hi. rewrite Z.shiftr_spec by lia. apply (testbit_high w); [done|lia].
Qed.

Lemma in_width_b2u w b : 1 <= w -> in_width w (b2u b).
Proof.
  intros Hw. pose proof (Z.pow_le_mono_r 2 1 w). unfold in_width.
  destruct b; cbn; lia.
Qed.

Lemma in_width_shiftl w w' n x :
  in_width w' x -> 0 <= w' -> 0 <= n -> w' + n <= w -> in_width w (x .<< n).
Proof.
  intros Hx Hw' Hn Hle. pose proof Hx as [? _].
  apply in_width_bits; [lia|by apply Z.shiftl_nonneg|].
  intros i Hi. rewrite Z.shiftl_spec by lia. apply (testbit_high w'); [done|lia].
Qed.

Lemma in_width_if w (b : bool) x y :
  in_width w x -> in_width w y -> in_width w (if b then x else y).
Proof. by destruct b. Qed.

#[export] Hint Resolve in_width_shiftl in_width_if : width.
#[export] Hint Extern 2 (in_width _ ?x) =>
  match goal with
  | H : in_width ?w x |- _ => apply (in_width_mono w); [exact H|lia]
  end : width.
#[export] Hint Resolve wrap_range in_width_wrap_le in_width_0 in_width_land_l
  in_width_land_r in_width_lor in_width_lxor in_width_shiftr in_width_b2u : width.
#[export] Hint Extern 1 (_ <= _) => lia : width.
#[export] Hint Extern 1 (_ <= _ <= _) => lia : width.
#[export] Hint Extern 3 (in_width _ ?n) =>
  lazymatch n with
  | Z0 => idtac | Zpos _ => idtac | Zneg _ => idtac
  end; unfold in_width; lia : width.

Ltac width := autounfold with consts in *; try solve [eauto 8 with width]; eauto 14 with width.

#[export] Hint Rewrite Z.land_spec Z.lor_spec Z.lxor_spec Z.ldiff_spec Z.testbit_0_l : bits.
#[export] Hint Rewrite Z.lnot_spec Z.shiftl_spec Z.shiftr_spec testbit_wrap
  using lia : bits.

(** [cases_below i n] splits a goal about [0 <= i < n] into one goal per value. *)
Ltac cases_below i n :=
  lazymatch n with
  | 0 => exfalso; lia
  | _ => let m := eval cbv in (n - 1) in
         destruct (decide (i = m)) as [->|?]; [|cases_below i m]
  end.

(** Evaluate the applications of [f] to a literal. *)
Ltac evaluate f :=
  repeat match goal with
  | |- context [f ?x] =>
      lazymatch x with Z0 => idtac | Zpos _ => idtac | Zneg _ => idtac end;
      let v := eval vm_compute in (f x) in change (f x) with v
  end.

(** The range of a closed word. *)
Ltac closed_range := unfold in_width; vm_compute; split; congruence.

(** Evaluate the bits of literals and the bits of words above their width. *)
Ltac literal_bits :=
  repeat match goal with
  | |- context [?a <? ?b] =>
      let v := eval vm_compute in (a <? b) in
      lazymatch v with true => idtac | false => idtac end;
      change (a <? b) with v
  | |- context [Z.testbit ?x (?op ?a ?b)] =>
      let i := eval vm_compute in (op a b) in
      lazymatch i with Z0 => idtac | Zpos _ => idtac | Zneg _ => idtac end;
      change (Z.testbit x (op a b)) with (Z.testbit x i)
  | |- context [Z.testbit ?c ?i] =>
      lazymatch c with Z0 => idtac | Zpos _ => idtac | Zneg _ => idtac end;
      lazymatch i with Z0 => idtac | Zpos _ => idtac | Zneg _ => idtac end;
      let b := eval vm_compute in (Z.testbit c i) in
      change (Z.testbit c i) with b
  | |- context [Z.testbit ?x (Zneg ?p)] => rewrite (Z.testbit_neg_r x (Zneg p)) by lia
  | H : in_width ?w ?x |- context [Z.testbit ?x (Zpos ?p)] =>
      rewrite (testbit_high w x (Zpos p) H) by lia
  | H : in_width ?w ?x |- context [Z.testbit ?x Z0] =>
      rewrite (testbit_high w x Z0 H) by lia
  end.

(** [bitwise w] proves [a = b] for words of [w] bits, bit by bit. *)
Ltac bitwise w :=
  apply (word_ext w); [solve [width] | solve [width] |];
  let i := fresh "i" in intros i ?; autounfold with consts;
  autorewrite with bits; cases_below i w; cbn; literal_bits; cbn; try btauto;
  try (autorewrite with bits; cbn; literal_bits; cbn; btauto).

(** The same for terms that nest shifts and masks. *)
Ltac bitwise_deep w :=
  apply (word_ext w); [solve [width] | solve [width] |];
  let i := fresh "i" in intros i ?; autounfold with consts;
  autorewrite with bits; cases_below i w;
  repeat (progress (cbn; literal_bits; autorewrite with bits)); try btauto.

Lemma has_pow2 x k : 0 <= k -> has x (2 ^ k) = Z.testbit x k.
Proof.
  intros Hk. unfold has. destruct (Z.testbit x k) eqn:E.
  - destruct (Z.eqb_spec (x .& 2 ^ k) 0) as [H0|]; [|done].
    apply (f_equal (fun z => Z.testbit z k)) in H0. revert H0.
    by rewrite Z.land_spec, E, Z.pow2_bits_true, Z.testbit_0_l by lia.
  - destruct (Z.eqb_spec (x .& 2 ^ k) 0) as [|H0]; [done|]. exfalso. apply H0.
    apply Z.bits_inj'. intros i Hi. rewrite Z.land_spec, Z.testbit_0_l.
    destruct (decide (i = k)) as [->|]; [by rewrite E|].
    rewrite Z.pow2_bits_false by lia. apply andb_false_r.
Qed.

Lemma has_lor x m n : has x (m .| n) = has x m || has x n.
Proof.
  unfold has. rewrite Z.land_lor_distr_r.
  destruct (Z.eqb_spec (Z.lor (x .& m) (x .& n)) 0) as [H|H].
  - apply Z.lor_eq_0_iff in H as [-> ->]. done.
  - destruct (Z.eqb_spec (x .& m) 0) as [H1|]; [|done].
    destruct (Z.eqb_spec (x .& n) 0) as [H2|]; [|done].
    exfalso. apply H. by rewrite H1, H2.
Qed.

Lemma has_0_l m : has 0 m = false.
Proof. done. Qed.

Lemma has_true x m : has x m = true <-> exists i, 0 <= i /\ Z.testbit x i = true /\ Z.testbit m i = true.
Proof.
  unfold has. rewrite negb_true_iff, Z.eqb_neq. split.
  - intros Hne. destruct (decide (0 <= x .& m)).
    + exists (Z.log2 (x .& m)). split; [apply Z.log2_nonneg|].
      apply andb_true_iff. rewrite <- Z.land_spec. apply Z.bit_log2. lia.
    + exists (Z.log2 x + Z.log2 m + Z.log2 (- x) + Z.log2 (- m) + 1).
      pose proof (Z.log2_nonneg x). pose proof (Z.log2_nonneg m).
      pose proof (Z.log2_nonneg (- x)). pose proof (Z.log2_nonneg (- m)).
      assert (x < 0 /\ m < 0) as [? ?].
      { assert (~ (0 <= x \/ 0 <= m)) as Hn; [|lia].
        intros Hn. apply Z.land_nonneg in Hn. lia. }
      pose proof (Z.log2_le_mono (Z.pred (- x)) (- x)).
      pose proof (Z.log2_le_mono (Z.pred (- m)) (- m)).
      split; [lia|]. split; apply Z.bits_above_log2_neg; lia.
  - intros (i & Hi & Hx & Hm) H0. apply (f_equal (fun z => Z.testbit z i)) in H0.
    revert H0. by rewrite Z.land_spec, Hx, Hm, Z.testbit_0_l.
Qed.

(** Extracting one bit: [(x >> n) & 1]. *)
Lemma shiftr_land_1 x n : 0 <= n -> (x .>> n) .& 1 = b2u (Z.testbit x n).
Proof.
  intros Hn. apply Z.bits_inj'. intros i Hi. rewrite Z.land_spec, Z.shiftr_spec by lia.
  destruct (decide (i = 0)) as [->|].
  - rewrite Z.add_0_l, andb_true_r. by destruct (Z.testbit x n).
  - rewrite (testbit_high 1 1) by (closed_range || lia). rewrite andb_false_r.
    symmetry. apply (testbit_high 1); [by apply in_width_b2u|lia].
Qed.

Lemma land_1 x : x .& 1 = b2u (Z.testbit x 0).
Proof. rewrite <- (Z.shiftr_0_r x) at 1. by apply shiftr_land_1. Qed.

Lemma testbit_b2u b i : Z.testbit (b2u b) i = (i =? 0) && b.
Proof.
  destruct (Z.eqb_spec i 0) as [->|]; [by destruct b|].
  destruct (decide (i < 0)); [by apply Z.testbit_neg_r|].
  apply (testbit_high 1); [by apply in_width_b2u|lia].
Qed.

#[export] Hint Rewrite testbit_b2u : bits.

(** Two bytes side by side. *)
Lemma lor_shift8 a b : in_width 8 a -> in_width 8 b -> (a .<< 8) .| b = a * 256 + b.
Proof.
  intros Ha Hb. change 256 with (2 ^ 8). rewrite <- Z.shiftl_mul_pow2, <- Z.add_lor_land by lia.
  replace ((a .<< 8) .& b) with 0; [by rewrite Z.add_0_r|].
  symmetry. apply Z.bits_inj'. intros i Hi. autorewrite with bits.
  destruct (decide (8 <= i)); [rewrite (testbit_high 8 b) by done; apply andb_false_r|].
  by rewrite (Z.testbit_neg_r a) by lia.
Qed.

(** A decidable property of all words below a bound, checked by evaluation. *)
Lemma below_forall n (P : Z -> bool) :
  forallb P (seqZ 0 n) = true -> forall v, 0 <= v < n -> P v = true.
Proof.
  intros H v Hv. rewrite forallb_forall in H. apply H, list_elem_of_In, elem_of_seqZ. lia.
Qed.

Lemma byte_forall (P : Z -> bool) :
  forallb P (seqZ 0 256) = true -> forall v, is_u8 v -> P v = true.
Proof. exact (below_forall 256 P). Qed.
