(* ===== verification/Custom.v ===== *)
(** * The custom register space

    The addresses of the chipset's custom registers ([rigel_custom.h] and
    [dmacon.h]), the SET/CLR write protocol shared by INTENA, INTREQ, DMACON
    and ADKCON, and the validity test of a custom register address. *)

From S2P Require Import Prelude.

(** C: [src/include/rigel/rigel_custom.h]:6-9 [RIGEL_CUSTOM_END] *)
Definition RIGEL_CUSTOM_END := 0x1fe.

(** C: [src/include/rigel/rigel_custom.h]:22-22 [RIGEL_REG_INTENAR] *)
Definition RIGEL_REG_INTENAR := 0x01c.
(** C: [src/include/rigel/rigel_custom.h]:23-23 [RIGEL_REG_INTREQR] *)
Definition RIGEL_REG_INTREQR := 0x01e.
(** C: [src/include/rigel/rigel_custom.h]:28-28 [RIGEL_REG_COPCON] *)
Definition RIGEL_REG_COPCON := 0x02e.
(** C: [src/include/rigel/rigel_custom.h]:33-33 [RIGEL_REG_COP1LCH] *)
Definition RIGEL_REG_COP1LCH := 0x080.
(** C: [src/include/rigel/rigel_custom.h]:34-34 [RIGEL_REG_COP1LCL] *)
Definition RIGEL_REG_COP1LCL := 0x082.
(** C: [src/include/rigel/rigel_custom.h]:35-35 [RIGEL_REG_COP2LCH] *)
Definition RIGEL_REG_COP2LCH := 0x084.
(** C: [src/include/rigel/rigel_custom.h]:36-36 [RIGEL_REG_COP2LCL] *)
Definition RIGEL_REG_COP2LCL := 0x086.
(** C: [src/include/rigel/rigel_custom.h]:37-37 [RIGEL_REG_COPJMP1] *)
Definition RIGEL_REG_COPJMP1 := 0x088.
(** C: [src/include/rigel/rigel_custom.h]:38-38 [RIGEL_REG_COPJMP2] *)
Definition RIGEL_REG_COPJMP2 := 0x08a.
(** C: [src/include/rigel/rigel_custom.h]:62-62 [RIGEL_REG_DMACON] *)
Definition RIGEL_REG_DMACON := 0x096.
(** C: [src/include/rigel/rigel_custom.h]:63-63 [RIGEL_REG_INTENA] *)
Definition RIGEL_REG_INTENA := 0x09a.
(** C: [src/include/rigel/rigel_custom.h]:65-65 [RIGEL_REG_INTREQ] *)
Definition RIGEL_REG_INTREQ := 0x09c.

(** C: [src/include/rigel/rigel_custom.h]:78-78 [RIGEL_SETCLR] *)
Definition RIGEL_SETCLR := 0x8000.
(** C: [src/src/chipset/agnus/dma/dmacon.h]:17-17 [DMACON_DMAEN] *)
Definition DMACON_DMAEN := 0x0200.
(** C: [src/src/chipset/agnus/dma/dmacon.h]:18-18 [DMACON_BLTPRI] *)
Definition DMACON_BLTPRI := 0x0400.
(** C: [src/src/chipset/agnus/dma/dmacon.h]:21-21 [DMACON_BPLEN] *)
Definition DMACON_BPLEN := 0x0100.
(** C: [src/src/chipset/agnus/dma/dmacon.h]:22-22 [DMACON_COPEN] *)
Definition DMACON_COPEN := 0x0080.
(** C: [src/src/chipset/agnus/dma/dmacon.h]:23-23 [DMACON_BLTEN] *)
Definition DMACON_BLTEN := 0x0040.
(** C: [src/src/chipset/agnus/dma/dmacon.h]:24-24 [DMACON_SPREN] *)
Definition DMACON_SPREN := 0x0020.
(** C: [src/src/chipset/agnus/dma/dmacon.h]:25-25 [DMACON_DSKEN] *)
Definition DMACON_DSKEN := 0x0010.

#[export] Hint Unfold RIGEL_CUSTOM_END RIGEL_REG_INTENAR RIGEL_REG_INTREQR
  RIGEL_REG_COPCON RIGEL_REG_COP1LCH RIGEL_REG_COP1LCL RIGEL_REG_COP2LCH
  RIGEL_REG_COP2LCL RIGEL_REG_COPJMP1 RIGEL_REG_COPJMP2 RIGEL_REG_DMACON
  RIGEL_REG_INTENA RIGEL_REG_INTREQ RIGEL_SETCLR DMACON_DMAEN DMACON_BLTPRI
  DMACON_BPLEN DMACON_COPEN DMACON_BLTEN DMACON_SPREN DMACON_DSKEN : consts.

(** C: [src/src/mmio/custom_regs.c] [rigel_custom_is_valid_reg] *)
Definition rigel_custom_is_valid_reg (addr : Z) : bool :=
  (addr .& 1 =? 0) && (addr <=? RIGEL_CUSTOM_END).

(** ** SET/CLR writes

    A write with bit 15 set turns the other written bits on; a write with bit
    15 clear turns them off.  The code has this rule five times. *)

(** C: [src/src/irq/intena.c] [intena_apply_write] *)
Definition intena_apply_write (current value : Z) : Z :=
  let mask := u16 (value .& 0x7fff) in
  if has value 0x8000 then u16 (current .| mask)
  else u16 (current .& u16 (~~ mask)).

(** C: [src/src/irq/intreq.c] [intreq_apply_write] *)
Definition intreq_apply_write (current value : Z) : Z :=
  let mask := u16 (value .& 0x7fff) in
  if has value 0x8000 then u16 (current .| mask)
  else u16 (current .& u16 (~~ mask)).

(** C: [src/src/domains/dma/dma_domain.c] [rigel_dma_apply_setclr] *)
Definition rigel_dma_apply_setclr (current value : Z) : Z :=
  let mask := u16 (value .& 0x7fff) in
  if has value RIGEL_SETCLR then u16 (current .| mask)
  else u16 (current .& u16 (~~ mask)).

(** The [return] converts the [unsigned] result to 16 bits; the complement is
    taken at 32 bits.
    C: [src/src/chipset/agnus/dma/dmacon.h] [dmacon_apply_write] *)
Definition dmacon_apply_write (current value : Z) : Z :=
  if has value 0x8000 then u16 (current .| (value .& 0x7fff))
  else u16 (current .& u32 (~~ (value .& 0x7fff))).

(** C: [src/src/chipset/agnus/dma/dmacon.h] [dmacon_master] *)
Definition dmacon_master (d : Z) : bool := has d DMACON_DMAEN.

(** C: [src/src/chipset/agnus/dma/dmacon.h]:44-48 [dmacon_bplen] *)
Definition dmacon_channel (d bit : Z) : bool :=
  d .& (DMACON_DMAEN .| bit) =? DMACON_DMAEN .| bit.

(** C: [src/src/chipset/agnus/dma/dmacon.h] [dmacon_bplen] *)
Definition dmacon_bplen (d : Z) : bool := dmacon_channel d DMACON_BPLEN.
(** C: [src/src/chipset/agnus/dma/dmacon.h] [dmacon_copen] *)
Definition dmacon_copen (d : Z) : bool := dmacon_channel d DMACON_COPEN.
(** C: [src/src/chipset/agnus/dma/dmacon.h] [dmacon_blten] *)
Definition dmacon_blten (d : Z) : bool := dmacon_channel d DMACON_BLTEN.
(** C: [src/src/chipset/agnus/dma/dmacon.h] [dmacon_spren] *)
Definition dmacon_spren (d : Z) : bool := dmacon_channel d DMACON_SPREN.
(** C: [src/src/chipset/agnus/dma/dmacon.h] [dmacon_dsken] *)
Definition dmacon_dsken (d : Z) : bool := dmacon_channel d DMACON_DSKEN.

(** ** The SET/CLR rule, bit by bit *)

Lemma has_setclr value : has value 0x8000 = Z.testbit value 15.
Proof. apply (has_pow2 value 15). lia. Qed.

Lemma testbit_7fff i : 0 <= i -> Z.testbit 0x7fff i = (i <? 15).
Proof.
  intros Hi. change 0x7fff with (Z.ones 15). destruct (Z.ltb_spec i 15).
  - by rewrite Z.ones_spec_low by lia.
  - by rewrite Z.ones_spec_high by lia.
Qed.

(** The abstract rule every one of the five copies implements. *)
Definition setclr_bit (current value : Z) (i : Z) : bool :=
  if (i <? 15) && Z.testbit value i then Z.testbit value 15
  else Z.testbit current i.

Lemma intreq_apply_write_bit current value i :
  is_u16 current -> 0 <= i ->
  Z.testbit (intreq_apply_write current value) i = setclr_bit current value i.
Proof.
  intros Hc Hi. unfold intreq_apply_write, setclr_bit. rewrite has_setclr.
  destruct (decide (i < 16)).
  - destruct (Z.testbit value 15);
      autorewrite with bits; rewrite testbit_7fff by lia;
      destruct (Z.ltb_spec i 15), (Z.ltb_spec i 16); try lia; cbn;
      destruct (Z.testbit value i), (Z.testbit current i); reflexivity.
  - rewrite (testbit_high 16 current) by (done || lia).
    replace (i <? 15) with false by lia. cbn.
    apply (testbit_high 16); [|lia]. destruct (Z.testbit value 15); width.
Qed.

Lemma intreq_apply_write_range current value :
  is_u16 current -> is_u16 (intreq_apply_write current value).
Proof. intros H. unfold intreq_apply_write. destruct (has _ _); width. Qed.

Lemma intena_apply_write_intreq : intena_apply_write = intreq_apply_write.
Proof. reflexivity. Qed.

Lemma rigel_dma_apply_setclr_intreq : rigel_dma_apply_setclr = intreq_apply_write.
Proof. reflexivity. Qed.

Lemma dmacon_apply_write_intreq current value :
  dmacon_apply_write current value = intreq_apply_write current value.
Proof.
  unfold dmacon_apply_write, intreq_apply_write. destruct (has value _); bitwise 16.
Qed.
