(* ===== verification/Interrupt.v ===== *)
(** * Paula's interrupt controller

    [domains/interrupt/interrupt_domain.c] with its facade
    [paula/paula_interrupts.c]: INTENA and INTREQ, the SET/CLR writes, the
    raising and clearing of sources by the other chips, and the encoding of the
    pending sources as the 68000's interrupt priority level. *)

From S2P Require Import Prelude Custom.

(** ** Sources *)

(** C: [src/src/domains/interrupt/interrupt_domain.h]:10-10 [RIGEL_PAULA_INT_TBE] *)
Definition RIGEL_PAULA_INT_TBE := 0x0001.
(** C: [src/src/domains/interrupt/interrupt_domain.h]:11-11 [RIGEL_PAULA_INT_DSKBLK] *)
Definition RIGEL_PAULA_INT_DSKBLK := 0x0002.
(** C: [src/src/domains/interrupt/interrupt_domain.h]:12-12 [RIGEL_PAULA_INT_SOFT] *)
Definition RIGEL_PAULA_INT_SOFT := 0x0004.
(** C: [src/src/domains/interrupt/interrupt_domain.h]:13-13 [RIGEL_PAULA_INT_PORTS] *)
Definition RIGEL_PAULA_INT_PORTS := 0x0008.
(** C: [src/src/domains/interrupt/interrupt_domain.h]:14-14 [RIGEL_PAULA_INT_COPER] *)
Definition RIGEL_PAULA_INT_COPER := 0x0010.
(** C: [src/src/domains/interrupt/interrupt_domain.h]:15-15 [RIGEL_PAULA_INT_VERTB] *)
Definition RIGEL_PAULA_INT_VERTB := 0x0020.
(** C: [src/src/domains/interrupt/interrupt_domain.h]:16-16 [RIGEL_PAULA_INT_BLIT] *)
Definition RIGEL_PAULA_INT_BLIT := 0x0040.
(** C: [src/src/domains/interrupt/interrupt_domain.h]:17-17 [RIGEL_PAULA_INT_AUD0] *)
Definition RIGEL_PAULA_INT_AUD0 := 0x0080.
(** C: [src/src/domains/interrupt/interrupt_domain.h]:18-18 [RIGEL_PAULA_INT_AUD1] *)
Definition RIGEL_PAULA_INT_AUD1 := 0x0100.
(** C: [src/src/domains/interrupt/interrupt_domain.h]:19-19 [RIGEL_PAULA_INT_AUD2] *)
Definition RIGEL_PAULA_INT_AUD2 := 0x0200.
(** C: [src/src/domains/interrupt/interrupt_domain.h]:20-20 [RIGEL_PAULA_INT_AUD3] *)
Definition RIGEL_PAULA_INT_AUD3 := 0x0400.
(** C: [src/src/domains/interrupt/interrupt_domain.h]:21-21 [RIGEL_PAULA_INT_RBF] *)
Definition RIGEL_PAULA_INT_RBF := 0x0800.
(** C: [src/src/domains/interrupt/interrupt_domain.h]:22-22 [RIGEL_PAULA_INT_DSKSYN] *)
Definition RIGEL_PAULA_INT_DSKSYN := 0x1000.
(** C: [src/src/domains/interrupt/interrupt_domain.h]:23-23 [RIGEL_PAULA_INT_EXTER] *)
Definition RIGEL_PAULA_INT_EXTER := 0x2000.
(** C: [src/src/domains/interrupt/interrupt_domain.h]:24-24 [RIGEL_PAULA_INT_INTEN] *)
Definition RIGEL_PAULA_INT_INTEN := 0x4000.
(** C: [src/src/domains/interrupt/interrupt_domain.h]:25-25 [RIGEL_PAULA_INT_SETCLR] *)
Definition RIGEL_PAULA_INT_SETCLR := 0x8000.

#[export] Hint Unfold RIGEL_PAULA_INT_TBE RIGEL_PAULA_INT_DSKBLK
  RIGEL_PAULA_INT_SOFT RIGEL_PAULA_INT_PORTS RIGEL_PAULA_INT_COPER
  RIGEL_PAULA_INT_VERTB RIGEL_PAULA_INT_BLIT RIGEL_PAULA_INT_AUD0
  RIGEL_PAULA_INT_AUD1 RIGEL_PAULA_INT_AUD2 RIGEL_PAULA_INT_AUD3
  RIGEL_PAULA_INT_RBF RIGEL_PAULA_INT_DSKSYN RIGEL_PAULA_INT_EXTER
  RIGEL_PAULA_INT_INTEN RIGEL_PAULA_INT_SETCLR : consts.

(** ** State and operations *)

(** C: [src/src/domains/interrupt/interrupt_domain.h]:28-32 [RigelInterruptDomain] *)
Record RigelInterruptDomain := mkInterruptDomain {
  intena : Z;
  intreq : Z;
  ipl : Z;
}.

#[export] Instance eta_interrupt : Eta RigelInterruptDomain :=
  fun s => mkInterruptDomain (intena s) (intreq s) (ipl s).

(** C: [src/src/domains/interrupt/interrupt_domain.c] [rigel_interrupt_domain_owns_reg] *)
Definition rigel_interrupt_domain_owns_reg (addr : Z) : bool :=
  (addr =? RIGEL_REG_INTENA) || (addr =? RIGEL_REG_INTREQ) ||
  (addr =? RIGEL_REG_INTENAR) || (addr =? RIGEL_REG_INTREQR).

(** C: [src/src/domains/interrupt/interrupt_domain.c] [rigel_interrupt_domain_compute_ipl] *)
Definition rigel_interrupt_domain_compute_ipl (irq : RigelInterruptDomain) : Z :=
  let pending := u16 (intreq irq .& intena irq) in
  if negb (has (intena irq) RIGEL_PAULA_INT_INTEN) then 0
  else if has pending RIGEL_PAULA_INT_EXTER then 6
  else if has pending (RIGEL_PAULA_INT_DSKSYN .| RIGEL_PAULA_INT_RBF) then 5
  else if has pending (RIGEL_PAULA_INT_AUD0 .| RIGEL_PAULA_INT_AUD1 .|
                       RIGEL_PAULA_INT_AUD2 .| RIGEL_PAULA_INT_AUD3) then 4
  else if has pending (RIGEL_PAULA_INT_BLIT .| RIGEL_PAULA_INT_VERTB .|
                       RIGEL_PAULA_INT_COPER) then 3
  else if has pending RIGEL_PAULA_INT_PORTS then 2
  else if has pending (RIGEL_PAULA_INT_TBE .| RIGEL_PAULA_INT_DSKBLK .|
                       RIGEL_PAULA_INT_SOFT) then 1
  else 0.

(** C: [src/src/domains/interrupt/interrupt_domain.c] [rigel_interrupt_domain_update] *)
Definition rigel_interrupt_domain_update (irq : RigelInterruptDomain) : RigelInterruptDomain :=
  irq <| ipl := rigel_interrupt_domain_compute_ipl irq |>.

(** C: [src/src/domains/interrupt/interrupt_domain.c] [rigel_interrupt_domain_reset] *)
Definition rigel_interrupt_domain_reset (irq : RigelInterruptDomain) : RigelInterruptDomain :=
  irq <| intena := 0 |> <| intreq := 0 |> <| ipl := 0 |>.

(** C: [src/src/domains/interrupt/interrupt_domain.c] [rigel_interrupt_domain_write_intena] *)
Definition rigel_interrupt_domain_write_intena (irq : RigelInterruptDomain) (value : Z) : RigelInterruptDomain :=
  let mask := u16 (value .& 0x7fff) in
  rigel_interrupt_domain_update
    (if has value RIGEL_PAULA_INT_SETCLR
     then irq <| intena := u16 (intena irq .| mask) |>
     else irq <| intena := u16 (intena irq .& u16 (~~ mask)) |>).

(** C: [src/src/domains/interrupt/interrupt_domain.c] [rigel_interrupt_domain_write_intreq] *)
Definition rigel_interrupt_domain_write_intreq (irq : RigelInterruptDomain) (value : Z) : RigelInterruptDomain :=
  let mask := u16 (value .& 0x7fff) in
  rigel_interrupt_domain_update
    (if has value RIGEL_PAULA_INT_SETCLR
     then irq <| intreq := u16 (intreq irq .| mask) |>
     else irq <| intreq := u16 (intreq irq .& u16 (~~ mask)) |>).

(** C: [src/src/domains/interrupt/interrupt_domain.c] [rigel_interrupt_domain_raise] *)
Definition rigel_interrupt_domain_raise (irq : RigelInterruptDomain) (mask : Z) : RigelInterruptDomain :=
  rigel_interrupt_domain_update
    (irq <| intreq := u16 (intreq irq .| (mask .& 0x7fff)) |>).

(** C: [src/src/domains/interrupt/interrupt_domain.c] [rigel_interrupt_domain_clear] *)
Definition rigel_interrupt_domain_clear (irq : RigelInterruptDomain) (mask : Z) : RigelInterruptDomain :=
  rigel_interrupt_domain_update
    (irq <| intreq := u16 (intreq irq .& u16 (~~ (mask .& 0x7fff))) |>).

(** C: [src/src/domains/interrupt/interrupt_domain.c] [rigel_interrupt_domain_read_intena] *)
Definition rigel_interrupt_domain_read_intena (irq : RigelInterruptDomain) : Z := intena irq.

(** C: [src/src/domains/interrupt/interrupt_domain.c] [rigel_interrupt_domain_read_intreq] *)
Definition rigel_interrupt_domain_read_intreq (irq : RigelInterruptDomain) : Z := intreq irq.

(** C: [src/src/domains/interrupt/interrupt_domain.c] [rigel_interrupt_domain_current_ipl] *)
Definition rigel_interrupt_domain_current_ipl (irq : RigelInterruptDomain) : Z := ipl irq.

(** C: [src/src/domains/interrupt/interrupt_domain.c] [rigel_interrupt_domain_pending] *)
Definition rigel_interrupt_domain_pending (irq : RigelInterruptDomain) (mask : Z) : bool :=
  has (intreq irq) mask.

(** C: [src/src/domains/interrupt/interrupt_domain.c] [rigel_interrupt_domain_read_reg] *)
Definition rigel_interrupt_domain_read_reg (irq : RigelInterruptDomain) (addr : Z) : Z :=
  if (addr =? RIGEL_REG_INTENA) || (addr =? RIGEL_REG_INTENAR)
  then rigel_interrupt_domain_read_intena irq
  else if (addr =? RIGEL_REG_INTREQ) || (addr =? RIGEL_REG_INTREQR)
  then rigel_interrupt_domain_read_intreq irq
  else 0.

(** C: [src/src/domains/interrupt/interrupt_domain.c] [rigel_interrupt_domain_write_reg] *)
Definition rigel_interrupt_domain_write_reg (irq : RigelInterruptDomain) (addr value : Z) : RigelInterruptDomain :=
  if addr =? RIGEL_REG_INTENA then rigel_interrupt_domain_write_intena irq value
  else if addr =? RIGEL_REG_INTREQ then rigel_interrupt_domain_write_intreq irq value
  else irq.

(** ** The facade of Paula *)

(** C: [src/src/chipset/paula/paula_interrupts.h]:6-6 [RigelPaulaInterrupts] *)
Definition RigelPaulaInterrupts := RigelInterruptDomain.
(** C: [src/src/chipset/paula/paula_interrupts.c] [rigel_paula_interrupts_reset] *)
Definition rigel_paula_interrupts_reset : RigelPaulaInterrupts -> RigelPaulaInterrupts :=
  rigel_interrupt_domain_reset.
(** C: [src/src/chipset/paula/paula_interrupts.c] [rigel_paula_interrupts_write_intena] *)
Definition rigel_paula_interrupts_write_intena : RigelPaulaInterrupts -> Z -> RigelPaulaInterrupts :=
  rigel_interrupt_domain_write_intena.
(** C: [src/src/chipset/paula/paula_interrupts.c] [rigel_paula_interrupts_write_intreq] *)
Definition rigel_paula_interrupts_write_intreq : RigelPaulaInterrupts -> Z -> RigelPaulaInterrupts :=
  rigel_interrupt_domain_write_intreq.
(** C: [src/src/chipset/paula/paula_interrupts.c] [rigel_paula_interrupts_raise] *)
Definition rigel_paula_interrupts_raise : RigelPaulaInterrupts -> Z -> RigelPaulaInterrupts :=
  rigel_interrupt_domain_raise.
(** C: [src/src/chipset/paula/paula_interrupts.c] [rigel_paula_interrupts_clear] *)
Definition rigel_paula_interrupts_clear : RigelPaulaInterrupts -> Z -> RigelPaulaInterrupts :=
  rigel_interrupt_domain_clear.
(** C: [src/src/chipset/paula/paula_interrupts.c] [rigel_paula_interrupts_current_ipl] *)
Definition rigel_paula_interrupts_current_ipl : RigelPaulaInterrupts -> Z :=
  rigel_interrupt_domain_current_ipl.
(** C: [src/src/chipset/paula/paula_interrupts.c] [rigel_paula_interrupts_pending] *)
Definition rigel_paula_interrupts_pending : RigelPaulaInterrupts -> Z -> bool :=
  rigel_interrupt_domain_pending.

(** ** Specification

    Source [b] (bit [b] of INTREQ) interrupts at level [int_level b]; the
    controller presents the highest level among the sources that are both
    requested and enabled, when the master enable (bit 14) is set. *)

Definition int_levels : list Z := [1; 1; 1; 2; 3; 3; 3; 4; 4; 4; 4; 5; 5; 6].

Definition int_level (b : Z) : Z := default 0 (int_levels !! Z.to_nat b).

Definition source_pending (irq : RigelInterruptDomain) (b : Z) : Prop :=
  Z.testbit (intreq irq) b && Z.testbit (intena irq) b = true.

#[export] Instance source_pending_dec irq b : Decision (source_pending irq b).
Proof. unfold source_pending. apply _. Defined.

Definition ipl_spec (irq : RigelInterruptDomain) : Z :=
  if Z.testbit (intena irq) 14
  then foldr Z.max 0 (int_level <$> filter (source_pending irq) (seqZ 0 14))
  else 0.

(** Everything the chipset does to the controller. *)
Inductive irq_step : relation RigelInterruptDomain :=
  | irq_step_reset s : irq_step s (rigel_paula_interrupts_reset s)
  | irq_step_raise s m : irq_step s (rigel_paula_interrupts_raise s m)
  | irq_step_clear s m : irq_step s (rigel_paula_interrupts_clear s m)
  | irq_step_write s a v :
      irq_step s (rigel_interrupt_domain_write_reg s a v).

Record irq_wf (irq : RigelInterruptDomain) : Prop := mk_irq_wf {
  irq_wf_intena : in_width 15 (intena irq);
  irq_wf_intreq : in_width 15 (intreq irq);
  irq_wf_ipl : ipl irq = rigel_interrupt_domain_compute_ipl irq;
}.

(** ** The priority encoder *)

Lemma foldr_max_intro (l : list Z) (m : Z) :
  0 <= m -> (forall x, x ∈ l -> x <= m) -> m = 0 \/ m ∈ l -> foldr Z.max 0 l = m.
Proof.
  intros Hm Hle Hin. apply Z.le_antisymm.
  - clear Hin. induction l as [|x l IH]; cbn; [done|].
    pose proof (Hle x ltac:(left)). assert (foldr Z.max 0 l <= m); [|lia].
    apply IH. intros y Hy. apply Hle. by right.
  - clear Hle. destruct Hin as [->|Hin].
    + induction l as [|x l IH]; cbn; lia.
    + induction Hin as [x l|x y l Hin IH]; cbn; lia.
Qed.

Lemma has_pending irq m :
  in_width 14 m ->
  has (u16 (intreq irq .& intena irq)) m = true <->
  exists b, 0 <= b < 14 /\ source_pending irq b /\ Z.testbit m b = true.
Proof.
  intros Hm. rewrite has_true. unfold source_pending. split.
  - intros (b & Hb & Hp & Hmb).
    assert (b < 14) by (destruct (decide (b < 14)); [done|];
                        rewrite (testbit_high 14 m) in Hmb by (done || lia); done).
    exists b. split; [lia|]. split; [|done].
    revert Hp. autorewrite with bits. by replace (b <? 16) with true by lia.
  - intros (b & Hb & Hp & Hmb). exists b. split; [lia|]. split; [|done].
    autorewrite with bits. by replace (b <? 16) with true by lia.
Qed.

(** The level of a source lies above [l] exactly when its bit is not in the
    masks of the levels up to [l]. *)
Lemma compute_ipl_level irq b :
  Z.testbit (intena irq) 14 = true -> 0 <= b < 14 -> source_pending irq b ->
  int_level b <= rigel_interrupt_domain_compute_ipl irq.
Proof.
  intros Hen Hb Hp. unfold rigel_interrupt_domain_compute_ipl.
  change RIGEL_PAULA_INT_INTEN with (2 ^ 14). rewrite has_pow2 by lia. rewrite Hen. cbn.
  assert (Hhas : forall m, in_width 14 m -> Z.testbit m b = true ->
                           has (u16 (intreq irq .& intena irq)) m = true).
  { intros m Hm Hbm. apply has_pending; [done|]. by exists b. }
  cases_below b 14; evaluate int_level; repeat case_match; try lia; exfalso;
  match goal with
  | H : has _ ?m = false |- _ =>
      rewrite Hhas in H; [discriminate|closed_range|reflexivity]
  end.
Qed.

Lemma compute_ipl_attained irq :
  Z.testbit (intena irq) 14 = true ->
  rigel_interrupt_domain_compute_ipl irq = 0 \/
  exists b, 0 <= b < 14 /\ source_pending irq b /\
            int_level b = rigel_interrupt_domain_compute_ipl irq.
Proof.
  intros Hen. unfold rigel_interrupt_domain_compute_ipl.
  change RIGEL_PAULA_INT_INTEN with (2 ^ 14). rewrite has_pow2 by lia. rewrite Hen. cbn.
  repeat case_match; try (by left); right;
  match goal with
  | H : has _ ?m = true |- _ =>
      apply has_pending in H as (b & Hb & Hp & Hm);
        [|closed_range];
        exists b; split_and!; [lia|lia|done|];
        revert Hm; cases_below b 14; vm_compute; congruence
  end.
Qed.

(** The cascade, source by source. *)
Lemma compute_ipl_max irq :
  rigel_interrupt_domain_compute_ipl irq = ipl_spec irq.
Proof.
  unfold ipl_spec. destruct (Z.testbit (intena irq) 14) eqn:Hen.
  - symmetry. apply foldr_max_intro.
    + unfold rigel_interrupt_domain_compute_ipl. repeat case_match; lia.
    + intros l (b & -> & Hb)%list_elem_of_fmap.
      apply list_elem_of_filter in Hb as [Hp Hb%elem_of_seqZ].
      by apply compute_ipl_level.
    + destruct (compute_ipl_attained irq Hen) as [->|(b & Hb & Hp & Hl)]; [by left|right].
      apply list_elem_of_fmap. exists b. split; [done|].
      apply list_elem_of_filter. split; [done|]. apply elem_of_seqZ. lia.
  - unfold rigel_interrupt_domain_compute_ipl.
    change RIGEL_PAULA_INT_INTEN with (2 ^ 14). by rewrite has_pow2, Hen by lia.
Qed.

(** C30: the priority encoder refines its specification: the level presented to
    the CPU is the maximum of the levels of the enabled pending sources, and 0
    when the master enable is off or nothing is pending. *)
Theorem compute_ipl_refines_spec irq :
  rigel_interrupt_domain_compute_ipl irq = ipl_spec irq.
Proof. exact (compute_ipl_max irq). Qed.

(** ** The controller's state *)

Lemma update_ext a b :
  intena a = intena b -> intreq a = intreq b ->
  rigel_interrupt_domain_update a = rigel_interrupt_domain_update b.
Proof.
  destruct a, b. cbn. intros -> ->. done.
Qed.

Lemma write_intreq_intreq irq v :
  intreq (rigel_interrupt_domain_write_intreq irq v) = intreq_apply_write (intreq irq) v.
Proof.
  unfold rigel_interrupt_domain_write_intreq, intreq_apply_write, RIGEL_PAULA_INT_SETCLR.
  by destruct (has v _).
Qed.

Lemma write_intena_intena irq v :
  intena (rigel_interrupt_domain_write_intena irq v) = intena_apply_write (intena irq) v.
Proof.
  unfold rigel_interrupt_domain_write_intena, intena_apply_write, RIGEL_PAULA_INT_SETCLR.
  by destruct (has v _).
Qed.

Lemma in_width_15_u16 x : in_width 15 x -> u16 x = x.
Proof. intros H. apply wrap_small, (in_width_mono 15); [done|lia]. Qed.

Lemma in_width_15_mask x : in_width 15 (x .& 0x7fff).
Proof. apply in_width_land_r; [lia|closed_range]. Qed.

Lemma setclr_in_width_15 current v :
  in_width 15 current -> in_width 15 (intreq_apply_write current v).
Proof.
  intros Hc. unfold intreq_apply_write. pose proof (in_width_15_mask v) as Hm.
  rewrite (in_width_15_u16 _ Hm). destruct (has v _).
  - rewrite in_width_15_u16; width.
  - rewrite in_width_15_u16; width.
Qed.

Lemma irq_wf_step s s' : irq_step s s' -> irq_wf s -> irq_wf s'.
Proof.
  intros Hstep [Hena Hreq Hipl]. destruct Hstep as [s|s m|s m|s a v].
  - split; [closed_range|closed_range|done].
  - split; [done| |done]. cbn. pose proof (in_width_15_mask m).
    rewrite in_width_15_u16; width.
  - split; [done| |done]. cbn. rewrite in_width_15_u16; width.
  - unfold rigel_interrupt_domain_write_reg.
    destruct (a =? RIGEL_REG_INTENA); [|destruct (a =? RIGEL_REG_INTREQ); [|by split]].
    + split; [|by unfold rigel_interrupt_domain_write_intena; destruct (has v _)|].
      * rewrite write_intena_intena, intena_apply_write_intreq. by apply setclr_in_width_15.
      * by unfold rigel_interrupt_domain_write_intena; destruct (has v _).
    + split; [by unfold rigel_interrupt_domain_write_intreq; destruct (has v _)| |].
      * rewrite write_intreq_intreq. by apply setclr_in_width_15.
      * by unfold rigel_interrupt_domain_write_intreq; destruct (has v _).
Qed.

(** Whatever sequence of resets, raises, clears and register writes the
    chipset performs after a reset, INTENA and INTREQ hold 15-bit words (the
    SET/CLR bit is never stored) and the cached priority level is the level the
    specification gives for the current registers. *)
Theorem irq_reachable_invariant s0 s :
  rtc irq_step (rigel_paula_interrupts_reset s0) s ->
  in_width 15 (intena s) /\ in_width 15 (intreq s) /\
  rigel_paula_interrupts_current_ipl s = ipl_spec s.
Proof.
  intros Hsteps.
  assert (irq_wf s) as [? ? Hipl].
  { revert Hsteps. apply rtc_ind_r.
    - split; [closed_range|closed_range|done].
    - intros y z _ Hyz. by apply irq_wf_step. }
  split_and!; [done|done|]. rewrite <- compute_ipl_max. exact Hipl.
Qed.

Lemma irq_reachable_invariant_witness :
  rigel_paula_interrupts_current_ipl
    (rigel_paula_interrupts_raise
       (rigel_interrupt_domain_write_intena
          (rigel_paula_interrupts_reset (mkInterruptDomain 7 9 3)) 0xc008) 0x0008) = 2 /\
  rigel_paula_interrupts_current_ipl
    (rigel_paula_interrupts_raise
       (rigel_interrupt_domain_write_reg
          (rigel_paula_interrupts_reset (mkInterruptDomain 7 9 3))
          RIGEL_REG_INTENA 0xc008) 0x0008) =
  ipl_spec
    (rigel_paula_interrupts_raise
       (rigel_interrupt_domain_write_reg
          (rigel_paula_interrupts_reset (mkInterruptDomain 7 9 3))
          RIGEL_REG_INTENA 0xc008) 0x0008).
Proof.
  split; [reflexivity|].
  eapply irq_reachable_invariant with (s0 := mkInterruptDomain 7 9 3).
  eapply rtc_l; [apply irq_step_write|].
  eapply rtc_l; [apply irq_step_raise|]. apply rtc_refl.
Defined.

(** The chips' interface to INTREQ and the CPU's are the same: raising a set
    of sources is the CPU's SET write of that set, clearing it is the CPU's CLR
    write, and a source raised after another does not depend on the order. *)
Theorem raise_clear_are_setclr_writes irq m :
  is_u16 (intreq irq) -> in_width 15 m ->
  rigel_paula_interrupts_raise irq m = rigel_interrupt_domain_write_intreq irq (m .| 0x8000) /\
  rigel_paula_interrupts_clear irq m = rigel_interrupt_domain_write_intreq irq m /\
  forall m', rigel_paula_interrupts_raise (rigel_paula_interrupts_raise irq m) m' =
             rigel_paula_interrupts_raise (rigel_paula_interrupts_raise irq m') m.
Proof.
  intros Hi Hm.
  assert (Hm16 : is_u16 m) by (apply (in_width_mono 15); [done|lia]).
  assert (Hset : has (m .| 0x8000) RIGEL_PAULA_INT_SETCLR = true).
  { change RIGEL_PAULA_INT_SETCLR with (2 ^ 15). rewrite has_pow2, Z.lor_spec by lia.
    apply orb_true_r. }
  assert (Hclr : has m RIGEL_PAULA_INT_SETCLR = false).
  { change RIGEL_PAULA_INT_SETCLR with (2 ^ 15). rewrite has_pow2 by lia.
    by apply (testbit_high 15). }
  unfold rigel_paula_interrupts_raise, rigel_paula_interrupts_clear,
    rigel_interrupt_domain_raise, rigel_interrupt_domain_clear,
    rigel_interrupt_domain_write_intreq. rewrite Hset, Hclr.
  split_and!; [| |intros m']; apply update_ext; cbn; try done; bitwise 16.
Qed.

Lemma raise_clear_are_setclr_writes_witness :
  let irq := mkInterruptDomain 0x4020 0x0010 3 in
  rigel_paula_interrupts_raise irq 0x40 = rigel_interrupt_domain_write_intreq irq (0x40 .| 0x8000).
Proof.
  apply (raise_clear_are_setclr_writes (mkInterruptDomain 0x4020 0x0010 3) 0x40); cbn; closed_range.
Defined.
