(* ===== verification/Cia.v ===== *)
(** * The 8520 complex interface adapters

    [src/cia/]: the state of one CIA and every operation on it.  A CIA reaches
    Paula's interrupt controller through a pointer, so an operation that can
    raise or acknowledge an interrupt works on the pair of the chip and that
    controller ([CiaBoard]); the others work on the chip alone.  The two CIAs
    of the machine share one controller: the caller threads it. *)

From S2P Require Import Prelude Custom Interrupt.

(** C: [src/src/cia/cia.h]:13-30 [CIA_REG_PRA] *)
Inductive CiaReg : Type :=
  | CIA_REG_PRA | CIA_REG_PRB | CIA_REG_DDRA | CIA_REG_DDRB
  | CIA_REG_TALO | CIA_REG_TAHI | CIA_REG_TBLO | CIA_REG_TBHI
  | CIA_REG_TODLO | CIA_REG_TODMID | CIA_REG_TODHI | CIA_REG_UNUSED
  | CIA_REG_SDR | CIA_REG_ICR | CIA_REG_CRA | CIA_REG_CRB.

#[export] Instance CiaReg_eq_dec : EqDecision CiaReg.
Proof. solve_decision. Defined.

(** [switch (reg & 0x0F)]: the register selected by the low four bits.
    C: [src/src/cia/cia.c]:92-92 [cia_read_reg] *)
Definition cia_reg (reg : Z) : CiaReg :=
  default CIA_REG_CRB
    ([CIA_REG_PRA; CIA_REG_PRB; CIA_REG_DDRA; CIA_REG_DDRB;
      CIA_REG_TALO; CIA_REG_TAHI; CIA_REG_TBLO; CIA_REG_TBHI;
      CIA_REG_TODLO; CIA_REG_TODMID; CIA_REG_TODHI; CIA_REG_UNUSED;
      CIA_REG_SDR; CIA_REG_ICR; CIA_REG_CRA; CIA_REG_CRB]
     !! Z.to_nat (reg .& 0x0f)).

(** [switch (reg)] on the unmasked register number.
    C: [src/src/cia/cia_tod.c]:88-88 [cia_tod_read] *)
Definition cia_reg_exact (reg : Z) : CiaReg :=
  if reg .& 0x0f =? reg then cia_reg reg else CIA_REG_UNUSED.

(** C: [src/src/cia/cia.h]:36-36 [CIA_ICR_TA] *)
Definition CIA_ICR_TA := 0x01.
(** C: [src/src/cia/cia.h]:37-37 [CIA_ICR_TB] *)
Definition CIA_ICR_TB := 0x02.
(** C: [src/src/cia/cia.h]:38-38 [CIA_ICR_ALRM] *)
Definition CIA_ICR_ALRM := 0x04.
(** C: [src/src/cia/cia.h]:39-39 [CIA_ICR_SP] *)
Definition CIA_ICR_SP := 0x08.
(** C: [src/src/cia/cia.h]:40-40 [CIA_ICR_FLG] *)
Definition CIA_ICR_FLG := 0x10.
(** C: [src/src/cia/cia.h]:41-41 [CIA_ICR_SETCLR] *)
Definition CIA_ICR_SETCLR := 0x80.

(** C: [src/src/cia/cia.h]:48-48 [CIA_CRA_START] *)
Definition CIA_CRA_START := 0x01.
(** C: [src/src/cia/cia.h]:49-49 [CIA_CRA_PBON] *)
Definition CIA_CRA_PBON := 0x02.
(** C: [src/src/cia/cia.h]:50-50 [CIA_CRA_OUTMODE] *)
Definition CIA_CRA_OUTMODE := 0x04.
(** C: [src/src/cia/cia.h]:51-51 [CIA_CRA_RUNMODE] *)
Definition CIA_CRA_RUNMODE := 0x08.
(** C: [src/src/cia/cia.h]:52-52 [CIA_CRA_LOAD] *)
Definition CIA_CRA_LOAD := 0x10.
(** C: [src/src/cia/cia.h]:53-53 [CIA_CRA_INMODE] *)
Definition CIA_CRA_INMODE := 0x20.
(** C: [src/src/cia/cia.h]:54-54 [CIA_CRA_SPMODE] *)
Definition CIA_CRA_SPMODE := 0x40.

(** C: [src/src/cia/cia.h]:61-61 [CIA_CRB_START] *)
Definition CIA_CRB_START := 0x01.
(** C: [src/src/cia/cia.h]:62-62 [CIA_CRB_PBON] *)
Definition CIA_CRB_PBON := 0x02.
(** C: [src/src/cia/cia.h]:64-64 [CIA_CRB_RUNMODE] *)
Definition CIA_CRB_RUNMODE := 0x08.
(** C: [src/src/cia/cia.h]:65-65 [CIA_CRB_LOAD] *)
Definition CIA_CRB_LOAD := 0x10.
(** C: [src/src/cia/cia.h]:68-68 [CIA_CRB_ALARM] *)
Definition CIA_CRB_ALARM := 0x80.

#[export] Hint Unfold CIA_ICR_TA CIA_ICR_TB CIA_ICR_ALRM CIA_ICR_SP CIA_ICR_FLG
  CIA_ICR_SETCLR CIA_CRA_START CIA_CRA_PBON CIA_CRA_OUTMODE CIA_CRA_RUNMODE
  CIA_CRA_LOAD CIA_CRA_INMODE CIA_CRA_SPMODE CIA_CRB_START CIA_CRB_PBON
  CIA_CRB_RUNMODE CIA_CRB_LOAD CIA_CRB_ALARM : consts.

(** C: [src/src/cia/cia.h]:77-77 [CIA_A_TOD_TICKS_PER_INCREMENT] *)
Definition CIA_A_TOD_TICKS_PER_INCREMENT := 0.
(** C: [src/src/cia/cia.h]:80-80 [CIA_B_TOD_TICKS_PER_INCREMENT] *)
Definition CIA_B_TOD_TICKS_PER_INCREMENT := 0.

(** C: [src/src/cia/cia.h]:86-89 [CIA_ID] *)
Inductive CIA_ID : Type := CIA_PORT_A | CIA_PORT_B.

#[export] Instance CIA_ID_eq_dec : EqDecision CIA_ID.
Proof. solve_decision. Defined.

(** C: [src/src/cia/cia.h]:95-105 [CIA_TOD_State] *)
Record CIA_TOD_State := mkTod {
  tod_counter : Z;
  tod_alarm : Z;
  tod_latch : Z;
  tod_latched : bool;
  tod_stopped : bool;
  tod_subticks : Z;
  tod_ticks_per_inc : Z;
}.

#[export] Instance eta_tod : Eta CIA_TOD_State := fun s =>
  mkTod (tod_counter s) (tod_alarm s) (tod_latch s) (tod_latched s)
    (tod_stopped s) (tod_subticks s) (tod_ticks_per_inc s).

(** The [paula] pointer is only tested against [NULL] and dereferenced for its
    interrupt controller: the field records whether it is attached.
    C: [src/src/cia/cia.h]:111-184 [CIA_State] *)
Record CIA_State := mkCia {
  cia_id : CIA_ID;
  pra : Z; prb : Z; ddra : Z; ddrb : Z;
  ext_pra : Z; ext_prb : Z;
  sdr : Z; sdr_full : Z;
  sp_input_level : Z; sp_output_level : Z; cnt_output_level : Z;
  serial_in_shift : Z; serial_in_bits : Z;
  serial_out_shift : Z; serial_out_bits : Z; serial_out_busy : Z;
  serial_out_buffer : Z; serial_out_buffer_full : Z;
  icr_mask : Z; icr_data : Z;
  cra : Z; crb : Z;
  ta_latch : Z; ta_counter : Z; tb_latch : Z; tb_counter : Z;
  pb_timer_out : Z; pb_pulse_mask : Z;
  cnt_level : Z; flag_level : Z;
  tod : CIA_TOD_State;
  irq_level : Z; paula_irq_bit : Z; paula : bool;
  irq_asserted : Z;
}.

#[export] Instance eta_cia : Eta CIA_State := fun s =>
  mkCia (cia_id s) (pra s) (prb s) (ddra s) (ddrb s) (ext_pra s) (ext_prb s)
    (sdr s) (sdr_full s) (sp_input_level s) (sp_output_level s)
    (cnt_output_level s) (serial_in_shift s) (serial_in_bits s)
    (serial_out_shift s) (serial_out_bits s) (serial_out_busy s)
    (serial_out_buffer s) (serial_out_buffer_full s) (icr_mask s) (icr_data s)
    (cra s) (crb s) (ta_latch s) (ta_counter s) (tb_latch s) (tb_counter s)
    (pb_timer_out s) (pb_pulse_mask s) (cnt_level s) (flag_level s) (tod s)
    (irq_level s) (paula_irq_bit s) (paula s) (irq_asserted s).

(** A CIA and the interrupt controller its [paula] pointer designates. *)
Record CiaBoard := mkBoard { chip : CIA_State; irqs : RigelInterruptDomain }.

#[export] Instance eta_board : Eta CiaBoard := fun s => mkBoard (chip s) (irqs s).

Definition on_chip (f : CIA_State -> CIA_State) (w : CiaBoard) : CiaBoard :=
  w <| chip := f (chip w) |>.

(** ** Interrupts: [cia_interrupt.c] *)

(** C: [src/src/cia/cia_interrupt.c] [cia_irq_pending] *)
Definition cia_irq_pending (c : CIA_State) : bool :=
  negb (icr_data c .& icr_mask c =? 0).

(** C: [src/src/cia/cia_interrupt.c] [cia_compute_ipl] *)
Definition cia_compute_ipl (c : CIA_State) : Z :=
  if cia_irq_pending c then irq_level c else 0.

(** C: [src/src/cia/cia_interrupt.c] [cia_interrupt_sync_irq_line] *)
Definition cia_interrupt_sync_irq_line (w : CiaBoard) : CiaBoard :=
  if negb (paula (chip w)) then w
  else if cia_irq_pending (chip w)
  then w <| irqs := rigel_paula_interrupts_raise (irqs w) (paula_irq_bit (chip w)) |>
         <| chip := (chip w) <| irq_asserted := 1 |> |>
  else w <| irqs := rigel_paula_interrupts_clear (irqs w) (paula_irq_bit (chip w)) |>
         <| chip := (chip w) <| irq_asserted := 0 |> |>.

(** C: [src/src/cia/cia_interrupt.c] [cia_interrupt_reset] *)
Definition cia_interrupt_reset (c : CIA_State) : CIA_State :=
  c <| icr_mask := 0 |> <| icr_data := 0 |> <| irq_asserted := 0 |>.

(** C: [src/src/cia/cia_interrupt.c] [cia_interrupt_raise] *)
Definition cia_interrupt_raise (mask : Z) (w : CiaBoard) : CiaBoard :=
  cia_interrupt_sync_irq_line
    (on_chip (fun c => c <| icr_data := icr_data c .| u8 (mask .& 0x1f) |>) w).

(** C: [src/src/cia/cia_interrupt.c] [cia_interrupt_read_icr] *)
Definition cia_interrupt_read_icr (w : CiaBoard) : Z * CiaBoard :=
  let value := icr_data (chip w) in
  let value := if cia_irq_pending (chip w) then value .| 0x80 else value in
  (value, cia_interrupt_sync_irq_line (on_chip (fun c => c <| icr_data := 0 |>) w)).

(** C: [src/src/cia/cia_interrupt.c] [cia_interrupt_write_icr] *)
Definition cia_interrupt_write_icr (value : Z) (w : CiaBoard) : CiaBoard :=
  cia_interrupt_sync_irq_line
    (on_chip (fun c =>
       if has value CIA_ICR_SETCLR
       then c <| icr_mask := icr_mask c .| u8 (value .& 0x1f) |>
       else c <| icr_mask := icr_mask c .& u8 (~~ (value .& 0x1f)) |>) w).

(** ** Serial port: [cia_serial.c] *)

(** C: [src/src/cia/cia_serial.c] [cia_serial_start_output] *)
Definition cia_serial_start_output (c : CIA_State) : CIA_State :=
  if truthy (serial_out_busy c) || negb (truthy (serial_out_buffer_full c)) then c
  else c <| serial_out_shift := serial_out_buffer c |>
         <| serial_out_bits := 8 |>
         <| serial_out_busy := 1 |>
         <| serial_out_buffer_full := 0 |>.

(** C: [src/src/cia/cia_serial.c] [cia_serial_reset] *)
Definition cia_serial_reset (c : CIA_State) : CIA_State :=
  c <| sdr := 0 |> <| sdr_full := 0 |>
    <| sp_input_level := 1 |> <| sp_output_level := 1 |> <| cnt_output_level := 1 |>
    <| serial_in_shift := 0 |> <| serial_in_bits := 0 |>
    <| serial_out_shift := 0 |> <| serial_out_bits := 0 |> <| serial_out_busy := 0 |>
    <| serial_out_buffer := 0 |> <| serial_out_buffer_full := 0 |>.

(** C: [src/src/cia/cia_serial.c] [cia_serial_set_sp_input] *)
Definition cia_serial_set_sp_input (level : Z) (c : CIA_State) : CIA_State :=
  c <| sp_input_level := if truthy level then 1 else 0 |>.

(** C: [src/src/cia/cia_serial.c] [cia_serial_on_cnt_rising] *)
Definition cia_serial_on_cnt_rising (w : CiaBoard) : CiaBoard :=
  let c := chip w in
  if truthy (serial_out_busy c) || truthy (serial_out_buffer_full c) then w
  else
    let shift := u8 ((serial_in_shift c .<< 1) .| (if truthy (sp_input_level c) then 1 else 0)) in
    let bits := u8 (serial_in_bits c + 1) in
    let c := c <| serial_in_shift := shift |> <| serial_in_bits := bits |> in
    if bits <? 8 then w <| chip := c |>
    else
      let c := c <| sdr := shift |> <| sdr_full := 1 |>
                 <| serial_in_shift := 0 |> <| serial_in_bits := 0 |> in
      cia_interrupt_raise CIA_ICR_SP (w <| chip := c |>).

(** C: [src/src/cia/cia_serial.c] [cia_serial_on_timer_a_underflow] *)
Definition cia_serial_on_timer_a_underflow (w : CiaBoard) : CiaBoard :=
  if negb (has (cra (chip w)) CIA_CRA_SPMODE) then w
  else
    let c := cia_serial_start_output (chip w) in
    if negb (truthy (serial_out_busy c)) then w <| chip := c |>
    else
      let bit := u8 ((serial_out_shift c .>> 7) .& 1) in
      let c := c <| sp_output_level := bit |>
                 <| cnt_output_level := 0 |> <| cnt_output_level := 1 |>
                 <| serial_out_shift := u8 (serial_out_shift c .<< 1) |>
                 <| serial_out_bits := u8 (serial_out_bits c - 1) |> in
      if negb (serial_out_bits c =? 0) then w <| chip := c |>
      else
        let c := c <| serial_out_busy := 0 |> <| sp_output_level := 1 |> in
        on_chip cia_serial_start_output (cia_interrupt_raise CIA_ICR_SP (w <| chip := c |>)).

(** C: [src/src/cia/cia_serial.c] [cia_serial_write_sdr] *)
Definition cia_serial_write_sdr (value : Z) (c : CIA_State) : CIA_State :=
  let c := c <| sdr := value |> in
  if negb (has (cra c) CIA_CRA_SPMODE) then c
  else cia_serial_start_output
         (c <| serial_out_buffer := value |> <| serial_out_buffer_full := 1 |>).

(** Returns whether the byte was accepted.
    C: [src/src/cia/cia_serial.c] [cia_serial_receive_byte] *)
Definition cia_serial_receive_byte (value : Z) (w : CiaBoard) : bool * CiaBoard :=
  if truthy (sdr_full (chip w)) then (false, w)
  else (true, cia_interrupt_raise CIA_ICR_SP
                (on_chip (fun c => c <| sdr := value |> <| sdr_full := 1 |>) w)).

(** C: [src/src/cia/cia_serial.c] [cia_serial_sp_output_level] *)
Definition cia_serial_sp_output_level (c : CIA_State) : Z :=
  if truthy (sp_output_level c) then 1 else 0.

(** C: [src/src/cia/cia_serial.c] [cia_serial_cnt_output_level] *)
Definition cia_serial_cnt_output_level (c : CIA_State) : Z :=
  if truthy (cnt_output_level c) then 1 else 0.

(** ** Timers: [cia_timers.c] *)

(** The counter after [ticks] clock ticks and the number of underflows, as the
    [int] the C function returns.
    C: [src/src/cia/cia_timers.c] [cia_timer_advance] *)
Definition cia_timer_advance (counter latch : Z) (continuous : bool) (ticks : Z) : Z * Z :=
  if ticks =? 0 then (counter, 0)
  else
    let c := counter in
    if ticks <=? c then (u16 (u32 (c - u32 ticks)), 0)
    else
      let ticks := u64 (ticks - (c + 1)) in
      if negb continuous then (0, 1)
      else
        let cycle := latch + 1 in
        let underflows := u64 (1 + ticks / cycle) in
        let rem := u32 (ticks mod cycle) in
        (if rem =? 0 then latch else u16 (latch - rem), i32 underflows).

(** The loop of [cia_timer_advance_events]; [fuel] bounds the iterations, each of
    which consumes at least one event.
    C: [src/src/cia/cia_timers.c]:51-75 [cia_timer_advance_events] *)
Fixpoint advance_events_loop (fuel : nat) (counter latch : Z) (continuous : bool)
    (events underflows : Z) : Z * Z :=
  match fuel with
  | O => (counter, underflows)
  | S fuel =>
      if events =? 0 then (counter, underflows)
      else
        let until_underflow := counter + 1 in
        if events <? until_underflow then (u16 (counter - u16 events), underflows)
        else
          let events := events - until_underflow in
          let underflows := underflows + 1 in
          if negb continuous then (0, underflows)
          else advance_events_loop fuel latch latch continuous events underflows
  end.

(** C: [src/src/cia/cia_timers.c] [cia_timer_advance_events] *)
Definition cia_timer_advance_events (counter latch : Z) (continuous : bool) (events : Z) : Z * Z :=
  advance_events_loop (Z.to_nat events) counter latch continuous events 0.

(** C: [src/src/cia/cia_timers.c] [cia_timers_reset] *)
Definition cia_timers_reset (c : CIA_State) : CIA_State :=
  c <| cra := 0 |> <| crb := 0 |>
    <| ta_latch := 0xffff |> <| ta_counter := 0xffff |>
    <| tb_latch := 0xffff |> <| tb_counter := 0xffff |>
    <| pb_timer_out := 0xc0 |> <| pb_pulse_mask := 0 |>.

(** C: [src/src/cia/cia_timers.c] [cia_timer_apply_underflow_output] *)
Definition cia_timer_apply_underflow_output (control underflows : Z) (c : CIA_State) : CIA_State :=
  let mask := if control =? cra c then 0x40 else 0x80 in
  if negb (has control CIA_CRA_PBON) then c
  else if has control CIA_CRA_OUTMODE then
    let c := if has underflows 1
             then c <| pb_timer_out := pb_timer_out c .^ mask |> else c in
    c <| pb_pulse_mask := pb_pulse_mask c .& u8 (~~ mask) |>
  else
    c <| pb_timer_out := pb_timer_out c .& u8 (~~ mask) |>
      <| pb_pulse_mask := pb_pulse_mask c .| mask |>.

(** C: [src/src/cia/cia_timers.c] [cia_timers_advance_pb_outputs] *)
Definition cia_timers_advance_pb_outputs (c : CIA_State) : CIA_State :=
  let c := if has (pb_pulse_mask c) 0x40
           then c <| pb_timer_out := pb_timer_out c .| 0x40 |> else c in
  let c := if has (pb_pulse_mask c) 0x80
           then c <| pb_timer_out := pb_timer_out c .| 0x80 |> else c in
  c <| pb_pulse_mask := 0 |>.

(** The block both [cia_timers_step] and [cia_timers_count_cnt] execute when
    timer A has underflowed [uf_a] times.
    C: [src/src/cia/cia_timers.c]:135-144 [cia_timers_step] *)
Definition timer_a_underflowed (uf_a : Z) (w : CiaBoard) : CiaBoard :=
  if uf_a >? 0 then
    let w := cia_interrupt_raise CIA_ICR_TA w in
    let w := on_chip (fun c => cia_timer_apply_underflow_output (cra c) uf_a c) w in
    let w := Nat.iter (Z.to_nat uf_a) cia_serial_on_timer_a_underflow w in
    if has (cra (chip w)) CIA_CRA_RUNMODE
    then on_chip (fun c => c <| cra := cra c .& u8 (~~ CIA_CRA_START) |>) w
    else w
  else w.

(** Likewise for timer B.
    C: [src/src/cia/cia_timers.c]:169-176 [cia_timers_step] *)
Definition timer_b_underflowed (uf_b : Z) (w : CiaBoard) : CiaBoard :=
  if uf_b >? 0 then
    let w := cia_interrupt_raise CIA_ICR_TB w in
    let w := on_chip (fun c => cia_timer_apply_underflow_output (crb c) uf_b c) w in
    if has (crb (chip w)) CIA_CRB_RUNMODE
    then on_chip (fun c => c <| crb := crb c .& u8 (~~ CIA_CRB_START) |>) w
    else w
  else w.

(** C: [src/src/cia/cia_timers.c] [cia_timers_step] *)
Definition cia_timers_step (ticks : Z) (w : CiaBoard) : CiaBoard :=
  if ticks =? 0 then w
  else
    let '(w, uf_a) :=
      let c := chip w in
      if has (cra c) CIA_CRA_START && negb (has (cra c) CIA_CRA_INMODE) then
        let continuous := negb (has (cra c) CIA_CRA_RUNMODE) in
        let '(counter, uf_a) := cia_timer_advance (ta_counter c) (ta_latch c) continuous ticks in
        (timer_a_underflowed uf_a (on_chip (fun c => c <| ta_counter := counter |>) w), uf_a)
      else (w, 0) in
    let c := chip w in
    if has (crb c) CIA_CRB_START then
      let inmode := u8 ((crb c .>> 5) .& 3) in
      let continuous := negb (has (crb c) CIA_CRB_RUNMODE) in
      let '(counter, uf_b) :=
        if inmode =? 0 then
          cia_timer_advance (tb_counter c) (tb_latch c) continuous ticks
        else if ((inmode =? 2) || (inmode =? 3)) && (uf_a >? 0) &&
                (negb (inmode =? 3) || truthy (cnt_level c)) then
          cia_timer_advance_events (tb_counter c) (tb_latch c) continuous (u32 uf_a)
        else (tb_counter c, 0) in
      timer_b_underflowed uf_b (on_chip (fun c => c <| tb_counter := counter |>) w)
    else w.

(** C: [src/src/cia/cia_timers.c] [cia_timers_count_cnt] *)
Definition cia_timers_count_cnt (pulses : Z) (w : CiaBoard) : CiaBoard :=
  if pulses =? 0 then w
  else
    let '(w, uf_a) :=
      let c := chip w in
      if has (cra c) CIA_CRA_START && has (cra c) CIA_CRA_INMODE then
        let continuous := negb (has (cra c) CIA_CRA_RUNMODE) in
        let '(counter, uf_a) :=
          cia_timer_advance_events (ta_counter c) (ta_latch c) continuous pulses in
        (timer_a_underflowed uf_a (on_chip (fun c => c <| ta_counter := counter |>) w), uf_a)
      else (w, 0) in
    let c := chip w in
    if has (crb c) CIA_CRB_START then
      let inmode := u8 ((crb c .>> 5) .& 3) in
      let continuous := negb (has (crb c) CIA_CRB_RUNMODE) in
      let '(counter, uf_b) :=
        if inmode =? 1 then
          cia_timer_advance_events (tb_counter c) (tb_latch c) continuous pulses
        else if (inmode =? 3) && (uf_a >? 0) then
          cia_timer_advance_events (tb_counter c) (tb_latch c) continuous (u32 uf_a)
        else (tb_counter c, 0) in
      timer_b_underflowed uf_b (on_chip (fun c => c <| tb_counter := counter |>) w)
    else w.

(** [None] when the register is not a timer register (the C function returns 0).
    C: [src/src/cia/cia_timers.c] [cia_timers_read_reg] *)
Definition cia_timers_read_reg (c : CIA_State) (reg : Z) : option Z :=
  match cia_reg reg with
  | CIA_REG_TALO => Some (u8 (ta_counter c .& 0x00ff))
  | CIA_REG_TAHI => Some (u8 ((ta_counter c .>> 8) .& 0x00ff))
  | CIA_REG_TBLO => Some (u8 (tb_counter c .& 0x00ff))
  | CIA_REG_TBHI => Some (u8 ((tb_counter c .>> 8) .& 0x00ff))
  | CIA_REG_CRA => Some (cra c)
  | CIA_REG_CRB => Some (crb c)
  | _ => None
  end.

(** C: [src/src/cia/cia_timers.c] [cia_timers_write_reg] *)
Definition cia_timers_write_reg (reg val : Z) (c : CIA_State) : CIA_State :=
  match cia_reg reg with
  | CIA_REG_TALO => c <| ta_latch := u16 ((ta_latch c .& 0xff00) .| val) |>
  | CIA_REG_TAHI =>
      let c := c <| ta_latch := u16 ((ta_latch c .& 0x00ff) .| (val .<< 8)) |> in
      if negb (has (cra c) CIA_CRA_START) then
        let c := c <| ta_counter := ta_latch c |> in
        if has (cra c) CIA_CRA_RUNMODE
        then c <| cra := u8 (cra c .| CIA_CRA_START) |> else c
      else c
  | CIA_REG_TBLO => c <| tb_latch := u16 ((tb_latch c .& 0xff00) .| val) |>
  | CIA_REG_TBHI =>
      let c := c <| tb_latch := u16 ((tb_latch c .& 0x00ff) .| (val .<< 8)) |> in
      if negb (has (crb c) CIA_CRB_START) then
        let c := c <| tb_counter := tb_latch c |> in
        if has (crb c) CIA_CRB_RUNMODE
        then c <| crb := u8 (crb c .| CIA_CRB_START) |> else c
      else c
  | CIA_REG_CRA =>
      let c := c <| cra := u8 (val .& u8 (~~ CIA_CRA_LOAD)) |> in
      let c := if has (cra c) CIA_CRA_PBON
               then c <| pb_timer_out := u8 (pb_timer_out c .| 0x40) |> else c in
      if has val CIA_CRA_LOAD then c <| ta_counter := ta_latch c |> else c
  | CIA_REG_CRB =>
      let c := c <| crb := u8 (val .& u8 (~~ CIA_CRB_LOAD)) |> in
      let c := if has (crb c) CIA_CRB_PBON
               then c <| pb_timer_out := u8 (pb_timer_out c .| 0x80) |> else c in
      if has val CIA_CRB_LOAD then c <| tb_counter := tb_latch c |> else c
  | _ => c
  end.

(** ** Time of day: [cia_tod.c] *)

(** C: [src/src/cia/cia_tod.c] [cia_tod_lo] *)
Definition cia_tod_lo (v : Z) : Z := u8 (v .& 0xff).
(** C: [src/src/cia/cia_tod.c] [cia_tod_mid] *)
Definition cia_tod_mid (v : Z) : Z := u8 ((v .>> 8) .& 0xff).
(** C: [src/src/cia/cia_tod.c] [cia_tod_hi] *)
Definition cia_tod_hi (v : Z) : Z := u8 ((v .>> 16) .& 0xff).

(** C: [src/src/cia/cia_tod.c] [cia_tod_raise_alarm] *)
Definition cia_tod_raise_alarm (w : CiaBoard) : CiaBoard := cia_interrupt_raise CIA_ICR_ALRM w.

Definition on_tod (f : CIA_TOD_State -> CIA_TOD_State) (c : CIA_State) : CIA_State :=
  c <| tod := f (tod c) |>.

(** C: [src/src/cia/cia_tod.c] [cia_tod_reset] *)
Definition cia_tod_reset (ticks_per_inc : Z) (t : CIA_TOD_State) : CIA_TOD_State :=
  t <| tod_counter := 0 |> <| tod_alarm := 0x00ffff |> <| tod_latch := 0 |>
    <| tod_latched := false |> <| tod_stopped := false |> <| tod_subticks := 0 |>
    <| tod_ticks_per_inc := ticks_per_inc |>.

(** One turn of the loop of [cia_tod_increment].
    C: [src/src/cia/cia_tod.c]:52-57 [cia_tod_increment] *)
Definition cia_tod_increment1 (w : CiaBoard) : CiaBoard :=
  let w := on_chip (on_tod (fun t =>
             t <| tod_counter := u32 (tod_counter t + 1) .& 0x00ffffff |>)) w in
  if tod_counter (tod (chip w)) =? tod_alarm (tod (chip w))
  then cia_tod_raise_alarm w else w.

(** C: [src/src/cia/cia_tod.c] [cia_tod_increment] *)
Definition cia_tod_increment (increments : Z) (w : CiaBoard) : CiaBoard :=
  Nat.iter (Z.to_nat increments) cia_tod_increment1 w.

(** C: [src/src/cia/cia_tod.c] [cia_tod_step] *)
Definition cia_tod_step (ticks : Z) (w : CiaBoard) : CiaBoard :=
  let t := tod (chip w) in
  if (ticks =? 0) || (tod_ticks_per_inc t =? 0) || tod_stopped t then w
  else
    let subticks := u32 (tod_subticks t + u32 ticks) in
    if tod_ticks_per_inc t <=? subticks then
      let inc := subticks / tod_ticks_per_inc t in
      cia_tod_increment inc
        (on_chip (on_tod (fun t => t <| tod_subticks := subticks mod tod_ticks_per_inc t |>)) w)
    else on_chip (on_tod (fun t => t <| tod_subticks := subticks |>)) w.

(** C: [src/src/cia/cia_tod.c] [cia_tod_pulse] *)
Definition cia_tod_pulse (pulses : Z) (w : CiaBoard) : CiaBoard :=
  if pulses =? 0 then w else cia_tod_increment pulses w.

(** C: [src/src/cia/cia_tod.c] [cia_tod_read] *)
Definition cia_tod_read (reg : Z) (c : CIA_State) : Z * CIA_State :=
  match cia_reg_exact reg with
  | CIA_REG_TODLO =>
      if tod_latched (tod c)
      then (cia_tod_lo (tod_latch (tod c)), on_tod (fun t => t <| tod_latched := false |>) c)
      else (cia_tod_lo (tod_counter (tod c)), c)
  | CIA_REG_TODMID =>
      if tod_latched (tod c) then (cia_tod_mid (tod_latch (tod c)), c)
      else (cia_tod_mid (tod_counter (tod c)), c)
  | CIA_REG_TODHI =>
      (cia_tod_hi (tod_counter (tod c)),
       on_tod (fun t => t <| tod_latch := tod_counter t |> <| tod_latched := true |>) c)
  | _ => (0xff, c)
  end.

(** The value stored by a write of one byte of a TOD register.
    C: [src/src/cia/cia_tod.c]:124-142 [cia_tod_write] *)
Definition tod_write_byte (reg : CiaReg) (target val : Z) : Z :=
  match reg with
  | CIA_REG_TODLO => (target .& 0xffff00) .| val
  | CIA_REG_TODMID => (target .& 0xff00ff) .| (val .<< 8)
  | CIA_REG_TODHI => (target .& 0x00ffff) .| (val .<< 16)
  | _ => target
  end.

(** C: [src/src/cia/cia_tod.c] [cia_tod_write] *)
Definition cia_tod_write (reg val : Z) (c : CIA_State) : CIA_State :=
  let alarm := has (crb c) CIA_CRB_ALARM in
  if alarm then
    on_tod (fun t => t <| tod_alarm := tod_write_byte (cia_reg_exact reg) (tod_alarm t) val |>) c
  else
    let c := on_tod (fun t => t <| tod_stopped := true |>) c in
    let c := on_tod (fun t =>
               t <| tod_counter := tod_write_byte (cia_reg_exact reg) (tod_counter t) val |>) c in
    if decide (cia_reg_exact reg = CIA_REG_TODLO)
    then on_tod (fun t => t <| tod_stopped := false |>) c else c.

(** ** Ports: [cia_ports.c] *)

(** C: [src/src/cia/cia_ports.c] [cia_ports_reset] *)
Definition cia_ports_reset (c : CIA_State) : CIA_State :=
  c <| pra := 0xff |> <| prb := 0xff |> <| ddra := 0 |> <| ddrb := 0 |>
    <| ext_pra := 0xff |> <| ext_prb := 0xff |>.

(** C: [src/src/cia/cia_ports.c] [cia_ports_apply_defaults] *)
Definition cia_ports_apply_defaults (c : CIA_State) : CIA_State :=
  match cia_id c with
  | CIA_PORT_A | CIA_PORT_B => c <| ext_pra := 0xff |> <| ext_prb := 0xff |>
  end.

(** C: [src/src/cia/cia_ports.c] [cia_set_external_pra] *)
Definition cia_set_external_pra (value : Z) (c : CIA_State) : CIA_State :=
  c <| ext_pra := value |>.

(** C: [src/src/cia/cia_ports.c] [cia_set_external_prb] *)
Definition cia_set_external_prb (value : Z) (c : CIA_State) : CIA_State :=
  c <| ext_prb := value |>.

(** C: [src/src/cia/cia_ports.c] [cia_set_sp_level] *)
Definition cia_set_sp_level (level : Z) (c : CIA_State) : CIA_State :=
  cia_serial_set_sp_input level c.

(** C: [src/src/cia/cia_ports.c] [cia_set_cnt_level] *)
Definition cia_set_cnt_level (level : Z) (w : CiaBoard) : CiaBoard :=
  let new_level := if truthy level then 1 else 0 in
  let old_level := cnt_level (chip w) in
  let w := on_chip (fun c => c <| cnt_level := new_level |>) w in
  if negb (truthy old_level) && truthy new_level
  then cia_timers_count_cnt 1 (cia_serial_on_cnt_rising w)
  else w.

(** C: [src/src/cia/cia_ports.c] [cia_set_flag_level] *)
Definition cia_set_flag_level (level : Z) (w : CiaBoard) : CiaBoard :=
  let new_level := if truthy level then 1 else 0 in
  let old_level := flag_level (chip w) in
  let w := on_chip (fun c => c <| flag_level := new_level |>) w in
  if truthy old_level && negb (truthy new_level)
  then cia_interrupt_raise CIA_ICR_FLG w
  else w.

(** C: [src/src/cia/cia_ports.c] [cia_pulse_cnt] *)
Definition cia_pulse_cnt (pulses : Z) (w : CiaBoard) : CiaBoard :=
  cia_timers_count_cnt pulses w.

(** C: [src/src/cia/cia_ports.c] [cia_port_a_value] *)
Definition cia_port_a_value (c : CIA_State) : Z :=
  match cia_id c with
  | CIA_PORT_A =>
      let low := u8 ((pra c .& ddra c .& 0x03) .|
                     (ext_pra c .& u8 (~~ (ddra c)) .& 0x03)) in
      u8 (low .| (ext_pra c .& 0xfc))
  | CIA_PORT_B => u8 ((pra c .& ddra c) .| (ext_pra c .& u8 (~~ (ddra c))))
  end.

(** C: [src/src/cia/cia_ports.c] [cia_port_b_value] *)
Definition cia_port_b_value (c : CIA_State) : Z :=
  let value := u8 ((prb c .& ddrb c) .| (ext_prb c .& u8 (~~ (ddrb c)))) in
  let value :=
    if has (cra c) CIA_CRA_PBON then
      if has (pb_timer_out c) 0x40 then value .| 0x40 else value .& u8 (~~ 0x40)
    else value in
  if has (crb c) CIA_CRB_PBON then
    if has (pb_timer_out c) 0x80 then value .| 0x80 else value .& u8 (~~ 0x80)
  else value.

(** C: [src/src/cia/cia_ports.c] [cia_ports_read_reg] *)
Definition cia_ports_read_reg (c : CIA_State) (reg : Z) : option Z :=
  match cia_reg reg with
  | CIA_REG_PRA => Some (cia_port_a_value c)
  | CIA_REG_PRB => Some (cia_port_b_value c)
  | CIA_REG_DDRA => Some (ddra c)
  | CIA_REG_DDRB => Some (ddrb c)
  | _ => None
  end.

(** C: [src/src/cia/cia_ports.c] [cia_ports_write_reg] *)
Definition cia_ports_write_reg (reg value : Z) (c : CIA_State) : CIA_State :=
  match cia_reg reg with
  | CIA_REG_PRA => c <| pra := value |>
  | CIA_REG_PRB => c <| prb := value |>
  | CIA_REG_DDRA => c <| ddra := value |>
  | CIA_REG_DDRB => c <| ddrb := value |>
  | _ => c
  end.

(** ** The chip: [cia.c] *)

(** C: [src/src/cia/cia.c] [cia_reset_core_state] *)
Definition cia_reset_core_state (c : CIA_State) : CIA_State :=
  let c := cia_ports_reset c in
  let c := c <| cnt_level := 1 |> <| flag_level := 1 |> in
  let c := cia_serial_reset c in
  cia_timers_reset (cia_interrupt_reset c).

(** C: [src/src/cia/cia.c] [cia_reset] *)
Definition cia_reset (w : CiaBoard) : CiaBoard :=
  let saved := chip w in
  let c := cia_reset_core_state saved in
  let c := c <| cia_id := cia_id saved |> <| irq_level := irq_level saved |>
             <| paula_irq_bit := paula_irq_bit saved |> <| paula := paula saved |> in
  let c := on_tod (cia_tod_reset
             (if decide (cia_id c = CIA_PORT_A) then CIA_A_TOD_TICKS_PER_INCREMENT
              else CIA_B_TOD_TICKS_PER_INCREMENT)) c in
  cia_interrupt_sync_irq_line (w <| chip := cia_ports_apply_defaults c |>).

(** The all-zero state [memset] leaves; [CIA_PORT_A] is the zero of its enum. *)
Definition cia_zero : CIA_State :=
  mkCia CIA_PORT_A 0 0 0 0 0 0 0 0 0 0 0 0 0 0 0 0 0 0 0 0 0 0 0 0 0 0 0 0 0 0
    (mkTod 0 0 0 false false 0 0) 0 0 false 0.

(** C: [src/src/cia/cia.c] [cia_init] *)
Definition cia_init (id : CIA_ID) (w : CiaBoard) : CiaBoard :=
  let c := cia_zero in
  let c := c <| cia_id := id |>
             <| irq_level := if decide (id = CIA_PORT_A) then 2 else 6 |>
             <| paula_irq_bit := if decide (id = CIA_PORT_A)
                                 then u16 RIGEL_PAULA_INT_PORTS else u16 RIGEL_PAULA_INT_EXTER |>
             <| paula := false |> in
  cia_reset (w <| chip := c |>).

(** C: [src/src/cia/cia.c] [cia_attach_paula] *)
Definition cia_attach_paula (w : CiaBoard) : CiaBoard :=
  cia_interrupt_sync_irq_line (on_chip (fun c => c <| paula := true |>) w).

(** C: [src/src/cia/cia.c] [cia_step] *)
Definition cia_step (ticks : Z) (w : CiaBoard) : CiaBoard :=
  cia_tod_step ticks (cia_timers_step ticks (on_chip cia_timers_advance_pb_outputs w)).

(** C: [src/src/cia/cia.c] [cia_read_reg] *)
Definition cia_read_reg (reg : Z) (w : CiaBoard) : Z * CiaBoard :=
  match cia_reg reg with
  | CIA_REG_PRA | CIA_REG_PRB | CIA_REG_DDRA | CIA_REG_DDRB =>
      (default 0xff (cia_ports_read_reg (chip w) reg), w)
  | CIA_REG_TALO | CIA_REG_TAHI | CIA_REG_TBLO | CIA_REG_TBHI
  | CIA_REG_CRA | CIA_REG_CRB =>
      (default 0xff (cia_timers_read_reg (chip w) reg), w)
  | CIA_REG_TODLO | CIA_REG_TODMID | CIA_REG_TODHI =>
      let '(v, c) := cia_tod_read (reg .& 0x0f) (chip w) in (v, w <| chip := c |>)
  | CIA_REG_UNUSED => (0xff, w)
  | CIA_REG_SDR => (sdr (chip w), on_chip (fun c => c <| sdr_full := 0 |>) w)
  | CIA_REG_ICR => cia_interrupt_read_icr w
  end.

(** C: [src/src/cia/cia.c] [cia_receive_sdr] *)
Definition cia_receive_sdr (val : Z) (w : CiaBoard) : bool * CiaBoard :=
  cia_serial_receive_byte val w.

(** C: [src/src/cia/cia.c] [cia_write_reg] *)
Definition cia_write_reg (reg val : Z) (w : CiaBoard) : CiaBoard :=
  match cia_reg reg with
  | CIA_REG_PRA | CIA_REG_PRB | CIA_REG_DDRA | CIA_REG_DDRB =>
      on_chip (cia_ports_write_reg reg val) w
  | CIA_REG_TALO | CIA_REG_TAHI | CIA_REG_TBLO | CIA_REG_TBHI
  | CIA_REG_CRA | CIA_REG_CRB =>
      on_chip (cia_timers_write_reg reg val) w
  | CIA_REG_TODLO | CIA_REG_TODMID | CIA_REG_TODHI =>
      on_chip (cia_tod_write (reg .& 0x0f) val) w
  | CIA_REG_UNUSED => w
  | CIA_REG_SDR => on_chip (cia_serial_write_sdr val) w
  | CIA_REG_ICR => cia_interrupt_write_icr val w
  end.
