(* ===== verification/CiaFacts.v ===== *)
(** * Invariants of a CIA

    The type invariant of the registers and the coupling of the CIA's interrupt
    state with Paula's INTREQ, preserved by every operation of the chip. *)

From S2P Require Import Prelude Custom Interrupt Cia.

(** ** The type invariant *)

Record tod_wf (t : CIA_TOD_State) : Prop := mk_tod_wf {
  wf_tod_counter : in_width 24 (tod_counter t);
  wf_tod_alarm : in_width 24 (tod_alarm t);
  wf_tod_latch : in_width 24 (tod_latch t);
  wf_tod_subticks : is_u32 (tod_subticks t);
  wf_tod_ticks_per_inc : is_u32 (tod_ticks_per_inc t);
}.

Record cia_wf (c : CIA_State) : Prop := mk_cia_wf {
  wf_pra : is_u8 (pra c); wf_prb : is_u8 (prb c);
  wf_ddra : is_u8 (ddra c); wf_ddrb : is_u8 (ddrb c);
  wf_ext_pra : is_u8 (ext_pra c); wf_ext_prb : is_u8 (ext_prb c);
  wf_sdr : is_u8 (sdr c); wf_sdr_full : in_width 1 (sdr_full c);
  wf_sp_input : in_width 1 (sp_input_level c);
  wf_sp_output : in_width 1 (sp_output_level c);
  wf_cnt_output : in_width 1 (cnt_output_level c);
  wf_in_shift : is_u8 (serial_in_shift c);
  wf_in_bits : in_width 3 (serial_in_bits c);
  wf_out_shift : is_u8 (serial_out_shift c);
  wf_out_bits :
    (serial_out_busy c = 0 /\ serial_out_bits c = 0) \/
    (serial_out_busy c = 1 /\ 1 <= serial_out_bits c <= 8);
  wf_out_buffer : is_u8 (serial_out_buffer c);
  wf_out_full : in_width 1 (serial_out_buffer_full c);
  wf_icr_mask : in_width 5 (icr_mask c); wf_icr_data : in_width 5 (icr_data c);
  wf_cra : is_u8 (cra c); wf_crb : is_u8 (crb c);
  wf_ta_latch : is_u16 (ta_latch c); wf_ta_counter : is_u16 (ta_counter c);
  wf_tb_latch : is_u16 (tb_latch c); wf_tb_counter : is_u16 (tb_counter c);
  wf_pb_out : is_u8 (pb_timer_out c); wf_pb_pulse : is_u8 (pb_pulse_mask c);
  wf_cnt : in_width 1 (cnt_level c); wf_flag : in_width 1 (flag_level c);
  wf_tod : tod_wf (tod c);
  wf_irq_bit : paula_irq_bit c =
    if decide (cia_id c = CIA_PORT_A) then RIGEL_PAULA_INT_PORTS else RIGEL_PAULA_INT_EXTER;
  wf_asserted : in_width 1 (irq_asserted c);
}.

#[export] Hint Resolve wf_tod_counter wf_tod_alarm wf_tod_latch wf_tod_subticks
  wf_tod_ticks_per_inc : width.

(** What the interrupt line depends on. *)
Definition irq_view (c : CIA_State) : Z * Z * Z * bool * Z :=
  (icr_data c, icr_mask c, irq_asserted c, paula c, paula_irq_bit c).

(** Proves [cia_wf] of an updated state from that of the old one. *)
Ltac wf_update :=
  match goal with
  | H : cia_wf ?c |- cia_wf _ => destruct H; constructor; cbn in *; autounfold with consts in *;
      try assumption; try lia; try solve [eauto 8 with width];
      try solve [constructor; cbn; eauto 8 with width]
  end.

(** Whether other chips leave the CIA's source of INTREQ alone: the CPU may clear
    it, and then the level is only restored by the next change in the CIA. *)
Section coupling.
Context {private : bool}.

(** When the CIA is wired to Paula, [irq_asserted] is set exactly while an enabled
    interrupt is pending, and so is its source if nothing else writes it. *)
Definition line_ok (w : CiaBoard) : Prop :=
  paula (chip w) = true ->
  irq_asserted (chip w) = b2u (cia_irq_pending (chip w)) /\
  (private = true ->
   rigel_paula_interrupts_pending (irqs w) (paula_irq_bit (chip w)) = cia_irq_pending (chip w)).

Definition cia_ok (w : CiaBoard) : Prop :=
  cia_wf (chip w) /\ irq_wf (irqs w) /\ line_ok w.

(** ** The interrupt line *)

Lemma pending_irq_bit c :
  cia_wf c -> forall irq, rigel_paula_interrupts_pending irq (paula_irq_bit c) =
    Z.testbit (intreq irq) (if decide (cia_id c = CIA_PORT_A) then 3 else 13).
Proof.
  intros Hc irq. rewrite (wf_irq_bit c Hc). unfold rigel_paula_interrupts_pending,
    rigel_interrupt_domain_pending.
  case_decide; [apply (has_pow2 _ 3)|apply (has_pow2 _ 13)]; lia.
Qed.

Lemma sync_irq_line_ok w :
  cia_wf (chip w) -> irq_wf (irqs w) -> cia_ok (cia_interrupt_sync_irq_line w).
Proof.
  intros Hc Hi. unfold cia_interrupt_sync_irq_line.
  destruct (paula (chip w)) eqn:Hp; cbn;
    [|split; [done|split; [done|intros Hp'; congruence]]].
  destruct (cia_irq_pending (chip w)) eqn:Hpend; cbn.
  - assert (Hc' : cia_wf ((chip w) <| irq_asserted := 1 |>)) by wf_update.
    split_and!; [done|by eapply irq_wf_step; [apply irq_step_raise|]|].
    intros _. cbn. change (cia_irq_pending _) with (cia_irq_pending (chip w)).
    rewrite Hpend. split; [done|intros _]. etransitivity; [by apply (pending_irq_bit (chip w))|].
    cbn. rewrite (wf_irq_bit _ Hc). case_decide; autounfold with consts;
      autorewrite with bits; literal_bits; cbn; btauto.
  - assert (Hc' : cia_wf ((chip w) <| irq_asserted := 0 |>)) by wf_update.
    split_and!; [done|by eapply irq_wf_step; [apply irq_step_clear|]|].
    intros _. cbn. change (cia_irq_pending _) with (cia_irq_pending (chip w)).
    rewrite Hpend. split; [done|intros _]. etransitivity; [by apply (pending_irq_bit (chip w))|].
    cbn. rewrite (wf_irq_bit _ Hc). case_decide; autounfold with consts;
      autorewrite with bits; literal_bits; cbn; btauto.
Qed.

Lemma set_chip_ok c w :
  cia_wf c -> irq_view c = irq_view (chip w) -> cia_ok w -> cia_ok (w <| chip := c |>).
Proof.
  intros Hc Hv (Hw & Hi & Hl). split_and!; [done|done|].
  unfold irq_view, line_ok, cia_irq_pending in *. cbn.
  injection Hv as -> -> -> -> ->. done.
Qed.

Lemma on_chip_ok f w :
  (forall c, cia_wf c -> cia_wf (f c)) -> (forall c, irq_view (f c) = irq_view c) ->
  cia_ok w -> cia_ok (on_chip f w).
Proof. intros Hf Hv Hw. apply set_chip_ok; [apply Hf, Hw|apply Hv|done]. Qed.

Lemma raise_ok m w : cia_ok w -> cia_ok (cia_interrupt_raise m w).
Proof.
  intros (Hc & Hi & _). apply sync_irq_line_ok; [|done]. cbn.
  assert (in_width 5 (u8 (m .& 0x1f))).
  { assert (in_width 5 (m .& 0x1f)) by (apply in_width_land_r; [lia|closed_range]).
    rewrite wrap_small; [done|]. by apply (in_width_mono 5). }
  wf_update.
Qed.

Lemma read_icr_ok w : cia_ok w -> cia_ok (cia_interrupt_read_icr w).2.
Proof. intros (Hc & Hi & _). apply sync_irq_line_ok; [|done]. cbn. wf_update. Qed.

Lemma write_icr_ok v w : cia_ok w -> cia_ok (cia_interrupt_write_icr v w).
Proof.
  intros (Hc & Hi & _). apply sync_irq_line_ok; [|done]. cbn.
  assert (in_width 5 (u8 (v .& 0x1f))).
  { assert (in_width 5 (v .& 0x1f)) by (apply in_width_land_r; [lia|closed_range]).
    rewrite wrap_small; [done|]. by apply (in_width_mono 5). }
  destruct (has v _); wf_update.
Qed.

(** ** The serial port *)

Lemma start_output_wf c : cia_wf c -> cia_wf (cia_serial_start_output c).
Proof.
  intros Hc. unfold cia_serial_start_output.
  destruct (truthy (serial_out_busy c)) eqn:Hb; cbn; [done|].
  destruct (truthy (serial_out_buffer_full c)); cbn; [|done]. wf_update.
Qed.

Lemma start_output_view c : irq_view (cia_serial_start_output c) = irq_view c.
Proof. unfold cia_serial_start_output. by destruct (_ || _). Qed.

Lemma cnt_rising_ok w : cia_ok w -> cia_ok (cia_serial_on_cnt_rising w).
Proof.
  intros Hw. pose proof Hw as (Hc & _). unfold cia_serial_on_cnt_rising.
  destruct (_ || _); [done|].
  destruct (Z.ltb_spec (u8 (serial_in_bits (chip w) + 1)) 8).
  - apply set_chip_ok; [|done|done].
    assert (in_width 3 (u8 (serial_in_bits (chip w) + 1))).
    { unfold in_width. pose proof (wrap_range 8 (serial_in_bits (chip w) + 1)).
      unfold in_width in *. lia. }
    wf_update.
  - apply raise_ok, set_chip_ok; [|done|done]. wf_update.
Qed.

Lemma timer_a_underflow_ok w : cia_ok w -> cia_ok (cia_serial_on_timer_a_underflow w).
Proof.
  intros Hw. unfold cia_serial_on_timer_a_underflow.
  destruct (negb (has _ _)); [done|].
  pose proof (start_output_wf (chip w) (proj1 Hw)) as Hs.
  pose proof (start_output_view (chip w)) as Hv.
  destruct (truthy (serial_out_busy (cia_serial_start_output (chip w)))) eqn:Hb; cbn;
    [|by apply set_chip_ok].
  unfold truthy in Hb. apply negb_true_iff, Z.eqb_neq in Hb.
  assert (1 <= serial_out_bits (cia_serial_start_output (chip w)) <= 8) as Hbits
    by (destruct Hs; lia).
  assert (serial_out_busy (cia_serial_start_output (chip w)) = 1) as Hbusy by (destruct Hs; lia).
  assert (Hbit : in_width 1 (u8 ((serial_out_shift (cia_serial_start_output (chip w)) .>> 7) .& 1))).
  { assert (in_width 1 ((serial_out_shift (cia_serial_start_output (chip w)) .>> 7) .& 1))
      by (apply in_width_land_r; [lia|closed_range]).
    rewrite wrap_small; [done|]. by apply (in_width_mono 1). }
  assert (Hdec : u8 (serial_out_bits (cia_serial_start_output (chip w)) - 1) =
          serial_out_bits (cia_serial_start_output (chip w)) - 1)
    by (apply wrap_small; unfold in_width; lia).
  rewrite Hdec.
  destruct (Z.eqb_spec (serial_out_bits (cia_serial_start_output (chip w)) - 1) 0); cbn.
  - apply on_chip_ok; [apply start_output_wf|apply start_output_view|].
    apply raise_ok, set_chip_ok; [|exact Hv|done]. wf_update.
  - apply set_chip_ok; [|exact Hv|done]. wf_update.
Qed.

Lemma write_sdr_ok v w : is_u8 v -> cia_ok w -> cia_ok (on_chip (cia_serial_write_sdr v) w).
Proof.
  intros Hv. apply on_chip_ok.
  - intros c Hc. unfold cia_serial_write_sdr. destruct (negb _); [wf_update|].
    apply start_output_wf. wf_update.
  - intros c. unfold cia_serial_write_sdr. destruct (negb _); [done|].
    by rewrite start_output_view.
Qed.

Lemma receive_byte_ok v w : is_u8 v -> cia_ok w -> cia_ok (cia_serial_receive_byte v w).2.
Proof.
  intros Hv Hw. unfold cia_serial_receive_byte. destruct (truthy _); [done|]. cbn.
  apply raise_ok. apply on_chip_ok; [|done|done]. intros c Hc. wf_update.
Qed.

(** ** The timers *)

Lemma advance_counter_range counter latch continuous ticks :
  is_u16 counter -> is_u16 latch ->
  is_u16 (cia_timer_advance counter latch continuous ticks).1.
Proof.
  intros Hc Hl. unfold cia_timer_advance. repeat case_match; cbn; eauto with width.
Qed.

Lemma advance_events_loop_range fuel : forall counter latch continuous events u,
  is_u16 counter -> is_u16 latch ->
  is_u16 (advance_events_loop fuel counter latch continuous events u).1.
Proof.
  induction fuel as [|fuel IH]; intros; cbn; [done|].
  repeat case_match; cbn; eauto with width.
Qed.

Lemma advance_events_counter_range counter latch continuous events :
  is_u16 counter -> is_u16 latch ->
  is_u16 (cia_timer_advance_events counter latch continuous events).1.
Proof. apply advance_events_loop_range. Qed.

Lemma apply_underflow_output_ok f n w :
  cia_ok w -> cia_ok (on_chip (fun c => cia_timer_apply_underflow_output (f c) n c) w).
Proof.
  apply on_chip_ok.
  - intros c Hc. unfold cia_timer_apply_underflow_output.
    destruct (f c =? cra c); repeat case_match; try done; wf_update.
  - intros c. unfold cia_timer_apply_underflow_output. by repeat case_match.
Qed.

Lemma timer_a_underflowed_ok n w : cia_ok w -> cia_ok (timer_a_underflowed n w).
Proof.
  intros Hw. unfold timer_a_underflowed. destruct (n >? 0); [|done].
  set (w' := Nat.iter _ _ _). assert (cia_ok w') as Hw'.
  { subst w'. apply Nat.iter_invariant; [intros; by apply timer_a_underflow_ok|].
    apply apply_underflow_output_ok. by apply raise_ok. }
  destruct (has _ _); [|done]. apply on_chip_ok; [|done|done]. intros c Hc. wf_update.
Qed.

Lemma timer_b_underflowed_ok n w : cia_ok w -> cia_ok (timer_b_underflowed n w).
Proof.
  intros Hw. unfold timer_b_underflowed. destruct (n >? 0); [|done].
  assert (cia_ok (on_chip (fun c => cia_timer_apply_underflow_output (crb c) n c)
            (cia_interrupt_raise CIA_ICR_TB w))) as Hw'.
  { apply apply_underflow_output_ok. by apply raise_ok. }
  destruct (has _ _); [|done]. apply on_chip_ok; [|done|done]. intros c Hc. wf_update.
Qed.

Lemma set_ta_ok v w : is_u16 v -> cia_ok w -> cia_ok (on_chip (fun c => c <| ta_counter := v |>) w).
Proof. intros Hv. apply on_chip_ok; [|done]. intros c Hc. wf_update. Qed.

Lemma set_tb_ok v w : is_u16 v -> cia_ok w -> cia_ok (on_chip (fun c => c <| tb_counter := v |>) w).
Proof. intros Hv. apply on_chip_ok; [|done]. intros c Hc. wf_update. Qed.

#[local] Hint Resolve wf_ta_latch wf_ta_counter wf_tb_latch wf_tb_counter : width.
#[local] Hint Resolve advance_counter_range advance_events_counter_range : width.

Lemma timers_step_ok t w : cia_ok w -> cia_ok (cia_timers_step t w).
Proof.
  intros Hw. unfold cia_timers_step. destruct (t =? 0); [done|].
  match goal with |- context [let '(_, _) := ?e in _] => destruct e as [w' uf_a] eqn:E end.
  assert (cia_ok w') as Hw'.
  { destruct (_ && _); [|by injection E as <- _].
    pose proof (advance_counter_range (ta_counter (chip w)) (ta_latch (chip w))
      (negb (has (cra (chip w)) CIA_CRA_RUNMODE)) t
      (wf_ta_counter _ (proj1 Hw)) (wf_ta_latch _ (proj1 Hw))).
    destruct (cia_timer_advance _ _ _ _). injection E as <- _.
    apply timer_a_underflowed_ok. by apply set_ta_ok. }
  destruct (has _ CIA_CRB_START); [|done]. pose proof (proj1 Hw') as Hc'.
  match goal with |- context [let '(_, _) := ?e in _] =>
    assert (is_u16 e.1) as Hr; [|revert Hr; destruct e as [counter uf_b]] end.
  { repeat case_match; cbn; eauto with width. }
  intros Hr. apply timer_b_underflowed_ok. by apply set_tb_ok.
Qed.

Lemma count_cnt_ok n w : cia_ok w -> cia_ok (cia_timers_count_cnt n w).
Proof.
  intros Hw. unfold cia_timers_count_cnt. destruct (n =? 0); [done|].
  match goal with |- context [let '(_, _) := ?e in _] => destruct e as [w' uf_a] eqn:E end.
  assert (cia_ok w') as Hw'.
  { destruct (_ && _); [|by injection E as <- _].
    pose proof (advance_events_counter_range (ta_counter (chip w)) (ta_latch (chip w))
      (negb (has (cra (chip w)) CIA_CRA_RUNMODE)) n
      (wf_ta_counter _ (proj1 Hw)) (wf_ta_latch _ (proj1 Hw))).
    destruct (cia_timer_advance_events _ _ _ _). injection E as <- _.
    apply timer_a_underflowed_ok. by apply set_ta_ok. }
  destruct (has _ CIA_CRB_START); [|done]. pose proof (proj1 Hw') as Hc'.
  match goal with |- context [let '(_, _) := ?e in _] =>
    assert (is_u16 e.1) as Hr; [|revert Hr; destruct e as [counter uf_b]] end.
  { repeat case_match; cbn; eauto with width. }
  intros Hr. apply timer_b_underflowed_ok. by apply set_tb_ok.
Qed.

Lemma advance_pb_outputs_ok w : cia_ok w -> cia_ok (on_chip cia_timers_advance_pb_outputs w).
Proof.
  apply on_chip_ok.
  - intros c Hc. unfold cia_timers_advance_pb_outputs.
    destruct (has (pb_pulse_mask c) 0x40); cbn; destruct (has _ _); wf_update.
  - intros c. unfold cia_timers_advance_pb_outputs.
    destruct (has (pb_pulse_mask c) 0x40); cbn; by destruct (has _ _).
Qed.

Lemma timers_write_ok r v w :
  is_u8 v -> cia_ok w -> cia_ok (on_chip (cia_timers_write_reg r v) w).
Proof.
  intros Hv. apply on_chip_ok.
  - intros c Hc. unfold cia_timers_write_reg.
    destruct (cia_reg r); try done; try solve [wf_update]; cbn; repeat case_match; wf_update.
  - intros c. unfold cia_timers_write_reg.
    by destruct (cia_reg r); cbn; repeat case_match.
Qed.

(** ** Time of day *)

Lemma on_tod_ok f w :
  (forall t, tod_wf t -> tod_wf (f t)) -> cia_ok w -> cia_ok (on_chip (on_tod f) w).
Proof.
  intros Hf. apply on_chip_ok; [|done]. intros c Hc. pose proof (Hf _ (wf_tod c Hc)). wf_update.
Qed.

Lemma tod_increment1_ok w : cia_ok w -> cia_ok (cia_tod_increment1 w).
Proof.
  intros Hw. unfold cia_tod_increment1.
  match goal with |- context [on_chip ?f w] => assert (cia_ok (on_chip f w)) as Hw' end.
  { apply on_tod_ok; [|done]. intros t Ht. destruct Ht. constructor; cbn; try done.
    apply in_width_land_r; [lia|closed_range]. }
  destruct (_ =? _); [by apply raise_ok|done].
Qed.

Lemma tod_increment_ok n w : cia_ok w -> cia_ok (cia_tod_increment n w).
Proof. apply Nat.iter_invariant. apply tod_increment1_ok. Qed.

Lemma tod_step_ok t w : cia_ok w -> cia_ok (cia_tod_step t w).
Proof.
  intros Hw. unfold cia_tod_step. destruct (_ || _) eqn:Hg; [done|].
  assert (Hn : 0 < tod_ticks_per_inc (tod (chip w))).
  { pose proof (wf_tod_ticks_per_inc _ (wf_tod _ (proj1 Hw))). unfold in_width in *.
    destruct (Z.eqb_spec (tod_ticks_per_inc (tod (chip w))) 0); [|lia].
    rewrite orb_true_r in Hg. done. }
  destruct (_ <=? _).
  - apply tod_increment_ok, on_chip_ok; [|done|done]. intros c Hc.
    pose proof (wf_tod c Hc) as Ht. pose proof (wf_tod _ (proj1 Hw)) as Hm.
    assert (0 < tod_ticks_per_inc (tod c) -> is_u32 (u32 (tod_subticks (tod (chip w)) + u32 t)
              mod tod_ticks_per_inc (tod c))).
    { intros ?. pose proof (Z.mod_pos_bound (u32 (tod_subticks (tod (chip w)) + u32 t))
        (tod_ticks_per_inc (tod c))). destruct Ht as [_ _ _ _ ?]. unfold in_width in *. lia. }
    destruct (decide (0 < tod_ticks_per_inc (tod c))).
    + destruct Ht. wf_update.
    + assert (tod_ticks_per_inc (tod c) = 0) as E by (destruct Ht as [_ _ _ _ ?]; unfold in_width in *; lia).
      destruct Ht. wf_update. constructor; cbn; try done. rewrite E, Z.mod_0_r_ext by done.
      eauto with width.
  - apply on_tod_ok; [|done]. intros u Hu. destruct Hu. constructor; cbn; eauto with width.
Qed.

Lemma tod_pulse_ok n w : cia_ok w -> cia_ok (cia_tod_pulse n w).
Proof. intros Hw. unfold cia_tod_pulse. destruct (n =? 0); [done|]. by apply tod_increment_ok. Qed.

Lemma tod_read_wf r c : cia_wf c -> cia_wf (cia_tod_read r c).2.
Proof.
  intros Hc. unfold cia_tod_read. pose proof (wf_tod c Hc) as Ht.
  destruct (cia_reg_exact r); cbn; try done; destruct (tod_latched (tod c)); cbn; try done;
    destruct Ht; wf_update.
Qed.

Lemma tod_read_view r c : irq_view (cia_tod_read r c).2 = irq_view c.
Proof. unfold cia_tod_read. by destruct (cia_reg_exact r), (tod_latched (tod c)). Qed.

Lemma tod_write_byte_range r x v :
  in_width 24 x -> is_u8 v -> in_width 24 (tod_write_byte r x v).
Proof. intros Hx Hv. destruct r; cbn; eauto 8 with width. Qed.

Lemma tod_write_ok r v w : is_u8 v -> cia_ok w -> cia_ok (on_chip (cia_tod_write r v) w).
Proof.
  intros Hv. apply on_chip_ok.
  - intros c Hc. unfold cia_tod_write. pose proof (wf_tod c Hc) as [].
    destruct (has _ _); [|case_decide];
      pose proof (tod_write_byte_range (cia_reg_exact r)); cbn; wf_update; constructor; cbn; eauto.
  - intros c. unfold cia_tod_write. destruct (has _ _); [done|]. by case_decide.
Qed.

(** ** Ports, reset and the register interface *)

Lemma ports_write_ok r v w : is_u8 v -> cia_ok w -> cia_ok (on_chip (cia_ports_write_reg r v) w).
Proof.
  intros Hv. apply on_chip_ok.
  - intros c Hc. unfold cia_ports_write_reg. destruct (cia_reg r); try done; wf_update.
  - intros c. unfold cia_ports_write_reg. by destruct (cia_reg r).
Qed.

Lemma set_cnt_level_ok v w : cia_ok w -> cia_ok (cia_set_cnt_level v w).
Proof.
  intros Hw. unfold cia_set_cnt_level. set (new := if truthy v then 1 else 0).
  match goal with |- context [on_chip ?f w] => assert (cia_ok (on_chip f w)) as Hw' end.
  { apply on_chip_ok; [|done|done]. intros c Hc.
    assert (in_width 1 new) by (subst new; destruct (truthy v); closed_range). wf_update. }
  destruct (_ && _); [|done]. by apply count_cnt_ok, cnt_rising_ok.
Qed.

Lemma set_flag_level_ok v w : cia_ok w -> cia_ok (cia_set_flag_level v w).
Proof.
  intros Hw. unfold cia_set_flag_level. set (new := if truthy v then 1 else 0).
  match goal with |- context [on_chip ?f w] => assert (cia_ok (on_chip f w)) as Hw' end.
  { apply on_chip_ok; [|done|done]. intros c Hc.
    assert (in_width 1 new) by (subst new; destruct (truthy v); closed_range). wf_update. }
  destruct (_ && _); [|done]. by apply raise_ok.
Qed.

Lemma set_sp_level_ok v w : cia_ok w -> cia_ok (on_chip (cia_set_sp_level v) w).
Proof.
  apply on_chip_ok; [|done]. intros c Hc.
  assert (in_width 1 (if truthy v then 1 else 0)) by (destruct (truthy v); closed_range). wf_update.
Qed.

Lemma reset_ok w :
  paula_irq_bit (chip w) = (if decide (cia_id (chip w) = CIA_PORT_A)
                            then RIGEL_PAULA_INT_PORTS else RIGEL_PAULA_INT_EXTER) ->
  irq_wf (irqs w) -> cia_ok (cia_reset w).
Proof.
  intros Hbit Hi. unfold cia_reset. apply sync_irq_line_ok; [|done]. cbn.
  unfold cia_ports_apply_defaults; cbn.
  destruct (cia_id (chip w)) eqn:Hid; constructor; cbn; rewrite ?Hid; cbn;
    try solve [closed_range]; try exact Hbit; try (left; split; reflexivity);
    constructor; cbn; closed_range.
Qed.

Lemma init_ok id w : irq_wf (irqs w) -> cia_ok (cia_init id w).
Proof. intros Hi. apply reset_ok; [|done]. by destruct id. Qed.

Lemma attach_ok w : cia_ok w -> cia_ok (cia_attach_paula w).
Proof. intros (Hc & Hi & _). apply sync_irq_line_ok; [|done]. cbn. wf_update. Qed.

Lemma write_reg_ok r v w : is_u8 v -> cia_ok w -> cia_ok (cia_write_reg r v w).
Proof.
  intros Hv Hw. unfold cia_write_reg.
  destruct (cia_reg r); try done;
    first [by apply ports_write_ok | by apply timers_write_ok | by apply tod_write_ok
          | by apply write_sdr_ok | by apply write_icr_ok].
Qed.

Lemma read_reg_ok r w : cia_ok w -> cia_ok (cia_read_reg r w).2.
Proof.
  intros Hw. unfold cia_read_reg.
  destruct (cia_reg r); cbn [snd]; try done; try solve [by apply read_icr_ok];
    try (pose proof (tod_read_wf (r .& 0x0f) (chip w) (proj1 Hw)) as Hc;
         pose proof (tod_read_view (r .& 0x0f) (chip w)) as Hv;
         destruct (cia_tod_read (r .& 0x0f) (chip w)) as [v c]; by apply set_chip_ok).
  apply on_chip_ok; [|done|done]. intros c Hc. wf_update.
Qed.

Lemma step_ok t w : cia_ok w -> cia_ok (cia_step t w).
Proof. intros Hw. by apply tod_step_ok, timers_step_ok, advance_pb_outputs_ok. Qed.

(** ** All operations *)

(** One call of the chip's interface, with arguments in the range of their C
    types. *)
Inductive cia_op : relation CiaBoard :=
  | op_reset w : cia_op w (cia_reset w)
  | op_attach w : cia_op w (cia_attach_paula w)
  | op_step w t : cia_op w (cia_step t w)
  | op_read w r : cia_op w (cia_read_reg r w).2
  | op_write w r v : is_u8 v -> cia_op w (cia_write_reg r v w)
  | op_external_pra w v : is_u8 v -> cia_op w (on_chip (cia_set_external_pra v) w)
  | op_external_prb w v : is_u8 v -> cia_op w (on_chip (cia_set_external_prb v) w)
  | op_sp_level w v : cia_op w (on_chip (cia_set_sp_level v) w)
  | op_cnt_level w v : cia_op w (cia_set_cnt_level v w)
  | op_flag_level w v : cia_op w (cia_set_flag_level v w)
  | op_pulse_cnt w n : cia_op w (cia_pulse_cnt n w)
  | op_receive_sdr w v : is_u8 v -> cia_op w (cia_receive_sdr v w).2
  | op_tod_pulse w n : cia_op w (cia_tod_pulse n w).

Lemma cia_op_ok w w' : cia_op w w' -> cia_ok w -> cia_ok w'.
Proof.
  intros Hop Hw. destruct Hop.
  - apply reset_ok; [apply wf_irq_bit, Hw|apply Hw].
  - by apply attach_ok.
  - by apply step_ok.
  - by apply read_reg_ok.
  - by apply write_reg_ok.
  - apply on_chip_ok; [|done|done]. intros c Hc. wf_update.
  - apply on_chip_ok; [|done|done]. intros c Hc. wf_update.
  - by apply set_sp_level_ok.
  - by apply set_cnt_level_ok.
  - by apply set_flag_level_ok.
  - by apply count_cnt_ok.
  - by apply receive_byte_ok.
  - by apply tod_pulse_ok.
Qed.

Lemma cia_reachable_ok id w0 w :
  irq_wf (irqs w0) -> rtc cia_op (cia_init id w0) w -> cia_ok w.
Proof.
  intros Hi Hsteps. revert Hsteps. apply rtc_ind_r.
  - by apply init_ok.
  - intros y z _ Hyz. by apply cia_op_ok.
Qed.

End coupling.

Arguments line_ok : clear implicits.
Arguments cia_ok : clear implicits.

(** C11: in every state a CIA can reach from [cia_init] through its interface,
    every register is in the range of its type (ICR in five bits, the TOD
    counter and alarm in 24, the bit counts of the serial port at most 8), and,
    once the CIA is attached to Paula, its bit of INTREQ (PORTS for CIA-A, EXTER
    for CIA-B) and [irq_asserted] are set exactly while an interrupt enabled in
    the mask is pending. *)
Theorem cia_reachable_invariant id w0 w :
  irq_wf (irqs w0) -> rtc cia_op (cia_init id w0) w ->
  cia_wf (chip w) /\
  (paula (chip w) = true ->
   irq_asserted (chip w) = b2u (cia_irq_pending (chip w)) /\
   rigel_paula_interrupts_pending (irqs w) (paula_irq_bit (chip w)) =
     cia_irq_pending (chip w)).
Proof.
  intros Hi Hsteps. destruct (cia_reachable_ok (private := true) id w0 w Hi Hsteps) as (Hc & _ & Hl).
  split; [done|]. intros Hp. by destruct (Hl Hp); auto.
Qed.

Definition example_board : CiaBoard := mkBoard cia_zero (mkInterruptDomain 0 0 0).

Lemma cia_reachable_invariant_witness :
  let reached := cia_set_flag_level 0 (cia_write_reg 0xd 0x90
                   (cia_attach_paula (cia_init CIA_PORT_B example_board))) in
  rigel_paula_interrupts_pending (irqs reached) RIGEL_PAULA_INT_EXTER = true /\
  cia_wf (chip reached).
Proof.
  split; [vm_compute; reflexivity|].
  eapply (cia_reachable_invariant CIA_PORT_B example_board).
  - constructor; [closed_range|closed_range|reflexivity].
  - eapply rtc_l; [apply op_attach|]. eapply rtc_l; [apply (op_write _ 0xd 0x90); closed_range|].
    eapply rtc_l; [apply (op_flag_level _ 0)|]. apply rtc_refl.
Defined.

(** Reading ICR returns the latched sources with bit 7 telling whether an
    enabled one is pending, and acknowledges them: nothing is latched or pending
    afterwards, Paula's source is withdrawn, and a second read returns 0. *)
Theorem cia_read_icr_acknowledges id w0 w :
  irq_wf (irqs w0) -> rtc cia_op (cia_init id w0) w -> paula (chip w) = true ->
  let '(v, w') := cia_read_reg 0x0d w in
  v = Z.lor (icr_data (chip w)) (Z.shiftl (b2u (cia_irq_pending (chip w))) 7) /\
  cia_irq_pending (chip w') = false /\
  rigel_paula_interrupts_pending (irqs w') (paula_irq_bit (chip w')) = false /\
  (cia_read_reg 0x0d w').1 = 0.
Proof.
  intros Hi Hsteps Hp. pose proof (cia_reachable_ok (private := true) id w0 w Hi Hsteps) as Hw.
  pose proof (read_icr_ok w Hw) as (Hc' & _ & Hl').
  change (cia_read_reg 0x0d w) with (cia_interrupt_read_icr w).
  unfold cia_interrupt_read_icr in *. cbn [snd] in *.
  set (w' := cia_interrupt_sync_irq_line _) in *.
  assert (Hv : icr_data (chip w') = 0 /\ paula (chip w') = true).
  { subst w'. unfold cia_interrupt_sync_irq_line. cbn. by rewrite Hp. }
  destruct Hv as [Hd Hp'].
  assert (Hpend : cia_irq_pending (chip w') = false)
    by (unfold cia_irq_pending; by rewrite Hd).
  split_and!.
  - destruct (cia_irq_pending (chip w)); cbn; [done|by rewrite Z.lor_0_r].
  - done.
  - rewrite <- Hpend. by apply Hl'.
  - change (cia_read_reg 0x0d w') with (cia_interrupt_read_icr w').
    unfold cia_interrupt_read_icr. by rewrite Hpend, Hd.
Qed.

Lemma cia_read_icr_acknowledges_witness :
  let w := cia_set_flag_level 0 (cia_write_reg 0xd 0x90
             (cia_attach_paula (cia_init CIA_PORT_B example_board))) in
  (cia_read_reg 0x0d w).1 = 0x90 /\
  let '(v, w') := cia_read_reg 0x0d w in
  v = Z.lor (icr_data (chip w)) (Z.shiftl (b2u (cia_irq_pending (chip w))) 7) /\
  cia_irq_pending (chip w') = false /\
  rigel_paula_interrupts_pending (irqs w') (paula_irq_bit (chip w')) = false /\
  (cia_read_reg 0x0d w').1 = 0.
Proof.
  split; [vm_compute; reflexivity|].
  apply (cia_read_icr_acknowledges CIA_PORT_B example_board).
  - constructor; [closed_range|closed_range|reflexivity].
  - eapply rtc_l; [apply op_attach|]. eapply rtc_l; [apply (op_write _ 0xd 0x90); closed_range|].
    eapply rtc_l; [apply (op_flag_level _ 0)|]. apply rtc_refl.
  - vm_compute. reflexivity.
Defined.
