(* ===== verification/CiaTimer.v ===== *)
(** * CIA interval timers

    The closed-form advance of a timer by a number of ticks, and the
    event-counting loop, against a reference machine that runs tick by tick;
    the port B outputs of an underflow. *)

From S2P Require Import Prelude Custom Interrupt Cia.

(** ** Reference: one tick at a time *)

Record Ticker := mkTicker { tk_counter : Z; tk_running : bool; tk_underflows : Z }.

(** A running timer counts down; the tick after zero is an underflow, which
    reloads a continuous timer and stops a one-shot one. *)
Definition timer_tick (latch : Z) (continuous : bool) (t : Ticker) : Ticker :=
  if negb (tk_running t) then t
  else if tk_counter t =? 0 then
    mkTicker (if continuous then latch else 0) continuous (tk_underflows t + 1)
  else mkTicker (tk_counter t - 1) true (tk_underflows t).

Definition timer_run (counter latch : Z) (continuous : bool) (ticks : Z) : Ticker :=
  Nat.iter (Z.to_nat ticks) (timer_tick latch continuous) (mkTicker counter true 0).

(** ** Characterisation

    The state after [t] ticks is determined by an equation and bounds. *)

Definition ticked (counter latch : Z) (continuous : bool) (t : Z) (s : Ticker) : Prop :=
  (tk_underflows s = 0 /\ tk_running s = true /\ tk_counter s = counter - t /\ t <= counter) \/
  (1 <= tk_underflows s /\ counter < t /\ tk_running s = continuous /\
   if continuous
   then tk_counter s = counter - t + tk_underflows s * (latch + 1) /\ 0 <= tk_counter s <= latch
   else tk_counter s = 0 /\ tk_underflows s = 1).

Lemma ticked_unique counter latch continuous t s s' :
  0 <= latch ->
  ticked counter latch continuous t s -> ticked counter latch continuous t s' -> s = s'.
Proof.
  destruct s as [c r u], s' as [c' r' u']. unfold ticked; cbn. intros Hl H H'.
  destruct H as [(-> & -> & -> & ?)|(? & ? & -> & H)],
    H' as [(-> & -> & -> & ?)|(? & ? & -> & H')];
    [done|exfalso; lia|exfalso; lia|].
  destruct continuous; [|destruct H as [-> ->], H' as [-> ->]; done].
  destruct H as [-> ?], H' as [-> ?].
  assert (u = u') as -> by (assert (u < u' \/ u' < u \/ u = u') as [?|[?|?]] by lia; nia). done.
Qed.

Lemma timer_run_succ counter latch continuous t :
  0 <= t ->
  timer_run counter latch continuous (t + 1) =
  timer_tick latch continuous (timer_run counter latch continuous t).
Proof. intros Ht. unfold timer_run. by rewrite Z2Nat.inj_add, Nat.add_1_r by lia. Qed.

Lemma timer_run_ticked counter latch continuous t :
  0 <= counter -> 0 <= latch -> 0 <= t ->
  ticked counter latch continuous t (timer_run counter latch continuous t).
Proof.
  intros Hc Hl Ht. revert t Ht. apply natlike_ind.
  - left. change (timer_run counter latch continuous 0) with (mkTicker counter true 0).
    cbn. lia.
  - intros t Ht IH. unfold Z.succ. rewrite timer_run_succ by lia.
    destruct (timer_run counter latch continuous t) as [c r u].
    unfold ticked, timer_tick in *. cbn in *.
    destruct IH as [(-> & -> & -> & ?)|(? & ? & -> & IH)]; cbn.
    + destruct (Z.eqb_spec (counter - t) 0); cbn; [right|left; lia].
      split_and!; [lia|lia|done|]. destruct continuous; lia.
    + right. destruct continuous; cbn; [|lia].
      destruct (Z.eqb_spec c 0); cbn; split_and!; try lia.
Qed.

Lemma i32_small x : 0 <= x < 2 ^ 31 -> i32 x = x.
Proof.
  intros H. unfold sign_extend. rewrite wrap_small by (unfold in_width; lia).
  by replace (x <? 2 ^ (32 - 1)) with true by lia.
Qed.

Lemma advance_ticked counter latch continuous t :
  is_u16 counter -> is_u16 latch -> 0 <= t < 2 ^ 31 ->
  exists r,
    ticked counter latch continuous t
      (mkTicker (cia_timer_advance counter latch continuous t).1 r
                (cia_timer_advance counter latch continuous t).2).
Proof.
  unfold in_width. intros Hc Hl Ht. unfold cia_timer_advance.
  destruct (Z.eqb_spec t 0) as [->|]; [exists true; left; cbn; lia|].
  destruct (Z.leb_spec t counter).
  { exists true. left. cbn.
    rewrite (wrap_small 32 t), (wrap_small 32), (wrap_small 16) by (unfold in_width; lia). lia. }
  rewrite (wrap_small 64 (t - _)) by (unfold in_width; lia).
  destruct continuous; cbn; [|exists false; right; cbn; lia].
  exists true. right. cbn.
  set (t' := t - (counter + 1)). assert (0 <= t') by lia.
  pose proof (Z.div_mod t' (latch + 1) ltac:(lia)) as Hdm.
  pose proof (Z.mod_pos_bound t' (latch + 1) ltac:(lia)) as Hr.
  pose proof (Z.div_pos t' (latch + 1) ltac:(lia) ltac:(lia)) as Hq.
  assert (t' / (latch + 1) <= t') by (apply Z.div_le_upper_bound; nia).
  rewrite (wrap_small 32), (wrap_small 64) by (unfold in_width; lia).
  rewrite i32_small by lia.
  assert ((if t' mod (latch + 1) =? 0 then latch else u16 (latch - t' mod (latch + 1)))
          = latch - t' mod (latch + 1)) as ->.
  { destruct (Z.eqb_spec (t' mod (latch + 1)) 0) as [->|]; [lia|].
    apply wrap_small. unfold in_width. lia. }
  split_and!; try lia.
Qed.

Lemma advance_is_run counter latch continuous t :
  is_u16 counter -> is_u16 latch -> 0 <= t < 2 ^ 31 ->
  cia_timer_advance counter latch continuous t =
  (tk_counter (timer_run counter latch continuous t),
   tk_underflows (timer_run counter latch continuous t)).
Proof.
  intros Hc Hl Ht. destruct (advance_ticked counter latch continuous t Hc Hl Ht) as [r Hr].
  unfold in_width in *.
  pose proof (timer_run_ticked counter latch continuous t
                ltac:(lia) ltac:(lia) ltac:(lia)) as Hrun.
  rewrite <- (ticked_unique counter latch continuous t _ _ ltac:(lia) Hr Hrun).
  cbn. apply surjective_pairing.
Qed.

(** C39: advancing a timer by [ticks] in one closed-form computation (one
    division, whatever the number of ticks) gives the counter and the number of
    underflows of the machine that runs tick by tick, in continuous and in
    one-shot mode. *)
Theorem cia_timer_advance_ticks counter latch continuous ticks :
  is_u16 counter -> is_u16 latch -> 0 <= ticks < 2 ^ 31 ->
  cia_timer_advance counter latch continuous ticks =
  (tk_counter (timer_run counter latch continuous ticks),
   tk_underflows (timer_run counter latch continuous ticks)).
Proof. apply advance_is_run. Qed.

Lemma cia_timer_advance_ticks_witness :
  cia_timer_advance 5 9 true 100 = (5, 10) /\
  cia_timer_advance 5 9 true 100 =
    (tk_counter (timer_run 5 9 true 100), tk_underflows (timer_run 5 9 true 100)).
Proof.
  split; [reflexivity|].
  apply cia_timer_advance_ticks; unfold in_width; lia.
Defined.

(** ** The event loop *)

Lemma advance_events_ticked fuel : forall counter latch continuous events u,
  is_u16 counter -> is_u16 latch -> is_u32 events -> events <= Z.of_nat fuel ->
  exists r,
    ticked counter latch continuous events
      (mkTicker (advance_events_loop fuel counter latch continuous events u).1 r
                ((advance_events_loop fuel counter latch continuous events u).2 - u)).
Proof.
  unfold in_width. induction fuel as [|fuel IH]; intros counter latch continuous events u Hc Hl He Hf.
  { exists true. left. cbn. lia. }
  cbn [advance_events_loop].
  destruct (Z.eqb_spec events 0); [exists true; left; cbn; lia|].
  destruct (Z.ltb_spec events (counter + 1)).
  { exists true. left. cbn.
    rewrite (wrap_small 16 events), (wrap_small 16) by (unfold in_width; lia). lia. }
  destruct continuous; cbn [negb]; [|exists false; right; cbn; lia].
  destruct (IH latch latch true (events - (counter + 1)) (u + 1)
              ltac:(lia) ltac:(lia) ltac:(lia) ltac:(lia)) as [r Hr].
  exists true. right. revert Hr. unfold ticked. cbn.
  destruct (advance_events_loop fuel latch latch true _ (u + 1)) as [c' u']. cbn.
  intros [(? & ? & -> & ?)|(? & ? & ? & -> & ?)]; split_and!; try done; nia.
Qed.

Lemma advance_events_loop_run counter latch continuous events u :
  is_u16 counter -> is_u16 latch -> is_u32 events ->
  advance_events_loop (Z.to_nat events) counter latch continuous events u =
  (tk_counter (timer_run counter latch continuous events),
   u + tk_underflows (timer_run counter latch continuous events)).
Proof.
  intros Hc Hl He.
  assert (events <= Z.of_nat (Z.to_nat events)) by lia.
  destruct (advance_events_ticked (Z.to_nat events) counter latch continuous events u)
    as [r Hr]; [done..|].
  unfold in_width in *.
  pose proof (timer_run_ticked counter latch continuous events
                ltac:(lia) ltac:(lia) ltac:(lia)) as Hrun.
  rewrite <- (ticked_unique counter latch continuous events _ _ ltac:(lia) Hr Hrun). cbn.
  rewrite (surjective_pairing (advance_events_loop _ _ _ _ _ _)) at 1. f_equal. lia.
Qed.

(** The event loop, which reloads the timer at each underflow, ends and
    agrees with the closed-form advance for every number of events, so a timer
    counts CNT pulses or underflows of the other timer the way it counts clock
    ticks. *)
Theorem cia_timer_advance_events_is_advance counter latch continuous events :
  is_u16 counter -> is_u16 latch -> 0 <= events < 2 ^ 31 ->
  cia_timer_advance_events counter latch continuous events =
  cia_timer_advance counter latch continuous events.
Proof.
  intros Hc Hl He. unfold cia_timer_advance_events.
  rewrite advance_events_loop_run, advance_is_run by (unfold in_width in *; lia). done.
Qed.

Lemma cia_timer_advance_events_is_advance_witness :
  cia_timer_advance_events 3 2 true 20 = (1, 6) /\
  cia_timer_advance_events 3 2 true 20 = cia_timer_advance 3 2 true 20.
Proof.
  split; [reflexivity|].
  apply cia_timer_advance_events_is_advance; unfold in_width; lia.
Defined.

(** ** Port B outputs *)

(** The output of an underflow goes to the port B bit chosen by comparing the
    control byte with CRA, not by the timer that underflowed: when both control
    registers hold the same value, an underflow of timer B drives PB6, the pin
    of timer A, and leaves PB7 as it was. *)
Theorem timer_b_output_on_pb6_when_controls_equal c underflows :
  crb c = cra c -> has (crb c) CIA_CRB_PBON = true ->
  let c' := cia_timer_apply_underflow_output (crb c) underflows c in
  Z.testbit (pb_timer_out c') 7 = Z.testbit (pb_timer_out c) 7 /\
  (has (crb c) CIA_CRA_OUTMODE = false -> Z.testbit (pb_timer_out c') 6 = false).
Proof.
  intros Heq Hpb. unfold cia_timer_apply_underflow_output. rewrite Heq, Z.eqb_refl, <- Heq.
  change CIA_CRA_PBON with CIA_CRB_PBON. rewrite Hpb. cbn.
  destruct (has (crb c) CIA_CRA_OUTMODE); cbn.
  - destruct (has underflows 1); cbn; autorewrite with bits; literal_bits; split; try done; btauto.
  - autorewrite with bits. literal_bits. cbn. split; [|intros _]; btauto.
Qed.

Lemma timer_b_output_on_pb6_when_controls_equal_witness :
  let c := (cia_timers_reset cia_zero) <| cra := 0x03 |> <| crb := 0x03 |> in
  pb_timer_out (cia_timer_apply_underflow_output (crb c) 1 c) = 0x80 /\
  Z.testbit (pb_timer_out (cia_timer_apply_underflow_output (crb c) 1 c)) 7 =
    Z.testbit (pb_timer_out c) 7.
Proof.
  split; [reflexivity|].
  apply (timer_b_output_on_pb6_when_controls_equal
           ((cia_timers_reset cia_zero) <| cra := 0x03 |> <| crb := 0x03 |>) 1); reflexivity.
Defined.
