(* ===== verification/CiaSerial.v ===== *)
(** * The CIA serial port as a channel

    What the shift register puts on SP when a byte is written to SDR, what a
    receiving CIA assembles from the levels it samples on the rising edges of
    CNT, and the composition of the two. *)

From S2P Require Import Prelude Custom Interrupt Cia.

#[local] Arguments cia_serial_start_output : simpl never.
#[local] Arguments cia_interrupt_raise : simpl never.

(** ** Observations *)

(** The levels on SP after each of [n] underflows of timer A. *)
Fixpoint sp_trace (n : nat) (w : CiaBoard) : list Z :=
  match n with
  | O => []
  | S n =>
      let w' := cia_serial_on_timer_a_underflow w in
      cia_serial_sp_output_level (chip w') :: sp_trace n w'
  end.

(** A receiver that sees the levels [ls] on SP, one rising edge of CNT each. *)
Definition receive_level (w : CiaBoard) (level : Z) : CiaBoard :=
  cia_serial_on_cnt_rising (on_chip (cia_set_sp_level level) w).

Definition receive_levels (ls : list Z) (w : CiaBoard) : CiaBoard := foldl receive_level w ls.

(** The two chips wired SP to SP: one underflow of the sender's timer A. *)
Definition link_bit (s : CiaBoard * CiaBoard) : CiaBoard * CiaBoard :=
  let tx := cia_serial_on_timer_a_underflow s.1 in
  (tx, receive_level s.2 (cia_serial_sp_output_level (chip tx))).

(** The bits of a byte, most significant first, as levels. *)
Definition msb_levels (v : Z) : list Z :=
  (fun i => b2u (Z.testbit v i)) <$> [7; 6; 5; 4; 3; 2; 1; 0].

Definition shift_in (x level : Z) : Z := u8 ((x .<< 1) .| level).

(** ** Sending *)

Definition sending (v : Z) (k : Z) (w : CiaBoard) : Prop :=
  let c := chip w in
  has (cra c) CIA_CRA_SPMODE = true /\ serial_out_busy c = 1 /\
  serial_out_bits c = 8 - k /\ serial_out_shift c = u8 (v .<< k) /\
  serial_out_buffer_full c = 0.

(** An interrupt touches no register of the serial port. *)
Definition serial_view (c : CIA_State) :=
  (cra c, serial_out_busy c, serial_out_bits c, serial_out_shift c,
   serial_out_buffer_full c, sp_output_level c, sdr c, sdr_full c, serial_in_bits c).

Lemma raise_serial m w :
  icr_data (chip (cia_interrupt_raise m w)) = icr_data (chip w) .| u8 (m .& 0x1f) /\
  serial_view (chip (cia_interrupt_raise m w)) = serial_view (chip w).
Proof.
  unfold cia_interrupt_raise, cia_interrupt_sync_irq_line, on_chip.
  destruct (paula _), (cia_irq_pending _); split; reflexivity.
Qed.

Lemma start_output_idle c :
  serial_out_busy c = 1 \/ serial_out_buffer_full c = 0 -> cia_serial_start_output c = c.
Proof.
  intros [H|H]; unfold cia_serial_start_output, truthy; rewrite H; [done|].
  by rewrite orb_true_r.
Qed.

(** The underflows before the last one put the next bit on SP. *)
Lemma sending_step v k w :
  is_u8 v -> 0 <= k < 7 -> sending v k w ->
  sending v (k + 1) (cia_serial_on_timer_a_underflow w) /\
  sp_output_level (chip (cia_serial_on_timer_a_underflow w)) = b2u (Z.testbit v (7 - k)).
Proof.
  intros Hv Hk (Hsp & Hbusy & Hbits & Hshift & Hfull).
  unfold cia_serial_on_timer_a_underflow. rewrite Hsp, start_output_idle by tauto.
  unfold truthy at 1. rewrite Hbusy, Hbits. cbn.
  rewrite (wrap_small 8 (8 - k - 1)) by (unfold in_width; lia).
  destruct (Z.eqb_spec (8 - k - 1) 0); [lia|]. cbn.
  split; [split_and!; cbn; [done|done|lia| |done]|].
  - rewrite Hshift. apply Z.bits_inj'. intros i Hi. autorewrite with bits.
    destruct (Z.ltb_spec i 8); [|done]. cbn.
    destruct (decide (i = 0)) as [->|].
    + by rewrite !Z.testbit_neg_r by lia.
    + autorewrite with bits. replace (i - 1 <? 8) with true by lia. cbn. f_equal. lia.
  - rewrite Hshift, shiftr_land_1 by lia. rewrite wrap_small by width.
    autorewrite with bits. done.
Qed.

(** The last underflow of a byte ends the transmission in the same call. *)
Lemma sending_last v w :
  sending v 7 w ->
  let w' := cia_serial_on_timer_a_underflow w in
  sp_output_level (chip w') = 1 /\ serial_out_busy (chip w') = 0 /\
  Z.testbit (icr_data (chip w')) 3 = true.
Proof.
  intros (Hsp & Hbusy & Hbits & Hshift & Hfull). cbn zeta.
  unfold cia_serial_on_timer_a_underflow. rewrite Hsp, start_output_idle by tauto.
  unfold truthy at 1. rewrite Hbusy, Hbits. cbn.
  change (u8 (8 - 7 - 1)) with 0. cbn.
  match goal with |- context [cia_interrupt_raise ?m ?w0] =>
    destruct (raise_serial m w0) as [Hd Hv]; generalize dependent (cia_interrupt_raise m w0) end.
  intros w' Hd Hv. unfold serial_view in Hv. cbn in Hd, Hv.
  injection Hv as _ Eb _ _ Ef Eo _ _ _.
  rewrite start_output_idle by (right; by rewrite Ef).
  rewrite Eo, Eb, Hd. split_and!; [done|done|].
  autorewrite with bits. unfold CIA_ICR_SP. literal_bits. cbn. apply orb_true_r.
Qed.

Lemma sp_level_b2u c b : sp_output_level c = b2u b -> cia_serial_sp_output_level c = b2u b.
Proof. intros H. unfold cia_serial_sp_output_level. rewrite H. by destruct b. Qed.

(** One turn of the trace while bits remain. *)
Lemma sending_trace_step n v k w :
  is_u8 v -> 0 <= k < 7 -> sending v k w ->
  exists w', sending v (k + 1) w' /\
    Nat.iter (S n) cia_serial_on_timer_a_underflow w =
      Nat.iter n cia_serial_on_timer_a_underflow w' /\
    sp_trace (S n) w = b2u (Z.testbit v (7 - k)) :: sp_trace n w'.
Proof.
  intros Hv Hk Hs. destruct (sending_step v k w Hv Hk Hs) as [Hs' Hsp].
  exists (cia_serial_on_timer_a_underflow w). split; [done|]. split.
  - by rewrite Nat.iter_succ_r.
  - cbn [sp_trace]. by rewrite (sp_level_b2u _ _ Hsp).
Qed.

Lemma sending_byte v w :
  is_u8 v -> sending v 0 w ->
  sp_trace 8 w = take 7 (msb_levels v) ++ [1] /\
  let w' := Nat.iter 8 cia_serial_on_timer_a_underflow w in
  serial_out_busy (chip w') = 0 /\ Z.testbit (icr_data (chip w')) 3 = true.
Proof.
  intros Hv Hs. cbn zeta.
  destruct (sending_trace_step 7 v 0 w Hv ltac:(lia) Hs) as (w1 & H1 & -> & ->).
  destruct (sending_trace_step 6 v 1 w1 Hv ltac:(lia) H1) as (w2 & H2 & -> & ->).
  destruct (sending_trace_step 5 v 2 w2 Hv ltac:(lia) H2) as (w3 & H3 & -> & ->).
  destruct (sending_trace_step 4 v 3 w3 Hv ltac:(lia) H3) as (w4 & H4 & -> & ->).
  destruct (sending_trace_step 3 v 4 w4 Hv ltac:(lia) H4) as (w5 & H5 & -> & ->).
  destruct (sending_trace_step 2 v 5 w5 Hv ltac:(lia) H5) as (w6 & H6 & -> & ->).
  destruct (sending_trace_step 1 v 6 w6 Hv ltac:(lia) H6) as (w7 & H7 & -> & ->).
  destruct (sending_last v w7 H7) as (Hsp & Hb & Hi).
  cbn [sp_trace Nat.iter nat_rect]. by rewrite (sp_level_b2u _ true Hsp).
Qed.

Lemma write_sdr_sending v w :
  is_u8 v -> has (cra (chip w)) CIA_CRA_SPMODE = true ->
  serial_out_busy (chip w) = 0 ->
  sending v 0 (cia_write_reg 0x0c v w).
Proof.
  intros Hv Hsp Hb. change (cia_write_reg 0x0c v w) with (on_chip (cia_serial_write_sdr v) w).
  unfold sending, cia_serial_write_sdr, cia_serial_start_output, truthy. cbn.
  rewrite Hsp. cbn. rewrite Hb. cbn. split_and!; try done. rewrite Z.shiftl_0_r, wrap_small; done.
Qed.

(** ** Receiving *)

Definition receiving (x k : Z) (w : CiaBoard) : Prop :=
  let c := chip w in
  serial_out_busy c = 0 /\ serial_out_buffer_full c = 0 /\
  serial_in_bits c = k /\ serial_in_shift c = x.

Lemma truthy_b2u b : truthy (b2u b) = b.
Proof. by destruct b. Qed.

Lemma receiving_step x k b w :
  0 <= k < 7 -> receiving x k w -> receiving (shift_in x (b2u b)) (k + 1) (receive_level w (b2u b)).
Proof.
  intros Hk (Hb & Hf & Hbits & Hshift). unfold receive_level, cia_serial_on_cnt_rising. cbn.
  rewrite Hb, Hf, Hbits, Hshift, truthy_b2u. cbn.
  rewrite wrap_small by (unfold in_width; lia).
  replace (k + 1 <? 8) with true by lia. unfold shift_in.
  split_and!; cbn; try done. by destruct b.
Qed.

Lemma receiving_last x b w :
  receiving x 7 w ->
  let w' := receive_level w (b2u b) in
  sdr (chip w') = shift_in x (b2u b) /\ sdr_full (chip w') = 1 /\
  serial_in_bits (chip w') = 0 /\ Z.testbit (icr_data (chip w')) 3 = true.
Proof.
  intros (Hb & Hf & Hbits & Hshift). cbn zeta. unfold receive_level, cia_serial_on_cnt_rising. cbn.
  rewrite Hb, Hf, Hbits, Hshift, truthy_b2u. cbn.
  change (u8 (7 + 1)) with 8. cbn.
  match goal with |- context [cia_interrupt_raise ?m ?w0] =>
    destruct (raise_serial m w0) as [Hd Hv]; generalize dependent (cia_interrupt_raise m w0) end.
  intros w' Hd Hv. unfold serial_view in Hv. cbn in Hd, Hv.
  injection Hv as _ _ _ _ _ _ Es Ef En.
  rewrite Hd, Es, Ef, En. split_and!; try done.
  - unfold shift_in. by destruct b.
  - autorewrite with bits. unfold CIA_ICR_SP. literal_bits. cbn. apply orb_true_r.
Qed.

Lemma receiving_byte b7 b6 b5 b4 b3 b2 b1 b0 w :
  receiving 0 0 w ->
  let ls := b2u <$> [b7; b6; b5; b4; b3; b2; b1; b0] in
  let w' := receive_levels ls w in
  sdr (chip w') = foldl shift_in 0 ls /\ sdr_full (chip w') = 1 /\
  serial_in_bits (chip w') = 0 /\ Z.testbit (icr_data (chip w')) 3 = true.
Proof.
  intros H0. cbn zeta. unfold receive_levels. cbn [fmap list_fmap foldl].
  apply (receiving_step _ _ b7) in H0 as H1; [|lia].
  apply (receiving_step _ _ b6) in H1 as H2; [|lia].
  apply (receiving_step _ _ b5) in H2 as H3; [|lia].
  apply (receiving_step _ _ b4) in H3 as H4; [|lia].
  apply (receiving_step _ _ b3) in H4 as H5; [|lia].
  apply (receiving_step _ _ b2) in H5 as H6; [|lia].
  apply (receiving_step _ _ b1) in H6 as H7; [|lia].
  exact (receiving_last _ b0 _ H7).
Qed.

Lemma msb_shift_in v :
  is_u8 v -> foldl shift_in 0 (msb_levels v) = v.
Proof.
  intros Hv. apply Z.eqb_eq. revert v Hv.
  apply (byte_forall (fun v => foldl shift_in 0 (msb_levels v) =? v)). vm_compute. reflexivity.
Qed.

(** ** The channel *)

Lemma link_iter n : forall s,
  Nat.iter n link_bit s =
  (Nat.iter n cia_serial_on_timer_a_underflow s.1, receive_levels (sp_trace n s.1) s.2).
Proof.
  induction n as [|n IH]; intros [tx rx]; [done|].
  rewrite Nat.iter_succ_r, IH. cbn [link_bit fst snd sp_trace receive_levels foldl].
  by rewrite Nat.iter_succ_r.
Qed.

(** A byte written to SDR in output mode is shifted out most significant bit
    first, one bit per underflow of timer A, and the eighth underflow frees the
    shift register and latches the SP interrupt.  The levels an observer sees on
    SP after each underflow are the seven high bits and then a 1: the call that
    outputs bit 0 also returns SP to its idle level. *)
Theorem sdr_output_levels v w :
  is_u8 v -> has (cra (chip w)) CIA_CRA_SPMODE = true -> serial_out_busy (chip w) = 0 ->
  let w0 := cia_write_reg 0x0c v w in
  sp_trace 8 w0 = take 7 (msb_levels v) ++ [1] /\
  serial_out_busy (chip (Nat.iter 8 cia_serial_on_timer_a_underflow w0)) = 0 /\
  Z.testbit (icr_data (chip (Nat.iter 8 cia_serial_on_timer_a_underflow w0))) 3 = true.
Proof. intros Hv Hsp Hb. by apply sending_byte, write_sdr_sending. Qed.

Definition output_board : CiaBoard :=
  mkBoard ((cia_reset_core_state cia_zero) <| cra := 0x41 |>) (mkInterruptDomain 0 0 0).

Lemma sdr_output_levels_witness :
  sp_trace 8 (cia_write_reg 0x0c 0xb4 output_board) = [1; 0; 1; 1; 0; 1; 0; 1] /\
  sp_trace 8 (cia_write_reg 0x0c 0xb4 output_board) = take 7 (msb_levels 0xb4) ++ [1].
Proof.
  split; [vm_compute; reflexivity|].
  apply (sdr_output_levels 0xb4 output_board); [closed_range|reflexivity|reflexivity].
Defined.

(** Eight rising edges of CNT assemble the levels sampled on SP, most
    significant first, into SDR, fill it and latch the SP interrupt: the levels
    of a byte give back that byte. *)
Theorem sdr_input_roundtrip v w :
  is_u8 v -> serial_out_busy (chip w) = 0 -> serial_out_buffer_full (chip w) = 0 ->
  serial_in_bits (chip w) = 0 -> serial_in_shift (chip w) = 0 ->
  let w' := receive_levels (msb_levels v) w in
  (cia_read_reg 0x0c w').1 = v /\ sdr_full (chip w') = 1 /\
  Z.testbit (icr_data (chip w')) 3 = true.
Proof.
  intros Hv Hb Hf Hn Hs. cbn zeta.
  destruct (receiving_byte (Z.testbit v 7) (Z.testbit v 6) (Z.testbit v 5) (Z.testbit v 4)
    (Z.testbit v 3) (Z.testbit v 2) (Z.testbit v 1) (Z.testbit v 0) w) as (Hsdr & Hfull & _ & Hi);
    [done|].
  change (b2u <$> [_; _; _; _; _; _; _; _]) with (msb_levels v) in *.
  rewrite msb_shift_in in Hsdr by done. done.
Qed.

Definition input_board : CiaBoard :=
  mkBoard (cia_reset_core_state cia_zero) (mkInterruptDomain 0 0 0).

Lemma sdr_input_roundtrip_witness :
  (cia_read_reg 0x0c (receive_levels (msb_levels 0xb4) input_board)).1 = 0xb4.
Proof. apply (sdr_input_roundtrip 0xb4 input_board); [closed_range|reflexivity..]. Defined.

(** A byte sent from the SDR of one CIA into another wired to its SP line
    arrives with its least significant bit forced to 1: bytes with bit 0 clear
    do not survive the transfer. *)
Theorem serial_link_transfers v tx rx :
  is_u8 v -> has (cra (chip tx)) CIA_CRA_SPMODE = true -> serial_out_busy (chip tx) = 0 ->
  serial_out_busy (chip rx) = 0 -> serial_out_buffer_full (chip rx) = 0 ->
  serial_in_bits (chip rx) = 0 -> serial_in_shift (chip rx) = 0 ->
  (cia_read_reg 0x0c (Nat.iter 8 link_bit (cia_write_reg 0x0c v tx, rx)).2).1 = v .| 1.
Proof.
  intros Hv Hsp Hb Hrb Hrf Hrn Hrs. rewrite link_iter. cbn [fst snd].
  destruct (sending_byte v _ Hv (write_sdr_sending v tx Hv Hsp Hb)) as [-> _].
  destruct (receiving_byte (Z.testbit v 7) (Z.testbit v 6) (Z.testbit v 5) (Z.testbit v 4)
    (Z.testbit v 3) (Z.testbit v 2) (Z.testbit v 1) true rx) as (Hsdr & _); [done|].
  assert (Hv1 : is_u8 (v .| 1)) by width.
  transitivity (foldl shift_in 0 (msb_levels (v .| 1))); [|by apply msb_shift_in].
  refine (eq_trans Hsdr _). unfold msb_levels. cbn [fmap list_fmap].
  autorewrite with bits. literal_bits. by rewrite !orb_false_r, orb_true_r.
Qed.

Lemma serial_link_transfers_witness :
  (cia_read_reg 0x0c
     (Nat.iter 8 link_bit (cia_write_reg 0x0c 0xb4 output_board, input_board)).2).1 = 0xb5.
Proof.
  refine (serial_link_transfers 0xb4 output_board input_board _ _ _ _ _ _ _);
    [closed_range|reflexivity..].
Defined.
