(* ===== verification/CiaTod.v ===== *)
(** * The time-of-day counter of a CIA

    The 24-bit counter, its alarm and the latch that makes the three-byte read
    atomic. *)

From S2P Require Import Prelude Custom Interrupt Cia CiaFacts.

#[local] Arguments cia_interrupt_raise : simpl never.

(** The bytes of a 24-bit word. *)
Definition tod_word (hi mid lo : Z) : Z := hi * 65536 + mid * 256 + lo.

(** The counter passes [alarm] within [n] increments of [c]. *)
Definition alarm_within (c alarm n : Z) : Prop :=
  exists k, 1 <= k <= n /\ wrap 24 (c + k) = alarm.

(** ** Helpers *)

Lemma tod_word_bytes v :
  in_width 24 v -> tod_word (cia_tod_hi v) (cia_tod_mid v) (cia_tod_lo v) = v.
Proof.
  unfold in_width. intros Hv. unfold tod_word, cia_tod_hi, cia_tod_mid, cia_tod_lo.
  change 0xff with (Z.ones 8). rewrite !Z.land_ones, !Z.shiftr_div_pow2 by lia.
  unfold wrap. rewrite !Z.mod_mod by lia.
  rewrite (Z.mod_small (v / 2 ^ 16)) by (split; [apply Z.div_pos; lia|apply Z.div_lt_upper_bound; lia]).
  pose proof (Z.div_mod v 256 ltac:(lia)). pose proof (Z.div_mod (v / 256) 256 ltac:(lia)) as H2.
  rewrite Z.div_div in H2 by lia. change (2 ^ 16) with (256 * 256). change (2 ^ 8) with 256. lia.
Qed.

(** Three byte writes, high byte first, replace the whole word. *)
Lemma tod_write_bytes c hi mid lo :
  in_width 24 c -> is_u8 hi -> is_u8 mid -> is_u8 lo ->
  tod_write_byte CIA_REG_TODLO
    (tod_write_byte CIA_REG_TODMID (tod_write_byte CIA_REG_TODHI c hi) mid) lo =
  tod_word hi mid lo.
Proof.
  intros Hc Hhi Hmid Hlo. cbn. set (v := _ .| lo).
  assert (in_width 24 v) as Hv by (subst v; eauto 12 with width).
  rewrite <- (tod_word_bytes v Hv). unfold tod_word, cia_tod_hi, cia_tod_mid, cia_tod_lo.
  f_equal; [f_equal; f_equal|]; subst v; bitwise 8.
Qed.

(** An interrupt changes neither the time of day nor the other pending sources. *)
Lemma raise_tod m w :
  tod (chip (cia_interrupt_raise m w)) = tod (chip w) /\
  crb (chip (cia_interrupt_raise m w)) = crb (chip w) /\
  icr_data (chip (cia_interrupt_raise m w)) = icr_data (chip w) .| u8 (m .& 0x1f).
Proof.
  unfold cia_interrupt_raise, cia_interrupt_sync_irq_line, on_chip.
  destruct (paula _), (cia_irq_pending _); split_and!; reflexivity.
Qed.

Lemma land_ffffff x : x .& 0x00ffffff = wrap 24 x.
Proof. change 0x00ffffff with (Z.ones 24). by rewrite Z.land_ones. Qed.

Definition alrm (w : CiaBoard) : bool := Z.testbit (icr_data (chip w)) 2.

(** One increment: the counter wraps at 24 bits, the latch keeps its value and
    the alarm is raised exactly when the new count equals it. *)
Lemma increment1_spec w :
  in_width 24 (tod_counter (tod (chip w))) ->
  let t := tod (chip w) in
  let w' := cia_tod_increment1 w in
  tod (chip w') = t <| tod_counter := wrap 24 (tod_counter t + 1) |> /\
  alrm w' = alrm w || (wrap 24 (tod_counter t + 1) =? tod_alarm t).
Proof.
  intros Hc. cbn zeta. unfold cia_tod_increment1, cia_tod_raise_alarm. cbn.
  assert (E : u32 (tod_counter (tod (chip w)) + 1) .& 0x00ffffff =
              wrap 24 (tod_counter (tod (chip w)) + 1))
    by (rewrite land_ffffff, (wrap_small 32) by (unfold in_width in *; lia); done).
  rewrite E.
  destruct (Z.eqb_spec (wrap 24 (tod_counter (tod (chip w)) + 1)) (tod_alarm (tod (chip w)))).
  - match goal with |- context [cia_interrupt_raise ?m ?w0] =>
      destruct (raise_tod m w0) as (Ht & _ & Hd) end.
    rewrite Ht. unfold alrm. rewrite Hd. cbn. rewrite E. split; [done|].
    autorewrite with bits. unfold CIA_ICR_ALRM. literal_bits. by cbn.
  - unfold alrm. cbn. by rewrite E, orb_false_r.
Qed.

Lemma increment_spec n w :
  0 <= n -> in_width 24 (tod_counter (tod (chip w))) ->
  let t := tod (chip w) in
  let w' := cia_tod_increment n w in
  tod (chip w') = t <| tod_counter := wrap 24 (tod_counter t + n) |> /\
  (alrm w' = true <-> alrm w = true \/ alarm_within (tod_counter t) (tod_alarm t) n).
Proof.
  intros Hn Hc. cbn zeta. revert n Hn. apply natlike_ind.
  - change (cia_tod_increment 0 w) with w. split.
    + rewrite Z.add_0_r, wrap_small by done. by destruct (tod (chip w)).
    + split; [by left|]. intros [?|(k & ? & _)]; [done|lia].
  - intros n Hn [IHt IHa]. unfold cia_tod_increment in *.
    rewrite Z2Nat.inj_succ by lia. cbn [Nat.iter nat_rect].
    set (w' := Nat.iter _ _ w) in *. fold (Nat.iter (Z.to_nat n) cia_tod_increment1 w). fold w'.
    destruct (increment1_spec w') as [Ht Ha].
    { rewrite IHt. cbn. by apply wrap_range. }
    rewrite Ht, Ha, IHt. cbn. rewrite wrap_add_l by lia.
    replace (tod_counter (tod (chip w)) + n + 1) with (tod_counter (tod (chip w)) + Z.succ n) by lia.
    split; [done|]. rewrite orb_true_iff, IHa, Z.eqb_eq. unfold alarm_within. split.
    + intros [[H|(k & Hk & H)]|H]; [by left|right; exists k; split; [lia|done]|].
      right. exists (Z.succ n). split; [lia|done].
    + intros [H|(k & Hk & H)]; [tauto|]. destruct (decide (k = Z.succ n)) as [->|]; [tauto|].
      left. right. exists k. split; [lia|done].
Qed.

Lemma pulse_spec n w :
  0 <= n -> in_width 24 (tod_counter (tod (chip w))) ->
  let t := tod (chip w) in
  let w' := cia_tod_pulse n w in
  tod (chip w') = t <| tod_counter := wrap 24 (tod_counter t + n) |> /\
  (alrm w' = true <-> alrm w = true \/ alarm_within (tod_counter t) (tod_alarm t) n).
Proof.
  intros Hn Hc. unfold cia_tod_pulse. destruct (Z.eqb_spec n 0) as [->|].
  - exact (increment_spec 0 w Hn Hc).
  - by apply increment_spec.
Qed.

(** The three byte reads: the high byte latches, the low byte releases. *)
Lemma read_todhi w :
  cia_read_reg 0xa w =
  (cia_tod_hi (tod_counter (tod (chip w))),
   on_chip (on_tod (fun t => t <| tod_latch := tod_counter t |> <| tod_latched := true |>)) w).
Proof. reflexivity. Qed.

Lemma read_todmid w :
  tod_latched (tod (chip w)) = true ->
  cia_read_reg 0x9 w = (cia_tod_mid (tod_latch (tod (chip w))), w).
Proof.
  intros H. unfold cia_read_reg, cia_tod_read. cbn. rewrite H. by destruct w.
Qed.

Lemma read_todlo w :
  tod_latched (tod (chip w)) = true ->
  cia_read_reg 0x8 w =
  (cia_tod_lo (tod_latch (tod (chip w))),
   on_chip (on_tod (fun t => t <| tod_latched := false |>)) w).
Proof. intros H. unfold cia_read_reg, cia_tod_read. cbn. by rewrite H. Qed.

(** ** Theorems *)

(** [n] pulses advance the counter by [n] modulo 2^24 and latch the ALRM
    interrupt exactly when the counter passed through the alarm value on the
    way; the alarm and the read latch are not touched. *)
Theorem cia_tod_pulse_counts n w :
  0 <= n -> in_width 24 (tod_counter (tod (chip w))) ->
  let t := tod (chip w) in
  let w' := cia_tod_pulse n w in
  tod (chip w') = t <| tod_counter := wrap 24 (tod_counter t + n) |> /\
  (Z.testbit (icr_data (chip w')) 2 = true <->
   Z.testbit (icr_data (chip w)) 2 = true \/ alarm_within (tod_counter t) (tod_alarm t) n).
Proof. apply pulse_spec. Qed.

Definition tod_board (counter alarm : Z) : CiaBoard :=
  mkBoard (cia_zero <| tod := mkTod counter alarm 0 false false 0 0 |>) (mkInterruptDomain 0 0 0).

Lemma cia_tod_pulse_counts_witness :
  tod_counter (tod (chip (cia_tod_pulse 5 (tod_board 0xfffffe 2)))) = 3 /\
  Z.testbit (icr_data (chip (cia_tod_pulse 5 (tod_board 0xfffffe 2)))) 2 = true.
Proof.
  split; [vm_compute; reflexivity|].
  apply (cia_tod_pulse_counts 5 (tod_board 0xfffffe 2)); [lia|closed_range|].
  right. exists 4. split; [lia|reflexivity].
Defined.

(** A read of the high, middle and low byte, in this order, returns one
    instant of the clock whatever number of pulses arrives between the reads:
    the high read latches the counter, the low read releases it, and the clock
    has not lost a pulse. *)
Theorem cia_tod_read_is_atomic n m w :
  0 <= n -> 0 <= m -> in_width 24 (tod_counter (tod (chip w))) ->
  let c := tod_counter (tod (chip w)) in
  let '(hi, w1) := cia_read_reg 0xa w in
  let '(mid, w2) := cia_read_reg 0x9 (cia_tod_pulse n w1) in
  let '(lo, w3) := cia_read_reg 0x8 (cia_tod_pulse m w2) in
  tod_word hi mid lo = c /\ tod_latched (tod (chip w3)) = false /\
  tod_counter (tod (chip w3)) = wrap 24 (c + n + m).
Proof.
  intros Hn Hm Hc. cbn zeta. rewrite read_todhi.
  set (w1 := on_chip _ w). destruct (pulse_spec n w1 Hn Hc) as [H1 _]. cbn zeta in H1.
  rewrite read_todmid by by rewrite H1.
  destruct (pulse_spec m (cia_tod_pulse n w1) Hm) as [H2 _].
  { rewrite H1. by apply wrap_range. }
  cbn zeta in H2. rewrite read_todlo by by rewrite H2, H1.
  rewrite H2, H1. split_and!; [by apply tod_word_bytes|done|]. cbn. rewrite H2, H1. cbn.
  by rewrite wrap_add_l by lia.
Qed.

Lemma cia_tod_read_is_atomic_witness :
  let '(hi, w1) := cia_read_reg 0xa (tod_board 0x12ffff 0) in
  let '(mid, w2) := cia_read_reg 0x9 (cia_tod_pulse 3 w1) in
  let '(lo, w3) := cia_read_reg 0x8 (cia_tod_pulse 1 w2) in
  tod_word hi mid lo = 0x12ffff /\ tod_latched (tod (chip w3)) = false /\
  tod_counter (tod (chip w3)) = wrap 24 (0x12ffff + 3 + 1).
Proof. apply (cia_tod_read_is_atomic 3 1 (tod_board 0x12ffff 0)); [lia|lia|closed_range]. Defined.

(** Setting the clock with three byte writes (CRB.ALARM clear, high byte
    first) stores the written value and marks the clock stopped until the low
    byte arrives; but the pulse input does not consult that mark, so pulses
    that arrive between the writes still advance the counter. *)
Theorem cia_tod_write_sets_counter hi mid lo w :
  is_u8 hi -> is_u8 mid -> is_u8 lo -> in_width 24 (tod_counter (tod (chip w))) ->
  has (crb (chip w)) CIA_CRB_ALARM = false ->
  let w1 := cia_write_reg 0xa hi w in
  let w2 := cia_write_reg 0x9 mid w1 in
  let w3 := cia_write_reg 0x8 lo w2 in
  tod_counter (tod (chip w3)) = tod_word hi mid lo /\
  tod_stopped (tod (chip w2)) = true /\ tod_stopped (tod (chip w3)) = false /\
  tod_counter (tod (chip (cia_tod_pulse 1 w2))) =
    wrap 24 (tod_counter (tod (chip w2)) + 1).
Proof.
  intros Hhi Hmid Hlo Hc Ha. cbn zeta.
  set (c := tod_counter (tod (chip w))) in *.
  assert (H : forall r v u, has (crb (chip u)) CIA_CRB_ALARM = false ->
            cia_reg r = CIA_REG_TODLO \/ cia_reg r = CIA_REG_TODMID \/ cia_reg r = CIA_REG_TODHI ->
            cia_reg_exact (r .& 0x0f) = cia_reg r ->
            chip (cia_write_reg r v u) =
              on_tod (fun t => t <| tod_counter := tod_write_byte (cia_reg r) (tod_counter t) v |>
                                 <| tod_stopped := negb (bool_decide (cia_reg r = CIA_REG_TODLO)) |>)
                     (chip u)).
  { intros r v u Hu Hr He. unfold cia_write_reg, cia_tod_write. rewrite He.
    destruct Hr as [Hr|[Hr|Hr]]; rewrite Hr; cbn; rewrite Hu; reflexivity. }
  set (w1 := cia_write_reg 0xa hi w). set (w2 := cia_write_reg 0x9 mid w1).
  assert (E1 : chip w1 = _) by (apply H; [done|right; by right|done]).
  assert (E2 : chip w2 = _) by (apply H; [by rewrite E1|right; by left|done]).
  rewrite (H 0x8 lo w2) by (rewrite ?E2, ?E1; cbn; tauto || done).
  assert (Hw2 : in_width 24 (tod_counter (tod (chip w2)))).
  { rewrite E2, E1. by apply tod_write_byte_range; [apply tod_write_byte_range|]. }
  destruct (pulse_spec 1 w2 ltac:(lia) Hw2) as [Hp _]. rewrite Hp.
  split_and!; [|by rewrite E2|done|done].
  rewrite E2, E1. cbn. by apply tod_write_bytes.
Qed.

Lemma cia_tod_write_sets_counter_witness :
  let w1 := cia_write_reg 0xa 0x12 (tod_board 0xabcdef 0) in
  let w2 := cia_write_reg 0x9 0x34 w1 in
  let w3 := cia_write_reg 0x8 0x56 w2 in
  tod_counter (tod (chip w3)) = tod_word 0x12 0x34 0x56 /\
  tod_stopped (tod (chip w2)) = true /\ tod_stopped (tod (chip w3)) = false /\
  tod_counter (tod (chip (cia_tod_pulse 1 w2))) =
    wrap 24 (tod_counter (tod (chip w2)) + 1).
Proof.
  apply (cia_tod_write_sets_counter 0x12 0x34 0x56 (tod_board 0xabcdef 0));
    first [closed_range|reflexivity].
Defined.
