(* ===== verification/ChipRam.v ===== *)
(** * Chip RAM

    The memory interface the host gives the library ([rigel_chip_ram_if_t]: two
    callbacks over an opaque pointer), the address masking of the chip bus and
    the mirroring of chip RAM in the register window of the chipset.

    The callbacks are the host's code, so the memory they act on is a type
    parameter [M] and the callbacks are fields of a record.  A read callback is
    a function of the memory: the interface gives reads no way to report a
    change.  [RamLaws] states what a host's memory promises; [word_ram] is a
    host memory that keeps the promise. *)

From stdpp Require Import gmap.
From S2P Require Import Prelude.

(** C: [src/include/rigel/rigel_config.h]:67-74 [rigel_chip_ram_if_t] *)
Record ChipRamIf (M : Type) := mkChipRam {
  read16 : option (M -> Z -> Z);
  write16 : option (M -> Z -> Z -> M);
}.
Arguments mkChipRam {M}.
Arguments read16 {M}.
Arguments write16 {M}.

(** What a memory promises: a word read back is the word written, other words
    keep their value, and a read gives 16 bits.  [dom] are the addresses the
    host decodes. *)
Class RamLaws {M : Type} (mem : ChipRamIf M) (rd : M -> Z -> Z) (wr : M -> Z -> Z -> M)
    (dom : Z -> Prop) : Prop := {
  ram_read16 : read16 mem = Some rd;
  ram_write16 : write16 mem = Some wr;
  ram_read_u16 m a : is_u16 (rd m a);
  ram_read_same m a v : dom a -> is_u16 v -> rd (wr m a v) a = v;
  ram_read_other m a b v : dom a -> dom b -> a <> b -> rd (wr m a v) b = rd m b;
}.

(** A host memory of 16-bit words. *)
Definition word_rd (m : gmap Z Z) (a : Z) : Z := u16 (default 0 (m !! a)).
Definition word_wr (m : gmap Z Z) (a v : Z) : gmap Z Z := <[a := v]> m.
Definition word_ram : ChipRamIf (gmap Z Z) := mkChipRam (Some word_rd) (Some word_wr).

#[export] Instance word_ram_laws dom : RamLaws word_ram word_rd word_wr dom.
Proof.
  split; [done|done| | |].
  - intros m a. unfold word_rd. by apply wrap_range.
  - intros m a v _ Hv. unfold word_rd, word_wr. rewrite lookup_insert_eq. by apply wrap_small.
  - intros m a b v _ _ Hab. unfold word_rd, word_wr. by rewrite lookup_insert_ne.
Qed.

(** ** The chip bus: [chip_bus.c] *)

(** C: [src/src/chipset/agnus/bus/chip_bus.h]:17-18 [CHIP_BUS_ECS_MASK] *)
Definition CHIP_BUS_ECS_MASK := 0x000fffff.

Section chip_bus.
  Context {M : Type} (rd : M -> Z -> Z) (wr : M -> Z -> Z -> M).

(** C: [src/src/chipset/agnus/bus/chip_bus.c] [chip_bus_read16] *)
Definition chip_bus_read16 (m : M) (addr : Z) : Z :=
  rd m (addr .& (CHIP_BUS_ECS_MASK .& u32 (~~ 1))).

(** C: [src/src/chipset/agnus/bus/chip_bus.c] [chip_bus_write16] *)
Definition chip_bus_write16 (m : M) (addr val : Z) : M :=
  wr m (addr .& (CHIP_BUS_ECS_MASK .& u32 (~~ 1))) val.

End chip_bus.

(** ** Mirroring of chip RAM: [rigel_context.c] *)

(** C: [src/include/rigel/rigel_config.h]:47-50 [rigel_chipset_model_t] *)
Inductive rigel_chipset_model := RIGEL_CHIPSET_OCS | RIGEL_CHIPSET_ECS.

#[export] Instance rigel_chipset_model_eq_dec : EqDecision rigel_chipset_model.
Proof. solve_decision. Defined.

(** The fields of [rigel_config_t] the mapping reads; [chip_ram] is the record
    of the host's callbacks.
    C: [src/include/rigel/rigel_config.h]:94-94 [rigel_config_t] *)
Record RamConfig := mkRamConfig {
  chip_ram_size : Z;
  chipset_model : rigel_chipset_model;
}.

(** C: [src/src/core/rigel_context.c] [rigel_context_chip_ram_visible_size] *)
Definition rigel_context_chip_ram_visible_size (c : RamConfig) : Z :=
  let model_limit :=
    if decide (chipset_model c = RIGEL_CHIPSET_ECS) then 0x00100000 else 0x00080000 in
  if negb (chip_ram_size c =? 0) && (chip_ram_size c <? model_limit)
  then chip_ram_size c else model_limit.

(** C: [src/src/core/rigel_context.c] [rigel_context_chip_ram_map_addr] *)
Definition rigel_context_chip_ram_map_addr (c : RamConfig) (addr : Z) : Z :=
  let visible_size := rigel_context_chip_ram_visible_size c in
  let addr := addr .& u32 (~~ 1) in
  if 0 <? visible_size then addr .& (visible_size - 1) else addr.

Section context.
  Context {M : Type} (host : ChipRamIf M) (c : RamConfig).

(** The result has the type of the callback's result, [rigel_u16].
    C: [src/src/core/rigel_context.c] [rigel_context_chip_ram_read16] *)
Definition rigel_context_chip_ram_read16 (m : M) (addr : Z) : Z :=
  match read16 host with
  | None => 0
  | Some rd => u16 (rd m (rigel_context_chip_ram_map_addr c addr))
  end.

(** C: [src/src/core/rigel_context.c] [rigel_context_chip_ram_write16] *)
Definition rigel_context_chip_ram_write16 (m : M) (addr value : Z) : M :=
  match write16 host with
  | None => m
  | Some wr => wr m (rigel_context_chip_ram_map_addr c addr) value
  end.

(** C: [src/src/core/rigel_context.c] [rigel_context_chip_ram] *)
Definition rigel_context_chip_ram : ChipRamIf M :=
  mkChipRam (Some rigel_context_chip_ram_read16) (Some rigel_context_chip_ram_write16).

End context.

(** ** Facts *)

Lemma visible_size_pos c :
  0 <= chip_ram_size c -> 0 < rigel_context_chip_ram_visible_size c <= 2 ^ 20.
Proof.
  intros H. unfold rigel_context_chip_ram_visible_size.
  destruct (Z.eqb_spec (chip_ram_size c) 0), (decide _); cbn;
    repeat match goal with |- context [?a <? ?b] => destruct (Z.ltb_spec a b) end; lia.
Qed.

Lemma land_even_mask a : is_u32 a -> a .& u32 (~~ 1) = a / 2 * 2.
Proof.
  intros Ha. apply Z.bits_inj'. intros i Hi.
  change (a / 2 * 2) with (a / 2 ^ 1 * 2 ^ 1).
  rewrite <- Z.shiftr_div_pow2, <- Z.shiftl_mul_pow2 by lia.
  autorewrite with bits. destruct (decide (i = 0)) as [->|].
  - literal_bits. apply andb_false_r.
  - rewrite Z.shiftr_spec by lia. replace (i - 1 + 1) with i by lia.
    destruct (decide (i < 32)); [|by rewrite (testbit_high 32 a) by (done || lia)].
    replace (i <? 32) with true by lia.
    rewrite (testbit_high 1 1) by (closed_range || lia). by rewrite andb_true_r.
Qed.

(** For a power-of-two size the mapping is reduction modulo the size, as the
    comment in the code says. *)
Lemma map_addr_pow2 c k addr :
  1 <= k -> is_u32 addr -> rigel_context_chip_ram_visible_size c = 2 ^ k ->
  rigel_context_chip_ram_map_addr c addr = (addr / 2 * 2) mod 2 ^ k.
Proof.
  intros Hk Ha Hs. unfold rigel_context_chip_ram_map_addr. rewrite Hs, land_even_mask by done.
  replace (0 <? 2 ^ k) with true by (symmetry; apply Z.ltb_lt; apply Z.pow_pos_nonneg; lia).
  replace (2 ^ k - 1) with (Z.ones k) by (by rewrite Z.ones_equiv, Z.sub_1_r).
  apply Z.land_ones. lia.
Qed.

(** ** Theorems *)

(** Chip RAM is mirrored.  When the visible size is a power of two, a word
    written through the chipset's view of chip RAM is read back at every address
    that is congruent to it modulo the size, and only there: the other even
    addresses keep their value. *)
Theorem chip_ram_mirrored {M} (host : ChipRamIf M) rd wr c k m a b v :
  RamLaws host rd wr (fun x => 0 <= x < 2 ^ k) -> 1 <= k -> is_u32 a -> is_u32 b -> is_u16 v ->
  rigel_context_chip_ram_visible_size c = 2 ^ k ->
  rigel_context_chip_ram_read16 host c (rigel_context_chip_ram_write16 host c m a v) b =
  if decide ((a / 2 * 2) mod 2 ^ k = (b / 2 * 2) mod 2 ^ k) then v
  else rigel_context_chip_ram_read16 host c m b.
Proof.
  intros L Hk Ha Hb Hv Hs.
  unfold rigel_context_chip_ram_read16, rigel_context_chip_ram_write16.
  rewrite (ram_read16 (mem := host)), (ram_write16 (mem := host)).
  rewrite !(map_addr_pow2 c k) by done.
  pose proof (Z.mod_pos_bound (a / 2 * 2) (2 ^ k) ltac:(apply Z.pow_pos_nonneg; lia)).
  pose proof (Z.mod_pos_bound (b / 2 * 2) (2 ^ k) ltac:(apply Z.pow_pos_nonneg; lia)).
  destruct (decide _) as [E|E].
  - rewrite <- E. rewrite (ram_read_same (RamLaws := L)) by done. by apply wrap_small.
  - by rewrite (ram_read_other (RamLaws := L)) by done.
Qed.

Lemma chip_ram_mirrored_witness :
  rigel_context_chip_ram_read16 word_ram (mkRamConfig 0 RIGEL_CHIPSET_OCS)
    (rigel_context_chip_ram_write16 word_ram (mkRamConfig 0 RIGEL_CHIPSET_OCS) ∅ 0x1001 0xbeef)
    0x81000 = 0xbeef.
Proof.
  apply (chip_ram_mirrored word_ram word_rd word_wr (mkRamConfig 0 RIGEL_CHIPSET_OCS)
           19 ∅ 0x1001 0x81000 0xbeef);
    [apply _|lia|closed_range|closed_range|closed_range|reflexivity].
Defined.

(** With a visible size that is not a power of two the mapping is not
    reduction modulo the size: it ANDs the address with size - 1, so distinct
    addresses inside the configured RAM are folded together.  For 768 KB on an
    ECS machine the second 256 KB block aliases the first. *)
Theorem chip_ram_mask_is_not_modulo a :
  0 <= a < 0x40000 ->
  let c := mkRamConfig 0xc0000 RIGEL_CHIPSET_ECS in
  rigel_context_chip_ram_visible_size c = 0xc0000 /\
  rigel_context_chip_ram_map_addr c (a + 0x40000) = rigel_context_chip_ram_map_addr c a.
Proof.
  intros Ha. cbn zeta. split; [reflexivity|].
  assert (Hs : rigel_context_chip_ram_visible_size (mkRamConfig 0xc0000 RIGEL_CHIPSET_ECS)
               = 0xc0000) by reflexivity.
  unfold rigel_context_chip_ram_map_addr. rewrite Hs. cbn.
  rewrite <- !Z.land_assoc. change (u32 (~~ 1) .& (0xc0000 - 1)) with (0xbfffe).
  replace (a + 0x40000) with (a .| 0x40000).
  - apply Z.bits_inj'. intros i Hi. autorewrite with bits.
    destruct (decide (i = 18)) as [->|]; [literal_bits; btauto|].
    change 0x40000 with (2 ^ 18). rewrite Z.pow2_bits_false by lia. btauto.
  - rewrite <- Z.add_lor_land. replace (a .& 0x40000) with 0; [by rewrite Z.add_0_r|].
    symmetry. apply Z.bits_inj'. intros i Hi. autorewrite with bits.
    destruct (decide (i = 18)) as [->|].
    + rewrite (testbit_high 18 a) by (unfold in_width; lia). done.
    + change 0x40000 with (2 ^ 18). rewrite Z.pow2_bits_false by lia. apply andb_false_r.
Qed.

Lemma chip_ram_mask_is_not_modulo_witness :
  rigel_context_chip_ram_map_addr (mkRamConfig 0xc0000 RIGEL_CHIPSET_ECS) (0x1234 + 0x40000) =
  rigel_context_chip_ram_map_addr (mkRamConfig 0xc0000 RIGEL_CHIPSET_ECS) 0x1234.
Proof. apply (chip_ram_mask_is_not_modulo 0x1234). lia. Defined.
