(* ===== verification/Blitter.v ===== *)
(** * The blitter: registers, commands and cost

    [agnus/blitter]: the data types, the register file ([blitter_regs.c],
    [domains/blitter]), the snapshot of the registers a BLTSIZE or BLTSIZH write
    freezes as a command ([blitter_command.c]) and its cost and completion
    ([blitter_timing.c]).  The execution of a command is in [BlitterRef] (the
    reference backend), [BlitterLine] (the incremental line drawer) and
    [BlitterDma] (the DMA slots). *)

From S2P Require Import Prelude.

(** C: [src/src/chipset/agnus/blitter/blitter_types.h]:24-24 [BLITTER_CHIP_ADDR_MASK] *)
Definition BLITTER_CHIP_ADDR_MASK := 0x001ffffe.
(** C: [src/src/chipset/agnus/blitter/blitter_types.h]:27-27 [BLITTER_INTREQ_BLIT] *)
Definition BLITTER_INTREQ_BLIT := 0x8040.
(** C: [src/src/chipset/agnus/blitter/blitter_types.h]:31-31 [BLITTER_DMACON_BLTNZERO] *)
Definition BLITTER_DMACON_BLTNZERO := 0x2000.
(** C: [src/src/chipset/agnus/blitter/blitter_types.h]:32-32 [BLITTER_DMACON_BLTBUSY] *)
Definition BLITTER_DMACON_BLTBUSY := 0x4000.
(** C: [src/src/chipset/agnus/blitter/blitter_types.h]:34-34 [BLITTER_CHANNEL_A] *)
Definition BLITTER_CHANNEL_A := 0x08.
(** C: [src/src/chipset/agnus/blitter/blitter_types.h]:35-35 [BLITTER_CHANNEL_B] *)
Definition BLITTER_CHANNEL_B := 0x04.
(** C: [src/src/chipset/agnus/blitter/blitter_types.h]:36-36 [BLITTER_CHANNEL_C] *)
Definition BLITTER_CHANNEL_C := 0x02.
(** C: [src/src/chipset/agnus/blitter/blitter_types.h]:37-37 [BLITTER_CHANNEL_D] *)
Definition BLITTER_CHANNEL_D := 0x01.

#[export] Hint Unfold BLITTER_CHIP_ADDR_MASK BLITTER_INTREQ_BLIT BLITTER_DMACON_BLTNZERO
  BLITTER_DMACON_BLTBUSY BLITTER_CHANNEL_A BLITTER_CHANNEL_B BLITTER_CHANNEL_C
  BLITTER_CHANNEL_D : consts.

(** C: [src/src/chipset/agnus/blitter/blitter_types.h]:39-42 [BlitterMode] *)
Inductive BlitterMode := BLITTER_MODE_COPY | BLITTER_MODE_LINE.

(** C: [src/src/chipset/agnus/blitter/blitter_types.h]:44-48 [BlitterFillMode] *)
Inductive BlitterFillMode :=
  BLITTER_FILL_NONE | BLITTER_FILL_INCLUSIVE | BLITTER_FILL_EXCLUSIVE.

(** C: [src/src/chipset/agnus/blitter/blitter_types.h]:50-54 [BlitterExecState] *)
Inductive BlitterExecState :=
  BLITTER_EXEC_IDLE | BLITTER_EXEC_PENDING | BLITTER_EXEC_RUNNING.

#[export] Instance BlitterMode_eq_dec : EqDecision BlitterMode.
Proof. solve_decision. Defined.

#[export] Instance BlitterExecState_eq_dec : EqDecision BlitterExecState.
Proof. solve_decision. Defined.

(** C: [src/src/chipset/agnus/blitter/blitter_types.h]:56-72 [BlitterLineState] *)
Record BlitterLineState := mkLine {
  ls_error : Z;
  ls_pattern : Z;
  ls_cpt : Z;
  step_index : Z;
  x_shift : Z;
  one_dot_count : Z;
  ls_last_cdat : Z;
  ls_last_ddat : Z;
  ls_zero : bool;
  ls_sign : bool;
  initialized : bool;
  pixel_slot_phase : Z;
}.

#[export] Instance eta_line : Eta BlitterLineState := fun s =>
  mkLine (ls_error s) (ls_pattern s) (ls_cpt s) (step_index s) (x_shift s)
    (one_dot_count s) (ls_last_cdat s) (ls_last_ddat s) (ls_zero s) (ls_sign s)
    (initialized s) (pixel_slot_phase s).

(** C: [src/src/chipset/agnus/blitter/blitter_types.h]:74-100 [BlitterRegs] *)
Record BlitterRegs := mkRegs {
  bltcon0 : Z; bltcon1 : Z;
  bltapt : Z; bltbpt : Z; bltcpt : Z; bltdpt : Z;
  bltamod : Z; bltbmod : Z; bltcmod : Z; bltdmod : Z;
  bltadat : Z; bltbdat : Z; bltcdat : Z; bltddat : Z; bltbhold : Z;
  bltafwm : Z; bltalwm : Z;
  bltsize : Z; bltsizh : Z; bltsizv : Z;
}.

#[export] Instance eta_regs : Eta BlitterRegs := fun r =>
  mkRegs (bltcon0 r) (bltcon1 r) (bltapt r) (bltbpt r) (bltcpt r) (bltdpt r)
    (bltamod r) (bltbmod r) (bltcmod r) (bltdmod r) (bltadat r) (bltbdat r)
    (bltcdat r) (bltddat r) (bltbhold r) (bltafwm r) (bltalwm r) (bltsize r)
    (bltsizh r) (bltsizv r).

(** C: [src/src/chipset/agnus/blitter/blitter_types.h]:102-149 [BlitCommand] *)
Record BlitCommand := mkCmd {
  cmd_apt : Z; cmd_bpt : Z; cmd_cpt : Z; cmd_dpt : Z;
  amod : Z; bmod : Z; cmod : Z; dmod : Z;
  adat : Z; bdat : Z; cdat : Z; bhold : Z;
  afwm : Z; alwm : Z;
  width_words : Z; height_lines : Z;
  minterm : Z; ashift : Z; bshift : Z;
  use_a : bool; use_b : bool; use_c : bool; use_d : bool;
  descending : bool; fill_carry_in : bool;
  line_octant : Z; line_start_bit : Z;
  line_single_dot : bool; line_initial_sign : bool;
  mode : BlitterMode; fill_mode : BlitterFillMode;
}.

#[export] Instance eta_cmd : Eta BlitCommand := fun c =>
  mkCmd (cmd_apt c) (cmd_bpt c) (cmd_cpt c) (cmd_dpt c) (amod c) (bmod c) (cmod c)
    (dmod c) (adat c) (bdat c) (cdat c) (bhold c) (afwm c) (alwm c) (width_words c)
    (height_lines c) (minterm c) (ashift c) (bshift c) (use_a c) (use_b c) (use_c c)
    (use_d c) (descending c) (fill_carry_in c) (line_octant c) (line_start_bit c)
    (line_single_dot c) (line_initial_sign c) (mode c) (fill_mode c).

(** C: [src/src/chipset/agnus/blitter/blitter_types.h]:151-164 [BlitterResult] *)
Record BlitterResult := mkResult {
  final_apt : Z; final_bpt : Z; final_cpt : Z; final_dpt : Z;
  final_adat : Z; final_bdat : Z; final_cdat : Z; final_ddat : Z; final_bhold : Z;
  result_zero : bool;
}.

#[export] Instance eta_result : Eta BlitterResult := fun r =>
  mkResult (final_apt r) (final_bpt r) (final_cpt r) (final_dpt r) (final_adat r)
    (final_bdat r) (final_cdat r) (final_ddat r) (final_bhold r) (result_zero r).

(** C: [src/src/chipset/agnus/blitter/blitter.h]:43-65 [BlitterState] *)
Record BlitterState := mkBlitter {
  regs : BlitterRegs;
  blt_cmd : BlitCommand;
  result : BlitterResult;
  exec_state : BlitterExecState;
  command_valid : bool;
  blt_busy : bool;
  cycles_remaining : Z;
  dma_slots_consumed : Z;
  debug_trace : bool;
  cycle_exact : bool;
  line_state : BlitterLineState;
}.

#[export] Instance eta_blitter : Eta BlitterState := fun b =>
  mkBlitter (regs b) (blt_cmd b) (result b) (exec_state b) (command_valid b) (blt_busy b)
    (cycles_remaining b) (dma_slots_consumed b) (debug_trace b) (cycle_exact b)
    (line_state b).

(** The values [memset] leaves. *)
Definition line_zero : BlitterLineState :=
  mkLine 0 0 0 0 0 0 0 0 false false false 0.
Definition regs_zero : BlitterRegs :=
  mkRegs 0 0 0 0 0 0 0 0 0 0 0 0 0 0 0 0 0 0 0 0.
Definition result_0 : BlitterResult := mkResult 0 0 0 0 0 0 0 0 0 false.
Definition cmd_zero : BlitCommand :=
  mkCmd 0 0 0 0 0 0 0 0 0 0 0 0 0 0 0 0 0 0 0 false false false false false false
    0 0 false false BLITTER_MODE_COPY BLITTER_FILL_NONE.

(** ** Commands: [blitter_command.c] *)

(** C: [src/src/chipset/agnus/blitter/blitter_command.c] [decode_mode] *)
Definition decode_mode (bltcon1 : Z) : BlitterMode :=
  if has bltcon1 0x0001 then BLITTER_MODE_LINE else BLITTER_MODE_COPY.

(** C: [src/src/chipset/agnus/blitter/blitter_command.c] [decode_fill_mode] *)
Definition decode_fill_mode (bltcon1 : Z) : BlitterFillMode :=
  match (bltcon1 .>> 3) .& 0x03 with
  | 1 => BLITTER_FILL_INCLUSIVE
  | 2 => BLITTER_FILL_EXCLUSIVE
  | _ => BLITTER_FILL_NONE
  end.

(** C: [src/src/chipset/agnus/blitter/blitter_command.c]:40-86 [blitter_build_command] *)
Definition command_of (r : BlitterRegs) : BlitCommand := {|
  cmd_apt := bltapt r .& BLITTER_CHIP_ADDR_MASK;
  cmd_bpt := bltbpt r .& BLITTER_CHIP_ADDR_MASK;
  cmd_cpt := bltcpt r .& BLITTER_CHIP_ADDR_MASK;
  cmd_dpt := bltdpt r .& BLITTER_CHIP_ADDR_MASK;
  amod := bltamod r;
  bmod := bltbmod r;
  cmod := bltcmod r;
  dmod := bltdmod r;
  adat := bltadat r;
  bdat := bltbdat r;
  cdat := bltcdat r;
  bhold := bltbhold r;
  afwm := bltafwm r;
  alwm := bltalwm r;
  width_words := bltsizh r;
  height_lines := bltsizv r;
  use_a := has (bltcon0 r) (BLITTER_CHANNEL_A .<< 8);
  use_b := has (bltcon0 r) (BLITTER_CHANNEL_B .<< 8);
  use_c := has (bltcon0 r) (BLITTER_CHANNEL_C .<< 8);
  use_d := has (bltcon0 r) (BLITTER_CHANNEL_D .<< 8);
  minterm := bltcon0 r .& 0x00ff;
  ashift := (bltcon0 r .>> 12) .& 0x0f;
  bshift := (bltcon1 r .>> 12) .& 0x0f;
  descending := has (bltcon1 r) 0x0002;
  fill_mode := decode_fill_mode (bltcon1 r);
  fill_carry_in := has (bltcon1 r) 0x0004;
  line_octant := (bltcon1 r .>> 2) .& 0x07;
  line_start_bit := (bltcon0 r .>> 12) .& 0x0f;
  line_single_dot := has (bltcon1 r) 0x0002;
  line_initial_sign := has (bltcon1 r) 0x0040;
  mode := decode_mode (bltcon1 r);
|}.

(** C: [src/src/chipset/agnus/blitter/blitter_command.c]:33-88 [blitter_build_command] *)
Definition blitter_build_command (b : BlitterState) : BlitterState :=
  b <| blt_cmd := command_of (regs b) |> <| command_valid := true |>.

(** ** Cost and completion: [blitter_timing.c] *)

(** C: [src/src/chipset/agnus/blitter/blitter_timing.c] [blitter_active_channel_count] *)
Definition blitter_active_channel_count (c : BlitCommand) : Z :=
  let channels := b2u (use_a c) + b2u (use_b c) + b2u (use_c c) + b2u (use_d c) in
  if channels =? 0 then 1 else channels.

(** C: [src/src/chipset/agnus/blitter/blitter_timing.c] [blitter_word_cost] *)
Definition blitter_word_cost (c : BlitCommand) : Z :=
  let cost := blitter_active_channel_count c in
  if use_d c && negb (use_c c) then u32 (cost + 1) else cost.

(** C: [src/src/chipset/agnus/blitter/blitter_timing.c] [blitter_estimate_cycles] *)
Definition blitter_estimate_cycles (c : BlitCommand) (cycle_exact : bool) : Z :=
  let cycles :=
    match mode c with
    | BLITTER_MODE_LINE =>
        if cycle_exact then u32 (height_lines c * 2) else height_lines c
    | BLITTER_MODE_COPY =>
        let words := u32 (width_words c * height_lines c) in
        if cycle_exact then u32 (words * blitter_word_cost c) else words
    end in
  if cycles =? 0 then 1 else cycles.

(** C: [src/src/chipset/agnus/blitter/blitter_timing.c] [blitter_start_timing] *)
Definition blitter_start_timing (b : BlitterState) : BlitterState :=
  b <| blt_busy := true |>
    <| exec_state := BLITTER_EXEC_PENDING |>
    <| result := result_0 <| result_zero := true |> |>
    <| line_state := line_zero |>
    <| dma_slots_consumed := 0 |>
    <| cycles_remaining := blitter_estimate_cycles (blt_cmd b) (cycle_exact b) |>.

(** C: [src/src/chipset/agnus/blitter/blitter_timing.c] [blitter_begin_command] *)
Definition blitter_begin_command (b : BlitterState) : BlitterState :=
  blitter_start_timing (blitter_build_command b).

(** C: [src/src/chipset/agnus/blitter/blitter_timing.c] [blitter_publish_result] *)
Definition blitter_publish_result (b : BlitterState) : BlitterState :=
  let f := result b in
  b <| regs := (regs b)
         <| bltapt := final_apt f |> <| bltbpt := final_bpt f |>
         <| bltcpt := final_cpt f |> <| bltdpt := final_dpt f |>
         <| bltadat := final_adat f |> <| bltbdat := final_bdat f |>
         <| bltcdat := final_cdat f |> <| bltddat := final_ddat f |>
         <| bltbhold := final_bhold f |> |>.

(** The interrupt sink is a callback of the chipset over an opaque pointer: a
    function on the state [I] the pointer designates.
    C: [src/src/chipset/agnus/blitter/blitter_types.h]:168-173 [BlitterIrqSink] *)
Definition BlitterIrqSink (I : Type) := option (I -> Z -> I).

(** C: [src/src/chipset/agnus/blitter/blitter_timing.c] [blitter_force_finish] *)
Definition blitter_force_finish {I} (b : BlitterState) (irq : BlitterIrqSink I) (i : I) :
    BlitterState * I :=
  (b <| blt_busy := false |> <| exec_state := BLITTER_EXEC_IDLE |> <| cycles_remaining := 0 |>,
   match irq with
   | Some raise => raise i BLITTER_INTREQ_BLIT
   | None => i
   end).

(** ** Registers: [blitter_regs.c] and [blitter_domain.c] *)

(** C: [src/src/chipset/agnus/blitter/blitter_regs.c] [make_ptr] *)
Definition make_ptr (old_value value : Z) (high : bool) : Z :=
  if high then u32 (value .<< 16) .| (old_value .& 0x0000ffff)
  else (old_value .& 0xffff0000) .| (value .& 0xfffe).

(** C: [src/src/chipset/agnus/blitter/blitter_regs.c] [make_b_hold] *)
Definition make_b_hold (r : BlitterRegs) (value : Z) : Z :=
  let shift := (bltcon1 r .>> 12) .& 0x0f in
  if shift =? 0 then value
  else if has (bltcon1 r) 0x0002
  then u16 ((u32 (value .<< 16) .| bltbdat r) .>> (16 - shift))
  else u16 ((u32 (bltbdat r .<< 16) .| value) .>> shift).

(** C: [src/src/chipset/agnus/blitter/blitter_regs.c] [blitter_init] *)
Definition blitter_init (b : BlitterState) : BlitterState :=
  mkBlitter (regs_zero <| bltafwm := 0xffff |> <| bltalwm := 0xffff |>) cmd_zero
    (result_0 <| result_zero := true |>) BLITTER_EXEC_IDLE false false 0 0 false false
    line_zero.

(** C: [src/src/chipset/agnus/blitter/blitter_regs.c] [blitter_reset] *)
Definition blitter_reset (b : BlitterState) : BlitterState := blitter_init b.

(** C: [src/src/chipset/agnus/blitter/blitter_regs.c] [blitter_is_busy] *)
Definition blitter_is_busy (b : BlitterState) : Z := if blt_busy b then 1 else 0.

(** C: [src/src/chipset/agnus/blitter/blitter_regs.c] [blitter_read_reg16] *)
Definition blitter_read_reg16 (b : BlitterState) (custom_offset : Z) : Z :=
  let r := regs b in
  match custom_offset with
  | 0x040 => bltcon0 r
  | 0x042 => bltcon1 r
  | 0x044 => bltafwm r
  | 0x046 => bltalwm r
  | 0x064 => u16 (bltamod r)
  | 0x062 => u16 (bltbmod r)
  | 0x060 => u16 (bltcmod r)
  | 0x066 => u16 (bltdmod r)
  | 0x074 => bltadat r
  | 0x072 => bltbdat r
  | 0x070 => bltcdat r
  | 0x000 => bltddat r
  | 0x058 => bltsize r
  | 0x002 =>
      (if blt_busy b then BLITTER_DMACON_BLTBUSY else 0)
      .| (if result_zero (result b) then BLITTER_DMACON_BLTNZERO else 0)
  | _ => 0
  end.

Definition on_regs (f : BlitterRegs -> BlitterRegs) (b : BlitterState) : BlitterState :=
  b <| regs := f (regs b) |>.

(** C: [src/src/chipset/agnus/blitter/blitter_regs.c] [blitter_write_reg16] *)
Definition blitter_write_reg16 (b : BlitterState) (custom_offset value : Z) : BlitterState :=
  match custom_offset with
  | 0x040 => on_regs (fun r => r <| bltcon0 := value |>) b
  | 0x042 => on_regs (fun r => r <| bltcon1 := value |>) b
  | 0x05a =>
      on_regs (fun r => r <| bltcon0 := (bltcon0 r .& 0xff00) .| (value .& 0x00ff) |>) b
  | 0x044 => on_regs (fun r => r <| bltafwm := value |>) b
  | 0x046 => on_regs (fun r => r <| bltalwm := value |>) b
  | 0x064 => on_regs (fun r => r <| bltamod := i16 value |>) b
  | 0x062 => on_regs (fun r => r <| bltbmod := i16 value |>) b
  | 0x060 => on_regs (fun r => r <| bltcmod := i16 value |>) b
  | 0x066 => on_regs (fun r => r <| bltdmod := i16 value |>) b
  | 0x074 => on_regs (fun r => r <| bltadat := value |>) b
  | 0x072 => on_regs (fun r => r <| bltbhold := make_b_hold r value |> <| bltbdat := value |>) b
  | 0x070 => on_regs (fun r => r <| bltcdat := value |>) b
  | 0x000 => on_regs (fun r => r <| bltddat := value |>) b
  | 0x050 => on_regs (fun r => r <| bltapt := make_ptr (bltapt r) value true |>) b
  | 0x052 => on_regs (fun r => r <| bltapt := make_ptr (bltapt r) value false |>) b
  | 0x04c => on_regs (fun r => r <| bltbpt := make_ptr (bltbpt r) value true |>) b
  | 0x04e => on_regs (fun r => r <| bltbpt := make_ptr (bltbpt r) value false |>) b
  | 0x048 => on_regs (fun r => r <| bltcpt := make_ptr (bltcpt r) value true |>) b
  | 0x04a => on_regs (fun r => r <| bltcpt := make_ptr (bltcpt r) value false |>) b
  | 0x054 => on_regs (fun r => r <| bltdpt := make_ptr (bltdpt r) value true |>) b
  | 0x056 => on_regs (fun r => r <| bltdpt := make_ptr (bltdpt r) value false |>) b
  | 0x058 =>
      let h := value .& 0x003f in
      let v := (value .>> 6) .& 0x03ff in
      blitter_begin_command
        (on_regs (fun r => r <| bltsize := value |>
                             <| bltsizh := if h =? 0 then 64 else h |>
                             <| bltsizv := if v =? 0 then 1024 else v |>) b)
  | 0x05c =>
      let v := value .& 0x7fff in
      on_regs (fun r => r <| bltsizv := if v =? 0 then 32768 else v |>) b
  | 0x05e =>
      let h := value .& 0x07ff in
      blitter_begin_command
        (on_regs (fun r => r <| bltsizh := if h =? 0 then 2048 else h |>) b)
  | _ => b
  end.

(** C: [src/src/domains/blitter/blitter_domain.c] [rigel_blitter_domain_owns_reg] *)
Definition rigel_blitter_domain_owns_reg (addr : Z) : bool :=
  bool_decide (addr ∈ [0x000; 0x002; 0x040; 0x042; 0x044; 0x046; 0x048; 0x04a; 0x04c;
    0x04e; 0x050; 0x052; 0x054; 0x056; 0x058; 0x05a; 0x05c; 0x05e; 0x060; 0x062; 0x064;
    0x066; 0x070; 0x072; 0x074]).

(** C: [src/src/domains/blitter/blitter_domain.c] [rigel_blitter_domain_reset] *)
Definition rigel_blitter_domain_reset (b : BlitterState) : BlitterState := blitter_reset b.

(** C: [src/src/domains/blitter/blitter_domain.c] [rigel_blitter_domain_read_reg] *)
Definition rigel_blitter_domain_read_reg (b : BlitterState) (addr : Z) : Z :=
  blitter_read_reg16 b addr.

(** C: [src/src/domains/blitter/blitter_domain.c] [rigel_blitter_domain_write_reg] *)
Definition rigel_blitter_domain_write_reg (b : BlitterState) (addr value : Z) : BlitterState :=
  blitter_write_reg16 b addr value.

(** C: [src/src/chipset/agnus/blitter/blitter_debug.c] [blitter_debug_set_trace] *)
Definition blitter_debug_set_trace (b : BlitterState) (enabled : bool) : BlitterState :=
  b <| debug_trace := enabled |>.
