(* ===== verification/BlitterRef.v ===== *)
(** * The blitter's reference backend

    [blitter_ref.c], [blitter_logic.c] and [blitter_fill.c]: the minterm logic,
    the barrel shifter, the fill unit, and the execution of a whole copy or line
    command against chip RAM. *)

From S2P Require Import Prelude ChipRam Blitter.

(** ** The logic unit *)

(** C: [src/src/chipset/agnus/blitter/blitter_ref.c] [blitter_logic] *)
Definition blitter_logic (mt A B C : Z) : Z :=
  let na := u16 (~~ A) in
  let nb := u16 (~~ B) in
  let nc := u16 (~~ C) in
  let term m x D := if has mt m then D .| x else D in
  term 0x01 (na .& nb .& nc)
  (term 0x02 (na .& nb .& C)
  (term 0x04 (na .& B .& nc)
  (term 0x08 (na .& B .& C)
  (term 0x10 (A .& nb .& nc)
  (term 0x20 (A .& nb .& C)
  (term 0x40 (A .& B .& nc)
  (term 0x80 (A .& B .& C) 0))))))).

(** The body of the loop of [blitter_logic_minterm].
    C: [src/src/chipset/agnus/blitter/blitter_logic.c]:6-13 [blitter_logic_minterm] *)
Definition minterm_bit (mt a b c bit result : Z) : Z :=
  let ab := (a .>> bit) .& 1 in
  let bb := (b .>> bit) .& 1 in
  let cb := (c .>> bit) .& 1 in
  let idx := (ab .<< 2) .| (bb .<< 1) .| cb in
  if has (mt .>> idx) 1 then result .| u16 (1 .<< bit) else result.

(** C: [src/src/chipset/agnus/blitter/blitter_logic.c] [blitter_logic_minterm] *)
Definition blitter_logic_minterm (mt a b c : Z) : Z :=
  foldl (fun result bit => minterm_bit mt a b c bit result) 0 (seqZ 0 16).

(** ** The barrel shifter *)

(** C: [src/src/chipset/agnus/blitter/blitter_ref.c] [shift_ascending] *)
Definition shift_ascending (previous current shift : Z) : Z :=
  if shift =? 0 then current
  else u16 ((previous .<< (16 - shift)) .| (current .>> shift)).

(** C: [src/src/chipset/agnus/blitter/blitter_ref.c] [shift_descending] *)
Definition shift_descending (previous current shift : Z) : Z :=
  if shift =? 0 then current
  else u16 ((previous .>> (16 - shift)) .| (current .<< shift)).

(** C: [src/src/chipset/agnus/blitter/blitter_ref.c] [blitter_apply_shift] *)
Definition blitter_apply_shift (desc : bool) (previous current shift : Z) : Z :=
  if desc then shift_descending previous current shift
  else shift_ascending previous current shift.

(** ** The fill unit *)

(** One iteration of the loops of [blitter_fill_word], on the bit [i]; the state
    is the result so far and the carry.
    C: [src/src/chipset/agnus/blitter/blitter_ref.c]:138-152 [blitter_fill_word] *)
Definition fill_bit (inclusive : bool) (d : Z) (s : Z * Z) (i : Z) : Z * Z :=
  let '(res, c) := s in
  let bit := (d .>> i) .& 1 in
  if inclusive then
    let c := if truthy bit then c .^ 1 else c in
    (if truthy c then res .| u16 (1 .<< i) else res, c)
  else
    let res := if truthy (c .^ bit) then res .| u16 (1 .<< i) else res in
    (res, if truthy bit then c .^ 1 else c).

(** The result and the carry out.
    C: [src/src/chipset/agnus/blitter/blitter_ref.c] [blitter_fill_word] *)
Definition blitter_fill_word (d carry : Z) (inclusive desc : bool) : Z * Z :=
  foldl (fill_bit inclusive d) (0, carry)
    (if desc then seqZ 0 16 else reverse (seqZ 0 16)).

(** The stand-alone fill unit of [blitter_fill.c], which the backend does not
    call.
    C: [src/src/chipset/agnus/blitter/blitter_fill.c]:3-19 [blitter_fill_word] *)
Definition blitter_fill_word_unit (word : Z) (fm : BlitterFillMode) (carry : bool) : Z * bool :=
  foldl (fun '(res, c) bit =>
           let pixel := has (word .>> bit) 1 in
           let c := if pixel then negb c else c in
           let out := match fm with
                      | BLITTER_FILL_INCLUSIVE => c
                      | _ => c && negb pixel
                      end in
           (if out then res .| u16 (1 .<< bit) else res, c))
    (0, carry) (reverse (seqZ 0 16)).

(** C: [src/src/chipset/agnus/blitter/blitter_ref.c] [blitter_apply_fill] *)
Definition blitter_apply_fill (c : BlitCommand) (value fill_carry : Z) : Z * Z :=
  match fill_mode c with
  | BLITTER_FILL_INCLUSIVE => blitter_fill_word value fill_carry true (descending c)
  | BLITTER_FILL_EXCLUSIVE => blitter_fill_word value fill_carry false (descending c)
  | BLITTER_FILL_NONE => (value, fill_carry)
  end.

(** C: [src/src/chipset/agnus/blitter/blitter_ref.c] [blitter_apply_a_masks] *)
Definition blitter_apply_a_masks (c : BlitCommand) (value word_index : Z) : Z :=
  let value := if word_index =? 0 then value .& afwm c else value in
  if u32 (word_index + 1) =? width_words c then value .& alwm c else value.

(** ** Copy state *)

(** C: [src/src/chipset/agnus/blitter/blitter_ref.c]:243-257 [BlitterCopyState] *)
Record BlitterCopyState := mkCopy {
  cs_apt : Z; cs_bpt : Z; cs_cpt : Z; cs_dpt : Z;
  previous_a : Z; previous_b : Z; cs_bhold : Z;
  last_adat : Z; last_bdat : Z; last_cdat : Z; last_ddat : Z;
  fill_carry : Z;
  cs_zero : bool;
}.

#[export] Instance eta_copy : Eta BlitterCopyState := fun s =>
  mkCopy (cs_apt s) (cs_bpt s) (cs_cpt s) (cs_dpt s) (previous_a s) (previous_b s)
    (cs_bhold s) (last_adat s) (last_bdat s) (last_cdat s) (last_ddat s) (fill_carry s)
    (cs_zero s).

(** C: [src/src/chipset/agnus/blitter/blitter_ref.c] [blitter_copy_state_init] *)
Definition blitter_copy_state_init (c : BlitCommand) : BlitterCopyState := {|
  cs_apt := cmd_apt c; cs_bpt := cmd_bpt c; cs_cpt := cmd_cpt c; cs_dpt := cmd_dpt c;
  previous_a := 0; previous_b := 0; cs_bhold := bhold c;
  last_adat := adat c; last_bdat := bdat c; last_cdat := cdat c; last_ddat := 0;
  fill_carry := b2u (fill_carry_in c);
  cs_zero := true;
|}.

(** C: [src/src/chipset/agnus/blitter/blitter_ref.c] [blitter_copy_advance_line] *)
Definition blitter_copy_advance_line (c : BlitCommand) (s : BlitterCopyState) :
    BlitterCopyState :=
  if descending c then
    s <| cs_apt := u32 (cs_apt s - amod c) |> <| cs_bpt := u32 (cs_bpt s - bmod c) |>
      <| cs_cpt := u32 (cs_cpt s - cmod c) |> <| cs_dpt := u32 (cs_dpt s - dmod c) |>
  else
    s <| cs_apt := u32 (cs_apt s + amod c) |> <| cs_bpt := u32 (cs_bpt s + bmod c) |>
      <| cs_cpt := u32 (cs_cpt s + cmod c) |> <| cs_dpt := u32 (cs_dpt s + dmod c) |>.

(** C: [src/src/chipset/agnus/blitter/blitter_ref.c] [blitter_copy_publish_result] *)
Definition blitter_copy_publish_result (s : BlitterCopyState) : BlitterResult := {|
  final_apt := cs_apt s; final_bpt := cs_bpt s; final_cpt := cs_cpt s; final_dpt := cs_dpt s;
  final_adat := last_adat s; final_bdat := last_bdat s; final_cdat := last_cdat s;
  final_ddat := last_ddat s; final_bhold := cs_bhold s;
  result_zero := cs_zero s;
|}.

(** ** Execution *)

Section execution.
  Context {M : Type} (mem : ChipRamIf M).

(** C: [src/src/chipset/agnus/blitter/blitter_ref.c] [chip_read16] *)
Definition chip_read16 (m : M) (addr : Z) : Z :=
  let addr := addr .& BLITTER_CHIP_ADDR_MASK in
  match read16 mem with Some rd => rd m addr | None => 0 end.

(** C: [src/src/chipset/agnus/blitter/blitter_ref.c] [chip_write16] *)
Definition chip_write16 (m : M) (addr value : Z) : M :=
  let addr := addr .& BLITTER_CHIP_ADDR_MASK in
  match write16 mem with Some wr => wr m addr value | None => m end.

(** The value, the advanced pointer and the last word seen on the channel.
    C: [src/src/chipset/agnus/blitter/blitter_ref.c] [blitter_fetch_word] *)
Definition blitter_fetch_word (m : M) (enabled : bool) (ptr increment latched last : Z) :
    Z * Z * Z :=
  if enabled then
    let value := chip_read16 m ptr in (value, u32 (ptr + increment), value)
  else (latched, ptr, last).

(** The variables of [execute_copy_mode] with the memory.
    C: [src/src/chipset/agnus/blitter/blitter_ref.c]:453-457 [execute_copy_mode] *)
Record CopyRun := mkCopyRun {
  cstate : BlitterCopyState;
  pending_dpt : Z;
  pending_ddat : Z;
  pending_d : bool;
  copy_ram : M;
}.

#[global] Instance eta_copyrun : Eta CopyRun := fun s =>
  mkCopyRun (cstate s) (pending_dpt s) (pending_ddat s) (pending_d s) (copy_ram s).

(** C: [src/src/chipset/agnus/blitter/blitter_ref.c]:454-454 [execute_copy_mode] *)
Definition copy_increment (c : BlitCommand) : Z := if descending c then -2 else 2.

(** The write of the previous word's D, if there is one.
    C: [src/src/chipset/agnus/blitter/blitter_ref.c]:528-531 [execute_copy_mode] *)
Definition flush_d (r : CopyRun) : CopyRun :=
  if pending_d r
  then r <| copy_ram := chip_write16 (copy_ram r) (pending_dpt r) (pending_ddat r) |>
         <| pending_d := false |>
  else r.

(** The three fetches of the word [x] of a line, the A masks and the shifters;
    gives the inputs A, B, C of the logic unit and the new state.
    C: [src/src/chipset/agnus/blitter/blitter_ref.c]:471-526 [execute_copy_mode] *)
Definition copy_fetch (c : BlitCommand) (x : Z) (m : M) (s : BlitterCopyState) :
    Z * Z * Z * BlitterCopyState :=
  let increment := copy_increment c in
  let '(raw_adat, apt, last_a) :=
    blitter_fetch_word m (use_a c) (cs_apt s) increment (adat c) (last_adat s) in
  let a := blitter_apply_a_masks c raw_adat x in
  let '(b, bpt, last_b) :=
    blitter_fetch_word m (use_b c) (cs_bpt s) increment (bdat c) (last_bdat s) in
  let '(cd, cpt, last_c) :=
    blitter_fetch_word m (use_c c) (cs_cpt s) increment (cdat c) (last_cdat s) in
  let A := blitter_apply_shift (descending c) (previous_a s) a (ashift c) in
  let s := s <| cs_apt := apt |> <| last_adat := last_a |>
             <| cs_bpt := bpt |> <| last_bdat := last_b |>
             <| cs_cpt := cpt |> <| last_cdat := last_c |>
             <| previous_a := a |> in
  if use_b c then
    let hold := blitter_apply_shift (descending c) (previous_b s) b (bshift c) in
    (A, hold, cd, s <| cs_bhold := hold |> <| previous_b := b |>)
  else (A, cs_bhold s, cd, s).

(** The logic, the fill and the D channel for the inputs of one word.
    C: [src/src/chipset/agnus/blitter/blitter_ref.c]:533-547 [execute_copy_mode] *)
Definition copy_output (c : BlitCommand) (A B C : Z) (s : BlitterCopyState) :
    Z * BlitterCopyState :=
  let '(D, carry) := blitter_apply_fill c (blitter_logic (minterm c) A B C) (fill_carry s) in
  (D, s <| fill_carry := carry |>
        <| cs_zero := if D =? 0 then cs_zero s else false |>
        <| cs_dpt := if use_d c then u32 (cs_dpt s + copy_increment c) else cs_dpt s |>
        <| last_ddat := D |>).

(** One iteration of the inner loop: the fetches see the memory before the
    pending write of the previous word.
    C: [src/src/chipset/agnus/blitter/blitter_ref.c]:470-548 [execute_copy_mode] *)
Definition copy_word (c : BlitCommand) (r : CopyRun) (x : Z) : CopyRun :=
  let '(A, B, C, s) := copy_fetch c x (copy_ram r) (cstate r) in
  let r := flush_d r in
  let dpt := cs_dpt s in
  let '(D, s) := copy_output c A B C s in
  if use_d c
  then mkCopyRun s dpt D true (copy_ram r)
  else r <| cstate := s |>.

(** One iteration of the outer loop.
    C: [src/src/chipset/agnus/blitter/blitter_ref.c]:467-551 [execute_copy_mode] *)
Definition copy_line (c : BlitCommand) (r : CopyRun) : CopyRun :=
  let r := r <| cstate := (cstate r) <| fill_carry := b2u (fill_carry_in c) |> |> in
  let r := foldl (copy_word c) r (seqZ 0 (width_words c)) in
  r <| cstate := blitter_copy_advance_line c (cstate r) |>.

(** C: [src/src/chipset/agnus/blitter/blitter_ref.c] [execute_copy_mode] *)
Definition execute_copy_mode (c : BlitCommand) (m : M) : BlitterResult * M :=
  let r := mkCopyRun (blitter_copy_state_init c) 0 0 false m in
  let r := flush_d (Nat.iter (Z.to_nat (height_lines c)) (copy_line c) r) in
  (blitter_copy_publish_result (cstate r), copy_ram r).

(** The variables of [execute_line_mode] with the memory; [lr_ddat] is
    [result->final_ddat].
    C: [src/src/chipset/agnus/blitter/blitter_ref.c]:318-326 [execute_line_mode] *)
Record LineRun := mkLineRun {
  lr_error : Z;
  lr_x_shift : Z;
  lr_one_dot_count : Z;
  lr_pattern : Z;
  lr_cpt : Z;
  lr_zero : bool;
  lr_sign : bool;
  lr_cdat : Z;
  lr_ddat : Z;
  line_ram : M;
}.

#[global] Instance eta_linerun : Eta LineRun := fun s =>
  mkLineRun (lr_error s) (lr_x_shift s) (lr_one_dot_count s) (lr_pattern s) (lr_cpt s)
    (lr_zero s) (lr_sign s) (lr_cdat s) (lr_ddat s) (line_ram s).

(** C: [src/src/chipset/agnus/blitter/blitter_ref.c]:389-394 [execute_line_mode] *)
Definition lr_decx (r : LineRun) : LineRun :=
  if lr_x_shift r =? 0
  then r <| lr_x_shift := 15 |> <| lr_cpt := u32 (lr_cpt r - 2) .& BLITTER_CHIP_ADDR_MASK |>
  else r <| lr_x_shift := u8 (lr_x_shift r - 1) |>.

(** C: [src/src/chipset/agnus/blitter/blitter_ref.c]:396-400 [execute_line_mode] *)
Definition lr_incx (r : LineRun) : LineRun :=
  let r := r <| lr_x_shift := u8 (lr_x_shift r + 1) |> in
  if lr_x_shift r =? 16
  then r <| lr_x_shift := 0 |> <| lr_cpt := u32 (lr_cpt r + 2) .& BLITTER_CHIP_ADDR_MASK |>
  else r.

(** C: [src/src/chipset/agnus/blitter/blitter_ref.c]:382-387 [execute_line_mode] *)
Definition lr_movey (delta : Z) (r : LineRun) : LineRun :=
  r <| lr_cpt := u32 (lr_cpt r + delta) .& BLITTER_CHIP_ADDR_MASK |> <| lr_one_dot_count := 0 |>.

(** The pixel of one iteration: the logic on the pattern bit and the word at
    the pointer, and the write.
    C: [src/src/chipset/agnus/blitter/blitter_ref.c]:354-370 [execute_line_mode] *)
Definition lr_pixel (c : BlitCommand) (r : LineRun) : LineRun :=
  let cval := if use_c c then chip_read16 (line_ram r) (lr_cpt r) else cdat c in
  let ahold := u16 ((adat c .& afwm c) .>> lr_x_shift r) in
  let bhold := if has (lr_pattern r) 1 then 0xffff else 0x0000 in
  let dval := blitter_logic (minterm c) ahold bhold cval in
  let write_pixel := negb (line_single_dot c) || (lr_one_dot_count r =? 0) in
  r <| lr_cdat := cval |>
    <| line_ram := if use_c c && write_pixel then chip_write16 (line_ram r) (lr_cpt r) dval
                   else line_ram r |>
    <| lr_zero := if dval =? 0 then lr_zero r else false |>
    <| lr_ddat := dval |>
    <| lr_one_dot_count := u8 (lr_one_dot_count r + 1) |>.

(** The move to the next pixel.
    C: [src/src/chipset/agnus/blitter/blitter_ref.c]:372-430 [execute_line_mode] *)
Definition lr_move (c : BlitCommand) (r : LineRun) : LineRun :=
  let r :=
    if use_a c then
      r <| lr_error := if lr_sign r then i16 (lr_error r + bmod c)
                       else i16 (lr_error r + amod c) |>
    else r in
  let r :=
    if negb (lr_sign r) then
      if has (line_octant c) 0x04 then
        if has (line_octant c) 0x02 then lr_movey (- cmod c) r else lr_movey (cmod c) r
      else if has (line_octant c) 0x02 then lr_decx r
      else lr_incx r
    else r in
  let r :=
    if has (line_octant c) 0x04 then
      if has (line_octant c) 0x01 then lr_decx r else lr_incx r
    else if has (line_octant c) 0x01 then lr_movey (- cmod c) r
    else lr_movey (cmod c) r in
  r <| lr_sign := lr_error r <? 0 |>
    <| lr_pattern := u16 ((lr_pattern r .<< 1) .| (lr_pattern r .>> 15)) |>.

(** C: [src/src/chipset/agnus/blitter/blitter_ref.c] [execute_line_mode] *)
Definition execute_line_mode (c : BlitCommand) (m : M) : BlitterResult * M :=
  if height_lines c =? 0 then
    (mkResult (cmd_apt c) (cmd_bpt c) (cmd_cpt c) (cmd_dpt c) (adat c) (bdat c) (cdat c) 0
       (bhold c) true, m)
  else
    let pattern_shift := bshift c in
    let pattern :=
      if pattern_shift =? 0 then bdat c
      else u16 ((bdat c .>> pattern_shift) .| (bdat c .<< (16 - pattern_shift))) in
    let r := mkLineRun (i16 (cmd_apt c .& 0xffff)) (line_start_bit c .& 0x0f) 0 pattern
               (cmd_cpt c .& BLITTER_CHIP_ADDR_MASK) true (line_initial_sign c) (cdat c) 0 m in
    let r := Nat.iter (Z.to_nat (height_lines c)) (fun r => lr_move c (lr_pixel c r)) r in
    (mkResult ((cmd_apt c .& 0xffff0000) .| u16 (lr_error r)) (cmd_bpt c) (lr_cpt r) (lr_cpt r)
       (adat c) (bdat c) (lr_cdat r) (lr_ddat r) (bhold c) (lr_zero r), line_ram r).

(** The success of the C function is [command_valid]; on failure nothing
    changes.
    C: [src/src/chipset/agnus/blitter/blitter_ref.c] [blitter_execute_reference] *)
Definition blitter_execute_reference (b : BlitterState) (m : M) : bool * BlitterState * M :=
  if negb (command_valid b) then (false, b, m)
  else
    let '(res, m) :=
      match mode (blt_cmd b) with
      | BLITTER_MODE_COPY => execute_copy_mode (blt_cmd b) m
      | BLITTER_MODE_LINE => execute_line_mode (blt_cmd b) m
      end in
    (true, b <| result := res |>, m).

End execution.

Arguments CopyRun : clear implicits.
Arguments LineRun : clear implicits.
