(* ===== verification/BlitterLine.v ===== *)
(** * The incremental line drawer

    [blitter_line.c]: the line mode of the blitter, one pixel at a time, with
    its state kept between the DMA slots; and its equivalence with the line mode
    of the reference backend. *)

From S2P Require Import Prelude ChipRam Blitter BlitterRef.

(** C: [src/src/chipset/agnus/blitter/blitter_line.c] [line_blitter_logic] *)
Definition line_blitter_logic (mt A B C : Z) : Z :=
  let na := u16 (~~ A) in
  let nb := u16 (~~ B) in
  let nc := u16 (~~ C) in
  let term m x D := if has mt m then D .| x else D in
  term 0x01 (na .& nb .& nc)
  (term 0x02 (na .& nb .& C)
  (term 0x04 (na .& B .& nc)
  (term 0x08 (na .& B .& C)
  (term 0x10 (A .& nb .& nc)
  (term 0x20 (A .& nb .& C)
  (term 0x40 (A .& B .& nc)
  (term 0x80 (A .& B .& C) 0))))))).

(** C: [src/src/chipset/agnus/blitter/blitter_line.c] [line_rotate_pattern] *)
Definition line_rotate_pattern (pattern shift : Z) : Z :=
  if shift =? 0 then pattern
  else u16 ((pattern .>> shift) .| (pattern .<< (16 - shift))).

(** C: [src/src/chipset/agnus/blitter/blitter_line.c] [line_incx] *)
Definition line_incx (s : BlitterLineState) : BlitterLineState :=
  let s := s <| x_shift := u8 (x_shift s + 1) |> in
  if x_shift s =? 16
  then s <| x_shift := 0 |> <| ls_cpt := u32 (ls_cpt s + 2) .& BLITTER_CHIP_ADDR_MASK |>
  else s.

(** C: [src/src/chipset/agnus/blitter/blitter_line.c] [line_decx] *)
Definition line_decx (s : BlitterLineState) : BlitterLineState :=
  if x_shift s =? 0
  then s <| x_shift := 15 |> <| ls_cpt := u32 (ls_cpt s - 2) .& BLITTER_CHIP_ADDR_MASK |>
  else s <| x_shift := u8 (x_shift s - 1) |>.

(** C: [src/src/chipset/agnus/blitter/blitter_line.c] [line_incy] *)
Definition line_incy (s : BlitterLineState) (m : Z) : BlitterLineState :=
  s <| ls_cpt := u32 (ls_cpt s + m) .& BLITTER_CHIP_ADDR_MASK |> <| one_dot_count := 0 |>.

(** C: [src/src/chipset/agnus/blitter/blitter_line.c] [line_decy] *)
Definition line_decy (s : BlitterLineState) (m : Z) : BlitterLineState :=
  s <| ls_cpt := u32 (ls_cpt s - m) .& BLITTER_CHIP_ADDR_MASK |> <| one_dot_count := 0 |>.

(** C: [src/src/chipset/agnus/blitter/blitter_line.c] [line_advance] *)
Definition line_advance (s : BlitterLineState) (c : BlitCommand) : BlitterLineState :=
  let s :=
    if use_a c then
      if ls_sign s then s <| ls_error := i16 (ls_error s + bmod c) |>
      else s <| ls_error := i16 (ls_error s + amod c) |>
    else s in
  let s :=
    if negb (ls_sign s) then
      if has (line_octant c) 0x04 then
        if has (line_octant c) 0x02 then line_decy s (cmod c) else line_incy s (cmod c)
      else if has (line_octant c) 0x02 then line_decx s else line_incx s
    else s in
  let s :=
    if has (line_octant c) 0x04 then
      if has (line_octant c) 0x01 then line_decx s else line_incx s
    else if has (line_octant c) 0x01 then line_decy s (cmod c) else line_incy s (cmod c) in
  s <| ls_sign := ls_error s <? 0 |>.

(** C: [src/src/chipset/agnus/blitter/blitter_line.c] [line_state_init] *)
Definition line_state_init (b : BlitterState) : BlitterState :=
  let c := blt_cmd b in
  if initialized (line_state b) then b
  else b <| line_state := {|
    ls_error := i16 (cmd_apt c .& 0xffff);
    ls_pattern := line_rotate_pattern (bdat c) (bshift c);
    ls_cpt := cmd_cpt c .& BLITTER_CHIP_ADDR_MASK;
    step_index := 0;
    x_shift := line_start_bit c .& 0x0f;
    one_dot_count := 0;
    ls_last_cdat := cdat c;
    ls_last_ddat := 0;
    ls_zero := true;
    ls_sign := line_initial_sign c;
    initialized := true;
    pixel_slot_phase := 0;
  |} |>.

(** C: [src/src/chipset/agnus/blitter/blitter_line.c] [line_publish_partial_result] *)
Definition line_publish_partial_result (b : BlitterState) : BlitterState :=
  let c := blt_cmd b in
  let s := line_state b in
  b <| result := {|
    final_apt := (cmd_apt c .& 0xffff0000) .| u16 (ls_error s);
    final_bpt := cmd_bpt c;
    final_cpt := ls_cpt s;
    final_dpt := ls_cpt s;
    final_adat := adat c;
    final_bdat := bdat c;
    final_cdat := ls_last_cdat s;
    final_ddat := ls_last_ddat s;
    final_bhold := bhold c;
    result_zero := ls_zero s;
  |} |>.

(** C: [src/src/chipset/agnus/blitter/blitter_line.c] [blitter_line_done] *)
Definition blitter_line_done (b : BlitterState) : bool :=
  match mode (blt_cmd b) with
  | BLITTER_MODE_LINE =>
      initialized (line_state b) &&
      (height_lines (blt_cmd b) <=? step_index (line_state b))
  | BLITTER_MODE_COPY => true
  end.

Section line.
  Context {M : Type} (mem : ChipRamIf M).

(** C: [src/src/chipset/agnus/blitter/blitter_line.c] [line_chip_read16] *)
Definition line_chip_read16 (m : M) (addr : Z) : Z :=
  let addr := addr .& BLITTER_CHIP_ADDR_MASK in
  match read16 mem with Some rd => rd m addr | None => 0 end.

(** C: [src/src/chipset/agnus/blitter/blitter_line.c] [line_chip_write16] *)
Definition line_chip_write16 (m : M) (addr value : Z) : M :=
  let addr := addr .& BLITTER_CHIP_ADDR_MASK in
  match write16 mem with Some wr => wr m addr value | None => m end.

(** The pixel of one step, on the initialised line state.
    C: [src/src/chipset/agnus/blitter/blitter_line.c]:173-190 [blitter_line_step] *)
Definition line_pixel (c : BlitCommand) (s : BlitterLineState) (m : M) : BlitterLineState * M :=
  let cval := if use_c c then line_chip_read16 m (ls_cpt s) else cdat c in
  let s := s <| ls_last_cdat := cval |> in
  let ahold := u16 ((adat c .& afwm c) .>> x_shift s) in
  let bhold := if has (ls_pattern s) 1 then 0xffff else 0x0000 in
  let dval := line_blitter_logic (minterm c) ahold bhold cval in
  let write_pixel := negb (line_single_dot c) || (one_dot_count s =? 0) in
  let m := if use_c c && write_pixel then line_chip_write16 m (ls_cpt s) dval else m in
  let s := if dval =? 0 then s else s <| ls_zero := false |> in
  let s := s <| ls_last_ddat := dval |>
             <| step_index := u16 (step_index s + 1) |>
             <| one_dot_count := u8 (one_dot_count s + 1) |> in
  let s := line_advance s c in
  (s <| ls_pattern := u16 ((ls_pattern s .<< 1) .| (ls_pattern s .>> 15)) |>, m).

(** The interrupt sink of the C function is unused.
    C: [src/src/chipset/agnus/blitter/blitter_line.c] [blitter_line_step] *)
Definition blitter_line_step (b : BlitterState) (m : M) : BlitterState * M :=
  match mode (blt_cmd b) with
  | BLITTER_MODE_COPY => (b, m)
  | BLITTER_MODE_LINE =>
      let b := line_state_init b in
      let c := blt_cmd b in
      if height_lines c <=? step_index (line_state b) then (b, m)
      else
        let '(s, m) := line_pixel c (line_state b) m in
        (line_publish_partial_result (b <| line_state := s |>), m)
  end.

End line.

(** ** Equivalence with the reference backend *)

#[local] Arguments line_advance : simpl never.

(** The variables of [execute_line_mode] a line state and the memory stand for. *)
Definition run_of {M} (s : BlitterLineState) (m : M) : LineRun M :=
  mkLineRun (ls_error s) (x_shift s) (one_dot_count s) (ls_pattern s) (ls_cpt s) (ls_zero s)
    (ls_sign s) (ls_last_cdat s) (ls_last_ddat s) m.

Section equivalence.
  Context {M : Type} (mem : ChipRamIf M).

Lemma run_of_incx s (m : M) : run_of (line_incx s) m = lr_incx (run_of s m).
Proof. unfold line_incx, lr_incx. cbn. by destruct (_ =? 16). Qed.

Lemma run_of_decx s (m : M) : run_of (line_decx s) m = lr_decx (run_of s m).
Proof. unfold line_decx, lr_decx. cbn. by destruct (_ =? 0). Qed.

Lemma run_of_incy s d (m : M) : run_of (line_incy s d) m = lr_movey d (run_of s m).
Proof. done. Qed.

Lemma run_of_decy s d (m : M) : run_of (line_decy s d) m = lr_movey (- d) (run_of s m).
Proof. done. Qed.

Lemma run_of_finish s (m : M) :
  let s' := s <| ls_sign := ls_error s <? 0 |> in
  run_of (s' <| ls_pattern := u16 ((ls_pattern s' .<< 1) .| (ls_pattern s' .>> 15)) |>) m =
  (run_of s m) <| lr_sign := lr_error (run_of s m) <? 0 |>
               <| lr_pattern := u16 ((lr_pattern (run_of s m) .<< 1)
                                       .| (lr_pattern (run_of s m) .>> 15)) |>.
Proof. done. Qed.

Lemma run_of_if (b : bool) s s' (m : M) :
  run_of (if b then s else s') m = if b then run_of s m else run_of s' m.
Proof. by destruct b. Qed.

Lemma line_advance_frame s c :
  step_index (line_advance s c) = step_index s /\
  initialized (line_advance s c) = initialized s /\
  pixel_slot_phase (line_advance s c) = pixel_slot_phase s.
Proof.
  unfold line_advance, line_incx, line_decx, line_incy, line_decy. cbn.
  repeat match goal with |- context [if ?b then _ else _] => destruct b; cbn end; done.
Qed.

(** A pixel of the incremental drawer is an iteration of the reference loop,
    and counts one step. *)
Lemma line_pixel_is_iteration c s (m : M) :
  let '(s', m') := line_pixel mem c s m in
  run_of s' m' = lr_move c (lr_pixel mem c (run_of s m)) /\
  step_index s' = u16 (step_index s + 1) /\ initialized s' = initialized s /\
  pixel_slot_phase s' = pixel_slot_phase s.
Proof.
  unfold line_pixel. cbn zeta. split_and!.
  - unfold line_advance, lr_move.
    set (s1 := (if _ =? 0 then _ else _) <| ls_last_ddat := _ |> <| step_index := _ |>
                 <| one_dot_count := _ |>).
    set (m1 := if _ && _ then _ else m).
    assert (E : run_of s1 m1 = lr_pixel mem c (run_of s m)).
    { subst s1 m1. unfold lr_pixel, line_blitter_logic, blitter_logic. cbn.
      by destruct (_ =? 0) eqn:Hd; cbn; rewrite ?Hd. }
    rewrite <- E. generalize s1 m1. clear. intros s m.
    etransitivity; [apply run_of_finish|].
    destruct (use_a c); [destruct (ls_sign s) eqn:Es|]; cbn zeta; rewrite ?run_of_if;
      rewrite ?run_of_incx, ?run_of_decx, ?run_of_incy, ?run_of_decy; cbn; rewrite ?Es;
      rewrite ?run_of_if, ?run_of_incx, ?run_of_decx, ?run_of_incy, ?run_of_decy; reflexivity.
  - cbn. rewrite (proj1 (line_advance_frame _ c)). cbn. by destruct (_ =? 0).
  - cbn. rewrite (proj1 (proj2 (line_advance_frame _ c))). cbn. by destruct (_ =? 0).
  - cbn. rewrite (proj2 (proj2 (line_advance_frame _ c))). cbn. by destruct (_ =? 0).
Qed.

Lemma line_state_init_cmd b : blt_cmd (line_state_init b) = blt_cmd b.
Proof. unfold line_state_init. destruct (initialized (line_state b)); reflexivity. Qed.

Lemma line_state_init_id b : initialized (line_state b) = true -> line_state_init b = b.
Proof. unfold line_state_init. by intros ->. Qed.

Definition reference_iteration (c : BlitCommand) (r : LineRun M) : LineRun M :=
  lr_move c (lr_pixel mem c r).

(** The variables of the reference loop before its first iteration. *)
Definition reference_start (c : BlitCommand) (m : M) : LineRun M :=
  mkLineRun (i16 (cmd_apt c .& 0xffff)) (line_start_bit c .& 0x0f) 0
    (line_rotate_pattern (bdat c) (bshift c)) (cmd_cpt c .& BLITTER_CHIP_ADDR_MASK) true
    (line_initial_sign c) (cdat c) 0 m.

(** [p] pixels of the line of [b] are drawn, and the memory is now [m]: the
    line state stands for the reference loop after [p] iterations from [m0], and
    the published result is the one of that point. *)
Record drawn (m0 : M) (p : nat) (b : BlitterState) (m : M) : Prop := {
  drawn_run : run_of (line_state (line_state_init b)) m =
              Nat.iter p (reference_iteration (blt_cmd b)) (reference_start (blt_cmd b) m0);
  drawn_steps : step_index (line_state (line_state_init b)) = Z.of_nat p;
  drawn_init : initialized (line_state b) = negb (p =? 0)%nat;
  drawn_result : p <> O -> result b = result (line_publish_partial_result b);
}.

Lemma drawn_0 b m : initialized (line_state b) = false -> drawn m 0 b m.
Proof. intros Hi. split; unfold line_state_init; rewrite ?Hi; done. Qed.

(** A step draws the next pixel and changes the line state and the result only. *)
Lemma drawn_step m0 p b m :
  mode (blt_cmd b) = BLITTER_MODE_LINE -> Z.of_nat p < height_lines (blt_cmd b) < 2 ^ 16 ->
  drawn m0 p b m ->
  let b0 := line_state_init b in
  let '(s, m') := line_pixel mem (blt_cmd b) (line_state b0) m in
  blitter_line_step mem b m = (line_publish_partial_result (b0 <| line_state := s |>), m') /\
  drawn m0 (S p) (line_publish_partial_result (b0 <| line_state := s |>)) m' /\
  pixel_slot_phase s = pixel_slot_phase (line_state b0).
Proof.
  intros Hm Hp [Hr Hs _ _] b0. unfold blitter_line_step. rewrite Hm. fold b0. cbn zeta.
  assert (Hc : blt_cmd b0 = blt_cmd b) by apply line_state_init_cmd. rewrite Hc.
  fold b0 in Hs, Hr. rewrite Hs.
  destruct (Z.leb_spec (height_lines (blt_cmd b)) (Z.of_nat p)); [lia|].
  pose proof (line_pixel_is_iteration (blt_cmd b) (line_state b0) m) as H'.
  destruct (line_pixel mem (blt_cmd b) (line_state b0) m) as [s m'].
  destruct H' as (Hr' & Hs' & Hi' & Hph). split; [done|]. split; [|done].
  assert (Hi : initialized s = true).
  { rewrite Hi'. subst b0. unfold line_state_init. by destruct (initialized (line_state b)) eqn:E. }
  split.
  - rewrite line_state_init_id by exact Hi. cbn. rewrite Hc, Hr', Hr. reflexivity.
  - rewrite line_state_init_id by exact Hi. cbn. rewrite Hs', Hs.
    rewrite wrap_small; [lia|unfold in_width; lia].
  - exact Hi.
  - reflexivity.
Qed.

Lemma drawn_done m0 p b m :
  mode (blt_cmd b) = BLITTER_MODE_LINE -> 0 < height_lines (blt_cmd b) -> drawn m0 p b m ->
  blitter_line_done b = (height_lines (blt_cmd b) <=? Z.of_nat p).
Proof.
  intros Hm Hh [_ Hs Hi _]. unfold blitter_line_done. rewrite Hm, Hi. destruct p as [|p]; cbn.
  - symmetry. apply Z.leb_gt. lia.
  - rewrite line_state_init_id in Hs by done. by rewrite Hs.
Qed.

(** All pixels drawn: the result and the memory of the reference backend. *)
Lemma drawn_all m0 p b m :
  0 < height_lines (blt_cmd b) -> Z.of_nat p = height_lines (blt_cmd b) -> drawn m0 p b m ->
  (result b, m) = execute_line_mode mem (blt_cmd b) m0.
Proof.
  intros Hh Hp [Hr _ Hi Hres]. rewrite Hres by lia. unfold execute_line_mode.
  destruct (Z.eqb_spec (height_lines (blt_cmd b)) 0); [lia|]. rewrite <- Hp, Nat2Z.id. cbn zeta.
  rewrite line_state_init_id in Hr by (destruct p; [lia|done]).
  unfold reference_start, reference_iteration, line_rotate_pattern in Hr. rewrite <- Hr.
  reflexivity.
Qed.

(** C17: drawing a line one pixel per DMA grant is the same as executing it at
    once: after as many steps as the line has pixels, and not before, the
    incremental drawer reports the line done, and it has then produced the
    result (final pointers, data and zero flag) and the memory of the reference
    backend's line mode. *)
Theorem line_steps_are_reference b m :
  mode (blt_cmd b) = BLITTER_MODE_LINE -> initialized (line_state b) = false ->
  0 < height_lines (blt_cmd b) < 2 ^ 16 ->
  let n := Z.to_nat (height_lines (blt_cmd b)) in
  let after k := Nat.iter k (fun w => blitter_line_step mem w.1 w.2) (b, m) in
  (result (after n).1, (after n).2) = execute_line_mode mem (blt_cmd b) m /\
  forall k, (k <= n)%nat -> blitter_line_done (after k).1 = (k =? n)%nat.
Proof.
  intros Hm Hi Hh n after.
  assert (H : forall k, (k <= n)%nat -> blt_cmd (after k).1 = blt_cmd b /\
            drawn m k (after k).1 (after k).2).
  { induction k as [|k IH]; intros Hk; [by split; [|apply drawn_0]|].
    destruct IH as [Hc Hd]; [lia|]. pose proof (drawn_step m k (after k).1 (after k).2) as Hstep.
    rewrite Hc in Hstep. specialize (Hstep Hm ltac:(lia) Hd).
    cbn zeta in Hstep.
    destruct (line_pixel mem (blt_cmd b) (line_state (line_state_init (after k).1)) (after k).2)
      as [s m']. destruct Hstep as (E & Hd' & _).
    replace (after (S k)) with (blitter_line_step mem (after k).1 (after k).2) by done.
    rewrite E. split; [|done]. cbn. by rewrite line_state_init_cmd. }
  split.
  - destruct (H n) as [Hc Hd]; [lia|]. rewrite <- Hc. apply (drawn_all m n); rewrite ?Hc; lia || done.
  - intros k Hk. destruct (H k Hk) as [Hc Hd].
    rewrite (drawn_done m k _ (after k).2) by (rewrite ?Hc; lia || done). rewrite Hc.
    destruct (Z.leb_spec (height_lines (blt_cmd b)) (Z.of_nat k)), (Nat.eqb_spec k n); lia || done.
Qed.

End equivalence.

Definition example_line : BlitterState :=
  (blitter_init (mkBlitter regs_zero cmd_zero result_0 BLITTER_EXEC_IDLE false false 0 0 false
     false line_zero))
    <| blt_cmd := cmd_zero <| mode := BLITTER_MODE_LINE |> <| height_lines := 5 |>
         <| use_a := true |> <| use_c := true |> <| minterm := 0xca |> <| adat := 0x8000 |>
         <| afwm := 0xffff |> <| bdat := 0xffff |> <| line_octant := 4 |> <| amod := -4 |>
         <| bmod := 4 |> <| cmod := 40 |> <| cmd_cpt := 0x1000 |> |>.

Lemma line_steps_are_reference_witness :
  let after k := Nat.iter k (fun w => blitter_line_step word_ram w.1 w.2) (example_line, ∅) in
  (result (after 5%nat).1, (after 5%nat).2) =
    execute_line_mode word_ram (blt_cmd example_line) ∅ /\
  word_rd (after 5%nat).2 0x1000 = 0x8000.
Proof.
  split; [|vm_compute; reflexivity].
  apply (line_steps_are_reference word_ram example_line ∅); [reflexivity..|cbn; lia].
Defined.
