(* ===== verification/BlitterDma.v ===== *)
(** * The blitter on the DMA bus

    [blitter_dma.c] and the stepping of [blitter_domain.c]: the blitter receives
    the chip bus slots it is granted.  A line is drawn a pixel per slot (two
    slots in cycle-exact mode); a copy is executed on the first grant and its
    result becomes visible when its slots are spent. *)

From S2P Require Import Prelude ChipRam Blitter BlitterRef BlitterLine.

(** The blitter with the memory and the interrupt sink's state. *)
Record BlitterWorld (M I : Type) := mkWorld { blt : BlitterState; ram : M; sink : I }.
Arguments mkWorld {M I}.
Arguments blt {M I}.
Arguments ram {M I}.
Arguments sink {M I}.

#[export] Instance eta_world {M I} : Eta (BlitterWorld M I) := fun w =>
  mkWorld (blt w) (ram w) (sink w).

Section dma.
  Context {M I : Type} (mem : ChipRamIf M) (irq : BlitterIrqSink I).

(** [blitter_publish_result] followed by [blitter_force_finish].
    C: [src/src/chipset/agnus/blitter/blitter_dma.c]:75-77 [blitter_step_dma] *)
Definition publish_and_finish (w : BlitterWorld M I) : BlitterWorld M I :=
  let b := blitter_publish_result ((blt w) <| cycles_remaining := 0 |>) in
  let '(b, i) := blitter_force_finish b irq (sink w) in
  mkWorld b (ram w) i.

(** The loop over the slots granted to a line; [two_cycle] is read once, before
    the loop.
    C: [src/src/chipset/agnus/blitter/blitter_dma.c]:20-50 [blitter_step_dma] *)
Fixpoint line_slots (two_cycle : bool) (n : nat) (w : BlitterWorld M I) : BlitterWorld M I :=
  match n with
  | O => w
  | S n =>
      if blitter_line_done (blt w) then w
      else
        let b := (blt w) <| dma_slots_consumed := u32 (dma_slots_consumed (blt w) + 1) |> in
        let b := if 0 <? cycles_remaining b
                 then b <| cycles_remaining := cycles_remaining b - 1 |> else b in
        if two_cycle && (pixel_slot_phase (line_state b) =? 0) then
          line_slots two_cycle n
            (w <| blt := b <| line_state := (line_state b) <| pixel_slot_phase := 1 |> |> |>)
        else
          let b := b <| line_state := (line_state b) <| pixel_slot_phase := 0 |> |> in
          let '(b, m) := blitter_line_step mem b (ram w) in
          let w := mkWorld b m (sink w) in
          if blitter_line_done b then publish_and_finish w else line_slots two_cycle n w
  end.

(** The copy branch.
    C: [src/src/chipset/agnus/blitter/blitter_dma.c]:52-78 [blitter_step_dma] *)
Definition copy_slots (dma_slots : Z) (w : BlitterWorld M I) : BlitterWorld M I :=
  let '(ok, b, m) :=
    if decide (exec_state (blt w) = BLITTER_EXEC_PENDING) then
      let '(ok, b, m) := blitter_execute_reference mem (blt w) (ram w) in
      if ok then (true, b <| exec_state := BLITTER_EXEC_RUNNING |>, m)
      else (false, b <| blt_busy := false |> <| exec_state := BLITTER_EXEC_IDLE |>
                     <| cycles_remaining := 0 |>, m)
    else (true, blt w, ram w) in
  if negb ok then mkWorld b m (sink w)
  else
    let b := b <| dma_slots_consumed := u32 (dma_slots_consumed b + dma_slots) |> in
    if dma_slots <? cycles_remaining b
    then mkWorld (b <| cycles_remaining := cycles_remaining b - dma_slots |>) m (sink w)
    else publish_and_finish (mkWorld b m (sink w)).

(** C: [src/src/chipset/agnus/blitter/blitter_dma.c] [blitter_step_dma] *)
Definition blitter_step_dma (dma_slots : Z) (w : BlitterWorld M I) : BlitterWorld M I :=
  if negb (blt_busy (blt w)) then w
  else match mode (blt_cmd (blt w)) with
       | BLITTER_MODE_LINE => line_slots (cycle_exact (blt w)) (Z.to_nat dma_slots) w
       | BLITTER_MODE_COPY => copy_slots dma_slots w
       end.

(** C: [src/src/domains/blitter/blitter_domain.c] [rigel_blitter_domain_step_dma] *)
Definition rigel_blitter_domain_step_dma (dma_slots : Z) (w : BlitterWorld M I) :
    BlitterWorld M I :=
  if dma_slots =? 0 then w else blitter_step_dma dma_slots w.

End dma.

#[local] Arguments publish_and_finish : simpl never.

(** ** The schedule of a blit *)

(** The state just after a BLTSIZE or BLTSIZH write, for sizes in range. *)
Record started (b : BlitterState) : Prop := {
  st_busy : blt_busy b = true;
  st_exec : exec_state b = BLITTER_EXEC_PENDING;
  st_valid : command_valid b = true;
  st_line : initialized (line_state b) = false;
  st_phase : pixel_slot_phase (line_state b) = 0;
  st_cycles : cycles_remaining b = blitter_estimate_cycles (blt_cmd b) (cycle_exact b);
  st_width : 1 <= width_words (blt_cmd b) <= 2048;
  st_height : 1 <= height_lines (blt_cmd b) <= 32768;
}.

Lemma begin_command_started b :
  1 <= bltsizh (regs b) <= 2048 -> 1 <= bltsizv (regs b) <= 32768 ->
  started (blitter_begin_command b).
Proof. intros Hh Hv. by split. Qed.

(** Every value written to BLTSIZE gives a size in range: 0 stands for 64 words
    and for 1024 lines. *)
Lemma bltsize_started b v : is_u16 v -> started (blitter_write_reg16 b 0x058 v).
Proof.
  intros Hv. cbn. apply begin_command_started; cbn.
  - assert (H : in_width 6 (v .& 63)) by (apply in_width_land_r; [lia|closed_range]).
    unfold in_width in H. destruct (Z.eqb_spec (v .& 63) 0); lia.
  - assert (H : in_width 10 (v .>> 6 .& 1023)) by (apply in_width_land_r; [lia|closed_range]).
    unfold in_width in H. destruct (Z.eqb_spec (v .>> 6 .& 1023) 0); lia.
Qed.

Lemma estimate_line c ce :
  mode c = BLITTER_MODE_LINE -> 1 <= height_lines c <= 32768 ->
  blitter_estimate_cycles c ce = if ce then 2 * height_lines c else height_lines c.
Proof.
  intros Hm Hh. unfold blitter_estimate_cycles. rewrite Hm.
  destruct ce; [rewrite wrap_small by (unfold in_width; lia)|];
    match goal with |- context [?x =? 0] => destruct (Z.eqb_spec x 0) end; lia.
Qed.

Lemma word_cost_range c : 1 <= blitter_word_cost c <= 4.
Proof.
  unfold blitter_word_cost, blitter_active_channel_count.
  destruct (use_a c), (use_b c), (use_c c), (use_d c); vm_compute; split; congruence.
Qed.

Lemma estimate_copy c ce :
  mode c = BLITTER_MODE_COPY -> 1 <= width_words c <= 2048 -> 1 <= height_lines c <= 32768 ->
  blitter_estimate_cycles c ce =
  width_words c * height_lines c * (if ce then blitter_word_cost c else 1).
Proof.
  intros Hm Hw Hh. unfold blitter_estimate_cycles. rewrite Hm. cbn zeta.
  assert (Hp : 1 <= width_words c * height_lines c <= 2 ^ 26) by nia.
  revert Hp. generalize (width_words c * height_lines c). intros n Hp.
  pose proof (word_cost_range c). rewrite (wrap_small 32 n) by (unfold in_width; lia).
  destruct ce; [rewrite wrap_small by (unfold in_width; nia)|];
    match goal with |- context [?x =? 0] => destruct (Z.eqb_spec x 0) end; nia.
Qed.

Lemma estimate_pos c ce :
  1 <= width_words c <= 2048 -> 1 <= height_lines c <= 32768 ->
  0 < blitter_estimate_cycles c ce.
Proof.
  intros Hw Hh. pose proof (word_cost_range c). destruct (mode c) eqn:Hm.
  - rewrite estimate_copy by done. destruct ce; nia.
  - rewrite estimate_line by done. destruct ce; lia.
Qed.

Section schedule.
  Context {M I : Type} (mem : ChipRamIf M) (irq : BlitterIrqSink I).
  Context (b0 : BlitterState) (m0 : M) (i0 : I) (Hst : started b0).

#[local] Abbreviation cycles := (blitter_estimate_cycles (blt_cmd b0) (cycle_exact b0)).

(** The completed blit: what the reference backend computes, published, and the
    interrupt raised once. *)
Record finished (w : BlitterWorld M I) : Prop := {
  fin_busy : blt_busy (blt w) = false;
  fin_sink : sink w = match irq with
                      | Some raise => raise i0 BLITTER_INTREQ_BLIT
                      | None => i0
                      end;
  fin_result : (true, b0 <| result := result (blt w) |>, ram w) =
               blitter_execute_reference mem b0 m0;
  fin_regs : regs (blt w) = regs (blitter_publish_result (b0 <| result := result (blt w) |>));
}.

(** What does not change while the blit runs. *)
Record running (w : BlitterWorld M I) : Prop := {
  run_busy : blt_busy (blt w) = true;
  run_cmd : blt_cmd (blt w) = blt_cmd b0;
  run_regs : regs (blt w) = regs b0;
  run_exact : cycle_exact (blt w) = cycle_exact b0;
  run_sink : sink w = i0;
}.

Lemma publish_finished w :
  running w ->
  (true, b0 <| result := result (blt w) |>, ram w) = blitter_execute_reference mem b0 m0 ->
  finished (publish_and_finish irq w).
Proof.
  intros [_ _ Hr _ Hi] He. unfold publish_and_finish. split; cbn; [done|by rewrite Hi|exact He|]. by rewrite Hr.
Qed.

(** *** Lines *)

Record line_at (k : Z) (w : BlitterWorld M I) : Prop := {
  la_running : running w;
  la_pixels : exists p, drawn mem m0 p (blt w) (ram w) /\
    Z.of_nat p < height_lines (blt_cmd b0) /\
    0 <= pixel_slot_phase (line_state (blt w)) <= b2u (cycle_exact b0) /\
    k = (if cycle_exact b0 then 2 * Z.of_nat p else Z.of_nat p)
        + pixel_slot_phase (line_state (blt w));
}.

Lemma drawn_phase p b b' m v :
  drawn mem m0 p b m -> line_state b' = (line_state b) <| pixel_slot_phase := v |> ->
  blt_cmd b' = blt_cmd b -> result b' = result b -> drawn mem m0 p b' m.
Proof.
  intros [Hr Hs Hi Hres] Hl Hc Hrb.
  assert (E : initialized (line_state b') = initialized (line_state b)) by by rewrite Hl.
  split.
  - rewrite Hc, <- Hr. unfold line_state_init. rewrite E, Hc.
    destruct (initialized (line_state b)); [by rewrite Hl|done].
  - rewrite <- Hs. unfold line_state_init. rewrite E.
    destruct (initialized (line_state b)); [by rewrite Hl|done].
  - by rewrite E.
  - intros Hp. rewrite Hrb, (Hres Hp). unfold line_publish_partial_result. cbn. by rewrite Hc, Hl.
Qed.

(** One granted slot: the read slot of a pixel in cycle-exact mode, or the slot
    that draws the pixel. *)
Definition tick (b : BlitterState) : BlitterState :=
  let b := b <| dma_slots_consumed := u32 (dma_slots_consumed b + 1) |> in
  if 0 <? cycles_remaining b then b <| cycles_remaining := cycles_remaining b - 1 |> else b.

Lemma tick_frame b :
  line_state (tick b) = line_state b /\ blt_cmd (tick b) = blt_cmd b /\
  result (tick b) = result b /\ blt_busy (tick b) = blt_busy b /\ regs (tick b) = regs b /\
  cycle_exact (tick b) = cycle_exact b.
Proof. unfold tick. cbn. destruct (0 <? cycles_remaining b); done. Qed.

Lemma read_slot k w :
  line_at k w -> cycle_exact b0 = true -> pixel_slot_phase (line_state (blt w)) = 0 ->
  line_at (k + 1)
    (w <| blt := (tick (blt w)) <| line_state := (line_state (tick (blt w)))
                                     <| pixel_slot_phase := 1 |> |> |>).
Proof.
  intros [Hrun (p & Hd & Hp & Hph & Hk)] Hce H0.
  destruct (tick_frame (blt w)) as (Hl & Hc & Hr & Hb & Hg & He).
  split.
  - destruct Hrun. by split; cbn; rewrite ?Hc, ?Hb, ?Hg, ?He.
  - exists p. cbn. rewrite Hl, Hce in *. cbn in *. split_and!; [|lia..].
    by apply (drawn_phase p (blt w) _ _ 1); cbn.
Qed.

Lemma pixel_slot k w :
  mode (blt_cmd b0) = BLITTER_MODE_LINE -> line_at k w ->
  cycle_exact b0 && (pixel_slot_phase (line_state (blt w)) =? 0) = false ->
  let b := (tick (blt w)) <| line_state := (line_state (tick (blt w)))
                                 <| pixel_slot_phase := 0 |> |> in
  let '(b, m) := blitter_line_step mem b (ram w) in
  let w' := mkWorld b m (sink w) in
  blitter_line_done b = (cycles <=? k + 1) /\
  if cycles <=? k + 1 then finished (publish_and_finish irq w') else line_at (k + 1) w'.
Proof.
  intros Hm [Hrun (p & Hd & Hp & Hph & Hk)] Hcase b. pose proof (st_height _ Hst) as Hh.
  destruct (tick_frame (blt w)) as (Hl & Hc & Hr & Hb & Hg & He).
  pose proof Hrun as [Rb Rc Rr Re Ri].
  assert (Hdb : drawn mem m0 p b (ram w)) by (by apply (drawn_phase p (blt w) _ _ 0); cbn; rewrite ?Hl).
  assert (Hcb : blt_cmd b = blt_cmd b0) by (cbn; by rewrite Hc, Rc).
  pose proof (drawn_step mem m0 p b (ram w)) as Hs. rewrite Hcb in Hs. cbn zeta in Hs.
  specialize (Hs Hm ltac:(lia) Hdb). revert Hs.
  destruct (line_pixel mem (blt_cmd b0) (line_state (line_state_init b)) (ram w)) as [s m'].
  intros (-> & Hd' & Hph'). set (b' := line_publish_partial_result _) in *.
  assert (Hrun' : running (mkWorld b' m' (sink w))).
  { subst b'. split; cbn; [| | | |done];
      unfold line_state_init; destruct (initialized (line_state b)); cbn;
      by rewrite ?Hb, ?Hc, ?Hg, ?He. }
  assert (Hcb' : blt_cmd b' = blt_cmd b0) by exact (run_cmd _ Hrun').
  assert (Hdone : blitter_line_done b' = (cycles <=? k + 1)).
  { rewrite (drawn_done mem m0 (S p) b' m') by (rewrite ?Hcb'; done || lia).
    rewrite Hcb', estimate_line by done.
    destruct (cycle_exact b0); cbn in *;
      repeat match goal with |- context [?x <=? ?y] => destruct (Z.leb_spec x y) end; lia || done. }
  split; [exact Hdone|].
  rewrite (drawn_done mem m0 (S p) b' m'), Hcb' in Hdone by (rewrite ?Hcb'; done || lia).
  destruct (Z.leb_spec cycles (k + 1)) as [Hle|Hlt].
  - apply Z.leb_le in Hdone. apply publish_finished; [exact Hrun'|]. cbn.
    unfold blitter_execute_reference. rewrite (st_valid _ Hst), Hm. cbn.
    pose proof (drawn_all mem m0 (S p) b' m') as Hall. rewrite Hcb' in Hall.
    by rewrite <- Hall by (done || lia).
  - apply Z.leb_gt in Hdone. split; [exact Hrun'|]. exists (S p). cbn.
    assert (pixel_slot_phase s = 0) as Hs0.
    { rewrite Hph'. unfold line_state_init. by destruct (initialized (line_state b)). }
    rewrite Hs0. destruct (cycle_exact b0); cbn in *; split_and!; done || lia.
Qed.

Lemma line_slots_at n k w :
  mode (blt_cmd b0) = BLITTER_MODE_LINE -> line_at k w -> k < cycles ->
  let w' := line_slots mem irq (cycle_exact b0) n w in
  if cycles <=? k + Z.of_nat n then finished w' else line_at (k + Z.of_nat n) w'.
Proof.
  intros Hm. revert k w. induction n as [|n IH]; intros k w Hat Hk.
  - cbn. rewrite Z.add_0_r. destruct (Z.leb_spec cycles k); [lia|done].
  - pose proof (st_height _ Hst) as Hh. cbn [line_slots].
    destruct (la_pixels _ _ Hat) as (p & Hd & Hp & Hph & Hkp).
    pose proof (run_cmd _ (la_running _ _ Hat)) as Hc.
    rewrite (drawn_done mem m0 p _ (ram w)) by (rewrite ?Hc; done || lia). rewrite Hc.
    destruct (Z.leb_spec (height_lines (blt_cmd b0)) (Z.of_nat p)); [lia|].
    fold (tick (blt w)). destruct (tick_frame (blt w)) as (Hl & _). rewrite Hl.
    replace (k + Z.of_nat (S n)) with (k + 1 + Z.of_nat n) by lia.
    destruct (cycle_exact b0 && _) eqn:Hcase.
    + apply andb_true_iff in Hcase as [Hce Hz]. apply Z.eqb_eq in Hz.
      pose proof (read_slot k w Hat Hce Hz) as Hat'. rewrite Hl in Hat'.
      apply IH; [exact Hat'|]. rewrite estimate_line, Hce by done. rewrite Hce in Hkp. lia.
    + pose proof (pixel_slot k w Hm Hat Hcase) as Hs. cbn zeta in Hs. rewrite Hl in Hs.
      destruct (blitter_line_step _ _ _) as [b m]. destruct Hs as [Hd' Hs]. rewrite Hd'.
      destruct (Z.leb_spec cycles (k + 1)) as [Hle|Hlt].
      * destruct (Z.leb_spec cycles (k + 1 + Z.of_nat n)); [done|lia].
      * by apply IH.
Qed.

(** *** Copies *)

(** Before the first grant nothing has happened; afterwards the command has been
    executed and its slots are counted down. *)
Inductive copy_at (k : Z) : BlitterWorld M I -> Prop :=
| copy_pending : k = 0 -> copy_at k (mkWorld b0 m0 i0)
| copy_counting w :
    running w -> exec_state (blt w) = BLITTER_EXEC_RUNNING ->
    (true, b0 <| result := result (blt w) |>, ram w) = blitter_execute_reference mem b0 m0 ->
    cycles_remaining (blt w) = cycles - k -> copy_at k w.

Lemma started_running : running (mkWorld b0 m0 i0).
Proof. split; try done. by apply st_busy. Qed.

Lemma countdown k n w :
  running w -> exec_state (blt w) = BLITTER_EXEC_RUNNING ->
  (true, b0 <| result := result (blt w) |>, ram w) = blitter_execute_reference mem b0 m0 ->
  cycles_remaining (blt w) = cycles - k ->
  let w' := copy_slots mem irq n w in
  if cycles <=? k + n then finished w' else copy_at (k + n) w'.
Proof.
  intros Hrun Hx He Hc. unfold copy_slots. rewrite Hx.
  destruct (decide _) as [|_]; [done|]. cbn. rewrite Hc.
  destruct (Z.leb_spec cycles (k + n)), (Z.ltb_spec n (cycles - k)); try lia.
  - apply publish_finished; [|done]. destruct Hrun. by split.
  - apply copy_counting; cbn; [|done|done|lia]. destruct Hrun. by split.
Qed.

Lemma copy_slots_at k n w :
  mode (blt_cmd b0) = BLITTER_MODE_COPY -> copy_at k w ->
  let w' := copy_slots mem irq n w in
  if cycles <=? k + n then finished w' else copy_at (k + n) w'.
Proof.
  intros Hm [->|w' Hrun Hx He Hc]; [|by apply countdown].
  destruct (blitter_execute_reference mem b0 m0) as [[ok b] m] eqn:E.
  assert (H : ok = true /\ b = b0 <| result := result b |>).
  { unfold blitter_execute_reference in E. rewrite (st_valid _ Hst), Hm in E. cbn in E.
    destruct (execute_copy_mode mem (blt_cmd b0) m0). by injection E as <- <- <-. }
  destruct H as [-> Hb].
  assert (H : copy_slots mem irq n (mkWorld b0 m0 i0) =
              copy_slots mem irq n (mkWorld (b <| exec_state := BLITTER_EXEC_RUNNING |>) m i0)).
  { unfold copy_slots. cbn [blt ram sink]. rewrite (st_exec _ Hst), E. reflexivity. }
  rewrite H. apply countdown; cbn.
  - rewrite Hb. by split; cbn; try done; apply st_busy.
  - done.
  - by rewrite E, <- Hb.
  - rewrite Hb. cbn. rewrite st_cycles by done. lia.
Qed.

(** *** Both modes *)

Definition blit_at (k : Z) (w : BlitterWorld M I) : Prop :=
  match mode (blt_cmd b0) with
  | BLITTER_MODE_LINE => line_at k w
  | BLITTER_MODE_COPY => copy_at k w
  end.

Lemma blit_at_running k w : blit_at k w -> running w.
Proof.
  unfold blit_at. destruct (mode _); [|by intros []].
  intros [|]; [apply started_running|done].
Qed.

Lemma started_at : blit_at 0 (mkWorld b0 m0 i0).
Proof.
  unfold blit_at. destruct (mode _); [by apply copy_pending|].
  split; [apply started_running|]. exists O. pose proof (st_height _ Hst). cbn.
  rewrite (st_phase _ Hst). split_and!; [|lia|lia|by destruct (cycle_exact b0)|].
  - apply drawn_0, st_line, Hst.
  - by destruct (cycle_exact b0).
Qed.

Lemma step_at k n w :
  blit_at k w -> k < cycles -> 0 <= n ->
  let w' := blitter_step_dma mem irq n w in
  if cycles <=? k + n then finished w' else blit_at (k + n) w'.
Proof.
  intros Hat Hk Hn. pose proof (blit_at_running k w Hat) as [Rb Rc _ Re _].
  unfold blitter_step_dma. rewrite Rb, Rc, Re. unfold blit_at in *. cbn [negb].
  destruct (mode (blt_cmd b0)) eqn:Hm; [by apply copy_slots_at|].
  pose proof (line_slots_at (Z.to_nat n) k w Hm Hat Hk) as H. by rewrite Z2Nat.id in H.
Qed.

Lemma finished_stays n w : finished w -> blitter_step_dma mem irq n w = w.
Proof. intros [Hb _ _ _]. unfold blitter_step_dma. by rewrite Hb. Qed.

Lemma grants_at gs k w :
  Forall (Z.le 0) gs -> blit_at k w -> k < cycles ->
  let w' := foldl (fun w n => rigel_blitter_domain_step_dma mem irq n w) w gs in
  if cycles <=? k + foldr Z.add 0 gs then finished w' else blit_at (k + foldr Z.add 0 gs) w'.
Proof.
  intros Hgs. revert k w. induction Hgs as [|n gs Hn Hgs IH]; intros k w Hat Hk.
  - cbn. rewrite Z.add_0_r. destruct (Z.leb_spec cycles k); [lia|done].
  - cbn [foldl foldr]. rewrite Z.add_assoc.
    destruct (Z.eqb_spec n 0) as [->|Hn0]; [rewrite Z.add_0_r; by apply IH|].
    assert (E : rigel_blitter_domain_step_dma mem irq n w = blitter_step_dma mem irq n w).
    { unfold rigel_blitter_domain_step_dma. by destruct (Z.eqb_spec n 0). }
    rewrite E.
    pose proof (step_at k n w Hat Hk Hn) as Hs. cbn zeta in Hs.
    assert (Hsum : 0 <= foldr Z.add 0 gs).
    { clear -Hgs. induction Hgs; cbn; lia. }
    destruct (Z.leb_spec cycles (k + n)); [|by apply IH].
    destruct (Z.leb_spec cycles (k + n + foldr Z.add 0 gs)); [|lia].
    clear -Hs. induction gs as [|n' gs IH]; [exact Hs|]. cbn [foldl].
    unfold rigel_blitter_domain_step_dma. destruct (n' =? 0); [exact IH|].
    rewrite finished_stays by done. exact IH.
Qed.

End schedule.

(** ** Theorems *)

(** C1: a blit started by a write to BLTSIZE takes the number of chip bus slots
    [blitter_estimate_cycles] announces, in copy and in line mode, in the coarse
    and in the cycle-exact cost model, however the slots are grouped into
    grants: as long as fewer were granted the blitter is busy, its registers
    are those of the start and no interrupt is raised; once they are granted it
    is idle, the result and the memory are those of the reference backend, the
    registers are the published ones and the BLIT interrupt was raised exactly
    once. *)
Theorem blit_completes_on_schedule {M I} (mem : ChipRamIf M) (irq : BlitterIrqSink I)
    (b : BlitterState) (m : M) (i : I) (v : Z) (grants : list Z) :
  is_u16 v -> Forall (Z.le 0) grants ->
  let b0 := blitter_write_reg16 b 0x058 v in
  let w := foldl (fun w n => rigel_blitter_domain_step_dma mem irq n w) (mkWorld b0 m i) grants in
  if blitter_estimate_cycles (blt_cmd b0) (cycle_exact b0) <=? foldr Z.add 0 grants then
    blitter_is_busy (blt w) = 0 /\
    (true, b0 <| result := result (blt w) |>, ram w) = blitter_execute_reference mem b0 m /\
    regs (blt w) = regs (blitter_publish_result (b0 <| result := result (blt w) |>)) /\
    sink w = match irq with Some raise => raise i BLITTER_INTREQ_BLIT | None => i end
  else blitter_is_busy (blt w) = 1 /\ regs (blt w) = regs b0 /\ sink w = i.
Proof.
  intros Hv Hgs b0. pose proof (bltsize_started b v Hv) as Hst. fold b0 in Hst.
  pose proof (estimate_pos _ (cycle_exact b0) (st_width _ Hst) (st_height _ Hst)) as Hpos.
  pose proof (grants_at mem irq b0 m i Hst grants 0 (mkWorld b0 m i) Hgs
                (started_at mem b0 m i Hst) Hpos) as H.
  cbn zeta in *. rewrite Z.add_0_l in H. unfold blitter_is_busy.
  destruct (_ <=? _).
  - destruct H as [Hb Hi He Hr]. by rewrite Hb.
  - apply blit_at_running in H as [Hb Hc Hr Hx Hi]; [|done]. by rewrite Hb.
Qed.

(** A five-pixel line, in cycle-exact mode, on a blitter with BLTSIZE still to be
    written. *)
Definition line_setup : BlitterState :=
  (blitter_init (mkBlitter regs_zero cmd_zero result_0 BLITTER_EXEC_IDLE false false 0 0 false
     false line_zero))
    <| cycle_exact := true |>
    <| regs := regs_zero <| bltcon0 := 0x0bca |> <| bltcon1 := 0x0001 |> <| bltadat := 0x8000 |>
         <| bltafwm := 0xffff |> <| bltcpt := 0x1000 |> <| bltcmod := 40 |> |>.

Lemma blit_completes_on_schedule_witness :
  let w := foldl (fun w n => rigel_blitter_domain_step_dma word_ram (Some (fun n mask => n + 1)) n w)
             (mkWorld (blitter_write_reg16 line_setup 0x058 0x0142) ∅ 0) [3; 0; 4; 9] in
  blitter_is_busy (blt w) = 0 /\ sink w = 1.
Proof.
  pose proof (blit_completes_on_schedule word_ram (Some (fun n mask => n + 1)) line_setup ∅ 0
                0x0142 [3; 0; 4; 9] ltac:(closed_range) ltac:(repeat constructor; lia)) as H.
  set (b0 := blitter_write_reg16 line_setup 0x058 0x0142) in *.
  assert (E : blitter_estimate_cycles (blt_cmd b0) (cycle_exact b0) = 10)
    by (vm_compute; reflexivity).
  cbv zeta in H. rewrite E in H. clearbody b0. change (10 <=? _) with true in H.
  destruct H as (H1 & _ & _ & H2). exact (conj H1 H2).
Defined.
