(* ===== verification/BlitterFacts.v ===== *)
(** * The units of the blitter

    The logic unit is the truth table the minterm spells out, the barrel shifter
    is a 16-bit window on two consecutive words, and what the fill unit does. *)

From S2P Require Import Prelude ChipRam Blitter BlitterRef BlitterLine.

(** ** The logic unit *)

(** One term of the sum of minterms. *)
Lemma term_bit mt k x D i :
  0 <= k ->
  Z.testbit (if has mt (2 ^ k) then D .| x else D) i =
  Z.testbit D i || (Z.testbit mt k && Z.testbit x i).
Proof.
  intros Hk. rewrite has_pow2 by done. destruct (Z.testbit mt k); cbn.
  - apply Z.lor_spec.
  - by rewrite orb_false_r.
Qed.

(** The entry of the truth table for three input bits. *)
Definition minterm_index (a b c : bool) : Z := 4 * b2u a + 2 * b2u b + b2u c.

Lemma blitter_logic_bit mt A B C i :
  0 <= i < 16 ->
  Z.testbit (blitter_logic mt A B C) i =
  Z.testbit mt (minterm_index (Z.testbit A i) (Z.testbit B i) (Z.testbit C i)).
Proof.
  intros Hi. unfold blitter_logic. cbn zeta.
  change 0x01 with (2 ^ 0). change 0x02 with (2 ^ 1). change 0x04 with (2 ^ 2).
  change 0x08 with (2 ^ 3). change 0x10 with (2 ^ 4). change 0x20 with (2 ^ 5).
  change 0x40 with (2 ^ 6). change 0x80 with (2 ^ 7).
  rewrite !term_bit, Z.testbit_0_l, !Z.land_spec, !testbit_wrap, !Z.lnot_spec by lia.
  replace (i <? 2 ^ 4) with true by lia.
  destruct (Z.testbit A i), (Z.testbit B i), (Z.testbit C i); cbn;
    rewrite ?andb_false_r, ?andb_true_r, ?orb_false_r; reflexivity.
Qed.

Lemma in_width_sum w (b : bool) D x :
  0 <= w -> in_width w D -> in_width w x -> in_width w (if b then D .| x else D).
Proof. intros. destruct b; width. Qed.

Lemma blitter_logic_range mt A B C :
  is_u16 A -> is_u16 B -> is_u16 C -> is_u16 (blitter_logic mt A B C).
Proof.
  intros HA HB HC. unfold blitter_logic. cbn zeta.
  repeat (apply in_width_sum; [lia| |by eauto 6 with width]). by apply in_width_0.
Qed.

(** A loop that sets the bits a condition selects. *)
Lemma foldl_set_bits (P : Z -> bool) l r i :
  Forall (fun k => 0 <= k < 16) l ->
  Z.testbit (foldl (fun r k => if P k then r .| u16 (1 .<< k) else r) r l) i =
  Z.testbit r i || existsb (fun k => P k && (k =? i)) l.
Proof.
  intros Hl. revert r. induction Hl as [|k l Hk Hl IH]; intros r; cbn; [by rewrite orb_false_r|].
  rewrite IH, orb_assoc. f_equal. rewrite Z.shiftl_1_l, wrap_small.
  2: { unfold in_width. split; [apply Z.pow_nonneg; lia|]. apply Z.pow_lt_mono_r; lia. }
  destruct (P k); cbn; [|by rewrite orb_false_r]. rewrite Z.lor_spec. f_equal.
  destruct (Z.eqb_spec k i) as [->|]; [rewrite Z.pow2_bits_true by lia|rewrite Z.pow2_bits_false by lia]; reflexivity.
Qed.

Lemma existsb_seqZ16 (P : Z -> bool) i :
  existsb (fun k => P k && (k =? i)) (seqZ 0 16) = (0 <=? i) && (i <? 16) && P i.
Proof.
  apply eq_iff_eq_true. rewrite existsb_exists, !andb_true_iff. split.
  - intros (k & Hk & Hp). apply andb_true_iff in Hp as [Hp He]. apply Z.eqb_eq in He as ->.
    apply list_elem_of_In, elem_of_seqZ in Hk. split; [lia|done].
  - intros [? Hp]. exists i. rewrite Hp, Z.eqb_refl. split; [|done].
    apply list_elem_of_In, elem_of_seqZ. lia.
Qed.

Lemma blitter_logic_minterm_bit mt a b c i :
  Z.testbit (blitter_logic_minterm mt a b c) i =
  (0 <=? i) && (i <? 16) &&
  Z.testbit mt (minterm_index (Z.testbit a i) (Z.testbit b i) (Z.testbit c i)).
Proof.
  unfold blitter_logic_minterm, minterm_bit.
  rewrite (foldl_set_bits (fun bit => has (mt .>> (((a .>> bit) .& 1) .<< 2
              .| ((b .>> bit) .& 1) .<< 1 .| ((c .>> bit) .& 1))) 1)).
  2: { apply Forall_forall. intros k Hk. apply elem_of_seqZ in Hk. lia. }
  rewrite Z.testbit_0_l, existsb_seqZ16. cbn [orb].
  destruct (Z.leb_spec 0 i); [|done]. destruct (Z.ltb_spec i 16); [|done]. cbn.
  rewrite !shiftr_land_1 by done. change 1 with (2 ^ 0). rewrite has_pow2 by done.
  destruct (Z.testbit a i), (Z.testbit b i), (Z.testbit c i);
    cbn -[Z.shiftr Z.testbit]; rewrite Z.shiftr_spec by done; reflexivity.
Qed.

(** The blitter's logic, the copy made for the line drawer and the
    stand-alone logic unit compute the same word, and each output bit is the
    entry of the minterm byte the three input bits select. *)
Theorem logic_is_truth_table mt A B C :
  is_u8 mt -> is_u16 A -> is_u16 B -> is_u16 C ->
  blitter_logic mt A B C = blitter_logic_minterm mt A B C /\
  line_blitter_logic mt A B C = blitter_logic_minterm mt A B C /\
  forall i, 0 <= i < 16 ->
    Z.testbit (blitter_logic mt A B C) i =
    Z.testbit mt (4 * b2u (Z.testbit A i) + 2 * b2u (Z.testbit B i) + b2u (Z.testbit C i)).
Proof.
  intros Hmt HA HB HC.
  assert (E : blitter_logic mt A B C = blitter_logic_minterm mt A B C).
  { apply Z.bits_inj'. intros i Hi. rewrite blitter_logic_minterm_bit.
    destruct (Z.leb_spec 0 i); [|lia]. destruct (Z.ltb_spec i 16); cbn.
    - apply blitter_logic_bit. lia.
    - apply (testbit_high 16); [by apply blitter_logic_range|lia]. }
  split_and!; [done|by rewrite <- E|]. intros i Hi. by apply blitter_logic_bit.
Qed.

Lemma logic_is_truth_table_witness :
  blitter_logic 0xca 0xff00 0x1234 0x5678 = 0x1278 /\
  blitter_logic 0xca 0xff00 0x1234 0x5678 = blitter_logic_minterm 0xca 0xff00 0x1234 0x5678.
Proof.
  split; [vm_compute; reflexivity|].
  apply (logic_is_truth_table 0xca 0xff00 0x1234 0x5678); closed_range.
Defined.

(** ** The barrel shifter *)

(** The shifter is a 16-bit window, moved by the shift count, over the
    previous and the current word: previous word on the left when ascending, on
    the right when descending; and the hold register a CPU write to BLTBDAT
    computes is the same window over the old and the new value. *)
Theorem shifter_is_window r prev cur shift :
  is_u16 prev -> is_u16 cur -> 0 <= shift < 16 -> is_u16 (bltbdat r) ->
  blitter_apply_shift false prev cur shift = u16 (((prev .<< 16) .| cur) .>> shift) /\
  blitter_apply_shift true prev cur shift = u16 (((cur .<< 16) .| prev) .>> (16 - shift)) /\
  make_b_hold r cur =
    blitter_apply_shift (descending (command_of r)) (bltbdat r) cur (bshift (command_of r)).
Proof.
  intros Hp Hc Hs Hb. split_and!.
  - unfold blitter_apply_shift, shift_ascending.
    destruct (Z.eqb_spec shift 0) as [->|].
    + rewrite Z.shiftr_0_r. bitwise 16.
    + apply (word_ext 16); [width|width|]. intros i Hi. autorewrite with bits.
      replace (i <? 16) with true by lia. cbn. f_equal. f_equal. lia.
  - unfold blitter_apply_shift, shift_descending.
    destruct (Z.eqb_spec shift 0) as [->|].
    + bitwise 16.
    + apply (word_ext 16); [width|width|]. intros i Hi. autorewrite with bits.
      replace (i <? 16) with true by lia. cbn. rewrite orb_comm. do 2 f_equal. lia.
  - unfold make_b_hold, blitter_apply_shift. cbn.
    destruct (has (bltcon1 r) 2);
      unfold shift_ascending, shift_descending; set (sh := (bltcon1 r .>> 12) .& 15);
      assert (Hsh : in_width 4 sh) by (apply in_width_land_r; [lia|closed_range]);
      unfold in_width in Hsh; destruct (Z.eqb_spec sh 0); try done.
    + rewrite (wrap_small 32) by width. apply (word_ext 16); [width|width|].
      intros i Hi. autorewrite with bits. replace (i <? 16) with true by lia. cbn.
      rewrite orb_comm. do 2 f_equal. lia.
    + rewrite (wrap_small 32) by width. apply (word_ext 16); [width|width|].
      intros i Hi. autorewrite with bits. replace (i <? 16) with true by lia. cbn.
      do 2 f_equal. lia.
Qed.

Lemma shifter_is_window_witness :
  blitter_apply_shift false 0x1234 0x5678 4 = 0x4567.
Proof.
  apply (shifter_is_window regs_zero 0x1234 0x5678 4); [closed_range|closed_range|lia|closed_range].
Defined.

(** ** The fill unit *)

Lemma fill_bit_modes d s i :
  s.2 = 0 \/ s.2 = 1 ->
  fill_bit true d s i = fill_bit false d s i /\
  ((fill_bit true d s i).2 = 0 \/ (fill_bit true d s i).2 = 1).
Proof.
  destruct s as [res c]. cbn [snd]. intros Hc. unfold fill_bit.
  destruct (decide (0 <= i)) as [Hi|Hi].
  - rewrite shiftr_land_1 by done.
    destruct Hc as [->| ->], (Z.testbit d i); cbn; auto.
  - rewrite land_1. destruct Hc as [->| ->], (Z.testbit _ 0); cbn; auto.
Qed.

Lemma fill_word_modes d l s :
  s.2 = 0 \/ s.2 = 1 -> foldl (fill_bit true d) s l = foldl (fill_bit false d) s l.
Proof.
  revert s. induction l as [|i l IH]; intros s Hs; [done|]. cbn.
  destruct (fill_bit_modes d s i Hs) as [<- H]. by apply IH.
Qed.

(** A step of the fill unit with a boolean carry. *)
Lemma fill_unit_step d l res c :
  Forall (Z.le 0) l ->
  foldl (fill_bit true d) (res, b2u c) l =
  let '(res', c') :=
    foldl (fun '(res, c) bit =>
             let pixel := has (d .>> bit) 1 in
             let c := if pixel then negb c else c in
             (if c then res .| u16 (1 .<< bit) else res, c)) (res, c) l in
  (res', b2u c').
Proof.
  intros Hl. revert res c. induction Hl as [|i l Hi Hl IH]; intros res c; [done|]. cbn [foldl].
  replace (has (d .>> i) 1) with (Z.testbit d i).
  2: { change 1 with (2 ^ 0). by rewrite has_pow2, Z.shiftr_spec by lia. }
  unfold fill_bit at 2. rewrite shiftr_land_1 by done.
  destruct (Z.testbit d i), c;
    [exact (IH res false)|exact (IH (res .| u16 (1 .<< i)) true)
    |exact (IH (res .| u16 (1 .<< i)) true)|exact (IH res false)].
Qed.

(** The fill unit of the backend gives the same word and carry in inclusive
    and in exclusive mode.  In inclusive mode, ascending, it agrees with the
    stand-alone fill unit; in exclusive mode it does not: between two edges the
    stand-alone unit leaves both edge pixels clear, the backend sets the first. *)
Theorem fill_modes_coincide d carry desc :
  blitter_fill_word d (b2u carry) true desc = blitter_fill_word d (b2u carry) false desc /\
  blitter_fill_word d (b2u carry) true false =
    (let '(res, c) := blitter_fill_word_unit d BLITTER_FILL_INCLUSIVE carry in (res, b2u c)) /\
  blitter_fill_word 0x1010 0 false false = (0x1fe0, 0) /\
  blitter_fill_word_unit 0x1010 BLITTER_FILL_EXCLUSIVE false = (0x0fe0, false).
Proof.
  split_and!; [| |vm_compute; reflexivity|vm_compute; reflexivity].
  - unfold blitter_fill_word. apply fill_word_modes. destruct carry; cbn; auto.
  - unfold blitter_fill_word, blitter_fill_word_unit. apply fill_unit_step.
    apply Forall_reverse, Forall_forall. intros k Hk. apply elem_of_seqZ in Hk. lia.
Qed.

(** ** Registers *)

Lemma u16_i16 v : is_u16 v -> u16 (i16 v) = v.
Proof.
  intros Hv. unfold sign_extend. rewrite (wrap_small 16 v) by done.
  destruct (v <? _); [by apply wrap_small|]. unfold wrap.
  replace (v - 2 ^ 16) with (v + (-1) * 2 ^ 16) by lia.
  rewrite Z.mod_add by lia. by apply wrap_small.
Qed.

(** A data, mask, control or modulo register reads back the value written to
    it, and writing it neither starts the blitter nor changes the command in
    progress; a pointer written high word first is the 32-bit value with an even
    low word, of which the command keeps the 21-bit even chip address. *)
Theorem blitter_register_roundtrip b reg hi lo v :
  is_u16 v -> is_u16 hi -> is_u16 lo ->
  reg ∈ [0x040; 0x042; 0x044; 0x046; 0x060; 0x062; 0x064; 0x066; 0x070; 0x072; 0x074; 0x000] ->
  let b' := blitter_write_reg16 b reg v in
  blitter_read_reg16 b' reg = v /\ blt_busy b' = blt_busy b /\ blt_cmd b' = blt_cmd b /\
  let r := regs (blitter_write_reg16 (blitter_write_reg16 b 0x050 hi) 0x052 lo) in
  bltapt r = hi * 2 ^ 16 + (lo .& 0xfffe) /\
  cmd_apt (command_of r) = (hi * 2 ^ 16 + lo) .& BLITTER_CHIP_ADDR_MASK.
Proof.
  intros Hv Hhi Hlo Hreg.
  assert (E : (((u32 (hi .<< 16) .| (bltapt (regs b) .& 0x0000ffff)) .& 0xffff0000)
                 .| (lo .& 0xfffe)) = (hi .<< 16) .| (lo .& 0xfffe)).
  { rewrite (wrap_small 32) by width. apply (word_ext 32); [width|width|]. intros i Hi.
    autorewrite with bits.
    assert (Hff : Z.testbit 0xffff0000 i = (16 <=? i)).
    { change 0xffff0000 with (Z.ones 16 .<< 16). rewrite Z.shiftl_spec by lia.
      destruct (Z.leb_spec 16 i); [by rewrite Z.ones_spec_low by lia|].
      by rewrite Z.testbit_neg_r by lia. }
    rewrite Hff. destruct (Z.leb_spec 16 i).
    - rewrite (testbit_high 16 0xffff) by (closed_range || lia). btauto.
    - rewrite (Z.testbit_neg_r hi) by lia. btauto. }
  assert (Hadd : forall x, is_u16 x -> (hi .<< 16) .| x = hi * 2 ^ 16 + x).
  { intros x Hx. rewrite <- Z.shiftl_mul_pow2 by lia. rewrite <- Z.add_lor_land.
    replace ((hi .<< 16) .& x) with 0; [by rewrite Z.add_0_r|]. symmetry.
    apply Z.bits_inj'. intros i Hi. autorewrite with bits.
    destruct (decide (16 <= i)); [rewrite (testbit_high 16 x) by done; apply andb_false_r|].
    by rewrite (Z.testbit_neg_r hi) by lia. }
  cbn zeta. apply and_assoc, and_assoc. split.
  - rewrite !list_elem_of_In in Hreg. cbn [In] in Hreg.
    repeat destruct Hreg as [<-|Hreg]; try done; cbn; rewrite ?u16_i16; done.
  - cbn. rewrite E, Hadd by width. split; [done|].
    rewrite <- !Hadd by width. unfold BLITTER_CHIP_ADDR_MASK.
    rewrite !Z.land_lor_distr_l. f_equal. bitwise 16.
Qed.

Lemma blitter_register_roundtrip_witness :
  blitter_read_reg16
    (blitter_write_reg16 (mkBlitter regs_zero cmd_zero result_0 BLITTER_EXEC_IDLE false false 0 0
       false false line_zero) 0x064 0xfffc) 0x064 = 0xfffc.
Proof.
  apply (blitter_register_roundtrip _ 0x064 0 0 0xfffc); [closed_range..|].
  apply (bool_decide_unpack _). vm_compute. exact I.
Defined.
