(* ===== verification/BlitterCopy.v ===== *)
(** * What a copy blit does to memory

    The backend reads and writes chip RAM word by word, with the write of a word
    delayed behind the fetches of the next one.  When no source word is
    overwritten by the blit this interleaving is invisible: the blit reads all
    its sources from the memory at its start and then writes. *)

From S2P Require Import Prelude ChipRam Blitter BlitterRef BlitterFacts.

(** A chip address as the bus sees it. *)
Definition chip_addr (a : Z) : Z := a .& BLITTER_CHIP_ADDR_MASK.

(** ** The blit against a fixed memory *)

Section pure.
  Context {M : Type} (mem : ChipRamIf M) (c : BlitCommand) (m0 : M).

(** The state of a blit that does not write: the copy state, the addresses read
    so far and the words to be written, in order. *)
Record PureRun := mkPure {
  pstate : BlitterCopyState;
  preads : list Z;
  pwrites : list (Z * Z);
}.

#[global] Instance eta_pure : Eta PureRun := fun s =>
  mkPure (pstate s) (preads s) (pwrites s).

(** The addresses the fetches of one word read. *)
Definition word_reads (s : BlitterCopyState) : list Z :=
  (if use_a c then [chip_addr (cs_apt s)] else []) ++
  (if use_b c then [chip_addr (cs_bpt s)] else []) ++
  (if use_c c then [chip_addr (cs_cpt s)] else []).

Definition pure_word (r : PureRun) (x : Z) : PureRun :=
  let '(A, B, C, s) := copy_fetch mem c x m0 (pstate r) in
  let '(D, s') := copy_output c A B C s in
  mkPure s' (preads r ++ word_reads (pstate r))
    (pwrites r ++ if use_d c then [(chip_addr (cs_dpt s), D)] else []).

Definition pure_line (r : PureRun) : PureRun :=
  let r := r <| pstate := (pstate r) <| fill_carry := b2u (fill_carry_in c) |> |> in
  let r := foldl pure_word r (seqZ 0 (width_words c)) in
  r <| pstate := blitter_copy_advance_line c (pstate r) |>.

Definition pure_blit : PureRun :=
  Nat.iter (Z.to_nat (height_lines c)) pure_line (mkPure (blitter_copy_state_init c) [] []).

End pure.

(** The writes of a blit, in order. *)
Definition apply_writes {M} (wr : M -> Z -> Z -> M) (m : M) (ws : list (Z * Z)) : M :=
  foldl (fun m w => wr m w.1 w.2) m ws.
#[global] Arguments apply_writes : simpl never.

(** ** The interleaved execution reads what the pure one reads *)

Section interleaving.
  Context {M : Type} (mem : ChipRamIf M) (rd : M -> Z -> Z) (wr : M -> Z -> Z -> M).
  Context {L : RamLaws mem rd wr (fun a => chip_addr a = a)}.
  Context (c : BlitCommand) (m0 : M) (W : list Z).

Lemma chip_addr_idemp a : chip_addr (chip_addr a) = chip_addr a.
Proof. unfold chip_addr. by rewrite <- Z.land_assoc, Z.land_diag. Qed.

Lemma chip_read16_rd m a : chip_read16 mem m a = rd m (chip_addr a).
Proof. unfold chip_read16. by rewrite (ram_read16 (mem := mem)). Qed.

Lemma chip_write16_wr m a v : chip_write16 mem m a v = wr m (chip_addr a) v.
Proof. unfold chip_write16. by rewrite (ram_write16 (mem := mem)). Qed.

(** The memory [m] differs from the initial one at the addresses [W] only. *)
Definition agree (m : M) : Prop := forall a, a ∉ W -> chip_addr a = a -> rd m a = rd m0 a.

Lemma agree_write m a v : agree m -> a ∈ W -> chip_addr a = a -> agree (wr m a v).
Proof.
  intros Hm Ha Hc b Hb Hcb. rewrite (ram_read_other (RamLaws := L)); [by apply Hm|done|done|].
  by intros ->.
Qed.

Lemma fetch_word_agree m enabled ptr inc latched last :
  agree m -> (enabled = true -> chip_addr ptr ∉ W) ->
  blitter_fetch_word mem m enabled ptr inc latched last =
  blitter_fetch_word mem m0 enabled ptr inc latched last.
Proof.
  intros Hm Hp. unfold blitter_fetch_word. destruct enabled; [|done].
  rewrite !chip_read16_rd, Hm; [done|by apply Hp|apply chip_addr_idemp].
Qed.

Lemma copy_fetch_agree x m s :
  agree m -> Forall (fun a => a ∉ W) (word_reads c s) ->
  copy_fetch mem c x m s = copy_fetch mem c x m0 s.
Proof.
  unfold word_reads. rewrite !Forall_app. intros Hm (Ha & Hb & Hcc). unfold copy_fetch.
  rewrite (fetch_word_agree m (use_a c)), (fetch_word_agree m (use_b c)),
    (fetch_word_agree m (use_c c)); try done.
  - intros E. rewrite E in Hcc. by inversion Hcc.
  - intros E. rewrite E in Hb. by inversion Hb.
  - intros E. rewrite E in Ha. by inversion Ha.
Qed.

(** The interleaved execution [r] and the pure one [p] side by side: the same
    state, and the memory with the pending word flushed is the initial one with
    the writes so far. *)
Record in_step (r : CopyRun M) (p : PureRun) : Prop := {
  is_state : cstate r = pstate p;
  is_ram : copy_ram (flush_d mem r) = apply_writes wr m0 (pwrites p);
  is_agree : agree (copy_ram r);
  is_pending : pending_d r = true -> chip_addr (pending_dpt r) ∈ W;
}.

(** The reads so far avoid [W] and the writes so far are in [W]. *)
Definition hazard_free (p : PureRun) : Prop :=
  Forall (fun a => a ∉ W) (preads p) /\ Forall (fun w => w.1 ∈ W) (pwrites p).

Lemma flush_agree r p : in_step r p -> agree (copy_ram (flush_d mem r)).
Proof.
  intros [_ _ Ha Hp]. unfold flush_d. destruct (pending_d r) eqn:E; [|done]. cbn.
  rewrite chip_write16_wr. apply agree_write; [done|by apply Hp|apply chip_addr_idemp].
Qed.

Lemma apply_writes_app m ws ws' :
  apply_writes wr m (ws ++ ws') = apply_writes wr (apply_writes wr m ws) ws'.
Proof. unfold apply_writes. apply foldl_app. Qed.

Lemma word_in_step r p x :
  in_step r p -> hazard_free (pure_word mem c m0 p x) ->
  in_step (copy_word mem c r x) (pure_word mem c m0 p x).
Proof.
  intros Hs. pose proof (flush_agree r p Hs) as Hfa. destruct Hs as [Hst Hram Hag _].
  unfold pure_word, copy_word, hazard_free.
  rewrite Hst. destruct (copy_fetch mem c x m0 (pstate p)) as [[[A B] C] s] eqn:Ef.
  destruct (copy_output c A B C s) as [D s'] eqn:Eo. cbn.
  rewrite !Forall_app. intros [[_ Hr] [_ Hw]].
  rewrite (copy_fetch_agree x (copy_ram r)), Ef, Eo by done.
  assert (Hpd : pending_d (flush_d mem r) = false)
    by (unfold flush_d; by destruct (pending_d r) eqn:E).
  destruct (use_d c); cbn in *.
  - inversion Hw as [|? ? Hin _]; subst. split; cbn.
    + done.
    + by rewrite apply_writes_app, <- Hram, chip_write16_wr.
    + done.
    + done.
  - split; cbn.
    + done.
    + rewrite app_nil_r, <- Hram. unfold flush_d at 1. cbn. by rewrite Hpd.
    + done.
    + intros H. by rewrite Hpd in H.
Qed.

(** A pure execution only adds to its reads and writes. *)
Lemma hazard_free_word p x : hazard_free (pure_word mem c m0 p x) -> hazard_free p.
Proof.
  unfold hazard_free, pure_word. destruct (copy_fetch _ _ _ _ _) as [[[A B] C] s].
  destruct (copy_output _ _ _ _ _). cbn. rewrite !Forall_app. tauto.
Qed.

Lemma hazard_free_words xs p :
  hazard_free (foldl (pure_word mem c m0) p xs) -> hazard_free p.
Proof.
  revert p. induction xs as [|x xs IH]; intros p H; [done|].
  eapply hazard_free_word, IH, H.
Qed.

Lemma hazard_free_line p : hazard_free (pure_line mem c m0 p) -> hazard_free p.
Proof.
  intros H. exact (hazard_free_words (seqZ 0 (width_words c))
    (p <| pstate := (pstate p) <| fill_carry := b2u (fill_carry_in c) |> |>) H).
Qed.

Lemma words_in_step xs r p :
  in_step r p -> hazard_free (foldl (pure_word mem c m0) p xs) ->
  in_step (foldl (copy_word mem c) r xs) (foldl (pure_word mem c m0) p xs).
Proof.
  revert r p. induction xs as [|x xs IH]; intros r p Hs Hf; [done|]. cbn in *.
  apply IH; [|done]. apply word_in_step; [done|]. by eapply hazard_free_words.
Qed.

(** The line bookkeeping does not touch memory. *)
Lemma in_step_state r p s :
  in_step r p -> in_step (r <| cstate := s |>) (p <| pstate := s |>).
Proof.
  intros [_ Hram Hag Hp]. split; cbn; [done| |done|done].
  rewrite <- Hram. unfold flush_d. cbn. by destruct (pending_d r).
Qed.

Lemma line_in_step r p :
  in_step r p -> hazard_free (pure_line mem c m0 p) ->
  in_step (copy_line mem c r) (pure_line mem c m0 p).
Proof.
  intros Hs Hf. unfold copy_line, pure_line in *. rewrite (is_state _ _ Hs).
  apply (in_step_state _ _ ((pstate p) <| fill_carry := b2u (fill_carry_in c) |>)) in Hs.
  pose proof (words_in_step (seqZ 0 (width_words c)) _ _ Hs Hf) as H.
  cbn zeta. rewrite (is_state _ _ H). by apply in_step_state.
Qed.

Lemma lines_in_step n r p :
  in_step r p -> hazard_free (Nat.iter n (pure_line mem c m0) p) ->
  in_step (Nat.iter n (copy_line mem c) r) (Nat.iter n (pure_line mem c m0) p).
Proof.
  intros Hs. induction n as [|n IH]; intros Hf; [done|]. rewrite !Nat.iter_succ in *.
  apply line_in_step; [|done]. by apply IH, hazard_free_line.
Qed.

End interleaving.

(** No word of the destination is a source word of the blit. *)
Definition no_overlap (p : PureRun) : Prop :=
  forall a, a ∈ preads p -> a ∈ (pwrites p).*1 -> False.

#[export] Instance no_overlap_dec p : Decision (no_overlap p).
Proof.
  refine (cast_if (decide (Forall (fun a => a ∉ (pwrites p).*1) (preads p))));
    unfold no_overlap; rewrite Forall_forall in *; firstorder.
Defined.

(** ** Theorems *)

(** The two phases of a copy: the interleaved run in step with the pure one. *)
Lemma copy_in_phases {M} (mem : ChipRamIf M) rd wr c m :
  RamLaws mem rd wr (fun a => chip_addr a = a) ->
  no_overlap (pure_blit mem c m) ->
  execute_copy_mode mem c m =
  (blitter_copy_publish_result (pstate (pure_blit mem c m)),
   apply_writes wr m (pwrites (pure_blit mem c m))).
Proof.
  intros L Hno. unfold execute_copy_mode. cbn zeta.
  pose proof (lines_in_step mem rd wr c m ((pwrites (pure_blit mem c m)).*1)
    (Z.to_nat (height_lines c)) (mkCopyRun (blitter_copy_state_init c) 0 0 false m)
    (mkPure (blitter_copy_state_init c) [] [])) as H.
  fold (pure_blit mem c m) in H. destruct H as [Hs Hr _ _].
  - split; done.
  - split; apply Forall_forall.
    + intros a Ha Hw. by apply (Hno a).
    + intros w Hw. apply list_elem_of_fmap. by exists w.
  - f_equal; [|exact Hr]. rewrite <- Hs. unfold flush_d. by destruct (pending_d _).
Qed.

(** C14: if no word the blit writes is a word it reads, the word-by-word
    execution (each write delayed behind the next fetches) is the two-phase one:
    all sources are read from the memory at the start of the blit, and the
    destination words are then written in order.  This holds for every minterm,
    shift, mask, fill mode, direction, modulo and set of channels. *)
Theorem copy_reads_then_writes {M} (mem : ChipRamIf M) rd wr c m :
  RamLaws mem rd wr (fun a => chip_addr a = a) ->
  no_overlap (pure_blit mem c m) ->
  execute_copy_mode mem c m =
  (blitter_copy_publish_result (pstate (pure_blit mem c m)),
   apply_writes wr m (pwrites (pure_blit mem c m))).
Proof. apply copy_in_phases. Qed.

(** ** Plain copies *)

(** A copy of channel A to channel D: no shift, no mask, no fill. *)
Record plain_copy (c : BlitCommand) : Prop := {
  pl_a : use_a c = true;
  pl_b : use_b c = false;
  pl_c : use_c c = false;
  pl_d : use_d c = true;
  pl_minterm : minterm c = 0xf0;
  pl_shift : ashift c = 0;
  pl_afwm : afwm c = 0xffff;
  pl_alwm : alwm c = 0xffff;
  pl_fill : fill_mode c = BLITTER_FILL_NONE;
  pl_apt : is_u32 (cmd_apt c);
  pl_dpt : is_u32 (cmd_dpt c);
  pl_size : 0 <= width_words c /\ 0 <= height_lines c;
}.

Definition direction (c : BlitCommand) : Z := if descending c then -1 else 1.

(** The chip address of the word [x] of the line [y] of a channel that starts at
    [start]; a descending blit walks the rectangle backwards. *)
Definition cell (c : BlitCommand) (start modulo y x : Z) : Z :=
  chip_addr (u32 (start + direction c * (y * (2 * width_words c + modulo) + 2 * x))).

Definition source_cell c (yx : Z * Z) : Z := cell c (cmd_apt c) (amod c) yx.1 yx.2.
Definition dest_cell c (yx : Z * Z) : Z := cell c (cmd_dpt c) (dmod c) yx.1 yx.2.

(** The positions of the rectangle in the order of the blit. *)
Definition positions (w h : Z) : list (Z * Z) :=
  flat_map (fun y => (fun x => (y, x)) <$> seqZ 0 w) (seqZ 0 h).

Lemma elem_of_positions w h yx :
  yx ∈ positions w h <-> 0 <= yx.1 < h /\ 0 <= yx.2 < w.
Proof.
  unfold positions. rewrite list_elem_of_In, in_flat_map. destruct yx as [y x]. cbn. split.
  - intros (y' & Hy & Hx). apply list_elem_of_In, elem_of_seqZ in Hy.
    apply list_elem_of_In, list_elem_of_fmap in Hx as (x' & E & Hx). apply elem_of_seqZ in Hx.
    injection E as -> ->. lia.
  - intros [Hy Hx]. exists y. split; [apply list_elem_of_In, elem_of_seqZ; lia|].
    apply list_elem_of_In, list_elem_of_fmap. exists x. split; [done|]. apply elem_of_seqZ. lia.
Qed.

Lemma logic_f0 A B C : is_u16 A -> is_u16 B -> is_u16 C -> blitter_logic 0xf0 A B C = A.
Proof.
  intros HA HB HC. apply (word_ext 16); [by apply blitter_logic_range|done|].
  intros i Hi. rewrite blitter_logic_bit by done.
  destruct (Z.testbit A i), (Z.testbit B i), (Z.testbit C i); reflexivity.
Qed.

Section plain.
  Context {M : Type} (mem : ChipRamIf M) (rd : M -> Z -> Z) (wr : M -> Z -> Z -> M).
  Context {L : RamLaws mem rd wr (fun a => chip_addr a = a)}.
  Context (c : BlitCommand) (m0 : M) (Hpl : plain_copy c).
  Context (Hb : is_u16 (bhold c)) (Hc : is_u16 (cdat c)).

(** The channels A and D of a pure run at the addresses [a] and [d]. *)
Record plain_at (p : PureRun) (a d : Z) : Prop := {
  pa_apt : cs_apt (pstate p) = u32 a;
  pa_dpt : cs_dpt (pstate p) = u32 d;
  pa_bhold : cs_bhold (pstate p) = bhold c;
}.

Lemma land_ffff v : is_u16 v -> v .& 0xffff = v.
Proof. intros Hv. bitwise 16. Qed.

Lemma a_masks_plain v x : is_u16 v -> blitter_apply_a_masks c v x = v.
Proof.
  intros Hv. unfold blitter_apply_a_masks. rewrite (pl_afwm _ Hpl), (pl_alwm _ Hpl).
  destruct (x =? 0), (_ =? _); by rewrite ?(land_ffff v Hv).
Qed.

Lemma plain_word p x a d :
  plain_at p a d ->
  let p' := pure_word mem c m0 p x in
  plain_at p' (a + 2 * direction c) (d + 2 * direction c) /\
  preads p' = preads p ++ [chip_addr (u32 a)] /\
  pwrites p' = pwrites p ++ [(chip_addr (u32 d), rd m0 (chip_addr (u32 a)))].
Proof.
  intros [Ha Hd Hh]. unfold pure_word, copy_fetch, word_reads.
  rewrite (pl_a _ Hpl), (pl_b _ Hpl), (pl_c _ Hpl), (pl_d _ Hpl). cbn [blitter_fetch_word].
  pose proof (ram_read_u16 (RamLaws := L) m0 (chip_addr (u32 a))) as Hv.
  rewrite (chip_read16_rd mem rd wr), Ha, a_masks_plain by done.
  unfold blitter_apply_shift, shift_descending, shift_ascending, copy_output, blitter_apply_fill.
  rewrite (pl_shift _ Hpl), (pl_fill _ Hpl), (pl_minterm _ Hpl), (pl_d _ Hpl). cbn.
  rewrite Hh, Hd. replace (if descending c then rd m0 (chip_addr (u32 a)) else _)
    with (rd m0 (chip_addr (u32 a))) by by destruct (descending c).
  rewrite logic_f0 by done. cbn. split_and!; [|done|done].
  split; cbn; [| |done]; unfold copy_increment, direction; rewrite wrap_add_l by lia;
    by destruct (descending c).
Qed.

Lemma plain_words n p a d :
  plain_at p a d ->
  let p' := foldl (pure_word mem c m0) p (seqZ 0 (Z.of_nat n)) in
  let at_ s x := chip_addr (u32 (s + direction c * (2 * x))) in
  plain_at p' (a + direction c * (2 * Z.of_nat n)) (d + direction c * (2 * Z.of_nat n)) /\
  preads p' = preads p ++ (at_ a <$> seqZ 0 (Z.of_nat n)) /\
  pwrites p' = pwrites p ++ ((fun x => (at_ d x, rd m0 (at_ a x))) <$> seqZ 0 (Z.of_nat n)).
Proof.
  intros Hat. induction n as [|n IH].
  - cbn. rewrite !app_nil_r. split; [|done]. by rewrite Z.mul_0_r, !Z.add_0_r.
  - cbn zeta in *. rewrite seqZ_S, foldl_app, !fmap_app. destruct IH as (Hp & Hr & Hw).
    cbn [foldl]. destruct (plain_word _ (0 + Z.of_nat n) _ _ Hp) as (Hp' & Hr' & Hw').
    rewrite Hr', Hw', Hr, Hw, !app_assoc. cbn. rewrite Z.add_0_l. split; [|done].
    replace (direction c * (2 * Z.of_nat (S n)))
      with (direction c * (2 * Z.of_nat n) + 2 * direction c) by lia.
    by rewrite !Z.add_assoc.
Qed.

Lemma plain_line p a d y :
  let line s modulo := s + direction c * (y * (2 * width_words c + modulo)) in
  plain_at p (line a (amod c)) (line d (dmod c)) ->
  let p' := pure_line mem c m0 p in
  let next s modulo := s + direction c * ((y + 1) * (2 * width_words c + modulo)) in
  plain_at p' (next a (amod c)) (next d (dmod c)) /\
  preads p' = preads p ++ ((fun x => cell c a (amod c) y x) <$> seqZ 0 (width_words c)) /\
  pwrites p' = pwrites p ++
    ((fun x => (cell c d (dmod c) y x, rd m0 (cell c a (amod c) y x))) <$>
       seqZ 0 (width_words c)).
Proof.
  intros line Hat p' next. subst p'. unfold pure_line.
  set (p1 := p <| pstate := _ |>).
  assert (H1 : plain_at p1 (line a (amod c)) (line d (dmod c))) by (destruct Hat; by split).
  pose proof (pl_size _ Hpl) as [Hw _].
  destruct (plain_words (Z.to_nat (width_words c)) p1 _ _ H1) as (H2 & Hr & Hwr).
  cbn zeta in *. rewrite Z2Nat.id in * by done. cbn [preads pwrites update].
  split_and!.
  - destruct H2 as [Ea Ed Eh]. unfold line, next in *. unfold direction in *.
    split; cbn; unfold blitter_copy_advance_line; destruct (descending c); cbn;
      rewrite ?Ea, ?Ed, ?wrap_add_l, ?wrap_sub_l by lia; try done; f_equal; lia.
  - cbn. rewrite Hr. f_equal. apply list_fmap_ext. intros i x _. unfold cell, line.
    do 2 f_equal. lia.
  - cbn. rewrite Hwr. f_equal. apply list_fmap_ext. intros i x _. unfold cell, line.
    f_equal; [|f_equal]; do 2 f_equal; lia.
Qed.

(** The reads and the writes of a plain copy. *)
Lemma plain_blit :
  let ps := positions (width_words c) (height_lines c) in
  preads (pure_blit mem c m0) = source_cell c <$> ps /\
  pwrites (pure_blit mem c m0) = (fun yx => (dest_cell c yx, rd m0 (source_cell c yx))) <$> ps.
Proof.
  unfold pure_blit, positions. pose proof (pl_size _ Hpl) as [_ Hh].
  rewrite <- (Z2Nat.id (height_lines c)) at 2 4 by done.
  set (p0 := mkPure _ _ _). cbn zeta.
  enough (H : forall n, let p := Nat.iter n (pure_line mem c m0) p0 in
    let line s modulo := s + direction c * (Z.of_nat n * (2 * width_words c + modulo)) in
    let ps := flat_map (fun y => (fun x => (y, x)) <$> seqZ 0 (width_words c))
                (seqZ 0 (Z.of_nat n)) in
    plain_at p (line (cmd_apt c) (amod c)) (line (cmd_dpt c) (dmod c)) /\
    preads p = source_cell c <$> ps /\
    pwrites p = (fun yx => (dest_cell c yx, rd m0 (source_cell c yx))) <$> ps).
  { destruct (H (Z.to_nat (height_lines c))) as (_ & Hr & Hw). by split. }
  induction n as [|n IH]; cbn zeta in *.
  - split; [|done]. pose proof (pl_apt _ Hpl). pose proof (pl_dpt _ Hpl).
    split; cbn; rewrite ?Z.mul_0_r, ?Z.add_0_r, ?wrap_small; done.
  - rewrite Nat.iter_succ, seqZ_S, flat_map_app, !fmap_app. cbn [flat_map].
    destruct IH as (Hp & Hr & Hw).
    destruct (plain_line _ (cmd_apt c) (cmd_dpt c) (Z.of_nat n) Hp) as (Hp' & Hr' & Hw').
    rewrite Hr', Hw', Hr, Hw, app_nil_r, Z.add_0_l, <- !list_fmap_compose.
    split; [|done]. by replace (Z.of_nat (S n)) with (Z.of_nat n + 1) by lia.
Qed.

End plain.

(** Reading a memory after writes to distinct addresses. *)
Lemma apply_writes_out {M} (mem : ChipRamIf M) rd wr (dom : Z -> Prop) m ws a :
  RamLaws mem rd wr dom -> Forall (fun w => dom w.1) ws -> dom a -> a ∉ ws.*1 ->
  rd (apply_writes wr m ws) a = rd m a.
Proof.
  intros L Hd Ha. revert m. induction Hd as [|w ws Hw Hd IH]; intros m Hn; [done|].
  cbn in Hn. apply not_elem_of_cons in Hn as [Hne Hn]. unfold apply_writes in *. cbn.
  rewrite IH by done. by apply (ram_read_other (RamLaws := L)).
Qed.

Lemma apply_writes_in {M} (mem : ChipRamIf M) rd wr (dom : Z -> Prop) m ws a v :
  RamLaws mem rd wr dom -> Forall (fun w => dom w.1 /\ is_u16 w.2) ws -> NoDup ws.*1 ->
  (a, v) ∈ ws -> rd (apply_writes wr m ws) a = v.
Proof.
  intros L Hd. revert m. induction Hd as [|w ws [Hw Hv] Hd IH]; intros m Hn Hin.
  - by apply not_elem_of_nil in Hin.
  - cbn in Hn. apply NoDup_cons in Hn as [Hn1 Hn]. apply elem_of_cons in Hin as [<-|Hin].
    + unfold apply_writes. cbn.
      change (rd (apply_writes wr (wr m a v) ws) a = v). rewrite (apply_writes_out mem rd wr dom).
      * by apply (ram_read_same (RamLaws := L)).
      * done.
      * eapply Forall_impl; [exact Hd|]. by intros ? [].
      * done.
      * done.
    + unfold apply_writes. cbn. by apply IH.
Qed.

(** C3: a plain copy (channel A to channel D, minterm F0, no shift, no mask)
    moves a rectangle: if the destination words are distinct and none of them is
    a source word, then after the blit each destination word holds what its
    source word held, ascending or descending, for any modulos, and every other
    word of chip RAM is unchanged. *)
Theorem plain_copy_moves_rectangle {M} (mem : ChipRamIf M) rd wr c m :
  RamLaws mem rd wr (fun a => chip_addr a = a) -> plain_copy c ->
  is_u16 (bhold c) -> is_u16 (cdat c) ->
  let ps := positions (width_words c) (height_lines c) in
  NoDup (dest_cell c <$> ps) ->
  (forall p q, p ∈ ps -> q ∈ ps -> dest_cell c p <> source_cell c q) ->
  let m' := (execute_copy_mode mem c m).2 in
  (forall p, p ∈ ps -> rd m' (dest_cell c p) = rd m (source_cell c p)) /\
  (forall a, chip_addr a = a -> a ∉ dest_cell c <$> ps -> rd m' a = rd m a).
Proof.
  intros L Hpl Hb Hc ps Hnd Hdis m'.
  destruct (plain_blit mem rd wr c m Hpl Hb Hc) as [Hr Hw]. fold ps in Hr, Hw.
  assert (Hdst : (pwrites (pure_blit mem c m)).*1 = dest_cell c <$> ps)
    by (rewrite Hw, <- list_fmap_compose; done).
  assert (Hno : no_overlap (pure_blit mem c m)).
  { intros a. rewrite Hr, Hdst, !list_elem_of_fmap.
    intros (q & -> & Hq) (p & E & Hp). by apply (Hdis p q). }
  assert (Hok : Forall (fun w => chip_addr w.1 = w.1 /\ is_u16 w.2) (pwrites (pure_blit mem c m))).
  { rewrite Hw. apply Forall_fmap, Forall_forall. intros p _. cbn. split.
    - apply chip_addr_idemp.
    - apply (ram_read_u16 (RamLaws := L)). }
  subst m'. rewrite (copy_in_phases mem rd wr c m L Hno). cbn. split.
  - intros p Hp. apply (apply_writes_in mem rd wr (fun a => chip_addr a = a)); try done.
    + by rewrite Hdst.
    + rewrite Hw. apply list_elem_of_fmap. by exists p.
  - intros a Ha Hn. apply (apply_writes_out mem rd wr (fun a => chip_addr a = a)); try done.
    + eapply Forall_impl; [exact Hok|]. by intros ? [].
    + by rewrite Hdst.
Qed.

(** A copy of two lines of three words, with modulos 2 and 4. *)
Definition example_copy : BlitCommand :=
  cmd_zero <| cmd_apt := 0x1000 |> <| cmd_dpt := 0x2000 |> <| amod := 2 |> <| dmod := 4 |>
    <| afwm := 0xffff |> <| alwm := 0xffff |> <| width_words := 3 |> <| height_lines := 2 |>
    <| minterm := 0xf0 |> <| use_a := true |> <| use_d := true |>.

Lemma copy_reads_then_writes_witness :
  execute_copy_mode word_ram example_copy ∅ =
  (blitter_copy_publish_result (pstate (pure_blit word_ram example_copy ∅)),
   apply_writes word_wr ∅ (pwrites (pure_blit word_ram example_copy ∅))).
Proof.
  apply (copy_reads_then_writes word_ram word_rd word_wr example_copy ∅); [apply _|].
  apply (bool_decide_unpack _). vm_compute. exact I.
Defined.

Lemma plain_copy_moves_rectangle_witness :
  let m := <[0x1008 := 0xbeef]> ∅ in
  word_rd (execute_copy_mode word_ram example_copy m).2 0x200a = 0xbeef.
Proof.
  set (m := <[0x1008 := 0xbeef]> (∅ : gmap.gmap Z Z)).
  pose proof (plain_copy_moves_rectangle word_ram word_rd word_wr example_copy m _) as H.
  destruct H as [H _].
  - split; first [reflexivity|closed_range|cbn; lia].
  - closed_range.
  - closed_range.
  - apply (bool_decide_unpack _). vm_compute. exact I.
  - intros p q Hp Hq.
    assert (F : Forall (fun p => Forall (fun q => dest_cell example_copy p <> source_cell example_copy q)
              (positions 3 2)) (positions 3 2)) by (apply (bool_decide_unpack _); vm_compute; exact I).
    rewrite Forall_forall in F. specialize (F p Hp). rewrite Forall_forall in F. exact (F q Hq).
  - exact (H (1, 0) ltac:(apply elem_of_positions; cbn; lia)).
Defined.
