(* ===== verification/Dma.v ===== *)
(** * DMACON

    [agnus/dma.c] and [domains/dma]: the DMA control register, its decoded
    enables and the slots it grants to the blitter. *)

From S2P Require Import Prelude Custom.

(** C: [src/src/chipset/agnus/dma.h]:7-11 [dma_state_t] *)
Record dma_state := mkDma {
  dmacon : Z;
  dma_enabled : bool;
  blitter_enabled : bool;
}.

#[export] Instance eta_dma : Eta dma_state := fun d =>
  mkDma (dmacon d) (dma_enabled d) (blitter_enabled d).

(** C: [src/src/chipset/agnus/dma.c] [dma_set_enabled] *)
Definition dma_set_enabled (d : dma_state) (enabled : bool) : dma_state :=
  d <| dma_enabled := enabled |>.

(** C: [src/src/chipset/agnus/dma.c] [dma_set_dmacon] *)
Definition dma_set_dmacon (d : dma_state) (v : Z) : dma_state := d <| dmacon := v |>.

(** C: [src/src/domains/dma/dma_domain.c] [rigel_dma_domain_reset] *)
Definition rigel_dma_domain_reset (d : dma_state) : dma_state := mkDma 0 false false.

(** C: [src/src/domains/dma/dma_domain.c] [rigel_dma_domain_read_dmacon] *)
Definition rigel_dma_domain_read_dmacon (d : dma_state) : Z := dmacon d.

(** C: [src/src/domains/dma/dma_domain.c] [rigel_dma_domain_sync_dmacon] *)
Definition rigel_dma_domain_sync_dmacon (d : dma_state) (v : Z) : dma_state :=
  let d := dma_set_dmacon d v in
  let d := dma_set_enabled d (has v DMACON_DMAEN) in
  d <| blitter_enabled := has v DMACON_BLTEN |>.

(** C: [src/src/domains/dma/dma_domain.c] [rigel_dma_domain_write_dmacon] *)
Definition rigel_dma_domain_write_dmacon (d : dma_state) (value : Z) : dma_state :=
  let d := dma_set_dmacon d (rigel_dma_apply_setclr (dmacon d) value) in
  rigel_dma_domain_sync_dmacon d (dmacon d).

(** C: [src/src/domains/dma/dma_domain.c] [rigel_dma_domain_blitter_grants] *)
Definition rigel_dma_domain_blitter_grants (d : dma_state) (cycles : Z) : Z :=
  if negb (dma_enabled d) || negb (blitter_enabled d) then 0 else cycles.

(** ** Theorems *)

(** After any sequence of DMACON writes the register holds, bit by bit, the
    last value the SET/CLR writes gave it, and the blitter is granted the bus
    exactly while DMAEN and BLTEN are both set in it. *)
Theorem dmacon_writes_grant (values : list Z) d cycles i :
  is_u16 (dmacon d) -> values <> [] -> 0 <= i < 16 ->
  let d' := foldl rigel_dma_domain_write_dmacon d values in
  Z.testbit (rigel_dma_domain_read_dmacon d') i =
    foldl (fun bit v => if (i <? 15) && Z.testbit v i then Z.testbit v 15 else bit)
      (Z.testbit (dmacon d) i) values /\
  is_u16 (dmacon d') /\
  rigel_dma_domain_blitter_grants d' cycles =
    if Z.testbit (dmacon d') 9 && Z.testbit (dmacon d') 6 then cycles else 0.
Proof.
  intros Hd Hne Hi d'. subst d'.
  destruct values as [|v vs] using rev_ind; [done|]. clear Hne IHvs.
  assert (H : is_u16 (dmacon (foldl rigel_dma_domain_write_dmacon d vs)) /\
    Z.testbit (dmacon (foldl rigel_dma_domain_write_dmacon d vs)) i =
    foldl (fun bit v => if (i <? 15) && Z.testbit v i then Z.testbit v 15 else bit)
      (Z.testbit (dmacon d) i) vs).
  { induction vs as [|u us [IHr IHb]] using rev_ind; [done|]. rewrite !foldl_app. cbn.
    rewrite rigel_dma_apply_setclr_intreq. split; [by apply intreq_apply_write_range|].
    rewrite intreq_apply_write_bit by (done || lia). unfold setclr_bit. by rewrite IHb. }
  destruct H as [Hr Hb]. rewrite !foldl_app. cbn.
  set (d1 := foldl rigel_dma_domain_write_dmacon d vs) in *.
  rewrite rigel_dma_apply_setclr_intreq. split_and!.
  - rewrite intreq_apply_write_bit by (done || lia). unfold setclr_bit. by rewrite Hb.
  - by apply intreq_apply_write_range.
  - unfold rigel_dma_domain_blitter_grants. cbn. rewrite rigel_dma_apply_setclr_intreq.
    unfold DMACON_DMAEN, DMACON_BLTEN.
    change 0x0200 with (2 ^ 9). change 0x0040 with (2 ^ 6). rewrite !has_pow2 by done.
    by destruct (Z.testbit _ 9), (Z.testbit _ 6).
Qed.

Lemma dmacon_writes_grant_witness :
  let d' := foldl rigel_dma_domain_write_dmacon (mkDma 0 false false) [0x8240; 0x0040; 0x8040] in
  rigel_dma_domain_blitter_grants d' 5 = 5 /\ dmacon d' = 0x0240.
Proof.
  pose proof (dmacon_writes_grant [0x8240; 0x0040; 0x8040] (mkDma 0 false false) 5 6
                ltac:(closed_range) ltac:(done) ltac:(lia)) as (_ & _ & H).
  split; [exact H|vm_compute; reflexivity].
Defined.
