(* ===== verification/Beam.v ===== *)
(** * The beam counters

    [agnus/beam.c], [timing/vblank.c], [timing/raster.c], [timing/deadline.c],
    [domains/beam] and the host-side extrapolation of [rigel_beam_api.c]. *)

From S2P Require Import Prelude.

(** C: [src/src/chipset/agnus/beam.h]:6-19 [beam_state_t] *)
Record beam_state := mkBeam {
  hpos : Z;
  vpos : Z;
  line_clocks : Z;
  frame_lines : Z;
  visible_y_start : Z;
  visible_y_stop : Z;
  lof : Z;
  lof_toggle : Z;
  lol : Z;
  lol_toggle : Z;
  frame_count : Z;
}.

#[export] Instance eta_beam : Eta beam_state := fun b =>
  mkBeam (hpos b) (vpos b) (line_clocks b) (frame_lines b) (visible_y_start b)
    (visible_y_stop b) (lof b) (lof_toggle b) (lol b) (lol_toggle b) (frame_count b).

(** C: [src/src/chipset/agnus/beam.h]:22-22 [RIGEL_BEAM_DEFAULT_LINE_CLOCKS] *)
Definition RIGEL_BEAM_DEFAULT_LINE_CLOCKS := 227.
(** C: [src/src/chipset/agnus/beam.h]:23-23 [RIGEL_BEAM_DEFAULT_FRAME_LINES] *)
Definition RIGEL_BEAM_DEFAULT_FRAME_LINES := 262.
(** C: [src/src/chipset/agnus/beam.h]:24-24 [RIGEL_BEAM_DEFAULT_VISIBLE_Y_START] *)
Definition RIGEL_BEAM_DEFAULT_VISIBLE_Y_START := 26.
(** C: [src/src/chipset/agnus/beam.h]:25-25 [RIGEL_BEAM_DEFAULT_VISIBLE_Y_STOP] *)
Definition RIGEL_BEAM_DEFAULT_VISIBLE_Y_STOP := 255.

(** C: [src/src/chipset/agnus/beam.c] [beam_line_hmax] *)
Definition beam_line_hmax (b : beam_state) : Z :=
  u16 (line_clocks b + (if truthy (lol b) then 1 else 0)).

(** C: [src/src/chipset/agnus/beam.c] [beam_frame_vmax] *)
Definition beam_frame_vmax (b : beam_state) : Z :=
  u16 (frame_lines b + (if truthy (lof b) then 1 else 0)).

(** C: [src/src/chipset/agnus/beam.c] [beam_advance_line] *)
Definition beam_advance_line (b : beam_state) : beam_state :=
  let b := b <| hpos := 0 |> <| vpos := u16 (vpos b + 1) |> in
  let b := if truthy (lol_toggle b) then b <| lol := lol b .^ 1 |> else b <| lol := 0 |> in
  if beam_frame_vmax b <=? vpos b then
    let b := b <| vpos := 0 |> <| frame_count := u64 (frame_count b + 1) |> in
    let b := if truthy (lof_toggle b) then b <| lof := lof b .^ 1 |> else b <| lof := 0 |> in
    if truthy (lol_toggle b) then b else b <| lol := 0 |>
  else b.

(** C: [src/src/chipset/agnus/beam.c] [beam_reset] *)
Definition beam_reset (b : beam_state) : beam_state :=
  mkBeam 0 0 RIGEL_BEAM_DEFAULT_LINE_CLOCKS RIGEL_BEAM_DEFAULT_FRAME_LINES
    RIGEL_BEAM_DEFAULT_VISIBLE_Y_START RIGEL_BEAM_DEFAULT_VISIBLE_Y_STOP 0 0 0 0 0.

(** The loop of [beam_step]: at most a whole line per iteration.  It does not
    end by structure (an iteration at the end of a line consumes no clock), so it
    runs on fuel; [None] is running out of it.
    C: [src/src/chipset/agnus/beam.c]:69-88 [beam_step] *)
Fixpoint beam_loop (fuel : nat) (clocks : Z) (b : beam_state) : option beam_state :=
  match fuel with
  | O => None
  | S fuel =>
      if clocks <=? 0 then Some b
      else
        let hmax := beam_line_hmax b in
        let remaining := u16 (hmax - hpos b) in
        if remaining =? 0 then beam_loop fuel clocks (beam_advance_line b)
        else if clocks <? remaining then
          beam_loop fuel 0 (b <| hpos := u16 (hpos b + clocks) |>)
        else
          let b := b <| hpos := u16 (hpos b + remaining) |> in
          let clocks := u16 (clocks - remaining) in
          if hmax <=? hpos b then beam_loop fuel clocks (beam_advance_line b)
          else beam_loop fuel clocks b
  end.

(** C: [src/src/chipset/agnus/beam.c] [beam_step] *)
Definition beam_step (b : beam_state) (clocks : Z) : option beam_state :=
  let b := if (line_clocks b =? 0) || (frame_lines b =? 0) then beam_reset b else b in
  beam_loop (S (S (Z.to_nat (2 * clocks)))) clocks b.

(** C: [src/src/domains/beam/beam_domain.c] [rigel_beam_domain_reset] *)
Definition rigel_beam_domain_reset (b : beam_state) : beam_state := beam_reset b.

(** C: [src/src/domains/beam/beam_domain.c] [rigel_beam_domain_step] *)
Definition rigel_beam_domain_step (b : beam_state) (clocks : Z) : option beam_state :=
  beam_step b clocks.

(** ** Vertical blank: [vblank.c] *)

(** C: [src/src/chipset/agnus/timing/vblank.h]:29-29 [AGNUS_VBL_LINE_END] *)
Definition AGNUS_VBL_LINE_END := 25.
(** C: [src/src/chipset/agnus/timing/vblank.h]:30-30 [AGNUS_VERTB_VPOS] *)
Definition AGNUS_VERTB_VPOS := 0.
(** C: [src/src/chipset/agnus/timing/vblank.h]:31-31 [AGNUS_VERTB_HPOS] *)
Definition AGNUS_VERTB_HPOS := 1.

(** C: [src/src/chipset/agnus/timing/vblank.h] [agnus_in_vbl_zone] *)
Definition agnus_in_vbl_zone (v : Z) : bool := v <=? AGNUS_VBL_LINE_END.

(** C: [src/src/chipset/agnus/timing/vblank.h] [agnus_is_vertb_position] *)
Definition agnus_is_vertb_position (h v : Z) : bool :=
  (v =? AGNUS_VERTB_VPOS) && (h =? AGNUS_VERTB_HPOS).

(** C: [src/src/chipset/agnus/timing/vblank.h] [agnus_vbl_inhibits_dma] *)
Definition agnus_vbl_inhibits_dma (v : Z) : bool := v <=? AGNUS_VBL_LINE_END.

(** C: [src/src/chipset/agnus/timing/vblank.c] [agnus_cycles_to_vertb] *)
Definition agnus_cycles_to_vertb (b : beam_state) : Z :=
  if agnus_is_vertb_position (hpos b) (vpos b) then 0
  else
    let cycles := u32 (line_clocks b - hpos b) in
    let lines_to_wrap :=
      if vpos b <? frame_lines b then u32 (frame_lines b - vpos b - 1) else 0 in
    let cycles := u32 (cycles + u32 (lines_to_wrap * line_clocks b)) in
    u32 (cycles + AGNUS_VERTB_HPOS).

(** C: [src/src/chipset/agnus/beam.c] [beam_in_vblank] *)
Definition beam_in_vblank (b : beam_state) : bool := agnus_in_vbl_zone (vpos b).

(** C: [src/src/chipset/agnus/beam.c] [beam_in_visible_area] *)
Definition beam_in_visible_area (b : beam_state) : bool :=
  (visible_y_start b <=? vpos b) && (vpos b <=? visible_y_stop b).

(** C: [src/src/chipset/agnus/beam.c] [beam_cycles_until_line_end] *)
Definition beam_cycles_until_line_end (b : beam_state) : Z :=
  if line_clocks b =? 0 then 0 else u16 (beam_line_hmax b - hpos b).

(** ** The display and fetch windows: [raster.c] *)

(** C: [src/src/chipset/agnus/timing/raster.h]:12-22 [raster_config_t] *)
Record raster_config := mkRaster {
  raster_pal : bool;
  raster_line_clocks : Z;
  raster_frame_lines : Z;
  diwstrt : Z;
  diwstop : Z;
  ddfstrt : Z;
  ddfstop : Z;
}.

#[export] Instance eta_raster : Eta raster_config := fun r =>
  mkRaster (raster_pal r) (raster_line_clocks r) (raster_frame_lines r) (diwstrt r)
    (diwstop r) (ddfstrt r) (ddfstop r).

(** [std] is [true] for PAL.
    C: [src/src/chipset/agnus/timing/raster.c] [raster_reset] *)
Definition raster_reset (std : bool) : raster_config :=
  mkRaster std 227 (if std then 312 else 262) 0 0 0 0.

(** C: [src/src/chipset/agnus/timing/raster.c]:17-17 [raster_set_diwstrt] *)
Definition raster_set_diwstrt (r : raster_config) (v : Z) : raster_config := r <| diwstrt := v |>.
(** C: [src/src/chipset/agnus/timing/raster.c]:18-18 [raster_set_diwstop] *)
Definition raster_set_diwstop (r : raster_config) (v : Z) : raster_config := r <| diwstop := v |>.
(** C: [src/src/chipset/agnus/timing/raster.c]:19-19 [raster_set_ddfstrt] *)
Definition raster_set_ddfstrt (r : raster_config) (v : Z) : raster_config := r <| ddfstrt := v |>.
(** C: [src/src/chipset/agnus/timing/raster.c]:20-20 [raster_set_ddfstop] *)
Definition raster_set_ddfstop (r : raster_config) (v : Z) : raster_config := r <| ddfstop := v |>.

(** C: [src/src/chipset/agnus/timing/raster.c] [raster_in_display_window] *)
Definition raster_in_display_window (r : raster_config) (h v : Z) : bool :=
  let vstart := (diwstrt r .>> 8) .& 0xff in
  let vstop := (diwstop r .>> 8) .& 0xff in
  let hstart := diwstrt r .& 0xff in
  let hstop_raw := diwstop r .& 0xff in
  let hstop := if hstop_raw <? 0x80 then hstop_raw + 0x100 else hstop_raw in
  if (v <? vstart) || (vstop <=? v) then false
  else (hstart <=? h) && (h <? hstop).

(** C: [src/src/chipset/agnus/timing/raster.c] [raster_in_fetch_window] *)
Definition raster_in_fetch_window (r : raster_config) (hp : Z) : bool :=
  let h := hp .& 0x00fe in
  (ddfstrt r .& 0x00fe <=? h) && (h <=? ddfstop r .& 0x00fe).

(** ** Deadlines: [deadline.c] *)

(** C: [src/src/chipset/agnus/timing/deadline.h]:15-15 [AGNUS_DEADLINE_UNKNOWN] *)
Definition AGNUS_DEADLINE_UNKNOWN := 0xffffffff.

(** C: [src/src/chipset/agnus/timing/deadline.h]:17-44 [agnus_deadlines_t] *)
Record agnus_deadlines := mkDeadlines {
  d_blitter : Z; d_beam_line_end : Z; d_vertb : Z; d_copper_wait : Z;
  d_audio : Z; d_disk : Z; d_slot : Z;
}.

(** C: [src/src/chipset/agnus/timing/deadline.c] [agnus_deadlines_reset] *)
Definition agnus_deadlines_reset (d : agnus_deadlines) : agnus_deadlines :=
  let u := AGNUS_DEADLINE_UNKNOWN in mkDeadlines u u u u u u u.

(** C: [src/src/chipset/agnus/timing/deadline.c] [agnus_deadlines_min] *)
Definition agnus_deadlines_min (d : agnus_deadlines) : Z :=
  let upd x min := if x <? min then x else min in
  upd (d_slot d) (upd (d_disk d) (upd (d_audio d) (upd (d_copper_wait d) (upd (d_vertb d)
    (upd (d_beam_line_end d) (upd (d_blitter d) AGNUS_DEADLINE_UNKNOWN)))))).

(** ** The host's extrapolation: [rigel_beam_api.c] *)

(** The beam part of the snapshot; the chip id in the high byte of VPOSR is not
    used by the extrapolation.
    C: [src/include/rigel/rigel_beam.h]:19-30 [rigel_beam_geometry_t] *)
Record rigel_beam_geometry := mkGeometry {
  g_time : Z; g_vpos : Z; g_hpos : Z; g_line_clocks : Z; g_frame_lines : Z;
  g_lof : Z; g_lol : Z; g_lof_toggle : Z; g_lol_toggle : Z;
}.

(** C: [src/src/core/rigel_beam_api.c] [rigel_get_beam_geometry] *)
Definition rigel_get_beam_geometry (cycles : Z) (b : beam_state) : rigel_beam_geometry :=
  mkGeometry cycles (vpos b) (hpos b) (line_clocks b) (frame_lines b) (lof b) (lol b)
    (lof_toggle b) (lol_toggle b).

(** The result is the pair (vpos, hpos); [None] is the [false] return.
    C: [src/src/core/rigel_beam_api.c] [rigel_beam_position_at] *)
Definition rigel_beam_position_at (g : rigel_beam_geometry) (time : Z) : option (Z * Z) :=
  if (time <? g_time g) || (g_line_clocks g =? 0) || (g_frame_lines g =? 0) ||
     (g_line_clocks g <=? g_hpos g) || (g_frame_lines g <=? g_vpos g)
  then None
  else if truthy (g_lof g) || truthy (g_lol g) || truthy (g_lof_toggle g)
          || truthy (g_lol_toggle g)
  then None
  else
    let elapsed := u64 (time - g_time g) in
    let clocks := u64 (g_hpos g + elapsed) in
    let lines := clocks / g_line_clocks g in
    Some (u16 (u64 (g_vpos g + lines) mod g_frame_lines g), u16 (clocks mod g_line_clocks g)).
