(* ===== verification/BeamFacts.v ===== *)
(** * The beam, clock by clock

    The line-at-a-time loop of [beam_step] against the beam that moves one
    colour clock at a time, and the closed forms the library computes from the
    counters. *)

From S2P Require Import Prelude Beam.

(** One colour clock. *)
Definition beam_tick (b : beam_state) : beam_state :=
  let b := b <| hpos := hpos b + 1 |> in
  if beam_line_hmax b <=? hpos b then beam_advance_line b else b.

Definition beam_ticks (n : Z) (b : beam_state) : beam_state := Nat.iter (Z.to_nat n) beam_tick b.

(** A beam within its geometry. *)
Record beam_wf (b : beam_state) : Prop := {
  wf_line : 1 <= line_clocks b <= 0xfffe;
  wf_frame : 1 <= frame_lines b <= 0xfffe;
  wf_lol : lol b = 0 \/ lol b = 1;
  wf_lof : lof b = 0 \/ lof b = 1;
  wf_hpos : 0 <= hpos b < line_clocks b + lol b;
  wf_vpos : 0 <= vpos b < frame_lines b + lof b;
}.

Lemma hmax_wf b : 1 <= line_clocks b <= 0xfffe -> lol b = 0 \/ lol b = 1 ->
  beam_line_hmax b = line_clocks b + lol b.
Proof.
  intros Hl Ho. unfold beam_line_hmax, truthy.
  destruct Ho as [Ho|Ho]; rewrite Ho; cbn; apply wrap_small; unfold in_width; lia.
Qed.

Lemma vmax_wf b : 1 <= frame_lines b <= 0xfffe -> lof b = 0 \/ lof b = 1 ->
  beam_frame_vmax b = frame_lines b + lof b.
Proof.
  intros Hl Ho. unfold beam_frame_vmax, truthy.
  destruct Ho as [Ho|Ho]; rewrite Ho; cbn; apply wrap_small; unfold in_width; lia.
Qed.

Lemma flip_bit x : x = 0 \/ x = 1 -> x .^ 1 = 0 \/ x .^ 1 = 1.
Proof. intros [->| ->]; cbn; auto. Qed.

Lemma advance_line_wf b : beam_wf b -> beam_wf (beam_advance_line b).
Proof.
  intros [Hl Hf Ho Hfo Hh Hv]. unfold beam_advance_line. cbn zeta.
  set (v' := u16 (vpos b + 1)).
  assert (Hv' : v' = vpos b + 1) by (apply wrap_small; unfold in_width; lia).
  set (b1 := if truthy (lol_toggle _) then _ else _).
  assert (H1 : line_clocks b1 = line_clocks b /\ frame_lines b1 = frame_lines b /\
               lof b1 = lof b /\ hpos b1 = 0 /\ vpos b1 = v' /\ (lol b1 = 0 \/ lol b1 = 1)).
  { subst b1. destruct (truthy _); cbn; split_and!; auto using flip_bit. }
  destruct H1 as (E1 & E2 & E3 & E4 & E5 & E6). clearbody b1.
  rewrite vmax_wf by (rewrite ?E2, ?E3; done || lia). rewrite E2, E3, E5.
  destruct (Z.leb_spec (frame_lines b + lof b) v').
  - set (b2 := if truthy (lof_toggle _) then _ else _).
    assert (H2 : line_clocks b2 = line_clocks b /\ frame_lines b2 = frame_lines b /\
                 (lof b2 = 0 \/ lof b2 = 1) /\ hpos b2 = 0 /\ vpos b2 = 0 /\ lol b2 = lol b1).
    { subst b2. destruct (truthy (lof_toggle _)); cbn; rewrite ?E3; split_and!;
        auto using flip_bit. }
    destruct H2 as (F1 & F2 & F3 & F4 & F5 & F6). clearbody b2.
    destruct (truthy (lol_toggle _)); split; cbn;
      rewrite ?F1, ?F2, ?F4, ?F5, ?F6; auto; lia.
  - split; rewrite ?E1, ?E2, ?E3, ?E4, ?E5; auto; lia.
Qed.

Lemma tick_wf b : beam_wf b -> beam_wf (beam_tick b).
Proof.
  intros Hwf. pose proof Hwf as [Hl Hf Ho Hfo Hh Hv]. unfold beam_tick. cbn zeta.
  rewrite hmax_wf by done. cbn.
  destruct (Z.leb_spec (line_clocks b + lol b) (hpos b + 1)).
  - replace (beam_advance_line (b <| hpos := hpos b + 1 |>)) with (beam_advance_line b) by done.
    by apply advance_line_wf.
  - split; cbn; done || lia.
Qed.

Lemma ticks_wf n b : beam_wf b -> beam_wf (beam_ticks n b).
Proof. intros H. unfold beam_ticks. by apply Nat.iter_invariant; [apply tick_wf|]. Qed.

(** Ticks within a line. *)
Lemma ticks_in_line n b :
  beam_wf b -> 0 <= n < line_clocks b + lol b - hpos b ->
  beam_ticks n b = b <| hpos := hpos b + n |>.
Proof.
  intros Hwf [Hn Hlt]. revert Hlt. revert n Hn. apply (natlike_ind (fun n => n < _ -> _)).
  - intros _. unfold beam_ticks. cbn. rewrite Z.add_0_r. by destruct b.
  - intros n Hn IH Hlt. unfold beam_ticks in *. rewrite Z2Nat.inj_succ, Nat.iter_succ by done.
    rewrite IH by lia. unfold beam_tick. cbn zeta. rewrite hmax_wf by apply Hwf. cbn.
    destruct (Z.leb_spec (line_clocks b + lol b) (hpos b + n + 1)); [lia|].
    by replace (hpos b + Z.succ n) with (hpos b + n + 1) by lia.
Qed.

(** The tick that completes a line. *)
Lemma ticks_line_end b :
  beam_wf b -> beam_ticks (line_clocks b + lol b - hpos b) b = beam_advance_line b.
Proof.
  intros Hwf. pose proof (wf_hpos _ Hwf) as Hh.
  replace (line_clocks b + lol b - hpos b) with (Z.succ (line_clocks b + lol b - hpos b - 1)) by lia.
  unfold beam_ticks. rewrite Z2Nat.inj_succ, Nat.iter_succ by lia.
  fold (beam_ticks (line_clocks b + lol b - hpos b - 1) b).
  rewrite ticks_in_line by (done || lia). unfold beam_tick. cbn zeta.
  rewrite hmax_wf by apply Hwf. cbn.
  destruct (Z.leb_spec (line_clocks b + lol b)
              (hpos b + (line_clocks b + lol b - hpos b - 1) + 1)); [done|lia].
Qed.

Lemma ticks_add n m b : 0 <= n -> 0 <= m -> beam_ticks (n + m) b = beam_ticks m (beam_ticks n b).
Proof.
  intros Hn Hm. unfold beam_ticks. rewrite Z.add_comm, Z2Nat.inj_add by done.
  apply Nat.iter_add.
Qed.

Lemma loop_is_ticks fuel n b :
  beam_wf b -> 0 <= n < 2 ^ 16 -> (Z.to_nat (2 * n) < fuel)%nat ->
  beam_loop fuel n b = Some (beam_ticks n b).
Proof.
  revert n b. induction fuel as [|fuel IH]; intros n b Hwf Hn Hfuel; [lia|].
  pose proof Hwf as [Hl Hf Ho Hfo Hh Hv]. cbn [beam_loop].
  destruct (Z.leb_spec n 0); [by replace n with 0 by lia|].
  rewrite hmax_wf by done. cbn zeta.
  rewrite (wrap_small 16 (line_clocks b + lol b - hpos b)) by (unfold in_width; lia).
  destruct (Z.eqb_spec (line_clocks b + lol b - hpos b) 0); [lia|].
  destruct (Z.ltb_spec n (line_clocks b + lol b - hpos b)).
  - rewrite wrap_small by (unfold in_width; lia). rewrite ticks_in_line by (done || lia).
    destruct fuel; [lia|]. done.
  - rewrite !wrap_small by (unfold in_width; lia). cbn.
    destruct (Z.leb_spec (line_clocks b + lol b)
                (hpos b + (line_clocks b + lol b - hpos b))); [|lia].
    replace (beam_advance_line (b <| hpos := _ |>)) with (beam_advance_line b) by done.
    rewrite IH by (apply advance_line_wf, Hwf || lia). f_equal.
    rewrite <- ticks_line_end by done. rewrite <- ticks_add by lia. f_equal. lia.
Qed.

Lemma step_is_ticks b n :
  beam_wf b -> 0 <= n < 2 ^ 16 -> beam_step b n = Some (beam_ticks n b).
Proof.
  intros Hwf Hn. unfold beam_step.
  replace ((line_clocks b =? 0) || (frame_lines b =? 0)) with false.
  2: { symmetry. apply orb_false_iff. pose proof (wf_line _ Hwf). pose proof (wf_frame _ Hwf).
       split; apply Z.eqb_neq; lia. }
  apply loop_is_ticks; [done|done|lia].
Qed.

(** ** Theorems *)

(** C31: a beam step ends and is the given number of single colour clocks, each
    moving the beam one position and wrapping at the (possibly long) line and
    frame; the counters stay inside the geometry. *)
Theorem beam_step_is_clock_by_clock b n :
  beam_wf b -> 0 <= n < 2 ^ 16 ->
  beam_step b n = Some (beam_ticks n b) /\ beam_wf (beam_ticks n b).
Proof. intros Hwf Hn. split; [by apply step_is_ticks|by apply ticks_wf]. Qed.

Definition pal_beam : beam_state := mkBeam 226 311 227 312 26 255 0 1 0 0 7.

Lemma beam_step_is_clock_by_clock_witness :
  beam_step pal_beam 228 = Some (beam_ticks 228 pal_beam) /\ beam_wf (beam_ticks 228 pal_beam).
Proof. apply beam_step_is_clock_by_clock; [split; cbn; auto; lia|lia]. Defined.

(** ** Progressive scanning *)

(** No interlace and no long lines. *)
Record progressive (b : beam_state) : Prop := {
  pg_wf : beam_wf b;
  pg_lof : lof b = 0;
  pg_lol : lol b = 0;
  pg_lof_toggle : lof_toggle b = 0;
  pg_lol_toggle : lol_toggle b = 0;
}.

(** The position as one number. *)
Definition linear (b : beam_state) : Z := vpos b * line_clocks b + hpos b.

Lemma progressive_tick b :
  progressive b ->
  progressive (beam_tick b) /\ line_clocks (beam_tick b) = line_clocks b /\
  frame_lines (beam_tick b) = frame_lines b /\
  linear (beam_tick b) = (linear b + 1) mod (frame_lines b * line_clocks b).
Proof.
  intros [Hwf Hlof Hlol Ht1 Ht2]. pose proof (tick_wf b Hwf) as Hwf'.
  pose proof Hwf as [Hl Hf _ _ Hh Hv]. rewrite Hlol, Hlof in *.
  assert (H : lof (beam_tick b) = 0 /\ lol (beam_tick b) = 0 /\ lof_toggle (beam_tick b) = 0 /\
    lol_toggle (beam_tick b) = 0 /\ line_clocks (beam_tick b) = line_clocks b /\
    frame_lines (beam_tick b) = frame_lines b /\
    linear (beam_tick b) = (linear b + 1) mod (frame_lines b * line_clocks b)).
  { unfold beam_tick, beam_advance_line, linear. cbn zeta. rewrite hmax_wf by (cbn; lia). cbn.
    rewrite Hlol, Ht2. cbn.
    destruct (Z.leb_spec (line_clocks b + 0) (hpos b + 1)) as [Hle|Hlt]; cbn.
    - rewrite vmax_wf by (cbn; lia). cbn. rewrite Hlof.
      rewrite (wrap_small 16) by (unfold in_width; lia).
      destruct (Z.leb_spec (frame_lines b + 0) (vpos b + 1)); cbn; rewrite ?Ht1; cbn;
        rewrite ?Ht2; cbn; split_and!; try done.
      + replace (vpos b * line_clocks b + hpos b + 1) with (frame_lines b * line_clocks b) by nia.
        by rewrite Z.mod_same by nia.
      + rewrite Z.mod_small; nia.
    - split_and!; try done. rewrite Z.mod_small; nia. }
  destruct H as (? & ? & ? & ? & ? & ? & ?). split_and!; [by split|done..].
Qed.

Lemma progressive_ticks n b :
  progressive b -> 0 <= n ->
  progressive (beam_ticks n b) /\ line_clocks (beam_ticks n b) = line_clocks b /\
  frame_lines (beam_ticks n b) = frame_lines b /\
  linear (beam_ticks n b) = (linear b + n) mod (frame_lines b * line_clocks b).
Proof.
  intros Hp Hn. revert n Hn. apply natlike_ind.
  - change (beam_ticks 0 b) with b. split_and!; [done..|].
    destruct Hp as [[Hl Hf _ _ Hh Hv] Ho Hl0 _ _]. rewrite Z.add_0_r, Z.mod_small; [done|].
    unfold linear. rewrite Ho, Hl0 in *. nia.
  - intros n Hn (IHp & IHl & IHf & IHi).
    replace (Z.succ n) with (n + 1) by lia. rewrite ticks_add by lia.
    change (beam_ticks 1 (beam_ticks n b)) with (beam_tick (beam_ticks n b)).
    destruct (progressive_tick _ IHp) as (H1 & H2 & H3 & H4).
    split_and!; [done|congruence|congruence|]. rewrite H4, IHi, IHl, IHf.
    rewrite Z.add_mod_idemp_l, Z.add_assoc by (pose proof (wf_line _ (pg_wf _ Hp));
      pose proof (wf_frame _ (pg_wf _ Hp)); nia). done.
Qed.

(** The counters are the quotient and the remainder of the linear position. *)
Lemma progressive_position b :
  progressive b -> vpos b = linear b / line_clocks b /\ hpos b = linear b mod line_clocks b.
Proof.
  intros [[Hl Hf _ _ Hh Hv] Ho Hl0 _ _]. rewrite Hl0 in Hh. unfold linear.
  split.
  - rewrite Z.div_add_l, Z.div_small by lia. lia.
  - rewrite Z.add_comm, Z.mod_add, Z.mod_small by lia. done.
Qed.

Lemma linear_range b : progressive b -> 0 <= linear b < frame_lines b * line_clocks b.
Proof.
  intros [[Hl Hf _ _ Hh Hv] Ho Hl0 _ _]. rewrite Hl0, Ho in *. unfold linear. nia.
Qed.

(** In progressive scanning the host's extrapolation from a snapshot gives the
    beam position the chipset reaches by stepping, for any elapsed time. *)
Theorem position_at_is_stepping b t n :
  progressive b -> 0 <= t -> 0 <= n -> t + n + 2 ^ 17 <= 2 ^ 64 ->
  let b' := beam_ticks n b in
  rigel_beam_position_at (rigel_get_beam_geometry t b) (t + n) = Some (vpos b', hpos b').
Proof.
  intros Hp Ht Hn Hlim b'. pose proof Hp as [[Hl Hf _ _ Hh Hv] Ho Hl0 Ht1 Ht2].
  rewrite Hl0, Ho in *. unfold rigel_beam_position_at, rigel_get_beam_geometry. cbn.
  rewrite Ho, Hl0, Ht1, Ht2.
  replace (_ || _ || _ || _ || _) with false by lia. cbn.
  replace (t + n - t) with n by lia. rewrite !(wrap_small 64 n) by (unfold in_width; lia).
  rewrite (wrap_small 64 (hpos b + n)) by (unfold in_width; lia).
  destruct (progressive_ticks n b Hp Hn) as (Hp' & El & Ef & Ei). fold b' in Hp', El, Ef, Ei.
  destruct (progressive_position b' Hp') as [-> ->]. rewrite El, Ei.
  assert (Hq : 0 <= (hpos b + n) / line_clocks b <= hpos b + n)
    by (split; [apply Z.div_pos; lia|apply Z.div_le_upper_bound; nia]).
  rewrite (wrap_small 64) by (unfold in_width; lia).
  pose proof (Z.mod_pos_bound (hpos b + n) (line_clocks b) ltac:(lia)).
  pose proof (Z.mod_pos_bound (vpos b + (hpos b + n) / line_clocks b) (frame_lines b) ltac:(lia)).
  rewrite !wrap_small by (unfold in_width; lia).
  unfold linear. rewrite <- Z.add_assoc. set (c := hpos b + n) in *.
  rewrite (Z.mul_comm (frame_lines b)), Z.rem_mul_r by lia.
  rewrite Z.div_add_l, (Z.add_comm (vpos b * _)), !Z.mod_add by lia.
  rewrite (Z.mul_comm (line_clocks b)), Z.div_add by lia.
  rewrite (Z.div_small (c mod _)) by lia. rewrite Z.mod_add, Z.mod_mod by lia. by rewrite Z.add_0_l.
Qed.

Lemma position_at_is_stepping_witness :
  rigel_beam_position_at (rigel_get_beam_geometry 1000 (mkBeam 5 311 227 312 26 255 0 0 0 0 7))
    (1000 + 300) =
  let b' := beam_ticks 300 (mkBeam 5 311 227 312 26 255 0 0 0 0 7) in Some (vpos b', hpos b').
Proof. apply position_at_is_stepping; [split; [split|..]; cbn; auto; lia|lia..]. Defined.

(** The deadline of the vertical blank interrupt is exact (the beam is at the
    trigger position after that many clocks and at no earlier time) except when
    the beam is at the very start of the frame: there the trigger is one clock
    away and the function answers a whole frame plus one clock. *)
Theorem cycles_to_vertb_exact b :
  progressive b -> 2 <= line_clocks b ->
  let d := agnus_cycles_to_vertb b in
  let at_vertb k := agnus_is_vertb_position (hpos (beam_ticks k b)) (vpos (beam_ticks k b)) in
  if linear b =? 0 then d = frame_lines b * line_clocks b + 1 /\ at_vertb 1 = true
  else at_vertb d = true /\ forall k, 0 <= k < d -> at_vertb k = false.
Proof.
  intros Hp Hl2 d at_vertb. pose proof (linear_range b Hp) as Hlin.
  pose proof Hp as [[Hl Hf _ _ Hh Hv] Ho Hl0 _ _]. rewrite Hl0, Ho in *.
  set (N := frame_lines b * line_clocks b) in *.
  assert (Hat : forall k, 0 <= k -> at_vertb k = ((linear b + k) mod N =? 1)).
  { intros k Hk. destruct (progressive_ticks k b Hp Hk) as (Hp' & El & _ & Ei).
    unfold at_vertb, agnus_is_vertb_position, AGNUS_VERTB_VPOS, AGNUS_VERTB_HPOS.
    fold N in Ei. rewrite <- Ei. pose proof Hp' as [[_ _ _ _ Hh' Hv'] Ho' Hl0' _ _].
    rewrite El, Hl0', Ho' in *. unfold linear. rewrite El.
    destruct (Z.eqb_spec (vpos (beam_ticks k b)) 0), (Z.eqb_spec (hpos (beam_ticks k b)) 1),
      (Z.eqb_spec (vpos (beam_ticks k b) * line_clocks b + hpos (beam_ticks k b)) 1); cbn; nia. }
  assert (Hd : d = if linear b =? 1 then 0 else N - linear b + 1).
  { unfold d, agnus_cycles_to_vertb, agnus_is_vertb_position, AGNUS_VERTB_VPOS,
      AGNUS_VERTB_HPOS. unfold linear in *.
    destruct (Z.eqb_spec (vpos b * line_clocks b + hpos b) 1) as [E|E].
    - replace (vpos b =? 0) with true by nia. by replace (hpos b =? 1) with true by nia.
    - replace ((vpos b =? 0) && (hpos b =? 1)) with false
        by (destruct (Z.eqb_spec (vpos b) 0), (Z.eqb_spec (hpos b) 1); cbn; nia).
      cbn. replace (vpos b <? frame_lines b) with true by lia.
      assert (0 <= (frame_lines b - vpos b - 1) * line_clocks b < 2 ^ 32) by nia.
      rewrite (wrap_small 32 (line_clocks b - hpos b)) by (unfold in_width; lia).
      rewrite (wrap_small 32 (frame_lines b - vpos b - 1)) by (unfold in_width; lia).
      rewrite (wrap_small 32 (_ * _)) by (unfold in_width; nia).
      rewrite (wrap_small 32 (_ + _ * _)) by (unfold in_width; nia).
      rewrite wrap_small by (unfold in_width; nia). unfold N. nia. }
  destruct (Z.eqb_spec (linear b) 0) as [E|E].
  - rewrite Hd, E. cbn. split; [lia|]. rewrite Hat, E by lia. apply Z.eqb_eq, Z.mod_small. nia.
  - destruct (Z.eqb_spec (linear b) 1) as [E1|E1]; rewrite Hd.
    + split; [|lia]. rewrite Hat, Z.add_0_r, Z.mod_small by lia. lia.
    + split.
      * rewrite Hat by lia. replace (linear b + (N - linear b + 1)) with (1 + 1 * N) by lia.
        rewrite Z.mod_add, Z.mod_small by nia. done.
      * intros k Hk. rewrite Hat by lia. apply Z.eqb_neq.
        destruct (decide (linear b + k < N)); [rewrite Z.mod_small; lia|].
        replace (linear b + k) with (linear b + k - N + 1 * N) by lia.
        rewrite Z.mod_add, Z.mod_small by nia. lia.
Qed.

Lemma cycles_to_vertb_exact_witness :
  agnus_cycles_to_vertb (mkBeam 0 0 227 262 26 255 0 0 0 0 0) = 262 * 227 + 1 /\
  agnus_is_vertb_position (hpos (beam_ticks 1 (mkBeam 0 0 227 262 26 255 0 0 0 0 0)))
    (vpos (beam_ticks 1 (mkBeam 0 0 227 262 26 255 0 0 0 0 0))) = true.
Proof.
  apply (cycles_to_vertb_exact (mkBeam 0 0 227 262 26 255 0 0 0 0 0));
    [split; [split|..]; cbn; auto; lia|cbn; lia].
Defined.
