(* ===== verification/Copper.v ===== *)
(** * The copper

    [agnus/copper] and [domains/copper]: the coprocessor that waits for beam
    positions and writes custom registers.  Its program counter and registers
    are [copper_state]; what it does to the rest of the machine goes through the
    interface [CopperHost]. *)

From S2P Require Import Prelude Custom Beam Dma.

(** C: [src/src/chipset/agnus/copper/copper.h]:7-23 [copper_state_t] *)
Record copper_state := mkCopper {
  cop1lc : Z;
  cop2lc : Z;
  program_counter : Z;
  wait_hpos : Z;
  wait_vpos : Z;
  wait_vpmask : Z;
  wait_hpmask : Z;
  copcon : Z;
  waiting : bool;
  wait_blitter : bool;
  stopped_until_vbl : bool;
  cop_enabled : bool;
  triggered : bool;
  event_latched : bool;
  fetch_pending : bool;
}.

#[export] Instance eta_copper : Eta copper_state := fun c =>
  mkCopper (cop1lc c) (cop2lc c) (program_counter c) (wait_hpos c) (wait_vpos c)
    (wait_vpmask c) (wait_hpmask c) (copcon c) (waiting c) (wait_blitter c)
    (stopped_until_vbl c) (cop_enabled c) (triggered c) (event_latched c)
    (fetch_pending c).

(** ** Beam comparison, WAIT and SKIP *)

(** C: [src/src/chipset/agnus/copper/copper.h] [copper_beam_cmp] *)
Definition copper_beam_cmp (v h wait_v wait_h vpmask hpmask : Z) : bool :=
  let beam16 := u16 ((u16 (v .& vpmask) .<< 8) .| (h .& hpmask .& 0xfe)) in
  let tgt16 := u16 ((u16 (wait_v .& vpmask) .<< 8) .| (wait_h .& hpmask .& 0xfe)) in
  tgt16 <=? beam16.

(** C: [src/src/chipset/agnus/copper/copper_wait.c] [copper_wait_arm] *)
Definition copper_wait_arm (c : copper_state) (ir1 ir2 : Z) : copper_state :=
  c <| wait_vpos := (ir1 .>> 8) .& 0xff |>
    <| wait_hpos := ir1 .& 0xfe |>
    <| wait_vpmask := (ir2 .>> 8) .& 0xff |>
    <| wait_hpmask := ir2 .& 0xfe |>
    <| waiting := true |>
    <| wait_blitter := ir2 .& 0x8000 =? 0 |>
    <| stopped_until_vbl := (ir1 =? 0xffff) && (ir2 =? 0xfffe) |>.

(** C: [src/src/chipset/agnus/copper/copper_wait.c] [copper_wait_satisfied] *)
Definition copper_wait_satisfied (c : copper_state) (h v : Z) : bool :=
  if negb (waiting c) then true
  else copper_beam_cmp v h (wait_vpos c) (wait_hpos c) (wait_vpmask c) (wait_hpmask c).

(** C: [src/src/chipset/agnus/copper/copper_exec.c] [copper_exec_skip_test] *)
Definition copper_exec_skip_test (ir1 ir2 h v : Z) : bool :=
  copper_beam_cmp v h ((ir1 .>> 8) .& 0xff) (ir1 .& 0xfe) ((ir2 .>> 8) .& 0xff) (ir2 .& 0xfe).

(** ** State: [copper.c] and [copper_domain.c] *)

(** C: [src/src/chipset/agnus/copper/copper.c] [copper_reset] *)
Definition copper_reset (c : copper_state) : copper_state :=
  mkCopper 0 0 0 0 0 0xff 0xfe 0 false false false false false false false.

(** C: [src/src/chipset/agnus/copper/copper.c] [copper_vbl_reload] *)
Definition copper_vbl_reload (c : copper_state) : copper_state :=
  if cop1lc c .& 0x001ffffe =? 0 then
    c <| program_counter := 0 |> <| waiting := false |> <| wait_blitter := false |>
      <| stopped_until_vbl := false |> <| fetch_pending := false |> <| triggered := false |>
      <| event_latched := false |>
  else
    c <| program_counter := cop1lc c .& 0x001ffffe |> <| waiting := false |>
      <| wait_blitter := false |> <| stopped_until_vbl := false |> <| fetch_pending := true |>
      <| triggered := false |> <| event_latched := false |>.

(** C: [src/src/chipset/agnus/copper/copper.c] [copper_set_pointer_hi] *)
Definition copper_set_pointer_hi (ptr value : Z) : Z :=
  (ptr .& 0x0000ffff) .| u32 (value .<< 16).

(** C: [src/src/chipset/agnus/copper/copper.c] [copper_set_pointer_lo] *)
Definition copper_set_pointer_lo (ptr value : Z) : Z := (ptr .& 0xffff0000) .| value.

(** C: [src/src/domains/copper/copper_domain.c] [rigel_copper_domain_reset] *)
Definition rigel_copper_domain_reset (c : copper_state) : copper_state := copper_reset c.

(** C: [src/src/domains/copper/copper_domain.c] [rigel_copper_domain_set_wait] *)
Definition rigel_copper_domain_set_wait (c : copper_state) (v h vpmask hpmask : Z) :
    copper_state :=
  c <| wait_vpos := v |> <| wait_hpos := h |> <| wait_vpmask := vpmask |>
    <| wait_hpmask := hpmask |> <| waiting := true |>.

(** C: [src/src/domains/copper/copper_domain.c] [rigel_copper_domain_jump1] *)
Definition rigel_copper_domain_jump1 (c : copper_state) : copper_state :=
  c <| program_counter := cop1lc c |> <| triggered := false |> <| event_latched := false |>
    <| fetch_pending := true |> <| waiting := false |>.

(** C: [src/src/domains/copper/copper_domain.c] [rigel_copper_domain_jump2] *)
Definition rigel_copper_domain_jump2 (c : copper_state) : copper_state :=
  c <| program_counter := cop2lc c |> <| triggered := false |> <| event_latched := false |>
    <| fetch_pending := true |> <| waiting := false |>.

(** C: [src/src/domains/copper/copper_domain.c] [rigel_copper_domain_vbl_reload] *)
Definition rigel_copper_domain_vbl_reload (c : copper_state) : copper_state :=
  copper_vbl_reload c.

(** C: [src/src/domains/copper/copper_domain.c]:11-11 [COPPER_DEADLINE_NONE] *)
Definition COPPER_DEADLINE_NONE := 0xffffffff.

(** C: [src/src/domains/copper/copper_domain.c] [rigel_copper_domain_cycles_to_wait] *)
Definition rigel_copper_domain_cycles_to_wait (c : copper_state) (b : beam_state) : Z :=
  if negb (waiting c) then COPPER_DEADLINE_NONE
  else if copper_beam_cmp (vpos b) (hpos b) (wait_vpos c) (wait_hpos c) (wait_vpmask c)
            (wait_hpmask c)
  then 0
  else if (wait_vpmask c =? 0xff) && (wait_hpmask c =? 0xfe) then
    let current := u32 (u32 (vpos b * line_clocks b) + hpos b) in
    let target := u32 (u32 (wait_vpos c * line_clocks b) + wait_hpos c) in
    if current <? target then u32 (target - current)
    else
      let frame_total := u32 (frame_lines b * line_clocks b) in
      u32 (u32 (frame_total - current) + target)
  else u32 (line_clocks b - hpos b).

(** C: [src/src/domains/copper/copper_domain.c] [rigel_copper_domain_step] *)
Definition rigel_copper_domain_step (c : copper_state) (b : beam_state) (d : dma_state)
    (blitter_busy : bool) : copper_state :=
  let c := c <| triggered := false |> in
  let enabled := dmacon d .& (DMACON_DMAEN .| DMACON_COPEN) =? (DMACON_DMAEN .| DMACON_COPEN) in
  let c := c <| cop_enabled := enabled |> in
  if negb enabled || negb (waiting c) then c
  else if wait_blitter c && blitter_busy then c
  else if copper_beam_cmp (vpos b) (hpos b) (wait_vpos c) (wait_hpos c) (wait_vpmask c)
            (wait_hpmask c)
  then
    c <| waiting := false |> <| wait_blitter := false |>
      <| program_counter := u32 (program_counter c + 4) |> <| triggered := true |>
      <| event_latched := true |> <| fetch_pending := true |>
  else c.

(** ** Registers: [copper_regs.c] *)

(** C: [src/src/chipset/agnus/copper/copper_regs.c] [rigel_copper_regs_owns_reg] *)
Definition rigel_copper_regs_owns_reg (addr : Z) : bool :=
  bool_decide (addr ∈ [RIGEL_REG_COPCON; RIGEL_REG_COP1LCH; RIGEL_REG_COP1LCL;
    RIGEL_REG_COP2LCH; RIGEL_REG_COP2LCL; RIGEL_REG_COPJMP1; RIGEL_REG_COPJMP2]).

(** The pointer registers the copper answers itself; [None] is the [default]
    case, answered by the chipset.
    C: [src/src/chipset/agnus/copper/copper_regs.c]:74-83 [rigel_copper_regs_read] *)
Definition rigel_copper_regs_read (c : copper_state) (addr : Z) : option Z :=
  if addr =? RIGEL_REG_COP1LCH then Some (u16 (cop1lc c .>> 16))
  else if addr =? RIGEL_REG_COP1LCL then Some (cop1lc c .& 0xffff)
  else if addr =? RIGEL_REG_COP2LCH then Some (u16 (cop2lc c .>> 16))
  else if addr =? RIGEL_REG_COP2LCL then Some (cop2lc c .& 0xffff)
  else None.

(** The effect on the copper of a register write.
    C: [src/src/chipset/agnus/copper/copper_regs.c]:101-132 [rigel_copper_regs_write] *)
Definition rigel_copper_regs_write (c : copper_state) (addr value : Z) : copper_state :=
  if addr =? RIGEL_REG_COPCON then c <| copcon := value |>
  else if addr =? RIGEL_REG_COP1LCH then c <| cop1lc := copper_set_pointer_hi (cop1lc c) value |>
  else if addr =? RIGEL_REG_COP1LCL then c <| cop1lc := copper_set_pointer_lo (cop1lc c) value |>
  else if addr =? RIGEL_REG_COP2LCH then c <| cop2lc := copper_set_pointer_hi (cop2lc c) value |>
  else if addr =? RIGEL_REG_COP2LCL then c <| cop2lc := copper_set_pointer_lo (cop2lc c) value |>
  else if addr =? RIGEL_REG_COPJMP1 then rigel_copper_domain_jump1 c
  else if addr =? RIGEL_REG_COPJMP2 then rigel_copper_domain_jump2 c
  else c.

(** ** Execution: [copper_exec.c] and [copper_service.c] *)

(** What the copper needs from the machine [W] it is part of: its own state and
    the beam in it, the words of chip RAM, the write to a custom register
    ([custom_regs_write16]) and the mark on the current frame
    ([denise.output.pending_flags |= RIGEL_FRAME_COPPER_ACTIVE]). *)
Class CopperHost (W : Type) := {
  host_copper : W -> copper_state;
  host_set_copper : copper_state -> W -> W;
  host_beam : W -> beam_state;
  host_chip_read16 : W -> Z -> Z;
  host_custom_write16 : Z -> Z -> W -> W;
  host_mark_copper_active : W -> W;
}.

(** What a machine promises: the copper's state is a field of it; a custom
    register write reaches the copper's state only through the copper's own
    registers, and the frame mark does not reach it, nor the words of chip RAM
    the copper fetches. *)
Class CopperHostLaws (W : Type) {H : CopperHost W} : Prop := {
  host_get_set c w : host_copper (host_set_copper c w) = c;
  host_set_set c c' w : host_set_copper c (host_set_copper c' w) = host_set_copper c w;
  host_set_get w : host_set_copper (host_copper w) w = w;
  host_beam_set c w : host_beam (host_set_copper c w) = host_beam w;
  host_read_set c w a : host_chip_read16 (host_set_copper c w) a = host_chip_read16 w a;
  host_read_u16 w a : is_u16 (host_chip_read16 w a);
  host_mark_copper w : host_copper (host_mark_copper_active w) = host_copper w;
  host_mark_read w a : host_chip_read16 (host_mark_copper_active w) a = host_chip_read16 w a;
  host_write_copper r v w :
    host_copper (host_custom_write16 r v w) = rigel_copper_regs_write (host_copper w) r v;
}.

Section service.
  Context {W : Type} {H : CopperHost W}.

Definition on_copper (f : copper_state -> copper_state) (w : W) : W :=
  host_set_copper (f (host_copper w)) w.

(** The log events of the C function are not modelled.
    C: [src/src/chipset/agnus/copper/copper_exec.c] [copper_exec_move] *)
Definition copper_exec_move (w : W) (ir1 ir2 : Z) : W :=
  let reg := ir1 .& 0x01fe in
  let cdang := has (copcon (host_copper w)) 0x0002 in
  if (negb cdang && (reg <? 0x80)) || (cdang && (reg <? 0x40)) then
    on_copper (fun c => c <| waiting := false |> <| fetch_pending := false |>
                          <| stopped_until_vbl := true |>) w
  else host_custom_write16 reg ir2 (host_mark_copper_active w).

(** C: [src/src/chipset/agnus/copper/copper_service.c] [rigel_copper_service_step_program] *)
Definition rigel_copper_service_step_program (w : W) : W :=
  let c := host_copper w in
  if stopped_until_vbl c then w
  else if negb (cop_enabled c) || negb (fetch_pending c) then w
  else
    let ir1 := host_chip_read16 w (program_counter c) in
    let ir2 := host_chip_read16 w (u32 (program_counter c + 2)) in
    let w := on_copper (fun c => c <| fetch_pending := false |>) w in
    if has ir1 0x0001 then
      if has ir2 0x0001 then
        let skip := copper_exec_skip_test ir1 ir2 (hpos (host_beam w)) (vpos (host_beam w)) in
        on_copper (fun c => c <| program_counter := u32 (program_counter c + if skip then 8 else 4) |>
                              <| fetch_pending := true |>) w
      else on_copper (fun c => copper_wait_arm c ir1 ir2) w
    else
      let pc_before := program_counter (host_copper w) in
      let w := copper_exec_move w ir1 ir2 in
      if stopped_until_vbl (host_copper w) then w
      else
        let w := if program_counter (host_copper w) =? pc_before
                 then on_copper (fun c => c <| program_counter := u32 (program_counter c + 4) |>) w
                 else w in
        on_copper (fun c => c <| triggered := true |> <| event_latched := true |>
                              <| fetch_pending := true |>) w.

End service.
