(* ===== verification/CopperFacts.v ===== *)
(** * What the copper does *)

From S2P Require Import Prelude Custom Beam BeamFacts Dma Copper.

(** ** The beam comparison *)

(** The comparison is lexicographic on the masked positions. *)
Lemma beam_cmp_lex v h wv wh vm hm :
  is_u8 vm -> copper_beam_cmp v h wv wh vm hm =
  ((wv .& vm <? v .& vm) ||
   ((wv .& vm =? v .& vm) && (wh .& hm .& 0xfe <=? h .& hm .& 0xfe))).
Proof.
  intros Hvm. unfold copper_beam_cmp.
  assert (Hr : forall x, is_u8 (x .& vm)) by (intros x; by apply in_width_land_r).
  assert (Hf : forall x, is_u8 (x .& hm .& 0xfe))
    by (intros x; apply in_width_land_r; [lia|closed_range]).
  rewrite !(wrap_small 16 (_ .& vm)) by (apply (in_width_mono 8); [apply Hr|lia]).
  rewrite !lor_shift8 by done.
  pose proof (Hr v). pose proof (Hr wv). pose proof (Hf h). pose proof (Hf wh).
  unfold in_width in *. rewrite !wrap_small by (unfold in_width; lia).
  destruct (Z.ltb_spec (wv .& vm) (v .& vm)), (Z.eqb_spec (wv .& vm) (v .& vm)),
    (Z.leb_spec (wh .& hm .& 254) (h .& hm .& 254));
    cbn; [apply Z.leb_le|apply Z.leb_le|apply Z.leb_le|apply Z.leb_le|apply Z.leb_le
         |apply Z.leb_gt|apply Z.leb_gt|apply Z.leb_gt]; lia.
Qed.

(** ** Deadlines of a WAIT *)

(** An unmasked WAIT for the line [wv] and the even clock [wh]. *)
Record full_wait (c : copper_state) (b : beam_state) : Prop := {
  fw_waiting : waiting c = true;
  fw_vpmask : wait_vpmask c = 0xff;
  fw_hpmask : wait_hpmask c = 0xfe;
  fw_vpos : is_u8 (wait_vpos c);
  fw_hpos : 0 <= wait_hpos c < line_clocks b;
  fw_even : wait_hpos c mod 2 = 0;
}.

Lemma land_fe x : is_u8 x -> x .& 0xfe .& 0xfe = 2 * (x / 2).
Proof.
  intros Hx. rewrite <- Z.land_assoc, Z.land_diag. revert x Hx. 
  assert (H : forallb (fun x => x .& 0xfe =? 2 * (x / 2)) (seqZ 0 256) = true)
    by (vm_compute; reflexivity).
  intros x Hx. apply Z.eqb_eq. exact (byte_forall _ H x Hx).
Qed.

(** The comparison of an unmasked WAIT at a position of a line of at most 256
    clocks: only the low eight bits of the line number take part. *)
Lemma full_wait_cmp c b v h :
  full_wait c b -> line_clocks b <= 256 -> 0 <= h < line_clocks b ->
  copper_beam_cmp v h (wait_vpos c) (wait_hpos c) (wait_vpmask c) (wait_hpmask c) =
  ((wait_vpos c <? v mod 256) || ((wait_vpos c =? v mod 256) && (wait_hpos c <=? h))).
Proof.
  intros [_ -> -> Hv Hh He] Hl Hhr. rewrite beam_cmp_lex by closed_range.
  change 0xff with (Z.ones 8). rewrite !Z.land_ones by lia.
  unfold in_width in Hv. rewrite (Z.mod_small (wait_vpos c)) by lia.
  rewrite !land_fe by (unfold in_width; lia). change (2 ^ 8) with 256.
  replace (2 * (wait_hpos c / 2) <=? 2 * (h / 2)) with (wait_hpos c <=? h); [done|].
  pose proof (Z.div_mod (wait_hpos c) 2). pose proof (Z.div_mod h 2).
  pose proof (Z.mod_pos_bound h 2).
  destruct (Z.leb_spec (wait_hpos c) h), (Z.leb_spec (2 * (wait_hpos c / 2)) (2 * (h / 2))); lia.
Qed.

(** The WAIT is satisfied at a beam position. *)
Definition satisfied (c : copper_state) (b : beam_state) : bool :=
  copper_wait_satisfied c (hpos b) (vpos b).

(** In terms of the linear position, for the lines of a frame below 512. *)
Lemma satisfied_linear c b0 b :
  full_wait c b0 -> line_clocks b0 <= 256 -> progressive b ->
  line_clocks b = line_clocks b0 -> frame_lines b <= 512 ->
  let target := wait_vpos c * line_clocks b0 + wait_hpos c in
  satisfied c b =
  if linear b <? 256 * line_clocks b0 then target <=? linear b
  else target + 256 * line_clocks b0 <=? linear b.
Proof.
  intros Hw Hl Hp El Hf target. unfold satisfied, copper_wait_satisfied.
  rewrite (fw_waiting _ _ Hw). cbn.
  pose proof Hp as [[_ _ _ _ Hh Hv] Ho Hl0 _ _]. rewrite Hl0, Ho, El in *.
  rewrite (full_wait_cmp c b0) by (done || lia).
  pose proof (fw_vpos _ _ Hw) as Hwv. pose proof (fw_hpos _ _ Hw) as Hwh. unfold in_width in Hwv.
  unfold linear, target. rewrite El. set (lc := line_clocks b0) in *.
  assert (E : vpos b mod 256 = if vpos b <? 256 then vpos b else vpos b - 256).
  { destruct (Z.ltb_spec (vpos b) 256); [by rewrite Z.mod_small by lia|].
    replace (vpos b) with (vpos b - 256 + 1 * 256) at 1 by lia.
    rewrite Z.mod_add, Z.mod_small by lia. done. }
  rewrite E.
  assert (Hb : (vpos b * lc + hpos b <? 256 * lc) = (vpos b <? 256)).
  { destruct (Z.ltb_spec (vpos b) 256); [apply Z.ltb_lt|apply Z.ltb_ge]; nia. }
  rewrite Hb. set (v := if vpos b <? 256 then vpos b else vpos b - 256).
  assert (Hlex : ((wait_vpos c <? v) || ((wait_vpos c =? v) && (wait_hpos c <=? hpos b))) =
                 (wait_vpos c * lc + wait_hpos c <=? v * lc + hpos b)).
  { destruct (Z.ltb_spec (wait_vpos c) v); cbn; [symmetry; apply Z.leb_le; nia|].
    destruct (Z.eqb_spec (wait_vpos c) v) as [->|]; cbn.
    - destruct (Z.leb_spec (wait_hpos c) (hpos b)), (Z.leb_spec (v * lc + wait_hpos c) (v * lc + hpos b));
        lia.
    - symmetry. apply Z.leb_gt. nia. }
  rewrite Hlex. subst v. destruct (Z.ltb_spec (vpos b) 256); [done|].
  destruct (Z.leb_spec (wait_vpos c * lc + wait_hpos c) ((vpos b - 256) * lc + hpos b)),
    (Z.leb_spec (wait_vpos c * lc + wait_hpos c + 256 * lc) (vpos b * lc + hpos b)); lia.
Qed.

(** The value of the function for an unsatisfied, unmasked WAIT. *)
Lemma cycles_to_wait_value c b :
  full_wait c b -> progressive b -> satisfied c b = false ->
  line_clocks b <= 256 -> frame_lines b <= 512 ->
  let target := wait_vpos c * line_clocks b + wait_hpos c in
  rigel_copper_domain_cycles_to_wait c b =
  if linear b <? target then target - linear b
  else frame_lines b * line_clocks b - linear b + target.
Proof.
  intros Hw Hp Hs Hl Hf target. pose proof (linear_range b Hp) as Hlin.
  unfold satisfied, copper_wait_satisfied in Hs. rewrite (fw_waiting _ _ Hw) in Hs. cbn in Hs.
  unfold rigel_copper_domain_cycles_to_wait. rewrite (fw_waiting _ _ Hw), Hs. cbn.
  rewrite (fw_vpmask _ _ Hw), (fw_hpmask _ _ Hw). cbn.
  pose proof Hp as [[Hlc Hfl _ _ Hh Hv] Ho Hl0 _ _]. rewrite Hl0, Ho in *.
  pose proof (fw_vpos _ _ Hw) as Hwv. pose proof (fw_hpos _ _ Hw) as Hwh. unfold in_width in Hwv.
  unfold linear in *. unfold target.
  rewrite (wrap_small 32 (vpos b * line_clocks b)) by (unfold in_width; nia).
  rewrite (wrap_small 32 (vpos b * line_clocks b + hpos b)) by (unfold in_width; nia).
  rewrite (wrap_small 32 (wait_vpos c * line_clocks b)) by (unfold in_width; nia).
  rewrite (wrap_small 32 (wait_vpos c * line_clocks b + _)) by (unfold in_width; nia).
  rewrite (wrap_small 32 (frame_lines b * line_clocks b)) by (unfold in_width; nia).
  destruct (Z.ltb_spec (vpos b * line_clocks b + hpos b)
              (wait_vpos c * line_clocks b + wait_hpos c)).
  - apply wrap_small. unfold in_width. nia.
  - rewrite (wrap_small 32 (_ * _ - _)) by (unfold in_width; nia).
    apply wrap_small. unfold in_width. nia.
Qed.

(** When the WAIT is first satisfied. *)
Definition first_satisfied (c : copper_state) (b : beam_state) (d : Z) : Prop :=
  satisfied c (beam_ticks d b) = true /\
  forall k, 0 <= k < d -> satisfied c (beam_ticks k b) = false.

Lemma satisfied_after c b k :
  full_wait c b -> progressive b -> line_clocks b <= 256 -> frame_lines b <= 512 -> 0 <= k ->
  let target := wait_vpos c * line_clocks b + wait_hpos c in
  let q := (linear b + k) mod (frame_lines b * line_clocks b) in
  satisfied c (beam_ticks k b) =
  if q <? 256 * line_clocks b then target <=? q else target + 256 * line_clocks b <=? q.
Proof.
  intros Hw Hp Hl Hf Hk. cbn zeta. destruct (progressive_ticks k b Hp Hk) as (Hp' & El & Ef & <-).
  apply (satisfied_linear c b); [done..|congruence].
Qed.

(** ** Theorems *)

(** The deadline of an unmasked WAIT is exact: the WAIT is satisfied after
    that many clocks and not before, in the current frame or in the next one,
    provided the beam is in the first 256 lines or the frame has no line whose
    low eight bits are those of the target after line 255. *)
Theorem cycles_to_wait_exact c b :
  full_wait c b -> progressive b -> line_clocks b <= 256 -> frame_lines b <= 512 ->
  wait_vpos c < frame_lines b ->
  vpos b < 256 \/ frame_lines b <= 256 + wait_vpos c ->
  first_satisfied c b (rigel_copper_domain_cycles_to_wait c b).
Proof.
  intros Hw Hp Hl Hf Hin Hcase. pose proof (linear_range b Hp) as Hlin.
  pose proof Hp as [[Hlc Hfl _ _ Hh Hv] Ho Hl0 _ _]. rewrite Hl0, Ho in *.
  pose proof (fw_vpos _ _ Hw) as Hwv. pose proof (fw_hpos _ _ Hw) as Hwh. unfold in_width in Hwv.
  destruct (satisfied c b) eqn:Hs.
  - assert (Hz : rigel_copper_domain_cycles_to_wait c b = 0).
    { unfold rigel_copper_domain_cycles_to_wait. unfold satisfied, copper_wait_satisfied in Hs.
      rewrite (fw_waiting _ _ Hw) in *. cbn in *. by rewrite Hs. }
    rewrite Hz. split; [exact Hs|lia].
  - rewrite cycles_to_wait_value by done. pose proof (satisfied_after c b 0 Hw Hp Hl Hf) as H0.
    change (beam_ticks 0 b) with b in H0. rewrite Hs, Z.add_0_r, Z.mod_small in H0 by done.
    cbn zeta in H0. specialize (H0 ltac:(lia)).
    set (lc := line_clocks b) in *. set (target := wait_vpos c * lc + wait_hpos c) in *.
    set (N := frame_lines b * lc) in *.
    assert (Ht : 0 <= target < N /\ target < 256 * lc) by (unfold target, N; nia).
    assert (Hlv : (linear b <? 256 * lc) = (vpos b <? 256)).
    { unfold linear. fold lc. destruct (Z.ltb_spec (vpos b) 256); [apply Z.ltb_lt|apply Z.ltb_ge]; nia. }
    rewrite Hlv in H0.
    destruct (Z.ltb_spec (linear b) target) as [Hlt|Hge].
    + split.
      * rewrite (satisfied_after c b) by (done || lia). fold lc. fold target. fold N.
        rewrite Z.mod_small by lia. replace (linear b + (target - linear b)) with target by lia.
        replace (target <? 256 * lc) with true by lia. cbn iota. lia.
      * intros k Hk. rewrite (satisfied_after c b) by (done || lia). fold lc. fold target. fold N.
        rewrite Z.mod_small by lia. replace (linear b + k <? 256 * lc) with true by lia. cbn iota. lia.
    + destruct (Z.ltb_spec (vpos b) 256) as [|H256]; [lia|].
      assert (Hno : N <= target + 256 * lc).
      { destruct Hcase as [|Hcase]; [lia|]. unfold N, target. nia. }
      split.
      * rewrite (satisfied_after c b) by (done || lia). fold lc. fold target. fold N.
        replace (linear b + (N - linear b + target)) with (target + 1 * N) by lia.
        rewrite Z.mod_add, Z.mod_small by lia. replace (target <? 256 * lc) with true by lia. cbn iota. lia.
      * intros k Hk. rewrite (satisfied_after c b) by (done || lia). fold lc. fold target. fold N.
        destruct (Z.ltb_spec (linear b + k) N).
        -- rewrite Z.mod_small by lia.
           replace (linear b + k <? 256 * lc) with false; [cbn iota; lia|].
           symmetry. apply Z.ltb_ge. apply Z.ltb_ge in Hlv. lia.
        -- replace (linear b + k) with (linear b + k - N + 1 * N) by lia.
           rewrite Z.mod_add, Z.mod_small by lia.
           replace (linear b + k - N <? 256 * lc) with true by lia. cbn iota. lia.
Qed.

Definition waiting_for (v h : Z) : copper_state :=
  copper_wait_arm (copper_reset (mkCopper 0 0 0 0 0 0 0 0 false false false false false false false))
    (v * 256 + h + 1) 0xfffe.

Lemma cycles_to_wait_exact_witness :
  first_satisfied (waiting_for 44 6) (mkBeam 5 40 227 312 26 255 0 0 0 0 0)
    (rigel_copper_domain_cycles_to_wait (waiting_for 44 6) (mkBeam 5 40 227 312 26 255 0 0 0 0 0)).
Proof.
  apply cycles_to_wait_exact; [split; vm_compute; intuition congruence| |cbn; lia|cbn; lia
    |vm_compute; reflexivity|left; cbn; lia].
  split; [split|..]; cbn; auto; lia.
Defined.

(** Past line 255 the deadline is too late: the comparison sees the low eight
    bits of the line only, so a WAIT for a line [wv] is satisfied on line
    [256 + wv] of the same frame if it exists (PAL frames have 312 lines), but the
    deadline announced is the one of line [wv] of the next frame. *)
Theorem cycles_to_wait_late_past_line_255 c b :
  full_wait c b -> progressive b -> line_clocks b <= 256 -> frame_lines b <= 512 ->
  256 <= vpos b -> satisfied c b = false -> 256 + wait_vpos c < frame_lines b ->
  let d := (256 + wait_vpos c) * line_clocks b + wait_hpos c - linear b in
  first_satisfied c b d /\
  rigel_copper_domain_cycles_to_wait c b =
    d + (frame_lines b - 256) * line_clocks b.
Proof.
  intros Hw Hp Hl Hf Hv256 Hs Hin d. pose proof (linear_range b Hp) as Hlin.
  pose proof Hp as [[Hlc Hfl _ _ Hh Hv] Ho Hl0 _ _]. rewrite Hl0, Ho in *.
  pose proof (fw_vpos _ _ Hw) as Hwv. pose proof (fw_hpos _ _ Hw) as Hwh. unfold in_width in Hwv.
  rewrite cycles_to_wait_value by done. pose proof (satisfied_after c b 0 Hw Hp Hl Hf) as H0.
  change (beam_ticks 0 b) with b in H0. rewrite Hs, Z.add_0_r, Z.mod_small in H0 by done.
  cbn zeta in H0. specialize (H0 ltac:(lia)).
  set (lc := line_clocks b) in *. set (target := wait_vpos c * lc + wait_hpos c) in *.
  assert (Hlv : 256 * lc <= linear b) by (unfold linear; fold lc; nia).
  replace (linear b <? 256 * lc) with false in H0 by lia.
  assert (Ht : target < 256 * lc) by (unfold target; nia).
  assert (Hd : d = target + 256 * lc - linear b) by (unfold d, target; lia).
  assert (HN : target + 256 * lc < frame_lines b * lc) by (unfold target; nia).
  replace (linear b <? target) with false by lia. split; [|rewrite Hd; lia].
  split.
  - rewrite (satisfied_after c b) by (done || lia). fold lc. fold target.
    rewrite Hd, Z.mod_small by lia.
    replace (linear b + (target + 256 * lc - linear b) <? 256 * lc) with false by lia. cbn iota. lia.
  - intros k Hk. rewrite (satisfied_after c b) by (done || lia). fold lc. fold target.
    rewrite Z.mod_small by lia. replace (linear b + k <? 256 * lc) with false by lia. cbn iota. lia.
Qed.

Lemma cycles_to_wait_late_past_line_255_witness :
  let b := mkBeam 0 260 227 312 26 255 0 0 0 0 0 in
  first_satisfied (waiting_for 20 0) b (16 * 227) /\
  rigel_copper_domain_cycles_to_wait (waiting_for 20 0) b = 16 * 227 + 56 * 227.
Proof.
  apply (cycles_to_wait_late_past_line_255 (waiting_for 20 0) (mkBeam 0 260 227 312 26 255 0 0 0 0 0));
    [split; vm_compute; intuition congruence|split; [split|..]; cbn; auto; lia|cbn; lia|cbn; lia
    |cbn; lia|vm_compute; reflexivity|vm_compute; reflexivity].
Defined.
