(* ===== verification/CopperRun.v ===== *)
(** * Running copper lists

    The copper in a machine that satisfies [CopperHostLaws]: lists of MOVEs, the
    protection of the low registers, WAIT, and an invariant of all the states the
    copper can reach. *)

From stdpp Require Import gmap.
From S2P Require Import Prelude Custom ChipRam Beam Dma Copper CopperFacts.

(** ** A small machine

    A copper, a beam, chip RAM and the log of the custom register writes: the
    least machine that satisfies the laws. *)

Record Machine := mkMachine {
  m_copper : copper_state;
  m_beam : beam_state;
  m_ram : gmap Z Z;
  m_log : list (Z * Z);
  m_active : bool;
}.

#[export] Instance machine_host : CopperHost Machine := {
  host_copper := m_copper;
  host_set_copper c w := mkMachine c (m_beam w) (m_ram w) (m_log w) (m_active w);
  host_beam := m_beam;
  host_chip_read16 w a := word_rd (m_ram w) a;
  host_custom_write16 r v w :=
    mkMachine (rigel_copper_regs_write (m_copper w) r v) (m_beam w) (m_ram w)
      (m_log w ++ [(r, v)]) (m_active w);
  host_mark_copper_active w := mkMachine (m_copper w) (m_beam w) (m_ram w) (m_log w) true;
}.

#[export] Instance machine_laws : CopperHostLaws Machine.
Proof.
  split; try done.
  - by intros [].
  - intros w a. apply (ram_read_u16 (RamLaws := word_ram_laws (fun _ => True))).
Qed.

(** ** MOVE *)

(** A write to a register that is not the copper's leaves the copper alone. *)
Lemma other_reg_copper r v c :
  rigel_copper_regs_owns_reg r = false -> rigel_copper_regs_write c r v = c.
Proof.
  intros Ho. unfold rigel_copper_regs_owns_reg in Ho.
  apply bool_decide_eq_false in Ho. rewrite !not_elem_of_cons in Ho.
  destruct Ho as (H1 & H2 & H3 & H4 & H5 & H6 & H7 & _). unfold rigel_copper_regs_write.
  repeat match goal with |- context [r =? ?k] => destruct (Z.eqb_spec r k); [done|] end. done.
Qed.

Section moves.
  Context {W : Type} {H : CopperHost W} {L : CopperHostLaws W}.

(** A register a copper without CDANG may write and that is not one of the
    copper's own. *)
Definition plain_reg (r : Z) : Prop :=
  r .& 0x01fe = r /\ 0x80 <= r /\ rigel_copper_regs_owns_reg r = false.

Lemma plain_reg_copper c r v : plain_reg r -> rigel_copper_regs_write c r v = c.
Proof. intros (_ & _ & Ho). by apply other_reg_copper. Qed.

Lemma plain_reg_even r : plain_reg r -> has r 1 = false.
Proof.
  intros (E & _ & _). rewrite <- E. unfold has. rewrite <- Z.land_assoc.
  change (510 .& 1) with 0. by rewrite Z.land_0_r.
Qed.

(** The copper is about to fetch. *)
Record fetching (w : W) : Prop := {
  ft_stopped : stopped_until_vbl (host_copper w) = false;
  ft_enabled : cop_enabled (host_copper w) = true;
  ft_pending : fetch_pending (host_copper w) = true;
}.

Lemma host_on_copper f (w : W) : host_copper (on_copper f w) = f (host_copper w).
Proof. apply host_get_set. Qed.

Lemma on_on_copper f g (w : W) : on_copper f (on_copper g w) = on_copper (fun c => f (g c)) w.
Proof. unfold on_copper. by rewrite host_get_set, host_set_set. Qed.

(** One MOVE to a plain register: the write, and the copper steps on. *)
Lemma move_step w :
  let pc := program_counter (host_copper w) in
  let reg := host_chip_read16 w pc in
  let value := host_chip_read16 w (u32 (pc + 2)) in
  fetching w -> is_u32 pc -> plain_reg reg ->
  rigel_copper_service_step_program w =
  on_copper (fun c => c <| fetch_pending := true |> <| program_counter := u32 (pc + 4) |>
                        <| triggered := true |> <| event_latched := true |>)
    (host_custom_write16 reg value
       (host_mark_copper_active (on_copper (fun c => c <| fetch_pending := false |>) w))).
Proof.
  intros pc reg value [Hs He Hf] Hpc Hr. unfold rigel_copper_service_step_program.
  rewrite Hs, He, Hf. cbn [negb orb]. fold pc. fold reg. fold value.
  rewrite (plain_reg_even reg Hr). pose proof Hr as (Er & Hge & _).
  unfold copper_exec_move. rewrite Er. replace (reg <? 128) with false by lia.
  replace (reg <? 64) with false by lia. rewrite !andb_false_r. cbn [orb].
  set (w1 := on_copper (fun c => c <| fetch_pending := false |>) w).
  set (w2 := host_custom_write16 reg value (host_mark_copper_active w1)).
  assert (Hc1 : host_copper w1 = (host_copper w) <| fetch_pending := false |>)
    by apply host_on_copper.
  assert (Hc2 : host_copper w2 = host_copper w1).
  { subst w2. by rewrite host_write_copper, plain_reg_copper, host_mark_copper by done. }
  cbn zeta. rewrite Hc2, Hc1. cbn. rewrite Hs, Z.eqb_refl, on_on_copper.
  unfold on_copper. by rewrite Hc2, Hc1.
Qed.

(** A MOVE list in chip RAM at [pc]. *)
Fixpoint moves_at (w : W) (pc : Z) (prog : list (Z * Z)) : Prop :=
  match prog with
  | [] => True
  | (r, v) :: prog =>
      host_chip_read16 w pc = r /\ host_chip_read16 w (u32 (pc + 2)) = v /\
      moves_at w (u32 (pc + 4)) prog
  end.

Lemma moves_at_read w w' pc prog :
  (forall a, host_chip_read16 w' a = host_chip_read16 w a) ->
  moves_at w pc prog -> moves_at w' pc prog.
Proof.
  intros E. revert pc. induction prog as [|[r v] prog IH]; intros pc; [done|]. cbn.
  rewrite !E. intros (? & ? & ?). auto.
Qed.

(** One service step per MOVE, each the write of its register: by induction on the
    list, the machine between two steps being related to the first by [obs]. *)
Lemma run_moves {O} (Q : Z -> Prop) (obs : W -> O) (upd : Z -> Z -> O -> O) prog w :
  (forall r, Q r -> plain_reg r) ->
  (forall c w, obs (host_set_copper c w) = obs w) ->
  (forall w, obs (host_mark_copper_active w) = obs w) ->
  (forall r v w, Q r -> obs (host_custom_write16 r v w) = upd r v (obs w)) ->
  (forall r v w a, Q r -> host_chip_read16 (host_custom_write16 r v w) a = host_chip_read16 w a) ->
  let pc := program_counter (host_copper w) in
  is_u32 pc -> fetching w -> moves_at w pc prog -> Forall (fun m => Q m.1) prog ->
  let w' := Nat.iter (length prog) rigel_copper_service_step_program w in
  obs w' = foldl (fun o m => upd m.1 m.2 o) (obs w) prog /\
  fetching w' /\ program_counter (host_copper w') = u32 (pc + 4 * Z.of_nat (length prog)).
Proof.
  intros Qp Oc Om Ow Rw pc. cbn zeta. subst pc. revert w.
  induction prog as [|[r v] prog IH]; intros w Hpc Hft Hat Hreg.
  - cbn. rewrite Z.add_0_r, wrap_small by done. done.
  - cbn [length]. rewrite Nat.iter_succ_r. apply Forall_cons in Hreg as [Hq Hreg]. cbn in Hq.
    pose proof (Qp r Hq) as Hr.
    cbn [moves_at] in Hat. destruct Hat as (E1 & E2 & Hat).
    pose proof (move_step w Hft Hpc) as Hstep. rewrite E1, E2 in Hstep. specialize (Hstep Hr).
    rewrite Hstep. set (pc := program_counter (host_copper w)) in *.
    set (w1 := on_copper _ (host_custom_write16 _ _ _)).
    assert (Hc1 : host_copper w1 = (host_copper w) <| fetch_pending := true |>
                    <| program_counter := u32 (pc + 4) |> <| triggered := true |>
                    <| event_latched := true |>).
    { subst w1. unfold on_copper. rewrite host_get_set, host_write_copper, plain_reg_copper,
        host_mark_copper, host_get_set by done. done. }
    assert (Hrd : forall a, host_chip_read16 w1 a = host_chip_read16 w a).
    { intros a. subst w1. unfold on_copper. by rewrite host_read_set, Rw, host_mark_read, host_read_set. }
    destruct Hft as [Hs He _].
    destruct (IH w1) as (Ho & Hf' & Hp').
    + rewrite Hc1. cbn. apply wrap_range. lia.
    + split; rewrite Hc1; done.
    + rewrite Hc1. cbn. by apply (moves_at_read w).
    + done.
    + split_and!; [|done|].
      * rewrite Ho. cbn [foldl fst snd]. f_equal. subst w1. unfold on_copper.
        by rewrite Oc, Ow, Om, Oc.
      * rewrite Hp', Hc1. cbn. rewrite wrap_add_l by lia. f_equal. lia.
Qed.

(** A list of MOVEs to ordinary registers (those of [Q]) is executed in order,
    one per service step: whatever part [obs] of the machine outside the copper
    one looks at, it has received exactly the writes of the list, in order, and
    the copper is ready to fetch behind the list. *)
Theorem copper_runs_moves {O} (Q : Z -> Prop) (obs : W -> O) (upd : Z -> Z -> O -> O) prog w :
  (forall r, Q r -> plain_reg r) ->
  (forall c w, obs (host_set_copper c w) = obs w) ->
  (forall w, obs (host_mark_copper_active w) = obs w) ->
  (forall r v w, Q r -> obs (host_custom_write16 r v w) = upd r v (obs w)) ->
  (forall r v w a, Q r -> host_chip_read16 (host_custom_write16 r v w) a = host_chip_read16 w a) ->
  let pc := program_counter (host_copper w) in
  is_u32 pc -> fetching w -> moves_at w pc prog -> Forall (fun m => Q m.1) prog ->
  let w' := Nat.iter (length prog) rigel_copper_service_step_program w in
  obs w' = foldl (fun o m => upd m.1 m.2 o) (obs w) prog /\
  fetching w' /\ program_counter (host_copper w') = u32 (pc + 4 * Z.of_nat (length prog)).
Proof. apply run_moves. Qed.

(** A MOVE to a protected register (below 0x80, or below 0x40 with the CDANG
    bit of COPCON set) writes nothing: it stops the copper, and the copper then
    executes nothing, whatever the beam, DMA and its registers do, until the
    reload at the vertical blank. *)
Theorem protected_move_stops w :
  let c := host_copper w in
  let reg := host_chip_read16 w (program_counter c) .& 0x01fe in
  fetching w -> has (host_chip_read16 w (program_counter c)) 1 = false ->
  reg < (if has (copcon c) 0x0002 then 0x40 else 0x80) ->
  let w' := rigel_copper_service_step_program w in
  w' = on_copper (fun c => c <| waiting := false |> <| fetch_pending := false |>
                             <| stopped_until_vbl := true |>) w /\
  rigel_copper_service_step_program w' = w' /\
  (forall b d busy, stopped_until_vbl (rigel_copper_domain_step (host_copper w') b d busy) = true) /\
  (forall r v, stopped_until_vbl (rigel_copper_regs_write (host_copper w') r v) = true) /\
  stopped_until_vbl (copper_vbl_reload (host_copper w')) = false.
Proof.
  intros c reg [Hs He Hf] Hev Hlt. cbn zeta.
  assert (E : rigel_copper_service_step_program w =
    on_copper (fun c => c <| waiting := false |> <| fetch_pending := false |>
                          <| stopped_until_vbl := true |>) w).
  { unfold rigel_copper_service_step_program. rewrite Hs, He, Hf. cbn [negb orb].
    fold c. rewrite Hev. unfold copper_exec_move. fold reg. unfold on_copper.
    rewrite !host_get_set. cbn.
    assert (Hg : (negb (has (copcon (host_copper w)) 2) && (reg <? 128)
                  || has (copcon (host_copper w)) 2 && (reg <? 64)) = true).
    { fold c. destruct (has (copcon c) 2); cbn; [|rewrite orb_false_r]; apply Z.ltb_lt; lia. }
    rewrite Hg. rewrite host_get_set, host_set_set. cbn. done. }
  rewrite E. set (w' := on_copper _ w).
  assert (Hw : host_copper w' = (host_copper w) <| waiting := false |> <| fetch_pending := false |>
                                  <| stopped_until_vbl := true |>)
    by (subst w'; unfold on_copper; by rewrite host_get_set).
  split_and!; [done| | | |].
  - unfold rigel_copper_service_step_program. by rewrite Hw.
  - intros b d busy. rewrite Hw. unfold rigel_copper_domain_step. cbn.
    by rewrite orb_true_r.
  - intros r v. rewrite Hw. unfold rigel_copper_regs_write.
    repeat match goal with |- context [if ?b then _ else _] => destruct b end; done.
  - rewrite Hw. unfold copper_vbl_reload. by destruct (_ =? 0).
Qed.

(** A MOVE to COPJMP1 that is itself the instruction COP1LC points to does not
    jump: the copper takes the unchanged program counter for the absence of a
    jump and goes on with the next instruction. *)
Theorem copjmp_to_self_falls_through w :
  let c := host_copper w in
  fetching w -> host_chip_read16 w (program_counter c) = RIGEL_REG_COPJMP1 ->
  cop1lc c = program_counter c ->
  program_counter (host_copper (rigel_copper_service_step_program w)) =
    u32 (program_counter c + 4).
Proof.
  intros c [Hs He Hf] Hr Hc. unfold rigel_copper_service_step_program.
  rewrite Hs, He, Hf. cbn [negb orb]. fold c. rewrite Hr.
  change (has RIGEL_REG_COPJMP1 1) with false. cbn iota.
  unfold copper_exec_move. change (RIGEL_REG_COPJMP1 .& 510) with RIGEL_REG_COPJMP1.
  change (RIGEL_REG_COPJMP1 <? 128) with false. change (RIGEL_REG_COPJMP1 <? 64) with false.
  rewrite !andb_false_r. cbn [orb]. cbn zeta.
  set (w1 := on_copper (fun c => c <| fetch_pending := false |>) w).
  set (v := host_chip_read16 w _).
  set (w2 := host_custom_write16 RIGEL_REG_COPJMP1 v (host_mark_copper_active w1)).
  assert (Hc1 : host_copper w1 = c <| fetch_pending := false |>) by apply host_on_copper.
  assert (Hc2 : host_copper w2 = rigel_copper_domain_jump1 (host_copper w1))
    by (subst w2; by rewrite host_write_copper, host_mark_copper).
  fold c in Hs. rewrite Hc2, Hc1. cbn. rewrite Hs, Hc, Z.eqb_refl, on_on_copper, host_on_copper, Hc2, Hc1.
  cbn. by rewrite Hc.
Qed.

End moves.

(** A copper at [pc] with DMA on, in the small machine. *)
Definition machine_at (pc cop1 : Z) (m : gmap Z Z) : Machine :=
  mkMachine (mkCopper cop1 0 pc 0 0 0xff 0xfe 0 false false false true false false true)
    (mkBeam 0 0 227 312 26 255 0 0 0 0 0) m [] false.

Lemma copper_runs_moves_witness :
  let w := machine_at 0x1000 0
    (<[0x1000 := 0x180]> (<[0x1002 := 0xf00]> (<[0x1004 := 0x182]> (<[0x1006 := 0x0f0]> ∅)))) in
  m_log (Nat.iter 2 rigel_copper_service_step_program w) = [(0x180, 0xf00); (0x182, 0x0f0)].
Proof.
  cbn zeta.
  destruct (copper_runs_moves plain_reg m_log (fun r v o => o ++ [(r, v)]) [(0x180, 0xf00); (0x182, 0x0f0)]
    (machine_at 0x1000 0
      (<[0x1000 := 0x180]> (<[0x1002 := 0xf00]> (<[0x1004 := 0x182]> (<[0x1006 := 0x0f0]> ∅))))))
    as [H _].
  - done.
  - done.
  - done.
  - done.
  - done.
  - closed_range.
  - done.
  - vm_compute. done.
  - repeat constructor; vm_compute; congruence.
  - exact H.
Defined.

Lemma protected_move_stops_witness :
  let w := machine_at 0x1000 0 (<[0x1000 := 0x40]> ∅) in
  m_log (rigel_copper_service_step_program w) = [] /\
  rigel_copper_service_step_program (rigel_copper_service_step_program w) =
    rigel_copper_service_step_program w.
Proof.
  cbn zeta. split; [vm_compute; reflexivity|].
  apply (protected_move_stops (machine_at 0x1000 0 (<[0x1000 := 0x40]> ∅)));
    [done|vm_compute; reflexivity|vm_compute; reflexivity].
Defined.

Lemma copjmp_to_self_falls_through_witness :
  let w := machine_at 0x1000 0x1000 (<[0x1000 := RIGEL_REG_COPJMP1]> ∅) in
  program_counter (host_copper (rigel_copper_service_step_program w)) = 0x1004.
Proof.
  cbn zeta.
  rewrite (copjmp_to_self_falls_through
    (machine_at 0x1000 0x1000 (<[0x1000 := RIGEL_REG_COPJMP1]> ∅)));
    [vm_compute; reflexivity|done|vm_compute; reflexivity|reflexivity].
Defined.

(** ** WAIT *)

(** C40: after [WAIT ir1,ir2], and while copper DMA is on, the copper goes on (with
    the instruction behind the WAIT) exactly in a step where the masked beam
    position is at or past the masked target, line first, and, when bit 15 of
    [ir2] is clear, the blitter is idle.  Bit 15 is also the mask bit of line bit
    7: a WAIT for the blitter ignores that bit of the line, so it does not tell
    line [v] from line [v + 128]. *)
Theorem copper_wait_releases c ir1 ir2 b d busy :
  is_u16 ir1 -> is_u16 ir2 -> is_u16 (vpos b) ->
  dmacon d .& 0x0280 = 0x0280 ->
  let c' := rigel_copper_domain_step (copper_wait_arm c ir1 ir2) b d busy in
  let vm := ir2 / 256 in
  let reached :=
    ((ir1 / 256) .& vm <? vpos b .& vm) ||
    (((ir1 / 256) .& vm =? vpos b .& vm) && (ir1 .& ir2 .& 0xfe <=? hpos b .& ir2 .& 0xfe)) in
  let go := reached && (Z.testbit ir2 15 || negb busy) in
  waiting c' = negb go /\ fetch_pending c' = (go || fetch_pending c) /\
  program_counter c' = (if go then u32 (program_counter c + 4) else program_counter c) /\
  (Z.testbit ir2 15 = false -> forall v h, 0 <= v < 128 ->
     copper_wait_satisfied (copper_wait_arm c ir1 ir2) h (v + 128) =
     copper_wait_satisfied (copper_wait_arm c ir1 ir2) h v).
Proof.
  intros H1 H2 Hv Hd c' vm reached go.
  assert (Hu8 : forall x, is_u16 x -> (x .>> 8) .& 0xff = x / 256 /\ is_u8 (x / 256)).
  { intros x Hx. unfold in_width in *. rewrite Z.shiftr_div_pow2 by lia.
    change 0xff with (Z.ones 8). rewrite Z.land_ones by lia. change (2 ^ 8) with 256.
    assert (0 <= x / 256 < 256) by (split; [apply Z.div_pos; lia|apply Z.div_lt_upper_bound; lia]).
    rewrite Z.mod_small by lia. lia. }
  destruct (Hu8 ir1 H1) as [E1 R1]. destruct (Hu8 ir2 H2) as [E2 R2].
  assert (Hfe : forall h x, h .& (x .& 0xfe) .& 0xfe = h .& x .& 0xfe).
  { intros h x. by rewrite <- !Z.land_assoc, Z.land_diag. }
  assert (Hcmp : forall v h, copper_wait_satisfied (copper_wait_arm c ir1 ir2) h v =
    ((ir1 / 256) .& vm <? v .& vm) ||
    (((ir1 / 256) .& vm =? v .& vm) && (ir1 .& ir2 .& 0xfe <=? h .& ir2 .& 0xfe))).
  { intros v h. unfold copper_wait_satisfied, copper_wait_arm. cbn. rewrite E1, E2.
    rewrite beam_cmp_lex by done. rewrite !Hfe. do 2 f_equal.
    f_equal. rewrite <- !Z.land_assoc. f_equal. rewrite !Z.land_assoc, (Z.land_comm 0xfe ir2).
    by rewrite <- !Z.land_assoc, Z.land_diag. }
  assert (Hbit : (ir2 .& 0x8000 =? 0) = negb (Z.testbit ir2 15)).
  { change 0x8000 with (2 ^ 15). rewrite <- (has_pow2 ir2 15) by lia.
    unfold has. by rewrite negb_involutive. }
  assert (Hgo : c' = (if go then
      (copper_wait_arm c ir1 ir2) <| triggered := false |> <| cop_enabled := true |>
        <| waiting := false |> <| wait_blitter := false |>
        <| program_counter := u32 (program_counter c + 4) |> <| triggered := true |>
        <| event_latched := true |> <| fetch_pending := true |>
    else (copper_wait_arm c ir1 ir2) <| triggered := false |> <| cop_enabled := true |>)).
  { subst c' go. specialize (Hcmp (vpos b) (hpos b)). fold reached in Hcmp.
    unfold copper_wait_satisfied in Hcmp. cbn in Hcmp.
    unfold rigel_copper_domain_step, DMACON_DMAEN, DMACON_COPEN.
    change (0x0200 .| 0x0080) with 0x0280. rewrite Hd. cbn. rewrite Hcmp, Hbit.
    destruct (Z.testbit ir2 15), busy, reached; cbn; rewrite ?Hbit; reflexivity. }
  rewrite Hgo. split_and!; [by destruct go|by destruct go|by destruct go|].
  intros H15 v h Hvr. rewrite !Hcmp.
  assert (E : (v + 128) .& vm = v .& vm); [|by rewrite E].
  assert (Hb7 : Z.testbit vm 7 = false).
  { unfold vm. change 256 with (2 ^ 8). rewrite <- Z.shiftr_div_pow2, Z.shiftr_spec by lia. done. }
  replace (v + 128) with (v .| 128).
  - apply Z.bits_inj'. intros i Hi. autorewrite with bits. change 128 with (2 ^ 7).
    destruct (decide (i = 7)) as [->|]; [by rewrite Hb7, !andb_false_r|].
    rewrite Z.pow2_bits_false by lia. btauto.
  - rewrite <- Z.add_lor_land. replace (v .& 128) with 0; [lia|]. symmetry.
    apply Z.bits_inj'. intros i Hi. autorewrite with bits. change 128 with (2 ^ 7).
    destruct (decide (i = 7)) as [->|]; [|by rewrite Z.pow2_bits_false, andb_false_r by lia].
    by rewrite (testbit_high 7 v) by (unfold in_width; lia).
Qed.

Lemma copper_wait_releases_witness :
  let c := copper_wait_arm (copper_reset (m_copper (machine_at 0 0 ∅))) 0x4401 0x7ffe in
  waiting (rigel_copper_domain_step c (mkBeam 0 0x44 227 312 26 255 0 0 0 0 0) (mkDma 0x280 true false)
             false) = false /\
  copper_wait_satisfied c 0 (0x44 + 128) = copper_wait_satisfied c 0 0x44.
Proof.
  pose proof (copper_wait_releases (copper_reset (m_copper (machine_at 0 0 ∅))) 0x4401 0x7ffe
    (mkBeam 0 0x44 227 312 26 255 0 0 0 0 0) (mkDma 0x280 true false) false
    ltac:(closed_range) ltac:(closed_range) ltac:(closed_range) ltac:(reflexivity))
    as (H1 & _ & _ & H2).
  split; [rewrite H1; vm_compute; reflexivity|apply H2; [reflexivity|lia]].
Defined.

(** ** Reachable states *)

(** What can happen to the copper of a machine: the beam and the other chips move
    on (anything that keeps the copper's state), the copper steps, the CPU or the
    copper writes a register, a frame begins. *)
Inductive copper_event {W} `{CopperHostLaws W} : W -> W -> Prop :=
| ev_other w w' : host_copper w' = host_copper w -> copper_event w w'
| ev_service w : copper_event w (rigel_copper_service_step_program w)
| ev_domain w b d busy :
    copper_event w (on_copper (fun c => rigel_copper_domain_step c b d busy) w)
| ev_write w r v : is_u16 v -> copper_event w (host_custom_write16 r v w)
| ev_vbl w : copper_event w (on_copper rigel_copper_domain_vbl_reload w)
| ev_reset w : copper_event w (on_copper rigel_copper_domain_reset w).

(** The copper never fetches while it waits, a stopped copper does not fetch, and
    pointers, program counter and wait registers stay in range. *)
Record copper_wf (c : copper_state) : Prop := {
  cw_exclusive : waiting c = true -> fetch_pending c = false;
  cw_cop1lc : is_u32 (cop1lc c);
  cw_cop2lc : is_u32 (cop2lc c);
  cw_pc : is_u32 (program_counter c);
  cw_wait : is_u8 (wait_vpos c) /\ is_u8 (wait_hpos c) /\ is_u8 (wait_vpmask c) /\
            is_u8 (wait_hpmask c);
  cw_copcon : is_u16 (copcon c);
}.

Section reachable.
  Context {W : Type} {H : CopperHost W} {L : CopperHostLaws W}.

Lemma regs_write_wf c r v : is_u16 v -> copper_wf c -> copper_wf (rigel_copper_regs_write c r v).
Proof.
  intros Hv [He H1 H2 Hp Hw Hc]. unfold rigel_copper_regs_write.
  assert (Hhi : forall p, is_u32 p -> is_u32 (copper_set_pointer_hi p v))
    by (intros p Hp'; unfold copper_set_pointer_hi; width).
  assert (Hlo : forall p, is_u32 p -> is_u32 (copper_set_pointer_lo p v))
    by (intros p Hp'; unfold copper_set_pointer_lo; width).
  repeat match goal with |- context [if ?b then _ else _] => destruct b end;
    split; cbn; auto; done.
Qed.

Lemma domain_step_wf c b d busy : copper_wf c -> copper_wf (rigel_copper_domain_step c b d busy).
Proof.
  intros [He H1 H2 Hp Hw Hc]. unfold rigel_copper_domain_step. cbn.
  repeat match goal with |- context [if ?b then _ else _] => destruct b end;
    split; cbn; auto; try done; by apply wrap_range.
Qed.

Lemma wait_arm_wf c ir1 ir2 :
  is_u16 ir1 -> is_u16 ir2 -> fetch_pending c = false -> copper_wf c ->
  copper_wf (copper_wait_arm c ir1 ir2).
Proof.
  intros R1 R2 Hf [He H1 H2 Hp Hw Hc].
  assert (H255 : is_u8 255) by closed_range. assert (H254 : is_u8 254) by closed_range.
  split; cbn; auto. split_and!; apply in_width_land_r; done || lia.
Qed.

Lemma vbl_reload_wf c : copper_wf c -> copper_wf (copper_vbl_reload c).
Proof.
  intros [He H1 H2 Hp Hw Hc]. unfold copper_vbl_reload.
  destruct (_ =? 0); split; cbn; auto; try done;
    first [apply in_width_land_l; [lia|done]|closed_range].
Qed.

(** Updates of the copper that keep the ranges. *)
Lemma advance_wf c (n : Z) :
  copper_wf c -> waiting c = false ->
  copper_wf (c <| program_counter := u32 n |> <| fetch_pending := true |>).
Proof. intros [He H1 H2 Hp Hw Hc] Hn. split; cbn; auto; [congruence|by apply wrap_range]. Qed.

Lemma service_wf w :
  copper_wf (host_copper w) -> copper_wf (host_copper (rigel_copper_service_step_program w)).
Proof.
  intros Hwf. unfold rigel_copper_service_step_program.
  destruct (stopped_until_vbl _); [done|].
  destruct (negb (cop_enabled _)) eqn:Hen; [done|].
  destruct (fetch_pending (host_copper w)) eqn:Hf; [|done]. cbn [orb negb].
  assert (Hnw : waiting (host_copper w) = false).
  { destruct (waiting (host_copper w)) eqn:E; [|done]. pose proof (cw_exclusive _ Hwf E). congruence. }
  pose proof (host_read_u16 w (program_counter (host_copper w))) as R1.
  pose proof (host_read_u16 w (u32 (program_counter (host_copper w) + 2))) as R2.
  set (ir1 := host_chip_read16 w (program_counter (host_copper w))) in *.
  set (ir2 := host_chip_read16 w (u32 (program_counter (host_copper w) + 2))) in *.
  set (w1 := on_copper (fun c => c <| fetch_pending := false |>) w).
  assert (Hc1 : host_copper w1 = (host_copper w) <| fetch_pending := false |>) by apply host_on_copper.
  assert (Hwf1 : copper_wf (host_copper w1)).
  { rewrite Hc1. destruct Hwf. by split. }
  cbn zeta. destruct (has ir1 1); [destruct (has ir2 1)|].
  - rewrite host_on_copper. apply advance_wf; [done|by rewrite Hc1].
  - rewrite host_on_copper. apply wait_arm_wf; try done. by rewrite Hc1.
  - cbn zeta. unfold copper_exec_move. destruct (_ || _).
    + rewrite host_on_copper. cbn. rewrite host_on_copper. destruct Hwf1. by split; cbn.
    + set (w2 := host_custom_write16 _ _ _).
      assert (Hwf2 : copper_wf (host_copper w2)).
      { subst w2. rewrite host_write_copper, host_mark_copper. by apply regs_write_wf. }
      assert (Hnw2 : waiting (host_copper w2) = false).
      { subst w2. rewrite host_write_copper, host_mark_copper, Hc1. unfold rigel_copper_regs_write.
        repeat match goal with |- context [if ?b then _ else _] => destruct b end; done. }
      destruct (stopped_until_vbl (host_copper w2)); [done|].
      destruct (_ =? _); rewrite !host_on_copper; destruct Hwf2; split; cbn; auto;
        try congruence; by apply wrap_range.
Qed.

Lemma reset_wf c : copper_wf (copper_reset c).
Proof. split; cbn; try done; try closed_range. Qed.

Lemma event_wf w w' : copper_event w w' -> copper_wf (host_copper w) -> copper_wf (host_copper w').
Proof.
  intros [? ? E| | | | |] Hwf.
  - by rewrite E.
  - by apply service_wf.
  - rewrite host_on_copper. by apply domain_step_wf.
  - rewrite host_write_copper. by apply regs_write_wf.
  - rewrite host_on_copper. by apply vbl_reload_wf.
  - rewrite host_on_copper. apply reset_wf.
Qed.

(** In every state the copper reaches from reset, by its own steps, the beam's
    steps, register writes and frame reloads in any order, it does not fetch
    while it waits, and its pointers, program counter and wait position are in
    the range of their types. *)
Theorem copper_reachable_invariant w w' :
  rtc copper_event (on_copper rigel_copper_domain_reset w) w' -> copper_wf (host_copper w').
Proof.
  intros Hr. revert w' Hr. apply rtc_ind_r.
  - rewrite host_on_copper. apply reset_wf.
  - intros w1 w2 _ Hev. by apply event_wf.
Qed.

End reachable.

Lemma copper_reachable_invariant_witness :
  let w := on_copper rigel_copper_domain_reset (machine_at 0 0 ∅) in
  copper_wf (host_copper (rigel_copper_service_step_program
    (host_custom_write16 RIGEL_REG_COPJMP1 0 (host_custom_write16 RIGEL_REG_COP1LCL 0x1000 w)))).
Proof.
  cbn zeta. eapply (copper_reachable_invariant (machine_at 0 0 ∅)).
  eapply rtc_l; [apply (ev_write _ RIGEL_REG_COP1LCL 0x1000); closed_range|].
  eapply rtc_l; [apply (ev_write _ RIGEL_REG_COPJMP1 0); closed_range|].
  eapply rtc_l; [apply ev_service|]. apply rtc_refl.
Defined.
