(* ===== verification/Bytes.v ===== *)
(** * Byte buffers and counted loops

    Buffers of the C code are lists of bytes.  A store outside the buffer is
    undefined behaviour, so a store is an [option] and a routine that writes a
    buffer runs in the option monad: a theorem that it gives [Some] says that
    every store is inside.  [loop i n f s] is the counted loop of the C code. *)

From S2P Require Import Prelude.

(** ** Loads and stores *)

Definition rd8 (p : list Z) (i : Z) : Z := default 0 (p !! Z.to_nat i).

Definition store8 (p : list Z) (i b : Z) : option (list Z) :=
  if (0 <=? i) && (i <? Z.of_nat (length p)) then Some (<[Z.to_nat i := b]> p) else None.

Definition bytes (p : list Z) : Prop := Forall (in_width 8) p.

Lemma rd8_u8 p i : bytes p -> is_u8 (rd8 p i).
Proof.
  intros Hp. unfold rd8. destruct (p !! Z.to_nat i) eqn:E; cbn; [|width].
  exact (Forall_lookup_1 _ _ _ _ Hp E).
Qed.

Lemma rd8_app_r l p i : 0 <= i -> rd8 (l ++ p) (Z.of_nat (length l) + i) = rd8 p i.
Proof.
  intros Hi. unfold rd8. rewrite lookup_app_r by lia. do 2 f_equal. lia.
Qed.

Lemma rd8_app_l l p i : 0 <= i < Z.of_nat (length l) -> rd8 (l ++ p) i = rd8 l i.
Proof. intros Hi. unfold rd8. by rewrite lookup_app_l by lia. Qed.

Lemma rd8_drop n p i : 0 <= i -> rd8 (drop n p) i = rd8 p (Z.of_nat n + i).
Proof. intros Hi. unfold rd8. rewrite lookup_drop. do 2 f_equal. lia. Qed.

Lemma store8_at l x r b : store8 (l ++ x :: r) (Z.of_nat (length l)) b = Some (l ++ b :: r).
Proof.
  unfold store8. rewrite length_app. cbn [length].
  rewrite (proj2 (Z.leb_le _ _)), (proj2 (Z.ltb_lt _ _)) by lia. cbn.
  rewrite Nat2Z.id, insert_app_r_alt, Nat.sub_diag by lia. done.
Qed.

(** ** Big-endian words *)

Definition be32 (v : Z) : list Z :=
  [u8 ((v .>> 24) .& 0xff); u8 ((v .>> 16) .& 0xff); u8 ((v .>> 8) .& 0xff); u8 (v .& 0xff)].

(** C: [src/src/floppy/floppy_mfm.c] [read_be32] *)
Definition read_be32 (p : list Z) (i : Z) : Z :=
  (u32 (rd8 p i .<< 24)) .| (rd8 p (i + 1) .<< 16) .| (rd8 p (i + 2) .<< 8) .| rd8 p (i + 3).

(** C: [src/src/floppy/floppy_mfm.c] [write_be32] *)
Definition write_be32 (p : list Z) (i v : Z) : option (list Z) :=
  p ← store8 p i (u8 ((v .>> 24) .& 0xff));
  p ← store8 p (i + 1) (u8 ((v .>> 16) .& 0xff));
  p ← store8 p (i + 2) (u8 ((v .>> 8) .& 0xff));
  store8 p (i + 3) (u8 (v .& 0xff)).

(** C: [src/src/chipset/paula/disk.c] [disk_read_be16] *)
Definition disk_read_be16 (p : list Z) (i : Z) : Z :=
  u16 (u16 (rd8 p i .<< 8) .| rd8 p (i + 1)).

Lemma length_be32 v : length (be32 v) = 4%nat.
Proof. done. Qed.

Lemma be32_bytes v : bytes (be32 v).
Proof. unfold bytes, be32. repeat apply Forall_cons_2; [width|width|width|width|done]. Qed.

Lemma read_be32_u32 p i : bytes p -> is_u32 (read_be32 p i).
Proof.
  intros Hp. unfold read_be32. pose proof (rd8_u8 p (i + 1) Hp). pose proof (rd8_u8 p (i + 2) Hp).
  pose proof (rd8_u8 p (i + 3) Hp). width.
Qed.

(** The word of four bytes, and back. *)
Lemma be32_word v :
  is_u32 v ->
  u32 (u8 ((v .>> 24) .& 0xff) .<< 24) .| (u8 ((v .>> 16) .& 0xff) .<< 16)
    .| (u8 ((v .>> 8) .& 0xff) .<< 8) .| u8 (v .& 0xff) = v.
Proof. intros Hv. bitwise 32. Qed.

Lemma be32_of_bytes b3 b2 b1 b0 :
  is_u8 b3 -> is_u8 b2 -> is_u8 b1 -> is_u8 b0 ->
  be32 (u32 (b3 .<< 24) .| (b2 .<< 16) .| (b1 .<< 8) .| b0) = [b3; b2; b1; b0].
Proof. intros. unfold be32. do 4 (apply (f_equal2 cons); [bitwise 8|]). done. Qed.

Lemma read_be32_app_r l p i : 0 <= i -> read_be32 (l ++ p) (Z.of_nat (length l) + i) = read_be32 p i.
Proof.
  intros Hi. unfold read_be32. rewrite <- !Z.add_assoc, !rd8_app_r by lia. done.
Qed.

Lemma read_be32_app_l l p i :
  0 <= i -> i + 4 <= Z.of_nat (length l) -> read_be32 (l ++ p) i = read_be32 l i.
Proof. intros Hi Hl. unfold read_be32. by rewrite !rd8_app_l by lia. Qed.

Lemma read_be32_drop n p i : 0 <= i -> read_be32 (drop n p) i = read_be32 p (Z.of_nat n + i).
Proof. intros Hi. unfold read_be32. rewrite !rd8_drop, !Z.add_assoc by lia. done. Qed.

Lemma read_be32_be32 v r : is_u32 v -> read_be32 (be32 v ++ r) 0 = v.
Proof. intros Hv. by apply be32_word. Qed.

(** The word written in the middle of a buffer. *)
Lemma write_be32_at l m r v :
  length m = 4%nat ->
  write_be32 (l ++ m ++ r) (Z.of_nat (length l)) v = Some (l ++ be32 v ++ r).
Proof.
  intros Hm. destruct m as [|x0 [|x1 [|x2 [|x3 [|]]]]]; try discriminate Hm. cbn [app].
  unfold write_be32.
  assert (E : forall (q : list Z) i x s b, i = Z.of_nat (length q) ->
    store8 (q ++ x :: s) i b = Some (q ++ b :: s)) by (intros; subst; apply store8_at).
  rewrite (E l) by done. cbn [mbind option_bind].
  rewrite cons_middle, app_assoc, E by (rewrite length_app; cbn; lia). cbn [mbind option_bind].
  rewrite (cons_middle _ _ (_ :: _)), app_assoc, E by (rewrite !length_app; cbn; lia).
  cbn [mbind option_bind].
  rewrite (cons_middle _ _ (_ :: _)), app_assoc, E by (rewrite !length_app; cbn; lia).
  by rewrite <- !app_assoc.
Qed.

(** ** Counted loops *)

Fixpoint loop {S} (i : Z) (n : nat) (f : Z -> S -> option S) (s : S) : option S :=
  match n with
  | O => Some s
  | Datatypes.S n => s ← f i s; loop (i + 1) n f s
  end.

(** The loop invariant rule: every iteration succeeds and keeps the invariant. *)
Lemma loop_inv {S} (I : Z -> S -> Prop) (f : Z -> S -> option S) n : forall i s,
  I i s ->
  (forall j s, i <= j < i + Z.of_nat n -> I j s -> exists s', f j s = Some s' /\ I (j + 1) s') ->
  exists s', loop i n f s = Some s' /\ I (i + Z.of_nat n) s'.
Proof.
  induction n as [|n IH]; intros i s Hs Hf; cbn [loop].
  - exists s. by rewrite Z.add_0_r.
  - destruct (Hf i s) as (s1 & E & H1); [lia|done|]. rewrite E. cbn [mbind option_bind].
    destruct (IH (i + 1) s1 H1) as (s2 & E2 & H2); [intros j t Hj; apply Hf; lia|].
    exists s2. split; [done|].
    by replace (i + Z.of_nat (Datatypes.S n)) with (i + 1 + Z.of_nat n) by lia.
Qed.

Lemma loop_ext {S} (f g : Z -> S -> option S) n : forall i s,
  (forall j s, f j s = g j s) -> loop i n f s = loop i n g s.
Proof.
  induction n as [|n IH]; intros i s H; cbn [loop]; [done|]. rewrite H.
  destruct (g i s); cbn; [by apply IH|done].
Qed.

Lemma foldl_ext_in {A B} (f g : A -> B -> A) l : forall a,
  (forall a b, b ∈ l -> f a b = g a b) -> foldl f a l = foldl g a l.
Proof.
  induction l as [|b l IH]; intros a H; cbn [foldl]; [done|].
  rewrite H by apply list_elem_of_here. apply IH. intros x y Hy. by apply H, list_elem_of_further.
Qed.

(** Consecutive words written into a buffer. *)
Definition be32s (ws : list Z) : list Z := concat (be32 <$> ws).

Lemma length_be32s ws : length (be32s ws) = (4 * length ws)%nat.
Proof. unfold be32s. induction ws as [|w ws IH]; [done|]. cbn in *. lia. Qed.

Lemma be32s_app ws us : be32s (ws ++ us) = be32s ws ++ be32s us.
Proof. unfold be32s. by rewrite fmap_app, concat_app. Qed.

Lemma be32s_bytes ws : bytes (be32s ws).
Proof.
  unfold be32s, bytes. induction ws as [|w ws IH]; cbn; [done|].
  repeat apply Forall_cons_2; [width|width|width|width|exact IH].
Qed.

Lemma read_be32s ws i r :
  Forall (in_width 32) ws -> 0 <= i < Z.of_nat (length ws) ->
  read_be32 (be32s ws ++ r) (4 * i) = default 0 (ws !! Z.to_nat i).
Proof.
  intros Hws. revert i. induction Hws as [|w ws Hw Hws IH]; intros i Hi; [cbn in Hi; lia|].
  change (be32s (w :: ws)) with (be32 w ++ be32s ws). rewrite <- app_assoc.
  destruct (decide (i = 0)) as [->|]; [by apply read_be32_be32|].
  replace (4 * i) with (Z.of_nat (length (be32 w)) + 4 * (i - 1)) by (cbn; lia).
  rewrite read_be32_app_r by lia. cbn [length] in Hi.
  rewrite IH by lia. replace (Z.to_nat i) with (S (Z.to_nat (i - 1))) by lia. done.
Qed.

Lemma loop_write_be32 ws : forall l m r p,
  length m = (4 * length ws)%nat -> p = Z.of_nat (length l) ->
  forall f, (forall j buf, 0 <= j < Z.of_nat (length ws) ->
      f j buf = write_be32 buf (p + 4 * j) (default 0 (ws !! Z.to_nat j))) ->
  loop 0 (length ws) f (l ++ m ++ r) = Some (l ++ be32s ws ++ r).
Proof.
  intros l m r p Hm Hp f Hf.
  destruct (loop_inv (fun i buf => exists m', length m' = (4 * length ws - 4 * Z.to_nat i)%nat /\
     buf = l ++ be32s (take (Z.to_nat i) ws) ++ m' ++ r) f (length ws) 0 (l ++ m ++ r))
    as (s & E & m' & Hm' & Hs).
  - exists m. split; [lia|done].
  - intros j buf Hj (m' & Hm' & ->). rewrite Hf by lia.
    destruct (lookup_lt_is_Some_2 ws (Z.to_nat j)) as [w Hw]; [lia|]. rewrite Hw. cbn [default].
    assert (Htk : length (be32s (take (Z.to_nat j) ws)) = (4 * Z.to_nat j)%nat)
      by (rewrite length_be32s, length_take; lia).
    exists (l ++ be32s (take (Z.to_nat (j + 1)) ws) ++ drop 4 m' ++ r).
    split; [|exists (drop 4 m'); split; [rewrite length_drop; lia|done]].
    replace (p + 4 * j) with (Z.of_nat (length (l ++ be32s (take (Z.to_nat j) ws))))
      by (rewrite length_app, Htk; lia).
    rewrite <- (take_drop 4 m') at 1. rewrite <- app_assoc, (app_assoc l).
    rewrite write_be32_at by (rewrite length_take; lia).
    replace (Z.to_nat (j + 1)) with (S (Z.to_nat j)) by lia.
    rewrite (take_S_r _ _ w Hw), be32s_app, <- !app_assoc. done.
  - replace (Z.to_nat (0 + Z.of_nat (length ws))) with (length ws) in * by lia.
    rewrite firstn_all in Hs. destruct m'; [|cbn in Hm'; lia]. by rewrite E, Hs.
Qed.
