(* ===== verification/Mfm.v ===== *)
(** * MFM encoding of floppy sectors and tracks: [floppy_mfm.c]

    Definitions first, then the facts about one sector.  The buffers are those
    of Bytes.v: encoding a sector or a track is [None] when a store falls
    outside the destination. *)

From S2P Require Import Prelude Bytes.

(** C: [src/src/floppy/floppy_mfm.h]:8-8 [AMIGA_SECTOR_SIZE] *)
Definition AMIGA_SECTOR_SIZE := 512.
(** C: [src/src/floppy/floppy_mfm.h]:9-9 [AMIGA_SECTORS_PER_TRACK] *)
Definition AMIGA_SECTORS_PER_TRACK := 11.
(** C: [src/src/floppy/floppy_mfm.h]:10-10 [AMIGA_TRACK_SIZE] *)
Definition AMIGA_TRACK_SIZE := AMIGA_SECTOR_SIZE * AMIGA_SECTORS_PER_TRACK.
(** C: [src/src/floppy/floppy_mfm.h]:12-12 [AMIGA_MFM_SECTOR_SIZE] *)
Definition AMIGA_MFM_SECTOR_SIZE := 1088.
(** C: [src/src/floppy/floppy_mfm.h]:15-15 [RIGEL_FLOPPY_MFM_TRACK_BYTES_PAL] *)
Definition RIGEL_FLOPPY_MFM_TRACK_BYTES_PAL := 13630.
(** C: [src/src/floppy/floppy_mfm.c]:5-5 [MFM_MASK] *)
Definition MFM_MASK := 0x55555555.

(** C: [src/src/floppy/floppy_mfm.c] [floppy_mfm_checksum] *)
Definition floppy_mfm_checksum (data : option (list Z)) (longwords : nat) : Z :=
  match data with
  | None => 0
  | Some data => foldl (fun sum v => sum .^ (v .& MFM_MASK)) 0 (take longwords data)
  end.

(** The two halves are stored through pointers that may be null; the result is
    always 0.
    C: [src/src/floppy/floppy_mfm.c] [floppy_mfm_encode_even_odd] *)
Definition floppy_mfm_encode_even_odd (value : Z) (even odd : option Z)
    : Z * option Z * option Z :=
  let e := (value .>> 1) .& MFM_MASK in
  let o := value .& MFM_MASK in
  (0, (fun _ => e) <$> even, (fun _ => o) <$> odd).

(** One round of the loop over the bits, from bit 15 down.
    C: [src/src/floppy/floppy_mfm.c] [floppy_mfm_encode_word] *)
Definition floppy_mfm_encode_word (raw previous : Z) : Z :=
  foldl (fun out i =>
    let bit := u16 ((raw .>> i) .& 1) in
    let prev_data := if i =? 15 then previous .& 1 else u16 ((raw .>> (i + 1)) .& 1) in
    let clock := if negb (truthy prev_data) && negb (truthy bit) then 1 else 0 in
    let out := u16 (out .<< 1) in
    let out := u16 (out .| clock) in
    let out := u16 (out .<< 1) in
    u16 (out .| bit)) 0 (rev (seqZ 0 16)).

(** The clock bits of one longword, from the data bits before it and its own.
    C: [src/src/floppy/floppy_mfm.c]:85-87 [mfmcode_u32] *)
Definition mfm_clock (prev v : Z) : Z :=
  let mask1 := u32 (prev .<< 31) .| (v .>> 1) in
  let mask2 := u32 (v .<< 1) in
  (u32 (~~ mask1) .& u32 (~~ mask2)) .& 0xaaaaaaaa.

(** The array is [buf] and the pointer [mfm] is the index [i] in it.
    C: [src/src/floppy/floppy_mfm.c] [mfmcode_u32] *)
Fixpoint mfmcode_loop (longs : nat) (buf : list Z) (i : nat) (prev : Z) : list Z :=
  match longs with
  | O => buf
  | S longs =>
      let v := default 0 (buf !! i) .& MFM_MASK in
      mfmcode_loop longs (<[i := v .| mfm_clock prev v]> buf) (S i) v
  end.

(** C: [src/src/floppy/floppy_mfm.c] [mfmcode_u32] *)
Definition mfmcode_u32 (buf : list Z) (i longs : nat) : list Z :=
  mfmcode_loop longs buf i (default 0 (buf !! Nat.pred i)).

(** The longwords of a sector before the clock bits, built in the order of
    the code: [data_long] is the body of the loop over the data.
    C: [src/src/floppy/floppy_mfm.c]:147-155 [floppy_mfm_encode_sector] *)
Definition data_long (sector_data : list Z) (i : Z) (s : list Z * Z) : option (list Z * Z) :=
  let '(buf, dck) := s in
  let raw := read_be32 sector_data (i * 4) in
  let odd := (raw .>> 1) .& MFM_MASK in
  let even := raw .& MFM_MASK in
  let buf := <[Z.to_nat (16 + i) := odd]> buf in
  let buf := <[Z.to_nat (16 + 128 + i) := even]> buf in
  Some (buf, dck .^ odd .^ even).

(** C: [src/src/floppy/floppy_mfm.c]:133-136 [floppy_mfm_encode_sector] *)
Definition sector_info (track sector sectors_per_track : Z) : Z :=
  u32 (0xff .<< 24) .| ((track .& 0xff) .<< 16) .| ((sector .& 0xff) .<< 8)
    .| (u32 (sectors_per_track - sector) .& 0xff).

(** C: [src/src/floppy/floppy_mfm.c]:119-162 [floppy_mfm_encode_sector] *)
Definition sector_longs (sector_data : list Z) (track sector sectors_per_track : Z)
    : option (list Z) :=
  let buf := replicate 272 0 in
  let buf := <[0%nat := 0xaaaaaaaa]> buf in
  let buf := <[1%nat := 0x44894489]> buf in
  let info := sector_info track sector sectors_per_track in
  let odd := (info .>> 1) .& MFM_MASK in
  let even := info .& MFM_MASK in
  let buf := <[2%nat := odd]> buf in
  let buf := <[3%nat := even]> buf in
  let hck := 0 .^ odd .^ even in
  '(buf, dck) ← loop 0 128 (data_long sector_data) (buf, 0);
  let buf := <[12%nat := hck .>> 1]> buf in
  let buf := <[13%nat := hck]> buf in
  let buf := <[14%nat := dck .>> 1]> buf in
  let buf := <[15%nat := dck]> buf in
  Some (mfmcode_u32 buf 2 270).

(** [dst] is the buffer of the pointer and [at_] the offset of the pointer in
    it; the result is the buffer and the C result.
    C: [src/src/floppy/floppy_mfm.c] [floppy_mfm_encode_sector] *)
Definition floppy_mfm_encode_sector (dst : option (list Z)) (at_ dst_size : Z)
    (sector_data : option (list Z)) (track sector sectors_per_track : Z)
    : option (option (list Z) * bool) :=
  match dst, sector_data with
  | Some d, Some sd =>
      if dst_size <? AMIGA_MFM_SECTOR_SIZE then Some (dst, false)
      else
        buf ← sector_longs sd track sector sectors_per_track;
        d ← loop 0 272 (fun i d => write_be32 d (at_ + i * 4) (default 0 (buf !! Z.to_nat i))) d;
        Some (Some d, true)
  | _, _ => Some (dst, false)
  end.

(** One round of the loop over the sectors of a track.
    C: [src/src/floppy/floppy_mfm.c]:203-216 [floppy_mfm_encode_track] *)
Definition track_sector (track_data : list Z) (track sectors_per_track : Z) (sec : Z)
    (s : list Z * Z) : option (list Z * Z) :=
  let '(dst, pos) := s in
  let sector_ptr := drop (Z.to_nat (sec * AMIGA_SECTOR_SIZE)) track_data in
  let prev_last_bit := if 4 <=? pos then read_be32 dst (pos - 4) .& 1 else 0 in
  '(d, _) ← floppy_mfm_encode_sector (Some dst) pos AMIGA_MFM_SECTOR_SIZE (Some sector_ptr)
              track sec sectors_per_track;
  d ← write_be32 (default [] d) pos (if truthy prev_last_bit then 0x2aaaaaaa else 0xaaaaaaaa);
  Some (d, u32 (pos + AMIGA_MFM_SECTOR_SIZE)).

(** C: [src/src/floppy/floppy_mfm.c]:196-200 [floppy_mfm_encode_track] *)
Definition gap_long (_ : Z) (s : list Z * Z) : option (list Z * Z) :=
  let '(dst, pos) := s in
  d ← write_be32 dst pos 0xaaaaaaaa;
  Some (d, u32 (pos + 4)).

(** C: [src/src/floppy/floppy_mfm.c] [floppy_mfm_encode_track] *)
Definition floppy_mfm_encode_track (dst : option (list Z)) (dst_size : Z)
    (track_data : option (list Z)) (track sectors_per_track : Z)
    : option (option (list Z) * bool) :=
  let data_bytes := u32 (sectors_per_track * AMIGA_MFM_SECTOR_SIZE) in
  match dst, track_data with
  | Some d, Some td =>
      if dst_size <? data_bytes then Some (dst, false)
      else
        let gapsize := if data_bytes <? dst_size then u32 (dst_size - data_bytes) else 0 in
        let gap_words := if 1 <? gapsize / 4 then gapsize / 4 - 1 else 0 in
        '(d, pos) ← loop 0 (Z.to_nat gap_words) gap_long (d, 0);
        '(d, pos) ← loop 0 (Z.to_nat sectors_per_track)
                      (track_sector td track sectors_per_track) (d, pos);
        if u32 (pos + 4) <=? u32 dst_size then
          let tail := [if 4 <=? pos then read_be32 d (pos - 4) else 0; 0] in
          let tail := mfmcode_u32 tail 1 1 in
          d ← write_be32 d pos (default 0 (tail !! 1%nat));
          Some (Some d, true)
        else Some (Some d, true)
  | _, _ => Some (dst, false)
  end.
