(* ===== verification/MfmSector.v ===== *)
(** * The longwords of an MFM sector

    What [floppy_mfm_encode_sector] puts in its 272 longwords: the clock bits
    leave the data bits as they are, and the data bits are the header, the two
    checksums and the two halves of the data. *)

From S2P Require Import Prelude Bytes Mfm.

(** ** Clock bits *)

Lemma mfm_mask_idemp x : (x .& MFM_MASK) .& MFM_MASK = x .& MFM_MASK.
Proof. rewrite <- Z.land_assoc. done. Qed.

Lemma mfm_mask_u32 x : is_u32 (x .& MFM_MASK).
Proof. apply in_width_land_r; [lia|closed_range]. Qed.

Lemma mfm_clock_u32 prev v : is_u32 (mfm_clock prev v).
Proof. apply in_width_land_r; [lia|closed_range]. Qed.

Lemma mfm_clock_data prev v : mfm_clock prev v .& MFM_MASK = 0.
Proof. unfold mfm_clock. rewrite <- Z.land_assoc. change (0xaaaaaaaa .& MFM_MASK) with 0. apply Z.land_0_r. Qed.

Lemma mfm_coded_data prev v : (v .| mfm_clock prev v) .& MFM_MASK = v .& MFM_MASK.
Proof. by rewrite Z.land_lor_distr_l, mfm_clock_data, Z.lor_0_r. Qed.

(** The word [w] after the word [prev] carries the clock bits of its data. *)
Definition clocked (prev w : Z) : Prop :=
  w = (w .& MFM_MASK) .| mfm_clock prev (w .& MFM_MASK).

Lemma mfm_clock_prev p q v : Z.testbit p 0 = Z.testbit q 0 -> mfm_clock p v = mfm_clock q v.
Proof.
  intros H. unfold mfm_clock. do 2 f_equal. f_equal. f_equal. f_equal.
  apply Z.bits_inj'. intros i Hi. autorewrite with bits.
  destruct (Z.ltb_spec i 32); [|done]. cbn. destruct (decide (i = 31)) as [->|]; [exact H|].
  by rewrite !(Z.testbit_neg_r _ (i - 31)) by lia.
Qed.

Lemma mfm_mask_bit0 x : Z.testbit (x .& MFM_MASK) 0 = Z.testbit x 0.
Proof. rewrite Z.land_spec. apply andb_true_r. Qed.

Lemma mfm_coded_bit0 p v : Z.testbit (v .| mfm_clock p v) 0 = Z.testbit v 0.
Proof.
  rewrite <- (mfm_mask_bit0 (v .| _)), mfm_coded_data. apply mfm_mask_bit0.
Qed.

Lemma coded_clocked p q v :
  v .& MFM_MASK = v -> Z.testbit p 0 = Z.testbit q 0 -> clocked q (v .| mfm_clock p v).
Proof.
  intros Hv H. unfold clocked. rewrite mfm_coded_data, Hv. f_equal. by apply mfm_clock_prev.
Qed.

(** ** The array after [mfmcode_u32] *)

Lemma length_mfmcode_loop n : forall buf i prev, length (mfmcode_loop n buf i prev) = length buf.
Proof.
  induction n as [|n IH]; intros; cbn [mfmcode_loop]; [done|]. by rewrite IH, length_insert.
Qed.

Definition long (buf : list Z) (j : nat) : Z := default 0 (buf !! j).

(** The longword before position [j] of the coded range, as the loop sees it. *)
Definition before (buf : list Z) (i : nat) (prev : Z) (j : nat) : Z :=
  if decide (j = i) then prev else long buf (Nat.pred j) .& MFM_MASK.

Lemma mfmcode_loop_outside n : forall buf i prev j,
  (j < i)%nat \/ (i + n <= j)%nat -> mfmcode_loop n buf i prev !! j = buf !! j.
Proof.
  induction n as [|n IH]; intros buf i prev j Hj; cbn [mfmcode_loop]; [done|].
  rewrite IH by lia. apply list_lookup_insert_ne. lia.
Qed.

Lemma mfmcode_loop_inside n : forall buf i prev j,
  (i <= j < i + n)%nat -> (j < length buf)%nat ->
  mfmcode_loop n buf i prev !! j =
  Some (let v := long buf j .& MFM_MASK in v .| mfm_clock (before buf i prev j) v).
Proof.
  induction n as [|n IH]; intros buf i prev j Hj Hl; [lia|]. cbn [mfmcode_loop].
  unfold before. destruct (decide (j = i)) as [->|Hne].
  - rewrite mfmcode_loop_outside by lia. by rewrite list_lookup_insert_eq by lia.
  - rewrite IH by (rewrite ?length_insert; lia). unfold before, long.
    rewrite (list_lookup_insert_ne _ i j) by lia. do 3 f_equal.
    destruct (decide (j = S i)) as [->|]; [done|].
    by rewrite (list_lookup_insert_ne _ i (Nat.pred j)) by lia.
Qed.

(** ** The loop over the data *)

Definition odd_half (raw : Z) : Z := (raw .>> 1) .& MFM_MASK.
Definition even_half (raw : Z) : Z := raw .& MFM_MASK.

(** The checksum of the first [n] longwords of the data. *)
Fixpoint data_sum (sd : list Z) (n : nat) : Z :=
  match n with
  | O => 0
  | S n => let raw := read_be32 sd (Z.of_nat n * 4) in data_sum sd n .^ odd_half raw .^ even_half raw
  end.

Lemma even_half_xor a b : even_half a .^ even_half b = even_half (a .^ b).
Proof.
  unfold even_half. apply Z.bits_inj'. intros i Hi. autorewrite with bits. btauto.
Qed.

Lemma half_masked v : odd_half v .& MFM_MASK = odd_half v /\ even_half v .& MFM_MASK = even_half v.
Proof. split; apply mfm_mask_idemp. Qed.

Lemma xor_masked a b :
  a .& MFM_MASK = a -> b .& MFM_MASK = b -> (a .^ b) .& MFM_MASK = a .^ b.
Proof.
  intros Ha Hb. change ((a .^ b) .& MFM_MASK) with (even_half (a .^ b)).
  rewrite <- even_half_xor. unfold even_half. by rewrite Ha, Hb.
Qed.

Lemma data_sum_masked sd n : data_sum sd n .& MFM_MASK = data_sum sd n.
Proof.
  induction n as [|n IH]; [done|]. cbn [data_sum].
  repeat apply xor_masked; [exact IH|apply half_masked|apply half_masked].
Qed.

(** The data bits put at position [j] after [n] rounds. *)
Definition data_word (sd : list Z) (n : nat) (buf : list Z) (j : nat) : Z :=
  if decide (16 <= j < 16 + n)%nat then odd_half (read_be32 sd (Z.of_nat (j - 16) * 4))
  else if decide (144 <= j < 144 + n)%nat then even_half (read_be32 sd (Z.of_nat (j - 144) * 4))
  else long buf j.

Lemma long_insert (buf : list Z) k v j :
  (k < length buf)%nat -> long (<[k := v]> buf) j = if decide (j = k) then v else long buf j.
Proof.
  intros Hk. unfold long. destruct (decide (j = k)) as [->|].
  - by rewrite list_lookup_insert_eq.
  - by rewrite list_lookup_insert_ne by lia.
Qed.

Lemma data_loop sd buf :
  length buf = 272%nat ->
  exists buf', loop 0 128 (data_long sd) (buf, 0) = Some (buf', data_sum sd 128) /\
    length buf' = 272%nat /\ forall j, long buf' j = data_word sd 128 buf j.
Proof.
  intros Hl.
  destruct (loop_inv (fun i s => 0 <= i <= 128 /\ s.2 = data_sum sd (Z.to_nat i) /\
     length s.1 = 272%nat /\ forall j, long s.1 j = data_word sd (Z.to_nat i) buf j)
     (data_long sd) 128 0 (buf, 0)) as ((b & d) & E & _ & Hd & Hb & Hj).
  - split; [lia|]. split; [done|]. split; [done|]. intros j. unfold data_word.
    do 2 (destruct (decide _); [lia|]). done.
  - intros i [b d] Hi ([_ _] & Hd & Hb & Hj). cbn [fst snd] in *. subst d.
    unfold data_long. cbn [fst snd].
    eexists. split; [reflexivity|]. cbn [fst snd].
    replace (Z.to_nat (i + 1)) with (S (Z.to_nat i)) by lia. split; [lia|].
    split; [cbn [data_sum]; by rewrite Z2Nat.id by lia|]. split; [by rewrite !length_insert|].
    intros j. rewrite !long_insert by (rewrite ?length_insert; lia). rewrite Hj.
    unfold data_word, odd_half, even_half. destruct (decide (j = Z.to_nat (16 + 128 + i))) as [->|].
    { destruct (decide _); [lia|]. rewrite decide_True by lia. do 2 f_equal. lia. }
    destruct (decide (j = Z.to_nat (16 + i))) as [->|].
    { rewrite decide_True by lia. do 3 f_equal. lia. }
    repeat (destruct (decide _); try lia); done.
  - exists b. cbn in Hd, Hj. by rewrite E, Hd.
Qed.

(** ** The sector *)

(** The data bits of longword [j] of a sector, and the header checksum. *)
Definition header_sum (info : Z) : Z := odd_half info .^ even_half info.

Definition sector_word (sd : list Z) (info : Z) (j : nat) : Z :=
  if decide (j = 2)%nat then odd_half info
  else if decide (j = 3)%nat then even_half info
  else if decide (j < 13)%nat then 0
  else if decide (j = 13)%nat then header_sum info
  else if decide (j = 14)%nat then 0
  else if decide (j = 15)%nat then data_sum sd 128
  else if decide (j < 144)%nat then odd_half (read_be32 sd (Z.of_nat (j - 16) * 4))
  else even_half (read_be32 sd (Z.of_nat (j - 144) * 4)).

Lemma sector_word_masked sd info j : sector_word sd info j .& MFM_MASK = sector_word sd info j.
Proof.
  unfold sector_word. repeat (destruct (decide _); try done); try apply half_masked.
  - apply xor_masked; apply half_masked.
  - apply data_sum_masked.
Qed.

Lemma shift_masked v : v .& MFM_MASK = v -> (v .>> 1) .& MFM_MASK = 0.
Proof.
  intros <-. apply Z.bits_inj'. intros i Hi. autorewrite with bits.
  destruct (decide (i < 32)).
  - revert i Hi l. assert (H : forall i, 0 <= i < 32 -> Z.testbit MFM_MASK (i + 1) && Z.testbit MFM_MASK i = false).
    { intros i Hi. cases_below i 32; reflexivity. }
    intros i Hi Hlt. rewrite <- andb_assoc, H by lia. apply andb_false_r.
  - rewrite (testbit_high 32 MFM_MASK i) by (closed_range || lia). apply andb_false_r.
Qed.

Lemma long_coded buf j :
  length buf = 272%nat -> (j < 272)%nat ->
  mfmcode_u32 buf 2 270 !! j =
  Some (if decide (j < 2)%nat then long buf j
        else let v := long buf j .& MFM_MASK in
             v .| mfm_clock (before buf 2 (long buf 1) j) v).
Proof.
  intros Hl Hj. unfold mfmcode_u32. destruct (decide (j < 2)%nat).
  - rewrite mfmcode_loop_outside by lia. unfold long.
    destruct (lookup_lt_is_Some_2 buf j) as [w ->]; [lia|done].
  - by rewrite mfmcode_loop_inside by lia.
Qed.

Lemma sector_longs_spec sd track sector spt :
  exists buf, sector_longs sd track sector spt = Some buf /\ length buf = 272%nat /\
    long buf 0 = 0xaaaaaaaa /\ long buf 1 = 0x44894489 /\
    (forall j, (2 <= j < 272)%nat ->
       long buf j .& MFM_MASK = sector_word sd (sector_info track sector spt) j /\
       is_u32 (long buf j) /\ clocked (long buf (Nat.pred j)) (long buf j)).
Proof.
  unfold sector_longs. set (info := sector_info track sector spt).
  set (b0 := <[3%nat := _]> _).
  assert (Hb0 : length b0 = 272%nat) by (unfold b0; by rewrite !length_insert).
  destruct (data_loop sd b0 Hb0) as (b1 & E & Hl & Hw). rewrite E. cbn [mbind option_bind].
  set (b2 := <[15%nat := _]> _).
  assert (Hb2 : length b2 = 272%nat) by (unfold b2; by rewrite !length_insert).
  assert (H2 : forall j, (2 <= j < 272)%nat -> long b2 j .& MFM_MASK = sector_word sd info j).
  { intros j Hj. unfold b2. rewrite !long_insert by (rewrite ?length_insert; lia). rewrite Hw.
    unfold data_word, b0.
    rewrite !long_insert by (rewrite ?length_insert, ?length_replicate; lia).
    unfold sector_word.
    repeat (destruct (decide _); try lia); subst; try apply half_masked;
      try (apply shift_masked); try apply data_sum_masked;
      try (rewrite Z.lxor_0_l; apply xor_masked; apply half_masked).
    unfold long. by rewrite lookup_replicate_2 by lia. }
  assert (H01 : long b2 0 = 0xaaaaaaaa /\ long b2 1 = 0x44894489).
  { unfold b2. rewrite !long_insert by (rewrite ?length_insert; lia). cbn [decide].
    rewrite !Hw. done. }
  exists (mfmcode_u32 b2 2 270). split; [done|].
  assert (Hc := fun j Hj => long_coded b2 j Hb2 Hj).
  assert (Hlong : forall j, (j < 272)%nat -> long (mfmcode_u32 b2 2 270) j =
     if decide (j < 2)%nat then long b2 j
        else let v := long b2 j .& MFM_MASK in
             v .| mfm_clock (before b2 2 (long b2 1) j) v).
  { intros j Hj. unfold long at 1. by rewrite Hc. }
  split; [unfold mfmcode_u32; by rewrite length_mfmcode_loop|].
  rewrite !Hlong by lia. split; [apply H01|]. split; [apply H01|].
  intros j Hj. rewrite !Hlong by lia. rewrite decide_False by lia. cbn zeta.
  rewrite mfm_coded_data, mfm_mask_idemp. split; [by apply H2|].
  split; [apply in_width_lor; [lia|apply mfm_mask_u32|apply mfm_clock_u32]|].
  apply coded_clocked; [apply mfm_mask_idemp|]. unfold before.
  destruct (decide (j = 2)%nat) as [->|]; [done|]. rewrite decide_False by lia.
  by rewrite mfm_coded_bit0.
Qed.

#[global] Opaque sector_longs.

(** ** The helper [floppy_mfm_encode_word]

    The sixteen bits become thirty-two, of which the 16-bit result keeps the
    last sixteen: it is the encoding of the low byte, and neither the high
    byte but its lowest bit nor [previous] has any effect. *)
Definition word_step (out : Z) (c b : bool) : Z :=
  u16 (u16 (u16 (u16 (out .<< 1) .| b2u c) .<< 1) .| b2u b).

Lemma word_step_bit out c b j :
  0 <= j < 16 ->
  Z.testbit (word_step out c b) j =
  if j =? 0 then b else if j =? 1 then c else Z.testbit out (j - 2).
Proof.
  intros Hj. unfold word_step. autorewrite with bits. cases_below j 16; cbn; literal_bits; cbn; try btauto;
    autorewrite with bits; cbn; literal_bits; cbn; btauto.
Qed.

Lemma word_loop_bit (clk bit : Z -> bool) n : forall out j,
  0 <= j < 16 ->
  Z.testbit (foldl (fun out i => word_step out (clk i) (bit i)) out (rev (seqZ 0 (Z.of_nat n)))) j =
  if j <? 2 * Z.of_nat n then (if Z.even j then bit (j / 2) else clk (j / 2))
  else Z.testbit out (j - 2 * Z.of_nat n).
Proof.
  induction n as [|n IH]; intros out j Hj.
  - cbn. rewrite (proj2 (Z.ltb_ge _ _)) by lia. f_equal. lia.
  - replace (Z.of_nat (S n)) with (Z.of_nat n + 1) by lia.
    rewrite seqZ_app, rev_app_distr by lia. change (seqZ (0 + Z.of_nat n) 1) with [Z.of_nat n].
    cbn [rev app foldl]. rewrite IH by done.
    destruct (Z.ltb_spec j (2 * Z.of_nat n)); [by rewrite (proj2 (Z.ltb_lt _ _)) by lia|].
    rewrite word_step_bit by lia.
    destruct (Z.eqb_spec (j - 2 * Z.of_nat n) 0).
    + rewrite (proj2 (Z.ltb_lt _ _)) by lia. replace j with (2 * Z.of_nat n) by lia.
      rewrite Z.even_mul. cbn [Z.even orb]. f_equal. rewrite Z.mul_comm, Z.div_mul by lia. done.
    + destruct (Z.eqb_spec (j - 2 * Z.of_nat n) 1).
      * rewrite (proj2 (Z.ltb_lt _ _)) by lia. replace j with (1 + 2 * Z.of_nat n) by lia.
        rewrite Z.even_add_mul_2. cbn [Z.even]. rewrite Z.mul_comm, Z.div_add by lia. done.
      * rewrite (proj2 (Z.ltb_ge _ _)) by lia. f_equal. lia.
Qed.

Lemma encode_word_low_byte raw previous i :
  0 <= i < 8 ->
  Z.testbit (floppy_mfm_encode_word raw previous) (2 * i) = Z.testbit raw i /\
  Z.testbit (floppy_mfm_encode_word raw previous) (2 * i + 1) =
    negb (Z.testbit raw (i + 1)) && negb (Z.testbit raw i).
Proof.
  intros Hi.
  assert (Hbit : forall j, 0 <= j -> u16 ((raw .>> j) .& 1) = b2u (Z.testbit raw j)).
  { intros j Hj. rewrite shiftr_land_1 by done. apply wrap_small. by apply in_width_b2u. }
  assert (Htruthy : forall b, truthy (b2u b) = b) by by intros [].
  set (clk j := negb (truthy (if j =? 15 then previous .& 1 else b2u (Z.testbit raw (j + 1))))
                && negb (Z.testbit raw j)).
  assert (E : floppy_mfm_encode_word raw previous =
    foldl (fun out j => word_step out (clk j) (Z.testbit raw j)) 0 (rev (seqZ 0 (Z.of_nat 16)))).
  { unfold floppy_mfm_encode_word. change (rev (seqZ 0 (Z.of_nat 16))) with (rev (seqZ 0 16)).
    apply foldl_ext_in. intros out j Hj.
    assert (0 <= j < 16) as Hj' by (by apply list_elem_of_In, in_rev, list_elem_of_In, elem_of_seqZ in Hj).
    unfold word_step, clk. rewrite !Hbit, Htruthy by lia. done. }
  rewrite E, !word_loop_bit by lia. cbn [Z.of_nat].
  rewrite (proj2 (Z.ltb_lt _ _)), (proj2 (Z.ltb_lt _ _)) by lia.
  rewrite Z.even_mul, Z.even_add, Z.even_mul. cbn [Z.even orb eqb].
  replace (2 * i / 2) with i by (rewrite Z.mul_comm, Z.div_mul; lia).
  replace ((2 * i + 1) / 2) with i by (rewrite Z.add_comm, Z.mul_comm, Z.div_add by lia; done).
  split; [done|]. unfold clk. rewrite (proj2 (Z.eqb_neq i 15)) by lia. by rewrite Htruthy.
Qed.
