(* ===== verification/MfmTrack.v ===== *)
(** * The buffer of an MFM track

    [floppy_mfm_encode_track] writes a sequence of longwords: a gap, the
    sectors and one longword after them.  Every store is inside the buffer,
    what follows the last longword keeps its bytes, and every longword but the
    sync marks obeys the MFM clock rule. *)

From S2P Require Import Prelude Bytes Mfm MfmSector.

(** ** Longwords at the front of a buffer *)

(** The buffer [d] after the longwords [ws] were written at its start. *)
Definition written (ws : list Z) (d : list Z) : list Z := be32s ws ++ drop (4 * length ws) d.

Lemma length_written ws d : (4 * length ws <= length d)%nat -> length (written ws d) = length d.
Proof. intros H. unfold written. rewrite length_app, length_be32s, length_drop. lia. Qed.

Lemma written_split ws d n :
  (4 * (length ws + n) <= length d)%nat ->
  exists m, length m = (4 * n)%nat /\
    written ws d = be32s ws ++ m ++ drop (4 * (length ws + n)) d.
Proof.
  intros H. exists (take (4 * n) (drop (4 * length ws) d)).
  split; [rewrite length_take, length_drop; lia|]. unfold written. f_equal.
  rewrite <- (take_drop (4 * n) (drop (4 * length ws) d)) at 1. rewrite drop_drop.
  do 2 f_equal. lia.
Qed.

Lemma write_next ws d p v :
  (4 * (length ws + 1) <= length d)%nat -> p = 4 * Z.of_nat (length ws) ->
  write_be32 (written ws d) p v = Some (written (ws ++ [v]) d).
Proof.
  intros H ->. destruct (written_split ws d 1 H) as (m & Hm & ->).
  replace (4 * Z.of_nat (length ws)) with (Z.of_nat (length (be32s ws)))
    by (rewrite length_be32s; lia).
  rewrite write_be32_at by lia. unfold written.
  rewrite be32s_app, length_app, <- app_assoc. done.
Qed.

Lemma write_again ws w us d p v :
  p = 4 * Z.of_nat (length ws) ->
  write_be32 (written (ws ++ w :: us) d) p v = Some (written (ws ++ v :: us) d).
Proof.
  intros ->. unfold written. rewrite !length_app, !be32s_app. cbn [length].
  change (be32s (w :: us)) with (be32 w ++ be32s us).
  change (be32s (v :: us)) with (be32 v ++ be32s us). rewrite <- !app_assoc.
  replace (4 * Z.of_nat (length ws)) with (Z.of_nat (length (be32s ws)))
    by (rewrite length_be32s; lia).
  by rewrite write_be32_at by done.
Qed.

Lemma long_app_l ws us j : (j < length ws)%nat -> long (ws ++ us) j = long ws j.
Proof. intros H. unfold long. by rewrite lookup_app_l. Qed.

Lemma long_app_r ws us j : long (ws ++ us) (length ws + j) = long us j.
Proof. unfold long. rewrite lookup_app_r by lia. do 2 f_equal. lia. Qed.

Lemma read_written ws d j :
  Forall (in_width 32) ws -> (j < length ws)%nat ->
  read_be32 (written ws d) (4 * Z.of_nat j) = long ws j.
Proof.
  intros Hws Hj. unfold written. rewrite read_be32s by (assumption || lia). by rewrite Nat2Z.id.
Qed.

(** The sector written after the longwords [ws]. *)
Lemma sector_written ws d sd track sector spt p buf :
  (4 * (length ws + 272) <= length d)%nat -> p = 4 * Z.of_nat (length ws) ->
  sector_longs sd track sector spt = Some buf -> length buf = 272%nat ->
  floppy_mfm_encode_sector (Some (written ws d)) p AMIGA_MFM_SECTOR_SIZE (Some sd) track sector spt =
  Some (Some (written (ws ++ buf) d), true).
Proof.
  intros H -> E Hl. unfold floppy_mfm_encode_sector. cbn [Z.ltb]. rewrite E.
  cbn [mbind option_bind]. change (AMIGA_MFM_SECTOR_SIZE <? AMIGA_MFM_SECTOR_SIZE) with false.
  destruct (written_split ws d 272 H) as (m & Hm & ->). rewrite <- Hl.
  rewrite (loop_write_be32 buf (be32s ws) m _ (4 * Z.of_nat (length ws))).
  - unfold written. by rewrite be32s_app, length_app, <- app_assoc.
  - lia.
  - rewrite length_be32s. lia.
  - intros j b _. f_equal. lia.
Qed.

(** ** What a track holds *)

Definition prev_long (ws : list Z) (j : nat) : Z :=
  match j with O => 0 | S i => long ws i end.

(** The read of the longword just written, as the encoder does it. *)
Lemma read_last ws d :
  Forall (in_width 32) ws ->
  (if 4 <=? 4 * Z.of_nat (length ws)
   then read_be32 (written ws d) (4 * Z.of_nat (length ws) - 4) else 0) = prev_long ws (length ws).
Proof.
  intros Hu. destruct (Z.leb_spec 4 (4 * Z.of_nat (length ws))) as [H4|H4].
  - replace (4 * Z.of_nat (length ws) - 4) with (4 * Z.of_nat (Nat.pred (length ws))) by lia.
    rewrite read_written by (exact Hu || lia). destruct (length ws); [lia|reflexivity].
  - replace (length ws) with 0%nat by lia. reflexivity.
Qed.

(** Longword [o] of [ws] starts the sector of the data [sd]. *)
Record sector_at (ws : list Z) (o : nat) (sd : list Z) (info : Z) : Prop := {
  sector_gap : long ws o .& MFM_MASK = 0 /\ clocked (prev_long ws o) (long ws o);
  sector_sync : long ws (o + 1) = 0x44894489;
  sector_body j : (2 <= j < 272)%nat ->
    long ws (o + j) .& MFM_MASK = sector_word sd info j /\
    clocked (prev_long ws (o + j)) (long ws (o + j));
}.

Lemma prev_long_app_l ws us j : (j <= length ws)%nat -> prev_long (ws ++ us) j = prev_long ws j.
Proof. destruct j; [done|]. intros H. by apply long_app_l. Qed.

Lemma sector_at_app ws us o sd info :
  (o + 272 <= length ws)%nat -> sector_at ws o sd info -> sector_at (ws ++ us) o sd info.
Proof.
  intros Hl [Hg Hs Hb]. split.
  - by rewrite long_app_l, prev_long_app_l by lia.
  - by rewrite long_app_l by lia.
  - intros j Hj. rewrite long_app_l, prev_long_app_l by lia. by apply Hb.
Qed.

(** A sector appended to a track, its first longword following the bit before. *)
Lemma sector_at_new ws buf sd track sector spt v :
  sector_longs sd track sector spt = Some buf ->
  v .& MFM_MASK = 0 -> clocked (prev_long ws (length ws)) v ->
  sector_at (ws ++ v :: tail buf) (length ws) sd (sector_info track sector spt).
Proof.
  intros E Hv Hc. destruct (sector_longs_spec sd track sector spt) as (b & E' & Hl & _ & H1 & Hb).
  rewrite E in E'. injection E' as <-.
  assert (Htl : forall j, (0 < j)%nat -> long (ws ++ v :: tail buf) (length ws + j) = long buf j).
  { intros j Hj. rewrite long_app_r. destruct j; [lia|]. destruct buf; done. }
  split.
  - rewrite prev_long_app_l by lia. rewrite <- (Nat.add_0_r (length ws)) at 1 3.
    rewrite long_app_r. exact (conj Hv Hc).
  - rewrite Htl by lia. exact H1.
  - intros j Hj. destruct (Hb j Hj) as (Hd & _ & Hk). rewrite Htl by lia. split; [exact Hd|].
    destruct j as [|j]; [lia|]. rewrite Nat.add_succ_r. cbn [prev_long]. cbn [Nat.pred] in Hk.
    by rewrite Htl by lia.
Qed.

Lemma pre_gap_clocked p :
  let v := if truthy (p .& 1) then 0x2aaaaaaa else 0xaaaaaaaa in
  v .& MFM_MASK = 0 /\ clocked p v /\ is_u32 v.
Proof.
  cbn zeta. rewrite land_1.
  assert (H : forall v q, Z.testbit p 0 = Z.testbit q 0 ->
    v = (v .& MFM_MASK) .| mfm_clock q (v .& MFM_MASK) -> clocked p v).
  { intros v q Hq Hv. unfold clocked. by rewrite (mfm_clock_prev p q) by done. }
  destruct (Z.testbit p 0) eqn:E; cbn; (split; [done|]).
  - split; [by apply (H _ 1)|closed_range].
  - split; [by apply (H _ 0)|closed_range].
Qed.

(** ** The loops of [floppy_mfm_encode_track] *)

Lemma gap_loop d gap :
  4 * Z.of_nat gap <= Z.of_nat (length d) < 2 ^ 32 ->
  loop 0 gap gap_long (d, 0) =
  Some (written (replicate gap 0xaaaaaaaa) d, 4 * Z.of_nat gap).
Proof.
  intros H. set (g i := replicate (Z.to_nat i) 0xaaaaaaaa).
  destruct (loop_inv (fun i s => 0 <= i <= Z.of_nat gap /\ s = (written (g i) d, 4 * i))
    gap_long gap 0 (d, 0)) as ([b p] & E & _ & Hs).
  - split; [lia|]. done.
  - intros i s Hi (_ & ->). unfold gap_long. eexists. split.
    + rewrite write_next by (unfold g; rewrite length_replicate; lia). reflexivity.
    + split; [lia|]. unfold g. replace (Z.to_nat (i + 1)) with (S (Z.to_nat i)) by lia.
      rewrite replicate_S_end. f_equal. rewrite wrap_small by (unfold in_width; lia). lia.
  - rewrite E, Hs, Z.add_0_l. unfold g. by rewrite Nat2Z.id.
Qed.

(** The longwords after the gap and [n] sectors. *)
Record track_holds (td : list Z) (track spt : Z) (gap n : nat) (ws : list Z) : Prop := {
  track_length : length ws = (gap + 272 * n)%nat;
  track_u32 : Forall (in_width 32) ws;
  track_gap j : (j < gap)%nat -> long ws j = 0xaaaaaaaa;
  track_sectors k : (k < n)%nat ->
    sector_at ws (gap + 272 * k) (drop (512 * k) td) (sector_info track (Z.of_nat k) spt);
}.

Lemma Forall_long (P : Z -> Prop) ws :
  (forall j, (j < length ws)%nat -> P (long ws j)) -> Forall P ws.
Proof.
  intros H. apply Forall_lookup_2. intros i x Hx. specialize (H i (lookup_lt_Some _ _ _ Hx)).
  unfold long in H. by rewrite Hx in H.
Qed.

Lemma sector_longs_u32 sd track sector spt buf :
  sector_longs sd track sector spt = Some buf -> length buf = 272%nat /\ Forall (in_width 32) buf.
Proof.
  intros E. destruct (sector_longs_spec sd track sector spt) as (b & E' & Hl & H0 & H1 & Hb).
  rewrite E in E'. injection E' as <-. split; [done|]. apply Forall_long. intros j Hj.
  destruct (decide (j = 0)%nat) as [->|]; [rewrite H0; closed_range|].
  destruct (decide (j = 1)%nat) as [->|]; [rewrite H1; closed_range|]. apply Hb. lia.
Qed.

Lemma track_sector_step td track spt gap n ws d :
  track_holds td track spt gap n ws ->
  4 * (Z.of_nat (length ws) + 272) <= Z.of_nat (length d) < 2 ^ 32 ->
  exists ws', track_sector td track spt (Z.of_nat n) (written ws d, 4 * Z.of_nat (length ws)) =
    Some (written ws' d, 4 * Z.of_nat (length ws')) /\ track_holds td track spt gap (S n) ws'.
Proof.
  intros [Hl Hu Hg Hs] Hd.
  set (sd := drop (512 * n) td).
  destruct (sector_longs_spec sd track (Z.of_nat n) spt) as (buf & E & _).
  destruct (sector_longs_u32 _ _ _ _ _ E) as [Hb Hbu].
  destruct (pre_gap_clocked (prev_long ws (length ws))) as (Hv0 & Hvc & Hv32).
  remember (if truthy (prev_long ws (length ws) .& 1) then 0x2aaaaaaa else 0xaaaaaaaa) as v eqn:Hv.
  assert (Hprev : (if 4 <=? 4 * Z.of_nat (length ws)
      then read_be32 (written ws d) (4 * Z.of_nat (length ws) - 4) .& 1 else 0) =
      prev_long ws (length ws) .& 1).
  { rewrite <- (read_last ws d Hu). by destruct (4 <=? _). }
  assert (Hl' : length (ws ++ v :: tail buf) = (gap + 272 * S n)%nat).
  { rewrite length_app, Hl. destruct buf; [discriminate Hb|]. cbn [length tail] in *. lia. }
  exists (ws ++ v :: tail buf). split.
  - unfold track_sector. rewrite Hprev, <- Hv.
    replace (drop (Z.to_nat (Z.of_nat n * AMIGA_SECTOR_SIZE)) td) with sd
      by (unfold sd, AMIGA_SECTOR_SIZE; f_equal; lia).
    rewrite (sector_written ws d sd _ _ _ _ buf) by (exact E || exact Hb || lia). cbn [mbind option_bind default].
    replace (u32 (4 * Z.of_nat (length ws) + AMIGA_MFM_SECTOR_SIZE))
      with (4 * Z.of_nat (length (ws ++ v :: tail buf)))
      by (unfold AMIGA_MFM_SECTOR_SIZE; rewrite wrap_small by (unfold in_width; lia); lia).
    destruct buf as [|x buf]; [discriminate Hb|]. cbn [tail id].
    rewrite (write_again ws x buf d _ v) by lia. reflexivity.
  - split; [exact Hl'| | |].
    + apply Forall_app. split; [exact Hu|]. apply Forall_cons. split; [exact Hv32|].
      destruct buf; [discriminate Hb|]. apply Forall_cons in Hbu as [_ Hbu]. exact Hbu.
    + intros j Hj. rewrite long_app_l by lia. by apply Hg.
    + intros k Hk. destruct (decide (k = n)) as [->|].
      * rewrite <- Hl. by apply sector_at_new.
      * apply sector_at_app; [lia|]. apply Hs. lia.
Qed.

(** ** The whole track *)

(** The longwords of the leading gap. *)
Definition gap_longs (size data : Z) : nat :=
  Z.to_nat (if 1 <? (size - data) / 4 then (size - data) / 4 - 1 else 0).

Lemma gap_fits size data :
  0 <= data <= size ->
  4 * Z.of_nat (gap_longs size data) + data <= size /\
  (data + 4 <= size -> 4 * Z.of_nat (gap_longs size data) + data + 4 <= size) /\
  (0 < Z.of_nat (gap_longs size data) -> data + 4 <= size).
Proof.
  intros H. unfold gap_longs. destruct (Z.ltb_spec 1 ((size - data) / 4)); (split; [|split]); Z.to_euclidean_division_equations; lia.
Qed.

Lemma sectors_loop td track spt gap n ws d :
  track_holds td track spt gap 0 ws ->
  4 * Z.of_nat (gap + 272 * n) <= Z.of_nat (length d) < 2 ^ 32 ->
  exists ws', loop 0 n (track_sector td track spt) (written ws d, 4 * Z.of_nat gap) =
    Some (written ws' d, 4 * Z.of_nat (length ws')) /\ track_holds td track spt gap n ws'.
Proof.
  intros H0 Hd.
  destruct (loop_inv (fun i s => 0 <= i /\ exists ws', s = (written ws' d, 4 * Z.of_nat (length ws')) /\
      track_holds td track spt gap (Z.to_nat i) ws') (track_sector td track spt) n 0
      (written ws d, 4 * Z.of_nat gap)) as (s & E & _ & ws' & -> & H').
  - split; [lia|]. exists ws. rewrite (track_length _ _ _ _ _ _ H0), Nat.mul_0_r, Nat.add_0_r.
    split; [reflexivity|exact H0].
  - intros j s Hj (_ & ws' & -> & H'). pose proof (track_length _ _ _ _ _ _ H') as Hl.
    destruct (track_sector_step td track spt gap (Z.to_nat j) ws' d H') as (ws2 & E & H2); [lia|].
    rewrite Z2Nat.id in E by lia. eexists. split; [exact E|]. split; [lia|].
    exists ws2. split; [reflexivity|]. by replace (Z.to_nat (j + 1)) with (S (Z.to_nat j)) by lia.
  - exists ws'. rewrite Z.add_0_l, Nat2Z.id in H'. split; [exact E|exact H'].
Qed.

(** The longword after the last sector. *)
Definition tail_long (ws : list Z) : Z := 0 .| mfm_clock (prev_long ws (length ws)) 0.

Lemma tail_long_spec ws : clocked (prev_long ws (length ws)) (tail_long ws) /\ is_u32 (tail_long ws).
Proof.
  split; [by apply coded_clocked|]. apply in_width_lor; [lia|closed_range|apply mfm_clock_u32].
Qed.

(** A successful call: the longwords of the track at the front of the buffer. *)
Lemma track_written d td track spt :
  let data := spt * AMIGA_MFM_SECTOR_SIZE in
  let size := Z.of_nat (length d) in
  let gap := gap_longs size data in
  0 <= spt -> data <= size < 2 ^ 32 - 4 ->
  exists ws tl, floppy_mfm_encode_track (Some d) size (Some td) track spt =
    Some (Some (written (ws ++ tl) d), true) /\
    track_holds td track spt gap (Z.to_nat spt) ws /\
    tl = (if data + 4 <=? size then [tail_long ws] else []).
Proof.
  intros data size gap Hspt Hd.
  destruct (gap_fits size data) as (Hg1 & Hg2 & Hg3); [split; [unfold data, AMIGA_MFM_SECTOR_SIZE; lia|exact (proj1 Hd)]|].
  fold gap in Hg1, Hg2, Hg3.
  assert (Hn : 4 * Z.of_nat (gap + 272 * Z.to_nat spt) = 4 * Z.of_nat gap + data)
    by (unfold data, AMIGA_MFM_SECTOR_SIZE; lia).
  destruct (sectors_loop td track spt gap (Z.to_nat spt) (replicate gap 0xaaaaaaaa) d)
    as (ws & E & H); [|lia|].
  { split; [rewrite length_replicate; lia| | |lia].
    - apply Forall_replicate. closed_range.
    - intros j Hj. unfold long. by rewrite lookup_replicate_2. }
  pose proof (track_length _ _ _ _ _ _ H) as Hl.
  exists ws, (if data + 4 <=? size then [tail_long ws] else []). split; [|split; [exact H|done]].
  unfold floppy_mfm_encode_track. fold data.
  rewrite (wrap_small 32 data) by (unfold in_width, data, AMIGA_MFM_SECTOR_SIZE in *; lia).
  rewrite (proj2 (Z.ltb_ge size data)) by lia.
  assert (Eg : Z.to_nat (if 1 <? (if data <? size then u32 (size - data) else 0) / 4
     then (if data <? size then u32 (size - data) else 0) / 4 - 1 else 0) = gap).
  { unfold gap, gap_longs. destruct (Z.ltb_spec data size).
    - rewrite wrap_small by (unfold in_width, data, AMIGA_MFM_SECTOR_SIZE in *; lia). done.
    - replace (size - data) with 0 by lia. done. }
  rewrite Eg, gap_loop by lia. cbn [mbind option_bind]. rewrite E. cbn [mbind option_bind].
  rewrite !wrap_small by (unfold in_width; lia).
  replace (4 * Z.of_nat (length ws) + 4 <=? size) with (data + 4 <=? size)
    by (apply Bool.eq_iff_eq_true; rewrite !Z.leb_le; lia).
  destruct (Z.leb_spec (data + 4) size); [|by rewrite app_nil_r].
  rewrite (read_last ws d (track_u32 _ _ _ _ _ _ H)), (write_next ws d) by lia. reflexivity.
Qed.

(** Every longword of a track but the sync marks obeys the clock rule. *)
Lemma track_clocked td track spt gap n ws j :
  track_holds td track spt gap n ws -> (j < length ws)%nat ->
  (forall k, (k < n)%nat -> j <> (gap + 272 * k + 1)%nat) ->
  clocked (prev_long ws j) (long ws j).
Proof.
  intros [Hl Hu Hg Hs] Hj Hn. destruct (decide (j < gap)%nat) as [Hlt|Hge].
  - rewrite Hg by lia. destruct j as [|j]; [reflexivity|].
    cbn [prev_long]. rewrite Hg by lia. reflexivity.
  - set (k := ((j - gap) / 272)%nat). set (i := ((j - gap) mod 272)%nat).
    pose proof (Nat.div_mod_eq (j - gap) 272) as E. fold k i in E.
    assert (Hi : (i < 272)%nat) by (apply Nat.mod_upper_bound; lia).
    assert (Hk : (k < n)%nat) by lia.
    destruct (Hs k Hk) as [[_ Hgap] _ Hb].
    destruct (decide (i = 0)%nat) as [Hi0|]; [by replace j with (gap + 272 * k)%nat by lia|].
    destruct (decide (i = 1)%nat) as [Hi1|]; [destruct (Hn k Hk); lia|].
    replace j with (gap + 272 * k + i)%nat by lia. apply Hb. lia.
Qed.

(** ** The bit stream *)

(** Bit [k] of the stream the buffer holds, the first bit being bit 7 of byte 0. *)
Definition stream_bit (d : list Z) (k : Z) : bool := Z.testbit (rd8 d (k / 8)) (7 - k mod 8).

Lemma rd8_be32s ws r j b :
  (j < length ws)%nat -> 0 <= b < 4 ->
  rd8 (be32s ws ++ r) (4 * Z.of_nat j + b) = u8 ((long ws j .>> (24 - 8 * b)) .& 0xff).
Proof.
  revert j. induction ws as [|w ws IH]; intros j Hj Hb; [cbn in Hj; lia|].
  change (be32s (w :: ws)) with (be32 w ++ be32s ws). rewrite <- app_assoc.
  destruct j as [|j].
  - unfold rd8, long. cbn. cases_below b 4; reflexivity.
  - replace (4 * Z.of_nat (S j) + b) with (Z.of_nat (length (be32 w)) + (4 * Z.of_nat j + b))
      by (cbn -[Z.mul]; lia).
    rewrite rd8_app_r by lia. rewrite IH by (cbn in Hj; lia). reflexivity.
Qed.

Lemma stream_bit_written ws d k :
  0 <= k < 32 * Z.of_nat (length ws) ->
  stream_bit (written ws d) k = Z.testbit (long ws (Z.to_nat (k / 32))) (31 - k mod 32).
Proof.
  intros Hk. unfold stream_bit, written.
  assert (0 <= k / 32 < Z.of_nat (length ws)) as Hq
    by (split; [apply Z.div_pos|apply Z.div_lt_upper_bound]; lia).
  assert (0 <= (k / 8) mod 4 < 4) as Hm by (apply Z.mod_pos_bound; lia).
  replace (k / 8) with (4 * Z.of_nat (Z.to_nat (k / 32)) + (k / 8) mod 4)
    by (pose proof (Z.div_mod (k / 8) 4); pose proof (Z.div_div k 8 4) as E;
        change (8 * 4) with 32 in E; lia).
  rewrite rd8_be32s by lia.
  assert (0 <= k mod 8 < 8) as H8 by (apply Z.mod_pos_bound; lia).
  rewrite testbit_wrap, Z.land_spec, Z.shiftr_spec by lia.
  replace (7 - k mod 8 <? 8) with true by (symmetry; apply Z.ltb_lt; lia).
  replace (Z.testbit 255 (7 - k mod 8)) with true
    by (change 255 with (Z.ones 8); rewrite Z.ones_spec_low by lia; done).
  rewrite andb_true_r, andb_true_l. f_equal.
  change 32 with (8 * 4). rewrite Z.rem_mul_r by lia. lia.
Qed.

Lemma stream_bit_at ws d q i :
  (q < length ws)%nat -> 0 <= i < 32 ->
  stream_bit (written ws d) (32 * Z.of_nat q + i) = Z.testbit (long ws q) (31 - i).
Proof.
  intros Hq Hi. rewrite stream_bit_written by lia.
  rewrite (Z.mul_comm 32), Z.div_add_l, Z.div_small, Z.add_0_r, Nat2Z.id by lia.
  by rewrite Z.add_comm, Z.mod_add, Z.mod_small by lia.
Qed.

(** The clock bits of a longword: bit [2 i + 1] of the word. *)
Lemma clocked_bits p w i :
  is_u32 w -> clocked p w -> 0 <= i < 16 ->
  Z.testbit w (2 * i + 1) =
  negb (if decide (i = 15) then Z.testbit p 0 else Z.testbit w (2 * i + 2)) && negb (Z.testbit w (2 * i)).
Proof.
  intros Hw Hc Hi. unfold clocked in Hc. rewrite Hc at 1. unfold mfm_clock, MFM_MASK. clear Hc.
  cases_below i 16; repeat (rewrite decide_True by done || rewrite decide_False by lia); cbn;
    autorewrite with bits; cbn; literal_bits; cbn; btauto.
Qed.
