(* ===== verification/MfmDecode.v ===== *)
(** * Decoding MFM tracks

    The properties of the track encoder, and the decoder of the repository's
    test ([tests/test_mfm_decode.c], written after the decoder of the
    AmigaOS trackdisk device), which recovers every track the encoder writes. *)

From S2P Require Import Prelude Bytes Mfm MfmSector MfmTrack.

(** ** The decoder *)

(** C: [src/tests/test_mfm_decode.c] [read_be16] *)
Definition decode_read_be16 (p : list Z) (i : Z) : Z := u16 (u16 (rd8 p i .<< 8) .| rd8 p (i + 1)).

(** C: [src/tests/test_mfm_decode.c] [get_mfm_long] *)
Definition get_mfm_long (raw : list Z) (word_index : Z) : Z :=
  read_be32 raw (u32 (word_index * 2)) .& 0x55555555.

(** C: [src/tests/test_mfm_decode.c] [get_decoded_long] *)
Definition get_decoded_long (raw : list Z) (word_index offset_words : Z) : Z :=
  let odd := get_mfm_long raw word_index in
  let even := get_mfm_long raw (u32 (word_index + offset_words)) in
  u32 (odd .<< 1) .| even.

(** The value and the updated checksum.
    C: [src/tests/test_mfm_decode.c] [get_decoded_long_chk] *)
Definition get_decoded_long_chk (raw : list Z) (word_index offset_words checksum : Z) : Z * Z :=
  let odd := get_mfm_long raw word_index in
  let even := get_mfm_long raw (u32 (word_index + offset_words)) in
  (u32 (odd .<< 1) .| even, checksum .^ (odd .^ even)).

(** The scans for the end and the start of the sync marks: [pos] advances while
    it is below [raw_words] and the word there is a mark, or is not one.
    C: [src/tests/test_mfm_decode.c]:59-67 [decode_track] *)
Fixpoint scan_words (mark : bool) (raw : list Z) (raw_words : Z) (fuel : nat) (pos : Z) : Z :=
  match fuel with
  | O => pos
  | S fuel =>
      if (pos <? raw_words) && Bool.eqb (decode_read_be16 raw (pos * 2) =? 0x4489) mark
      then scan_words mark raw raw_words fuel (pos + 1) else pos
  end.

Record DecodeState := mkDecode {
  sector_bits : Z;
  dpos : Z;
  decoded : list Z;
}.

(** One longword of data.
    C: [src/tests/test_mfm_decode.c]:104-113 [decode_track] *)
Definition decode_long (raw : list Z) (track_offset : Z) (i : Z) (s : Z * Z * list Z)
    : option (Z * Z * list Z) :=
  let '(pos, data_checksum, dec) := s in
  let '(value, data_checksum) := get_decoded_long_chk raw pos 256 data_checksum in
  let at_ := track_offset * AMIGA_SECTOR_SIZE + i * 4 in
  dec ← store8 dec at_ (u8 (value .>> 24));
  dec ← store8 dec (at_ + 1) (u8 (value .>> 16));
  dec ← store8 dec (at_ + 2) (u8 (value .>> 8));
  dec ← store8 dec (at_ + 3) (u8 value);
  Some (pos + 2, data_checksum, dec).

(** One longword of the sector label, for the header checksum.
    C: [src/tests/test_mfm_decode.c]:90-93 [decode_track] *)
Definition decode_label (raw : list Z) (_ : Z) (s : Z * Z) : option (Z * Z) :=
  let '(pos, checksum) := s in
  Some (pos + 2, (get_decoded_long_chk raw pos 8 checksum).2).

(** One pass of the loop over the sectors: [inl] is a [return] with the buffer
    as it is then, [inr] the state
    at the end of the pass; [None] is a store outside [decoded].
    C: [src/tests/test_mfm_decode.c]:59-119 [decode_track] *)
Definition decode_sector (raw : list Z) (raw_words : Z) (s : DecodeState)
    : option (Z * list Z + DecodeState) :=
  let pos := dpos s in
  let fuel := Z.to_nat raw_words in
  let pos := if negb (pos =? 0) then scan_words false raw raw_words fuel pos else pos in
  let pos := scan_words true raw raw_words fuel pos in
  if raw_words <=? u32 (pos + 544) then Some (inl (26, decoded s))
  else
    let rawnext := u32 (pos + 544 - 3) in
    let '(id, checksum) := get_decoded_long_chk raw pos 2 0 in
    let pos := pos + 4 in
    let track_offset := (id .>> 8) .& 0xff in
    if negb (id .& 0xff000000 =? 0xff000000) || negb ((id .>> 16) .& 0xff =? 0)
       || (AMIGA_SECTORS_PER_TRACK <=? track_offset)
    then Some (inr (mkDecode (sector_bits s) pos (decoded s)))
    else if has (sector_bits s) (u32 (1 .<< track_offset))
    then Some (inr (mkDecode (sector_bits s) rawnext (decoded s)))
    else
      '(pos, checksum) ← loop 0 4 (decode_label raw) (pos, checksum);
      let pos := pos + 8 in
      if negb (get_decoded_long raw pos 2 =? checksum) then Some (inl (24, decoded s))
      else
        let pos := pos + 4 in
        let data_checksum := get_decoded_long raw pos 2 in
        let pos := pos + 4 in
        '(pos, data_checksum, dec) ←
          loop 0 128 (decode_long raw track_offset) (pos, data_checksum, decoded s);
        if negb (data_checksum =? 0) then Some (inl (25, dec))
        else Some (inr (mkDecode (sector_bits s .| u32 (1 .<< track_offset)) pos dec)).

Fixpoint decode_loop (fuel : nat) (raw : list Z) (raw_words : Z) (s : DecodeState)
    : option (Z * list Z) :=
  match fuel with
  | O => None
  | S fuel =>
      if sector_bits s =? u32 (1 .<< AMIGA_SECTORS_PER_TRACK) - 1 then Some (0, decoded s)
      else
        r ← decode_sector raw raw_words s;
        match r with
        | inl result => Some result
        | inr s => decode_loop fuel raw raw_words s
        end
  end.

(** The code and the decoded buffer.
    C: [src/tests/test_mfm_decode.c] [decode_track] *)
Definition decode_track (fuel : nat) (raw : list Z) (raw_len : Z) (dec : list Z)
    : option (Z * list Z) :=
  decode_loop fuel raw (raw_len / 2) (mkDecode 0 0 dec).

(** ** Reading the longwords of a track *)

Section raw.
Context (W r : list Z) (HW : Forall (in_width 32) W).
Let raw := be32s W ++ r.

Lemma get_mfm_long_at j :
  (j < length W)%nat -> 4 * Z.of_nat (length W) <= 2 ^ 32 ->
  get_mfm_long raw (2 * Z.of_nat j) = long W j .& MFM_MASK.
Proof.
  intros Hj Hl. unfold get_mfm_long. rewrite wrap_small by (unfold in_width; lia).
  replace (2 * Z.of_nat j * 2) with (4 * Z.of_nat j) by lia. unfold raw.
  rewrite read_be32s by (assumption || lia). by rewrite Nat2Z.id.
Qed.

Lemma decoded_at j k c :
  (j + k < length W)%nat -> 4 * Z.of_nat (length W) <= 2 ^ 32 ->
  get_decoded_long_chk raw (2 * Z.of_nat j) (2 * Z.of_nat k) c =
  (u32 ((long W j .& MFM_MASK) .<< 1) .| (long W (j + k) .& MFM_MASK),
   c .^ ((long W j .& MFM_MASK) .^ (long W (j + k) .& MFM_MASK))).
Proof.
  intros Hj Hl. unfold get_decoded_long_chk.
  rewrite (wrap_small _ (_ + _)) by (unfold in_width; lia).
  replace (2 * Z.of_nat j + 2 * Z.of_nat k) with (2 * Z.of_nat (j + k)) by lia.
  by rewrite !get_mfm_long_at by lia.
Qed.

(** The two words of a longword. *)
Lemma long_u32 j : is_u32 (long W j).
Proof.
  unfold long. destruct (W !! j) eqn:E; [|apply in_width_0; lia].
  exact (Forall_lookup_1 _ _ _ _ HW E).
Qed.

Lemma word_at j h :
  (j < length W)%nat -> 0 <= h < 2 ->
  decode_read_be16 raw ((2 * Z.of_nat j + h) * 2) = u16 (long W j .>> (16 - 16 * h)).
Proof.
  intros Hj Hh. unfold decode_read_be16, raw. pose proof (long_u32 j) as Hv.
  replace ((2 * Z.of_nat j + h) * 2 + 1) with (4 * Z.of_nat j + (2 * h + 1)) by lia.
  replace ((2 * Z.of_nat j + h) * 2) with (4 * Z.of_nat j + 2 * h) by lia.
  rewrite !rd8_be32s by lia. revert Hv. generalize (long W j). intros v Hv.
  cases_below h 2; cbn; bitwise 16.
Qed.

(** A sync mark breaks the clock rule, so a word that obeys it is none. *)
Lemma no_mark p j h :
  (j < length W)%nat -> 0 <= h < 2 -> clocked p (long W j) ->
  (decode_read_be16 raw ((2 * Z.of_nat j + h) * 2) =? 0x4489) = false.
Proof.
  intros Hj Hh Hc. rewrite word_at by done. apply Z.eqb_neq. intros E.
  pose proof (clocked_bits p _ (10 - 8 * h) (long_u32 j) Hc ltac:(lia)) as Hb.
  rewrite decide_False in Hb by lia.
  assert (H : forall i, 0 <= i < 16 ->
    Z.testbit (long W j) (i + (16 - 16 * h)) = Z.testbit 0x4489 i).
  { intros i Hi. rewrite <- E, testbit_wrap, Z.shiftr_spec by lia.
    by rewrite (proj2 (Z.ltb_lt _ _)) by lia. }
  replace (2 * (10 - 8 * h) + 1) with (5 + (16 - 16 * h)) in Hb by lia.
  replace (2 * (10 - 8 * h) + 2) with (6 + (16 - 16 * h)) in Hb by lia.
  replace (2 * (10 - 8 * h)) with (4 + (16 - 16 * h)) in Hb by lia.
  rewrite !H in Hb by lia. discriminate Hb.
Qed.

Lemma mark j h :
  (j < length W)%nat -> 0 <= h < 2 -> long W j = 0x44894489 ->
  (decode_read_be16 raw ((2 * Z.of_nat j + h) * 2) =? 0x4489) = true.
Proof. intros Hj Hh E. rewrite word_at, E by done. cases_below h 2; reflexivity. Qed.
End raw.

(** A scan stops at the first word of the other kind. *)
Lemma scan_run b raw n : forall fuel pos raw_words,
  (n < fuel)%nat ->
  (forall i, 0 <= i < Z.of_nat n -> pos + i < raw_words /\
     (decode_read_be16 raw ((pos + i) * 2) =? 0x4489) = b) ->
  (decode_read_be16 raw ((pos + Z.of_nat n) * 2) =? 0x4489) = negb b ->
  scan_words b raw raw_words fuel pos = pos + Z.of_nat n.
Proof.
  induction n as [|n IH]; intros [|fuel] pos raw_words Hf Hin Hend; try lia; cbn [scan_words].
  - rewrite Z.add_0_r in Hend |- *. rewrite Hend. destruct b, (pos <? raw_words); reflexivity.
  - destruct (Hin 0) as [Hp Hw]; [lia|]. rewrite Z.add_0_r in Hp, Hw.
    rewrite Hw, (proj2 (Z.ltb_lt _ _)), Bool.eqb_reflx by lia. cbn [andb].
    rewrite IH with (raw_words := raw_words); [lia|lia| |].
    + intros i Hi. replace (pos + 1 + i) with (pos + (i + 1)) by lia. apply Hin. lia.
    + by replace (pos + 1 + Z.of_nat n) with (pos + Z.of_nat (S n)) by lia.
Qed.

(** ** Decoding a sector *)

Lemma halves_join v : is_u32 v -> u32 (odd_half v .<< 1) .| even_half v = v.
Proof. intros Hv. unfold odd_half, even_half, MFM_MASK. bitwise 32. Qed.

Lemma u8_byte x : u8 (x .& 0xff) = u8 x.
Proof. bitwise 8. Qed.

(** The bytes of the first [n] longwords of the data. *)
Definition sector_raws (sd : list Z) (n : nat) : list Z :=
  map (fun i => read_be32 sd (Z.of_nat i * 4)) (seq 0 n).

Lemma sector_raws_S sd n : sector_raws sd (S n) = sector_raws sd n ++ [read_be32 sd (Z.of_nat n * 4)].
Proof. unfold sector_raws. by rewrite seq_S, map_app. Qed.

Lemma length_sector_raws sd n : length (sector_raws sd n) = n.
Proof. unfold sector_raws. by rewrite length_map, length_seq. Qed.

Lemma be32s_read sd n :
  bytes sd -> (4 * n <= length sd)%nat -> be32s (sector_raws sd n) = take (4 * n) sd.
Proof.
  intros Hb. induction n as [|n IH]; intros Hl; [by rewrite Nat.mul_0_r|].
  rewrite sector_raws_S, be32s_app, IH by lia.
  replace (4 * S n)%nat with (4 * n + 4)%nat by lia. rewrite <- take_take_drop. f_equal.
  unfold be32s. cbn [fmap list_fmap concat]. rewrite app_nil_r.
  replace (Z.of_nat n * 4) with (Z.of_nat (4 * n) + 0) by lia.
  rewrite <- read_be32_drop by lia.
  assert (Hd : bytes (drop (4 * n) sd)) by (apply Forall_drop, Hb).
  assert (Hdl : (4 <= length (drop (4 * n) sd))%nat) by (rewrite length_drop; lia).
  destruct (drop (4 * n) sd) as [|b3 [|b2 [|b1 [|b0 rest]]]]; cbn in Hdl; try lia.
  unfold bytes in Hd. rewrite !Forall_cons in Hd. destruct Hd as (? & ? & ? & ? & _).
  by apply be32_of_bytes.
Qed.

Lemma write_at l ws d p v :
  (4 * (length ws + 1) <= length d)%nat -> p = Z.of_nat (length l) + 4 * Z.of_nat (length ws) ->
  write_be32 (l ++ written ws d) p v = Some (l ++ written (ws ++ [v]) d).
Proof.
  intros H ->. destruct (written_split ws d 1 H) as (m & Hm & ->). rewrite app_assoc.
  replace (Z.of_nat (length l) + 4 * Z.of_nat (length ws)) with (Z.of_nat (length (l ++ be32s ws)))
    by (rewrite length_app, length_be32s; lia).
  rewrite write_be32_at by lia. unfold written.
  by rewrite be32s_app, length_app, <- !app_assoc.
Qed.

Section sector.
Context (W r : list Z) (HW : Forall (in_width 32) W).
Context (Hlen : 4 * Z.of_nat (length W) <= 2 ^ 32).
Context (o : nat) (sd : list Z) (info : Z) (Hat : sector_at W o sd info).
Context (Hin : (o + 272 <= length W)%nat).
Let raw := be32s W ++ r.

Lemma sector_chk j k c :
  (2 <= j)%nat -> (j + k < 272)%nat ->
  get_decoded_long_chk raw (2 * Z.of_nat (o + j)) (2 * Z.of_nat k) c =
  (u32 (sector_word sd info j .<< 1) .| sector_word sd info (j + k),
   c .^ (sector_word sd info j .^ sector_word sd info (j + k))).
Proof.
  intros Hj Hk. unfold raw. rewrite decoded_at by (assumption || lia).
  rewrite <- Nat.add_assoc.
  destruct (sector_body _ _ _ _ Hat j) as [-> _]; [lia|].
  destruct (sector_body _ _ _ _ Hat (j + k)) as [-> _]; [lia|]. reflexivity.
Qed.

Lemma sector_long j k :
  (2 <= j)%nat -> (j + k < 272)%nat ->
  get_decoded_long raw (2 * Z.of_nat (o + j)) (2 * Z.of_nat k) =
  u32 (sector_word sd info j .<< 1) .| sector_word sd info (j + k).
Proof. intros Hj Hk. exact (f_equal fst (sector_chk j k 0 Hj Hk)). Qed.

Lemma label_loop c :
  loop 0 4 (decode_label raw) (2 * Z.of_nat (o + 4), c) = Some (2 * Z.of_nat (o + 8), c).
Proof.
  destruct (loop_inv (fun i s => 0 <= i /\ s = (2 * Z.of_nat (o + 4) + 2 * i, c)) (decode_label raw)
    4 0 (2 * Z.of_nat (o + 4), c)) as (s & E & _ & ->).
  - split; [lia|]. f_equal. lia.
  - intros i s Hi (_ & ->). eexists. split; [reflexivity|]. split; [lia|].
    replace (2 * Z.of_nat (o + 4) + 2 * i) with (2 * Z.of_nat (o + (4 + Z.to_nat i))) by lia.
    change 8 with (2 * Z.of_nat 4). rewrite sector_chk by lia. cbn [snd].
    unfold sector_word. repeat (destruct (decide _); try lia). rewrite Z.lxor_0_r.
    f_equal. lia.
  - rewrite E. do 2 f_equal. lia.
Qed.

Lemma data_loop_decodes l d k :
  bytes sd -> length l = (512 * k)%nat -> (512 <= length d)%nat ->
  loop 0 128 (decode_long raw (Z.of_nat k)) (2 * Z.of_nat (o + 16), data_sum sd 128, l ++ d) =
  Some (2 * Z.of_nat (o + 144), 0, l ++ written (sector_raws sd 128) d).
Proof.
  intros Hb Hl Hd.
  destruct (loop_inv (fun i s => 0 <= i /\ s = (2 * Z.of_nat (o + 16) + 2 * i,
      data_sum sd 128 .^ data_sum sd (Z.to_nat i), l ++ written (sector_raws sd (Z.to_nat i)) d))
    (decode_long raw (Z.of_nat k)) 128 0 (2 * Z.of_nat (o + 16), data_sum sd 128, l ++ d))
    as (s & E & _ & ->).
  - split; [lia|]. unfold written. cbn [data_sum Z.to_nat]. rewrite Z.lxor_0_r. do 2 f_equal. lia.
  - intros i s Hi (_ & ->). unfold decode_long.
    replace (2 * Z.of_nat (o + 16) + 2 * i) with (2 * Z.of_nat (o + (16 + Z.to_nat i))) by lia.
    change 256 with (2 * Z.of_nat 128). rewrite sector_chk by lia.
    assert (Ew : forall j, (j = 16 + Z.to_nat i)%nat ->
       sector_word sd info j = odd_half (read_be32 sd (i * 4)) /\
       sector_word sd info (j + 128) = even_half (read_be32 sd (i * 4))).
    { intros j ->. unfold sector_word. split; repeat (destruct (decide _); try lia);
        do 2 f_equal; lia. }
    destruct (Ew _ eq_refl) as [-> ->]. rewrite halves_join by (by apply read_be32_u32).
    pose proof (write_at l (sector_raws sd (Z.to_nat i)) d
      (Z.of_nat k * AMIGA_SECTOR_SIZE + i * 4) (read_be32 sd (i * 4))) as Hw.
    rewrite length_sector_raws in Hw. unfold AMIGA_SECTOR_SIZE in *.
    specialize (Hw ltac:(lia) ltac:(lia)). unfold write_be32 in Hw. rewrite !u8_byte in Hw.
    eexists. split; [|split; [lia|reflexivity]].
    replace (Z.to_nat (i + 1)) with (S (Z.to_nat i)) by lia. rewrite sector_raws_S.
    rewrite Z2Nat.id by lia.
    cbn [data_sum]. rewrite Z2Nat.id by lia. rewrite <- !Z.lxor_assoc.
    destruct (store8 (l ++ _) _ _) as [q0|]; [|discriminate Hw]. cbn [mbind option_bind] in Hw |- *.
    destruct (store8 q0 _ _) as [q1|]; [|discriminate Hw]. cbn [mbind option_bind] in Hw |- *.
    destruct (store8 q1 _ _) as [q2|]; [|discriminate Hw]. cbn [mbind option_bind] in Hw |- *.
    rewrite Hw. cbn [mbind option_bind]. do 3 f_equal. lia.
  - rewrite E. change (Z.to_nat (0 + Z.of_nat 128)) with 128%nat.
    rewrite Z.lxor_nilpotent. do 3 f_equal. lia.
Qed.
End sector.

(** ** Decoding the track *)

Section track.
Context (W r : list Z) (HW : Forall (in_width 32) W).
Context (Hlen : 4 * Z.of_nat (length W) <= 2 ^ 32) (raw_words : Z).
Let raw := be32s W ++ r.

(** The scans find the sector at [o] from any longword before it, when the
    longwords between obey the clock rule. *)
Lemma scan_to_sector a o sd info :
  sector_at W o sd info -> (a <= o)%nat -> (o + 272 <= length W)%nat ->
  2 * Z.of_nat (o + 2) < raw_words ->
  (forall j, (a <= j < o)%nat -> clocked (prev_long W j) (long W j)) ->
  scan_words true raw raw_words (Z.to_nat raw_words)
    (scan_words false raw raw_words (Z.to_nat raw_words) (2 * Z.of_nat a)) = 2 * Z.of_nat (o + 2).
Proof.
  intros Hat Hao Ho Hrw Hgap.
  assert (Hm : forall h, 0 <= h < 2 ->
    (decode_read_be16 raw ((2 * Z.of_nat (o + 1) + h) * 2) =? 0x4489) = true).
  { intros h Hh. apply mark; [done|lia|done|]. apply (sector_sync _ _ _ _ Hat). }
  rewrite (scan_run false raw (2 * (o + 1 - a))); [|lia| |].
  - replace (2 * Z.of_nat a + Z.of_nat (2 * (o + 1 - a))) with (2 * Z.of_nat (o + 1)) by lia.
    rewrite (scan_run true raw 2); [lia|lia| |].
    + intros i Hi. split; [lia|]. apply Hm. lia.
    + replace (2 * Z.of_nat (o + 1) + Z.of_nat 2) with (2 * Z.of_nat (o + 2) + 0) by lia.
      apply (no_mark W r HW (prev_long W (o + 2))); [lia|lia|].
      apply (sector_body _ _ _ _ Hat 2). lia.
  - intros i Hi. split; [lia|].
    assert (0 <= i / 2 <= Z.of_nat (o - a)) as Hi2.
    { split; [apply Z.div_pos; lia|]. apply Z.lt_succ_r, Z.div_lt_upper_bound; lia. }
    replace (2 * Z.of_nat a + i) with (2 * Z.of_nat (a + Z.to_nat (i / 2)) + i mod 2)
      by (pose proof (Z.div_mod i 2); lia).
    apply (no_mark W r HW (prev_long W (a + Z.to_nat (i / 2))));
      [lia|apply Z.mod_pos_bound; lia|].
    destruct (decide (a + Z.to_nat (i / 2) = o)%nat) as [->|];
      [apply (sector_gap _ _ _ _ Hat)|apply Hgap; lia].
  - replace (2 * Z.of_nat a + Z.of_nat (2 * (o + 1 - a))) with (2 * Z.of_nat (o + 1) + 0) by lia.
    apply Hm. lia.
Qed.

(** What the decoder checks of the header of sector [k] of track 0. *)
Definition header_ok (k : Z) : bool :=
  let info := sector_info 0 k AMIGA_SECTORS_PER_TRACK in
  (info .& 0xff000000 =? 0xff000000) && ((info .>> 16) .& 0xff =? 0) &&
  ((info .>> 8) .& 0xff =? k) && (0 <=? info) && (info <? 2 ^ 32).

Lemma header_facts k :
  (k < 11)%nat -> header_ok (Z.of_nat k) = true.
Proof.
  intros Hk. assert (H : forallb header_ok (seqZ 0 11) = true) by reflexivity.
  rewrite forallb_forall in H. apply H, list_elem_of_In, elem_of_seqZ. lia.
Qed.

Lemma decode_sector_step a o k td d0 bits :
  let sd := drop (512 * k) td in
  sector_at W o sd (sector_info 0 (Z.of_nat k) AMIGA_SECTORS_PER_TRACK) ->
  (k < 11)%nat -> (0 < a <= o)%nat -> (o + 272 <= length W)%nat ->
  2 * Z.of_nat (o + 274) < raw_words < 2 ^ 31 ->
  (forall j, (a <= j < o)%nat -> clocked (prev_long W j) (long W j)) ->
  bytes td -> (512 * 11 <= length td)%nat -> length d0 = (512 * 11)%nat ->
  has bits (u32 (1 .<< Z.of_nat k)) = false ->
  decode_sector raw raw_words
    (mkDecode bits (2 * Z.of_nat a) (take (512 * k) td ++ drop (512 * k) d0)) =
  Some (inr (mkDecode (bits .| u32 (1 .<< Z.of_nat k)) (2 * Z.of_nat (o + 144))
    (take (512 * S k) td ++ drop (512 * S k) d0))).
Proof.
  intros sd Hat Hk Ha Ho Hrw Hgap Htd Hltd Hld Hbit.
  pose proof (header_facts k Hk) as Hh. unfold header_ok in Hh. cbn zeta in Hh.
  remember (sector_info 0 (Z.of_nat k) AMIGA_SECTORS_PER_TRACK) as info eqn:Einfo. clear Einfo.
  rewrite !andb_true_iff, !Z.eqb_eq, Z.leb_le, Z.ltb_lt in Hh.
  destruct Hh as ((((Hff & Htr) & Hsec) & Hi0) & Hi1).
  unfold decode_sector. cbn [dpos sector_bits decoded].
  replace (2 * Z.of_nat a =? 0) with false by (symmetry; apply Z.eqb_neq; lia). cbn [negb].
  rewrite (scan_to_sector a o sd info) by (assumption || lia).
  rewrite wrap_small by (unfold in_width; lia).
  rewrite (proj2 (Z.leb_gt _ _)) by lia.
  destruct (get_decoded_long_chk raw (2 * Z.of_nat (o + 2)) 2 0) as [id c0] eqn:Eid.
  change 2 with (2 * Z.of_nat 1) in Eid at 2. unfold raw in Eid.
  rewrite (sector_chk W r HW Hlen o sd info Hat Ho 2 1) in Eid by lia.
  change (sector_word sd info 2) with (odd_half info) in Eid.
  change (sector_word sd info (2 + 1)) with (even_half info) in Eid.
  rewrite halves_join in Eid by (unfold in_width; lia). injection Eid as <- <-.
  rewrite Z.lxor_0_l, Hff, Htr, Hsec. unfold AMIGA_SECTORS_PER_TRACK.
  rewrite (proj2 (Z.leb_gt _ _)) by lia. rewrite !Z.eqb_refl, Hbit. cbn [negb orb].
  replace (2 * Z.of_nat (o + 2) + 4) with (2 * Z.of_nat (o + 4)) by lia.
  unfold raw. rewrite (label_loop W r HW Hlen o sd info Hat Ho). cbn [mbind option_bind].
  replace (2 * Z.of_nat (o + 8) + 8) with (2 * Z.of_nat (o + 12)) by lia.
  pose proof (fun j => sector_long W r HW Hlen o sd info Hat Ho j 1) as Hlong.
  change (2 * Z.of_nat 1) with 2 in Hlong. rewrite (Hlong 12%nat) by lia.
  change (u32 (sector_word sd info 12 .<< 1) .| sector_word sd info (12 + 1)) with (header_sum info).
  unfold header_sum at 1. rewrite Z.eqb_refl. cbn [negb].
  replace (2 * Z.of_nat (o + 12) + 4) with (2 * Z.of_nat (o + 14)) by lia.
  rewrite (Hlong 14%nat) by lia.
  change (u32 (sector_word sd info 14 .<< 1) .| sector_word sd info (14 + 1)) with (data_sum sd 128).
  replace (2 * Z.of_nat (o + 14) + 4) with (2 * Z.of_nat (o + 16)) by lia.
  rewrite (data_loop_decodes W r HW Hlen o sd info Hat Ho);
    [|by apply Forall_drop|rewrite length_take; lia|rewrite length_drop; lia].
  cbn [mbind option_bind Z.eqb negb]. do 3 f_equal. unfold written.
  rewrite be32s_read by (first [by apply Forall_drop | unfold sd; rewrite length_drop; lia]).
  rewrite length_sector_raws, drop_drop. unfold sd. rewrite app_assoc, take_take_drop.
  do 2 f_equal; lia.
Qed.
End track.

(** The sectors found so far. *)
Lemma sector_bits_next k :
  (k < 11)%nat -> has (Z.ones (Z.of_nat k)) (u32 (1 .<< Z.of_nat k)) = false /\
  Z.ones (Z.of_nat k) .| u32 (1 .<< Z.of_nat k) = Z.ones (Z.of_nat (S k)) /\
  (Z.ones (Z.of_nat k) =? u32 (1 .<< AMIGA_SECTORS_PER_TRACK) - 1) = false.
Proof.
  intros Hk. do 11 (destruct k as [|k]; [by split_and!|]). lia.
Qed.

Section loops.
Context (td ws tl r d0 : list Z) (gap : nat) (raw_words : Z).
Context (Htd : bytes td) (Hltd : (512 * 11 <= length td)%nat) (Hld : length d0 = (512 * 11)%nat).
Context (Hws : track_holds td 0 AMIGA_SECTORS_PER_TRACK gap 11 ws) (Htl : Forall (in_width 32) tl).
Context (Hgap : (2 <= gap)%nat).
Let W := ws ++ tl.
Let raw := be32s W ++ r.
Context (Hlen : 4 * Z.of_nat (length W) <= 2 ^ 32).
Context (Hrw : 2 * Z.of_nat (gap + 272 * 11 + 2) < raw_words < 2 ^ 31).

Lemma W_u32 : Forall (in_width 32) W.
Proof. apply Forall_app. split; [exact (track_u32 _ _ _ _ _ _ Hws)|exact Htl]. Qed.

Lemma W_length : (gap + 272 * 11 <= length W)%nat.
Proof. unfold W. rewrite length_app, (track_length _ _ _ _ _ _ Hws). lia. Qed.

Lemma W_sector k :
  (k < 11)%nat ->
  sector_at W (gap + 272 * k) (drop (512 * k) td) (sector_info 0 (Z.of_nat k) AMIGA_SECTORS_PER_TRACK).
Proof.
  intros Hk. apply sector_at_app; [rewrite (track_length _ _ _ _ _ _ Hws); lia|].
  by apply (track_sectors _ _ _ _ _ _ Hws).
Qed.

Lemma W_clocked j :
  (j < gap + 272 * 11)%nat -> (forall k, (k < 11)%nat -> j <> (gap + 272 * k + 1)%nat) ->
  clocked (prev_long W j) (long W j).
Proof.
  intros Hj Hk. unfold W. pose proof (track_length _ _ _ _ _ _ Hws) as Hl.
  rewrite prev_long_app_l, long_app_l by lia.
  apply (track_clocked td 0 AMIGA_SECTORS_PER_TRACK gap 11); [exact Hws|lia|exact Hk].
Qed.

(** From the state with [k] sectors decoded, the loop decodes the others. *)
Lemma decode_from n : forall k a fuel,
  (n = 11 - k)%nat -> (k <= 11)%nat -> (n < fuel)%nat -> (0 < a <= gap + 272 * k)%nat ->
  (0 < k -> gap + 272 * (k - 1) + 1 < a)%nat ->
  decode_loop fuel raw raw_words
    (mkDecode (Z.ones (Z.of_nat k)) (2 * Z.of_nat a) (take (512 * k) td ++ drop (512 * k) d0))
  = Some (0, take (512 * 11) td).
Proof.
  induction n as [|n IH]; intros k a fuel Hn Hk Hf Ha Ha'; (destruct fuel as [|fuel]; [lia|]).
  - replace k with 11%nat by lia. cbn [decode_loop sector_bits decoded].
    change (Z.ones (Z.of_nat 11) =? u32 (1 .<< AMIGA_SECTORS_PER_TRACK) - 1) with true.
    cbv iota. rewrite drop_ge, app_nil_r by lia. reflexivity.
  - destruct (sector_bits_next k) as (Hbit & Hbits & Hne); [lia|].
    cbn [decode_loop sector_bits]. rewrite Hne. pose proof W_length as HWl.
    unfold raw. rewrite (decode_sector_step W r W_u32 Hlen raw_words a (gap + 272 * k) k td d0);
      try assumption; try lia; [|by apply W_sector; lia|].
    + cbn [mbind option_bind]. rewrite Hbits. apply IH; lia.
    + intros j Hj. apply W_clocked; [lia|]. intros i Hi. lia.
Qed.

Lemma decode_whole fuel :
  (12 < fuel)%nat -> decode_loop fuel raw raw_words (mkDecode 0 0 d0) = Some (0, take (512 * 11) td).
Proof.
  intros Hf. destruct fuel as [|fuel]; [lia|]. pose proof W_length as HWl.
  assert (Hg : forall j, (j < gap)%nat -> long W j = 0xaaaaaaaa).
  { intros j Hj. unfold W. rewrite long_app_l by (rewrite (track_length _ _ _ _ _ _ Hws); lia).
    by apply (track_gap _ _ _ _ _ _ Hws). }
  assert (Es : decode_sector raw raw_words (mkDecode 0 0 d0) = Some (inr (mkDecode 0 4 d0))).
  { unfold decode_sector. cbn [dpos sector_bits decoded Z.eqb negb].
    rewrite (scan_run true raw 0); [|lia|lia|].
    - change (0 + Z.of_nat 0) with 0.
      rewrite wrap_small by (unfold in_width; lia). rewrite (proj2 (Z.leb_gt _ _)) by lia.
      pose proof (decoded_at W r W_u32 0 1 0 ltac:(lia) Hlen) as Hid.
      change (2 * Z.of_nat 0) with 0 in Hid. change (2 * Z.of_nat 1) with 2 in Hid.
      unfold raw. rewrite Hid, !Hg by lia. reflexivity.
    - change (0 + Z.of_nat 0) with (2 * Z.of_nat 0 + 0).
      apply (no_mark W r W_u32 (prev_long W 0)); [lia|lia|].
      apply W_clocked; [lia|]. intros i Hi. lia. }
  cbn [decode_loop sector_bits]. rewrite Es. cbn [Z.eqb mbind option_bind].
  change (0 =? u32 (1 .<< AMIGA_SECTORS_PER_TRACK) - 1) with false. cbv iota.
  apply (decode_from 11 0 2); lia.
Qed.
End loops.

Lemma decode_encoded td d d0 extra fuel :
  bytes td -> AMIGA_TRACK_SIZE <= Z.of_nat (length td) ->
  Z.of_nat (length d) = RIGEL_FLOPPY_MFM_TRACK_BYTES_PAL ->
  Z.of_nat (length d0) = AMIGA_TRACK_SIZE ->
  4 <= Z.of_nat (length extra) < 2 ^ 31 -> (12 < fuel)%nat ->
  exists d', floppy_mfm_encode_track (Some d) (Z.of_nat (length d)) (Some td) 0
      AMIGA_SECTORS_PER_TRACK = Some (Some d', true) /\
    length d' = length d /\ (bytes d -> bytes d') /\
    decode_track fuel (d' ++ extra) (Z.of_nat (length (d' ++ extra))) d0 =
      Some (0, take (Z.to_nat AMIGA_TRACK_SIZE) td).
Proof.
  unfold AMIGA_TRACK_SIZE, AMIGA_SECTOR_SIZE, RIGEL_FLOPPY_MFM_TRACK_BYTES_PAL.
  intros Htd Hltd Hd Hld He Hf.
  change (512 * AMIGA_SECTORS_PER_TRACK) with (512 * 11) in Hltd, Hld.
  destruct (track_written d td 0 AMIGA_SECTORS_PER_TRACK) as (ws & tl & E & H & Etl);
    [done|unfold AMIGA_SECTORS_PER_TRACK, AMIGA_MFM_SECTOR_SIZE; lia|].
  rewrite Hd in H, Etl. change (gap_longs _ _) with (Z.to_nat 414) in H.
  change (Z.to_nat AMIGA_SECTORS_PER_TRACK) with 11%nat in H.
  change (_ <=? _) with true in Etl. cbv iota in Etl.
  exists (written (ws ++ tl) d). split; [exact E|].
  pose proof (track_length _ _ _ _ _ _ H) as Hl.
  assert (Hlw : length (ws ++ tl) = (Z.to_nat 414 + 272 * 11 + 1)%nat)
    by (rewrite length_app, Hl, Etl; cbn [length]; lia).
  split; [apply length_written; lia|].
  split; [intros Hbd; apply Forall_app; split; [apply be32s_bytes|by apply Forall_drop]|].
  unfold decode_track. rewrite length_app, length_written by lia.
  unfold written. rewrite <- app_assoc.
  change (Z.to_nat (512 * AMIGA_SECTORS_PER_TRACK)) with (512 * 11)%nat.
  apply (decode_whole td ws tl _ d0 (Z.to_nat 414)); try assumption; try lia.
  - rewrite Etl. apply Forall_singleton, tail_long_spec.
  - split; [|apply Z.div_lt_upper_bound; lia].
    apply Z.le_succ_l, Z.div_le_lower_bound; lia.
Qed.

(** ** Theorems *)


(** The MFM clock rule.  In the bit stream of an encoded track, whatever the
    data, every clock bit (every even position but the first) outside the sync
    marks is set exactly when the two data bits around it are both clear; so
    there the stream never holds two adjacent ones, and the sync marks, which
    break the rule, cannot be mistaken for data. *)
Theorem mfm_clock_rule d td track spt k :
  0 <= spt -> spt * AMIGA_MFM_SECTOR_SIZE <= Z.of_nat (length d) < 2 ^ 32 - 4 ->
  let gap := gap_longs (Z.of_nat (length d)) (spt * AMIGA_MFM_SECTOR_SIZE) in
  0 < k -> k mod 2 = 0 -> k < 32 * (Z.of_nat gap + 272 * spt) ->
  (forall sec, 0 <= sec < spt -> k / 32 <> Z.of_nat gap + 272 * sec + 1) ->
  exists d', floppy_mfm_encode_track (Some d) (Z.of_nat (length d)) (Some td) track spt =
      Some (Some d', true) /\
    stream_bit d' k = negb (stream_bit d' (k - 1)) && negb (stream_bit d' (k + 1)).
Proof.
  intros Hspt Hd gap Hk Hev Hlt Hsync.
  destruct (track_written d td track spt Hspt Hd) as (ws & tl & E & H & Etl). fold gap in H.
  exists (written (ws ++ tl) d). split; [exact E|].
  pose proof (track_length _ _ _ _ _ _ H) as Hl.
  set (q := Z.to_nat (k / 32)). set (i := k mod 32).
  assert (Hi : 0 <= i < 32) by (apply Z.mod_pos_bound; lia).
  assert (Ek : k = 32 * Z.of_nat q + i).
  { unfold q, i. rewrite Z2Nat.id by (apply Z.div_pos; lia). apply Z.div_mod. lia. }
  assert (Eq : k / 32 = Z.of_nat q) by (unfold q; rewrite Z2Nat.id by (apply Z.div_pos; lia); done).
  assert (Ec : exists c, i = 2 * c).
  { exists (k / 2 - 16 * Z.of_nat q). pose proof (Z.div_mod k 2 ltac:(lia)). lia. }
  destruct Ec as [c Ec]. clearbody i q. subst i.
  assert (Hq : (q < length ws)%nat) by lia.
  assert (Hc : clocked (prev_long ws q) (long ws q)).
  { apply (track_clocked td track spt gap (Z.to_nat spt)); [exact H|lia|].
    intros n Hn ->. apply (Hsync (Z.of_nat n)); lia. }
  assert (Hu : is_u32 (long ws q)) by apply (long_u32 ws (track_u32 _ _ _ _ _ _ H)).
  pose proof (clocked_bits _ _ (15 - c) Hu Hc ltac:(lia)) as Hb.
  assert (Hlong : forall j, (j < length ws)%nat -> long (ws ++ tl) j = long ws j)
    by (intros; apply long_app_l; lia).
  assert (Hlen : (length ws <= length (ws ++ tl))%nat) by (rewrite length_app; lia).
  rewrite Ek, <- Z.add_assoc, !stream_bit_at, Hlong by lia.
  replace (31 - 2 * c) with (2 * (15 - c) + 1) by lia.
  replace (31 - (2 * c + 1)) with (2 * (15 - c)) by lia. rewrite Hb. do 2 f_equal.
  destruct (decide (15 - c = 15)) as [E0|E0].
  - destruct q as [|q]; [lia|]. cbn [prev_long].
    replace (32 * Z.of_nat (S q) + 2 * c - 1) with (32 * Z.of_nat q + 31) by lia.
    by rewrite stream_bit_at, Hlong by lia.
  - replace (32 * Z.of_nat q + 2 * c - 1) with (32 * Z.of_nat q + (2 * c - 1)) by lia.
    rewrite stream_bit_at, Hlong by lia. f_equal. lia.
Qed.

(** Errors and bounds of the track encoder.  With a null pointer or a
    destination smaller than the sectors, it answers false and leaves the
    destination as it was; otherwise it answers true, and although the stores
    are computed from the length of the gap, none falls outside the
    destination and the result has the same size. *)
Theorem encode_track_error_and_bounds d td track spt :
  0 <= spt -> spt * AMIGA_MFM_SECTOR_SIZE < 2 ^ 32 -> Z.of_nat (length d) < 2 ^ 32 - 4 ->
  let size := Z.of_nat (length d) in
  floppy_mfm_encode_track None size (Some td) track spt = Some (None, false) /\
  floppy_mfm_encode_track (Some d) size None track spt = Some (Some d, false) /\
  exists d' ok, floppy_mfm_encode_track (Some d) size (Some td) track spt = Some (Some d', ok) /\
    ok = negb (size <? spt * AMIGA_MFM_SECTOR_SIZE) /\
    length d' = length d /\ (ok = false -> d' = d).
Proof.
  intros Hspt Hdata Hsize size. split; [done|]. split; [done|].
  destruct (Z.ltb_spec size (spt * AMIGA_MFM_SECTOR_SIZE)) as [Hlt|Hge].
  - exists d, false. split; [|done]. unfold floppy_mfm_encode_track.
    rewrite wrap_small by (unfold in_width, AMIGA_MFM_SECTOR_SIZE in *; lia).
    by rewrite (proj2 (Z.ltb_lt _ _)) by exact Hlt.
  - destruct (track_written d td track spt Hspt) as (ws & tl & E & H & Etl); [lia|].
    fold size in E, H, Etl. pose proof (track_length _ _ _ _ _ _ H) as Hl.
    destruct (gap_fits size (spt * AMIGA_MFM_SECTOR_SIZE)) as (H1 & H2 & _);
      [unfold AMIGA_MFM_SECTOR_SIZE in *; lia|].
    exists (written (ws ++ tl) d), true. split; [exact E|]. split; [done|]. split; [|done].
    apply length_written. rewrite length_app, Hl, Etl. unfold size, AMIGA_MFM_SECTOR_SIZE in *.
    destruct (Z.leb_spec (spt * 1088 + 4) (Z.of_nat (length d))); cbn [length]; lia.
Qed.

Lemma replicate_bytes n v : is_u8 v -> bytes (replicate n v).
Proof. intros Hv. by apply Forall_replicate. Qed.


Lemma mfm_clock_rule_witness :
  exists d', floppy_mfm_encode_track (Some (replicate 1096 0)) (Z.of_nat 1096)
      (Some (replicate 512 0x5a)) 7 1 = Some (Some d', true) /\
    stream_bit d' 96 = negb (stream_bit d' (96 - 1)) && negb (stream_bit d' (96 + 1)).
Proof.
  apply (mfm_clock_rule (replicate 1096 0) (replicate 512 0x5a) 7 1 96).
  - lia.
  - rewrite length_replicate. vm_compute. split; congruence.
  - lia.
  - reflexivity.
  - rewrite length_replicate. reflexivity.
  - intros sec Hsec. rewrite length_replicate. replace sec with 0 by lia. vm_compute. congruence.
Defined.

Lemma encode_track_error_and_bounds_witness :
  floppy_mfm_encode_track None 1088 (Some [0]) 0 1 = Some (None, false) /\
  floppy_mfm_encode_track (Some (replicate 1088 0)) 1088 None 0 1 =
    Some (Some (replicate 1088 0), false) /\
  exists d' ok, floppy_mfm_encode_track (Some (replicate 1088 0)) 1088 (Some [0]) 0 1 =
      Some (Some d', ok) /\
    ok = negb (1088 <? 1 * AMIGA_MFM_SECTOR_SIZE) /\
    length d' = 1088%nat /\ (ok = false -> d' = replicate 1088 0).
Proof.
  pose proof (encode_track_error_and_bounds (replicate 1088 0) [0] 0 1) as H.
  rewrite length_replicate in H. apply H; reflexivity || lia.
Defined.
