(* ===== verification/Floppy.v ===== *)
(** * Floppy drives: [floppy_drive.c]

    The mechanics of one drive: selection, motor, head, the change latch, the
    identification sequence and the linear reads of the mounted image.  The
    pointer to the image is an [option] of its bytes.  Trace output is left
    out. *)

From S2P Require Import Prelude Bytes.

(** C: [src/src/floppy/floppy_drive.h]:11-11 [FLOPPY_ADF_DD_SIZE] *)
Definition FLOPPY_ADF_DD_SIZE := 901120.
(** C: [src/src/floppy/floppy_drive.h]:15-15 [FLOPPY_ADF_CYLINDERS] *)
Definition FLOPPY_ADF_CYLINDERS := 80.

(** C: [src/src/floppy/floppy_drive.h]:26-33 [FloppySignals] *)
Record FloppySignals := mkSignals {
  sig_selected : Z;
  sig_motor : Z;
  sig_step : Z;
  sig_direction : Z;
  sig_side : Z;
}.

(** C: [src/src/floppy/floppy_drive.h]:46-90 [FloppyDrive] *)
Record FloppyDrive := mkDrive {
  connected : Z;
  selected : Z;
  motor : Z;
  cylinder : Z;
  side : Z;
  ready : Z;
  track0 : Z;
  disk_inserted : Z;
  disk_changed : Z;
  write_protected : Z;
  step_latch : Z;
  id_data : Z;
  id_count : Z;
  adf : option (list Z);
  adf_size : Z;
  read_offset : Z;
}.

#[export] Instance eta_drive : Eta FloppyDrive := fun s =>
  mkDrive (connected s) (selected s) (motor s) (cylinder s) (side s) (ready s)
    (track0 s) (disk_inserted s) (disk_changed s) (write_protected s)
    (step_latch s) (id_data s) (id_count s) (adf s) (adf_size s) (read_offset s).

(** ** Initial states and media *)

(** Every field is assigned, so the result does not depend on the drive before.
    C: [src/src/floppy/floppy_drive.c] [floppy_init] *)
Definition floppy_init : FloppyDrive := {|
  connected := 0; selected := 0; motor := 0; cylinder := 0; side := 0;
  ready := 0; track0 := 1;
  disk_inserted := 0; disk_changed := 1; write_protected := 1;
  step_latch := 1;
  id_data := 0x00000000; id_count := 0;
  adf := None; adf_size := 0; read_offset := 0;
|}.

(** C: [src/src/floppy/floppy_drive.c] [floppy_insert] *)
Definition floppy_insert (adf_ : option (list Z)) (size : Z) (d : FloppyDrive) : FloppyDrive :=
  d <| connected := 1 |> <| adf := adf_ |> <| adf_size := size |>
    <| disk_inserted := b2u (bool_decide (adf_ <> None) && (0 <? size)) |>
    <| disk_changed := 1 |> <| write_protected := 1 |> <| read_offset := 0 |>.

(** C: [src/src/floppy/floppy_drive.c] [floppy_reset] *)
Definition floppy_reset (d : FloppyDrive) : FloppyDrive :=
  let adf_ := adf d in
  let size := adf_size d in
  let conn := connected d in
  let d := floppy_init <| connected := conn |> in
  if bool_decide (adf_ <> None) && negb (size =? 0) then floppy_insert adf_ size d else d.

(** C: [src/src/floppy/floppy_drive.c] [floppy_set_connected] *)
Definition floppy_set_connected (conn : Z) (d : FloppyDrive) : FloppyDrive :=
  let d := d <| connected := if truthy conn then 1 else 0 |> in
  if negb (truthy (connected d)) then d <| motor := 0 |> <| ready := 0 |> else d.

(** C: [src/src/floppy/floppy_drive.c] [floppy_eject] *)
Definition floppy_eject (d : FloppyDrive) : FloppyDrive :=
  d <| adf := None |> <| adf_size := 0 |> <| disk_inserted := 0 |> <| disk_changed := 1 |>
    <| write_protected := 0 |> <| ready := 0 |> <| motor := 0 |> <| read_offset := 0 |>.

(** C: [src/src/floppy/floppy_drive.c] [floppy_has_media] *)
Definition floppy_has_media (d : FloppyDrive) : bool :=
  truthy (connected d) && truthy (disk_inserted d) && bool_decide (adf d <> None) && (0 <? adf_size d).

(** ** The control signals *)

(** C: [src/src/floppy/floppy_drive.c]:181-223 [floppy_step] *)
Definition floppy_step_motor (sig : FloppySignals) (d : FloppyDrive) : FloppyDrive :=
  if truthy (sig_motor sig) then
    if negb (truthy (motor d)) then
      let d := d <| motor := 1 |> in
      let d := d <| ready := if floppy_has_media d then 1 else 0 |> in
      d <| id_count := -1 |>
    else d
  else if truthy (motor d) then d <| motor := 0 |> <| ready := 0 |> else d.

(** C: [src/src/floppy/floppy_drive.c]:235-263 [floppy_step] *)
Definition floppy_step_head (sig : FloppySignals) (d : FloppyDrive) : FloppyDrive :=
  if truthy (sig_step sig) && truthy (step_latch d) then
    let d := d <| step_latch := 0 |> in
    let d :=
      if truthy (sig_direction sig)
      then if 0 <? cylinder d then d <| cylinder := cylinder d - 1 |> else d
      else if cylinder d <? FLOPPY_ADF_CYLINDERS - 1 then d <| cylinder := cylinder d + 1 |> else d in
    d <| disk_changed := if floppy_has_media d then 0 else 1 |>
  else d.

(** C: [src/src/floppy/floppy_drive.c] [floppy_step] *)
Definition floppy_step (sig : FloppySignals) (d : FloppyDrive) : FloppyDrive :=
  if negb (truthy (connected d)) then d <| selected := 0 |> <| motor := 0 |> <| ready := 0 |>
  else if negb (truthy (sig_selected sig)) then
    let d := if truthy (selected d) && (motor d =? 0) then d <| id_count := id_count d + 1 |> else d in
    d <| selected := 0 |>
  else
    let d := d <| selected := 1 |> in
    let d := floppy_step_motor sig d in
    let d := d <| side := if truthy (sig_side sig) then 1 else 0 |> in
    let d := floppy_step_head sig d in
    let d := if negb (truthy (sig_step sig)) then d <| step_latch := 1 |> else d in
    d <| track0 := b2u (cylinder d =? 0) |>.

(** ** Linear reads of the image *)

(** The number of bytes and the bytes stored at the start of [dst].
    C: [src/src/floppy/floppy_drive.c] [floppy_read_linear] *)
Definition floppy_read_linear (dst : bool) (n : Z) (d : FloppyDrive) : Z * list Z * FloppyDrive :=
  if negb (floppy_has_media d) then (0, [], d)
  else if negb dst || (n =? 0) then (0, [], d)
  else if adf_size d <=? read_offset d then (0, [], d)
  else
    let available := adf_size d - read_offset d in
    let to_copy := if n <? available then n else available in
    let data := map (fun i => rd8 (default [] (adf d)) (read_offset d + i)) (seqZ 0 to_copy) in
    (to_copy, data, d <| read_offset := u32 (read_offset d + to_copy) |> <| disk_changed := 0 |>).

(** ** Output lines *)

(** C: [src/src/floppy/floppy_drive.c] [floppy_get_ready] *)
Definition floppy_get_ready (d : FloppyDrive) : Z :=
  if negb (truthy (connected d)) then 0 else ready d.

(** C: [src/src/floppy/floppy_drive.c] [floppy_get_track0] *)
Definition floppy_get_track0 (d : FloppyDrive) : Z :=
  if negb (truthy (connected d)) then 0 else track0 d.

(** C: [src/src/floppy/floppy_drive.c] [floppy_get_dskchg] *)
Definition floppy_get_dskchg (d : FloppyDrive) : Z :=
  if negb (truthy (connected d)) then 1 else if truthy (disk_changed d) then 0 else 1.

(** C: [src/src/floppy/floppy_drive.c] [floppy_get_wpro] *)
Definition floppy_get_wpro (d : FloppyDrive) : Z :=
  if negb (truthy (connected d)) then 1
  else if negb (floppy_has_media d) then 1
  else if truthy (write_protected d) then 0 else 1.

(** C: [src/src/floppy/floppy_drive.c] [floppy_get_idbit] *)
Definition floppy_get_idbit (d : FloppyDrive) : Z :=
  if negb (truthy (connected d)) then 0
  else (id_data d .>> (31 - (u32 (id_count d) .& 31))) .& 1.
