(* ===== verification/FloppyFacts.v ===== *)
(** * Properties of a floppy drive

    The states a drive can reach, what a train of step pulses does to the
    head, the identification sequence, and the linear reads of the image. *)

From S2P Require Import Prelude Bytes Floppy.

(** ** Reachable states *)

(** Everything the rest of the program does to a drive. *)
Inductive drive_event : FloppyDrive -> FloppyDrive -> Prop :=
  | ev_drive_reset d : drive_event d (floppy_reset d)
  | ev_drive_connect d c : drive_event d (floppy_set_connected c d)
  | ev_drive_insert d a n : is_u32 n -> drive_event d (floppy_insert a n d)
  | ev_drive_eject d : drive_event d (floppy_eject d)
  | ev_drive_step d sig : drive_event d (floppy_step sig d)
  | ev_drive_read d dst n : is_u32 n -> drive_event d (floppy_read_linear dst n d).2.

Definition is_flag (x : Z) : Prop := x = 0 \/ x = 1.

(** What holds of every drive between two events. *)
Record drive_wf (d : FloppyDrive) : Prop := {
  wf_flags : is_flag (connected d) /\ is_flag (motor d) /\ is_flag (side d) /\
    is_flag (ready d) /\ is_flag (disk_changed d) /\ is_flag (step_latch d);
  wf_cylinder : 0 <= cylinder d < FLOPPY_ADF_CYLINDERS;
  wf_track0 : track0 d = b2u (cylinder d =? 0);
  wf_ready : ready d = 1 -> motor d = 1;
  wf_motor : motor d = 1 -> connected d = 1;
  wf_size : is_u32 (adf_size d) /\ 0 <= read_offset d <= adf_size d;
}.

Lemma flag_b2u b : is_flag (b2u b).
Proof. unfold is_flag. destruct b; auto. Qed.

Lemma flag_if (b : bool) x y : is_flag x -> is_flag y -> is_flag (if b then x else y).
Proof. by destruct b. Qed.

Lemma flag_0 : is_flag 0. Proof. by left. Qed.
Lemma flag_1 : is_flag 1. Proof. by right. Qed.

#[local] Hint Resolve flag_b2u flag_if flag_0 flag_1 : core.

Ltac drive_solve := split; cbn in *; split_and?; auto; try lia.

Lemma truthy_flag x : is_flag x -> truthy x = (x =? 1).
Proof. intros [->| ->]; reflexivity. Qed.

Lemma insert_wf a n d : is_u32 n -> drive_wf d -> drive_wf (floppy_insert a n d).
Proof.
  intros Hn [(Hc & Hm & Hs & Hr & Hdc & Hl) Hcy Ht Hrd Hmo [Hsz Hro]].
  drive_solve; unfold in_width in Hn; lia.
Qed.

Lemma init_wf : drive_wf floppy_init.
Proof. split; cbn; unfold FLOPPY_ADF_CYLINDERS; split_and?; auto; try lia; closed_range. Qed.

Lemma set_connected_wf c d : drive_wf d -> drive_wf (floppy_set_connected c d).
Proof.
  intros [(Hc & Hm & Hs & Hr & Hdc & Hl) Hcy Ht Hrd Hmo [Hsz Hro]].
  unfold floppy_set_connected. destruct (truthy c); drive_solve.
Qed.

(** A reset needs no more than a drive in the machine's memory. *)
Lemma drive_reset_makes_wf d : is_flag (connected d) -> is_u32 (adf_size d) -> drive_wf (floppy_reset d).
Proof.
  intros Hcon Hd. pose proof init_wf as [(Hc & Hm & Hs & Hr & Hdc & Hl) Hcy Ht Hrd Hmo [Hsz Hro]].
  assert (H : drive_wf (floppy_init <| connected := connected d |>)) by drive_solve.
  unfold floppy_reset. destruct (_ && _); [|exact H]. by apply insert_wf.
Qed.

Lemma drive_reset_wf d : drive_wf d -> drive_wf (floppy_reset d).
Proof. intros Hd. apply drive_reset_makes_wf; [apply (wf_flags d Hd)|apply (wf_size d Hd)]. Qed.

Lemma eject_wf d : drive_wf d -> drive_wf (floppy_eject d).
Proof.
  intros [(Hc & Hm & Hs & Hr & Hdc & Hl) Hcy Ht Hrd Hmo [Hsz Hro]].
  drive_solve; closed_range.
Qed.

Lemma step_motor_wf sig d :
  connected d = 1 -> drive_wf d -> drive_wf (floppy_step_motor sig d).
Proof.
  intros Hcon [(Hc & Hm & Hs & Hr & Hdc & Hl) Hcy Ht Hrd Hmo [Hsz Hro]].
  unfold floppy_step_motor. destruct (truthy (sig_motor sig)), (truthy (motor d)); cbn;
    drive_solve; apply flag_if; auto.
Qed.

(** What the motor line does, and the fields it leaves alone. *)
Lemma step_motor_frame sig d :
  is_flag (motor d) ->
  let d' := floppy_step_motor sig d in
  connected d' = connected d /\ cylinder d' = cylinder d /\ step_latch d' = step_latch d /\
  disk_changed d' = disk_changed d /\ id_data d' = id_data d /\ selected d' = selected d /\
  floppy_has_media d' = floppy_has_media d /\
  motor d' = b2u (truthy (sig_motor sig)) /\
  id_count d' = (if truthy (sig_motor sig) && negb (truthy (motor d)) then -1 else id_count d).
Proof.
  intros Hf. unfold floppy_step_motor.
  destruct Hf as [E|E]; rewrite E; destruct (truthy (sig_motor sig)); by split_and!.
Qed.

(** The head moves by one cylinder within its range. *)
Definition next_cylinder (out : bool) (c : Z) : Z :=
  if out then Z.max 0 (c - 1) else Z.min (FLOPPY_ADF_CYLINDERS - 1) (c + 1).

Lemma step_head_spec sig d :
  0 <= cylinder d < FLOPPY_ADF_CYLINDERS ->
  floppy_step_head sig d =
  if truthy (sig_step sig) && truthy (step_latch d)
  then d <| step_latch := 0 |> <| cylinder := next_cylinder (truthy (sig_direction sig)) (cylinder d) |>
         <| disk_changed := b2u (negb (floppy_has_media d)) |>
  else d.
Proof.
  intros Hc. unfold floppy_step_head, next_cylinder, FLOPPY_ADF_CYLINDERS in *.
  destruct (_ && _); [|done]. destruct (truthy (sig_direction sig)); cbn.
  - destruct (Z.ltb_spec 0 (cylinder d)); cbn.
    + rewrite Z.max_r by lia. unfold floppy_has_media. cbn. by destruct (_ && _).
    + replace (Z.max 0 (cylinder d - 1)) with (cylinder d) by lia.
      unfold floppy_has_media. cbn. destruct d, (_ && _); reflexivity.
  - destruct (Z.ltb_spec (cylinder d) (80 - 1)); cbn.
    + rewrite Z.min_r by lia. unfold floppy_has_media. cbn. by destruct (_ && _).
    + replace (Z.min (80 - 1) (cylinder d + 1)) with (cylinder d) by lia.
      unfold floppy_has_media. cbn. destruct d, (_ && _); reflexivity.
Qed.

Lemma step_head_wf sig d : drive_wf d -> drive_wf
  (let d := floppy_step_head sig d in d <| track0 := b2u (cylinder d =? 0) |>).
Proof.
  intros [(Hc & Hm & Hs & Hr & Hdc & Hl) Hcy Ht Hrd Hmo [Hsz Hro]].
  rewrite step_head_spec by done. destruct (_ && _); split; cbn; split_and?; auto; try lia;
    unfold next_cylinder, FLOPPY_ADF_CYLINDERS in *; destruct (truthy _); lia.
Qed.

Lemma drive_step_wf sig d : drive_wf d -> drive_wf (floppy_step sig d).
Proof.
  intros Hd. unfold floppy_step. destruct (wf_flags d Hd) as (Hc & _).
  rewrite (truthy_flag _ Hc). destruct (Z.eqb_spec (connected d) 1) as [E|E]; cbn.
  - destruct (truthy (sig_selected sig)); cbn.
    + set (d1 := floppy_step_motor sig (d <| selected := 1 |>)).
      assert (H1 : drive_wf d1) by (apply step_motor_wf; [done|by destruct Hd]).
      clearbody d1.
      assert (H2 : drive_wf (d1 <| side := if truthy (sig_side sig) then 1 else 0 |>)).
      { destruct H1 as [(? & ? & ? & ? & ? & ?) ? ? ? ? [? ?]]. drive_solve. }
      pose proof (step_head_wf sig _ H2) as H3. cbn zeta in H3.
      set (d3 := floppy_step_head sig _) in *. clearbody d3.
      destruct (truthy (sig_step sig)); cbn; [exact H3|].
      destruct H3 as [(? & ? & ? & ? & ? & ?) ? ? ? ? [? ?]]. drive_solve.
    + destruct Hd. destruct (_ && _); split; auto.
  - destruct Hd as [(? & ? & ? & ? & ? & ?) ? ? ? ? [? ?]]. drive_solve.
Qed.

Lemma read_wf dst n d : is_u32 n -> drive_wf d -> drive_wf (floppy_read_linear dst n d).2.
Proof.
  intros Hn Hd. unfold floppy_read_linear.
  destruct (negb (floppy_has_media d)); [exact Hd|]. destruct (negb dst || (n =? 0)); [exact Hd|].
  destruct (Z.leb_spec (adf_size d) (read_offset d)); [exact Hd|]. cbn.
  destruct Hd as [(? & ? & ? & ? & ? & ?) ? ? ? ? [Hs Ho]]. split; cbn; split_and?; auto;
    try lia; unfold in_width in *; destruct (Z.ltb_spec n (adf_size d - read_offset d));
    rewrite wrap_small by (unfold in_width; lia); lia.
Qed.

Lemma drive_event_wf d d' : drive_event d d' -> drive_wf d -> drive_wf d'.
Proof.
  intros []; auto using drive_reset_wf, set_connected_wf, insert_wf, eject_wf, drive_step_wf, read_wf.
Qed.

(** ** Trains of step pulses *)

(** The signals of a selected drive with the given levels. *)
Definition sel (mtr stp dir sd : Z) : FloppySignals := mkSignals 1 mtr stp dir sd.

(** One pulse of the step line: down, then up again. *)
Definition pulse (mtr dir sd : Z) (d : FloppyDrive) : FloppyDrive :=
  floppy_step (sel mtr 0 dir sd) (floppy_step (sel mtr 1 dir sd) d).

(** The rest of a step once the motor line has been looked at. *)
Definition finish_step (sig : FloppySignals) (d : FloppyDrive) : FloppyDrive :=
  let d := floppy_step_head sig (d <| side := if truthy (sig_side sig) then 1 else 0 |>) in
  let d := if negb (truthy (sig_step sig)) then d <| step_latch := 1 |> else d in
  d <| track0 := b2u (cylinder d =? 0) |>.

Lemma floppy_step_eq sig d :
  connected d = 1 -> truthy (sig_selected sig) = true ->
  exists d0, floppy_step sig d = finish_step sig (floppy_step_motor sig d0) /\
    connected d0 = connected d /\ selected d0 = 1 /\ motor d0 = motor d /\
    cylinder d0 = cylinder d /\ step_latch d0 = step_latch d /\
    disk_changed d0 = disk_changed d /\ id_data d0 = id_data d /\ id_count d0 = id_count d /\
    floppy_has_media d0 = floppy_has_media d.
Proof.
  intros Hc Hs. exists (d <| selected := 1 |>). unfold floppy_step. rewrite Hc, Hs.
  by split_and!.
Qed.

(** A selected, connected drive: every field the signals can change. *)
Lemma step_selected sig d :
  drive_wf d -> connected d = 1 -> truthy (sig_selected sig) = true ->
  let d' := floppy_step sig d in
  let moved := truthy (sig_step sig) && truthy (step_latch d) in
  connected d' = 1 /\ selected d' = 1 /\ motor d' = b2u (truthy (sig_motor sig)) /\
  cylinder d' = (if moved then next_cylinder (truthy (sig_direction sig)) (cylinder d) else cylinder d) /\
  step_latch d' = (if truthy (sig_step sig) then 0 else 1) /\
  disk_changed d' = (if moved then b2u (negb (floppy_has_media d)) else disk_changed d) /\
  floppy_has_media d' = floppy_has_media d /\
  id_data d' = id_data d /\
  id_count d' = (if truthy (sig_motor sig) && negb (truthy (motor d)) then -1 else id_count d).
Proof.
  intros Hd Hcon Hsel. cbv zeta.
  destruct (floppy_step_eq sig d Hcon Hsel) as (d0 & -> & B1 & B2 & B3 & B4 & B5 & B6 & B7 & B8 & B9).
  destruct (wf_flags d Hd) as (_ & Hm & _ & _ & _ & Hsl). rewrite <- B3 in Hm.
  destruct (step_motor_frame sig d0 Hm) as (C1 & C2 & C3 & C4 & C5 & C6 & C7 & C8 & C9).
  set (d1 := floppy_step_motor sig d0) in *. clearbody d1.
  unfold finish_step. rewrite step_head_spec by (cbn; rewrite C2, B4; apply Hd).
  cbn -[floppy_has_media].
  change (floppy_has_media (d1 <| side := if truthy (sig_side sig) then 1 else 0 |>))
    with (floppy_has_media d1).
  rewrite <- B3, <- B4, <- B6, <- B7, <- B8, <- B9, <- C2, <- C4, <- C5, <- C7, <- C8, <- C9.
  assert (H1 : connected d1 = 1) by congruence. assert (H2 : selected d1 = 1) by congruence.
  assert (H3 : step_latch d1 = step_latch d) by congruence. rewrite H3.
  destruct Hsl as [E|E]; rewrite E; destruct (truthy (sig_step sig)); split_and!; try done; exact (eq_trans H3 E).
Qed.

Lemma step_pulse_spec mtr dir sd d :
  drive_wf d -> connected d = 1 -> step_latch d = 1 ->
  let d' := pulse mtr dir sd d in
  drive_wf d' /\ connected d' = 1 /\ step_latch d' = 1 /\
  cylinder d' = next_cylinder (truthy dir) (cylinder d) /\
  disk_changed d' = b2u (negb (floppy_has_media d)) /\
  floppy_has_media d' = floppy_has_media d.
Proof.
  intros Hd Hcon Hl. unfold pulse.
  pose proof (drive_step_wf (sel mtr 1 dir sd) d Hd) as Hd1.
  destruct (step_selected (sel mtr 1 dir sd) d Hd Hcon eq_refl) as (E1 & _ & _ & E2 & E3 & E4 & E5 & _).
  set (d1 := floppy_step (sel mtr 1 dir sd) d) in *. clearbody d1.
  destruct (step_selected (sel mtr 0 dir sd) d1 Hd1 E1 eq_refl) as (F1 & _ & _ & F2 & F3 & F4 & F5 & _).
  pose proof (drive_step_wf (sel mtr 0 dir sd) d1 Hd1) as Hd2.
  set (d2 := floppy_step (sel mtr 0 dir sd) d1) in *. clearbody d2.
  cbn -[floppy_has_media] in *. rewrite Hl in E2, E4.
  change (truthy 1) with true in *. cbv iota in *. split_and!; congruence || exact Hd2.
Qed.

(** Seeking.  [n] pulses of the step line move the head of a connected drive
    by [n] cylinders in the direction of the DIR line and stop it at cylinder 0
    or 79; the TRACK0 sensor is on exactly at cylinder 0, and after at least one
    pulse the change latch reports whether a disk is in the drive.  Eighty
    pulses outwards find track 0 from everywhere. *)
Theorem floppy_seek mtr dir sd n d :
  drive_wf d -> connected d = 1 -> step_latch d = 1 ->
  let d' := Nat.iter n (pulse mtr dir sd) d in
  cylinder d' = (if truthy dir then Z.max 0 (cylinder d - Z.of_nat n)
                 else Z.min (FLOPPY_ADF_CYLINDERS - 1) (cylinder d + Z.of_nat n)) /\
  floppy_get_track0 d' = b2u (cylinder d' =? 0) /\
  ((0 < n)%nat -> floppy_get_dskchg d' = b2u (floppy_has_media d)).
Proof.
  intros Hd Hcon Hl. cbn zeta.
  assert (H : let d' := Nat.iter n (pulse mtr dir sd) d in
    drive_wf d' /\ connected d' = 1 /\ step_latch d' = 1 /\
    floppy_has_media d' = floppy_has_media d /\
    cylinder d' = (if truthy dir then Z.max 0 (cylinder d - Z.of_nat n)
                 else Z.min (FLOPPY_ADF_CYLINDERS - 1) (cylinder d + Z.of_nat n)) /\
    ((0 < n)%nat -> disk_changed d' = b2u (negb (floppy_has_media d)))).
  { pose proof (wf_cylinder d Hd) as Hcy. unfold FLOPPY_ADF_CYLINDERS in *.
    induction n as [|n IH]; cbn zeta in *.
    - cbn. split_and!; auto; [destruct (truthy dir)|]; lia.
    - change (Nat.iter (S n) (pulse mtr dir sd) d)
        with (pulse mtr dir sd (Nat.iter n (pulse mtr dir sd) d)).
      destruct IH as (Iwf & Icon & Il & Im & Ic & _). set (e := Nat.iter n _ d) in *. clearbody e.
      destruct (step_pulse_spec mtr dir sd e Iwf Icon Il) as (P0 & P1 & P2 & P3 & P5 & P6).
      split_and!; try assumption; [congruence| |].
      + rewrite P3, Ic. unfold next_cylinder, FLOPPY_ADF_CYLINDERS. destruct (truthy dir); lia.
      + intros _. by rewrite P5, Im. }
  destruct H as (Iwf & Icon & _ & _ & Ic & Idc). split; [exact Ic|].
  unfold floppy_get_track0, floppy_get_dskchg. rewrite Icon. cbn [truthy Z.eqb negb].
  split; [apply (wf_track0 _ Iwf)|]. intros Hn. rewrite Idc by done.
  by destruct (floppy_has_media d).
Qed.

(** ** Identification *)

Definition desel (mtr stp dir sd : Z) : FloppySignals := mkSignals 0 mtr stp dir sd.

(** One cycle of the scan: select, read the bit, deselect, the motor off. *)
Definition id_cycle (d : FloppyDrive) : Z * FloppyDrive :=
  let d := floppy_step (sel 0 0 0 0) d in
  (floppy_get_idbit d, floppy_step (desel 0 0 0 0) d).

Fixpoint id_scan (n : nat) (d : FloppyDrive) : list Z * FloppyDrive :=
  match n with
  | O => ([], d)
  | S n => let '(b, d) := id_cycle d in let '(bs, d) := id_scan n d in (b :: bs, d)
  end.

(** The sequence before the scan: motor on, deselect, select with the motor
    off, deselect. *)
Definition id_preamble (d : FloppyDrive) : FloppyDrive :=
  floppy_step (desel 0 0 0 0) (floppy_step (sel 0 0 0 0)
    (floppy_step (desel 0 0 0 0) (floppy_step (sel 1 0 0 0) d))).

Lemma step_deselected sig d :
  connected d = 1 -> truthy (sig_selected sig) = false ->
  let d' := floppy_step sig d in
  connected d' = 1 /\ selected d' = 0 /\ motor d' = motor d /\ id_data d' = id_data d /\
  id_count d' = (if truthy (selected d) && (motor d =? 0) then id_count d + 1 else id_count d).
Proof.
  intros Hcon Hsel. cbv zeta. unfold floppy_step. rewrite Hcon, Hsel. cbn.
  destruct (_ && _); by split_and!.
Qed.

(** Selecting with the motor at level [mtr], then deselecting. *)
Lemma select_cycle mtr d :
  drive_wf d -> connected d = 1 ->
  let d1 := floppy_step (sel mtr 0 0 0) d in
  let d2 := floppy_step (desel 0 0 0 0) d1 in
  let count := if truthy mtr && negb (truthy (motor d)) then -1 else id_count d in
  drive_wf d2 /\ connected d1 = 1 /\ id_count d1 = count /\ id_data d1 = id_data d /\
  connected d2 = 1 /\ motor d2 = b2u (truthy mtr) /\ id_data d2 = id_data d /\
  id_count d2 = (if truthy mtr then count else count + 1).
Proof.
  intros Hd Hcon. cbv zeta. pose proof (drive_step_wf (sel mtr 0 0 0) d Hd) as Hd1.
  destruct (step_selected (sel mtr 0 0 0) d Hd Hcon eq_refl) as (E1 & E2 & E3 & _ & _ & _ & _ & E4 & E5).
  set (d1 := floppy_step (sel mtr 0 0 0) d) in *. clearbody d1.
  destruct (step_deselected (desel 0 0 0 0) d1 E1 eq_refl) as (F1 & F2 & F3 & F4 & F5).
  pose proof (drive_step_wf (desel 0 0 0 0) d1 Hd1) as Hd2.
  set (d2 := floppy_step (desel 0 0 0 0) d1) in *. clearbody d2.
  rewrite E2, E3, E5 in F5. cbn [sel sig_motor] in *.
  split_and!; try congruence || assumption.
  rewrite F5. by destruct (truthy mtr).
Qed.

Lemma id_scan_from n : forall d k,
  drive_wf d -> connected d = 1 -> motor d = 0 -> id_count d = k -> 0 <= k -> k + Z.of_nat n <= 32 ->
  (id_scan n d).1 = map (fun i => b2u (Z.testbit (id_data d) (31 - i))) (seqZ k (Z.of_nat n)).
Proof.
  induction n as [|n IH]; intros d k Hd Hc Hm Hk H0 Hn; [done|].
  cbn [id_scan]. unfold id_cycle.
  destruct (select_cycle 0 d Hd Hc) as (Hd2 & E1 & E2 & E3 & F1 & F2 & F3 & F4).
  set (d1 := floppy_step (sel 0 0 0 0) d) in *. clearbody d1.
  set (d2 := floppy_step (desel 0 0 0 0) d1) in *. clearbody d2.
  cbn in E2, F2, F4. specialize (IH d2 (k + 1)).
  rewrite seqZ_cons by lia. destruct (id_scan n d2) as [bs d3]. cbn [fst map] in *.
  replace (Z.pred (Z.of_nat (S n))) with (Z.of_nat n) by lia.
  rewrite IH by (assumption || lia). rewrite F3. f_equal.
  unfold floppy_get_idbit. rewrite E1, E2, E3, Hk. cbn [truthy Z.eqb negb].
  rewrite (wrap_small 32 k) by (unfold in_width; lia).
  change 31 with (Z.ones 5) at 2. rewrite Z.land_ones, Z.mod_small by lia.
  apply shiftr_land_1. lia.
Qed.

(** Identification.  After the motor has been switched on and off again,
    selecting and deselecting a connected drive 32 times reads its
    identification word, most significant bit first: for the drives the code
    builds, 32 zero bits, the identity of an Amiga double-density drive. *)
Theorem drive_identification d :
  drive_wf d -> connected d = 1 -> motor d = 0 ->
  (id_scan 32 (id_preamble d)).1 =
    map (fun i => b2u (Z.testbit (id_data d) (31 - i))) (seqZ 0 32) /\
  (id_data d = id_data floppy_init -> (id_scan 32 (id_preamble d)).1 = replicate 32 0).
Proof.
  intros Hd Hc Hm.
  assert (H : (id_scan 32 (id_preamble d)).1 =
    map (fun i => b2u (Z.testbit (id_data d) (31 - i))) (seqZ 0 32)).
  { unfold id_preamble.
    destruct (select_cycle 1 d Hd Hc) as (H1 & _ & _ & _ & E1 & E2 & E3 & E4).
    set (d1 := floppy_step (desel 0 0 0 0) (floppy_step (sel 1 0 0 0) d)) in *. clearbody d1.
    destruct (select_cycle 0 d1 H1 E1) as (H2 & _ & _ & _ & F1 & F2 & F3 & F4).
    set (d2 := floppy_step (desel 0 0 0 0) (floppy_step (sel 0 0 0 0) d1)) in *. clearbody d2.
    rewrite Hm in E4. cbn in E4, F2, F4. rewrite <- E3, <- F3.
    apply (id_scan_from 32 d2 0); [assumption|assumption|assumption| |lia|lia].
    rewrite F4, E4. reflexivity. }
  split; [exact H|]. intros E. rewrite H, E. reflexivity.
Qed.

(** Drive invariant.  In every state a drive can reach by resets,
    connections, media changes, signals and reads, the head is on one of the 80
    cylinders, the TRACK0 flag says whether it is on cylinder 0, the drive is
    ready only with the motor on and spinning only when connected, and the read
    cursor is inside the image. *)
Theorem drive_reachable_invariant d :
  rtc drive_event floppy_init d ->
  0 <= cylinder d < FLOPPY_ADF_CYLINDERS /\ track0 d = b2u (cylinder d =? 0) /\
  (ready d = 1 -> motor d = 1) /\ (motor d = 1 -> connected d = 1) /\
  0 <= read_offset d <= adf_size d.
Proof.
  intros Hr. enough (Hd : drive_wf d) by (destruct Hd as [? ? ? ? ? [_ ?]]; auto).
  revert Hr. apply (rtc_ind_r (fun d => drive_wf d)); [exact init_wf|].
  intros x y _ Hxy Hx. exact (drive_event_wf x y Hxy Hx).
Qed.

(** ** Linear reads *)

Fixpoint read_all (ns : list Z) (d : FloppyDrive) : list Z :=
  match ns with
  | [] => []
  | n :: ns => let '(_, data, d) := floppy_read_linear true n d in data ++ read_all ns d
  end.

Lemma map_rd8 (l : list Z) o n :
  (o + n <= length l)%nat ->
  map (fun i => rd8 l (Z.of_nat o + i)) (seqZ 0 (Z.of_nat n)) = take n (drop o l).
Proof.
  revert o. induction n as [|n IH]; intros o H; [done|].
  rewrite seqZ_cons by lia. cbn [map]. rewrite Z.add_0_r.
  destruct (lookup_lt_is_Some_2 l o) as [x Hx]; [lia|].
  rewrite (drop_S l x o Hx). cbn [take]. unfold rd8 at 1. rewrite Nat2Z.id, Hx. cbn [default].
  f_equal. rewrite <- IH by lia.
  replace (Z.pred (Z.of_nat (S n))) with (Z.of_nat n) by lia.
  change (Z.succ 0) with (1 + 0). rewrite <- (fmap_add_seqZ 1 0). unfold fmap, list_fmap.
  fold (map (Z.add 1)). rewrite map_map. apply map_ext. intros i. f_equal. lia.
Qed.

Lemma read_once d img o n :
  floppy_has_media d = true -> adf d = Some img -> adf_size d = Z.of_nat (length img) ->
  read_offset d = o -> 0 <= o <= Z.of_nat (length img) -> Z.of_nat (length img) < 2 ^ 32 -> 0 <= n ->
  exists d', floppy_read_linear true n d =
    (Z.min n (Z.of_nat (length img) - o), take (Z.to_nat n) (drop (Z.to_nat o) img), d') /\
    floppy_has_media d' = true /\ adf d' = Some img /\ adf_size d' = Z.of_nat (length img) /\
    read_offset d' = Z.min (o + n) (Z.of_nat (length img)).
Proof.
  intros Hm Ha Hs Ho Hr Hl Hn. unfold floppy_read_linear. rewrite Hm, Ha, Hs, Ho. cbn [negb orb].
  destruct (Z.eqb_spec n 0) as [->|].
  { exists d. split; [|split_and!; try assumption; lia]. f_equal. f_equal. lia. }
  destruct (Z.leb_spec (Z.of_nat (length img)) o).
  { exists d. split; [|split_and!; try assumption; lia].
    rewrite drop_ge by lia. rewrite take_nil. f_equal. f_equal. lia. }
  eexists. split; [|split; [|split; [|split]]].
  - f_equal. f_equal; [destruct (Z.ltb_spec n (Z.of_nat (length img) - o)); lia|].
    set (c := if n <? Z.of_nat (length img) - o then n else Z.of_nat (length img) - o).
    assert (Hc : c = Z.min n (Z.of_nat (length img) - o))
      by (unfold c; destruct (Z.ltb_spec n (Z.of_nat (length img) - o)); lia).
    change (default [] (Some img)) with img. pose proof (map_rd8 img (Z.to_nat o) (Z.to_nat c)) as Hmap.
    rewrite !Z2Nat.id in Hmap by lia. rewrite Hmap, Hc by lia.
    destruct (decide (n <= Z.of_nat (length img) - o)).
    + f_equal. lia.
    + rewrite !take_ge; [done| |]; rewrite length_drop; lia.
  - exact Hm.
  - exact Ha.
  - exact Hs.
  - cbn. rewrite wrap_small; destruct (Z.ltb_spec n (Z.of_nat (length img) - o)); unfold in_width; lia.
Qed.

(** Reading in chunks of any sizes gives the image from its start, and nothing
    past its end. *)
Theorem reads_cover_image img ns d :
  img <> [] -> Z.of_nat (length img) < 2 ^ 32 -> Forall (fun n => 0 <= n) ns ->
  read_all ns (floppy_insert (Some img) (Z.of_nat (length img)) d) =
  take (Z.to_nat (foldr Z.add 0 ns)) img.
Proof.
  intros Hne Hl Hns. set (d0 := floppy_insert _ _ d).
  assert (H : forall d o, floppy_has_media d = true -> adf d = Some img ->
    adf_size d = Z.of_nat (length img) -> read_offset d = o -> 0 <= o <= Z.of_nat (length img) ->
    read_all ns d = take (Z.to_nat (foldr Z.add 0 ns)) (drop (Z.to_nat o) img)).
  { clear d0. induction Hns as [|n ns Hn Hns IH]; intros e o Hm Ha Hs Ho Hr; [done|].
    destruct (read_once e img o n Hm Ha Hs Ho Hr Hl Hn) as (e' & E & Hm' & Ha' & Hs' & Ho').
    cbn [read_all foldr]. rewrite E. rewrite (IH e' _ Hm' Ha' Hs' Ho') by lia.
    assert (0 <= foldr Z.add 0 ns) by (clear -Hns; induction Hns; cbn; lia).
    rewrite Z2Nat.inj_add by lia. rewrite <- take_take_drop, drop_drop. f_equal.
    destruct (decide (o + n <= Z.of_nat (length img))).
    - do 2 f_equal. lia.
    - rewrite !(drop_ge img) by lia. done. }
  apply (H d0 0); try done; [|lia]. unfold d0, floppy_has_media. cbn.
  destruct img; [done|]. reflexivity.
Qed.

(** ** Witnesses *)

Definition df0 : FloppyDrive := floppy_insert (Some [1; 2; 3]) 3 floppy_init.

Lemma df0_wf : drive_wf df0.
Proof. apply insert_wf; [closed_range|exact init_wf]. Qed.

Lemma floppy_seek_witness :
  cylinder (Nat.iter 5 (pulse 0 0 0) df0) = 5 /\ floppy_get_dskchg (Nat.iter 5 (pulse 0 0 0) df0) = 1.
Proof.
  destruct (floppy_seek 0 0 0 5 df0 df0_wf eq_refl eq_refl) as (H1 & _ & H2).
  split; [exact H1|apply H2; lia].
Defined.

Lemma drive_identification_witness : (id_scan 32 (id_preamble df0)).1 = replicate 32 0.
Proof. apply (drive_identification df0 df0_wf eq_refl eq_refl). reflexivity. Defined.

Lemma drive_reachable_invariant_witness :
  let d := floppy_step (sel 1 1 0 0) df0 in
  0 <= cylinder d < FLOPPY_ADF_CYLINDERS /\ track0 d = b2u (cylinder d =? 0) /\
  (ready d = 1 -> motor d = 1) /\ (motor d = 1 -> connected d = 1) /\
  0 <= read_offset d <= adf_size d.
Proof.
  apply drive_reachable_invariant. unfold df0.
  eapply rtc_l; [apply (ev_drive_insert _ (Some [1; 2; 3]) 3); closed_range|].
  apply rtc_once, ev_drive_step.
Defined.
