(* ===== verification/Disk.v ===== *)
(** * The disk controller: [paula/disk.c], [disk_domain.c]

    The controller reads the track under the head of the selected drive into a
    buffer of MFM words and moves them to chip RAM one DMA slot at a time.  The
    chip RAM callback and the interrupt sink of the structure are functions of
    an outside world [W]; the pointer to the drive is the index of a drive in
    the array of the chipset.  Trace output and the functions that only feed it
    are left out; the environment variable that can turn the sync interrupt off
    is the parameter [dsksyn]. *)

From S2P Require Import Prelude Bytes Custom Mfm Floppy.

(** C: [src/src/chipset/paula/disk.h]:10-10 [RIGEL_PAULA_DSKLEN_DMAEN] *)
Definition RIGEL_PAULA_DSKLEN_DMAEN := 0x8000.
(** C: [src/src/chipset/paula/disk.h]:11-11 [RIGEL_PAULA_DSKLEN_WRITE] *)
Definition RIGEL_PAULA_DSKLEN_WRITE := 0x4000.
(** C: [src/src/chipset/paula/disk.h]:12-12 [RIGEL_PAULA_DSKLEN_LEN] *)
Definition RIGEL_PAULA_DSKLEN_LEN := 0x3fff.
(** C: [src/src/chipset/paula/disk.h]:13-13 [RIGEL_PAULA_DSKBYTR_DMAON] *)
Definition RIGEL_PAULA_DSKBYTR_DMAON := 0x2000.
(** C: [src/src/chipset/paula/disk.h]:14-14 [RIGEL_PAULA_DSKBYTR_WORDSYNC] *)
Definition RIGEL_PAULA_DSKBYTR_WORDSYNC := 0x0800.
(** C: [src/src/chipset/paula/disk.h]:15-15 [RIGEL_PAULA_ADKCON_SETCLR] *)
Definition RIGEL_PAULA_ADKCON_SETCLR := 0x8000.
(** C: [src/src/chipset/paula/disk.h]:16-16 [RIGEL_PAULA_ADKCON_WORDSYNC] *)
Definition RIGEL_PAULA_ADKCON_WORDSYNC := 0x0400.
(** C: [src/src/chipset/paula/disk.h]:17-17 [RIGEL_PAULA_DISK_FAKE_DMA_CYCLES] *)
Definition RIGEL_PAULA_DISK_FAKE_DMA_CYCLES := 46000.

#[export] Hint Unfold RIGEL_PAULA_DSKLEN_DMAEN RIGEL_PAULA_DSKLEN_WRITE RIGEL_PAULA_DSKLEN_LEN
  RIGEL_PAULA_DSKBYTR_DMAON RIGEL_PAULA_DSKBYTR_WORDSYNC RIGEL_PAULA_ADKCON_SETCLR
  RIGEL_PAULA_ADKCON_WORDSYNC RIGEL_PAULA_DISK_FAKE_DMA_CYCLES : consts.

(** C: [src/src/chipset/paula/disk.h]:27-52 [disk_state_t] *)
Record DiskState {W : Type} := mkDisk {
  dskptr : Z; dsklen : Z; dskbytr : Z; dskdatr : Z; dsksync : Z; adkcon : Z;
  dma_active : bool; dma_armed : bool; write_mode : bool;
  sync_seen : bool; sync_irq_fired : bool;
  dskbytr_data : Z; armed_dsklen : Z; countdown : Z;
  dma_ptr_base : Z; dma_bytes_total : Z; dma_bytes_done : Z;
  dma_src_offset : Z; dma_track_len : Z; dma_fill_word : Z;
  dma_track_buf : list Z;
  drive : option nat;
  disk_chip_ram : option (W -> Z -> Z -> W);
  disk_irq : option (W -> Z -> W);
}.
Arguments DiskState : clear implicits.
Arguments mkDisk {W}.

#[export] Instance eta_disk {W} : Eta (DiskState W) := fun s =>
  mkDisk (dskptr s) (dsklen s) (dskbytr s) (dskdatr s) (dsksync s) (adkcon s)
    (dma_active s) (dma_armed s) (write_mode s) (sync_seen s) (sync_irq_fired s)
    (dskbytr_data s) (armed_dsklen s) (countdown s) (dma_ptr_base s)
    (dma_bytes_total s) (dma_bytes_done s) (dma_src_offset s) (dma_track_len s)
    (dma_fill_word s) (dma_track_buf s) (drive s) (disk_chip_ram s) (disk_irq s).

(** ** Tracks *)

(** C: [src/src/chipset/paula/disk.c] [disk_track_offset] *)
Definition disk_track_offset (drive : option FloppyDrive) : Z :=
  match drive with
  | None => 0
  | Some d =>
      let track := u32 ((cylinder d .<< 1) .| (if truthy (side d) then 1 else 0)) in
      u32 (track * AMIGA_TRACK_SIZE)
  end.

(** The loop from [i], [n] positions being left.
    C: [src/src/chipset/paula/disk.c]:66-70 [disk_track_find_sync] *)
Fixpoint find_sync_from (src : list Z) (len sync : Z) (n : nat) (i : Z) : Z :=
  match n with
  | O => len
  | S n => if disk_read_be16 src i =? sync then i else find_sync_from src len sync n (i + 1)
  end.

(** C: [src/src/chipset/paula/disk.c] [disk_track_find_sync] *)
Definition disk_track_find_sync (src : list Z) (len sync : Z) : Z :=
  if len <? 2 then len else find_sync_from src len sync (Z.to_nat (len - 1)) 0.

Section disk.
Context {W : Type}.
Variable dsksyn : bool.

(** The controller and the world its callbacks act on. *)
Definition DiskBoard : Type := DiskState W * W.

(** ** Interrupts and data *)

(** C: [src/src/chipset/paula/disk.c] [disk_emit_irq] *)
Definition disk_emit_irq (mask : Z) (b : DiskBoard) : DiskBoard :=
  match disk_irq b.1 with
  | None => b
  | Some raise => (b.1, raise b.2 mask)
  end.

(** C: [src/src/chipset/paula/disk.c] [disk_maybe_emit_sync] *)
Definition disk_maybe_emit_sync (b : DiskBoard) : DiskBoard :=
  let '(d, w) := b in
  if negb (sync_seen d) then b
  else if adkcon d .& RIGEL_PAULA_ADKCON_WORDSYNC =? 0 then b
  else if sync_irq_fired d then b
  else
    let d := d <| sync_irq_fired := true |> in
    if dsksyn then disk_emit_irq 0x1000 (d, w) else (d, w).

(** C: [src/src/chipset/paula/disk.c] [disk_load_dskbytr] *)
Definition disk_load_dskbytr (word : Z) (d : DiskState W) : DiskState W :=
  d <| dskbytr_data := u16 (0x8000 .| (word .& 0x00ff)) |> <| dskdatr := word |>.

(** ** Reset and registers *)

(** C: [src/src/chipset/paula/disk.c] [disk_reset] *)
Definition disk_reset (d : DiskState W) : DiskState W := {|
  dskptr := 0; dsklen := 0; dskbytr := 0; dskdatr := 0; dsksync := 0x4489; adkcon := 0;
  dma_active := false; dma_armed := false; write_mode := false;
  sync_seen := false; sync_irq_fired := false;
  dskbytr_data := 0; armed_dsklen := 0; countdown := 0;
  dma_ptr_base := 0; dma_bytes_total := 0; dma_bytes_done := 0;
  dma_src_offset := 0; dma_track_len := 0; dma_fill_word := 0;
  dma_track_buf := dma_track_buf d;
  drive := drive d; disk_chip_ram := disk_chip_ram d; disk_irq := disk_irq d;
|}.

(** C: [src/src/chipset/paula/disk.c] [disk_set_irq_sink] *)
Definition disk_set_irq_sink (sink : option (W -> Z -> W)) (d : DiskState W) : DiskState W :=
  d <| disk_irq := sink |>.

(** C: [src/src/chipset/paula/disk.c] [disk_set_memory_if] *)
Definition disk_set_memory_if (ram : option (W -> Z -> Z -> W)) (d : DiskState W) : DiskState W :=
  d <| disk_chip_ram := ram |>.

(** C: [src/src/chipset/paula/disk.c] [disk_set_drive] *)
Definition disk_set_drive (i : option nat) (d : DiskState W) : DiskState W := d <| drive := i |>.

(** C: [src/src/chipset/paula/disk.c] [disk_write_dskpth] *)
Definition disk_write_dskpth (value : Z) (d : DiskState W) : DiskState W :=
  d <| dskptr := (dskptr d .& 0x0000ffff) .| u32 (value .<< 16) |>.

(** C: [src/src/chipset/paula/disk.c] [disk_write_dskptl] *)
Definition disk_write_dskptl (value : Z) (d : DiskState W) : DiskState W :=
  d <| dskptr := (dskptr d .& 0xffff0000) .| value |>.

(** C: [src/src/chipset/paula/disk.c] [disk_write_dsksync] *)
Definition disk_write_dsksync (value : Z) (b : DiskBoard) : DiskBoard :=
  let '(d, w) := b in
  disk_maybe_emit_sync (d <| dsksync := value |> <| sync_irq_fired := false |>, w).

(** C: [src/src/chipset/paula/disk.c] [disk_write_adkcon] *)
Definition disk_write_adkcon (value : Z) (b : DiskBoard) : DiskBoard :=
  let '(d, w) := b in
  let bits := u16 (value .& 0x7fff) in
  let d := if has value RIGEL_PAULA_ADKCON_SETCLR
           then d <| adkcon := u16 (adkcon d .| bits) |>
           else d <| adkcon := u16 (adkcon d .& u16 (~~ bits)) |> in
  disk_maybe_emit_sync (d, w).

(** ** Starting a transfer *)

(** The transfer without a track: it only waits.
    C: [src/src/chipset/paula/disk.c]:315-322 [disk_start_dma] *)
Definition disk_fake_dma (d : DiskState W) : DiskState W :=
  d <| countdown := RIGEL_PAULA_DISK_FAKE_DMA_CYCLES |>.

(** The fields every start sets.
    C: [src/src/chipset/paula/disk.c]:278-294 [disk_start_dma] *)
Definition disk_start_fields (value : Z) (d : DiskState W) : DiskState W := {|
  dskptr := dskptr d; dsksync := dsksync d; adkcon := adkcon d;
  dsklen := value;
  write_mode := has value RIGEL_PAULA_DSKLEN_WRITE;
  dma_active := true;
  dma_armed := false;
  sync_seen := false;
  sync_irq_fired := false;
  dskbytr_data := 0; armed_dsklen := armed_dsklen d;
  countdown := 0;
  dskbytr := u16 (u16 (dskbytr d .| RIGEL_PAULA_DSKBYTR_DMAON)
                  .& u16 (~~ RIGEL_PAULA_DSKBYTR_WORDSYNC));
  dskdatr := 0;
  dma_ptr_base := dskptr d;
  dma_bytes_total := 0;
  dma_bytes_done := 0;
  dma_src_offset := 0;
  dma_track_len := 0;
  dma_fill_word := 0;
  dma_track_buf := dma_track_buf d;
  drive := drive d; disk_chip_ram := disk_chip_ram d; disk_irq := disk_irq d;
|}.

(** The transfer of an encoded track.
    C: [src/src/chipset/paula/disk.c]:352-366 [disk_start_dma] *)
Definition disk_start_track (len_words : Z) (b : DiskBoard) : DiskBoard :=
  let '(d, w) := b in
  let d := d <| dma_track_len := RIGEL_FLOPPY_MFM_TRACK_BYTES_PAL |> in
  let sync_offset := disk_track_find_sync (dma_track_buf d) (dma_track_len d) (dsksync d) in
  let found := u32 (sync_offset + 1) <? dma_track_len d in
  let d := if found then disk_load_dskbytr (disk_read_be16 (dma_track_buf d) sync_offset) d else d in
  let d := d <| dma_src_offset :=
                  if negb (adkcon d .& RIGEL_PAULA_ADKCON_WORDSYNC =? 0) && found
                  then sync_offset else 0 |> in
  let d := d <| sync_seen := found |> in
  let '(d, w) := disk_maybe_emit_sync (d, w) in
  (d <| dma_bytes_total := u32 (len_words .<< 1) |>, w).

(** [None] when the encoding of the track stores outside the buffer.
    C: [src/src/chipset/paula/disk.c] [disk_start_dma] *)
Definition disk_start_dma (floppy : list FloppyDrive) (value : Z) (b : DiskBoard)
    : option DiskBoard :=
  let '(d, w) := b in
  let len_words := value .& RIGEL_PAULA_DSKLEN_LEN in
  let d := disk_start_fields value d in
  if write_mode d || (len_words =? 0) then Some (d, w)
  else
    match i ← drive d; floppy !! i with
    | None => Some (disk_fake_dma d, w)
    | Some fd =>
        if negb (floppy_has_media fd) then Some (disk_fake_dma d, w)
        else
          let adf_offset := disk_track_offset (Some fd) in
          if (adf_size fd <=? adf_offset) || (u32 (adf_size fd - adf_offset) <? AMIGA_TRACK_SIZE)
          then Some (disk_fake_dma d, w)
          else
            let track := adf_offset / AMIGA_TRACK_SIZE in
            '(buf, ok) ← floppy_mfm_encode_track (Some (dma_track_buf d))
                RIGEL_FLOPPY_MFM_TRACK_BYTES_PAL
                (Some (drop (Z.to_nat adf_offset) (default [] (adf fd)))) track
                AMIGA_SECTORS_PER_TRACK;
            let d := d <| dma_track_buf := default [] buf |> in
            if negb ok then Some (disk_fake_dma d, w)
            else Some (disk_start_track len_words (d, w))
    end.

(** C: [src/src/chipset/paula/disk.c] [disk_write_dsklen] *)
Definition disk_write_dsklen (floppy : list FloppyDrive) (value : Z) (b : DiskBoard)
    : option DiskBoard :=
  let '(d, w) := b in
  if value .& RIGEL_PAULA_DSKLEN_DMAEN =? 0 then
    Some (d <| dsklen := value |> <| dma_active := false |> <| dma_armed := false |>
            <| armed_dsklen := 0 |> <| countdown := 0 |> <| sync_seen := false |>
            <| sync_irq_fired := false |> <| dskbytr_data := 0 |>
            <| dskbytr := u16 (dskbytr d .& u16 (~~ RIGEL_PAULA_DSKBYTR_DMAON)) |>, w)
  else if negb (dma_armed d) then
    Some (d <| dsklen := value |> <| armed_dsklen := value |> <| dma_armed := true |>, w)
  else disk_start_dma floppy value b.

(** ** Reads *)

(** C: [src/src/chipset/paula/disk.c] [disk_read_dskbytr] *)
Definition disk_read_dskbytr (d : DiskState W) : Z * DiskState W :=
  let value := u16 (dskbytr_data d .& 0x80ff) in
  let value := if sync_seen d then u16 (value .| RIGEL_PAULA_DSKBYTR_WORDSYNC) else value in
  let value := if dma_active d then u16 (value .| RIGEL_PAULA_DSKBYTR_DMAON) else value in
  (value, d <| dskbytr_data := u16 (dskbytr_data d .& u16 (~~ 0x8000)) |>).

(** C: [src/src/chipset/paula/disk.c] [disk_read_dskdatr] *)
Definition disk_read_dskdatr (d : DiskState W) : Z := dskdatr d.

(** ** Time and DMA slots *)

(** The fields the end of a transfer clears.
    C: [src/src/chipset/paula/disk.c]:474-481 [disk_step] *)
Definition disk_finish (d : DiskState W) : DiskState W :=
  d <| dma_active := false |> <| dma_armed := false |> <| armed_dsklen := 0 |>
    <| sync_seen := false |> <| sync_irq_fired := false |>
    <| dskbytr := u16 (dskbytr d .& u16 (~~ RIGEL_PAULA_DSKBYTR_DMAON)) |>
    <| dsklen := u16 (dsklen d .& u16 (~~ RIGEL_PAULA_DSKLEN_DMAEN)) |>.

(** C: [src/src/chipset/paula/disk.c] [disk_step] *)
Definition disk_step (cycles : Z) (b : DiskBoard) : DiskBoard :=
  let '(d, w) := b in
  if negb (dma_active d) || (0 <? dma_bytes_total d) || (countdown d =? 0) then b
  else if cycles <? countdown d then (d <| countdown := countdown d - cycles |>, w)
  else disk_emit_irq 0x0002 (disk_finish (d <| countdown := 0 |>), w).

(** C: [src/src/chipset/paula/disk.c] [disk_dma_wants_service] *)
Definition disk_dma_wants_service (d : DiskState W) : bool :=
  if negb (dma_active d) || write_mode d then false
  else if dma_bytes_total d <=? dma_bytes_done d then false
  else true.

(** The move of one word.
    C: [src/src/chipset/paula/disk.c]:515-529 [disk_dma_service_grant] *)
Definition disk_grant_word (write16 : W -> Z -> Z -> W) (b : DiskBoard) : DiskBoard :=
  let '(d, w) := b in
  let dst := u32 (dma_ptr_base d + dma_bytes_done d) in
  let d := d <| dma_src_offset := if dma_track_len d <=? u32 (dma_src_offset d + 1)
                                  then 0 else dma_src_offset d |> in
  let word := disk_read_be16 (dma_track_buf d) (dma_src_offset d) in
  let w := write16 w dst word in
  let d := disk_load_dskbytr word d in
  let '(d, w) := if word =? dsksync d
                 then disk_maybe_emit_sync (d <| sync_seen := true |>, w) else (d, w) in
  (d <| dma_bytes_done := u32 (dma_bytes_done d + 2) |>
     <| dma_src_offset := u32 (dma_src_offset d + 2) mod dma_track_len d |>, w).

(** The end of the transfer.
    C: [src/src/chipset/paula/disk.c]:548-569 [disk_dma_service_grant] *)
Definition disk_grant_end (b : DiskBoard) : DiskBoard :=
  let '(d, w) := b in
  let '(d, w) := if sync_seen d
                 then disk_maybe_emit_sync (d <| sync_irq_fired := false |>, w)
                 else (d, w) in
  let d := disk_finish d in
  disk_emit_irq 0x0002 (d <| dskptr := u32 (dma_ptr_base d + dma_bytes_total d) |>, w).

(** C: [src/src/chipset/paula/disk.c] [disk_dma_service_grant] *)
Definition disk_dma_service_grant (b : DiskBoard) : DiskBoard :=
  if negb (disk_dma_wants_service b.1) then b
  else
    match disk_chip_ram b.1 with
    | None => b
    | Some write16 =>
        if dma_track_len b.1 <? 2 then b
        else
          let b := disk_grant_word write16 b in
          if dma_bytes_done b.1 <? dma_bytes_total b.1 then b else disk_grant_end b
    end.

(** C: [src/src/chipset/paula/disk.c] [disk_cycles_to_next_event] *)
Definition disk_cycles_to_next_event (d : DiskState W) : Z :=
  if negb (dma_active d) then 0xffffffff
  else if (0 <? countdown d) && (dma_bytes_total d =? 0) then countdown d
  else 0xffffffff.

(** ** The domain: [disk_domain.c] *)

(** The registers of the controller. *)
Inductive DiskReg := DSKDATR | ADKCONR | DSKBYTR | DSKPTH | DSKPTL | DSKLEN | DSKSYNC | ADKCON.

(** C: [src/include/rigel/rigel_custom.h]:12-27 [RIGEL_REG_DSKDATR] *)
Definition disk_reg (addr : Z) : option DiskReg :=
  if addr =? 0x008 then Some DSKDATR else if addr =? 0x010 then Some ADKCONR
  else if addr =? 0x01a then Some DSKBYTR else if addr =? 0x020 then Some DSKPTH
  else if addr =? 0x022 then Some DSKPTL else if addr =? 0x024 then Some DSKLEN
  else if addr =? 0x07e then Some DSKSYNC else if addr =? 0x09e then Some ADKCON
  else None.

(** C: [src/src/domains/disk/disk_domain.c] [rigel_disk_domain_owns_reg] *)
Definition rigel_disk_domain_owns_reg (addr : Z) : bool :=
  match disk_reg addr with Some _ => true | None => false end.

(** C: [src/src/domains/disk/disk_domain.c] [rigel_disk_domain_step_slot] *)
Definition rigel_disk_domain_step_slot (b : DiskBoard) : DiskBoard :=
  if disk_dma_wants_service b.1 then disk_dma_service_grant b else b.

(** C: [src/src/domains/disk/disk_domain.c] [rigel_disk_domain_read_reg] *)
Definition rigel_disk_domain_read_reg (addr : Z) (d : DiskState W) : Z * DiskState W :=
  match disk_reg addr with
  | Some DSKDATR => (disk_read_dskdatr d, d)
  | Some ADKCONR => (adkcon d, d)
  | Some DSKBYTR => disk_read_dskbytr d
  | Some DSKPTH => (u16 ((dskptr d .>> 16) .& 0xffff), d)
  | Some DSKPTL => (u16 (dskptr d .& 0xffff), d)
  | Some DSKLEN => (dsklen d, d)
  | Some DSKSYNC => (dsksync d, d)
  | _ => (0, d)
  end.

(** C: [src/src/domains/disk/disk_domain.c] [rigel_disk_domain_write_reg] *)
Definition rigel_disk_domain_write_reg (floppy : list FloppyDrive) (addr value : Z) (b : DiskBoard)
    : option DiskBoard :=
  match disk_reg addr with
  | Some DSKPTH => Some (disk_write_dskpth value b.1, b.2)
  | Some DSKPTL => Some (disk_write_dskptl value b.1, b.2)
  | Some DSKLEN => disk_write_dsklen floppy value b
  | Some DSKSYNC => Some (disk_write_dsksync value b)
  | Some ADKCON => Some (disk_write_adkcon value b)
  | _ => Some b
  end.

End disk.
Arguments DiskBoard : clear implicits.
