(* ===== verification/DiskSafety.v ===== *)
(** * The disk controller in every reachable state

    Whatever is written to the registers and whatever disks are in the drives,
    the controller never leaves its track buffer, its countdown expires exactly
    on schedule, and a write transfer never ends. *)

From S2P Require Import Prelude Bytes Mfm MfmSector MfmTrack Floppy Disk.

(** ** The sync search and the encoder stay inside the buffer *)

Lemma find_sync_range src len sync n : forall i,
  0 <= i -> i + Z.of_nat n <= len ->
  let r := find_sync_from src len sync n i in r = len \/ i <= r < i + Z.of_nat n.
Proof.
  induction n as [|n IH]; intros i Hi Hl; cbn; [by left|].
  destruct (_ =? _); [right; lia|]. destruct (IH (i + 1)) as [E|E]; lia.
Qed.

Lemma find_sync_bounds buf sync :
  0 <= disk_track_find_sync buf RIGEL_FLOPPY_MFM_TRACK_BYTES_PAL sync <= RIGEL_FLOPPY_MFM_TRACK_BYTES_PAL.
Proof.
  unfold disk_track_find_sync, RIGEL_FLOPPY_MFM_TRACK_BYTES_PAL.
  change (13630 <? 2) with false. cbv iota.
  destruct (find_sync_range buf 13630 sync (Z.to_nat (13630 - 1)) 0); lia.
Qed.

Lemma encode_track_some buf img t :
  Z.of_nat (length buf) = RIGEL_FLOPPY_MFM_TRACK_BYTES_PAL ->
  exists buf', floppy_mfm_encode_track (Some buf) RIGEL_FLOPPY_MFM_TRACK_BYTES_PAL (Some img) t
      AMIGA_SECTORS_PER_TRACK = Some (Some buf', true) /\
    Z.of_nat (length buf') = RIGEL_FLOPPY_MFM_TRACK_BYTES_PAL.
Proof.
  intros Hl.
  destruct (track_written buf img t AMIGA_SECTORS_PER_TRACK) as (ws & tl & E & Htr & Etl); [done| |].
  { rewrite Hl. done. }
  rewrite Hl in E, Htr, Etl. exists (written (ws ++ tl) buf). split; [exact E|].
  rewrite length_written; [exact Hl|]. rewrite length_app, (track_length _ _ _ _ _ _ Htr), Etl.
  unfold AMIGA_SECTORS_PER_TRACK, AMIGA_MFM_SECTOR_SIZE, RIGEL_FLOPPY_MFM_TRACK_BYTES_PAL in *.
  change (gap_longs 13630 (11 * 1088)) with (Z.to_nat 414).
  change (11 * 1088 + 4 <=? 13630) with true. cbn [length]. lia.
Qed.

Section safety.
Context {W : Type} (dsksyn : bool).

(** ** Reachable states *)

(** What the rest of the program does to the controller; the world is changed
    by others between two events. *)
Inductive disk_event : DiskBoard W -> DiskBoard W -> Prop :=
  | ev_disk_reset d w : disk_event (d, w) (disk_reset d, w)
  | ev_disk_write floppy addr value b b' :
      is_u16 value -> rigel_disk_domain_write_reg dsksyn floppy addr value b = Some b' ->
      disk_event b b'
  | ev_disk_read addr d w : disk_event (d, w) ((rigel_disk_domain_read_reg addr d).2, w)
  | ev_disk_step n b : 0 <= n -> disk_event b (disk_step n b)
  | ev_disk_slot b : disk_event b (rigel_disk_domain_step_slot dsksyn b)
  | ev_disk_drive i d w : disk_event (d, w) (disk_set_drive i d, w)
  | ev_disk_sink s d w : disk_event (d, w) (disk_set_irq_sink s d, w)
  | ev_disk_memory s d w : disk_event (d, w) (disk_set_memory_if s d, w)
  | ev_disk_world d w w' : disk_event (d, w) (d, w').

(** The part of the state that locates the reads of the track buffer. *)
Record disk_wf (d : DiskState W) : Prop := {
  dw_buf : Z.of_nat (length (dma_track_buf d)) = RIGEL_FLOPPY_MFM_TRACK_BYTES_PAL;
  dw_len : dma_track_len d = 0 \/ dma_track_len d = RIGEL_FLOPPY_MFM_TRACK_BYTES_PAL;
  dw_src : 0 <= dma_src_offset d < RIGEL_FLOPPY_MFM_TRACK_BYTES_PAL;
}.

(** Two states that agree on it. *)
Definition same_ring (d d' : DiskState W) : Prop :=
  dma_track_buf d' = dma_track_buf d /\ dma_track_len d' = dma_track_len d /\
  dma_src_offset d' = dma_src_offset d.

Lemma same_ring_wf d d' : same_ring d d' -> disk_wf d -> disk_wf d'.
Proof. intros (E1 & E2 & E3) [H1 H2 H3]. split; congruence. Qed.

Lemma same_ring_refl d : same_ring d d.
Proof. by split_and!. Qed.

Lemma maybe_emit_ring d w : same_ring d (disk_maybe_emit_sync dsksyn (d, w)).1.
Proof.
  unfold disk_maybe_emit_sync. destruct (negb _); [apply same_ring_refl|].
  destruct (_ =? 0); [apply same_ring_refl|]. destruct (sync_irq_fired d); [apply same_ring_refl|].
  unfold disk_emit_irq. destruct dsksyn; cbn; [|by split_and!]. destruct (disk_irq d); by split_and!.
Qed.

(** The words read are inside the buffer. *)
Lemma grant_word_wf wr d w :
  dma_track_len d <> 0 -> disk_wf d -> disk_wf (disk_grant_word dsksyn wr (d, w)).1.
Proof.
  intros Hne [H1 H2 H3]. unfold disk_grant_word. cbv zeta.
  set (d1 := disk_load_dskbytr _ _).
  assert (Hb1 : dma_track_buf d1 = dma_track_buf d) by done.
  assert (Hl1 : dma_track_len d1 = dma_track_len d) by done.
  set (w1 := wr _ _ _). clearbody d1 w1.
  set (b2 := if _ =? dsksync d1 then _ else _).
  assert (Hr : dma_track_buf b2.1 = dma_track_buf d1 /\ dma_track_len b2.1 = dma_track_len d1).
  { unfold b2. destruct (_ =? _); [|done].
    destruct (maybe_emit_ring (d1 <| sync_seen := true |>) w1) as (E1 & E2 & _). by rewrite E1, E2. }
  destruct b2 as [d2 w2]. cbn [fst] in Hr. destruct Hr as [E1 E2].
  split; cbn; [rewrite E1, Hb1; exact H1|rewrite E2, Hl1; exact H2|].
  rewrite E2, Hl1. destruct H2 as [H2|H2]; [done|]. rewrite H2.
  apply Z.mod_pos_bound. unfold RIGEL_FLOPPY_MFM_TRACK_BYTES_PAL. lia.
Qed.

Lemma grant_end_wf d w : disk_wf d -> disk_wf (disk_grant_end dsksyn (d, w)).1.
Proof.
  intros H. unfold disk_grant_end. set (b := if sync_seen d then _ else _).
  assert (Hb : same_ring d b.1).
  { unfold b. destruct (sync_seen d); [|apply same_ring_refl].
    destruct (maybe_emit_ring (d <| sync_irq_fired := false |>) w) as (E1 & E2 & E3).
    by split_and!; [rewrite E1|rewrite E2|rewrite E3]. }
  destruct b as [d1 w1]. cbn [fst] in Hb. apply (same_ring_wf d); [|exact H].
  destruct Hb as (E1 & E2 & E3). unfold disk_emit_irq. cbn.
  destruct (disk_irq d1); split_and!; cbn; assumption.
Qed.

Lemma slot_wf b : disk_wf b.1 -> disk_wf (rigel_disk_domain_step_slot dsksyn b).1.
Proof.
  intros H. unfold rigel_disk_domain_step_slot. destruct (disk_dma_wants_service b.1); [|exact H].
  unfold disk_dma_service_grant. destruct (negb _); [exact H|].
  destruct (disk_chip_ram b.1) as [wr|]; [|exact H].
  destruct (Z.ltb_spec (dma_track_len b.1) 2); [exact H|]. cbv zeta. destruct b as [d w].
  cbn [fst] in *. assert (Hw : disk_wf (disk_grant_word dsksyn wr (d, w)).1)
    by (apply grant_word_wf; [lia|exact H]).
  destruct (_ <? _); [exact Hw|]. destruct (disk_grant_word dsksyn wr (d, w)) as [d1 w1].
  by apply grant_end_wf.
Qed.

Lemma disk_step_wf n b : disk_wf b.1 -> disk_wf (disk_step n b).1.
Proof.
  destruct b as [d w]. cbn [fst]. intros H. unfold disk_step.
  destruct (_ || _); [exact H|]. destruct (n <? _); [by apply (same_ring_wf d)|].
  unfold disk_emit_irq. cbn. destruct (disk_irq d); by apply (same_ring_wf d).
Qed.

(** ** Starting a transfer stays inside the buffer *)

Lemma start_track_wf n d w : disk_wf d -> disk_wf (disk_start_track dsksyn n (d, w)).1.
Proof.
  intros [H1 _ _]. unfold disk_start_track. cbv zeta.
  set (d1 := d <| dma_track_len := RIGEL_FLOPPY_MFM_TRACK_BYTES_PAL |>).
  change (dma_track_len d1) with RIGEL_FLOPPY_MFM_TRACK_BYTES_PAL.
  pose proof (find_sync_bounds (dma_track_buf d1) (dsksync d1)) as Hf.
  rewrite (wrap_small 32 (_ + 1)) by (unfold in_width, RIGEL_FLOPPY_MFM_TRACK_BYTES_PAL in *; lia).
  set (off := disk_track_find_sync _ _ _) in *.
  set (found := off + 1 <? RIGEL_FLOPPY_MFM_TRACK_BYTES_PAL).
  set (d2 := if found then _ else d1).
  assert (E2 : same_ring d1 d2) by (unfold d2; destruct found; by split_and!).
  destruct E2 as (Eb & El & _). set (src := if _ && found then off else 0).
  assert (Hsrc : 0 <= src < RIGEL_FLOPPY_MFM_TRACK_BYTES_PAL).
  { unfold src, found. clearbody off. unfold RIGEL_FLOPPY_MFM_TRACK_BYTES_PAL in *.
    destruct (Z.ltb_spec (off + 1) 13630); [|rewrite andb_false_r; lia].
    rewrite andb_true_r. destruct (negb _); lia. }
  clearbody d2 src. set (d3 := _ <| sync_seen := found |>).
  assert (H3 : disk_wf d3).
  { split; cbn; [by rewrite Eb|rewrite El; by right|exact Hsrc]. }
  pose proof (same_ring_wf _ _ (maybe_emit_ring d3 w) H3) as H4.
  destruct (disk_maybe_emit_sync dsksyn (d3, w)) as [d4 w4].
  by apply (same_ring_wf d4).
Qed.

(** A write of DSKLEN always succeeds and keeps the invariant. *)
Lemma write_dsklen_wf floppy value d w :
  disk_wf d -> exists b', disk_write_dsklen dsksyn floppy value (d, w) = Some b' /\ disk_wf b'.1.
Proof.
  intros H. unfold disk_write_dsklen.
  destruct (_ =? 0); [eexists; split; [done|]; by apply (same_ring_wf d)|].
  destruct (negb (dma_armed d)); [eexists; split; [done|]; by apply (same_ring_wf d)|].
  unfold disk_start_dma. cbv zeta. set (d1 := disk_start_fields value d).
  assert (H1 : disk_wf d1).
  { destruct H as [Hb _ _]. split; cbn; [exact Hb|by left|].
    unfold RIGEL_FLOPPY_MFM_TRACK_BYTES_PAL. lia. }
  clearbody d1. assert (Hfake : disk_wf (disk_fake_dma d1)) by (by apply (same_ring_wf d1)).
  destruct (_ || _); [by exists (d1, w)|].
  destruct (i ← drive d1; floppy !! i) as [fd|]; [|by exists (disk_fake_dma d1, w)].
  destruct (negb (floppy_has_media fd)); [by exists (disk_fake_dma d1, w)|].
  destruct (_ || _); [by exists (disk_fake_dma d1, w)|].
  destruct (encode_track_some (dma_track_buf d1)
    (drop (Z.to_nat (disk_track_offset (Some fd))) (default [] (adf fd)))
    (disk_track_offset (Some fd) / AMIGA_TRACK_SIZE) (dw_buf d1 H1)) as (buf & E & Hbl).
  rewrite E. cbn [mbind option_bind negb]. eexists. split; [reflexivity|].
  apply start_track_wf. destruct H1 as [_ Hl Hs]. split; [exact Hbl|exact Hl|exact Hs].
Qed.

Lemma write_reg_wf floppy addr value d w :
  disk_wf d -> exists b', rigel_disk_domain_write_reg dsksyn floppy addr value (d, w) = Some b' /\
    disk_wf b'.1.
Proof.
  intros H. unfold rigel_disk_domain_write_reg.
  destruct (disk_reg addr) as [[]|]; try (by exists (d, w)); try by apply write_dsklen_wf.
  - eexists. split; [reflexivity|]. by apply (same_ring_wf d).
  - eexists. split; [reflexivity|]. by apply (same_ring_wf d).
  - eexists. split; [reflexivity|]. unfold disk_write_dsksync.
    set (d1 := d <| dsksync := value |> <| sync_irq_fired := false |>).
    apply (same_ring_wf d1); [apply maybe_emit_ring|]. by apply (same_ring_wf d).
  - eexists. split; [reflexivity|]. unfold disk_write_adkcon. set (d1 := if has value _ then _ else _).
    apply (same_ring_wf d1); [apply maybe_emit_ring|].
    apply (same_ring_wf d); [|exact H]. unfold d1. destruct (has value _); by split_and!.
Qed.

Lemma read_reg_wf addr d : disk_wf d -> disk_wf (rigel_disk_domain_read_reg addr d).2.
Proof.
  intros H. unfold rigel_disk_domain_read_reg.
  destruct (disk_reg addr) as [[]|]; try exact H. by apply (same_ring_wf d).
Qed.

Lemma disk_event_wf b b' : disk_event b b' -> disk_wf b.1 -> disk_wf b'.1.
Proof.
  intros [] Hb; cbn [fst] in *; try exact Hb; try by apply (same_ring_wf d).
  - destruct Hb as [H1 _ _]. split; cbn; [exact H1|by left|].
    unfold RIGEL_FLOPPY_MFM_TRACK_BYTES_PAL. lia.
  - destruct b0 as [d1 w1].
    destruct (write_reg_wf floppy addr value d1 w1 Hb) as (b2 & E & Hw). congruence.
  - by apply read_reg_wf.
  - by apply disk_step_wf.
  - by apply slot_wf.
Qed.

(** Memory safety of the controller.  From reset on, through any register
    writes, slots, steps and changes of drive and disk, no operation stores
    outside the 13630-byte track buffer (a register write always has a result),
    and the position of the next word to move is inside it. *)
Theorem disk_stays_in_track_buffer d0 w0 b floppy addr value :
  Z.of_nat (length (dma_track_buf d0)) = RIGEL_FLOPPY_MFM_TRACK_BYTES_PAL ->
  rtc disk_event (disk_reset d0, w0) b ->
  Z.of_nat (length (dma_track_buf b.1)) = RIGEL_FLOPPY_MFM_TRACK_BYTES_PAL /\
  (dma_track_len b.1 = 0 \/ dma_track_len b.1 = RIGEL_FLOPPY_MFM_TRACK_BYTES_PAL) /\
  0 <= dma_src_offset b.1 < RIGEL_FLOPPY_MFM_TRACK_BYTES_PAL /\
  exists b', rigel_disk_domain_write_reg dsksyn floppy addr value b = Some b'.
Proof.
  intros Hl Hr. assert (H : disk_wf b.1).
  { revert Hr. apply (rtc_ind_r (fun b => disk_wf b.1)).
    - split; cbn; [exact Hl|by left|]. unfold RIGEL_FLOPPY_MFM_TRACK_BYTES_PAL. lia.
    - intros x y _ Hxy Hx. exact (disk_event_wf x y Hxy Hx). }
  split; [apply (dw_buf _ H)|]. split; [apply (dw_len _ H)|]. split; [apply (dw_src _ H)|].
  destruct b as [d w]. destruct (write_reg_wf floppy addr value d w H) as (b' & E & _). by exists b'.
Qed.

(** ** Waiting transfers *)

Definition disk_steps (ns : list Z) (b : DiskBoard W) : DiskBoard W :=
  foldl (fun b n => disk_step n b) b ns.

Lemma step_waiting n d (w : W) :
  dma_active d = true -> dma_bytes_total d = 0 -> 0 <= n < countdown d ->
  disk_step n (d, w) = (d <| countdown := countdown d - n |>, w).
Proof.
  intros Ha Ht Hn. unfold disk_step. rewrite Ha, Ht, (proj2 (Z.eqb_neq _ _)) by lia. cbn.
  by rewrite (proj2 (Z.ltb_lt _ _)) by lia.
Qed.

(** The deadline of a transfer without a track.  The announced number of
    cycles is exact however time is cut into steps: before it the controller
    only counts, and the step that reaches it ends the transfer and raises
    DSKBLK, once. *)
Theorem disk_deadline_exact ns n d w raise :
  dma_active d = true -> dma_bytes_total d = 0 -> Forall (fun n => 0 <= n) ns ->
  foldr Z.add 0 ns < disk_cycles_to_next_event d <= foldr Z.add 0 ns + n ->
  0 < countdown d -> disk_irq d = Some raise ->
  let b := disk_steps ns (d, w) in
  b.2 = w /\ dma_active b.1 = true /\
  disk_cycles_to_next_event b.1 = disk_cycles_to_next_event d - foldr Z.add 0 ns /\
  (disk_step n b).2 = raise w 0x0002 /\ dma_active (disk_step n b).1 = false /\
  disk_cycles_to_next_event (disk_step n b).1 = 0xffffffff.
Proof.
  intros Ha Ht Hns Hsum Hc Hi. cbv zeta.
  assert (Hev : forall d : DiskState W, dma_active d = true -> dma_bytes_total d = 0 -> 0 < countdown d ->
    disk_cycles_to_next_event d = countdown d).
  { intros e E1 E2 E3. unfold disk_cycles_to_next_event. rewrite E1, E2.
    by rewrite (proj2 (Z.ltb_lt _ _)) by lia. }
  rewrite (Hev d) in * by done.
  assert (H : forall d w, dma_active d = true -> dma_bytes_total d = 0 -> disk_irq d = Some raise ->
     foldr Z.add 0 ns < countdown d ->
     exists d', disk_steps ns (d, w) = (d', w) /\ dma_active d' = true /\ dma_bytes_total d' = 0 /\
       disk_irq d' = Some raise /\ countdown d' = countdown d - foldr Z.add 0 ns).
  { clear -Hns. induction Hns as [|m ns Hm Hns IH]; intros d w Ha Ht Hi Hlt.
    - exists d. cbn. split_and!; try done. lia.
    - cbn [disk_steps foldl foldr] in *. assert (0 <= foldr Z.add 0 ns) by (clear -Hns; induction Hns; cbn; lia).
      rewrite step_waiting by (done || lia).
      destruct (IH (d <| countdown := countdown d - m |>) w) as (d' & E & ? & ? & ? & E'); try done;
        [cbn; lia|]. exists d'. cbn in E'. split_and!; try done. lia. }
  destruct (H d w Ha Ht Hi) as (d' & -> & Ha' & Ht' & Hi' & Hc'); [lia|]. cbn [fst snd].
  assert (Es : disk_step n (d', w) = (disk_finish (d' <| countdown := 0 |>), raise w 0x0002)).
  { unfold disk_step. rewrite Ha', Ht', (proj2 (Z.eqb_neq _ _)) by lia. cbn [negb orb Z.ltb Z.compare].
    rewrite (proj2 (Z.ltb_ge _ _)) by lia. unfold disk_emit_irq. cbn [fst snd].
    change (disk_irq (disk_finish (d' <| countdown := 0 |>))) with (disk_irq d'). by rewrite Hi'. }
  rewrite Es, (Hev d') by (done || lia). cbn [fst snd].
  split; [done|]. split; [done|]. split; [exact Hc'|]. by split_and!.
Qed.

(** A write transfer never ends: nothing counts it down and no slot is
    requested, so it stays active without an interrupt until DSKLEN is written
    again. *)
Theorem write_transfer_never_ends floppy value d w (evs : list (option Z)) :
  dma_armed d = true -> has value RIGEL_PAULA_DSKLEN_DMAEN = true ->
  has value RIGEL_PAULA_DSKLEN_WRITE = true ->
  exists d', disk_write_dsklen dsksyn floppy value (d, w) = Some (d', w) /\
    dma_active d' = true /\ disk_cycles_to_next_event d' = 0xffffffff /\
    foldl (fun (b : DiskBoard W) ev => match ev with
                       | Some n => disk_step n b
                       | None => rigel_disk_domain_step_slot dsksyn b
                       end) (d', w) evs = (d', w).
Proof.
  intros Harm Hen Hwr. unfold disk_write_dsklen. unfold has in Hen.
  rewrite negb_true_iff in Hen. rewrite Hen, Harm. cbn [negb].
  unfold disk_start_dma. cbv zeta. set (d' := disk_start_fields value d).
  change (write_mode d') with (has value RIGEL_PAULA_DSKLEN_WRITE). rewrite Hwr.
  exists d'. split_and!; try done. induction evs as [|ev evs IH]; [done|]. cbn [foldl].
  replace (match ev with Some n => _ | None => _ end) with (d', w); [exact IH|].
  destruct ev as [n|]; [done|].
  unfold rigel_disk_domain_step_slot, disk_dma_wants_service. cbn [fst].
  change (write_mode d') with (has value RIGEL_PAULA_DSKLEN_WRITE). rewrite Hwr. done.
Qed.

End safety.

(** ** Witnesses *)

(** A controller out of reset over a world of raised masks. *)
Definition disk0 : DiskState (list Z) :=
  mkDisk 0 0 0 0 0x4489 0 false false false false false 0 0 0 0 0 0 0 0 0
    (replicate (Z.to_nat 13630) 0) None None (Some (fun w m => m :: w)).

Definition disk0_armed : DiskState (list Z) :=
  (disk_reset disk0) <| dsklen := 0x8000 |> <| armed_dsklen := 0x8000 |> <| dma_armed := true |>.

Lemma disk_stays_in_track_buffer_witness :
  Z.of_nat (length (dma_track_buf disk0_armed)) = RIGEL_FLOPPY_MFM_TRACK_BYTES_PAL /\
  (dma_track_len disk0_armed = 0 \/ dma_track_len disk0_armed = RIGEL_FLOPPY_MFM_TRACK_BYTES_PAL) /\
  0 <= dma_src_offset disk0_armed < RIGEL_FLOPPY_MFM_TRACK_BYTES_PAL /\
  exists b', rigel_disk_domain_write_reg true [] 0x24 0x8001 (disk0_armed, []) = Some b'.
Proof.
  apply (disk_stays_in_track_buffer true disk0 [] (disk0_armed, []) [] 0x24 0x8001).
  - unfold disk0. cbn. rewrite length_replicate. reflexivity.
  - apply rtc_once. apply (ev_disk_write true [] 0x24 0x8000); [closed_range|reflexivity].
Defined.

Definition disk0_waiting : DiskState (list Z) :=
  (disk_reset disk0) <| dma_active := true |> <| countdown := 46000 |>.

Lemma disk_deadline_exact_witness :
  let b := disk_steps [20000; 25999] (disk0_waiting, []) in
  b.2 = [] /\ dma_active b.1 = true /\ disk_cycles_to_next_event b.1 = 46000 - 45999 /\
  (disk_step 5 b).2 = [0x0002] /\ dma_active (disk_step 5 b).1 = false /\
  disk_cycles_to_next_event (disk_step 5 b).1 = 0xffffffff.
Proof.
  apply (disk_deadline_exact [20000; 25999] 5 disk0_waiting [] (fun w m => m :: w)).
  - reflexivity.
  - reflexivity.
  - repeat apply Forall_cons_2; [lia|lia|apply Forall_nil_2].
  - vm_compute. split; congruence.
  - reflexivity.
  - reflexivity.
Defined.
