(* ===== verification/DiskFacts.v ===== *)
(** * Disk transfers

    What a transfer started by two writes of DSKLEN leaves in chip RAM and in
    the interrupt requests.  [DiskHost] is what the controller asks of the world
    its callbacks act on; the memory and interrupt controller of the library
    are an instance. *)

From stdpp Require Import gmap.
From S2P Require Import Prelude Bytes Interrupt ChipRam Mfm MfmSector MfmTrack MfmDecode Floppy Disk DiskSafety.

(** ** The world of the callbacks *)

(** [rd] reads a word of chip RAM, [req] the interrupt requests. *)
Class DiskHost {W : Type} (wr : W -> Z -> Z -> W) (raise : W -> Z -> W)
    (rd : W -> Z -> Z) (req : W -> Z) : Prop := {
  host_rd_same w a v : is_u16 v -> rd (wr w a v) a = v;
  host_rd_other w a b v : a <> b -> rd (wr w a v) b = rd w b;
  host_rd_raise w m a : rd (raise w m) a = rd w a;
  host_req_wr w a v : req (wr w a v) = req w;
  host_req_raise w m : in_width 15 m -> is_u16 (req w) -> req (raise w m) = req w .| m;
}.

(** Words of memory beside the interrupt controller. *)
Definition board_wr (w : gmap Z Z * RigelInterruptDomain) (a v : Z) : gmap Z Z * RigelInterruptDomain :=
  (word_wr w.1 a v, w.2).
Definition board_raise (w : gmap Z Z * RigelInterruptDomain) (m : Z) : gmap Z Z * RigelInterruptDomain :=
  (w.1, rigel_paula_interrupts_raise w.2 m).
Definition board_rd (w : gmap Z Z * RigelInterruptDomain) (a : Z) : Z := word_rd w.1 a.
Definition board_req (w : gmap Z Z * RigelInterruptDomain) : Z := intreq w.2.

#[export] Instance board_host : DiskHost board_wr board_raise board_rd board_req.
Proof.
  pose proof (word_ram_laws (fun _ => True)) as L. split.
  - intros w a v Hv. by apply (ram_read_same (RamLaws := L)).
  - intros w a b v Hab. by apply (ram_read_other (RamLaws := L)).
  - done.
  - done.
  - intros w m Hm Hr. unfold board_req, board_raise. cbn [snd].
    unfold rigel_paula_interrupts_raise, rigel_interrupt_domain_raise,
      rigel_interrupt_domain_update. cbn.
    change 0x7fff with (Z.ones 15). rewrite Z.land_ones by lia.
    rewrite (wrap_small 15 m Hm : m mod 2 ^ 15 = m).
    apply wrap_small. apply in_width_lor; [lia|exact Hr|]. by apply (in_width_mono 15).
Qed.

(** ** One granted slot *)

(** Where the next word is read: the buffer is a ring. *)
Definition ring_pos (len src : Z) : Z := if len <=? src + 1 then 0 else src.

Fixpoint ring_at (len src : Z) (k : nat) : Z :=
  match k with
  | O => src
  | S k => (ring_pos len (ring_at len src k) + 2) mod len
  end.

(** The word the [k]-th slot of a transfer moves. *)
Definition ring_word (buf : list Z) (len src : Z) (k : nat) : Z :=
  disk_read_be16 buf (ring_pos len (ring_at len src k)).

Lemma read_be16_u16 p i : is_u16 (disk_read_be16 p i).
Proof. unfold disk_read_be16. apply wrap_range. lia. Qed.

Lemma ring_at_range len src k : 0 < len -> 0 <= src < len -> 0 <= ring_at len src k < len.
Proof. intros Hl Hs. destruct k; cbn [ring_at]; [done|]. apply Z.mod_pos_bound. lia. Qed.

Lemma ring_pos_range len src : 2 <= len -> 0 <= src < len -> 0 <= ring_pos len src < len - 1.
Proof. intros Hl Hs. unfold ring_pos. destruct (Z.leb_spec len (src + 1)); lia. Qed.

(** From the start of a buffer of even size, the words follow one another. *)
Lemma ring_at_even h k : 0 < h -> ring_at (2 * h) 0 k = 2 * (Z.of_nat k mod h).
Proof.
  intros Hh. induction k as [|k IH]; [done|]. cbn [ring_at]. rewrite IH.
  pose proof (Z.mod_pos_bound (Z.of_nat k) h Hh).
  unfold ring_pos. rewrite (proj2 (Z.leb_gt _ _)) by lia.
  replace (2 * (Z.of_nat k mod h) + 2) with (2 * (Z.of_nat k mod h + 1)) by lia.
  rewrite Z.mul_mod_distr_l, Z.add_mod_idemp_l by lia. do 2 f_equal. lia.
Qed.

(** ** A transfer *)

Section transfer.
Context {W : Type} (wr : W -> Z -> Z -> W) (raise : W -> Z -> W)
  (rd : W -> Z -> Z) (req : W -> Z) {H : DiskHost wr raise rd req} (dsksyn : bool).

(** The controller in the middle of a transfer of [total] bytes to [p] from
    position [src] of the buffer, [k] slots having been granted. *)
Record transferring (p total : Z) (buf : list Z) (src : Z) (k : nat) (d : DiskState W) : Prop := {
  tr_active : dma_active d = true;
  tr_mode : write_mode d = false;
  tr_base : dma_ptr_base d = p;
  tr_total : dma_bytes_total d = total;
  tr_done : dma_bytes_done d = 2 * Z.of_nat k;
  tr_src : dma_src_offset d = ring_at (Z.of_nat (length buf)) src k;
  tr_len : dma_track_len d = Z.of_nat (length buf);
  tr_buf : dma_track_buf d = buf;
  tr_ram : disk_chip_ram d = Some wr;
  tr_irq : disk_irq d = Some raise;
  tr_countdown : countdown d = 0;
}.

(** The world after a call that may have raised the sync interrupt. *)
Definition quiet (w w' : W) : Prop :=
  (forall a, rd w' a = rd w a) /\ is_u16 (req w') /\ Z.testbit (req w') 1 = Z.testbit (req w) 1.

Lemma quiet_refl w : is_u16 (req w) -> quiet w w.
Proof. intros Hw. split; [done|]. split; [exact Hw|done]. Qed.

Lemma raise_req w m : in_width 15 m -> is_u16 (req w) -> is_u16 (req (raise w m)).
Proof.
  intros Hm Hw. rewrite (host_req_raise w m Hm Hw). apply in_width_lor; [lia|done|].
  by apply (in_width_mono 15).
Qed.

Lemma quiet_raise_sync w : is_u16 (req w) -> quiet w (raise w 0x1000).
Proof.
  intros Hw. split; [intros a; apply host_rd_raise|]. split; [apply raise_req; [closed_range|done]|].
  rewrite host_req_raise by (closed_range || done). rewrite Z.lor_spec. apply orb_false_r.
Qed.

Lemma emit_sync_spec d w :
  disk_irq d = Some raise -> is_u16 (req w) ->
  exists fired w', disk_maybe_emit_sync dsksyn (d, w) = (d <| sync_irq_fired := fired |>, w') /\
    quiet w w'.
Proof.
  intros Hi Hw. pose proof (quiet_refl w Hw). unfold disk_maybe_emit_sync.
  destruct (negb (sync_seen d)); [exists (sync_irq_fired d), w; destruct d; auto|].
  destruct (_ =? 0); [exists (sync_irq_fired d), w; destruct d; auto|].
  destruct (sync_irq_fired d) eqn:E; [exists true, w; rewrite <- E; destruct d; auto|].
  exists true. destruct dsksyn; [|exists w; auto].
  exists (raise w 0x1000). unfold disk_emit_irq. cbn. rewrite Hi.
  split; [done|]. by apply quiet_raise_sync.
Qed.

Lemma see_sync_spec (c : bool) d w :
  disk_irq d = Some raise -> is_u16 (req w) ->
  exists seen fired w',
    (if c then disk_maybe_emit_sync dsksyn (d <| sync_seen := true |>, w) else (d, w)) =
      (d <| sync_seen := seen |> <| sync_irq_fired := fired |>, w') /\ quiet w w'.
Proof.
  intros Hi Hw. destruct c.
  - set (d1 := d <| sync_seen := true |>).
    destruct (emit_sync_spec d1 w Hi Hw) as (f & w' & E & Hq).
    exists true, f, w'. split; [exact E|exact Hq].
  - exists (sync_seen d), (sync_irq_fired d), w. split; [by destruct d|by apply quiet_refl].
Qed.

Lemma again_sync_spec d w :
  disk_irq d = Some raise -> is_u16 (req w) ->
  exists fired w',
    (if sync_seen d then disk_maybe_emit_sync dsksyn (d <| sync_irq_fired := false |>, w) else (d, w)) =
      (d <| sync_irq_fired := fired |>, w') /\ quiet w w'.
Proof.
  intros Hi Hw. destruct (sync_seen d).
  - set (d1 := d <| sync_irq_fired := false |>).
    destruct (emit_sync_spec d1 w Hi Hw) as (f & w' & E & Hq).
    exists f, w'. split; [exact E|exact Hq].
  - exists (sync_irq_fired d), w. split; [by destruct d|by apply quiet_refl].
Qed.

(** One word moved: it is in memory, and at most the sync interrupt was
    raised. *)
Lemma grant_word p total buf src k d w :
  transferring p total buf src k d ->
  2 <= Z.of_nat (length buf) < 2 ^ 31 -> 0 <= src < Z.of_nat (length buf) ->
  2 * Z.of_nat k < total < 2 ^ 31 -> is_u16 (req w) ->
  exists d' w', disk_grant_word dsksyn wr (d, w) = (d', w') /\
    transferring p total buf src (S k) d' /\
    quiet (wr w (u32 (p + 2 * Z.of_nat k)) (ring_word buf (Z.of_nat (length buf)) src k)) w'.
Proof.
  intros [Ha Hm Hb Ht Hd Hs Hl Hbuf Hr Hi Hc] Hlen Hsrc Hk Hreq.
  pose proof (ring_at_range (Z.of_nat (length buf)) src k ltac:(lia) Hsrc) as Hrange.
  pose proof (ring_pos_range (Z.of_nat (length buf)) _ ltac:(lia) Hrange) as Hpos.
  unfold disk_grant_word. set (pos := if _ <=? u32 (dma_src_offset d + 1) then 0 else _).
  assert (Epos : pos = ring_pos (Z.of_nat (length buf)) (ring_at (Z.of_nat (length buf)) src k)).
  { unfold pos, ring_pos. rewrite Hs, Hl, wrap_small by (unfold in_width; lia). reflexivity. }
  clearbody pos. cbv zeta.
  set (d1 := disk_load_dskbytr _ (d <| dma_src_offset := pos |>)).
  set (word := disk_read_be16 _ _) in *.
  assert (Eword : word = ring_word buf (Z.of_nat (length buf)) src k).
  { unfold word, ring_word. rewrite <- Epos, <- Hbuf. reflexivity. }
  rewrite Hb, Hd. set (w1 := wr w _ word).
  assert (Hw1 : is_u16 (req w1)) by (unfold w1; by rewrite host_req_wr).
  destruct (see_sync_spec (word =? dsksync d1) d1 w1 Hi Hw1) as (seen & fired & w2 & E & Hq).
  rewrite E. eexists _, _. split; [reflexivity|]. split.
  - split; try assumption; cbn.
    + rewrite Hd, wrap_small by (unfold in_width; lia). lia.
    + rewrite Hl, <- Epos, wrap_small by (unfold in_width; lia). reflexivity.
  - unfold w1 in Hq. rewrite Eword in Hq. exact Hq.
Qed.

(** The end: DSKBLK is requested and the pointer is past the data. *)
Lemma grant_end p total buf src k d w :
  transferring p total buf src k d -> is_u16 (req w) ->
  exists d' w', disk_grant_end dsksyn (d, w) = (d', w') /\
    (forall a, rd w' a = rd w a) /\ dma_active d' = false /\ dskptr d' = u32 (p + total) /\
    Z.testbit (req w') 1 = true.
Proof.
  intros [Ha Hm Hb Ht Hd Hs Hl Hbuf Hr Hi Hc] Hreq. unfold disk_grant_end.
  destruct (again_sync_spec d w Hi Hreq) as (fired & w1 & E & Hq1 & Hq2 & Hq3). rewrite E.
  unfold disk_emit_irq. cbn. rewrite Hi. eexists _, _. split; [reflexivity|].
  split; [intros a; rewrite host_rd_raise; apply Hq1|]. split; [done|].
  split; [cbn; by rewrite Hb, Ht|].
  rewrite host_req_raise by (closed_range || exact Hq2). rewrite Z.lor_spec. apply orb_true_r.
Qed.

Lemma wants_service_transferring p total buf src k d :
  transferring p total buf src k d -> 2 * Z.of_nat k < total -> disk_dma_wants_service d = true.
Proof.
  intros [Ha Hm Hb Ht Hd _ _ _ _ _ _] Hk. unfold disk_dma_wants_service.
  rewrite Ha, Hm, Ht, Hd. cbn. by rewrite (proj2 (Z.leb_gt _ _)) by lia.
Qed.

(** A slot granted in the middle of a transfer. *)
Lemma grant_transferring p total buf src k d w :
  transferring p total buf src k d -> 2 <= Z.of_nat (length buf) -> 2 * Z.of_nat k < total ->
  disk_dma_service_grant dsksyn (d, w) =
    let b := disk_grant_word dsksyn wr (d, w) in
    if dma_bytes_done b.1 <? dma_bytes_total b.1 then b else disk_grant_end dsksyn b.
Proof.
  intros Htr Hlen Hk. unfold disk_dma_service_grant. cbn [fst].
  rewrite (wants_service_transferring p total buf src k d Htr Hk). cbn [negb].
  rewrite (tr_ram _ _ _ _ _ _ Htr), (tr_len _ _ _ _ _ _ Htr).
  by rewrite (proj2 (Z.ltb_ge _ _)) by lia.
Qed.

(** The memory after slots [k] to [k + n - 1]. *)
Definition moved (p : Z) (buf : list Z) (src : Z) (k n : nat) (w w' : W) : Prop :=
  (forall j, (k <= j < k + n)%nat ->
     rd w' (p + 2 * Z.of_nat j) = ring_word buf (Z.of_nat (length buf)) src j) /\
  (forall a, (forall j, (k <= j < k + n)%nat -> a <> p + 2 * Z.of_nat j) -> rd w' a = rd w a).

Lemma moved_0 p buf src k w : moved p buf src k 0 w w.
Proof. split; [intros; lia|done]. Qed.

Lemma moved_S p buf src k n w w1 w' :
  (forall a, rd w1 a = rd (wr w (p + 2 * Z.of_nat k)
                             (ring_word buf (Z.of_nat (length buf)) src k)) a) ->
  moved p buf src (S k) n w1 w' -> moved p buf src k (S n) w w'.
Proof.
  intros H1 [Hin Hout]. split.
  - intros j Hj. destruct (decide (j = k)) as [->|]; [|apply Hin; lia].
    rewrite Hout by lia. rewrite H1. apply host_rd_same, read_be16_u16.
  - intros a Ha. rewrite Hout by (intros j Hj; apply Ha; lia). rewrite H1.
    apply host_rd_other. intros <-. apply (Ha k); lia.
Qed.

(** All the slots but the last, then the last. *)
Lemma grants_middle p total buf src n : forall k d w,
  transferring p total buf src k d ->
  2 <= Z.of_nat (length buf) < 2 ^ 31 -> 0 <= src < Z.of_nat (length buf) ->
  2 * Z.of_nat (k + n) < total -> total < 2 ^ 31 -> 0 <= p -> p + total <= 2 ^ 32 ->
  is_u16 (req w) ->
  exists d' w', Nat.iter n (disk_dma_service_grant dsksyn) (d, w) = (d', w') /\
    transferring p total buf src (k + n) d' /\ moved p buf src k n w w' /\
    is_u16 (req w') /\ Z.testbit (req w') 1 = Z.testbit (req w) 1.
Proof.
  induction n as [|n IH]; intros k d w Htr Hlen Hsrc Ht H31 Hp Hp2 Hreq.
  - exists d, w. rewrite Nat.add_0_r. split; [done|]. split; [exact Htr|].
    split; [apply moved_0|done].
  - rewrite Nat.iter_succ_r.
    destruct (grant_word p total buf src k d w Htr Hlen Hsrc) as (d1 & w1 & E & Htr1 & Hq1 & Hq2 & Hq3);
      [lia|done|].
    rewrite (grant_transferring p total buf src k d w Htr), E by lia. cbn [fst]. cbv zeta.
    rewrite (tr_done _ _ _ _ _ _ Htr1), (tr_total _ _ _ _ _ _ Htr1).
    rewrite (proj2 (Z.ltb_lt _ _)) by lia.
    rewrite wrap_small in Hq1, Hq3 by (unfold in_width; lia).
    destruct (IH (S k) d1 w1 Htr1) as (d' & w' & E' & Htr' & Hmv & Hr & Hb); try assumption; try lia.
    exists d', w'. split; [exact E'|]. replace (k + S n)%nat with (S k + n)%nat by lia.
    split; [exact Htr'|]. split; [by apply (moved_S p buf src k n w w1)|]. split; [exact Hr|].
    rewrite Hb, Hq3. by rewrite host_req_wr.
Qed.

Lemma grants_all p total buf src n d w :
  transferring p total buf src 0 d ->
  2 <= Z.of_nat (length buf) < 2 ^ 31 -> 0 <= src < Z.of_nat (length buf) ->
  total = 2 * Z.of_nat (S n) -> total < 2 ^ 31 -> 0 <= p -> p + total <= 2 ^ 32 ->
  is_u16 (req w) ->
  let b := Nat.iter (S n) (disk_dma_service_grant dsksyn) (d, w) in
  moved p buf src 0 (S n) w b.2 /\
  dma_active b.1 = false /\ dskptr b.1 = u32 (p + total) /\ Z.testbit (req b.2) 1 = true.
Proof.
  intros Htr Hlen Hsrc Ht H31 Hp Hp2 Hreq. cbv zeta.
  destruct (grants_middle p total buf src n 0 d w Htr) as (d1 & w1 & E & Htr1 & Hmv & Hr & _);
    try assumption; try lia.
  change (Nat.iter (S n) (disk_dma_service_grant dsksyn) (d, w))
    with (disk_dma_service_grant dsksyn (Nat.iter n (disk_dma_service_grant dsksyn) (d, w))).
  rewrite E. rewrite Nat.add_0_l in Htr1.
  destruct (grant_word p total buf src n d1 w1 Htr1 Hlen Hsrc) as (d2 & w2 & E2 & Htr2 & Hq1 & Hq2 & Hq3);
    [lia|done|].
  rewrite (grant_transferring p total buf src n d1 w1 Htr1), E2 by lia. cbn [fst]. cbv zeta.
  rewrite (tr_done _ _ _ _ _ _ Htr2), (tr_total _ _ _ _ _ _ Htr2).
  rewrite (proj2 (Z.ltb_ge _ _)) by lia.
  destruct (grant_end p total buf src (S n) d2 w2 Htr2 Hq2) as (d' & w' & E3 & Hrd & Hact & Hptr & Hirq).
  rewrite E3. cbn [fst snd]. split; [|by split_and!].
  rewrite wrap_small in Hq1 by (unfold in_width; lia).
  destruct Hmv as [Hin Hout]. split.
  - intros j Hj. rewrite Hrd, Hq1. destruct (decide (j = n)) as [->|].
    + apply host_rd_same, read_be16_u16.
    + rewrite host_rd_other by lia. apply Hin. lia.
  - intros a Ha. rewrite Hrd, Hq1, host_rd_other by (intros <-; apply (Ha n); lia).
    apply Hout. intros j Hj. apply Ha. lia.
Qed.
End transfer.

(** ** The start of a transfer *)

(** A controller whose drive [fd] holds the image [img], the head on the track
    [t], and whose callbacks are [wr] and [raise]. *)
Record mounted {W} (wr : W -> Z -> Z -> W) (raise : W -> Z -> W) (floppy : list FloppyDrive)
    (fd : FloppyDrive) (img : list Z) (t : Z) (d : DiskState W) : Prop := {
  mt_drive : (i ← drive d; floppy !! i) = Some fd;
  mt_media : floppy_has_media fd = true;
  mt_image : adf fd = Some img /\ adf_size fd = Z.of_nat (length img) /\ is_u32 (Z.of_nat (length img));
  mt_track : t = 2 * cylinder fd + (if truthy (side fd) then 1 else 0) /\
    0 <= cylinder fd < FLOPPY_ADF_CYLINDERS;
  mt_fits : (t + 1) * AMIGA_TRACK_SIZE <= Z.of_nat (length img);
  mt_buf : Z.of_nat (length (dma_track_buf d)) = RIGEL_FLOPPY_MFM_TRACK_BYTES_PAL;
  mt_ram : disk_chip_ram d = Some wr;
  mt_irq : disk_irq d = Some raise;
}.

Lemma track_offset_mounted {W} wr raise floppy fd img t (d : DiskState W) :
  mounted wr raise floppy fd img t d -> disk_track_offset (Some fd) = t * AMIGA_TRACK_SIZE /\ 0 <= t < 160.
Proof.
  intros [_ _ _ [-> Hc] _ _ _ _]. unfold disk_track_offset.
  change AMIGA_TRACK_SIZE with 5632. unfold FLOPPY_ADF_CYLINDERS in Hc.
  assert (E : (cylinder fd .<< 1) .| (if truthy (side fd) then 1 else 0) =
    2 * cylinder fd + (if truthy (side fd) then 1 else 0)).
  { rewrite Z.shiftl_mul_pow2 by lia. change (2 ^ 1) with 2.
    rewrite <- Z.lor_comm. change (if truthy (side fd) then 1 else 0) with (b2u (truthy (side fd))).
    destruct (truthy (side fd)); cbn.
    - rewrite Z.lor_comm. rewrite (Z.mul_comm _ 2). destruct (cylinder fd); [done| |lia]. done.
    - rewrite Z.lor_0_l. lia. }
  rewrite E. set (t := 2 * cylinder fd + _). assert (0 <= t < 160)
    by (unfold t; destruct (truthy (side fd)); lia).
  rewrite (wrap_small 32 t), wrap_small by (unfold in_width; lia). lia.
Qed.

Section start.
Context {W : Type} (wr : W -> Z -> Z -> W) (raise : W -> Z -> W)
  (rd : W -> Z -> Z) (req : W -> Z) {H : DiskHost wr raise rd req} (dsksyn : bool).

(** Where a transfer starts reading. *)
Definition start_pos (d : DiskState W) (buf : list Z) : Z :=
  let off := disk_track_find_sync buf RIGEL_FLOPPY_MFM_TRACK_BYTES_PAL (dsksync d) in
  if negb (adkcon d .& RIGEL_PAULA_ADKCON_WORDSYNC =? 0) &&
     (off + 1 <? RIGEL_FLOPPY_MFM_TRACK_BYTES_PAL) then off else 0.

Lemma start_pos_range d buf : 0 <= start_pos d buf < RIGEL_FLOPPY_MFM_TRACK_BYTES_PAL.
Proof.
  unfold start_pos. pose proof (find_sync_bounds buf (dsksync d)).
  destruct (Z.ltb_spec (disk_track_find_sync buf RIGEL_FLOPPY_MFM_TRACK_BYTES_PAL (dsksync d) + 1)
    RIGEL_FLOPPY_MFM_TRACK_BYTES_PAL); [|rewrite andb_false_r; unfold RIGEL_FLOPPY_MFM_TRACK_BYTES_PAL; lia].
  destruct (_ && _); unfold RIGEL_FLOPPY_MFM_TRACK_BYTES_PAL in *; lia.
Qed.

Lemma start_track_spec n p buf d w :
  dma_active d = true -> write_mode d = false -> dma_ptr_base d = p -> dma_bytes_done d = 0 ->
  countdown d = 0 -> dma_track_buf d = buf ->
  Z.of_nat (length buf) = RIGEL_FLOPPY_MFM_TRACK_BYTES_PAL ->
  disk_chip_ram d = Some wr -> disk_irq d = Some raise -> 0 <= n < 2 ^ 31 -> is_u16 (req w) ->
  exists d' w', disk_start_track dsksyn n (d, w) = (d', w') /\
    transferring wr raise p (2 * n) buf (start_pos d buf) 0 d' /\ quiet rd req w w'.
Proof.
  intros Ha Hm Hp Hd Hc Hb Hl Hr Hi Hn Hw. unfold disk_start_track. cbv zeta.
  set (d1 := d <| dma_track_len := RIGEL_FLOPPY_MFM_TRACK_BYTES_PAL |>).
  change (dma_track_buf d1) with (dma_track_buf d). change (dsksync d1) with (dsksync d).
  change (dma_track_len d1) with RIGEL_FLOPPY_MFM_TRACK_BYTES_PAL. rewrite Hb.
  pose proof (find_sync_bounds buf (dsksync d)) as Hf.
  rewrite (wrap_small 32 (_ + 1)) by (unfold in_width, RIGEL_FLOPPY_MFM_TRACK_BYTES_PAL in *; lia).
  set (off := disk_track_find_sync _ _ _) in *.
  set (found := off + 1 <? RIGEL_FLOPPY_MFM_TRACK_BYTES_PAL).
  set (d2 := if found then _ else d1).
  assert (E2 : exists x y, d2 = d1 <| dskbytr_data := x |> <| dskdatr := y |>).
  { unfold d2. destruct found; [eexists _, _; reflexivity|].
    exists (dskbytr_data d1), (dskdatr d1). by destruct d. }
  destruct E2 as (x & y & E2). clearbody d2. subst d2.
  set (d3 := _ <| sync_seen := found |>).
  assert (Hi3 : disk_irq d3 = Some raise) by exact Hi.
  destruct (emit_sync_spec wr raise rd req dsksyn d3 w Hi3 Hw) as (f & w' & E & Hq). rewrite E.
  eexists _, _. split; [reflexivity|]. split; [|exact Hq].
  split; try assumption.
  - cbn. rewrite Z.shiftl_mul_pow2, wrap_small by (unfold in_width; lia). lia.
  - reflexivity.
  - symmetry. exact Hl.
Qed.

(** The second write of DSKLEN starts the transfer of the track under the
    head. *)
Lemma start_transfer floppy fd img t value d w :
  mounted wr raise floppy fd img t d -> dma_armed d = true -> 
  has value RIGEL_PAULA_DSKLEN_DMAEN = true -> has value RIGEL_PAULA_DSKLEN_WRITE = false ->
  value .& RIGEL_PAULA_DSKLEN_LEN <> 0 -> is_u16 (req w) ->
  exists d' w' buf, disk_write_dsklen dsksyn floppy value (d, w) = Some (d', w') /\
    floppy_mfm_encode_track (Some (dma_track_buf d)) RIGEL_FLOPPY_MFM_TRACK_BYTES_PAL
      (Some (drop (Z.to_nat (t * AMIGA_TRACK_SIZE)) img)) t AMIGA_SECTORS_PER_TRACK =
      Some (Some buf, true) /\
    Z.of_nat (length buf) = RIGEL_FLOPPY_MFM_TRACK_BYTES_PAL /\
    transferring wr raise (dskptr d) (2 * (value .& RIGEL_PAULA_DSKLEN_LEN)) buf
      (start_pos d buf) 0 d' /\ quiet rd req w w'.
Proof.
  intros Hmt Harm Hen Hwr Hn Hw.
  destruct (track_offset_mounted wr raise floppy fd img t d Hmt) as [Eoff Ht].
  destruct Hmt as [Hdrv Hmedia (Himg & Hsz & Hu) _ Hfits Hlbuf Hram Hirq].
  unfold disk_write_dsklen. unfold has in Hen. rewrite negb_true_iff in Hen. rewrite Hen, Harm.
  cbn [negb]. unfold disk_start_dma. cbv zeta.
  set (d1 := disk_start_fields value d).
  change (write_mode d1) with (has value RIGEL_PAULA_DSKLEN_WRITE). rewrite Hwr.
  rewrite (proj2 (Z.eqb_neq _ _) Hn). cbn [orb].
  change (drive d1) with (drive d). rewrite Hdrv, Hmedia. cbn [negb].
  rewrite Eoff, Hsz, Himg. change AMIGA_TRACK_SIZE with 5632 in *.
  rewrite (proj2 (Z.leb_gt _ _)), (wrap_small 32 (_ - _)) by (unfold in_width in *; lia).
  rewrite (proj2 (Z.ltb_ge _ _)) by lia. cbn [orb].
  rewrite Z.div_mul by lia. change (dma_track_buf d1) with (dma_track_buf d).
  change (default [] (Some img)) with img.
  destruct (encode_track_some (dma_track_buf d) (drop (Z.to_nat (t * 5632)) img) t Hlbuf)
    as (buf & E & Hbl).
  rewrite E. cbn [mbind option_bind negb default].
  match goal with |- context [disk_start_track _ _ (?x, w)] => set (d2 := x) end.
  destruct (start_track_spec (value .& RIGEL_PAULA_DSKLEN_LEN) (dskptr d) buf d2 w)
    as (d' & w' & E3 & Htr' & Hq); try done.
  { assert (in_width 14 (value .& RIGEL_PAULA_DSKLEN_LEN)) as [? ?]
      by (apply in_width_land_r; [lia|closed_range]). lia. }
  rewrite E3. exists d', w', buf. split; [done|]. split; [done|]. split; [exact Hbl|].
  split; [exact Htr'|exact Hq].
Qed.
End start.

(** ** Memory after a transfer *)

(** The bytes of [n] words of memory from [p], big-endian. *)
Definition word_bytes (v : Z) : list Z := [v .>> 8; v .& 0xff].

Definition mem_bytes {W} (rd : W -> Z -> Z) (w : W) (p : Z) (n : nat) : list Z :=
  concat (map (fun k => word_bytes (rd w (p + 2 * Z.of_nat k))) (seq 0 n)).

Lemma be16_bytes b1 b0 :
  is_u8 b1 -> is_u8 b0 -> word_bytes (u16 (u16 (b1 .<< 8) .| b0)) = [b1; b0].
Proof.
  intros H1 H0. unfold word_bytes. apply (f_equal2 cons); [bitwise 16|].
  apply (f_equal2 cons); [bitwise 8|]. done.
Qed.

Lemma words_of_bytes buf h :
  bytes buf -> length buf = (2 * h)%nat ->
  concat (map (fun k => word_bytes (disk_read_be16 buf (2 * Z.of_nat k))) (seq 0 h)) = buf.
Proof.
  intros Hb Hl. 
  assert (H : forall n, (n <= h)%nat ->
    concat (map (fun k => word_bytes (disk_read_be16 buf (2 * Z.of_nat k))) (seq 0 n)) = take (2 * n) buf).
  { induction n as [|n IH]; intros Hn; [done|].
    rewrite seq_S, map_app, concat_app, IH by lia. cbn [map concat]. rewrite app_nil_r, Nat.add_0_l.
    unfold disk_read_be16. rewrite be16_bytes by (by apply rd8_u8).
    destruct (lookup_lt_is_Some_2 buf (2 * n)) as [x1 H1]; [lia|].
    destruct (lookup_lt_is_Some_2 buf (S (2 * n))) as [x0 H0]; [lia|].
    replace (2 * S n)%nat with (S (S (2 * n))) by lia.
    rewrite (take_S_r _ _ x0 H0), (take_S_r _ _ x1 H1), <- app_assoc. f_equal. cbn [app].
    unfold rd8. replace (Z.to_nat (2 * Z.of_nat n)) with (2 * n)%nat by lia.
    replace (Z.to_nat (2 * Z.of_nat n + 1)) with (S (2 * n)) by lia. by rewrite H1, H0. }
  rewrite H by lia. apply take_ge. lia.
Qed.

Lemma length_mem_bytes {W} (rd : W -> Z -> Z) w p n : length (mem_bytes rd w p n) = (2 * n)%nat.
Proof.
  unfold mem_bytes. induction n as [|n IH]; [done|].
  rewrite seq_S, map_app, concat_app, length_app, IH. unfold word_bytes. cbn [map concat app length]. lia.
Qed.

Section memory.
Context {W : Type} (wr : W -> Z -> Z -> W) (raise : W -> Z -> W)
  (rd : W -> Z -> Z) (req : W -> Z) {H : DiskHost wr raise rd req} (dsksyn : bool).

(** Starting and granting all the slots. *)
Lemma transfer_all floppy fd img t value d w :
  mounted wr raise floppy fd img t d -> dma_armed d = true ->
  has value RIGEL_PAULA_DSKLEN_DMAEN = true -> has value RIGEL_PAULA_DSKLEN_WRITE = false ->
  let n := value .& RIGEL_PAULA_DSKLEN_LEN in
  0 < n -> 0 <= dskptr d -> dskptr d + 2 * n <= 2 ^ 32 -> is_u16 (req w) ->
  exists b0 buf, disk_write_dsklen dsksyn floppy value (d, w) = Some b0 /\
    floppy_mfm_encode_track (Some (dma_track_buf d)) RIGEL_FLOPPY_MFM_TRACK_BYTES_PAL
      (Some (drop (Z.to_nat (t * AMIGA_TRACK_SIZE)) img)) t AMIGA_SECTORS_PER_TRACK =
      Some (Some buf, true) /\
    Z.of_nat (length buf) = RIGEL_FLOPPY_MFM_TRACK_BYTES_PAL /\
    let b := Nat.iter (Z.to_nat n) (disk_dma_service_grant dsksyn) b0 in
    moved rd (dskptr d) buf (start_pos d buf) 0 (Z.to_nat n) w b.2 /\
    dma_active b.1 = false /\ dskptr b.1 = u32 (dskptr d + 2 * n) /\
    Z.testbit (req b.2) 1 = true.
Proof.
  intros Hmt Harm Hen Hwr n Hn Hp Hp2 Hw.
  assert (Hn14 : in_width 14 n) by (apply in_width_land_r; [lia|closed_range]).
  unfold in_width in Hn14.
  destruct (start_transfer wr raise rd req dsksyn floppy fd img t value d w Hmt Harm Hen Hwr)
    as (d0 & w0 & buf & E & Ebuf & Hl & Htr & Hq1 & Hq2 & Hq3); [unfold n in Hn; lia|exact Hw|].
  exists (d0, w0), buf. split; [exact E|]. split; [exact Ebuf|]. split; [exact Hl|].
  replace (Z.to_nat n) with (S (Z.to_nat (n - 1))) by lia.
  fold n in Htr. pose proof (start_pos_range d buf) as Hs. rewrite <- Hl in Hs.
  unfold RIGEL_FLOPPY_MFM_TRACK_BYTES_PAL in Hl.
  destruct (grants_all wr raise rd req dsksyn (dskptr d) (2 * n) buf (start_pos d buf)
    (Z.to_nat (n - 1)) d0 w0 Htr) as ([Hin Hout] & Hact & Hptr & Hirq); try lia; [exact Hq2|].
  split; [|split; [exact Hact|split; [exact Hptr|exact Hirq]]].
  split; [exact Hin|]. intros a Ha. by rewrite Hout, Hq1.
Qed.
End memory.

(** ** Theorems *)

Section theorems.
Context {W : Type} (wr : W -> Z -> Z -> W) (raise : W -> Z -> W)
  (rd : W -> Z -> Z) (req : W -> Z) {H : DiskHost wr raise rd req} (dsksyn : bool).

(** A read transfer.  With a disk in the drive, the second write of DSKLEN
  encodes the track under the head, and as many granted slots as it asked
  words for copy the track to chip RAM from DSKPT on, word after word around
  the track, from the first sync mark when ADKCON asks for it and from the
  index otherwise; no other word of memory changes.  With the last word the
  transfer is over, DSKPT is past the data and DSKBLK is requested. *)
Theorem disk_dma_moves_track floppy fd img t value d w :
mounted wr raise floppy fd img t d -> dma_armed d = true ->
has value RIGEL_PAULA_DSKLEN_DMAEN = true -> has value RIGEL_PAULA_DSKLEN_WRITE = false ->
let n := value .& RIGEL_PAULA_DSKLEN_LEN in
0 < n -> 0 <= dskptr d -> dskptr d + 2 * n <= 2 ^ 32 -> is_u16 (req w) ->
exists b0 buf, disk_write_dsklen dsksyn floppy value (d, w) = Some b0 /\
  floppy_mfm_encode_track (Some (dma_track_buf d)) RIGEL_FLOPPY_MFM_TRACK_BYTES_PAL
    (Some (drop (Z.to_nat (t * AMIGA_TRACK_SIZE)) img)) t AMIGA_SECTORS_PER_TRACK =
    Some (Some buf, true) /\
  let b := Nat.iter (Z.to_nat n) (disk_dma_service_grant dsksyn) b0 in
  (forall j, (j < Z.to_nat n)%nat -> rd b.2 (dskptr d + 2 * Z.of_nat j) =
     ring_word buf RIGEL_FLOPPY_MFM_TRACK_BYTES_PAL (start_pos d buf) j) /\
  (forall a, (forall j, (j < Z.to_nat n)%nat -> a <> dskptr d + 2 * Z.of_nat j) -> rd b.2 a = rd w a) /\
  dma_active b.1 = false /\ dskptr b.1 = u32 (dskptr d + 2 * n) /\
  has (req b.2) 0x0002 = true.
Proof.
intros Hmt Harm Hen Hwr n Hn Hp Hp2 Hw.
destruct (transfer_all wr raise rd req dsksyn floppy fd img t value d w Hmt Harm Hen Hwr Hn Hp Hp2 Hw)
  as (b0 & buf & E & Ebuf & Hl & [Hin Hout] & Hact & Hptr & Hirq).
exists b0, buf. split; [exact E|]. split; [exact Ebuf|]. rewrite <- Hl.
split; [intros j Hj; apply Hin; lia|].
split; [intros a Ha; apply Hout; intros j Hj; apply Ha; lia|].
split; [exact Hact|]. split; [exact Hptr|]. change 0x0002 with (2 ^ 1). by rewrite has_pow2.
Qed.

End theorems.

(** ** Witnesses *)

Definition image1 : list Z := replicate (Z.to_nat 5632) 0x5a.
Definition df0_image1 : FloppyDrive := floppy_insert (Some image1) 5632 floppy_init.
Definition disk_at_1000 : DiskState (gmap Z Z * RigelInterruptDomain) :=
  mkDisk 0x1000 0 0 0 0x4489 0 false true false false false 0 0 0 0 0 0 0 0 0
    (replicate (Z.to_nat 13630) 0) (Some 0%nat) (Some board_wr) (Some board_raise).
Definition world0 : gmap Z Z * RigelInterruptDomain := (∅, mkInterruptDomain 0 0 0).

Lemma length_image1 : Z.of_nat (length image1) = 5632.
Proof. unfold image1. rewrite length_replicate. reflexivity. Qed.

Lemma mounted_image1 : mounted board_wr board_raise [df0_image1] df0_image1 image1 0 disk_at_1000.
Proof.
  split; [done|done| |done| |cbn; rewrite length_replicate; done|done|done].
  - rewrite length_image1. split_and!; [done|done|closed_range].
  - rewrite length_image1. vm_compute. congruence.
Qed.

Lemma disk_dma_moves_track_witness :
  exists b0 buf, disk_write_dsklen true [df0_image1] 0x8003 (disk_at_1000, world0) = Some b0 /\
    floppy_mfm_encode_track (Some (dma_track_buf disk_at_1000)) RIGEL_FLOPPY_MFM_TRACK_BYTES_PAL
      (Some (drop (Z.to_nat (0 * AMIGA_TRACK_SIZE)) image1)) 0 AMIGA_SECTORS_PER_TRACK =
      Some (Some buf, true) /\
    let b := Nat.iter 3 (disk_dma_service_grant true) b0 in
    (forall j, (j < 3)%nat -> board_rd b.2 (0x1000 + 2 * Z.of_nat j) =
       ring_word buf RIGEL_FLOPPY_MFM_TRACK_BYTES_PAL (start_pos disk_at_1000 buf) j) /\
    (forall a, (forall j, (j < 3)%nat -> a <> 0x1000 + 2 * Z.of_nat j) ->
       board_rd b.2 a = board_rd world0 a) /\
    dma_active b.1 = false /\ dskptr b.1 = u32 (0x1000 + 2 * 3) /\
    has (board_req b.2) 0x0002 = true.
Proof.
  apply (disk_dma_moves_track board_wr board_raise board_rd board_req true [df0_image1] df0_image1
           image1 0 0x8003 disk_at_1000 world0 mounted_image1);
    try reflexivity; try (vm_compute; congruence). closed_range.
Defined.

