(* ===== verification/Serial.v ===== *)
(** * Paula's serial port: [paula/serial.c], [domains/serial], [rigel_serial_api.c]

    A transmitter of two registers (the buffer SERDAT writes and the word being
    shifted out), a ring of sixteen bytes the host takes the transmitted bytes
    from, and a receive buffer.  The interrupt sink of the structure is a
    function of an outside world [W], as in Disk.v.

    The transmitter is a queue: [serial_transmits_in_order] says that the host
    takes the bytes written to SERDAT, each once and in order. *)

From S2P Require Import Prelude Custom.

(** C: [src/src/chipset/paula/serial.h]:9-9 [RIGEL_PAULA_SERIAL_INTREQ_RBF] *)
Definition RIGEL_PAULA_SERIAL_INTREQ_RBF := 0x0800.
(** C: [src/src/chipset/paula/serial.h]:10-10 [RIGEL_PAULA_SERIAL_INTREQ_TBE] *)
Definition RIGEL_PAULA_SERIAL_INTREQ_TBE := 0x0001.
(** C: [src/src/chipset/paula/serial.h]:11-11 [RIGEL_PAULA_SERIAL_TX_FIFO_SIZE] *)
Definition RIGEL_PAULA_SERIAL_TX_FIFO_SIZE := 16.

(** C: [src/src/chipset/paula/serial.h]:21-43 [serial_state_t] *)
Record SerialState {W : Type} := mkSerial {
  serial_irq : option (W -> Z -> W);
  serper : Z;
  tx_buffer : Z; tx_buffer_valid : bool;
  tx_shift_reg : Z; tx_shift_busy : bool; tx_cycles_remaining : Z;
  rx_buffer : Z; rx_buffer_full : bool; overrun : bool; rxd_level : bool;
  tx_instant : bool;
  tx_fifo : list Z; tx_fifo_head : Z; tx_fifo_tail : Z; tx_fifo_count : Z;
  tx_overflow : bool;
}.
Arguments SerialState : clear implicits.
Arguments mkSerial {W}.

#[export] Instance eta_serial {W} : Eta (SerialState W) := fun s =>
  mkSerial (serial_irq s) (serper s) (tx_buffer s) (tx_buffer_valid s) (tx_shift_reg s)
    (tx_shift_busy s) (tx_cycles_remaining s) (rx_buffer s) (rx_buffer_full s) (overrun s)
    (rxd_level s) (tx_instant s) (tx_fifo s) (tx_fifo_head s) (tx_fifo_tail s)
    (tx_fifo_count s) (tx_overflow s).

(** C: [src/src/chipset/paula/serial.c] [serial_cycles_per_bit] *)
Definition serial_cycles_per_bit {W} (s : SerialState W) : Z :=
  let value := u32 ((serper s .& 0x7fff) + 1) in
  if negb (value =? 0) then value else 1.

(** C: [src/src/chipset/paula/serial.c] [serial_frame_cycles] *)
Definition serial_frame_cycles {W} (s : SerialState W) (_ : Z) : Z :=
  u32 (10 * serial_cycles_per_bit s).

(** C: [src/src/chipset/paula/serial.c] [serial_queue_tx_byte] *)
Definition serial_queue_tx_byte {W} (word : Z) (s : SerialState W) : SerialState W :=
  let byte := u8 (word .& 0xff) in
  if RIGEL_PAULA_SERIAL_TX_FIFO_SIZE <=? tx_fifo_count s then s <| tx_overflow := true |>
  else
    s <| tx_fifo := <[Z.to_nat (tx_fifo_tail s) := byte]> (tx_fifo s) |>
      <| tx_fifo_tail := u32 (tx_fifo_tail s + 1) mod RIGEL_PAULA_SERIAL_TX_FIFO_SIZE |>
      <| tx_fifo_count := u32 (tx_fifo_count s + 1) |>.

(** C: [src/src/chipset/paula/serial.c] [serial_clear_rbf] *)
Definition serial_clear_rbf {W} (s : SerialState W) : SerialState W :=
  s <| rx_buffer_full := false |> <| rx_buffer := 0 |> <| overrun := false |>.

(** C: [src/src/chipset/paula/serial.c] [serial_tx_available] *)
Definition serial_tx_available {W} (s : SerialState W) : bool := 0 <? tx_fifo_count s.

(** The byte and the state after it was taken; [None] is the [false] return.
    C: [src/src/chipset/paula/serial.c] [serial_pop_tx_byte] *)
Definition serial_pop_tx_byte {W} (s : SerialState W) : option (Z * SerialState W) :=
  if tx_fifo_count s =? 0 then None
  else
    Some (default 0 (tx_fifo s !! Z.to_nat (tx_fifo_head s)),
      s <| tx_fifo_head := u32 (tx_fifo_head s + 1) mod RIGEL_PAULA_SERIAL_TX_FIFO_SIZE |>
        <| tx_fifo_count := u32 (tx_fifo_count s - 1) |>).

(** C: [src/src/chipset/paula/serial.c] [serial_set_tx_instant] *)
Definition serial_set_tx_instant {W} (enabled : bool) (s : SerialState W) : SerialState W :=
  s <| tx_instant := enabled |>.

(** C: [src/src/chipset/paula/serial.c] [serial_set_irq_sink] *)
Definition serial_set_irq_sink {W} (sink : option (W -> Z -> W)) (s : SerialState W) : SerialState W :=
  s <| serial_irq := sink |>.

(** The ring keeps its bytes; only the indices are reset.
    C: [src/src/chipset/paula/serial.c] [serial_reset] *)
Definition serial_reset {W} (s : SerialState W) : SerialState W := {|
  serial_irq := serial_irq s;
  serper := 0;
  tx_buffer := 0; tx_buffer_valid := false;
  tx_shift_reg := 0; tx_shift_busy := false; tx_cycles_remaining := 0;
  rx_buffer := 0; rx_buffer_full := false; overrun := false; rxd_level := true;
  tx_instant := false;
  tx_fifo := tx_fifo s; tx_fifo_head := 0; tx_fifo_tail := 0; tx_fifo_count := 0;
  tx_overflow := false;
|}.

(** C: [src/src/chipset/paula/serial.c] [serial_write_serper] *)
Definition serial_write_serper {W} (value : Z) (s : SerialState W) : SerialState W :=
  s <| serper := value |>.

(** C: [src/src/chipset/paula/serial.c] [serial_read_serdatr] *)
Definition serial_read_serdatr {W} (s : SerialState W) : Z :=
  let value := u16 (rx_buffer s .& 0x03ff) in
  let value := if overrun s then value .| 0x8000 else value in
  let value := if rx_buffer_full s then value .| 0x4000 else value in
  let value := if negb (tx_buffer_valid s) then value .| 0x2000 else value in
  let value := if negb (tx_shift_busy s) then value .| 0x1000 else value in
  if rxd_level s then value .| 0x0800 else value.

Section serial.
Context {W : Type}.

(** The port and the world its interrupt sink acts on. *)
Definition SerialBoard : Type := SerialState W * W.

(** C: [src/src/chipset/paula/serial.c] [serial_raise_irq] *)
Definition serial_raise_irq (mask : Z) (b : SerialBoard) : SerialBoard :=
  match serial_irq b.1 with
  | None => b
  | Some raise => (b.1, raise b.2 mask)
  end.

(** C: [src/src/chipset/paula/serial.c] [serial_start_tx_shift] *)
Definition serial_start_tx_shift (b : SerialBoard) : SerialBoard :=
  let '(s, w) := b in
  if negb (tx_buffer_valid s) || tx_shift_busy s then b
  else
    let s := s <| tx_shift_reg := tx_buffer s |> <| tx_shift_busy := true |> in
    let s := s <| tx_cycles_remaining := serial_frame_cycles s (tx_shift_reg s) |> in
    let s := s <| tx_buffer_valid := false |> in
    let s := if tx_instant s then serial_queue_tx_byte (tx_shift_reg s) s else s in
    serial_raise_irq RIGEL_PAULA_SERIAL_INTREQ_TBE (s, w).

(** C: [src/src/chipset/paula/serial.c] [serial_write_serdat] *)
Definition serial_write_serdat (value : Z) (b : SerialBoard) : SerialBoard :=
  let '(s, w) := b in
  if tx_instant s
  then serial_raise_irq RIGEL_PAULA_SERIAL_INTREQ_TBE (serial_queue_tx_byte value s, w)
  else
    let s := s <| tx_buffer := value |> <| tx_buffer_valid := true |> in
    if negb (tx_shift_busy s) then serial_start_tx_shift (s, w) else (s, w).

(** C: [src/src/chipset/paula/serial.c] [serial_step] *)
Definition serial_step (cycles : Z) (b : SerialBoard) : SerialBoard :=
  let '(s, w) := b in
  if negb (tx_shift_busy s) then
    if tx_buffer_valid s then serial_start_tx_shift b else b
  else if cycles <? tx_cycles_remaining s
  then (s <| tx_cycles_remaining := tx_cycles_remaining s - cycles |>, w)
  else
    let completed_word := tx_shift_reg s in
    let s := s <| tx_cycles_remaining := 0 |> <| tx_shift_busy := false |> <| tx_shift_reg := 0 |> in
    let s := if negb (tx_instant s) then serial_queue_tx_byte completed_word s else s in
    if tx_buffer_valid s then serial_start_tx_shift (s, w) else (s, w).

(** C: [src/src/chipset/paula/serial.c] [serial_receive_byte] *)
Definition serial_receive_byte (byte : Z) (b : SerialBoard) : SerialBoard :=
  let '(s, w) := b in
  let s := if rx_buffer_full s then s <| overrun := true |> else s in
  let s := s <| rx_buffer := byte .| 0x0100 |> <| rx_buffer_full := true |> <| rxd_level := true |> in
  serial_raise_irq RIGEL_PAULA_SERIAL_INTREQ_RBF (s, w).

(** ** The domain *)

(** C: [src/include/rigel/rigel_custom.h]:17-17 [RIGEL_REG_SERDATR] *)
Definition RIGEL_REG_SERDATR := 0x018.
(** C: [src/include/rigel/rigel_custom.h]:29-29 [RIGEL_REG_SERDAT] *)
Definition RIGEL_REG_SERDAT := 0x030.
(** C: [src/include/rigel/rigel_custom.h]:30-30 [RIGEL_REG_SERPER] *)
Definition RIGEL_REG_SERPER := 0x032.

(** C: [src/src/domains/serial/serial_domain.c] [rigel_serial_domain_owns_reg] *)
Definition rigel_serial_domain_owns_reg (addr : Z) : bool :=
  (addr =? RIGEL_REG_SERDATR) || (addr =? RIGEL_REG_SERDAT) || (addr =? RIGEL_REG_SERPER).

(** C: [src/src/domains/serial/serial_domain.c] [rigel_serial_domain_read_reg] *)
Definition rigel_serial_domain_read_reg (addr : Z) (s : SerialState W) : Z * SerialState W :=
  if addr =? RIGEL_REG_SERDATR then (serial_read_serdatr s, serial_clear_rbf s) else (0, s).

(** C: [src/src/domains/serial/serial_domain.c] [rigel_serial_domain_write_reg] *)
Definition rigel_serial_domain_write_reg (addr value : Z) (b : SerialBoard) : SerialBoard :=
  if addr =? RIGEL_REG_SERDAT then serial_write_serdat value b
  else if addr =? RIGEL_REG_SERPER then (serial_write_serper value b.1, b.2)
  else b.

End serial.
Arguments SerialBoard : clear implicits.

(** ** Rings

    [ring buf h n] are the [n] bytes of a ring that starts at index [h]. *)

Definition ring (buf : list Z) (h : Z) (n : nat) : list Z :=
  map (fun i => default 0 (buf !! Z.to_nat ((h + Z.of_nat i) mod Z.of_nat (length buf)))) (seq 0 n).

Lemma ring_push buf h n b :
  0 <= h -> (n < length buf)%nat ->
  ring (<[Z.to_nat ((h + Z.of_nat n) mod Z.of_nat (length buf)) := b]> buf) h (S n)
    = ring buf h n ++ [b].
Proof.
  intros Hh Hn. unfold ring. rewrite length_insert.
  replace (S n) with (n + 1)%nat by lia. rewrite seq_app, map_app. cbn. f_equal.
  - apply map_ext_in. intros i [_ Hi]%in_seq. rewrite list_lookup_insert_ne; [done|].
    intros E. apply Z2Nat.inj in E; [|apply Z.mod_pos_bound; lia..].
    assert (((h + Z.of_nat n) - (h + Z.of_nat i)) mod Z.of_nat (length buf) = 0) as E2.
    { rewrite Zminus_mod, E, Z.sub_diag. apply Z.mod_0_l. lia. }
    rewrite Z.mod_small in E2; lia.
  - f_equal. rewrite list_lookup_insert_eq; [done|].
    pose proof (Z.mod_pos_bound (h + Z.of_nat n) (Z.of_nat (length buf))). lia.
Qed.

Lemma ring_pop buf h n :
  (0 < length buf)%nat ->
  ring buf h (S n) = default 0 (buf !! Z.to_nat (h mod Z.of_nat (length buf)))
    :: ring buf ((h + 1) mod Z.of_nat (length buf)) n.
Proof.
  intros Hl. unfold ring. cbn [seq map]. f_equal; [by rewrite Z.add_0_r|].
  rewrite <- seq_shift, map_map. apply map_ext_in. intros i _. do 3 f_equal.
  rewrite Z.add_mod_idemp_l by lia. f_equal. lia.
Qed.

(** ** The transmitter is a queue *)

(** The bytes the host has still to take, the oldest first. *)
Definition serial_fifo {W} (s : SerialState W) : list Z :=
  ring (tx_fifo s) (tx_fifo_head s) (Z.to_nat (tx_fifo_count s)).

Definition serial_pending {W} (s : SerialState W) : list Z :=
  serial_fifo s
    ++ (if tx_shift_busy s then [u8 (tx_shift_reg s)] else [])
    ++ (if tx_buffer_valid s then [u8 (tx_buffer s)] else []).

Record ring_wf {W} (s : SerialState W) : Prop := {
  wf_ring : length (tx_fifo s) = 16%nat;
  wf_head : 0 <= tx_fifo_head s < 16;
  wf_count : 0 <= tx_fifo_count s <= 16;
  wf_tail : tx_fifo_tail s = (tx_fifo_head s + tx_fifo_count s) mod 16;
}.

(** The buffer is occupied only while a word is being shifted out, and the
    instant mode uses neither. *)
Record serial_wf {W} (s : SerialState W) : Prop := {
  wf_bytes : ring_wf s;
  wf_shift : tx_buffer_valid s = true -> tx_shift_busy s = true;
  wf_instant : tx_instant s = true -> tx_shift_busy s = false;
}.

(** What the program and the host do with the port, the bytes written to SERDAT
    and the bytes taken by the host.  A program writes SERDAT when SERDATR shows
    the buffer empty; the host changes the mode while nothing is being sent. *)
Inductive serial_run {W} (b0 : SerialBoard W) : list Z -> list Z -> SerialBoard W -> Prop :=
  | run_start : serial_run b0 [] [] b0
  | run_write ws ts b v : serial_run b0 ws ts b ->
      has (serial_read_serdatr b.1) 0x2000 = true ->
      serial_run b0 (ws ++ [u8 v]) ts (rigel_serial_domain_write_reg RIGEL_REG_SERDAT v b)
  | run_period ws ts b v : serial_run b0 ws ts b -> is_u16 v ->
      serial_run b0 ws ts (rigel_serial_domain_write_reg RIGEL_REG_SERPER v b)
  | run_step ws ts b n : serial_run b0 ws ts b -> serial_run b0 ws ts (serial_step n b)
  | run_take ws ts s w c s' : serial_run b0 ws ts (s, w) -> serial_pop_tx_byte s = Some (c, s') ->
      serial_run b0 ws (ts ++ [c]) (s', w)
  | run_receive ws ts b c : serial_run b0 ws ts b -> is_u8 c ->
      serial_run b0 ws ts (serial_receive_byte c b)
  | run_read ws ts b : serial_run b0 ws ts b ->
      serial_run b0 ws ts ((rigel_serial_domain_read_reg RIGEL_REG_SERDATR b.1).2, b.2)
  | run_mode ws ts b m : serial_run b0 ws ts b -> tx_shift_busy b.1 = false ->
      serial_run b0 ws ts (serial_set_tx_instant m b.1, b.2).

Lemma u8_low_byte v : u8 (v .& 0xff) = u8 v.
Proof. bitwise 8. Qed.

Lemma serdatr_tbe {W} (s : SerialState W) :
  has (serial_read_serdatr s) 0x2000 = negb (tx_buffer_valid s).
Proof.
  change 0x2000 with (2 ^ 13). rewrite has_pow2 by lia. unfold serial_read_serdatr.
  destruct (overrun s), (rx_buffer_full s), (tx_buffer_valid s), (tx_shift_busy s), (rxd_level s);
    cbn [negb]; autorewrite with bits; literal_bits; by rewrite ?andb_false_r.
Qed.

Section queue.
Context {W : Type}.
Implicit Types (s : SerialState W) (b : SerialBoard W).

Lemma raise_state m b : (serial_raise_irq m b).1 = b.1.
Proof. unfold serial_raise_irq. by destruct (serial_irq b.1). Qed.

(** A byte put in the ring, when there was room. *)
Lemma queue_tx_byte_spec word s :
  ring_wf s -> tx_overflow (serial_queue_tx_byte word s) = false ->
  let s' := serial_queue_tx_byte word s in
  tx_overflow s = false /\ ring_wf s' /\ serial_fifo s' = serial_fifo s ++ [u8 word].
Proof.
  intros [Hl Hh Hc Ht] Hov. cbv zeta. unfold serial_queue_tx_byte, serial_fifo in *.
  unfold RIGEL_PAULA_SERIAL_TX_FIFO_SIZE in *.
  destruct (Z.leb_spec 16 (tx_fifo_count s)); [done|]. cbn in *. split; [done|].
  assert (0 <= tx_fifo_tail s < 16) by (rewrite Ht; apply Z.mod_pos_bound; lia).
  rewrite (wrap_small 32 (tx_fifo_count s + 1)), (wrap_small 32 (tx_fifo_tail s + 1))
    by (unfold in_width; lia).
  split.
  - split; cbn; try done; [by rewrite length_insert|lia|].
    rewrite Ht, Z.add_mod_idemp_l by lia. f_equal. lia.
  - rewrite u8_low_byte. replace (Z.to_nat (tx_fifo_count s + 1)) with (S (Z.to_nat (tx_fifo_count s))) by lia.
    rewrite Ht. replace 16 with (Z.of_nat (length (tx_fifo s))) by lia.
    rewrite <- ring_push by lia. by rewrite Z2Nat.id by lia.
Qed.

Lemma queue_rest word s :
  let s' := serial_queue_tx_byte word s in
  tx_shift_busy s' = tx_shift_busy s /\ tx_shift_reg s' = tx_shift_reg s /\
  tx_buffer_valid s' = tx_buffer_valid s /\ tx_buffer s' = tx_buffer s /\
  tx_instant s' = tx_instant s.
Proof. cbv zeta. unfold serial_queue_tx_byte. by destruct (_ <=? _). Qed.

(** A lost byte stays recorded. *)
Lemma queue_overflow word s : tx_overflow (serial_queue_tx_byte word s) = false -> tx_overflow s = false.
Proof. unfold serial_queue_tx_byte. by destruct (_ <=? _). Qed.

Lemma start_overflow b : tx_overflow (serial_start_tx_shift b).1 = false -> tx_overflow b.1 = false.
Proof.
  destruct b as [s w]. unfold serial_start_tx_shift. destruct (_ || _); [done|]. cbv zeta.
  rewrite raise_state. cbn. destruct (tx_instant s); [|done]. intros Ho%queue_overflow; exact Ho.
Qed.

Lemma write_overflow v b : tx_overflow (serial_write_serdat v b).1 = false -> tx_overflow b.1 = false.
Proof.
  destruct b as [s w]. unfold serial_write_serdat. destruct (tx_instant s).
  - rewrite raise_state. apply queue_overflow.
  - cbv zeta. case_match; [|done]. intros Ho%start_overflow; exact Ho.
Qed.

Lemma step_overflow n b : tx_overflow (serial_step n b).1 = false -> tx_overflow b.1 = false.
Proof.
  destruct b as [s w]. unfold serial_step. case_match; [case_match; [apply start_overflow|done]|].
  case_match; [done|]. cbv zeta. intros H1. set (s1 := s <| tx_cycles_remaining := 0 |>
    <| tx_shift_busy := false |> <| tx_shift_reg := 0 |>) in *. change (tx_overflow s1 = false).
  set (s2 := if negb (tx_instant s1) then _ else s1) in *.
  assert (tx_overflow s2 = false) as H2 by (destruct (tx_buffer_valid s2); [by apply start_overflow in H1|done]).
  subst s2. destruct (negb (tx_instant s1)); [by apply queue_overflow in H2|done].
Qed.

(** The word in the buffer moves to the shift register. *)
Lemma start_tx_shift_spec s w :
  tx_buffer_valid s = true -> tx_shift_busy s = false -> tx_instant s = false -> ring_wf s ->
  let s' := (serial_start_tx_shift (s, w)).1 in
  tx_overflow s' = tx_overflow s /\ serial_wf s' /\
  serial_pending s' = serial_fifo s ++ [u8 (tx_buffer s)].
Proof.
  intros Hv Hb Hi [Hl Hh Hc Ht]. cbv zeta. unfold serial_start_tx_shift. rewrite Hv, Hb.
  cbn [negb orb]. cbv zeta. rewrite raise_state. cbn. rewrite Hi. cbn.
  split_and!; [done|split; [split; by cbn|by cbn|cbn; congruence]|]. unfold serial_pending. cbn.
  done.
Qed.

Lemma pending_write v s w :
  serial_wf s -> tx_buffer_valid s = false ->
  let b' := serial_write_serdat v (s, w) in
  tx_overflow b'.1 = false ->
  tx_overflow s = false /\ serial_wf b'.1 /\ serial_pending b'.1 = serial_pending s ++ [u8 v].
Proof.
  intros [Hr Hs Hin] Hv. cbv zeta. unfold serial_write_serdat. destruct (tx_instant s) eqn:Hi.
  - rewrite raise_state. cbn [fst]. intros Hov.
    destruct (queue_tx_byte_spec v s Hr Hov) as (Ho & Hr' & Hf).
    destruct (queue_rest v s) as (E1 & E2 & E3 & E4 & E5).
    split_and!; [done| |].
    + split; [done| |]; rewrite E1, ?E3, ?E5; congruence || auto.
    + unfold serial_pending. rewrite Hf, E1, E3, Hv, (Hin eq_refl). by rewrite !app_nil_r.
  - set (s1 := s <| tx_buffer := v |> <| tx_buffer_valid := true |>).
    change (tx_shift_busy s1) with (tx_shift_busy s).
    assert (ring_wf s1) as Hr1 by (destruct Hr; split; by cbn).
    destruct (tx_shift_busy s) eqn:Hb; cbn [negb].
    + cbn [fst]. intros Ho. split_and!; [done| |].
      * split; [done| |]; subst s1; cbn; congruence.
      * unfold serial_pending. rewrite Hb, Hv. subst s1. cbn. rewrite Hb. by rewrite <- app_assoc.
    + destruct (start_tx_shift_spec s1 w) as (E1 & E2 & E3); [done|done|done|done|].
      rewrite E1, E3. intros Ho. split_and!; [done|done|]. unfold serial_pending. rewrite Hb, Hv.
      by rewrite !app_nil_r.
Qed.

Lemma pending_step n s w :
  serial_wf s ->
  let b' := serial_step n (s, w) in
  tx_overflow b'.1 = false ->
  tx_overflow s = false /\ serial_wf b'.1 /\ serial_pending b'.1 = serial_pending s.
Proof.
  intros [Hr Hs Hin]. cbv zeta. unfold serial_step. destruct (tx_shift_busy s) eqn:Hb; cbn [negb].
  - assert (tx_instant s = false) as Hi by (destruct (tx_instant s); [by discriminate Hin|done]).
    destruct (n <? tx_cycles_remaining s).
    { cbn. intros Ho. split_and!; [done| |].
      - split; [destruct Hr; split; by cbn| |]; cbn; congruence.
      - unfold serial_pending. by cbn. }
    cbv zeta.
    set (s1 := s <| tx_cycles_remaining := 0 |> <| tx_shift_busy := false |> <| tx_shift_reg := 0 |>).
    change (tx_instant s1) with (tx_instant s). rewrite Hi. cbn [negb].
    assert (ring_wf s1) as Hr1 by (destruct Hr; split; by cbn).
    destruct (queue_rest (tx_shift_reg s) s1) as (E1 & E2 & E3 & E4 & E5).
    pose proof (queue_tx_byte_spec (tx_shift_reg s) s1 Hr1) as Hq.
    set (s2 := serial_queue_tx_byte (tx_shift_reg s) s1) in *. cbv zeta in Hq.
    destruct (tx_buffer_valid s2) eqn:Hv; cbn [fst].
    + intros Ho. destruct (decide (tx_overflow s2 = false)) as [Ho2|Ho2].
      * destruct (Hq Ho2) as (Ho1 & Hr2 & Hf).
        destruct (start_tx_shift_spec s2 w) as (F1 & F2 & F3); [done|by rewrite E1|by rewrite E5|done|].
        rewrite F3, Hf. split_and!; [done|done|]. unfold serial_pending.
        change (tx_buffer_valid s1) with (tx_buffer_valid s) in E3. rewrite Hb, <- E3.
        rewrite E4. by rewrite <- app_assoc.
      * by apply start_overflow in Ho.
    + intros Ho. destruct (Hq Ho) as (Ho1 & Hr2 & Hf). split_and!; [done| |].
      * split; [done| |]; rewrite ?E1, ?E3, ?E5; [congruence|done].
      * unfold serial_pending. rewrite Hf, E1, Hb.
        symmetry in E3. change (tx_buffer_valid s = false) in E3. rewrite E3.
        change (tx_shift_busy s1) with false. rewrite Hv. cbv iota. by rewrite !app_nil_r.
  - destruct (tx_buffer_valid s) eqn:Hv; [by discriminate Hs|]. cbn. intros Ho.
    split_and!; [done|split; [done|congruence|done]|done].
Qed.
End queue.

(** ** Transmission *)

Lemma pop_spec {W} (s s' : SerialState W) c :
  ring_wf s -> serial_pop_tx_byte s = Some (c, s') ->
  serial_fifo s = c :: serial_fifo s' /\ ring_wf s' /\
  tx_overflow s' = tx_overflow s /\ tx_shift_busy s' = tx_shift_busy s /\
  tx_shift_reg s' = tx_shift_reg s /\ tx_buffer_valid s' = tx_buffer_valid s /\
  tx_buffer s' = tx_buffer s /\ tx_instant s' = tx_instant s.
Proof.
  intros [Hl Hh Hc Ht] Hp. unfold serial_pop_tx_byte, RIGEL_PAULA_SERIAL_TX_FIFO_SIZE in Hp.
  destruct (Z.eqb_spec (tx_fifo_count s) 0); [done|]. injection Hp as <- <-.
  rewrite (wrap_small 32 (tx_fifo_head s + 1)), (wrap_small 32 (tx_fifo_count s - 1))
    by (unfold in_width; lia).
  unfold serial_fifo. cbn. split_and!; try done.
  - replace (Z.to_nat (tx_fifo_count s)) with (S (Z.to_nat (tx_fifo_count s - 1))) by lia.
    rewrite ring_pop by lia. rewrite Hl. by rewrite Z.mod_small by lia.
  - split; cbn; [done|apply Z.mod_pos_bound; lia|lia|].
    rewrite Ht, Z.add_mod_idemp_l by lia. f_equal. lia.
Qed.

Lemma run_invariant {W} (b0 b : SerialBoard W) ws ts :
  serial_wf b0.1 -> serial_pending b0.1 = [] ->
  serial_run b0 ws ts b -> tx_overflow b.1 = false ->
  serial_wf b.1 /\ ts ++ serial_pending b.1 = ws.
Proof.
  intros Hwf0 Hp0 Hrun. induction Hrun as [|ws ts [s w] v Hr IH Hg|ws ts [s w] v Hr IH Hv|ws ts [s w] n Hr IH
    |ws ts s w c s' Hr IH Hp|ws ts [s w] c Hr IH Hc|ws ts [s w] Hr IH|ws ts [s w] m Hr IH Hm]; intros Ho.
  - by rewrite Hp0.
  - rewrite serdatr_tbe in Hg. apply negb_true_iff in Hg. cbn [fst] in Hg.
    change (rigel_serial_domain_write_reg RIGEL_REG_SERDAT v (s, w)) with (serial_write_serdat v (s, w)) in *.
    pose proof (pending_write v s w) as Hw. cbv zeta in Hw. cbn [fst] in IH.
    destruct (IH (write_overflow v _ Ho)) as [Hwf HE]. destruct (Hw Hwf Hg Ho) as (_ & Hwf' & E).
    split; [done|]. by rewrite E, app_assoc, HE.
  - destruct (IH Ho) as [[Hb Hs Hi] HE]. split; [|done].
    split; [destruct Hb; split; by cbn|by cbn|by cbn].
  - destruct (IH (step_overflow n _ Ho)) as [Hwf HE].
    destruct (pending_step n s w Hwf Ho) as (_ & Hwf' & E). split; [done|]. by rewrite E.
  - cbn [fst] in *. assert (ring_wf s -> tx_overflow s = false) as Hos.
    { intros Hr'. by destruct (pop_spec s s' c Hr' Hp) as (_ & _ & <- & _). }
    destruct (decide (tx_overflow s = false)) as [Hs|Hs].
    + destruct (IH Hs) as [[Hb H1 H2] HE].
      destruct (pop_spec s s' c Hb Hp) as (E1 & E2 & E3 & E4 & E5 & E6 & E7 & E8). split.
      * split; [done| |]; rewrite ?E4, ?E6, ?E8; done.
      * rewrite <- HE, <- app_assoc. f_equal. unfold serial_pending.
        by rewrite E1, E4, E5, E6, E7.
    + exfalso. apply Hs. unfold serial_pop_tx_byte in Hp. destruct (_ =? _); [done|].
      by injection Hp as _ <-.
  - unfold serial_receive_byte in *. rewrite raise_state in *. cbn in *.
    assert (tx_overflow s = false) as Hos by (by destruct (rx_buffer_full s)).
    destruct (IH Hos) as [[[? ? ? ?] ? ?] HE]. split.
    + split; [split|..]; by destruct (rx_buffer_full s).
    + rewrite <- HE. f_equal. unfold serial_pending, serial_fifo. by destruct (rx_buffer_full s).
  - destruct (IH Ho) as [[[? ? ? ?] ? ?] HE]. split; [|done]. split; [split|..]; by cbn.
  - cbn in Ho, Hm. destruct (IH Ho) as [[[? ? ? ?] ? ?] HE]. split; [|done].
    split; [split|..]; by cbn.
Qed.

(** C37: the serial transmitter.  From reset, whatever the program and the host
    do with the port (writes of SERDAT while SERDATR shows the buffer empty,
    changes of the baud rate, steps of any length, received bytes, changes of
    the instant mode while nothing is shifted out), the bytes the host has taken
    followed by those it has still to take are exactly the bytes written to
    SERDAT, each once and in order, as long as the overflow flag is clear; at
    most eighteen bytes are on the way. *)
Theorem serial_transmits_in_order {W} (s0 : SerialState W) w0 ws ts b :
  length (tx_fifo s0) = 16%nat ->
  serial_run (serial_reset s0, w0) ws ts b -> tx_overflow b.1 = false ->
  ts ++ serial_pending b.1 = ws /\ (length (serial_pending b.1) <= 18)%nat.
Proof.
  intros Hl Hrun Ho. assert (serial_wf (serial_reset s0)) as Hwf.
  { split; [split|..]; cbn; done || lia. }
  destruct (run_invariant (serial_reset s0, w0) _ _ _ Hwf eq_refl Hrun Ho) as [[[? ? ? ?] ? ?] HE].
  split; [done|]. unfold serial_pending, serial_fifo, ring.
  rewrite !length_app, length_map, length_seq.
  destruct (tx_shift_busy b.1), (tx_buffer_valid b.1); cbn; lia.
Qed.

(** A port that counts its interrupt requests. *)
Definition demo_serial : SerialState Z :=
  mkSerial (Some (fun w m => w + 1)) 0 0 false 0 false 0 0 false false true false
    (replicate 16 0) 0 0 0 false.

(** Two bytes are written, the first is shifted out and taken. *)
Lemma serial_transmits_in_order_witness :
  exists b, serial_run (serial_reset demo_serial, 0) [u8 65; u8 66] [65] b /\
    b.2 = 2 /\ serial_pending b.1 = [66] /\
    ([65] ++ serial_pending b.1 = [u8 65; u8 66] /\ (length (serial_pending b.1) <= 18)%nat).
Proof.
  set (b1 := rigel_serial_domain_write_reg RIGEL_REG_SERDAT 65 (serial_reset demo_serial, 0)).
  set (b2 := rigel_serial_domain_write_reg RIGEL_REG_SERDAT 66 b1).
  set (b3 := serial_step 10 b2).
  assert (R : serial_run (serial_reset demo_serial, 0) [u8 65; u8 66] [] (b3.1, b3.2)).
  { rewrite <- surjective_pairing. apply run_step.
    apply (run_write _ [u8 65] [] b1 66); [|reflexivity].
    apply (run_write _ [] [] _ 65); [apply run_start|reflexivity]. }
  destruct (serial_pop_tx_byte b3.1) as [[c s']|] eqn:E; [|discriminate E].
  assert (Hc : c = 65 /\ tx_overflow s' = false /\ serial_pending s' = [66]).
  { vm_compute in E. injection E as <- <-. repeat split. }
  destruct Hc as (-> & Ho & Hp).
  pose proof (run_take _ _ _ _ _ _ _ R E) as R'.
  pose proof (serial_transmits_in_order demo_serial 0 _ _ _ eq_refl R' Ho) as H.
  exists (s', b3.2). split; [exact R'|]. split; [reflexivity|]. split; [exact Hp|exact H].
Defined.

(** Switching to the instant mode while a word is shifted out loses it:
    [serial_step] queues a completed word only in the other mode. *)
Lemma instant_switch_loses_byte :
  let b1 := serial_write_serdat 65 (serial_reset demo_serial, 0) in
  let b2 := serial_step 10 (serial_set_tx_instant true b1.1, b1.2) in
  serial_pending b1.1 = [65] /\ serial_pending b2.1 = [] /\ serial_tx_available b2.1 = false /\
  tx_overflow b2.1 = false.
Proof. repeat split. Qed.
