(* ===== verification/Input.v ===== *)
(** * Mouse, joystick and pots: [paula/input.c], [domains/input]

    The counters of the two ports are set by the host; the pot lines carry the
    second and third mouse buttons, read through POTxDAT and POTGOR. *)

From S2P Require Import Prelude Custom.

(** C: [src/src/chipset/paula/input.h]:6-11 [input_state_t] *)
Record input_state := mkInput {
  potgo : Z;
  joydat : list Z;
  pot_button_x : list Z;
  pot_button_y : list Z;
}.

#[export] Instance eta_input : Eta input_state := fun s =>
  mkInput (potgo s) (joydat s) (pot_button_x s) (pot_button_y s).

(** The element of a port; the arrays have two. *)
Definition at_port (l : list Z) (port : Z) : Z := default 0 (l !! Z.to_nat port).

(** C: [src/src/chipset/paula/input.c] [input_reset] *)
Definition input_reset (_ : input_state) : input_state := mkInput 0xffff [0; 0] [0; 0] [0; 0].

(** C: [src/src/chipset/paula/input.c] [input_read_joydat] *)
Definition input_read_joydat (s : input_state) (port : Z) : Z :=
  if 1 <? port then 0 else at_port (joydat s) port.

(** C: [src/src/chipset/paula/input.c] [input_read_potdat] *)
Definition input_read_potdat (s : input_state) (port : Z) : Z :=
  if 1 <? port then 0xffff
  else if port =? 0 then
    let value := 0xffff in
    let value := if (potgo s .& 0x0200 =? 0) && negb (at_port (pot_button_x s) 0 =? 0)
                 then value .& 0xff00 else value in
    if (potgo s .& 0x0800 =? 0) && negb (at_port (pot_button_y s) 0 =? 0)
    then value .& 0x00ff else value
  else
    let value := 0xffff in
    let value := if (potgo s .& 0x2000 =? 0) && negb (at_port (pot_button_x s) 1 =? 0)
                 then value .& 0xff00 else value in
    if (potgo s .& 0x8000 =? 0) && negb (at_port (pot_button_y s) 1 =? 0)
    then value .& 0x00ff else value.

(** One of the four tests of POTGOR: a line driven high by POTGO reads low
    while its button is pressed.
    C: [src/src/chipset/paula/input.c]:65-76 [input_read_potgor] *)
Definition potgor_line (potgo out dat button value : Z) : Z :=
  if has potgo out && has potgo dat && truthy button then value .& u16 (~~ dat) else value.

(** C: [src/src/chipset/paula/input.c] [input_read_potgor] *)
Definition input_read_potgor (s : input_state) : Z :=
  let value := 0xff00 in
  let value := potgor_line (potgo s) 0x0200 0x0100 (at_port (pot_button_x s) 0) value in
  let value := potgor_line (potgo s) 0x0800 0x0400 (at_port (pot_button_y s) 0) value in
  let value := potgor_line (potgo s) 0x2000 0x1000 (at_port (pot_button_x s) 1) value in
  potgor_line (potgo s) 0x8000 0x4000 (at_port (pot_button_y s) 1) value.

(** C: [src/src/chipset/paula/input.c] [input_write_potgo] *)
Definition input_write_potgo (value : Z) (s : input_state) : input_state := s <| potgo := value |>.

(** C: [src/src/chipset/paula/input.c] [input_set_joydat] *)
Definition input_set_joydat (port value : Z) (s : input_state) : input_state :=
  if 1 <? port then s else s <| joydat := <[Z.to_nat port := value]> (joydat s) |>.

(** C: [src/src/chipset/paula/input.c] [input_set_pot_button_x] *)
Definition input_set_pot_button_x (port : Z) (pressed : bool) (s : input_state) : input_state :=
  if 1 <? port then s else s <| pot_button_x := <[Z.to_nat port := b2u pressed]> (pot_button_x s) |>.

(** C: [src/src/chipset/paula/input.c] [input_set_pot_button_y] *)
Definition input_set_pot_button_y (port : Z) (pressed : bool) (s : input_state) : input_state :=
  if 1 <? port then s else s <| pot_button_y := <[Z.to_nat port := b2u pressed]> (pot_button_y s) |>.

(** ** The domain *)

Inductive InputReg := JOY0DAT | JOY1DAT | POT0DAT | POT1DAT | POTGOR | POTGO.

(** C: [src/include/rigel/rigel_custom.h]:15-31 [RIGEL_REG_JOY0DAT] *)
Definition input_reg (addr : Z) : option InputReg :=
  if addr =? 0x00a then Some JOY0DAT else if addr =? 0x00c then Some JOY1DAT
  else if addr =? 0x012 then Some POT0DAT else if addr =? 0x014 then Some POT1DAT
  else if addr =? 0x016 then Some POTGOR else if addr =? 0x034 then Some POTGO
  else None.

(** C: [src/src/domains/input/input_domain.c] [rigel_input_domain_owns_reg] *)
Definition rigel_input_domain_owns_reg (addr : Z) : bool :=
  match input_reg addr with Some _ => true | None => false end.

(** C: [src/src/domains/input/input_domain.c] [rigel_input_domain_read_reg] *)
Definition rigel_input_domain_read_reg (s : input_state) (addr : Z) : Z :=
  match input_reg addr with
  | Some JOY0DAT => input_read_joydat s 0
  | Some JOY1DAT => input_read_joydat s 1
  | Some POT0DAT => input_read_potdat s 0
  | Some POT1DAT => input_read_potdat s 1
  | Some POTGOR => input_read_potgor s
  | _ => 0
  end.

(** C: [src/src/domains/input/input_domain.c] [rigel_input_domain_write_reg] *)
Definition rigel_input_domain_write_reg (addr value : Z) (s : input_state) : input_state :=
  match input_reg addr with Some POTGO => input_write_potgo value s | _ => s end.
