(* ===== verification/Audio.v ===== *)
(** * Paula's audio channels: [paula/audio.c], [domains/audio]

    Each of the four channels fetches words in its DMA slot and plays a byte
    each period.  The interrupt sink is a function of an outside world [W], as
    in Disk.v; chip RAM is a read function.  The log events are left out. *)

From S2P Require Import Prelude Custom.

(** C: [src/src/chipset/paula/audio.h]:9-11 [RIGEL_PAULA_AUDIO_CHANNELS] *)
Definition RIGEL_PAULA_AUDIO_CHANNELS := 4.

(** C: [src/src/chipset/paula/audio.h]:20-36 [rigel_audio_channel_t] *)
Record AudioChannel := mkChannel {
  audlen : Z; audper : Z; audvol : Z; auddat : Z; audlc : Z;
  current_ptr : Z; current_length : Z; period_counter : Z; current_sample : Z;
  ch_dma_enabled : bool; data_pending : bool;
  pending_lo : Z; has_pending_lo : bool;
  dma_word : Z; dma_word_ready : bool;
}.

#[export] Instance eta_channel : Eta AudioChannel := fun c =>
  mkChannel (audlen c) (audper c) (audvol c) (auddat c) (audlc c) (current_ptr c)
    (current_length c) (period_counter c) (current_sample c) (ch_dma_enabled c)
    (data_pending c) (pending_lo c) (has_pending_lo c) (dma_word c) (dma_word_ready c).

(** C: [src/src/chipset/paula/audio.h]:38-45 [audio_state_t] *)
Record AudioState {W : Type} := mkAudio {
  audio_ch : list AudioChannel;
  mixed_left : Z; mixed_right : Z;
  sample_ready : bool;
  audio_dmacon : Z;
  audio_irq : option (W -> Z -> W);
}.
Arguments AudioState : clear implicits.
Arguments mkAudio {W}.

#[export] Instance eta_audio {W} : Eta (AudioState W) := fun a =>
  mkAudio (audio_ch a) (mixed_left a) (mixed_right a) (sample_ready a) (audio_dmacon a) (audio_irq a).

Definition zero_channel : AudioChannel :=
  mkChannel 0 0 0 0 0 0 0 0 0 false false 0 false 0 false.

(** C: [src/src/chipset/paula/audio.c] [audio_valid_channel] *)
Definition audio_valid_channel (channel : Z) : bool :=
  (0 <=? channel) && (channel <? RIGEL_PAULA_AUDIO_CHANNELS).

(** The channel of a number the caller has checked. *)
Definition nth_channel {W} (a : AudioState W) (channel : Z) : AudioChannel :=
  default zero_channel (audio_ch a !! Z.to_nat channel).

(** An assignment to fields of [audio_channel(audio, channel)], nothing when
    the number is not a channel.
    C: [src/src/chipset/paula/audio.c] [audio_channel] *)
Definition on_channel {W} (channel : Z) (f : AudioChannel -> AudioChannel) (a : AudioState W)
    : AudioState W :=
  if audio_valid_channel channel
  then a <| audio_ch := alter f (Z.to_nat channel) (audio_ch a) |> else a.

(** C: [src/src/chipset/paula/audio.c] [audio_channel_dma_enabled] *)
Definition audio_channel_dma_enabled {W} (a : AudioState W) (channel : Z) : bool :=
  negb (audio_dmacon a .& u32 (1 .<< channel) =? 0).

(** ** Registers *)

(** C: [src/src/chipset/paula/audio.c] [audio_reset] *)
Definition audio_reset {W} (a : AudioState W) : AudioState W :=
  mkAudio (replicate 4 zero_channel) 0 0 false 0 (audio_irq a).

(** C: [src/src/chipset/paula/audio.c] [audio_set_irq_sink] *)
Definition audio_set_irq_sink {W} (sink : option (W -> Z -> W)) (a : AudioState W) : AudioState W :=
  a <| audio_irq := sink |>.

(** C: [src/src/chipset/paula/audio.c] [audio_set_dmacon] *)
Definition audio_set_dmacon {W} (dmacon : Z) (a : AudioState W) : AudioState W :=
  a <| audio_dmacon := dmacon |>.

(** C: [src/src/chipset/paula/audio.c] [audio_write_lch] *)
Definition audio_write_lch {W} (channel value : Z) : AudioState W -> AudioState W :=
  on_channel channel (fun c => c <| audlc := (audlc c .& 0x0000ffff) .| u32 (value .<< 16) |>).

(** C: [src/src/chipset/paula/audio.c] [audio_write_lcl] *)
Definition audio_write_lcl {W} (channel value : Z) : AudioState W -> AudioState W :=
  on_channel channel (fun c => c <| audlc := (audlc c .& 0xffff0000) .| (value .& 0xfffe) |>).

(** C: [src/src/chipset/paula/audio.c] [audio_write_len] *)
Definition audio_write_len {W} (channel value : Z) : AudioState W -> AudioState W :=
  on_channel channel (fun c =>
    let c := c <| audlen := value |> in
    if current_length c =? 0 then c <| current_length := value |> else c).

(** C: [src/src/chipset/paula/audio.c] [audio_write_per] *)
Definition audio_write_per {W} (channel value : Z) : AudioState W -> AudioState W :=
  on_channel channel (fun c => c <| audper := if negb (value =? 0) then value else 1 |>).

(** C: [src/src/chipset/paula/audio.c] [audio_write_vol] *)
Definition audio_write_vol {W} (channel value : Z) : AudioState W -> AudioState W :=
  on_channel channel (fun c =>
    let c := c <| audvol := u16 (value .& 0x007f) |> in
    if 64 <? audvol c then c <| audvol := 64 |> else c).

(** C: [src/src/chipset/paula/audio.c] [audio_write_dat] *)
Definition audio_write_dat {W} (channel value : Z) : AudioState W -> AudioState W :=
  on_channel channel (fun c => c <| auddat := value |> <| data_pending := true |>).

(** C: [src/src/chipset/paula/audio.c] [audio_left] *)
Definition audio_left {W} (a : AudioState W) : Z := mixed_left a.
(** C: [src/src/chipset/paula/audio.c] [audio_right] *)
Definition audio_right {W} (a : AudioState W) : Z := mixed_right a.

(** ** Playing *)

(** The conversion [(int16_t)((int8_t)byte) << 8]. *)
Definition sample_of (byte : Z) : Z := i16 (sign_extend 8 byte .<< 8).

(** The end of a period: the next byte becomes the sample.
    C: [src/src/chipset/paula/audio.c]:147-158 [audio_step] *)
Definition audio_period (c : AudioChannel) : AudioChannel :=
  if data_pending c then
    c <| current_sample := sample_of (auddat c .>> 8) |> <| data_pending := false |>
  else if has_pending_lo c then
    c <| current_sample := sample_of (pending_lo c) |> <| has_pending_lo := false |>
  else if dma_word_ready c then
    c <| current_sample := sample_of (dma_word c .>> 8) |>
      <| pending_lo := u8 (dma_word c .& 0xff) |> <| has_pending_lo := true |>
      <| dma_word_ready := false |>
  else c.

(** The loop over the periods of a step: the clocks left, the channel and
    whether a period ended; each turn consumes at least one clock, and [None]
    is running out of fuel.
    C: [src/src/chipset/paula/audio.c]:128-159 [audio_step] *)
Fixpoint audio_periods (fuel : nat) (remaining : Z) (c : AudioChannel) (elapsed : bool)
    : option (Z * AudioChannel * bool) :=
  match fuel with
  | O => None
  | S fuel =>
      if period_counter c <=? remaining then
        let remaining := u32 (remaining - period_counter c) in
        audio_periods fuel remaining (audio_period (c <| period_counter := audper c |>)) true
      else Some (remaining, c, elapsed)
  end.

(** One channel's turn in a step.
    C: [src/src/chipset/paula/audio.c]:109-162 [audio_step] *)
Definition audio_step_channel (enabled : bool) (cycles : Z) (c : AudioChannel)
    : option (AudioChannel * bool) :=
  let c := c <| ch_dma_enabled := enabled |> in
  if negb (ch_dma_enabled c) && negb (data_pending c) then Some (c, false)
  else
    let c := if audper c =? 0 then c <| audper := 1 |> else c in
    let c := if period_counter c =? 0 then c <| period_counter := audper c |> else c in
    '(remaining, c, elapsed) ← audio_periods (S (Z.to_nat cycles)) cycles c false;
    Some (c <| period_counter := u16 (period_counter c - remaining) |>, elapsed).

(** C: [src/src/chipset/paula/audio.c] [audio_mix] *)
Definition audio_mix {W} (a : AudioState W) : AudioState W :=
  let voice i := Z.quot (current_sample (nth_channel a i) * audvol (nth_channel a i)) 64 in
  let clamp x := if 32767 <? x then 32767 else if x <? -32768 then -32768 else x in
  let left := voice 0 + voice 3 in
  let right := voice 1 + voice 2 in
  a <| mixed_left := i16 (clamp left) |> <| mixed_right := i16 (clamp right) |>.

(** One turn of the loop over the channels.
    C: [src/src/chipset/paula/audio.c]:109-162 [audio_step] *)
Definition audio_turn {W} (cycles : Z) (s : AudioState W * bool) (channel : Z)
    : option (AudioState W * bool) :=
  let '(a, sample_elapsed) := s in
  '(c, elapsed) ← audio_step_channel (audio_channel_dma_enabled a channel) cycles
                     (nth_channel a channel);
  Some (on_channel channel (fun _ => c) a, sample_elapsed || elapsed).

(** C: [src/src/chipset/paula/audio.c] [audio_step] *)
Definition audio_step {W} (cycles : Z) (a : AudioState W) : option (AudioState W) :=
  '(a, sample_elapsed) ← foldl (fun r channel => s ← r; audio_turn cycles s channel)
    (Some (a, false)) (seqZ 0 RIGEL_PAULA_AUDIO_CHANNELS);
  let a := audio_mix a in
  Some (if sample_elapsed : bool then a <| sample_ready := true |> else a).

(** ** DMA *)

(** INTREQ bits 7 to 10.
    C: [src/src/chipset/paula/audio.c]:284-286 [audio_dma_step_slot] *)
Definition audio_irq_bit (channel : Z) : Z :=
  default 0 ([0x0080; 0x0100; 0x0200; 0x0400] !! Z.to_nat channel).

(** The pointer of a block that starts; [None] when there is none.
    C: [src/src/chipset/paula/audio.c]:299-304 [audio_dma_step_slot] *)
Definition audio_block (c : AudioChannel) : option AudioChannel :=
  if current_length c =? 0 then
    if audlen c =? 0 then None
    else Some (c <| current_ptr := audlc c |> <| current_length := audlen c |>)
  else Some c.

(** C: [src/src/chipset/paula/audio.c]:321-340 [audio_dma_step_slot] *)
Definition audio_fetch (rd : Z -> Z) (c : AudioChannel) : AudioChannel :=
  c <| dma_word := rd (current_ptr c .& u32 (~~ 1)) |> <| dma_word_ready := true |>
    <| current_ptr := u32 (current_ptr c + 2) |>
    <| current_length := u16 (current_length c - 1) |>.

(** C: [src/src/chipset/paula/audio.c] [audio_dma_step_slot] *)
Definition audio_dma_step_slot {W} (channel : Z) (read16 : option (W -> Z -> Z)) (b : AudioState W * W)
    : AudioState W * W :=
  let '(a, w) := b in
  match read16 with
  | None => b
  | Some rd =>
      if negb (audio_valid_channel channel) then b
      else
        let ch := nth_channel a channel in
        if negb (audio_channel_dma_enabled a channel) || dma_word_ready ch then b
        else
          match audio_block ch with
          | None => b
          | Some ch =>
              let ch := audio_fetch (rd w) ch in
              let a := on_channel channel (fun _ => ch) a in
              if current_length ch =? 0 then
                match audio_irq a with
                | None => (a, w)
                | Some raise => (a, raise w (audio_irq_bit channel))
                end
              else (a, w)
          end
  end.

(** One turn of the loop.
    C: [src/src/chipset/paula/audio.c]:372-384 [audio_cycles_to_next_event] *)
Definition audio_next_event {W} (a : AudioState W) (min ch : Z) : Z :=
  let c := nth_channel a ch in
  if audio_channel_dma_enabled a ch || data_pending c || has_pending_lo c || dma_word_ready c then
    let next := period_counter c in
    let next := if next =? 0 then if negb (audper c =? 0) then audper c else 1 else next in
    if next <? min then next else min
  else min.

(** C: [src/src/chipset/paula/audio.c] [audio_cycles_to_next_event] *)
Definition audio_cycles_to_next_event {W} (a : AudioState W) : Z :=
  foldl (audio_next_event a) 0xffffffff (seqZ 0 RIGEL_PAULA_AUDIO_CHANNELS).

(** ** The domain: [audio_domain.c] *)

(** C: [src/include/rigel/rigel_custom.h]:55-55 [RIGEL_REG_AUD0LCH] *)
Definition RIGEL_REG_AUD0LCH := 0x0a0.
(** C: [src/include/rigel/rigel_custom.h]:61-61 [RIGEL_REG_AUD3DAT] *)
Definition RIGEL_REG_AUD3DAT := 0x0da.

(** C: [src/src/domains/audio/audio_domain.c] [rigel_audio_domain_decode_reg] *)
Definition rigel_audio_domain_decode_reg (addr : Z) : option (Z * Z) :=
  if (addr <? RIGEL_REG_AUD0LCH) || (RIGEL_REG_AUD3DAT <? addr) then None
  else
    let slot := addr - RIGEL_REG_AUD0LCH in
    if 0x0a <? slot .& 0x0f then None else Some (slot .>> 4, slot .& 0x0f).

(** C: [src/src/domains/audio/audio_domain.c] [rigel_audio_domain_owns_reg] *)
Definition rigel_audio_domain_owns_reg (addr : Z) : bool :=
  match rigel_audio_domain_decode_reg addr with Some _ => true | None => false end.

(** C: [src/src/domains/audio/audio_domain.c] [rigel_audio_domain_write_reg] *)
Definition rigel_audio_domain_write_reg {W} (addr value : Z) (a : AudioState W) : AudioState W :=
  match rigel_audio_domain_decode_reg addr with
  | None => a
  | Some (channel, offset) =>
      if offset =? 0x0 then audio_write_lch channel value a
      else if offset =? 0x2 then audio_write_lcl channel value a
      else if offset =? 0x4 then audio_write_len channel value a
      else if offset =? 0x6 then audio_write_per channel value a
      else if offset =? 0x8 then audio_write_vol channel value a
      else if offset =? 0x0a then audio_write_dat channel value a
      else a
  end.
