(* ===== verification/AudioFacts.v ===== *)
(** * What an audio channel plays

    The periods of a step in closed form, the bytes a channel plays against the
    words it fetches, and the announced time of the next sample. *)

From S2P Require Import Prelude Custom Audio.

(** ** Periods *)

(** The number of periods that end within [cycles] clocks and the counter
    after them, from a counter [pc] and a period [per]. *)
Definition periods_ended (pc per cycles : Z) : Z :=
  if pc <=? cycles then 1 + (cycles - pc) / per else 0.

Definition counter_after (pc per cycles : Z) : Z :=
  if pc <=? cycles then per - (cycles - pc) mod per else pc - cycles.

(** What the registers of a playing channel satisfy. *)
Record channel_wf (c : AudioChannel) : Prop := {
  wf_per : is_u16 (audper c);
  wf_counter : is_u16 (period_counter c);
  wf_lo : is_u8 (pending_lo c);
  wf_word : is_u16 (dma_word c);
}.

(** The period and the counter a step works with. *)
Definition step_per (c : AudioChannel) : Z := if audper c =? 0 then 1 else audper c.
Definition step_counter (c : AudioChannel) : Z :=
  if period_counter c =? 0 then step_per c else period_counter c.

Lemma period_keeps c :
  audper (audio_period c) = audper c /\ period_counter (audio_period c) = period_counter c /\
  audlen (audio_period c) = audlen c /\ audlc (audio_period c) = audlc c /\
  current_ptr (audio_period c) = current_ptr c /\
  current_length (audio_period c) = current_length c /\
  ch_dma_enabled (audio_period c) = ch_dma_enabled c /\ audvol (audio_period c) = audvol c.
Proof. unfold audio_period. by destruct (data_pending c), (has_pending_lo c), (dma_word_ready c). Qed.

Lemma period_counter_commutes c p :
  audio_period (c <| period_counter := p |>) = (audio_period c) <| period_counter := p |>.
Proof. unfold audio_period. by destruct c as [??????????[] ?[] ?[]]. Qed.

Lemma iter_period_counter n c p :
  Nat.iter n audio_period (c <| period_counter := p |>)
    = (Nat.iter n audio_period c) <| period_counter := p |>.
Proof. induction n as [|n IH]; [done|]. by rewrite !Nat.iter_succ, IH, period_counter_commutes. Qed.

(** After the first period the counter runs from the period. *)
Lemma periods_from_reload per k : 0 < per -> 0 <= k ->
  periods_ended per per k = k / per /\ counter_after per per k = per - k mod per.
Proof.
  intros Hp Hk. unfold periods_ended, counter_after.
  destruct (Z.leb_spec per k).
  - replace k with ((k - per) + 1 * per) at 2 4 by lia.
    rewrite Z.div_add, Z.mod_add by lia. lia.
  - rewrite Z.div_small, Z.mod_small by lia. lia.
Qed.

(** The loop does not run out of fuel and ends the right number of periods. *)
Lemma audio_periods_spec fuel : forall remaining c e,
  0 < audper c -> 0 < period_counter c -> is_u32 remaining -> (Z.to_nat remaining < fuel)%nat ->
  let n := periods_ended (period_counter c) (audper c) remaining in
  exists r p,
    audio_periods fuel remaining c e =
      Some (r, (Nat.iter (Z.to_nat n) audio_period c) <| period_counter := p |>, e || (0 <? n)) /\
    p - r = counter_after (period_counter c) (audper c) remaining /\
    0 <= r < p /\ p <= Z.max (period_counter c) (audper c).
Proof.
  induction fuel as [|fuel IH]; intros remaining c e Hper Hpc Hr Hf; [lia|].
  cbn [audio_periods]. unfold periods_ended, counter_after.
  destruct (Z.leb_spec (period_counter c) remaining) as [Hle|Hlt].
  - rewrite wrap_small by (unfold in_width in *; lia).
    rewrite period_counter_commutes. set (k := remaining - period_counter c).
    set (c1 := (audio_period c) <| period_counter := audper c |>).
    destruct (period_keeps c) as (E1 & _).
    destruct (IH k c1 true) as (r & p & H1 & H2 & H3 & H4);
      [by change (0 < audper (audio_period c)); rewrite E1|done
      |unfold in_width in *; lia|lia|].
    change (period_counter c1) with (audper c) in *.
    change (audper c1) with (audper (audio_period c)) in *. rewrite E1 in *.
    destruct (periods_from_reload (audper c) k) as [P1 P2]; [lia..|]. rewrite P1, P2 in *.
    pose proof (Z.div_pos k (audper c)).
    exists r, p. rewrite H1. split_and!; [|lia..].
    replace (0 <? 1 + k / audper c) with true by (symmetry; apply Z.ltb_lt; lia).
    rewrite orb_true_l, orb_true_r.
    do 3 f_equal. subst c1. rewrite iter_period_counter. replace (Z.to_nat (1 + k / audper c)) with (S (Z.to_nat (k / audper c))) by lia.
    rewrite Nat.iter_succ_r. by destruct (Nat.iter _ _ _).
  - exists remaining, (period_counter c). cbn. rewrite orb_false_r.
    unfold in_width in Hr. split_and!; [by destruct c|lia..].
Qed.

(** One channel's step in closed form. *)
Lemma step_channel_closed enabled cycles c :
  channel_wf c -> is_u32 cycles -> enabled = true \/ data_pending c = true ->
  let n := periods_ended (step_counter c) (step_per c) cycles in
  audio_step_channel enabled cycles c =
    Some ((Nat.iter (Z.to_nat n) audio_period
            (c <| ch_dma_enabled := enabled |> <| audper := step_per c |>))
            <| period_counter := counter_after (step_counter c) (step_per c) cycles |>, 0 <? n).
Proof.
  intros [Hper Hcnt _ _] Hcy Hon. cbv zeta. unfold audio_step_channel. cbn [ch_dma_enabled].
  assert (Hp : 0 < step_per c <= 65535 /\ 0 < step_counter c <= 65535).
  { unfold step_counter, step_per, in_width in *.
    destruct (Z.eqb_spec (audper c) 0), (Z.eqb_spec (period_counter c) 0); lia. }
  set (c1 := c <| ch_dma_enabled := enabled |>).
  replace (negb (ch_dma_enabled c1) && negb (data_pending c1)) with false
    by (subst c1; cbn; by destruct Hon as [-> | ->]; rewrite ?andb_false_r).
  set (c2 := if audper c1 =? 0 then c1 <| audper := 1 |> else c1).
  assert (E2 : c2 = c1 <| audper := step_per c |>).
  { subst c2. unfold step_per. change (audper c1) with (audper c).
    destruct (audper c =? 0); [done|]. subst c1. by destruct c. }
  set (c3 := if period_counter c2 =? 0 then c2 <| period_counter := audper c2 |> else c2).
  assert (E3 : c3 = c1 <| audper := step_per c |> <| period_counter := step_counter c |>).
  { subst c3. rewrite E2. unfold step_counter.
    change (period_counter (c1 <| audper := step_per c |>)) with (period_counter c).
    destruct (period_counter c =? 0); [done|]. subst c1. by destruct c. }
  rewrite E3. set (c4 := c1 <| audper := step_per c |> <| period_counter := step_counter c |>).
  destruct (audio_periods_spec (S (Z.to_nat cycles)) cycles c4 false) as (r & p & H1 & H2 & H3 & H4);
    [cbn; lia..|done|lia|].
  change (period_counter c4) with (step_counter c) in *. change (audper c4) with (step_per c) in *.
  rewrite H1. cbn [mbind option_bind orb]. f_equal. f_equal. rewrite <- H2. subst c4.
  rewrite iter_period_counter.
  change (period_counter (?c <| period_counter := ?x |>)) with x.
  rewrite wrap_small by (unfold in_width; cbn; lia). by destruct (Nat.iter _ _ _).
Qed.

(** ** All four channels *)

Definition audio_wf {W} (a : AudioState W) : Prop :=
  length (audio_ch a) = 4%nat /\ Forall channel_wf (audio_ch a).

(** What a step does to one channel. *)
Definition channel_after (enabled : bool) (n : Z) (c : AudioChannel) : AudioChannel :=
  default c (fst <$> audio_step_channel enabled n c).

Definition channel_elapsed (enabled : bool) (n : Z) (c : AudioChannel) : bool :=
  default false (snd <$> audio_step_channel enabled n c).

Lemma sample_of_i16 b : is_i16 (sample_of b).
Proof.
  unfold sample_of, sign_extend, in_swidth.
  pose proof (wrap_range 16 ((if wrap 8 b <? 2 ^ (8 - 1) then wrap 8 b else wrap 8 b - 2 ^ 8) .<< 8)).
  unfold in_width in *. destruct (Z.ltb_spec (wrap 16 ((if wrap 8 b <? 2 ^ (8 - 1) then wrap 8 b
    else wrap 8 b - 2 ^ 8) .<< 8)) (2 ^ (16 - 1))); cbn in *; lia.
Qed.

Lemma period_wf c : channel_wf c -> channel_wf (audio_period c).
Proof.
  intros [Hp Hc Hl Hw]. unfold audio_period.
  destruct (data_pending c), (has_pending_lo c), (dma_word_ready c); split; cbn; try done; width.
Qed.

Lemma iter_period_wf n c : channel_wf c -> channel_wf (Nat.iter n audio_period c).
Proof. intros H. induction n as [|n IH]; [done|]. rewrite Nat.iter_succ. by apply period_wf. Qed.

Lemma counter_after_range pc per n :
  0 < pc <= 65535 -> 0 < per <= 65535 -> 0 <= n -> 0 < counter_after pc per n <= 65535.
Proof.
  intros Hpc Hper Hn. unfold counter_after. destruct (Z.leb_spec pc n); [|lia].
  pose proof (Z.mod_pos_bound (n - pc) per). lia.
Qed.

Lemma step_params c : channel_wf c -> 0 < step_per c <= 65535 /\ 0 < step_counter c <= 65535.
Proof.
  intros [Hp Hc _ _]. unfold step_counter, step_per, in_width in *.
  destruct (Z.eqb_spec (audper c) 0), (Z.eqb_spec (period_counter c) 0); lia.
Qed.

Lemma step_channel_total enabled n c :
  channel_wf c -> is_u32 n ->
  audio_step_channel enabled n c = Some (channel_after enabled n c, channel_elapsed enabled n c) /\
  channel_wf (channel_after enabled n c).
Proof.
  intros Hwf Hn. unfold channel_after, channel_elapsed.
  destruct (decide (enabled = true \/ data_pending c = true)) as [Hon|Hoff].
  - rewrite step_channel_closed by done. cbn [fmap option_fmap option_map default fst snd].
    split; [done|]. destruct (step_params c Hwf) as [H1 H2].
    set (c1 := c <| ch_dma_enabled := enabled |> <| audper := step_per c |>).
    assert (channel_wf c1) as Hwf1 by (destruct Hwf; split; cbn; done || (unfold in_width; cbn; lia)).
    pose proof (iter_period_wf (Z.to_nat (periods_ended (step_counter c) (step_per c) n)) c1 Hwf1) as [? ? ? ?].
    pose proof (counter_after_range (step_counter c) (step_per c) n H2 H1) as H3.
    split; cbn; try done. unfold in_width in *. cbn. lia.
  - unfold audio_step_channel. cbn [ch_dma_enabled].
    set (c1 := c <| ch_dma_enabled := enabled |>).
    replace (negb (ch_dma_enabled c1) && negb (data_pending c1)) with true.
    + cbn. split; [done|]. destruct Hwf. by split.
    + subst c1. cbn. destruct enabled, (data_pending c); tauto.
Qed.

Lemma nth_channel_on {W} k j f (a : AudioState W) :
  length (audio_ch a) = 4%nat -> 0 <= j < 4 -> 0 <= k < 4 ->
  nth_channel (on_channel k f a) j = if decide (j = k) then f (nth_channel a j) else nth_channel a j.
Proof.
  intros Hl Hj Hk. unfold on_channel, audio_valid_channel, RIGEL_PAULA_AUDIO_CHANNELS, nth_channel.
  replace ((0 <=? k) && (k <? 4)) with true by lia. cbn. destruct (decide (j = k)) as [->|Hne].
  - rewrite list_lookup_alter_eq. destruct (lookup_lt_is_Some_2 (audio_ch a) (Z.to_nat k)) as [c ->]; [lia|done].
  - rewrite list_lookup_alter_ne; [done|lia].
Qed.

Lemma on_channel_rest {W} k f (a : AudioState W) :
  audio_dmacon (on_channel k f a) = audio_dmacon a /\ audio_irq (on_channel k f a) = audio_irq a /\
  length (audio_ch (on_channel k f a)) = length (audio_ch a).
Proof. unfold on_channel. destruct (audio_valid_channel k); cbn; by rewrite ?length_alter. Qed.

Lemma nth_channel_wf {W} k (a : AudioState W) : audio_wf a -> 0 <= k < 4 -> channel_wf (nth_channel a k).
Proof.
  intros [Hl Hf] Hk. unfold nth_channel.
  destruct (lookup_lt_is_Some_2 (audio_ch a) (Z.to_nat k)) as [c E]; [lia|]. rewrite E.
  by eapply Forall_lookup_1.
Qed.

Lemma on_channel_wf {W} k f (a : AudioState W) :
  audio_wf a -> (channel_wf (nth_channel a k) -> channel_wf (f (nth_channel a k))) -> audio_wf (on_channel k f a).
Proof.
  intros Ha Hf. unfold on_channel. destruct (audio_valid_channel k) eqn:E; [|done].
  unfold audio_valid_channel, RIGEL_PAULA_AUDIO_CHANNELS in E.
  pose proof (nth_channel_wf k a Ha ltac:(lia)) as Hc. destruct Ha as [Hl HF]. split; cbn.
  - by rewrite length_alter.
  - apply Forall_alter; [done|]. intros c Hl' Hwf. unfold nth_channel in *. rewrite Hl' in *. by apply Hf.
Qed.

(** The turns of the channels in [l]. *)
Lemma audio_turns_spec {W} n (Hn : is_u32 n) (l : list Z) : forall (a : AudioState W) e,
  audio_wf a -> NoDup l -> Forall (fun k => 0 <= k < 4) l ->
  exists a', foldl (fun r channel => s ← r; audio_turn n s channel) (Some (a, e)) l =
      Some (a', e || existsb (fun k => channel_elapsed (audio_channel_dma_enabled a k) n (nth_channel a k)) l) /\
    audio_wf a' /\ audio_dmacon a' = audio_dmacon a /\ audio_irq a' = audio_irq a /\
    sample_ready a' = sample_ready a /\
    forall k, 0 <= k < 4 -> nth_channel a' k =
      if decide (k ∈ l) then channel_after (audio_channel_dma_enabled a k) n (nth_channel a k)
      else nth_channel a k.
Proof.
  induction l as [|j l IH]; intros a e Hwf Hnd Hl.
  - exists a. cbn. rewrite orb_false_r. split_and!; done.
  - inversion_clear Hnd as [|? ? Hj Hnd']. inversion_clear Hl as [|? ? Hjr Hl'].
    cbn [foldl]. unfold audio_turn at 2. cbn [mbind option_bind].
    destruct (step_channel_total (audio_channel_dma_enabled a j) n _ (nth_channel_wf j a Hwf Hjr) Hn) as [E Hc].
    rewrite E. cbn [mbind option_bind].
    set (c' := channel_after (audio_channel_dma_enabled a j) n (nth_channel a j)) in *.
    set (a1 := on_channel j (fun _ => c') a).
    destruct (on_channel_rest j (fun _ => c') a) as (R1 & R2 & _).
    assert (R3 : sample_ready a1 = sample_ready a)
      by (subst a1; unfold on_channel; by destruct (audio_valid_channel j)).
    fold a1 in R1, R2.
    assert (Hon : forall k, 0 <= k < 4 -> nth_channel a1 k = if decide (k = j) then c' else nth_channel a k)
      by (intros k Hk; apply (nth_channel_on j k); [apply Hwf|done|done]).
    assert (Hen : forall k, audio_channel_dma_enabled a1 k = audio_channel_dma_enabled a k)
      by (intros k; unfold audio_channel_dma_enabled; by rewrite R1).
    destruct (IH a1 (e || channel_elapsed (audio_channel_dma_enabled a j) n (nth_channel a j)))
      as (a' & F & Hwf' & D & I & S & N); [by apply on_channel_wf|done|done|].
    exists a'. rewrite F. split_and!; [|done|congruence|congruence|congruence|].
    + cbn [existsb]. rewrite orb_assoc. do 3 f_equal.
      apply eq_true_iff_eq. rewrite !existsb_exists.
      split; intros (k & Hk & Hkc); exists k; (split; [done|]); apply list_elem_of_In in Hk;
        pose proof (proj1 (Forall_forall _ _) Hl' k Hk) as Hkr; cbn in Hkr;
        rewrite ?Hen, ?(Hon k Hkr) in *; by destruct (decide (k = j)) as [->|].
    + intros k Hk. rewrite (N k Hk), Hen, (Hon k Hk).
      destruct (decide (k = j)) as [->|Hne].
      * rewrite decide_False by done. rewrite decide_True by (apply elem_of_cons; tauto). done.
      * destruct (decide (k ∈ l)); [rewrite decide_True by (apply elem_of_cons; tauto)|
          rewrite decide_False by (rewrite elem_of_cons; tauto)]; done.
Qed.

(** The step of the board: every channel takes its own turn. *)
Lemma audio_step_spec {W} n (a : AudioState W) :
  audio_wf a -> is_u32 n ->
  exists a', audio_step n a = Some a' /\ audio_wf a' /\
    audio_dmacon a' = audio_dmacon a /\ audio_irq a' = audio_irq a /\
    (forall k, 0 <= k < 4 ->
      nth_channel a' k = channel_after (audio_channel_dma_enabled a k) n (nth_channel a k)) /\
    sample_ready a' = sample_ready a ||
      existsb (fun k => channel_elapsed (audio_channel_dma_enabled a k) n (nth_channel a k)) [0; 1; 2; 3].
Proof.
  intros Hwf Hn. unfold audio_step. change (seqZ 0 RIGEL_PAULA_AUDIO_CHANNELS) with [0; 1; 2; 3].
  destruct (audio_turns_spec n Hn [0; 1; 2; 3] a false Hwf) as (a1 & F & Hwf1 & D & I & S & N);
    [by apply (bool_decide_unpack _)|repeat constructor; lia|].
  rewrite F. cbn [mbind option_bind orb].
  set (e := existsb _ _). eexists. split; [done|].
  assert (Hmix : audio_ch (audio_mix a1) = audio_ch a1) by done.
  split_and!; [|by destruct e|by destruct e| |].
  - unfold audio_wf. destruct e; exact Hwf1.
  - intros k Hk. assert (Hin : k ∈ [0; 1; 2; 3]).
    { apply list_elem_of_In. cbn. lia. }
    specialize (N k Hk). rewrite decide_True in N by done. rewrite <- N. by destruct e.
  - destruct e; cbn; [by rewrite orb_true_r|by rewrite orb_false_r, S].
Qed.

(** ** The bytes on the way *)

(** The fetched bytes a channel has not played yet. *)
Definition channel_queue (c : AudioChannel) : list Z :=
  (if has_pending_lo c then [pending_lo c] else []) ++
  (if dma_word_ready c then [u8 (dma_word c .>> 8); u8 (dma_word c)] else []).

Lemma sample_of_u8 x : sample_of (u8 x) = sample_of x.
Proof. unfold sample_of, sign_extend at 2 3. by rewrite wrap_idemp. Qed.

(** A period plays the oldest byte. *)
Lemma period_plays c :
  data_pending c = false ->
  let c' := audio_period c in
  channel_queue c' = tail (channel_queue c) /\ data_pending c' = false /\
  current_sample c' = default (current_sample c) (sample_of <$> head (channel_queue c)).
Proof.
  intros Hd. cbv zeta. unfold audio_period, channel_queue. rewrite Hd.
  destruct (has_pending_lo c) eqn:E1; [cbn; by destruct (dma_word_ready c)|].
  destruct (dma_word_ready c) eqn:E2; cbn; rewrite ?E1, ?E2; [|by rewrite Hd].
  split_and!; [|done|by rewrite sample_of_u8].
  f_equal. bitwise 8.
Qed.

Lemma periods_play n : forall c,
  data_pending c = false ->
  let c' := Nat.iter n audio_period c in
  channel_queue c' = drop n (channel_queue c) /\ data_pending c' = false /\
  current_sample c' = default (current_sample c) (sample_of <$> last (take n (channel_queue c))).
Proof.
  induction n as [|n IH]; intros c Hd; cbv zeta; [done|].
  rewrite Nat.iter_succ_r. destruct (period_plays c Hd) as (Q & D & S). cbv zeta in *.
  destruct (IH (audio_period c) D) as (Q' & D' & S'). rewrite Q', S', Q, S. clear Q' S'.
  split_and!; [by destruct (channel_queue c); cbn; rewrite ?drop_nil|done|].
  destruct (channel_queue c) as [|x q]; cbn; [by rewrite take_nil|].
  rewrite last_cons. by destruct (last (take n q)).
Qed.

(** ** The words a channel fetches *)

Section fetching.
(** The pointer and length left of the block being fetched, and the registers
    of the blocks after it. *)
Context (ptr0 len0 lc len : Z).

(** The address of the [i]-th word fetched. *)
Definition fetch_address (i : Z) : Z :=
  u32 (if i <? len0 then ptr0 + 2 * i else lc + 2 * ((i - len0) mod len)) .& u32 (~~ 1).

(** Is the [i]-th word the last of its block? *)
Definition fetch_ends_block (i : Z) : bool :=
  if i <? len0 then i + 1 =? len0 else (i - len0 + 1) mod len =? 0.

(** The state of the channel after [i] words. *)
Definition fetch_state (i : Z) (c : AudioChannel) : Prop :=
  audlc c = lc /\ audlen c = len /\
  if i <? len0 then current_length c = len0 - i /\ current_ptr c = u32 (ptr0 + 2 * i)
  else if (i - len0) mod len =? 0 then current_length c = 0
  else current_length c = len - (i - len0) mod len /\
       current_ptr c = u32 (lc + 2 * ((i - len0) mod len)).

Context (Hlen : 0 < len <= 65535) (Hlen0 : 0 <= len0 <= 65535) (Hlc : is_u32 lc).

Lemma mod_succ j : 0 <= j ->
  (j + 1) mod len = if (j + 1) mod len =? 0 then 0 else j mod len + 1.
Proof.
  intros Hj. pose proof (Z.mod_pos_bound j len ltac:(lia)).
  pose proof (Z.div_mod j len ltac:(lia)) as E.
  destruct (decide (j mod len + 1 = len)) as [Hl|Hl].
  - assert ((j + 1) mod len = 0) as ->; [|done].
    apply Z.mod_divide; [lia|]. exists (j / len + 1). lia.
  - assert ((j + 1) mod len = j mod len + 1) as ->.
    { symmetry. apply (Z.mod_unique_pos _ _ (j / len)); lia. }
    destruct (Z.eqb_spec (j mod len + 1) 0); [lia|done].
Qed.

(** One word is fetched from the next address, and the length becomes 0 exactly
    at the end of a block. *)
Lemma fetch_step rd i c :
  0 <= i -> fetch_state i c ->
  exists c1, audio_block c = Some c1 /\
    audio_fetch rd c1 = c1 <| dma_word := rd (fetch_address i) |> <| dma_word_ready := true |>
      <| current_ptr := u32 (current_ptr c1 + 2) |> <| current_length := u16 (current_length c1 - 1) |> /\
    fetch_state (i + 1) (audio_fetch rd c1) /\
    (current_length (audio_fetch rd c1) =? 0) = fetch_ends_block i /\
    has_pending_lo c1 = has_pending_lo c /\ pending_lo c1 = pending_lo c /\
    data_pending c1 = data_pending c /\ current_sample c1 = current_sample c /\
    audper c1 = audper c /\ period_counter c1 = period_counter c.
Proof.
  intros Hi (Hlc' & Hlen' & Hst). unfold audio_block.
  assert (Hnext : forall c1 p l, audlc c1 = lc -> audlen c1 = len -> current_ptr c1 = u32 p ->
    current_length c1 = l -> 0 < l <= 65535 -> fetch_address i = u32 p .& u32 (~~ 1) ->
    audio_fetch rd c1 = c1 <| dma_word := rd (fetch_address i) |> <| dma_word_ready := true |>
      <| current_ptr := u32 (current_ptr c1 + 2) |> <| current_length := u16 (current_length c1 - 1) |> /\
    audlc (audio_fetch rd c1) = lc /\ audlen (audio_fetch rd c1) = len /\
    current_ptr (audio_fetch rd c1) = u32 (p + 2) /\ current_length (audio_fetch rd c1) = l - 1).
  { intros c1 p l E1 E2 E3 E4 Hl E5. unfold audio_fetch. rewrite E5, <- E3. cbn. rewrite E3, E4.
    split_and!; [done|done|done|by rewrite wrap_add_l|]. apply wrap_small. unfold in_width. cbn. lia. }
  unfold fetch_state in *. unfold fetch_ends_block, fetch_address in *.
  destruct (Z.ltb_spec i len0) as [Hb|Hb].
  - destruct Hst as [Hl Hp]. rewrite Hl. destruct (Z.eqb_spec (len0 - i) 0); [lia|].
    exists c. destruct (Hnext c (ptr0 + 2 * i) (len0 - i)) as (F1 & F2 & F3 & F4 & F5); try done; try lia.
    split_and!; try done; [|rewrite F5; lia].
    destruct (Z.ltb_spec (i + 1) len0).
    + rewrite F4, F5. split; [lia|f_equal; lia].
    + replace (i + 1 - len0) with 0 by lia. rewrite Z.mod_0_l by lia. change (0 =? 0) with true. cbv iota. lia.
  - pose proof (Z.mod_pos_bound (i - len0) len ltac:(lia)) as Hm.
    pose proof (mod_succ (i - len0) ltac:(lia)) as Hsucc.
    replace (i + 1 <? len0) with false by lia. replace (i + 1 - len0) with (i - len0 + 1) by lia.
    assert (Hfin : forall c1, audlc c1 = lc -> audlen c1 = len ->
      current_ptr c1 = u32 (lc + 2 * ((i - len0) mod len)) ->
      current_length c1 = len - (i - len0) mod len ->
      audio_fetch rd c1 = c1 <| dma_word := rd (u32 (lc + 2 * ((i - len0) mod len)) .& u32 (~~ 1)) |>
        <| dma_word_ready := true |> <| current_ptr := u32 (current_ptr c1 + 2) |>
        <| current_length := u16 (current_length c1 - 1) |> /\
      (audlc (audio_fetch rd c1) = lc /\ audlen (audio_fetch rd c1) = len /\
       if (i - len0 + 1) mod len =? 0 then current_length (audio_fetch rd c1) = 0
       else current_length (audio_fetch rd c1) = len - (i - len0 + 1) mod len /\
            current_ptr (audio_fetch rd c1) = u32 (lc + 2 * ((i - len0 + 1) mod len))) /\
      (current_length (audio_fetch rd c1) =? 0) = ((i - len0 + 1) mod len =? 0)).
    { intros c1 E1 E2 E3 E4.
      destruct (Hnext c1 _ _ E1 E2 E3 E4 ltac:(lia) eq_refl) as (F1 & F2 & F3 & F4 & F5).
      rewrite F2, F3, F4, F5. split; [done|].
      destruct (Z.eqb_spec ((i - len0 + 1) mod len) 0) as [Hz|Hz].
      - assert ((i - len0) mod len + 1 = len).
        { pose proof (Z.div_mod (i - len0) len ltac:(lia)).
          destruct (decide ((i - len0) mod len + 1 = len)); [done|].
          rewrite <- (Z.mod_unique_pos (i - len0 + 1) len ((i - len0) / len) ((i - len0) mod len + 1)) in Hz; lia. }
        split_and!; try done; lia.
      - rewrite Hsucc. rewrite Hsucc in Hz. split_and!; try done; try lia; [f_equal; lia|].
        apply Z.eqb_neq. pose proof (Z.mod_pos_bound (i - len0 + 1) len ltac:(lia)). lia. }
    destruct (Z.eqb_spec ((i - len0) mod len) 0) as [Hz|Hz].
    + rewrite Hst. cbn. rewrite Hlen'. destruct (Z.eqb_spec len 0); [lia|].
      set (c1 := c <| current_ptr := audlc c |> <| current_length := len |>). exists c1.
      destruct (Hfin c1) as (F1 & (G1 & G2 & G3) & F3); [done|done| |cbn; lia|split_and!; done].
      cbn. rewrite Hz, Z.add_0_r, wrap_small by done. done.
    + destruct Hst as [Hl Hp]. rewrite Hl. destruct (Z.eqb_spec (len - (i - len0) mod len) 0); [lia|].
      exists c. destruct (Hfin c) as (F1 & (G1 & G2 & G3) & F3); try done.
Qed.
End fetching.

(** ** Playing a channel *)

(** What happens to the board while channel [k] plays, and the bytes it has
    played: its DMA slots, steps, and register writes that leave alone the
    location, length and data registers of the channel. *)
Inductive audio_run {W} (k : Z) (mem : Z -> Z) (b0 : AudioState W * W)
    : list Z -> AudioState W * W -> Prop :=
  | audio_run_start : audio_run k mem b0 [] b0
  | audio_run_slot p b : audio_run k mem b0 p b ->
      audio_run k mem b0 p (audio_dma_step_slot k (Some (fun _ => mem)) b)
  | audio_run_step p a w n a' : audio_run k mem b0 p (a, w) -> is_u32 n ->
      audio_step n a = Some a' ->
      let c := nth_channel a k in
      audio_run k mem b0
        (p ++ take (Z.to_nat (periods_ended (step_counter c) (step_per c) n)) (channel_queue c)) (a', w)
  | audio_run_write p a w addr j offset v : audio_run k mem b0 p (a, w) -> is_u16 v ->
      rigel_audio_domain_decode_reg addr = Some (j, offset) ->
      j <> k \/ offset = 6 \/ offset = 8 ->
      audio_run k mem b0 p (rigel_audio_domain_write_reg addr v a, w).

Definition word_bytes (v : Z) : list Z := [u8 (v .>> 8); u8 v].

(** The board after a write that leaves channel [k] its wave. *)
Definition retuned {W} (k : Z) (a a' : AudioState W) : Prop :=
  audio_wf a' /\ audio_dmacon a' = audio_dmacon a /\ audio_irq a' = audio_irq a /\
  exists per vol, is_u16 per /\
    nth_channel a' k = (nth_channel a k) <| audper := per |> <| audvol := vol |>.

Lemma retuned_refl {W} k (a : AudioState W) : audio_wf a -> 0 <= k < 4 -> retuned k a a.
Proof.
  intros Ha Hk. pose proof (nth_channel_wf k a Ha Hk) as [Hp _ _ _]. split_and!; [done..|].
  exists (audper (nth_channel a k)), (audvol (nth_channel a k)). split; [done|]. by destruct (nth_channel a k).
Qed.

Lemma retuned_on {W} k j f (a : AudioState W) :
  audio_wf a -> 0 <= k < 4 -> (forall c, channel_wf c -> channel_wf (f c)) ->
  j <> k \/ (exists per vol, is_u16 per /\ forall c,
    f c = c <| audper := per |> <| audvol := vol |> \/ f c = c <| audper := per |> \/ f c = c <| audvol := vol |>) ->
  retuned k a (on_channel j f a).
Proof.
  intros Ha Hk Hf Hj. destruct (retuned_refl k a Ha Hk) as (_ & _ & _ & Hsame).
  destruct (on_channel_rest j f a) as (R1 & R2 & _).
  split_and!; [apply on_channel_wf; auto|done|done|].
  destruct (decide (0 <= j < 4)) as [Hjr|Hjr].
  - rewrite nth_channel_on by (apply Ha || done). case_decide as Hd; [|exact Hsame].
    destruct Hj as [Hj|(per & vol & Hp & Hc)]; [by symmetry in Hd|].
    pose proof (nth_channel_wf k a Ha Hk) as [Hp' _ _ _].
    destruct (Hc (nth_channel a k)) as [-> | [-> | ->]].
    + by exists per, vol.
    + exists per, (audvol (nth_channel a k)). split; [done|]. by destruct (nth_channel a k).
    + exists (audper (nth_channel a k)), vol. split; [done|]. by destruct (nth_channel a k).
  - unfold on_channel, audio_valid_channel, RIGEL_PAULA_AUDIO_CHANNELS.
    replace ((0 <=? j) && (j <? 4)) with false by lia. exact Hsame.
Qed.

(** A register write: the wave registers of the other channels, period and volume. *)
Lemma write_reg_retunes {W} k addr v (a : AudioState W) j offset :
  audio_wf a -> 0 <= k < 4 -> is_u16 v ->
  rigel_audio_domain_decode_reg addr = Some (j, offset) ->
  j <> k \/ offset = 6 \/ offset = 8 ->
  retuned k a (rigel_audio_domain_write_reg addr v a).
Proof.
  intros Ha Hk Hv E Hj. unfold rigel_audio_domain_write_reg. rewrite E.
  unfold audio_write_lch, audio_write_lcl, audio_write_len, audio_write_per, audio_write_vol, audio_write_dat.
  repeat case_match; try (apply retuned_on; [done|done| |]); try by apply retuned_refl.
  all: try (left; lia).
  all: try (intros c [? ? ? ?]; repeat case_match; split; cbn; done || width).
  - right. exists v, 0. split; [done|]. intros c. by right; left.
  - right. exists 1, 0. split; [closed_range|]. intros c. by right; left.
  - right. exists 0, (if 64 <? u16 (v .& 0x7f) then 64 else u16 (v .& 0x7f)). split; [width|].
    intros c. right; right. cbn. by destruct (64 <? _).
Qed.

Lemma iter_period_keeps n c :
  let c' := Nat.iter n audio_period c in
  audlen c' = audlen c /\ audlc c' = audlc c /\ current_ptr c' = current_ptr c /\
  current_length c' = current_length c.
Proof.
  induction n as [|n IH]; cbv zeta in *; [done|]. rewrite Nat.iter_succ.
  destruct (period_keeps (Nat.iter n audio_period c)) as (_ & _ & E1 & E2 & E3 & E4 & _).
  by rewrite E1, E2, E3, E4.
Qed.

(** A step of a playing channel. *)
Lemma channel_after_plays n c :
  channel_wf c -> is_u32 n -> data_pending c = false ->
  let c' := channel_after true n c in
  let m := Z.to_nat (periods_ended (step_counter c) (step_per c) n) in
  channel_queue c' = drop m (channel_queue c) /\ data_pending c' = false /\
  current_sample c' = default (current_sample c) (sample_of <$> last (take m (channel_queue c))) /\
  audlen c' = audlen c /\ audlc c' = audlc c /\ current_ptr c' = current_ptr c /\
  current_length c' = current_length c.
Proof.
  intros Hwf Hn Hd. cbv zeta. unfold channel_after. rewrite step_channel_closed by auto.
  cbn [fmap option_fmap option_map default fst].
  set (m := Z.to_nat _). set (c1 := c <| ch_dma_enabled := true |> <| audper := step_per c |>).
  destruct (periods_play m c1 Hd) as (Q & D & S).
  destruct (iter_period_keeps m c1) as (E1 & E2 & E3 & E4). cbv zeta in *.
  split_and!; [exact Q|exact D|exact S|exact E1|exact E2|exact E3|exact E4].
Qed.

Section playing.
Context {W : Type} (k : Z) (mem : Z -> Z) (raise : W -> Z -> W).
Context (a0 : AudioState W) (w0 : W).
Let c0 := nth_channel a0 k.
Context (Hwf0 : audio_wf a0) (Hk : 0 <= k < 4) (Hmem : forall a, is_u16 (mem a)).
Context (Hdma : audio_channel_dma_enabled a0 k = true) (Hirq : audio_irq a0 = Some raise).
Context (Hdat : data_pending c0 = false).
Context (Hlen : 0 < audlen c0 <= 65535) (Hleft : is_u16 (current_length c0)).
Context (Hptr : is_u32 (current_ptr c0)) (Hloc : is_u32 (audlc c0)).

(** The [i]-th word fetched, and whether a block ends with it. *)
Definition nth_word (i : nat) : Z :=
  mem (fetch_address (current_ptr c0) (current_length c0) (audlc c0) (audlen c0) (Z.of_nat i)).
Definition block_ends (i : nat) : bool :=
  fetch_ends_block (current_length c0) (audlen c0) (Z.of_nat i).

(** The state after [n] fetches, having played [p]. *)
Definition playing (n : nat) (p : list Z) (a : AudioState W) (w : W) : Prop :=
  let c := nth_channel a k in
  audio_wf a /\ audio_channel_dma_enabled a k = true /\ audio_irq a = Some raise /\
  data_pending c = false /\
  fetch_state (current_ptr c0) (current_length c0) (audlc c0) (audlen c0) (Z.of_nat n) c /\
  p ++ channel_queue c = channel_queue c0 ++ concat (map (fun i => word_bytes (nth_word i)) (seq 0 n)) /\
  w = Nat.iter (length (filter block_ends (seq 0 n))) (fun w => raise w (audio_irq_bit k)) w0 /\
  current_sample c = default (current_sample c0) (sample_of <$> last p).

Lemma playing_start : playing 0 [] a0 w0.
Proof.
  assert (Hst : fetch_state (current_ptr c0) (current_length c0) (audlc c0) (audlen c0) 0 c0).
  { unfold fetch_state. split; [done|]. split; [done|]. unfold in_width in *.
  destruct (Z.ltb_spec 0 (current_length c0)).
  - split; [lia|]. rewrite Z.mul_0_r, Z.add_0_r. symmetry. by apply wrap_small.
  - assert (current_length c0 = 0) as -> by lia. by rewrite Z.mod_0_l by lia. }
  unfold playing. fold c0. split_and!; try done. cbn. by rewrite app_nil_r.
Qed.

Lemma playing_step n p a w m a' :
  playing n p a w -> is_u32 m -> audio_step m a = Some a' ->
  let c := nth_channel a k in
  playing n (p ++ take (Z.to_nat (periods_ended (step_counter c) (step_per c) m)) (channel_queue c)) a' w.
Proof.
  intros (Hwf & Hen & Hi & Hd & (F1 & F2 & F3) & Hq & Hw & Hs) Hm Hst c.
  destruct (audio_step_spec m a Hwf Hm) as (a1 & E & Hwf' & D & I & N & _).
  rewrite Hst in E. injection E as <-.
  destruct (channel_after_plays m c (nth_channel_wf k a Hwf Hk) Hm Hd) as (Q & D' & S & E1 & E2 & E3 & E4).
  cbv zeta in Q, S. set (j := Z.to_nat _) in *.
  specialize (N k Hk). rewrite Hen in N. fold c in N.
  unfold playing. rewrite N. split_and!; [done| | | | | | |].
  - unfold audio_channel_dma_enabled in *. by rewrite D.
  - by rewrite I.
  - done.
  - unfold fetch_state. rewrite E1, E2, E3, E4. done.
  - rewrite Q, <- app_assoc, take_drop. done.
  - done.
  - rewrite S. rewrite last_app. fold c in Hs.
    destruct (last (take j (channel_queue c))); [done|]. by rewrite Hs.
Qed.

Lemma playing_write n p a w a' : playing n p a w -> retuned k a a' -> playing n p a' w.
Proof.
  intros (Hwf & Hen & Hi & Hd & F & Hq & Hw & Hs) (Hwf' & D & I & per & vol & _ & N).
  unfold playing. rewrite N. split_and!; try done.
  - unfold audio_channel_dma_enabled in *. by rewrite D.
  - by rewrite I.
Qed.
Lemma playing_slot n p a w :
  playing n p a w ->
  let b' := audio_dma_step_slot k (Some (fun _ => mem)) (a, w) in
  playing n p b'.1 b'.2 \/ playing (S n) p b'.1 b'.2.
Proof.
  intros (Hwf & Hen & Hi & Hd & Hf & Hq & Hw & Hs). cbv zeta. unfold audio_dma_step_slot.
  replace (audio_valid_channel k) with true
    by (unfold audio_valid_channel, RIGEL_PAULA_AUDIO_CHANNELS; symmetry; lia).
  cbn [negb]. rewrite Hen. cbn [negb orb].
  set (c := nth_channel a k) in *. destruct (dma_word_ready c) eqn:Hr; [by left|]. right.
  assert (Hleft' : 0 <= current_length c0 <= 65535) by (unfold in_width in Hleft; lia).
  destruct (fetch_step (current_ptr c0) (current_length c0) (audlc c0) (audlen c0) Hlen Hleft' Hloc
    mem (Z.of_nat n) c ltac:(lia) Hf)
    as (c1 & E & Ef & Hf' & Hend & P1 & P2 & P3 & P4 & P5 & P6).
  rewrite E, Hend. set (c2 := audio_fetch mem c1) in *.
  set (a1 := on_channel k (fun _ => c2) a).
  destruct (on_channel_rest k (fun _ => c2) a) as (R1 & R2 & _).
  assert (Hn : nth_channel a1 k = c2).
  { unfold a1. rewrite nth_channel_on by (apply Hwf || done). by rewrite decide_True. }
  assert (Hq2 : channel_queue c2 = channel_queue c ++ word_bytes (nth_word n)).
  { rewrite Ef. unfold channel_queue. cbn. rewrite P1, P2, Hr. by rewrite app_nil_r. }
  assert (Hwf2 : channel_wf c2).
  { destruct (nth_channel_wf k a Hwf Hk) as [? ? ? ?]. fold c in wf_per0, wf_counter0, wf_lo0.
    rewrite Ef. split; cbn; rewrite ?P2, ?P5, ?P6; done. }
  assert (Hp : forall w', w' = Nat.iter (length (filter block_ends (seq 0 (S n))))
      (fun w => raise w (audio_irq_bit k)) w0 -> playing (S n) p a1 w').
  { intros w' Hw'. unfold playing. rewrite Hn. split_and!.
    - by apply on_channel_wf.
    - unfold audio_channel_dma_enabled in *. fold a1 in R1. by rewrite R1.
    - fold a1 in R2. by rewrite R2.
    - rewrite Ef. cbn. by rewrite P3.
    - replace (Z.of_nat (S n)) with (Z.of_nat n + 1) by lia. exact Hf'.
    - rewrite Hq2, app_assoc, Hq, seq_S, map_app, concat_app, <- app_assoc. cbn. done.
    - exact Hw'.
    - rewrite Ef. cbn. by rewrite P4. }
  fold a1 in R2. rewrite seq_S, filter_app, length_app in Hp. cbn [filter] in Hp.
  rewrite filter_cons, filter_nil in Hp. fold (block_ends n).
  replace (fetch_ends_block (current_length c0) (audlen c0) (Z.of_nat n)) with (block_ends n) by done.
  cbn [plus] in Hp. destruct (block_ends n) eqn:Hb.
  - fold a1. rewrite R2, Hi. apply Hp. rewrite decide_True by done.
    cbn [length]. rewrite Nat.add_comm, Nat.iter_add. cbn. by rewrite Hw.
  - apply Hp. rewrite decide_False by (by intros []). cbn [length]. by rewrite Nat.add_0_r.
Qed.

Lemma audio_run_playing p b :
  audio_run k mem (a0, w0) p b -> exists n, playing n p b.1 b.2.
Proof.
  intros Hrun. induction Hrun as [|p [a w] Hr [n IH]|p a w m a' Hr [n IH] Hm Hst c|
    p a w addr j offset v Hr [n IH] Hv E Hj].
  - exists 0%nat. apply playing_start.
  - destruct (playing_slot n p a w IH); eauto.
  - exists n. by apply playing_step.
  - exists n. eapply playing_write; [exact IH|].
    eapply write_reg_retunes; [apply IH|done|done|exact E|done].
Qed.
End playing.


(** A board that plays two words from address 0x100 on channel 0. *)
Definition demo_audio : AudioState (list Z) :=
  mkAudio [mkChannel 2 1 64 0 0x100 0 0 0 0 false false 0 false 0 false;
           zero_channel; zero_channel; zero_channel] 0 0 false 0x201 (Some (fun w m => w ++ [m])).


(** ** The next sample *)

(** The time to the next sample of one channel, as announced. *)
Definition channel_deadline {W} (a : AudioState W) (k : Z) : option Z :=
  let c := nth_channel a k in
  if audio_channel_dma_enabled a k || data_pending c || has_pending_lo c || dma_word_ready c
  then Some (step_counter c) else None.

Lemma min_of_deadlines {W} (a : AudioState W) l : forall m,
  let t := foldl (audio_next_event a) m l in
  t <= m /\ (forall k d, k ∈ l -> channel_deadline a k = Some d -> t <= d) /\
  (t = m \/ exists k, k ∈ l /\ channel_deadline a k = Some t).
Proof.
  induction l as [|j l IH]; intros m; cbv zeta; cbn [foldl].
  - split; [lia|]. split; [by intros k d ?%elem_of_nil|by left].
  - set (m1 := audio_next_event a m j). destruct (IH m1) as (H1 & H2 & H3). cbv zeta in *.
    set (t := foldl _ m1 l) in *.
    assert (Hm : m1 <= m /\ (forall d, channel_deadline a j = Some d -> m1 <= d) /\
      (m1 = m \/ channel_deadline a j = Some m1)).
    { subst m1. clear. unfold audio_next_event, channel_deadline, step_counter, step_per. cbv zeta.
      destruct (_ || _); [|by split_and!; [lia| |left]].
      destruct (period_counter (nth_channel a j) =? 0), (audper (nth_channel a j) =? 0); cbn [negb];
        match goal with |- context [?x <? m] => destruct (Z.ltb_spec x m) end;
        split_and!; try lia; try (intros d [= <-]; lia); auto. }
    destruct Hm as (M1 & M2 & M3). split_and!.
    + lia.
    + intros k d [-> | Hk]%elem_of_cons Hd; [specialize (M2 d Hd); lia|by eapply H2].
    + destruct H3 as [-> | (k & Hk & E)]; [|right; exists k; split; [by apply elem_of_cons; right|done]].
      destruct M3 as [-> | E]; [by left|]. right. exists j. split; [by apply elem_of_cons; left|done].
Qed.

(** The announced time of the next sample is exact.  Nothing is played by a
    step shorter than announced, and a step of the announced length ends a
    period, provided no channel keeps fetched bytes with its DMA off (such a
    channel is announced too, and plays nothing). *)
Theorem audio_deadline_exact {W} (a : AudioState W) n :
  audio_wf a -> is_u32 n ->
  let t := audio_cycles_to_next_event a in
  exists a', audio_step n a = Some a' /\
  (n < t -> sample_ready a' = sample_ready a /\ forall k, 0 <= k < 4 ->
    current_sample (nth_channel a' k) = current_sample (nth_channel a k) /\
    channel_queue (nth_channel a' k) = channel_queue (nth_channel a k)) /\
  (n = t -> n < 0xffffffff ->
   (forall k, 0 <= k < 4 -> channel_queue (nth_channel a k) <> [] ->
      audio_channel_dma_enabled a k = true \/ data_pending (nth_channel a k) = true) ->
   sample_ready a' = true).
Proof.
  intros Hwf Hn t. destruct (audio_step_spec n a Hwf Hn) as (a' & E & _ & _ & _ & N & R).
  exists a'. split; [done|].
  destruct (min_of_deadlines a [0; 1; 2; 3] 0xffffffff) as (_ & Hle & Hmin).
  change (foldl (audio_next_event a) 0xffffffff [0; 1; 2; 3]) with t in Hle, Hmin.
  assert (Hin : forall k, 0 <= k < 4 <-> k ∈ [0; 1; 2; 3]).
  { intros k. rewrite list_elem_of_In. cbn. lia. }
  assert (Hch : forall k, 0 <= k < 4 -> n < t ->
    channel_elapsed (audio_channel_dma_enabled a k) n (nth_channel a k) = false /\
    current_sample (channel_after (audio_channel_dma_enabled a k) n (nth_channel a k))
      = current_sample (nth_channel a k) /\
    channel_queue (channel_after (audio_channel_dma_enabled a k) n (nth_channel a k))
      = channel_queue (nth_channel a k)).
  { intros k Hk Hlt. pose proof (nth_channel_wf k a Hwf Hk) as Hc.
    destruct (decide (audio_channel_dma_enabled a k = true \/ data_pending (nth_channel a k) = true)) as [Hon|Hoff].
    - assert (t <= step_counter (nth_channel a k)).
      { apply (Hle k); [by apply Hin|]. unfold channel_deadline.
        by destruct Hon as [-> | ->]; rewrite ?orb_true_r. }
      unfold channel_elapsed, channel_after. rewrite step_channel_closed by done.
      unfold periods_ended. replace (step_counter (nth_channel a k) <=? n) with false by lia. done.
    - unfold channel_elapsed, channel_after, audio_step_channel. cbn [ch_dma_enabled].
      destruct (audio_channel_dma_enabled a k); [tauto|].
      change (data_pending ((nth_channel a k) <| ch_dma_enabled := false |>)) with (data_pending (nth_channel a k)).
      destruct (data_pending (nth_channel a k)); [tauto|]. done. }
  split.
  - intros Hlt. split; [|intros k Hk; rewrite (N k Hk); by destruct (Hch k Hk Hlt) as (_ & ? & ?)].
    rewrite R. cbn [existsb]. rewrite (proj1 (Hch 0 ltac:(lia) Hlt)), (proj1 (Hch 1 ltac:(lia) Hlt)),
      (proj1 (Hch 2 ltac:(lia) Hlt)), (proj1 (Hch 3 ltac:(lia) Hlt)). by rewrite orb_false_r.
  - intros Heq Hlt Hact. rewrite R. destruct Hmin as [Hmin|(k & Hk & Hd)]; [lia|].
    apply Hin in Hk. pose proof (nth_channel_wf k a Hwf Hk) as Hc.
    apply orb_true_iff. right. apply existsb_exists. exists k.
    split; [apply list_elem_of_In; by apply Hin|].
    assert (Hon : audio_channel_dma_enabled a k = true \/ data_pending (nth_channel a k) = true).
    { unfold channel_deadline in Hd. specialize (Hact k Hk). unfold channel_queue in Hact.
      destruct (audio_channel_dma_enabled a k), (data_pending (nth_channel a k)); try tauto.
      destruct (has_pending_lo (nth_channel a k)), (dma_word_ready (nth_channel a k)); try done;
        by apply Hact. }
    assert (step_counter (nth_channel a k) = n).
    { unfold channel_deadline in Hd. revert Hd. case_match; [|discriminate]. intros Hd.
      injection Hd as Hd. lia. }
    unfold channel_elapsed. rewrite step_channel_closed by done. cbn.
    unfold periods_ended. replace (step_counter (nth_channel a k) <=? n) with true by lia.
    apply Z.ltb_lt. replace (n - step_counter (nth_channel a k)) with 0 by lia. by rewrite Z.div_0_l by (destruct (step_params _ Hc); lia).
Qed.

Lemma audio_deadline_exact_witness :
  let a := demo_audio <| audio_ch := [mkChannel 2 5 64 0 0x100 0 0 3 0 true false 0 false 0x1234 true;
    zero_channel; zero_channel; zero_channel] |> in
  audio_cycles_to_next_event a = 3 /\ exists a', audio_step 3 a = Some a' /\ sample_ready a' = true.
Proof.
  cbv zeta. set (a := demo_audio <| audio_ch := _ |>). split; [reflexivity|].
  assert (Hwf : audio_wf a) by (split; [done|repeat constructor; done]).
  destruct (audio_deadline_exact a 3 Hwf ltac:(closed_range)) as (a' & E & _ & H).
  exists a'. split; [exact E|]. apply H; [reflexivity|lia|].
  intros k Hk. assert (k = 0 \/ k = 1 \/ k = 2 \/ k = 3) as [-> | [-> | [-> | ->]]] by lia;
    intros Hq; [by left|done..].
Defined.

(** After reset, a program that sets AUDxLC and AUDxLEN and switches the DMA on
    plays its first block from address 0: writing the length while none is left
    sets [current_length], and [current_ptr] is only loaded when that is 0. *)
Lemma first_block_not_from_location (mem : Z -> Z) :
  let a := audio_set_dmacon 0x201 (rigel_audio_domain_write_reg 0x0a4 2
    (rigel_audio_domain_write_reg 0x0a2 0x1000 (audio_reset demo_audio))) in
  let b := audio_dma_step_slot 0 (Some (fun _ => mem)) (a, []) in
  audlc (nth_channel a 0) = 0x1000 /\ dma_word (nth_channel b.1 0) = mem 0.
Proof. split; reflexivity. Qed.
