(* ===== verification/SpriteDma.v ===== *)
(** * Agnus's fetch engines: refresh, sprites, bitplane pointers

    [agnus/dma/refresh_dma.c], [agnus/dma/sprite_dma.c] and
    [agnus/bitplanes]: what the DMA slots of a line fetch.  Chip RAM is an
    optional read function.  Trace output is left out. *)

From S2P Require Import Prelude.

(** ** Refresh: [refresh_dma.c] *)

(** C: [src/src/chipset/agnus/dma/refresh_dma.h]:11-15 [refresh_dma_state_t] *)
Record refresh_dma_state := mkRefresh {
  pending_cycles : Z;
  slot_hpos : list Z;
  slot_count : Z;
}.

#[export] Instance eta_refresh : Eta refresh_dma_state := fun r =>
  mkRefresh (pending_cycles r) (slot_hpos r) (slot_count r).

(** C: [src/src/chipset/agnus/dma/refresh_dma.c] [refresh_dma_reset] *)
Definition refresh_dma_reset (_ : refresh_dma_state) : refresh_dma_state := mkRefresh 0 [1; 3; 5] 3.

(** C: [src/src/chipset/agnus/dma/refresh_dma.c] [refresh_dma_step] *)
Definition refresh_dma_step (cycles : Z) (r : refresh_dma_state) : refresh_dma_state :=
  r <| pending_cycles := u32 (pending_cycles r + cycles) |>.

(** The pointer may be null: the scheduler has no state to ask without a context.
    C: [src/src/chipset/agnus/dma/refresh_dma.c] [refresh_dma_owns_slot] *)
Definition refresh_dma_owns_slot (r : option refresh_dma_state) (h : Z) : bool :=
  match r with
  | None => (h =? 1) || (h =? 3) || (h =? 5)
  | Some r => existsb (fun i => default 0 (slot_hpos r !! Z.to_nat i) =? h) (seqZ 0 (slot_count r))
  end.

(** ** Sprites: [sprite_dma.c] *)

(** C: [src/src/chipset/agnus/dma/sprite_dma.h]:12-12 [SPRITE_DMA_CHANNELS] *)
Definition SPRITE_DMA_CHANNELS := 8.

(** C: [src/src/chipset/agnus/dma/sprite_dma.h]:14-23 [sprite_dma_channel_t] *)
Record sprite_dma_channel := mkSprite {
  base_ptr : Z; ptr : Z;
  armed : bool; terminated : bool; fetch_ctrl : bool;
  vstart : Z; vstop : Z; w0 : Z;
}.

#[export] Instance eta_sprite : Eta sprite_dma_channel := fun c =>
  mkSprite (base_ptr c) (ptr c) (armed c) (terminated c) (fetch_ctrl c) (vstart c) (vstop c) (w0 c).

(** The array of [sprite_dma_state_t]: eight channels. *)
Definition sprite_dma_state := list sprite_dma_channel.

(** C: [src/src/chipset/agnus/dma/sprite_dma.c] [sprite_dma_reset] *)
Definition sprite_dma_reset (_ : sprite_dma_state) : sprite_dma_state :=
  replicate 8 (mkSprite 0 0 false false true 0 0 0).

(** The fields both pointer writes set after [base_ptr]. *)
Definition sprite_reload (c : sprite_dma_channel) : sprite_dma_channel :=
  c <| ptr := base_ptr c |> <| armed := false |> <| terminated := false |> <| fetch_ctrl := true |>.

(** C: [src/src/chipset/agnus/dma/sprite_dma.c] [sprite_dma_set_ptr_hi] *)
Definition sprite_dma_set_ptr_hi (sp val : Z) (s : sprite_dma_state) : sprite_dma_state :=
  if SPRITE_DMA_CHANNELS <=? sp then s
  else alter (fun c =>
    sprite_reload (c <| base_ptr := (base_ptr c .& 0x0000ffff) .| u32 (val .<< 16) |>)) (Z.to_nat sp) s.

(** C: [src/src/chipset/agnus/dma/sprite_dma.c] [sprite_dma_set_ptr_lo] *)
Definition sprite_dma_set_ptr_lo (sp val : Z) (s : sprite_dma_state) : sprite_dma_state :=
  if SPRITE_DMA_CHANNELS <=? sp then s
  else alter (fun c =>
    sprite_reload (c <| base_ptr := (base_ptr c .& 0xffff0000) .| val |>)) (Z.to_nat sp) s.

(** C: [src/src/chipset/agnus/dma/sprite_dma.c] [sprite_dma_frame_start] *)
Definition sprite_dma_frame_start (s : sprite_dma_state) : sprite_dma_state :=
  map (fun c => mkSprite (base_ptr c) (base_ptr c) false false true 0 0 0) s.

(** A pair of words and whether it is a control pair. *)
Definition SpritePair : Type := Z * Z * bool.

(** The lines of a control pair.
    C: [src/src/chipset/agnus/dma/sprite_dma.c]:135-136 [sprite_dma_slot] *)
Definition sprite_vstart (w0 w1 : Z) : Z :=
  u16 (((w0 .>> 8) .& 0xff) .| u32 (((w1 .>> 2) .& 1) .<< 8)).
Definition sprite_vstop (w1 : Z) : Z :=
  u16 (((w1 .>> 8) .& 0xff) .| u32 (((w1 .>> 1) .& 1) .<< 8)).

(** One slot of one channel: the result, the words stored through the output
    pointers (if any) and the channel.
    C: [src/src/chipset/agnus/dma/sprite_dma.c]:89-151 [sprite_dma_slot] *)
Definition sprite_channel_slot (vpos : Z) (is_b : bool) (rd : Z -> Z) (ch : sprite_dma_channel)
    : bool * option SpritePair * sprite_dma_channel :=
  if terminated ch then (false, None, ch)
  else
    let idle := armed ch && (vpos <? vstart ch) in
    if negb is_b then
      if idle then (false, None, ch)
      else
        let ch := ch <| fetch_ctrl := negb (armed ch) || (vstop ch <=? vpos) |> in
        let ch := ch <| w0 := rd (ptr ch) |> in
        (false, None, ch <| ptr := u32 (ptr ch + 2) |>)
    else if idle then (false, None, ch)
    else
      let w1 := rd (ptr ch) in
      let ch := ch <| ptr := u32 (ptr ch + 2) |> in
      let out := Some (w0 ch, w1, fetch_ctrl ch) in
      if fetch_ctrl ch then
        if (w0 ch =? 0) && (w1 =? 0)
        then (false, out, ch <| armed := false |> <| terminated := true |> <| fetch_ctrl := true |>)
        else (true, out, ch <| vstart := sprite_vstart (w0 ch) w1 |> <| vstop := sprite_vstop w1 |>
                            <| armed := true |>)
      else (true, out, ch).

(** C: [src/src/chipset/agnus/dma/sprite_dma.c] [sprite_dma_slot] *)
Definition sprite_dma_slot (sp vpos : Z) (is_b : bool) (read16 : option (Z -> Z)) (s : sprite_dma_state)
    : bool * option SpritePair * sprite_dma_state :=
  match read16, s !! Z.to_nat sp with
  | Some rd, Some ch =>
      let '(ready, out, ch) := sprite_channel_slot vpos is_b rd ch in
      (ready, out, <[Z.to_nat sp := ch]> s)
  | _, _ => (is_b, if is_b then Some (0, 0, true) else None, s)
  end.

(** ** Bitplane pointers: [bitplane_pointers.c], [bitplane_fetch.c] *)

(** C: [src/src/chipset/agnus/bitplanes/bitplane_pointers.h]:14-14 [BITPLANE_COUNT] *)
Definition BITPLANE_COUNT := 6.

(** The array of [bitplane_pointers_t]: six pointers. *)
Definition bitplane_pointers := list Z.

(** C: [src/src/chipset/agnus/bitplanes/bitplane_pointers.c] [bplpt_reset] *)
Definition bplpt_reset (_ : bitplane_pointers) : bitplane_pointers := replicate 6 0.

(** C: [src/src/chipset/agnus/bitplanes/bitplane_pointers.c] [bplpt_apply_modulo] *)
Definition bplpt_apply_modulo (depth bpl1mod bpl2mod : Z) (p : bitplane_pointers) : bitplane_pointers :=
  imap (fun i v =>
    if Z.of_nat i <? depth then
      let mod_ := if has (Z.of_nat i) 1 then bpl2mod else bpl1mod in
      u32 (i32 v + mod_) .& 0x001ffffe
    else v) p.

(** C: [src/src/chipset/agnus/bitplanes/bitplane_pointers.c] [bplpt_set_hi] *)
Definition bplpt_set_hi (plane val : Z) (p : bitplane_pointers) : bitplane_pointers :=
  if BITPLANE_COUNT <=? plane then p
  else alter (fun v => (v .& 0x0000ffff) .| u32 (val .<< 16)) (Z.to_nat plane) p.

(** C: [src/src/chipset/agnus/bitplanes/bitplane_pointers.c] [bplpt_set_lo] *)
Definition bplpt_set_lo (plane val : Z) (p : bitplane_pointers) : bitplane_pointers :=
  if BITPLANE_COUNT <=? plane then p
  else alter (fun v => (v .& 0xffff0000) .| (val .& 0xfffe)) (Z.to_nat plane) p.

(** C: [src/src/chipset/agnus/bitplanes/bitplane_pointers.c] [bplpt_advance] *)
Definition bplpt_advance (plane : Z) (p : bitplane_pointers) : bitplane_pointers :=
  if BITPLANE_COUNT <=? plane then p
  else alter (fun v => u32 (v + 2) .& 0x001ffffe) (Z.to_nat plane) p.

(** The six words of [bitplane_fetch_state_t].
    C: [src/src/chipset/agnus/bitplanes/bitplane_fetch.c] [bitplane_fetch_reset] *)
Definition bitplane_fetch_reset (_ : list Z) : list Z := replicate 6 0.

(** C: [src/src/chipset/agnus/bitplanes/bitplane_fetch.c] [bitplane_fetch_step] *)
Definition bitplane_fetch_step (plane : Z) (read16 : option (Z -> Z)) (s : list Z * bitplane_pointers)
    : list Z * bitplane_pointers :=
  match read16 with
  | None => s
  | Some rd =>
      if 6 <=? plane then s
      else (<[Z.to_nat plane := rd (default 0 (s.2 !! Z.to_nat plane))]> s.1, bplpt_advance plane s.2)
  end.

(** C: [src/src/chipset/agnus/bitplanes/bitplane_fetch.c] [bitplane_fetch_data] *)
Definition bitplane_fetch_data (f : list Z) (plane : Z) : Z :=
  if 6 <=? plane then 0 else default 0 (f !! Z.to_nat plane).

(** ** The lines of a sprite

    A channel has two slots on a line.  What it delivers from one control pair
    to the next is a band: the pair, nothing before VSTART, then one pair of
    data words a line up to VSTOP. *)

(** The two slots of line [v]: what is delivered, and the channel after. *)
Definition sprite_line (rd : Z -> Z) (v : Z) (c : sprite_dma_channel)
    : option SpritePair * sprite_dma_channel :=
  let '(_, _, c) := sprite_channel_slot v false rd c in
  let '(ready, out, c) := sprite_channel_slot v true rd c in
  ((if ready then out else None), c).

(** [n] lines from line [v]. *)
Fixpoint sprite_lines (rd : Z -> Z) (n : nat) (v : Z) (c : sprite_dma_channel)
    : list (option SpritePair) * sprite_dma_channel :=
  match n with
  | O => ([], c)
  | S n =>
      let '(out, c) := sprite_line rd v c in
      let '(outs, c) := sprite_lines rd n (v + 1) c in (out :: outs, c)
  end.

Lemma sprite_lines_app rd m n v c :
  sprite_lines rd (m + n) v c =
    let '(o1, c1) := sprite_lines rd m v c in
    let '(o2, c2) := sprite_lines rd n (v + Z.of_nat m) c1 in (o1 ++ o2, c2).
Proof.
  revert v c. induction m as [|m IH]; intros v c; cbn [sprite_lines plus].
  - rewrite Z.add_0_r. by destruct (sprite_lines rd n v c).
  - destruct (sprite_line rd v c) as [o c1]. rewrite IH.
    destruct (sprite_lines rd m (v + 1) c1) as [o1 c2].
    replace (v + 1 + Z.of_nat m) with (v + Z.of_nat (S m)) by lia.
    by destruct (sprite_lines rd n _ c2).
Qed.

(** On line [v] the channel fetches a control pair. *)
Definition awaits_control (v : Z) (c : sprite_dma_channel) : Prop :=
  terminated c = false /\ (armed c = true -> vstart c <= v /\ vstop c <= v).

(** The pair at an address. *)
Definition pair_at (rd : Z -> Z) (p : Z) : Z * Z := (rd p, rd (u32 (p + 2))).

Lemma line_control rd v c :
  awaits_control v c ->
  let '(w0, w1) := pair_at rd (ptr c) in
  sprite_line rd v c =
    if (w0 =? 0) && (w1 =? 0)
    then (None, c <| ptr := u32 (ptr c + 4) |> <| fetch_ctrl := true |> <| SpriteDma.w0 := w0 |>
                  <| armed := false |> <| terminated := true |>)
    else (Some (w0, w1, true),
          c <| ptr := u32 (ptr c + 4) |> <| fetch_ctrl := true |> <| SpriteDma.w0 := w0 |>
            <| vstart := sprite_vstart w0 w1 |> <| vstop := sprite_vstop w1 |> <| armed := true |>).
Proof.
  destruct c as [bp p a t f vs ve w]. intros [Ht Ha]. cbn in Ht, Ha. subst t. cbn.
  unfold sprite_line, sprite_channel_slot. cbn.
  replace (a && (v <? vs)) with false by (destruct a; [destruct Ha; [done|]; cbn; lia|done]).
  replace (negb a || (ve <=? v)) with true by (destruct a; [destruct Ha; [done|]; cbn; lia|done]).
  cbn. replace (a && (v <? vs)) with false by (destruct a; [destruct Ha; [done|]; cbn; lia|done]).
  cbn. rewrite wrap_add_l by lia. replace (p + 2 + 2) with (p + 4) by lia.
  by destruct ((rd p =? 0) && (rd (u32 (p + 2)) =? 0)).
Qed.

Lemma lines_idle rd n : forall v c,
  terminated c = true \/ n = 0%nat \/ (armed c = true /\ v + Z.of_nat n <= vstart c) ->
  sprite_lines rd n v c = (replicate n None, c).
Proof.
  induction n as [|n IH]; intros v c H; [done|]. cbn [sprite_lines replicate].
  assert (sprite_line rd v c = (None, c)) as ->.
  { destruct c as [bp p a t f vs ve w]. unfold sprite_line, sprite_channel_slot. cbn in *.
    destruct t; [done|]. destruct H as [|[|[-> H]]]; [done..|].
    assert (Hv : (v <? vs) = true) by lia. rewrite Hv. cbn. by rewrite Hv. }
  rewrite IH; [done|]. destruct H as [|[|[]]]; [by left|done|right; right; split; [done|lia]].
Qed.

Lemma line_data rd v c :
  terminated c = false -> armed c = true -> vstart c <= v < vstop c ->
  sprite_line rd v c = (Some (pair_at rd (ptr c), false),
    c <| ptr := u32 (ptr c + 4) |> <| fetch_ctrl := false |> <| w0 := rd (ptr c) |>).
Proof.
  destruct c as [bp p a t f vs ve w]. cbn. intros -> -> H. unfold sprite_line, sprite_channel_slot. cbn.
  replace (v <? vs) with false by lia. cbn. replace (ve <=? v) with false by lia. cbn.
  replace (v <? vs) with false by lia. cbn. rewrite wrap_add_l by lia.
  by replace (p + 2 + 2) with (p + 4) by lia.
Qed.

Lemma lines_data rd n : forall v c,
  terminated c = false -> armed c = true -> vstart c <= v -> v + Z.of_nat n <= Z.max v (vstop c) ->
  is_u32 (ptr c) ->
  exists c', sprite_lines rd n v c =
    (map (fun k => Some (pair_at rd (u32 (ptr c + 4 * Z.of_nat k)), false)) (seq 0 n), c') /\
    terminated c' = false /\ armed c' = true /\ vstart c' = vstart c /\ vstop c' = vstop c /\
    base_ptr c' = base_ptr c /\ ptr c' = u32 (ptr c + 4 * Z.of_nat n).
Proof.
  induction n as [|n IH]; intros v c Ht Ha Hs He Hp.
  - exists c. cbn. split_and!; try done. rewrite Z.add_0_r. symmetry. by apply wrap_small.
  - cbn [sprite_lines]. rewrite line_data by (done || lia).
    set (c1 := c <| ptr := _ |> <| fetch_ctrl := false |> <| w0 := _ |>).
    destruct (IH (v + 1) c1) as (c' & E & T & A & S & V & B & P);
      [done|done|cbn; lia|cbn; lia|cbn; apply wrap_range; lia|].
    exists c'. rewrite E. split_and!; try done.
    + f_equal. cbn [seq map]. rewrite Z.add_0_r, (wrap_small 32 (ptr c)) by done. f_equal.
      rewrite <- seq_shift, map_map. apply map_ext. intros k.
      change (ptr c1) with (u32 (ptr c + 4)). rewrite wrap_add_l by lia. do 4 f_equal. lia.
    + rewrite P. change (ptr c1) with (u32 (ptr c + 4)). rewrite wrap_add_l by lia. f_equal. lia.
Qed.

(** C38: the bands of a sprite.  A channel that fetches its control pair on line
    [v] delivers it, then nothing up to the line before VSTART (or the next
    line, when that is later), then one pair of data words a line, consecutive
    in memory, up to VSTOP, and on that line fetches the next control pair
    behind the data; a zero pair is not delivered and silences the channel for
    the rest of the frame, whose start makes the channel fetch its first control
    pair again from SPRxPT. *)
Theorem sprite_bands (rd : Z -> Z) v c :
  awaits_control v c -> is_u32 (ptr c) ->
  let '(pos, ctl) := pair_at rd (ptr c) in
  let first := Z.max (sprite_vstart pos ctl) (v + 1) in
  let next := Z.max first (sprite_vstop ctl) in
  let data k := u32 (ptr c + 4 + 4 * Z.of_nat k) in
  (pos <> 0 \/ ctl <> 0 ->
   exists c', sprite_lines rd (Z.to_nat (next - v)) v c =
      (Some (pos, ctl, true) :: replicate (Z.to_nat (first - v - 1)) None
         ++ map (fun k => Some (pair_at rd (data k), false)) (seq 0 (Z.to_nat (next - first))), c') /\
     awaits_control next c' /\ ptr c' = data (Z.to_nat (next - first)) /\ base_ptr c' = base_ptr c) /\
  (pos = 0 -> ctl = 0 -> forall n, (sprite_lines rd n v c).1 = replicate n None) /\
  (forall sp, sprite_dma_frame_start [c] = [sp] -> awaits_control v sp /\ ptr sp = base_ptr c).
Proof.
  intros Hc Hp. pose proof (line_control rd v c Hc) as Hline. unfold pair_at in *.
  set (pos := rd (ptr c)) in *. set (ctl := rd (u32 (ptr c + 2))) in *. cbv zeta.
  set (first := Z.max _ (v + 1)). set (next := Z.max first _).
  assert (0 < first - v) by lia. assert (first <= next) by lia. split_and!.
  - intros Hnz. replace ((pos =? 0) && (ctl =? 0)) with false in Hline by lia.
    set (c1 := c <| ptr := _ |> <| fetch_ctrl := true |> <| w0 := _ |> <| vstart := _ |> <| vstop := _ |>
                 <| armed := true |>) in Hline.
    replace (Z.to_nat (next - v)) with (S (Z.to_nat (first - v - 1) + Z.to_nat (next - first))) by lia.
    cbn [sprite_lines]. rewrite Hline, sprite_lines_app.
    rewrite lines_idle.
    2: { right. destruct (decide (first = v + 1)); [left; lia|right]. split; [done|].
         change (vstart c1) with (sprite_vstart pos ctl). lia. }
    replace (v + 1 + Z.of_nat (Z.to_nat (first - v - 1))) with first by lia.
    destruct (lines_data rd (Z.to_nat (next - first)) first c1) as (c' & E & T & A & S & V & B & P).
    + by destruct Hc.
    + done.
    + change (vstart c1) with (sprite_vstart pos ctl). lia.
    + change (vstop c1) with (sprite_vstop ctl). lia.
    + cbn. apply wrap_range. lia.
    + exists c'. rewrite E. split_and!; try done.
      * do 3 f_equal. apply map_ext. intros k. change (ptr c1) with (u32 (ptr c + 4)).
        by rewrite wrap_add_l by lia.
      * split; [done|]. intros _. rewrite S, V. change (vstart c1) with (sprite_vstart pos ctl).
        change (vstop c1) with (sprite_vstop ctl). lia.
      * rewrite P. change (ptr c1) with (u32 (ptr c + 4)). by rewrite wrap_add_l by lia.
  - intros Hz1 Hz2 [|n]; [done|]. rewrite Hz1, Hz2 in Hline. cbn in Hline.
    cbn [sprite_lines]. rewrite Hline, lines_idle by (by left). done.
  - intros sp [= <-]. by split.
Qed.

(** A sprite of two lines, 44 and 45. *)
Definition demo_sprite_ram (a : Z) : Z :=
  default 0 ([0x2c40; 0x2e00; 0xf00f; 0x0ff0; 0x1111; 0x2222] !! Z.to_nat ((a - 0x100) / 2)).

Lemma sprite_bands_witness :
  let c := mkSprite 0x100 0x100 false false true 0 0 0 in
  awaits_control 26 c /\
  (sprite_lines demo_sprite_ram 20 26 c).1 =
    Some (0x2c40, 0x2e00, true) :: replicate 17 None ++
      [Some (0xf00f, 0x0ff0, false); Some (0x1111, 0x2222, false)].
Proof.
  cbv zeta. set (c := mkSprite 0x100 0x100 false false true 0 0 0).
  assert (Hc : awaits_control 26 c) by (by split). split; [exact Hc|].
  destruct (sprite_bands demo_sprite_ram 26 c Hc ltac:(closed_range)) as (H & _ & _).
  destruct (H ltac:(by left)) as (c' & E & _).
  change 20%nat with (Z.to_nat (46 - 26)). pose proof (f_equal fst E) as E1.
  etransitivity; [exact E1|]. vm_compute. reflexivity.
Defined.
