(* ===== verification/Scheduler.v ===== *)
(** * The DMA slots of a line: [agnus/timing/slot_scheduler.c]

    The table of the owners of a line's 227 slots, built from the DMA enables,
    the fetch window and the bitplane mode, the arbitration between the table,
    the copper, the blitter and the CPU, and the queries of the host.  The step
    that dispatches a slot to its owner is in Chipset.v.  Trace output and log
    events are left out. *)

From S2P Require Import Prelude Custom Beam SpriteDma.

(** C: [src/src/chipset/agnus/agnus_config.h]:23-23 [AGNUS_SLOTS_PER_LINE] *)
Definition AGNUS_SLOTS_PER_LINE := 227.
(** C: [src/src/chipset/denise/denise_state.h]:13-13 [RIGEL_DENISE_MAX_PLANE_WORDS] *)
Definition RIGEL_DENISE_MAX_PLANE_WORDS := 64.
(** C: [src/src/chipset/agnus/timing/slot_scheduler.h]:101-101 [AGNUS_HPOS_BITPLANE_START] *)
Definition AGNUS_HPOS_BITPLANE_START := 0x35.

(** [AGNUS_SLOT_AUDIO n] is the enumerator [AGNUS_SLOT_AUDIO_n], and likewise
    for the sprites.
    C: [src/src/chipset/agnus/timing/slot_scheduler.h]:40-60 [agnus_slot_owner_t] *)
Inductive slot_owner :=
  | AGNUS_SLOT_FREE | AGNUS_SLOT_REFRESH | AGNUS_SLOT_DISK
  | AGNUS_SLOT_AUDIO (channel : Z)
  | AGNUS_SLOT_SPRITE (sprite : Z)
  | AGNUS_SLOT_BITPLANE | AGNUS_SLOT_COPPER | AGNUS_SLOT_BLITTER | AGNUS_SLOT_CPU.

#[export] Instance slot_owner_eq_dec : EqDecision slot_owner.
Proof. solve_decision. Defined.

(** C: [src/src/chipset/agnus/timing/slot_scheduler.h]:108-151 [agnus_slot_scheduler_t] *)
Record slot_scheduler := mkScheduler {
  table : list slot_owner;
  bitplane_slot_index : list Z;
  s_hpos : Z; s_dmacon : Z; s_ddfstrt : Z; s_ddfstop : Z; depth : Z;
  line_is_vbl : bool; table_dirty : bool;
  copper_active : bool; copper_request : bool; blitter_nasty : bool; s_blitter_active : bool;
  fetch_plane_index : Z;
  bitplane_dma_this_line : bool; bitplane_words_this_line : Z; bitplane_line_depth : Z;
  bitplane_line_base : list Z; bitplane_line_base_valid : bool;
  hires : bool;
  vstrt : Z;
}.

#[export] Instance eta_scheduler : Eta slot_scheduler := fun s =>
  mkScheduler (table s) (bitplane_slot_index s) (s_hpos s) (s_dmacon s) (s_ddfstrt s) (s_ddfstop s) (depth s) (line_is_vbl s) (table_dirty s) (copper_active s) (copper_request s) (blitter_nasty s) (s_blitter_active s) (fetch_plane_index s) (bitplane_dma_this_line s) (bitplane_words_this_line s) (bitplane_line_depth s) (bitplane_line_base s) (bitplane_line_base_valid s) (hires s) (vstrt s).

(** ** The table of a line *)

(** C: [src/src/chipset/agnus/timing/slot_scheduler.c] [fill_slot] *)
Definition fill_slot (h : Z) (owner : slot_owner) (s : slot_scheduler) : slot_scheduler :=
  if h <? AGNUS_SLOTS_PER_LINE then s <| table := <[Z.to_nat h := owner]> (table s) |> else s.

(** C: [src/src/chipset/agnus/timing/slot_scheduler.c] [fill_bitplane_slot] *)
Definition fill_bitplane_slot (h logical_index : Z) (s : slot_scheduler) : slot_scheduler :=
  if h <? AGNUS_SLOTS_PER_LINE then
    s <| table := <[Z.to_nat h := AGNUS_SLOT_BITPLANE]> (table s) |>
      <| bitplane_slot_index := <[Z.to_nat h := logical_index]> (bitplane_slot_index s) |>
  else s.

(** C: [src/src/chipset/agnus/timing/slot_scheduler.c] [bitplane_words_per_plane] *)
Definition bitplane_words_per_plane (s : slot_scheduler) : Z :=
  let d := u16 (depth s .& 0x7) in
  if (d =? 0) || (6 <? d) then 0
  else
    let start := u16 (s_ddfstrt s .& (if hires s then 0x00fe else 0x00fc)) in
    let stop := u16 (s_ddfstop s .& 0x00fe) in
    let fetch_quantum := if hires s then 4 else 8 in
    if stop <=? start then if hires s then 40 else 20
    else
      let words :=
        if hires s then
          let pipeline := if has (stop - start) 4 then 3 else 2 in
          (stop - start) / fetch_quantum + pipeline
        else (stop - start) / fetch_quantum + 1 in
      let words := if words <? 1 then if hires s then 40 else 20 else words in
      let words := if RIGEL_DENISE_MAX_PLANE_WORDS <? words then RIGEL_DENISE_MAX_PLANE_WORDS else words in
      u16 words.

(** The fixed slots of the audio channels and the sprites.
    C: [src/src/chipset/agnus/timing/slot_scheduler.h]:81-84 [AGNUS_HPOS_AUDIO_0] *)
Definition audio_slots : list (Z * Z) := [(0x0b, 0); (0x0d, 1); (0x0f, 2); (0x11, 3)].

(** C: [src/src/chipset/agnus/timing/slot_scheduler.c]:603-618 [agnus_slot_scheduler_rebuild] *)
Definition sprite_slots : list (Z * Z) :=
  [(0x15, 0); (0x17, 0); (0x19, 1); (0x1b, 1); (0x1d, 2); (0x1f, 2); (0x21, 3); (0x23, 3);
   (0x25, 4); (0x27, 4); (0x29, 5); (0x2b, 5); (0x2d, 6); (0x2f, 6); (0x31, 7); (0x33, 7)].

(** C: [src/src/chipset/agnus/dma/dmacon.h] [dmacon_auden] *)
Definition dmacon_auden (d ch : Z) : bool :=
  if 3 <? ch then false
  else dmacon_channel d (default 0 ([0x0001; 0x0002; 0x0004; 0x0008] !! Z.to_nat ch)).

(** The loop over the slots of a hires line from [h], [n] being left in the
    table: the slots filled so far and the scheduler.
    C: [src/src/chipset/agnus/timing/slot_scheduler.c]:633-638 [agnus_slot_scheduler_rebuild] *)
Fixpoint hires_slots (n : nat) (target h slots : Z) (s : slot_scheduler) : slot_scheduler :=
  match n with
  | O => s
  | S n =>
      if slots <? target
      then hires_slots n target (u16 (h + 1)) (u16 (slots + 1)) (fill_bitplane_slot h slots s)
      else s
  end.

(** The fetch order inside eight clocks.
    C: [src/src/chipset/agnus/timing/slot_scheduler.c]:643-645 [agnus_slot_scheduler_rebuild] *)
Definition lores_plane_order : list Z := [7; 3; 5; 1; 6; 2; 4; 0].

(** One turn of the loop over words and planes; the counter is [bitplane_slots].
    C: [src/src/chipset/agnus/timing/slot_scheduler.c]:658-663 [agnus_slot_scheduler_rebuild] *)
Definition lores_slot (word plane : Z) (r : slot_scheduler * Z) : slot_scheduler * Z :=
  let '(s, slots) := r in
  let h := u16 (s_ddfstrt s + word * 8 + default 0 (lores_plane_order !! Z.to_nat plane)) in
  (if h <? AGNUS_SLOTS_PER_LINE then fill_bitplane_slot h slots s else s, u16 (slots + 1)).

(** C: [src/src/chipset/agnus/timing/slot_scheduler.c]:626-666 [agnus_slot_scheduler_rebuild] *)
Definition rebuild_bitplanes (s : slot_scheduler) : slot_scheduler :=
  let words := bitplane_words_per_plane s in
  let d := u16 (depth s .& 0x7) in
  if hires s then
    hires_slots (Z.to_nat (AGNUS_SLOTS_PER_LINE - s_ddfstrt s)) (u16 (words * d)) (s_ddfstrt s) 0 s
  else
    (foldl (fun r word => foldl (fun r plane => lores_slot word plane r) r (seqZ 0 d))
       (s, 0) (seqZ 0 words)).1.

(** The stages of a rebuild: an empty table,
    C: [src/src/chipset/agnus/timing/slot_scheduler.c]:576-580 [agnus_slot_scheduler_rebuild] *)
Definition rebuild_empty (s : slot_scheduler) : slot_scheduler :=
  s <| table := replicate 227 AGNUS_SLOT_CPU |> <| bitplane_slot_index := replicate 227 0xffff |>.

(** the refresh slots,
    C: [src/src/chipset/agnus/timing/slot_scheduler.c]:582-587 [agnus_slot_scheduler_rebuild] *)
Definition rebuild_refresh (refresh : option refresh_dma_state) (s : slot_scheduler) : slot_scheduler :=
  foldl (fun s i => if refresh_dma_owns_slot refresh i then fill_slot i AGNUS_SLOT_REFRESH s else s)
    s (seqZ 0 AGNUS_SLOTS_PER_LINE).

(** the disk, audio and sprite slots,
    C: [src/src/chipset/agnus/timing/slot_scheduler.c]:589-619 [agnus_slot_scheduler_rebuild] *)
Definition rebuild_channels (s : slot_scheduler) : slot_scheduler :=
  let d := s_dmacon s in
  let s := if dmacon_dsken d
           then fill_slot 0x09 AGNUS_SLOT_DISK (fill_slot 0x07 AGNUS_SLOT_DISK s) else s in
  let s := foldl (fun s a => if dmacon_auden d a.2 then fill_slot a.1 (AGNUS_SLOT_AUDIO a.2) s else s)
             s audio_slots in
  if dmacon_spren d
  then foldl (fun s a => fill_slot a.1 (AGNUS_SLOT_SPRITE a.2) s) s sprite_slots else s.

(** and, after the bitplanes, what is left.
    C: [src/src/chipset/agnus/timing/slot_scheduler.c]:690-698 [agnus_slot_scheduler_rebuild] *)
Definition rebuild_free (s : slot_scheduler) : slot_scheduler :=
  let m := dmacon_master (s_dmacon s) in
  foldl (fun s i =>
    if decide (table s !! Z.to_nat i = Some AGNUS_SLOT_CPU)
    then if m then s <| table := <[Z.to_nat i := AGNUS_SLOT_FREE]> (table s) |> else s
    else s) s (seqZ 0 AGNUS_SLOTS_PER_LINE).

(** C: [src/src/chipset/agnus/timing/slot_scheduler.c] [agnus_slot_scheduler_rebuild] *)
Definition agnus_slot_scheduler_rebuild (v : Z) (refresh : option refresh_dma_state) (s : slot_scheduler)
    : slot_scheduler :=
  let vbl := agnus_in_vbl_zone v in
  let s := rebuild_channels (rebuild_refresh refresh (rebuild_empty s)) in
  let s := if negb vbl && (vstrt s <=? v) && dmacon_bplen (s_dmacon s) then rebuild_bitplanes s else s in
  let s := rebuild_free s in
  s <| line_is_vbl := vbl |> <| table_dirty := false |>.

(** ** Registers *)

(** Initial [table] only: the index array is written by the first rebuild.
    C: [src/src/chipset/agnus/timing/slot_scheduler.c] [agnus_slot_scheduler_init] *)
Definition agnus_slot_scheduler_init (s : slot_scheduler) : slot_scheduler := {|
  table := replicate 227 AGNUS_SLOT_CPU;
  bitplane_slot_index := bitplane_slot_index s;
  s_hpos := 0; s_dmacon := 0; s_ddfstrt := AGNUS_HPOS_BITPLANE_START;
  s_ddfstop := AGNUS_SLOTS_PER_LINE; depth := 0;
  line_is_vbl := false; table_dirty := true;
  copper_active := false; copper_request := false; blitter_nasty := false; s_blitter_active := false;
  fetch_plane_index := 0;
  bitplane_dma_this_line := false; bitplane_words_this_line := 0; bitplane_line_depth := 0;
  bitplane_line_base := bitplane_line_base s; bitplane_line_base_valid := false;
  hires := false;
  vstrt := AGNUS_VBL_LINE_END + 1;
|}.

(** C: [src/src/chipset/agnus/timing/slot_scheduler.c] [agnus_slot_scheduler_invalidate] *)
Definition agnus_slot_scheduler_invalidate (dmacon : Z) (s : slot_scheduler) : slot_scheduler :=
  s <| s_dmacon := dmacon |> <| table_dirty := true |>.

(** C: [src/src/chipset/agnus/timing/slot_scheduler.c] [agnus_slot_scheduler_set_hires] *)
Definition agnus_slot_scheduler_set_hires (h : bool) (s : slot_scheduler) : slot_scheduler :=
  if negb (Bool.eqb (hires s) h) then s <| hires := h |> <| table_dirty := true |> else s.

(** C: [src/src/chipset/agnus/timing/slot_scheduler.c] [agnus_slot_scheduler_set_vstrt] *)
Definition agnus_slot_scheduler_set_vstrt (diwstrt : Z) (s : slot_scheduler) : slot_scheduler :=
  let v := u16 ((diwstrt .>> 8) .& 0x00ff) in
  if negb (vstrt s =? v) then s <| vstrt := v |> <| table_dirty := true |> else s.

(** C: [src/src/chipset/agnus/timing/slot_scheduler.c] [agnus_slot_scheduler_set_ddf] *)
Definition agnus_slot_scheduler_set_ddf (ddfstrt ddfstop : Z) (s : slot_scheduler) : slot_scheduler :=
  s <| s_ddfstrt := u16 (ddfstrt .& 0x00fc) |> <| s_ddfstop := u16 (ddfstop .& 0x00fc) |>
    <| table_dirty := true |>.

(** C: [src/src/chipset/agnus/timing/slot_scheduler.c] [agnus_slot_scheduler_set_depth] *)
Definition agnus_slot_scheduler_set_depth (d : Z) (s : slot_scheduler) : slot_scheduler :=
  let d := d .& 0x7 in
  if negb (depth s =? d) then s <| depth := d |> <| table_dirty := true |> else s.

(** ** Arbitration *)

(** The blitter and the copper take slots the table leaves.
    C: [src/src/chipset/agnus/timing/slot_scheduler.c]:883-889 [agnus_slot_scheduler_step] *)
Definition steal_slot (s : slot_scheduler) (owner : slot_owner) : slot_owner :=
  if s_blitter_active s then
    if decide (owner = AGNUS_SLOT_FREE) then AGNUS_SLOT_BLITTER
    else if blitter_nasty s && bool_decide (owner = AGNUS_SLOT_CPU) then AGNUS_SLOT_BLITTER
    else owner
  else if copper_request s && bool_decide (owner = AGNUS_SLOT_FREE) then AGNUS_SLOT_COPPER
  else owner.

Definition slot_at (s : slot_scheduler) (h : Z) : slot_owner :=
  default AGNUS_SLOT_FREE (table s !! Z.to_nat h).

(** C: [src/src/chipset/agnus/timing/slot_scheduler.c] [agnus_slot_scheduler_current_owner] *)
Definition agnus_slot_scheduler_current_owner (s : slot_scheduler) : slot_owner :=
  if AGNUS_SLOTS_PER_LINE <=? s_hpos s then AGNUS_SLOT_CPU
  else steal_slot s (slot_at s (s_hpos s)).

Definition is_cpu_slot (o : slot_owner) : bool :=
  bool_decide (o = AGNUS_SLOT_CPU) || bool_decide (o = AGNUS_SLOT_FREE).

(** C: [src/src/chipset/agnus/timing/slot_scheduler.c] [agnus_slot_scheduler_cpu_stall] *)
Definition agnus_slot_scheduler_cpu_stall (s : slot_scheduler) : bool :=
  negb (is_cpu_slot (agnus_slot_scheduler_current_owner s)).

(** The loops of the two queries, [n] slots being left: the first slot from [h]
    that satisfies [p]. *)
Fixpoint first_slot (p : Z -> bool) (n : nat) (h : Z) : option Z :=
  match n with
  | O => None
  | S n => if p h then Some h else first_slot p n (h + 1)
  end.

(** C: [src/src/chipset/agnus/timing/slot_scheduler.c] [agnus_slot_scheduler_next_event] *)
Definition agnus_slot_scheduler_next_event (line_clocks : Z) (s : slot_scheduler) : Z :=
  if table_dirty s then 1
  else
    let start := u16 (s_hpos s + 1) in
    match first_slot (fun h => negb (is_cpu_slot (slot_at s h))) (Z.to_nat (line_clocks - start)) start with
    | Some h => u32 (h - s_hpos s)
    | None => u32 (line_clocks - s_hpos s)
    end.

(** C: [src/src/chipset/agnus/timing/slot_scheduler.c] [agnus_slot_scheduler_cpu_resume_in] *)
Definition agnus_slot_scheduler_cpu_resume_in (line_clocks : Z) (s : slot_scheduler) : Z :=
  if table_dirty s then 1
  else
    let start := u16 (s_hpos s + 1) in
    match first_slot (fun h => is_cpu_slot (steal_slot s (slot_at s h))) (Z.to_nat (line_clocks - start)) start with
    | Some h => u32 (h - s_hpos s)
    | None => u32 (line_clocks - s_hpos s)
    end.
