(* ===== verification/SchedulerFacts.v ===== *)
(** * The table of a line

    What the table built by [agnus_slot_scheduler_rebuild] says of each slot,
    the words each bitplane slot fetches, and the answers of the queries. *)

From S2P Require Import Prelude Custom Beam SpriteDma Scheduler.

(** ** Filling the table *)

(** [s'] differs from [s] in the table and the plane indices only. *)
Definition same_inputs (s s' : slot_scheduler) : Prop :=
  s' = s <| table := table s' |> <| bitplane_slot_index := bitplane_slot_index s' |>.

Lemma same_inputs_refl s : same_inputs s s.
Proof. by destruct s. Qed.

Lemma same_inputs_trans s1 s2 s3 : same_inputs s1 s2 -> same_inputs s2 s3 -> same_inputs s1 s3.
Proof. unfold same_inputs. intros E1 E2. rewrite E2, E1. by destruct s1. Qed.

(** Both arrays have an entry for each slot. *)
Definition full (s : slot_scheduler) : Prop :=
  length (table s) = 227%nat /\ length (bitplane_slot_index s) = 227%nat.

Definition slot_index (s : slot_scheduler) (h : Z) : Z :=
  default 0xffff (bitplane_slot_index s !! Z.to_nat h).

Lemma fill_slot_spec h o s h' :
  full s -> 0 <= h -> 0 <= h' < 227 ->
  full (fill_slot h o s) /\ same_inputs s (fill_slot h o s) /\
  slot_at (fill_slot h o s) h' = (if h =? h' then o else slot_at s h') /\
  slot_index (fill_slot h o s) h' = slot_index s h'.
Proof.
  intros [Ht Hi] Hh Hh'. unfold fill_slot, slot_at, AGNUS_SLOTS_PER_LINE.
  destruct (Z.ltb_spec h 227); cbn.
  - split_and!; [split; cbn; by rewrite ?length_insert|by destruct s| |done].
    destruct (Z.eqb_spec h h') as [->|]; [by rewrite list_lookup_insert_eq by lia|].
    by rewrite list_lookup_insert_ne by lia.
  - split_and!; [done|apply same_inputs_refl| |done]. by replace (h =? h') with false by lia.
Qed.

Lemma fill_bitplane_slot_spec h i s h' :
  full s -> 0 <= h -> 0 <= h' < 227 ->
  full (fill_bitplane_slot h i s) /\ same_inputs s (fill_bitplane_slot h i s) /\
  slot_at (fill_bitplane_slot h i s) h' = (if h =? h' then AGNUS_SLOT_BITPLANE else slot_at s h') /\
  slot_index (fill_bitplane_slot h i s) h' = (if h =? h' then i else slot_index s h').
Proof.
  intros [Ht Hi] Hh Hh'. unfold fill_bitplane_slot, slot_at, slot_index, AGNUS_SLOTS_PER_LINE.
  destruct (Z.ltb_spec h 227); cbn.
  - split_and!; [split; cbn; by rewrite ?length_insert|by destruct s| |];
      (destruct (Z.eqb_spec h h') as [->|]; [by rewrite list_lookup_insert_eq by lia|];
       by rewrite list_lookup_insert_ne by lia).
  - split_and!; [done|apply same_inputs_refl|..]; by replace (h =? h') with false by lia.
Qed.

(** The value an association list gives to a key. *)
Definition assoc {A} (h : Z) (l : list (Z * A)) : option A := snd <$> List.find (fun x => x.1 =? h) l.

Lemma assoc_cons {A} h k (a : A) l : assoc h ((k, a) :: l) = if k =? h then Some a else assoc h l.
Proof. unfold assoc. cbn. by destruct (k =? h). Qed.

Lemma assoc_app {A} h (l1 l2 : list (Z * A)) :
  assoc h (l1 ++ l2) = match assoc h l1 with Some a => Some a | None => assoc h l2 end.
Proof.
  unfold assoc. induction l1 as [|x l1 IH]; cbn; [done|]. by destruct (x.1 =? h).
Qed.

Lemma assoc_Some {A} h a (l : list (Z * A)) : NoDup l.*1 -> (h, a) ∈ l -> assoc h l = Some a.
Proof.
  unfold assoc. induction l as [|[k b] l IH]; intros Hnd Hin; [by apply elem_of_nil in Hin|].
  cbn in *. apply NoDup_cons in Hnd as [Hk Hnd]. apply elem_of_cons in Hin as [[= -> ->]|Hin].
  - by rewrite Z.eqb_refl.
  - destruct (Z.eqb_spec k h) as [->|]; [|by apply IH]. destruct Hk. by apply (list_elem_of_fmap_2 fst _ (h, a)).
Qed.

Lemma assoc_None {A} h (l : list (Z * A)) : h ∉ l.*1 -> assoc h l = None.
Proof.
  unfold assoc. induction l as [|[k b] l IH]; intros Hin; [done|]. cbn in *.
  apply not_elem_of_cons in Hin as [Hk Hin]. destruct (Z.eqb_spec k h) as [->|]; [done|by apply IH].
Qed.

(** The entries of a list, each put in the table; a later entry wins. *)
Definition put_all (l : list (Z * slot_owner)) (s : slot_scheduler) : slot_scheduler :=
  foldl (fun s a => fill_slot a.1 a.2 s) s l.

Definition put_bitplanes (l : list (Z * Z)) (s : slot_scheduler) : slot_scheduler :=
  foldl (fun s a => fill_bitplane_slot a.1 a.2 s) s l.

Lemma put_all_spec l h' : 0 <= h' < 227 -> Forall (fun a => 0 <= a.1) l -> NoDup l.*1 -> forall s,
  full s ->
  full (put_all l s) /\ same_inputs s (put_all l s) /\
  slot_at (put_all l s) h' = default (slot_at s h') (assoc h' l) /\
  slot_index (put_all l s) h' = slot_index s h'.
Proof.
  intros Hh. induction l as [|[h o] l IH]; intros Hpos Hnd s Hs; [split_and!; try done; apply same_inputs_refl|].
  cbn [fmap list_fmap fst] in Hnd. apply NoDup_cons in Hnd as [Hk Hnd].
  inversion_clear Hpos as [|? ? Hp Hpos']. cbn in Hp.
  destruct (fill_slot_spec h o s h' Hs Hp Hh) as (F & E & A & I).
  destruct (IH Hpos' Hnd (fill_slot h o s) F) as (F' & E' & A' & I').
  change (put_all ((h, o) :: l) s) with (put_all l (fill_slot h o s)).
  split_and!; [done|by eapply same_inputs_trans| |by rewrite I', I].
  rewrite A', A, assoc_cons. destruct (Z.eqb_spec h h') as [->|]; [by rewrite assoc_None|done].
Qed.

Lemma put_bitplanes_spec l h' : 0 <= h' < 227 -> Forall (fun a => 0 <= a.1) l -> NoDup l.*1 -> forall s,
  full s ->
  full (put_bitplanes l s) /\ same_inputs s (put_bitplanes l s) /\
  slot_at (put_bitplanes l s) h' = match assoc h' l with Some _ => AGNUS_SLOT_BITPLANE | None => slot_at s h' end /\
  slot_index (put_bitplanes l s) h' = default (slot_index s h') (assoc h' l).
Proof.
  intros Hh. induction l as [|[h i] l IH]; intros Hpos Hnd s Hs; [split_and!; try done; apply same_inputs_refl|].
  cbn [fmap list_fmap fst] in Hnd. apply NoDup_cons in Hnd as [Hk Hnd].
  inversion_clear Hpos as [|? ? Hp Hpos']. cbn in Hp.
  destruct (fill_bitplane_slot_spec h i s h' Hs Hp Hh) as (F & E & A & I).
  destruct (IH Hpos' Hnd (fill_bitplane_slot h i s) F) as (F' & E' & A' & I').
  change (put_bitplanes ((h, i) :: l) s) with (put_bitplanes l (fill_bitplane_slot h i s)).
  rewrite assoc_cons. split_and!; [done|by eapply same_inputs_trans|rewrite A', A|rewrite I', I];
    (destruct (Z.eqb_spec h h') as [->|]; [by rewrite assoc_None|done]).
Qed.

(** ** Bitplane slots *)

(** What the registers give: a fetch start of a byte, a depth of three bits. *)
Record scheduler_wf (s : slot_scheduler) : Prop := {
  wf_start : 0 <= s_ddfstrt s <= 255;
  wf_stop : 0 <= s_ddfstop s <= 255;
  wf_depth : 0 <= depth s < 8;
}.

Lemma depth_masked s : scheduler_wf s -> u16 (depth s .& 0x7) = depth s.
Proof.
  intros [_ _ H]. change 0x7 with (Z.ones 3). rewrite Z.land_ones by lia. change (2 ^ 3) with 8.
  rewrite Z.mod_small by lia. apply wrap_small. unfold in_width. lia.
Qed.

Lemma words_bounds s :
  scheduler_wf s -> 0 <= bitplane_words_per_plane s <= 64 /\ (depth s = 7 \/ depth s = 0 -> bitplane_words_per_plane s = 0).
Proof.
  intros Hwf. unfold bitplane_words_per_plane. rewrite depth_masked by done. cbv zeta.
  destruct ((depth s =? 0) || (6 <? depth s)) eqn:E; [split; [lia|done]|].
  split; [|lia]. unfold RIGEL_DENISE_MAX_PLANE_WORDS.
  destruct (u16 (s_ddfstop s .& 254) <=? _); [destruct (hires s); lia|].
  set (w := if hires s then _ else _ + 1).
  assert (forall x, 1 <= (if 64 <? (if x <? 1 then if hires s then 40 else 20 else x) then 64
     else if x <? 1 then if hires s then 40 else 20 else x) <= 64) as Hx.
  { intros x. destruct (Z.ltb_spec x 1), (hires s);
      match goal with |- context [64 <? ?y] => destruct (Z.ltb_spec 64 y) end; lia. }
  specialize (Hx w). rewrite wrap_small; [lia|unfold in_width; lia].
Qed.

(** The number of words fetched on a line, and the slot of the [i]-th. *)
Definition line_words (s : slot_scheduler) : Z := bitplane_words_per_plane s * depth s.

Definition word_slot (s : slot_scheduler) (i : Z) : Z :=
  if hires s then s_ddfstrt s + i
  else s_ddfstrt s + i / depth s * 8 + default 0 (lores_plane_order !! Z.to_nat (i mod depth s)).

Definition line_entries (s : slot_scheduler) : list (Z * Z) :=
  map (fun i => (word_slot s i, i)) (seqZ 0 (line_words s)).

Lemma line_words_bounds s : scheduler_wf s -> 0 <= line_words s <= 384.
Proof.
  intros Hwf. destruct (words_bounds s Hwf) as [Hw Hz]. destruct Hwf. unfold line_words.
  destruct (decide (depth s = 7)) as [E|]; [rewrite Hz by (by left); lia|nia].
Qed.

Lemma put_outside l s : Forall (fun a => 227 <= a.1) l -> put_bitplanes l s = s.
Proof.
  revert s. induction l as [|[h i] l IH]; intros s Hl; [done|]. inversion_clear Hl as [|? ? Hh Hl'].
  cbn in *. unfold fill_bitplane_slot at 2, AGNUS_SLOTS_PER_LINE. cbn.
  replace (h <? 227) with false by lia. by apply IH.
Qed.

Lemma hires_slots_put n : forall target h slots s,
  0 <= h -> 0 <= slots -> h + Z.of_nat n = 227 -> target <= 1000 ->
  hires_slots n target h slots s =
    put_bitplanes (map (fun i => (h + (i - slots), i)) (seqZ slots (target - slots))) s.
Proof.
  induction n as [|n IH]; intros target h slots s Hh Hs Hn Ht.
  - cbn. symmetry. apply put_outside, Forall_map, Forall_forall. intros i Hi%elem_of_seqZ. cbn. lia.
  - cbn [hires_slots]. destruct (Z.ltb_spec slots target) as [Hlt|Hge].
    + rewrite !wrap_small by (unfold in_width; cbn; lia). rewrite IH by lia.
      rewrite (seqZ_cons slots) by lia. cbn [map]. unfold put_bitplanes at 2. cbn [foldl fst snd].
      rewrite Z.sub_diag, Z.add_0_r. fold (put_bitplanes).
      replace (Z.pred (target - slots)) with (target - (slots + 1)) by lia.
      unfold put_bitplanes. f_equal. apply map_ext. intros i. f_equal. lia.
    + by rewrite seqZ_nil by lia.
Qed.

Lemma put_bitplanes_same l : forall s, same_inputs s (put_bitplanes l s).
Proof.
  induction l as [|[h i] l IH]; intros s; [apply same_inputs_refl|].
  change (put_bitplanes ((h, i) :: l) s) with (put_bitplanes l (fill_bitplane_slot h i s)).
  eapply same_inputs_trans; [|apply IH]. unfold fill_bitplane_slot. cbn.
  destruct (h <? AGNUS_SLOTS_PER_LINE); [by destruct s|apply same_inputs_refl].
Qed.

Lemma put_bitplanes_start l s : s_ddfstrt (put_bitplanes l s) = s_ddfstrt s.
Proof. by rewrite put_bitplanes_same. Qed.

Lemma lores_order_range p : 0 <= p < 8 -> 0 <= default 0 (lores_plane_order !! Z.to_nat p) <= 7.
Proof.
  intros Hp. assert (H : Forall (fun q => 0 <= default 0 (lores_plane_order !! Z.to_nat q) <= 7) (seqZ 0 8)).
  { change (seqZ 0 8) with [0; 1; 2; 3; 4; 5; 6; 7]. do 8 (constructor; [split; vm_compute; discriminate|]). constructor. }
  apply (proj1 (Forall_forall _ _) H), elem_of_seqZ. lia.
Qed.

(** The entries of the planes [p < n] of word [w]. *)
Definition lores_word (start d w n : Z) : list (Z * Z) :=
  map (fun p => (start + w * 8 + default 0 (lores_plane_order !! Z.to_nat p), w * d + p)) (seqZ 0 n).

(** The two loops of a lores line. *)
Lemma lores_planes_put start d w n : forall s,
  s_ddfstrt s = start -> 0 <= start <= 255 -> 0 <= w <= 64 -> (n <= 8)%nat -> 0 <= d <= 7 ->
  foldl (fun r plane => lores_slot w plane r) (s, w * d) (seqZ 0 (Z.of_nat n)) =
    (put_bitplanes (lores_word start d w (Z.of_nat n)) s, w * d + Z.of_nat n).
Proof.
  induction n as [|n IH]; intros s Hs Hst Hw Hn Hd.
  - change (Z.of_nat 0) with 0. unfold lores_word. rewrite seqZ_nil by lia. cbn. by rewrite Z.add_0_r.
  - replace (Z.of_nat (S n)) with (Z.of_nat n + 1) by lia. unfold lores_word.
    rewrite seqZ_app, foldl_app, map_app by lia. rewrite IH by (done || lia).
    rewrite seqZ_cons, seqZ_nil by lia. cbn [foldl map]. unfold put_bitplanes. rewrite foldl_app.
    cbn [foldl fst snd]. unfold lores_slot. rewrite Z.add_0_l.
    pose proof (lores_order_range (Z.of_nat n) ltac:(lia)).
    pose proof (put_bitplanes_start (lores_word start d w (Z.of_nat n)) s) as E.
    unfold lores_word, put_bitplanes in E |- *. rewrite E, Hs. cbv zeta.
    rewrite !wrap_small by (unfold in_width; cbn; nia). f_equal; [|lia].
    unfold fill_bitplane_slot. by destruct (_ <? AGNUS_SLOTS_PER_LINE).
Qed.

Lemma lores_lines_put start d n : forall s,
  s_ddfstrt s = start -> 0 <= start <= 255 -> (n <= 64)%nat -> 0 <= d <= 7 ->
  foldl (fun r word => foldl (fun r plane => lores_slot word plane r) r (seqZ 0 d)) (s, 0)
    (seqZ 0 (Z.of_nat n)) =
    (put_bitplanes (concat (map (fun w => lores_word start d w d) (seqZ 0 (Z.of_nat n)))) s, Z.of_nat n * d).
Proof.
  induction n as [|n IH]; intros s Hs Hst Hn Hd.
  - change (Z.of_nat 0) with 0. by rewrite (seqZ_nil 0 0).
  - replace (Z.of_nat (S n)) with (Z.of_nat n + 1) by lia.
    rewrite seqZ_app, foldl_app, map_app, concat_app by lia. rewrite IH by (done || lia).
    rewrite (seqZ_cons (0 + Z.of_nat n) 1), (seqZ_nil _ (Z.pred 1)) by lia. cbn [foldl map concat].
    rewrite Z.add_0_l, app_nil_r.
    rewrite <- (Z2Nat.id d) at 2 by lia. rewrite (lores_planes_put start) by (rewrite ?put_bitplanes_start; done || lia).
    rewrite Z2Nat.id by lia. f_equal; [|lia]. unfold put_bitplanes. by rewrite foldl_app.
Qed.

(** Every word of every plane once, in the order of the words. *)
Lemma lores_entries_concat start d n :
  0 < d <= 7 ->
  concat (map (fun w => lores_word start d w d) (seqZ 0 (Z.of_nat n))) =
    map (fun i => (start + i / d * 8 + default 0 (lores_plane_order !! Z.to_nat (i mod d)), i))
      (seqZ 0 (Z.of_nat n * d)).
Proof.
  intros Hd. induction n as [|n IH]; [by rewrite !seqZ_nil by lia|].
  replace (Z.of_nat (S n) * d) with (Z.of_nat n * d + d) by lia.
  replace (Z.of_nat (S n)) with (Z.of_nat n + 1) by lia.
  rewrite !seqZ_app, !map_app, concat_app, IH by lia. f_equal.
  rewrite (seqZ_cons (0 + Z.of_nat n) 1), (seqZ_nil _ (Z.pred 1)) by lia. cbn [map concat]. rewrite app_nil_r, Z.add_0_l.
  unfold lores_word. rewrite <- (Z.add_0_r (0 + Z.of_nat n * d)), <- fmap_add_seqZ.
  change (map ?f (?g <$> ?l)) with (map f (map g l)). rewrite map_map. apply map_ext_in.
  intros p Hp%list_elem_of_In%elem_of_seqZ. rewrite ?Z.add_0_l.
  rewrite (Z.add_comm (Z.of_nat n * d) p), Z.div_add, Z.mod_add by lia.
  rewrite Z.div_small, Z.mod_small by lia. done.
Qed.

(** The bitplane part of the table is [line_entries]. *)
Lemma rebuild_bitplanes_put s :
  scheduler_wf s -> rebuild_bitplanes s = put_bitplanes (line_entries s) s.
Proof.
  intros Hwf. unfold rebuild_bitplanes, line_entries, word_slot, line_words.
  pose proof (line_words_bounds s Hwf) as Hl. pose proof (words_bounds s Hwf) as [Hw Hz].
  unfold line_words in Hl. destruct (Hwf) as [Hs Hst Hd]. rewrite depth_masked by done.
  destruct (hires s).
  - rewrite wrap_small by (unfold in_width; lia). unfold AGNUS_SLOTS_PER_LINE.
    destruct (decide (s_ddfstrt s <= 227)).
    + rewrite hires_slots_put by lia. rewrite Z.sub_0_r. f_equal. apply map_ext. intros i.
      f_equal. lia.
    + replace (Z.to_nat (227 - s_ddfstrt s)) with 0%nat by lia. cbn. symmetry.
      apply put_outside, Forall_map, Forall_forall. intros i Hi%elem_of_seqZ. cbn. lia.
  - rewrite <- (Z2Nat.id (bitplane_words_per_plane s)) by lia.
    rewrite (lores_lines_put (s_ddfstrt s)) by (done || lia). cbn [fst].
    destruct (decide (depth s = 0)) as [E|].
    + rewrite Hz by (by right). cbn. by rewrite E, !seqZ_nil by lia.
    + by rewrite lores_entries_concat by lia.
Qed.

Lemma word_slot_inj s i j :
  scheduler_wf s -> 0 <= i < line_words s -> 0 <= j < line_words s -> word_slot s i = word_slot s j -> i = j.
Proof.
  intros Hwf Hi Hj. unfold word_slot. destruct (hires s); [lia|].
  pose proof (words_bounds s Hwf) as [Hw Hz]. unfold line_words in *. destruct (Hwf) as [_ _ Hd].
  assert (0 < depth s < 7) as Hd' by (destruct (decide (depth s = 0 \/ depth s = 7)); [rewrite Hz in Hi by tauto; lia|lia]).
  pose proof (Z.mod_pos_bound i (depth s)). pose proof (Z.mod_pos_bound j (depth s)).
  pose proof (lores_order_range (i mod depth s) ltac:(lia)). pose proof (lores_order_range (j mod depth s) ltac:(lia)).
  intros E. assert (i / depth s = j / depth s) as Eq by lia.
  assert (i mod depth s = j mod depth s) as Em.
  { assert (E2 : default 0 (lores_plane_order !! Z.to_nat (i mod depth s)) =
      default 0 (lores_plane_order !! Z.to_nat (j mod depth s))) by lia. clear - E2 H H0 Hd'.
    assert (Hinj : forall a b, 0 <= a < 6 -> 0 <= b < 6 ->
      default 0 (lores_plane_order !! Z.to_nat a) = default 0 (lores_plane_order !! Z.to_nat b) -> a = b).
    { intros a b Ha Hb.
      assert (a = 0 \/ a = 1 \/ a = 2 \/ a = 3 \/ a = 4 \/ a = 5) as Ha' by lia.
      assert (b = 0 \/ b = 1 \/ b = 2 \/ b = 3 \/ b = 4 \/ b = 5) as Hb' by lia.
      destruct_or!; subst; vm_compute; congruence. }
    apply Hinj; [lia|lia|done]. }
  rewrite (Z.div_mod i (depth s)), (Z.div_mod j (depth s)) by lia. congruence.
Qed.

Lemma line_entries_keys s : scheduler_wf s ->
  NoDup (line_entries s).*1 /\ Forall (fun a => 0 <= a.1) (line_entries s).
Proof.
  intros Hwf. unfold line_entries. split.
  - rewrite <- list_fmap_compose. apply NoDup_fmap_2_strong; [|apply NoDup_seqZ].
    intros i j Hi%elem_of_seqZ Hj%elem_of_seqZ E. apply (word_slot_inj s); try done; lia.
  - apply Forall_map, Forall_forall. intros i Hi%elem_of_seqZ. change (0 <= word_slot s i). unfold word_slot.
    destruct Hwf. destruct (hires s); [lia|].
    assert (0 < depth s).
    { destruct (decide (depth s = 0)) as [E|]; [|lia]. unfold line_words in Hi. rewrite E in Hi. lia. }
    pose proof (Z.div_pos i (depth s) ltac:(lia) ltac:(lia)).
    pose proof (Z.mod_pos_bound i (depth s) ltac:(lia)).
    pose proof (lores_order_range (i mod depth s) ltac:(lia)). lia.
Qed.

(** ** The owner of a slot *)

Definition enabled_audio (d : Z) : list (Z * slot_owner) :=
  omap (fun a => if dmacon_auden d a.2 then Some (a.1, AGNUS_SLOT_AUDIO a.2) else None) audio_slots.

Definition enabled_sprites (d : Z) : list (Z * slot_owner) :=
  if dmacon_spren d then map (fun a => (a.1, AGNUS_SLOT_SPRITE a.2)) sprite_slots else [].

Definition enabled_disk (d : Z) : list (Z * slot_owner) :=
  if dmacon_dsken d then [(0x07, AGNUS_SLOT_DISK); (0x09, AGNUS_SLOT_DISK)] else [].

(** Are bitplanes fetched on line [v]? *)
Definition fetches_bitplanes (v : Z) (s : slot_scheduler) : bool :=
  negb (agnus_in_vbl_zone v) && (vstrt s <=? v) && dmacon_bplen (s_dmacon s).

(** Who owns slot [h] of line [v], in order of priority: bitplanes, sprites,
    audio, disk, refresh; what is left is free for the copper and the blitter
    while the master enable is on, and the CPU's otherwise. *)
Definition slot_spec (v : Z) (refresh : option refresh_dma_state) (s : slot_scheduler) (h : Z) : slot_owner :=
  let d := s_dmacon s in
  match (if fetches_bitplanes v s then assoc h (line_entries s) else None) with
  | Some _ => AGNUS_SLOT_BITPLANE
  | None =>
      match assoc h (enabled_sprites d ++ enabled_audio d ++ enabled_disk d) with
      | Some o => o
      | None =>
          if refresh_dma_owns_slot refresh h then AGNUS_SLOT_REFRESH
          else if dmacon_master d then AGNUS_SLOT_FREE else AGNUS_SLOT_CPU
      end
  end.

Lemma cond_fill_spec P o l h : 0 <= h < 227 -> Forall (fun i => 0 <= i) l -> forall s,
  full s ->
  let s' := foldl (fun s i => if P i : bool then fill_slot i o s else s) s l in
  full s' /\ same_inputs s s' /\
  slot_at s' h = (if bool_decide (h ∈ l) && P h then o else slot_at s h) /\ slot_index s' h = slot_index s h.
Proof.
  intros Hh. induction l as [|i l IH]; intros Hl s Hs; cbn [foldl].
  - split_and!; try done. apply same_inputs_refl.
  - inversion_clear Hl as [|? ? Hi Hl'].
    destruct (fill_slot_spec i o s h Hs Hi Hh) as (F & E & A & I).
    assert (Hstep : exists s1, s1 = (if P i then fill_slot i o s else s) /\ full s1 /\ same_inputs s s1 /\
      slot_at s1 h = (if (i =? h) && P h then o else slot_at s h) /\ slot_index s1 h = slot_index s h).
    { eexists; split; [done|]. destruct (Z.eqb_spec i h) as [<-|]; destruct (P i) eqn:EP; cbn;
        rewrite ?EP; split_and!; try done; apply same_inputs_refl. }
    destruct Hstep as (s1 & <- & F1 & E1 & A1 & I1).
    destruct (IH Hl' s1 F1) as (F2 & E2 & A2 & I2). cbv zeta in *.
    split_and!; [done|by eapply same_inputs_trans| |by rewrite I2].
    rewrite A2, A1. destruct (P h); rewrite ?andb_false_r, ?andb_true_r; [|done].
    case_bool_decide as H1; case_bool_decide as H2; try done;
      rewrite elem_of_cons in H2; destruct (Z.eqb_spec i h); try done; intuition congruence.
Qed.

Lemma free_spec m l h : 0 <= h < 227 -> Forall (fun i => 0 <= i) l -> forall s,
  full s ->
  let s' := foldl (fun s i =>
    if decide (table s !! Z.to_nat i = Some AGNUS_SLOT_CPU)
    then if m : bool then s <| table := <[Z.to_nat i := AGNUS_SLOT_FREE]> (table s) |> else s else s) s l in
  full s' /\ same_inputs s s' /\ slot_index s' h = slot_index s h /\
  slot_at s' h = (if bool_decide (h ∈ l) && m && bool_decide (slot_at s h = AGNUS_SLOT_CPU)
                  then AGNUS_SLOT_FREE else slot_at s h).
Proof.
  intros Hh. induction l as [|i l IH]; intros Hl s Hs; cbn [foldl].
  - split_and!; try done. apply same_inputs_refl.
  - inversion_clear Hl as [|? ? Hi Hl'].
    assert (Hcpu : table s !! Z.to_nat h = Some AGNUS_SLOT_CPU <-> slot_at s h = AGNUS_SLOT_CPU).
    { unfold slot_at. destruct Hs as [Ht _].
      destruct (lookup_lt_is_Some_2 (table s) (Z.to_nat h)) as [x ->]; [lia|]. cbn. split; congruence. }
    assert (Hstep : exists s1, s1 = (if decide (table s !! Z.to_nat i = Some AGNUS_SLOT_CPU)
        then if m then s <| table := <[Z.to_nat i := AGNUS_SLOT_FREE]> (table s) |> else s else s) /\
      full s1 /\ same_inputs s s1 /\ slot_index s1 h = slot_index s h /\
      slot_at s1 h = (if (i =? h) && m && bool_decide (slot_at s h = AGNUS_SLOT_CPU)
                      then AGNUS_SLOT_FREE else slot_at s h)).
    { eexists; split; [done|]. destruct Hs as [Ht Hx].
      destruct (decide (table s !! Z.to_nat i = Some AGNUS_SLOT_CPU)) as [Hd|Hd]; [destruct m|]; cbn.
      - split_and!; [split; cbn; by rewrite ?length_insert|by destruct s|done|].
        unfold slot_at at 1. cbn. destruct (Z.eqb_spec i h) as [->|]; cbn.
        + rewrite list_lookup_insert_eq by lia. rewrite (bool_decide_true (slot_at s h = AGNUS_SLOT_CPU)) by (by apply Hcpu). done.
        + by rewrite list_lookup_insert_ne by lia.
      - rewrite andb_false_r. split_and!; try done. apply same_inputs_refl.
      - split_and!; try done; [apply same_inputs_refl|].
        destruct (Z.eqb_spec i h) as [->|]; [|done]. rewrite (bool_decide_false (slot_at s h = AGNUS_SLOT_CPU)) by (by rewrite <- Hcpu).
        by rewrite !andb_false_r. }
    destruct Hstep as (s1 & <- & F1 & E1 & I1 & A1).
    destruct (IH Hl' s1 F1) as (F2 & E2 & I2 & A2). cbv zeta in *.
    split_and!; [done|by eapply same_inputs_trans|by rewrite I2|].
    rewrite A2, A1. destruct m; rewrite ?andb_false_r, ?andb_true_r; [|done].
    destruct (Z.eqb_spec i h) as [->|Hne]; cbn.
    + rewrite (bool_decide_true (h ∈ h :: l)) by (by left). cbn.
      destruct (bool_decide (slot_at s h = AGNUS_SLOT_CPU)) eqn:Eb.
      * by destruct (bool_decide (h ∈ l)).
      * rewrite Eb. by rewrite andb_false_r.
    + assert (bool_decide (h ∈ i :: l) = bool_decide (h ∈ l)) as ->; [|done].
      apply bool_decide_ext. rewrite elem_of_cons. intuition congruence.
Qed.

Lemma enabled_audio_keys d : NoDup (enabled_audio d).*1 /\ Forall (fun a => 0 <= a.1) (enabled_audio d).
Proof.
  unfold enabled_audio, audio_slots. cbn [omap list_omap fst snd].
  destruct (dmacon_auden d 0), (dmacon_auden d 1), (dmacon_auden d 2), (dmacon_auden d 3);
    (split; [apply (bool_decide_unpack _); vm_compute; exact I|repeat constructor; cbn; lia]).
Qed.

Lemma fold_enabled_audio d s :
  foldl (fun s a => if dmacon_auden d a.2 then fill_slot a.1 (AGNUS_SLOT_AUDIO a.2) s else s) s audio_slots
    = put_all (enabled_audio d) s.
Proof.
  unfold enabled_audio, audio_slots. cbn [omap list_omap foldl fst snd].
  by destruct (dmacon_auden d 0), (dmacon_auden d 1), (dmacon_auden d 2), (dmacon_auden d 3).
Qed.

Lemma enabled_sprites_keys d : NoDup (enabled_sprites d).*1 /\ Forall (fun a => 0 <= a.1) (enabled_sprites d).
Proof.
  unfold enabled_sprites. destruct (dmacon_spren d); [|split; constructor].
  split; [apply (bool_decide_unpack _); vm_compute; exact I|repeat constructor; cbn; lia].
Qed.

Lemma enabled_disk_keys d : NoDup (enabled_disk d).*1 /\ Forall (fun a => 0 <= a.1) (enabled_disk d).
Proof.
  unfold enabled_disk. destruct (dmacon_dsken d); [|split; constructor].
  split; [apply (bool_decide_unpack _); vm_compute; exact I|repeat constructor; cbn; lia].
Qed.

Lemma fold_enabled_disk d s :
  (if dmacon_dsken d then fill_slot 0x09 AGNUS_SLOT_DISK (fill_slot 0x07 AGNUS_SLOT_DISK s) else s)
    = put_all (enabled_disk d) s.
Proof. unfold enabled_disk. by destruct (dmacon_dsken d). Qed.

Lemma fold_enabled_sprites d s :
  (if dmacon_spren d then foldl (fun s a => fill_slot a.1 (AGNUS_SLOT_SPRITE a.2) s) s sprite_slots else s)
    = put_all (enabled_sprites d) s.
Proof. unfold enabled_sprites. by destruct (dmacon_spren d). Qed.

(** The empty table a rebuild starts from. *)
Lemma empty_table_spec s h :
  0 <= h < 227 ->
  let s0 := rebuild_empty s in
  full s0 /\ same_inputs s s0 /\ slot_at s0 h = AGNUS_SLOT_CPU /\ slot_index s0 h = 0xffff.
Proof.
  intros Hh. cbv zeta. split_and!; [done|by destruct s|..];
    unfold slot_at, slot_index.
  - change (default AGNUS_SLOT_FREE (replicate 227 AGNUS_SLOT_CPU !! Z.to_nat h) = AGNUS_SLOT_CPU).
    by rewrite lookup_replicate_2 by lia.
  - change (default 0xffff (replicate 227 0xffff !! Z.to_nat h) = 0xffff).
    by rewrite lookup_replicate_2 by lia.
Qed.

(** The slots of the fixed channels belong to those channels. *)
Lemma enabled_owners d :
  Forall (fun a => a.2 <> AGNUS_SLOT_CPU /\ a.2 <> AGNUS_SLOT_BITPLANE)
    (enabled_sprites d ++ enabled_audio d ++ enabled_disk d).
Proof.
  unfold enabled_sprites, enabled_audio, enabled_disk, audio_slots. cbn [omap list_omap fst snd].
  rewrite !Forall_app. split_and!.
  - destruct (dmacon_spren d); repeat constructor; done.
  - destruct (dmacon_auden d 0), (dmacon_auden d 1), (dmacon_auden d 2), (dmacon_auden d 3); repeat constructor; done.
  - destruct (dmacon_dsken d); repeat constructor; done.
Qed.

Lemma enabled_owner h o d :
  assoc h (enabled_sprites d ++ enabled_audio d ++ enabled_disk d) = Some o ->
  o <> AGNUS_SLOT_CPU /\ o <> AGNUS_SLOT_BITPLANE.
Proof.
  intros E. unfold assoc in E. destruct (find _ _) as [x|] eqn:Ef; [|done]. injection E as <-.
  apply find_some in Ef as [Hin _]. apply list_elem_of_In in Hin.
  exact (proj1 (Forall_forall _ _) (enabled_owners d) x Hin).
Qed.

Lemma rebuild_refresh_spec refresh s h :
  full s -> 0 <= h < 227 ->
  let s' := rebuild_refresh refresh s in
  full s' /\ same_inputs s s' /\ slot_index s' h = slot_index s h /\
  slot_at s' h = (if refresh_dma_owns_slot refresh h then AGNUS_SLOT_REFRESH else slot_at s h).
Proof.
  intros Hs Hh. destruct (cond_fill_spec (refresh_dma_owns_slot refresh) AGNUS_SLOT_REFRESH
    (seqZ 0 AGNUS_SLOTS_PER_LINE) h Hh ltac:(apply Forall_seqZ; lia) s Hs) as (F & E & A & I).
  rewrite bool_decide_true in A by (apply elem_of_seqZ; unfold AGNUS_SLOTS_PER_LINE; lia).
  by split_and!.
Qed.

Lemma rebuild_channels_spec s h :
  full s -> 0 <= h < 227 ->
  let s' := rebuild_channels s in let d := s_dmacon s in
  full s' /\ same_inputs s s' /\ slot_index s' h = slot_index s h /\
  slot_at s' h = default (slot_at s h) (assoc h (enabled_sprites d ++ enabled_audio d ++ enabled_disk d)).
Proof.
  intros Hs Hh. cbv zeta. unfold rebuild_channels. cbv zeta. set (d := s_dmacon s).
  rewrite fold_enabled_disk. destruct (enabled_disk_keys d) as [K2 P2].
  destruct (put_all_spec (enabled_disk d) h Hh P2 K2 s Hs) as (F2 & E2 & A2 & I2).
  rewrite fold_enabled_audio. destruct (enabled_audio_keys d) as [K3 P3].
  destruct (put_all_spec (enabled_audio d) h Hh P3 K3 _ F2) as (F3 & E3 & A3 & I3).
  rewrite fold_enabled_sprites. destruct (enabled_sprites_keys d) as [K4 P4].
  destruct (put_all_spec (enabled_sprites d) h Hh P4 K4 _ F3) as (F4 & E4 & A4 & I4).
  split_and!; [done|by eauto using same_inputs_trans|congruence|].
  rewrite A4, A3, A2, !assoc_app.
  destruct (assoc h (enabled_sprites d)); [done|]. by destruct (assoc h (enabled_audio d)).
Qed.

Lemma rebuild_bitplanes_spec s h :
  scheduler_wf s -> full s -> 0 <= h < 227 ->
  let s' := rebuild_bitplanes s in
  full s' /\ same_inputs s s' /\ slot_index s' h = default (slot_index s h) (assoc h (line_entries s)) /\
  slot_at s' h = match assoc h (line_entries s) with Some _ => AGNUS_SLOT_BITPLANE | None => slot_at s h end.
Proof.
  intros Hwf Hs Hh. cbv zeta. rewrite rebuild_bitplanes_put by done.
  destruct (line_entries_keys s Hwf) as [K P].
  destruct (put_bitplanes_spec (line_entries s) h Hh P K s Hs) as (F & E & A & I). by split_and!.
Qed.

Lemma rebuild_free_spec s h :
  full s -> 0 <= h < 227 ->
  let s' := rebuild_free s in
  full s' /\ same_inputs s s' /\ slot_index s' h = slot_index s h /\
  slot_at s' h = (if dmacon_master (s_dmacon s) && bool_decide (slot_at s h = AGNUS_SLOT_CPU)
                  then AGNUS_SLOT_FREE else slot_at s h).
Proof.
  intros Hs Hh. destruct (free_spec (dmacon_master (s_dmacon s)) (seqZ 0 AGNUS_SLOTS_PER_LINE) h Hh
    ltac:(apply Forall_seqZ; lia) s Hs) as (F & E & I & A).
  rewrite bool_decide_true in A by (apply elem_of_seqZ; unfold AGNUS_SLOTS_PER_LINE; lia).
  by split_and!.
Qed.

Lemma done_keeps s x y :
  full s -> scheduler_wf s ->
  full (s <| line_is_vbl := x |> <| table_dirty := y |>) /\
  scheduler_wf (s <| line_is_vbl := x |> <| table_dirty := y |>).
Proof. intros [] []. by split. Qed.

(** Whatever was in the table before, a rebuild fills both arrays and keeps the
    registers. *)
Lemma rebuild_keeps v refresh s :
  scheduler_wf s -> full (agnus_slot_scheduler_rebuild v refresh s) /\
    scheduler_wf (agnus_slot_scheduler_rebuild v refresh s).
Proof.
  intros Hwf. assert (H0 : 0 <= 0 < 227) by lia.
  destruct (empty_table_spec s 0 H0) as (F0 & E0 & _ & _).
  destruct (rebuild_refresh_spec refresh _ 0 F0 H0) as (F1 & E1 & _ & _).
  destruct (rebuild_channels_spec _ 0 F1 H0) as (F2 & E2 & _ & _). cbv zeta in *.
  unfold agnus_slot_scheduler_rebuild. cbv zeta.
  set (s2 := rebuild_channels (rebuild_refresh refresh (rebuild_empty s))) in *.
  assert (E : same_inputs s s2) by eauto using same_inputs_trans.
  assert (Hwf2 : scheduler_wf s2) by (rewrite E; by destruct Hwf).
  set (s5 := if _ : bool then rebuild_bitplanes s2 else s2).
  assert (H5 : full s5 /\ same_inputs s s5).
  { unfold s5. case_match; [|done]. destruct (rebuild_bitplanes_spec s2 0 Hwf2 F2 H0) as (F3 & E3 & _).
    split; [done|by eapply same_inputs_trans]. }
  destruct H5 as [F5 E5]. clearbody s5.
  destruct (rebuild_free_spec s5 0 F5 H0) as (F6 & E6 & _ & _). cbv zeta in *.
  pose proof (same_inputs_trans _ _ _ E5 E6) as E7. set (s6 := rebuild_free s5) in *. clearbody s6.
  apply done_keeps; [exact F6|]. rewrite E7. by destruct Hwf.
Qed.

#[global] Opaque rebuild_empty rebuild_refresh rebuild_channels rebuild_bitplanes rebuild_free.

Lemma done_slots s x y h :
  slot_at (s <| line_is_vbl := x |> <| table_dirty := y |>) h = slot_at s h /\
  slot_index (s <| line_is_vbl := x |> <| table_dirty := y |>) h = slot_index s h.
Proof. done. Qed.

(** The table and the plane indices built for line [v]. *)
Lemma rebuild_slots v refresh s h :
  scheduler_wf s -> 0 <= h < 227 ->
  slot_at (agnus_slot_scheduler_rebuild v refresh s) h = slot_spec v refresh s h /\
  slot_index (agnus_slot_scheduler_rebuild v refresh s) h =
    default 0xffff (if fetches_bitplanes v s then assoc h (line_entries s) else None).
Proof.
  intros Hwf Hh. destruct (empty_table_spec s h Hh) as (F0 & E0 & A0 & I0).
  destruct (rebuild_refresh_spec refresh _ h F0 Hh) as (F1 & E1 & I1 & A1).
  destruct (rebuild_channels_spec _ h F1 Hh) as (F2 & E2 & I2 & A2). cbv zeta in *.
  unfold agnus_slot_scheduler_rebuild. cbv zeta.
  set (s2 := rebuild_channels (rebuild_refresh refresh (rebuild_empty s))) in *.
  assert (E : same_inputs s s2) by eauto using same_inputs_trans.
  replace (s_dmacon (rebuild_refresh refresh (rebuild_empty s))) with (s_dmacon s) in A2
    by (by rewrite E1, E0).
  assert (Hv : vstrt s2 = vstrt s /\ s_dmacon s2 = s_dmacon s) by (by rewrite E).
  assert (Hwf2 : scheduler_wf s2) by (rewrite E; by destruct Hwf).
  assert (Hent : line_entries s2 = line_entries s) by (by rewrite E).
  assert (I : slot_index s2 h = 0xffff) by congruence.
  destruct Hv as [-> ->]. fold (fetches_bitplanes v s).
  assert (Hbp : exists s5, s5 = (if fetches_bitplanes v s then rebuild_bitplanes s2 else s2) /\ full s5 /\
    same_inputs s s5 /\
    slot_at s5 h = match (if fetches_bitplanes v s then assoc h (line_entries s) else None) with
                   | Some _ => AGNUS_SLOT_BITPLANE | None => slot_at s2 h end /\
    slot_index s5 h = default 0xffff (if fetches_bitplanes v s then assoc h (line_entries s) else None)).
  { eexists; split; [done|]. destruct (fetches_bitplanes v s); [|by split_and!].
    destruct (rebuild_bitplanes_spec s2 h Hwf2 F2 Hh) as (F3 & E3 & I3 & A3). rewrite Hent in *.
    rewrite I in I3. split_and!; [done|by eapply same_inputs_trans|done|done]. }
  destruct Hbp as (s5 & <- & F5 & E5 & A5 & I5).
  destruct (rebuild_free_spec s5 h F5 Hh) as (_ & _ & I6 & A6).
  replace (s_dmacon s5) with (s_dmacon s) in A6 by (by rewrite E5).
  rewrite (proj1 (done_slots _ _ _ _)), (proj2 (done_slots _ _ _ _)).
  split; [|by rewrite I6, I5]. rewrite A6, A5. unfold slot_spec.
  destruct (if fetches_bitplanes v s then _ else _); [by rewrite andb_false_r|].
  rewrite A2, A1, A0.
  destruct (assoc h (enabled_sprites _ ++ _)) as [o|] eqn:Eo.
  { cbn. apply enabled_owner in Eo as [Eo _]. by rewrite bool_decide_false, andb_false_r. }
  cbn. destruct (refresh_dma_owns_slot refresh h); [by rewrite andb_false_r|].
  by destruct (dmacon_master (s_dmacon s)).
Qed.

(** ** Theorems *)

(** The table of a line.  Whatever was in it before, a rebuild gives every
    slot to the owner the DMA enables, the line and the fetch window say, in the
    order of priority of [slot_spec]. *)
Theorem table_is_by_priority v refresh s h :
  scheduler_wf s -> 0 <= h < AGNUS_SLOTS_PER_LINE ->
  slot_at (agnus_slot_scheduler_rebuild v refresh s) h = slot_spec v refresh s h.
Proof. intros Hwf Hh. by apply rebuild_slots. Qed.

Lemma table_is_by_priority_witness :
  let s := agnus_slot_scheduler_invalidate 0x03ff (agnus_slot_scheduler_set_depth 1
    (agnus_slot_scheduler_set_ddf 0x38 0xd0 (agnus_slot_scheduler_init (rebuild_empty
      (mkScheduler [] [] 0 0 0 0 0 false false false false false false 0 false 0 0 [] false false 0))))) in
  map (slot_at (agnus_slot_scheduler_rebuild 44 None s)) [0x00; 0x01; 0x07; 0x0d; 0x15; 0x3f] =
    [AGNUS_SLOT_FREE; AGNUS_SLOT_REFRESH; AGNUS_SLOT_DISK; AGNUS_SLOT_AUDIO 1; AGNUS_SLOT_SPRITE 0;
     AGNUS_SLOT_BITPLANE].
Proof.
  cbv zeta. set (s := agnus_slot_scheduler_invalidate _ _).
  assert (Hwf : scheduler_wf s) by (split; vm_compute; intuition congruence).
  cbn [map]. rewrite !(table_is_by_priority 44 None s) by (exact Hwf || (unfold AGNUS_SLOTS_PER_LINE; lia)).
  vm_compute. reflexivity.
Defined.

(** The [plane]-th word of column [word] has the number [word * depth + plane]. *)
Lemma line_entry s plane word :
  scheduler_wf s -> 0 <= plane < depth s -> 0 <= word < bitplane_words_per_plane s ->
  let i := word * depth s + plane in
  (word_slot s i, i) ∈ line_entries s /\ i mod depth s = plane /\ i / depth s = word.
Proof.
  intros Hwf Hp Hw i. assert (0 <= i < line_words s) by (unfold line_words; nia).
  split_and!.
  - unfold line_entries. apply (list_elem_of_fmap_2 (fun i => (word_slot s i, i))), elem_of_seqZ. lia.
  - subst i. rewrite Z.add_comm, Z.mod_add by lia. by apply Z.mod_small.
  - subst i. rewrite Z.add_comm, Z.div_add by lia. rewrite Z.div_small by lia. lia.
Qed.

(** C35: the words a line fetches.  On a line that fetches bitplanes each word of
    each plane that has a slot inside the line is fetched in exactly one slot,
    whose plane and column the dispatch recovers from the index of the slot; no
    other slot is a bitplane slot, and in lores two of every eight clocks stay
    free. *)
Theorem bitplane_words_fetched_once v refresh s :
  scheduler_wf s -> fetches_bitplanes v s = true ->
  let s' := agnus_slot_scheduler_rebuild v refresh s in
  let words := bitplane_words_per_plane s in
  (forall plane word, 0 <= plane < depth s -> 0 <= word < words ->
    let h := word_slot s (word * depth s + plane) in
    h < AGNUS_SLOTS_PER_LINE ->
    slot_at s' h = AGNUS_SLOT_BITPLANE /\
    slot_index s' h mod depth s = plane /\ slot_index s' h / depth s = word) /\
  (forall h, 0 <= h < AGNUS_SLOTS_PER_LINE -> slot_at s' h = AGNUS_SLOT_BITPLANE ->
    exists plane word, 0 <= plane < depth s /\ 0 <= word < words /\
      h = word_slot s (word * depth s + plane)) /\
  (hires s = false -> forall h, 0 <= h < AGNUS_SLOTS_PER_LINE ->
    slot_at s' h = AGNUS_SLOT_BITPLANE -> (h - s_ddfstrt s) mod 8 <> 0 /\ (h - s_ddfstrt s) mod 8 <> 4).
Proof.
  intros Hwf Hf s' words. destruct (line_entries_keys s Hwf) as [K P].
  assert (Hback : forall h, 0 <= h < AGNUS_SLOTS_PER_LINE -> slot_at s' h = AGNUS_SLOT_BITPLANE ->
    exists plane word, 0 <= plane < depth s /\ 0 <= word < words /\
      h = word_slot s (word * depth s + plane)).
  { intros h Hh Hs. destruct (rebuild_slots v refresh s h Hwf Hh) as [E _]. fold s' in E. rewrite E in Hs.
    unfold slot_spec in Hs. rewrite Hf in Hs.
    destruct (assoc h (line_entries s)) as [i|] eqn:Ei.
    - unfold assoc in Ei. destruct (find _ _) as [x|] eqn:Ex; [|done]. injection Ei as <-.
      apply find_some in Ex as [Hin Hx%Z.eqb_eq]. apply in_map_iff in Hin as (j & <- & Hj%list_elem_of_In%elem_of_seqZ).
      cbn in Hx. assert (0 < depth s).
      { destruct (decide (depth s = 0)) as [E0|]; [unfold line_words in Hj; rewrite E0 in Hj; lia|destruct Hwf; lia]. }
      pose proof (Z.mod_pos_bound j (depth s) ltac:(lia)). pose proof (Z.div_mod j (depth s) ltac:(lia)).
      exists (j mod depth s), (j / depth s). split_and!; try lia.
      + apply Z.div_pos; lia.
      + apply Z.div_lt_upper_bound; [lia|]. unfold line_words in Hj. lia.
      + rewrite <- Hx. f_equal. lia.
    - exfalso. revert Hs. destruct (assoc h (enabled_sprites _ ++ _)) as [o|] eqn:Eo.
      + intros ->. by apply enabled_owner in Eo as [_ []].
      + destruct (refresh_dma_owns_slot refresh h); [done|]. by destruct (dmacon_master _). }
  split_and!; [|exact Hback|].
  - intros plane word Hp Hw h Hh.
    destruct (line_entry s plane word Hwf Hp Hw) as (Hin & Hm & Hd). cbv zeta in *.
    set (i := word * depth s + plane) in *.
    assert (0 <= h) by (exact (proj1 (Forall_forall _ _) P _ Hin)).
    destruct (rebuild_slots v refresh s h Hwf ltac:(unfold AGNUS_SLOTS_PER_LINE in Hh; lia)) as [E I].
    fold s' in E, I. unfold slot_spec in E. rewrite Hf in E, I.
    rewrite (assoc_Some h i (line_entries s) K Hin) in E, I. rewrite E, I. by split_and!.
  - intros Hh h Hr Hs. destruct (Hback h Hr Hs) as (plane & word & Hp & Hw & ->).
    destruct (line_entry s plane word Hwf Hp Hw) as (_ & Hm & Hd). cbv zeta in *.
    unfold word_slot. rewrite Hh, Hm, Hd.
    replace (s_ddfstrt s + word * 8 + _ - s_ddfstrt s) with
      (default 0 (lores_plane_order !! Z.to_nat plane) + word * 8) by lia.
    rewrite Z.mod_add by lia.
    destruct (words_bounds s Hwf) as [_ Hz].
    assert (plane < 6) by (destruct Hwf; destruct (decide (depth s = 7)); [unfold words in Hw; rewrite Hz in Hw by tauto; lia|lia]).
    assert (plane = 0 \/ plane = 1 \/ plane = 2 \/ plane = 3 \/ plane = 4 \/ plane = 5) as Hpl by lia.
    destruct_or! Hpl; subst plane; vm_compute; split; congruence.
Qed.

(** A lores line of four planes, twenty words each. *)
Definition demo_line : slot_scheduler :=
  mkScheduler (replicate 227 AGNUS_SLOT_CPU) (replicate 227 0xffff) 0 0x0300 0x38 0xd0 4 false true
    false false false false 0 false 0 0 [] false false 26.

Lemma bitplane_words_fetched_once_witness :
  let s' := agnus_slot_scheduler_rebuild 44 None demo_line in
  bitplane_words_per_plane demo_line = 20 /\
  let h := word_slot demo_line (19 * 4 + 3) in
  h = 209 /\ slot_at s' h = AGNUS_SLOT_BITPLANE /\ slot_index s' h mod 4 = 3 /\ slot_index s' h / 4 = 19.
Proof.
  assert (Hwf : scheduler_wf demo_line) by (split; vm_compute; intuition congruence).
  cbv zeta. split; [reflexivity|]. split; [reflexivity|].
  destruct (bitplane_words_fetched_once 44 None demo_line Hwf eq_refl) as (H & _ & _).
  apply (H 3 19); [cbn; lia|split; [lia|reflexivity]|reflexivity].
Defined.

(** ** The queries of the host *)

Lemma first_slot_spec p n : forall h,
  match first_slot p n h with
  | Some k => h <= k < h + Z.of_nat n /\ p k = true /\ forall i, h <= i < k -> p i = false
  | None => forall i, h <= i < h + Z.of_nat n -> p i = false
  end.
Proof.
  induction n as [|n IH]; intros h; cbn [first_slot]; [intros i Hi; lia|].
  destruct (p h) eqn:E; [split; [lia|split; [done|intros i Hi; lia]]|].
  specialize (IH (h + 1)). destruct (first_slot p n (h + 1)) as [k|].
  - destruct IH as (Hk & Hp & Hlt). split; [lia|]. split; [done|]. intros i Hi.
    destruct (decide (i = h)) as [->|]; [done|]. apply Hlt. lia.
  - intros i Hi. destruct (decide (i = h)) as [->|]; [done|]. apply IH. lia.
Qed.

(** The scheduler [k] clocks later on the same line, the copper and the blitter
    asking for the same slots. *)
Definition clocks_later (k : Z) (s : slot_scheduler) : slot_scheduler := s <| s_hpos := s_hpos s + k |>.

(** When the CPU gets the bus.  While the table is valid and the copper and
    the blitter ask for the same slots, [cpu_resume_in] clocks later (and no
    sooner) the CPU is not stalled, or the line ends with the CPU stalled all
    the way; [next_event] clocks later (and no sooner) the table names a DMA
    channel, or the line ends. *)
Theorem host_queries_are_exact line_clocks s :
  table_dirty s = false -> 0 <= s_hpos s < line_clocks -> line_clocks <= AGNUS_SLOTS_PER_LINE ->
  let n := agnus_slot_scheduler_cpu_resume_in line_clocks s in
  let m := agnus_slot_scheduler_next_event line_clocks s in
  0 < n <= line_clocks - s_hpos s /\ 0 < m <= line_clocks - s_hpos s /\
  (forall k, 0 < k < n -> agnus_slot_scheduler_cpu_stall (clocks_later k s) = true) /\
  (n < line_clocks - s_hpos s -> agnus_slot_scheduler_cpu_stall (clocks_later n s) = false) /\
  (forall k, 0 < k < m -> is_cpu_slot (slot_at s (s_hpos s + k)) = true) /\
  (m < line_clocks - s_hpos s -> is_cpu_slot (slot_at s (s_hpos s + m)) = false).
Proof.
  intros Hd Hh Hl n m. unfold AGNUS_SLOTS_PER_LINE in Hl.
  assert (Hstart : u16 (s_hpos s + 1) = s_hpos s + 1) by (apply wrap_small; unfold in_width; lia).
  assert (Hstall : forall k, 0 < k < line_clocks - s_hpos s ->
    agnus_slot_scheduler_cpu_stall (clocks_later k s) = negb (is_cpu_slot (steal_slot s (slot_at s (s_hpos s + k))))).
  { intros k Hk. unfold agnus_slot_scheduler_cpu_stall, agnus_slot_scheduler_current_owner.
    change (s_hpos (clocks_later k s)) with (s_hpos s + k). unfold AGNUS_SLOTS_PER_LINE.
    by replace (227 <=? s_hpos s + k) with false by lia. }
  set (k0 := line_clocks - (s_hpos s + 1)) in *.
  assert (Hn : exists r, first_slot (fun h => is_cpu_slot (steal_slot s (slot_at s h))) (Z.to_nat k0) (s_hpos s + 1) = r /\
    n = match r with Some h => h - s_hpos s | None => line_clocks - s_hpos s end).
  { eexists; split; [done|]. unfold n, agnus_slot_scheduler_cpu_resume_in. rewrite Hd, Hstart. fold k0.
    pose proof (first_slot_spec (fun h => is_cpu_slot (steal_slot s (slot_at s h))) (Z.to_nat k0) (s_hpos s + 1)) as Hs.
    destruct (first_slot _ _ _) as [h|]; apply wrap_small; unfold in_width; lia. }
  assert (Hm : exists r, first_slot (fun h => negb (is_cpu_slot (slot_at s h))) (Z.to_nat k0) (s_hpos s + 1) = r /\
    m = match r with Some h => h - s_hpos s | None => line_clocks - s_hpos s end).
  { eexists; split; [done|]. unfold m, agnus_slot_scheduler_next_event. rewrite Hd, Hstart. fold k0.
    pose proof (first_slot_spec (fun h => negb (is_cpu_slot (slot_at s h))) (Z.to_nat k0) (s_hpos s + 1)) as Hs.
    destruct (first_slot (fun h => negb (is_cpu_slot (slot_at s h))) (Z.to_nat k0) (s_hpos s + 1)) as [h|];
      apply wrap_small; unfold in_width; lia. }
  destruct Hn as (r1 & E1 & En), Hm as (r2 & E2 & Em).
  pose proof (first_slot_spec (fun h => is_cpu_slot (steal_slot s (slot_at s h))) (Z.to_nat k0) (s_hpos s + 1)) as H1.
  pose proof (first_slot_spec (fun h => negb (is_cpu_slot (slot_at s h))) (Z.to_nat k0) (s_hpos s + 1)) as H2.
  rewrite E1 in H1. rewrite E2 in H2. rewrite En, Em. clear E1 E2 En Em n m.
  split_and!; try (destruct r1, r2; lia).
  - intros k Hk. rewrite Hstall by (destruct r1; lia).
    destruct r1 as [h|]; [destruct H1 as (_ & _ & H1)|]; by rewrite H1 by lia.
  - intros Hlt. destruct r1 as [h|]; [|lia]. destruct H1 as (Hk & Hp & _). rewrite Hstall by lia.
    replace (s_hpos s + (h - s_hpos s)) with h by lia. by rewrite Hp.
  - intros k Hk. apply negb_false_iff.
    destruct r2 as [h|]; [destruct H2 as (_ & _ & H2)|]; by rewrite H2 by lia.
  - intros Hlt. destruct r2 as [h|]; [|lia]. destruct H2 as (Hk & Hp & _).
    replace (s_hpos s + (h - s_hpos s)) with h by lia. by apply negb_true_iff.
Qed.

Lemma host_queries_are_exact_witness :
  let s := (agnus_slot_scheduler_rebuild 44 None demo_line) <| s_hpos := 0x38 |> <| s_blitter_active := true |> in
  agnus_slot_scheduler_cpu_resume_in 227 s = 171 /\ agnus_slot_scheduler_next_event 227 s = 1 /\
  agnus_slot_scheduler_cpu_stall (clocks_later 5 s) = true.
Proof.
  cbv zeta. set (s := _ <| s_hpos := 0x38 |> <| s_blitter_active := true |>).
  assert (Hn : agnus_slot_scheduler_cpu_resume_in 227 s = 171) by (vm_compute; reflexivity).
  destruct (host_queries_are_exact 227 s eq_refl ltac:(change (s_hpos s) with 0x38; lia)
    ltac:(unfold AGNUS_SLOTS_PER_LINE; lia)) as (_ & _ & H & _). cbv zeta in H. rewrite Hn in H.
  split; [exact Hn|]. split; [vm_compute; reflexivity|]. apply H. lia.
Defined.
