(* ===== verification/DenisePixel.v ===== *)
(** * Denise: from bitplanes to colours

    The pixel functions of [denise/palette/color_regs.c], [denise/output] and
    [denise/render]: colour expansion, planar to chunky conversion, HAM,
    extra half-brite, dual playfield and the priority rule.  The scalar variant
    of [planar_to_chunky] is modelled. *)

From S2P Require Import Prelude.

(** ** Colours *)

(** C: [src/src/chipset/denise/palette/color_regs.c] [rigel_denise_color_expand_12bit] *)
Definition rigel_denise_color_expand_12bit (value : Z) : Z :=
  let r := (value .>> 8) .& 0x0f in
  let g := (value .>> 4) .& 0x0f in
  let b := value .& 0x0f in
  u32 (r .<< 20) .| u32 (r .<< 16) .| u32 (g .<< 12) .| u32 (g .<< 8) .| u32 (b .<< 4) .| b.

(** C: [src/src/chipset/denise/palette/color_regs.c] [rigel_denise_color_expand_rgb565] *)
Definition rigel_denise_color_expand_rgb565 (value : Z) : Z :=
  let r := u16 ((value .>> 8) .& 0x0f) in
  let g := u16 ((value .>> 4) .& 0x0f) in
  let b := u16 (value .& 0x0f) in
  let r := u16 ((r .<< 4) .| r) in
  let g := u16 ((g .<< 4) .| g) in
  let b := u16 ((b .<< 4) .| b) in
  u16 (((r .>> 3) .<< 11) .| ((g .>> 2) .<< 5) .| (b .>> 3)).

(** C: [src/src/chipset/denise/render/compositor.c] [rgb32_to_rgb565] *)
Definition rgb32_to_rgb565 (rgb : Z) : Z :=
  let r := (rgb .>> 16) .& 0xff in
  let g := (rgb .>> 8) .& 0xff in
  let b := rgb .& 0xff in
  u16 (((r .>> 3) .<< 11) .| ((g .>> 2) .<< 5) .| (b .>> 3)).

(** Entry [i] of a C array; the code never indexes outside. *)
Definition at_ (l : list Z) (i : Z) : Z := default 0 (l !! Z.to_nat i).

(** ** Planar to chunky *)

(** The index of one pixel: plane [p] gives bit [p].
    C: [src/src/chipset/denise/output/planar.c]:29-33 [planar_to_chunky_scalar] *)
Definition planar_index (plane_words : list Z) (num_planes shift : Z) : Z :=
  foldl (fun index p => u8 (index .| u8 (u32 (((at_ plane_words p .>> shift) .& 1) .<< p))))
    0 (seqZ 0 num_planes).

(** C: [src/src/chipset/denise/output/planar.c]:14-36 [planar_to_chunky_scalar] *)
Definition planar_to_chunky (plane_words : list Z) (num_planes : Z) : list Z :=
  let num_planes := if 6 <? num_planes then 6 else num_planes in
  map (fun px => planar_index plane_words num_planes (15 - px)) (seqZ 0 16).

(** C: [src/src/chipset/denise/output/planar.c] [planar_pixel_at] *)
Definition planar_pixel_at (plane_words : list Z) (num_planes bit : Z) : Z :=
  let num_planes := if 6 <? num_planes then 6 else num_planes in
  if 15 <? bit then 0 else planar_index plane_words num_planes (15 - bit).

(** ** Hold and modify *)

(** C: [src/src/chipset/denise/render/ham.c] [ham6_decode_pixel] *)
Definition ham6_decode_pixel (plane_bits prev_rgb : Z) (palette : list Z) : Z :=
  let ctrl := (plane_bits .>> 4) .& 0x3 in
  let value := u8 ((plane_bits .& 0xf) .<< 4) in
  if ctrl =? 0 then at_ palette (plane_bits .& 0x1f)
  else if ctrl =? 1 then (prev_rgb .& 0xffff00) .| value
  else if ctrl =? 2 then (prev_rgb .& 0x00ffff) .| u32 (value .<< 16)
  else (prev_rgb .& 0xff00ff) .| u32 (value .<< 8).

(** C: [src/src/chipset/denise/render/ham.c] [ham8_decode_pixel] *)
Definition ham8_decode_pixel (plane_bits prev_rgb : Z) (palette : list Z) : Z :=
  let ctrl := (plane_bits .>> 6) .& 0x3 in
  let v6 := u8 (plane_bits .& 0x3f) in
  let val_ := u8 ((v6 .<< 2) .| (v6 .>> 4)) in
  if ctrl =? 0 then at_ palette v6
  else if ctrl =? 1 then (prev_rgb .& 0xffff00) .| val_
  else if ctrl =? 2 then (prev_rgb .& 0x00ffff) .| u32 (val_ .<< 16)
  else (prev_rgb .& 0xff00ff) .| u32 (val_ .<< 8).

(** ** Extra half-brite *)

(** C: [src/src/chipset/denise/render/ehb.c] [ehb_resolve_color] *)
Definition ehb_resolve_color (plane_bits : Z) (palette : list Z) : Z :=
  if has plane_bits 0x20 then
    let base := at_ palette (plane_bits .& 0x1f) in
    let r := u8 (((base .>> 16) .& 0xff) .>> 1) in
    let g := u8 (((base .>> 8) .& 0xff) .>> 1) in
    let b := u8 ((base .& 0xff) .>> 1) in
    u32 (r .<< 16) .| u32 (g .<< 8) .| b
  else at_ palette (plane_bits .& 0x1f).

(** ** Dual playfield *)

(** C: [src/src/chipset/denise/render/dualpf.h]:13-16 [dualpf_result_t] *)
Record dualpf_result := mkDualpf { pf1_index : Z; pf2_index : Z }.

(** C: [src/src/chipset/denise/render/dualpf.c] [dualpf_decode] *)
Definition dualpf_decode (plane_bits : Z) : dualpf_result :=
  let pf1 := ((plane_bits .>> 0) .& 1) .| ((plane_bits .>> 1) .& 2) .| ((plane_bits .>> 2) .& 4) in
  let pf2 := ((plane_bits .>> 1) .& 1) .| ((plane_bits .>> 2) .& 2) .| ((plane_bits .>> 3) .& 4) in
  let pf1 := if truthy pf1 then u8 (pf1 + 0) else pf1 in
  let pf2 := if truthy pf2 then u8 (pf2 + 8) else pf2 in
  mkDualpf pf1 pf2.

(** C: [src/src/chipset/denise/render/dualpf.c] [dualpf_priority_resolve] *)
Definition dualpf_priority_resolve (pf : dualpf_result) (bplcon2 : Z) : Z :=
  let pf2_priority := has bplcon2 0x0040 in
  if truthy (pf2_index pf) && truthy (pf1_index pf) then
    if pf2_priority then pf2_index pf else pf1_index pf
  else if truthy (pf2_index pf) then pf2_index pf
  else if truthy (pf1_index pf) then pf1_index pf
  else 0.

(** ** Priority between sprites and playfields *)

(** C: [src/src/chipset/denise/render/priority.h]:20-24 [priority_result_t] *)
Record priority_result := mkPriority { color_index : Z; from_sprite : bool; sprite_num : Z }.

(** The loop from sprite [i] on.
    C: [src/src/chipset/denise/render/priority.c]:25-33 [denise_priority_resolve] *)
Fixpoint priority_loop (fuel : nat) (i pf_color pf_prio : Z) (sprite_px : list Z) : priority_result :=
  match fuel with
  | O => mkPriority pf_color false 0
  | S fuel =>
      let pair := i `div` 2 in
      let px := at_ sprite_px i in
      if negb (truthy px) then priority_loop fuel (i + 1) pf_color pf_prio sprite_px
      else if (pf_color =? 0) || (pair + pf_prio <? 4) then mkPriority px true i
      else priority_loop fuel (i + 1) pf_color pf_prio sprite_px
  end.

(** C: [src/src/chipset/denise/render/priority.c] [denise_priority_resolve] *)
Definition denise_priority_resolve (pf_color : Z) (is_pf2 : bool) (sprite_px : list Z) (bplcon2 : Z)
    : priority_result :=
  let pf_prio := if is_pf2 then (bplcon2 .>> 3) .& 0x7 else bplcon2 .& 0x7 in
  priority_loop 8 0 pf_color pf_prio sprite_px.

(** ** Colour expansion: one formula for both formats *)

(** Bits 12 to 15 of a colour register are ignored. *)
Lemma color_nibbles v :
  ((v .& 0xfff) .>> 8) .& 15 = (v .>> 8) .& 15 /\ ((v .& 0xfff) .>> 4) .& 15 = (v .>> 4) .& 15 /\
  (v .& 0xfff) .& 15 = v .& 15.
Proof.
  by split_and!; rewrite ?Z.shiftr_land, <- Z.land_assoc.
Qed.

Lemma color_masked v :
  rigel_denise_color_expand_12bit v = rigel_denise_color_expand_12bit (v .& 0xfff) /\
  rigel_denise_color_expand_rgb565 v = rigel_denise_color_expand_rgb565 (v .& 0xfff).
Proof.
  destruct (color_nibbles v) as (R & G & B).
  unfold rigel_denise_color_expand_12bit, rigel_denise_color_expand_rgb565. by rewrite R, G, B.
Qed.

Lemma land_fff_range v : 0 <= v .& 0xfff < 4096.
Proof. change 0xfff with (Z.ones 12). rewrite Z.land_ones by lia. apply Z.mod_pos_bound. lia. Qed.

(** The two formats of a colour register agree: truncating the 24-bit expansion
    gives the 16-bit expansion. *)
Lemma expand_565_coherent v :
  rgb32_to_rgb565 (rigel_denise_color_expand_12bit v) = rigel_denise_color_expand_rgb565 v.
Proof.
  destruct (color_masked v) as [-> ->]. apply Z.eqb_eq. generalize (v .& 0xfff), (land_fff_range v).
  apply (below_forall 4096). vm_compute. reflexivity.
Qed.

(** A channel of the expansion is the nibble doubled. *)
Lemma expand_12bit_channels v :
  rigel_denise_color_expand_12bit v =
    (((v .>> 8) .& 15) * 17) * 2 ^ 16 + (((v .>> 4) .& 15) * 17) * 2 ^ 8 + (v .& 15) * 17.
Proof.
  destruct (color_nibbles v) as (<- & <- & <-). destruct (color_masked v) as [-> _].
  apply Z.eqb_eq. generalize (v .& 0xfff), (land_fff_range v).
  apply (below_forall 4096). vm_compute. reflexivity.
Qed.

(** ** Planar conversion: bit [p] of a pixel is its bit in plane [p] *)

Lemma planar_index_range ws n shift : is_u8 (planar_index ws n shift).
Proof.
  unfold planar_index. assert (H : forall l a, is_u8 a -> is_u8
    (foldl (fun index p => u8 (index .| u8 (u32 (((at_ ws p .>> shift) .& 1) .<< p)))) a l)).
  { induction l as [|p l IH]; intros a Ha; [exact Ha|]. apply IH. width. }
  apply H. width.
Qed.

Lemma planar_index_bit ws n shift i :
  0 <= n <= 6 -> 0 <= shift -> 0 <= i ->
  Z.testbit (planar_index ws n shift) i = (i <? n) && Z.testbit (at_ ws i) shift.
Proof.
  intros [Hn Hn6] Hs Hi. revert Hn6. revert n Hn. apply (natlike_ind (fun n => n <= 6 -> Z.testbit (planar_index ws n shift) i = (i <? n) && Z.testbit (at_ ws i) shift)).
  - intros _. change (planar_index ws 0 shift) with 0. rewrite Z.testbit_0_l.
    by replace (i <? 0) with false by lia.
  - intros n Hn IH Hn6. specialize (IH ltac:(lia)). rewrite <- Z.add_1_r in *. unfold planar_index in *.
    rewrite seqZ_app, foldl_app by lia. change (seqZ (0 + n) 1) with [0 + (0 + n)]. cbn [foldl].
    replace (0 + (0 + n)) with n by lia. rewrite shiftr_land_1 by lia.
    set (acc := foldl _ _ _) in *. destruct (decide (i < 8)).
    + rewrite testbit_wrap, Z.lor_spec, IH, testbit_wrap, testbit_wrap, Z.shiftl_spec, testbit_b2u by lia.
      destruct (Z.eqb_spec (i - n) 0).
      * replace i with n by lia. replace (n <? n) with false by lia. replace (n <? n + 1) with true by lia.
        replace (n <? 8) with true by lia. by replace (n <? 32) with true by lia.
      * replace (i <? n + 1) with (i <? n) by lia. rewrite !andb_false_r, orb_false_r.
        by replace (i <? 8) with true by lia.
    + rewrite testbit_wrap by lia. replace (i <? 8) with false by lia.
      by replace (i <? n + 1) with false by lia.
Qed.

Lemma planar_to_chunky_lookup ws n px :
  0 <= px < 16 -> at_ (planar_to_chunky ws n) px = planar_pixel_at ws n px.
Proof.
  intros Hpx. unfold planar_to_chunky, planar_pixel_at, at_. rewrite list_lookup_fmap, lookup_seqZ_lt by lia.
  cbn. replace (15 <? px) with false by lia. do 2 f_equal. lia.
Qed.

Lemma planar_to_chunky_length ws n : length (planar_to_chunky ws n) = 16%nat.
Proof. done. Qed.

(** The planar to chunky conversion.  Bit [i] of pixel [px] is bit [15 - px]
    of the word of plane [i], the planes beyond the depth and beyond six give
    nothing, and the function that asks for a single pixel agrees with the
    conversion of the whole block. *)
Theorem planar_bits ws n px i :
  0 <= n -> 0 <= px < 16 -> 0 <= i ->
  Z.testbit (at_ (planar_to_chunky ws n) px) i
    = (i <? Z.min n 6) && Z.testbit (at_ ws i) (15 - px) /\
  planar_pixel_at ws n px = at_ (planar_to_chunky ws n) px.
Proof.
  intros Hn Hpx Hi. split; [|by rewrite planar_to_chunky_lookup].
  rewrite planar_to_chunky_lookup by done. unfold planar_pixel_at.
  replace (15 <? px) with false by lia.
  replace (if 6 <? n then 6 else n) with (Z.min n 6) by (destruct (Z.ltb_spec 6 n); lia).
  by apply planar_index_bit; lia.
Qed.

Lemma planar_bits_witness :
  Z.testbit (at_ (planar_to_chunky [0x8000; 0; 0x8000] 3) 0) 2 = true.
Proof.
  destruct (planar_bits [0x8000; 0; 0x8000] 3 0 2) as [H _]; [lia..|].
  etransitivity; [exact H|]. reflexivity.
Defined.

(** ** Dual playfield *)

(** The three planes of a playfield: plane 1, 3, 5 or 2, 4, 6. *)
Definition plane_triple (plane_bits first : Z) : Z :=
  b2u (Z.testbit plane_bits first) + 2 * b2u (Z.testbit plane_bits (first + 2))
  + 4 * b2u (Z.testbit plane_bits (first + 4)).

Lemma dualpf_decode_spec v :
  is_u8 v ->
  let pf1 := plane_triple v 0 in let pf2 := plane_triple v 1 in
  dualpf_decode v = mkDualpf pf1 (if pf2 =? 0 then 0 else pf2 + 8).
Proof.
  intros Hv. cbv zeta.
  assert (H : (pf1_index (dualpf_decode v) =? plane_triple v 0)
    && (pf2_index (dualpf_decode v) =?
        (if plane_triple v 1 =? 0 then 0 else plane_triple v 1 + 8)) = true).
  { revert v Hv. apply byte_forall. vm_compute. reflexivity. }
  apply andb_prop in H as [H1 H2]. apply Z.eqb_eq in H1, H2.
  destruct (dualpf_decode v) as [a b]. cbn in H1, H2. by subst.
Qed.

Lemma dualpf_ranges v :
  is_u8 v -> 0 <= pf1_index (dualpf_decode v) <= 7 /\
    (pf2_index (dualpf_decode v) = 0 \/ 9 <= pf2_index (dualpf_decode v) <= 15).
Proof.
  intros Hv. rewrite dualpf_decode_spec by done. cbn [pf1_index pf2_index].
  assert (H : forall k, 0 <= plane_triple v k <= 7).
  { intros k. unfold plane_triple. destruct (Z.testbit _ k), (Z.testbit _ (k + 2)), (Z.testbit _ (k + 4));
      cbn; lia. }
  pose proof (H 0). pose proof (H 1). destruct (Z.eqb_spec (plane_triple v 1) 0); lia.
Qed.

(** ** The priority rule *)

(** Sprite [i] shows over a playfield pixel [pf_color] of priority [prio]. *)
Definition sprite_shows (pf_color prio : Z) (sprite_px : list Z) (i : Z) : bool :=
  truthy (at_ sprite_px i) && ((pf_color =? 0) || (i `div` 2 + prio <? 4)).

Lemma priority_loop_spec n i pf prio px :
  let r := priority_loop n i pf prio px in
  (from_sprite r = true /\ i <= sprite_num r < i + Z.of_nat n /\
   color_index r = at_ px (sprite_num r) /\ sprite_shows pf prio px (sprite_num r) = true /\
   forall j, i <= j < sprite_num r -> sprite_shows pf prio px j = false) \/
  (r = mkPriority pf false 0 /\ forall j, i <= j < i + Z.of_nat n -> sprite_shows pf prio px j = false).
Proof.
  cbv zeta. revert i. induction n as [|n IH]; intros i; cbn [priority_loop].
  - right. split; [done|]. lia.
  - assert (Hstep : forall n', (forall j, i + 1 <= j < n' -> sprite_shows pf prio px j = false) ->
      sprite_shows pf prio px i = false -> forall j, i <= j < n' -> sprite_shows pf prio px j = false).
    { intros n' L Hi j Hj. destruct (decide (j = i)) as [->|]; [done|]. apply L. lia. }
    assert (Hskip : sprite_shows pf prio px i = false ->
      let r := priority_loop n (i + 1) pf prio px in
      (from_sprite r = true /\ i <= sprite_num r < i + Z.of_nat (S n) /\
       color_index r = at_ px (sprite_num r) /\ sprite_shows pf prio px (sprite_num r) = true /\
       forall j, i <= j < sprite_num r -> sprite_shows pf prio px j = false) \/
      (r = mkPriority pf false 0 /\ forall j, i <= j < i + Z.of_nat (S n) -> sprite_shows pf prio px j = false)).
    { intros Hi. cbv zeta. destruct (IH (i + 1)) as [(F & R & C & S & L)|[E L]]; [left|right].
      - split_and!; try done; try lia. by apply Hstep.
      - split; [done|]. replace (i + Z.of_nat (S n)) with (i + 1 + Z.of_nat n) by lia. by apply Hstep. }
    cbv zeta in Hskip.
    destruct (truthy (at_ px i)) eqn:Et; cbn [negb];
      [|apply Hskip; unfold sprite_shows; by rewrite Et].
    destruct ((pf =? 0) || (i `div` 2 + prio <? 4)) eqn:Ep;
      [|apply Hskip; unfold sprite_shows; by rewrite Et, Ep].
    left. cbn [from_sprite sprite_num color_index]. split_and!; [done|lia|lia|done| |intros j Hj; lia].
    unfold sprite_shows. by rewrite Et, Ep.
Qed.
