(* ===== verification/DeniseSprites.v ===== *)
(** * Denise: sprites and collisions

    [denise/sprites/sprites.c], [sprite_attach.c], [sprites_core.c] and
    [collisions.c]: the latches of the eight sprites, the pixel a sprite shows at
    a horizontal position, and the collision register. *)

From S2P Require Import Prelude.
From S2P Require Import SpriteDma.

(** ** Sprites: [sprites.c] *)

(** C: [src/src/chipset/denise/sprites/sprites.h]:17-17 [DENISE_SPRITE_COUNT] *)
Definition DENISE_SPRITE_COUNT := 8.

(** C: [src/src/chipset/denise/sprites/sprites.h]:19-27 [denise_sprite_t] *)
Record denise_sprite := mkDSprite {
  pos : Z; ctl : Z; data : Z; datb : Z; armed : bool; visible : bool;
}.

#[export] Instance eta_denise_sprite : Eta denise_sprite := fun s =>
  mkDSprite (pos s) (ctl s) (data s) (datb s) (armed s) (visible s).

(** C: [src/src/chipset/denise/sprites/sprites.h]:29-33 [denise_sprites_state_t] *)
Record denise_sprites := mkDSprites { sp : list denise_sprite; active_mask : Z; attached_mask : Z }.

#[export] Instance eta_denise_sprites : Eta denise_sprites := fun s =>
  mkDSprites (sp s) (active_mask s) (attached_mask s).

Definition sprite_zero : denise_sprite := mkDSprite 0 0 0 0 false false.

(** C: [src/src/chipset/denise/sprites/sprites.c] [denise_sprites_reset] *)
Definition denise_sprites_reset (_ : denise_sprites) : denise_sprites :=
  mkDSprites (replicate 8 sprite_zero) 0 0.

(** The attach bit: only an odd sprite has one.
    C: [src/src/chipset/denise/sprites/sprites.c]:24-29 [denise_sprite_receive_ctrl] *)
Definition set_attached (i ctl : Z) (s : denise_sprites) : denise_sprites :=
  if has i 1 then
    if has ctl (1 .<< 7) then s <| attached_mask := u16 (attached_mask s .| u16 (1 .<< i)) |>
    else s <| attached_mask := u16 (attached_mask s .& u16 (~~ (u32 (1 .<< i)))) |>
  else s.

(** C: [src/src/chipset/denise/sprites/sprites.c] [denise_sprite_receive_ctrl] *)
Definition denise_sprite_receive_ctrl (i pos ctl : Z) (s : denise_sprites) : denise_sprites :=
  if DENISE_SPRITE_COUNT <=? i then s
  else
    let s := s <| sp := alter (fun c => c <| DeniseSprites.pos := pos |> <| DeniseSprites.ctl := ctl |>
                                          <| armed := true |>) (Z.to_nat i) (sp s) |> in
    set_attached i ctl s.

(** C: [src/src/chipset/denise/sprites/sprites.c] [denise_sprite_receive_data] *)
Definition denise_sprite_receive_data (i data datb : Z) (s : denise_sprites) : denise_sprites :=
  if DENISE_SPRITE_COUNT <=? i then s
  else s <| sp := alter (fun c => c <| DeniseSprites.data := data |> <| DeniseSprites.datb := datb |>)
                    (Z.to_nat i) (sp s) |>.

(** C: [src/src/chipset/denise/sprites/sprites.c] [denise_sprite_hstart] *)
Definition denise_sprite_hstart (c : denise_sprite) : Z :=
  u16 (u32 ((pos c .& 0xff) .<< 1) .| (ctl c .& 1)).

(** C: [src/src/chipset/denise/sprites/sprites.c] [denise_sprite_vstart] *)
Definition denise_sprite_vstart (c : denise_sprite) : Z :=
  u16 (((pos c .>> 8) .& 0xff) .| u32 (((ctl c .>> 2) .& 1) .<< 8)).

(** C: [src/src/chipset/denise/sprites/sprites.c] [denise_sprite_vstop] *)
Definition denise_sprite_vstop (c : denise_sprite) : Z :=
  u16 (((ctl c .>> 8) .& 0xff) .| u32 (((ctl c .>> 1) .& 1) .<< 8)).

(** The latch of sprite [i]. *)
Definition sprite_at (s : denise_sprites) (i : Z) : denise_sprite :=
  default sprite_zero (sp s !! Z.to_nat i).

(** C: [src/src/chipset/denise/sprites/sprites.c] [denise_sprite_pixel] *)
Definition denise_sprite_pixel (s : denise_sprites) (i hpos : Z) : Z :=
  if DENISE_SPRITE_COUNT <=? i then 0
  else
    let ch := sprite_at s i in
    if negb (armed ch) then 0
    else
      let hstart := denise_sprite_hstart ch in
      if (hpos <? hstart) || (hstart + 16 <=? hpos) then 0
      else
        let offset := hpos - hstart in
        let shift := 15 - offset in
        let data_bit := (data ch .>> shift) .& 1 in
        let datb_bit := (datb ch .>> shift) .& 1 in
        u8 ((datb_bit .<< 1) .| data_bit).

(** C: [src/src/chipset/denise/sprites/sprites.c] [denise_sprite_is_attached] *)
Definition denise_sprite_is_attached (s : denise_sprites) (odd_sp : Z) : bool :=
  if has odd_sp 1 then truthy ((attached_mask s .>> odd_sp) .& 1) else false.

(** C: [src/src/chipset/denise/sprites/sprite_attach.c] [denise_sprite_attached_pixel] *)
Definition denise_sprite_attached_pixel (s : denise_sprites) (even_sp hpos : Z) : Z :=
  if (DENISE_SPRITE_COUNT - 1 <=? even_sp) || has even_sp 1 then 0
  else
    let odd_sp := even_sp + 1 in
    let lo := denise_sprite_pixel s even_sp hpos in
    let hi := denise_sprite_pixel s odd_sp hpos in
    if negb (truthy lo) && negb (truthy hi) then 0
    else u8 (16 + ((hi .<< 2) .| lo)).

(** C: [src/src/chipset/denise/sprites/sprites_core.c] [rigel_denise_sprites_reset] *)
Definition rigel_denise_sprites_reset (s : denise_sprites) : denise_sprites := denise_sprites_reset s.

(** ** Collisions: [collisions.c] *)

(** C: [src/src/chipset/denise/sprites/collisions.h]:27-30 [collision_state_t] *)
Record collision_state := mkColl { clxcon : Z; clxdat : Z }.

#[export] Instance eta_collision : Eta collision_state := fun c => mkColl (clxcon c) (clxdat c).

(** C: [src/src/chipset/denise/sprites/collisions.c] [collision_reset] *)
Definition collision_reset (_ : collision_state) : collision_state := mkColl 0 0.

(** [if (b) c->clxdat |= 1 << k]. *)
Definition latch_bit (b : bool) (k : Z) (c : collision_state) : collision_state :=
  if b then c <| clxdat := u16 (clxdat c .| (1 .<< k)) |> else c.

(** The sprites of the enabled pairs.
    C: [src/src/chipset/denise/sprites/collisions.c]:14-21 [collision_check_pixel] *)
Definition enabled_sprites (clxcon : Z) : Z :=
  let en_pairs := u8 (clxcon .& 0x0f) in
  let en_all := 0 in
  let en_all := if has en_pairs 0x01 then en_all .| 0x03 else en_all in
  let en_all := if has en_pairs 0x02 then en_all .| 0x0c else en_all in
  let en_all := if has en_pairs 0x04 then en_all .| 0x30 else en_all in
  if has en_pairs 0x08 then en_all .| 0xc0 else en_all.

(** C: [src/src/chipset/denise/sprites/collisions.c] [collision_check_pixel] *)
Definition collision_check_pixel (sprite_mask : Z) (pf1_active pf2_active : bool) (c : collision_state)
    : collision_state :=
  let active_ss := sprite_mask .& enabled_sprites (clxcon c) in
  let odd := u8 (u8 (active_ss .>> 1) .& 0x55) in
  let even := u8 (active_ss .& 0x55) in
  let c := latch_bit (has odd (u8 (odd - 1))) 0 c in
  let c := latch_bit (has even (u8 (even - 1))) 1 c in
  let c :=
    if has (clxcon c .>> 6) 0x3f then
      let odd_pf := u8 (u8 (sprite_mask .>> 1) .& 0x55) in
      let even_pf := u8 (sprite_mask .& 0x55) in
      let c := latch_bit (truthy odd_pf && pf1_active) 2 c in
      let c := latch_bit (truthy even_pf && pf1_active) 3 c in
      let c := latch_bit (truthy odd_pf && pf2_active) 4 c in
      latch_bit (truthy even_pf && pf2_active) 5 c
    else c in
  latch_bit (pf1_active && pf2_active) 6 c.

(** C: [src/src/chipset/denise/sprites/collisions.c] [collision_read_clxdat] *)
Definition collision_read_clxdat (c : collision_state) : Z * collision_state :=
  (clxdat c, c <| clxdat := 0 |>).

(** C: [src/src/chipset/denise/sprites/collisions.c] [collision_write_clxcon] *)
Definition collision_write_clxcon (val : Z) (c : collision_state) : collision_state :=
  c <| clxcon := val |>.

(** ** What a sprite shows *)

(** The pixel [offset] of a pair of data words. *)
Definition pixel_of (data datb offset : Z) : Z :=
  2 * b2u (Z.testbit datb (15 - offset)) + b2u (Z.testbit data (15 - offset)).

Lemma sprite_pixel_window s i h :
  0 <= i < 8 ->
  denise_sprite_pixel s i h =
    let c := sprite_at s i in let x := denise_sprite_hstart c in
    if armed c && (x <=? h) && (h <? x + 16) then pixel_of (data c) (datb c) (h - x) else 0.
Proof.
  intros Hi. unfold denise_sprite_pixel, DENISE_SPRITE_COUNT. replace (8 <=? i) with false by lia.
  cbv zeta. set (c := sprite_at s i). destruct (armed c); cbn [negb andb]; [|done].
  destruct (Z.leb_spec (denise_sprite_hstart c) h) as [H1|H1].
  - replace (h <? denise_sprite_hstart c) with false by lia. cbn [orb andb].
    destruct (Z.leb_spec (denise_sprite_hstart c + 16) h) as [H2|H2].
    + by replace (h <? denise_sprite_hstart c + 16) with false by lia.
    + replace (h <? denise_sprite_hstart c + 16) with true by lia. unfold pixel_of.
      rewrite !shiftr_land_1 by lia.
      by destruct (Z.testbit (datb c) _), (Z.testbit (data c) _).
  - by replace (h <? denise_sprite_hstart c) with true by lia.
Qed.

Lemma sprite_pixel_range s i h : 0 <= denise_sprite_pixel s i h <= 3.
Proof.
  destruct (decide (i < 8)) as [Hi|Hi].
  - destruct (decide (0 <= i)) as [H0|H0].
    + rewrite sprite_pixel_window by lia. cbv zeta. destruct (_ && _); [|lia]. unfold pixel_of.
      destruct (Z.testbit _ _), (Z.testbit _ _); cbn; lia.
    + unfold denise_sprite_pixel. destruct (DENISE_SPRITE_COUNT <=? i); [lia|]. cbv zeta.
      destruct (armed _); cbn [negb]; [|lia]. destruct (Z.ltb_spec h (denise_sprite_hstart (sprite_at s i))) as [|H1];
        cbn [orb]; [lia|]. destruct (Z.leb_spec (denise_sprite_hstart (sprite_at s i) + 16) h); [lia|].
      rewrite !shiftr_land_1 by lia. by destruct (Z.testbit _ _), (Z.testbit _ _).
  - unfold denise_sprite_pixel, DENISE_SPRITE_COUNT. by replace (8 <=? i) with true by lia.
Qed.

(** An attached pair shows a colour of 17 to 31, or nothing. *)
Lemma attached_pixel_spec s i h :
  0 <= i < 7 -> Z.even i = true ->
  let lo := denise_sprite_pixel s i h in let hi := denise_sprite_pixel s (i + 1) h in
  denise_sprite_attached_pixel s i h = if (lo =? 0) && (hi =? 0) then 0 else 16 + 4 * hi + lo.
Proof.
  intros Hi He. cbv zeta. unfold denise_sprite_attached_pixel, DENISE_SPRITE_COUNT.
  replace (8 - 1 <=? i) with false by lia.
  replace (has i 1) with false; [|unfold has; rewrite land_1, Z.bit0_odd, <- Z.negb_even, He; done].
  cbn [orb]. unfold truthy.
  pose proof (sprite_pixel_range s i h) as Hl. pose proof (sprite_pixel_range s (i + 1) h) as Hh.
  set (lo := denise_sprite_pixel s i h) in *. set (hi := denise_sprite_pixel s (i + 1) h) in *.
  clearbody lo hi. assert (lo = 0 \/ lo = 1 \/ lo = 2 \/ lo = 3) as [->|[->|[->| ->]]] by lia;
  assert (hi = 0 \/ hi = 1 \/ hi = 2 \/ hi = 3) as [->|[->|[->| ->]]] by lia; reflexivity.
Qed.

(** ** The collision register accumulates exactly the collisions of the pixels *)

Section collisions.

Context (clxcon : Z).

(** Sprite [i] is on at a pixel of mask [m], and its pair is enabled. *)
Definition sprite_enabled (i : Z) : bool := Z.testbit clxcon (i `div` 2).

(** Two different sprites of a group, both on and enabled. *)
Definition two_of (group : list Z) (m : Z) : bool :=
  existsb (fun i => existsb (fun j => negb (i =? j) && Z.testbit m i && Z.testbit m j
    && sprite_enabled i && sprite_enabled j) group) group.

Definition any_of (group : list Z) (m : Z) : bool := existsb (Z.testbit m) group.

Definition odd_sprites : list Z := [1; 3; 5; 7].
Definition even_sprites : list Z := [0; 2; 4; 6].

(** Some of the bits 6 to 11 of CLXCON. *)
Definition playfields_enabled : bool := existsb (Z.testbit clxcon) (seqZ 6 6).

(** The collision bit [k] reports at a pixel. *)
Definition collides (m : Z) (pf1 pf2 : bool) (k : Z) : bool :=
  if k =? 0 then two_of odd_sprites m
  else if k =? 1 then two_of even_sprites m
  else if k =? 2 then playfields_enabled && any_of odd_sprites m && pf1
  else if k =? 3 then playfields_enabled && any_of even_sprites m && pf1
  else if k =? 4 then playfields_enabled && any_of odd_sprites m && pf2
  else if k =? 5 then playfields_enabled && any_of even_sprites m && pf2
  else if k =? 6 then pf1 && pf2
  else false.

End collisions.

Lemma latch_bit_spec b k c i :
  is_u16 (clxdat c) -> 0 <= k < 16 -> 0 <= i ->
  Z.testbit (clxdat (latch_bit b k c)) i = Z.testbit (clxdat c) i || (b && (i =? k)) /\
  is_u16 (clxdat (latch_bit b k c)) /\ clxcon (latch_bit b k c) = clxcon c.
Proof.
  intros Hc Hk Hi. unfold latch_bit. destruct b; cbn [andb clxdat clxcon].
  - split_and!; [|cbn; apply wrap_range; lia|done]. cbn. rewrite Z.shiftl_1_l, testbit_wrap, Z.lor_spec by lia.
    destruct (Z.ltb_spec i 16).
    + destruct (Z.eqb_spec i k) as [->|]; [by rewrite Z.pow2_bits_true|by rewrite Z.pow2_bits_false by lia].
    + rewrite (testbit_high 16) by (done || lia). cbn. symmetry. apply Z.eqb_neq. lia.
  - split_and!; [|done|done]. by rewrite orb_false_r.
Qed.

(** The tests of the code, against the groups. *)
Definition more_than_one (x : Z) : bool := has x (u8 (x - 1)).

Lemma two_of_code con m :
  is_u8 m ->
  more_than_one (u8 (u8 ((m .& enabled_sprites con) .>> 1) .& 0x55)) = two_of con odd_sprites m /\
  more_than_one (u8 ((m .& enabled_sprites con) .& 0x55)) = two_of con even_sprites m.
Proof.
  intros Hm.
  assert (He : forall i, 0 <= i < 8 -> sprite_enabled con i = sprite_enabled (con .& 15) i).
  { intros i Hi. unfold sprite_enabled. rewrite Z.land_spec.
    assert (0 <= i `div` 2 < 4) by (split; [apply Z.div_pos|apply Z.div_lt_upper_bound]; lia).
    change 15 with (Z.ones 4). rewrite Z.ones_spec_low by lia. by rewrite andb_true_r. }
  assert (Ht : forall g, Forall (fun i => 0 <= i < 8) g -> two_of con g m = two_of (con .& 15) g m).
  { intros g Hg. unfold two_of. rewrite Forall_forall in Hg.
    apply eq_true_iff_eq. rewrite !existsb_exists.
    split; intros (i & Hi & Hex); exists i; (split; [done|]); apply list_elem_of_In in Hi;
      apply existsb_exists in Hex as (j & Hj & Hx); apply existsb_exists; exists j; (split; [done|]);
      apply list_elem_of_In in Hj; revert Hx; by rewrite !He by auto. }
  rewrite !Ht by (repeat constructor; lia).
  assert (Hs : enabled_sprites con = enabled_sprites (con .& 15)).
  { unfold enabled_sprites. by rewrite <- Z.land_assoc. }
  rewrite Hs. assert (Hr : 0 <= con .& 15 < 16).
  { change 15 with (Z.ones 4). rewrite Z.land_ones by lia. apply Z.mod_pos_bound. lia. }
  clear Ht He Hs. revert Hr. generalize (con .& 15). clear con. intros con Hr.
  assert (H : forallb (fun m =>
    eqb (more_than_one (u8 (u8 ((m .& enabled_sprites con) .>> 1) .& 0x55))) (two_of con odd_sprites m)
    && eqb (more_than_one (u8 ((m .& enabled_sprites con) .& 0x55))) (two_of con even_sprites m))
    (seqZ 0 256) = true).
  { revert con Hr. apply (below_forall 16). vm_compute. reflexivity. }
  pose proof (byte_forall _ H m Hm) as Hb. apply andb_prop in Hb as [H1 H2].
  by apply eqb_prop in H1, H2.
Qed.

Lemma any_of_code m :
  is_u8 m ->
  truthy (u8 (u8 (m .>> 1) .& 0x55)) = any_of odd_sprites m /\
  truthy (u8 (m .& 0x55)) = any_of even_sprites m.
Proof.
  intros Hm.
  assert (H : eqb (truthy (u8 (u8 (m .>> 1) .& 0x55))) (any_of odd_sprites m)
    && eqb (truthy (u8 (m .& 0x55))) (any_of even_sprites m) = true).
  { revert m Hm. apply byte_forall. vm_compute. reflexivity. }
  apply andb_prop in H as [H1 H2]. by apply eqb_prop in H1, H2.
Qed.

Lemma playfields_enabled_code con : has (con .>> 6) 0x3f = playfields_enabled con.
Proof.
  unfold playfields_enabled. change (seqZ 6 6) with [6; 7; 8; 9; 10; 11]. cbn [existsb].
  change 0x3f with (2 ^ 0 .| (2 ^ 1 .| (2 ^ 2 .| (2 ^ 3 .| (2 ^ 4 .| 2 ^ 5))))).
  rewrite !has_lor, !has_pow2, !Z.shiftr_spec by lia.
  change (0 + 6) with 6. change (1 + 6) with 7. change (2 + 6) with 8. change (3 + 6) with 9.
  change (4 + 6) with 10. change (5 + 6) with 11. by rewrite orb_false_r.
Qed.

Lemma collision_check_spec m pf1 pf2 c i :
  is_u8 m -> is_u16 (clxdat c) -> 0 <= i ->
  let c' := collision_check_pixel m pf1 pf2 c in
  Z.testbit (clxdat c') i = Z.testbit (clxdat c) i || collides (clxcon c) m pf1 pf2 i /\
  is_u16 (clxdat c') /\ clxcon c' = clxcon c.
Proof.
  intros Hm Hc Hi. cbv zeta. unfold collision_check_pixel.
  destruct (two_of_code (clxcon c) m Hm) as [To Te]. destruct (any_of_code m Hm) as [Ao Ae].
  unfold more_than_one in To, Te. rewrite To, Te, Ao, Ae.
  assert (Hstep : forall b k d f, is_u16 (clxdat d) -> 0 <= k < 16 -> clxcon d = clxcon c ->
    Z.testbit (clxdat d) i = Z.testbit (clxdat c) i || f ->
    Z.testbit (clxdat (latch_bit b k d)) i = Z.testbit (clxdat c) i || (f || (b && (i =? k))) /\
    is_u16 (clxdat (latch_bit b k d)) /\ clxcon (latch_bit b k d) = clxcon c).
  { intros b k d f Hd Hk Hcon Hbit. destruct (latch_bit_spec b k d i) as (E & R & C); [done..|].
    rewrite E, Hbit, C. by rewrite orb_assoc. }
  destruct (Hstep (two_of (clxcon c) odd_sprites m) 0 c false) as (E1 & R1 & C1);
    [done|lia|done|by rewrite orb_false_r|].
  destruct (Hstep (two_of (clxcon c) even_sprites m) 1 _ _ R1 ltac:(lia) C1 E1) as (E2 & R2 & C2).
  set (c2 := latch_bit _ 1 _) in *. rewrite C2, playfields_enabled_code.
  destruct (playfields_enabled (clxcon c)) eqn:Ep.
  - destruct (Hstep (any_of odd_sprites m && pf1) 2 _ _ R2 ltac:(lia) C2 E2) as (E3 & R3 & C3).
    destruct (Hstep (any_of even_sprites m && pf1) 3 _ _ R3 ltac:(lia) C3 E3) as (E4 & R4 & C4).
    destruct (Hstep (any_of odd_sprites m && pf2) 4 _ _ R4 ltac:(lia) C4 E4) as (E5 & R5 & C5).
    destruct (Hstep (any_of even_sprites m && pf2) 5 _ _ R5 ltac:(lia) C5 E5) as (E6 & R6 & C6).
    destruct (Hstep (pf1 && pf2) 6 _ _ R6 ltac:(lia) C6 E6) as (E7 & R7 & C7).
    split_and!; [|done|done]. rewrite E7. f_equal. unfold collides. rewrite Ep.
    clear. repeat match goal with |- context [i =? ?k] => destruct (Z.eqb_spec i k); [subst i; cbn; btauto|] end.
    btauto.
  - destruct (Hstep (pf1 && pf2) 6 _ _ R2 ltac:(lia) C2 E2) as (E7 & R7 & C7).
    split_and!; [|done|done]. rewrite E7. f_equal. unfold collides. rewrite Ep.
    clear. repeat match goal with |- context [i =? ?k] => destruct (Z.eqb_spec i k); [subst i; cbn; btauto|] end.
    btauto.
Qed.

(** A pixel: the sprites on there, and whether each playfield is. *)
Definition ClxPixel : Type := Z * bool * bool.

Definition check_pixels (c : collision_state) (l : list ClxPixel) : collision_state :=
  foldl (fun c '(m, pf1, pf2) => collision_check_pixel m pf1 pf2 c) c l.

Lemma check_pixels_spec l c i :
  Forall (fun p : ClxPixel => is_u8 p.1.1) l -> is_u16 (clxdat c) -> 0 <= i ->
  Z.testbit (clxdat (check_pixels c l)) i =
    Z.testbit (clxdat c) i || existsb (fun '(m, pf1, pf2) => collides (clxcon c) m pf1 pf2 i) l /\
  is_u16 (clxdat (check_pixels c l)) /\ clxcon (check_pixels c l) = clxcon c.
Proof.
  intros Hl Hc Hi. revert c Hc. induction Hl as [|[[m pf1] pf2] l Hm Hl IH]; intros c Hc.
  - cbn. by rewrite orb_false_r.
  - cbn [check_pixels foldl existsb]. destruct (collision_check_spec m pf1 pf2 c i) as (E & R & C); [done..|].
    destruct (IH _ R) as (E' & R' & C'). unfold check_pixels in *. rewrite E', E, C', C.
    split_and!; [by rewrite orb_assoc|done|done].
Qed.



(** ** The control words give the same lines to Agnus and to Denise *)

(** The control words of a sprite at column [x], lines [v0] to [v1]. *)
Definition sprite_pos_word (x v0 : Z) : Z := ((v0 .& 0xff) .<< 8) .| (x .>> 1).
Definition sprite_ctl_word (x v0 v1 : Z) : Z :=
  ((v1 .& 0xff) .<< 8) .| ((v0 .>> 8) .<< 2) .| ((v1 .>> 8) .<< 1) .| (x .& 1).

(** The position Denise decodes from the control words is the one encoded, and
    the lines are those at which Agnus starts and stops the DMA. *)
Lemma sprite_control_roundtrip x v0 v1 c :
  in_width 9 x -> in_width 9 v0 -> in_width 9 v1 ->
  let p := sprite_pos_word x v0 in let t := sprite_ctl_word x v0 v1 in
  let c' := c <| pos := p |> <| ctl := t |> in
  denise_sprite_hstart c' = x /\ denise_sprite_vstart c' = v0 /\ denise_sprite_vstop c' = v1 /\
  sprite_vstart p t = v0 /\ sprite_vstop t = v1.
Proof.
  intros Hx H0 H1. cbv zeta.
  unfold denise_sprite_hstart, denise_sprite_vstart, denise_sprite_vstop, sprite_vstart, sprite_vstop. cbn [pos ctl].
  assert (hx : u16 (u32 ((sprite_pos_word x v0 .& 255) .<< 1) .| (sprite_ctl_word x v0 v1 .& 1)) = x).
  { unfold sprite_pos_word, sprite_ctl_word. bitwise_deep 16. }
  assert (hs : u16 ((sprite_pos_word x v0 .>> 8) .& 255 .| u32 (((sprite_ctl_word x v0 v1 .>> 2) .& 1) .<< 8)) = v0).
  { unfold sprite_pos_word, sprite_ctl_word. bitwise_deep 16. }
  assert (he : u16 ((sprite_ctl_word x v0 v1 .>> 8) .& 255 .| u32 (((sprite_ctl_word x v0 v1 .>> 1) .& 1) .<< 8)) = v1).
  { unfold sprite_pos_word, sprite_ctl_word. bitwise_deep 16. }
  by split_and!.
Qed.
