(* ===== verification/Denise.v ===== *)
(** * Denise: state, registers and display window

    [denise/denise_state.h], [denise.c], [registers/denise_registers.c],
    [palette], [render/playfield.c] and [video/display_window.c].  The writes of
    [rigel_denise_write_reg] that reach Agnus are in [Registers]. *)

From S2P Require Import Prelude DenisePixel DeniseSprites.

(** ** State *)

(** C: [src/src/chipset/agnus/agnus_config.h]:11-15 [agnus_chip_rev_t] *)
Inductive agnus_chip_rev := AGNUS_REV_OCS | AGNUS_REV_ECS | AGNUS_REV_AGA.

#[export] Instance chip_rev_eq_dec : EqDecision agnus_chip_rev.
Proof. solve_decision. Defined.

Definition is_ecs (r : agnus_chip_rev) : bool := bool_decide (r = AGNUS_REV_ECS).

(** C: [src/src/chipset/denise/denise_state.h]:12-12 [RIGEL_DENISE_MAX_SCANLINE_PIXELS] *)
Definition RIGEL_DENISE_MAX_SCANLINE_PIXELS := 1024.
(** C: [src/src/chipset/denise/denise_state.h]:14-14 [RIGEL_DENISE_MAX_LINES] *)
Definition RIGEL_DENISE_MAX_LINES := 312.

(** C: [src/src/chipset/denise/denise_state.h]:17-26 [rigel_denise_register_file_t] *)
Record denise_regs := mkRegs {
  color : list Z;
  bplcon0 : Z; bplcon1 : Z; bplcon2 : Z; bplcon3 : Z;
  diwstrt : Z; diwstop : Z; diwhigh : Z;
}.

#[export] Instance eta_denise_regs : Eta denise_regs := fun r =>
  mkRegs (color r) (bplcon0 r) (bplcon1 r) (bplcon2 r) (bplcon3 r) (diwstrt r) (diwstop r) (diwhigh r).

(** C: [src/src/chipset/denise/denise_state.h]:28-31 [rigel_denise_palette_state_t] *)
Record denise_palette := mkPalette { rgb32 : list Z; rgb565 : list Z }.

#[export] Instance eta_denise_palette : Eta denise_palette := fun p => mkPalette (rgb32 p) (rgb565 p).

(** C: [src/src/chipset/denise/denise_state.h]:35-42 [rigel_denise_video_state_t] *)
Record denise_video := mkVideo {
  width : Z; height : Z;
  visible_x_start : Z; visible_x_stop : Z;
  visible_y_start : Z; visible_y_stop : Z;
}.

(** C: [src/include/rigel/rigel_config.h]:51-54 [rigel_pixel_format_t] *)
Inductive pixel_format := RIGEL_PIXEL_RGBA8888 | RIGEL_PIXEL_RGB565.

(** The host's framebuffer; [t_pixels] is its base address, if not null.
    C: [src/include/rigel/rigel_config.h]:56-63 [rigel_framebuffer_target_t] *)
Record framebuffer_target := mkTarget {
  t_pixels : option Z; t_width : Z; t_height : Z; t_pitch : Z;
  t_format : pixel_format; t_little_endian : bool;
}.

(** C: [src/src/chipset/denise/denise_state.h]:44-86 [rigel_denise_output_state_t] *)
Record denise_output := mkOutput {
  frame_counter : Z;
  beam_hpos : Z; beam_vpos : Z;
  current_scanline : Z; current_pixel : Z; scanline_width : Z;
  last_rgb : Z;
  scanline_rgba : list Z; scanline_rgb565 : list Z;
  frame_rgba : list (list (list Z)); frame_rgb565 : list (list (list Z));
  front_idx : Z;
  visible_scanline : bool; scanline_dirty : bool; frame_dirty : bool;
  beam_lof : Z; beam_lof_toggle : Z;
  plane_words : list (list Z);
  plane_word_count : Z;
  line_bplcon0 : Z; line_bplcon1 : Z; line_bplcon2 : Z; line_bplcon_valid : bool;
  ddfstrt_lores : Z;
  pending_flags : Z; pending_dirty : list Z;
  completed_flags : Z; completed_dirty : list Z;
  pending_full_redraw : bool; completed_full_redraw : bool;
  write_target : option framebuffer_target;
}.

#[export] Instance eta_denise_output : Eta denise_output := fun o =>
  mkOutput (frame_counter o) (beam_hpos o) (beam_vpos o) (current_scanline o) (current_pixel o)
    (scanline_width o) (last_rgb o) (scanline_rgba o) (scanline_rgb565 o) (frame_rgba o) (frame_rgb565 o)
    (front_idx o) (visible_scanline o) (scanline_dirty o) (frame_dirty o) (beam_lof o) (beam_lof_toggle o)
    (plane_words o) (plane_word_count o) (line_bplcon0 o) (line_bplcon1 o) (line_bplcon2 o)
    (line_bplcon_valid o) (ddfstrt_lores o) (pending_flags o) (pending_dirty o) (completed_flags o)
    (completed_dirty o) (pending_full_redraw o) (completed_full_redraw o) (write_target o).

(** C: [src/include/rigel/rigel_denise_types.h]:63-74 [rigel_denise_debug_state_t] *)
Record denise_debug := mkDebug {
  dbg_frame_counter : Z; dbg_scanline_counter : Z; dbg_active_mode_flags : Z; dbg_last_color_index : Z;
  dbg_beam_hpos : Z; dbg_beam_vpos : Z; dbg_current_scanline : Z; dbg_current_pixel : Z;
  dbg_last_rgb32 : Z; dbg_visible_scanline : bool;
}.

#[export] Instance eta_denise_debug : Eta denise_debug := fun d =>
  mkDebug (dbg_frame_counter d) (dbg_scanline_counter d) (dbg_active_mode_flags d) (dbg_last_color_index d)
    (dbg_beam_hpos d) (dbg_beam_vpos d) (dbg_current_scanline d) (dbg_current_pixel d)
    (dbg_last_rgb32 d) (dbg_visible_scanline d).

(** C: [src/src/chipset/denise/denise_state.h]:88-97 [RigelDenise] *)
Record RigelDenise := mkDenise {
  chip_rev : agnus_chip_rev;
  regs : denise_regs;
  palette : denise_palette;
  sprites : denise_sprites;
  coll : collision_state;
  video : denise_video;
  output : denise_output;
  debug : denise_debug;
}.

#[export] Instance eta_denise : Eta RigelDenise := fun d =>
  mkDenise (chip_rev d) (regs d) (palette d) (sprites d) (coll d) (video d) (output d) (debug d).

(** ** Playfield mode: [playfield.c] *)

(** C: [src/include/rigel/rigel_denise_types.h]:8-8 [rigel_denise_mode_flags] *)
Definition RIGEL_DENISE_MODE_DUALPF := 1.
(** C: [src/include/rigel/rigel_denise_types.h]:9-9 [rigel_denise_mode_flags] *)
Definition RIGEL_DENISE_MODE_HAM := 2.
(** C: [src/include/rigel/rigel_denise_types.h]:10-10 [rigel_denise_mode_flags] *)
Definition RIGEL_DENISE_MODE_EHB := 4.
(** C: [src/include/rigel/rigel_denise_types.h]:11-11 [rigel_denise_mode_flags] *)
Definition RIGEL_DENISE_MODE_HIRES := 8.
(** C: [src/include/rigel/rigel_denise_types.h]:12-12 [rigel_denise_mode_flags] *)
Definition RIGEL_DENISE_MODE_LACE := 16.

(** C: [src/src/chipset/denise/render/playfield.c]:14-33 [rigel_denise_playfield_update_mode] *)
Definition playfield_mode_flags (ecs : bool) (con0 con2 : Z) : Z :=
  let depth := u16 ((con0 .>> 12) .& 0x7) in
  let flags := 0 in
  let flags := if has con0 0x8000 then u16 (flags .| RIGEL_DENISE_MODE_HIRES) else flags in
  let flags := if has con0 0x0400 then u16 (flags .| RIGEL_DENISE_MODE_DUALPF) else flags in
  let flags := if has con0 0x0800 then u16 (flags .| RIGEL_DENISE_MODE_HAM) else flags in
  let flags := if has con0 0x0004 then u16 (flags .| RIGEL_DENISE_MODE_LACE) else flags in
  if (depth =? 6) && negb (has flags (RIGEL_DENISE_MODE_HAM .| RIGEL_DENISE_MODE_DUALPF))
     && (negb ecs || negb (has con2 0x0040))
  then u16 (flags .| RIGEL_DENISE_MODE_EHB) else flags.

(** C: [src/src/chipset/denise/render/playfield.c] [rigel_denise_playfield_update_mode] *)
Definition rigel_denise_playfield_update_mode (d : RigelDenise) : RigelDenise :=
  d <| debug := (debug d) <| dbg_active_mode_flags :=
    playfield_mode_flags (is_ecs (chip_rev d)) (bplcon0 (regs d)) (bplcon2 (regs d)) |> |>.

(** ** Display window: [display_window.c] *)

(** C: [src/src/chipset/denise/video/display_window.c] [rigel_denise_display_window_reset] *)
Definition rigel_denise_display_window_reset : denise_video := mkVideo 320 256 0 320 0 256.

(** The corners of the window: the OCS encoding, or the ECS one with the high
    bits of DIWHIGH.
    C: [src/src/chipset/denise/video/display_window.c]:51-81 [rigel_denise_display_window_update] *)
Definition diw_decode (ocs_diw : bool) (r : denise_regs) : Z * Z * Z * Z :=
  if negb ocs_diw then
    let start_hi := u16 (diwhigh r .& 0x00ff) in
    let stop_hi := u16 ((diwhigh r .>> 8) .& 0x00ff) in
    (u16 ((diwstrt r .& 0x00ff) .| (((start_hi .>> 5) .& 0x1) .<< 8)),
     u16 (((diwstrt r .>> 8) .& 0x00ff) .| ((start_hi .& 0x7) .<< 8)),
     u16 ((diwstop r .& 0x00ff) .| (((stop_hi .>> 5) .& 0x1) .<< 8)),
     u16 (((diwstop r .>> 8) .& 0x00ff) .| ((stop_hi .& 0x7) .<< 8)))
  else
    (u16 (diwstrt r .& 0x00ff), u16 ((diwstrt r .>> 8) .& 0x00ff),
     u16 ((diwstop r .& 0x00ff) + 256), u16 ((diwstop r .>> 8) .& 0x00ff)).

(** The horizontal extent, wrapped and limited.
    C: [src/src/chipset/denise/video/display_window.c]:87-106 [rigel_denise_display_window_update] *)
Definition diw_horizontal (ocs_diw : bool) (r : denise_regs) (hstrt hstop : Z) : Z * Z :=
  let hstop := if hstop <=? hstrt then u16 (hstop + 256) else hstop in
  if negb ocs_diw && (hstrt <? hstop) && (512 <? u16 (hstop - hstrt)) then
    let hstrt := u16 (diwstrt r .& 0x00ff) in
    let hstop := u16 ((diwstop r .& 0x00ff) + 256) in
    (hstrt, if hstop <=? hstrt then u16 (hstop + 256) else hstop)
  else (hstrt, hstop).

(** The vertical extent; [None] is a window outside the raster.
    C: [src/src/chipset/denise/video/display_window.c]:83-129 [rigel_denise_display_window_update] *)
Definition diw_vertical (ocs_diw : bool) (vstrt vstop : Z) : option (Z * Z) :=
  let vstop := if vstop <=? vstrt then u16 (vstop + 256) else vstop in
  let vstop :=
    if ocs_diw && (u16 (vstop - vstrt) <? 128) && (vstrt <? 32) then u16 (vstrt + 256) else vstop in
  if RIGEL_DENISE_MAX_LINES <=? vstrt then None
  else Some (vstrt, if RIGEL_DENISE_MAX_LINES <? vstop then RIGEL_DENISE_MAX_LINES else vstop).

(** C: [src/src/chipset/denise/video/display_window.c]:18-143 [rigel_denise_display_window_update] *)
Definition rigel_denise_display_window_update (d : RigelDenise) : RigelDenise :=
  let r := regs d in
  let v := video d in
  let has_size := negb (width v =? 0) && negb (height v =? 0) in
  if negb (bplcon0 r =? 0) && ((bplcon0 r .>> 12) .& 0x7 =? 0) && has_size then d
  else if (diwstrt r =? 0xffff) && has_size then d
  else
    let ocs_diw := negb (is_ecs (chip_rev d) && negb (diwhigh r =? 0)) in
    let '(hstrt, vstrt, hstop, vstop) := diw_decode ocs_diw r in
    let '(hstrt, hstop) := diw_horizontal ocs_diw r hstrt hstop in
    match diw_vertical ocs_diw vstrt vstop with
    | None => d
    | Some (vstrt, vstop) =>
        let hires := has (bplcon0 r) 0x8000 in
        let hscale := if hires then 2 else 1 in
        let hwidth := if hstrt <? hstop then u16 (hstop - hstrt) else 320 in
        let x_start := u16 (hstrt * hscale) in
        d <| video := mkVideo (u16 (hwidth * hscale))
                        (if vstrt <? vstop then u16 (vstop - vstrt) else 256)
                        x_start (u16 (x_start + hwidth * hscale)) vstrt vstop |>
    end.

(** ** Colours: [color_regs.c], [palette.c] *)

(** C: [src/include/rigel/rigel_custom.h]:71-71 [RIGEL_REG_COLOR00] *)
Definition RIGEL_REG_COLOR00 := 0x180.
(** C: [src/include/rigel/rigel_custom.h]:72-72 [RIGEL_REG_COLOR31] *)
Definition RIGEL_REG_COLOR31 := 0x1be.

Definition is_color_reg (addr : Z) : bool := (RIGEL_REG_COLOR00 <=? addr) && (addr <=? RIGEL_REG_COLOR31).

(** C: [src/src/chipset/denise/palette/palette.c] [rigel_denise_palette_reset] *)
Definition rigel_denise_palette_reset (_ : denise_palette) : denise_palette :=
  mkPalette (replicate 32 0) (replicate 32 0).

(** C: [src/src/chipset/denise/palette/color_regs.c] [rigel_denise_color_regs_read] *)
Definition rigel_denise_color_regs_read (d : RigelDenise) (addr : Z) : Z :=
  if (addr <? RIGEL_REG_COLOR00) || (RIGEL_REG_COLOR31 <? addr) then 0
  else at_ (color (regs d)) ((addr - RIGEL_REG_COLOR00) .>> 1).

(** C: [src/src/chipset/denise/palette/color_regs.c] [rigel_denise_color_regs_write] *)
Definition rigel_denise_color_regs_write (addr value : Z) (d : RigelDenise) : RigelDenise :=
  if (addr <? RIGEL_REG_COLOR00) || (RIGEL_REG_COLOR31 <? addr) then d
  else
    let index := (addr - RIGEL_REG_COLOR00) .>> 1 in
    let i := Z.to_nat index in
    let d := if negb (at_ (color (regs d)) index =? value)
             then d <| output := (output d) <| pending_full_redraw := true |> |> else d in
    d <| regs := (regs d) <| color := <[i := value]> (color (regs d)) |> |>
      <| palette := mkPalette (<[i := rigel_denise_color_expand_12bit value]> (rgb32 (palette d)))
                      (<[i := rigel_denise_color_expand_rgb565 value]> (rgb565 (palette d))) |>
      <| debug := (debug d) <| dbg_last_color_index := u16 index |> |>.

(** ** Registers: [denise_registers.c] *)

(** C: [src/src/chipset/denise/registers/denise_registers.c]:11-11 [RIGEL_REG_CLXDAT] *)
Definition RIGEL_REG_CLXDAT := 0x00e.
(** C: [src/src/chipset/denise/registers/denise_registers.c]:12-12 [RIGEL_REG_CLXCON] *)
Definition RIGEL_REG_CLXCON := 0x098.
(** C: [src/src/chipset/denise/registers/denise_registers.c]:13-13 [RIGEL_REG_SPR0POS] *)
Definition RIGEL_REG_SPR0POS := 0x140.
(** C: [src/src/chipset/denise/registers/denise_registers.c]:14-14 [RIGEL_REG_SPR7DATB] *)
Definition RIGEL_REG_SPR7DATB := 0x17e.
(** C: [src/include/rigel/rigel_custom.h]:32-32 [RIGEL_REG_DENISEID] *)
Definition RIGEL_REG_DENISEID := 0x07c.
(** C: [src/include/rigel/rigel_custom.h]:39-39 [RIGEL_REG_DIWSTRT] *)
Definition RIGEL_REG_DIWSTRT := 0x08e.
(** C: [src/include/rigel/rigel_custom.h]:40-40 [RIGEL_REG_DIWSTOP] *)
Definition RIGEL_REG_DIWSTOP := 0x090.
(** C: [src/include/rigel/rigel_custom.h]:67-67 [RIGEL_REG_BPLCON0] *)
Definition RIGEL_REG_BPLCON0 := 0x100.
(** C: [src/include/rigel/rigel_custom.h]:68-68 [RIGEL_REG_BPLCON1] *)
Definition RIGEL_REG_BPLCON1 := 0x102.
(** C: [src/include/rigel/rigel_custom.h]:69-69 [RIGEL_REG_BPLCON2] *)
Definition RIGEL_REG_BPLCON2 := 0x104.
(** C: [src/include/rigel/rigel_custom.h]:70-70 [RIGEL_REG_BPLCON3] *)
Definition RIGEL_REG_BPLCON3 := 0x106.
(** C: [src/include/rigel/rigel_custom.h]:74-74 [RIGEL_REG_DIWHIGH] *)
Definition RIGEL_REG_DIWHIGH := 0x1e4.

(** The registers a write of which invalidates the frame.
    C: [src/src/chipset/denise/registers/denise_registers.c]:174-180 [rigel_denise_registers_write] *)
Definition is_mode_reg (addr : Z) : bool :=
  (addr =? RIGEL_REG_BPLCON0) || (addr =? RIGEL_REG_BPLCON1) || (addr =? RIGEL_REG_BPLCON2)
  || (addr =? RIGEL_REG_BPLCON3) || (addr =? RIGEL_REG_DIWSTRT) || (addr =? RIGEL_REG_DIWSTOP)
  || (addr =? RIGEL_REG_DIWHIGH).

(** C: [src/src/chipset/denise/registers/denise_registers.c]:23-23 [rigel_denise_registers_owns_reg] *)
Definition is_sprite_reg (addr : Z) : bool :=
  (RIGEL_REG_SPR0POS <=? addr) && (addr <=? RIGEL_REG_SPR7DATB) && negb (has addr 1).

(** C: [src/src/chipset/denise/registers/denise_registers.c] [rigel_denise_registers_owns_reg] *)
Definition rigel_denise_registers_owns_reg (addr : Z) : bool :=
  if is_color_reg addr then true
  else if is_sprite_reg addr then true
  else (addr =? RIGEL_REG_DENISEID) || (addr =? RIGEL_REG_CLXDAT) || (addr =? RIGEL_REG_CLXCON)
       || is_mode_reg addr.

(** C: [src/src/chipset/denise/registers/denise_registers.c] [rigel_denise_registers_read] *)
Definition rigel_denise_registers_read (addr : Z) (d : RigelDenise) : Z * RigelDenise :=
  let r := regs d in
  let ecs := is_ecs (chip_rev d) in
  if is_color_reg addr then (rigel_denise_color_regs_read d addr, d)
  else if addr =? RIGEL_REG_DENISEID then (if ecs then 0x00fc else 0x0000, d)
  else if addr =? RIGEL_REG_CLXDAT then
    let '(v, c) := collision_read_clxdat (coll d) in (v, d <| coll := c |>)
  else if addr =? RIGEL_REG_BPLCON0 then (bplcon0 r, d)
  else if addr =? RIGEL_REG_BPLCON1 then (bplcon1 r, d)
  else if addr =? RIGEL_REG_BPLCON2 then (bplcon2 r, d)
  else if addr =? RIGEL_REG_BPLCON3 then (if ecs then bplcon3 r else 0, d)
  else if addr =? RIGEL_REG_DIWSTRT then (diwstrt r, d)
  else if addr =? RIGEL_REG_DIWSTOP then (diwstop r, d)
  else if addr =? RIGEL_REG_DIWHIGH then (if ecs then diwhigh r else 0, d)
  else (0, d).

(** A CPU or copper write to a sprite register.
    C: [src/src/chipset/denise/registers/denise_registers.c]:101-127 [rigel_denise_registers_write] *)
Definition write_sprite_reg (addr value : Z) (s : denise_sprites) : denise_sprites :=
  let i := (addr - RIGEL_REG_SPR0POS) / 8 in
  let sub := (addr - RIGEL_REG_SPR0POS) `mod` 8 in
  let set f s := s <| sp := alter f (Z.to_nat i) (sp s) |> in
  if DENISE_SPRITE_COUNT <=? i then s
  else if sub =? 0 then set (fun c => c <| pos := value |>) s
  else if sub =? 2 then set_attached i value (set (fun c => c <| ctl := value |> <| armed := true |>) s)
  else if sub =? 4 then set (fun c => c <| data := value |>) s
  else if sub =? 6 then set (fun c => c <| datb := value |>) s
  else s.

(** The registers of the [switch].
    C: [src/src/chipset/denise/registers/denise_registers.c]:137-172 [rigel_denise_registers_write] *)
Definition write_mode_reg (addr value : Z) (d : RigelDenise) : RigelDenise :=
  if addr =? RIGEL_REG_CLXCON then d <| coll := collision_write_clxcon value (coll d) |>
  else if addr =? RIGEL_REG_BPLCON0 then
    rigel_denise_display_window_update
      (rigel_denise_playfield_update_mode (d <| regs := (regs d) <| bplcon0 := value |> |>))
  else if addr =? RIGEL_REG_BPLCON1 then d <| regs := (regs d) <| bplcon1 := value |> |>
  else if addr =? RIGEL_REG_BPLCON2 then
    rigel_denise_playfield_update_mode (d <| regs := (regs d) <| bplcon2 := value |> |>)
  else if addr =? RIGEL_REG_BPLCON3 then
    if is_ecs (chip_rev d) then d <| regs := (regs d) <| bplcon3 := value |> |> else d
  else if addr =? RIGEL_REG_DIWSTRT then
    rigel_denise_display_window_update (d <| regs := (regs d) <| diwstrt := value |> |>)
  else if addr =? RIGEL_REG_DIWSTOP then
    rigel_denise_display_window_update (d <| regs := (regs d) <| diwstop := value |> |>)
  else if addr =? RIGEL_REG_DIWHIGH then
    if is_ecs (chip_rev d)
    then rigel_denise_display_window_update (d <| regs := (regs d) <| diwhigh := value |> |>) else d
  else d.

(** [old->field != new->field || ...] over the six fields of the window.
    C: [src/src/chipset/denise/registers/denise_registers.c]:184-189 [rigel_denise_registers_write] *)
Definition video_changed (a b : denise_video) : bool :=
  negb (width a =? width b) || negb (height a =? height b)
  || negb (visible_x_start a =? visible_x_start b) || negb (visible_x_stop a =? visible_x_stop b)
  || negb (visible_y_start a =? visible_y_start b) || negb (visible_y_stop a =? visible_y_stop b).

(** C: [src/src/chipset/denise/registers/denise_registers.c] [rigel_denise_registers_write] *)
Definition rigel_denise_registers_write (addr value : Z) (d : RigelDenise) : RigelDenise :=
  if is_color_reg addr then rigel_denise_color_regs_write addr value d
  else if is_sprite_reg addr then d <| sprites := write_sprite_reg addr value (sprites d) |>
  else
    let old := video d in
    let d := write_mode_reg addr value d in
    let redraw d := d <| output := (output d) <| pending_full_redraw := true |> |> in
    let d := if is_mode_reg addr then redraw d else d in
    if video_changed old (video d) then redraw d else d.

(** ** Reset: [denise.c], [framebuffer.c] *)

Definition blank_line : list Z := replicate 1024 0.
Definition blank_frames : list (list (list Z)) := replicate 2 (replicate 312 blank_line).

(** The [line_bplcon] latches keep their values; the flag makes them invalid.
    C: [src/src/chipset/denise/output/framebuffer.c] [rigel_denise_framebuffer_reset] *)
Definition rigel_denise_framebuffer_reset (o : denise_output) : denise_output :=
  {| frame_counter := 0; beam_hpos := 0; beam_vpos := 0; current_scanline := 0; current_pixel := 0;
     scanline_width := 0; last_rgb := 0; scanline_rgba := blank_line; scanline_rgb565 := blank_line;
     frame_rgba := blank_frames; frame_rgb565 := blank_frames; front_idx := 0;
     visible_scanline := false; scanline_dirty := false; frame_dirty := true;
     beam_lof := 0; beam_lof_toggle := 0;
     plane_words := replicate 6 (replicate 64 0); plane_word_count := 0;
     line_bplcon0 := line_bplcon0 o; line_bplcon1 := line_bplcon1 o; line_bplcon2 := line_bplcon2 o;
     line_bplcon_valid := false; ddfstrt_lores := 0;
     pending_flags := 0; pending_dirty := replicate 5 0; completed_flags := 0;
     completed_dirty := replicate 5 0; pending_full_redraw := false; completed_full_redraw := false;
     write_target := None |}.

(** The colour registers themselves are not reset.
    C: [src/src/chipset/denise/denise.c] [rigel_denise_reset] *)
Definition rigel_denise_reset (d : RigelDenise) : RigelDenise :=
  {| chip_rev := chip_rev d;
     regs := mkRegs (color (regs d)) 0 0 0 0 0 0 0;
     palette := rigel_denise_palette_reset (palette d);
     sprites := rigel_denise_sprites_reset (sprites d);
     coll := collision_reset (coll d);
     video := rigel_denise_display_window_reset;
     output := rigel_denise_framebuffer_reset (output d);
     debug := mkDebug 0 0 0 0 0 0 0 0 0 false |}.

(** C: [src/src/chipset/denise/denise.c] [rigel_denise_set_chip_rev] *)
Definition rigel_denise_set_chip_rev (rev : agnus_chip_rev) (d : RigelDenise) : RigelDenise :=
  rigel_denise_display_window_update (d <| chip_rev := rev |>).
