(* ===== verification/DeniseFacts.v ===== *)
(** * Denise: the display window and the palette

    The geometry the display window code can produce, and the agreement of the
    palette's two formats. *)

From S2P Require Import Prelude DenisePixel DeniseSprites Denise.

(** ** The window is a rectangle of the raster *)

(** The window is not empty horizontally, its size is the distance of its corners
    (a window that ends above its first line counts as 256 lines), and its lines
    are lines of the raster. *)
Record video_ok (v : denise_video) : Prop := {
  ok_width : 1 <= width v <= 1022;
  ok_x_start : 0 <= visible_x_start v <= 1022;
  ok_x_stop : visible_x_stop v = visible_x_start v + width v;
  ok_y_start : 0 <= visible_y_start v < RIGEL_DENISE_MAX_LINES;
  ok_y_stop : 0 <= visible_y_stop v <= RIGEL_DENISE_MAX_LINES;
  ok_height : height v =
    if visible_y_start v <? visible_y_stop v then visible_y_stop v - visible_y_start v else 256;
}.

Lemma video_ok_reset : video_ok rigel_denise_display_window_reset.
Proof. unfold rigel_denise_display_window_reset, RIGEL_DENISE_MAX_LINES. constructor; cbn; (done || lia). Qed.

Lemma ones_range n x : 0 <= n -> 0 <= x .& Z.ones n < 2 ^ n.
Proof. intros Hn. rewrite Z.land_ones by done. apply Z.mod_pos_bound, Z.pow_pos_nonneg; lia. Qed.

Lemma low_byte_range x : 0 <= u16 (x .& 0x00ff) <= 255.
Proof.
  pose proof (ones_range 8 x ltac:(lia)) as H. change (Z.ones 8) with 255 in H.
  rewrite wrap_small; unfold in_width; lia.
Qed.

Lemma lor_high_range lo hi w n :
  in_width n lo -> in_width w hi -> 0 <= n -> 0 <= w -> in_width (w + n) (lo .| (hi .<< n)).
Proof.
  intros Hl Hh Hn Hw. apply in_width_lor; [lia|eapply in_width_mono; [exact Hl|lia]|].
  by apply (in_width_shiftl _ w); [|lia..].
Qed.

Lemma diw_decode_range ocs r :
  let '(hs, vs, he, ve) := diw_decode ocs r in
  0 <= hs <= 511 /\ 0 <= vs <= 2047 /\ 0 <= he <= 511 /\ 0 <= ve <= 2047 /\
  (ocs = true -> hs <= 255 /\ 256 <= he /\ vs <= 255 /\ ve <= 255).
Proof.
  unfold diw_decode.
  assert (H9 : forall x y, 0 <= u16 ((x .& 255) .| ((y .& 1) .<< 8)) <= 511).
  { intros x y. assert (Hw : in_width (1 + 8) ((x .& 255) .| ((y .& 1) .<< 8))).
    { apply lor_high_range; [apply (ones_range 8); lia|apply (ones_range 1); lia|lia|lia]. }
    rewrite wrap_small by (eapply in_width_mono; [exact Hw|lia]). unfold in_width in Hw. lia. }
  assert (H11 : forall x y, 0 <= u16 ((x .& 255) .| ((y .& 7) .<< 8)) <= 2047).
  { intros x y. assert (Hw : in_width (3 + 8) ((x .& 255) .| ((y .& 7) .<< 8))).
    { apply lor_high_range; [apply (ones_range 8); lia|apply (ones_range 3); lia|lia|lia]. }
    rewrite wrap_small by (eapply in_width_mono; [exact Hw|lia]). unfold in_width in Hw. lia. }
  destruct ocs; cbn [negb].
  - pose proof (low_byte_range (diwstrt r)). pose proof (low_byte_range (diwstrt r .>> 8)).
    pose proof (low_byte_range (diwstop r .>> 8)).
    assert (0 <= diwstop r .& 255 <= 255) by (pose proof (ones_range 8 (diwstop r) ltac:(lia)); change (Z.ones 8) with 255 in *; lia).
    rewrite (wrap_small 16 ((diwstop r .& 255) + 256)) by (unfold in_width; lia). lia.
  - split; [apply H9|split; [apply H11|split; [apply H9|split; [apply H11|discriminate]]]].
Qed.

Lemma diw_horizontal_range ocs r hs he :
  0 <= hs <= 511 -> 0 <= he <= 511 -> (ocs = true -> hs <= 255 /\ 256 <= he) ->
  let '(hs', he') := diw_horizontal ocs r hs he in
  0 <= hs' <= 511 /\ 0 <= he' <= 767 /\ he' - hs' <= 511.
Proof.
  intros Hs He Ho. unfold diw_horizontal.
  set (he1 := if he <=? hs then u16 (he + 256) else he).
  assert (H1 : 0 <= he1 <= 767 /\ he1 - hs <= 511).
  { unfold he1. destruct (Z.leb_spec he hs); [|lia]. rewrite wrap_small by (unfold in_width; lia). lia. }
  destruct (negb ocs && (hs <? he1) && (512 <? u16 (he1 - hs))) eqn:E; [|lia].
  apply andb_prop in E as [E E2]. apply andb_prop in E as [_ E1].
  rewrite wrap_small in E2 by (unfold in_width; lia). lia.
Qed.

Lemma diw_vertical_range ocs vs ve vs' ve' :
  0 <= vs <= 2047 -> 0 <= ve <= 2047 -> diw_vertical ocs vs ve = Some (vs', ve') ->
  (ocs = true -> vs <= 255) ->
  0 <= vs' < 312 /\ 0 <= ve' <= 312 /\ (ocs = true -> vs' < ve').
Proof.
  intros Hs He. unfold diw_vertical, RIGEL_DENISE_MAX_LINES.
  set (ve1 := if ve <=? vs then u16 (ve + 256) else ve).
  set (ve2 := if _ && _ && _ then u16 (vs + 256) else ve1).
  destruct (Z.leb_spec 312 vs) as [|H312]; [discriminate|]. intros [= <- <-] Ho.
  assert (0 <= ve1 <= 2303 /\ (ocs = true -> vs < ve1)) as H1.
  { unfold ve1. destruct (Z.leb_spec ve vs); [|lia]. rewrite wrap_small by (unfold in_width; lia). split; [lia|]. intros E. specialize (Ho E). lia. }
  assert (0 <= ve2 <= 2303 /\ (ocs = true -> vs < ve2)) as H2.
  { unfold ve2. destruct (_ && _ && _); [|exact H1]. rewrite wrap_small by (unfold in_width; lia). split; [lia|intros; lia]. }
  clearbody ve1 ve2. destruct H2 as [H2 H2'].
  destruct (Z.ltb_spec 312 ve2); (split; [lia|split; [lia|]]); intros E; specialize (H2' E); lia.
Qed.

Lemma display_window_update_ok d :
  video_ok (video d) -> video_ok (video (rigel_denise_display_window_update d)).
Proof.
  intros Hok. unfold rigel_denise_display_window_update. cbv zeta.
  destruct (negb _ && _ && _); [done|]. destruct (_ && _); [done|].
  set (ocs := negb _). pose proof (diw_decode_range ocs (regs d)) as Hd.
  destruct (diw_decode ocs (regs d)) as [[[hs vs] he] ve]. destruct Hd as (Hhs & Hvs & Hhe & Hve & Ho).
  pose proof (diw_horizontal_range ocs (regs d) hs he Hhs Hhe ltac:(intros E; destruct (Ho E) as (? & ? & _); done)) as Hh.
  destruct (diw_horizontal ocs (regs d) hs he) as [hs' he']. destruct Hh as (Hhs' & Hhe' & Hw).
  destruct (diw_vertical ocs vs ve) as [[vs' ve']|] eqn:Ev; [|done].
  apply diw_vertical_range in Ev as (Hvs' & Hve' & Hlt); [|done|done|intros E; by destruct (Ho E) as (_ & _ & ? & _)].
  set (hw := if hs' <? he' then u16 (he' - hs') else 320).
  assert (Hhw : 1 <= hw <= 511).
  { unfold hw. destruct (Z.ltb_spec hs' he'); [|lia]. rewrite wrap_small by (unfold in_width; lia). lia. }
  clearbody hw. set (sc := if has _ 0x8000 then 2 else 1).
  assert (Hsc : sc = 1 \/ sc = 2) by (unfold sc; destruct (has _ _); lia). clearbody sc.
  assert (Hx : u16 (hs' * sc) = hs' * sc) by (apply wrap_small; unfold in_width; nia).
  match goal with |- video_ok (video (d <| video := ?v |>)) => change (video_ok v) end.
  constructor; cbn [width height visible_x_start visible_x_stop visible_y_start visible_y_stop];
    unfold RIGEL_DENISE_MAX_LINES; rewrite ?Hx; rewrite ?(wrap_small 16 (hw * sc)) by (unfold in_width; nia);
    try nia.
  - rewrite wrap_small; [reflexivity|unfold in_width; nia].
  - destruct (Z.ltb_spec vs' ve'); [|done]. rewrite wrap_small; [done|unfold in_width; lia].
Qed.

Lemma registers_write_video_ok addr value d :
  video_ok (video d) -> video_ok (video (rigel_denise_registers_write addr value d)).
Proof.
  intros Hok. unfold rigel_denise_registers_write.
  destruct (is_color_reg addr).
  { unfold rigel_denise_color_regs_write. destruct (_ || _); [done|]. cbv zeta.
    by destruct (negb (at_ (color (regs d)) _ =? value)). }
  destruct (is_sprite_reg addr); [done|]. cbv zeta.
  assert (H : video_ok (video (write_mode_reg addr value d))).
  { unfold write_mode_reg. repeat case_match; try done; by apply display_window_update_ok. }
  by destruct (is_mode_reg addr), (video_changed _ _).
Qed.

Lemma registers_read_video addr d :
  video (rigel_denise_registers_read addr d).2 = video d.
Proof. unfold rigel_denise_registers_read. cbv zeta. repeat case_match; try done; by simplify_eq. Qed.

(** ** The palette: 32 colours, the same in both formats *)

Definition palette_ok (p : denise_palette) : Prop :=
  length (rgb32 p) = 32%nat /\ rgb565 p = map rgb32_to_rgb565 (rgb32 p).

Lemma palette_ok_reset p : palette_ok (rigel_denise_palette_reset p).
Proof. by split. Qed.

Lemma color_regs_write_palette addr value d :
  palette_ok (palette d) -> palette_ok (palette (rigel_denise_color_regs_write addr value d)).
Proof.
  intros [Hl He]. unfold rigel_denise_color_regs_write. destruct (_ || _); [done|]. cbv zeta.
  set (i := Z.to_nat _). destruct (negb _);
  (split; [transitivity (length (<[i := rigel_denise_color_expand_12bit value]> (rgb32 (palette d))));
           [reflexivity|by rewrite length_insert]|]);
  (transitivity (<[i := rigel_denise_color_expand_rgb565 value]> (rgb565 (palette d))); [reflexivity|]);
  rewrite He, <- expand_565_coherent; symmetry; exact (list_fmap_insert rgb32_to_rgb565 _ _ _).
Qed.

Lemma display_window_update_frame d :
  let d' := rigel_denise_display_window_update d in
  regs d' = regs d /\ palette d' = palette d /\ sprites d' = sprites d /\ coll d' = coll d /\
  output d' = output d /\ debug d' = debug d /\ chip_rev d' = chip_rev d.
Proof.
  cbv zeta. unfold rigel_denise_display_window_update. cbv zeta.
  destruct (negb _ && _ && _); [done|]. destruct (_ && _); [done|].
  destruct (diw_decode _ _) as [[[??]?]?]. destruct (diw_horizontal _ _ _ _) as [??].
  by destruct (diw_vertical _ _ _) as [[??]|].
Qed.

(** A mode register changes neither the palette nor the sprites, nor anything
    of the output. *)
Lemma write_mode_reg_frame addr value d :
  let d' := write_mode_reg addr value d in
  palette d' = palette d /\ sprites d' = sprites d /\ output d' = output d /\ color (regs d') = color (regs d) /\
  clxdat (coll d') = clxdat (coll d).
Proof.
  cbv zeta. unfold write_mode_reg.
  repeat case_match; try done;
    match goal with |- context [rigel_denise_display_window_update ?x] =>
      destruct (display_window_update_frame x) as (Hr & -> & -> & Hc & -> & _ & _); rewrite Hr, Hc; done end.
Qed.

Lemma registers_write_frame addr value d :
  is_color_reg addr = false ->
  let d' := rigel_denise_registers_write addr value d in
  palette d' = palette d /\ color (regs d') = color (regs d) /\ clxdat (coll d') = clxdat (coll d) /\
  (output d' = output d \/ output d' = (output d) <| pending_full_redraw := true |>).
Proof.
  intros Hc. cbv zeta. unfold rigel_denise_registers_write. rewrite Hc.
  destruct (is_sprite_reg addr); [by split_and!; try left|]. cbv zeta.
  destruct (write_mode_reg_frame addr value d) as (Hp & _ & Ho & Hcol & Hd). revert Hp Ho Hcol Hd.
  set (d1 := write_mode_reg addr value d). destruct d1 as [rv r p s c v o g]. cbn. intros -> -> Hcol Hd.
  destruct (is_mode_reg addr), (video_changed (video d) _); cbn; (split_and!; [done|done|done|]); by (left + right).
Qed.

Lemma registers_write_palette addr value d :
  palette_ok (palette d) -> palette_ok (palette (rigel_denise_registers_write addr value d)).
Proof.
  intros Hp. destruct (is_color_reg addr) eqn:Hc.
  - unfold rigel_denise_registers_write. rewrite Hc. by apply color_regs_write_palette.
  - destruct (registers_write_frame addr value d Hc) as [-> _]. done.
Qed.

(** ** Colour registers *)

Lemma color_index_range addr :
  is_color_reg addr = true -> 0 <= (addr - RIGEL_REG_COLOR00) .>> 1 < 32.
Proof.
  unfold is_color_reg, RIGEL_REG_COLOR00, RIGEL_REG_COLOR31. intros H. apply andb_prop in H as [H1 H2].
  rewrite Z.shiftr_div_pow2 by lia. split; [apply Z.div_pos; lia|apply Z.div_lt_upper_bound; lia].
Qed.

Lemma color_reg_guard addr :
  (addr <? RIGEL_REG_COLOR00) || (RIGEL_REG_COLOR31 <? addr) = negb (is_color_reg addr).
Proof. unfold is_color_reg. rewrite negb_andb. rewrite !Z.ltb_antisym. done. Qed.

(** A colour register.  A write is read back at its address; the picture is
    drawn with the colour whose three channels are the written nibbles doubled,
    in both pixel formats; the other colours keep their values; and the host is
    told to redraw the whole frame exactly when the value has changed. *)
Theorem color_write_reads_back addr value d :
  is_color_reg addr = true -> length (color (regs d)) = 32%nat -> palette_ok (palette d) ->
  let d' := rigel_denise_registers_write addr value d in
  let i := (addr - RIGEL_REG_COLOR00) .>> 1 in
  (rigel_denise_registers_read addr d').1 = value /\
  at_ (rgb32 (palette d')) i =
    (((value .>> 8) .& 15) * 17) * 2 ^ 16 + (((value .>> 4) .& 15) * 17) * 2 ^ 8 + (value .& 15) * 17 /\
  at_ (rgb565 (palette d')) i = rgb32_to_rgb565 (at_ (rgb32 (palette d')) i) /\
  (forall j, 0 <= j -> j <> i ->
    at_ (color (regs d')) j = at_ (color (regs d)) j /\ at_ (rgb32 (palette d')) j = at_ (rgb32 (palette d)) j /\
    at_ (rgb565 (palette d')) j = at_ (rgb565 (palette d)) j) /\
  pending_full_redraw (output d') =
    pending_full_redraw (output d) || negb (at_ (color (regs d)) i =? value).
Proof.
  intros Hc Hl [Hp He]. cbv zeta. unfold rigel_denise_registers_read, rigel_denise_registers_write.
  rewrite Hc. unfold rigel_denise_color_regs_read. rewrite color_reg_guard, Hc. cbn [negb fst].
  set (i := (addr - RIGEL_REG_COLOR00) .>> 1).
  assert (Hi : 0 <= i < 32) by by apply color_index_range.
  unfold rigel_denise_color_regs_write. rewrite color_reg_guard, Hc. cbv zeta. cbn [negb]. fold i.
  set (d1 := if negb (at_ (color (regs d)) i =? value) then _ else d).
  assert (H1 : regs d1 = regs d /\ palette d1 = palette d /\ pending_full_redraw (output d1) =
    pending_full_redraw (output d) || negb (at_ (color (regs d)) i =? value)).
  { unfold d1. destruct (at_ _ _ =? value); cbn; by rewrite ?orb_false_r, ?orb_true_r. }
  destruct d1 as [rv r p s c v o g]. cbn in H1. destruct H1 as (-> & -> & Ho). cbn. unfold at_ in *.
  assert (Hl5 : length (rgb565 (palette d)) = 32%nat) by (rewrite He, length_map; done).
  rewrite !list_lookup_insert_eq by lia. cbn.
  split_and!; [done|apply expand_12bit_channels|by rewrite expand_565_coherent| |exact Ho].
  intros j Hj Hji. rewrite !list_lookup_insert_ne by lia. done.
Qed.

Lemma color_write_reads_back_witness :
  exists d, (rigel_denise_registers_read 0x182 (rigel_denise_registers_write 0x182 0x0f80 d)).1 = 0x0f80.
Proof.
  set (d := mkDenise AGNUS_REV_OCS (mkRegs (replicate 32 0) 0 0 0 0 0 0 0)
    (rigel_denise_palette_reset (mkPalette [] [])) (mkDSprites [] 0 0) (mkColl 0 0)
    rigel_denise_display_window_reset
    (mkOutput 0 0 0 0 0 0 0 [] [] [] [] 0 false false false 0 0 [] 0 0 0 0 false 0 0 [] 0 [] false false None)
    (mkDebug 0 0 0 0 0 0 0 0 0 false)).
  exists d. destruct (color_write_reads_back 0x182 0x0f80 d) as [H _]; [reflexivity|reflexivity|by split|].
  exact H.
Defined.

(** A reset blackens the palette but keeps the colour registers: until they are
    written again, they read back as colours that are not shown. *)
Lemma reset_forgets_palette d i :
  0 <= i < 32 ->
  at_ (color (regs (rigel_denise_reset d))) i = at_ (color (regs d)) i /\
  at_ (rgb32 (palette (rigel_denise_reset d))) i = 0.
Proof.
  intros Hi. split; [done|]. unfold at_. cbn [palette rigel_denise_reset rigel_denise_palette_reset rgb32].
  by rewrite lookup_replicate_2 by lia.
Qed.
