(* ===== verification/Framebuffer.v ===== *)
(** * The frame buffers: [denise/output/framebuffer.c], [core/rigel_denise_api.c]

    A line is drawn into the scanline buffer, stored into the back frame when
    the beam leaves it, and copied to the host's own buffer, if it has given
    one; at a frame boundary the two frames change roles.  The host reads the
    front frame.  The copy to the host is an effect, returned as a
    [target_write]. *)

From S2P Require Import Prelude Beam DenisePixel DeniseSprites Denise.

(** C: [src/include/rigel/rigel_denise_types.h]:39-39 [RIGEL_FRAME_INTERLACE_ODD] *)
Definition RIGEL_FRAME_INTERLACE_ODD := 16.
(** C: [src/include/rigel/rigel_denise_types.h]:40-40 [RIGEL_FRAME_INTERLACE_EVEN] *)
Definition RIGEL_FRAME_INTERLACE_EVEN := 32.

Definition bytes_per_pixel (f : pixel_format) : Z :=
  match f with RIGEL_PIXEL_RGB565 => 2 | RIGEL_PIXEL_RGBA8888 => 4 end.

(** A copy of pixels to the host's buffer, at a byte offset; [None] is a pixel
    read outside the scanline. *)
Record target_write := mkWrite {
  tw_base : Z; tw_offset : Z; tw_format : pixel_format; tw_little_endian : bool;
  tw_pixels : list (option Z);
}.

(** C: [src/src/chipset/denise/output/framebuffer.c] [copy_visible_line_to_target] *)
Definition copy_visible_line_to_target (d : RigelDenise) : option target_write :=
  let o := output d in
  let v := video d in
  match write_target o with
  | None => None
  | Some t =>
      let raster_y := beam_vpos o in
      if (raster_y <? visible_y_start v) || (visible_y_stop v <=? raster_y) then None
      else
        let row := u32 (raster_y - visible_y_start v) in
        if t_height t <=? row then None
        else
          let x0 := visible_x_start v in
          let x0 := if visible_x_stop v <? x0 then 0 else x0 in
          let x0 := if 32 <? x0 then u16 (x0 - 32) else 0 in
          let w := if x0 <? visible_x_stop v then u32 (visible_x_stop v - x0) else 0 in
          let w := if RIGEL_DENISE_MAX_SCANLINE_PIXELS <? w then RIGEL_DENISE_MAX_SCANLINE_PIXELS else w in
          let w := if t_width t <? w then t_width t else w in
          let src := match t_format t with
                     | RIGEL_PIXEL_RGB565 => scanline_rgb565 o
                     | RIGEL_PIXEL_RGBA8888 => scanline_rgba o
                     end in
          match t_pixels t with
          | None => None
          | Some base =>
              Some (mkWrite base (u32 (row * t_pitch t)) (t_format t) (t_little_endian t)
                (map (fun k => src !! Z.to_nat (x0 + k)) (seqZ 0 w)))
          end
  end.

(** A pixel format outside the enumeration has no counterpart here; [sizeof] has
    64 bits, so that the products do not wrap.
    C: [src/src/chipset/denise/output/framebuffer.c] [rigel_denise_framebuffer_set_target] *)
Definition rigel_denise_framebuffer_set_target (target : option framebuffer_target) (o : denise_output)
    : denise_output :=
  let o := o <| write_target := None |> in
  match target with
  | None => o
  | Some t =>
      match t_pixels t with
      | None => o
      | Some _ =>
          if (t_width t =? 0) || (t_height t =? 0) || (t_pitch t =? 0) then o
          else if t_pitch t <? t_width t * bytes_per_pixel (t_format t) then o
          else o <| write_target := Some t |>
      end
  end.

(** C: [src/src/chipset/denise/denise.c] [rigel_denise_set_framebuffer_target] *)
Definition rigel_denise_set_framebuffer_target (target : option framebuffer_target) (d : RigelDenise)
    : RigelDenise :=
  d <| output := rigel_denise_framebuffer_set_target target (output d) |>.

(** The finished line goes to the back frame; the fetch buffers are emptied.
    C: [src/src/chipset/denise/output/framebuffer.c]:158-173 [rigel_denise_framebuffer_sync_from_beam] *)
Definition store_line (o : denise_output) : denise_output :=
  let o :=
    if beam_vpos o <? RIGEL_DENISE_MAX_LINES then
      let back_idx := Z.to_nat (u8 (1 .^ front_idx o)) in
      let y := Z.to_nat (beam_vpos o) in
      o <| frame_rgba := alter (fun f => <[y := scanline_rgba o]> f) back_idx (frame_rgba o) |>
        <| frame_rgb565 := alter (fun f => <[y := scanline_rgb565 o]> f) back_idx (frame_rgb565 o) |>
    else o in
  o <| plane_words := replicate 6 (replicate 64 0) |> <| plane_word_count := 0 |> <| line_bplcon_valid := false |>.

(** C: [src/src/chipset/denise/output/framebuffer.c]:177-191 [rigel_denise_framebuffer_sync_from_beam] *)
Definition finish_frame (o : denise_output) : denise_output :=
  let flags :=
    if truthy (beam_lof_toggle o) then
      pending_flags o .| (if truthy (beam_lof o) then RIGEL_FRAME_INTERLACE_ODD else RIGEL_FRAME_INTERLACE_EVEN)
    else pending_flags o in
  o <| completed_flags := flags |> <| completed_dirty := pending_dirty o |>
    <| completed_full_redraw := pending_full_redraw o |>
    <| pending_flags := 0 |> <| pending_dirty := replicate 5 0 |> <| pending_full_redraw := false |>
    <| front_idx := u8 (front_idx o .^ 1) |>.

(** C: [src/src/chipset/denise/output/framebuffer.c]:193-213 [rigel_denise_framebuffer_sync_from_beam] *)
Definition sync_position (scan_width : Z) (frame_changed : bool) (b : beam_state) (o : denise_output)
    : denise_output :=
  let o := o <| frame_counter := frame_count b |> <| beam_hpos := hpos b |> <| beam_vpos := vpos b |>
             <| beam_lof := lof b |> <| beam_lof_toggle := lof_toggle b |> <| frame_dirty := frame_changed |>
             <| visible_scanline := beam_in_visible_area b |> <| scanline_width := scan_width |> in
  if visible_scanline o then
    o <| current_scanline := u16 (vpos b - Beam.visible_y_start b) |>
      <| current_pixel := if scanline_width o <? hpos b then scanline_width o else hpos b |>
  else o <| current_scanline := vpos b |> <| current_pixel := 0 |>.

(** C: [src/src/chipset/denise/output/framebuffer.c] [rigel_denise_framebuffer_sync_from_beam] *)
Definition rigel_denise_framebuffer_sync_from_beam (b : beam_state) (d : RigelDenise)
    : option target_write * RigelDenise :=
  let o := output d in
  let frame_changed := negb (frame_counter o =? frame_count b) in
  let line_changed := frame_changed || negb (beam_vpos o =? vpos b) in
  let write :=
    if line_changed && (beam_vpos o <? RIGEL_DENISE_MAX_LINES) then copy_visible_line_to_target d else None in
  let o := if line_changed then store_line o else o in
  let o := if frame_changed then finish_frame o else o in
  (write, d <| output := sync_position (width (video d)) frame_changed b o |>).

(** ** The host's view: [rigel_denise_api.c] *)

(** C: [src/src/core/rigel_denise_api.c] [rigel_denise_frame_x_bounds] *)
Definition rigel_denise_frame_x_bounds (d : RigelDenise) : Z * Z :=
  let start := visible_x_start (video d) in
  let stop := visible_x_stop (video d) in
  let stop := if RIGEL_DENISE_MAX_SCANLINE_PIXELS <? stop then RIGEL_DENISE_MAX_SCANLINE_PIXELS else stop in
  let start := if stop <? start then 0 else start in
  let start := if 32 <? start then u16 (start - 32) else 0 in
  (start, stop).

(** The public descriptor is the window itself.
    C: [src/src/core/rigel_denise_api.c] [rigel_denise_get_video_desc] *)
Definition rigel_denise_get_video_desc (d : RigelDenise) : denise_video := video d.

(** C: [src/src/core/rigel_denise_api.c] [rigel_denise_get_debug_state] *)
Definition rigel_denise_get_debug_state (d : RigelDenise) : denise_debug := debug d.

(** The place a pixel pointer designates: a line of the scanline buffer or of a
    frame, and a column. *)
Inductive pixel_ref :=
  | scanline_ref
  | frame_ref (f : pixel_format) (frame line column : Z).

(** C: [src/include/rigel/rigel_denise_types.h]:25-33 [rigel_denise_scanline_t] *)
Record denise_scanline := mkScanline {
  sl_frame_counter : Z; sl_y : Z; sl_width : Z; sl_pixels_rgba : pixel_ref;
  sl_last_rgb32 : Z; sl_visible : bool; sl_dirty : bool;
}.

(** C: [src/src/core/rigel_denise_api.c] [rigel_denise_get_current_scanline] *)
Definition rigel_denise_get_current_scanline (d : RigelDenise) : denise_scanline :=
  let o := output d in
  mkScanline (frame_counter o) (current_scanline o) (scanline_width o) scanline_ref (last_rgb o)
    (visible_scanline o) (scanline_dirty o).

(** C: [src/src/core/rigel_denise_api.c] [rigel_get_scanline] *)
Definition rigel_get_scanline (y : Z) (d : RigelDenise) : option denise_scanline :=
  if RIGEL_DENISE_MAX_LINES <=? y then None
  else
    let '(x0, x1) := rigel_denise_frame_x_bounds d in
    Some (mkScanline (frame_counter (output d)) y (u16 (x1 - x0))
      (frame_ref RIGEL_PIXEL_RGBA8888 (front_idx (output d)) y x0) 0
      ((visible_y_start (video d) <=? y) && (y <? visible_y_stop (video d))) false).

(** C: [src/include/rigel/rigel_denise_types.h]:52-61 [rigel_frame_t] *)
Record rigel_frame := mkFrame {
  fr_width : Z; fr_height : Z; fr_pitch : Z; fr_frame_count : Z; fr_format : pixel_format;
  fr_pixels : option pixel_ref; fr_flags : Z; fr_full_redraw : bool; fr_dirty_lines : list Z;
}.

(** The lines shown.
    C: [src/src/core/rigel_denise_api.c]:128-141 [rigel_get_frame] *)
Definition frame_y_bounds (v : denise_video) : Z * Z :=
  let y0 := visible_y_start v in
  let y1 := visible_y_stop v in
  if (u16 (y1 - y0) <? 64) && (y0 <? 64) then (y0, if y1 <? 256 then 256 else y1)
  else (if 64 <? y0 then 44 else y0, if y1 <? 244 then 244 else y1).

(** C: [src/src/core/rigel_denise_api.c] [rigel_get_frame] *)
Definition rigel_get_frame (format : pixel_format) (d : RigelDenise) : rigel_frame :=
  let o := output d in
  let '(x0, x1) := rigel_denise_frame_x_bounds d in
  let '(y0, y1) := frame_y_bounds (video d) in
  if (RIGEL_DENISE_MAX_LINES <=? y0) || (y1 <=? y0) || (x1 <=? x0) then
    mkFrame 0 0 0 (frame_counter o) format None (completed_flags o) (completed_full_redraw o) (completed_dirty o)
  else
    mkFrame (u32 (x1 - x0)) (u32 (y1 - y0)) (RIGEL_DENISE_MAX_SCANLINE_PIXELS * bytes_per_pixel format)
      (frame_counter o) format
      (Some (if y0 <? RIGEL_DENISE_MAX_LINES then frame_ref format (front_idx o) y0 x0
             else frame_ref format (front_idx o) 0 x0))
      (completed_flags o) (completed_full_redraw o) (completed_dirty o).
