(* ===== verification/FramebufferFacts.v ===== *)
(** * The frame buffers: what the host can see and what is written to it

    The rectangle exported to the host lies within the frame; the copy to the
    host's buffer stays within that buffer, and within the scanline unless the
    window extends beyond it; the two frames change roles at the end of a frame
    and nothing else changes the front frame. *)

From S2P Require Import Prelude Beam DenisePixel DeniseSprites Denise DeniseFacts Framebuffer.

Lemma x_bounds_range d :
  video_ok (video d) ->
  let '(x0, x1) := rigel_denise_frame_x_bounds d in 0 <= x0 /\ x0 <= x1 <= 1024 /\ x0 <= 990.
Proof.
  intros [Hw Hx Hs _ _ _]. unfold rigel_denise_frame_x_bounds, RIGEL_DENISE_MAX_SCANLINE_PIXELS. cbv zeta.
  set (stop := if 1024 <? visible_x_stop _ then 1024 else _).
  assert (H1 : 1 <= stop <= 1024) by (unfold stop; destruct (Z.ltb_spec 1024 (visible_x_stop (video d))); lia).
  clearbody stop. set (start := if stop <? _ then 0 else visible_x_start (video d)).
  assert (H2 : 0 <= start <= 1022 /\ start <= stop).
  { unfold start. destruct (Z.ltb_spec stop (visible_x_start (video d))); lia. }
  clearbody start. destruct (Z.ltb_spec 32 start); [|lia]. rewrite wrap_small by (unfold in_width; lia). lia.
Qed.

(** A rectangle of [w] by [h] pixels at a place designated by the API. *)
Definition within_frames (r : pixel_ref) (front w h : Z) : Prop :=
  match r with
  | scanline_ref => True
  | frame_ref _ f y x => f = front /\ 0 <= y /\ y + h <= 312 /\ 0 <= x /\ x + w <= 1024
  end.

(** C32: the host's view of the picture.  Whatever the display window, the
    rectangle [rigel_get_frame] exports lies within the front frame, row by row
    of its pitch, and it is not empty when a pointer is given; the same holds of
    a single line asked for by its number, which exists for the 312 lines of the
    raster only. *)
Theorem frame_view_in_bounds format d y :
  video_ok (video d) -> 0 <= y ->
  let f := rigel_get_frame format d in
  (forall r, fr_pixels f = Some r ->
    within_frames r (front_idx (output d)) (fr_width f) (fr_height f) /\
    0 < fr_width f /\ 0 < fr_height f /\ fr_pitch f = 1024 * bytes_per_pixel format) /\
  (fr_pixels f = None -> fr_width f = 0 /\ fr_height f = 0) /\
  (forall s, rigel_get_scanline y d = Some s ->
    y < 312 /\ within_frames (sl_pixels_rgba s) (front_idx (output d)) (sl_width s) 1) /\
  (rigel_get_scanline y d = None <-> 312 <= y).
Proof.
  intros Hok Hy0. cbv zeta. pose proof (x_bounds_range d Hok) as Hx. destruct Hok as [_ _ _ Hys Hye _].
  unfold rigel_get_frame, rigel_get_scanline, frame_y_bounds, RIGEL_DENISE_MAX_LINES in *.
  destruct (rigel_denise_frame_x_bounds d) as [x0 x1]. cbv zeta.
  set (v := video d) in *. destruct (if _ && _ then _ else _) as [y0 y1] eqn:Ey.
  assert (Hy : 0 <= y0 < 312 /\ y1 <= 312).
  { revert Ey. destruct (_ && _); intros [= <- <-].
    - destruct (Z.ltb_spec (visible_y_stop v) 256); lia.
    - destruct (Z.ltb_spec 64 (visible_y_start v)), (Z.ltb_spec (visible_y_stop v) 244); lia. }
  destruct (Z.leb_spec 312 y0); [lia|]. cbn [orb].
  assert (Hg : forall s : denise_scanline, (if 312 <=? y then None else Some s) = None <-> 312 <= y).
  { intros s. destruct (Z.leb_spec 312 y); split; first [discriminate|done|lia]. }
  assert (Hl : forall s, (if 312 <=? y then None else Some (mkScanline (frame_counter (output d)) y (u16 (x1 - x0))
      (frame_ref RIGEL_PIXEL_RGBA8888 (front_idx (output d)) y x0) 0
      ((visible_y_start v <=? y) && (y <? visible_y_stop v)) false)) = Some s ->
    y < 312 /\ within_frames (sl_pixels_rgba s) (front_idx (output d)) (sl_width s) 1).
  { intros s. destruct (Z.leb_spec 312 y); [discriminate|]. intros [= <-]. cbn.
    rewrite wrap_small by (unfold in_width; lia). lia. }
  destruct (Z.leb_spec y1 y0); cbn [orb]; [by split_and!|].
  destruct (Z.leb_spec x1 x0); [by split_and!|].
  cbn [fr_pixels fr_width fr_height fr_pitch]. rewrite (wrap_small 32 (x1 - x0)), (wrap_small 32 (y1 - y0)) by (unfold in_width; lia).
  replace (y0 <? 312) with true by lia.
  split_and!; [|done|exact Hl|apply Hg]. intros r [= <-]. cbn. split_and!; done || lia.
Qed.

Lemma frame_view_in_bounds_witness :
  let d := rigel_denise_reset (mkDenise AGNUS_REV_ECS (mkRegs [] 0 0 0 0 0 0 0) (mkPalette [] [])
    (mkDSprites [] 0 0) (mkColl 0 0) rigel_denise_display_window_reset
    (mkOutput 0 0 0 0 0 0 0 [] [] [] [] 0 false false false 0 0 [] 0 0 0 0 false 0 0 [] 0 [] false false None)
    (mkDebug 0 0 0 0 0 0 0 0 0 false)) in
  exists r, fr_pixels (rigel_get_frame RIGEL_PIXEL_RGB565 d) = Some r /\
    within_frames r 0 (fr_width (rigel_get_frame RIGEL_PIXEL_RGB565 d)) 256.
Proof.
  intros d. destruct (frame_view_in_bounds RIGEL_PIXEL_RGB565 d 0 video_ok_reset ltac:(lia)) as [H _].
  eexists. split; [reflexivity|]. destruct (H _ eq_refl) as [H1 _]. exact H1.
Defined.

(** ** The copy to the host *)

(** The fields of a framebuffer target are C integers. *)
Definition target_ok (t : framebuffer_target) : Prop :=
  is_u32 (t_width t) /\ is_u32 (t_height t) /\ is_u32 (t_pitch t).

(** C33: the copy of a line to the host's buffer.  For a target accepted by
    [rigel_denise_set_framebuffer_target], a copied line lies within the
    [height * pitch] bytes of the host's buffer (in its own row when the offset
    does not wrap around 32 bits), and if the display window ends within the 1024
    columns of the scanline, every pixel copied is a pixel of the scanline. *)
Theorem host_copy_in_bounds d target w :
  video_ok (video d) -> target_ok target ->
  length (scanline_rgba (output d)) = 1024%nat -> length (scanline_rgb565 (output d)) = 1024%nat ->
  copy_visible_line_to_target (rigel_denise_set_framebuffer_target (Some target) d) = Some w ->
  let size := Z.of_nat (length (tw_pixels w)) * bytes_per_pixel (tw_format w) in
  let row := beam_vpos (output d) - visible_y_start (video d) in
  0 <= tw_offset w /\ tw_offset w + size <= t_height target * t_pitch target /\
  0 <= row < t_height target /\ size <= t_pitch target /\
  (row * t_pitch target < 2 ^ 32 -> tw_offset w = row * t_pitch target) /\
  (visible_x_stop (video d) <= 1024 -> Forall is_Some (tw_pixels w)).
Proof.
  intros [Hw Hx Hs Hys Hye _] (Htw & Hth & Htp) Hl1 Hl2 Hc. cbv zeta. revert Hc.
  unfold rigel_denise_set_framebuffer_target, rigel_denise_framebuffer_set_target, copy_visible_line_to_target,
    RIGEL_DENISE_MAX_LINES in *.
  destruct (t_pixels target) as [base|] eqn:Eb; [|done].
  destruct (_ || _ || _); [done|]. destruct (Z.ltb_spec (t_pitch target) (t_width target * bytes_per_pixel (t_format target)))
    as [|Hpitch]; [done|].
  cbn -[Z.leb Z.ltb]. cbn in Hw, Hx, Hs, Hys, Hye. set (v := video d) in *. set (o := output d) in *.
  destruct (Z.ltb_spec (beam_vpos o) (visible_y_start v)) as [|Hy1]; [done|].
  destruct (Z.leb_spec (visible_y_stop v) (beam_vpos o)) as [|Hy2]; [done|]. cbn -[Z.leb Z.ltb].
  rewrite !(wrap_small 32 (beam_vpos o - visible_y_start v)) by (unfold in_width; lia).
  destruct (Z.leb_spec (t_height target) (beam_vpos o - visible_y_start v)) as [|Hrow]; [done|].
  rewrite Eb. set (x0 := if 32 <? _ then _ else 0). set (n := if t_width target <? _ then _ else _).
  intros [= <-]. cbn [tw_pixels tw_offset tw_format].
  assert (Hn : 0 <= n <= t_width target /\ (n = 0 \/ x0 + n <= visible_x_stop v)).
  { unfold in_width in *. unfold n, RIGEL_DENISE_MAX_SCANLINE_PIXELS.
    destruct (Z.ltb_spec x0 (visible_x_stop v)).
    - assert (0 <= x0 <= 1022) by (unfold x0; destruct (visible_x_stop v <? visible_x_start v);
        destruct (Z.ltb_spec 32 (visible_x_start v)); cbn; rewrite ?wrap_small by (unfold in_width; lia); lia).
      rewrite wrap_small by (unfold in_width; lia).
      destruct (Z.ltb_spec 1024 (visible_x_stop v - x0)).
      + destruct (Z.ltb_spec (t_width target) 1024); lia.
      + destruct (Z.ltb_spec (t_width target) (visible_x_stop v - x0)); lia.
    - change (if 1024 <? 0 then 1024 else 0) with 0. destruct (Z.ltb_spec (t_width target) 0); lia. }
  assert (Hx0 : 0 <= x0).
  { unfold x0. destruct (32 <? _); [|lia]. apply wrap_range. lia. }
  rewrite length_map, length_seqZ, Z2Nat.id by lia. unfold in_width in *.
  set (row := beam_vpos o - visible_y_start v) in *. assert (0 <= row) by (unfold row; lia).
  assert (Hoff : 0 <= u32 (row * t_pitch target) <= row * t_pitch target).
  { unfold wrap. pose proof (Z.mod_pos_bound (row * t_pitch target) (2 ^ 32) ltac:(lia)).
    split; [lia|]. apply Z.mod_le; nia. }
  assert (Hb : 1 <= bytes_per_pixel (t_format target)) by (destruct (t_format target); cbn; lia).
  split_and!; [lia|nia|lia|lia|nia| |].
  - intros Hsmall. apply wrap_small. unfold in_width. nia.
  - intros Hstop. apply Forall_map, Forall_forall. intros k Hk. apply elem_of_seqZ in Hk.
    destruct (t_format target); cbn; apply lookup_lt_is_Some_2; rewrite ?Hl1, ?Hl2; lia.
Qed.

(** A Denise after a reset, for the concrete inputs. *)
Definition blank_denise (rev : agnus_chip_rev) : RigelDenise :=
  mkDenise rev (mkRegs (replicate 32 0) 0 0 0 0 0 0 0) (mkPalette [] [])
    (mkDSprites [] 0 0) (mkColl 0 0) rigel_denise_display_window_reset
    (mkOutput 0 0 0 0 0 0 0 [] [] [] [] 0 false false false 0 0 [] 0 0 0 0 false 0 0 [] 0 [] false false None)
    (mkDebug 0 0 0 0 0 0 0 0 0 false).
Definition denise_at_reset (rev : agnus_chip_rev) : RigelDenise := rigel_denise_reset (blank_denise rev).

Definition sample_target : framebuffer_target := mkTarget (Some 0x1000) 640 256 2560 RIGEL_PIXEL_RGBA8888 true.

Lemma host_copy_in_bounds_witness :
  exists w, copy_visible_line_to_target
    (rigel_denise_set_framebuffer_target (Some sample_target) (denise_at_reset AGNUS_REV_OCS)) = Some w /\
  tw_offset w + Z.of_nat (length (tw_pixels w)) * bytes_per_pixel (tw_format w) <= 256 * 2560.
Proof.
  set (d := denise_at_reset AGNUS_REV_OCS).
  destruct (copy_visible_line_to_target (rigel_denise_set_framebuffer_target (Some sample_target) d)) as [w|] eqn:E;
    [|discriminate E].
  exists w. split; [reflexivity|].
  destruct (host_copy_in_bounds d sample_target w video_ok_reset
    ltac:(unfold target_ok, in_width; cbn; lia) eq_refl eq_refl E) as (_ & H2 & _).
  exact H2.
Defined.

(** The premise on the end of the window is needed: with ECS and a hires window
    that starts and stops at column 0x1ff the copy reads beyond the scanline,
    which [rigel_denise_frame_x_bounds] prevents on the other path. *)
Lemma host_copy_reads_past_scanline :
  let d := rigel_denise_registers_write RIGEL_REG_BPLCON0 0x9000
    (rigel_denise_registers_write RIGEL_REG_DIWHIGH 0x2020
    (rigel_denise_registers_write RIGEL_REG_DIWSTOP 0x00ff
    (rigel_denise_registers_write RIGEL_REG_DIWSTRT 0x00ff (denise_at_reset AGNUS_REV_ECS)))) in
  exists w, copy_visible_line_to_target (rigel_denise_set_framebuffer_target (Some sample_target) d) = Some w /\
    tw_pixels w !! 200%nat = Some None.
Proof. cbv zeta. eexists. split; [vm_compute; reflexivity|reflexivity]. Qed.
