(* ===== verification/Compositor.v ===== *)
(** * The compositor: [denise/render/compositor.c]

    [compose_line] draws a raster line: the playfields from the fetched bitplane
    words, the sprites over them, and the collisions.  Its six arrays of 1024
    entries (the two scanline buffers of the output, and [pf_color], [pf_prio],
    [pf_active] and [spr_active] of its frame) are always indexed by the same
    screen position; here a line is one array of six-field pixels, split into the
    scanline buffers at the end.  Screen positions are below 2^18, so that the
    conversions between [int], [unsigned] and 16 bits do not wrap.  Trace output
    is left out. *)

From S2P Require Import Prelude Beam DenisePixel DeniseSprites Denise Framebuffer.

(** C: [src/include/rigel/rigel_denise_types.h]:36-38 [rigel_frame_flags_t] *)
Definition RIGEL_FRAME_HAM := 1.
(** C: [src/include/rigel/rigel_denise_types.h]:37-37 [rigel_frame_flags_t] *)
Definition RIGEL_FRAME_DUAL_PLAYFIELD := 2.
(** C: [src/include/rigel/rigel_denise_types.h]:38-38 [rigel_frame_flags_t] *)
Definition RIGEL_FRAME_SPRITES_ACTIVE := 4.

(** One position of the six arrays.
    C: [src/src/chipset/denise/render/compositor.c]:104-107 [compose_line] *)
Record line_pixel := mkPixel {
  px_rgba : Z; px_565 : Z;
  pf_color : Z; pf_prio : Z; pf_active : Z; spr_active : Z;
}.

#[export] Instance eta_line_pixel : Eta line_pixel := fun p =>
  mkPixel (px_rgba p) (px_565 p) (pf_color p) (pf_prio p) (pf_active p) (spr_active p).

(** The parameters of a line, decoded from the registers latched for it.
    C: [src/src/chipset/denise/render/compositor.c]:60-101 [compose_line] *)
Record line_env := mkEnv {
  depth : Z;
  is_ham : bool; is_dual : bool; is_hires : bool; is_ehb : bool;
  scroll_pf1 : Z; scroll_pf2 : Z;
  pf1p : Z; pf2p : Z; pf2_over_pf1 : bool;
  hscale : Z; sprite_hscale : Z; ddf0 : Z;
  x_start : Z; x_stop : Z;
}.

(** C: [src/src/chipset/denise/render/compositor.c]:60-101 [compose_line] *)
Definition line_env_of (d : RigelDenise) : line_env :=
  let o := output d in
  let con0 := if line_bplcon_valid o then line_bplcon0 o else bplcon0 (regs d) in
  let con1 := if line_bplcon_valid o then line_bplcon1 o else bplcon1 (regs d) in
  let con2 := if line_bplcon_valid o then line_bplcon2 o else bplcon2 (regs d) in
  let depth := (con0 .>> 12) .& 0x7 in
  let is_ham := has con0 0x0800 in
  let is_dual := has con0 0x0400 in
  let is_hires := has con0 0x8000 in
  let hscale := if is_hires then 2 else 1 in
  let pipeline_lead := if is_hires then 9 else 17 in
  {| depth := depth; is_ham := is_ham; is_dual := is_dual; is_hires := is_hires;
     is_ehb := negb is_ham && negb is_dual && (depth =? 6) && negb (has con2 0x0040);
     scroll_pf1 := con1 .& 0x0f; scroll_pf2 := (con1 .>> 4) .& 0x0f;
     pf1p := con2 .& 0x7; pf2p := (con2 .>> 3) .& 0x7; pf2_over_pf1 := has con2 0x0040;
     hscale := hscale;
     sprite_hscale := if (512 <? width (video d)) || is_hires then 2 else 1;
     ddf0 := (ddfstrt_lores o + pipeline_lead) * hscale;
     x_start := visible_x_start (video d); x_stop := visible_x_stop (video d) |}.

(** A write at a screen position, dropped outside the window or the line.
    C: [src/src/chipset/denise/render/compositor.c]:253-256 [compose_line] *)
Definition put (e : line_env) (x : Z) (f : line_pixel -> line_pixel) (l : list line_pixel) : list line_pixel :=
  if (x <? x_start e) || (x_stop e <=? x) || (RIGEL_DENISE_MAX_SCANLINE_PIXELS <=? x) then l
  else alter f (Z.to_nat x) l.

(** The line before anything is drawn.
    C: [src/src/chipset/denise/render/compositor.c]:228-233 [compose_line] *)
Definition blank_pixel (e : line_env) (pal : denise_palette) : line_pixel :=
  mkPixel (at_ (rgb32 pal) 0) (at_ (rgb565 pal) 0) 0 (u8 (pf1p e)) 0 0.
Definition init_line (e : line_env) (pal : denise_palette) : list line_pixel :=
  replicate 1024 (blank_pixel e pal).

(** [output->plane_words[p][w]]. *)
Definition plane_word (words : list (list Z)) (p w : Z) : Z := at_ (default [] (words !! Z.to_nat p)) w.

(** The sixteen pixels of word [w].
    C: [src/src/chipset/denise/render/compositor.c]:241-246 [compose_line] *)
Definition block_pixels (e : line_env) (words : list (list Z)) (w : Z) : list Z :=
  let block_words := map (fun p => if p <? depth e then plane_word words p w else 0) (seqZ 0 6) in
  planar_to_chunky block_words (depth e).

(** [for (w...) for (px = 0; px < 16; px++)]. *)
Definition for_blocks {A} (count : Z) (body : Z -> Z -> A -> A) (a : A) : A :=
  foldl (fun a w => foldl (fun a px => body w px a) a (seqZ 0 16)) a (seqZ 0 count).

(** ** Hold and modify *)

(** C: [src/src/chipset/denise/render/compositor.c]:247-261 [compose_line] *)
Definition ham_body (e : line_env) (pal : denise_palette) (words : list (list Z)) (w px : Z)
    (s : Z * list line_pixel) : Z * list line_pixel :=
  let screen_x := ddf0 e + w * 16 + px + scroll_pf1 e * hscale e in
  let prev_rgb := ham6_decode_pixel (at_ (block_pixels e words w) px) s.1 (rgb32 pal) in
  (prev_rgb, put e screen_x (fun p => p <| px_rgba := prev_rgb |> <| px_565 := rgb32_to_rgb565 prev_rgb |>
                                        <| pf_color := 0xff |> <| pf_active := 1 |>) s.2).

(** ** Dual playfield *)

(** A pixel of playfield 1: [own] and [other] are its bit and that of the other
    playfield in [pf_active], [wins] whether it has priority.
    C: [src/src/chipset/denise/render/compositor.c]:281-289 [compose_line] *)
Definition dual_put (pal : denise_palette) (own other : Z) (wins : bool) (prio index : Z) (p : line_pixel)
    : line_pixel :=
  let p' :=
    if (pf_active p =? 0) || (has (pf_active p) other && wins) then
      p <| pf_color := index |> <| pf_prio := u8 prio |>
        <| px_rgba := at_ (rgb32 pal) index |> <| px_565 := at_ (rgb565 pal) index |>
    else p in
  p' <| pf_active := u8 (pf_active p .| own) |>.

(** C: [src/src/chipset/denise/render/compositor.c]:272-310 [compose_line] *)
Definition dual_body (e : line_env) (pal : denise_palette) (words : list (list Z)) (w px : Z)
    (l : list line_pixel) : list line_pixel :=
  let dpf := dualpf_decode (at_ (block_pixels e words w) px) in
  let l :=
    if truthy (pf1_index dpf) then
      put e (ddf0 e + w * 16 + px + scroll_pf1 e * hscale e)
        (dual_put pal 1 2 (negb (pf2_over_pf1 e)) (pf1p e) (pf1_index dpf)) l
    else l in
  if truthy (pf2_index dpf) then
    put e (ddf0 e + w * 16 + px + scroll_pf2 e * hscale e)
      (dual_put pal 2 1 (pf2_over_pf1 e) (pf2p e) (pf2_index dpf)) l
  else l.

(** ** Single playfield, with extra half-brite *)

(** C: [src/src/chipset/denise/render/compositor.c]:332-344 [compose_line] *)
Definition normal_put (e : line_env) (pal : denise_palette) (bits : Z) (p : line_pixel) : line_pixel :=
  let ci := if is_ehb e then bits .& 0x3f else bits .& 0x1f in
  let p := p <| pf_color := ci |> <| pf_active := if negb (ci =? 0) then 1 else 0 |> in
  if is_ehb e then
    let color := ehb_resolve_color ci (rgb32 pal) in
    p <| px_rgba := color |> <| px_565 := rgb32_to_rgb565 color |>
  else p <| px_rgba := at_ (rgb32 pal) ci |> <| px_565 := at_ (rgb565 pal) ci |>.

(** Both playfields scrolled alike: block by block.
    C: [src/src/chipset/denise/render/compositor.c]:324-345 [compose_line] *)
Definition normal_body (e : line_env) (pal : denise_palette) (words : list (list Z)) (w px : Z)
    (l : list line_pixel) : list line_pixel :=
  put e (ddf0 e + w * 16 + px + scroll_pf1 e * hscale e) (normal_put e pal (at_ (block_pixels e words w) px)) l.

(** The bits of a screen position when odd and even planes are scrolled apart.
    C: [src/src/chipset/denise/render/compositor.c]:364-380 [compose_line] *)
Definition scrolled_bits (e : line_env) (words : list (list Z)) (span screen_x : Z) : Z :=
  foldl (fun ci p =>
    let plane_scroll := if p .& 1 =? 0 then scroll_pf1 e else scroll_pf2 e in
    let src_x := screen_x - plane_scroll * hscale e - ddf0 e in
    if (src_x <? 0) || (span <=? src_x) then ci
    else
      let widx := src_x / 16 in
      let bit := src_x .& 15 in
      if has (plane_word words p widx .>> (15 - bit)) 1 then u8 (ci .| u8 (u32 (1 .<< p))) else ci)
    0 (seqZ 0 (Z.min (depth e) 6)).

(** The same pixel by pixel.
    C: [src/src/chipset/denise/render/compositor.c]:348-393 [compose_line] *)
Definition scrolled_line (e : line_env) (pal : denise_palette) (words : list (list Z)) (count : Z)
    (l : list line_pixel) : list line_pixel :=
  let span := count * 16 in
  let min_x := ddf0 e in
  let max_x := ddf0 e + span + 15 * hscale e in
  let min_x := if min_x <? x_start e then x_start e else min_x in
  let max_x := if x_stop e <? max_x then x_stop e else max_x in
  let min_x := if min_x <? 0 then 0 else min_x in
  let max_x := if RIGEL_DENISE_MAX_SCANLINE_PIXELS <? max_x then RIGEL_DENISE_MAX_SCANLINE_PIXELS else max_x in
  foldl (fun l x => alter (normal_put e pal (scrolled_bits e words span x)) (Z.to_nat x) l)
    l (seqZ min_x (max_x - min_x)).

(** ** The playfields of a line *)

(** C: [src/src/chipset/denise/render/compositor.c]:235-396 [compose_line] *)
Definition playfield_line (visible : bool) (e : line_env) (pal : denise_palette) (words : list (list Z)) (count : Z)
    (l : list line_pixel) : list line_pixel :=
  if visible && (0 <? depth e) && (depth e <=? 6) && (0 <? count) then
    if is_ham e then (for_blocks count (ham_body e pal words) (at_ (rgb32 pal) 0, l)).2
    else if is_dual e then for_blocks count (dual_body e pal words) l
    else if scroll_pf1 e =? scroll_pf2 e then for_blocks count (normal_body e pal words) l
    else scrolled_line e pal words count l
  else l.

(** ** Sprites *)

(** The lines of a sprite.
    C: [src/src/chipset/denise/render/compositor.c]:418-423 [compose_line] *)
Definition sprite_on_line (c : denise_sprite) (y : Z) : bool :=
  let vstart := denise_sprite_vstart c in
  let vstop := denise_sprite_vstop c in
  let vstop := if vstop <=? vstart then u16 (vstop + 256) else vstop in
  negb ((y <? vstart) || (vstop <=? y)).

(** One position of a sprite's pixel.
    C: [src/src/chipset/denise/render/compositor.c]:477-484 [compose_line] *)
Definition sprite_put (spr pair color : Z) (p : line_pixel) : line_pixel :=
  let p := p <| spr_active := u8 (spr_active p .| u8 (1 .<< spr)) |> in
  if (pf_color p =? 0) || (pair + pf_prio p <? 4) then
    p <| px_rgba := color |> <| px_565 := rgb32_to_rgb565 color |>
  else p.

(** The palette index of a sprite's pixel; 0 is transparent.
    C: [src/src/chipset/denise/render/compositor.c]:431-439 [compose_line] *)
Definition sprite_color (s : denise_sprites) (spr : Z) (attached_even : bool) (amiga_x : Z) : Z :=
  if attached_even then denise_sprite_attached_pixel s spr amiga_x
  else
    let pix := denise_sprite_pixel s spr amiga_x in
    if pix =? 0 then 0 else u32 (16 + spr / 2 * 4 + pix) .& 31.

(** The positions of a pixel increase, so that leaving the loop at the end of
    the line skips the remaining ones.
    C: [src/src/chipset/denise/render/compositor.c]:426-486 [compose_line] *)
Definition sprite_pixel_body (e : line_env) (pal : denise_palette) (s : denise_sprites) (spr : Z)
    (attached_even : bool) (hstart : Z) (l : list line_pixel) (px_idx : Z) : list line_pixel :=
  let amiga_x := u16 (hstart + px_idx) in
  let scan_px := u16 ((hstart + px_idx) * sprite_hscale e) in
  let ci := sprite_color s spr attached_even amiga_x in
  if ci =? 0 then l
  else
    foldl (fun l repeat =>
      let dst_px := u16 (scan_px + repeat) in
      if RIGEL_DENISE_MAX_SCANLINE_PIXELS <=? dst_px then l
      else alter (sprite_put spr (spr / 2) (at_ (rgb32 pal) ci)) (Z.to_nat dst_px) l)
      l (seqZ 0 (sprite_hscale e)).

(** C: [src/src/chipset/denise/render/compositor.c]:404-488 [compose_line] *)
Definition sprite_body (e : line_env) (pal : denise_palette) (s : denise_sprites) (y : Z)
    (l : list line_pixel) (spr : Z) : list line_pixel :=
  let c := sprite_at s spr in
  let is_odd := has spr 1 in
  let attached_odd := is_odd && denise_sprite_is_attached s spr in
  let attached_even := negb is_odd && denise_sprite_is_attached s (spr + 1) in
  if attached_odd then l
  else if negb (armed c) then l
  else if negb (sprite_on_line c y) then l
  else foldl (sprite_pixel_body e pal s spr attached_even (denise_sprite_hstart c)) l (seqZ 0 16).

(** C: [src/src/chipset/denise/render/compositor.c]:398-489 [compose_line] *)
Definition sprite_overlay (e : line_env) (pal : denise_palette) (s : denise_sprites) (y : Z)
    (l : list line_pixel) : list line_pixel :=
  foldl (sprite_body e pal s y) l [7; 6; 5; 4; 3; 2; 1; 0].

(** ** Collisions of the line *)

(** C: [src/src/chipset/denise/render/compositor.c]:493-500 [compose_line] *)
Definition collide_line (e : line_env) (l : list line_pixel) (c : collision_state) : collision_state :=
  if negb (clxcon c =? 0) then
    foldl (fun c cx =>
      match l !! Z.to_nat cx with
      | Some p =>
          if (spr_active p =? 0) && (pf_active p <? 2) then c
          else collision_check_pixel (spr_active p) (has (pf_active p) 1) (has (pf_active p) 2) c
      | None => c
      end) c (seqZ (x_start e) (Z.min (x_stop e) RIGEL_DENISE_MAX_SCANLINE_PIXELS - x_start e))
  else c.

(** ** A line *)

(** [pending_dirty[y / 64] |= 1 << (y % 64)] on a line of the raster.
    C: [src/src/chipset/denise/render/compositor.c]:519-521 [compose_line] *)
Definition mark_dirty (y : Z) (o : denise_output) : denise_output :=
  if y <? RIGEL_DENISE_MAX_LINES then
    o <| pending_dirty := alter (fun m => m .| u64 (1 .<< (y `mod` 64))) (Z.to_nat (y / 64)) (pending_dirty o) |>
  else o.

(** C: [src/src/chipset/denise/render/compositor.c] [clear_scanline_to_border] *)
Definition clear_scanline_to_border (d : RigelDenise) : RigelDenise :=
  let o := output d in
  let o := o <| scanline_rgba := replicate 1024 (at_ (rgb32 (palette d)) 0) |>
             <| scanline_rgb565 := replicate 1024 (at_ (rgb565 (palette d)) 0) |>
             <| scanline_dirty := true |> in
  d <| output := mark_dirty (beam_vpos o) o |>.

(** The pixels of the line.
    C: [src/src/chipset/denise/render/compositor.c]:228-489 [compose_line] *)
Definition line_pixels (d : RigelDenise) : list line_pixel :=
  let e := line_env_of d in
  let o := output d in
  let l := init_line e (palette d) in
  let l := playfield_line (visible_scanline o) e (palette d) (plane_words o) (plane_word_count o) l in
  sprite_overlay e (palette d) (sprites d) (beam_vpos o) l.

(** C: [src/src/chipset/denise/render/compositor.c]:505-516 [compose_line] *)
Definition line_flags (e : line_env) (s : denise_sprites) (flags : Z) : Z :=
  let flags := if is_ham e then flags .| RIGEL_FRAME_HAM else flags in
  let flags := if is_dual e then flags .| RIGEL_FRAME_DUAL_PLAYFIELD else flags in
  if existsb (fun i => armed (sprite_at s i)) (seqZ 0 DENISE_SPRITE_COUNT)
  then flags .| RIGEL_FRAME_SPRITES_ACTIVE else flags.

(** C: [src/src/chipset/denise/render/compositor.c] [compose_line] *)
Definition compose_line (d : RigelDenise) : RigelDenise :=
  let o := output d in
  if scanline_width o =? 0 then d
  else
    let e := line_env_of d in
    let l := line_pixels d in
    let o := o <| scanline_rgba := map px_rgba l |> <| scanline_rgb565 := map px_565 l |>
               <| scanline_dirty := true |>
               <| pending_flags := line_flags e (sprites d) (pending_flags o) |> in
    d <| coll := collide_line e l (coll d) |> <| output := mark_dirty (beam_vpos o) o |>.

(** C: [src/src/chipset/denise/render/compositor.c] [rigel_denise_compositor_tick] *)
Definition rigel_denise_compositor_tick (b : beam_state) (d : RigelDenise) : option target_write * RigelDenise :=
  let o := output d in
  let line_changed := negb (beam_vpos o =? vpos b) || negb (frame_counter o =? frame_count b) in
  let was_visible := visible_scanline o in
  let d := if line_changed && was_visible then compose_line d
           else if line_changed then clear_scanline_to_border d else d in
  let '(w, d) := rigel_denise_framebuffer_sync_from_beam b d in
  let d := if line_changed && negb was_visible && visible_scanline (output d) then compose_line d else d in
  (w, d <| output := (output d) <| last_rgb := at_ (rgb32 (palette d)) (dbg_last_color_index (debug d) .& 31) |> |>).

(** The trace counter of [denise_trace.c] is part of the visible debug state.
    C: [src/src/chipset/denise/denise.c] [rigel_denise_step] *)
Definition rigel_denise_step (b : beam_state) (cycles : Z) (d : RigelDenise) : option target_write * RigelDenise :=
  let '(w, d) := rigel_denise_compositor_tick b d in
  let o := output d in
  let g := (debug d) <| dbg_scanline_counter := u32 (dbg_scanline_counter (debug d) + cycles) |> in
  (w, d <| debug := mkDebug (u32 (frame_counter o)) (dbg_scanline_counter g) (dbg_active_mode_flags g)
             (dbg_last_color_index g) (beam_hpos o) (beam_vpos o) (current_scanline o) (current_pixel o)
             (last_rgb o) (visible_scanline o) |>).
