(* ===== verification/CompositorFacts.v ===== *)
(** * The compositor, pixel by pixel

    What a line shows at each screen position, whatever path of the compositor
    has drawn it: the playfields as a function of the position
    ([playfield_pixel]), and over them the sprites by the priority rule of
    [priority.c]. *)

From S2P Require Import Prelude DenisePixel DeniseSprites Denise DeniseFacts FramebufferFacts Compositor.

(** ** Arrays of pixels *)

Definition no_pixel : line_pixel := mkPixel 0 0 0 0 0 0.
Definition px_at (l : list line_pixel) (x : Z) : line_pixel := default no_pixel (l !! Z.to_nat x).

(** The positions the compositor may write. *)
Definition in_window (e : line_env) (x : Z) : bool := (x_start e <=? x) && (x <? x_stop e) && (x <? 1024).

Lemma alter_length f x (l : list line_pixel) : length l = 1024%nat -> length (alter f x l) = 1024%nat.
Proof. by rewrite length_alter. Qed.

Lemma px_at_alter f y x l :
  length l = 1024%nat -> 0 <= x < 1024 -> 0 <= y ->
  px_at (alter f (Z.to_nat y) l) x = if y =? x then f (px_at l x) else px_at l x.
Proof.
  intros Hl Hx Hy. unfold px_at. destruct (Z.eqb_spec y x) as [->|Hn].
  - rewrite list_lookup_alter_eq. destruct (lookup_lt_is_Some_2 l (Z.to_nat x)) as [p ->]; [lia|done].
  - by rewrite list_lookup_alter_ne by lia.
Qed.

Section window.

Context (e : line_env) (Hstart : 0 <= x_start e).

Lemma put_length x f l : length l = 1024%nat -> length (put e x f l) = 1024%nat.
Proof. unfold put. destruct (_ || _ || _); [done|]. apply alter_length. Qed.

Lemma px_at_put f y x l :
  length l = 1024%nat -> 0 <= x < 1024 ->
  px_at (put e y f l) x = if (y =? x) && in_window e x then f (px_at l x) else px_at l x.
Proof.
  intros Hl Hx. unfold put, in_window, RIGEL_DENISE_MAX_SCANLINE_PIXELS.
  destruct (Z.ltb_spec y (x_start e)) as [H1|H1]; cbn [orb].
  { destruct (Z.eqb_spec y x) as [->|]; [|done]. by replace (x_start e <=? x) with false by lia. }
  destruct (Z.leb_spec (x_stop e) y) as [H2|H2]; cbn [orb].
  { destruct (Z.eqb_spec y x) as [->|]; [|done]. by replace (x <? x_stop e) with false by lia; rewrite andb_false_r. }
  destruct (Z.leb_spec 1024 y) as [H3|H3].
  { destruct (Z.eqb_spec y x) as [->|]; [lia|done]. }
  rewrite px_at_alter by lia. destruct (Z.eqb_spec y x) as [->|]; [|done].
  replace (x_start e <=? x) with true by lia. replace (x <? x_stop e) with true by lia.
  by replace (x <? 1024) with true by lia.
Qed.

End window.

Lemma px_at_init e pal x : 0 <= x < 1024 -> px_at (init_line e pal) x = blank_pixel e pal.
Proof. intros Hx. unfold px_at, init_line. by rewrite lookup_replicate_2 by lia. Qed.

(** ** Blocks of sixteen pixels *)

(** The two loops over the words and their pixels are one loop over pixels. *)
Lemma for_blocks_flat {A} (count : Z) (body : Z -> Z -> A -> A) a :
  0 <= count ->
  for_blocks count body a =
    foldl (fun a i => body (i `div` 16) (i `mod` 16) a) a (seqZ 0 (16 * count)).
Proof.
  intros Hc. unfold for_blocks. revert count Hc. apply natlike_ind; [done|]. intros n Hn IH.
  rewrite <- Z.add_1_r. replace (16 * (n + 1)) with (16 * n + 16) by lia.
  rewrite !seqZ_app, !foldl_app, IH by lia. change (seqZ (0 + n) 1) with [0 + (0 + n)]. cbn [foldl].
  set (a' := foldl _ a (seqZ 0 (16 * n))). clearbody a'.
  assert (Hs : seqZ (0 + 16 * n) 16 = map (fun px => 16 * n + px) (seqZ 0 16)).
  { unfold seqZ. rewrite <- !list_fmap_compose. apply map_ext. intros k. cbn. lia. }
  rewrite Hs, foldl_fmap. replace (0 + (0 + n)) with n by lia.
  assert (Hf : Forall (fun px => 0 <= px < 16) (seqZ 0 16)).
  { apply Forall_forall. intros px Hpx. apply elem_of_seqZ in Hpx. lia. }
  clear IH Hs. revert a'. induction Hf as [|px l Hpx Hl IHl]; intros a'; [done|]. cbn [foldl].
  replace ((16 * n + px) `div` 16) with n by (rewrite Z.add_comm, Z.mul_comm, Z.div_add, Z.div_small; lia).
  replace ((16 * n + px) `mod` 16) with px by (rewrite Z.add_comm, Z.mul_comm, Z.mod_add, Z.mod_small; lia).
  apply IHl.
Qed.

(** A loop over pixels, by its invariant. *)
Lemma foldl_seqZ_inv {A} (P : Z -> A -> Prop) (f : A -> Z -> A) n a :
  0 <= n -> P 0 a -> (forall i a, 0 <= i < n -> P i a -> P (i + 1) (f a i)) ->
  P n (foldl f a (seqZ 0 n)).
Proof.
  intros Hn H0 Hstep. cut (forall m, 0 <= m -> m <= n -> P m (foldl f a (seqZ 0 m))); [intros H; apply H; lia|].
  apply (natlike_ind (fun m => m <= n -> P m (foldl f a (seqZ 0 m)))); [done|].
  intros m Hm IH Hle. rewrite <- Z.add_1_r in *. rewrite seqZ_app, foldl_app by lia.
  change (seqZ (0 + m) 1) with [0 + (0 + m)]. cbn [foldl]. replace (0 + (0 + m)) with m by lia.
  apply Hstep; [lia|]. apply IH. lia.
Qed.

Lemma for_blocks_inv {A} (P : Z -> A -> Prop) (count : Z) (body : Z -> Z -> A -> A) a :
  0 <= count -> P 0 a ->
  (forall i a, 0 <= i < 16 * count -> P i a -> P (i + 1) (body (i `div` 16) (i `mod` 16) a)) ->
  P (16 * count) (for_blocks count body a).
Proof.
  intros Hc H0 Hstep. rewrite for_blocks_flat by done.
  apply (foldl_seqZ_inv P (fun a i => body (i `div` 16) (i `mod` 16) a)); [lia|done..].
Qed.

(** A loop that writes each position of an interval once. *)
Lemma px_at_interval (F : Z -> line_pixel -> line_pixel) l a n x :
  length l = 1024%nat -> 0 <= a -> a + n <= 1024 -> 0 <= x < 1024 ->
  let l' := foldl (fun l x => alter (F x) (Z.to_nat x) l) l (seqZ a n) in
  length l' = 1024%nat /\
  px_at l' x = if (a <=? x) && (x <? a + n) then F x (px_at l x) else px_at l x.
Proof.
  intros Hl Ha Hn Hx. cbv zeta. destruct (decide (0 <= n)) as [Hn0|Hn0].
  - revert n Hn0 Hn. apply (natlike_ind (fun n => a + n <= 1024 ->
      let l' := foldl (fun l x => alter (F x) (Z.to_nat x) l) l (seqZ a n) in
      length l' = 1024%nat /\
      px_at l' x = if (a <=? x) && (x <? a + n) then F x (px_at l x) else px_at l x)).
    + intros _. cbn. split; [done|]. by replace ((a <=? x) && (x <? a + 0)) with false by lia.
    + intros n Hn IH Hle. destruct (IH ltac:(lia)) as [Hl' E]. cbv zeta. rewrite <- Z.add_1_r, seqZ_app by lia.
      change (seqZ (a + n) 1) with [0 + (a + n)]. rewrite foldl_app. cbn [foldl].
      split; [by apply alter_length|]. rewrite px_at_alter by (done || lia). rewrite E.
      replace (0 + (a + n)) with (a + n) by lia. destruct (Z.eqb_spec (a + n) x) as [<-|].
      * replace ((a <=? a + n) && (a + n <? a + n)) with false by lia.
        by replace ((a <=? a + n) && (a + n <? a + (n + 1))) with true by lia.
      * by replace (x <? a + (n + 1)) with (x <? a + n) by lia.
  - assert (seqZ a n = []) as ->.
    { unfold seqZ. by replace (Z.to_nat n) with 0%nat by lia. }
    cbn. split; [done|]. by replace ((a <=? x) && (x <? a + n)) with false by lia.
Qed.

(** ** What the playfields show *)

Section playfields.

Context (e : line_env) (pal : denise_palette) (words : list (list Z)) (count : Z).

(** The pixel [i] of the fetched words. *)
Definition source_bits (i : Z) : Z :=
  if (0 <=? i) && (i <? 16 * count) then at_ (block_pixels e words (i `div` 16)) (i `mod` 16) else 0.

(** The words' pixel shown at screen position [x] by a playfield scrolled by [scroll]. *)
Definition source_of (scroll x : Z) : Z := x - ddf0 e - scroll * hscale e.

(** Bit [p] at position [x]: odd planes follow the first scroll value, even planes
    the second. *)
Definition plane_bit (p x : Z) : bool :=
  let i := source_of (if Z.even p then scroll_pf1 e else scroll_pf2 e) x in
  (0 <=? i) && (i <? 16 * count) && Z.testbit (plane_word words p (i `div` 16)) (15 - i `mod` 16).

Definition screen_bits (x : Z) : Z :=
  foldl (fun v p => v .| (b2u (plane_bit p x) .<< p)) 0 (seqZ 0 (depth e)).

(** The colour HAM holds after [n] pixels. *)
Definition ham_rgb (n : Z) : Z :=
  foldl (fun rgb i => ham6_decode_pixel (source_bits i) rgb (rgb32 pal)) (at_ (rgb32 pal) 0) (seqZ 0 n).

(** Two playfields with the colours [a] and [b], 0 being transparent. *)
Definition dual_pixel (a b : Z) : line_pixel :=
  if (a =? 0) && (b =? 0) then blank_pixel e pal
  else
    let two := negb (b =? 0) && ((a =? 0) || pf2_over_pf1 e) in
    let index := if two then b else a in
    mkPixel (at_ (rgb32 pal) index) (at_ (rgb565 pal) index) index (u8 (if two then pf2p e else pf1p e))
      (b2u (negb (a =? 0)) + 2 * b2u (negb (b =? 0))) 0.

(** The pixel of the playfields at a position of the window. *)
Definition playfield_pixel (x : Z) : line_pixel :=
  if is_ham e then
    let i := source_of (scroll_pf1 e) x in
    if (0 <=? i) && (i <? 16 * count)
    then mkPixel (ham_rgb (i + 1)) (rgb32_to_rgb565 (ham_rgb (i + 1))) 0xff (u8 (pf1p e)) 1 0
    else blank_pixel e pal
  else if is_dual e then
    dual_pixel (pf1_index (dualpf_decode (source_bits (source_of (scroll_pf1 e) x))))
               (pf2_index (dualpf_decode (source_bits (source_of (scroll_pf2 e) x))))
  else normal_put e pal (screen_bits x) (blank_pixel e pal).

(** The whole line: outside the window, and without bitplanes, the background. *)
Definition playfields_at (visible : bool) (x : Z) : line_pixel :=
  if visible && (0 <? depth e) && (depth e <=? 6) && (0 <? count) && in_window e x
  then playfield_pixel x else blank_pixel e pal.

End playfields.

(** *** Bits of the source *)

Lemma has_1 x : has x 1 = Z.testbit x 0.
Proof. apply (has_pow2 x 0). lia. Qed.

Lemma foldl_or_bits (g : Z -> bool) n i :
  0 <= n -> 0 <= i ->
  Z.testbit (foldl (fun v p => v .| (b2u (g p) .<< p)) 0 (seqZ 0 n)) i = (i <? n) && g i.
Proof.
  intros Hn Hi. apply (foldl_seqZ_inv (fun n v => Z.testbit v i = (i <? n) && g i)); [done| |].
  - rewrite Z.testbit_0_l. by replace (i <? 0) with false by lia.
  - intros p v Hp E. rewrite Z.lor_spec, E, Z.shiftl_spec, testbit_b2u by lia.
    destruct (Z.eqb_spec (i - p) 0) as [H|H].
    + replace p with i by lia. replace (i <? i) with false by lia. by replace (i <? i + 1) with true by lia.
    + replace (i <? p + 1) with (i <? p) by lia. by rewrite orb_false_r.
Qed.

Lemma source_bits_range e words count i : is_u8 (source_bits e words count i).
Proof.
  unfold source_bits. destruct (_ && _) eqn:E; [|width]. apply andb_prop in E as [E1 E2].
  assert (0 <= i `mod` 16 < 16) by (apply Z.mod_pos_bound; lia).
  unfold block_pixels. rewrite planar_to_chunky_lookup by done. unfold planar_pixel_at.
  destruct (15 <? _); [width|]. apply planar_index_range.
Qed.

Lemma source_bits_bit e words count i p :
  0 <= depth e <= 6 -> 0 <= p ->
  Z.testbit (source_bits e words count i) p =
    (p <? depth e) && ((0 <=? i) && (i <? 16 * count)
      && Z.testbit (plane_word words p (i `div` 16)) (15 - i `mod` 16)).
Proof.
  intros Hd Hp. unfold source_bits.
  destruct ((0 <=? i) && (i <? 16 * count)) eqn:E; [|by rewrite Z.testbit_0_l, andb_false_r].
  assert (0 <= i `mod` 16 < 16) by (apply Z.mod_pos_bound; lia). unfold block_pixels.
  destruct (planar_bits (map (fun p => if p <? depth e then plane_word words p (i `div` 16) else 0) (seqZ 0 6))
    (depth e) (i `mod` 16) p) as [-> _]; [lia|done|done|].
  replace (Z.min (depth e) 6) with (depth e) by lia.
  destruct (Z.ltb_spec p (depth e)) as [Hlt|]; [|done]. cbn [andb]. f_equal. unfold at_ at 1.
  rewrite list_lookup_fmap, lookup_seqZ_lt by lia. rewrite Z2Nat.id by lia. cbn.
  rewrite Z.add_0_l. by replace (p <? depth e) with true by lia.
Qed.

Lemma screen_bits_bit e words count x p :
  0 <= depth e -> 0 <= p ->
  Z.testbit (screen_bits e words count x) p = (p <? depth e) && plane_bit e words count p x.
Proof. intros Hd Hp. unfold screen_bits. by rewrite (foldl_or_bits (fun p => plane_bit e words count p x)). Qed.

(** Scrolled alike, the planes of a position come from one pixel of the words. *)
Lemma screen_bits_source e words count x :
  0 <= depth e <= 6 -> scroll_pf1 e = scroll_pf2 e ->
  screen_bits e words count x = source_bits e words count (source_of e (scroll_pf1 e) x).
Proof.
  intros Hd Hs. apply Z.bits_inj'. intros p Hp.
  rewrite screen_bits_bit, source_bits_bit by lia. unfold plane_bit. rewrite <- Hs. by destruct (Z.even p).
Qed.

Lemma scrolled_bits_screen e words count x :
  0 <= depth e <= 6 -> scrolled_bits e words (count * 16) x = screen_bits e words count x.
Proof.
  intros Hd. apply Z.bits_inj'. intros i Hi. rewrite screen_bits_bit by lia. unfold scrolled_bits.
  replace (Z.min (depth e) 6) with (depth e) by lia.
  set (f := fun ci p => _).
  cut (in_width 8 (foldl f 0 (seqZ 0 (depth e))) /\
    Z.testbit (foldl f 0 (seqZ 0 (depth e))) i = (i <? depth e) && plane_bit e words count i x); [by intros []|].
  apply (foldl_seqZ_inv (fun n v => in_width 8 v /\ Z.testbit v i = (i <? n) && plane_bit e words count i x)); [lia| |].
  { split; [width|]. rewrite Z.testbit_0_l. by replace (i <? 0) with false by lia. }
  intros p v Hp [Hv E]. unfold f.
  assert (Heven : (p .& 1 =? 0) = Z.even p).
  { rewrite land_1, Z.bit0_odd, <- Z.negb_even. by destruct (Z.even p). }
  rewrite Heven.
  set (src := x - (if Z.even p then scroll_pf1 e else scroll_pf2 e) * hscale e - ddf0 e).
  assert (Hsrc : src = source_of e (if Z.even p then scroll_pf1 e else scroll_pf2 e) x)
    by (unfold src, source_of; lia).
  assert (Hstep : forall b : bool, plane_bit e words count p x = b ->
    Z.testbit v i || (b && (i =? p)) = (i <? p + 1) && plane_bit e words count i x).
  { intros b Hb. rewrite E. destruct (Z.eqb_spec i p) as [->|].
    - rewrite Hb. replace (p <? p) with false by lia. replace (p <? p + 1) with true by lia. by destruct b.
    - rewrite andb_false_r, orb_false_r. by replace (i <? p + 1) with (i <? p) by lia. }
  assert (Hoff : plane_bit e words count p x = false ->
    in_width 8 v /\ Z.testbit v i = (i <? p + 1) && plane_bit e words count i x).
  { intros Hb. split; [done|]. rewrite <- (Hstep false Hb). by rewrite orb_false_r. }
  assert (Hval : plane_bit e words count p x =
    (0 <=? src) && (src <? 16 * count) && Z.testbit (plane_word words p (src `div` 16)) (15 - src `mod` 16)).
  { unfold plane_bit. by rewrite Hsrc. }
  destruct (Z.ltb_spec src 0) as [H1|H1]; cbn [orb].
  { apply Hoff. rewrite Hval. by replace (0 <=? src) with false by lia. }
  destruct (Z.leb_spec (count * 16) src) as [H2|H2].
  { apply Hoff. rewrite Hval. replace (src <? 16 * count) with false by lia. by rewrite andb_false_r. }
  assert (Hm : src .& 15 = src `mod` 16) by (change 15 with (Z.ones 4); by rewrite Z.land_ones by lia).
  assert (0 <= src `mod` 16 < 16) by (apply Z.mod_pos_bound; lia).
  rewrite Hm. rewrite has_1, Z.shiftr_spec by lia. rewrite Z.add_0_l.
  replace (0 <=? src) with true in Hval by lia. replace (src <? 16 * count) with true in Hval by lia. cbn [andb] in Hval.
  destruct (Z.testbit (plane_word words p (src `div` 16)) (15 - src `mod` 16)) eqn:Eb; [|by apply Hoff].
  split; [apply wrap_range; lia|]. rewrite <- (Hstep true Hval). rewrite Z.shiftl_1_l, !testbit_wrap, Z.lor_spec by lia.
  rewrite !testbit_wrap by lia.
  destruct (Z.eqb_spec i p) as [->|].
  - rewrite Z.pow2_bits_true by lia. replace (p <? 8) with true by lia. by replace (p <? 32) with true by lia.
  - rewrite Z.pow2_bits_false by lia. rewrite !andb_false_r, !orb_false_r.
    destruct (Z.ltb_spec i 8); [done|]. by rewrite (testbit_high 8 v) by (done || lia).
Qed.

(** *** The four paths *)

Section paths.

Context (e : line_env) (pal : denise_palette) (words : list (list Z)) (count : Z).
Context (Hpal : palette_ok pal) (Hdepth : 0 <= depth e <= 6) (Hstart : 0 <= x_start e) (Hcount : 0 <= count)
  (Hddf : 0 <= ddf0 e) (Hscale : 1 <= hscale e) (Hs1 : 0 <= scroll_pf1 e <= 15) (Hs2 : 0 <= scroll_pf2 e <= 15).

(** A line of which a loop over source pixels has drawn the positions in [P]. *)
Definition drawn (shown : Z -> line_pixel) (l : list line_pixel) : Prop :=
  length l = 1024%nat /\
  forall x, 0 <= x < 1024 -> px_at l x = if in_window e x then shown x else blank_pixel e pal.

Lemma init_drawn shown : (forall x, shown x = blank_pixel e pal) -> drawn shown (init_line e pal).
Proof.
  intros H. split; [by unfold init_line; rewrite length_replicate|]. intros x Hx. rewrite px_at_init by done.
  rewrite H. by destruct (in_window e x).
Qed.

Lemma drawn_ext f g l : (forall x, f x = g x) -> drawn f l -> drawn g l.
Proof. intros H [Hl Hp]. split; [done|]. intros x Hx. by rewrite Hp, H. Qed.

Lemma drawn_put shown shown' y f l :
  drawn shown l ->
  (forall x, shown' x = if y =? x then f (shown x) else shown x) -> drawn shown' (put e y f l).
Proof.
  intros [Hl Hp] H. split; [by apply put_length|]. intros x Hx. rewrite px_at_put by done.
  rewrite Hp, H by done. by destruct (y =? x), (in_window e x).
Qed.

Lemma div_mod_16 i : i `div` 16 * 16 + i `mod` 16 = i.
Proof. rewrite Z.mul_comm. symmetry. apply Z.div_mod. lia. Qed.

Lemma source_inside i :
  0 <= i < 16 * count -> at_ (block_pixels e words (i `div` 16)) (i `mod` 16) = source_bits e words count i.
Proof.
  intros Hi. unfold source_bits. replace (0 <=? i) with true by lia. by replace (i <? 16 * count) with true by lia.
Qed.

(** Pixels up to [n] of a playfield scrolled by [s] are drawn. *)
Definition reached (s n x : Z) : bool := (0 <=? source_of e s x) && (source_of e s x <? n).

Lemma reached_next s n x :
  0 <= n -> reached s (n + 1) x = if ddf0 e + n + s * hscale e =? x then true else reached s n x.
Proof.
  intros Hn. unfold reached, source_of. destruct (Z.eqb_spec (ddf0 e + n + s * hscale e) x).
  - replace (0 <=? x - ddf0 e - s * hscale e) with true by lia.
    by replace (x - ddf0 e - s * hscale e <? n + 1) with true by lia.
  - destruct (Z.leb_spec 0 (x - ddf0 e - s * hscale e)); [|done]. cbn [andb].
    destruct (Z.ltb_spec (x - ddf0 e - s * hscale e) n), (Z.ltb_spec (x - ddf0 e - s * hscale e) (n + 1)); lia || done.
Qed.

Lemma reached_not s n x : ddf0 e + n + s * hscale e = x -> reached s n x = false.
Proof.
  intros H. unfold reached, source_of. destruct (Z.leb_spec 0 (x - ddf0 e - s * hscale e)); [|done].
  apply Z.ltb_ge. lia.
Qed.

Lemma ham_drawn :
  drawn (fun x => let i := source_of e (scroll_pf1 e) x in
    if (0 <=? i) && (i <? 16 * count)
    then mkPixel (ham_rgb e pal words count (i + 1)) (rgb32_to_rgb565 (ham_rgb e pal words count (i + 1)))
      0xff (u8 (pf1p e)) 1 0
    else blank_pixel e pal)
    (for_blocks count (ham_body e pal words) (at_ (rgb32 pal) 0, init_line e pal)).2.
Proof.
  set (shown n x := if reached (scroll_pf1 e) n x then
    mkPixel (ham_rgb e pal words count (source_of e (scroll_pf1 e) x + 1))
      (rgb32_to_rgb565 (ham_rgb e pal words count (source_of e (scroll_pf1 e) x + 1))) 0xff (u8 (pf1p e)) 1 0
    else blank_pixel e pal).
  apply (for_blocks_inv (fun n s => s.1 = ham_rgb e pal words count n /\ drawn (shown n) s.2)); [done| |].
  - split; [done|]. apply init_drawn. intros x. unfold shown, reached.
    by destruct (Z.leb_spec 0 (source_of e (scroll_pf1 e) x)), (Z.ltb_spec (source_of e (scroll_pf1 e) x) 0); lia || done.
  - intros i [rgb l] Hi [E Hd]. cbn [fst snd] in E, Hd. unfold ham_body. cbn [fst snd]. rewrite source_inside by done.
    assert (Hn : ham6_decode_pixel (source_bits e words count i) rgb (rgb32 pal) = ham_rgb e pal words count (i + 1)).
    { unfold ham_rgb. rewrite seqZ_app by lia. change (seqZ (0 + i) 1) with [0 + (0 + i)]. rewrite foldl_app. cbn [foldl].
      replace (0 + (0 + i)) with i by lia. by rewrite E. }
    rewrite Hn. split; [done|]. replace (ddf0 e + i `div` 16 * 16 + i `mod` 16) with (ddf0 e + i)
      by (pose proof (div_mod_16 i); lia).
    apply (drawn_put (shown i)); [done|]. intros x. unfold shown. rewrite reached_next by lia.
    destruct (Z.eqb_spec (ddf0 e + i + scroll_pf1 e * hscale e) x) as [Hx|]; [|done].
    rewrite reached_not by done. replace (source_of e (scroll_pf1 e) x) with i by (unfold source_of; lia). done.
Qed.

Lemma normal_put_blank_0 : normal_put e pal 0 (blank_pixel e pal) = blank_pixel e pal.
Proof.
  destruct Hpal as [Hl E]. unfold normal_put, blank_pixel. change (0 .& 0x3f) with 0. change (0 .& 0x1f) with 0.
  destruct (is_ehb e); [|done]. unfold ehb_resolve_color. change (has 0 0x20) with false. change (0 .& 0x1f) with 0. cbn.
  f_equal. rewrite E. unfold at_. rewrite list_lookup_fmap.
  destruct (lookup_lt_is_Some_2 (rgb32 pal) (Z.to_nat 0)) as [c ->]; [lia|done].
Qed.

Lemma normal_drawn :
  scroll_pf1 e = scroll_pf2 e ->
  drawn (fun x => normal_put e pal (screen_bits e words count x) (blank_pixel e pal))
    (for_blocks count (normal_body e pal words) (init_line e pal)).
Proof.
  intros Hs. set (shown n x := if reached (scroll_pf1 e) n x then
    normal_put e pal (source_bits e words count (source_of e (scroll_pf1 e) x)) (blank_pixel e pal)
    else blank_pixel e pal).
  apply (drawn_ext (shown (16 * count))).
  { intros x. rewrite screen_bits_source by done. unfold shown, reached, source_bits.
    destruct (_ && _); [done|]. by rewrite normal_put_blank_0. }
  apply (for_blocks_inv (fun n l => drawn (shown n) l)); [done| |].
  - apply init_drawn. intros x. unfold shown, reached.
    by destruct (Z.leb_spec 0 (source_of e (scroll_pf1 e) x)), (Z.ltb_spec (source_of e (scroll_pf1 e) x) 0); lia || done.
  - intros i l Hi Hd. unfold normal_body. rewrite source_inside by done.
    replace (ddf0 e + i `div` 16 * 16 + i `mod` 16) with (ddf0 e + i) by (pose proof (div_mod_16 i); lia).
    apply (drawn_put (shown i)); [done|]. intros x. unfold shown. rewrite reached_next by lia.
    destruct (Z.eqb_spec (ddf0 e + i + scroll_pf1 e * hscale e) x) as [Hx|]; [|done].
    rewrite reached_not by done. by replace (source_of e (scroll_pf1 e) x) with i by (unfold source_of; lia).
Qed.

Lemma screen_bits_outside x :
  x < ddf0 e \/ ddf0 e + 16 * count + 15 * hscale e <= x -> screen_bits e words count x = 0.
Proof.
  intros Hx. apply Z.bits_inj'. intros p Hp. rewrite screen_bits_bit, Z.testbit_0_l by lia.
  unfold plane_bit, source_of. destruct (Z.even p);
  (match goal with |- context [0 <=? ?i] => destruct (Z.leb_spec 0 i), (Z.ltb_spec i (16 * count)) end);
  cbn [andb]; rewrite ?andb_false_r; done || nia.
Qed.

Lemma scrolled_drawn :
  drawn (fun x => normal_put e pal (screen_bits e words count x) (blank_pixel e pal))
    (scrolled_line e pal words count (init_line e pal)).
Proof.
  unfold scrolled_line. cbv zeta. unfold RIGEL_DENISE_MAX_SCANLINE_PIXELS.
  set (m1 := if ddf0 e <? x_start e then x_start e else ddf0 e).
  set (M1 := if x_stop e <? ddf0 e + count * 16 + 15 * hscale e then x_stop e else ddf0 e + count * 16 + 15 * hscale e).
  assert (Hm : (if m1 <? 0 then 0 else m1) = Z.max (ddf0 e) (x_start e)).
  { unfold m1. destruct (Z.ltb_spec (ddf0 e) (x_start e));
      [destruct (Z.ltb_spec (x_start e) 0)|destruct (Z.ltb_spec (ddf0 e) 0)]; lia. }
  assert (HM : (if 1024 <? M1 then 1024 else M1) = Z.min 1024 (Z.min (x_stop e) (ddf0 e + count * 16 + 15 * hscale e))).
  { unfold M1. set (R := ddf0 e + count * 16 + 15 * hscale e). destruct (Z.ltb_spec (x_stop e) R);
      [destruct (Z.ltb_spec 1024 (x_stop e))|destruct (Z.ltb_spec 1024 R)]; lia. }
  rewrite Hm, HM. set (m := Z.max _ _). set (M := Z.min 1024 _).
  assert (Hl0 : length (init_line e pal) = 1024%nat) by (unfold init_line; by rewrite length_replicate).
  split; [by apply (px_at_interval (fun x => normal_put e pal (scrolled_bits e words (count * 16) x)) _ m (M - m) 0); lia|].
  intros x Hx. destruct (px_at_interval (fun x => normal_put e pal (scrolled_bits e words (count * 16) x))
    (init_line e pal) m (M - m) x) as [_ ->]; [done|lia|lia|done|].
  rewrite px_at_init, scrolled_bits_screen by done. unfold in_window.
  destruct ((m <=? x) && (x <? m + (M - m))) eqn:E.
  - by replace ((x_start e <=? x) && (x <? x_stop e) && (x <? 1024)) with true by lia.
  - destruct ((x_start e <=? x) && (x <? x_stop e) && (x <? 1024)) eqn:E2; [|done].
    rewrite screen_bits_outside by lia. by rewrite normal_put_blank_0.
Qed.

(** *** Dual playfield *)

Lemma dual_put_pf1 a b :
  a <> 0 -> dual_put pal 1 2 (negb (pf2_over_pf1 e)) (pf1p e) a (dual_pixel e pal 0 b) = dual_pixel e pal a b.
Proof.
  intros Ha. unfold dual_pixel. replace (a =? 0) with false by lia. cbn [Z.eqb andb negb orb].
  destruct (b =? 0); cbn [negb andb]; [done|]. unfold dual_put. cbn [pf_active].
  change (b2u false + 2 * b2u true) with 2. change (2 =? 0) with false. change (has 2 2) with true.
  cbn [orb andb]. by destruct (pf2_over_pf1 e).
Qed.

Lemma dual_put_pf2 a b :
  b <> 0 -> dual_put pal 2 1 (pf2_over_pf1 e) (pf2p e) b (dual_pixel e pal a 0) = dual_pixel e pal a b.
Proof.
  intros Hb. unfold dual_pixel. replace (b =? 0) with false by lia. cbn [Z.eqb andb negb orb].
  destruct (a =? 0); cbn [negb andb]; [done|]. unfold dual_put. cbn [pf_active].
  change (b2u true + 2 * b2u false) with 1. change (1 =? 0) with false. change (has 1 1) with true.
  cbn [orb andb]. by destruct (pf2_over_pf1 e).
Qed.

(** The two colours of a position after [n] pixels of the words. *)
Definition dual_a (n x : Z) : Z :=
  if reached (scroll_pf1 e) n x
  then pf1_index (dualpf_decode (source_bits e words count (source_of e (scroll_pf1 e) x))) else 0.
Definition dual_b (n x : Z) : Z :=
  if reached (scroll_pf2 e) n x
  then pf2_index (dualpf_decode (source_bits e words count (source_of e (scroll_pf2 e) x))) else 0.

Lemma dual_a_next n x :
  0 <= n -> dual_a (n + 1) x = if ddf0 e + n + scroll_pf1 e * hscale e =? x
    then pf1_index (dualpf_decode (source_bits e words count n)) else dual_a n x.
Proof.
  intros Hn. unfold dual_a. rewrite reached_next by done.
  destruct (Z.eqb_spec (ddf0 e + n + scroll_pf1 e * hscale e) x); [|done].
  by replace (source_of e (scroll_pf1 e) x) with n by (unfold source_of; lia).
Qed.

Lemma dual_b_next n x :
  0 <= n -> dual_b (n + 1) x = if ddf0 e + n + scroll_pf2 e * hscale e =? x
    then pf2_index (dualpf_decode (source_bits e words count n)) else dual_b n x.
Proof.
  intros Hn. unfold dual_b. rewrite reached_next by done.
  destruct (Z.eqb_spec (ddf0 e + n + scroll_pf2 e * hscale e) x); [|done].
  by replace (source_of e (scroll_pf2 e) x) with n by (unfold source_of; lia).
Qed.

Lemma dual_drawn :
  drawn (fun x => dual_pixel e pal
      (pf1_index (dualpf_decode (source_bits e words count (source_of e (scroll_pf1 e) x))))
      (pf2_index (dualpf_decode (source_bits e words count (source_of e (scroll_pf2 e) x)))))
    (for_blocks count (dual_body e pal words) (init_line e pal)).
Proof.
  apply (drawn_ext (fun x => dual_pixel e pal (dual_a (16 * count) x) (dual_b (16 * count) x))).
  { intros x. unfold dual_a, dual_b, reached, source_bits. by repeat destruct (_ && _). }
  apply (for_blocks_inv (fun n l => drawn (fun x => dual_pixel e pal (dual_a n x) (dual_b n x)) l)); [done| |].
  - apply init_drawn. intros x. unfold dual_a, dual_b, reached.
    destruct (Z.leb_spec 0 (source_of e (scroll_pf1 e) x)), (Z.ltb_spec (source_of e (scroll_pf1 e) x) 0),
      (Z.leb_spec 0 (source_of e (scroll_pf2 e) x)), (Z.ltb_spec (source_of e (scroll_pf2 e) x) 0); lia || done.
  - intros i l Hi Hd. unfold dual_body. rewrite source_inside by done.
    replace (ddf0 e + i `div` 16 * 16 + i `mod` 16) with (ddf0 e + i) by (pose proof (div_mod_16 i); lia).
    set (v := dualpf_decode (source_bits e words count i)).
    set (x1 := ddf0 e + i + scroll_pf1 e * hscale e). set (x2 := ddf0 e + i + scroll_pf2 e * hscale e).
    set (l1 := if truthy (pf1_index v) then _ else l). unfold truthy.
    assert (H1 : drawn (fun x => dual_pixel e pal (dual_a (i + 1) x) (dual_b i x)) l1).
    { unfold l1, truthy. destruct (Z.eqb_spec (pf1_index v) 0) as [E|E]; cbn [negb].
      - apply (drawn_ext (fun x => dual_pixel e pal (dual_a i x) (dual_b i x))); [|done].
        intros x. rewrite dual_a_next by lia. fold x1 v. destruct (Z.eqb_spec x1 x) as [Hx|]; [|done].
        rewrite E. unfold dual_a. by rewrite reached_not.
      - apply (drawn_put (fun x => dual_pixel e pal (dual_a i x) (dual_b i x))); [done|].
        intros x. rewrite dual_a_next by lia. fold x1 v. destruct (Z.eqb_spec x1 x) as [Hx|]; [|done].
        unfold dual_a. rewrite reached_not by done. by rewrite dual_put_pf1. }
    clearbody l1. destruct (Z.eqb_spec (pf2_index v) 0) as [E|E]; cbn [negb].
    + apply (drawn_ext (fun x => dual_pixel e pal (dual_a (i + 1) x) (dual_b i x))); [|done].
      intros x. rewrite dual_b_next by lia. fold x2 v. destruct (Z.eqb_spec x2 x) as [Hx|]; [|done].
      rewrite E. unfold dual_b. by rewrite reached_not.
    + apply (drawn_put (fun x => dual_pixel e pal (dual_a (i + 1) x) (dual_b i x))); [done|].
      intros x. rewrite dual_b_next by lia. fold x2 v. destruct (Z.eqb_spec x2 x) as [Hx|]; [|done].
      unfold dual_b. rewrite reached_not by done. by rewrite dual_put_pf2.
Qed.

Lemma playfield_line_pixels visible x :
  0 <= x < 1024 ->
  length (playfield_line visible e pal words count (init_line e pal)) = 1024%nat /\
  px_at (playfield_line visible e pal words count (init_line e pal)) x =
    playfields_at e pal words count visible x.
Proof.
  intros Hx. unfold playfield_line, playfields_at.
  destruct (visible && (0 <? depth e) && (depth e <=? 6) && (0 <? count)) eqn:Eon; cbn [andb].
  2: { split; [unfold init_line; by rewrite length_replicate|]. by rewrite px_at_init. }
  unfold playfield_pixel. destruct (is_ham e); [|destruct (is_dual e)].
  - destruct ham_drawn as [Hl Hp]. by split; [|apply Hp].
  - destruct dual_drawn as [Hl Hp]. by split; [|apply Hp].
  - destruct (Z.eqb_spec (scroll_pf1 e) (scroll_pf2 e)) as [Hs|].
    + destruct (normal_drawn Hs) as [Hl Hp]. by split; [|apply Hp].
    + destruct scrolled_drawn as [Hl Hp]. by split; [|apply Hp].
Qed.

End paths.

(** ** What the sprites show *)

(** The palette index of sprite [spr] at screen position [x] of line [y]; 0 where
    it shows nothing. *)
Definition sprite_index (s : denise_sprites) (y scale x spr : Z) : Z :=
  let c := sprite_at s spr in
  let odd := has spr 1 in
  let h := x / scale in
  if (odd && denise_sprite_is_attached s spr) || negb (armed c) || negb (sprite_on_line c y) then 0
  else if (denise_sprite_hstart c <=? h) && (h <? denise_sprite_hstart c + 16)
  then sprite_color s spr (negb odd && denise_sprite_is_attached s (spr + 1)) h else 0.

Lemma hstart_range c : 0 <= denise_sprite_hstart c <= 511.
Proof.
  unfold denise_sprite_hstart.
  assert (H : in_width 9 (u32 ((pos c .& 255) .<< 1) .| (ctl c .& 1))).
  { apply in_width_lor; [lia| |].
    - rewrite wrap_small.
      + apply (in_width_shiftl 9 8); [apply (ones_range 8); lia|lia..].
      + apply (in_width_mono 9); [|lia]. apply (in_width_shiftl 9 8); [apply (ones_range 8); lia|lia..].
    - apply (in_width_mono 1); [apply (ones_range 1); lia|lia]. }
  rewrite wrap_small by (eapply in_width_mono; [exact H|lia]). unfold in_width in H. lia.
Qed.

Lemma sprite_put_fields spr pair color p :
  let shows := (pf_color p =? 0) || (pair + pf_prio p <? 4) in
  sprite_put spr pair color p =
    mkPixel (if shows then color else px_rgba p) (if shows then rgb32_to_rgb565 color else px_565 p)
      (pf_color p) (pf_prio p) (pf_active p) (u8 (spr_active p .| u8 (1 .<< spr))).
Proof. destruct p as [a b c d f g]. unfold sprite_put. cbn. by destruct ((c =? 0) || (pair + d <? 4)). Qed.

Section sprites.

Context (e : line_env) (pal : denise_palette) (s : denise_sprites) (y : Z).
Context (Hscale : sprite_hscale e = 1 \/ sprite_hscale e = 2).

(** What a sprite does to the pixel at a position. *)
Definition sprite_over (x spr : Z) (p : line_pixel) : line_pixel :=
  let ci := sprite_index s y (sprite_hscale e) x spr in
  if ci =? 0 then p else sprite_put spr (spr / 2) (at_ (rgb32 pal) ci) p.

Lemma scaled_position a r x :
  0 <= x -> 0 <= r < sprite_hscale e -> (a * sprite_hscale e + r =? x) = (x / sprite_hscale e =? a) && (x `mod` sprite_hscale e =? r).
Proof.
  intros Hx Hr. pose proof (Z.div_mod x (sprite_hscale e) ltac:(lia)) as Hd.
  pose proof (Z.mod_pos_bound x (sprite_hscale e) ltac:(lia)) as Hm.
  destruct (Z.eqb_spec (a * sprite_hscale e + r) x) as [<-|Hne].
  - rewrite Z.div_add_l, (Z.add_comm _ r), Z.mod_add by lia. rewrite Z.div_small, Z.mod_small by lia.
    by rewrite Z.add_0_r, !Z.eqb_refl.
  - destruct (Z.eqb_spec (x / sprite_hscale e) a) as [<-|]; [|done].
    destruct (Z.eqb_spec (x `mod` sprite_hscale e) r) as [<-|]; [|done]. lia.
Qed.

(** The positions of one sprite pixel. *)
Lemma sprite_pixel_positions spr att hs l px x :
  length l = 1024%nat -> 0 <= hs <= 511 -> 0 <= px < 16 -> 0 <= x < 1024 ->
  let l' := sprite_pixel_body e pal s spr att hs l px in
  let ci := sprite_color s spr att (hs + px) in
  length l' = 1024%nat /\
  px_at l' x = if negb (ci =? 0) && (x / sprite_hscale e =? hs + px)
               then sprite_put spr (spr / 2) (at_ (rgb32 pal) ci) (px_at l x) else px_at l x.
Proof.
  intros Hl Hh Hp Hx. cbv zeta. unfold sprite_pixel_body. cbv zeta. rewrite (wrap_small 16 (hs + px)) by (unfold in_width; lia).
  rewrite (wrap_small 16 ((hs + px) * _)) by (unfold in_width; nia).
  set (ci := sprite_color s spr att (hs + px)). destruct (ci =? 0); cbn [negb andb]; [done|].
  set (F := sprite_put spr (spr / 2) (at_ (rgb32 pal) ci)). set (sc := sprite_hscale e) in *.
  cut (length (foldl (fun l repeat => if RIGEL_DENISE_MAX_SCANLINE_PIXELS <=? u16 ((hs + px) * sc + repeat) then l
      else alter F (Z.to_nat (u16 ((hs + px) * sc + repeat))) l) l (seqZ 0 sc)) = 1024%nat /\
    px_at (foldl (fun l repeat => if RIGEL_DENISE_MAX_SCANLINE_PIXELS <=? u16 ((hs + px) * sc + repeat) then l
      else alter F (Z.to_nat (u16 ((hs + px) * sc + repeat))) l) l (seqZ 0 sc)) x =
    if (x / sc =? hs + px) && (x `mod` sc <? sc) then F (px_at l x) else px_at l x).
  { intros [H1 H2]. split; [done|]. rewrite H2.
    replace (x `mod` sc <? sc) with true; [by rewrite andb_true_r|].
    pose proof (Z.mod_pos_bound x sc ltac:(lia)). lia. }
  apply (foldl_seqZ_inv (fun n l' => length l' = 1024%nat /\
    px_at l' x = if (x / sc =? hs + px) && (x `mod` sc <? n) then F (px_at l x) else px_at l x)); [lia| |].
  - split; [done|]. pose proof (Z.mod_pos_bound x sc ltac:(lia)).
    replace (x `mod` sc <? 0) with false by lia. by rewrite andb_false_r.
  - intros r l' Hr [Hl' E]. cbv zeta. rewrite (wrap_small 16 ((hs + px) * sc + r)) by (unfold in_width; nia).
    unfold RIGEL_DENISE_MAX_SCANLINE_PIXELS. pose proof (scaled_position (hs + px) r x ltac:(lia) Hr) as Hpos. fold sc in Hpos.
    destruct (Z.leb_spec 1024 ((hs + px) * sc + r)) as [Hbig|Hsmall].
    + split; [done|]. rewrite E. replace ((hs + px) * sc + r =? x) with false in Hpos by lia.
      destruct (x / sc =? hs + px); [|done]. cbn [andb] in *. symmetry in Hpos. apply Z.eqb_neq in Hpos.
      by replace (x `mod` sc <? r + 1) with (x `mod` sc <? r) by lia.
    + split; [by apply alter_length|]. rewrite px_at_alter by (done || nia). rewrite Hpos, E.
      destruct (x / sc =? hs + px); [|done]. cbn [andb].
      destruct (Z.eqb_spec (x `mod` sc) r) as [<-|].
      * replace (x `mod` sc <? x `mod` sc) with false by lia. by replace (x `mod` sc <? x `mod` sc + 1) with true by lia.
      * by replace (x `mod` sc <? r + 1) with (x `mod` sc <? r) by lia.
Qed.

Lemma sprite_body_pixel spr l x :
  length l = 1024%nat -> 0 <= x < 1024 ->
  length (sprite_body e pal s y l spr) = 1024%nat /\
  px_at (sprite_body e pal s y l spr) x = sprite_over x spr (px_at l x).
Proof.
  intros Hl Hx. unfold sprite_body, sprite_over, sprite_index. cbv zeta.
  destruct (has spr 1 && denise_sprite_is_attached s spr); cbn [orb]; [done|].
  destruct (armed (sprite_at s spr)); cbn [negb orb]; [|done].
  destruct (sprite_on_line (sprite_at s spr) y); cbn [negb]; [|done].
  pose proof (hstart_range (sprite_at s spr)) as Hh. set (hs := denise_sprite_hstart (sprite_at s spr)) in *.
  set (att := negb (has spr 1) && _). set (h := x / sprite_hscale e).
  set (over := if sprite_color s spr att h =? 0 then px_at l x
               else sprite_put spr (spr / 2) (at_ (rgb32 pal) (sprite_color s spr att h)) (px_at l x)).
  cut (length (foldl (sprite_pixel_body e pal s spr att hs) l (seqZ 0 16)) = 1024%nat /\
    px_at (foldl (sprite_pixel_body e pal s spr att hs) l (seqZ 0 16)) x =
      if (hs <=? h) && (h <? hs + 16) then over else px_at l x).
  { intros [H1 ->]. split; [done|]. unfold over. by destruct ((hs <=? h) && (h <? hs + 16)). }
  apply (foldl_seqZ_inv (fun n l' => length l' = 1024%nat /\
    px_at l' x = if (hs <=? h) && (h <? hs + n) then over else px_at l x)); [lia| |].
  - split; [done|]. by replace ((hs <=? h) && (h <? hs + 0)) with false by lia.
  - intros px l' Hpx [Hl' E]. destruct (sprite_pixel_positions spr att hs l' px x) as [HL ->]; [done..|].
    split; [done|]. rewrite E. fold h. destruct (Z.eqb_spec h (hs + px)) as [Hhp|Hhp].
    + rewrite <- Hhp. replace ((hs <=? h) && (h <? h)) with false by lia.
      replace ((hs <=? h) && (h <? hs + (px + 1))) with true by lia. unfold over.
      by destruct (sprite_color s spr att h =? 0).
    + rewrite andb_false_r. by replace (h <? hs + (px + 1)) with (h <? hs + px) by lia.
Qed.

Lemma sprite_overlay_pixel l x :
  length l = 1024%nat -> 0 <= x < 1024 ->
  length (sprite_overlay e pal s y l) = 1024%nat /\
  px_at (sprite_overlay e pal s y l) x = foldl (fun p spr => sprite_over x spr p) (px_at l x) [7; 6; 5; 4; 3; 2; 1; 0].
Proof.
  intros Hl Hx. unfold sprite_overlay. revert l Hl. induction [7; 6; 5; 4; 3; 2; 1; 0] as [|spr L IH]; intros l Hl; [done|].
  cbn [foldl]. destruct (sprite_body_pixel spr l x Hl Hx) as [H1 <-]. by apply IH.
Qed.

(** *** The priority rule *)

Definition sprite_indices (x : Z) : list Z := map (sprite_index s y (sprite_hscale e) x) (seqZ 0 8).

Lemma sprite_indices_at x i : 0 <= i < 8 -> at_ (sprite_indices x) i = sprite_index s y (sprite_hscale e) x i.
Proof.
  intros Hi. unfold sprite_indices, at_. rewrite list_lookup_fmap, lookup_seqZ_lt by lia. cbn. f_equal. lia.
Qed.

(** The pixel after the sprites from [k] on, over the playfield pixel [p0]. *)
Definition overlaid (x : Z) (p0 : line_pixel) (k : Z) (p : line_pixel) : Prop :=
  let r := priority_loop (Z.to_nat (8 - k)) k (pf_color p0) (pf_prio p0) (sprite_indices x) in
  let c := at_ (rgb32 pal) (color_index r) in
  px_rgba p = (if from_sprite r then c else px_rgba p0) /\
  px_565 p = (if from_sprite r then rgb32_to_rgb565 c else px_565 p0) /\
  pf_color p = pf_color p0 /\ pf_prio p = pf_prio p0 /\ pf_active p = pf_active p0 /\
  is_u8 (spr_active p) /\
  (forall i, 0 <= i -> Z.testbit (spr_active p) i =
    (k <=? i) && (i <? 8) && truthy (sprite_index s y (sprite_hscale e) x i)).

Lemma overlaid_step x p0 k p :
  0 <= k < 8 -> overlaid x p0 (k + 1) p -> overlaid x p0 k (sprite_over x k p).
Proof.
  intros Hk (Hr & H5 & Hc & Hpr & Hpa & Hu & Hb). unfold overlaid, sprite_over. cbv zeta.
  replace (Z.to_nat (8 - k)) with (S (Z.to_nat (8 - (k + 1)))) by lia. cbn [priority_loop].
  rewrite sprite_indices_at by lia. set (ci := sprite_index s y (sprite_hscale e) x k) in *.
  assert (Hbits : forall i, 0 <= i -> Z.testbit (spr_active p) i || ((i =? k) && truthy ci) =
    (k <=? i) && (i <? 8) && truthy (sprite_index s y (sprite_hscale e) x i)).
  { intros i Hi. rewrite Hb by done. destruct (Z.eqb_spec i k) as [->|].
    - fold ci. replace (k + 1 <=? k) with false by lia. replace (k <=? k) with true by lia.
      by replace (k <? 8) with true by lia.
    - cbn [andb]. rewrite orb_false_r. by replace (k + 1 <=? i) with (k <=? i) by lia. }
  destruct (Z.eqb_spec ci 0) as [E|E].
  { assert (Ht : truthy ci = false) by (unfold truthy; rewrite E; done). rewrite !Ht in *. cbn [negb].
    split_and!; try done. intros i Hi. rewrite <- Hbits by done. by rewrite andb_false_r, orb_false_r. }
  assert (Ht : truthy ci = true) by (unfold truthy; apply negb_true_iff, Z.eqb_neq; done). rewrite !Ht in *. cbn [negb].
  assert (Hnew : is_u8 (u8 (spr_active p .| u8 (1 .<< k))) /\ forall i, 0 <= i ->
    Z.testbit (u8 (spr_active p .| u8 (1 .<< k))) i =
      (k <=? i) && (i <? 8) && truthy (sprite_index s y (sprite_hscale e) x i)).
  { split; [apply wrap_range; lia|]. intros i Hi. rewrite <- Hbits by done. cbn [negb].
    rewrite Z.shiftl_1_l, testbit_wrap, Z.lor_spec, testbit_wrap by lia. rewrite andb_true_r.
    destruct (Z.ltb_spec i 8).
    - destruct (Z.eqb_spec i k) as [->|]; [by rewrite Z.pow2_bits_true by lia|by rewrite Z.pow2_bits_false by lia].
    - rewrite (testbit_high 8) by (done || lia). symmetry. apply Z.eqb_neq. lia. }
  destruct Hnew as [Hn1 Hn2]. rewrite !sprite_put_fields. cbn [px_rgba px_565 pf_color pf_prio pf_active spr_active].
  rewrite !Hc, !Hpr. destruct ((pf_color p0 =? 0) || (k / 2 + pf_prio p0 <? 4)); cbn [from_sprite color_index]; by split_and!.
Qed.

Lemma overlay_is_priority x p0 :
  spr_active p0 = 0 ->
  overlaid x p0 0 (foldl (fun p spr => sprite_over x spr p) p0 [7; 6; 5; 4; 3; 2; 1; 0]).
Proof.
  intros H0. cbn [foldl].
  do 8 (apply overlaid_step; [lia|]).
  unfold overlaid. cbv zeta. cbn [priority_loop Z.to_nat Z.sub Z.add]. split_and!; try done; rewrite ?H0; [width|].
  intros i Hi. rewrite Z.testbit_0_l. by replace (0 + 1 + 1 + 1 + 1 + 1 + 1 + 1 + 1 <=? i) with (8 <=? i) by lia;
    destruct (Z.leb_spec 8 i), (Z.ltb_spec i 8); lia || done.
Qed.

End sprites.

(** ** The whole line *)

(** What the rest of Denise guarantees when a line is composed. *)
Record denise_ok (d : RigelDenise) : Prop := {
  ok_palette : palette_ok (palette d);
  ok_video : video_ok (video d);
  ok_ddf : is_u16 (ddfstrt_lores (output d));
  ok_words : 0 <= plane_word_count (output d);
}.

Definition line_bplcon2_of (d : RigelDenise) : Z :=
  if line_bplcon_valid (output d) then line_bplcon2 (output d) else bplcon2 (regs d).

(** The playfield pixel of a line. *)
Definition line_playfield (d : RigelDenise) (x : Z) : line_pixel :=
  let o := output d in
  playfields_at (line_env_of d) (palette d) (plane_words o) (plane_word_count o) (visible_scanline o) x.

(** The playfield pixel comes from playfield 2. *)
Definition line_shows_pf2 (d : RigelDenise) (x : Z) : bool :=
  let e := line_env_of d in
  let o := output d in
  let src s := dualpf_decode (source_bits e (plane_words o) (plane_word_count o) (source_of e s x)) in
  visible_scanline o && (0 <? depth e) && (depth e <=? 6) && (0 <? plane_word_count o) && in_window e x
  && negb (is_ham e) && is_dual e
  && negb (pf2_index (src (scroll_pf2 e)) =? 0)
  && ((pf1_index (src (scroll_pf1 e)) =? 0) || pf2_over_pf1 e).

(** The palette indices of the eight sprites at a position. *)
Definition line_sprites (d : RigelDenise) (x : Z) : list Z :=
  sprite_indices (line_env_of d) (sprites d) (beam_vpos (output d)) x.

Lemma env_ranges d :
  let e := line_env_of d in
  denise_ok d ->
  0 <= depth e <= 7 /\ 0 <= x_start e /\ 0 <= ddf0 e /\ 1 <= hscale e /\ 0 <= scroll_pf1 e <= 15 /\
  0 <= scroll_pf2 e <= 15 /\ (sprite_hscale e = 1 \/ sprite_hscale e = 2) /\
  pf1p e = line_bplcon2_of d .& 0x7 /\ pf2p e = (line_bplcon2_of d .>> 3) .& 0x7 /\
  0 <= pf1p e <= 7 /\ 0 <= pf2p e <= 7.
Proof.
  cbv zeta. intros [_ Hv Hd _]. destruct Hv as [_ Hx _ _ _ _]. unfold line_env_of. cbv zeta.
  cbn [depth x_start ddf0 hscale scroll_pf1 scroll_pf2 sprite_hscale pf1p pf2p].
  pose proof (fun z => ones_range 3 z ltac:(lia)) as H3. pose proof (fun z => ones_range 4 z ltac:(lia)) as H4.
  change (Z.ones 3) with 7 in H3. change (Z.ones 4) with 15 in H4. unfold in_width in Hd.
  set (con0 := if line_bplcon_valid _ then line_bplcon0 _ else _).
  set (con1 := if line_bplcon_valid _ then line_bplcon1 _ else _).
  change (if line_bplcon_valid (output d) then line_bplcon2 (output d) else bplcon2 (regs d)) with (line_bplcon2_of d).
  pose proof (H3 (con0 .>> 12)). pose proof (H4 con1). pose proof (H4 (con1 .>> 4)).
  pose proof (H3 (line_bplcon2_of d)). pose proof (H3 (line_bplcon2_of d .>> 3)).
  split_and!; try lia; try done; destruct (has con0 0x8000); rewrite ?orb_true_r, ?orb_false_r; try lia.
  destruct (512 <? width (video d)); lia.
Qed.

Lemma line_playfield_pixel d x :
  denise_ok d -> 0 <= x < 1024 ->
  let e := line_env_of d in
  let l := playfield_line (visible_scanline (output d)) e (palette d) (plane_words (output d))
    (plane_word_count (output d)) (init_line e (palette d)) in
  length l = 1024%nat /\ px_at l x = line_playfield d x.
Proof.
  intros Hok Hx. cbv zeta. destruct (env_ranges d Hok) as (Hd & Hs & Hf & Hh & H1 & H2 & _).
  destruct Hok as [Hp _ _ Hw]. unfold line_playfield. destruct (decide (depth (line_env_of d) <= 6)) as [H6|H6].
  - by apply playfield_line_pixels; try lia.
  - unfold playfield_line, playfields_at. replace (depth (line_env_of d) <=? 6) with false by lia.
    rewrite !andb_false_r. cbn [andb]. split; [unfold init_line; by rewrite length_replicate|by apply px_at_init].
Qed.

Lemma line_playfield_fields d x :
  denise_ok d ->
  let p := line_playfield d x in
  spr_active p = 0 /\
  pf_prio p = (if line_shows_pf2 d x then (line_bplcon2_of d .>> 3) .& 0x7 else line_bplcon2_of d .& 0x7) /\
  px_565 p = rgb32_to_rgb565 (px_rgba p).
Proof.
  intros Hok. cbv zeta. destruct (env_ranges d Hok) as (Hd & _ & _ & _ & _ & _ & _ & E1 & E2 & R1 & R2).
  destruct Hok as [[Hl Hp] _ _ _]. rewrite <- E1, <- E2. unfold line_playfield, playfields_at, line_shows_pf2.
  set (e := line_env_of d) in *. clearbody e. set (o := output d).
  assert (Hc : forall i, at_ (rgb565 (palette d)) i = rgb32_to_rgb565 (at_ (rgb32 (palette d)) i)).
  { intros i. rewrite Hp. unfold at_. rewrite list_lookup_fmap. by destruct (rgb32 (palette d) !! Z.to_nat i). }
  assert (H8 : forall v, 0 <= v <= 7 -> u8 v = v) by (intros v Hv; apply wrap_small; unfold in_width; lia).
  destruct (visible_scanline o && (0 <? depth e) && (depth e <=? 6) && (0 <? plane_word_count o) && in_window e x); cbn [andb];
    [|unfold blank_pixel; cbn; rewrite H8 by done; by split_and!].
  unfold playfield_pixel. destruct (is_ham e); cbn [negb andb].
  { destruct (_ && _); cbn; rewrite H8 by done; by split_and!. }
  destruct (is_dual e); cbn [andb].
  - unfold dual_pixel. set (a := pf1_index _). set (b := pf2_index _). clearbody a b. unfold blank_pixel.
    destruct (Z.eqb_spec a 0), (Z.eqb_spec b 0), (pf2_over_pf1 e);
      cbn [andb orb negb px_rgba px_565 pf_prio spr_active]; rewrite ?H8 by done; by split_and!.
  - unfold normal_put, blank_pixel. destruct (is_ehb e); cbn; rewrite H8 by done; by split_and!.
Qed.

(** C15: a composed line.  At each of the 1024 positions of the raster line the
    scanline shows the winner of [denise_priority_resolve] between the playfield
    pixel of that position and the eight sprites' pixels there; the playfield
    pixel is read off the bitplanes by position, whatever path of the compositor
    has drawn it (blocks of sixteen, plane by plane when odd and even planes are
    scrolled apart, the two playfields of the dual mode in either order, the
    running colour of HAM); outside the display window there is only background;
    and the 16-bit scanline is the 24-bit one reduced. *)
Theorem compose_line_pixels d x :
  denise_ok d -> scanline_width (output d) <> 0 -> 0 <= x < 1024 ->
  let d' := compose_line d in
  let pf := line_playfield d x in
  let r := denise_priority_resolve (pf_color pf) (line_shows_pf2 d x) (line_sprites d x) (line_bplcon2_of d) in
  at_ (scanline_rgba (output d')) x =
    (if from_sprite r then at_ (rgb32 (palette d)) (color_index r) else px_rgba pf) /\
  at_ (scanline_rgb565 (output d')) x = rgb32_to_rgb565 (at_ (scanline_rgba (output d')) x) /\
  length (scanline_rgba (output d')) = 1024%nat /\ length (scanline_rgb565 (output d')) = 1024%nat.
Proof.
  intros Hok Hw Hx. cbv zeta. destruct (env_ranges d Hok) as (_ & _ & _ & _ & _ & _ & Hsc & _).
  destruct (line_playfield_pixel d x Hok Hx) as [Hl Hpf]. destruct (line_playfield_fields d x Hok) as (F1 & F2 & F3).
  destruct (sprite_overlay_pixel _ (palette d) (sprites d) (beam_vpos (output d)) Hsc _ x Hl Hx) as [HL HP].
  rewrite Hpf in HP.
  pose proof (overlay_is_priority (line_env_of d) (palette d) (sprites d) (beam_vpos (output d)) x (line_playfield d x) F1) as (O1 & O2 & _).
  rewrite <- HP in O1, O2. unfold compose_line, line_pixels. apply Z.eqb_neq in Hw. rewrite Hw. cbv zeta.
  set (l := sprite_overlay _ _ _ _ _) in *.
  assert (Hout : forall o' : denise_output, scanline_rgba (mark_dirty (beam_vpos o') o') = scanline_rgba o' /\
    scanline_rgb565 (mark_dirty (beam_vpos o') o') = scanline_rgb565 o').
  { intros o'. unfold mark_dirty. by destruct (_ <? _). }
  set (o' := (output d) <| scanline_rgba := _ |> <| scanline_rgb565 := _ |> <| scanline_dirty := _ |> <| pending_flags := _ |>).
  match goal with |- context [output ?t] => change (output t) with (mark_dirty (beam_vpos o') o') end.
  destruct (Hout o') as [-> ->].
  change (scanline_rgba o') with (map px_rgba l). change (scanline_rgb565 o') with (map px_565 l).
  assert (Hat : forall f : line_pixel -> Z, at_ (map f l) x = f (px_at l x)).
  { intros f. unfold at_, px_at. rewrite list_lookup_fmap.
    destruct (lookup_lt_is_Some_2 l (Z.to_nat x)) as [p Hlk]; [lia|by rewrite Hlk]. }
  rewrite !Hat, !length_map. unfold denise_priority_resolve. rewrite <- F2.
  split_and!; [exact O1| |done|done]. rewrite O1, O2. unfold line_sprites in *. cbv zeta.
  destruct (from_sprite _); done.
Qed.

(** One lores bitplane, a pixel of it set at the left edge of the window, and
    sprite 0 over it. *)
Definition sample_denise : RigelDenise :=
  let d := rigel_denise_registers_write RIGEL_REG_BPLCON0 0x1200
    (rigel_denise_registers_write RIGEL_REG_DIWSTOP 0x2cc1
    (rigel_denise_registers_write RIGEL_REG_DIWSTRT 0x2c81
    (rigel_denise_registers_write 0x1a2 0x0f0 (rigel_denise_registers_write 0x182 0xf00
      (denise_at_reset AGNUS_REV_OCS))))) in
  let s := denise_sprite_receive_data 0 0x8000 0 (denise_sprite_receive_ctrl 0 0x2c40 0xf401 (sprites d)) in
  let o := (output d) <| plane_words := [[0xc000]] |> <| plane_word_count := 1 |> <| ddfstrt_lores := 112 |>
             <| visible_scanline := true |> <| scanline_width := 320 |> <| beam_vpos := 100 |> in
  d <| sprites := s |> <| output := o |>.

Lemma sample_denise_ok : denise_ok sample_denise.
Proof.
  constructor; [split; vm_compute; reflexivity| |unfold in_width; vm_compute; split; congruence|vm_compute; congruence].
  constructor; vm_compute; split || idtac; try congruence; split; congruence.
Qed.

Lemma sample_width : scanline_width (output sample_denise) <> 0.
Proof. vm_compute. congruence. Qed.

Lemma compose_line_pixels_witness :
  at_ (scanline_rgba (output (compose_line sample_denise))) 129 = 0x00ff00 /\
  at_ (scanline_rgba (output (compose_line sample_denise))) 130 = 0xff0000.
Proof.
  split.
  - pose proof (compose_line_pixels sample_denise 129 sample_denise_ok sample_width ltac:(lia)) as H.
    cbv zeta in H. destruct H as [H _]. rewrite H. vm_compute. reflexivity.
  - pose proof (compose_line_pixels sample_denise 130 sample_denise_ok sample_width ltac:(lia)) as H.
    cbv zeta in H. destruct H as [H _]. rewrite H. vm_compute. reflexivity.
Defined.

(** ** The collisions of a line *)

Lemma line_playfield_active d x : denise_ok d -> 0 <= pf_active (line_playfield d x) <= 3.
Proof.
  intros _. unfold line_playfield, playfields_at. set (e := line_env_of d). clearbody e.
  destruct (visible_scanline _ && _ && _ && _ && _); [|cbn; lia]. unfold playfield_pixel.
  destruct (is_ham e); [destruct (_ && _); cbn; lia|]. destruct (is_dual e).
  - unfold dual_pixel. set (a := pf1_index _). set (b := pf2_index _). clearbody a b.
    destruct (a =? 0), (b =? 0); cbn; lia.
  - unfold normal_put. destruct (is_ehb e); cbn;
      (match goal with |- context [negb ?b] => destruct b end); cbn; lia.
Qed.

(** The sprites on at a position, as a mask. *)
Definition line_sprite_mask (d : RigelDenise) (x : Z) : Z :=
  foldl (fun v i => v .| (b2u (truthy (at_ (line_sprites d x) i)) .<< i)) 0 (seqZ 0 8).

Lemma line_pixels_at d x :
  denise_ok d -> 0 <= x < 1024 ->
  length (line_pixels d) = 1024%nat /\
  spr_active (px_at (line_pixels d) x) = line_sprite_mask d x /\ is_u8 (line_sprite_mask d x) /\
  pf_active (px_at (line_pixels d) x) = pf_active (line_playfield d x).
Proof.
  intros Hok Hx. destruct (env_ranges d Hok) as (_ & _ & _ & _ & _ & _ & Hsc & _).
  destruct (line_playfield_pixel d x Hok Hx) as [Hl Hpf]. destruct (line_playfield_fields d x Hok) as (F1 & _ & _).
  destruct (sprite_overlay_pixel _ (palette d) (sprites d) (beam_vpos (output d)) Hsc _ x Hl Hx) as [HL HP].
  rewrite Hpf in HP.
  pose proof (overlay_is_priority (line_env_of d) (palette d) (sprites d) (beam_vpos (output d)) x
    (line_playfield d x) F1) as (_ & _ & _ & _ & O5 & O6 & O7).
  rewrite <- HP in O5, O6, O7. fold (line_pixels d) in HL. split; [exact HL|].
  assert (E : spr_active (px_at (line_pixels d) x) = line_sprite_mask d x).
  { apply Z.bits_inj'. intros i Hi. unfold line_sprite_mask.
    rewrite (foldl_or_bits (fun i => truthy (at_ (line_sprites d x) i))) by lia.
    etransitivity; [exact (O7 i Hi)|]. replace (0 <=? i) with true by lia. cbn [andb].
    destruct (Z.ltb_spec i 8); [|done]. unfold line_sprites. by rewrite sprite_indices_at by lia. }
  split_and!; [exact E|rewrite <- E; exact O6|exact O5].
Qed.

Lemma collision_check_nothing pf1 c : collision_check_pixel 0 pf1 false c = c.
Proof.
  unfold collision_check_pixel. change (0 .& enabled_sprites (clxcon c)) with 0.
  change (u8 (u8 (0 .>> 1) .& 0x55)) with 0. change (u8 (0 .& 0x55)) with 0. change (has 0 (u8 (0 - 1))) with false.
  change (truthy 0) with false. rewrite !andb_false_r. cbn [andb latch_bit].
  by destruct (has (clxcon c .>> 6) 0x3f).
Qed.

(** Skipping the empty pixels changes nothing. *)
Lemma collide_line_checks d c :
  denise_ok d -> clxcon c <> 0 ->
  collide_line (line_env_of d) (line_pixels d) c =
    check_pixels c (map (fun x => (line_sprite_mask d x, has (pf_active (line_playfield d x)) 1,
                                   has (pf_active (line_playfield d x)) 2))
      (seqZ (x_start (line_env_of d)) (Z.min (x_stop (line_env_of d)) 1024 - x_start (line_env_of d)))).
Proof.
  intros Hok Hc. unfold collide_line. apply Z.eqb_neq in Hc. rewrite Hc. cbn [negb]. clear Hc.
  unfold RIGEL_DENISE_MAX_SCANLINE_PIXELS. destruct (env_ranges d Hok) as (_ & Hs & _).
  assert (Hf : Forall (fun x => 0 <= x < 1024)
    (seqZ (x_start (line_env_of d)) (Z.min (x_stop (line_env_of d)) 1024 - x_start (line_env_of d)))).
  { apply Forall_forall. intros x Hx. apply elem_of_seqZ in Hx. lia. }
  unfold check_pixels. rewrite foldl_fmap. revert c.
  induction Hf as [|x L Hx HL IH]; intros c; [done|]. cbn [foldl].
  destruct (line_pixels_at d x Hok Hx) as (Hl & E1 & _ & E2). pose proof (line_playfield_active d x Hok) as Ha.
  destruct (lookup_lt_is_Some_2 (line_pixels d) (Z.to_nat x)) as [p Hp]; [lia|]. rewrite Hp.
  assert (Hpx : px_at (line_pixels d) x = p) by (unfold px_at; by rewrite Hp). rewrite Hpx in E1, E2. rewrite E1, E2.
  destruct ((line_sprite_mask d x =? 0) && (pf_active (line_playfield d x) <? 2)) eqn:Eskip; [|apply IH].
  apply andb_prop in Eskip as [Em Ea]. apply Z.eqb_eq in Em. rewrite Em.
  assert (has (pf_active (line_playfield d x)) 2 = false) as ->.
  { assert (pf_active (line_playfield d x) = 0 \/ pf_active (line_playfield d x) = 1) as [->| ->] by lia; done. }
  rewrite collision_check_nothing. apply IH.
Qed.

(** The collisions of a line.  When CLXCON is not zero, composing a line adds
    to CLXDAT exactly the collisions of the line's pixels within the display
    window (skipping the pixels without sprites and without playfield 2 loses
    none): bit [k] is set afterwards if it was set before or if at some position
    of the window the sprites on there and the playfields on there collide in the
    sense of bit [k].  When CLXCON is zero nothing is added, not even the
    collision of the two playfields, which the pixel test itself reports whatever
    CLXCON. *)
Theorem compose_line_collisions d k :
  denise_ok d -> scanline_width (output d) <> 0 -> is_u16 (clxdat (coll d)) -> 0 <= k ->
  let e := line_env_of d in
  let c' := coll (compose_line d) in
  clxcon c' = clxcon (coll d) /\
  (Z.testbit (clxdat c') k = true <->
    Z.testbit (clxdat (coll d)) k = true \/
    (clxcon (coll d) <> 0 /\ exists x, in_window e x = true /\
      collides (clxcon (coll d)) (line_sprite_mask d x) (has (pf_active (line_playfield d x)) 1)
        (has (pf_active (line_playfield d x)) 2) k = true)) /\
  collides 0 0 true true 6 = true.
Proof.
  intros Hok Hw Hu Hk. cbv zeta. unfold compose_line. apply Z.eqb_neq in Hw. rewrite Hw. cbv zeta.
  match goal with |- context [coll ?t] =>
    lazymatch t with d => fail | _ => change (coll t) with (collide_line (line_env_of d) (line_pixels d) (coll d)) end end.
  destruct (env_ranges d Hok) as (_ & Hs & _).
  destruct (decide (clxcon (coll d) = 0)) as [E|E].
  { unfold collide_line. rewrite E. cbn [negb Z.eqb]. split_and!; [done| |done]. split; [by left|].
    intros [H|[H _]]; done. }
  rewrite collide_line_checks by done. set (L := map _ _).
  assert (HL : Forall (fun p : ClxPixel => is_u8 p.1.1) L).
  { apply Forall_map, Forall_forall. intros x Hx. apply elem_of_seqZ in Hx. cbn.
    by destruct (line_pixels_at d x Hok ltac:(lia)) as (_ & _ & H & _). }
  destruct (check_pixels_spec L (coll d) k HL Hu Hk) as (Eb & _ & Ec).
  split_and!; [exact Ec| |done]. rewrite Eb, orb_true_iff, existsb_exists. split.
  - intros [H|(p & Hin & Hcol)]; [by left|right]. split; [done|]. apply list_elem_of_In, list_elem_of_fmap in Hin as (x & -> & Hx).
    apply elem_of_seqZ in Hx. exists x. split; [|done]. unfold in_window. lia.
  - intros [H|[_ (x & Hin & Hcol)]]; [by left|right].
    exists (line_sprite_mask d x, has (pf_active (line_playfield d x)) 1, has (pf_active (line_playfield d x)) 2).
    split; [|exact Hcol]. apply list_elem_of_In, list_elem_of_fmap. exists x. split; [done|]. apply elem_of_seqZ. unfold in_window in Hin. lia.
Qed.

Lemma denise_ok_coll d c : denise_ok d -> denise_ok (d <| coll := c |>).
Proof. intros []. by constructor. Qed.

(** The same line with sprite and playfield collisions enabled. *)
Definition sample_collision : RigelDenise := sample_denise <| coll := mkColl 0x40 0 |>.

Lemma sample_collision_width : scanline_width (output sample_collision) <> 0.
Proof. vm_compute. congruence. Qed.

Lemma compose_line_collisions_witness : Z.testbit (clxdat (coll (compose_line sample_collision))) 3 = true.
Proof.
  pose proof (compose_line_collisions sample_collision 3 (denise_ok_coll _ _ sample_denise_ok)
    sample_collision_width (in_width_0 16 ltac:(lia)) ltac:(lia)) as H.
  cbv zeta in H. destruct H as (_ & H & _). apply H. right. split; [vm_compute; congruence|].
  exists 129. split; vm_compute; reflexivity.
Defined.
