(* ===== verification/DeniseFrames.v ===== *)
(** * Denise over time: lines, frames and the reachable states

    A tick of the compositor that sees the beam on a new line finishes the line
    left behind and stores it in the back frame; at the end of the frame the
    back frame becomes the front frame.  The invariant of all reachable states
    provides what the theorems about a single line assume. *)

From S2P Require Import Prelude Beam DenisePixel DeniseSprites Denise DeniseFacts Framebuffer FramebufferFacts.
From S2P Require Import Compositor CompositorFacts.

(** ** A line is finished *)

Definition line_changed (d : RigelDenise) (b : beam_state) : bool :=
  negb (beam_vpos (output d) =? vpos b) || negb (frame_counter (output d) =? frame_count b).

(** What the tick does to the line the beam has left. *)
Definition finish_line (d : RigelDenise) : RigelDenise :=
  if visible_scanline (output d) then compose_line d else clear_scanline_to_border d.

(** The fields of the output that keep the frames. *)
Definition frames_of (o : denise_output) : list (list (list Z)) * Z * Z * Z :=
  (frame_rgba o, front_idx o, beam_vpos o, frame_counter o).

Lemma frames_of_eq o fs i y n :
  frames_of o = (fs, i, y, n) -> frame_rgba o = fs /\ front_idx o = i /\ beam_vpos o = y /\ frame_counter o = n.
Proof. unfold frames_of. by intros [= -> -> -> ->]. Qed.

Lemma mark_dirty_frames y o : frames_of (mark_dirty y o) = frames_of o.
Proof. unfold mark_dirty. by destruct (_ <? _). Qed.

Lemma compose_line_frames d : frames_of (output (compose_line d)) = frames_of (output d).
Proof.
  unfold compose_line. destruct (_ =? 0); [done|]. cbv zeta.
  match goal with |- frames_of (output (_ <| coll := _ |> <| output := ?o |>)) = _ =>
    transitivity (frames_of o); [reflexivity|] end.
  by rewrite mark_dirty_frames.
Qed.

Lemma finish_line_frames d : frames_of (output (finish_line d)) = frames_of (output d).
Proof.
  unfold finish_line. destruct (visible_scanline _); [apply compose_line_frames|].
  unfold clear_scanline_to_border. cbv zeta.
  match goal with |- frames_of (output (_ <| output := ?o |>)) = _ => transitivity (frames_of o); [reflexivity|] end.
  by rewrite mark_dirty_frames.
Qed.

Lemma sync_position_frames w fc b o :
  frames_of (sync_position w fc b o) = (frame_rgba o, front_idx o, vpos b, frame_count b).
Proof. unfold sync_position. cbv zeta. by destruct (visible_scanline _). Qed.

Lemma store_line_frames o :
  0 <= beam_vpos o < 312 -> front_idx o = 0 \/ front_idx o = 1 ->
  frame_rgba (store_line o) =
    alter (fun f => <[Z.to_nat (beam_vpos o) := scanline_rgba o]> f) (Z.to_nat (1 - front_idx o)) (frame_rgba o) /\
  front_idx (store_line o) = front_idx o.
Proof.
  intros Hy Hf. unfold store_line, RIGEL_DENISE_MAX_LINES. replace (beam_vpos o <? 312) with true by lia.
  assert (u8 (1 .^ front_idx o) = 1 - front_idx o) as -> by (by destruct Hf as [-> | ->]). done.
Qed.

Lemma finish_frame_frames o :
  front_idx o = 0 \/ front_idx o = 1 ->
  frame_rgba (finish_frame o) = frame_rgba o /\ front_idx (finish_frame o) = 1 - front_idx o.
Proof.
  intros Hf. split; [done|]. transitivity (u8 (front_idx o .^ 1)); [done|]. by destruct Hf as [-> | ->].
Qed.

(** The frames after a tick on a new line. *)
Lemma tick_frames b d :
  line_changed d b = true -> 0 <= beam_vpos (output d) < 312 -> front_idx (output d) = 0 \/ front_idx (output d) = 1 ->
  let o := output d in
  let back := 1 - front_idx o in
  frames_of (output (rigel_denise_compositor_tick b d).2) =
    (alter (fun f => <[Z.to_nat (beam_vpos o) := scanline_rgba (output (finish_line d))]> f) (Z.to_nat back) (frame_rgba o),
     (if frame_counter o =? frame_count b then front_idx o else back), vpos b, frame_count b).
Proof.
  intros Hc Hy Hf. cbv zeta. unfold rigel_denise_compositor_tick. cbv zeta. fold (line_changed d b). rewrite Hc. cbn [andb].
  change (if visible_scanline (output d) then compose_line d else clear_scanline_to_border d) with (finish_line d).
  pose proof (finish_line_frames d) as Hfr. set (d1 := finish_line d) in *.
  apply frames_of_eq in Hfr as (H1 & H2 & H3 & H4).
  destruct (rigel_denise_framebuffer_sync_from_beam b d1) as [w d2] eqn:Es. cbn [snd].
  assert (Hfin : forall d3, frames_of (output d3) = frames_of (output d2) ->
    frames_of (output (d3 <| output := (output d3) <| last_rgb := at_ (rgb32 (palette d3))
      (dbg_last_color_index (debug d3) .& 31) |> |>)) = frames_of (output d2)) by (intros d3 <-; done).
  rewrite Hfin by (destruct (_ && _); [apply compose_line_frames|done]). clear Hfin.
  unfold rigel_denise_framebuffer_sync_from_beam in Es. cbv zeta in Es. injection Es as _ <-.
  rewrite H3, H4.
  assert (Hc' : negb (frame_counter (output d) =? frame_count b) || negb (beam_vpos (output d) =? vpos b) = true)
    by (rewrite orb_comm; exact Hc). rewrite Hc'.
  match goal with |- frames_of (output (_ <| output := ?o |>)) = _ => transitivity (frames_of o); [reflexivity|] end.
  rewrite sync_position_frames. destruct (store_line_frames (output d1)) as [E1 E2]; [by rewrite H3|by rewrite H2|].
  rewrite H1, H2, H3 in E1. rewrite H2 in E2.
  destruct (frame_counter (output d) =? frame_count b); cbn [negb]; [by rewrite E1, E2|].
  destruct (finish_frame_frames (store_line (output d1))) as [F1 F2]; [by rewrite E2|]. by rewrite F1, F2, E1, E2.
Qed.

(** ** A frame is its lines *)

(** Between two ticks anything may happen that leaves the frames alone: register
    writes, fetched words, sprite words. *)
Definition leaves_frames (act : RigelDenise -> RigelDenise) : Prop :=
  forall d, frames_of (output (act d)) = frames_of (output d).

(** Actions, each followed by a tick; the lines finished by the ticks. *)
Fixpoint run_lines (steps : list ((RigelDenise -> RigelDenise) * beam_state)) (d : RigelDenise)
    : list (list Z) * RigelDenise :=
  match steps with
  | [] => ([], d)
  | (act, b) :: steps =>
      let d := act d in
      let line := scanline_rgba (output (finish_line d)) in
      let '(lines, d') := run_lines steps (rigel_denise_compositor_tick b d).2 in (line :: lines, d')
  end.

(** The beam goes from line [y] of frame [n] line by line to the next frame. *)
Fixpoint beam_lines (y n : Z) (bs : list beam_state) : Prop :=
  match bs with
  | [] => False
  | [b] => frame_count b <> n
  | b :: bs => frame_count b = n /\ vpos b = y + 1 /\ beam_lines (y + 1) n bs
  end.

Definition frame (o : denise_output) (i : Z) : list (list Z) := default [] (frame_rgba o !! Z.to_nat i).

(** The shape of the two frames. *)
Definition frames_ok (o : denise_output) : Prop :=
  (front_idx o = 0 \/ front_idx o = 1) /\ length (frame_rgba o) = 2%nat /\
  Forall (fun f => length f = 312%nat) (frame_rgba o).

Lemma frames_ok_alter o y (line : list Z) i :
  length (frame_rgba o) = 2%nat -> Forall (fun f : list (list Z) => length f = 312%nat) (frame_rgba o) ->
  let fs := alter (fun f => <[y := line]> f) i (frame_rgba o) in
  length fs = 2%nat /\ Forall (fun f => length f = 312%nat) fs.
Proof.
  intros H2 H3. cbv zeta. split; [by rewrite length_alter|].
  apply Forall_alter; [done|]. intros f Hl Hf. by rewrite length_insert.
Qed.

Lemma beam_lines_tick y n b bs d :
  beam_lines y n (b :: bs) -> beam_vpos (output d) = y -> frame_counter (output d) = n ->
  line_changed d b = true /\ (bs = [] -> (frame_counter (output d) =? frame_count b) = false) /\
  (bs <> [] -> frame_count b = n /\ vpos b = y + 1 /\ beam_lines (y + 1) n bs).
Proof.
  intros Hb Hy Hn. unfold line_changed. rewrite Hy, Hn. destruct bs as [|b' bs].
  - cbn in Hb. replace (n =? frame_count b) with false by lia. rewrite orb_true_r. done.
  - destruct Hb as (H1 & H2 & H3). rewrite H2. by replace (y =? y + 1) with false by lia.
Qed.

Lemma rows_step y j n :
  (y <=? j) && (j <? y + Z.of_nat (S n)) = (j =? y) || ((y + 1 <=? j) && (j <? y + 1 + Z.of_nat n)).
Proof.
  destruct (Z.leb_spec y j), (Z.ltb_spec j (y + Z.of_nat (S n))), (Z.eqb_spec j y), (Z.leb_spec (y + 1) j),
    (Z.ltb_spec j (y + 1 + Z.of_nat n)); done || lia.
Qed.

Lemma run_lines_frame steps : forall y d,
  Forall (fun s => leaves_frames s.1) steps -> beam_lines y (frame_counter (output d)) (map snd steps) ->
  beam_vpos (output d) = y -> 0 <= y -> y + Z.of_nat (length steps) <= 312 -> frames_ok (output d) ->
  let '(lines, d') := run_lines steps d in
  let back := 1 - front_idx (output d) in
  front_idx (output d') = back /\
  frame (output d') (front_idx (output d)) = frame (output d) (front_idx (output d)) /\
  forall j, 0 <= j -> frame (output d') back !! Z.to_nat j =
    if (y <=? j) && (j <? y + Z.of_nat (length steps)) then lines !! Z.to_nat (j - y)
    else frame (output d) back !! Z.to_nat j.
Proof.
  induction steps as [|[act b] steps IH]; intros y d Ha Hb Hy Hy0 Hlen (Hf & H2 & H3); [done|].
  inversion Ha as [|? ? Hact Ha']; subst. cbn [run_lines map snd fst length] in *.
  pose proof (Hact d) as Hd. set (d1 := act d) in *. apply frames_of_eq in Hd as (E1 & E2 & E3 & E4).
  set (line := scanline_rgba (output (finish_line d1))).
  destruct (beam_lines_tick _ _ b (map snd steps) d1 Hb E3 E4) as (Hc & Hlast & Hnext).
  pose proof (tick_frames b d1 Hc ltac:(lia) ltac:(by rewrite E2)) as Ht. cbv zeta in Ht. fold line in Ht.
  set (d2 := (rigel_denise_compositor_tick b d1).2) in *. clearbody d2. rewrite E1, E2, E3, E4 in Ht. rewrite E4 in Hlast.
  set (y := beam_vpos (output d)) in *. set (fr := front_idx (output d)) in *.
  apply frames_of_eq in Ht as (T1 & T2 & T3 & T4).
  destruct (frames_ok_alter (output d) (Z.to_nat y) line (Z.to_nat (1 - fr)) H2 H3) as [A2 A3].
  assert (Hback : forall j, 0 <= j -> frame (output d2) (1 - fr) !! Z.to_nat j =
    if j =? y then Some line else frame (output d) (1 - fr) !! Z.to_nat j).
  { intros j Hj. unfold frame. rewrite T1, list_lookup_alter_eq.
    destruct (lookup_lt_is_Some_2 (frame_rgba (output d)) (Z.to_nat (1 - fr))) as [f Hlk]; [lia|].
    rewrite Hlk. cbn. pose proof (Forall_lookup_1 _ _ _ _ H3 Hlk) as Hl312. cbn in Hl312.
    destruct (Z.eqb_spec j y) as [->|].
    - by rewrite list_lookup_insert_eq by lia.
    - by rewrite list_lookup_insert_ne by lia. }
  assert (Hfront : frame (output d2) fr = frame (output d) fr).
  { unfold frame. rewrite T1. by rewrite list_lookup_alter_ne by lia. }
  destruct steps as [|s steps].
  - cbn [run_lines length]. rewrite Hlast in T2 by done. split_and!; [done|done|].
    intros j Hj. rewrite Hback, rows_step by done. destruct (Z.eqb_spec j y) as [->|]; cbn [orb].
    + by rewrite Z.sub_diag.
    + destruct (Z.leb_spec (y + 1) j), (Z.ltb_spec j (y + 1 + Z.of_nat 0)); lia || done.
  - destruct Hnext as (N1 & N2 & N3); [done|]. rewrite N1, Z.eqb_refl in T2.
    assert (Hfc : frame_counter (output d2) = frame_counter (output d)) by (rewrite T4; lia).
    specialize (IH (y + 1) d2 Ha'). rewrite Hfc in IH. cbn [length] in *.
    specialize (IH N3 ltac:(lia) ltac:(lia) ltac:(lia)).
    destruct (run_lines (s :: steps) d2) as [lines d']. rewrite T2 in IH.
    destruct IH as (I1 & I2 & I3); [split; [by rewrite T2|by rewrite T1]|].
    split_and!; [done|by rewrite I2|]. intros j Hj. rewrite (rows_step y j (S (length steps))), I3, Hback by done.
    destruct (Z.eqb_spec j y) as [->|]; cbn [orb].
    + destruct (Z.leb_spec (y + 1) y); [lia|]. cbn [andb]. by rewrite Z.sub_diag.
    + destruct (Z.leb_spec (y + 1) j); cbn [andb]; [|done]. destruct (_ <? _); [|done].
      by replace (Z.to_nat (j - y)) with (S (Z.to_nat (j - (y + 1)))) by lia.
Qed.

(** The front frame is untouched while the beam is in the frame. *)
Lemma run_lines_front pre : forall post y d,
  Forall (fun s => leaves_frames s.1) (pre ++ post) ->
  beam_lines y (frame_counter (output d)) (map snd (pre ++ post)) -> post <> [] ->
  beam_vpos (output d) = y -> 0 <= y -> y + Z.of_nat (length pre) <= 312 -> frames_ok (output d) ->
  let d' := (run_lines pre d).2 in
  front_idx (output d') = front_idx (output d) /\
  frame (output d') (front_idx (output d)) = frame (output d) (front_idx (output d)).
Proof.
  induction pre as [|[act b] pre IH]; intros post y d Ha Hb Hpost Hy Hy0 Hlen (Hf & H2 & H3); [done|].
  inversion Ha as [|? ? Hact Ha']; subst. cbn [run_lines map snd fst length app] in *.
  pose proof (Hact d) as Hd. set (d1 := act d) in *. apply frames_of_eq in Hd as (E1 & E2 & E3 & E4).
  destruct (beam_lines_tick _ _ b (map snd (pre ++ post)) d1 Hb E3 E4) as (Hc & _ & Hnext).
  destruct Hnext as (N1 & N2 & N3); [by destruct pre, post|].
  pose proof (tick_frames b d1 Hc ltac:(lia) ltac:(by rewrite E2)) as Ht. cbv zeta in Ht.
  set (line := scanline_rgba (output (finish_line d1))) in *.
  set (d2 := (rigel_denise_compositor_tick b d1).2) in *. clearbody d2. rewrite E1, E2, E3, E4, N1, Z.eqb_refl in Ht.
  apply frames_of_eq in Ht as (T1 & T2 & T3 & T4).
  destruct (frames_ok_alter (output d) (Z.to_nat (beam_vpos (output d))) line (Z.to_nat (1 - front_idx (output d))) H2 H3)
    as [A2 A3].
  specialize (IH post (beam_vpos (output d) + 1) d2 Ha'). rewrite T4, T2, T3 in IH.
  destruct (run_lines pre d2) as [lines d']. cbn [snd] in *.
  destruct IH as [I1 I2]; [done|done|lia|lia|lia|split; [by rewrite T2|by rewrite T1]|].
  split; [done|]. rewrite I2. unfold frame. rewrite T1. by rewrite list_lookup_alter_ne by lia.
Qed.

(** C16: double buffering.  Let the beam run through the lines of a frame from the
    top, a tick after every line, with any other activity (register writes,
    fetched words, sprites) before each tick.  Until the last tick the host's
    frame is untouched, whatever has been drawn; after it the host's frame is the
    other one, and its rows are, in order, the lines as they were finished when
    the beam left them. *)
Theorem frame_is_its_lines steps d :
  Forall (fun s => leaves_frames s.1) steps -> beam_lines 0 (frame_counter (output d)) (map snd steps) ->
  beam_vpos (output d) = 0 -> Z.of_nat (length steps) <= 312 -> frames_ok (output d) ->
  let '(lines, d') := run_lines steps d in
  let front o := frame o (front_idx o) in
  length lines = length steps /\
  (forall pre post, steps = pre ++ post -> post <> [] -> front (output (run_lines pre d).2) = front (output d)) /\
  front_idx (output d') = 1 - front_idx (output d) /\
  take (length steps) (front (output d')) = lines.
Proof.
  intros Ha Hb Hy Hlen Hok.
  assert (Hlines : forall steps d, length (run_lines steps d).1 = length steps).
  { clear. induction steps as [|[act b] steps IH]; intros d; [done|]. cbn [run_lines].
    specialize (IH (rigel_denise_compositor_tick b (act d)).2). by destruct (run_lines steps _); cbn in *; f_equal. }
  pose proof (run_lines_frame steps 0 d Ha Hb Hy ltac:(lia) ltac:(lia) Hok) as H.
  specialize (Hlines steps d). destruct (run_lines steps d) as [lines d'] eqn:E. cbn [fst] in Hlines.
  destruct H as (H1 & H2 & H3). cbv zeta. split_and!; [done| |done|].
  - intros pre post -> Hpost. rewrite length_app in Hlen.
    destruct (run_lines_front pre post 0 d Ha Hb Hpost Hy ltac:(lia) ltac:(lia) Hok) as [F1 F2]. by rewrite F1.
  - rewrite H1. apply list_eq. intros i. specialize (H3 (Z.of_nat i) ltac:(lia)). rewrite Z.sub_0_r, Nat2Z.id in H3.
    destruct (decide (i < length steps)%nat) as [Hi|Hi].
    + rewrite lookup_take_lt by done. rewrite H3.
      destruct (Z.leb_spec 0 (Z.of_nat i)), (Z.ltb_spec (Z.of_nat i) (0 + Z.of_nat (length steps))); lia || done.
    + rewrite lookup_take_ge by lia. symmetry. apply lookup_ge_None. lia.
Qed.

Lemma frames_ok_reset o : frames_ok (rigel_denise_framebuffer_reset o).
Proof.
  split; [by left|]. split; [done|]. change (frame_rgba _) with (replicate 2 (replicate 312 blank_line)).
  apply Forall_replicate, length_replicate.
Qed.

Lemma frame_is_its_lines_witness :
  let d := denise_at_reset AGNUS_REV_OCS in
  let steps := [(rigel_denise_registers_write 0x180 0xfff, mkBeam 0 1 227 262 26 255 0 0 0 0 0);
                (rigel_denise_registers_write 0x180 0, mkBeam 0 0 227 262 26 255 0 0 0 0 1)] in
  let o := output (run_lines steps d).2 in
  front_idx o = 1 /\ take 2 (frame o 1) = [replicate 1024 0xffffff; replicate 1024 0].
Proof.
  intros d steps. pose proof (frame_is_its_lines steps d) as H.
  assert (Hc : forall v, leaves_frames (rigel_denise_registers_write 0x180 v)).
  { intros v d'. unfold rigel_denise_registers_write, rigel_denise_color_regs_write. cbn. by destruct (negb _). }
  specialize (H ltac:(repeat constructor; apply Hc) ltac:(cbn; lia) eq_refl ltac:(cbn; lia) (frames_ok_reset _)).
  destruct (run_lines steps d) as [lines d'] eqn:E. destruct H as (_ & _ & H2 & H3). cbv zeta. cbn [snd].
  rewrite H2 in *. split; [done|]. etransitivity; [exact H3|].
  transitivity (run_lines steps d).1; [by rewrite E|]. vm_compute. reflexivity.
Defined.

(** ** The reachable states *)

(** What every reachable state guarantees. *)
Record denise_inv (d : RigelDenise) : Prop := {
  inv_palette : palette_ok (palette d);
  inv_colors : length (color (regs d)) = 32%nat;
  inv_video : video_ok (video d);
  inv_sprites : length (sp (sprites d)) = 8%nat;
  inv_clxdat : is_u16 (clxdat (coll d));
  inv_frames : frames_ok (output d);
  inv_lines : length (scanline_rgba (output d)) = 1024%nat /\ length (scanline_rgb565 (output d)) = 1024%nat;
  inv_ddf : is_u16 (ddfstrt_lores (output d));
  inv_words : 0 <= plane_word_count (output d) <= 64;
}.

(** The fetched words of a line and its mode latches: what Agnus delivers to the
    output state while the line is scanned. *)
Definition fetched (words : list (list Z)) (count con0 con1 con2 : Z) (valid : bool) (ddf : Z) (o : denise_output)
    : denise_output :=
  o <| plane_words := words |> <| plane_word_count := count |> <| line_bplcon0 := con0 |> <| line_bplcon1 := con1 |>
    <| line_bplcon2 := con2 |> <| line_bplcon_valid := valid |> <| ddfstrt_lores := ddf |>.

(** Everything that happens to Denise. *)
Inductive denise_op : RigelDenise -> RigelDenise -> Prop :=
  | op_write addr v d : denise_op d (rigel_denise_registers_write addr v d)
  | op_read addr d : denise_op d (rigel_denise_registers_read addr d).2
  | op_sprite_ctrl i p c d : denise_op d (d <| sprites := denise_sprite_receive_ctrl i p c (sprites d) |>)
  | op_sprite_data i a b d : denise_op d (d <| sprites := denise_sprite_receive_data i a b (sprites d) |>)
  | op_fetch words count con0 con1 con2 valid ddf d :
      0 <= count <= 64 -> is_u16 ddf ->
      denise_op d (d <| output := fetched words count con0 con1 con2 valid ddf (output d) |>)
  | op_step b cycles d : denise_op d (rigel_denise_step b cycles d).2
  | op_target t d : denise_op d (rigel_denise_set_framebuffer_target t d)
  | op_rev r d : denise_op d (rigel_denise_set_chip_rev r d)
  | op_reset d : denise_op d (rigel_denise_reset d).

Lemma inv_ok d : denise_inv d -> denise_ok d.
Proof. intros []. constructor; try done. lia. Qed.

Lemma latch_bit_range b k c : is_u16 (clxdat c) -> is_u16 (clxdat (latch_bit b k c)).
Proof. intros H. unfold latch_bit. destruct b; [|done]. cbn. apply wrap_range. lia. Qed.

Lemma collide_line_range e l c : is_u16 (clxdat c) -> is_u16 (clxdat (collide_line e l c)).
Proof.
  intros Hc. unfold collide_line. destruct (negb _); [|done].
  match goal with |- context [foldl ?f c ?L] => assert (H : forall c, is_u16 (clxdat c) -> is_u16 (clxdat (foldl f c L))) end;
    [|by apply H]. clear c Hc.
  induction (seqZ _ _) as [|x L IH]; intros c Hc; [done|]. cbn [foldl]. apply IH.
  destruct (l !! _) as [p|]; [|done]. destruct (_ && _); [done|].
  unfold collision_check_pixel. cbv zeta. destruct (has _ 0x3f); by repeat apply latch_bit_range.
Qed.

(** The part of the invariant about the output. *)
Definition output_inv (o : denise_output) : Prop :=
  frames_ok o /\ (length (scanline_rgba o) = 1024%nat /\ length (scanline_rgb565 o) = 1024%nat) /\
  is_u16 (ddfstrt_lores o) /\ 0 <= plane_word_count o <= 64.

Lemma inv_build d d' :
  denise_inv d -> palette d' = palette d -> regs d' = regs d -> video d' = video d -> sprites d' = sprites d ->
  is_u16 (clxdat (coll d')) -> output_inv (output d') -> denise_inv d'.
Proof.
  intros [] Hp Hr Hv Hs Hc (? & ? & ? & ?). constructor; rewrite ?Hp, ?Hr, ?Hv, ?Hs; done.
Qed.

Lemma output_inv_of d : denise_inv d -> output_inv (output d).
Proof. by intros []. Qed.

Lemma mark_dirty_inv y o : output_inv o -> output_inv (mark_dirty y o).
Proof. intros H. unfold mark_dirty. by destruct (_ <? _). Qed.

Lemma compose_line_inv d : denise_inv d -> denise_inv (compose_line d).
Proof.
  intros Hi. unfold compose_line. destruct (_ =? 0); [done|]. cbv zeta.
  destruct (line_pixels_at d 0 (inv_ok d Hi) ltac:(lia)) as [Hl _].
  apply (inv_build d); try done; [by apply collide_line_range, Hi|].
  match goal with |- output_inv (output (_ <| output := ?o |>)) => change (output_inv o) end. apply mark_dirty_inv.
  destruct (output_inv_of d Hi) as (? & _ & ? & ?). split; [done|]. split; [|done]. 
  split; (etransitivity; [exact (length_map _ _)|exact Hl]).
Qed.

Lemma clear_scanline_inv d : denise_inv d -> denise_inv (clear_scanline_to_border d).
Proof.
  intros Hi. apply (inv_build d); try done; [by apply Hi|].
  unfold clear_scanline_to_border. cbv zeta.
  match goal with |- output_inv (output (_ <| output := ?o |>)) => change (output_inv o) end. apply mark_dirty_inv.
  destruct (output_inv_of d Hi) as (? & _ & ? & ?). split; [done|]. split; [|done].
  split; exact (length_replicate _ _).
Qed.

Lemma store_line_inv o : output_inv o -> output_inv (store_line o).
Proof.
  intros ((Hf & H2 & H3) & Hl & Hd & Hw). unfold store_line.
  destruct (beam_vpos o <? RIGEL_DENISE_MAX_LINES); [|split_and!; try done; cbn; lia].
  destruct (frames_ok_alter o (Z.to_nat (beam_vpos o)) (scanline_rgba o) (Z.to_nat (u8 (1 .^ front_idx o))) H2 H3).
  split_and!; try done; cbn; lia.
Qed.

Lemma finish_frame_inv o : output_inv o -> output_inv (finish_frame o).
Proof.
  intros ((Hf & H2 & H3) & Hl & Hd & Hw). destruct (finish_frame_frames o Hf) as [E1 E2].
  split; [|done]. split; [rewrite E2; lia|by rewrite E1].
Qed.

Lemma sync_position_inv w fc b o : output_inv o -> output_inv (sync_position w fc b o).
Proof. intros H. unfold sync_position. cbv zeta. by destruct (visible_scanline _). Qed.

Lemma sync_inv b d : denise_inv d -> denise_inv (rigel_denise_framebuffer_sync_from_beam b d).2.
Proof.
  intros Hi. apply (inv_build d); try done; [by apply Hi|].
  unfold rigel_denise_framebuffer_sync_from_beam. cbv zeta. cbn [snd].
  match goal with |- output_inv (output (_ <| output := ?o |>)) => change (output_inv o) end.
  apply sync_position_inv. pose proof (output_inv_of d Hi) as Ho.
  destruct (_ || _); destruct (negb _); auto using store_line_inv, finish_frame_inv.
Qed.

Lemma step_inv b cycles d : denise_inv d -> denise_inv (rigel_denise_step b cycles d).2.
Proof.
  intros Hi. unfold rigel_denise_step, rigel_denise_compositor_tick. cbv zeta.
  set (d1 := if _ && visible_scanline (output d) then compose_line d else _).
  assert (H1 : denise_inv d1).
  { unfold d1. destruct (_ && _); [by apply compose_line_inv|]. destruct (_ || _); [by apply clear_scanline_inv|done]. }
  clearbody d1. pose proof (sync_inv b d1 H1) as H2.
  destruct (rigel_denise_framebuffer_sync_from_beam b d1) as [w d2]. cbn [snd] in *.
  set (d3 := if _ && negb _ && _ then compose_line d2 else d2).
  assert (H3 : denise_inv d3) by (unfold d3; destruct (_ && _); [by apply compose_line_inv|done]). clearbody d3.
  destruct H3. by constructor.
Qed.

Lemma set_attached_length i c s : length (sp (set_attached i c s)) = length (sp s).
Proof. unfold set_attached. by repeat case_match. Qed.

Lemma write_sprite_reg_length addr v s : length (sp (write_sprite_reg addr v s)) = length (sp s).
Proof.
  unfold write_sprite_reg. cbv zeta. repeat case_match; rewrite ?set_attached_length; try done; apply length_alter.
Qed.

Lemma write_inv addr v d : denise_inv d -> denise_inv (rigel_denise_registers_write addr v d).
Proof.
  intros Hi. pose proof Hi as [Hp Hc Hv Hs Hx _ _ _ _]. pose proof (output_inv_of d Hi) as Ho.
  set (d' := rigel_denise_registers_write addr v d).
  cut (length (color (regs d')) = 32%nat /\ length (sp (sprites d')) = 8%nat /\ is_u16 (clxdat (coll d')) /\ output_inv (output d')).
  { intros (Hc' & Hs' & Hx' & ? & ? & ? & ?). constructor; try done.
    - by apply registers_write_palette.
    - by apply registers_write_video_ok. }
  destruct (is_color_reg addr) eqn:Ec.
  - unfold d', rigel_denise_registers_write. rewrite Ec. unfold rigel_denise_color_regs_write. destruct (_ || _); [done|].
    cbv zeta. destruct (negb _); (split; [etransitivity; [exact (length_insert _ _ _)|exact Hc]|done]).
  - destruct (registers_write_frame addr v d Ec) as (_ & E1 & E2 & E3). fold d' in E1, E2, E3. rewrite E1, E2.
    split_and!; [done| |done|by destruct E3 as [-> | ->]].
    unfold d', rigel_denise_registers_write. rewrite Ec.
    destruct (is_sprite_reg addr); [etransitivity; [exact (write_sprite_reg_length _ _ _)|exact Hs]|]. cbv zeta.
    destruct (write_mode_reg_frame addr v d) as (_ & E4 & _).
    destruct (is_mode_reg addr), (video_changed _ _); by etransitivity; [exact (f_equal (fun s => length (sp s)) E4)|].
Qed.

Lemma reset_inv d : length (color (regs d)) = 32%nat -> denise_inv (rigel_denise_reset d).
Proof.
  intros Hc. constructor.
  - apply palette_ok_reset.
  - exact Hc.
  - apply video_ok_reset.
  - done.
  - apply (in_width_0 16). lia.
  - apply frames_ok_reset.
  - split; exact (length_replicate _ _).
  - apply (in_width_0 16). lia.
  - cbn. lia.
Qed.

Lemma op_inv d d' : denise_op d d' -> denise_inv d -> denise_inv d'.
Proof.
  intros [addr v|addr|i p c|i a b|words count con0 con1 con2 valid ddf ? Hn Hf|b cycles|t|r|] Hi.
  - by apply write_inv.
  - unfold rigel_denise_registers_read. cbv zeta.
    destruct (is_color_reg addr); [done|]. destruct (addr =? RIGEL_REG_DENISEID); [done|].
    destruct (addr =? RIGEL_REG_CLXDAT); [|by repeat case_match].
    apply (inv_build d0); [done..|apply (in_width_0 16); lia|exact (output_inv_of d0 Hi)].
  - destruct Hi. constructor; try done. unfold denise_sprite_receive_ctrl. destruct (_ <=? _); [done|].
    etransitivity; [exact (set_attached_length _ _ _)|]. etransitivity; [exact (length_alter _ _ _)|done].
  - destruct Hi. constructor; try done. unfold denise_sprite_receive_data. destruct (_ <=? _); [done|].
    etransitivity; [exact (length_alter _ _ _)|done].
  - destruct Hi. by constructor.
  - by apply step_inv.
  - destruct Hi. unfold rigel_denise_set_framebuffer_target, rigel_denise_framebuffer_set_target.
    destruct t as [t|]; [|by constructor]. destruct (t_pixels t); [|by constructor].
    destruct (_ || _ || _); [by constructor|]. destruct (_ <? _); by constructor.
  - unfold rigel_denise_set_chip_rev. set (d1 := d0 <| chip_rev := r |>).
    destruct (display_window_update_frame d1) as (E1 & E2 & E3 & E4 & E5 & _).
    destruct Hi. constructor; rewrite ?E1, ?E2, ?E3, ?E4, ?E5; try done. by apply display_window_update_ok.
  - apply reset_inv, Hi.
Qed.

(** The invariant of Denise.  In every state reachable from a reset by register
    accesses, sprite and bitplane deliveries, steps with any beam, framebuffer
    targets, chip revisions and resets: there are 32 colours, the same in both
    formats, and eight sprites; the display window is a rectangle of the raster;
    the scanlines have 1024 pixels, the two frames 312 lines, and the front frame
    is one of the two; so a line can be composed, exported and stored. *)
Theorem denise_reachable_invariant d0 d :
  length (color (regs d0)) = 32%nat -> rtc denise_op (rigel_denise_reset d0) d -> denise_inv d /\ denise_ok d.
Proof.
  intros Hc Hr. cut (denise_inv d); [intros H; split; [done|by apply inv_ok]|].
  pose proof (reset_inv d0 Hc) as H0.
  revert H0. induction Hr as [|? ? ? Hop Hr IH]; [done|]. intros H0. apply IH. by apply (op_inv _ _ Hop).
Qed.

Lemma denise_reachable_invariant_witness :
  denise_inv (rigel_denise_registers_write 0x180 0xfff (denise_at_reset AGNUS_REV_OCS)).
Proof.
  destruct (denise_reachable_invariant (blank_denise AGNUS_REV_OCS)
    (rigel_denise_registers_write 0x180 0xfff (denise_at_reset AGNUS_REV_OCS))) as [H _];
    [reflexivity|apply rtc_once, op_write|exact H].
Defined.
