(* ===== verification/Rtc.v ===== *)
(** * The real-time clock: [rtc/rtc.c]

    The battery-backed clock of the machine in its two models.  The registers
    are four banks of sixteen nibbles; bank 0 is the image of the calendar time,
    recomputed from the host's clock plus an offset at every access, and a write
    to it sets the offset so that the registers it leaves spell the new time.

    The host gives the clock and the calendar conversions: its callbacks where
    it has them, the C library otherwise ([rtc_lib], a parameter).  One call of
    the library reads the host's clock once. *)

From S2P Require Import Prelude.

(** C: [src/include/rigel/rigel_rtc.h]:8-12 [rigel_rtc_model_t] *)
Inductive rtc_model := RIGEL_RTC_MODEL_NONE | RIGEL_RTC_MODEL_OKI | RIGEL_RTC_MODEL_RICOH.

#[export] Instance rtc_model_eq_dec : EqDecision rtc_model.
Proof. solve_decision. Defined.

(** C's [struct tm]. *)
Record tm := mkTm {
  tm_sec : Z; tm_min : Z; tm_hour : Z; tm_mday : Z; tm_mon : Z; tm_year : Z;
  tm_wday : Z; tm_yday : Z; tm_isdst : Z;
}.

(** The host's callbacks, each possibly null; [now] is the reading of the clock.
    C: [src/include/rigel/rigel_rtc.h]:21-26 [rigel_rtc_host_t] *)
Record rtc_host := mkHost {
  now : option Z;
  to_calendar : option (Z -> option tm);
  from_calendar : option (tm -> option Z);
}.

(** The C library: [time], [localtime_r] and [mktime]. *)
Record rtc_lib := mkLib {
  lib_time : Z;
  lib_localtime : Z -> option tm;
  lib_mktime : tm -> Z;
}.

(** C: [src/src/rtc/rtc.h]:8-13 [RigelRTC] *)
Record RigelRTC := mkRtc {
  rtc_kind : rtc_model;
  rtc_regs : list (list Z);
  time_offset : Z;
  rtc_hst : rtc_host;
}.

#[export] Instance eta_rtc : Eta RigelRTC := fun r =>
  mkRtc (rtc_kind r) (rtc_regs r) (time_offset r) (rtc_hst r).

(** The array [reg[4][16]]. *)
Definition rtc_reg (r : RigelRTC) (bank nr : Z) : Z :=
  default 0 (default [] (rtc_regs r !! Z.to_nat bank) !! Z.to_nat nr).

Definition rtc_set_reg (bank nr value : Z) (r : RigelRTC) : RigelRTC :=
  r <| rtc_regs := alter (fun b => <[Z.to_nat nr := value]> b) (Z.to_nat bank) (rtc_regs r) |>.

(** ** Digits *)

(** C: [src/src/rtc/rtc.c] [rtc_nibble] *)
Definition rtc_nibble (v : Z) : Z := u8 (v .& 0x0f).
(** C: [src/src/rtc/rtc.c] [rtc_bcd_lo] *)
Definition rtc_bcd_lo (v : Z) : Z := u8 (Z.rem v 10).
(** C: [src/src/rtc/rtc.c] [rtc_bcd_hi] *)
Definition rtc_bcd_hi (v : Z) : Z := u8 (Z.quot v 10).
(** C: [src/src/rtc/rtc.c] [rtc_from_bcd] *)
Definition rtc_from_bcd (lo hi : Z) : Z := rtc_nibble lo + 10 * rtc_nibble hi.

(** C: [src/src/rtc/rtc.c] [rtc_bank_internal] *)
Definition rtc_bank_internal (r : RigelRTC) : Z := u8 (rtc_reg r 0 0xd .& 0x03).
(** C: [src/src/rtc/rtc.c] [rtc_current_bank] *)
Definition rtc_current_bank (r : RigelRTC) : Z := rtc_bank_internal r.

(** C: [src/src/rtc/rtc.c] [rtc_apply_model_defaults] *)
Definition rtc_apply_model_defaults (r : RigelRTC) : RigelRTC :=
  let r := r <| rtc_regs := replicate 4 (replicate 16 0) |> in
  match rtc_kind r with
  | RIGEL_RTC_MODEL_OKI =>
      rtc_set_reg 0 0xf 0x4 (rtc_set_reg 0 0xe 0x0 (rtc_set_reg 0 0xd 0x1 r))
  | RIGEL_RTC_MODEL_RICOH =>
      rtc_set_reg 0 0xf 0x0 (rtc_set_reg 0 0xe 0x0 (rtc_set_reg 0 0xd 0x8 r))
  | RIGEL_RTC_MODEL_NONE => r
  end.

(** ** Calendar time to registers *)

(** The hour shown and the PM flag.
    C: [src/src/rtc/rtc.c]:132-142 [rtc_time_to_regs_oki] *)
Definition rtc_clock_hour (is_24h : bool) (hour : Z) : Z * bool :=
  if is_24h then (hour, false)
  else if hour =? 0 then (12, false)
  else if hour =? 12 then (hour, true)
  else if 12 <? hour then (hour - 12, true)
  else (hour, false).

(** C: [src/src/rtc/rtc.c] [rtc_time_to_regs_oki] *)
Definition rtc_time_to_regs_oki (t : tm) (r : RigelRTC) : RigelRTC :=
  let is_24h := has (rtc_reg r 0 0xf) 0x4 in
  let r := rtc_set_reg 0 0x0 (rtc_bcd_lo (tm_sec t)) r in
  let r := rtc_set_reg 0 0x1 (rtc_bcd_hi (tm_sec t)) r in
  let r := rtc_set_reg 0 0x2 (rtc_bcd_lo (tm_min t)) r in
  let r := rtc_set_reg 0 0x3 (rtc_bcd_hi (tm_min t)) r in
  let '(hour, pm) := rtc_clock_hour is_24h (tm_hour t) in
  let r := rtc_set_reg 0 0x4 (rtc_bcd_lo hour) r in
  let r := rtc_set_reg 0 0x5 (rtc_bcd_hi hour) r in
  let r := if negb is_24h && pm then rtc_set_reg 0 0x5 (u8 (rtc_reg r 0 0x5 .| 0x4)) r else r in
  let r := rtc_set_reg 0 0x6 (rtc_bcd_lo (tm_mday t)) r in
  let r := rtc_set_reg 0 0x7 (rtc_bcd_hi (tm_mday t)) r in
  let r := rtc_set_reg 0 0x8 (rtc_bcd_lo (tm_mon t + 1)) r in
  let r := rtc_set_reg 0 0x9 (rtc_bcd_hi (tm_mon t + 1)) r in
  let r := rtc_set_reg 0 0xa (rtc_bcd_lo (Z.rem (tm_year t) 100)) r in
  let r := rtc_set_reg 0 0xb (rtc_bcd_hi (Z.rem (tm_year t) 100)) r in
  rtc_set_reg 0 0xc (u8 (tm_wday t .& 0x0f)) r.

(** The masks of the alarm bank.
    C: [src/src/rtc/rtc.c]:209-221 [rtc_time_to_regs_ricoh] *)
Definition ricoh_alarm_masks : list Z :=
  [0x0; 0x0; 0xf; 0x7; 0xf; 0x3; 0x7; 0xf; 0x3; 0x0; 0x1; 0x3; 0x0].

(** C: [src/src/rtc/rtc.c] [rtc_time_to_regs_ricoh] *)
Definition rtc_time_to_regs_ricoh (t : tm) (r : RigelRTC) : RigelRTC :=
  let is_24h := has (rtc_reg r 0 0xa) 0x1 in
  let r := rtc_set_reg 0 0x0 (rtc_bcd_lo (tm_sec t)) r in
  let r := rtc_set_reg 0 0x1 (rtc_bcd_hi (tm_sec t)) r in
  let r := rtc_set_reg 0 0x2 (rtc_bcd_lo (tm_min t)) r in
  let r := rtc_set_reg 0 0x3 (rtc_bcd_hi (tm_min t)) r in
  let '(hour, pm) := rtc_clock_hour is_24h (tm_hour t) in
  let r := rtc_set_reg 0 0x4 (rtc_bcd_lo hour) r in
  let r := rtc_set_reg 0 0x5 (rtc_bcd_hi hour) r in
  let r := if negb is_24h && pm then rtc_set_reg 0 0x5 (u8 (rtc_reg r 0 0x5 .| 0x2)) r else r in
  let r := rtc_set_reg 0 0x6 (u8 (Z.quot (tm_yday t) 7 .& 0x0f)) r in
  let r := rtc_set_reg 0 0x7 (rtc_bcd_lo (tm_mday t)) r in
  let r := rtc_set_reg 0 0x8 (rtc_bcd_hi (tm_mday t)) r in
  let r := rtc_set_reg 0 0x9 (rtc_bcd_lo (tm_mon t + 1)) r in
  let r := rtc_set_reg 0 0xa
             (u8 ((rtc_reg r 0 0xa .& 0x1) .| (rtc_bcd_hi (tm_mon t + 1) .<< 1))) r in
  let r := rtc_set_reg 0 0xb (rtc_bcd_lo (Z.rem (tm_year t) 100)) r in
  let r := rtc_set_reg 0 0xc (rtc_bcd_hi (Z.rem (tm_year t) 100)) r in
  let r := rtc_set_reg 0 0xa (u8 (rtc_reg r 0 0xa .& 0x03)) r in
  foldl (fun r '(nr, mask) => rtc_set_reg 1 nr (u8 (rtc_reg r 1 nr .& mask)) r) r
    (zip (seqZ 0 13) ricoh_alarm_masks).

(** ** Registers to calendar time *)

(** The hour of the day from the hour shown.
    C: [src/src/rtc/rtc.c]:263-269 [rtc_regs_to_time_oki] *)
Definition rtc_day_hour (is_24h pm : bool) (hour : Z) : Z :=
  if is_24h then hour
  else if hour =? 12 then if pm then 12 else 0
  else if pm then hour + 12 else hour.

(** C: [src/src/rtc/rtc.c] [rtc_regs_to_time_oki] *)
Definition rtc_regs_to_time_oki (r : RigelRTC) : tm :=
  let reg := rtc_reg r 0 in
  let hour := rtc_from_bcd (reg 0x4) (reg 0x5 .& 0x3) in
  let year := rtc_from_bcd (reg 0xa) (reg 0xb) in
  {| tm_sec := rtc_from_bcd (reg 0x0) (reg 0x1);
     tm_min := rtc_from_bcd (reg 0x2) (reg 0x3);
     tm_hour := rtc_day_hour (has (reg 0xf) 0x4) (has (reg 0x5) 0x4) hour;
     tm_mday := rtc_from_bcd (reg 0x6) (reg 0x7);
     tm_mon := rtc_from_bcd (reg 0x8) (reg 0x9) - 1;
     tm_year := year + if year <? 70 then 100 else 0;
     tm_wday := 0; tm_yday := 0; tm_isdst := 0 |}.

(** C: [src/src/rtc/rtc.c] [rtc_regs_to_time_ricoh] *)
Definition rtc_regs_to_time_ricoh (r : RigelRTC) : tm :=
  let reg := rtc_reg r 0 in
  let hour := rtc_from_bcd (reg 0x4) (reg 0x5 .& 0x1) in
  let mon_hi := (reg 0xa .>> 1) .& 0x1 in
  let year := rtc_from_bcd (reg 0xb) (reg 0xc) in
  {| tm_sec := rtc_from_bcd (reg 0x0) (reg 0x1);
     tm_min := rtc_from_bcd (reg 0x2) (reg 0x3);
     tm_hour := rtc_day_hour (has (reg 0xa) 0x1) (has (reg 0x5) 0x2) hour;
     tm_mday := rtc_from_bcd (reg 0x7) (reg 0x8);
     tm_mon := rtc_nibble (reg 0x9) + 10 * mon_hi - 1;
     tm_year := year + if year <? 70 then 100 else 0;
     tm_wday := 0; tm_yday := 0; tm_isdst := 0 |}.

(** ** The host *)

Section rtc.
Variable lib : rtc_lib.

(** C: [src/src/rtc/rtc.c] [rtc_host_now] *)
Definition rtc_host_now (r : RigelRTC) : Z :=
  match now (rtc_hst r) with Some t => t | None => lib_time lib end.

(** C: [src/src/rtc/rtc.c] [rtc_host_to_calendar] *)
Definition rtc_host_to_calendar (r : RigelRTC) (value : Z) : option tm :=
  match to_calendar (rtc_hst r) with
  | Some conv => conv value
  | None => lib_localtime lib value
  end.

(** C: [src/src/rtc/rtc.c] [rtc_host_from_calendar] *)
Definition rtc_host_from_calendar (r : RigelRTC) (calendar : tm) : option Z :=
  match from_calendar (rtc_hst r) with
  | Some conv => conv calendar
  | None => let value := lib_mktime lib calendar in
            if value =? -1 then None else Some value
  end.

(** ** Time *)

(** C: [src/src/rtc/rtc.c] [rtc_get_time] *)
Definition rtc_get_time (r : RigelRTC) : Z :=
  match rtc_kind r with
  | RIGEL_RTC_MODEL_NONE => rtc_host_now r
  | _ => sign_extend 64 (rtc_host_now r + time_offset r)
  end.

(** C: [src/src/rtc/rtc.c] [rtc_set_time] *)
Definition rtc_set_time (t : Z) (r : RigelRTC) : RigelRTC :=
  r <| time_offset := sign_extend 64 (t - rtc_host_now r) |>.

(** C: [src/src/rtc/rtc.c] [rtc_time_to_regs] *)
Definition rtc_time_to_regs (r : RigelRTC) : RigelRTC :=
  match rtc_kind r with
  | RIGEL_RTC_MODEL_NONE => r
  | kind =>
      match rtc_host_to_calendar r (rtc_get_time r) with
      | None => r
      | Some t =>
          match kind with
          | RIGEL_RTC_MODEL_OKI => rtc_time_to_regs_oki t r
          | RIGEL_RTC_MODEL_RICOH => rtc_time_to_regs_ricoh t r
          | RIGEL_RTC_MODEL_NONE => r
          end
      end
  end.

(** The calendar time the registers of the model spell.
    C: [src/src/rtc/rtc.c]:319-332 [rtc_regs_to_time] *)
Definition rtc_spelled (r : RigelRTC) : option tm :=
  match rtc_kind r with
  | RIGEL_RTC_MODEL_OKI => Some (rtc_regs_to_time_oki r)
  | RIGEL_RTC_MODEL_RICOH => Some (rtc_regs_to_time_ricoh r)
  | RIGEL_RTC_MODEL_NONE => None
  end.

(** C: [src/src/rtc/rtc.c] [rtc_regs_to_time] *)
Definition rtc_regs_to_time (r : RigelRTC) : RigelRTC :=
  match t ← rtc_spelled r; rtc_host_from_calendar r t with
  | Some new_time => rtc_set_time new_time r
  | None => r
  end.

(** C: [src/src/rtc/rtc.c] [rtc_update] *)
Definition rtc_update (r : RigelRTC) : RigelRTC := rtc_time_to_regs r.

(** ** Lifecycle *)

(** C: [src/src/rtc/rtc.c] [rtc_init] *)
Definition rtc_init (model : rtc_model) : RigelRTC :=
  rtc_update (rtc_apply_model_defaults
    (mkRtc model (replicate 4 (replicate 16 0)) 0 (mkHost None None None))).

(** C: [src/src/rtc/rtc.c] [rtc_reset] *)
Definition rtc_reset (r : RigelRTC) : RigelRTC :=
  rtc_update (rtc_apply_model_defaults (r <| rtc_regs := replicate 4 (replicate 16 0) |>)).

(** C: [src/src/rtc/rtc.c] [rtc_set_host] *)
Definition rtc_set_host (host : option rtc_host) (r : RigelRTC) : RigelRTC :=
  r <| rtc_hst := default (mkHost None None None) host |>.

(** C: [src/src/rtc/rtc.c] [rtc_set_model] *)
Definition rtc_set_model (model : rtc_model) (r : RigelRTC) : RigelRTC :=
  rtc_update (rtc_apply_model_defaults (r <| rtc_kind := model |>)).

(** C: [src/src/rtc/rtc.c] [rtc_get_model] *)
Definition rtc_get_model (r : RigelRTC) : rtc_model := rtc_kind r.

(** ** Register access *)

(** C: [src/src/rtc/rtc.c] [rtc_read_special] *)
Definition rtc_read_special (r : RigelRTC) (nr : Z) : Z := rtc_nibble (rtc_reg r 0 nr).

(** C: [src/src/rtc/rtc.c] [rtc_write_special] *)
Definition rtc_write_special (nr value : Z) (r : RigelRTC) : RigelRTC :=
  rtc_set_reg 0 nr (rtc_nibble value) r.

(** C: [src/src/rtc/rtc.c] [rtc_read_reg] *)
Definition rtc_read_reg (nr : Z) (r : RigelRTC) : Z * RigelRTC :=
  match rtc_kind r with
  | RIGEL_RTC_MODEL_NONE => (0, r)
  | _ =>
      let r := rtc_update r in
      if (nr =? 0xd) || (nr =? 0xe) || (nr =? 0xf) then (rtc_read_special r nr, r)
      else (rtc_nibble (rtc_reg r (rtc_bank_internal r) nr), r)
  end.

(** C: [src/src/rtc/rtc.c] [rtc_write_reg] *)
Definition rtc_write_reg (nr value : Z) (r : RigelRTC) : RigelRTC :=
  match rtc_kind r with
  | RIGEL_RTC_MODEL_NONE => r
  | _ =>
      let nibble := rtc_nibble value in
      if (nr =? 0xd) || (nr =? 0xe) || (nr =? 0xf) then rtc_write_special nr nibble r
      else
        let r := rtc_update r in
        let bank := rtc_bank_internal r in
        let r := rtc_set_reg bank nr nibble r in
        if bank =? 0 then rtc_regs_to_time r else r
  end.

(** ** The library's entry points: [rigel.c] *)

(** C: [src/src/core/rigel.c] [rigel_rtc_read_reg] *)
Definition rigel_rtc_read_reg (reg : Z) (r : RigelRTC) : Z * RigelRTC :=
  if 16 <=? reg then (0, r) else rtc_read_reg reg r.

(** C: [src/src/core/rigel.c] [rigel_rtc_write_reg] *)
Definition rigel_rtc_write_reg (reg value : Z) (r : RigelRTC) : RigelRTC :=
  if 16 <=? reg then r else rtc_write_reg reg value r.

(** C: [src/src/core/rigel.c] [rigel_rtc_set_time] *)
Definition rigel_rtc_set_time (value : Z) (r : RigelRTC) : RigelRTC :=
  rtc_update (rtc_set_time value r).

End rtc.
