(* ===== verification/RtcFacts.v ===== *)
(** * Properties of the real-time clock

    The registers spell the calendar time of the host's clock plus the offset,
    in both models and hour modes; a write that leaves a normal date sets the
    clock to it.  At the end: where the models differ from the chips. *)

From S2P Require Import Prelude Rtc.
(** Four banks of sixteen registers. *)
Definition rtc_ok (r : RigelRTC) : Prop :=
  length (rtc_regs r) = 4%nat /\ Forall (fun b => length b = 16%nat) (rtc_regs r).

Lemma rtc_set_reg_ok bank nr v r : rtc_ok r -> rtc_ok (rtc_set_reg bank nr v r).
Proof.
  intros [Hl Hb]. split; cbn; [by rewrite length_alter|].
  apply Forall_alter; [done|]. intros b _ Hlen. by rewrite length_insert.
Qed.

Lemma rtc_reg_set bank nr v r b n :
  rtc_ok r -> 0 <= bank < 4 -> 0 <= nr < 16 -> 0 <= b -> 0 <= n ->
  rtc_reg (rtc_set_reg bank nr v r) b n =
  if (bank =? b) && (nr =? n) then v else rtc_reg r b n.
Proof.
  intros [Hl Hb] Hbank Hnr Hb0 Hn0. unfold rtc_reg. cbn.
  destruct (Z.eqb_spec bank b) as [<-|Hne]; cbn;
    [|by rewrite list_lookup_alter_ne by lia].
  rewrite list_lookup_alter_eq.
  destruct (rtc_regs r !! Z.to_nat bank) as [l|] eqn:E;
    [|apply lookup_ge_None in E; lia].
  assert (length l = 16%nat) by (eapply Forall_lookup_1 in Hb; done). cbn.
  destruct (Z.eqb_spec nr n) as [<-|Hne]; cbn.
  - by rewrite list_lookup_insert_eq by lia.
  - by rewrite list_lookup_insert_ne by lia.
Qed.

Create HintDb rtc discriminated.
#[local] Hint Resolve rtc_set_reg_ok : rtc.

(** Reading registers after a sequence of register writes. *)
#[local] Ltac read_regs :=
  repeat (rewrite rtc_reg_set by (first [lia | eauto 30 with rtc]); cbn [Z.eqb Pos.eqb andb]).

(** A calendar time the registers can show: no leap second, years 1970 to 2069. *)
Record tm_shown (t : tm) : Prop := {
  shown_sec : 0 <= tm_sec t < 60;
  shown_min : 0 <= tm_min t < 60;
  shown_hour : 0 <= tm_hour t < 24;
  shown_mday : 1 <= tm_mday t <= 31;
  shown_mon : 0 <= tm_mon t < 12;
  shown_year : 70 <= tm_year t < 170;
}.

(** The part of a calendar time the registers hold. *)
Definition tm_date (t : tm) : tm :=
  mkTm (tm_sec t) (tm_min t) (tm_hour t) (tm_mday t) (tm_mon t) (tm_year t) 0 0 0.

Lemma bcd_roundtrip v : 0 <= v < 100 -> rtc_from_bcd (rtc_bcd_lo v) (rtc_bcd_hi v) = v.
Proof.
  intros Hv. apply Z.eqb_eq.
  apply (below_forall 100 (fun v => rtc_from_bcd (rtc_bcd_lo v) (rtc_bcd_hi v) =? v));
    [vm_compute; reflexivity|lia].
Qed.

(** The hour survives both clock modes; the PM flag is bit [k] of the tens
    digit, whose mask is [2^k - 1]. *)
Definition hour_field (k : Z) (is_24h : bool) (h : Z) : Z :=
  let '(hour, pm) := rtc_clock_hour is_24h h in
  let hi := rtc_bcd_hi hour in
  let hi := if negb is_24h && pm then u8 (hi .| 2 ^ k) else hi in
  rtc_day_hour is_24h (has hi (2 ^ k))
    (rtc_from_bcd (rtc_bcd_lo hour) (hi .& (2 ^ k - 1))).

Lemma hour_roundtrip_12h k h : k = 1 \/ k = 2 -> 0 <= h < 24 -> hour_field k false h = h.
Proof.
  intros Hk Hh. apply Z.eqb_eq. destruct Hk as [-> | ->];
    apply (below_forall 24 (fun h => hour_field _ false h =? h)); try lia;
    vm_compute; reflexivity.
Qed.

Lemma hour_roundtrip_24h h : 0 <= h < 24 -> hour_field 2 true h = h.
Proof.
  intros Hh. apply Z.eqb_eq. apply (below_forall 24 (fun h => hour_field 2 true h =? h)); try lia.
  vm_compute; reflexivity.
Qed.

Lemma year_digits y : 70 <= y < 170 ->
  let v := rtc_from_bcd (rtc_bcd_lo (Z.rem y 100)) (rtc_bcd_hi (Z.rem y 100)) in
  v + (if v <? 70 then 100 else 0) = y.
Proof.
  intros Hy v. subst v. rewrite Z.rem_mod_nonneg by lia.
  pose proof (Z.mod_pos_bound y 100 ltac:(lia)). pose proof (Z.div_mod y 100 ltac:(lia)).
  rewrite bcd_roundtrip by lia. destruct (Z.ltb_spec (y mod 100) 70); nia.
Qed.

(** The 24 h flag, bit [k] of the register [nr]. *)
Definition oki_24h (r : RigelRTC) : bool := has (rtc_reg r 0 0xf) 0x4.
Definition ricoh_24h (r : RigelRTC) : bool := has (rtc_reg r 0 0xa) 0x1.

Lemma oki_spells t r :
  rtc_ok r -> tm_shown t -> rtc_regs_to_time_oki (rtc_time_to_regs_oki t r) = tm_date t.
Proof.
  intros Hok [Hs Hm Hh Hd Hmo Hy].
  unfold rtc_time_to_regs_oki, rtc_regs_to_time_oki. cbv zeta.
  pose proof (hour_roundtrip_12h 2 (tm_hour t) ltac:(auto) Hh) as H12.
  pose proof (hour_roundtrip_24h (tm_hour t) Hh) as H24.
  unfold hour_field in H12, H24.
  pose proof (year_digits _ Hy) as HY. cbv zeta in HY.
  fold (oki_24h r). destruct (oki_24h r) eqn:E24; unfold oki_24h in E24.
  - cbn [rtc_clock_hour negb andb]. unfold tm_date. f_equal; read_regs; rewrite ?E24.
    all: rewrite ?bcd_roundtrip by lia; try lia; done.
  - destruct (rtc_clock_hour false (tm_hour t)) as [h12 pm12] eqn:EH.
    cbn [negb andb] in *.
    unfold tm_date. destruct pm12; f_equal; read_regs; rewrite ?E24.
    all: rewrite ?bcd_roundtrip by lia; try lia; done.
Qed.

Lemma alarm_masks_ok l r :
  Forall (fun p => 0 <= p.1 < 16) l -> rtc_ok r ->
  let r' := foldl (fun r '(nr, mask) => rtc_set_reg 1 nr (u8 (rtc_reg r 1 nr .& mask)) r) r l in
  rtc_ok r' /\ forall n, 0 <= n -> rtc_reg r' 0 n = rtc_reg r 0 n.
Proof.
  intros Hl. revert r. induction Hl as [|[nr mask] l Hp _ IH]; intros r Hok; [done|].
  cbn [foldl]. destruct (IH (rtc_set_reg 1 nr (u8 (rtc_reg r 1 nr .& mask)) r)) as [Hok' Hr];
    [auto with rtc|].
  split; [done|]. intros n Hn. rewrite Hr by done. by rewrite rtc_reg_set by (done || lia).
Qed.

(** The tens of the month share their register with the 24 h flag. *)
Lemma month_digits m f : 0 <= m < 12 -> f = 0 \/ f = 1 ->
  let a := u8 (u8 (f .| (rtc_bcd_hi (m + 1) .<< 1)) .& 3) in
  rtc_nibble (rtc_bcd_lo (m + 1)) + 10 * ((a .>> 1) .& 1) - 1 = m /\ a .& 1 = f.
Proof.
  intros Hm Hf a. subst a.
  enough (E : (rtc_nibble (rtc_bcd_lo (m + 1)) + 10 *
    ((u8 (u8 (f .| (rtc_bcd_hi (m + 1) .<< 1)) .& 3) .>> 1) .& 1) - 1 =? m) &&
    (u8 (u8 (f .| (rtc_bcd_hi (m + 1) .<< 1)) .& 3) .& 1 =? f) = true) by lia.
  destruct Hf as [-> | ->];
  [apply (below_forall 12 (fun m => (rtc_nibble (rtc_bcd_lo (m + 1)) + 10 *
    ((u8 (u8 (0 .| (rtc_bcd_hi (m + 1) .<< 1)) .& 3) .>> 1) .& 1) - 1 =? m) &&
    (u8 (u8 (0 .| (rtc_bcd_hi (m + 1) .<< 1)) .& 3) .& 1 =? 0)))
  |apply (below_forall 12 (fun m => (rtc_nibble (rtc_bcd_lo (m + 1)) + 10 *
    ((u8 (u8 (1 .| (rtc_bcd_hi (m + 1) .<< 1)) .& 3) .>> 1) .& 1) - 1 =? m) &&
    (u8 (u8 (1 .| (rtc_bcd_hi (m + 1) .<< 1)) .& 3) .& 1 =? 1)))]; try lia;
    vm_compute; reflexivity.
Qed.

Lemma hour_roundtrip_24h_ricoh h : 0 <= h < 20 -> hour_field 1 true h = h.
Proof.
  intros Hh. apply Z.eqb_eq. apply (below_forall 20 (fun h => hour_field 1 true h =? h)); try lia.
  vm_compute; reflexivity.
Qed.

Lemma ricoh_spells t r :
  rtc_ok r -> tm_shown t -> (ricoh_24h r = true -> tm_hour t < 20) ->
  rtc_regs_to_time_ricoh (rtc_time_to_regs_ricoh t r) = tm_date t.
Proof.
  intros Hok [Hs Hm Hh Hd Hmo Hy] H20.
  unfold rtc_time_to_regs_ricoh. cbv zeta.
  pose proof (hour_roundtrip_12h 1 (tm_hour t) ltac:(auto) Hh) as H12.
  pose proof (hour_roundtrip_24h_ricoh (tm_hour t)) as H24.
  unfold hour_field in H12, H24.
  pose proof (year_digits _ Hy) as HY. cbv zeta in HY.
  assert (Hf : rtc_reg r 0 10 .& 1 = 0 \/ rtc_reg r 0 10 .& 1 = 1).
  { rewrite land_1. destruct (Z.testbit _ 0); auto. }
  destruct (month_digits (tm_mon t) _ Hmo Hf) as [HM HF]. cbv zeta in HM, HF.
  assert (E24 : has (rtc_reg r 0 10) 1 = ricoh_24h r) by done. rewrite E24.
  destruct (rtc_clock_hour (ricoh_24h r) (tm_hour t)) as [hour pm] eqn:EH.
  set (masks := zip _ _).
  match goal with |- rtc_regs_to_time_ricoh (foldl ?f ?r0 ?l) = _ =>
    assert (Hok0 : rtc_ok r0) by (repeat case_match; eauto 30 with rtc);
    destruct (alarm_masks_ok l r0) as [_ Hr]; [repeat constructor; cbn; lia|exact Hok0|];
    set (r' := foldl f r0 l) in *; clearbody r'; clear Hok0
  end.
  unfold rtc_regs_to_time_ricoh. rewrite !Hr by lia. clear Hr r'.
  destruct (ricoh_24h r) eqn:E; cbn [negb andb] in *; [|destruct pm]; unfold tm_date; f_equal.
  all: read_regs.
  all: rewrite ?bcd_roundtrip by lia; try lia; try done.
  (* what is left: the hour, in the three cases *)
  all: match goal with |- rtc_day_hour (has ?a 1) _ _ = _ =>
         assert (HA : has a 1 = has (rtc_reg r 0 10) 1) by (unfold has; by rewrite HF)
       end; rewrite HA, E24.
  - cbn in EH. injection EH as <- _. apply H24. specialize (H20 eq_refl). lia.
  - rewrite EH in H12. exact H12.
  - rewrite EH in H12. exact H12.
Qed.

(** What register writes change: the registers only. *)
Definition regs_only (r r' : RigelRTC) : Prop :=
  rtc_kind r' = rtc_kind r /\ rtc_hst r' = rtc_hst r /\ time_offset r' = time_offset r /\
  (rtc_ok r -> rtc_ok r').

Lemma regs_only_refl r : regs_only r r.
Proof. done. Qed.

Lemma regs_only_set r0 r bank nr v : regs_only r0 r -> regs_only r0 (rtc_set_reg bank nr v r).
Proof. intros (? & ? & ? & Hok). repeat split; auto; apply rtc_set_reg_ok; auto. Qed.

Lemma regs_only_if (b : bool) r0 r1 r2 :
  regs_only r0 r1 -> regs_only r0 r2 -> regs_only r0 (if b then r1 else r2).
Proof. by destruct b. Qed.

Lemma regs_only_masks l r0 r :
  regs_only r0 r ->
  regs_only r0 (foldl (fun r '(nr, mask) => rtc_set_reg 1 nr (u8 (rtc_reg r 1 nr .& mask)) r) r l).
Proof.
  revert r. induction l as [|[nr mask] l IH]; intros r Hr; cbn [foldl]; [done|].
  by apply IH, regs_only_set.
Qed.

#[local] Hint Resolve regs_only_refl regs_only_set regs_only_if regs_only_masks : rtc.

Lemma oki_regs_only t r : regs_only r (rtc_time_to_regs_oki t r).
Proof.
  unfold rtc_time_to_regs_oki. cbv zeta. destruct (rtc_clock_hour _ _). eauto 40 with rtc.
Qed.

Lemma ricoh_regs_only t r : regs_only r (rtc_time_to_regs_ricoh t r).
Proof.
  unfold rtc_time_to_regs_ricoh. cbv zeta. destruct (rtc_clock_hour _ _). eauto 40 with rtc.
Qed.

Lemma update_regs_only lib r : regs_only r (rtc_update lib r).
Proof.
  unfold rtc_update, rtc_time_to_regs. repeat case_match;
    auto using regs_only_refl, oki_regs_only, ricoh_regs_only.
Qed.

Section clock.
Context (lib : rtc_lib).

(** The clock as it is when the host's clock shows [n]. *)
Definition at_time (n : Z) (r : RigelRTC) : RigelRTC :=
  r <| rtc_hst := mkHost (Some n) (to_calendar (rtc_hst r)) (from_calendar (rtc_hst r)) |>.

(** The times the registers show: in its 24 h mode the Ricoh model reads the
    hours from 20 on without their tens. *)
Definition shows (r : RigelRTC) (t : tm) : Prop :=
  tm_shown t /\ (rtc_kind r = RIGEL_RTC_MODEL_RICOH -> ricoh_24h r = true -> tm_hour t < 20).

Lemma update_spells r t :
  rtc_ok r -> rtc_kind r <> RIGEL_RTC_MODEL_NONE ->
  rtc_host_to_calendar lib r (rtc_get_time lib r) = Some t -> shows r t ->
  rtc_spelled (rtc_update lib r) = Some (tm_date t).
Proof.
  intros Hok Hk Ht [Hshown H20]. unfold rtc_update, rtc_time_to_regs. rewrite Ht.
  unfold rtc_spelled. destruct (rtc_kind r) eqn:Ek; [done| |].
  - destruct (oki_regs_only t r) as [-> _]. rewrite Ek. by rewrite oki_spells.
  - destruct (ricoh_regs_only t r) as [-> _]. rewrite Ek. by rewrite ricoh_spells by auto.
Qed.

Lemma sext64_small x : in_swidth 64 x -> sign_extend 64 x = x.
Proof.
  unfold in_swidth, sign_extend, wrap. intros Hx.
  destruct (decide (0 <= x)).
  - rewrite Z.mod_small by lia. by replace (x <? 2 ^ (64 - 1)) with true by lia.
  - replace (x mod 2 ^ 64) with (x + 2 ^ 64)
      by (rewrite <- (Z.mod_add x 1) by lia; rewrite Z.mod_small; lia).
    replace (x + 2 ^ 64 <? 2 ^ (64 - 1)) with false by lia. lia.
Qed.

(** The clock runs.  After its time was set to [v] while the host's clock showed
    [n], an access at any later reading [n + dt] of the host's clock finds in
    the registers the calendar time of [v + dt], in the digits and the hour mode
    of the model; in bank 0 these are the digits the host reads. *)
Theorem rtc_clock_runs r n v dt t :
  rtc_ok r -> rtc_kind r <> RIGEL_RTC_MODEL_NONE ->
  in_swidth 64 (v - n) -> in_swidth 64 (v + dt) ->
  rtc_host_to_calendar lib r (v + dt) = Some t -> shows r t ->
  let later := at_time (n + dt) (rtc_set_time lib v (at_time n r)) in
  rtc_get_time lib later = v + dt /\
  rtc_spelled (rtc_update lib later) = Some (tm_date t) /\
  forall nr, 0 <= nr < 13 -> rtc_bank_internal (rtc_update lib later) = 0 ->
    (rtc_read_reg lib nr later).1 = rtc_nibble (rtc_reg (rtc_update lib later) 0 nr).
Proof.
  intros Hok Hk Hn Hv Ht Hs later.
  assert (Hnow : rtc_get_time lib later = v + dt).
  { unfold rtc_get_time. cbn. rewrite (sext64_small _ Hn).
    replace (n + dt + (v - n)) with (v + dt) by lia. rewrite (sext64_small _ Hv).
    by destruct (rtc_kind r). }
  split; [done|]. split.
  - apply update_spells; [done|done| |done]. rewrite Hnow. exact Ht.
  - intros nr Hnr Hbank. unfold rtc_read_reg.
    change (rtc_kind later) with (rtc_kind r). destruct (rtc_kind r); [done| |];
      cbv zeta; replace ((nr =? 13) || (nr =? 14) || (nr =? 15)) with false by lia;
      by rewrite Hbank.
Qed.

(** C23: Setting the clock a digit at a time: a write to a time register of bank 0
    that leaves a normal date in the registers sets the clock to that date, and
    the registers spell it at the next access. *)
Theorem rtc_write_sets_clock r nr v t0 c t :
  rtc_ok r -> rtc_kind r <> RIGEL_RTC_MODEL_NONE -> 0 <= nr < 13 ->
  rtc_bank_internal (rtc_update lib r) = 0 ->
  rtc_spelled (rtc_set_reg 0 nr (rtc_nibble v) (rtc_update lib r)) = Some t0 ->
  rtc_host_from_calendar lib r t0 = Some c -> rtc_host_to_calendar lib r c = Some t ->
  tm_date t = t0 -> shows (rtc_set_reg 0 nr (rtc_nibble v) (rtc_update lib r)) t ->
  in_swidth 64 c -> in_swidth 64 (c - rtc_host_now lib r) ->
  let r' := rtc_write_reg lib nr v r in
  rtc_get_time lib r' = c /\ rtc_spelled (rtc_update lib r') = Some t0.
Proof.
  intros Hok Hk Hnr Hbank Hsp Hfrom Hto Hnorm Hs Hc Hoff r'.
  set (r1 := rtc_set_reg 0 nr (rtc_nibble v) (rtc_update lib r)) in *.
  assert (Hr1 : regs_only r r1) by (apply regs_only_set, update_regs_only).
  destruct Hr1 as (Hk1 & Hh1 & _ & Hok1).
  assert (E : r' = rtc_set_time lib c r1).
  { subst r'. unfold rtc_write_reg. destruct (rtc_kind r); [done| |];
      cbv zeta; replace ((nr =? 13) || (nr =? 14) || (nr =? 15)) with false by lia;
      rewrite Hbank; cbn [Z.eqb]; fold r1; unfold rtc_regs_to_time; rewrite Hsp; cbn;
      unfold rtc_host_from_calendar in *; rewrite Hh1, Hfrom; done. }
  rewrite E. clear E r'. clearbody r1.
  assert (Hget : rtc_get_time lib (rtc_set_time lib c r1) = c).
  { unfold rtc_get_time. cbn. rewrite Hk1. unfold rtc_host_now in *. cbn. rewrite Hh1.
    rewrite (sext64_small _ Hoff).
    match goal with |- context [?a + (c - ?a)] => replace (a + (c - a)) with c by lia end.
    rewrite (sext64_small _ Hc). by destruct (rtc_kind r). }
  split; [done|]. rewrite <- Hnorm. apply update_spells; [by apply Hok1|cbn; by rewrite Hk1| |done].
  rewrite Hget. unfold rtc_host_to_calendar in *. cbn. by rewrite Hh1.
Qed.

End clock.

(** ** Witnesses and what differs *)

(** A host calendar that counts in days of November 2023 from its first second. *)
Definition demo_lib : rtc_lib := mkLib 0
  (fun v => Some (mkTm (v mod 60) (v / 60 mod 60) (v / 3600 mod 24) (1 + v / 86400) 10 123 0 0 0))
  (fun t => ((tm_mday t - 1) * 24 + tm_hour t) * 3600 + tm_min t * 60 + tm_sec t).

Definition demo_rtc : RigelRTC := rtc_init demo_lib RIGEL_RTC_MODEL_OKI.

Lemma tm_shown_dec_ok t :
  (0 <=? tm_sec t) && (tm_sec t <? 60) && (0 <=? tm_min t) && (tm_min t <? 60) &&
  (0 <=? tm_hour t) && (tm_hour t <? 24) && (1 <=? tm_mday t) && (tm_mday t <=? 31) &&
  (0 <=? tm_mon t) && (tm_mon t <? 12) && (70 <=? tm_year t) && (tm_year t <? 170) = true ->
  tm_shown t.
Proof. intros H. split; lia. Qed.

Lemma rtc_clock_runs_witness :
  rtc_spelled (rtc_update demo_lib
    (at_time (0 + 100) (rtc_set_time demo_lib 1000000 (at_time 0 demo_rtc)))) =
  Some (mkTm 20 48 13 12 10 123 0 0 0).
Proof.
  pose proof (rtc_clock_runs demo_lib demo_rtc 0 1000000 100 (mkTm 20 48 13 12 10 123 0 0 0)) as H.
  cbv zeta in H. destruct H as (_ & H & _); [| | | | | |exact H]; try done;
    (split; [by apply tm_shown_dec_ok|done]) || (split; [reflexivity|repeat constructor]).
Defined.

Lemma rtc_write_sets_clock_witness :
  rtc_get_time demo_lib (rtc_write_reg demo_lib 4 7 (rtc_write_reg demo_lib 0xd 0 demo_rtc)) = 25200.
Proof.
  pose proof (rtc_write_sets_clock demo_lib (rtc_write_reg demo_lib 0xd 0 demo_rtc) 4 7
    (mkTm 0 0 7 1 10 123 0 0 0) 25200 (mkTm 0 0 7 1 10 123 0 0 0)) as H.
  cbv zeta in H. destruct H as [H _]; [..|exact H]; try done;
    (split; [by apply tm_shown_dec_ok|done]) || (split; [reflexivity|repeat constructor]).
Defined.

(** The OKI model selects bank 1 with the bit that is HOLD on the chip, and its
    default value sets it: until the host clears it, every time register reads 0,
    whatever the time. *)
Lemma oki_default_hides_clock lib nr :
  0 <= nr < 13 -> (rtc_read_reg lib nr (rtc_init lib RIGEL_RTC_MODEL_OKI)).1 = 0.
Proof.
  intros Hnr. set (r := rtc_init lib RIGEL_RTC_MODEL_OKI).
  assert (Hkeep : forall r, rtc_ok r -> rtc_kind r = RIGEL_RTC_MODEL_OKI ->
    rtc_reg (rtc_update lib r) 0 0xd = rtc_reg r 0 0xd /\
    rtc_reg (rtc_update lib r) 1 nr = rtc_reg r 1 nr).
  { intros r0 Hok Hk. unfold rtc_update, rtc_time_to_regs. rewrite Hk.
    destruct (rtc_host_to_calendar _ _ _) as [t|]; [|done].
    unfold rtc_time_to_regs_oki. cbv zeta. destruct (rtc_clock_hour _ _) as [h pm].
    destruct (negb _ && _); split; read_regs; done. }
  set (r0 := rtc_apply_model_defaults (mkRtc RIGEL_RTC_MODEL_OKI (replicate 4 (replicate 16 0)) 0
               (mkHost None None None))).
  change (rtc_update lib r0) with r in *.
  assert (Hok0 : rtc_ok r0) by (split; [done|repeat constructor]).
  destruct (Hkeep r0 Hok0 eq_refl) as [Hd0 Hn0].
  destruct (update_regs_only lib r0) as (Hk0 & _ & _ & Hok1).
  change (rtc_update lib r0) with r in *. clearbody r.
  destruct (Hkeep r (Hok1 Hok0) Hk0) as [Hd Hn].
  unfold rtc_read_reg. rewrite Hk0. cbn [rtc_kind r0].
  cbv zeta. replace ((nr =? 13) || (nr =? 14) || (nr =? 15)) with false by lia.
  unfold rtc_bank_internal. rewrite Hd, Hd0. cbn [fst].
  change (u8 (rtc_reg r0 0 13 .& 3)) with 1. rewrite Hn, Hn0.
  clear -Hnr. apply Z.eqb_eq.
  apply (below_forall 13 (fun n => rtc_nibble (rtc_reg r0 1 n) =? 0)); [reflexivity|done].
Qed.

(** In the 24 h mode of the Ricoh model the hours from 20 on lose their tens when
    the registers are read back: a write to any time register in the evening
    sets the clock back by twenty hours. *)
Example ricoh_evening_loses_tens :
  let r := rtc_write_reg demo_lib 0xa 0x3 (rtc_init demo_lib RIGEL_RTC_MODEL_RICOH) in
  let evening := rtc_set_time demo_lib (21 * 3600) r in
  rtc_get_time demo_lib evening = 21 * 3600 /\ rtc_get_time demo_lib (rtc_write_reg demo_lib 0 5 evening) = 3600 + 5.
Proof. vm_compute. auto. Qed.
