(* ===== verification/Machine.v ===== *)
(** * The machine: [core/rigel_context.h], [chipset/chipset.c], [agnus.c], [paula_state.c]

    The context that holds every chip, the shadow of the custom registers, the
    interrupt sources, the wiring of the callbacks and the reset.

    The callbacks Paula's parts keep (interrupt sinks, chip RAM) point back into
    the context.  What they can reach through the pointer is the interrupt
    controller, the shadow registers and the host's memory: this part is the
    record [Bus], and it is the world their models act on.

    A definition that may leave the behaviour C defines (a store outside an
    array) gives [None]; the machine then keeps its state and sets [fault].  The
    host's settings from the environment are [rigel_env]. *)

From S2P Require Import Prelude Custom Interrupt Cia ChipRam Blitter Dma Beam Copper Mfm Floppy Disk Serial.
From S2P Require Import Input Audio SpriteDma Scheduler DeniseSprites Denise Framebuffer Rtc.

(** ** The bus *)

(** The interrupt controller and the shadow of the custom registers.
    C: [src/src/chipset/chipset.h]:25-30 [RigelChipset] *)
Record Lines := mkLines { interrupts : RigelInterruptDomain; custom_regs : list Z }.

#[export] Instance eta_lines : Eta Lines := fun l => mkLines (interrupts l) (custom_regs l).

(** The lines and the host's memory. *)
Record Bus {M : Type} := mkBus { lines : Lines; memory : M }.
Arguments Bus : clear implicits.
Arguments mkBus {M}.

#[export] Instance eta_bus {M} : Eta (Bus M) := fun b => mkBus (lines b) (memory b).

(** C: [src/src/chipset/chipset.c] [rigel_chipset_read_reg] *)
Definition rigel_chipset_read_reg (l : Lines) (addr : Z) : Z :=
  if negb (rigel_custom_is_valid_reg addr) then 0
  else default 0 (custom_regs l !! Z.to_nat (addr .>> 1)).

(** C: [src/src/chipset/chipset.c] [rigel_chipset_write_reg] *)
Definition rigel_chipset_write_reg (addr value : Z) (l : Lines) : Lines :=
  if negb (rigel_custom_is_valid_reg addr) then l
  else l <| custom_regs := <[Z.to_nat (addr .>> 1) := value]> (custom_regs l) |>.

Definition on_interrupts (f : RigelInterruptDomain -> RigelInterruptDomain) (l : Lines) : Lines :=
  l <| interrupts := f (interrupts l) |>.

(** The pending sources are copied to the shadow.
    C: [src/src/chipset/chipset.c]:152-156 [rigel_chipset_raise_irq_source] *)
Definition shadow_intreq (l : Lines) : Lines :=
  rigel_chipset_write_reg RIGEL_REG_INTREQ (rigel_interrupt_domain_read_intreq (interrupts l)) l.

(** C: [src/src/chipset/chipset.c] [rigel_chipset_raise_irq_source] *)
Definition rigel_chipset_raise_irq_source (mask : Z) (l : Lines) : Lines :=
  shadow_intreq (on_interrupts (fun i => rigel_paula_interrupts_raise i mask) l).

(** C: [src/src/chipset/chipset.c] [rigel_chipset_clear_irq_source] *)
Definition rigel_chipset_clear_irq_source (mask : Z) (l : Lines) : Lines :=
  shadow_intreq (on_interrupts (fun i => rigel_paula_interrupts_clear i mask) l).

(** ** The context *)

(** The environment variables the code reads ([RIGEL_DISK_NOMINAL_SLOTS], the
    sync interrupt switch of [disk.c]) and the C library of the clock. *)
Record rigel_env := mkEnvironment {
  env_dsksyn : bool;
  env_disk_legacy_priority : bool;
  env_rtc : rtc_lib;
}.

(** The fields the library reads; allocation, logging and tracing are left out.
    C: [src/include/rigel/rigel_config.h]:80-129 [rigel_config_t] *)
Record rigel_config {M : Type} := mkConfig {
  clock_hz : Z;
  ram_config : RamConfig;
  chip_ram : ChipRamIf M;
  serial_tx_instant : bool;
  rtc_model_ : rtc_model;
  rtc_time : Z;
  rtc_host_ : rtc_host;
  video_pal : bool;
  framebuffer : framebuffer_target;
  cfg_cycle_exact : bool;
}.
Arguments rigel_config : clear implicits.
Arguments mkConfig {M}.

#[export] Instance eta_config {M} : Eta (rigel_config M) := fun c =>
  mkConfig (clock_hz c) (ram_config c) (chip_ram c) (serial_tx_instant c) (rtc_model_ c) (rtc_time c)
    (rtc_host_ c) (video_pal c) (framebuffer c) (cfg_cycle_exact c).

(** C: [src/src/chipset/agnus/agnus_state.h]:18-32 [RigelAgnus] *)
Record RigelAgnus := mkAgnus {
  agnus_rev : agnus_chip_rev;
  beamcon0 : Z;
  beam : beam_state;
  dma : dma_state;
  copper : copper_state;
  bitplanes_depth : Z;
  bplpt : bitplane_pointers;
  fetch : list Z;
  blitter : BlitterState;
  sprite_dma : sprite_dma_state;
  scheduler : slot_scheduler;
  raster : raster_config;
  refresh : refresh_dma_state;
}.

#[export] Instance eta_agnus : Eta RigelAgnus := fun a =>
  mkAgnus (agnus_rev a) (beamcon0 a) (beam a) (dma a) (copper a) (bitplanes_depth a) (bplpt a) (fetch a)
    (blitter a) (sprite_dma a) (scheduler a) (raster a) (refresh a).

(** The interrupt controller is in the [Bus].
    C: [src/src/chipset/paula/paula_state.h]:10-16 [RigelPaula] *)
Record RigelPaula {M : Type} := mkPaula {
  audio : AudioState (Bus M);
  disk : DiskState (Bus M);
  input : input_state;
  serial : SerialState (Bus M);
}.
Arguments RigelPaula : clear implicits.
Arguments mkPaula {M}.

#[export] Instance eta_paula {M} : Eta (RigelPaula M) := fun p =>
  mkPaula (audio p) (disk p) (input p) (serial p).

(** [target_writes] is what the host finds in its framebuffer: the stores made
    to it, in order.
    C: [src/src/chipset/chipset.h]:21-31 [RigelChipset] *)
Record RigelContext {M : Type} := mkContext {
  env : rigel_env;
  config : rigel_config M;
  cycles : Z;
  agnus : RigelAgnus;
  denise : RigelDenise;
  bus : Bus M;
  paula : RigelPaula M;
  cia_a : CIA_State;
  cia_b : CIA_State;
  cia_eclock_rem : Z;
  rtc : RigelRTC;
  floppy : list FloppyDrive;
  target_writes : list target_write;
  fault : bool;
}.
Arguments RigelContext : clear implicits.
Arguments mkContext {M}.

#[export] Instance eta_context {M} : Eta (RigelContext M) := fun c =>
  mkContext (env c) (config c) (cycles c) (agnus c) (denise c) (bus c) (paula c) (cia_a c) (cia_b c)
    (cia_eclock_rem c) (rtc c) (floppy c) (target_writes c) (fault c).

Section machine.
Context {M : Type}.
#[local] Abbreviation Ctx := (RigelContext M).

(** ** Parts of the context *)

Definition on_agnus (f : RigelAgnus -> RigelAgnus) (c : Ctx) : Ctx := c <| agnus := f (agnus c) |>.
Definition on_denise (f : RigelDenise -> RigelDenise) (c : Ctx) : Ctx := c <| denise := f (denise c) |>.
Definition on_paula (f : RigelPaula M -> RigelPaula M) (c : Ctx) : Ctx := c <| paula := f (paula c) |>.
Definition on_lines (f : Lines -> Lines) (c : Ctx) : Ctx := c <| bus := (bus c) <| lines := f (lines (bus c)) |> |>.
Definition on_scheduler (f : slot_scheduler -> slot_scheduler) : Ctx -> Ctx :=
  on_agnus (fun a => a <| scheduler := f (scheduler a) |>).

Definition intr (c : Ctx) : RigelInterruptDomain := interrupts (lines (bus c)).

(** The chip RAM of the context.
    C: [src/src/core/rigel_context.c] [rigel_context_chip_ram] *)
Definition context_ram (c : Ctx) : ChipRamIf M :=
  rigel_context_chip_ram (chip_ram (config c)) (ram_config (config c)).

Definition context_read16 (c : Ctx) (addr : Z) : Z :=
  rigel_context_chip_ram_read16 (chip_ram (config c)) (ram_config (config c)) (memory (bus c)) addr.

(** C: [src/src/core/rigel_context.c] [rigel_context_read_reg] *)
Definition rigel_context_read_reg (c : Ctx) (addr : Z) : Z := rigel_chipset_read_reg (lines (bus c)) addr.

(** C: [src/src/core/rigel_context.c] [rigel_context_write_reg] *)
Definition rigel_context_write_reg (addr value : Z) : Ctx -> Ctx :=
  on_lines (rigel_chipset_write_reg addr value).

(** A part of the machine that has callbacks runs on it and the bus. *)
Definition with_bus {S : Type} (get : RigelPaula M -> S) (set : S -> RigelPaula M -> RigelPaula M)
    (f : S * Bus M -> S * Bus M) (c : Ctx) : Ctx :=
  let '(s, b) := f (get (paula c), bus c) in
  c <| paula := set s (paula c) |> <| bus := b |>.

Definition on_disk : (DiskState (Bus M) * Bus M -> DiskState (Bus M) * Bus M) -> Ctx -> Ctx :=
  with_bus disk (fun s p => p <| disk := s |>).
Definition on_audio : (AudioState (Bus M) * Bus M -> AudioState (Bus M) * Bus M) -> Ctx -> Ctx :=
  with_bus audio (fun s p => p <| audio := s |>).
Definition on_serial : (SerialState (Bus M) * Bus M -> SerialState (Bus M) * Bus M) -> Ctx -> Ctx :=
  with_bus serial (fun s p => p <| serial := s |>).

(** The CIA [id] with the interrupt controller it is attached to. *)
Definition cia_board (id : Z) (c : Ctx) : CiaBoard :=
  mkBoard (if id =? 0 then cia_a c else cia_b c) (intr c).

Definition set_cia_board (id : Z) (w : CiaBoard) (c : Ctx) : Ctx :=
  let c := on_lines (fun l => l <| interrupts := irqs w |>) c in
  if id =? 0 then c <| cia_a := chip w |> else c <| cia_b := chip w |>.

Definition on_cia (id : Z) (f : CiaBoard -> CiaBoard) (c : Ctx) : Ctx :=
  set_cia_board id (f (cia_board id c)) c.

(** The pointer of the disk controller to a drive is its index.
    C: [src/src/chipset/paula/paula_state.c] [rigel_paula_set_disk_drive] *)
Definition rigel_paula_set_disk_drive (i : nat) : RigelPaula M -> RigelPaula M :=
  fun p => p <| disk := disk_set_drive (Some i) (disk p) |>.

(** ** Wiring *)

(** Both sinks of Paula and the blitter's raise a source of the chipset.
    C: [src/src/chipset/paula/paula_state.c]:15-35 [rigel_paula_disk_raise_irq] *)
Definition rigel_paula_raise_irq_sink (b : Bus M) (mask : Z) : Bus M :=
  b <| lines := rigel_chipset_raise_irq_source mask (lines b) |>.

(** C: [src/src/core/rigel.c] [rigel_chipset_wire] *)
Definition rigel_chipset_wire (c : Ctx) : Ctx :=
  let cfg := config c in
  let write := fun (b : Bus M) a v =>
    b <| memory := rigel_context_chip_ram_write16 (chip_ram cfg) (ram_config cfg) (memory b) a v |> in
  let c := on_paula (fun p =>
    p <| disk := disk_set_irq_sink (Some rigel_paula_raise_irq_sink)
                   (disk_set_memory_if (Some write) (disk p)) |>
      <| serial := serial_set_irq_sink (Some rigel_paula_raise_irq_sink) (serial p) |>) c in
  if serial_tx_instant cfg
  then on_paula (fun p => p <| serial := serial_set_tx_instant true (serial p) |>) c else c.

(** ** Reset *)

(** C: [src/src/chipset/agnus/agnus.c] [rigel_agnus_reset] *)
Definition rigel_agnus_reset (a : RigelAgnus) : RigelAgnus :=
  let raster := raster_reset false in
  {| agnus_rev := agnus_rev a;
     beamcon0 := 0;
     beam := (rigel_beam_domain_reset (beam a)) <| line_clocks := raster_line_clocks raster |>
               <| frame_lines := raster_frame_lines raster |>;
     dma := rigel_dma_domain_reset (dma a);
     copper := rigel_copper_domain_reset (copper a);
     bitplanes_depth := 0;
     bplpt := bplpt_reset (bplpt a);
     fetch := bitplane_fetch_reset (fetch a);
     blitter := rigel_blitter_domain_reset (blitter a);
     sprite_dma := sprite_dma_reset (sprite_dma a);
     scheduler := agnus_slot_scheduler_init (scheduler a);
     raster := raster;
     refresh := refresh_dma_reset (refresh a) |}.

(** C: [src/src/chipset/agnus/agnus.c] [rigel_agnus_set_chip_rev] *)
Definition rigel_agnus_set_chip_rev (rev : agnus_chip_rev) (a : RigelAgnus) : RigelAgnus :=
  a <| agnus_rev := rev |>.

(** [pal] is the standard.
    C: [src/src/chipset/agnus/agnus.c] [rigel_agnus_set_video_std] *)
Definition rigel_agnus_set_video_std (pal : bool) (a : RigelAgnus) : RigelAgnus :=
  let r := raster_reset pal in
  a <| raster := r |>
    <| beam := (beam a) <| line_clocks := raster_line_clocks r |>
                 <| frame_lines := raster_frame_lines r |>
                 <| Beam.visible_y_stop := u16 (raster_frame_lines r - 1) |> |>.

(** C: [src/src/chipset/paula/paula_state.c] [rigel_paula_reset] *)
Definition rigel_paula_reset (c : Ctx) : Ctx :=
  on_paula (fun p =>
    mkPaula (audio_reset (audio p)) (disk_reset (disk p)) (input_reset (input p)) (serial_reset (serial p)))
    (on_lines (on_interrupts rigel_paula_interrupts_reset) c).

(** One turn of the loop over the drives.
    C: [src/src/chipset/chipset.c]:33-37 [rigel_chipset_reset] *)
Definition reset_drive (i : nat) (d : FloppyDrive) : FloppyDrive :=
  let keep := truthy (connected d) && truthy (disk_inserted d) in
  floppy_set_connected (b2u (keep || (i =? 0)%nat)) (floppy_reset d).

(** C: [src/src/chipset/chipset.c]:28-43 [rigel_chipset_reset] *)
Definition reset_chips (c : Ctx) : Ctx :=
  let c := c <| cycles := 0 |> <| cia_eclock_rem := 0 |>
             <| floppy := imap reset_drive (floppy c) |>
             <| rtc := rtc_reset (env_rtc (env c)) (rtc c) |>
             <| agnus := rigel_agnus_reset (agnus c) |>
             <| denise := rigel_denise_reset (denise c) |> in
  on_paula (rigel_paula_set_disk_drive 0) (rigel_paula_reset c).

(** C: [src/src/chipset/chipset.c]:45-52 [rigel_chipset_reset] *)
Definition reset_cias (c : Ctx) : Ctx :=
  let c := on_cia 1 (cia_init CIA_PORT_B) (on_cia 0 (cia_init CIA_PORT_A) c) in
  let c := on_cia 1 cia_attach_paula (on_cia 0 cia_attach_paula c) in
  c <| cia_a := cia_set_external_pra 0xff ((cia_a c) <| ddra := 0x03 |>) |>.

(** C: [src/src/chipset/chipset.c] [rigel_chipset_reset] *)
Definition rigel_chipset_reset (c : Ctx) : Ctx :=
  on_lines (fun l => l <| custom_regs := replicate 256 0 |>) (reset_cias (reset_chips c)).

(** The chip revision both chips are given.
    C: [src/src/core/rigel.c]:215-219 [rigel_reset] *)
Definition config_rev (cfg : rigel_config M) : agnus_chip_rev :=
  if decide (chipset_model (ram_config cfg) = RIGEL_CHIPSET_ECS) then AGNUS_REV_ECS else AGNUS_REV_OCS.

(** C: [src/src/core/rigel.c] [rigel_reset] *)
Definition rigel_reset (c : Ctx) : Ctx :=
  let cfg := config c in
  let c := rigel_chipset_reset c in
  let c := on_agnus (rigel_agnus_set_chip_rev (config_rev cfg)) c in
  let c := on_denise (rigel_denise_set_chip_rev (config_rev cfg)) c in
  let c := on_agnus (rigel_agnus_set_video_std (video_pal cfg)) c in
  let c := on_denise (rigel_denise_set_framebuffer_target (Some (framebuffer cfg))) c in
  let c := rigel_chipset_wire c in
  on_agnus (fun a => a <| blitter := (blitter a) <| cycle_exact := cfg_cycle_exact cfg |> |>) c.

(** C: [src/src/core/rigel.c] [rigel_set_cycle_exact] *)
Definition rigel_set_cycle_exact (on : bool) (c : Ctx) : Ctx :=
  on_agnus (fun a => a <| blitter := (blitter a) <| cycle_exact := on |> |>)
    (c <| config := (config c) <| cfg_cycle_exact := on |> |>).

(** ** Creation *)

(** The all-zero context [calloc] gives, with the configuration stored in it. *)
Definition agnus_zero : RigelAgnus := {|
  agnus_rev := AGNUS_REV_OCS; beamcon0 := 0;
  beam := mkBeam 0 0 0 0 0 0 0 0 0 0 0;
  dma := mkDma 0 false false;
  copper := mkCopper 0 0 0 0 0 0 0 0 false false false false false false false;
  bitplanes_depth := 0; bplpt := replicate 6 0; fetch := replicate 6 0;
  blitter := mkBlitter regs_zero cmd_zero result_0 BLITTER_EXEC_IDLE false false 0 0 false false line_zero;
  sprite_dma := replicate 8 (mkSprite 0 0 false false false 0 0 0);
  scheduler := mkScheduler (replicate 227 AGNUS_SLOT_FREE) (replicate 227 0) 0 0 0 0 0 false false
    false false false false 0 false 0 0 (replicate 6 0) false false 0;
  raster := mkRaster false 0 0 0 0 0 0;
  refresh := mkRefresh 0 [0; 0; 0] 0 |}.

Definition denise_zero : RigelDenise := {|
  chip_rev := AGNUS_REV_OCS;
  Denise.regs := mkRegs (replicate 32 0) 0 0 0 0 0 0 0;
  palette := mkPalette (replicate 32 0) (replicate 32 0);
  sprites := mkDSprites (replicate 8 sprite_zero) 0 0;
  coll := mkColl 0 0;
  video := mkVideo 0 0 0 0 0 0;
  output := mkOutput 0 0 0 0 0 0 0 blank_line blank_line blank_frames blank_frames 0 false false false 0 0
    (replicate 6 (replicate 64 0)) 0 0 0 0 false 0 0 (replicate 5 0) 0 (replicate 5 0) false false None;
  debug := mkDebug 0 0 0 0 0 0 0 0 0 false |}.

Definition paula_zero : RigelPaula M := {|
  audio := mkAudio (replicate 4 zero_channel) 0 0 false 0 None;
  disk := mkDisk 0 0 0 0 0 0 false false false false false 0 0 0 0 0 0 0 0 0
    (replicate (Z.to_nat RIGEL_FLOPPY_MFM_TRACK_BYTES_PAL) 0) None None None;
  input := mkInput 0 [0; 0] [0; 0] [0; 0];
  serial := mkSerial None 0 0 false 0 false 0 0 false false false false (replicate 16 0) 0 0 0 false |}.

Definition drive_zero : FloppyDrive := mkDrive 0 0 0 0 0 0 0 0 0 0 0 0 0 None 0 0.

Definition context_zero (e : rigel_env) (cfg : rigel_config M) (m : M) : Ctx := {|
  env := e; config := cfg; cycles := 0; agnus := agnus_zero; denise := denise_zero;
  bus := mkBus (mkLines (mkInterruptDomain 0 0 0) (replicate 256 0)) m;
  paula := paula_zero; cia_a := cia_zero; cia_b := cia_zero; cia_eclock_rem := 0;
  rtc := mkRtc RIGEL_RTC_MODEL_NONE (replicate 4 (replicate 16 0)) 0 (mkHost None None None);
  floppy := replicate 4 drive_zero; target_writes := []; fault := false |}.

(** The successful path; the host's memory is [m].
    C: [src/src/core/rigel.c]:156-168 [rigel_create] *)
Definition rigel_create (e : rigel_env) (cfg : rigel_config M) (m : M) : Ctx :=
  let c := context_zero e cfg m in
  let c := c <| rtc := rtc_set_host (Some (rtc_host_ cfg)) (rtc c) |> in
  let c := rigel_chipset_wire (rigel_reset c) in
  if decide (rtc_model_ cfg = RIGEL_RTC_MODEL_NONE) then c
  else
    let lib := env_rtc e in
    let c := c <| rtc := rtc_set_model lib (rtc_model_ cfg) (rtc c) |> in
    if rtc_time cfg =? 0 then c else c <| rtc := rtc_set_time lib (rtc_time cfg) (rtc c) |>.

(** ** Interrupts seen by the host: [rigel_irq.c] *)

(** C: [src/src/irq/rigel_irq.c] [rigel_get_intreq] *)
Definition rigel_get_intreq (c : Ctx) : Z := rigel_interrupt_domain_read_intreq (intr c).
(** C: [src/src/irq/rigel_irq.c] [rigel_get_intena] *)
Definition rigel_get_intena (c : Ctx) : Z := rigel_interrupt_domain_read_intena (intr c).
(** C: [src/src/irq/rigel_irq.c] [rigel_get_ipl] *)
Definition rigel_get_ipl (c : Ctx) : Z := rigel_paula_interrupts_current_ipl (intr c).

(** ** Serial, audio and input: [rigel_serial_api.c], [rigel_audio_api.c], [rigel.c] *)

(** C: [src/src/core/rigel_serial_api.c] [rigel_serial_receive_byte] *)
Definition rigel_serial_receive_byte (byte : Z) : Ctx -> Ctx := on_serial (serial_receive_byte byte).

(** C: [src/src/core/rigel_serial_api.c] [rigel_serial_tx_available] *)
Definition rigel_serial_tx_available (c : Ctx) : bool := serial_tx_available (serial (paula c)).

(** C: [src/src/core/rigel_serial_api.c] [rigel_serial_pop_tx_byte] *)
Definition rigel_serial_pop_tx_byte (c : Ctx) : option (Z * Ctx) :=
  '(byte, s) ← serial_pop_tx_byte (serial (paula c));
  Some (byte, on_paula (fun p => p <| serial := s |>) c).

(** C: [src/src/core/rigel_serial_api.c] [rigel_serial_set_tx_instant] *)
Definition rigel_serial_set_tx_instant (enabled : bool) : Ctx -> Ctx :=
  on_paula (fun p => p <| serial := serial_set_tx_instant enabled (serial p) |>).

(** C: [src/src/core/rigel_audio_api.c] [rigel_get_audio_sample] *)
Definition rigel_get_audio_sample (c : Ctx) : Z * Z :=
  (audio_left (audio (paula c)), audio_right (audio (paula c))).

(** C: [src/src/core/rigel.c] [rigel_input_set_joydat] *)
Definition rigel_input_set_joydat (port value : Z) : Ctx -> Ctx :=
  on_paula (fun p => p <| input := input_set_joydat port value (input p) |>).

(** C: [src/src/core/rigel.c] [rigel_input_set_pot_button_x] *)
Definition rigel_input_set_pot_button_x (port : Z) (pressed : bool) : Ctx -> Ctx :=
  on_paula (fun p => p <| input := input_set_pot_button_x port pressed (input p) |>).

(** C: [src/src/core/rigel.c] [rigel_input_set_pot_button_y] *)
Definition rigel_input_set_pot_button_y (port : Z) (pressed : bool) : Ctx -> Ctx :=
  on_paula (fun p => p <| input := input_set_pot_button_y port pressed (input p) |>).

(** C: [src/src/core/rigel.c] [rigel_input_set_fire] *)
Definition rigel_input_set_fire (port : Z) (pressed : bool) (c : Ctx) : Ctx :=
  if 1 <? port then c
  else
    let pra := cia_port_a_value (cia_a c) in
    let bit := if port =? 0 then 0x40 else 0x80 in
    let pra := if pressed then u8 (pra .& u32 (~~ bit)) else u8 (pra .| bit) in
    c <| cia_a := cia_set_external_pra pra (cia_a c) |>.

End machine.
