(* ===== verification/Registers.v ===== *)
(** * The custom registers: [mmio/custom_regs.c], [agnus/mmio], [denise.c], [paula.c]

    Which chip a register belongs to, and the reads and writes of each chip's
    register file over the whole machine.  Every write is also recorded in the
    shadow of the custom registers, from which the registers no chip answers are
    read back. *)

From S2P Require Import Prelude Custom Interrupt Cia ChipRam Blitter Dma Beam Copper Floppy Disk Serial Input.
From S2P Require Import Audio SpriteDma Scheduler DeniseSprites Denise Framebuffer Rtc Machine.

(** C: [src/src/chipset/agnus/mmio/agnus_regs.h]:11-11 [AGNUS_DMACONR] *)
Definition AGNUS_DMACONR := 0x002.
(** C: [src/src/chipset/agnus/mmio/agnus_regs.h]:15-15 [AGNUS_VPOSR] *)
Definition AGNUS_VPOSR := 0x004.
(** C: [src/src/chipset/agnus/mmio/agnus_regs.h]:16-16 [AGNUS_VHPOSR] *)
Definition AGNUS_VHPOSR := 0x006.
(** C: [src/include/rigel/rigel_custom.h]:41-41 [RIGEL_REG_DDFSTRT] *)
Definition RIGEL_REG_DDFSTRT := 0x092.
(** C: [src/include/rigel/rigel_custom.h]:42-42 [RIGEL_REG_DDFSTOP] *)
Definition RIGEL_REG_DDFSTOP := 0x094.
(** C: [src/include/rigel/rigel_custom.h]:43-43 [RIGEL_REG_BPL1PTH] *)
Definition RIGEL_REG_BPL1PTH := 0x0e0.
(** C: [src/include/rigel/rigel_custom.h]:54-54 [RIGEL_REG_BPL6PTL] *)
Definition RIGEL_REG_BPL6PTL := 0x0f6.
(** C: [src/src/chipset/agnus/mmio/agnus_regs.h]:48-48 [AGNUS_SPR0PTH] *)
Definition AGNUS_SPR0PTH := 0x120.
(** C: [src/src/chipset/agnus/mmio/agnus_regs.h]:63-63 [AGNUS_SPR7PTL] *)
Definition AGNUS_SPR7PTL := 0x13e.
(** C: [src/src/chipset/agnus/mmio/agnus_regs.h]:81-81 [AGNUS_BPLMOD1] *)
Definition AGNUS_BPLMOD1 := 0x108.
(** C: [src/src/chipset/agnus/mmio/agnus_regs.h]:82-82 [AGNUS_BPLMOD2] *)
Definition AGNUS_BPLMOD2 := 0x10a.
(** C: [src/include/rigel/rigel_custom.h]:73-73 [RIGEL_REG_BEAMCON0] *)
Definition RIGEL_REG_BEAMCON0 := 0x1dc.
(** C: [src/src/chipset/agnus/blitter/blitter.h]:25-25 [AGNUS_BLTSIZE] *)
Definition AGNUS_BLTSIZE := 0x058.

#[export] Hint Unfold AGNUS_DMACONR AGNUS_VPOSR AGNUS_VHPOSR RIGEL_REG_DDFSTRT RIGEL_REG_DDFSTOP
  RIGEL_REG_BPL1PTH RIGEL_REG_BPL6PTL AGNUS_SPR0PTH AGNUS_SPR7PTL AGNUS_BPLMOD1 AGNUS_BPLMOD2
  RIGEL_REG_BEAMCON0 AGNUS_BLTSIZE : consts.

Section registers.
Context {M : Type}.
#[local] Abbreviation Ctx := (RigelContext M).

(** The value and the machine after a read, or the machine with [fault] set. *)
Definition or_fault (o : option Ctx) (c : Ctx) : Ctx :=
  match o with Some c' => c' | None => c <| fault := true |> end.

(** ** Agnus *)

(** The pointer registers of the bitplanes and sprites.
    C: [src/src/chipset/agnus/mmio/agnus_mmio.c]:23-31 [rigel_agnus_mmio_has_reg] *)
Definition is_bplpt_reg (addr : Z) : bool :=
  (RIGEL_REG_BPL1PTH <=? addr) && (addr <=? RIGEL_REG_BPL6PTL) && (addr .& 1 =? 0).
Definition is_sprpt_reg (addr : Z) : bool :=
  (AGNUS_SPR0PTH <=? addr) && (addr <=? AGNUS_SPR7PTL) && (addr .& 1 =? 0).

(** C: [src/src/chipset/agnus/mmio/agnus_mmio.c] [rigel_agnus_mmio_has_reg] *)
Definition rigel_agnus_mmio_has_reg (addr : Z) : bool :=
  if (addr =? RIGEL_REG_DMACON) || (addr =? AGNUS_DMACONR) || (addr =? RIGEL_REG_DDFSTRT) ||
     (addr =? RIGEL_REG_DDFSTOP) || (addr =? AGNUS_VPOSR) || (addr =? AGNUS_VHPOSR) then true
  else if is_bplpt_reg addr then true
  else if is_sprpt_reg addr then true
  else if (addr =? AGNUS_BPLMOD1) || (addr =? AGNUS_BPLMOD2) || (addr =? RIGEL_REG_BEAMCON0) then true
  else if rigel_copper_regs_owns_reg addr then true
  else rigel_blitter_domain_owns_reg addr.

(** C: [src/src/chipset/agnus/mmio/agnus_mmio.c] [rigel_agnus_mmio_owns_reg] *)
Definition rigel_agnus_mmio_owns_reg (addr : Z) : bool := rigel_agnus_mmio_has_reg addr.

(** C: [src/src/chipset/agnus/mmio/agnus_read.c] [agnus_vposr_chip_id] *)
Definition agnus_vposr_chip_id (a : RigelAgnus) : Z :=
  if is_ecs (agnus_rev a) then if raster_pal (raster a) then 0x20 else 0x30
  else if raster_pal (raster a) then 0x00 else 0x10.

(** C: [src/src/chipset/agnus/mmio/agnus_read.c] [rigel_agnus_mmio_read_impl] *)
Definition rigel_agnus_mmio_read (c : Ctx) (addr : Z) : Z :=
  let a := agnus c in
  if addr =? AGNUS_DMACONR then
    let val := rigel_dma_domain_read_dmacon (dma a) in
    let val := if truthy (blitter_is_busy (blitter a)) then val .| 0x4000 else val in
    if result_zero (result (blitter a)) then val .| 0x2000 else val
  else if addr =? RIGEL_REG_DMACON then rigel_dma_domain_read_dmacon (dma a)
  else if rigel_blitter_domain_owns_reg addr then rigel_blitter_domain_read_reg (blitter a) addr
  else if rigel_copper_regs_owns_reg addr then
    default (rigel_context_read_reg c addr) (rigel_copper_regs_read (copper a) addr)
  else if addr =? AGNUS_VPOSR then
    u16 ((lof (beam a) .<< 15) .| u32 (agnus_vposr_chip_id a .<< 8) .| ((vpos (beam a) .>> 8) .& 0x7))
  else if addr =? AGNUS_VHPOSR then
    u16 (u32 ((vpos (beam a) .& 0xff) .<< 8) .| ((hpos (beam a) .>> 1) .& 0xff))
  else if addr =? RIGEL_REG_BEAMCON0 then if is_ecs (agnus_rev a) then beamcon0 a else 0
  else rigel_context_read_reg c addr.

(** A bitplane or sprite pointer register.
    C: [src/src/chipset/agnus/mmio/agnus_write.c]:89-104 [rigel_agnus_mmio_write_impl] *)
Definition agnus_write_pointer (addr value : Z) (a : RigelAgnus) : RigelAgnus :=
  let a := if is_bplpt_reg addr then
             let plane := (addr - RIGEL_REG_BPL1PTH) / 4 in
             a <| bplpt := if addr .& 2 =? 0 then bplpt_set_hi plane value (bplpt a)
                           else bplpt_set_lo plane value (bplpt a) |>
           else a in
  if is_sprpt_reg addr then
    let sp := (addr - AGNUS_SPR0PTH) / 4 in
    a <| sprite_dma := if addr .& 2 =? 0 then sprite_dma_set_ptr_hi sp value (sprite_dma a)
                       else sprite_dma_set_ptr_lo sp value (sprite_dma a) |>
  else a.

(** C: [src/src/chipset/agnus/mmio/agnus_write.c] [rigel_agnus_mmio_write_impl] *)
Definition rigel_agnus_mmio_write (addr value : Z) (c : Ctx) : Ctx :=
  if rigel_blitter_domain_owns_reg addr then
    let c := if addr =? AGNUS_BLTSIZE
             then on_lines (on_interrupts (fun i => rigel_paula_interrupts_clear i BLITTER_INTREQ_BLIT)) c
             else c in
    rigel_context_write_reg addr value
      (on_agnus (fun a => a <| blitter := rigel_blitter_domain_write_reg (blitter a) addr value |>) c)
  else if rigel_copper_regs_owns_reg addr then
    rigel_context_write_reg addr value
      (on_agnus (fun a => a <| copper := rigel_copper_regs_write (copper a) addr value |>) c)
  else if addr =? RIGEL_REG_DMACON then
    let c := on_agnus (fun a => a <| dma := rigel_dma_domain_write_dmacon (dma a) value |>) c in
    let live := rigel_dma_domain_read_dmacon (dma (agnus c)) in
    on_scheduler (agnus_slot_scheduler_invalidate live) (rigel_context_write_reg addr live c)
  else if addr =? RIGEL_REG_DDFSTRT then
    let c := on_agnus (fun a => a <| raster := raster_set_ddfstrt (raster a) value |>) c in
    let c := on_scheduler (fun s => agnus_slot_scheduler_set_ddf value (s_ddfstop s) s) c in
    let lores := u16 ((s_ddfstrt (scheduler (agnus c)) .& 0x00fc) .<< 1) in
    rigel_context_write_reg addr value
      (on_denise (fun d => d <| output := (output d) <| ddfstrt_lores := lores |> |>) c)
  else if addr =? RIGEL_REG_DDFSTOP then
    let c := on_agnus (fun a => a <| raster := raster_set_ddfstop (raster a) value |>) c in
    rigel_context_write_reg addr value
      (on_scheduler (fun s => agnus_slot_scheduler_set_ddf (s_ddfstrt s) value s) c)
  else if addr =? RIGEL_REG_BEAMCON0 then
    if is_ecs (agnus_rev (agnus c)) then
      let b := u16 (value .& 0x0020) in
      rigel_context_write_reg addr b
        (on_agnus (fun a => rigel_agnus_set_video_std (has value 0x0020) (a <| beamcon0 := b |>)) c)
    else c
  else rigel_context_write_reg addr value (on_agnus (agnus_write_pointer addr value) c).

(** ** Denise *)

(** C: [src/src/chipset/denise/denise.c] [rigel_denise_owns_reg] *)
Definition rigel_denise_owns_reg (addr : Z) : bool := rigel_denise_registers_owns_reg addr.

(** C: [src/src/chipset/denise/denise.c] [rigel_denise_read_reg] *)
Definition rigel_denise_read_reg (addr : Z) (c : Ctx) : Z * Ctx :=
  let '(v, d) := rigel_denise_registers_read addr (denise c) in (v, c <| denise := d |>).

(** What Agnus takes from Denise's registers.
    C: [src/src/chipset/denise/denise.c]:108-129 [rigel_denise_write_reg] *)
Definition agnus_sees_denise_write (addr value : Z) (a : RigelAgnus) : RigelAgnus :=
  let a :=
    if addr =? RIGEL_REG_BPLCON0 then
      let s := agnus_slot_scheduler_set_depth ((value .>> 12) .& 0x7)
                 (agnus_slot_scheduler_set_hires (has value 0x8000) (scheduler a)) in
      let b := (beam a) <| lof_toggle := b2u (has value 0x0004) |> in
      a <| scheduler := s |> <| beam := if value .& 0x0004 =? 0 then b <| lof := 0 |> else b |>
    else a in
  let a :=
    if addr =? RIGEL_REG_DIWSTRT then
      a <| raster := raster_set_diwstrt (raster a) value |>
        <| scheduler := agnus_slot_scheduler_set_vstrt value (scheduler a) |>
    else a in
  if addr =? RIGEL_REG_DIWSTOP then a <| raster := raster_set_diwstop (raster a) value |> else a.

(** C: [src/src/chipset/denise/denise.c] [rigel_denise_write_reg] *)
Definition rigel_denise_write_reg (addr value : Z) (c : Ctx) : Ctx :=
  let c := on_denise (rigel_denise_registers_write addr value) c in
  on_agnus (agnus_sees_denise_write addr value) (rigel_context_write_reg addr value c).

(** ** Paula *)

(** C: [src/src/chipset/paula/paula.c] [paula_owns_reg] *)
Definition paula_owns_reg (addr : Z) : bool :=
  rigel_input_domain_owns_reg addr || rigel_audio_domain_owns_reg addr ||
  rigel_disk_domain_owns_reg addr || rigel_serial_domain_owns_reg addr ||
  rigel_interrupt_domain_owns_reg addr.

(** C: [src/src/chipset/paula/paula.c] [paula_read_reg] *)
Definition paula_read_reg (addr : Z) (c : Ctx) : Z * Ctx :=
  let p := paula c in
  if rigel_input_domain_owns_reg addr then (rigel_input_domain_read_reg (input p) addr, c)
  else if rigel_audio_domain_owns_reg addr then (rigel_context_read_reg c addr, c)
  else if rigel_disk_domain_owns_reg addr then
    let '(v, d) := rigel_disk_domain_read_reg addr (disk p) in
    (v, on_paula (fun p => p <| disk := d |>) c)
  else if rigel_serial_domain_owns_reg addr then
    let '(v, s) := rigel_serial_domain_read_reg addr (serial p) in
    (v, on_paula (fun p => p <| serial := s |>) c)
  else if rigel_interrupt_domain_owns_reg addr then (rigel_interrupt_domain_read_reg (intr c) addr, c)
  else (rigel_context_read_reg c addr, c).

(** A write to the disk controller, with what the shadow then records.
    C: [src/src/chipset/paula/paula.c]:79-91 [paula_write_reg] *)
Definition paula_write_disk (addr value : Z) (c : Ctx) : Ctx :=
  match rigel_disk_domain_write_reg (env_dsksyn (env c)) (floppy c) addr value (disk (paula c), bus c) with
  | None => c <| fault := true |>
  | Some (d, b) =>
      rigel_context_write_reg addr
        (match disk_reg addr with Some DSKLEN => dsklen d | Some ADKCON => adkcon d | _ => value end)
        (c <| paula := (paula c) <| disk := d |> |> <| bus := b |>)
  end.

(** C: [src/src/chipset/paula/paula.c] [paula_write_reg] *)
Definition paula_write_reg (addr value : Z) (c : Ctx) : Ctx :=
  if rigel_input_domain_owns_reg addr then
    rigel_context_write_reg addr value
      (on_paula (fun p => p <| input := rigel_input_domain_write_reg addr value (input p) |>) c)
  else if rigel_audio_domain_owns_reg addr then
    rigel_context_write_reg addr value
      (on_paula (fun p => p <| audio := rigel_audio_domain_write_reg addr value (audio p) |>) c)
  else if rigel_disk_domain_owns_reg addr then paula_write_disk addr value c
  else if rigel_serial_domain_owns_reg addr then
    let c := on_serial (rigel_serial_domain_write_reg addr value) c in
    rigel_context_write_reg addr (if addr =? RIGEL_REG_SERPER then serper (serial (paula c)) else value) c
  else if rigel_interrupt_domain_owns_reg addr then
    let c := on_lines (on_interrupts (fun i => rigel_interrupt_domain_write_reg i addr value)) c in
    rigel_context_write_reg addr (rigel_interrupt_domain_read_reg (intr c) addr) c
  else rigel_context_write_reg addr value c.

(** ** Dispatch *)

(** C: [src/include/rigel/rigel_custom.h]:91-96 [rigel_custom_domain_t] *)
Inductive custom_domain := RIGEL_DOMAIN_UNKNOWN | RIGEL_DOMAIN_AGNUS | RIGEL_DOMAIN_DENISE | RIGEL_DOMAIN_PAULA.

(** The registers the switch names for Paula.
    C: [src/src/mmio/custom_regs.c]:22-40 [rigel_custom_domain_for_reg] *)
Definition paula_named_regs : list Z :=
  [RIGEL_REG_INTENA; 0x008; 0x00a; 0x00c; 0x010; 0x012; 0x014; 0x016; 0x018; 0x01a; 0x020; 0x022;
   0x024; 0x030; 0x032; 0x034; 0x07e; 0x09e; RIGEL_REG_INTREQ].

(** C: [src/src/mmio/custom_regs.c] [rigel_custom_domain_for_reg] *)
Definition rigel_custom_domain_for_reg (addr : Z) : custom_domain :=
  if negb (rigel_custom_is_valid_reg addr) then RIGEL_DOMAIN_UNKNOWN
  else if addr =? RIGEL_REG_DMACON then RIGEL_DOMAIN_AGNUS
  else if existsb (Z.eqb addr) paula_named_regs then RIGEL_DOMAIN_PAULA
  else if addr =? RIGEL_REG_COLOR00 then RIGEL_DOMAIN_DENISE
  else if rigel_agnus_mmio_owns_reg addr then RIGEL_DOMAIN_AGNUS
  else if rigel_denise_owns_reg addr then RIGEL_DOMAIN_DENISE
  else if paula_owns_reg addr then RIGEL_DOMAIN_PAULA else RIGEL_DOMAIN_UNKNOWN.

(** C: [src/src/mmio/custom_regs.c] [custom_regs_read16] *)
Definition custom_regs_read16 (addr : Z) (c : Ctx) : Z * Ctx :=
  if negb (rigel_custom_is_valid_reg addr) then (0, c)
  else match rigel_custom_domain_for_reg addr with
       | RIGEL_DOMAIN_AGNUS => (rigel_agnus_mmio_read c addr, c)
       | RIGEL_DOMAIN_PAULA => paula_read_reg addr c
       | RIGEL_DOMAIN_DENISE => rigel_denise_read_reg addr c
       | RIGEL_DOMAIN_UNKNOWN => (rigel_context_read_reg c addr, c)
       end.

(** C: [src/src/mmio/custom_regs.c] [custom_regs_write16] *)
Definition custom_regs_write16 (addr value : Z) (c : Ctx) : Ctx :=
  if negb (rigel_custom_is_valid_reg addr) then c
  else match rigel_custom_domain_for_reg addr with
       | RIGEL_DOMAIN_AGNUS => rigel_agnus_mmio_write addr value c
       | RIGEL_DOMAIN_PAULA => paula_write_reg addr value c
       | RIGEL_DOMAIN_DENISE => rigel_denise_write_reg addr value c
       | RIGEL_DOMAIN_UNKNOWN => rigel_context_write_reg addr value c
       end.

End registers.

(** ** The machine hosts the copper *)

(** C: [src/include/rigel/rigel_denise_types.h]:38-38 [RIGEL_FRAME_COPPER_ACTIVE] *)
Definition RIGEL_FRAME_COPPER_ACTIVE := 8.

(** The interface through which the copper reaches the machine. *)
#[export] Instance rigel_host {M} : CopperHost (RigelContext M) := {
  host_copper c := copper (agnus c);
  host_set_copper s := on_agnus (fun a => a <| copper := s |>);
  host_beam c := beam (agnus c);
  host_chip_read16 := context_read16;
  host_custom_write16 := custom_regs_write16;
  host_mark_copper_active := on_denise (fun d =>
    d <| output := (output d) <| pending_flags := pending_flags (output d) .| RIGEL_FRAME_COPPER_ACTIVE |> |>);
}.
