(* ===== verification/FloppyPort.v ===== *)
(** * The CIAs, the drives and the keyboard as the host reaches them:
      [core/rigel_cia_api.c], the floppy functions of [core/rigel.c]

    Port B of CIA-B carries the control lines of the four drives, port A of
    CIA-A their status.  Both are recomputed when a register of port B is
    written and when media are changed. *)

From S2P Require Import Prelude Custom Interrupt Cia ChipRam Floppy Disk Denise Machine Registers.

Section floppy_port.
Context {M : Type}.
#[local] Abbreviation Ctx := (RigelContext M).

(** The select lines of the drives in the value of port B, active low.
    C: [src/src/core/rigel_cia_api.c]:30-33 [cia_b_prb_update_floppy] *)
Definition prb_selects (prb : Z) : list bool :=
  [negb (has prb 0x08); negb (has prb 0x10); negb (has prb 0x20); negb (has prb 0x40)].

(** C: [src/src/core/rigel_cia_api.c]:29-29 [cia_b_prb_update_floppy] *)
Definition prb_motor (prb : Z) : bool := negb (has prb 0x80).

(** The signals a drive receives.
    C: [src/src/core/rigel_cia_api.c]:34-42 [cia_b_prb_update_floppy] *)
Definition prb_signals (prb : Z) (sel : bool) (d : FloppyDrive) : FloppySignals :=
  let selected := truthy (connected d) && sel in
  {| sig_selected := b2u selected;
     sig_motor := if selected then b2u (prb_motor prb) else 0;
     sig_step := b2u (negb (has prb 0x01));
     sig_direction := (prb .>> 1) .& 1;
     sig_side := b2u (((prb .>> 2) .& 1) =? 0) |}.

(** The drives a rule selects: the first one (drive 0 if there is none) and their
    number.
    C: [src/src/core/rigel_cia_api.c]:45-54 [cia_b_prb_update_floppy] *)
Definition selected_drives (rule : FloppyDrive -> bool) (prb : Z) (drives : list FloppyDrive) : nat * nat :=
  let on := filter (fun i => nth i (prb_selects prb) false &&
                             match drives !! i with Some d => rule d | None => false end = true)
              (seq 0 4) in
  (hd 0%nat on, length on).

(** The status lines of the drives in the value of port A.
    C: [src/src/core/rigel_cia_api.c]:69-82 [cia_b_prb_update_floppy] *)
Definition drive_status (mtr : bool) (d : FloppyDrive) (pra : Z) : Z :=
  let idmode := negb mtr && (0 <=? id_count d) && (id_count d <? 32) in
  let pra := if negb (truthy (floppy_get_dskchg d)) then u8 (pra .& u32 (~~ 0x04)) else pra in
  let pra := if negb (truthy (floppy_get_wpro d)) then u8 (pra .& u32 (~~ 0x08)) else pra in
  let pra := if truthy (floppy_get_track0 d) then u8 (pra .& u32 (~~ 0x10)) else pra in
  if idmode then if negb (truthy (floppy_get_idbit d)) then u8 (pra .& u32 (~~ 0x20)) else pra
  else if truthy (floppy_get_ready d) then u8 (pra .& u32 (~~ 0x20)) else pra.

(** The routing of the transfers and the status lines, which both functions
    share; [count] drives are selected, [active] is the first of them.
    C: [src/src/core/rigel.c]:66-89 [rigel_sync_floppy_cia_lines] *)
Definition route_drive (prb : Z) (active count : nat) (c : Ctx) : Ctx :=
  let c := on_paula (rigel_paula_set_disk_drive active) c in
  let pra := u8 (cia_port_a_value (cia_a c) .| 0x3c) in
  let pra := if (count =? 1)%nat then
               match floppy c !! active with Some d => drive_status (prb_motor prb) d pra | None => pra end
             else pra in
  c <| cia_a := cia_set_external_pra pra (cia_a c) |>.

(** C: [src/src/core/rigel_cia_api.c] [cia_b_prb_update_floppy] *)
Definition cia_b_prb_update_floppy (c : Ctx) : Ctx :=
  let prb := cia_port_b_value (cia_b c) in
  let c := c <| floppy := imap (fun i d =>
      floppy_step (prb_signals prb (nth i (prb_selects prb) false) d) d) (floppy c) |> in
  let '(active, count) := selected_drives (fun d => truthy (connected d)) prb (floppy c) in
  route_drive prb active count c.

(** Unlike the other, this one counts the drives that are selected, connected or
    not.
    C: [src/src/core/rigel.c] [rigel_sync_floppy_cia_lines] *)
Definition rigel_sync_floppy_cia_lines (c : Ctx) : Ctx :=
  let prb := cia_port_b_value (cia_b c) in
  let '(active, count) := selected_drives (fun _ => true) prb (floppy c) in
  route_drive prb active count c.

(** ** The CIAs *)

(** C: [src/src/core/rigel_cia_api.c] [rigel_cia_read] *)
Definition rigel_cia_read (id reg : Z) (c : Ctx) : Z * Ctx :=
  if 2 <=? id then (0xff, c)
  else let '(v, w) := cia_read_reg reg (cia_board id c) in (v, set_cia_board id w c).

(** C: [src/src/core/rigel_cia_api.c] [rigel_cia_write] *)
Definition rigel_cia_write (id reg value : Z) (c : Ctx) : Ctx :=
  if 2 <=? id then c
  else
    let c := on_cia id (cia_write_reg reg value) c in
    if (id =? 1) && ((reg =? 0x1) || (reg =? 0x3)) then cia_b_prb_update_floppy c else c.

(** C: [src/src/core/rigel_cia_api.c] [rigel_keyboard_inject] *)
Definition rigel_keyboard_inject (keycode : Z) (pressed : bool) (c : Ctx) : Ctx :=
  let sdr_byte := u8 (~~ (u8 (keycode .<< 1) .| (if pressed then 0 else 1))) in
  on_cia 0 (fun w => (cia_receive_sdr sdr_byte w).2) c.

(** ** Media *)

(** C: [src/include/rigel/rigel_types.h]:15-18 [rigel_status_t] *)
Inductive rigel_status := RIGEL_STATUS_OK | RIGEL_STATUS_ERROR.

(** A drive of the enumeration, as an index.
    C: [src/src/chipset/chipset.c] [rigel_chipset_floppy_drive] *)
Definition rigel_chipset_floppy_drive (drive : Z) : option nat :=
  if (0 <=? drive) && (drive <? 4) then Some (Z.to_nat drive) else None.

(** C: [src/src/core/rigel.c] [rigel_floppy_insert] *)
Definition rigel_floppy_insert (drive : Z) (data : option (list Z)) (size : Z) (c : Ctx) : rigel_status * Ctx :=
  if negb (bool_decide (data <> None)) || (size =? 0) then (RIGEL_STATUS_ERROR, c)
  else match rigel_chipset_floppy_drive drive with
       | None => (RIGEL_STATUS_ERROR, c)
       | Some i =>
           (RIGEL_STATUS_OK,
            rigel_sync_floppy_cia_lines (c <| floppy := alter (floppy_insert data size) i (floppy c) |>))
       end.

(** C: [src/src/core/rigel.c] [rigel_floppy_eject] *)
Definition rigel_floppy_eject (drive : Z) (c : Ctx) : Ctx :=
  match rigel_chipset_floppy_drive drive with
  | None => c
  | Some i => rigel_sync_floppy_cia_lines (c <| floppy := alter floppy_eject i (floppy c) |>)
  end.

(** C: [src/src/core/rigel.c] [rigel_floppy_has_media] *)
Definition rigel_floppy_has_media (drive : Z) (c : Ctx) : bool :=
  match i ← rigel_chipset_floppy_drive drive; floppy c !! i with
  | Some d => floppy_has_media d
  | None => false
  end.

(** C: [src/include/rigel/rigel_floppy.h]:13-24 [rigel_floppy_status_t] *)
Record floppy_status := mkStatus {
  st_has_media : bool; st_selected : bool; st_motor_on : bool; st_ready : bool; st_track0 : bool;
  st_disk_changed : bool; st_write_protected : bool; st_dma_active : bool;
  st_cylinder : Z; st_side : Z;
}.

(** C: [src/src/core/rigel.c] [rigel_floppy_get_status] *)
Definition rigel_floppy_get_status (drive : Z) (c : Ctx) : option floppy_status :=
  i ← rigel_chipset_floppy_drive drive;
  d ← floppy c !! i;
  let prb := cia_port_b_value (cia_b c) in
  let sel_bit := u8 (0x08 .<< u8 drive) in
  Some {| st_has_media := floppy_has_media d;
          st_selected := truthy (connected d) && (prb .& sel_bit =? 0);
          st_motor_on := truthy (motor d);
          st_ready := truthy (ready d);
          st_track0 := truthy (track0 d);
          st_disk_changed := truthy (disk_changed d);
          st_write_protected := truthy (write_protected d);
          st_dma_active := bool_decide (Disk.drive (disk (paula c)) = Some i) && dma_active (disk (paula c));
          st_cylinder := u8 (cylinder d);
          st_side := u8 (side d) |}.

End floppy_port.
