(* ===== verification/Mmio.v ===== *)
(** * The address map: [mmio/rigel_mmio.c]

    The decoding of the addresses the CPU sees: the custom registers, the two
    CIAs and the clock, by access width. *)

From S2P Require Import Prelude Custom Machine Registers FloppyPort Rtc.

(** C: [src/src/mmio/rigel_mmio.c]:7-7 [RIGEL_M68K_ADDRESS_MAX] *)
Definition RIGEL_M68K_ADDRESS_MAX := 0x00ffffff.
(** C: [src/src/mmio/rigel_mmio.c]:8-8 [RIGEL_CUSTOM_BASE] *)
Definition RIGEL_CUSTOM_BASE := 0x00dff000.
(** C: [src/src/mmio/rigel_mmio.c]:9-9 [RIGEL_CUSTOM_END] *)
Definition RIGEL_CUSTOM_SPACE_END := 0x00dfffff.
(** C: [src/src/mmio/rigel_mmio.c]:10-10 [RIGEL_CIAB_BASE] *)
Definition RIGEL_CIAB_BASE := 0x00bfd000.
(** C: [src/src/mmio/rigel_mmio.c]:11-11 [RIGEL_CIAB_END] *)
Definition RIGEL_CIAB_END := 0x00bfdf00.
(** C: [src/src/mmio/rigel_mmio.c]:12-12 [RIGEL_CIA_SHARED_BASE] *)
Definition RIGEL_CIA_SHARED_BASE := 0x00bfe000.
(** C: [src/src/mmio/rigel_mmio.c]:13-13 [RIGEL_CIA_SHARED_END] *)
Definition RIGEL_CIA_SHARED_END := 0x00bfef01.
(** C: [src/src/mmio/rigel_mmio.c]:14-14 [RIGEL_RTC_BASE] *)
Definition RIGEL_RTC_BASE := 0x00dc0000.
(** C: [src/src/mmio/rigel_mmio.c]:15-15 [RIGEL_RTC_END] *)
Definition RIGEL_RTC_END := 0x00dcffff.

#[export] Hint Unfold RIGEL_M68K_ADDRESS_MAX RIGEL_CUSTOM_BASE RIGEL_CUSTOM_SPACE_END RIGEL_CIAB_BASE
  RIGEL_CIAB_END RIGEL_CIA_SHARED_BASE RIGEL_CIA_SHARED_END RIGEL_RTC_BASE RIGEL_RTC_END : consts.

(** C: [src/include/rigel/rigel_mmio.h]:6-10 [rigel_mmio_result_t] *)
Inductive mmio_result := RIGEL_MMIO_UNMAPPED | RIGEL_MMIO_HANDLED | RIGEL_MMIO_UNSUPPORTED.

(** C: [src/src/mmio/rigel_mmio.c] [custom_address] *)
Definition custom_address (addr : Z) : bool := (RIGEL_CUSTOM_BASE <=? addr) && (addr <=? RIGEL_CUSTOM_SPACE_END).

(** [None] is the result -1.
    C: [src/src/mmio/rigel_mmio.c] [cia_id_for_address] *)
Definition cia_id_for_address (addr : Z) : option Z :=
  if negb (addr .& 1 =? 0) && (RIGEL_CIA_SHARED_BASE <=? addr) && (addr <=? RIGEL_CIA_SHARED_END) then Some 0
  else if (addr .& 1 =? 0) &&
          (((RIGEL_CIAB_BASE <=? addr) && (addr <=? RIGEL_CIAB_END)) ||
           ((RIGEL_CIA_SHARED_BASE <=? addr) && (addr <? RIGEL_CIA_SHARED_END)))
  then Some 1 else None.

Definition rtc_address (addr : Z) : bool := (RIGEL_RTC_BASE <=? addr) && (addr <=? RIGEL_RTC_END).

Section mmio.
Context {M : Type}.
#[local] Abbreviation Ctx := (RigelContext M).

(** C: [src/src/mmio/rigel_mmio.c] [custom_read_word] *)
Definition custom_read_word (addr : Z) (c : Ctx) : Z * Ctx := custom_regs_read16 (addr .& 0x1fe) c.

(** C: [src/src/mmio/rigel_mmio.c] [custom_write_word] *)
Definition custom_write_word (addr value : Z) : Ctx -> Ctx := custom_regs_write16 (addr .& 0x1fe) value.

(** The accesses the custom space refuses before it looks at the register.
    C: [src/src/mmio/rigel_mmio.c]:61-66 [rigel_mmio_read] *)
Definition custom_refused (addr size : Z) : bool :=
  (((size =? 2) || (size =? 4)) && negb (addr .& 1 =? 0)) ||
  ((size =? 4) && negb (custom_address (u32 (addr + 3)))).

(** A read of the custom space: the result and the value stored through the
    pointer, if any.
    C: [src/src/mmio/rigel_mmio.c]:58-81 [rigel_mmio_read] *)
Definition custom_read (addr size : Z) (c : Ctx) : mmio_result * option Z * Ctx :=
  if custom_refused addr size then (RIGEL_MMIO_UNSUPPORTED, None, c)
  else
    let '(word, c) := custom_read_word addr c in
    if size =? 1 then
      (RIGEL_MMIO_HANDLED, Some (if negb (addr .& 1 =? 0) then word .& 0xff else word .>> 8), c)
    else if size =? 2 then (RIGEL_MMIO_HANDLED, Some word, c)
    else if size =? 4 then
      let '(low, c) := custom_read_word (u32 (addr + 2)) c in
      (RIGEL_MMIO_HANDLED, Some (u32 (word .<< 16) .| low), c)
    else (RIGEL_MMIO_UNSUPPORTED, None, c).

(** The result pointer is not null.
    C: [src/src/mmio/rigel_mmio.c] [rigel_mmio_read] *)
Definition rigel_mmio_read (addr size : Z) (c : Ctx) : mmio_result * option Z * Ctx :=
  if RIGEL_M68K_ADDRESS_MAX <? addr then (RIGEL_MMIO_UNMAPPED, None, c)
  else if custom_address addr then custom_read addr size c
  else match cia_id_for_address addr with
       | Some id =>
           if negb (size =? 1) then (RIGEL_MMIO_UNSUPPORTED, None, c)
           else let '(v, c) := rigel_cia_read id ((addr .>> 8) .& 0x0f) c in
                (RIGEL_MMIO_HANDLED, Some v, c)
       | None =>
           if rtc_address addr then
             if negb (size =? 1) then (RIGEL_MMIO_UNSUPPORTED, None, c)
             else let '(v, r) := rigel_rtc_read_reg (env_rtc (env c)) ((addr .>> 2) .& 0x0f) (rtc c) in
                  (RIGEL_MMIO_HANDLED, Some v, c <| rtc := r |>)
           else (RIGEL_MMIO_UNMAPPED, None, c)
       end.

(** C: [src/src/mmio/rigel_mmio.c]:113-139 [rigel_mmio_write] *)
Definition custom_write (addr size value : Z) (c : Ctx) : mmio_result * Ctx :=
  if custom_refused addr size then (RIGEL_MMIO_UNSUPPORTED, c)
  else if size =? 1 then
    let '(word, c) := custom_read_word addr c in
    let word := if negb (addr .& 1 =? 0) then u16 ((word .& 0xff00) .| (value .& 0xff))
                else u16 ((word .& 0x00ff) .| ((value .& 0xff) .<< 8)) in
    (RIGEL_MMIO_HANDLED, custom_write_word addr word c)
  else if size =? 2 then (RIGEL_MMIO_HANDLED, custom_write_word addr (u16 value) c)
  else if size =? 4 then
    (RIGEL_MMIO_HANDLED,
     custom_write_word (u32 (addr + 2)) (u16 value) (custom_write_word addr (u16 (value .>> 16)) c))
  else (RIGEL_MMIO_UNSUPPORTED, c).

(** C: [src/src/mmio/rigel_mmio.c] [rigel_mmio_write] *)
Definition rigel_mmio_write (addr size value : Z) (c : Ctx) : mmio_result * Ctx :=
  if RIGEL_M68K_ADDRESS_MAX <? addr then (RIGEL_MMIO_UNMAPPED, c)
  else if custom_address addr then custom_write addr size value c
  else match cia_id_for_address addr with
       | Some id =>
           if negb (size =? 1) then (RIGEL_MMIO_UNSUPPORTED, c)
           else (RIGEL_MMIO_HANDLED, rigel_cia_write id ((addr .>> 8) .& 0x0f) (u8 value) c)
       | None =>
           if rtc_address addr then
             if negb (size =? 1) then (RIGEL_MMIO_UNSUPPORTED, c)
             else (RIGEL_MMIO_HANDLED,
                   c <| rtc := rigel_rtc_write_reg (env_rtc (env c)) ((addr .>> 2) .& 0x0f) (value .& 0x0f)
                                 (rtc c) |>)
           else (RIGEL_MMIO_UNMAPPED, c)
       end.

(** C: [src/src/mmio/rigel_mmio.c] [rigel_custom_read16] *)
Definition rigel_custom_read16 (addr : Z) : Ctx -> Z * Ctx := custom_regs_read16 addr.

(** C: [src/src/mmio/rigel_mmio.c] [rigel_custom_write16] *)
Definition rigel_custom_write16 (addr value : Z) : Ctx -> Ctx := custom_regs_write16 addr value.

End mmio.
