(* ===== verification/Chipset.v ===== *)
(** * The chipset in time: the step of [slot_scheduler.c], [agnus.c], [chipset.c]

    One colour clock of the machine: the slot's owner is chosen and served, the
    beam advances, Denise follows it.  Then the step of the whole chipset over a
    number of clocks: Agnus clock by clock, Paula, the clocks of the CIAs.
    Trace output and log events are left out. *)

From S2P Require Import Prelude Custom Interrupt Cia ChipRam Blitter BlitterDma Dma Beam Copper Floppy Disk.
From S2P Require Import Serial Audio SpriteDma Scheduler DeniseSprites Denise Framebuffer Compositor Machine.
From S2P Require Import Registers.

(** C: [src/src/chipset/agnus/irq/agnus_irq.h]:13-13 [AGNUS_INTB_VERTB] *)
Definition AGNUS_INTB_VERTB := 0x0020.

(** C: [src/src/chipset/chipset.c]:17-17 [CIA_CCK_PER_ECLOCK] *)
Definition CIA_CCK_PER_ECLOCK := 5.

Section chipset.
Context {M : Type}.
#[local] Abbreviation Ctx := (RigelContext M).

(** ** Serving a slot *)

(** C: [src/src/chipset/agnus/agnus.c] [rigel_agnus_blitter_step_dma] *)
Definition rigel_agnus_blitter_step_dma (dma_slots : Z) (c : Ctx) : Ctx :=
  if dma_slots =? 0 then c
  else
    let w := rigel_blitter_domain_step_dma (context_ram c)
               (Some (fun l mask => rigel_chipset_raise_irq_source mask l)) dma_slots
               (mkWorld (blitter (agnus c)) (memory (bus c)) (lines (bus c))) in
    on_agnus (fun a => a <| blitter := blt w |>) (c <| bus := mkBus (sink w) (ram w) |>).

(** The slot of a sprite: Denise receives the words of a complete pair.
    C: [src/src/chipset/agnus/timing/slot_scheduler.c]:250-289 [dispatch_slot] *)
Definition dispatch_sprite (sp hpos : Z) (c : Ctx) : Ctx :=
  let is_b := negb (hpos .& 2 =? 0) in
  let '(ready, out, s) := sprite_dma_slot sp (vpos (beam (agnus c))) is_b (Some (context_read16 c))
                            (sprite_dma (agnus c)) in
  let c := on_agnus (fun a => a <| sprite_dma := s |>) c in
  match ready, out with
  | true, Some (w0, w1, true) =>
      on_denise (fun d => d <| sprites := denise_sprite_receive_ctrl sp w0 w1 (sprites d) |>) c
  | true, Some (w0, w1, false) =>
      on_denise (fun d => d <| sprites := denise_sprite_receive_data sp w0 w1 (sprites d) |>) c
  | _, _ => c
  end.

(** The plane and word of a bitplane slot.
    C: [src/src/chipset/agnus/timing/slot_scheduler.c]:297-309 [dispatch_slot] *)
Definition bitplane_word (s : slot_scheduler) (hpos : Z) : Z * Z * Z :=
  let logical := if hpos <? AGNUS_SLOTS_PER_LINE
                 then default 0 (bitplane_slot_index s !! Z.to_nat hpos) else 0xffff in
  let logical := if logical =? 0xffff then fetch_plane_index s else logical in
  if 0 <? Scheduler.depth s then (logical, logical mod Scheduler.depth s, u16 (logical / Scheduler.depth s)) else (logical, 0, 0).

(** The first fetch of a line latches the pointers and the depth.
    C: [src/src/chipset/agnus/timing/slot_scheduler.c]:339-347 [dispatch_slot] *)
Definition latch_line_base (a : RigelAgnus) : slot_scheduler :=
  let s := scheduler a in
  if bitplane_line_base_valid s then s
  else s <| bitplane_line_base := map (fun p => p .& 0x001ffffe) (bplpt a) |>
         <| bitplane_line_depth := u16 (Scheduler.depth s) |> <| bitplane_line_base_valid := true |>.

(** It also latches Denise's control registers for the line.
    C: [src/src/chipset/agnus/timing/slot_scheduler.c]:348-356 [dispatch_slot] *)
Definition latch_line_bplcon (d : RigelDenise) : denise_output :=
  let o := output d in
  if line_bplcon_valid o then o
  else o <| line_bplcon0 := bplcon0 (Denise.regs d) |> <| line_bplcon1 := bplcon1 (Denise.regs d) |>
         <| line_bplcon2 := bplcon2 (Denise.regs d) |> <| line_bplcon_valid := true |>.

(** C: [src/src/chipset/agnus/timing/slot_scheduler.c]:293-461 [dispatch_slot] *)
Definition dispatch_bitplane (hpos : Z) (c : Ctx) : Ctx :=
  let a := agnus c in
  let s := scheduler a in
  let '(logical, plane, widx) := bitplane_word s hpos in
  if negb ((0 <? Scheduler.depth s) && (Scheduler.depth s <=? 6) && (plane <? Scheduler.depth s) &&
           (widx <? RIGEL_DENISE_MAX_PLANE_WORDS)) then c
  else
    let s := latch_line_base a in
    let o := latch_line_bplcon (denise c) in
    let addr := u32 (default 0 (bitplane_line_base s !! Z.to_nat plane) + widx * 2) .& 0x001ffffe in
    let word := context_read16 c addr in
    let count := u16 (widx + 1) in
    let o := o <| plane_words :=
                    alter (fun l => <[Z.to_nat widx := word]> l) (Z.to_nat plane) (plane_words o) |>
               <| plane_word_count := if plane_word_count o <? count then count else plane_word_count o |> in
    let s := s <| bitplane_dma_this_line := true |>
               <| bitplane_words_this_line :=
                    if bitplane_words_this_line s <? count then count else bitplane_words_this_line s |>
               <| fetch_plane_index := u16 (logical + 1) |> in
    c <| agnus := a <| scheduler := s |> <| fetch := <[Z.to_nat plane := word]> (fetch a) |> |>
      <| denise := (denise c) <| output := o |> |>.

(** C: [src/src/domains/audio/audio_domain.c] [rigel_audio_domain_step_slot] *)
Definition rigel_audio_domain_step_slot (channel : Z) (c : Ctx) : Ctx :=
  on_audio (audio_dma_step_slot channel
    (Some (fun b => rigel_context_chip_ram_read16 (chip_ram (config c)) (ram_config (config c)) (memory b)))) c.

(** C: [src/src/chipset/agnus/timing/slot_scheduler.c] [dispatch_slot] *)
Definition dispatch_slot (owner : slot_owner) (hpos : Z) (c : Ctx) : Ctx :=
  match owner with
  | AGNUS_SLOT_FREE | AGNUS_SLOT_CPU => c
  | AGNUS_SLOT_REFRESH => on_agnus (fun a => a <| refresh := refresh_dma_step 1 (refresh a) |>) c
  | AGNUS_SLOT_DISK => on_disk (rigel_disk_domain_step_slot (env_dsksyn (env c))) c
  | AGNUS_SLOT_AUDIO channel => rigel_audio_domain_step_slot channel c
  | AGNUS_SLOT_SPRITE sprite => dispatch_sprite sprite hpos c
  | AGNUS_SLOT_BITPLANE => dispatch_bitplane hpos c
  | AGNUS_SLOT_COPPER => rigel_copper_service_step_program c
  | AGNUS_SLOT_BLITTER => rigel_agnus_blitter_step_dma 1 c
  end.

(** ** One colour clock *)

(** The live flags, and the copper's comparison with the beam.
    C: [src/src/chipset/agnus/timing/slot_scheduler.c]:807-840 [agnus_slot_scheduler_step] *)
Definition slot_prepare (c : Ctx) : Ctx :=
  let a := agnus c in
  let s := scheduler a in
  let live_dmacon := rigel_dma_domain_read_dmacon (dma a) in
  let blitter_busy := truthy (blitter_is_busy (blitter a)) in
  let s := if negb (s_dmacon s =? live_dmacon) then s <| s_dmacon := live_dmacon |> <| table_dirty := true |>
           else s in
  let s := s <| s_blitter_active := blitter_busy && dmacon_blten (s_dmacon s) |>
             <| copper_active := dmacon_copen (s_dmacon s) |> in
  let cop := rigel_copper_domain_step (copper a) (beam a) (dma a) blitter_busy in
  let s := s <| copper_request := copper_active s && fetch_pending cop |>
             <| blitter_nasty := has (s_dmacon s) DMACON_BLTPRI |>
             <| s_hpos := hpos (beam a) |> in
  c <| agnus := a <| copper := cop |> <| scheduler := s |> |>.

(** C: [src/src/chipset/agnus/timing/slot_scheduler.c]:844-849 [agnus_slot_scheduler_step] *)
Definition slot_rebuild (c : Ctx) : Ctx :=
  on_agnus (fun a =>
    if table_dirty (scheduler a)
    then a <| scheduler := agnus_slot_scheduler_rebuild (vpos (beam a)) (Some (refresh a)) (scheduler a) |>
    else a) c.

(** The owner the table gives the clock; a longer line reads its first slot.
    C: [src/src/chipset/agnus/timing/slot_scheduler.c]:851-852 [agnus_slot_scheduler_step] *)
Definition table_owner (s : slot_scheduler) : slot_owner :=
  slot_at s (if s_hpos s <? AGNUS_SLOTS_PER_LINE then s_hpos s else 0).

(** A started disk transfer takes every slot but refresh, and sets DSKEN again.
    C: [src/src/chipset/agnus/timing/slot_scheduler.c]:867-878 [agnus_slot_scheduler_step] *)
Definition slot_legacy_disk (owner : slot_owner) (c : Ctx) : slot_owner * Ctx :=
  let s := scheduler (agnus c) in
  if negb (bool_decide (owner = AGNUS_SLOT_REFRESH)) && env_disk_legacy_priority (env c) &&
     dmacon_master (s_dmacon s) && disk_dma_wants_service (disk (paula c)) then
    (AGNUS_SLOT_DISK,
     if negb (dmacon_dsken (s_dmacon s)) then
       on_agnus (fun a =>
         let d := rigel_dma_domain_write_dmacon (dma a) (RIGEL_SETCLR .| DMACON_DSKEN) in
         a <| dma := d |>
           <| scheduler := (scheduler a) <| s_dmacon := rigel_dma_domain_read_dmacon d |>
                             <| table_dirty := true |> |>) c
     else c)
  else (owner, c).

(** The pointers after a line that fetched bitplanes.
    C: [src/src/chipset/agnus/timing/slot_scheduler.c]:904-918 [agnus_slot_scheduler_step] *)
Definition line_end_pointers (c : Ctx) : bitplane_pointers :=
  let s := scheduler (agnus c) in
  let p := bplpt (agnus c) in
  if negb (bitplane_dma_this_line s) then p
  else
    let advance := u32 (bitplane_words_this_line s * 2) in
    let p := if bitplane_line_base_valid s then
               imap (fun i ptr => if Z.of_nat i <? bitplane_line_depth s
                                  then u32 (default 0 (bitplane_line_base s !! i) + advance) .& 0x001ffffe
                                  else ptr) p
             else p in
    bplpt_apply_modulo (bitplane_line_depth s) (i16 (rigel_context_read_reg c AGNUS_BPLMOD1))
      (i16 (rigel_context_read_reg c AGNUS_BPLMOD2)) p.

(** C: [src/src/chipset/agnus/timing/slot_scheduler.c]:899-923 [agnus_slot_scheduler_step] *)
Definition slot_line_end (c : Ctx) : Ctx :=
  on_agnus (fun a =>
    a <| bplpt := line_end_pointers c |>
      <| scheduler := (scheduler a) <| table_dirty := true |> <| fetch_plane_index := 0 |>
           <| bitplane_dma_this_line := false |> <| bitplane_words_this_line := 0 |>
           <| bitplane_line_depth := 0 |> <| bitplane_line_base_valid := false |> |>) c.

(** C: [src/src/chipset/agnus/irq/agnus_irq.c] [agnus_irq_raise_vblank] *)
Definition agnus_irq_raise_vblank : Ctx -> Ctx := on_lines (rigel_chipset_raise_irq_source AGNUS_INTB_VERTB).

(** C: [src/src/chipset/agnus/timing/slot_scheduler.c]:924-931 [agnus_slot_scheduler_step] *)
Definition slot_vertb (c : Ctx) : Ctx :=
  let c := agnus_irq_raise_vblank c in
  let c := on_agnus (fun a => a <| sprite_dma := sprite_dma_frame_start (sprite_dma a) |>) c in
  let c := on_denise (fun d => d <| sprites := denise_sprites_reset (sprites d) |>) c in
  if dmacon_copen (s_dmacon (scheduler (agnus c)))
  then on_agnus (fun a => a <| copper := rigel_copper_domain_vbl_reload (copper a) |>) c else c.

(** C: [src/src/chipset/denise/denise.c] [rigel_denise_step] *)
Definition denise_follow (c : Ctx) : Ctx :=
  let '(w, d) := rigel_denise_step (beam (agnus c)) 1 (denise c) in
  c <| denise := d |> <| target_writes := target_writes c ++ option_list w |>.

(** What follows a move of the beam to [b].
    C: [src/src/chipset/agnus/timing/slot_scheduler.c]:897-932 [agnus_slot_scheduler_step] *)
Definition slot_moved (b : beam_state) (c : Ctx) : Ctx :=
  let c := denise_follow
    (on_agnus (fun a => a <| beam := b |> <| scheduler := (scheduler a) <| s_hpos := hpos b |> |>) c) in
  let c := if hpos b =? 0 then slot_line_end c else c in
  if agnus_is_vertb_position (hpos b) (vpos b) then slot_vertb c else c.

(** The beam advances by one clock.
    C: [src/src/chipset/agnus/timing/slot_scheduler.c]:893-932 [agnus_slot_scheduler_step] *)
Definition slot_advance (c : Ctx) : Ctx :=
  match rigel_beam_domain_step (beam (agnus c)) 1 with
  | None => c <| fault := true |>
  | Some b => slot_moved b c
  end.

(** The clock's slot goes to its owner.
    C: [src/src/chipset/agnus/timing/slot_scheduler.c]:844-891 [agnus_slot_scheduler_step] *)
Definition slot_serve (c : Ctx) : Ctx :=
  let c := slot_rebuild (slot_prepare c) in
  let hp := s_hpos (scheduler (agnus c)) in
  let '(owner, c) := slot_legacy_disk (table_owner (scheduler (agnus c))) c in
  dispatch_slot (steal_slot (scheduler (agnus c)) owner) hp c.

(** C: [src/src/chipset/agnus/timing/slot_scheduler.c] [agnus_slot_scheduler_step] *)
Definition agnus_slot_scheduler_step (c : Ctx) : Ctx := slot_advance (slot_serve c).

(** C: [src/src/chipset/agnus/timing/slot_scheduler.c] [agnus_slot_scheduler_step_until] *)
Definition agnus_slot_scheduler_step_until (cycles : Z) (c : Ctx) : Ctx :=
  Nat.iter (Z.to_nat cycles) agnus_slot_scheduler_step c.

(** C: [src/src/chipset/agnus/agnus.c] [rigel_agnus_step] *)
Definition rigel_agnus_step (cycles : Z) (c : Ctx) : Ctx :=
  if cycles =? 0 then c
  else agnus_slot_scheduler_step_until cycles
         (on_agnus (fun a => a <| dma := rigel_dma_domain_sync_dmacon (dma a) (dmacon (dma a)) |>) c).

(** ** The whole chipset *)

(** C: [src/src/chipset/paula/paula_state.c] [rigel_paula_step] *)
Definition rigel_paula_step (ticks : Z) (c : Ctx) : Ctx :=
  match audio_step ticks (audio (paula c)) with
  | None => c <| fault := true |>
  | Some a =>
      let c := on_paula (fun p => p <| audio := a |>) c in
      on_serial (serial_step ticks) (on_disk (disk_step ticks) c)
  end.

(** C: [src/src/chipset/paula/paula_state.c] [rigel_paula_set_dmacon] *)
Definition rigel_paula_set_dmacon (dmacon : Z) : Ctx -> Ctx :=
  on_paula (fun p => p <| audio := audio_set_dmacon dmacon (audio p) |>).

(** C: [src/src/core/rigel_timing.c] [rigel_timing_advance] *)
Definition rigel_timing_advance (current delta : Z) : Z := u64 (current + delta).

(** The lines between two positions of the beam.
    C: [src/src/chipset/chipset.c]:91-93 [rigel_chipset_step] *)
Definition hsync_pulses (frame_lines : Z) (before after : beam_state) : Z :=
  u64 (u64 (u64 (frame_count after * frame_lines) + vpos after) -
       u64 (u64 (frame_count before * frame_lines) + vpos before)).

(** The clocks of the CIAs' time of day.
    C: [src/src/chipset/chipset.c]:84-97 [rigel_chipset_step] *)
Definition step_tod (frame_lines : Z) (before : beam_state) (c : Ctx) : Ctx :=
  let after := beam (agnus c) in
  let c := if negb (beam_in_vblank before) && beam_in_vblank after
           then on_cia 0 (cia_tod_pulse 1) c else c in
  if negb (frame_lines =? 0) then
    let pulses := hsync_pulses frame_lines before after in
    if 0 <? pulses then on_cia 1 (cia_tod_pulse (u32 pulses)) c else c
  else c.

(** The ticks of the E clock in a step.
    C: [src/src/chipset/chipset.c]:100-101 [rigel_chipset_step] *)
Definition eclock_ticks (cycles : Z) (c : Ctx) : Z := u32 (cia_eclock_rem c + cycles) / CIA_CCK_PER_ECLOCK.

(** The CIAs receive them, and the rest of the clocks is kept.
    C: [src/src/chipset/chipset.c]:100-106 [rigel_chipset_step] *)
Definition step_eclock (cycles : Z) (c : Ctx) : Ctx :=
  let ticks := eclock_ticks cycles c in
  let c := c <| cia_eclock_rem := u32 (cia_eclock_rem c + cycles) mod CIA_CCK_PER_ECLOCK |> in
  if 0 <? ticks then on_cia 1 (cia_step ticks) (on_cia 0 (cia_step ticks) c) else c.

(** C: [src/src/chipset/chipset.c] [rigel_chipset_step] *)
Definition rigel_chipset_step (cycles_ : Z) (c : Ctx) : Ctx :=
  let c := c <| cycles := rigel_timing_advance (cycles c) cycles_ |> in
  let before := beam (agnus c) in
  let c := rigel_paula_set_dmacon (dmacon (dma (agnus c))) c in
  let c := rigel_paula_step cycles_ (rigel_agnus_step cycles_ c) in
  step_eclock cycles_ (step_tod (Beam.frame_lines before) before c).

End chipset.
