(* ===== verification/Rigel.v ===== *)
(** * The library's interface: [core/rigel.c]

    Stepping with the events it reports, the next deadline, the state of the bus
    the CPU sees, times and snapshots. *)

From S2P Require Import Prelude Custom Interrupt Blitter Dma Beam Copper Disk Audio Scheduler Machine.
From S2P Require Import Registers FloppyPort Chipset.

(** ** Events *)

(** C: [src/include/rigel/rigel_events.h]:9-9 [RIGEL_EVENT_IRQ_CHANGED] *)
Definition RIGEL_EVENT_IRQ_CHANGED := 2.
(** C: [src/include/rigel/rigel_events.h]:16-16 [RIGEL_EVENT_FRAME_READY] *)
Definition RIGEL_EVENT_FRAME_READY := 4.
(** C: [src/include/rigel/rigel_events.h]:17-17 [RIGEL_EVENT_AUDIO_READY] *)
Definition RIGEL_EVENT_AUDIO_READY := 8.
(** C: [src/include/rigel/rigel_events.h]:20-20 [RIGEL_EVENT_BLIT_DONE] *)
Definition RIGEL_EVENT_BLIT_DONE := 64.
(** C: [src/include/rigel/rigel_events.h]:21-21 [RIGEL_EVENT_COPPER] *)
Definition RIGEL_EVENT_COPPER := 128.
(** C: [src/include/rigel/rigel_events.h]:27-27 [RIGEL_EVENT_VBLANK] *)
Definition RIGEL_EVENT_VBLANK := 256.
(** C: [src/include/rigel/rigel_events.h]:28-28 [RIGEL_EVENT_HBLANK] *)
Definition RIGEL_EVENT_HBLANK := 512.

#[export] Hint Unfold RIGEL_EVENT_IRQ_CHANGED RIGEL_EVENT_FRAME_READY RIGEL_EVENT_AUDIO_READY
  RIGEL_EVENT_BLIT_DONE RIGEL_EVENT_COPPER RIGEL_EVENT_VBLANK RIGEL_EVENT_HBLANK : consts.

(** C: [src/src/core/rigel.c]:116-117 [RIGEL_CLOCK_HZ_PAL] *)
Definition RIGEL_CLOCK_HZ_PAL := 7093790.
Definition RIGEL_CLOCK_HZ_NTSC := 7159090.

(** C: [src/include/rigel/rigel_time.h]:7-10 [rigel_step_result_t] *)
Record step_result := mkResult { res_time : Z; res_events : Z }.

(** C: [src/include/rigel/rigel_bus.h]:8-20 [rigel_bus_owner_t] *)
Inductive bus_owner :=
  | RIGEL_BUS_OWNER_NONE | RIGEL_BUS_OWNER_CPU | RIGEL_BUS_OWNER_REFRESH | RIGEL_BUS_OWNER_BITPLANE
  | RIGEL_BUS_OWNER_SPRITE | RIGEL_BUS_OWNER_COPPER | RIGEL_BUS_OWNER_BLITTER | RIGEL_BUS_OWNER_AUDIO
  | RIGEL_BUS_OWNER_DISK | RIGEL_BUS_OWNER_CIA | RIGEL_BUS_OWNER_CUSTOM.

(** C: [src/include/rigel/rigel_bus.h]:33-41 [rigel_bus_state_t] *)
Record bus_state := mkBusState {
  bs_time : Z; bs_owner : bus_owner; bs_active_dma : Z;
  bs_cpu_can_access_chip_ram : bool; bs_cpu_can_access_custom : bool; bs_cpu_would_stall : bool;
  bs_next_change : Z;
}.

(** C: [src/include/rigel/rigel_snapshot.h]:11-15 [rigel_snapshot_t] *)
Record snapshot := mkSnapshot { snap_cycles : Z; snap_intreq : Z; snap_intena : Z }.

(** C: [src/src/core/rigel.c] [slot_to_bus_owner] *)
Definition slot_to_bus_owner (slot : slot_owner) : bus_owner :=
  match slot with
  | AGNUS_SLOT_REFRESH => RIGEL_BUS_OWNER_REFRESH
  | AGNUS_SLOT_DISK => RIGEL_BUS_OWNER_DISK
  | AGNUS_SLOT_AUDIO _ => RIGEL_BUS_OWNER_AUDIO
  | AGNUS_SLOT_SPRITE _ => RIGEL_BUS_OWNER_SPRITE
  | AGNUS_SLOT_BITPLANE => RIGEL_BUS_OWNER_BITPLANE
  | AGNUS_SLOT_COPPER => RIGEL_BUS_OWNER_COPPER
  | AGNUS_SLOT_BLITTER => RIGEL_BUS_OWNER_BLITTER
  | AGNUS_SLOT_FREE | AGNUS_SLOT_CPU => RIGEL_BUS_OWNER_CPU
  end.

(** C: [src/src/core/rigel.c] [rigel_cycles_to_us] *)
Definition rigel_cycles_to_us (cycles clock_hz : Z) : Z :=
  let clock_hz := if clock_hz =? 0 then RIGEL_CLOCK_HZ_PAL else clock_hz in
  u64 (cycles * 1000000) / clock_hz.

(** C: [src/src/core/rigel.c] [rigel_us_to_cycles] *)
Definition rigel_us_to_cycles (microseconds clock_hz : Z) : Z :=
  let clock_hz := if clock_hz =? 0 then RIGEL_CLOCK_HZ_PAL else clock_hz in
  u64 (microseconds * clock_hz) / 1000000.

Section rigel.
Context {M : Type}.
#[local] Abbreviation Ctx := (RigelContext M).

(** ** Times *)

(** C: [src/src/core/rigel.c] [rigel_get_clock_hz] *)
Definition rigel_get_clock_hz (c : Ctx) : Z :=
  if negb (clock_hz (config c) =? 0) then clock_hz (config c)
  else if video_pal (config c) then RIGEL_CLOCK_HZ_PAL else RIGEL_CLOCK_HZ_NTSC.

(** C: [src/src/core/rigel.c] [rigel_get_line_cycles] *)
Definition rigel_get_line_cycles (c : Ctx) : Z :=
  let l := line_clocks (beam (agnus c)) in
  if l =? 0 then RIGEL_BEAM_DEFAULT_LINE_CLOCKS else l.

(** C: [src/src/core/rigel.c] [rigel_get_frame_cycles] *)
Definition rigel_get_frame_cycles (c : Ctx) : Z :=
  let f := frame_lines (beam (agnus c)) in
  u32 (rigel_get_line_cycles c * (if f =? 0 then RIGEL_BEAM_DEFAULT_FRAME_LINES else f)).

(** C: [src/src/core/rigel.c] [rigel_get_time] *)
Definition rigel_get_time (c : Ctx) : Z := cycles c.

(** ** Deadlines *)

(** C: [src/src/core/rigel.c]:325-351 [rigel_get_deadline] *)
Definition rigel_deadlines (c : Ctx) (include_internal_slot : bool) : agnus_deadlines :=
  let a := agnus c in
  let line_end := beam_cycles_until_line_end (beam a) in
  {| d_blitter := if truthy (blitter_is_busy (blitter a)) then cycles_remaining (blitter a)
                  else AGNUS_DEADLINE_UNKNOWN;
     d_beam_line_end := if line_end =? 0 then RIGEL_BEAM_DEFAULT_LINE_CLOCKS else line_end;
     d_vertb := agnus_cycles_to_vertb (beam a);
     d_copper_wait := rigel_copper_domain_cycles_to_wait (copper a) (beam a);
     d_audio := audio_cycles_to_next_event (audio (paula c));
     d_disk := disk_cycles_to_next_event (disk (paula c));
     d_slot := if include_internal_slot
               then agnus_slot_scheduler_next_event (line_clocks (beam a)) (scheduler a)
               else AGNUS_DEADLINE_UNKNOWN |}.

(** C: [src/src/core/rigel.c] [rigel_get_deadline] *)
Definition rigel_get_deadline (c : Ctx) (include_internal_slot : bool) : Z :=
  u64 (cycles c + agnus_deadlines_min (rigel_deadlines c include_internal_slot)).

(** C: [src/src/core/rigel.c] [rigel_get_next_deadline] *)
Definition rigel_get_next_deadline (c : Ctx) : Z := rigel_get_deadline c true.

(** C: [src/src/core/rigel.c] [rigel_get_next_observable_deadline] *)
Definition rigel_get_next_observable_deadline (c : Ctx) : Z := rigel_get_deadline c false.

(** ** Stepping *)

(** What a step reports, from the states before and after it.
    C: [src/src/core/rigel.c]:393-420 [rigel_step] *)
Definition step_events (before after : Ctx) : Z :=
  let b := beam (agnus before) in
  let b' := beam (agnus after) in
  let flag (p : bool) (ev events : Z) := if p then events .| ev else events in
  let irq_changed := negb (rigel_paula_interrupts_current_ipl (intr after)
                           =? rigel_paula_interrupts_current_ipl (intr before)) in
  let blit_done := truthy (blitter_is_busy (blitter (agnus before))) &&
                   negb (truthy (blitter_is_busy (blitter (agnus after)))) in
  let frame := negb (frame_count b' =? frame_count b) in
  flag (sample_ready (audio (paula after))) RIGEL_EVENT_AUDIO_READY
    (flag (negb (beam_in_vblank b) && beam_in_vblank b') RIGEL_EVENT_VBLANK
      (flag (negb (vpos b' =? vpos b) || frame) RIGEL_EVENT_HBLANK
        (flag frame RIGEL_EVENT_FRAME_READY
          (flag (event_latched (copper (agnus after))) RIGEL_EVENT_COPPER
            (flag blit_done RIGEL_EVENT_BLIT_DONE
              (flag irq_changed RIGEL_EVENT_IRQ_CHANGED 0)))))).

(** C: [src/src/core/rigel.c] [rigel_step] *)
Definition rigel_step (cycles_ : Z) (c : Ctx) : step_result * Ctx :=
  let c0 := on_agnus (fun a => a <| copper := (copper a) <| event_latched := false |> |>) c in
  let c1 := rigel_chipset_step (u32 cycles_) c0 in
  (mkResult (cycles c1) (step_events c0 c1),
   on_paula (fun p => p <| audio := (audio p) <| sample_ready := false |> |>) c1).

(** C: [src/src/core/rigel.c] [rigel_step_until] *)
Definition rigel_step_until (target_time : Z) (c : Ctx) : step_result * Ctx :=
  if target_time <=? cycles c then (mkResult (cycles c) 0, c)
  else rigel_step (target_time - cycles c) c.

(** ** The bus *)

(** C: [src/src/core/rigel.c] [rigel_get_bus_state] *)
Definition rigel_get_bus_state (c : Ctx) : bus_state :=
  let a := agnus c in
  let blt_pri := has (dmacon (dma a)) DMACON_BLTPRI in
  if truthy (blitter_is_busy (blitter a)) then
    {| bs_time := cycles c; bs_owner := RIGEL_BUS_OWNER_BLITTER; bs_active_dma := 16;
       bs_cpu_can_access_chip_ram := negb blt_pri; bs_cpu_can_access_custom := true;
       bs_cpu_would_stall := blt_pri;
       bs_next_change := u64 (cycles c + cycles_remaining (blitter a)) |}
  else
    let s := scheduler a in
    let stall := agnus_slot_scheduler_cpu_stall s in
    {| bs_time := cycles c; bs_owner := slot_to_bus_owner (agnus_slot_scheduler_current_owner s);
       bs_active_dma := 0;
       bs_cpu_can_access_chip_ram := negb stall; bs_cpu_can_access_custom := true;
       bs_cpu_would_stall := stall;
       bs_next_change := u64 (cycles c +
         if stall then agnus_slot_scheduler_cpu_resume_in (line_clocks (beam a)) s
         else agnus_slot_scheduler_next_event (line_clocks (beam a)) s) |}.

(** C: [src/src/core/rigel.c] [rigel_get_next_bus_change] *)
Definition rigel_get_next_bus_change (c : Ctx) : Z := bs_next_change (rigel_get_bus_state c).

(** C: [src/src/core/rigel.c] [rigel_cpu_would_stall] *)
Definition rigel_cpu_would_stall (c : Ctx) : bool :=
  let a := agnus c in
  if truthy (blitter_is_busy (blitter a)) && has (dmacon (dma a)) DMACON_BLTPRI then true
  else agnus_slot_scheduler_cpu_stall (scheduler a).

(** C: [src/src/core/rigel.c] [rigel_cpu_can_access_chip_ram] *)
Definition rigel_cpu_can_access_chip_ram (c : Ctx) : bool := negb (rigel_cpu_would_stall c).

(** C: [src/src/core/rigel.c] [rigel_get_cpu_resume_time] *)
Definition rigel_get_cpu_resume_time (c : Ctx) : Z :=
  let state := rigel_get_bus_state c in
  if negb (bs_cpu_would_stall state) then bs_time state else bs_next_change state.

(** ** Snapshots *)

(** C: [src/src/chipset/chipset.c] [rigel_chipset_take_snapshot] *)
Definition rigel_take_snapshot (c : Ctx) : snapshot :=
  mkSnapshot (cycles c) (intreq (intr c)) (intena (intr c)).

(** [None] is the failure for a buffer that is too small; a [rigel_snapshot_t]
    has [size] bytes.
    C: [src/src/core/rigel.c] [rigel_save_state] *)
Definition rigel_save_state (size buffer_size : Z) (c : Ctx) : option snapshot :=
  if buffer_size <? size then None else Some (rigel_take_snapshot c).

(** C: [src/src/core/rigel.c] [rigel_load_state] *)
Definition rigel_load_state (size buffer_size : Z) (snap : snapshot) (c : Ctx) : bool * Ctx :=
  if buffer_size <? size then (false, c)
  else
    let c := c <| cycles := snap_cycles snap |> in
    let c := on_lines (on_interrupts (fun i =>
      rigel_paula_interrupts_write_intreq
        (rigel_paula_interrupts_write_intena i (RIGEL_PAULA_INT_SETCLR .| snap_intena snap))
        (RIGEL_PAULA_INT_SETCLR .| snap_intreq snap))) c in
    let c := rigel_context_write_reg 0x009a (rigel_interrupt_domain_read_intena (intr c)) c in
    (true, rigel_context_write_reg 0x009c (rigel_interrupt_domain_read_intreq (intr c)) c).

End rigel.
