(* ===== verification/Callbacks.v ===== *)
(** * What the callbacks of the chips can do

    The disk controller, the serial port, the audio channels and the blitter
    reach the rest of the machine through callbacks only: what the callbacks keep
    of the world, and of each chip its own invariant, every operation keeps. *)

From S2P Require Import Prelude ChipRam Blitter BlitterRef BlitterLine BlitterDma Bytes Mfm Floppy Disk.
From S2P Require Import DiskSafety Serial Audio AudioFacts.

Section callbacks.
Context {W : Type} (P : W -> Prop).

(** An interrupt sink and a store that keep [P]. *)
Definition sink_ok (s : option (W -> Z -> W)) : Prop :=
  match s with Some raise => forall w m, P w -> P (raise w m) | None => True end.
Definition store_ok (s : option (W -> Z -> Z -> W)) : Prop :=
  match s with Some write => forall w a v, P w -> P (write w a v) | None => True end.

(** ** The disk controller *)

Section disk.
Context (dsksyn : bool).

Record disk_ok (b : DiskBoard W) : Prop := {
  dk_wf : disk_wf b.1;
  dk_sink : sink_ok (disk_irq b.1);
  dk_store : store_ok (disk_chip_ram b.1);
  dk_world : P b.2;
}.

(** A change of the controller that keeps its callbacks. *)
Definition same_callbacks (d d' : DiskState W) : Prop :=
  disk_irq d' = disk_irq d /\ disk_chip_ram d' = disk_chip_ram d.

(** What the steps of the controller keep of its callbacks and the world. *)
Definition reaches (b b' : DiskBoard W) : Prop :=
  sink_ok (disk_irq b.1) -> store_ok (disk_chip_ram b.1) -> P b.2 ->
  same_callbacks b.1 b'.1 /\ P b'.2.

Lemma reaches_ok b b' : reaches b b' -> disk_wf b'.1 -> disk_ok b -> disk_ok b'.
Proof.
  intros Hr Hwf [_ Hs Hm Hp]. destruct (Hr Hs Hm Hp) as [[E1 E2] Hp']. split; [done|..|done].
  - by rewrite E1.
  - by rewrite E2.
Qed.

Lemma reaches_trans b1 b2 b3 : reaches b1 b2 -> reaches b2 b3 -> reaches b1 b3.
Proof.
  intros H12 H23 Hs Hm Hp. destruct (H12 Hs Hm Hp) as [[E1 E2] Hp2]. unfold reaches in H23.
  rewrite E1, E2 in H23. destruct (H23 Hs Hm Hp2) as [[E3 E4] Hp3]. split; [|done].
  split; etransitivity; [exact E3|done|exact E4|done].
Qed.

Lemma reaches_fields d d' (w : W) : same_callbacks d d' -> reaches (d, w) (d', w).
Proof. by intros H _ _ Hp. Qed.

Lemma emit_irq_reaches m b : reaches b (disk_emit_irq m b).
Proof.
  intros Hs _ Hp. unfold disk_emit_irq. destruct (disk_irq b.1) as [raise|] eqn:E; [|done].
  split; [done|]. by apply Hs.
Qed.

Lemma maybe_emit_reaches b : reaches b (disk_maybe_emit_sync dsksyn b).
Proof.
  destruct b as [d w]. unfold disk_maybe_emit_sync. destruct (negb _); [by intros _ _ ?|].
  destruct (_ =? 0); [by intros _ _ ?|]. destruct (sync_irq_fired d); [by intros _ _ ?|].
  set (d1 := d <| sync_irq_fired := true |>). apply (reaches_trans _ (d1, w)); [by apply reaches_fields|].
  destruct dsksyn; [apply emit_irq_reaches|by intros _ _ ?].
Qed.

Lemma grant_word_reaches write b :
  disk_chip_ram b.1 = Some write -> reaches b (disk_grant_word dsksyn write b).
Proof.
  destruct b as [d w]. intros E Hs Hm Hp. unfold disk_grant_word. cbn [fst snd] in *. rewrite E in Hm. cbn in Hm.
  cbv zeta. set (d1 := d <| dma_src_offset := _ |>). set (word := disk_read_be16 _ _). set (dst := u32 _).
  set (d2 := disk_load_dskbytr word d1). set (w2 := write w dst word).
  assert (Hp2 : P w2) by apply Hm, Hp. clearbody w2.
  set (b3 := if word =? dsksync d2 then _ else _).
  assert (H3 : same_callbacks d b3.1 /\ P b3.2).
  { unfold b3. destruct (_ =? _); [|done].
    set (d3 := d2 <| sync_seen := true |>).
    destruct (maybe_emit_reaches (d3, w2)) as [Hc Hp3]; [exact Hs|cbn; by rewrite E|done|].
    split; [exact Hc|exact Hp3]. }
  clearbody b3. by destruct b3.
Qed.

Lemma grant_end_reaches b : reaches b (disk_grant_end dsksyn b).
Proof.
  destruct b as [d w]. unfold disk_grant_end. set (b1 := if sync_seen d then _ else _).
  apply (reaches_trans _ b1).
  - unfold b1. destruct (sync_seen d); [|by intros _ _ ?].
    apply (reaches_trans _ (d <| sync_irq_fired := false |>, w)); [by apply reaches_fields|apply maybe_emit_reaches].
  - destruct b1 as [d1 w1].
    eapply reaches_trans; [|apply emit_irq_reaches]. by apply reaches_fields.
Qed.

Lemma step_slot_ok b : disk_ok b -> disk_ok (rigel_disk_domain_step_slot dsksyn b).
Proof.
  intros H. apply (reaches_ok b); [|by apply slot_wf, H|done].
  unfold rigel_disk_domain_step_slot. destruct (disk_dma_wants_service b.1) eqn:Ew; [|by intros _ _ ?].
  unfold disk_dma_service_grant. rewrite Ew. cbn [negb].
  destruct (disk_chip_ram b.1) as [wr|] eqn:E; [|by intros _ _ ?].
  destruct (_ <? 2); [by intros _ _ ?|]. cbv zeta. pose proof (grant_word_reaches wr b E) as Hw.
  destruct (_ <? _); [done|]. eapply reaches_trans; [exact Hw|apply grant_end_reaches].
Qed.

Lemma disk_step_ok n b : disk_ok b -> disk_ok (disk_step n b).
Proof.
  intros H. apply (reaches_ok b); [|by apply disk_step_wf, H|done].
  destruct b as [d w]. unfold disk_step. destruct (_ || _); [by intros _ _ ?|].
  destruct (n <? _); [by apply reaches_fields|].
  eapply reaches_trans; [|apply emit_irq_reaches]. by apply reaches_fields.
Qed.

Lemma start_track_reaches n b : reaches b (disk_start_track dsksyn n b).
Proof.
  destruct b as [d w]. unfold disk_start_track. cbv zeta.
  set (found := u32 _ <? _). set (src := if _ && found then _ else 0).
  set (d1 := if found then _ else _). set (d2 := _ <| sync_seen := found |>).
  assert (E : same_callbacks d d2) by (unfold d2, d1; by destruct found).
  pose proof (reaches_trans _ _ _ (reaches_fields d d2 w E) (maybe_emit_reaches (d2, w))) as H.
  clearbody d2. destruct (disk_maybe_emit_sync dsksyn (d2, w)) as [d3 w3].
  eapply reaches_trans; [exact H|by apply reaches_fields].
Qed.

Lemma write_dsklen_reaches floppy v b b' :
  disk_write_dsklen dsksyn floppy v b = Some b' -> reaches b b'.
Proof.
  destruct b as [d w]. unfold disk_write_dsklen.
  destruct (_ =? 0); [intros <-%(inj Some); by apply reaches_fields|].
  destruct (negb _); [intros <-%(inj Some); by apply reaches_fields|]. unfold disk_start_dma. cbv zeta.
  set (d1 := disk_start_fields v d). assert (E1 : same_callbacks d d1) by done. clearbody d1.
  assert (Hf : reaches (d, w) (disk_fake_dma d1, w)) by (by apply reaches_fields).
  destruct (_ || _); [intros <-%(inj Some); by apply reaches_fields|].
  destruct (i ← drive d1; floppy !! i) as [fd|]; [|by intros <-%(inj Some)].
  destruct (negb _); [by intros <-%(inj Some)|]. destruct (_ || _); [by intros <-%(inj Some)|].
  destruct (floppy_mfm_encode_track _ _ _ _ _) as [[buf ok]|]; [|done]. cbn [mbind option_bind].
  set (d2 := d1 <| dma_track_buf := default [] buf |>). assert (E2 : same_callbacks d d2) by done. clearbody d2.
  destruct (negb ok); intros <-%(inj Some); [by apply reaches_fields|].
  exact (reaches_trans _ (d2, w) _ (reaches_fields d d2 w E2) (start_track_reaches _ _)).
Qed.

Lemma disk_write_reg_ok floppy addr v b :
  disk_ok b -> exists b', rigel_disk_domain_write_reg dsksyn floppy addr v b = Some b' /\ disk_ok b'.
Proof.
  intros H. destruct b as [d w]. destruct (write_reg_wf dsksyn floppy addr v d w (dk_wf _ H)) as (b' & E & Hwf).
  exists b'. split; [done|]. apply (reaches_ok (d, w)); [|done|done]. revert E. clear H Hwf.
  unfold rigel_disk_domain_write_reg.
  destruct (disk_reg addr) as [[]|]; try (intros <-%(inj Some); by apply reaches_fields).
  - apply write_dsklen_reaches.
  - intros <-%(inj Some). unfold disk_write_dsksync.
    eapply reaches_trans; [|apply maybe_emit_reaches]. by apply reaches_fields.
  - intros <-%(inj Some). unfold disk_write_adkcon. cbv zeta. eapply reaches_trans; [|apply maybe_emit_reaches].
    apply reaches_fields. by destruct (has v _).
Qed.

End disk.

(** ** The serial port *)

Record serial_ok (b : SerialBoard W) : Prop := {
  sr_ring : ring_wf b.1;
  sr_sink : sink_ok (serial_irq b.1);
  sr_world : P b.2;
}.

Lemma serial_fields s s' (w : W) : ring_wf s' -> serial_irq s' = serial_irq s -> serial_ok (s, w) -> serial_ok (s', w).
Proof. intros Hr E [_ Hs Hp]. split; [done| |done]. cbn in *. by rewrite E. Qed.

Lemma raise_irq_ok m b : serial_ok b -> serial_ok (serial_raise_irq m b).
Proof.
  intros [Hr Hs Hp]. unfold serial_raise_irq. destruct (serial_irq b.1) as [raise|] eqn:E; [|by split; rewrite ?E].
  split; [done| |by apply Hs]. cbn [fst]. by rewrite E.
Qed.

Lemma queue_ring v (s : SerialState W) : ring_wf s -> ring_wf (serial_queue_tx_byte v s).
Proof.
  intros [Hl Hh Hc Ht]. unfold serial_queue_tx_byte. unfold RIGEL_PAULA_SERIAL_TX_FIFO_SIZE in *.
  destruct (Z.leb_spec 16 (tx_fifo_count s)); [by split|].
  rewrite (wrap_small 32 (tx_fifo_count s + 1)) by (unfold in_width; lia).
  assert (0 <= tx_fifo_tail s < 16) by (rewrite Ht; by apply Z.mod_pos_bound).
  rewrite (wrap_small 32 (tx_fifo_tail s + 1)) by (unfold in_width; lia).
  split; cbn; [by rewrite length_insert|done|lia|]. rewrite Ht, Z.add_mod_idemp_l by lia. f_equal. lia.
Qed.

Lemma queue_irq v (s : SerialState W) : serial_irq (serial_queue_tx_byte v s) = serial_irq s.
Proof. unfold serial_queue_tx_byte. by destruct (_ <=? _). Qed.

Lemma start_tx_ok b : serial_ok b -> serial_ok (serial_start_tx_shift b).
Proof.
  destruct b as [s w]. intros H. unfold serial_start_tx_shift. destruct (_ || _); [done|]. cbv zeta.
  set (s1 := _ <| tx_buffer_valid := false |>). assert (H1 : serial_ok (s1, w)).
  { apply (serial_fields s); [|done|done]. destruct (sr_ring _ H). by split. }
  apply raise_irq_ok. destruct (tx_instant s1); [|done].
  apply (serial_fields s1); [apply queue_ring, (sr_ring _ H1)|apply queue_irq|done].
Qed.

Lemma write_serdat_ok v b : serial_ok b -> serial_ok (serial_write_serdat v b).
Proof.
  destruct b as [s w]. intros H. unfold serial_write_serdat. destruct (tx_instant s).
  - apply raise_irq_ok. apply (serial_fields s); [apply queue_ring, (sr_ring _ H)|apply queue_irq|done].
  - cbv zeta. set (s1 := _ <| tx_buffer_valid := true |>). assert (H1 : serial_ok (s1, w)).
    { apply (serial_fields s); [|done|done]. destruct (sr_ring _ H). by split. }
    destruct (negb _); [by apply start_tx_ok|done].
Qed.

Lemma serial_step_ok n b : serial_ok b -> serial_ok (serial_step n b).
Proof.
  destruct b as [s w]. intros H. pose proof (sr_ring _ H) as Hr. unfold serial_step.
  destruct (negb _). { destruct (tx_buffer_valid s); [by apply start_tx_ok|done]. }
  destruct (n <? _). { apply (serial_fields s); [destruct Hr; by split|done|done]. }
  cbv zeta. set (s1 := _ <| tx_shift_reg := 0 |>).
  set (s2 := if negb _ then _ else _). assert (H2 : serial_ok (s2, w)).
  { assert (H1 : serial_ok (s1, w)) by (apply (serial_fields s); [destruct Hr; by split|done|done]).
    unfold s2. destruct (negb _); [|done].
    apply (serial_fields s1); [apply queue_ring, (sr_ring _ H1)|apply queue_irq|done]. }
  destruct (tx_buffer_valid s2); [by apply start_tx_ok|done].
Qed.

Lemma receive_ok v b : serial_ok b -> serial_ok (serial_receive_byte v b).
Proof.
  destruct b as [s w]. intros H. pose proof (sr_ring _ H) as Hr. unfold serial_receive_byte. cbv zeta.
  apply raise_irq_ok. apply (serial_fields s); [|by destruct (rx_buffer_full s)|done].
  destruct Hr. by destruct (rx_buffer_full s); split.
Qed.

Lemma pop_ok byte (s s' : SerialState W) (w : W) :
  serial_pop_tx_byte s = Some (byte, s') -> serial_ok (s, w) -> serial_ok (s', w).
Proof.
  unfold serial_pop_tx_byte. destruct (Z.eqb_spec (tx_fifo_count s) 0); [done|]. intros [= <- <-] H.
  apply (serial_fields s); [|done|done]. destruct (sr_ring _ H) as [Hl Hh Hc Ht]. cbn in Hl, Hh, Hc, Ht.
  unfold RIGEL_PAULA_SERIAL_TX_FIFO_SIZE. split; cbn; [done|by apply Z.mod_pos_bound|..].
  - rewrite wrap_small by (unfold in_width; lia). lia.
  - rewrite !wrap_small by (unfold in_width; lia). rewrite Ht, Z.add_mod_idemp_l by lia. f_equal. lia.
Qed.

Lemma serial_write_reg_ok addr v b : serial_ok b -> serial_ok (rigel_serial_domain_write_reg addr v b).
Proof.
  intros H. unfold rigel_serial_domain_write_reg. destruct (_ =? _); [by apply write_serdat_ok|].
  destruct (_ =? _); [|done]. destruct b as [s w]. apply (serial_fields s); [|done|done].
  destruct (sr_ring _ H). by split.
Qed.

(** ** The audio channels *)

Record audio_ok (b : AudioState W * W) : Prop := {
  au_wf : audio_wf b.1;
  au_sink : sink_ok (audio_irq b.1);
  au_world : P b.2;
}.

Lemma dma_slot_ok k rd b :
  (forall w a, P w -> is_u16 (rd w a)) -> audio_ok b -> audio_ok (audio_dma_step_slot k (Some rd) b).
Proof.
  destruct b as [a w]. intros Hrd [Hwf Hs Hp]. cbn [fst snd] in *. unfold audio_dma_step_slot.
  destruct (audio_valid_channel k) eqn:Ek; [|by split]. cbn [negb].
  destruct (_ || _); [by split|]. destruct (audio_block (nth_channel a k)) as [c|] eqn:Eb; [|by split].
  assert (Hc : channel_wf (nth_channel a k)).
  { unfold audio_valid_channel, RIGEL_PAULA_AUDIO_CHANNELS in Ek. apply nth_channel_wf; [done|lia]. }
  assert (Hc' : channel_wf c).
  { unfold audio_block in Eb. destruct (_ =? 0); [destruct (_ =? 0); [done|]|]; injection Eb as <-;
      destruct Hc; by split. }
  set (c1 := audio_fetch (rd w) c). assert (Hc1 : channel_wf c1).
  { destruct Hc'. split; cbn; try done. by apply Hrd. }
  set (a1 := on_channel k (fun _ => c1) a). assert (Ha1 : audio_wf a1) by (by apply on_channel_wf).
  assert (Ei : audio_irq a1 = audio_irq a) by apply on_channel_rest.
  destruct (_ =? 0); [|split; [done|by cbn; rewrite Ei|done]].
  rewrite Ei. destruct (audio_irq a) as [raise|]; split; cbn; rewrite ?Ei; try done. by apply Hs.
Qed.

Lemma audio_write_ok addr v (a : AudioState W) (w : W) :
  is_u16 v -> audio_ok (a, w) -> audio_ok (rigel_audio_domain_write_reg addr v a, w).
Proof.
  intros Hv [Hwf Hs Hp]. cbn [fst snd] in *. destruct (rigel_audio_domain_decode_reg addr) as [[j o]|] eqn:E.
  - assert (Hr : audio_wf (rigel_audio_domain_write_reg addr v a) /\
                 audio_irq (rigel_audio_domain_write_reg addr v a) = audio_irq a).
    { destruct (decide (j = 0)) as [->|Hj].
      - destruct (write_reg_retunes 1 addr v a 0 o Hwf ltac:(lia) Hv E ltac:(by left)) as (H1 & _ & H2 & _). done.
      - destruct (write_reg_retunes 0 addr v a j o Hwf ltac:(lia) Hv E ltac:(by left)) as (H1 & _ & H2 & _). done. }
    destruct Hr as [H1 H2]. split; cbn; by rewrite ?H2.
  - unfold rigel_audio_domain_write_reg. rewrite E. by split.
Qed.

(** ** The blitter *)

Lemma publish_sink {M} (irq : BlitterIrqSink W) (w : BlitterWorld M W) :
  sink_ok irq -> P (sink w) -> P (sink (publish_and_finish irq w)).
Proof. unfold publish_and_finish. cbn. intros Hi Hp. destruct irq; [by apply Hi|done]. Qed.

Lemma blitter_sink {M} (mem : ChipRamIf M) (irq : BlitterIrqSink W) n (w : BlitterWorld M W) :
  sink_ok irq -> P (sink w) -> P (sink (rigel_blitter_domain_step_dma mem irq n w)).
Proof.
  intros Hi. unfold rigel_blitter_domain_step_dma, blitter_step_dma.
  destruct (n =? 0); [done|]. destruct (negb _); [done|]. destruct (mode _).
  - unfold copy_slots. intros Hp.
    destruct (if decide _ then _ else _) as [[ok b] m].
    destruct (negb ok); [done|]. cbv zeta. destruct (_ <? _); [done|]. by apply publish_sink.
  - generalize (cycle_exact (blt w)). intros two. revert w. induction (Z.to_nat n) as [|k IH]; intros w Hp; [done|].
    cbn [line_slots]. destruct (blitter_line_done _); [done|]. cbv zeta.
    destruct (_ && _); [by apply IH|].
    destruct (blitter_line_step _ _ _) as [b m]. destruct (blitter_line_done b); [by apply publish_sink|by apply IH].
Qed.

End callbacks.
