(* ===== verification/MachineFacts.v ===== *)
(** * The machine as a host of the copper, and its registers

    The interface [CopperHost] discharged by the whole machine, the frame of the
    register writes, and what the address map does with each access. *)

From S2P Require Import Prelude Custom Interrupt Cia ChipRam Blitter Dma Beam Copper CopperRun Floppy Disk.
From S2P Require Import Serial Input Audio SpriteDma Scheduler DeniseSprites Denise Framebuffer Rtc Machine.
From S2P Require Import Registers FloppyPort Mmio.

Section facts.
Context {M : Type}.
#[local] Abbreviation Ctx := (RigelContext M).

(** ** Frames *)

Lemma agnus_write_reg addr v (c : Ctx) : agnus (rigel_context_write_reg addr v c) = agnus c.
Proof. done. Qed.

Lemma agnus_denise_write addr v (a : RigelAgnus) :
  copper (agnus_sees_denise_write addr v a) = copper a.
Proof. unfold agnus_sees_denise_write. by repeat case_match. Qed.

Lemma agnus_with_bus {S} (get : RigelPaula M -> S) set f (c : Ctx) :
  agnus (with_bus get set f c) = agnus c.
Proof. unfold with_bus. by destruct (f _). Qed.

Lemma agnus_paula_write addr v (c : Ctx) : agnus (paula_write_reg addr v c) = agnus c.
Proof.
  unfold paula_write_reg, paula_write_disk.
  cbv zeta. repeat case_match; rewrite ?agnus_write_reg; try done; apply agnus_with_bus.
Qed.

Lemma copper_pointer_write addr v (a : RigelAgnus) : copper (agnus_write_pointer addr v a) = copper a.
Proof. unfold agnus_write_pointer. by repeat case_match. Qed.

(** A register of the copper is Agnus's and none of the blitter's. *)
Lemma copper_reg_domain addr :
  rigel_copper_regs_owns_reg addr = true ->
  rigel_custom_is_valid_reg addr = true /\ rigel_custom_domain_for_reg addr = RIGEL_DOMAIN_AGNUS /\
  rigel_blitter_domain_owns_reg addr = false.
Proof.
  unfold rigel_copper_regs_owns_reg at 1. intros H%bool_decide_eq_true.
  repeat (apply elem_of_cons in H as [->|H]; [by repeat split|]). by apply elem_of_nil in H.
Qed.

Lemma copper_agnus_write addr v (c : Ctx) :
  rigel_copper_regs_owns_reg addr = false ->
  copper (agnus (rigel_agnus_mmio_write addr v c)) = copper (agnus c).
Proof.
  intros Ho. unfold rigel_agnus_mmio_write. rewrite Ho. cbv zeta.
  repeat case_match; try done. rewrite agnus_write_reg. apply copper_pointer_write.
Qed.

Lemma copper_custom_write addr v (c : Ctx) :
  copper (agnus (custom_regs_write16 addr v c)) = rigel_copper_regs_write (copper (agnus c)) addr v.
Proof.
  unfold custom_regs_write16. destruct (rigel_copper_regs_owns_reg addr) eqn:Ho.
  - destruct (copper_reg_domain addr Ho) as (-> & -> & Hb).
    unfold rigel_agnus_mmio_write. by rewrite Hb, Ho.
  - rewrite other_reg_copper by done. case_match; [done|]. case_match.
    + done.
    + by apply copper_agnus_write.
    + apply agnus_denise_write.
    + by rewrite agnus_paula_write.
Qed.

Lemma context_read16_u16 (c : Ctx) a : is_u16 (context_read16 c a).
Proof.
  unfold context_read16, rigel_context_chip_ram_read16. case_match; [by apply wrap_range|by split].
Qed.

End facts.

(** ** The copper's host *)

#[export] Instance rigel_host_laws {M} : CopperHostLaws (RigelContext M).
Proof.
  split; try done.
  - by intros [? ? ? []].
  - intros c a. apply context_read16_u16.
  - intros r v c. apply copper_custom_write.
Qed.
