(* ===== verification/MachineSafety.v ===== *)
(** * The invariant of the machine

    The invariants of the chips hold together in every state the host and the
    programs can bring the machine to, whatever they write, in any order: each
    chip keeps its own through the callbacks, the register dispatch and the step
    of the slots, so no array is left and no loop runs out. *)

From S2P Require Import Prelude Custom Interrupt Cia CiaFacts ChipRam Blitter BlitterDma Dma Beam BeamFacts.
From S2P Require Import Copper CopperFacts CopperRun Mfm Floppy FloppyFacts Disk DiskSafety Serial Input.
From S2P Require Import Audio AudioFacts SpriteDma Scheduler SchedulerFacts DeniseSprites Denise DeniseFacts.
From S2P Require Import Framebuffer Compositor DeniseFrames Rtc Callbacks Machine Registers FloppyPort Mmio.
From S2P Require Import Chipset Rigel MachineFacts.

(** ** The parts *)

(** The beam is inside the raster; the lines are never long. *)
Record beam_ok (b : beam_state) : Prop := {
  bo_line : line_clocks b = 227;
  bo_frame : Beam.frame_lines b = 262 \/ Beam.frame_lines b = 312;
  bo_lol : lol b = 0 /\ lol_toggle b = 0;
  bo_lof : lof b = 0 \/ lof b = 1;
  bo_hpos : 0 <= hpos b < 227;
  bo_vpos : 0 <= vpos b <= 312;
}.

Lemma advance_line_ok b : beam_ok b -> beam_ok (beam_advance_line b).
Proof.
  intros [Hl Hf [Ho Ht] Hlof Hh Hv]. unfold beam_advance_line. cbv zeta.
  set (b1 := b <| hpos := 0 |> <| vpos := _ |>). change (lol_toggle b1) with (lol_toggle b). rewrite Ht.
  change (truthy 0) with false. cbv iota. set (b2 := b1 <| lol := 0 |>).
  assert (Ev : vpos b2 = vpos b + 1) by (cbn; apply wrap_small; unfold in_width; lia).
  rewrite (vmax_wf b2) by (first [change (1 <= Beam.frame_lines b <= 65534); lia|exact Hlof]).
  change (Beam.frame_lines b2) with (Beam.frame_lines b). change (lof b2) with (lof b).
  destruct (Z.leb_spec (Beam.frame_lines b + lof b) (vpos b2)).
  - set (b3 := if truthy (lof_toggle _) then _ else _).
    assert (Et : lol_toggle b3 = 0) by (unfold b3; destruct (truthy _); exact Ht).
    rewrite Et. change (truthy 0) with false. cbv iota. clear Et. unfold b3.
    destruct (truthy _); split; cbn; try done; try lia; first [by apply flip_bit|by left].
  - split; try done. rewrite Ev. lia.
Qed.

Lemma beam_ok_hmax b h : beam_ok b -> beam_line_hmax (b <| hpos := h |>) = 227 /\ beam_line_hmax b = 227.
Proof.
  intros [Hl _ [Ho _] _ _ _]. rewrite !hmax_wf by (first [cbn; lia|by left]). cbn. lia.
Qed.

(** One clock. *)
Lemma beam_clock b : beam_ok b -> rigel_beam_domain_step b 1 = Some (beam_tick b).
Proof.
  intros Hb. pose proof Hb as [Hl Hf [Ho Ht] Hlof Hh Hv].
  unfold rigel_beam_domain_step, beam_step, beam_tick.
  replace ((line_clocks b =? 0) || (Beam.frame_lines b =? 0)) with false by (rewrite Hl; destruct Hf; lia).
  change (S (S (Z.to_nat (2 * 1)))) with 4%nat. cbn [beam_loop].
  change (1 <=? 0) with false. cbv iota zeta.
  destruct (beam_ok_hmax b (hpos b + 1) Hb) as [-> ->].
  rewrite (wrap_small 16 (227 - hpos b)) by (unfold in_width; lia).
  replace (227 - hpos b =? 0) with false by lia.
  change (hpos (b <| hpos := hpos b + 1 |>)) with (hpos b + 1).
  destruct (Z.ltb_spec 1 (227 - hpos b)).
  - rewrite (wrap_small 16 (hpos b + 1)) by (unfold in_width; lia).
    by replace (227 <=? hpos b + 1) with false by lia.
  - assert (hpos b = 226) as -> by lia. reflexivity.
Qed.

Lemma beam_tick_ok b : beam_ok b -> beam_ok (beam_tick b).
Proof.
  intros Hb. pose proof Hb as [Hl Hf [Ho Ht] Hlof Hh Hv]. unfold beam_tick. cbv zeta.
  destruct (beam_ok_hmax b (hpos b + 1) Hb) as [-> _].
  change (hpos (b <| hpos := hpos b + 1 |>)) with (hpos b + 1).
  destruct (Z.leb_spec 227 (hpos b + 1)).
  - change (beam_advance_line _) with (beam_advance_line b). by apply advance_line_ok.
  - split; cbn; done || lia.
Qed.

(** Where it is then. *)
Lemma beam_tick_position b :
  beam_ok b ->
  if hpos b <? 226 then vpos (beam_tick b) = vpos b /\ hpos (beam_tick b) = hpos b + 1
  else hpos (beam_tick b) = 0 /\ (vpos (beam_tick b) = 0 \/ vpos (beam_tick b) = vpos b + 1 /\ vpos b < 312).
Proof.
  intros Hb. pose proof Hb as [Hl Hf [Ho Ht] Hlof Hh Hv]. unfold beam_tick. cbv zeta.
  destruct (beam_ok_hmax b (hpos b + 1) Hb) as [-> _].
  change (hpos (b <| hpos := hpos b + 1 |>)) with (hpos b + 1).
  destruct (Z.ltb_spec (hpos b) 226), (Z.leb_spec 227 (hpos b + 1)); try lia; [by cbn|].
  change (beam_advance_line _) with (beam_advance_line b).
  pose proof (advance_line_ok b Hb) as Hb'. pose proof (bo_vpos _ Hb') as Hv'. revert Hv'.
  unfold beam_advance_line. cbv zeta.
  set (b1 := if truthy (lol_toggle _) then _ else _).
  assert (E1 : hpos b1 = 0 /\ vpos b1 = u16 (vpos b + 1)) by (unfold b1; by destruct (truthy _)).
  clearbody b1. destruct E1 as [E1 E2]. rewrite (wrap_small 16) in E2 by (unfold in_width; lia).
  destruct (_ <=? vpos b1).
  - intros _. set (b2 := if truthy (lof_toggle _) then _ else _).
    assert (E3 : hpos b2 = 0 /\ vpos b2 = 0) by (unfold b2; by destruct (truthy _)). clearbody b2.
    destruct (truthy (lol_toggle b2)); cbn; tauto.
  - rewrite E1, E2. intros Hv'. split; [done|]. right. lia.
Qed.

Lemma reset_beam_ok b pal : beam_ok ((rigel_beam_domain_reset b) <| line_clocks := 227 |>
  <| Beam.frame_lines := if pal : bool then 312 else 262 |>).
Proof. split; cbn; auto; try lia. destruct pal; auto. Qed.

(** The interrupt controller, the registers, the CIAs. *)
Definition lines_ok (l : Lines) : Prop := irq_wf (interrupts l) /\ length (custom_regs l) = 256%nat.
Definition bus_ok {M} (b : Bus M) : Prop := lines_ok (lines b).

(** A CIA, whatever the CPU does to INTREQ. *)
Definition cia_alone (c : CIA_State) : Prop :=
  cia_wf c /\ (Cia.paula c = true -> irq_asserted c = b2u (cia_irq_pending c)).

Lemma cia_ok_alone w : cia_ok false w <-> cia_alone (chip w) /\ irq_wf (irqs w).
Proof.
  unfold cia_ok, cia_alone, line_ok. split.
  - intros (H1 & H2 & H3). split; [split; [done|]|done]. intros Hp. by destruct (H3 Hp).
  - intros [[H1 H3] H2]. split_and!; [done..|]. intros Hp. by split; [apply H3|].
Qed.

(** Agnus. *)
Record agnus_ok (a : RigelAgnus) : Prop := {
  ao_copper : copper_wf (copper a);
  ao_beam : beam_ok (beam a);
  ao_scheduler : scheduler_wf (scheduler a);
  ao_table : full (scheduler a);
}.

(** Paula, with callbacks that keep the bus. *)
Record paula_ok {M} (p : RigelPaula M) : Prop := {
  po_disk : disk_wf (disk p);
  po_disk_sink : sink_ok bus_ok (disk_irq (disk p));
  po_disk_store : store_ok bus_ok (disk_chip_ram (disk p));
  po_serial : ring_wf (serial p);
  po_serial_sink : sink_ok bus_ok (serial_irq (serial p));
  po_audio : audio_wf (audio p);
  po_audio_sink : sink_ok bus_ok (audio_irq (audio p));
}.

Definition drives_ok (l : list FloppyDrive) : Prop := length l = 4%nat /\ Forall drive_wf l.

(** The machine. *)
Record machine_ok {M} (c : RigelContext M) : Prop := {
  mo_fault : fault c = false;
  mo_agnus : agnus_ok (agnus c);
  mo_denise : denise_inv (denise c);
  mo_bus : bus_ok (bus c);
  mo_paula : paula_ok (paula c);
  mo_cia_a : cia_alone (cia_a c);
  mo_cia_b : cia_alone (cia_b c);
  mo_drives : drives_ok (floppy c);
  mo_eclock : 0 <= cia_eclock_rem c < CIA_CCK_PER_ECLOCK;
}.

Create HintDb machine.

Section machine.
Context {M : Type}.
#[local] Abbreviation Ctx := (RigelContext M).

(** ** Changes of one part *)

Lemma on_agnus_ok f (c : Ctx) : (agnus_ok (agnus c) -> agnus_ok (f (agnus c))) -> machine_ok c -> machine_ok (on_agnus f c).
Proof. intros Hf []. split; cbn; auto. Qed.

Lemma on_scheduler_ok f (c : Ctx) :
  (scheduler_wf (scheduler (agnus c)) -> full (scheduler (agnus c)) ->
   scheduler_wf (f (scheduler (agnus c))) /\ full (f (scheduler (agnus c)))) ->
  machine_ok c -> machine_ok (on_scheduler f c).
Proof. intros Hf. apply on_agnus_ok. intros [H1 H2 H3 H4]. destruct (Hf H3 H4). by split. Qed.

Lemma on_denise_ok f (c : Ctx) :
  (denise_inv (denise c) -> denise_inv (f (denise c))) -> machine_ok c -> machine_ok (on_denise f c).
Proof. intros Hf []. split; cbn; auto. Qed.

Lemma on_lines_ok f (c : Ctx) : (lines_ok (lines (bus c)) -> lines_ok (f (lines (bus c)))) -> machine_ok c -> machine_ok (on_lines f c).
Proof. intros Hf []. split; cbn; auto. by apply Hf. Qed.

Lemma on_paula_ok f (c : Ctx) : (paula_ok (paula c) -> paula_ok (f (paula c))) -> machine_ok c -> machine_ok (on_paula f c).
Proof. intros Hf []. split; cbn; auto. Qed.

(** ** The bus *)

Lemma write_reg_lines addr v l : lines_ok l -> lines_ok (rigel_chipset_write_reg addr v l).
Proof.
  intros [H1 H2]. unfold rigel_chipset_write_reg. destruct (negb _); [done|]. split; [done|]. cbn.
  by rewrite length_insert.
Qed.

Lemma on_interrupts_lines f l :
  irq_step (interrupts l) (f (interrupts l)) -> lines_ok l -> lines_ok (on_interrupts f l).
Proof. intros Hs [H1 H2]. split; [|done]. by apply (irq_wf_step _ _ Hs). Qed.

Lemma raise_source_lines m l : lines_ok l -> lines_ok (rigel_chipset_raise_irq_source m l).
Proof.
  intros H. unfold rigel_chipset_raise_irq_source, shadow_intreq. apply write_reg_lines.
  apply on_interrupts_lines; [apply irq_step_raise|done].
Qed.

Lemma context_write_ok addr v (c : Ctx) : machine_ok c -> machine_ok (rigel_context_write_reg addr v c).
Proof. apply on_lines_ok, write_reg_lines. Qed.

Lemma sink_bus_ok : sink_ok bus_ok (Some (rigel_paula_raise_irq_sink (M := M))).
Proof. intros b m Hb. by apply raise_source_lines. Qed.

(** ** The callbacks of Paula *)

Lemma on_disk_ok f (c : Ctx) :
  (disk_ok bus_ok (disk (paula c), bus c) -> disk_ok bus_ok (f (disk (paula c), bus c))) ->
  machine_ok c -> machine_ok (on_disk f c).
Proof.
  intros Hf [H1 H2 H3 H4 H5 H6 H7 H8 H9]. unfold on_disk, with_bus.
  assert (H : disk_ok bus_ok (disk (paula c), bus c)) by (destruct H5; by split). apply Hf in H.
  destruct (f _) as [d b]. destruct H as [D1 D2 D3 D4]. destruct H5. by split; cbn.
Qed.

Lemma on_serial_ok f (c : Ctx) :
  (serial_ok bus_ok (serial (paula c), bus c) -> serial_ok bus_ok (f (serial (paula c), bus c))) ->
  machine_ok c -> machine_ok (on_serial f c).
Proof.
  intros Hf [H1 H2 H3 H4 H5 H6 H7 H8 H9]. unfold on_serial, with_bus.
  assert (H : serial_ok bus_ok (serial (paula c), bus c)) by (destruct H5; by split). apply Hf in H.
  destruct (f _) as [d b]. destruct H as [D1 D2 D3]. destruct H5. by split; cbn.
Qed.

Lemma on_audio_ok f (c : Ctx) :
  (audio_ok bus_ok (audio (paula c), bus c) -> audio_ok bus_ok (f (audio (paula c), bus c))) ->
  machine_ok c -> machine_ok (on_audio f c).
Proof.
  intros Hf [H1 H2 H3 H4 H5 H6 H7 H8 H9]. unfold on_audio, with_bus.
  assert (H : audio_ok bus_ok (audio (paula c), bus c)) by (destruct H5; by split). apply Hf in H.
  destruct (f _) as [d b]. destruct H as [D1 D2 D3]. destruct H5. by split; cbn.
Qed.

(** ** The CIAs *)

Lemma on_cia_ok id f (c : Ctx) :
  (forall w, cia_ok false w -> cia_ok false (f w)) -> machine_ok c -> machine_ok (on_cia id f c).
Proof.
  intros Hf Hc. pose proof Hc as [H1 H2 H3 [Hi Hl] H5 H6 H7 H8 H9]. unfold on_cia, set_cia_board, cia_board.
  assert (H : cia_ok false (mkBoard (if id =? 0 then cia_a c else cia_b c) (intr c))).
  { apply cia_ok_alone. split; [by destruct (id =? 0)|exact Hi]. }
  apply Hf, cia_ok_alone in H as [Ha Hw]. destruct (f _) as [ch ir]. cbn in *.
  destruct (id =? 0); by split.
Qed.

Lemma cia_a_ok x (c : Ctx) : cia_alone x -> machine_ok c -> machine_ok (c <| cia_a := x |>).
Proof. intros Hx []. by split. Qed.

Lemma port_range x : is_u8 (u8 x).
Proof. apply wrap_range. lia. Qed.

Lemma external_pra_alone v (c : CIA_State) : is_u8 v -> cia_alone c -> cia_alone (cia_set_external_pra v c).
Proof. intros Hv [Hc Hl]. split; [|done]. wf_update. Qed.

(** ** The registers *)

Lemma set_ddf_ok a b s : scheduler_wf s -> full s ->
  scheduler_wf (agnus_slot_scheduler_set_ddf a b s) /\ full (agnus_slot_scheduler_set_ddf a b s).
Proof.
  intros [H1 H2 H3] Hf. split; [|done].
  assert (H : forall x, 0 <= u16 (x .& 0xfc) <= 255).
  { intros x. assert (Hx : is_u8 (x .& 0xfc)) by (apply in_width_land_r; [lia|closed_range]).
    rewrite wrap_small by (by apply (in_width_mono 8)). unfold in_width in Hx. lia. }
  by split; cbn; [apply H|apply H|].
Qed.

Lemma set_depth_ok d s : scheduler_wf s -> full s ->
  scheduler_wf (agnus_slot_scheduler_set_depth d s) /\ full (agnus_slot_scheduler_set_depth d s).
Proof.
  intros [H1 H2 H3] Hf. unfold agnus_slot_scheduler_set_depth. cbv zeta. destruct (negb _); [|by split].
  split; [|done]. split; cbn; try done. change 7 with (Z.ones 3). rewrite Z.land_ones by lia.
  by apply Z.mod_pos_bound.
Qed.

Lemma set_hires_ok h s : scheduler_wf s -> full s ->
  scheduler_wf (agnus_slot_scheduler_set_hires h s) /\ full (agnus_slot_scheduler_set_hires h s).
Proof. intros [] Hf. unfold agnus_slot_scheduler_set_hires. by destruct (negb _). Qed.

Lemma set_vstrt_ok d s : scheduler_wf s -> full s ->
  scheduler_wf (agnus_slot_scheduler_set_vstrt d s) /\ full (agnus_slot_scheduler_set_vstrt d s).
Proof. intros [] Hf. unfold agnus_slot_scheduler_set_vstrt. cbv zeta. by destruct (negb _). Qed.

Lemma video_std_ok pal a : agnus_ok a -> agnus_ok (rigel_agnus_set_video_std pal a).
Proof.
  intros [H1 [Bl Bf [Bo Bt] Blof Bh Bv] H3 H4]. split; try done. split; cbn; try done. destruct pal; auto.
Qed.

Lemma pointer_ok addr v a : agnus_ok a -> agnus_ok (agnus_write_pointer addr v a).
Proof. intros []. unfold agnus_write_pointer. repeat case_match; by split. Qed.

Lemma agnus_write_ok addr v (c : Ctx) : is_u16 v -> machine_ok c -> machine_ok (rigel_agnus_mmio_write addr v c).
Proof.
  intros Hv Hc. unfold rigel_agnus_mmio_write. destruct (rigel_blitter_domain_owns_reg addr).
  { cbv zeta. apply context_write_ok, on_agnus_ok; [by intros []|]. destruct (_ =? _); [|done].
    apply on_lines_ok; [|done]. apply on_interrupts_lines, irq_step_clear. }
  destruct (rigel_copper_regs_owns_reg addr).
  { apply context_write_ok, on_agnus_ok; [|done]. intros []. split; try done. by apply regs_write_wf. }
  destruct (_ =? _).
  { cbv zeta. apply on_scheduler_ok; [intros [] ?; by split|]. apply context_write_ok, on_agnus_ok; [by intros []|done]. }
  destruct (_ =? _).
  { cbv zeta. apply context_write_ok, on_denise_ok.
    - intros Hd. destruct Hd. split; try done. apply wrap_range. lia.
    - apply on_scheduler_ok; [apply set_ddf_ok|]. apply on_agnus_ok; [by intros []|done]. }
  destruct (_ =? _).
  { cbv zeta. apply context_write_ok, on_scheduler_ok; [apply set_ddf_ok|]. apply on_agnus_ok; [by intros []|done]. }
  destruct (_ =? _).
  { destruct (is_ecs _); [|done]. cbv zeta. apply context_write_ok, on_agnus_ok; [|done].
    intros []. apply video_std_ok. by split. }
  apply context_write_ok, on_agnus_ok; [apply pointer_ok|done].
Qed.

Lemma sees_denise_ok addr v a : agnus_ok a -> agnus_ok (agnus_sees_denise_write addr v a).
Proof.
  intros [H1 Hb Hs Hf]. unfold agnus_sees_denise_write. cbv zeta.
  set (a1 := if addr =? RIGEL_REG_BPLCON0 then _ else _). assert (A1 : agnus_ok a1).
  { unfold a1. destruct (addr =? _); [|by split].
    destruct (set_hires_ok (has v 0x8000) _ Hs Hf) as [Hs1 Hf1].
    destruct (set_depth_ok ((v .>> 12) .& 0x7) _ Hs1 Hf1) as [Hs2 Hf2].
    split; [done| |exact Hs2|exact Hf2]. destruct Hb. case_match; split; cbn; auto. }
  clearbody a1. set (a2 := if addr =? RIGEL_REG_DIWSTRT then _ else _). assert (A2 : agnus_ok a2).
  { unfold a2. destruct (addr =? _); [|done]. destruct A1 as [C1 C2 C3 C4].
    destruct (set_vstrt_ok v _ C3 C4). by split. }
  clearbody a2. destruct (addr =? _); [|done]. destruct A2. by split.
Qed.

Lemma denise_write_ok addr v (c : Ctx) : machine_ok c -> machine_ok (rigel_denise_write_reg addr v c).
Proof.
  intros Hc. unfold rigel_denise_write_reg. cbv zeta. apply on_agnus_ok; [apply sees_denise_ok|].
  apply context_write_ok, on_denise_ok; [apply write_inv|done].
Qed.

Lemma paula_write_disk_ok addr v (c : Ctx) : machine_ok c -> machine_ok (paula_write_disk addr v c).
Proof.
  intros Hc. unfold paula_write_disk.
  assert (H : disk_ok bus_ok (disk (paula c), bus c)) by (pose proof (mo_bus _ Hc); by destruct (mo_paula _ Hc)).
  destruct (disk_write_reg_ok bus_ok (env_dsksyn (env c)) (floppy c) addr v _ H) as ([d b] & -> & [D1 D2 D3 D4]).
  cbn [fst snd] in *. apply context_write_ok. destruct Hc as [H1 H2 H3 H4 [] H6 H7 H8 H9]. by split.
Qed.

Lemma paula_write_ok addr v (c : Ctx) : is_u16 v -> machine_ok c -> machine_ok (paula_write_reg addr v c).
Proof.
  intros Hv Hc. unfold paula_write_reg.
  destruct (rigel_input_domain_owns_reg addr). { apply context_write_ok, on_paula_ok; [by intros []|done]. }
  destruct (rigel_audio_domain_owns_reg addr).
  { apply context_write_ok, on_paula_ok; [|done]. intros [P1 P2 P3 P4 P5 P6 P7].
    destruct (audio_write_ok bus_ok addr v (audio (paula c)) (bus c) Hv) as [A1 A2 _];
      [split; [done|done|apply (mo_bus _ Hc)]|by split]. }
  destruct (rigel_disk_domain_owns_reg addr); [by apply paula_write_disk_ok|].
  destruct (rigel_serial_domain_owns_reg addr).
  { cbv zeta. apply context_write_ok, on_serial_ok; [apply serial_write_reg_ok|done]. }
  destruct (rigel_interrupt_domain_owns_reg addr).
  { cbv zeta. apply context_write_ok, on_lines_ok; [|done]. apply on_interrupts_lines, irq_step_write. }
  by apply context_write_ok.
Qed.

Lemma custom_write_ok addr v (c : Ctx) : is_u16 v -> machine_ok c -> machine_ok (custom_regs_write16 addr v c).
Proof.
  intros Hv Hc. unfold custom_regs_write16. destruct (negb _); [done|]. case_match.
  - by apply context_write_ok.
  - by apply agnus_write_ok.
  - by apply denise_write_ok.
  - by apply paula_write_ok.
Qed.

(** Reads change Denise's CLXDAT, the disk's byte flag and the serial buffer. *)
Lemma custom_read_ok addr (c : Ctx) : machine_ok c -> machine_ok (custom_regs_read16 addr c).2.
Proof.
  intros Hc. unfold custom_regs_read16. destruct (negb _); [done|]. case_match; try done.
  - unfold rigel_denise_read_reg. pose proof (op_inv _ _ (op_read addr (denise c)) (mo_denise _ Hc)) as Hd.
    destruct (rigel_denise_registers_read addr (denise c)) as [w d]. destruct Hc. by split.
  - unfold paula_read_reg. do 2 (case_match; [done|]). case_match; [|case_match; [|by case_match]].
    + pose proof (read_reg_wf (W := Bus M) addr (disk (paula c))) as Hd.
      assert (Ed : same_callbacks (disk (paula c)) (rigel_disk_domain_read_reg addr (disk (paula c))).2).
      { unfold rigel_disk_domain_read_reg. destruct (disk_reg addr) as [[]|]; done. }
      destruct (rigel_disk_domain_read_reg addr (disk (paula c))) as [w d]. destruct Ed as [E1 E2]. cbn [fst snd] in *.
      apply on_paula_ok; [|done]. intros []. split; cbn; rewrite ?E1, ?E2; auto.
    + pose proof (mo_paula _ Hc) as Hp. set (r := rigel_serial_domain_read_reg addr (serial (paula c))).
      assert (Er : ring_wf r.2 /\ serial_irq r.2 = serial_irq (serial (paula c))).
      { unfold r, rigel_serial_domain_read_reg. destruct Hp. destruct (_ =? _); [|done].
        split; [|done]. destruct po_serial0. by split. }
      destruct r as [w s]. destruct Er as [E1 E2]. cbn [fst snd] in *.
      apply on_paula_ok; [|done]. intros []. by split; cbn; rewrite ?E2.
Qed.

(** ** The copper in the machine *)

Lemma set_copper_ok cop (c : Ctx) :
  copper_wf cop -> machine_ok c -> machine_ok (host_set_copper cop c).
Proof. intros Hw. apply on_agnus_ok. intros []. by split. Qed.

(** But for its own state, the machine is kept by whatever the copper does. *)
Lemma on_copper_ok f (c : Ctx) :
  (copper_wf (copper (agnus c)) -> copper_wf (f (copper (agnus c)))) -> machine_ok c -> machine_ok (on_copper f c).
Proof. intros Hf Hc. apply set_copper_ok; [|done]. apply Hf, (ao_copper _ (mo_agnus _ Hc)). Qed.

(** The machine but for the copper. *)
Definition rest_ok (c : Ctx) : Prop := forall cop, copper_wf cop -> machine_ok (host_set_copper cop c).

Lemma machine_rest c : machine_ok c -> rest_ok c.
Proof. intros Hc cop Hw. by apply set_copper_ok. Qed.

Lemma rest_machine c : copper_wf (copper (agnus c)) -> rest_ok c -> machine_ok c.
Proof. intros Hw Hr. specialize (Hr _ Hw). destruct c as [? ? ? []]. exact Hr. Qed.

Lemma rest_on_copper f c : rest_ok c -> rest_ok (on_copper f c).
Proof. intros Hr cop Hw. exact (Hr cop Hw). Qed.

Lemma service_rest c : machine_ok c -> rest_ok (rigel_copper_service_step_program c).
Proof.
  intros Hc. pose proof (machine_rest _ Hc) as Hr. unfold rigel_copper_service_step_program.
  case_match; [done|]. case_match; [done|]. cbv zeta.
  set (w1 := on_copper (fun c => c <| fetch_pending := false |>) c).
  assert (Hw1 : machine_ok w1) by (apply on_copper_ok; [|done]; intros []; by split).
  assert (R1 : rest_ok w1) by by apply machine_rest.
  destruct (has _ _); [destruct (has _ _); exact (rest_on_copper _ _ R1)|].
  set (w2 := copper_exec_move w1 _ _).
  assert (R2 : rest_ok w2).
  { unfold w2, copper_exec_move. cbv zeta. case_match; [exact (rest_on_copper _ _ R1)|].
    apply machine_rest, custom_write_ok; [apply (host_read_u16 c)|].
    apply on_denise_ok; [|done]. intros []. by split. }
  clearbody w2. case_match; [done|].
  case_match; [exact (rest_on_copper _ _ (rest_on_copper _ _ R2))|exact (rest_on_copper _ _ R2)].
Qed.

Lemma service_ok (c : Ctx) : machine_ok c -> machine_ok (rigel_copper_service_step_program c).
Proof.
  intros Hc. apply rest_machine; [|by apply service_rest].
  change (copper_wf (host_copper (rigel_copper_service_step_program c))).
  apply service_wf, (ao_copper _ (mo_agnus _ Hc)).
Qed.

(** ** Serving a slot *)

Lemma blitter_slot_ok n (c : Ctx) : machine_ok c -> machine_ok (rigel_agnus_blitter_step_dma n c).
Proof.
  intros Hc. unfold rigel_agnus_blitter_step_dma. destruct (n =? 0); [done|]. cbv zeta.
  set (w := rigel_blitter_domain_step_dma _ _ _ _).
  assert (Hw : lines_ok (sink w)).
  { apply (blitter_sink lines_ok); [intros l m; apply raise_source_lines|apply (mo_bus _ Hc)]. }
  clearbody w. apply on_agnus_ok; [by intros []|]. destruct Hc. by split.
Qed.

Lemma sprite_slot_ok sp h (c : Ctx) : machine_ok c -> machine_ok (dispatch_sprite sp h c).
Proof.
  intros Hc. unfold dispatch_sprite. cbv zeta. destruct (sprite_dma_slot _ _ _ _ _) as [[ready out] s].
  assert (H1 : machine_ok (on_agnus (fun a => a <| sprite_dma := s |>) c)).
  { apply on_agnus_ok; [by intros []|done]. }
  destruct ready; [|done]. destruct out as [[[w0 w1] []]|]; [| |done]; (apply on_denise_ok; [|done]); intros Hd.
  - apply (op_inv _ _ (op_sprite_ctrl sp w0 w1 _) Hd).
  - apply (op_inv _ _ (op_sprite_data sp w0 w1 _) Hd).
Qed.

Lemma bitplane_slot_ok h (c : Ctx) : machine_ok c -> machine_ok (dispatch_bitplane h c).
Proof.
  intros Hc. unfold dispatch_bitplane. cbv zeta.
  destruct (bitplane_word (scheduler (agnus c)) h) as [[logical plane] widx] eqn:Ew.
  destruct (negb _) eqn:Eg; [done|]. apply negb_false_iff in Eg.
  rewrite !andb_true_iff, !Z.ltb_lt, Z.leb_le in Eg. destruct Eg as [[[Hd0 Hd6] Hp] Hw].
  assert (Hw0 : 0 <= widx).
  { unfold bitplane_word in Ew. cbv zeta in Ew. rewrite (proj2 (Z.ltb_lt _ _) Hd0) in Ew.
    injection Ew as <- <- <-. apply wrap_range. lia. }
  unfold RIGEL_DENISE_MAX_PLANE_WORDS in Hw.
  rewrite (wrap_small 16 (widx + 1)) by (unfold in_width; lia).
  pose proof Hc as [H1 [A1 A2 [S1 S2 S3] A4] [D1 D2 D3 D4 D5 D6 D7 D8 D9] H4 H5 H6 H7 H8 H9].
  split; cbn [fault agnus denise bus paula cia_a cia_b floppy cia_eclock_rem]; try done.
  - assert (HS : scheduler_wf (latch_line_base (agnus c)) /\ full (latch_line_base (agnus c))).
    { unfold latch_line_base. cbv zeta. by destruct (bitplane_line_base_valid _). }
    destruct HS as [[T1 T2 T3] T4]. by split.
  - assert (HO : output_inv (latch_line_bplcon (denise c))).
    { unfold latch_line_bplcon. cbv zeta. by destruct (line_bplcon_valid _). }
    set (o := latch_line_bplcon (denise c)) in *. clearbody o. destruct HO as (O1 & O2 & O3 & O4).
    split; try done. change (0 <= (if plane_word_count o <? widx + 1 then widx + 1 else plane_word_count o) <= 64).
    destruct (_ <? _); lia.
Qed.

Lemma dispatch_ok o h (c : Ctx) : machine_ok c -> machine_ok (dispatch_slot o h c).
Proof.
  intros Hc. destruct o; cbn [dispatch_slot]; try done.
  - apply on_agnus_ok; [by intros []|done].
  - apply on_disk_ok; [apply step_slot_ok|done].
  - unfold rigel_audio_domain_step_slot. apply on_audio_ok; [|done]. apply dma_slot_ok.
    intros b a _. unfold rigel_context_chip_ram_read16. case_match; [by apply wrap_range|closed_range].
  - by apply sprite_slot_ok.
  - by apply bitplane_slot_ok.
  - by apply service_ok.
  - by apply blitter_slot_ok.
Qed.

(** ** One colour clock *)

Lemma prepare_ok (c : Ctx) : machine_ok c -> machine_ok (slot_prepare c).
Proof.
  intros Hc. apply on_agnus_ok with (c := c) (f := fun _ => agnus (slot_prepare c)) in Hc; [done|].
  intros [H1 H2 H3 H4]. unfold slot_prepare. cbv zeta. set (s1 := if negb _ then _ else _).
  assert (HS : scheduler_wf s1 /\ full s1) by (unfold s1; destruct H3; by destruct (negb _)).
  clearbody s1. destruct HS as [[S1 S2 S3] S4]. split; try done. by apply domain_step_wf.
Qed.

Lemma rebuild_ok (c : Ctx) : machine_ok c -> machine_ok (slot_rebuild c).
Proof.
  apply on_agnus_ok. intros Ha. destruct (table_dirty _); [|done]. destruct Ha as [H1 H2 H3 H4].
  destruct (rebuild_keeps (vpos (beam (agnus c))) (Some (refresh (agnus c))) _ H3). by split.
Qed.

Lemma legacy_disk_ok o (c : Ctx) : machine_ok c -> machine_ok (slot_legacy_disk o c).2.
Proof.
  intros Hc. unfold slot_legacy_disk. cbv zeta. destruct (_ && _); [|done]. cbn [snd].
  destruct (negb _); [|done]. apply on_agnus_ok; [|done]. intros [? ? [] ?]. by split.
Qed.

Lemma line_end_ok (c : Ctx) : machine_ok c -> machine_ok (slot_line_end c).
Proof. apply on_agnus_ok. intros [? ? [] ?]. by split. Qed.

Lemma vertb_ok (c : Ctx) : machine_ok c -> machine_ok (slot_vertb c).
Proof.
  intros Hc. unfold slot_vertb. cbv zeta. set (c1 := on_denise _ _).
  assert (H1 : machine_ok c1).
  { apply on_denise_ok; [intros []; by split|]. apply on_agnus_ok; [by intros []|].
    apply on_lines_ok; [apply raise_source_lines|done]. }
  clearbody c1. destruct (dmacon_copen _); [|done]. apply on_agnus_ok; [|done].
  intros []. split; try done. by apply vbl_reload_wf.
Qed.

Lemma follow_ok (c : Ctx) : machine_ok c -> machine_ok (denise_follow c).
Proof.
  intros Hc. unfold denise_follow. pose proof (step_inv (beam (agnus c)) 1 _ (mo_denise _ Hc)) as Hd.
  destruct (rigel_denise_step (beam (agnus c)) 1 (denise c)) as [w d]. destruct Hc. by split.
Qed.

Lemma moved_ok b (c : Ctx) : beam_ok b -> machine_ok c -> machine_ok (slot_moved b c).
Proof.
  intros Hb Hc. unfold slot_moved. cbv zeta. set (c1 := denise_follow _). assert (H1 : machine_ok c1).
  { apply follow_ok, on_agnus_ok; [|done]. intros [? ? [] ?]. by split. }
  clearbody c1. set (c2 := if _ =? 0 then _ else _).
  assert (H2 : machine_ok c2) by (unfold c2; destruct (_ =? 0); [by apply line_end_ok|done]).
  clearbody c2. destruct (agnus_is_vertb_position _ _); [by apply vertb_ok|done].
Qed.

Lemma advance_ok (c : Ctx) : machine_ok c -> machine_ok (slot_advance c).
Proof.
  intros Hc. unfold slot_advance. pose proof (ao_beam _ (mo_agnus _ Hc)) as Hb.
  rewrite (beam_clock _ Hb). by apply moved_ok; [apply beam_tick_ok|].
Qed.

Lemma serve_ok (c : Ctx) : machine_ok c -> machine_ok (slot_serve c).
Proof.
  intros Hc. unfold slot_serve. cbv zeta. set (c1 := slot_rebuild _).
  assert (H1 : machine_ok c1) by (by apply rebuild_ok, prepare_ok). clearbody c1.
  pose proof (legacy_disk_ok (table_owner (scheduler (agnus c1))) c1 H1) as H2.
  destruct (slot_legacy_disk _ c1) as [o c2]. by apply dispatch_ok.
Qed.

Lemma scheduler_step_ok (c : Ctx) : machine_ok c -> machine_ok (agnus_slot_scheduler_step c).
Proof. intros Hc. by apply advance_ok, serve_ok. Qed.

(** ** Steps of the chipset *)

Lemma agnus_step_ok n (c : Ctx) : machine_ok c -> machine_ok (rigel_agnus_step n c).
Proof.
  intros Hc. unfold rigel_agnus_step. destruct (n =? 0); [done|]. unfold agnus_slot_scheduler_step_until.
  apply Nat.iter_invariant; [intros; by apply scheduler_step_ok|]. apply on_agnus_ok; [by intros []|done].
Qed.

Lemma paula_step_ok n (c : Ctx) : is_u32 n -> machine_ok c -> machine_ok (rigel_paula_step n c).
Proof.
  intros Hn Hc. unfold rigel_paula_step.
  destruct (audio_step_spec n (audio (paula c)) (po_audio _ (mo_paula _ Hc)) Hn) as (a & -> & Ha & _ & Ei & _).
  apply on_serial_ok; [apply serial_step_ok|]. apply on_disk_ok; [apply disk_step_ok|].
  apply on_paula_ok; [|done]. intros []. split; cbn; try done. by rewrite Ei.
Qed.

Lemma step_tod_ok f b (c : Ctx) : machine_ok c -> machine_ok (step_tod f b c).
Proof.
  intros Hc. unfold step_tod. cbv zeta. set (c1 := if _ && _ then _ else c).
  assert (H1 : machine_ok c1).
  { unfold c1. destruct (_ && _); [|done]. apply on_cia_ok; [intros w; apply tod_pulse_ok|done]. }
  clearbody c1. destruct (negb (f =? 0)); [|done].
  destruct (_ <? _); [|done]. apply on_cia_ok; [intros w; apply tod_pulse_ok|done].
Qed.

Lemma step_eclock_ok n (c : Ctx) : machine_ok c -> machine_ok (step_eclock n c).
Proof.
  intros Hc. unfold step_eclock. cbv zeta. set (c1 := c <| cia_eclock_rem := _ |>).
  assert (H1 : machine_ok c1) by (destruct Hc; split; try done; exact (Z.mod_pos_bound _ 5 eq_refl)).
  clearbody c1. destruct (_ <? _); [|done]. do 2 (apply on_cia_ok; [intros w; apply step_ok|]). done.
Qed.

Lemma chipset_step_ok n (c : Ctx) : is_u32 n -> machine_ok c -> machine_ok (rigel_chipset_step n c).
Proof.
  intros Hn Hc. unfold rigel_chipset_step. cbv zeta. apply step_eclock_ok, step_tod_ok, paula_step_ok; [done|].
  apply agnus_step_ok. apply on_paula_ok; [|by destruct Hc]. intros []. by split.
Qed.

Lemma sample_taken_ok (p : RigelPaula M) :
  paula_ok p -> paula_ok (p <| audio := (audio p) <| sample_ready := false |> |>).
Proof. by intros []. Qed.

Lemma rigel_step_ok n (c : Ctx) : machine_ok c -> machine_ok (rigel_step n c).2.
Proof.
  intros Hc. unfold rigel_step. cbv zeta. cbn [snd]. apply on_paula_ok; [apply sample_taken_ok|].
  apply chipset_step_ok; [apply wrap_range; lia|]. apply on_agnus_ok; [|done]. intros [[] ? ? ?]. by split.
Qed.

End machine.
