(* ===== verification/MachineInvariant.v ===== *)
(** * Every reachable state of the machine

    The operations of the library's interface on the whole machine: each one
    keeps the invariant of MachineSafety.v, and so does any sequence of them. *)

From stdpp Require Import gmap.
From S2P Require Import Prelude Custom Interrupt Cia CiaFacts ChipRam Blitter Dma Beam BeamFacts Copper.
From S2P Require Import CopperFacts CopperRun Mfm Floppy FloppyFacts Disk DiskSafety Serial Input Audio.
From S2P Require Import AudioFacts SpriteDma Scheduler SchedulerFacts DeniseSprites Denise DeniseFacts.
From S2P Require Import Framebuffer DeniseFrames Rtc RtcFacts Callbacks Machine Registers FloppyPort Mmio.
From S2P Require Import Chipset Rigel MachineFacts MachineSafety.

Section interface.
Context {M : Type}.
#[local] Abbreviation Ctx := (RigelContext M).

(** ** The address map *)

Lemma drives_part (l : list FloppyDrive) (c : Ctx) : drives_ok l -> machine_ok c -> machine_ok (c <| floppy := l |>).
Proof. intros Hl []. by split. Qed.

Lemma step_drives_ok prb (l : list FloppyDrive) :
  drives_ok l -> drives_ok (imap (fun i d => floppy_step (prb_signals prb (nth i (prb_selects prb) false) d) d) l).
Proof.
  intros [Hl Hf]. split; [by rewrite length_imap|]. apply Forall_lookup. intros i d.
  rewrite list_lookup_imap. destruct (l !! i) as [d0|] eqn:E; [|done]. cbn. intros [= <-].
  apply drive_step_wf. by eapply Forall_lookup_1.
Qed.

Lemma drive_status_range mtr d x : is_u8 x -> is_u8 (drive_status mtr d x).
Proof. intros Hx. unfold drive_status. cbv zeta. repeat case_match; auto using port_range. Qed.

Lemma route_ok prb i n (c : Ctx) : machine_ok c -> machine_ok (route_drive prb i n c).
Proof.
  intros Hc. unfold route_drive. cbv zeta. set (c1 := on_paula _ c).
  assert (H1 : machine_ok c1) by (apply on_paula_ok; [|done]; intros [[] ? ? ? ? ? ?]; by split).
  clearbody c1. apply cia_a_ok; [|done]. apply external_pra_alone; [|apply (mo_cia_a _ H1)].
  destruct (n =? 1)%nat; [|apply port_range]. destruct (floppy c1 !! i); [|apply port_range].
  apply drive_status_range, port_range.
Qed.

Lemma update_floppy_ok (c : Ctx) : machine_ok c -> machine_ok (cia_b_prb_update_floppy c).
Proof.
  intros Hc. unfold cia_b_prb_update_floppy. cbv zeta. destruct (selected_drives _ _ _) as [i n].
  apply route_ok, drives_part; [|done]. apply step_drives_ok, (mo_drives _ Hc).
Qed.

Lemma sync_floppy_ok (c : Ctx) : machine_ok c -> machine_ok (rigel_sync_floppy_cia_lines c).
Proof.
  intros Hc. unfold rigel_sync_floppy_cia_lines. cbv zeta. destruct (selected_drives _ _ _) as [i n].
  by apply route_ok.
Qed.

Lemma cia_read_ok id r (c : Ctx) : machine_ok c -> machine_ok (rigel_cia_read id r c).2.
Proof.
  intros Hc. unfold rigel_cia_read. destruct (2 <=? id); [done|].
  pose proof (on_cia_ok id (fun w => (cia_read_reg r w).2) c) as H. unfold on_cia in H.
  destruct (cia_read_reg r (cia_board id c)) as [v w]. apply H; [intros w'; apply read_reg_ok|done].
Qed.

Lemma cia_write_ok id r v (c : Ctx) : is_u8 v -> machine_ok c -> machine_ok (rigel_cia_write id r v c).
Proof.
  intros Hv Hc. unfold rigel_cia_write. destruct (2 <=? id); [done|]. cbv zeta.
  assert (H : machine_ok (on_cia id (cia_write_reg r v) c)).
  { apply on_cia_ok; [|done]. intros w. by apply CiaFacts.write_reg_ok. }
  destruct (_ && _); [by apply update_floppy_ok|done].
Qed.

Lemma rtc_part r (c : Ctx) : machine_ok c -> machine_ok (c <| Machine.rtc := r |>).
Proof. intros []. by split. Qed.

Lemma custom_read_mmio_ok addr size (c : Ctx) : machine_ok c -> machine_ok (custom_read addr size c).2.
Proof.
  intros Hc. unfold custom_read. destruct (custom_refused addr size); [done|].
  unfold custom_read_word. pose proof (custom_read_ok (addr .& 0x1fe) c Hc) as Hr.
  destruct (custom_regs_read16 (addr .& 0x1fe) c) as [w c1]. cbn [snd] in Hr.
  do 2 (case_match; [done|]). case_match; [|done].
  pose proof (custom_read_ok (u32 (addr + 2) .& 0x1fe) c1 Hr) as Hr2. by destruct (custom_regs_read16 _ c1).
Qed.

Lemma mmio_read_ok addr size (c : Ctx) : machine_ok c -> machine_ok (rigel_mmio_read addr size c).2.
Proof.
  intros Hc. unfold rigel_mmio_read. destruct (_ <? _); [done|].
  destruct (custom_address addr); [by apply custom_read_mmio_ok|]. destruct (cia_id_for_address addr) as [id|].
  - destruct (negb _); [done|]. pose proof (cia_read_ok id ((addr .>> 8) .& 0x0f) c Hc) as H.
    by destruct (rigel_cia_read _ _ c).
  - destruct (rtc_address addr); [|done]. destruct (negb _); [done|].
    destruct (rigel_rtc_read_reg _ _ _) as [v r]. by apply rtc_part.
Qed.

Lemma custom_write_mmio_ok addr size v (c : Ctx) : machine_ok c -> machine_ok (custom_write addr size v c).2.
Proof.
  intros Hc. assert (U : forall x, is_u16 (u16 x)) by (intros; by apply wrap_range).
  unfold custom_write. destruct (custom_refused addr size); [done|].
  unfold custom_write_word, custom_read_word. case_match.
  - pose proof (custom_read_ok (addr .& 0x1fe) c Hc) as Hr. destruct (custom_regs_read16 _ c) as [w c1].
    apply custom_write_ok; [|exact Hr]. by destruct (negb _).
  - case_match; [by apply custom_write_ok|]. case_match; [|done]. cbn [snd]. by do 2 (apply custom_write_ok; [done|]).
Qed.

Lemma mmio_write_ok addr size v (c : Ctx) : machine_ok c -> machine_ok (rigel_mmio_write addr size v c).2.
Proof.
  intros Hc. unfold rigel_mmio_write. destruct (_ <? _); [done|].
  destruct (custom_address addr); [by apply custom_write_mmio_ok|]. destruct (cia_id_for_address addr) as [id|].
  - destruct (negb _); [done|]. apply cia_write_ok; [apply port_range|done].
  - destruct (rtc_address addr); [|done]. destruct (negb _); [done|]. by apply rtc_part.
Qed.

(** ** Media, keyboard, snapshots *)

Lemma alter_drive_ok f i (c : Ctx) :
  (forall d, drive_wf d -> drive_wf (f d)) -> machine_ok c -> machine_ok (c <| floppy := alter f i (floppy c) |>).
Proof.
  intros Hf Hc. apply drives_part; [|done]. destruct (mo_drives _ Hc) as [Hl HF].
  split; [by rewrite length_alter|]. apply Forall_alter; [done|]. auto.
Qed.

Lemma insert_ok drive data size (c : Ctx) :
  is_u32 size -> machine_ok c -> machine_ok (rigel_floppy_insert drive data size c).2.
Proof.
  intros Hs Hc. unfold rigel_floppy_insert. destruct (_ || _); [done|].
  destruct (rigel_chipset_floppy_drive drive) as [i|]; [|done]. cbn [snd].
  apply sync_floppy_ok, alter_drive_ok; [|done]. intros d. by apply insert_wf.
Qed.

Lemma eject_ok drive (c : Ctx) : machine_ok c -> machine_ok (rigel_floppy_eject drive c).
Proof.
  intros Hc. unfold rigel_floppy_eject. destruct (rigel_chipset_floppy_drive drive) as [i|]; [|done].
  apply sync_floppy_ok, alter_drive_ok; [apply eject_wf|done].
Qed.

Lemma keyboard_ok key pressed (c : Ctx) : machine_ok c -> machine_ok (rigel_keyboard_inject key pressed c).
Proof. intros Hc. apply on_cia_ok; [|done]. intros w. apply receive_byte_ok, port_range. Qed.

Lemma load_ok n size s (c : Ctx) : machine_ok c -> machine_ok (rigel_load_state n size s c).2.
Proof.
  intros Hc. unfold rigel_load_state. destruct (size <? n); [done|]. cbv zeta. cbn [snd].
  do 2 apply context_write_ok. apply on_lines_ok; [|by destruct Hc]. intros [Hi Hl]. split; [|done].
  exact (irq_wf_step _ _ (irq_step_write _ RIGEL_REG_INTREQ _)
           (irq_wf_step _ _ (irq_step_write _ RIGEL_REG_INTENA _) Hi)).
Qed.

Lemma fire_ok port pressed (c : Ctx) : machine_ok c -> machine_ok (rigel_input_set_fire port pressed c).
Proof.
  intros Hc. unfold rigel_input_set_fire. destruct (1 <? port); [done|]. cbv zeta.
  apply cia_a_ok; [|done]. apply external_pra_alone; [|apply (mo_cia_a _ Hc)].
  destruct pressed; apply port_range.
Qed.

Lemma pop_serial_ok byte (c c' : Ctx) :
  rigel_serial_pop_tx_byte c = Some (byte, c') -> machine_ok c -> machine_ok c'.
Proof.
  unfold rigel_serial_pop_tx_byte. destruct (serial_pop_tx_byte (serial (paula c))) as [[v s]|] eqn:E; [|done].
  cbn. intros [= <- <-] Hc. apply on_paula_ok; [|done]. intros [].
  destruct (pop_ok bus_ok _ _ _ (bus c) E) as [P1 P2 _]; [split; [done|done|apply (mo_bus _ Hc)]|by split].
Qed.

(** ** Reset *)

(** What memory that may be reset holds: arrays of the declared sizes. *)
Record resettable (c : Ctx) : Prop := {
  rs_fault : fault c = false;
  rs_regs : length (custom_regs (lines (bus c))) = 256%nat;
  rs_slots : length (bitplane_slot_index (scheduler (agnus c))) = 227%nat;
  rs_colors : length (color (Denise.regs (denise c))) = 32%nat;
  rs_track : Z.of_nat (length (dma_track_buf (disk (paula c)))) = RIGEL_FLOPPY_MFM_TRACK_BYTES_PAL;
  rs_disk_sink : sink_ok bus_ok (disk_irq (disk (paula c)));
  rs_disk_store : store_ok bus_ok (disk_chip_ram (disk (paula c)));
  rs_fifo : length (tx_fifo (serial (paula c))) = 16%nat;
  rs_serial_sink : sink_ok bus_ok (serial_irq (serial (paula c)));
  rs_audio_sink : sink_ok bus_ok (audio_irq (audio (paula c)));
  rs_drives : length (floppy c) = 4%nat /\
    Forall (fun d => is_flag (connected d) /\ is_u32 (adf_size d)) (floppy c);
}.

Lemma ok_resettable c : machine_ok c -> resettable c.
Proof.
  intros [H1 [A1 A2 A3 [A4 A5]] D [H4 H5] P _ _ [L F] _]. destruct P as [[? ? ?] ? ? [? ? ? ?] ? ? ?].
  split; try done; [apply D|]. split; [done|]. eapply Forall_impl; [exact F|].
  intros d Hd. split; [apply (wf_flags _ Hd)|apply (wf_size _ Hd)].
Qed.

Lemma reset_drives_ok l :
  length l = 4%nat -> Forall (fun d => is_flag (connected d) /\ is_u32 (adf_size d)) l -> drives_ok (imap reset_drive l).
Proof.
  intros Hl HF. split; [by rewrite length_imap|]. apply Forall_lookup. intros i d.
  rewrite list_lookup_imap. destruct (l !! i) as [d0|] eqn:E; [|done]. cbn. intros [= <-].
  destruct (Forall_lookup_1 _ _ _ _ HF E). unfold reset_drive.
  by apply set_connected_wf, drive_reset_makes_wf.
Qed.

Lemma agnus_reset_ok a : length (bitplane_slot_index (scheduler a)) = 227%nat -> agnus_ok (rigel_agnus_reset a).
Proof.
  intros Hl. unfold rigel_agnus_reset. cbv zeta. split; cbn [copper beam scheduler].
  - apply reset_wf.
  - apply (reset_beam_ok _ false).
  - split; cbn; unfold AGNUS_HPOS_BITPLANE_START, AGNUS_SLOTS_PER_LINE; lia.
  - split; [|done]. exact (length_replicate 227 AGNUS_SLOT_CPU).
Qed.

Lemma paula_reset_ok (p : RigelPaula M) (c : Ctx) : resettable c -> paula c = p ->
  paula_ok (mkPaula (audio_reset (audio p)) (disk_reset (disk p)) (input_reset (input p)) (serial_reset (serial p))).
Proof.
  intros [] <-. split; cbn; try done.
  - split; cbn; [done|by left|]. unfold RIGEL_FLOPPY_MFM_TRACK_BYTES_PAL. lia.
  - assert (Hz : channel_wf zero_channel) by (split; closed_range).
    split; [done|]. cbn. repeat (apply Forall_cons_2; [exact Hz|]). apply Forall_nil_2.
Qed.

(** The first start of the CIAs, whatever was in their memory. *)
Lemma init_cias_ok (c : Ctx) :
  (forall x y, cia_alone x -> cia_alone y -> machine_ok (c <| cia_a := x |> <| cia_b := y |>)) ->
  irq_wf (intr c) -> machine_ok (on_cia 1 (cia_init CIA_PORT_B) (on_cia 0 (cia_init CIA_PORT_A) c)).
Proof.
  intros H Hi. unfold on_cia at 2. unfold set_cia_board, cia_board. change (0 =? 0) with true. cbv iota zeta.
  pose proof (init_ok (private := false) CIA_PORT_A (mkBoard (cia_a c) (intr c)) Hi) as Ha.
  apply cia_ok_alone in Ha as [Ha Hia]. destruct (cia_init CIA_PORT_A _) as [xa ia]. cbn [chip irqs] in *.
  unfold on_cia, set_cia_board, cia_board. change (1 =? 0) with false. cbv iota zeta.
  pose proof (init_ok (private := false) CIA_PORT_B (mkBoard (cia_b c) ia) Hia) as Hb.
  apply cia_ok_alone in Hb as [Hb Hib].
  change (mkBoard _ _) with (mkBoard (cia_b c) ia). destruct (cia_init CIA_PORT_B _) as [xb ib]. cbn [chip irqs] in *.
  refine (on_lines_ok (fun l => l <| interrupts := ib |>) _ _ (H xa xb Ha Hb)). intros [_ Hl]. by split.
Qed.

(** The chips but the CIAs. *)
Lemma reset_chips_ok (c : Ctx) : resettable c ->
  irq_wf (intr (reset_chips c)) /\
  forall x y, cia_alone x -> cia_alone y -> machine_ok (reset_chips c <| cia_a := x |> <| cia_b := y |>).
Proof.
  intros Hr. pose proof Hr as [R1 Rr R2 R3 R4 R5 R6 R7 R8 R9 [R10 R11]].
  assert (Hi : irq_wf (rigel_paula_interrupts_reset (intr c))).
  { apply (irq_wf_step (mkInterruptDomain 0 0 0) _ (irq_step_reset _)). split; [closed_range|closed_range|done]. }
  split; [exact Hi|]. intros x y Hx Hy.
  pose proof (paula_reset_ok (paula c) c Hr eq_refl) as Hp. pose proof (agnus_reset_ok (agnus c) R2) as Ha.
  pose proof (reset_inv (denise c) R3) as Hd. pose proof (reset_drives_ok (floppy c) R10 R11) as Hf.
  assert (Hp2 : paula_ok (rigel_paula_set_disk_drive 0
    (mkPaula (audio_reset (audio (paula c))) (disk_reset (disk (paula c))) (input_reset (input (paula c)))
       (serial_reset (serial (paula c)))))) by (destruct Hp as [[] ? ? ? ? ? ?]; by split).
  constructor; [exact R1|exact Ha|exact Hd|exact (conj Hi Rr)|exact Hp2|exact Hx|exact Hy|exact Hf|].
  change (0 <= 0 < 5). lia.
Qed.

Lemma direction_ok v (c : Ctx) :
  is_u8 v -> machine_ok c -> machine_ok (c <| cia_a := cia_set_external_pra 0xff ((cia_a c) <| ddra := v |>) |>).
Proof.
  intros Hv Hc. apply cia_a_ok; [|done]. apply external_pra_alone; [closed_range|].
  destruct (mo_cia_a _ Hc) as [Hw Hl]. split; [|done]. wf_update.
Qed.

Lemma reset_cias_ok (c : Ctx) :
  irq_wf (intr c) ->
  (forall x y, cia_alone x -> cia_alone y -> machine_ok (c <| cia_a := x |> <| cia_b := y |>)) ->
  machine_ok (reset_cias c).
Proof.
  intros Hi Hc. unfold reset_cias. cbv zeta. apply direction_ok; [closed_range|].
  do 2 (apply on_cia_ok; [intros w; apply attach_ok|]). by apply init_cias_ok.
Qed.

Lemma clear_regs_lines l : lines_ok l -> lines_ok (l <| custom_regs := replicate 256 0 |>).
Proof. intros [Hl _]. split; [done|exact (length_replicate 256 0)]. Qed.

Lemma chipset_reset_ok (c : Ctx) : resettable c -> machine_ok (rigel_chipset_reset c).
Proof.
  intros Hr. destruct (reset_chips_ok c Hr) as [Hi Hc].
  apply on_lines_ok; [apply clear_regs_lines|]. by apply reset_cias_ok.
Qed.

Lemma wire_ok (c : Ctx) : machine_ok c -> machine_ok (rigel_chipset_wire c).
Proof.
  intros Hc. unfold rigel_chipset_wire. cbv zeta. set (c1 := on_paula _ c).
  assert (H1 : machine_ok c1).
  { apply on_paula_ok; [|done]. intros [[] ? ? [] ? ? ?].
    split; cbn; try done; [intros b m; apply sink_bus_ok|intros b m; apply sink_bus_ok]. }
  clearbody c1. destruct (serial_tx_instant _); [|done]. apply on_paula_ok; [|done]. intros [? ? ? [] ? ? ?]. by split.
Qed.

Lemma machine_reset_ok (c : Ctx) : resettable c -> machine_ok (rigel_reset c).
Proof.
  intros Hr. apply chipset_reset_ok in Hr. unfold rigel_reset. cbv zeta. set (c1 := rigel_chipset_reset c) in *.
  clearbody c1. apply on_agnus_ok; [by intros []|]. apply wire_ok.
  apply on_denise_ok; [apply (op_inv _ _ (op_target _ _))|]. apply on_agnus_ok; [apply video_std_ok|].
  apply on_denise_ok; [apply (op_inv _ _ (op_rev _ _))|]. apply on_agnus_ok; [by intros []|done].
Qed.

(** ** Creation *)

Lemma zero_resettable e cfg m r : resettable ((context_zero e cfg m) <| Machine.rtc := r |>).
Proof.
  constructor; [done|exact (length_replicate 256 0)|exact (length_replicate 227 0)|exact (length_replicate 32 0)
               | |done|done|done|done|done|].
  - change (Z.of_nat (length (replicate (Z.to_nat RIGEL_FLOPPY_MFM_TRACK_BYTES_PAL) 0)) =
      RIGEL_FLOPPY_MFM_TRACK_BYTES_PAL). rewrite length_replicate. done.
  - split; [done|]. cbn. repeat (apply Forall_cons_2; [split; [by left|closed_range]|]). apply Forall_nil_2.
Qed.

Lemma create_ok e cfg (m : M) : machine_ok (rigel_create e cfg m).
Proof.
  unfold rigel_create. cbv zeta. set (c := rigel_chipset_wire _).
  assert (H : machine_ok c) by (apply wire_ok, machine_reset_ok, zero_resettable). clearbody c.
  destruct (decide _); [done|]. destruct (_ =? 0); [by apply rtc_part|]. by do 2 apply rtc_part.
Qed.

End interface.

(** ** Reachable states *)

(** One call of the library, with arguments in the range of their C types; and
    the host's own use of the memory, which the library shares. *)
Inductive machine_op {M} : RigelContext M -> RigelContext M -> Prop :=
  | op_step n c : machine_op c (rigel_step n c).2
  | op_step_until t c : machine_op c (rigel_step_until t c).2
  | op_mmio_read addr size c : machine_op c (rigel_mmio_read addr size c).2
  | op_mmio_write addr size v c : machine_op c (rigel_mmio_write addr size v c).2
  | op_custom_read addr c : machine_op c (rigel_custom_read16 addr c).2
  | op_custom_write addr v c : is_u16 v -> machine_op c (rigel_custom_write16 addr v c)
  | op_cia_read id r c : machine_op c (rigel_cia_read id r c).2
  | op_cia_write id r v c : is_u8 v -> machine_op c (rigel_cia_write id r v c)
  | op_key key pressed c : machine_op c (rigel_keyboard_inject key pressed c)
  | op_insert drive data size c : is_u32 size -> machine_op c (rigel_floppy_insert drive data size c).2
  | op_eject drive c : machine_op c (rigel_floppy_eject drive c)
  | op_serial_in v c : machine_op c (rigel_serial_receive_byte v c)
  | op_serial_out v c c' : rigel_serial_pop_tx_byte c = Some (v, c') -> machine_op c c'
  | op_serial_mode on c : machine_op c (rigel_serial_set_tx_instant on c)
  | op_joydat port v c : machine_op c (rigel_input_set_joydat port v c)
  | op_button_x port on c : machine_op c (rigel_input_set_pot_button_x port on c)
  | op_button_y port on c : machine_op c (rigel_input_set_pot_button_y port on c)
  | op_fire port on c : machine_op c (rigel_input_set_fire port on c)
  | op_clock r c : machine_op c (c <| Machine.rtc := r |>)
  | op_load n size s c : machine_op c (rigel_load_state n size s c).2
  | op_exact on c : machine_op c (rigel_set_cycle_exact on c)
  | op_machine_reset c : machine_op c (rigel_reset c)
  | op_memory m c : machine_op c (c <| bus := mkBus (lines (bus c)) m |>).

Lemma machine_op_ok {M} (c c' : RigelContext M) : machine_op c c' -> machine_ok c -> machine_ok c'.
Proof.
  intros [] Hc.
  - by apply rigel_step_ok.
  - unfold rigel_step_until. destruct (_ <=? _); [done|by apply rigel_step_ok].
  - by apply mmio_read_ok.
  - by apply mmio_write_ok.
  - by apply custom_read_ok.
  - by apply custom_write_ok.
  - by apply cia_read_ok.
  - by apply cia_write_ok.
  - by apply keyboard_ok.
  - by apply insert_ok.
  - by apply eject_ok.
  - apply on_serial_ok; [apply receive_ok|done].
  - by eapply pop_serial_ok.
  - apply on_paula_ok; [|done]. intros [? ? ? [] ? ? ?]. by split.
  - apply on_paula_ok; [|done]. by intros [].
  - apply on_paula_ok; [|done]. by intros [].
  - apply on_paula_ok; [|done]. by intros [].
  - by apply fire_ok.
  - by apply rtc_part.
  - by apply load_ok.
  - apply on_agnus_ok; [by intros []|]. destruct Hc. by split.
  - by apply machine_reset_ok, ok_resettable.
  - destruct Hc. by split.
Qed.


(** A machine with half a megabyte of chip RAM and no clock. *)
Definition demo_config : rigel_config (gmap Z Z) :=
  mkConfig 0 (mkRamConfig 0x80000 RIGEL_CHIPSET_OCS) word_ram false RIGEL_RTC_MODEL_NONE 0 (mkHost None None None) true
    (mkTarget None 0 0 0 RIGEL_PIXEL_RGBA8888 false) false.

Definition demo_env : rigel_env := mkEnvironment true false demo_lib.

