(* ===== verification/CopperMachine.v ===== *)
(** * Copper lists in the whole machine

    The execution of MOVE lists ([CopperRun]) in the machine that hosts the copper
    ([MachineFacts]): what a list in chip RAM does to Denise. *)

From stdpp Require Import gmap.
From S2P Require Import Prelude Custom Interrupt ChipRam Beam Copper CopperRun Scheduler DenisePixel Denise.
From S2P Require Import DeniseFacts Rtc Machine Registers Mmio Chipset Rigel MachineFacts MachineInvariant.

(** ** The colour registers *)

(** The colours as the bus addresses them: even addresses. *)
Definition color_move (r : Z) : Prop := is_color_reg r = true /\ Z.even r = true.

Lemma color_regs_are_denises :
  forallb (fun i =>
    let r := RIGEL_REG_COLOR00 + 2 * Z.of_nat i in
    (r .& 0x01fe =? r) && (0x80 <=? r) && negb (rigel_copper_regs_owns_reg r) && rigel_custom_is_valid_reg r &&
    match rigel_custom_domain_for_reg r with RIGEL_DOMAIN_DENISE => true | _ => false end) (seq 0 32) = true.
Proof. vm_compute. reflexivity. Qed.

Lemma color_move_spec r : color_move r -> exists i, (i < 32)%nat /\ r = RIGEL_REG_COLOR00 + 2 * Z.of_nat i.
Proof.
  intros [Hc [k Hk]%Z.even_spec]. unfold is_color_reg, RIGEL_REG_COLOR00, RIGEL_REG_COLOR31 in *.
  exists (Z.to_nat (k - 0xc0)). lia.
Qed.

(** Such a register belongs to Denise, and the copper may write it. *)
Lemma color_move_domain r : color_move r ->
  plain_reg r /\ rigel_custom_is_valid_reg r = true /\ rigel_custom_domain_for_reg r = RIGEL_DOMAIN_DENISE.
Proof.
  intros (i & Hi & ->)%color_move_spec. pose proof color_regs_are_denises as H. rewrite forallb_forall in H.
  specialize (H i ltac:(apply in_seq; lia)). cbv zeta in H. revert H.
  generalize (RIGEL_REG_COLOR00 + 2 * Z.of_nat i). intros r H. rewrite !andb_true_iff in H.
  destruct H as [[[[H1 H2] H3] H4] H5].
  apply Z.eqb_eq in H1. apply Z.leb_le in H2. apply negb_true_iff in H3.
  split; [by split_and!|]. split; [done|]. by destruct (rigel_custom_domain_for_reg r).
Qed.

(** What a write to a colour does to the registers and the palette. *)
Definition color_put (r v : Z) (o : list Z * list Z) : list Z * list Z :=
  let i := Z.to_nat ((r - RIGEL_REG_COLOR00) .>> 1) in
  (<[i := v]> o.1, <[i := rigel_denise_color_expand_12bit v]> o.2).

Section machine.
Context {M : Type}.
#[local] Abbreviation Ctx := (RigelContext M).

(** The colour registers and the colours the picture is drawn with. *)
Definition colors (c : Ctx) : list Z * list Z := (color (Denise.regs (denise c)), rgb32 (palette (denise c))).

Lemma color_write r v (c : Ctx) : color_move r -> colors (custom_regs_write16 r v c) = color_put r v (colors c).
Proof.
  intros Hr. destruct (color_move_domain r Hr) as (_ & Hv & Hd). destruct Hr as [Hr _].
  unfold custom_regs_write16. rewrite Hv, Hd. cbn [negb].
  change (colors (rigel_denise_write_reg r v c)) with
    (let d := rigel_denise_registers_write r v (denise c) in (color (Denise.regs d), rgb32 (palette d))).
  unfold rigel_denise_registers_write. rewrite Hr.
  unfold rigel_denise_color_regs_write. rewrite color_reg_guard, Hr. cbn [negb]. cbv zeta.
  by destruct (_ =? v).
Qed.

Lemma color_write_memory r v a (c : Ctx) :
  color_move r -> context_read16 (custom_regs_write16 r v c) a = context_read16 c a.
Proof.
  intros Hr. destruct (color_move_domain r Hr) as (_ & Hv & Hd).
  unfold custom_regs_write16. by rewrite Hv, Hd.
Qed.

(** C13: A copper list changes the colours of the picture.  With a list of MOVEs to
    colour registers in chip RAM at the copper's program counter, as many copper
    slots as the list has MOVEs leave in the machine's colour registers the values
    of the list, written in order, and in the palette the picture is drawn with
    the colours they stand for (each nibble of the value doubled). *)
Theorem copper_list_sets_colors prog (c : Ctx) :
  let pc := program_counter (copper (agnus c)) in
  is_u32 pc -> fetching c -> moves_at c pc prog -> Forall (fun m => color_move m.1) prog ->
  let c' := Nat.iter (length prog) (dispatch_slot AGNUS_SLOT_COPPER 0) c in
  colors c' = foldl (fun o m => color_put m.1 m.2 o) (colors c) prog /\
  fetching c' /\ program_counter (copper (agnus c')) = u32 (pc + 4 * Z.of_nat (length prog)).
Proof.
  intros pc Hpc Hf Hat Hall.
  refine (run_moves color_move colors color_put prog c _ _ _ _ _ Hpc Hf Hat Hall); try done.
  - intros r Hr. by apply color_move_domain.
  - intros r v w. apply color_write.
  - intros r v w a. apply color_write_memory.
Qed.

End machine.

(** The machine after its creation with a list in memory, started through COP1LC
    and COPJMP1, with copper DMA on, at the start of a slot. *)
#[local] Abbreviation machine_with_list :=
  (slot_prepare (rigel_custom_write16 0x096 0x8280 (rigel_custom_write16 0x088 0
    (rigel_custom_write16 0x082 0x1000 (rigel_create demo_env demo_config
      (<[0x1000 := 0x180]> (<[0x1002 := 0xf80]> (<[0x1004 := 0x1be]> (<[0x1006 := 0x123]> (∅ : gmap Z Z)))))))))).

Lemma copper_list_sets_colors_witness :
  let c' := Nat.iter 2 (dispatch_slot AGNUS_SLOT_COPPER 0) machine_with_list in
  at_ (colors c').1 0 = 0xf80 /\ at_ (colors c').2 0 = 0xff8800 /\ at_ (colors c').2 31 = 0x112233 /\
  program_counter (copper (agnus c')) = 0x1008.
Proof.
  cbv zeta. destruct (copper_list_sets_colors [(0x180, 0xf80); (0x1be, 0x123)] machine_with_list) as (E & _ & Ep).
  - vm_compute. split; congruence.
  - split; vm_compute; reflexivity.
  - vm_compute. split_and!; reflexivity.
  - repeat constructor.
  - cbn [length] in E, Ep. rewrite E, Ep. vm_compute. split_and!; reflexivity.
Defined.
