(* ===== verification/ChipsetFacts.v ===== *)
(** * The machine in time

    The beam goes on whatever the programs do, so the vertical blank interrupt
    comes in every frame; the machine's clock and the E clock of the CIAs do not
    drift however the host cuts its steps; and Agnus does not notice the cuts. *)

From stdpp Require Import gmap.
From S2P Require Import Prelude Custom Interrupt Cia ChipRam Blitter BlitterDma Dma Beam BeamFacts Copper.
From S2P Require Import CopperRun Floppy Disk Serial Input Audio SpriteDma Scheduler DeniseSprites Denise.
From S2P Require Import Framebuffer Compositor Rtc Machine Registers Chipset Rigel MachineFacts MachineSafety.
From S2P Require Import MachineInvariant.

Section facts.
Context {M : Type}.
#[local] Abbreviation Ctx := (RigelContext M).

(** ** What the service of a slot keeps

    Only the beam itself moves the beam, and the enables decoded from DMACON follow
    the register. *)

Definition position (c : Ctx) : Z * Z := (vpos (beam (agnus c)), hpos (beam (agnus c))).

Definition decoded (c : Ctx) : Prop :=
  rigel_dma_domain_sync_dmacon (dma (agnus c)) (dmacon (dma (agnus c))) = dma (agnus c).

Definition keeps (c c' : Ctx) : Prop := position c' = position c /\ (decoded c -> decoded c').

Lemma keeps_trans c1 c2 c3 : keeps c1 c2 -> keeps c2 c3 -> keeps c1 c3.
Proof. intros [E1 D1] [E2 D2]. split; [congruence|auto]. Qed.

Lemma keeps_agnus (c c' : Ctx) :
  position c' = position c -> dma (agnus c') = dma (agnus c) -> keeps c c'.
Proof. intros E1 E2. split; [done|]. unfold decoded. by rewrite E2. Qed.

Lemma keeps_paula_write addr v (c : Ctx) : keeps c (paula_write_reg addr v c).
Proof. by apply keeps_agnus; unfold position; rewrite agnus_paula_write. Qed.

Lemma keeps_agnus_write addr v (c : Ctx) : keeps c (rigel_agnus_mmio_write addr v c).
Proof.
  unfold rigel_agnus_mmio_write. cbv zeta. repeat case_match; try (by apply keeps_agnus);
    try (apply keeps_agnus; unfold position; rewrite agnus_write_reg; unfold agnus_write_pointer; by repeat case_match).
  split; [done|]. intros _. unfold decoded. cbn. unfold rigel_dma_domain_write_dmacon. done.
Qed.

Lemma keeps_denise_write addr v (c : Ctx) : keeps c (rigel_denise_write_reg addr v c).
Proof.
  apply keeps_agnus; unfold rigel_denise_write_reg, agnus_sees_denise_write, position; cbv zeta; by repeat case_match.
Qed.

Lemma keeps_custom_write addr v (c : Ctx) : keeps c (custom_regs_write16 addr v c).
Proof.
  unfold custom_regs_write16. destruct (negb _); [by apply keeps_agnus|]. case_match; [by apply keeps_agnus|..].
  - apply keeps_agnus_write.
  - apply keeps_denise_write.
  - apply keeps_paula_write.
Qed.

Lemma keeps_service (c : Ctx) : keeps c (rigel_copper_service_step_program c).
Proof.
  unfold rigel_copper_service_step_program, copper_exec_move. cbv zeta.
  repeat case_match; try (by apply keeps_agnus); exact (keeps_custom_write _ _ (host_mark_copper_active _)).
Qed.

Lemma keeps_dispatch o h (c : Ctx) : keeps c (dispatch_slot o h c).
Proof.
  destruct o; cbn [dispatch_slot]; try (by apply keeps_agnus).
  - by apply keeps_agnus; unfold position, on_disk; rewrite agnus_with_bus.
  - by apply keeps_agnus; unfold position, rigel_audio_domain_step_slot, on_audio; rewrite agnus_with_bus.
  - unfold dispatch_sprite. cbv zeta. destruct (sprite_dma_slot _ _ _ _ _) as [[ready out] s].
    by repeat case_match; apply keeps_agnus.
  - unfold dispatch_bitplane. cbv zeta. destruct (bitplane_word _ _) as [[logical plane] widx].
    by destruct (negb _); apply keeps_agnus.
  - exact (keeps_service c).
Qed.

Lemma keeps_rebuild (c : Ctx) : keeps c (slot_rebuild c).
Proof.
  apply keeps_agnus; unfold position, slot_rebuild, on_agnus; cbn [agnus]; by destruct (table_dirty _).
Qed.

Lemma keeps_legacy o (c : Ctx) : keeps c (slot_legacy_disk o c).2.
Proof.
  unfold slot_legacy_disk. cbv zeta. destruct (_ && _); [|by apply keeps_agnus]. cbn [snd].
  by destruct (negb _); [|apply keeps_agnus].
Qed.

Lemma keeps_serve (c : Ctx) : keeps c (slot_serve c).
Proof.
  apply (keeps_trans c (slot_prepare c)); [by apply keeps_agnus|].
  apply (keeps_trans _ (slot_rebuild (slot_prepare c))); [apply keeps_rebuild|]. unfold slot_serve.
  generalize (slot_rebuild (slot_prepare c)). intros c1. cbv zeta.
  pose proof (keeps_legacy (table_owner (scheduler (agnus c1))) c1) as H. revert H.
  destruct (slot_legacy_disk _ c1) as [o c2]. cbn [snd]. intros H. exact (keeps_trans _ _ _ H (keeps_dispatch _ _ _)).
Qed.

(** ** The vertical blank *)

Lemma position_follow (c : Ctx) : agnus (denise_follow c) = agnus c /\ bus (denise_follow c) = bus c.
Proof. unfold denise_follow. by destruct (rigel_denise_step _ _ _). Qed.

Lemma raise_vertb l :
  Z.testbit (intreq (interrupts (rigel_chipset_raise_irq_source AGNUS_INTB_VERTB l))) 5 = true.
Proof.
  unfold rigel_chipset_raise_irq_source, shadow_intreq, rigel_chipset_write_reg.
  change (rigel_custom_is_valid_reg RIGEL_REG_INTREQ) with true. cbn [negb custom_regs interrupts].
  unfold on_interrupts, rigel_paula_interrupts_raise, AGNUS_INTB_VERTB. cbn.
  autorewrite with bits. by rewrite orb_true_r.
Qed.

Lemma vertb_keeps (c : Ctx) :
  beam (agnus (slot_vertb c)) = beam (agnus c) /\ dma (agnus (slot_vertb c)) = dma (agnus c) /\
  Z.testbit (intreq (intr (slot_vertb c))) 5 = true.
Proof.
  unfold slot_vertb. cbv zeta. pose proof (raise_vertb (lines (bus c))) as H. destruct (dmacon_copen _); done.
Qed.

(** What is kept while the beam moves, and what is done at the vertical blank. *)
Lemma moved_keeps b (c : Ctx) :
  beam (agnus (slot_moved b c)) = b /\ dma (agnus (slot_moved b c)) = dma (agnus c) /\
  (vpos b = 0 -> hpos b = 1 -> Z.testbit (intreq (intr (slot_moved b c))) 5 = true).
Proof.
  unfold slot_moved. cbv zeta. set (c0 := on_agnus _ c).
  assert (E0 : beam (agnus c0) = b /\ dma (agnus c0) = dma (agnus c)) by done. clearbody c0.
  rewrite <- (proj1 (position_follow c0)) in E0. revert E0. generalize (denise_follow c0). intros c1 [E1 D1].
  set (c2 := if hpos b =? 0 then _ else c1).
  assert (E2 : beam (agnus c2) = b /\ dma (agnus c2) = dma (agnus c)) by (unfold c2; by destruct (hpos b =? 0)).
  clearbody c2. destruct (agnus_is_vertb_position (hpos b) (vpos b)) eqn:Ev.
  - destruct (vertb_keeps c2) as (-> & -> & H). by destruct E2.
  - destruct E2. split_and!; [done|done|]. intros Hv Hh. rewrite Hv, Hh in Ev. done.
Qed.

Lemma advance_beam (c : Ctx) :
  machine_ok c -> let c' := slot_advance c in let b := beam_tick (beam (agnus c)) in
  beam (agnus c') = b /\
  (vpos b = 0 -> hpos b = 1 -> Z.testbit (intreq (intr c')) 5 = true).
Proof.
  intros Hc. cbv zeta. unfold slot_advance. rewrite (beam_clock _ (ao_beam _ (mo_agnus _ Hc))).
  destruct (moved_keeps (beam_tick (beam (agnus c))) c) as (H1 & _ & H2). by split.
Qed.

Lemma step_beam (c : Ctx) :
  machine_ok c -> let c' := agnus_slot_scheduler_step c in
  machine_ok c' /\
  (if hpos (beam (agnus c)) <? 226
   then vpos (beam (agnus c')) = vpos (beam (agnus c)) /\ hpos (beam (agnus c')) = hpos (beam (agnus c)) + 1
   else hpos (beam (agnus c')) = 0 /\
        (vpos (beam (agnus c')) = 0 \/ vpos (beam (agnus c')) = vpos (beam (agnus c)) + 1 /\ vpos (beam (agnus c)) < 312)) /\
  (vpos (beam (agnus c')) = 0 -> hpos (beam (agnus c')) = 1 -> Z.testbit (intreq (intr c')) 5 = true).
Proof.
  intros Hc. cbv zeta. split; [by apply scheduler_step_ok|]. unfold agnus_slot_scheduler_step.
  pose proof (serve_ok c Hc) as H1. destruct (keeps_serve c) as [Hp _]. set (c1 := slot_serve c) in *.
  clearbody c1. unfold position in Hp. injection Hp as <- <-.
  destruct (advance_beam c1 H1) as [-> Hi]. cbv zeta in *. split; [|done].
  apply beam_tick_position, (ao_beam _ (mo_agnus _ H1)).
Qed.

(** How many clocks at most the beam still needs to the vertical blank. *)
Definition to_vertb (b : beam_state) : Z :=
  if (vpos b =? 0) && (hpos b =? 0) then 1 else (313 - vpos b) * 227 - hpos b + 1.

Lemma vertb_within k : forall c : Ctx,
  machine_ok c -> to_vertb (beam (agnus c)) <= Z.of_nat k ->
  exists n, (1 <= n <= k)%nat /\ let c' := Nat.iter n agnus_slot_scheduler_step c in
    vpos (beam (agnus c')) = 0 /\ hpos (beam (agnus c')) = 1 /\ Z.testbit (intreq (intr c')) 5 = true.
Proof.
  induction k as [|k IH]; intros c Hc Hk.
  - pose proof (ao_beam _ (mo_agnus _ Hc)) as [_ _ _ _ Hh Hv]. unfold to_vertb in Hk.
    destruct (_ && _) in Hk; lia.
  - pose proof (ao_beam _ (mo_agnus _ Hc)) as [_ _ _ _ Hh Hv].
    destruct (step_beam c Hc) as (Hc' & Hpos & Hi). cbv zeta in *.
    set (c' := agnus_slot_scheduler_step c) in *.
    destruct (decide (vpos (beam (agnus c')) = 0 /\ hpos (beam (agnus c')) = 1)) as [[E1 E2]|Hn].
    + exists 1%nat. split; [lia|]. split_and!; auto.
    + destruct (IH c' Hc') as (n & Hn1 & Hn2).
      { unfold to_vertb in *. pose proof (ao_beam _ (mo_agnus _ Hc')) as [_ _ _ _ Hh' Hv'].
        destruct (Z.ltb_spec (hpos (beam (agnus c))) 226);
          destruct ((vpos (beam (agnus c)) =? 0) && (hpos (beam (agnus c)) =? 0)) eqn:Eb;
          destruct ((vpos (beam (agnus c')) =? 0) && (hpos (beam (agnus c')) =? 0)) eqn:Eb'; lia. }
      exists (S n). split; [lia|]. rewrite Nat.iter_succ_r. exact Hn2.
Qed.

(** C10: The vertical blank interrupt cannot be lost.  From any reachable state,
    whatever the copper, the blitter and the other channels do with the registers
    meanwhile (changes of the video standard and of interlace included), within
    71 052 colour clocks, the length of the longest frame, the beam reaches the
    vertical blank position and VERTB is set in INTREQ. *)
Theorem vertical_blank_comes (c : Ctx) :
  machine_ok c ->
  exists n, 1 <= Z.of_nat n <= 71052 /\ let c' := Nat.iter n agnus_slot_scheduler_step c in
    vpos (beam (agnus c')) = 0 /\ hpos (beam (agnus c')) = 1 /\ Z.testbit (rigel_get_intreq c') 5 = true.
Proof.
  intros Hc. destruct (vertb_within (Z.to_nat 71052) c Hc) as (n & Hn & H).
  - pose proof (ao_beam _ (mo_agnus _ Hc)) as [_ _ _ _ Hh Hv]. unfold to_vertb.
    destruct (_ && _); lia.
  - exists n. split; [lia|exact H].
Qed.

(** ** Cutting time *)

Lemma dma_advance (c : Ctx) : dma (agnus (slot_advance c)) = dma (agnus c).
Proof. unfold slot_advance. destruct (rigel_beam_domain_step _ _) as [b|]; [apply moved_keeps|done]. Qed.

Lemma decoded_step (c : Ctx) : decoded c -> decoded (agnus_slot_scheduler_step c).
Proof.
  intros Hd. unfold decoded, agnus_slot_scheduler_step. rewrite dma_advance. by apply (keeps_serve c).
Qed.

Lemma decode_again (c : Ctx) :
  decoded c ->
  on_agnus (fun a => a <| dma := rigel_dma_domain_sync_dmacon (dma a) (dmacon (dma a)) |>) c = c.
Proof. unfold decoded, on_agnus. intros ->. by destruct c as [? ? ? []]. Qed.

Lemma decode_decoded (c : Ctx) :
  decoded (on_agnus (fun a => a <| dma := rigel_dma_domain_sync_dmacon (dma a) (dmacon (dma a)) |>) c).
Proof. done. Qed.

(** C19: Agnus does not notice how time is cut.  Stepping it by [n] clocks and then
    by [k], with the register accesses of the copper and all the DMA in between,
    is stepping it by [n + k]. *)
Theorem agnus_steps_add n k (c : Ctx) :
  0 < n -> 0 < k -> rigel_agnus_step (n + k) c = rigel_agnus_step k (rigel_agnus_step n c).
Proof.
  intros Hn Hk. unfold rigel_agnus_step at 1 3.
  replace (n + k =? 0) with false by lia. replace (n =? 0) with false by lia.
  set (c0 := on_agnus _ c). pose proof (decode_decoded c) as H0. change (decoded c0) in H0. clearbody c0.
  unfold rigel_agnus_step. replace (k =? 0) with false by lia. unfold agnus_slot_scheduler_step_until.
  rewrite decode_again.
  - by rewrite Z.add_comm, Z2Nat.inj_add, Nat.iter_add by lia.
  - apply Nat.iter_invariant; [intros; by apply decoded_step|done].
Qed.

(** ** The clocks do not drift *)

(** What is outside Agnus, Denise, Paula and the bus. *)
Definition outside (c : Ctx) :=
  (env c, config c, cycles c, cia_a c, cia_b c, cia_eclock_rem c, Machine.rtc c, floppy c).

Lemma outside_with_bus {S} (get : RigelPaula M -> S) set f (c : Ctx) : outside (with_bus get set f c) = outside c.
Proof. unfold with_bus. by destruct (f _). Qed.

Lemma outside_custom_write addr v (c : Ctx) : outside (custom_regs_write16 addr v c) = outside c.
Proof.
  unfold custom_regs_write16. destruct (negb _); [done|]. case_match; [done|..].
  - unfold rigel_agnus_mmio_write. cbv zeta. by repeat case_match.
  - done.
  - unfold paula_write_reg. do 2 (case_match; [done|]). case_match.
    + unfold paula_write_disk. by destruct (rigel_disk_domain_write_reg _ _ _ _ _) as [[]|].
    + case_match; [|by case_match]. cbv zeta. exact (outside_with_bus _ _ _ c).
Qed.

Lemma outside_service (c : Ctx) : outside (rigel_copper_service_step_program c) = outside c.
Proof.
  unfold rigel_copper_service_step_program, copper_exec_move. cbv zeta.
  repeat case_match; try done; exact (outside_custom_write _ _ (host_mark_copper_active _)).
Qed.

Lemma outside_dispatch o h (c : Ctx) : outside (dispatch_slot o h c) = outside c.
Proof.
  destruct o; cbn [dispatch_slot]; try done.
  - apply outside_with_bus.
  - apply outside_with_bus.
  - unfold dispatch_sprite. cbv zeta. destruct (sprite_dma_slot _ _ _ _ _) as [[ready out] s]. by repeat case_match.
  - unfold dispatch_bitplane. cbv zeta. destruct (bitplane_word _ _) as [[logical plane] widx]. by destruct (negb _).
  - exact (outside_service c).
Qed.

Lemma outside_serve (c : Ctx) : outside (slot_serve c) = outside c.
Proof.
  transitivity (outside (slot_rebuild (slot_prepare c))); [|done]. unfold slot_serve.
  generalize (slot_rebuild (slot_prepare c)). intros c1. cbv zeta.
  assert (H : outside (slot_legacy_disk (table_owner (scheduler (agnus c1))) c1).2 = outside c1).
  { unfold slot_legacy_disk. cbv zeta. destruct (_ && _); [|done]. cbn [snd]. by destruct (negb _). }
  revert H. destruct (slot_legacy_disk _ c1) as [o c2]. cbn [snd]. intros <-. apply outside_dispatch.
Qed.

Lemma outside_follow (c : Ctx) : outside (denise_follow c) = outside c.
Proof. unfold denise_follow. by destruct (rigel_denise_step _ _ _). Qed.

Lemma outside_moved b (c : Ctx) : outside (slot_moved b c) = outside c.
Proof.
  unfold slot_moved. cbv zeta. set (c0 := on_agnus _ c). rewrite <- (outside_follow c0 : _ = outside c).
  generalize (denise_follow c0). intros c1. set (c2 := if hpos b =? 0 then _ else c1).
  assert (E2 : outside c2 = outside c1) by (unfold c2; by destruct (hpos b =? 0)). rewrite <- E2. clearbody c2.
  destruct (agnus_is_vertb_position _ _); [|done]. unfold slot_vertb. cbv zeta. by destruct (dmacon_copen _).
Qed.

Lemma outside_advance (c : Ctx) : outside (slot_advance c) = outside c.
Proof. unfold slot_advance. destruct (rigel_beam_domain_step _ _) as [b|]; [apply outside_moved|done]. Qed.

(** Agnus and Paula reach nothing else. *)
Lemma outside_agnus_step n (c : Ctx) : outside (rigel_agnus_step n c) = outside c.
Proof.
  unfold rigel_agnus_step. destruct (n =? 0); [done|]. unfold agnus_slot_scheduler_step_until.
  apply (Nat.iter_invariant _ _ _ (fun c' => outside c' = outside c)); [|done].
  intros x Hx. unfold agnus_slot_scheduler_step. by rewrite outside_advance, outside_serve.
Qed.

Lemma outside_paula_step n (c : Ctx) : outside (rigel_paula_step n c) = outside c.
Proof.
  unfold rigel_paula_step. destruct (audio_step _ _) as [a|]; [|done]. cbv zeta.
  unfold on_serial, on_disk. by rewrite !outside_with_bus.
Qed.

(** The machine's time and the remainder of the E clock. *)
Definition clocks (c : Ctx) : Z * Z := (cycles c, cia_eclock_rem c).

Lemma clocks_on_cia id f (c : Ctx) : clocks (on_cia id f c) = clocks c.
Proof. unfold on_cia, set_cia_board. by destruct (id =? 0). Qed.

Lemma clocks_chipset_step n (c : Ctx) :
  0 <= cia_eclock_rem c < 5 -> 0 <= n -> n + 5 < 2 ^ 32 ->
  clocks (rigel_chipset_step n c) = (u64 (cycles c + n), (cia_eclock_rem c + n) mod 5).
Proof.
  intros He Hn Hb. unfold rigel_chipset_step. cbv zeta. set (c1 := rigel_paula_set_dmacon _ _).
  assert (E1 : clocks c1 = (u64 (cycles c + n), cia_eclock_rem c)) by done. clearbody c1.
  set (c2 := rigel_paula_step n (rigel_agnus_step n c1)).
  assert (E2 : clocks c2 = clocks c1).
  { pose proof (outside_paula_step n (rigel_agnus_step n c1)) as Ep. fold c2 in Ep.
    rewrite outside_agnus_step in Ep. unfold outside in Ep. injection Ep as _ _ E1' _ _ E2' _ _.
    unfold clocks. by rewrite E1', E2'. }
  clearbody c2. set (c3 := step_tod _ _ c2). assert (E3 : clocks c3 = clocks c2).
  { unfold c3, step_tod. cbv zeta. repeat case_match; by rewrite ?clocks_on_cia. }
  clearbody c3. rewrite E2, E1 in E3. injection E3 as E3 E4. unfold step_eclock. cbv zeta. set (k := eclock_ticks n c3). clearbody k.
  rewrite E4, (wrap_small 32 (_ + n)) by (unfold in_width; lia). unfold CIA_CCK_PER_ECLOCK.
  set (c4 := c3 <| cia_eclock_rem := _ |>).
  assert (E5 : clocks c4 = (u64 (cycles c + n), (cia_eclock_rem c + n) mod 5)) by (unfold c4, clocks; by rewrite <- E3).
  clearbody c4. destruct (_ <? _); by rewrite ?clocks_on_cia.
Qed.

Lemma clocks_step n (c : Ctx) :
  0 <= cia_eclock_rem c < 5 -> 0 <= n -> n + 5 < 2 ^ 32 ->
  cycles (rigel_step n c).2 = u64 (cycles c + n) /\
  cia_eclock_rem (rigel_step n c).2 = (cia_eclock_rem c + n) mod 5.
Proof.
  intros He Hn Hb. unfold rigel_step. cbv zeta. cbn [snd].
  rewrite (wrap_small 32 n) by (unfold in_width; lia). set (c0 := on_agnus _ c).
  pose proof (clocks_chipset_step n c0 He Hn Hb) as E. set (c1 := rigel_chipset_step n c0) in *.
  clearbody c1. injection E as E1 E2. by split.
Qed.

(** The ticks of the E clock over a sequence of steps. *)
Fixpoint eclock_total (ns : list Z) (c : Ctx) : Z :=
  match ns with [] => 0 | n :: ns => eclock_ticks n c + eclock_total ns (rigel_step n c).2 end.


End facts.

(** ** Examples: the machine after its creation *)

#[local] Abbreviation machine0 := (rigel_create demo_env demo_config (∅ : gmap Z Z)).

Lemma vertical_blank_comes_witness :
  exists n, 1 <= Z.of_nat n <= 71052 /\ let c' := Nat.iter n agnus_slot_scheduler_step machine0 in
    vpos (beam (agnus c')) = 0 /\ hpos (beam (agnus c')) = 1 /\ Z.testbit (rigel_get_intreq c') 5 = true.
Proof. apply (vertical_blank_comes machine0 (create_ok demo_env demo_config ∅)). Defined.

Lemma agnus_steps_add_witness :
  rigel_agnus_step (227 + 3) machine0 = rigel_agnus_step 3 (rigel_agnus_step 227 machine0).
Proof. apply (agnus_steps_add 227 3 machine0); [reflexivity|reflexivity]. Defined.

