(* ===== verification/MmioFacts.v ===== *)
(** * The address map

    Which accesses the map accepts, that the others do nothing, and that accesses
    of one and four bytes to the custom registers are made of word accesses. *)

From stdpp Require Import gmap.
From S2P Require Import Prelude Custom Interrupt Cia ChipRam Blitter Dma Beam Copper Floppy Disk Serial Input.
From S2P Require Import Audio SpriteDma Scheduler DeniseSprites Denise Framebuffer Rtc Machine Registers.
From S2P Require Import FloppyPort Mmio MachineSafety MachineInvariant.

(** ** The map *)

(** The accesses of [size] bytes at [addr] that have an effect: those that lie
    within the custom space, words and longs on even addresses; and single bytes
    of the CIAs, CIA-A on odd and CIA-B on even addresses, and of the clock. *)
Definition accepted (addr size : Z) : Prop :=
  (0xdff000 <= addr /\ addr + size <= 0xe00000 /\ (size = 1 \/ Z.even addr = true)) \/
  (size = 1 /\
   ((Z.odd addr = true /\ 0xbfe000 <= addr <= 0xbfef01) \/
    (Z.even addr = true /\ (0xbfd000 <= addr <= 0xbfdf00 \/ 0xbfe000 <= addr < 0xbfef01)) \/
    0xdc0000 <= addr <= 0xdcffff)).

Lemma low_bit addr : (addr .& 1 =? 0) = Z.even addr.
Proof.
  change 1 with (Z.ones 1). rewrite Z.land_ones by lia. change (2 ^ 1) with 2.
  rewrite Zmod_odd, <- Z.negb_even. by destruct (Z.even addr).
Qed.

Lemma refused_spec addr size :
  is_u32 addr -> custom_address addr = true -> size = 1 \/ size = 2 \/ size = 4 ->
  custom_refused addr size = false <-> accepted addr size.
Proof.
  unfold is_u32, in_width. intros Ha Hc Hs.
  unfold custom_address, RIGEL_CUSTOM_BASE, RIGEL_CUSTOM_SPACE_END in Hc.
  assert (Ev : forall a, Z.even a = true -> exists k, a = 2 * k) by (intros a [k E]%Z.even_spec; by exists k).
  assert (Od : forall a, Z.even a = false -> exists k, a = 2 * k + 1).
  { intros a E. assert (Z.odd a = true) as [k ->]%Z.odd_spec; [|by exists k]. by rewrite <- Z.negb_even, E. }
  unfold custom_refused, accepted, custom_address, RIGEL_CUSTOM_BASE, RIGEL_CUSTOM_SPACE_END. rewrite low_bit.
  rewrite (wrap_small 32) by (unfold in_width; lia).
  destruct (Z.even addr) eqn:E; [apply Ev in E|apply Od in E]; destruct E as [k ->];
    destruct Hs as [->|[->| ->]]; cbn [negb andb orb Z.eqb Pos.eqb]; (split; [intros H|intros [H|H]]); lia.
Qed.

Section mmio.
Context {M : Type}.
#[local] Abbreviation Ctx := (RigelContext M).

(** The result of a read and of a write of the same address and width. *)
Lemma custom_result addr size v (c : Ctx) :
  size = 1 \/ size = 2 \/ size = 4 ->
  let r := custom_read addr size c in let w := custom_write addr size v c in
  if custom_refused addr size
  then r = (RIGEL_MMIO_UNSUPPORTED, None, c) /\ w = (RIGEL_MMIO_UNSUPPORTED, c)
  else r.1.1 = RIGEL_MMIO_HANDLED /\ is_Some r.1.2 /\ w.1 = RIGEL_MMIO_HANDLED.
Proof.
  intros Hs. cbv zeta. unfold custom_read, custom_write, custom_read_word.
  destruct (custom_refused addr size); [done|].
  destruct Hs as [->|[->| ->]]; cbn [Z.eqb Pos.eqb]; destruct (custom_regs_read16 (addr .& 0x1fe) c) as [w c1];
    try (by split_and!; eauto).
  destruct (custom_regs_read16 _ c1) as [w2 c2]. by split_and!; eauto.
Qed.


(** ** Accesses of other widths *)

(** The word access at an even address of the custom space. *)
Lemma word_read addr (c : Ctx) :
  0xdff000 <= addr <= 0xdffffe -> Z.even addr = true ->
  rigel_mmio_read addr 2 c =
  (RIGEL_MMIO_HANDLED, Some (custom_regs_read16 (addr .& 0x1fe) c).1, (custom_regs_read16 (addr .& 0x1fe) c).2).
Proof.
  intros Ha He. unfold rigel_mmio_read, custom_read, custom_refused, custom_address, RIGEL_M68K_ADDRESS_MAX,
    RIGEL_CUSTOM_BASE, RIGEL_CUSTOM_SPACE_END, custom_read_word. rewrite low_bit, He.
  replace (0xffffff <? addr) with false by lia.
  replace ((0xdff000 <=? addr) && (addr <=? 0xdfffff)) with true by lia. cbn [Z.eqb Pos.eqb negb andb orb].
  by destruct (custom_regs_read16 _ c).
Qed.

Lemma word_write addr v (c : Ctx) :
  0xdff000 <= addr <= 0xdffffe -> Z.even addr = true ->
  rigel_mmio_write addr 2 v c = (RIGEL_MMIO_HANDLED, custom_regs_write16 (addr .& 0x1fe) (u16 v) c).
Proof.
  intros Ha He. unfold rigel_mmio_write, custom_write, custom_refused, custom_address, RIGEL_M68K_ADDRESS_MAX,
    RIGEL_CUSTOM_BASE, RIGEL_CUSTOM_SPACE_END, custom_write_word. rewrite low_bit, He.
  replace (0xffffff <? addr) with false by lia.
  by replace ((0xdff000 <=? addr) && (addr <=? 0xdfffff)) with true by lia.
Qed.

(** A long access to the custom space is two word accesses, the high word at
    the lower address first. *)
Theorem long_access_is_two_words addr v (c : Ctx) :
  0xdff000 <= addr <= 0xdffffc -> Z.even addr = true -> is_u32 v ->
  (rigel_mmio_read addr 4 c =
   match rigel_mmio_read addr 2 c with
   | (_, Some high, c1) =>
       match rigel_mmio_read (addr + 2) 2 c1 with
       | (r, Some low, c2) => (r, Some (u32 (high .<< 16) .| low), c2)
       | other => other
       end
   | other => other
   end) /\
  rigel_mmio_write addr 4 v c = rigel_mmio_write (addr + 2) 2 (v mod 2 ^ 16) (rigel_mmio_write addr 2 (v / 2 ^ 16) c).2.
Proof.
  intros Ha He Hv.
  assert (He2 : Z.even (addr + 2) = true) by (by rewrite Z.even_add, He).
  assert (R1 : 0xdff000 <= addr <= 0xdffffe) by lia. assert (R2 : 0xdff000 <= addr + 2 <= 0xdffffe) by lia.
  rewrite (word_read addr c R1 He), (word_write addr (v / 2 ^ 16) c R1 He).
  destruct (custom_regs_read16 (addr .& 0x1fe) c) as [w c1] eqn:E1. cbn [fst snd].
  rewrite (word_read (addr + 2) c1 R2 He2), word_write by assumption.
  unfold rigel_mmio_read, rigel_mmio_write, custom_read, custom_write, custom_refused, custom_address,
    RIGEL_M68K_ADDRESS_MAX, RIGEL_CUSTOM_BASE, RIGEL_CUSTOM_SPACE_END, custom_read_word, custom_write_word.
  rewrite low_bit, He, !(wrap_small 32 (addr + _)) by (unfold in_width; lia).
  replace (0xffffff <? addr) with false by lia.
  replace ((0xdff000 <=? addr) && (addr <=? 0xdfffff)) with true by lia.
  replace ((0xdff000 <=? addr + 3) && (addr + 3 <=? 0xdfffff)) with true by lia. cbn [Z.eqb Pos.eqb negb andb orb].
  rewrite E1. destruct (custom_regs_read16 ((addr + 2) .& 0x1fe) c1) as [w2 c2]. split; [done|].
  rewrite Z.shiftr_div_pow2 by lia. unfold u16 at 1 3, wrap. by rewrite Z.mod_mod by lia.
Qed.

Lemma even_mask x : Z.even x = true -> (x + 1) .& 0x1fe = x .& 0x1fe.
Proof.
  intros [k ->]%Z.even_spec. apply Z.bits_inj'. intros i Hi. rewrite !Z.land_spec.
  destruct (decide (i = 0)) as [->|Hn]; [by rewrite !andb_false_r|]. f_equal.
  replace i with (Z.succ (i - 1)) by lia. by rewrite Z.testbit_odd_succ, Z.testbit_even_succ by lia.
Qed.

(** A byte access to the custom space is a part of a word access: a read takes
    its half of the word (and has the effects of reading the whole register), and
    a write reads the word, replaces its half and writes the word back. *)
Theorem byte_access_is_half_a_word addr v (c : Ctx) :
  0xdff000 <= addr <= 0xdffffe -> Z.even addr = true -> is_u8 v ->
  match rigel_mmio_read addr 2 c with
  | (_, Some word, c1) =>
      rigel_mmio_read addr 1 c = (RIGEL_MMIO_HANDLED, Some (word .>> 8), c1) /\
      rigel_mmio_read (addr + 1) 1 c = (RIGEL_MMIO_HANDLED, Some (word .& 0xff), c1) /\
      rigel_mmio_write addr 1 v c = rigel_mmio_write addr 2 ((word .& 0xff) .| (v .<< 8)) c1 /\
      rigel_mmio_write (addr + 1) 1 v c = rigel_mmio_write addr 2 ((word .& 0xff00) .| v) c1
  | _ => False
  end.
Proof.
  intros Ha He Hv. rewrite word_read by (done || lia).
  destruct (custom_regs_read16 (addr .& 0x1fe) c) as [w c1] eqn:E1. cbn [fst snd].
  rewrite !word_write by (done || lia).
  assert (Ho : Z.even (addr + 1) = false) by (by rewrite Z.even_add, He).
  unfold rigel_mmio_read, rigel_mmio_write, custom_read, custom_write, custom_refused, custom_address,
    RIGEL_M68K_ADDRESS_MAX, RIGEL_CUSTOM_BASE, RIGEL_CUSTOM_SPACE_END, custom_read_word, custom_write_word.
  rewrite !low_bit, He, Ho, even_mask by done.
  replace (0xffffff <? addr) with false by lia. replace (0xffffff <? addr + 1) with false by lia.
  replace ((0xdff000 <=? addr) && (addr <=? 0xdfffff)) with true by lia.
  replace ((0xdff000 <=? addr + 1) && (addr + 1 <=? 0xdfffff)) with true by lia.
  cbn [Z.eqb Pos.eqb negb andb orb]. rewrite E1.
  assert (Hvm : v .& 0xff = v).
  { change 0xff with (Z.ones 8). rewrite Z.land_ones by lia. apply Z.mod_small. exact Hv. }
  by rewrite Hvm.
Qed.

End mmio.

(** ** Examples: the machine after its creation *)

#[local] Abbreviation machine0 := (rigel_create demo_env demo_config (∅ : gmap Z Z)).


Lemma long_access_is_two_words_witness :
  rigel_mmio_write 0xdff0e0 4 0x00012340 machine0 =
  rigel_mmio_write 0xdff0e2 2 0x2340 (rigel_mmio_write 0xdff0e0 2 1 machine0).2.
Proof.
  destruct (long_access_is_two_words 0xdff0e0 0x00012340 machine0) as [_ H];
    [split; reflexivity || discriminate|reflexivity|closed_range|exact H].
Defined.

Lemma byte_access_is_half_a_word_witness :
  match rigel_mmio_read 0xdff01e 2 machine0 with
  | (_, Some word, c1) =>
      rigel_mmio_read 0xdff01e 1 machine0 = (RIGEL_MMIO_HANDLED, Some (word .>> 8), c1) /\
      rigel_mmio_read 0xdff01f 1 machine0 = (RIGEL_MMIO_HANDLED, Some (word .& 0xff), c1) /\
      rigel_mmio_write 0xdff01e 1 7 machine0 = rigel_mmio_write 0xdff01e 2 ((word .& 0xff) .| (7 .<< 8)) c1 /\
      rigel_mmio_write 0xdff01f 1 7 machine0 = rigel_mmio_write 0xdff01e 2 ((word .& 0xff00) .| 7) c1
  | _ => False
  end.
Proof. apply (byte_access_is_half_a_word 0xdff01e 7 machine0); [lia|reflexivity|closed_range]. Defined.
