(* ===== verification/RigelFacts.v ===== *)
(** * The host's view: deadlines, stepping to a time, snapshots

    What [core/rigel.c] promises to the program around the library. *)

From stdpp Require Import gmap.
From S2P Require Import Prelude Custom Interrupt Blitter Dma Beam BeamFacts Copper CopperFacts CopperRun Disk.
From S2P Require Import DiskSafety Audio AudioFacts Scheduler SchedulerFacts Rtc Machine Registers FloppyPort.
From S2P Require Import Mmio Chipset Rigel MachineSafety MachineInvariant ChipsetFacts.

(** ** Deadlines *)

Lemma deadlines_min_eq d :
  agnus_deadlines_min d =
    Z.min (d_slot d) (Z.min (d_disk d) (Z.min (d_audio d) (Z.min (d_copper_wait d) (Z.min (d_vertb d)
      (Z.min (d_beam_line_end d) (Z.min (d_blitter d) AGNUS_DEADLINE_UNKNOWN)))))).
Proof.
  pose (upd := fun x m : Z => if x <? m then x else m).
  assert (E : forall x m, upd x m = Z.min x m) by (intros x m; unfold upd; destruct (Z.ltb_spec x m); lia).
  rewrite <- !E. reflexivity.
Qed.

Definition is_min (u m : Z) (l : list Z) : Prop := Forall (fun x => m <= x) l /\ (m = u \/ In m l).

Lemma is_min_cons u m x l : is_min u m l -> is_min u (Z.min x m) (x :: l).
Proof.
  intros [Hl Hm]. split.
  - apply Forall_cons. split; [apply Z.le_min_l|]. eapply Forall_impl; [exact Hl|]. cbn. lia.
  - cbn [In]. destruct (Z.min_spec x m) as [[_ ->]|[_ ->]]; tauto.
Qed.

(** The smallest of the seven. *)
Lemma deadlines_min_spec d :
  is_min AGNUS_DEADLINE_UNKNOWN (agnus_deadlines_min d)
    [d_slot d; d_disk d; d_audio d; d_copper_wait d; d_vertb d; d_beam_line_end d; d_blitter d].
Proof. rewrite deadlines_min_eq. repeat apply is_min_cons. split; [done|by left]. Qed.

(** A WAIT whose position is not reached has a positive number of clocks to go. *)
Lemma wait_positive c b :
  copper_wf c -> beam_ok b ->
  0 <= rigel_copper_domain_cycles_to_wait c b /\
  (rigel_copper_domain_cycles_to_wait c b = 0 <->
   waiting c = true /\
   copper_beam_cmp (vpos b) (hpos b) (wait_vpos c) (wait_hpos c) (wait_vpmask c) (wait_hpmask c) = true).
Proof.
  intros [_ _ _ _ (W1 & W2 & _ & _) _] [Hl Hf _ _ Hh Hv]. unfold rigel_copper_domain_cycles_to_wait.
  destruct (waiting c); cbn [negb]; [|split; [done|by split; [|intros []]]].
  destruct (copper_beam_cmp _ _ _ _ _ _) eqn:Ecmp; [done|].
  destruct ((wait_vpmask c =? 0xff) && (wait_hpmask c =? 0xfe)) eqn:Em.
  - apply andb_prop in Em as [E1 E2]. apply Z.eqb_eq in E1, E2. rewrite E1, E2, Hl in *.
    unfold in_width in W1, W2. cbv zeta.
    rewrite !(wrap_small 32 (_ * 227)) by (unfold in_width; lia).
    rewrite !(wrap_small 32 (_ * 227 + _)) by (unfold in_width; lia).
    set (cur := vpos b * 227 + hpos b). set (tgt := wait_vpos c * 227 + wait_hpos c).
    destruct (Z.ltb_spec cur tgt).
    + rewrite wrap_small by (unfold in_width; lia). lia.
    + pose proof (wrap_range 32 (u32 (Beam.frame_lines b * 227 - cur) + tgt) ltac:(lia)) as Hr.
      unfold in_width in Hr. split; [lia|]. split; [|intros []; done]. intros E0. exfalso.
      unfold wrap in E0. rewrite Z.add_mod_idemp_l in E0 by lia.
      assert (Ec : cur = Beam.frame_lines b * 227 + tgt).
      { apply Z.mod_divide in E0 as [k Hk]; [|lia]. assert (k = 0) by nia. subst k. lia. }
      assert (Hv2 : 256 <= vpos b /\ wait_vpos c + 6 <= vpos b - 256) by (destruct Hf; lia).
      assert (Ev : vpos b .& 255 = vpos b - 256).
      { change 255 with (Z.ones 8). rewrite Z.land_ones by lia.
        rewrite <- (Z.mod_add _ (-1)) by lia. apply Z.mod_small. lia. }
      assert (Ew : wait_vpos c .& 255 = wait_vpos c).
      { change 255 with (Z.ones 8). rewrite Z.land_ones by lia. apply Z.mod_small. lia. }
      rewrite beam_cmp_lex in Ecmp by closed_range. rewrite Ev, Ew in Ecmp.
      replace (wait_vpos c <? vpos b - 256) with true in Ecmp by lia. discriminate.
  - rewrite Hl, wrap_small by (unfold in_width; lia). lia.
Qed.

Lemma vertb_positive b :
  beam_ok b ->
  0 <= agnus_cycles_to_vertb b /\ (agnus_cycles_to_vertb b = 0 <-> agnus_is_vertb_position (hpos b) (vpos b) = true).
Proof.
  intros [Hl Hf _ _ Hh Hv]. unfold agnus_cycles_to_vertb. destruct (agnus_is_vertb_position _ _); [done|].
  rewrite Hl. cbv zeta. unfold AGNUS_VERTB_HPOS. rewrite (wrap_small 32 (227 - hpos b)) by (unfold in_width; lia).
  set (n := if vpos b <? Beam.frame_lines b then _ else 0).
  assert (Hn : 0 <= n <= 312).
  { unfold n. destruct (Z.ltb_spec (vpos b) (Beam.frame_lines b)); [|lia].
    rewrite wrap_small by (unfold in_width; lia). lia. }
  clearbody n. rewrite (wrap_small 32 (n * 227)) by (unfold in_width; lia).
  rewrite (wrap_small 32 (_ + n * 227)) by (unfold in_width; lia). rewrite wrap_small by (unfold in_width; lia). lia.
Qed.

Lemma line_end_positive b : beam_ok b -> 1 <= beam_cycles_until_line_end b <= 227.
Proof.
  intros Hb. pose proof (bo_hpos _ Hb) as Hh. unfold beam_cycles_until_line_end.
  rewrite (proj2 (beam_ok_hmax b 0 Hb)). destruct Hb as [-> _ _ _ _ _]. cbn [Z.eqb].
  rewrite wrap_small by (unfold in_width; lia). lia.
Qed.

Lemma audio_event_positive {W} (a : AudioState W) : audio_wf a -> 1 <= audio_cycles_to_next_event a.
Proof.
  intros Ha. unfold audio_cycles_to_next_event.
  assert (H : forall l m, Forall (fun k => 0 <= k < 4) l -> 1 <= m -> 1 <= foldl (audio_next_event a) m l).
  { intros l m Hl. revert m. induction Hl as [|k l Hk _ IH]; intros m Hm; [done|]. cbn [foldl]. apply IH.
    pose proof (nth_channel_wf k a Ha Hk) as [Hp Hc _ _]. unfold audio_next_event. cbv zeta.
    unfold in_width in *. repeat case_match; lia. }
  apply H; [|done]. repeat constructor; lia.
Qed.

Lemma disk_event_positive {W} (d : DiskState W) : 1 <= disk_cycles_to_next_event d.
Proof. unfold disk_cycles_to_next_event. repeat case_match; lia. Qed.

Lemma slot_event_positive lc s : 0 <= s_hpos s < lc -> lc <= 227 -> 1 <= agnus_slot_scheduler_next_event lc s.
Proof.
  intros Hh Hl. unfold agnus_slot_scheduler_next_event. destruct (table_dirty s); [done|]. cbv zeta.
  rewrite (wrap_small 16) by (unfold in_width; lia).
  pose proof (first_slot_spec (fun h => negb (is_cpu_slot (slot_at s h))) (Z.to_nat (lc - (s_hpos s + 1))) (s_hpos s + 1)) as H.
  destruct (first_slot _ _ _) as [k|]; rewrite wrap_small by (unfold in_width; lia); lia.
Qed.

Section rigel.
Context {M : Type}.
#[local] Abbreviation Ctx := (RigelContext M).

(** A deadline that is due: the vertical blank position itself, a WAIT whose
    position the beam has reached (the copper may still be held there, by the
    blitter or without DMA), a blit without slots left. *)
Definition due_now (c : Ctx) : Prop :=
  let a := agnus c in
  agnus_is_vertb_position (hpos (beam a)) (vpos (beam a)) = true \/
  (waiting (copper a) = true /\
   copper_beam_cmp (vpos (beam a)) (hpos (beam a)) (wait_vpos (copper a)) (wait_hpos (copper a))
     (wait_vpmask (copper a)) (wait_hpmask (copper a)) = true) \/
  (truthy (blitter_is_busy (blitter a)) = true /\ cycles_remaining (blitter a) = 0).

Lemma deadline_terms (c : Ctx) internal :
  machine_ok c -> is_u32 (cycles_remaining (blitter (agnus c))) -> 0 <= s_hpos (scheduler (agnus c)) < 227 ->
  let m := agnus_deadlines_min (rigel_deadlines c internal) in
  0 <= m <= 227 /\ (m = 0 <-> due_now c).
Proof.
  intros Hc Hr Hs. cbv zeta. pose proof (mo_agnus _ Hc) as [Hcop Hb _ _].
  destruct (deadlines_min_spec (rigel_deadlines c internal)) as [Hl Hm]. cbn in Hl, Hm.
  set (m := agnus_deadlines_min _) in *. clearbody m. rewrite !Forall_cons, Forall_nil in Hl.
  pose proof (line_end_positive _ Hb) as Hle.
  destruct (vertb_positive _ Hb) as [V0 V1]. destruct (wait_positive _ _ Hcop Hb) as [W0 W1].
  pose proof (audio_event_positive _ (po_audio _ (mo_paula _ Hc))) as A1.
  pose proof (disk_event_positive (disk (paula c))) as D1.
  pose proof (slot_event_positive _ _ Hs ltac:(lia)) as S1. rewrite <- (bo_line _ Hb) in S1 at 1.
  unfold due_now. cbv zeta. rewrite <- W1, <- V1.
  set (v := agnus_cycles_to_vertb _) in *. set (w := rigel_copper_domain_cycles_to_wait _ _) in *.
  set (sl := agnus_slot_scheduler_next_event _ _) in *. set (le := beam_cycles_until_line_end _) in *.
  set (au := audio_cycles_to_next_event _) in *. set (di := disk_cycles_to_next_event _) in *.
  set (bl := cycles_remaining _) in *.
  clearbody v w sl le au di bl. replace (le =? 0) with false in * by lia.
  unfold AGNUS_DEADLINE_UNKNOWN, in_width in *. clear - Hl Hm Hle V0 W0 A1 D1 S1 Hr.
  destruct (truthy _), internal; lia.
Qed.

(** The deadline the library announces is never in the past and never more than
    a line ahead, and it is later than now except in the states of [due_now]. *)
Theorem deadline_within_a_line internal (c : Ctx) :
  machine_ok c -> is_u32 (cycles_remaining (blitter (agnus c))) -> 0 <= s_hpos (scheduler (agnus c)) < 227 ->
  0 <= cycles c -> cycles c + 227 < 2 ^ 64 ->
  let t := rigel_get_deadline c internal in
  rigel_get_time c <= t <= rigel_get_time c + 227 /\ (t = rigel_get_time c <-> due_now c).
Proof.
  intros Hc Hr Hs H0 H1. cbv zeta. destruct (deadline_terms c internal Hc Hr Hs) as [Hm E].
  unfold rigel_get_deadline, rigel_get_time. rewrite wrap_small by (unfold in_width; lia).
  rewrite <- E. lia.
Qed.

(** Stepping to a time arrives there, for a target less than [2^32 - 5] clocks
    ahead; a target that has passed changes nothing and reports nothing. *)
Theorem step_until_arrives t (c : Ctx) :
  machine_ok c -> 0 <= cycles c -> t < 2 ^ 64 ->
  if t <=? cycles c then rigel_step_until t c = (mkResult (cycles c) 0, c)
  else t - cycles c + 5 < 2 ^ 32 ->
       res_time (rigel_step_until t c).1 = t /\ rigel_get_time (rigel_step_until t c).2 = t.
Proof.
  intros Hc H0 Ht. unfold rigel_step_until. destruct (Z.leb_spec t (cycles c)); [done|]. intros Hn.
  destruct (clocks_step (t - cycles c) c) as [E _]; [exact (mo_eclock _ Hc)|lia|lia|].
  change (res_time (rigel_step (t - cycles c) c).1) with (cycles (rigel_step (t - cycles c) c).2).
  unfold rigel_get_time. rewrite E. rewrite wrap_small by (unfold in_width; lia). lia.
Qed.

(** The host loop of the README with a CPU that stops exactly at the deadline. *)
Definition readme_loop (c : Ctx) : Ctx := (rigel_step_until (rigel_get_next_deadline c) c).2.

(** The harness's loop, which runs for at least one clock. *)
Definition harness_loop (c : Ctx) : Ctx :=
  (rigel_step_until (Z.max (rigel_get_next_deadline c) (cycles c + 1)) c).2.


End rigel.

(** ** Snapshots *)

Section snapshots.
Context {M : Type}.
#[local] Abbreviation Ctx := (RigelContext M).

(** Writing back a register with the SET bit. *)
Lemma setclr_or cur x : in_width 15 cur -> in_width 15 x -> intreq_apply_write cur (RIGEL_PAULA_INT_SETCLR .| x) = cur .| x.
Proof.
  intros Hc Hx. assert (Hc16 : is_u16 cur) by (by apply (in_width_mono 15)).
  apply Z.bits_inj'. intros i Hi. rewrite intreq_apply_write_bit by done. unfold setclr_bit.
  change RIGEL_PAULA_INT_SETCLR with (2 ^ 15). rewrite !Z.lor_spec, !Z.pow2_bits_eqb by lia.
  destruct (Z.ltb_spec i 15); cbn [andb].
  - replace (15 =? i) with false by lia. cbn [orb]. destruct (Z.testbit x i); [by rewrite orb_true_r|by rewrite orb_false_r].
  - by rewrite (testbit_high 15 x), orb_false_r by (done || lia).
Qed.

Lemma restored_registers (i s : RigelInterruptDomain) :
  irq_wf i -> irq_wf s ->
  let i' := rigel_paula_interrupts_write_intreq
              (rigel_paula_interrupts_write_intena i (RIGEL_PAULA_INT_SETCLR .| intena s))
              (RIGEL_PAULA_INT_SETCLR .| intreq s) in
  intena i' = intena i .| intena s /\ intreq i' = intreq i .| intreq s /\ ipl i' = ipl_spec i'.
Proof.
  intros Hi Hs. cbv zeta.
  pose proof (irq_wf_step _ _ (irq_step_write _ RIGEL_REG_INTREQ (RIGEL_PAULA_INT_SETCLR .| intreq s))
    (irq_wf_step _ _ (irq_step_write _ RIGEL_REG_INTENA (RIGEL_PAULA_INT_SETCLR .| intena s)) Hi)) as [_ _ Hipl].
  unfold rigel_paula_interrupts_write_intreq, rigel_paula_interrupts_write_intena. split_and!.
  - transitivity (intena (rigel_interrupt_domain_write_intena i (RIGEL_PAULA_INT_SETCLR .| intena s))).
    { unfold rigel_interrupt_domain_write_intreq at 1. by case_match. }
    rewrite write_intena_intena, intena_apply_write_intreq. apply setclr_or; [apply Hi|apply Hs].
  - rewrite write_intreq_intreq.
    replace (intreq (rigel_interrupt_domain_write_intena _ _)) with (intreq i)
      by (unfold rigel_interrupt_domain_write_intena; by case_match).
    apply setclr_or; [apply Hi|apply Hs].
  - rewrite <- compute_ipl_max. exact Hipl.
Qed.


End snapshots.

(** ** Examples: the machine after its creation *)

#[local] Abbreviation machine0 := (rigel_create demo_env demo_config (∅ : gmap Z Z)).

Lemma machine0_ok : machine_ok machine0.
Proof. apply create_ok. Qed.

Lemma deadline_within_a_line_witness :
  rigel_get_time machine0 <= rigel_get_deadline machine0 true <= rigel_get_time machine0 + 227 /\
  (rigel_get_deadline machine0 true = rigel_get_time machine0 <-> due_now machine0).
Proof.
  apply (deadline_within_a_line true machine0 machine0_ok); vm_compute; try split; congruence.
Defined.

Lemma step_until_arrives_witness :
  res_time (rigel_step_until 100 machine0).1 = 100 /\ rigel_get_time (rigel_step_until 100 machine0).2 = 100.
Proof.
  assert (H : 0 <= cycles machine0) by (vm_compute; congruence).
  pose proof (step_until_arrives 100 machine0 machine0_ok H ltac:(lia)) as E.
  assert (H2 : cycles machine0 = 0) by (vm_compute; reflexivity).
  rewrite H2 in E. cbn [Z.leb Z.compare] in E. apply E. lia.
Defined.


