(* ===== verification/FloppyPortFacts.v ===== *)
(** * The drives seen from the CIAs

    A write to CIA-B's port B selects a drive, and CIA-A's port A shows that
    drive's status: the composition of the two CIAs, the four drives and the
    disk controller. *)

From stdpp Require Import gmap.
From S2P Require Import Prelude Interrupt Cia CiaFacts Floppy FloppyFacts Disk Rtc Machine FloppyPort Rigel.
From S2P Require Import MachineSafety MachineInvariant.

(** ** The bits of a status *)

Lemma clear_bit k x n :
  0 <= k < 8 -> 0 <= n < 8 ->
  Z.testbit (u8 (x .& u32 (~~ (2 ^ k)))) n = Z.testbit x n && negb (n =? k).
Proof.
  intros Hk Hn. unfold u8, wrap. rewrite Z.mod_pow2_bits_low, Z.land_spec by lia. f_equal.
  rewrite Z.mod_pow2_bits_low, Z.lnot_spec, Z.pow2_bits_eqb by lia. f_equal. lia.
Qed.

Lemma cond_clear (b : bool) k x n :
  0 <= k < 8 -> 0 <= n < 8 ->
  Z.testbit (if b then u8 (x .& u32 (~~ (2 ^ k))) else x) n = Z.testbit x n && negb (b && (n =? k)).
Proof. intros Hk Hn. destruct b; [by apply clear_bit|by rewrite andb_true_r]. Qed.

(** Bits 2 to 7 of CIA-A's port A are the external lines. *)
Lemma port_a_lines c n :
  cia_id c = CIA_PORT_A -> 2 <= n < 8 -> Z.testbit (cia_port_a_value c) n = Z.testbit (ext_pra c) n.
Proof.
  intros Hid Hn. unfold cia_port_a_value. rewrite Hid. cbv zeta. unfold u8, wrap.
  rewrite !Z.mod_pow2_bits_low, Z.lor_spec, !Z.mod_pow2_bits_low by lia.
  rewrite Z.lor_spec, !Z.land_spec.
  assert (E : Z.testbit 0x03 n = false /\ Z.testbit 0xfc n = true).
  { assert (H : n = 2 \/ n = 3 \/ n = 4 \/ n = 5 \/ n = 6 \/ n = 7) by lia. by repeat destruct H as [->|H]; subst. }
  destruct E as [-> ->]. by rewrite !andb_false_r, andb_true_r.
Qed.

(** ** The status of a drive on the port *)

(** The level of the /RDY line: with the motor line off the bits of the drive's
    identification are shifted out on it. *)
Definition ready_line (mtr : bool) (d : FloppyDrive) : bool :=
  if negb mtr && (0 <=? id_count d) && (id_count d <? 32) then truthy (floppy_get_idbit d)
  else negb (truthy (ready d)).

(** The four lines of a connected drive, low when active. *)
Definition status_lines (mtr : bool) (d : FloppyDrive) : list bool :=
  [negb (truthy (disk_changed d)); negb (floppy_has_media d && truthy (write_protected d));
   negb (truthy (track0 d)); ready_line mtr d].

Lemma drive_status_lines mtr d pra n :
  truthy (connected d) = true -> 2 <= n < 6 -> Z.testbit pra n = true ->
  Z.testbit (drive_status mtr d pra) n = nth (Z.to_nat (n - 2)) (status_lines mtr d) true.
Proof.
  intros Hc Hn Hp. unfold drive_status. cbv zeta.
  unfold floppy_get_dskchg, floppy_get_wpro, floppy_get_track0, floppy_get_ready. rewrite Hc. cbn [negb].
  set (p0 := if negb (truthy (if truthy (disk_changed d) then 0 else 1)) then _ else pra).
  set (p1 := if negb (truthy (if negb (floppy_has_media d) then 1 else _)) then _ else p0).
  set (p2 := if truthy (track0 d) then _ else p1).
  assert (E0 : forall i, 0 <= i < 8 -> Z.testbit p0 i = Z.testbit pra i && negb (truthy (disk_changed d) && (i =? 2))).
  { intros i Hi. unfold p0. rewrite (cond_clear _ 2) by lia. by destruct (truthy (disk_changed d)). }
  assert (E1 : forall i, 0 <= i < 8 -> Z.testbit p1 i =
    Z.testbit p0 i && negb (floppy_has_media d && truthy (write_protected d) && (i =? 3))).
  { intros i Hi. unfold p1. rewrite (cond_clear _ 3) by lia.
    by destruct (floppy_has_media d), (truthy (write_protected d)). }
  assert (E2 : forall i, 0 <= i < 8 -> Z.testbit p2 i = Z.testbit p1 i && negb (truthy (track0 d) && (i =? 4))).
  { intros i Hi. unfold p2. by rewrite (cond_clear _ 4) by lia. }
  clearbody p0 p1 p2.
  assert (E3 : Z.testbit (if negb mtr && (0 <=? id_count d) && (id_count d <? 32)
      then if negb (truthy (floppy_get_idbit d)) then u8 (p2 .& u32 (~~ 0x20)) else p2
      else if truthy (ready d) then u8 (p2 .& u32 (~~ 0x20)) else p2) n =
    Z.testbit p2 n && negb (negb (ready_line mtr d) && (n =? 5))).
  { unfold ready_line. destruct (negb mtr && _ && _).
    - by rewrite (cond_clear _ 5) by lia.
    - rewrite (cond_clear _ 5) by lia. by rewrite negb_involutive. }
  rewrite E3, E2, E1, E0, Hp by lia.
  assert (H : n = 2 \/ n = 3 \/ n = 4 \/ n = 5) by lia.
  destruct H as [->|[->|[->| ->]]]; unfold status_lines; cbn [Z.eqb Pos.eqb]; rewrite ?andb_false_r, ?andb_true_r, ?negb_involutive;
    cbn [negb andb]; rewrite ?andb_true_r; reflexivity.
Qed.

(** ** Selection *)

(** Exactly the select line of drive [i] is active. *)
Definition selects_only (prb : Z) (i : nat) : Prop := prb_selects prb = map (Nat.eqb i) (seq 0 4).

Lemma selected_only rule prb (ds : list FloppyDrive) i d :
  (i < 4)%nat -> selects_only prb i -> ds !! i = Some d -> rule d = true -> selected_drives rule prb ds = (i, 1%nat).
Proof.
  intros Hi Hs Hd Hr. unfold selected_drives. rewrite Hs.
  destruct i as [|[|[|[|i]]]]; [..|lia]; cbn; rewrite Hd, Hr; reflexivity.
Qed.

Lemma connected_step sig d : truthy (connected d) = true -> truthy (connected (floppy_step sig d)) = true.
Proof.
  intros Hc. unfold floppy_step. rewrite Hc. cbn [negb]. destruct (negb (truthy (sig_selected sig))).
  - by destruct (_ && _).
  - cbv zeta. unfold floppy_step_head, floppy_step_motor. by repeat case_match.
Qed.

Section machine.
Context {M : Type}.
#[local] Abbreviation Ctx := (RigelContext M).

Lemma update_floppy_drives (c : Ctx) i d :
  floppy c !! i = Some d ->
  floppy (cia_b_prb_update_floppy c) !! i =
    Some (floppy_step (prb_signals (cia_port_b_value (cia_b c))
                         (nth i (prb_selects (cia_port_b_value (cia_b c))) false) d) d).
Proof.
  intros Hd. unfold cia_b_prb_update_floppy. cbv zeta. destruct (selected_drives _ _ _) as [a n].
  unfold route_drive. cbn. by rewrite list_lookup_imap, Hd.
Qed.

Lemma update_floppy_routes (c : Ctx) i d :
  let prb := cia_port_b_value (cia_b c) in
  let c' := cia_b_prb_update_floppy c in
  let d' := floppy_step (prb_signals prb true d) d in
  (i < 4)%nat -> selects_only prb i -> floppy c !! i = Some d -> truthy (connected d) = true ->
  Disk.drive (disk (paula c')) = Some i /\ cia_b c' = cia_b c /\ cia_id (cia_a c') = cia_id (cia_a c) /\
  ext_pra (cia_a c') = drive_status (prb_motor prb) d' (u8 (cia_port_a_value (cia_a c) .| 0x3c)).
Proof.
  cbv zeta. intros Hi Hs Hd Hc. unfold cia_b_prb_update_floppy. cbv zeta.
  set (prb := cia_port_b_value (cia_b c)) in *. set (ds := imap _ (floppy c)).
  assert (Hn : nth i (prb_selects prb) false = true).
  { rewrite Hs. destruct i as [|[|[|[|i]]]]; [done..|lia]. }
  assert (Hd' : ds !! i = Some (floppy_step (prb_signals prb true d) d)).
  { unfold ds. rewrite list_lookup_imap, Hd. cbn [fmap option_fmap option_map]. by rewrite Hn. }
  clearbody ds. change (floppy (c <| floppy := ds |>)) with ds.
  rewrite (selected_only _ prb ds i _ Hi Hs Hd') by by apply connected_step.
  unfold route_drive. cbn [Nat.eqb]. change (floppy (on_paula _ (c <| floppy := ds |>))) with ds.
  by rewrite Hd'.
Qed.

(** C12: A write to CIA-B's port B (or its direction register) that leaves the select
    line of drive [i] as the only active one hands the machine over to that drive:
    the drive receives the control lines of the port and the others are
    deselected, the disk controller's transfers are routed to it, and CIA-A's
    port A shows its change, write protection, track 0 and ready lines, as they
    are after the write. *)
Theorem port_b_selects_a_drive reg v (c : Ctx) i d :
  reg = 1 \/ reg = 3 -> cia_id (cia_a c) = CIA_PORT_A ->
  let c' := rigel_cia_write 1 reg v c in
  let prb := cia_port_b_value (cia_b c') in
  let d' := floppy_step (prb_signals prb true d) d in
  (i < 4)%nat -> selects_only prb i -> floppy c !! i = Some d -> truthy (connected d) = true ->
  floppy c' !! i = Some d' /\
  (forall j e, j <> i -> (j < 4)%nat -> floppy c !! j = Some e ->
    floppy c' !! j = Some (floppy_step (prb_signals prb false e) e)) /\
  Disk.drive (disk (paula c')) = Some i /\
  map (Z.testbit (rigel_cia_read 0 0 c').1) [2; 3; 4; 5] = status_lines (prb_motor prb) d'.
Proof.
  intros Hreg Hid. cbv zeta. intros Hi Hs Hd Hc.
  assert (E : rigel_cia_write 1 reg v c = cia_b_prb_update_floppy (on_cia 1 (cia_write_reg reg v) c)).
  { by destruct Hreg as [->| ->]. }
  rewrite E in *. clear E. set (c1 := on_cia 1 (cia_write_reg reg v) c) in *.
  assert (Hd1 : floppy c1 = floppy c) by done. assert (Hid1 : cia_id (cia_a c1) = CIA_PORT_A) by done.
  clearbody c1. rewrite <- Hd1 in Hd |- *.
  assert (Eb : cia_b (cia_b_prb_update_floppy c1) = cia_b c1).
  { unfold cia_b_prb_update_floppy. cbv zeta. by destruct (selected_drives _ _ _). }
  rewrite Eb in *. clear Eb. destruct (update_floppy_routes c1 i d Hi Hs Hd Hc) as (Edr & _ & Eid & Ext).
  pose proof (update_floppy_drives c1) as Hall.
  set (prb := cia_port_b_value (cia_b c1)) in *. set (c' := cia_b_prb_update_floppy c1) in *. clearbody c' prb.
  assert (Hn : forall j, (j < 4)%nat -> nth j (prb_selects prb) false = (i =? j)%nat).
  { intros j Hj. rewrite Hs. destruct j as [|[|[|[|j]]]]; [done..|lia]. }
  split_and!; [| |done|].
  - rewrite (Hall i d Hd), Hn, Nat.eqb_refl by done. done.
  - intros j e Hji Hj He. rewrite (Hall j e He), Hn by done. by rewrite (proj2 (Nat.eqb_neq i j)) by congruence.
  - change (rigel_cia_read 0 0 c').1 with (cia_port_a_value (cia_a c')).
    assert (Hl : forall n, 2 <= n < 6 -> Z.testbit (cia_port_a_value (cia_a c')) n =
      nth (Z.to_nat (n - 2)) (status_lines (prb_motor prb) (floppy_step (prb_signals prb true d) d)) true).
    { intros n Hnn. rewrite port_a_lines, Ext by (congruence || lia).
      apply drive_status_lines; [by apply connected_step|lia|].
      rewrite testbit_wrap, Z.lor_spec by lia. replace (n <? 8) with true by lia.
      assert (H : n = 2 \/ n = 3 \/ n = 4 \/ n = 5) by lia.
      by destruct H as [->|[->|[->| ->]]]; rewrite orb_true_r. }
    cbn [map]. rewrite !Hl by lia. done.
Qed.

End machine.

(** The machine after its creation selects its first drive, with the motor on and
    no disk in it. *)
Lemma port_b_selects_a_drive_witness :
  let c := rigel_cia_write 1 3 0xff (rigel_create demo_env demo_config (∅ : gmap Z Z)) in
  let c' := rigel_cia_write 1 1 0x77 c in
  Disk.drive (disk (paula c')) = Some 0%nat /\
  map (Z.testbit (rigel_cia_read 0 0 c').1) [2; 3; 4; 5] = [false; true; false; true].
Proof.
  cbv zeta. set (c := rigel_cia_write 1 3 0xff _).
  destruct (floppy c !! 0%nat) as [d|] eqn:Hd; [|exfalso; revert Hd; vm_compute; discriminate].
  destruct (port_b_selects_a_drive 1 0x77 c 0 d) as (_ & _ & H1 & H2);
    [by left|vm_compute; reflexivity|lia|vm_compute; reflexivity|exact Hd| |].
  - assert (H : Some (truthy (connected d)) = Some true); [|by injection H].
    change (Some (truthy (connected d))) with (truthy ∘ connected <$> Some d). rewrite <- Hd.
    vm_compute. reflexivity.
  - split; [exact H1|]. rewrite H2. clear H1 H2.
    set (prb := cia_port_b_value _).
    assert (H : (fun d => status_lines (prb_motor prb) (floppy_step (prb_signals prb true d) d)) <$> Some d =
      Some [false; true; false; true]).
    { rewrite <- Hd. vm_compute. reflexivity. }
    apply (inj Some) in H. exact H.
Defined.
