(* ===== verification/HostBytes.v ===== *)
(** * Byte strings, files and words of the host program

    What the components of [src/harness] share: stores of several bytes, the
    characters of a C string, a host file opened with [fopen], big-endian words.
    As in [Bytes], a store outside a buffer is [None]. *)

From Stdlib Require Import Ascii String.
From S2P Require Import Prelude Bytes.

(** ** Stores of several bytes *)

(** [memcpy (p + i, l, length l)]. *)
Fixpoint store_bytes (p : list Z) (i : Z) (l : list Z) : option (list Z) :=
  match l with
  | [] => Some p
  | b :: l => p ← store8 p i b; store_bytes p (i + 1) l
  end.

(** [memset (p + i, v, n)]. *)
Definition fill_bytes (p : list Z) (i v n : Z) : option (list Z) := store_bytes p i (replicate (Z.to_nat n) v).

(** [n] bytes from [p + i]. *)
Definition slice (p : list Z) (i n : Z) : list Z := take (Z.to_nat n) (drop (Z.to_nat i) p).

(** The characters of a string literal, without the final zero. *)
Fixpoint chars (s : string) : list Z :=
  match s with
  | EmptyString => []
  | String c s => Z.of_nat (nat_of_ascii c) :: chars s
  end.

Lemma store8_length p i b q : store8 p i b = Some q -> length q = length p.
Proof. unfold store8. case_match; [|done]. intros [= <-]. apply length_insert. Qed.

Lemma store_bytes_length l : forall p i q, store_bytes p i l = Some q -> length q = length p.
Proof.
  induction l as [|b l IH]; intros p i q; cbn [store_bytes]; [by intros [= <-]|].
  destruct (store8 p i b) as [p1|] eqn:E; [|done]. cbn [mbind option_bind]. intros H.
  rewrite (IH _ _ _ H). by eapply store8_length.
Qed.

(** A copy inside the buffer. *)
Lemma store_bytes_spec l : forall p i,
  0 <= i -> i + Z.of_nat (length l) <= Z.of_nat (length p) ->
  store_bytes p i l = Some (take (Z.to_nat i) p ++ l ++ drop (Z.to_nat i + length l) p).
Proof.
  induction l as [|b l IH]; intros p i Hi Hl; cbn [store_bytes].
  - cbn [app length]. by rewrite Nat.add_0_r, take_drop.
  - cbn [length] in Hl. unfold store8.
    rewrite (proj2 (Z.leb_le _ _)), (proj2 (Z.ltb_lt _ _)) by lia. cbn [andb mbind option_bind].
    rewrite IH by (rewrite ?length_insert; lia). f_equal. rewrite Z2Nat.inj_add by lia. change (Z.to_nat 1) with 1%nat.
    rewrite Nat.add_1_r, (take_S_r _ _ b) by (apply list_lookup_insert_eq; lia).
    rewrite take_insert_ge by lia. rewrite <- app_assoc. cbn [app length]. do 3 f_equal.
    rewrite drop_insert_lt by lia. f_equal. lia.
Qed.

Lemma store_bytes_bytes l : forall p i q, bytes p -> bytes l -> store_bytes p i l = Some q -> bytes q.
Proof.
  induction l as [|b l IH]; intros p i q Hp Hl; cbn [store_bytes]; [by intros [= <-]|].
  destruct (store8 p i b) as [p1|] eqn:E; [|done]. cbn [mbind option_bind]. apply IH.
  - unfold store8 in E. case_match; [|done]. injection E as <-. apply Forall_insert; [done|by apply Forall_cons in Hl as [? _]].
  - by apply Forall_cons in Hl as [_ ?].
Qed.

Lemma slice_length p i n :
  0 <= i -> 0 <= n -> i + n <= Z.of_nat (length p) -> length (slice p i n) = Z.to_nat n.
Proof. intros. unfold slice. rewrite length_take, length_drop. lia. Qed.

Lemma slice_bytes p i n : bytes p -> bytes (slice p i n).
Proof. intros H. by apply Forall_take, Forall_drop. Qed.

(** ** Stores inside a buffer of bytes *)

Lemma store8_in p i b :
  0 <= i < Z.of_nat (length p) -> bytes p -> is_u8 b ->
  exists q, store8 p i b = Some q /\ length q = length p /\ bytes q.
Proof.
  intros Hi Hp Hb. unfold store8. rewrite (proj2 (Z.leb_le _ _)), (proj2 (Z.ltb_lt _ _)) by lia.
  eexists. split; [done|]. split; [apply length_insert|by apply Forall_insert].
Qed.

(** A block of [l] is stored inside the buffer. *)
Lemma store_bytes_in p i l :
  0 <= i -> i + Z.of_nat (length l) <= Z.of_nat (length p) -> bytes p -> bytes l ->
  exists q, store_bytes p i l = Some q /\ length q = length p /\ bytes q.
Proof.
  intros Hi Hl Hp Hb. pose proof (store_bytes_spec l p i Hi Hl) as E. rewrite E. eexists. split; [done|].
  split; [by apply (store_bytes_length l p i)|by apply (store_bytes_bytes l p i)].
Qed.

(** The predicate "the buffer has [n] bytes". *)
Definition buffer (n : nat) (p : list Z) : Prop := length p = n /\ bytes p.

Definition stores (n : nat) (o : option (list Z)) : Prop := exists q, o = Some q /\ buffer n q.

Lemma stores_bind n (o : option (list Z)) f :
  stores n o -> (forall q, buffer n q -> stores n (f q)) -> stores n (q ← o; f q).
Proof. intros (q & -> & Hq) Hf. by apply Hf. Qed.

Lemma stores_some n q : buffer n q -> stores n (Some q).
Proof. intros H. by exists q. Qed.

Lemma stores_store8 n q i b : 0 <= i < Z.of_nat n -> is_u8 b -> buffer n q -> stores n (store8 q i b).
Proof.
  intros Hi Hb [<- Hq]. destruct (store8_in q i b Hi Hq Hb) as (q' & -> & E & Hq'). by exists q'.
Qed.

Lemma stores_bytes n q i l :
  0 <= i -> i + Z.of_nat (length l) <= Z.of_nat n -> bytes l -> buffer n q -> stores n (store_bytes q i l).
Proof.
  intros Hi Hl Hb [<- Hq]. destruct (store_bytes_in q i l Hi Hl Hq Hb) as (q' & -> & E & Hq'). by exists q'.
Qed.

Lemma stores_fill n q i v k :
  0 <= i -> 0 <= k -> i + k <= Z.of_nat n -> is_u8 v -> buffer n q -> stores n (fill_bytes q i v k).
Proof.
  intros Hi Hk Hl Hv Hq. apply stores_bytes; [done| | |done].
  - rewrite length_replicate. lia.
  - by apply Forall_replicate.
Qed.

Lemma stores_foldl {A} n (f : list Z -> A -> option (list Z)) l : forall o,
  stores n o -> Forall (fun x => forall q, buffer n q -> stores n (f q x)) l ->
  stores n (foldl (fun o x => q ← o; f q x) o l).
Proof.
  induction l as [|x l IH]; intros o Ho Hl; cbn [foldl]; [done|]. apply Forall_cons in Hl as [Hx Hl].
  apply IH; [|done]. by apply stores_bind.
Qed.

Lemma chars_bytes s : bytes (chars s).
Proof.
  induction s as [|c s IH]; cbn [chars]; [by apply Forall_nil|]. apply Forall_cons_2; [|exact IH].
  unfold in_width. change (2 ^ 8) with 256. pose proof (Ascii.nat_ascii_bounded c). lia.
Qed.

(** The tactic that runs through a sequence of stores. *)
Ltac store_steps :=
  repeat lazymatch goal with
  | |- stores _ (mbind _ _) => apply stores_bind; [|intros ? ?]
  | |- stores _ (Some _) => apply stores_some; assumption
  | |- stores _ (fill_bytes _ _ _ _) => apply stores_fill; [lia|lia|lia|done|assumption]
  | |- stores _ (store8 _ _ _) => apply stores_store8; [lia|first [done|width]|assumption]
  | |- stores _ (store_bytes _ _ (chars _)) => apply stores_bytes; [lia|cbn [length chars]; lia|apply chars_bytes|assumption]
  end.

(** A block of bytes written over a buffer. *)
Definition written (off : Z) (l ram : list Z) : list Z :=
  take (Z.to_nat off) ram ++ l ++ drop (Z.to_nat off + length l) ram.

Lemma written_length off l ram :
  0 <= off -> off + Z.of_nat (length l) <= Z.of_nat (length ram) -> length (written off l ram) = length ram.
Proof. intros H0 H1. unfold written. rewrite !length_app, length_take, length_drop. lia. Qed.

Lemma slice_written off l ram :
  0 <= off -> off + Z.of_nat (length l) <= Z.of_nat (length ram) ->
  slice (written off l ram) off (Z.of_nat (length l)) = l.
Proof.
  intros H0 H1. unfold slice, written. rewrite drop_app_length' by (rewrite length_take; lia).
  by rewrite take_app_length' by lia.
Qed.

Lemma slice_elsewhere off l ram off' n :
  0 <= off -> 0 <= off' -> 0 <= n -> off + Z.of_nat (length l) <= Z.of_nat (length ram) ->
  off' + n <= off \/ off + Z.of_nat (length l) <= off' -> slice (written off l ram) off' n = slice ram off' n.
Proof.
  intros H0 H1 H2 Hl Hd. unfold slice, written. destruct Hd as [Hd|Hd].
  - rewrite drop_app_le by (rewrite length_take; lia). rewrite take_app_le by (rewrite length_drop, length_take; lia).
    rewrite !take_drop_commute, take_take. do 2 f_equal. lia.
  - rewrite drop_app_ge by (rewrite length_take; lia). rewrite drop_app_ge by (rewrite length_take; lia).
    rewrite length_take, drop_drop. do 2 f_equal. lia.
Qed.

(** ** Big-endian words *)

Lemma low_byte v : u8 (v .& 0xff) = u8 v.
Proof. change 0xff with (Z.ones 8). rewrite Z.land_ones by lia. by apply wrap_idemp. Qed.

(** The words the bytes stand for, two by two. *)
Fixpoint be16s (l : list Z) : list Z :=
  match l with
  | hi :: lo :: l => (hi * 256 + lo) :: be16s l
  | _ => []
  end.

(** [(uint16_t)(((uint16_t)hi << 8) | lo)]. *)
Lemma be16_word hi lo : is_u8 hi -> is_u8 lo -> u16 ((hi .<< 8) .| lo) = hi * 256 + lo.
Proof.
  intros Hh Hl. rewrite lor_shift8 by done. apply wrap_small. unfold in_width in *. lia.
Qed.
