(* ===== verification/Atapi.v ===== *)
(** * The CD-ROM drive of the host program: [harness/expansions/atapi_cdrom.c]

    The packet commands of the drive.  A command writes into the caller's buffer
    [out] of capacity [max]; its result is the return code, the buffer, the number
    of bytes it reports and the drive; a store outside the buffer is [None].  The
    media is reached through the operations [AtapiMediaOps] on a context [W].  The
    environment variable that makes discs bootable is the parameter [bootable].
    Trace output is left out. *)

From Stdlib Require Import String.
From S2P Require Import Prelude Bytes HostBytes.

(** C: [src/harness/expansions/atapi_cdrom.h]:23-23 [ATAPI_SECTOR_SIZE] *)
Definition ATAPI_SECTOR_SIZE := 2048.
(** C: [src/harness/expansions/atapi_cdrom.c]:31-31 [ISO9660_PVD_LBA] *)
Definition ISO9660_PVD_LBA := 16.
(** C: [src/harness/expansions/atapi_cdrom.c]:32-32 [ISO9660_SYSID_OFF] *)
Definition ISO9660_SYSID_OFF := 8.
(** C: [src/harness/expansions/atapi_cdrom.c]:33-33 [ISO9660_SYSID_LEN] *)
Definition ISO9660_SYSID_LEN := 32.

(** C: [src/harness/expansions/atapi_cdrom.c]:36-36 [CMD_TEST_UNIT_READY] *)
Definition CMD_TEST_UNIT_READY := 0x00.
(** C: [src/harness/expansions/atapi_cdrom.c]:37-37 [CMD_REQUEST_SENSE] *)
Definition CMD_REQUEST_SENSE := 0x03.
(** C: [src/harness/expansions/atapi_cdrom.c]:38-38 [CMD_INQUIRY] *)
Definition CMD_INQUIRY := 0x12.
(** C: [src/harness/expansions/atapi_cdrom.c]:39-39 [CMD_START_STOP] *)
Definition CMD_START_STOP := 0x1b.
(** C: [src/harness/expansions/atapi_cdrom.c]:40-40 [CMD_READ_CAPACITY] *)
Definition CMD_READ_CAPACITY := 0x25.
(** C: [src/harness/expansions/atapi_cdrom.c]:41-41 [CMD_READ_10] *)
Definition CMD_READ_10 := 0x28.
(** C: [src/harness/expansions/atapi_cdrom.c]:42-42 [CMD_READ_TOC] *)
Definition CMD_READ_TOC := 0x43.
(** C: [src/harness/expansions/atapi_cdrom.c]:43-43 [CMD_MODE_SENSE_10] *)
Definition CMD_MODE_SENSE_10 := 0x5a.

(** C: [src/harness/expansions/atapi_cdrom.c]:46-49 [SK_NO_SENSE] *)
Definition SK_NO_SENSE := 0x00.
Definition SK_NOT_READY := 0x02.
Definition SK_ILLEGAL_REQUEST := 0x05.
Definition SK_UNIT_ATTENTION := 0x06.

(** C: [src/harness/expansions/atapi_cdrom.c]:52-56 [ASC_MEDIUM_NOT_PRESENT] *)
Definition ASC_MEDIUM_NOT_PRESENT := 0x3a.
Definition ASC_MEDIUM_CHANGED := 0x28.
Definition ASC_INVALID_COMMAND := 0x20.
Definition ASC_INVALID_FIELD_IN_CDB := 0x24.
Definition ASC_LBA_OUT_OF_RANGE := 0x21.

Section atapi.
Context {W : Type}.

(** [read_sectors] fills a buffer: the return code and the buffer.
    C: [src/harness/expansions/atapi_cdrom.h]:26-33 [AtapiMediaOps] *)
Record AtapiMediaOps := mkOps {
  present : W -> bool;
  read_sectors : W -> Z -> Z -> list Z -> option (Z * list Z);
  ops_sector_count : W -> Z;
}.

(** C: [src/harness/expansions/atapi_cdrom.h]:35-46 [AtapiCdromState] *)
Record AtapiCdromState := mkCdrom {
  ops : AtapiMediaOps; sense_key : Z; asc : Z; ascq : Z; unit_attention : bool;
}.

End atapi.
Arguments AtapiMediaOps W : clear implicits.
Arguments AtapiCdromState W : clear implicits.

#[export] Instance eta_cdrom {W} : Eta (AtapiCdromState W) := fun s =>
  mkCdrom (ops s) (sense_key s) (asc s) (ascq s) (unit_attention s).

Section commands.
Context {W : Type} (bootable : bool) (media : W).
#[local] Abbreviation Cdrom := (AtapiCdromState W).

(** What a command gives: return code, buffer, length, drive. *)
#[local] Abbreviation Reply := (Z * list Z * Z * Cdrom)%type.

(** The System Identifier of the volume descriptor at [off] of the buffer.
    C: [src/harness/expansions/atapi_cdrom.c] [patch_pvd_sysid] *)
Definition patch_pvd_sysid (out : list Z) (off : Z) : option (list Z) :=
  let same i s := bool_decide (slice out (off + i) (Z.of_nat (length (chars s))) = chars s) in
  if negb bootable then Some out
  else if negb (rd8 out off =? 0x01) then Some out
  else if negb (same 1 "CD001"%string) then Some out
  else if same ISO9660_SYSID_OFF "CDTV"%string || same ISO9660_SYSID_OFF "AMIGA BOOT"%string then Some out
  else
    out ← fill_bytes out (off + ISO9660_SYSID_OFF) 0x20 ISO9660_SYSID_LEN;
    store_bytes out (off + ISO9660_SYSID_OFF) (chars "AMIGA BOOT"%string).

(** C: [src/harness/expansions/atapi_cdrom.c] [set_sense] *)
Definition set_sense (key asc_ ascq_ : Z) (s : Cdrom) : Cdrom :=
  s <| sense_key := key |> <| asc := asc_ |> <| ascq := ascq_ |>.

(** C: [src/harness/expansions/atapi_cdrom.c] [atapi_cdrom_init] *)
Definition atapi_cdrom_init (ops_ : AtapiMediaOps W) : Cdrom := mkCdrom ops_ 0 0 0 false.

(** C: [src/harness/expansions/atapi_cdrom.c] [atapi_cdrom_reset] *)
Definition atapi_cdrom_reset (s : Cdrom) : Cdrom :=
  s <| sense_key := 0 |> <| asc := 0 |> <| ascq := 0 |> <| unit_attention := present (ops s) media |>.

(** C: [src/harness/expansions/atapi_cdrom.c] [atapi_cdrom_insert] *)
Definition atapi_cdrom_insert (s : Cdrom) : Cdrom := s <| unit_attention := true |>.

(** C: [src/harness/expansions/atapi_cdrom.c] [atapi_cdrom_eject] *)
Definition atapi_cdrom_eject (s : Cdrom) : Cdrom := s <| unit_attention := false |>.

(** C: [src/harness/expansions/atapi_cdrom.c] [cmd_test_unit_ready] *)
Definition cmd_test_unit_ready (out : list Z) (s : Cdrom) : option Reply :=
  if negb (present (ops s) media) then Some (-1, out, 0, set_sense SK_NOT_READY ASC_MEDIUM_NOT_PRESENT 0 s)
  else if unit_attention s then
    Some (-1, out, 0, set_sense SK_UNIT_ATTENTION ASC_MEDIUM_CHANGED 0 (s <| unit_attention := false |>))
  else Some (0, out, 0, set_sense SK_NO_SENSE 0 0 s).

(** C: [src/harness/expansions/atapi_cdrom.c] [cmd_request_sense] *)
Definition cmd_request_sense (out : list Z) (max : Z) (s : Cdrom) : option Reply :=
  if max <? 18 then Some (-1, out, 0, s)
  else
    out ← fill_bytes out 0 0 18;
    out ← store8 out 0 0x70;
    out ← store8 out 2 (sense_key s .& 0x0f);
    out ← store8 out 7 10;
    out ← store8 out 12 (asc s);
    out ← store8 out 13 (ascq s);
    Some (0, out, 18, set_sense SK_NO_SENSE 0 0 s).

(** C: [src/harness/expansions/atapi_cdrom.c] [cmd_inquiry] *)
Definition cmd_inquiry (out : list Z) (max : Z) (s : Cdrom) : option Reply :=
  if max <? 36 then Some (-1, out, 0, s)
  else
    out ← fill_bytes out 0 0 36;
    out ← store_bytes out 0 [0x05; 0x80; 0x02; 0x32; 31];
    out ← store_bytes out 8 (chars "BELLA   "%string);
    out ← store_bytes out 16 (chars "VIRTUAL CDROM   "%string);
    out ← store_bytes out 32 (chars "1.00"%string);
    Some (0, out, 36, s).

(** C: [src/harness/expansions/atapi_cdrom.c] [cmd_read_capacity] *)
Definition cmd_read_capacity (out : list Z) (max : Z) (s : Cdrom) : option Reply :=
  if max <? 8 then Some (-1, out, 0, s)
  else if negb (present (ops s) media) then Some (-1, out, 0, set_sense SK_NOT_READY ASC_MEDIUM_NOT_PRESENT 0 s)
  else
    let sectors := ops_sector_count (ops s) media in
    let sectors := if sectors =? 0 then 1 else sectors in
    out ← store_bytes out 0 (be32 (u32 (sectors - 1)) ++ [0x00; 0x00; 0x08; 0x00]);
    Some (0, out, 8, s).

(** One data track from block 0, and the lead-out.
    C: [src/harness/expansions/atapi_cdrom.c] [cmd_read_toc] *)
Definition cmd_read_toc (out : list Z) (max : Z) (s : Cdrom) : option Reply :=
  if max <? 20 then Some (-1, out, 0, s)
  else if negb (present (ops s) media) then Some (-1, out, 0, set_sense SK_NOT_READY ASC_MEDIUM_NOT_PRESENT 0 s)
  else
    let sectors := ops_sector_count (ops s) media in
    out ← fill_bytes out 0 0 20;
    out ← store_bytes out 0 ([0; 18; 1; 1; 0; 0x14; 1; 0; 0; 0; 0; 0; 0; 0x14; 0xaa; 0] ++ be32 sectors);
    Some (0, out, 20, s).

(** C: [src/harness/expansions/atapi_cdrom.c] [cmd_mode_sense_10] *)
Definition cmd_mode_sense_10 (out : list Z) (max : Z) (s : Cdrom) : option Reply :=
  if max <? 8 then Some (-1, out, 0, s)
  else
    out ← fill_bytes out 0 0 8;
    out ← store8 out 0 0;
    out ← store8 out 1 6;
    Some (0, out, 8, s).

(** C: [src/harness/expansions/atapi_cdrom.c] [cmd_read_10] *)
Definition cmd_read_10 (pkt out : list Z) (max : Z) (s : Cdrom) : option Reply :=
  if negb (present (ops s) media) then Some (-1, out, 0, set_sense SK_NOT_READY ASC_MEDIUM_NOT_PRESENT 0 s)
  else
    let lba := read_be32 pkt 2 in
    let count := u16 (u16 (rd8 pkt 7 .<< 8) .| rd8 pkt 8) in
    if count =? 0 then Some (0, out, 0, s)
    else
      let needed := count * ATAPI_SECTOR_SIZE in
      if max <? needed then Some (-1, out, 0, set_sense SK_ILLEGAL_REQUEST ASC_INVALID_FIELD_IN_CDB 0 s)
      else
        '(rc, out) ← read_sectors (ops s) media lba count out;
        if negb (rc =? 0) then Some (-1, out, 0, set_sense SK_ILLEGAL_REQUEST ASC_LBA_OUT_OF_RANGE 0 s)
        else
          out ← (if (lba <=? ISO9660_PVD_LBA) && (ISO9660_PVD_LBA <? u32 (lba + count))
                 then patch_pvd_sysid out ((ISO9660_PVD_LBA - lba) * ATAPI_SECTOR_SIZE) else Some out);
          Some (0, out, needed, set_sense SK_NO_SENSE 0 0 s).

(** C: [src/harness/expansions/atapi_cdrom.c] [atapi_cdrom_exec] *)
Definition atapi_cdrom_exec (pkt out : list Z) (max : Z) (s : Cdrom) : option Reply :=
  let cmd := rd8 pkt 0 in
  if cmd =? CMD_TEST_UNIT_READY then cmd_test_unit_ready out s
  else if cmd =? CMD_REQUEST_SENSE then cmd_request_sense out max s
  else if cmd =? CMD_INQUIRY then cmd_inquiry out max s
  else if cmd =? CMD_READ_CAPACITY then cmd_read_capacity out max s
  else if cmd =? CMD_READ_TOC then cmd_read_toc out max s
  else if cmd =? CMD_MODE_SENSE_10 then cmd_mode_sense_10 out max s
  else if cmd =? CMD_READ_10 then cmd_read_10 pkt out max s
  else if cmd =? CMD_START_STOP then Some (0, out, 0, s)
  else Some (-1, out, 0, set_sense SK_ILLEGAL_REQUEST ASC_INVALID_COMMAND 0 s).

End commands.
