(* ===== verification/Ata.v ===== *)
(** * The IDE channel of the host program: [harness/expansions/ata_ide.c]

    The registers of a channel with two devices: an ATA disk (device 0) and an
    ATAPI drive (device 1).  Both are reached through callbacks on a context [W];
    what a callback stores in the transfer buffer is its result.  An access
    outside the transfer buffer or the packet is [None].  Trace output is left
    out. *)

From Stdlib Require Import String.
From S2P Require Import Prelude Bytes HostBytes.

(** C: [src/harness/expansions/ata_ide.h]:42-42 [ATA_XFER_BUF_SECTORS] *)
Definition ATA_XFER_BUF_SECTORS := 256.
(** C: [src/harness/expansions/ata_ide.h]:43-43 [ATA_XFER_BUF_SIZE] *)
Definition ATA_XFER_BUF_SIZE := ATA_XFER_BUF_SECTORS * 2048.

(** C: [src/harness/expansions/ata_ide.h]:45-54 [AtaRegState] *)
Inductive AtaRegState :=
  | ATA_IDLE | ATA_IDENTIFY | ATA_ATAPI_CMD | ATA_ATAPI_DATA_IN | ATA_ATAPI_DATA_OUT | ATA_ATAPI_STATUS
  | ATA_DATA_IN | ATA_DATA_OUT.

#[export] Instance AtaRegState_eq_dec : EqDecision AtaRegState.
Proof. solve_decision. Defined.

(** C: [src/harness/expansions/ata_ide.c]:31-33 [ATA_STATUS_RDY] *)
Definition ATA_STATUS_RDY := 0x40.
Definition ATA_STATUS_DRQ := 0x08.
Definition ATA_STATUS_ERR := 0x01.
(** C: [src/harness/expansions/ata_ide.c]:36-36 [ATA_ERR_ABRT] *)
Definition ATA_ERR_ABRT := 0x04.
(** C: [src/harness/expansions/ata_ide.c]:39-40 [IR_COD] *)
Definition IR_COD := 0x01.
Definition IR_IO := 0x02.
(** C: [src/harness/expansions/ata_ide.c]:44-45 [ATAPI_SIG_LBA_MID] *)
Definition ATAPI_SIG_LBA_MID := 0x14.
Definition ATAPI_SIG_LBA_HIGH := 0xeb.
(** C: [src/harness/expansions/ata_ide.c]:48-54 [ATA_CMD_IDENTIFY_DEVICE] *)
Definition ATA_CMD_IDENTIFY_DEVICE := 0xec.
Definition ATA_CMD_IDENTIFY_PACKET := 0xa1.
Definition ATA_CMD_PACKET := 0xa0.
Definition ATA_CMD_DEVICE_RESET := 0x08.
Definition ATA_CMD_READ_SECTORS := 0x20.
Definition ATA_CMD_WRITE_SECTORS := 0x30.
Definition ATA_CMD_SET_FEATURES := 0xef.
(** C: [src/harness/expansions/ata_ide.c]:57-58 [ATA_DEV_SLAVE_BIT] *)
Definition ATA_DEV_SLAVE_BIT := 0x10.
Definition ATA_SECTOR_SIZE := 512.
(** C: [src/harness/expansions/ata_ide.c]:61-62 [RIPPLE_CS1_OFFSET] *)
Definition RIPPLE_CS1_OFFSET := 0x1000.
Definition RIPPLE_NEXT_REG := 0x0200.

Section channel.
Context {W : Type}.

(** The callbacks: [atapi_exec] takes the packet and the buffer with its capacity
    and gives the return code, the buffer and the data length.
    C: [src/harness/expansions/ata_ide.h]:56-101 [AtaIdeChannel] *)
Record AtaIdeChannel := mkChannel {
  features : Z; sector_count : Z; lba_low : Z; lba_mid : Z; lba_high : Z; dev_head : Z;
  ata_error : Z; ata_status : Z;
  ata_state : AtaRegState;
  xfer_buf : list Z; xfer_len : Z; xfer_pos : Z;
  atapi_pkt : list Z; atapi_pkt_pos : Z;
  atapi_exec : option (list Z -> list Z -> Z -> W -> option (Z * list Z * Z * W));
  atapi_reset : option (W -> W);
  disk_read : option (Z -> Z -> list Z -> W -> option (Z * list Z * W));
  disk_write : option (Z -> Z -> list Z -> W -> option (Z * W));
  disk_sectors : Z; disk_wr_lba : Z; disk_wr_count : Z;
}.

End channel.
Arguments AtaIdeChannel W : clear implicits.

#[export] Instance eta_channel {W} : Eta (AtaIdeChannel W) := fun c =>
  mkChannel (features c) (sector_count c) (lba_low c) (lba_mid c) (lba_high c) (dev_head c)
    (ata_error c) (ata_status c) (ata_state c) (xfer_buf c) (xfer_len c) (xfer_pos c) (atapi_pkt c) (atapi_pkt_pos c)
    (atapi_exec c) (atapi_reset c) (disk_read c) (disk_write c) (disk_sectors c) (disk_wr_lba c) (disk_wr_count c).

Section operations.
Context {W : Type}.
#[local] Abbreviation Channel := (AtaIdeChannel W).

(** ** The identification of a device *)

(** C: [src/harness/expansions/ata_ide.c]:79-80 [WORD_LE] *)
Definition word_le (i w : Z) (buf : list Z) : option (list Z) :=
  buf ← store8 buf (i * 2) (u8 (w .& 0xff));
  store8 buf (i * 2 + 1) (u8 (w .>> 8)).

Definition words_le (l : list (Z * Z)) (buf : list Z) : option (list Z) :=
  foldl (fun o p => buf ← o; word_le p.1 p.2 buf) (Some buf) l.

(** The characters of [s] from word [base] on, swapped two by two.
    C: [src/harness/expansions/ata_ide.c]:96-102 [build_identify] *)
Definition swapped_chars (base n : Z) (s : list Z) (buf : list Z) : option (list Z) :=
  foldl (fun o i =>
    buf ← o;
    buf ← store8 buf ((base + i) * 2) (rd8 s (i * 2 + 1));
    store8 buf ((base + i) * 2 + 1) (rd8 s (i * 2))) (Some buf) (seqZ 0 n).

Definition transfer (buf : list Z) (len : Z) (ch : Channel) : Channel :=
  ch <| xfer_buf := buf |> <| xfer_len := len |> <| xfer_pos := 0 |>.

(** The words of the response to IDENTIFY PACKET DEVICE.
    C: [src/harness/expansions/ata_ide.c]:69-122 [build_identify] *)
Definition identify_words (buf : list Z) : option (list Z) :=
  buf ← fill_bytes buf 0 0 512;
  buf ← words_le [(0, 0x85c0); (1, 0x0000); (2, 0xc837); (49, 0x0200); (51, 0x0200); (53, 0x0006);
                  (63, 0x0007); (64, 0x0001)] buf;
  buf ← swapped_chars 10 10 (chars "00000000000000000001"%string) buf;
  buf ← swapped_chars 23 4 (chars "1.00    "%string) buf;
  buf ← swapped_chars 27 20 (chars "BELLATRIX VIRTUAL CD-ROM                "%string) buf;
  words_le [(47, 0x8001); (80, 0x00f0); (81, 0x0022)] buf.

(** C: [src/harness/expansions/ata_ide.c] [build_identify] *)
Definition build_identify (ch : Channel) : option Channel :=
  buf ← identify_words (xfer_buf ch); Some (transfer buf 512 ch).

(** C: [src/harness/expansions/ata_ide.c] [ata_disk_present] *)
Definition ata_disk_present (ch : Channel) : bool := match disk_read ch with Some _ => true | None => false end.

(** C: [src/harness/expansions/ata_ide.c] [ata_selected_dev] *)
Definition ata_selected_dev (ch : Channel) : Z := b2u (has (dev_head ch) ATA_DEV_SLAVE_BIT).

(** The words of the response of the disk, which has [total] sectors.
    C: [src/harness/expansions/ata_ide.c]:147-209 [build_identify_disk] *)
Definition identify_disk_words (total : Z) (buf : list Z) : option (list Z) :=
  let c := total / (16 * 63) in
  let cyl := if 65535 <? c then 65535 else u16 c in
  buf ← fill_bytes buf 0 0 512;
  buf ← words_le [(0, 0x0040); (1, cyl); (3, 16); (6, 63); (47, 0x8000); (49, 0x0200); (53, 0x0006);
                  (60, u16 (total .& 0xffff)); (61, u16 (total .>> 16)); (64, 0x0001); (80, 0x00f0);
                  (83, 0x4000)] buf;
  buf ← swapped_chars 10 10 (chars "00000000000000000002"%string) buf;
  buf ← swapped_chars 23 4 (chars "1.00    "%string) buf;
  swapped_chars 27 20 (chars "BELLATRIX VIRTUAL HARDDISK              "%string) buf.

(** C: [src/harness/expansions/ata_ide.c] [build_identify_disk] *)
Definition build_identify_disk (ch : Channel) : option Channel :=
  buf ← identify_disk_words (disk_sectors ch) (xfer_buf ch); Some (transfer buf 512 ch).

(** ** Life of a channel *)

(** The allocation succeeds.
    C: [src/harness/expansions/ata_ide.c] [ata_ide_channel_alloc] *)
Definition ata_ide_channel_alloc (ch : Channel) : Channel :=
  ch <| xfer_buf := replicate (Z.to_nat ATA_XFER_BUF_SIZE) 0 |>.

(** C: [src/harness/expansions/ata_ide.c] [ata_ide_channel_reset] *)
Definition ata_ide_channel_reset (ch : Channel) : Channel :=
  ch <| ata_error := 0x01 |> <| ata_status := ATA_STATUS_RDY |> <| lba_mid := ATAPI_SIG_LBA_MID |>
     <| lba_high := ATAPI_SIG_LBA_HIGH |> <| dev_head := 0x00 |> <| features := 0 |> <| sector_count := 0 |>
     <| lba_low := 0 |> <| ata_state := ATA_IDLE |> <| xfer_len := 0 |> <| xfer_pos := 0 |>
     <| atapi_pkt_pos := 0 |>.

(** C: [src/harness/expansions/ata_ide.c] [ata_ide_channel_init] *)
Definition ata_ide_channel_init (ch : Channel) : Channel :=
  ata_ide_channel_reset
    (mkChannel 0 0 0 0 0 0 0 0 ATA_IDLE (xfer_buf ch) 0 0 (replicate 12 0) 0 None None None None 0 0 0).

(** C: [src/harness/expansions/ata_ide.c] [ata_ide_offset_to_reg] *)
Definition ata_ide_offset_to_reg (board_offset : Z) : option Z :=
  if board_offset <? RIPPLE_CS1_OFFSET then None
  else if RIPPLE_CS1_OFFSET + 8 * RIPPLE_NEXT_REG + 2 <=? board_offset then None
  else
    let rel := board_offset - RIPPLE_CS1_OFFSET in
    let reg := rel / RIPPLE_NEXT_REG in
    if 8 <=? reg then if rel <=? 1 then Some 0 else None else Some reg.

(** ** Commands *)

Definition ready (ch : Channel) : Channel := ch <| ata_status := ATA_STATUS_RDY |>.
Definition data_phase (st : AtaRegState) (ch : Channel) : Channel :=
  ch <| ata_state := st |> <| ata_status := ATA_STATUS_RDY .| ATA_STATUS_DRQ |> <| ata_error := 0 |>.

(** A command that fails.
    C: [src/harness/expansions/ata_ide.c]:352-353 [execute_disk_command] *)
Definition abort_command (ch : Channel) : Channel :=
  ch <| ata_error := ATA_ERR_ABRT |> <| ata_status := ATA_STATUS_RDY .| ATA_STATUS_ERR |>.

(** The block the registers address.
    C: [src/harness/expansions/ata_ide.c]:303-306 [execute_disk_command] *)
Definition disk_lba (ch : Channel) : Z :=
  u32 ((dev_head ch .& 0x0f) .<< 24) .| (lba_high ch .<< 16) .| (lba_mid ch .<< 8) .| lba_low ch.

(** C: [src/harness/expansions/ata_ide.c]:301-348 [execute_disk_command] *)
Definition disk_transfer (cmd : Z) (ch : Channel) (w : W) : option (Channel * W) :=
  let lba := disk_lba ch in
  let count := if sector_count ch =? 0 then 256 else sector_count ch in
  if (disk_sectors ch <? u32 (lba + count)) || (ATA_XFER_BUF_SIZE <? count * ATA_SECTOR_SIZE)
  then Some (abort_command ch, w)
  else if cmd =? ATA_CMD_READ_SECTORS then
    match disk_read ch with
    | None => None
    | Some read =>
        '(rc, buf, w) ← read lba count (xfer_buf ch) w;
        let ch := ch <| xfer_buf := buf |> in
        if negb (rc =? 0) then Some (abort_command ch, w)
        else Some (data_phase ATA_DATA_IN (transfer buf (count * ATA_SECTOR_SIZE) ch), w)
    end
  else match disk_write ch with
    | None => Some (abort_command ch, w)
    | Some _ =>
        Some (data_phase ATA_DATA_OUT (transfer (xfer_buf ch) (count * ATA_SECTOR_SIZE)
                (ch <| disk_wr_lba := lba |> <| disk_wr_count := count |>)), w)
    end.

(** C: [src/harness/expansions/ata_ide.c] [execute_disk_command] *)
Definition execute_disk_command (cmd : Z) (ch : Channel) (w : W) : option (Channel * W) :=
  if cmd =? ATA_CMD_DEVICE_RESET then
    let dev := dev_head ch .& ATA_DEV_SLAVE_BIT in
    Some ((ata_ide_channel_reset ch) <| dev_head := dev |> <| lba_mid := 0 |> <| lba_high := 0 |>, w)
  else if cmd =? ATA_CMD_IDENTIFY_DEVICE then
    ch ← build_identify_disk ch; Some (data_phase ATA_DATA_IN ch, w)
  else if cmd =? ATA_CMD_SET_FEATURES then Some ((ready ch) <| ata_error := 0 |>, w)
  else if (cmd =? ATA_CMD_READ_SECTORS) || (cmd =? ATA_CMD_WRITE_SECTORS) then disk_transfer cmd ch w
  else Some (abort_command ch, w).

(** C: [src/harness/expansions/ata_ide.c] [execute_command] *)
Definition execute_command (cmd : Z) (ch : Channel) (w : W) : option (Channel * W) :=
  if ata_selected_dev ch =? 0 then
    if ata_disk_present ch then execute_disk_command cmd ch w
    else Some (abort_command (ch <| lba_mid := 0 |> <| lba_high := 0 |>), w)
  else if cmd =? ATA_CMD_DEVICE_RESET then
    let dev := dev_head ch .& ATA_DEV_SLAVE_BIT in
    let w := match atapi_reset ch with Some reset => reset w | None => w end in
    Some ((ata_ide_channel_reset ch) <| dev_head := dev |>, w)
  else if cmd =? ATA_CMD_IDENTIFY_DEVICE then
    Some (abort_command (ch <| lba_mid := ATAPI_SIG_LBA_MID |> <| lba_high := ATAPI_SIG_LBA_HIGH |>), w)
  else if cmd =? ATA_CMD_IDENTIFY_PACKET then
    ch ← build_identify ch;
    Some ((data_phase ATA_IDENTIFY ch) <| lba_mid := u8 (512 .& 0xff) |> <| lba_high := u8 (512 .>> 8) |>, w)
  else if cmd =? ATA_CMD_PACKET then
    Some ((data_phase ATA_ATAPI_CMD (ch <| atapi_pkt_pos := 0 |>)) <| sector_count := IR_COD |>, w)
  else Some (abort_command ch, w).

(** The packet is complete.
    C: [src/harness/expansions/ata_ide.c] [execute_atapi_packet] *)
Definition execute_atapi_packet (ch : Channel) (w : W) : option (Channel * W) :=
  match atapi_exec ch with
  | None => Some (abort_command ch, w)
  | Some exec =>
      '(rc, buf, data_len, w) ← exec (atapi_pkt ch) (xfer_buf ch) ATA_XFER_BUF_SIZE w;
      let ch := ch <| xfer_buf := buf |> in
      if negb (rc =? 0) || (data_len =? 0) then
        let ch := ch <| ata_state := ATA_IDLE |>
                     <| ata_status := ATA_STATUS_RDY .| (if negb (rc =? 0) then ATA_STATUS_ERR else 0) |> in
        let ch := if negb (rc =? 0) then ch <| ata_error := ATA_ERR_ABRT |> else ch in
        Some (ch <| sector_count := IR_IO .| IR_COD |>, w)
      else
        let bc := if 0xfffe <? data_len then 0xfffe else u16 data_len in
        Some ((data_phase ATA_ATAPI_DATA_IN (transfer buf data_len ch))
                <| lba_mid := u8 (bc .& 0xff) |> <| lba_high := u8 (bc .>> 8) |> <| sector_count := IR_IO |>, w)
  end.

(** ** The registers *)

(** C: [src/harness/expansions/ata_ide.c] [ata_ide_read8] *)
Definition ata_ide_read8 (reg : Z) (ch : Channel) : Z :=
  if reg =? 0 then 0xff
  else if reg =? 1 then ata_error ch
  else if reg =? 2 then sector_count ch
  else if reg =? 3 then lba_low ch
  else if reg =? 4 then lba_mid ch
  else if reg =? 5 then lba_high ch
  else if reg =? 6 then dev_head ch .| 0xa0
  else if reg =? 7 then ata_status ch else 0xff.

Definition sends_data (st : AtaRegState) : bool :=
  match st with ATA_IDENTIFY | ATA_ATAPI_DATA_IN | ATA_DATA_IN => true | _ => false end.

(** The last word of a transfer to the host was read.
    C: [src/harness/expansions/ata_ide.c]:540-552 [ata_ide_read16] *)
Definition data_in_done (ch : Channel) : Channel :=
  let ch := match ata_state ch with
            | ATA_ATAPI_DATA_IN => (ready (ch <| ata_state := ATA_IDLE |>)) <| sector_count := IR_IO .| IR_COD |>
            | _ => ready (ch <| ata_state := ATA_IDLE |>)
            end in
  ch <| xfer_len := 0 |> <| xfer_pos := 0 |>.

(** C: [src/harness/expansions/ata_ide.c] [ata_ide_read16] *)
Definition ata_ide_read16 (reg : Z) (ch : Channel) : option (Z * Channel) :=
  if negb (reg =? 0) then Some (ata_ide_read8 reg ch, ch)
  else if sends_data (ata_state ch) && (xfer_pos ch + 1 <? xfer_len ch) then
    lo ← xfer_buf ch !! Z.to_nat (xfer_pos ch);
    hi ← xfer_buf ch !! Z.to_nat (xfer_pos ch + 1);
    let ch := ch <| xfer_pos := xfer_pos ch + 2 |> in
    let word := u16 (u16 (lo .<< 8) .| hi) in
    Some (word, if xfer_len ch <=? xfer_pos ch then data_in_done ch else ch)
  else Some (0xffff, ch).

(** C: [src/harness/expansions/ata_ide.c] [ata_ide_write8] *)
Definition ata_ide_write8 (reg value : Z) (ch : Channel) (w : W) : option (Channel * W) :=
  if reg =? 1 then Some (ch <| features := value |>, w)
  else if reg =? 2 then Some (ch <| sector_count := value |>, w)
  else if reg =? 3 then Some (ch <| lba_low := value |>, w)
  else if reg =? 4 then Some (ch <| lba_mid := value |>, w)
  else if reg =? 5 then Some (ch <| lba_high := value |>, w)
  else if reg =? 6 then Some (ch <| dev_head := value |>, w)
  else if reg =? 7 then execute_command value ch w
  else Some (ch, w).

(** The last word of a transfer to the disk was written.
    C: [src/harness/expansions/ata_ide.c]:599-610 [ata_ide_write16] *)
Definition data_out_done (ch : Channel) (w : W) : option (Channel * W) :=
  match disk_write ch with
  | None => None
  | Some write =>
      '(rc, w) ← write (disk_wr_lba ch) (disk_wr_count ch) (xfer_buf ch) w;
      Some (ch <| ata_state := ATA_IDLE |> <| xfer_len := 0 |> <| xfer_pos := 0 |>
               <| ata_status := ATA_STATUS_RDY .| (if negb (rc =? 0) then ATA_STATUS_ERR else 0) |>
               <| ata_error := if negb (rc =? 0) then ATA_ERR_ABRT else 0 |>, w)
  end.

(** C: [src/harness/expansions/ata_ide.c] [ata_ide_write16] *)
Definition ata_ide_write16 (reg value : Z) (ch : Channel) (w : W) : option (Channel * W) :=
  let lo := u8 (value .& 0xff) in
  let hi := u8 (value .>> 8) in
  if negb (reg =? 0) then ata_ide_write8 reg lo ch w
  else match ata_state ch with
  | ATA_DATA_OUT =>
      if xfer_pos ch + 1 <? xfer_len ch then
        buf ← store8 (xfer_buf ch) (xfer_pos ch) hi;
        buf ← store8 buf (xfer_pos ch + 1) lo;
        let ch := ch <| xfer_buf := buf |> <| xfer_pos := xfer_pos ch + 2 |> in
        if xfer_len ch <=? xfer_pos ch then data_out_done ch w else Some (ch, w)
      else Some (ch, w)
  | ATA_ATAPI_CMD =>
      if atapi_pkt_pos ch <? 12 then
        pkt ← store8 (atapi_pkt ch) (atapi_pkt_pos ch) hi;
        let ch := ch <| atapi_pkt := pkt |> <| atapi_pkt_pos := atapi_pkt_pos ch + 1 |> in
        ch ← (if atapi_pkt_pos ch <? 12 then
                pkt ← store8 (atapi_pkt ch) (atapi_pkt_pos ch) lo;
                Some (ch <| atapi_pkt := pkt |> <| atapi_pkt_pos := atapi_pkt_pos ch + 1 |>)
              else Some ch);
        if 12 <=? atapi_pkt_pos ch then execute_atapi_packet ch w else Some (ch, w)
      else Some (ch, w)
  | _ => Some (ch, w)
  end.

End operations.
