(* ===== verification/Fastram.v ===== *)
(** * The memory board of the host program: [harness/expansions/fastram.c],
      [zorro.c]

    A Zorro II board: the sixteen bytes that identify it, seen a nibble at a time
    through the configuration window, and its memory.  An access outside the
    memory is [None].  The allocation of the board succeeds. *)

From S2P Require Import Prelude Bytes HostBytes.

(** ** Autoconfig *)

(** C: [src/harness/expansions/zorro.h]:20-21 [ZORRO_AC_ROM_BYTES] *)
Definition ZORRO_AC_ROM_BYTES := 16.
Definition ZORRO_AC_DATA_SIZE := 64.
(** C: [src/harness/expansions/zorro.h]:24-25 [ZORRO_AC_OFF_BASE_HI] *)
Definition ZORRO_AC_OFF_BASE_HI := 0x48.
Definition ZORRO_AC_OFF_SHUTUP := 0x4c.

(** C: [src/harness/expansions/zorro.c] [zorro_autoconfig_build] *)
Definition zorro_autoconfig_build (out bytes : list Z) : option (list Z) :=
  out ← fill_bytes out 0 0x00 ZORRO_AC_DATA_SIZE;
  loop 0 (Z.to_nat ZORRO_AC_ROM_BYTES) (fun i out =>
    let b := if i =? 0 then rd8 bytes i else u8 (~~ (rd8 bytes i)) in
    out ← store8 out (i * 4) (u8 (b .& 0xf0));
    store8 out (i * 4 + 2) (u8 ((b .& 0x0f) .<< 4))) out.

(** ** The board *)

(** C: [src/harness/expansions/fastram.c]:10-13 [AC_TYPE_Z2] *)
Definition AC_TYPE_Z2 := 0xc0.
Definition AC_TYPE_MEMLIST := 0x20.

(** C: [src/harness/expansions/fastram.c] [size_code] *)
Definition size_code (bytes : Z) : Z :=
  if 8 * 1024 * 1024 <=? bytes then 0x00
  else if 4 * 1024 * 1024 <=? bytes then 0x07
  else if 2 * 1024 * 1024 <=? bytes then 0x06
  else 0x05.

(** C: [src/harness/expansions/fastram.c]:24-32 [fastram_board] *)
Record fastram_board := mkFastram {
  fr_config : list Z; fr_configured : bool; fr_shutup : bool; fr_base : Z; fr_ram : list Z; fr_size : Z;
}.

#[export] Instance eta_fastram : Eta fastram_board := fun b =>
  mkFastram (fr_config b) (fr_configured b) (fr_shutup b) (fr_base b) (fr_ram b) (fr_size b).

(** The bytes that identify the board.
    C: [src/harness/expansions/fastram.c]:53-58 [fastram_create] *)
Definition fastram_identity (size : Z) : list Z :=
  [u8 (AC_TYPE_Z2 .| AC_TYPE_MEMLIST .| size_code size); 0x01; 0; 0; 0x07; 0xdb; 0; 0; 0; 0x01; 0; 0; 0; 0; 0; 0].

(** [None] is the null pointer for a size that does not exist.
    C: [src/harness/expansions/fastram.c] [fastram_create] *)
Definition fastram_create (megabytes : Z) : option fastram_board :=
  if negb (megabytes =? 1) && negb (megabytes =? 2) && negb (megabytes =? 4) && negb (megabytes =? 8) then None
  else
    let size := megabytes * 1024 * 1024 in
    config ← zorro_autoconfig_build (replicate (Z.to_nat ZORRO_AC_DATA_SIZE) 0) (fastram_identity size);
    Some (mkFastram config false false 0 (replicate (Z.to_nat size) 0) size).

(** C: [src/harness/expansions/fastram.c] [fastram_pending] *)
Definition fastram_pending (b : fastram_board) : bool := negb (fr_configured b) && negb (fr_shutup b).

(** C: [src/harness/expansions/fastram.c] [fastram_ac_read] *)
Definition fastram_ac_read (off : Z) (b : fastram_board) : Z :=
  if ZORRO_AC_DATA_SIZE <=? off then 0xff else rd8 (fr_config b) off.

(** C: [src/harness/expansions/fastram.c] [fastram_ac_write] *)
Definition fastram_ac_write (off value : Z) (b : fastram_board) : fastram_board :=
  if off =? ZORRO_AC_OFF_BASE_HI then
    b <| fr_base := u32 ((value .& 0xff) .<< 16) |> <| fr_configured := true |>
  else if off =? ZORRO_AC_OFF_SHUTUP then b <| fr_shutup := true |> else b.

(** C: [src/harness/expansions/fastram.c] [fastram_force_configure] *)
Definition fastram_force_configure (base : Z) (b : fastram_board) : fastram_board :=
  if fr_configured b then b else b <| fr_base := base |> <| fr_configured := true |>.

(** C: [src/harness/expansions/fastram.c] [fastram_owns] *)
Definition fastram_owns (addr : Z) (b : fastram_board) : bool :=
  fr_configured b && (fr_base b <=? addr) && (addr <? u32 (fr_base b + fr_size b)).

(** C: [src/harness/expansions/fastram.c] [fastram_read] *)
Definition fastram_read (addr size : Z) (b : fastram_board) : option Z :=
  let off := u32 (addr - fr_base b) in
  let byte i := fr_ram b !! Z.to_nat (u32 (off + i)) in
  if size =? 1 then byte 0
  else if fr_size b <=? u32 (off + 1) then Some 0xffffffff
  else if size =? 2 then
    b0 ← byte 0; b1 ← byte 1; Some ((b0 .<< 8) .| b1)
  else if fr_size b <=? u32 (off + 3) then Some 0xffffffff
  else
    b0 ← byte 0; b1 ← byte 1; b2 ← byte 2; b3 ← byte 3;
    Some (u32 (b0 .<< 24) .| (b1 .<< 16) .| (b2 .<< 8) .| b3).

(** C: [src/harness/expansions/fastram.c] [fastram_write] *)
Definition fastram_write (addr value size : Z) (b : fastram_board) : option fastram_board :=
  let off := u32 (addr - fr_base b) in
  let put i v ram := store8 ram (u32 (off + i)) v in
  let with_ram o := ram ← o; Some (b <| fr_ram := ram |>) in
  if size =? 1 then with_ram (put 0 (u8 value) (fr_ram b))
  else if fr_size b <=? u32 (off + 1) then Some b
  else if size =? 2 then
    with_ram (ram ← put 0 (u8 (value .>> 8)) (fr_ram b); put 1 (u8 value) ram)
  else if fr_size b <=? u32 (off + 3) then Some b
  else
    with_ram (ram ← put 0 (u8 (value .>> 24)) (fr_ram b); ram ← put 1 (u8 (value .>> 16)) ram;
              ram ← put 2 (u8 (value .>> 8)) ram; put 3 (u8 value) ram).
