(* ===== verification/Lide.v ===== *)
(** * The disk board of the host program: [harness/expansions/lide.c]

    A Zorro II board with an IDE channel ([Ata]) that carries a hard disk (an
    image file in sectors of 512 bytes) and a CD-ROM drive ([Atapi], an image file
    in sectors of 2048 bytes), and with the driver in a ROM window.  A host file
    is its bytes: reading at an offset gives the bytes that are there, writing
    extends the file if necessary and never fails.  Traffic counters and log
    output are left out. *)

From S2P Require Import Prelude Bytes HostBytes Fastram Atapi Ata.

(** C: [src/harness/expansions/lide.h]:31-31 [LIDE_WINDOW_SIZE] *)
Definition LIDE_WINDOW_SIZE := 0x020000.

(** C: [src/harness/expansions/lide.c]:23-30 [ROM_HDR_END] *)
Definition ROM_HDR_END := 0x0004.
Definition ROM_NIBBLE_END := 0x1000.
Definition ROM_DEVICE_BOARD := 0x2000.
Definition ROM_DEVICE_FILE := 0x1000.
Definition ODFS_BANK_BASE := 0x10000.
Definition ODFS_BANK_END := 0x20000.

(** ** Media *)

(** C: [src/harness/expansions/lide.c]:58-62 [media_file] *)
Record media_file := mkMedia { fp : option (list Z); sectors : Z; media_present : bool }.

#[export] Instance eta_media : Eta media_file := fun m => mkMedia (fp m) (sectors m) (media_present m).

(** [file] is what [fopen] opens at the path, if anything.  A failure leaves the
    medium without a file, but present if it was.
    C: [src/harness/expansions/lide.c] [media_open] *)
Definition media_open (file : option (list Z)) (sector_size : Z) (m : media_file) : bool * media_file :=
  match file with
  | None => (false, m <| fp := None |>)
  | Some f =>
      if Z.of_nat (length f) <=? 0 then (false, m <| fp := None |>)
      else (true, mkMedia (Some f) (u32 (Z.of_nat (length f) / sector_size)) true)
  end.

(** The return code and the buffer.
    C: [src/harness/expansions/lide.c] [media_read] *)
Definition media_read (m : media_file) (sector_size lba count : Z) (buf : list Z) : option (Z * list Z) :=
  match fp m with
  | Some f =>
      if negb (media_present m) then Some (-1, buf)
      else
        let want := count * sector_size in
        let data := slice f (lba * sector_size) want in
        buf ← store_bytes buf 0 data;
        Some (if Z.of_nat (length data) =? want then 0 else -1, buf)
  | None => Some (-1, buf)
  end.

(** Bytes written into a file at an offset.
    C: [src/harness/expansions/lide.c]:132-133 [hdf_write] *)
Definition file_write (f : list Z) (off : Z) (data : list Z) : list Z :=
  let n := Z.to_nat off in
  take n f ++ replicate (n - length f) 0 ++ data ++ drop (n + length data) f.

(** C: [src/harness/expansions/lide.c] [iso_present] *)
Definition iso_present (m : media_file) : bool := media_present m.

(** C: [src/harness/expansions/lide.c] [iso_read_sectors] *)
Definition iso_read_sectors (m : media_file) (lba count : Z) (buf : list Z) : option (Z * list Z) :=
  media_read m ATAPI_SECTOR_SIZE lba count buf.

(** C: [src/harness/expansions/lide.c] [iso_sector_count] *)
Definition iso_sector_count (m : media_file) : Z := sectors m.

(** C: [src/harness/expansions/lide.c]:113-117 [g_iso_ops] *)
Definition g_iso_ops : AtapiMediaOps media_file := mkOps iso_present iso_read_sectors iso_sector_count.

(** What the channel's callbacks reach: the drive, its disc, the hard disk. *)
Record lide_media := mkLideMedia { atapi : AtapiCdromState media_file; iso : media_file; hdf : media_file }.

#[export] Instance eta_lide_media : Eta lide_media := fun m => mkLideMedia (atapi m) (iso m) (hdf m).

(** C: [src/harness/expansions/lide.c] [hdf_read] *)
Definition hdf_read (lba count : Z) (buf : list Z) (w : lide_media) : option (Z * list Z * lide_media) :=
  '(rc, buf) ← media_read (hdf w) 512 lba count buf; Some (rc, buf, w).

(** C: [src/harness/expansions/lide.c] [hdf_write] *)
Definition hdf_write (lba count : Z) (buf : list Z) (w : lide_media) : option (Z * lide_media) :=
  let m := hdf w in
  let want := count * 512 in
  match fp m with
  | Some f =>
      if negb (media_present m) then Some (-1, w)
      else if Z.of_nat (length buf) <? want then None
      else Some (0, w <| hdf := m <| fp := Some (file_write f (lba * 512) (slice buf 0 want)) |> |>)
  | None => Some (-1, w)
  end.

(** ** The board *)

(** C: [src/harness/expansions/lide.c]:142-171 [lide_board] *)
Record lide_board := mkLide {
  ide : AtaIdeChannel lide_media; ide_media : lide_media;
  lb_config : list Z; lb_configured : bool; lb_shutup : bool; lb_base : Z;
  lb_rom : list Z; odfs : option (list Z);
}.

#[export] Instance eta_lide : Eta lide_board := fun b =>
  mkLide (ide b) (ide_media b) (lb_config b) (lb_configured b) (lb_shutup b) (lb_base b) (lb_rom b) (odfs b).

(** The identity of the board: er_Type (Zorro II, diagnostic ROM, 128 KB), the
    product and the manufacturer 0x144A, serial 1, the diagnostic vector.
    C: [src/harness/expansions/lide.c]:175-183 [lide_create] *)
Definition lide_identity : list Z :=
  [AC_TYPE_Z2 .| 0x10 .| 0x02; 0x07; 0x00; 0x00; 0x14; 0x4a; 0x00; 0x00; 0x00; 0x01; 0x00; 0x04;
   0x00; 0x00; 0x00; 0x00].

Section board.
Context (bootable : bool).

(** The callbacks of the drive. *)
Definition lide_atapi_exec (pkt buf : list Z) (max : Z) (w : lide_media) : option (Z * list Z * Z * lide_media) :=
  '(rc, buf, len, s) ← atapi_cdrom_exec bootable (iso w) pkt buf max (atapi w);
  Some (rc, buf, len, w <| atapi := s |>).

Definition lide_atapi_reset (w : lide_media) : lide_media := w <| atapi := atapi_cdrom_reset (iso w) (atapi w) |>.

(** A channel before its initialisation, with its buffer. *)
Definition lide_channel : AtaIdeChannel lide_media :=
  ata_ide_channel_init (ata_ide_channel_alloc
    (mkChannel 0 0 0 0 0 0 0 0 ATA_IDLE [] 0 0 (replicate 12 0) 0 None None None None 0 0 0)).

(** [rom_file] is what [fopen] opens; [None] is the null pointer.
    C: [src/harness/expansions/lide.c] [lide_create] *)
Definition lide_create (rom_file : option (list Z)) : option lide_board :=
  rom ← rom_file;
  if Z.of_nat (length rom) <=? 0 then None
  else
    config ← zorro_autoconfig_build (replicate (Z.to_nat ZORRO_AC_DATA_SIZE) 0) lide_identity;
    let w := mkLideMedia (atapi_cdrom_init g_iso_ops) (mkMedia None 0 false) (mkMedia None 0 false) in
    Some (mkLide (lide_channel <| atapi_exec := Some lide_atapi_exec |> <| atapi_reset := Some lide_atapi_reset |>)
            w config false false 0 rom None).

(** C: [src/harness/expansions/lide.c] [lide_attach_hdf] *)
Definition lide_attach_hdf (file : option (list Z)) (b : lide_board) : bool * lide_board :=
  match media_open file 512 (hdf (ide_media b)) with
  | (false, m) => (false, b <| ide_media := (ide_media b) <| hdf := m |> |>)
  | (true, m) =>
      (true, b <| ide_media := (ide_media b) <| hdf := m |> |>
               <| ide := ata_ide_channel_reset
                    ((ide b) <| disk_read := Some hdf_read |> <| disk_write := Some hdf_write |>
                             <| disk_sectors := sectors m |>) |>)
  end.

(** C: [src/harness/expansions/lide.c] [lide_attach_iso] *)
Definition lide_attach_iso (file : option (list Z)) (b : lide_board) : bool * lide_board :=
  let w := ide_media b in
  match media_open file ATAPI_SECTOR_SIZE (iso w) with
  | (false, m) => (false, b <| ide_media := w <| iso := m |> |>)
  | (true, m) =>
      (true, b <| ide_media := w <| iso := m |> <| atapi := atapi_cdrom_insert (atapi w) |> |>
               <| ide := ata_ide_channel_reset (ide b) |>)
  end.

(** C: [src/harness/expansions/lide.c] [lide_load_odfs] *)
Definition lide_load_odfs (file : option (list Z)) (b : lide_board) : bool * lide_board :=
  match file with
  | Some f => if Z.of_nat (length f) <=? 0 then (false, b) else (true, b <| odfs := Some f |>)
  | None => (false, b)
  end.

(** C: [src/harness/expansions/lide.c] [lide_reset] *)
Definition lide_reset (b : lide_board) : lide_board :=
  b <| lb_configured := false |> <| lb_shutup := false |> <| lb_base := 0 |>
    <| ide := ata_ide_channel_reset (ide b) |> <| ide_media := lide_atapi_reset (ide_media b) |>.

(** C: [src/harness/expansions/lide.c] [lide_owns] *)
Definition lide_owns (addr : Z) (b : lide_board) : bool :=
  lb_configured b && (lb_base b <=? addr) && (addr <? u32 (lb_base b + LIDE_WINDOW_SIZE)).

(** C: [src/harness/expansions/lide.c] [lide_pending] *)
Definition lide_pending (b : lide_board) : bool := negb (lb_configured b) && negb (lb_shutup b).

(** C: [src/harness/expansions/lide.c] [lide_ac_read] *)
Definition lide_ac_read (off : Z) (b : lide_board) : Z :=
  if ZORRO_AC_DATA_SIZE <=? off then 0xff else rd8 (lb_config b) off.

(** C: [src/harness/expansions/lide.c] [lide_ac_write] *)
Definition lide_ac_write (off value : Z) (b : lide_board) : lide_board :=
  if off =? ZORRO_AC_OFF_BASE_HI then
    b <| lb_base := u32 ((value .& 0xff) .<< 16) |> <| lb_configured := true |>
  else if off =? ZORRO_AC_OFF_SHUTUP then b <| lb_shutup := true |> else b.

(** ** The ROM window *)

Definition byte_or_ff (l : list Z) (i : Z) : Z := default 0xff (l !! Z.to_nat i).

(** C: [src/harness/expansions/lide.c] [rom_byte] *)
Definition rom_byte (b : lide_board) (off : Z) : Z :=
  if off <? ROM_HDR_END then byte_or_ff (lb_rom b) off
  else if off <? ROM_NIBBLE_END then
    let rel := off - ROM_HDR_END in
    let phase := rel .& 3 in
    let nidx := rel .>> 2 in
    if phase =? 0 then byte_or_ff (lb_rom b) (ROM_HDR_END + nidx * 2)
    else if phase =? 2 then byte_or_ff (lb_rom b) (ROM_HDR_END + nidx * 2 + 1)
    else 0xff
  else if off <? ROM_DEVICE_BOARD then 0xff
  else if negb (off .& 1 =? 0) then 0xff
  else byte_or_ff (lb_rom b) (ROM_DEVICE_FILE + ((off - ROM_DEVICE_BOARD) .>> 1)).

(** C: [src/harness/expansions/lide.c] [odfs_byte] *)
Definition odfs_byte (odfs : list Z) (off : Z) : Z :=
  let rel := u32 (off - ODFS_BANK_BASE) in
  if negb (rel .& 1 =? 0) then 0xff else byte_or_ff odfs (rel .>> 1).

(** ** The bus *)

(** What is not a register of the channel.
    C: [src/harness/expansions/lide.c]:425-457 [lide_read] *)
Definition lide_rom_read (off size : Z) (b : lide_board) : Z :=
  match odfs b with
  | Some f =>
      if (ODFS_BANK_BASE <=? off) && (off <? ODFS_BANK_END) then
        let b0 := odfs_byte f off in
        if size =? 1 then b0
        else if size =? 2 then (b0 .<< 8) .| odfs_byte f (u32 (off + 1))
        else 0xffffffff
      else
        let b0 := rom_byte b off in
        if size =? 1 then b0
        else if size =? 2 then (b0 .<< 8) .| rom_byte b (u32 (off + 1)) else 0xffffffff
  | None =>
      let b0 := rom_byte b off in
      if size =? 1 then b0
      else if size =? 2 then (b0 .<< 8) .| rom_byte b (u32 (off + 1)) else 0xffffffff
  end.

(** C: [src/harness/expansions/lide.c] [lide_read] *)
Definition lide_read (addr size : Z) (b : lide_board) : option (Z * lide_board) :=
  if negb (lb_configured b) then Some (0xffffffff, b)
  else
    let off := u32 (addr - lb_base b) in
    match ata_ide_offset_to_reg off with
    | Some reg =>
        if (reg =? 0) && (size =? 4) then
          '(hi, ch) ← ata_ide_read16 0 (ide b);
          '(lo, ch) ← ata_ide_read16 0 ch;
          Some (u32 (hi .<< 16) .| lo, b <| ide := ch |>)
        else if (reg =? 0) && (size =? 2) then
          '(v, ch) ← ata_ide_read16 0 (ide b); Some (v, b <| ide := ch |>)
        else Some (ata_ide_read8 reg (ide b), b)
    | None => Some (lide_rom_read off size b, b)
    end.

(** C: [src/harness/expansions/lide.c] [lide_write] *)
Definition lide_write (addr value size : Z) (b : lide_board) : option lide_board :=
  if negb (lb_configured b) then Some b
  else
    let off := u32 (addr - lb_base b) in
    let put o := '(ch, w) ← o; Some (b <| ide := ch |> <| ide_media := w |>) in
    match ata_ide_offset_to_reg off with
    | Some reg =>
        if (reg =? 0) && (size =? 4) then
          put ('(ch, w) ← ata_ide_write16 0 (u16 (value .>> 16)) (ide b) (ide_media b);
               ata_ide_write16 0 (u16 (value .& 0xffff)) ch w)
        else if (reg =? 0) && (size =? 2) then put (ata_ide_write16 0 (u16 value) (ide b) (ide_media b))
        else put (ata_ide_write8 reg (u8 value) (ide b) (ide_media b))
    | None => Some b
    end.

End board.
