(* ===== verification/AtaFacts.v ===== *)
(** * The IDE channel and the CD-ROM drive stay in their buffers

    The invariant of a channel whose callbacks behave, kept by every access to its
    registers, and that no access leaves the transfer buffer or the packet.  Every
    packet command of the drive writes inside the capacity it is given. *)

From Stdlib Require Import String.
From S2P Require Import Prelude Bytes HostBytes Atapi Ata.

(** ** The identification *)

Lemma stores_word n i v q : 0 <= i -> 2 * i + 1 < Z.of_nat n -> buffer n q -> stores n (word_le i v q).
Proof.
  intros Hi Hl Hq. unfold word_le. apply stores_bind.
  - apply stores_store8; [lia|width|done].
  - intros p Hp. apply stores_store8; [lia|width|done].
Qed.

Lemma stores_words n l q :
  Forall (fun p => 0 <= p.1 /\ 2 * p.1 + 1 < Z.of_nat n) l -> buffer n q -> stores n (words_le l q).
Proof.
  intros Hl Hq. unfold words_le. apply stores_foldl; [by apply stores_some|].
  eapply Forall_impl; [exact Hl|]. intros [i v] [H1 H2] p Hp. by apply stores_word.
Qed.

Lemma stores_chars n base k s q :
  0 <= base -> 2 * (base + k) <= Z.of_nat n -> bytes s -> buffer n q -> stores n (swapped_chars base k s q).
Proof.
  intros Hb Hk Hs Hq. unfold swapped_chars. apply stores_foldl; [by apply stores_some|].
  apply Forall_forall. intros i Hi%elem_of_seqZ p Hp. apply stores_bind.
  - apply stores_store8; [lia|by apply rd8_u8|done].
  - intros p' Hp'. apply stores_store8; [lia|by apply rd8_u8|done].
Qed.

(** The stores of an identification. *)
Ltac identify_steps :=
  repeat lazymatch goal with
  | |- stores _ (mbind _ _) => apply stores_bind; [|intros ? ?]
  | |- stores _ (words_le _ _) => apply stores_words; [repeat apply Forall_cons_2; first [apply Forall_nil_2|cbn [fst]; lia]|assumption]
  | |- stores _ (swapped_chars _ _ _ _) => apply stores_chars; [lia|lia|apply chars_bytes|assumption]
  | |- stores _ _ => progress store_steps
  end.

(** ** The invariant *)

(** The size of the transfer buffer as a sealed number, which nothing unfolds. *)
Lemma transfer_buffer : { n : nat | Z.of_nat n = ATA_XFER_BUF_SIZE }.
Proof. exists (Z.to_nat ATA_XFER_BUF_SIZE). apply Z2Nat.id. unfold ATA_XFER_BUF_SIZE, ATA_XFER_BUF_SECTORS. lia. Qed.

Definition BUF : nat := proj1_sig transfer_buffer.

Lemma BUF_size : Z.of_nat BUF = ATA_XFER_BUF_SIZE.
Proof. exact (proj2_sig transfer_buffer). Qed.

Lemma buffer_size : ATA_XFER_BUF_SIZE = 524288.
Proof. reflexivity. Qed.

Lemma BUF_large : 524288 <= Z.of_nat BUF <= 524288.
Proof. rewrite BUF_size, buffer_size. lia. Qed.

(** A request the disk may get. *)
Definition in_disk (n lba count : Z) : Prop := 0 <= lba /\ 1 <= count <= 256 /\ lba + count <= n.

Section safety.
Context {W : Type} (I : W -> Prop).
#[local] Abbreviation Channel := (AtaIdeChannel W).

(** What the channel expects of its callbacks: they stay in the buffer they are
    given and keep [I]. *)
Record callbacks_ok (ch : Channel) : Prop := {
  cb_exec : forall f, atapi_exec ch = Some f -> forall pkt buf w,
    length pkt = 12%nat -> bytes pkt -> buffer BUF buf -> I w ->
    exists rc buf' len w', f pkt buf ATA_XFER_BUF_SIZE w = Some (rc, buf', len, w') /\ buffer BUF buf' /\
      0 <= len <= ATA_XFER_BUF_SIZE /\ I w';
  cb_reset : forall f, atapi_reset ch = Some f -> forall w, I w -> I (f w);
  cb_read : forall f, disk_read ch = Some f -> forall lba count buf w,
    in_disk (disk_sectors ch) lba count -> buffer BUF buf -> I w ->
    exists rc buf' w', f lba count buf w = Some (rc, buf', w') /\ buffer BUF buf' /\ I w';
  cb_write : forall f, disk_write ch = Some f -> forall lba count buf w,
    in_disk (disk_sectors ch) lba count -> buffer BUF buf -> I w ->
    exists rc w', f lba count buf w = Some (rc, w') /\ I w';
}.

(** The registers, the buffers, the transfer in progress. *)
Record channel_ok (ch : Channel) : Prop := {
  co_regs : is_u8 (features ch) /\ is_u8 (sector_count ch) /\ is_u8 (lba_low ch) /\ is_u8 (lba_mid ch) /\
            is_u8 (lba_high ch) /\ is_u8 (dev_head ch) /\ is_u8 (ata_error ch) /\ is_u8 (ata_status ch);
  co_buf : buffer BUF (xfer_buf ch);
  co_xfer : 0 <= xfer_pos ch /\ 0 <= xfer_len ch <= ATA_XFER_BUF_SIZE;
  co_pkt : length (atapi_pkt ch) = 12%nat /\ bytes (atapi_pkt ch) /\ 0 <= atapi_pkt_pos ch <= 12;
  co_out : ata_state ch = ATA_DATA_OUT ->
           is_Some (disk_write ch) /\ in_disk (disk_sectors ch) (disk_wr_lba ch) (disk_wr_count ch);
  co_sectors : is_u32 (disk_sectors ch);
}.

(** The callbacks do not change. *)
Definition same_callbacks (a b : Channel) : Prop :=
  atapi_exec b = atapi_exec a /\ atapi_reset b = atapi_reset a /\ disk_read b = disk_read a /\
  disk_write b = disk_write a /\ disk_sectors b = disk_sectors a.

Lemma same_callbacks_ok a b : same_callbacks a b -> callbacks_ok a -> callbacks_ok b.
Proof. intros (E1 & E2 & E3 & E4 & E5) [H1 H2 H3 H4]. split; rewrite ?E1, ?E2, ?E3, ?E4, ?E5; done. Qed.

Lemma same_callbacks_trans a b c : same_callbacks a b -> same_callbacks b c -> same_callbacks a c.
Proof. unfold same_callbacks. intros (-> & -> & -> & -> & ->). naive_solver congruence. Qed.

(** The result of an access: the channel and the context are as before. *)
Definition keeps (ch : Channel) (o : option (Channel * W)) : Prop :=
  exists ch' w', o = Some (ch', w') /\ channel_ok ch' /\ same_callbacks ch ch' /\ I w'.

Lemma keeps_some ch ch' w : channel_ok ch' -> same_callbacks ch ch' -> I w -> keeps ch (Some (ch', w)).
Proof. intros H1 H2 H3. by exists ch', w. Qed.

(** A change of the registers alone. *)
Ltac channel_solve :=
  lazymatch goal with
  | H : channel_ok _ |- _ =>
      destruct H as [(? & ? & ? & ? & ? & ? & ? & ?) ? [? ?] (? & ? & ?) ? ?];
      split; cbn; [split_and!|..]; try done; try width; try (split_and!; (done || lia))
  end.

Lemma reset_channel_ok ch : channel_ok ch -> channel_ok (ata_ide_channel_reset ch).
Proof. intros H. channel_solve. Qed.

Lemma abort_ok ch : channel_ok ch -> channel_ok (abort_command ch).
Proof. intros H. channel_solve. Qed.

Lemma with_buffer_ok ch buf : buffer BUF buf -> channel_ok ch -> channel_ok (ch <| xfer_buf := buf |>).
Proof. intros Hb H. channel_solve. Qed.

Lemma with_dev_ok dev ch : is_u8 dev -> channel_ok ch -> channel_ok (ch <| dev_head := dev |>).
Proof. intros Hd H. channel_solve. Qed.

Lemma with_lba_ok mid high ch :
  is_u8 mid -> is_u8 high -> channel_ok ch -> channel_ok (ch <| lba_mid := mid |> <| lba_high := high |>).
Proof. intros Hm Hh H. channel_solve. Qed.

Lemma with_atapi_ok exec reset ch :
  channel_ok ch -> channel_ok (ch <| atapi_exec := exec |> <| atapi_reset := reset |>).
Proof. intros H. channel_solve. Qed.

(** A new disk, and the reset that follows. *)
Lemma new_disk_ok rd wr n ch :
  is_u32 n -> channel_ok ch ->
  channel_ok (ata_ide_channel_reset (ch <| disk_read := rd |> <| disk_write := wr |> <| disk_sectors := n |>)).
Proof. intros Hn H. channel_solve. Qed.

Lemma with_count_ok n ch : is_u8 n -> channel_ok ch -> channel_ok (ch <| sector_count := n |>).
Proof. intros Hn H. channel_solve. Qed.

Lemma data_in_ok st buf len ch :
  st <> ATA_DATA_OUT -> buffer BUF buf -> 0 <= len <= ATA_XFER_BUF_SIZE -> channel_ok ch ->
  channel_ok (data_phase st (transfer buf len ch)).
Proof. intros Hs Hb Hl H. channel_solve. Qed.

Lemma identify_stores n q : 512 <= Z.of_nat n -> buffer n q -> stores n (identify_words q).
Proof. intros Hn H. unfold identify_words. identify_steps. Qed.

Lemma identify_disk_stores n total q : 512 <= Z.of_nat n -> buffer n q -> stores n (identify_disk_words total q).
Proof. intros Hn H. unfold identify_disk_words. cbv zeta. identify_steps. Qed.

Lemma build_identify_ok st ch :
  st <> ATA_DATA_OUT -> channel_ok ch ->
  exists ch', build_identify ch = Some ch' /\ channel_ok (data_phase st ch') /\ same_callbacks ch ch'.
Proof.
  intros Hs H. destruct (identify_stores BUF (xfer_buf ch)) as (q & E & Hq).
  { pose proof BUF_large. lia. } { apply (co_buf _ H). }
  unfold build_identify. rewrite E. eexists. split; [done|]. split; [|done].
  apply data_in_ok; [done|done|rewrite buffer_size; lia|done].
Qed.

Lemma build_identify_disk_ok st ch :
  st <> ATA_DATA_OUT -> channel_ok ch ->
  exists ch', build_identify_disk ch = Some ch' /\ channel_ok (data_phase st ch') /\ same_callbacks ch ch'.
Proof.
  intros Hs H. destruct (identify_disk_stores BUF (disk_sectors ch) (xfer_buf ch)) as (q & E & Hq).
  { pose proof BUF_large. lia. } { apply (co_buf _ H). }
  unfold build_identify_disk. rewrite E. eexists. split; [done|]. split; [|done].
  apply data_in_ok; [done|done|rewrite buffer_size; lia|done].
Qed.

(** The request a command makes is inside the disk, or the command is refused. *)
Lemma request_in_disk ch :
  channel_ok ch ->
  let count := if sector_count ch =? 0 then 256 else sector_count ch in
  (disk_sectors ch <? u32 (disk_lba ch + count)) || (ATA_XFER_BUF_SIZE <? count * ATA_SECTOR_SIZE) = false ->
  in_disk (disk_sectors ch) (disk_lba ch) count.
Proof.
  intros [(_ & Hs & Hl & Hm & Hh & _) _ _ _ _ Hn] count. rewrite orb_false_iff, !Z.ltb_ge. intros [H1 _].
  assert (Hc : 1 <= count <= 256).
  { unfold count, in_width in *. destruct (Z.eqb_spec (sector_count ch) 0); lia. }
  assert (Hlba : in_width 28 (disk_lba ch)).
  { unfold disk_lba. assert (H4 : in_width 4 (dev_head ch .& 0x0f)) by (apply in_width_land_r; [lia|closed_range]).
    apply in_width_lor; [lia| |by apply (in_width_mono 8)].
    apply in_width_lor; [lia| |by apply (in_width_shiftl 28 8)].
    apply in_width_lor; [lia| |by apply (in_width_shiftl 28 8)].
    assert (H28 : in_width 28 ((dev_head ch .& 0x0f) .<< 24)) by (by apply (in_width_shiftl 28 4)).
    rewrite wrap_small; [done|]. by apply (in_width_mono 28). }
  unfold in_width in *. rewrite wrap_small in H1 by (unfold in_width; lia). unfold in_disk. lia.
Qed.

Lemma disk_transfer_ok cmd ch w :
  callbacks_ok ch -> channel_ok ch -> I w -> is_Some (disk_read ch) -> keeps ch (disk_transfer cmd ch w).
Proof.
  intros Hcb H Hw [rd Hrd]. unfold disk_transfer. cbv zeta.
  pose proof (request_in_disk ch H) as Hin. cbv zeta in Hin.
  set (count := if sector_count ch =? 0 then 256 else sector_count ch) in *.
  destruct (_ || _); [by apply keeps_some; [apply abort_ok| |]|]. specialize (Hin eq_refl).
  assert (Hlen : 0 <= count * ATA_SECTOR_SIZE <= ATA_XFER_BUF_SIZE).
  { rewrite buffer_size. unfold ATA_SECTOR_SIZE. unfold in_disk in Hin. lia. }
  clearbody count. destruct (cmd =? ATA_CMD_READ_SECTORS).
  - rewrite Hrd. destruct (cb_read _ Hcb rd Hrd _ _ (xfer_buf ch) w Hin (co_buf _ H) Hw) as (rc & buf & w' & -> & Hb & Hw').
    cbn [mbind option_bind]. pose proof (with_buffer_ok ch buf Hb H) as H'.
    destruct (negb (rc =? 0)); (apply keeps_some; [|done|done]); [by apply abort_ok|by apply data_in_ok].
  - destruct (disk_write ch) as [wr|] eqn:Ewr; (apply keeps_some; [|done|done]); [|by apply abort_ok].
    channel_solve.
Qed.

Lemma disk_command_ok cmd ch w :
  callbacks_ok ch -> channel_ok ch -> I w -> is_Some (disk_read ch) -> keeps ch (execute_disk_command cmd ch w).
Proof.
  intros Hcb H Hw Hrd. unfold execute_disk_command. cbv zeta.
  repeat case_match; try (apply keeps_some; [|done|done]); try by apply disk_transfer_ok.
  - apply with_lba_ok; [done|done|]. apply with_dev_ok; [|by apply reset_channel_ok].
    apply in_width_land_r; [lia|done].
  - destruct (build_identify_disk_ok ATA_DATA_IN ch) as (ch' & -> & H' & Hs); [done|done|]. cbn [mbind option_bind].
    by apply keeps_some.
  - channel_solve.
  - by apply abort_ok.
Qed.

Lemma command_ok cmd ch w :
  callbacks_ok ch -> channel_ok ch -> I w -> keeps ch (execute_command cmd ch w).
Proof.
  intros Hcb H Hw. unfold execute_command. cbv zeta.
  destruct (ata_selected_dev ch =? 0).
  { unfold ata_disk_present. destruct (disk_read ch) eqn:Er; [by apply disk_command_ok|].
    apply keeps_some; [|done|done]. apply abort_ok. channel_solve. }
  destruct (cmd =? ATA_CMD_DEVICE_RESET).
  { apply keeps_some; [|done|].
    - apply with_dev_ok; [|by apply reset_channel_ok]. apply in_width_land_r; [lia|done].
    - destruct (atapi_reset ch) as [f|] eqn:Ef; [|done]. by apply (cb_reset _ Hcb f Ef). }
  destruct (cmd =? ATA_CMD_IDENTIFY_DEVICE); [apply keeps_some; [|done|done]; apply abort_ok; channel_solve|].
  destruct (cmd =? ATA_CMD_IDENTIFY_PACKET).
  { destruct (build_identify_ok ATA_IDENTIFY ch) as (ch' & -> & H' & Hs); [done|done|]. cbn [mbind option_bind].
    apply keeps_some; [|done|done]. by apply with_lba_ok. }
  destruct (cmd =? ATA_CMD_PACKET); (apply keeps_some; [|done|done]); [channel_solve|by apply abort_ok].
Qed.

Lemma packet_ok ch w : callbacks_ok ch -> channel_ok ch -> I w -> keeps ch (execute_atapi_packet ch w).
Proof.
  intros Hcb H Hw. unfold execute_atapi_packet. destruct (atapi_exec ch) as [f|] eqn:Ef.
  2:{ apply keeps_some; [by apply abort_ok|done|done]. }
  destruct (co_pkt _ H) as (Hp & Hpb & _).
  destruct (cb_exec _ Hcb f Ef (atapi_pkt ch) (xfer_buf ch) w Hp Hpb (co_buf _ H) Hw)
    as (rc & buf & len & w' & -> & Hb & Hl & Hw').
  cbn [mbind option_bind]. cbv zeta. pose proof (with_buffer_ok ch buf Hb H) as H'.
  destruct (_ || _).
  - apply keeps_some; [|by destruct (negb (rc =? 0))|done]. clear Hcb H. set (ch1 := ch <| xfer_buf := buf |>) in *.
    clearbody ch1. destruct (negb (rc =? 0)); channel_solve.
  - apply keeps_some; [|done|done].
    pose proof (data_in_ok ATA_ATAPI_DATA_IN buf len (ch <| xfer_buf := buf |>) ltac:(done) Hb Hl H') as H2.
    apply with_count_ok; [done|]. apply with_lba_ok; [width|width|done].
Qed.

Lemma write8_ok reg v ch w :
  is_u8 v -> callbacks_ok ch -> channel_ok ch -> I w -> keeps ch (ata_ide_write8 reg v ch w).
Proof.
  intros Hv Hcb H Hw. unfold ata_ide_write8.
  repeat case_match; try (apply keeps_some; [|done|done]); try by apply command_ok.
  all: channel_solve.
Qed.

Lemma out_done_ok ch w :
  callbacks_ok ch -> channel_ok ch -> I w -> ata_state ch = ATA_DATA_OUT -> keeps ch (data_out_done ch w).
Proof.
  intros Hcb H Hw Hs. unfold data_out_done. destruct (co_out _ H Hs) as [[f Hf] Hin]. rewrite Hf.
  destruct (cb_write _ Hcb f Hf _ _ (xfer_buf ch) w Hin (co_buf _ H) Hw) as (rc & w' & -> & Hw').
  cbn [mbind option_bind]. apply keeps_some; [|done|done].
  destruct (negb (rc =? 0)); channel_solve.
Qed.

Lemma write16_ok reg v ch w :
  is_u16 v -> callbacks_ok ch -> channel_ok ch -> I w -> keeps ch (ata_ide_write16 reg v ch w).
Proof.
  intros Hv Hcb H Hw. unfold ata_ide_write16. cbv zeta.
  destruct (negb (reg =? 0)); [apply write8_ok; [width|done|done|done]|].
  pose proof BUF_large as HB. rewrite <- buffer_size in HB.
  destruct (ata_state ch) eqn:Es; try (apply keeps_some; done).
  - destruct (Z.ltb_spec (atapi_pkt_pos ch) 12) as [Hp|Hp]; [|by apply keeps_some].
    destruct (co_pkt _ H) as (Hl & Hb & H0 & _).
    destruct (store8_in (atapi_pkt ch) (atapi_pkt_pos ch) (u8 (v .>> 8))) as (q & -> & Hq & Hqb); [lia|done|width|].
    cbn [mbind option_bind]. set (ch1 := ch <| atapi_pkt := q |> <| atapi_pkt_pos := atapi_pkt_pos ch + 1 |>).
    assert (H1 : channel_ok ch1 /\ same_callbacks ch ch1).
    { split; [|done]. unfold ch1. channel_solve. }
    assert (Hp1 : 0 <= atapi_pkt_pos ch1 <= 12) by apply (co_pkt _ (proj1 H1)).
    clearbody ch1. destruct H1 as [H1 S1].
    assert (H2 : exists ch2, (if atapi_pkt_pos ch1 <? 12 then
        pkt ← store8 (atapi_pkt ch1) (atapi_pkt_pos ch1) (u8 (v .& 255));
        Some (ch1 <| atapi_pkt := pkt |> <| atapi_pkt_pos := atapi_pkt_pos ch1 + 1 |>) else Some ch1) = Some ch2 /\
        channel_ok ch2 /\ same_callbacks ch1 ch2).
    { destruct (Z.ltb_spec (atapi_pkt_pos ch1) 12); [|by exists ch1].
      destruct (co_pkt _ H1) as (Hl1 & Hb1 & _).
      destruct (store8_in (atapi_pkt ch1) (atapi_pkt_pos ch1) (u8 (v .& 255))) as (q1 & -> & Hq1 & Hqb1); [lia|done|width|].
      eexists. split; [done|]. split; [|done]. clear H. channel_solve. }
    destruct H2 as (ch2 & -> & H2 & S2). cbn [mbind option_bind].
    assert (S : same_callbacks ch ch2) by (by eapply same_callbacks_trans).
    destruct (_ <=? _); [|by apply keeps_some].
    destruct (packet_ok ch2 w (same_callbacks_ok _ _ S Hcb) H2 Hw) as (ch' & w' & -> & H' & S' & Hw').
    apply keeps_some; [done| |done]. by eapply same_callbacks_trans.
  - destruct (Z.ltb_spec (xfer_pos ch + 1) (xfer_len ch)) as [Hp|Hp]; [|by apply keeps_some].
    destruct (co_xfer _ H) as [H0 H1]. pose proof (co_buf _ H) as Hbuf.
    destruct (stores_store8 BUF (xfer_buf ch) (xfer_pos ch) (u8 (v .>> 8))) as (q & -> & Hq); [lia|width|done|].
    cbn [mbind option_bind].
    destruct (stores_store8 BUF q (xfer_pos ch + 1) (u8 (v .& 255))) as (q1 & -> & Hq1); [lia|width|done|].
    cbn [mbind option_bind]. set (ch1 := ch <| xfer_buf := q1 |> <| xfer_pos := xfer_pos ch + 2 |>).
    assert (H2 : channel_ok ch1) by (unfold ch1; channel_solve).
    destruct (_ <=? _); [|by apply keeps_some].
    assert (S : same_callbacks ch ch1) by done. assert (Es1 : ata_state ch1 = ATA_DATA_OUT) by done. clearbody ch1.
    destruct (out_done_ok ch1 w (same_callbacks_ok _ _ S Hcb) H2 Hw Es1) as (ch' & w' & -> & H' & S' & Hw').
    apply keeps_some; [done| |done]. by eapply same_callbacks_trans.
Qed.

Lemma read16_ok reg ch :
  channel_ok ch -> exists v ch', ata_ide_read16 reg ch = Some (v, ch') /\ is_u16 v /\ channel_ok ch' /\ same_callbacks ch ch'.
Proof.
  intros H. unfold ata_ide_read16. cbv zeta. destruct (negb (reg =? 0)).
  { eexists _, _. split; [done|]. split; [|done]. destruct (co_regs _ H) as (R1 & R2 & R3 & R4 & R5 & R6 & R7 & R8).
    apply (in_width_mono 8); [|lia]. unfold ata_ide_read8. repeat case_match; try done; width. }
  destruct (sends_data (ata_state ch)) eqn:Es; [|by exists 0xffff, ch].
  destruct (Z.ltb_spec (xfer_pos ch + 1) (xfer_len ch)) as [Hp|Hp]; [|by exists 0xffff, ch].
  destruct (co_xfer _ H) as [H0 H1]. destruct (co_buf _ H) as [Hl Hb]. pose proof BUF_large as HB.
  rewrite <- buffer_size in HB. cbn [andb].
  destruct (lookup_lt_is_Some_2 (xfer_buf ch) (Z.to_nat (xfer_pos ch))) as [lo ->]; [lia|]. cbn [mbind option_bind].
  destruct (lookup_lt_is_Some_2 (xfer_buf ch) (Z.to_nat (xfer_pos ch + 1))) as [hi Ehi]; [lia|].
  rewrite Ehi. cbn [mbind option_bind].
  assert (Hh : is_u8 hi) by exact (Forall_lookup_1 _ _ _ _ Hb Ehi).
  set (ch1 := ch <| xfer_pos := xfer_pos ch + 2 |>).
  assert (H2 : channel_ok ch1) by (unfold ch1; channel_solve).
  eexists _, _. split; [done|]. split; [apply wrap_range; lia|]. assert (S : same_callbacks ch ch1) by done.
  assert (Es1 : ata_state ch1 <> ATA_DATA_OUT) by (intros E; change (ata_state ch = ATA_DATA_OUT) in E; by rewrite E in Es).
  clearbody ch1. destruct (_ <=? _); [|done]. clear H. unfold data_in_done. cbv zeta.
  destruct (ata_state ch1) eqn:E; (split; [channel_solve|done]).
Qed.

End safety.

Section safety.
Context {W : Type} (bootable : bool) (media : W) (n : nat) (max : Z).
#[local] Abbreviation Cdrom := (AtapiCdromState W).
#[local] Abbreviation Reply := (Z * list Z * Z * Cdrom)%type.

Context (o : AtapiMediaOps W).

(** The media fills the buffer and no more. *)
Definition media_reads_ok : Prop :=
  forall lba count out, is_u32 lba -> 0 <= count -> count * ATAPI_SECTOR_SIZE <= Z.of_nat n -> buffer n out ->
  exists rc out', read_sectors o media lba count out = Some (rc, out') /\ buffer n out'.

(** The sense data are bytes, the operations are [o]. *)
Record cdrom_ok (s : Cdrom) : Prop := {
  cd_sense : is_u8 (sense_key s) /\ is_u8 (asc s) /\ is_u8 (ascq s);
  cd_ops : ops s = o;
}.

Definition reply_ok (r : option Reply) : Prop :=
  exists rc out len s, r = Some (rc, out, len, s) /\ buffer n out /\ 0 <= len <= max /\ cdrom_ok s.

Lemma reply_some rc out len s :
  buffer n out -> 0 <= len <= max -> cdrom_ok s -> reply_ok (Some (rc, out, len, s)).
Proof. intros. by exists rc, out, len, s. Qed.

Lemma set_sense_ok k a q s :
  is_u8 k -> is_u8 a -> is_u8 q -> cdrom_ok s -> cdrom_ok (set_sense k a q s).
Proof. intros ? ? ? [_ H]. by split. Qed.

Lemma reply_bind (q : option (list Z)) f :
  stores n q -> (forall out, buffer n out -> reply_ok (f out)) -> reply_ok (out ← q; f out).
Proof. intros (p & -> & Hp) Hf. by apply Hf. Qed.

(** A command whose stores and answer are in the buffer. *)
Ltac reply_steps :=
  repeat lazymatch goal with
  | |- reply_ok (mbind _ _) => apply reply_bind; [store_steps|intros ? ?]
  | |- reply_ok (Some _) => apply reply_some; [assumption|lia|try (apply set_sense_ok; [done|done|done|]); assumption]
  end.

Hypothesis Hmax : 0 <= max <= Z.of_nat n.
Hypothesis Hmedia : media_reads_ok.

Lemma patch_ok out off :
  0 <= off -> off + ATAPI_SECTOR_SIZE <= Z.of_nat n -> buffer n out -> stores n (patch_pvd_sysid bootable out off).
Proof.
  intros H0 H1 Hb. unfold patch_pvd_sysid, ATAPI_SECTOR_SIZE in *. cbv zeta.
  repeat case_match; try by apply stores_some.
  unfold ISO9660_SYSID_OFF, ISO9660_SYSID_LEN. store_steps.
Qed.

Lemma read_10_ok pkt out s :
  bytes pkt -> buffer n out -> cdrom_ok s -> reply_ok (cmd_read_10 bootable media pkt out max s).
Proof.
  intros Hp Hb Hs. unfold cmd_read_10. cbv zeta.
  destruct (negb (present (ops s) media)); [reply_steps|].
  pose proof (read_be32_u32 pkt 2 Hp) as Hlba. set (lba := read_be32 pkt 2) in *. clearbody lba.
  assert (Hc : is_u16 (u16 (u16 (rd8 pkt 7 .<< 8) .| rd8 pkt 8))) by width.
  set (count := u16 _) in *. clearbody count.
  destruct (Z.eqb_spec count 0); [reply_steps|].
  destruct (Z.ltb_spec max (count * ATAPI_SECTOR_SIZE)) as [?|Hm]; [reply_steps|].
  assert (Hc1 : 1 <= count) by (unfold in_width in Hc; lia).
  rewrite (cd_ops _ Hs). destruct (Hmedia lba count out) as (rc & out' & -> & Hb'); [done|lia|lia|done|]. cbn [mbind option_bind].
  destruct (negb (rc =? 0)); [reply_steps|]. apply reply_bind.
  - destruct (Z.leb_spec lba ISO9660_PVD_LBA) as [Hl|_]; [|by apply stores_some].
    destruct (Z.ltb_spec ISO9660_PVD_LBA (u32 (lba + count))) as [Hl2|_]; [|by apply stores_some]. cbn [andb].
    unfold ISO9660_PVD_LBA, ATAPI_SECTOR_SIZE, in_width in *.
    rewrite wrap_small in Hl2 by (unfold in_width; lia). apply patch_ok; [lia|unfold ATAPI_SECTOR_SIZE; lia|done].
  - intros out1 Hout1. apply reply_some; [done|unfold ATAPI_SECTOR_SIZE in *; lia|by apply set_sense_ok].
Qed.

Lemma be32_pieces v a l : bytes l -> bytes a -> bytes (a ++ be32 v ++ l).
Proof. intros Hl Ha. apply Forall_app_2; [done|]. apply Forall_app_2; [apply be32_bytes|done]. Qed.

Lemma exec_ok pkt out s :
  bytes pkt -> buffer n out -> cdrom_ok s -> reply_ok (atapi_cdrom_exec bootable media pkt out max s).
Proof.
  intros Hp Hb Hs. unfold atapi_cdrom_exec. cbv zeta. destruct (cd_sense _ Hs) as (S1 & S2 & S3).
  repeat (match goal with |- context [if ?c then _ else _] => lazymatch c with rd8 _ _ =? _ => destruct c end end);
    [| | | | | |by apply read_10_ok|reply_steps|reply_steps].
  - unfold cmd_test_unit_ready. destruct (negb _); [reply_steps|]. destruct (unit_attention s); [|reply_steps].
    apply reply_some; [done|lia|]. apply set_sense_ok; [done|done|done|]. destruct Hs. by split.
  - unfold cmd_request_sense. destruct (Z.ltb_spec max 18); [reply_steps|]. reply_steps.
  - unfold cmd_inquiry. destruct (Z.ltb_spec max 36); [reply_steps|].
    apply reply_bind; [store_steps|intros ? ?]. apply reply_bind; [|intros ? ?; reply_steps].
    apply stores_bytes; [lia|cbn [length]; lia| |done]. repeat (apply Forall_cons_2; [done|]). by apply Forall_nil.
  - unfold cmd_read_capacity. destruct (Z.ltb_spec max 8); [reply_steps|]. destruct (negb _); [reply_steps|].
    apply reply_bind; [|intros ? ?; reply_steps]. apply stores_bytes; [lia|rewrite length_app, length_be32; cbn [length]; lia| |done].
    apply (be32_pieces _ []); [|by apply Forall_nil]. repeat (apply Forall_cons_2; [done|]). by apply Forall_nil.
  - unfold cmd_read_toc. destruct (Z.ltb_spec max 20); [reply_steps|]. destruct (negb _); [reply_steps|].
    apply reply_bind; [store_steps|intros ? ?]. apply reply_bind; [|intros ? ?; reply_steps].
    apply stores_bytes; [lia|rewrite length_app, length_be32; cbn [length]; lia| |done].
    apply Forall_app_2; [|apply be32_bytes]. repeat (apply Forall_cons_2; [done|]). by apply Forall_nil.
  - unfold cmd_mode_sense_10. destruct (Z.ltb_spec max 8); [reply_steps|]. reply_steps.
Qed.

End safety.
