(* ===== verification/LideFacts.v ===== *)
(** * The disk board is safe whatever the Amiga does

    The invariant of a board made by [lide_create], kept by every operation; no
    access leaves a buffer, and a write to the hard disk never changes the size of
    its image. *)

From Stdlib Require Import String.
From S2P Require Import Prelude Bytes HostBytes Fastram Atapi Ata Lide AtaFacts.

(** ** Files *)

Definition file_bytes (m : media_file) : Prop := forall f, fp m = Some f -> bytes f.

Lemma slice_length_le p i n : 0 <= n -> Z.of_nat (length (slice p i n)) <= n.
Proof. intros H. unfold slice. rewrite length_take. lia. Qed.

Lemma media_read_ok m ss lba count buf n :
  file_bytes m -> 0 <= count * ss <= Z.of_nat n -> buffer n buf ->
  exists rc buf', media_read m ss lba count buf = Some (rc, buf') /\ buffer n buf'.
Proof.
  intros Hf Hl Hb. unfold media_read. destruct (fp m) as [f|] eqn:E; [|by exists (-1), buf].
  destruct (negb (media_present m)); [by exists (-1), buf|]. cbv zeta.
  pose proof (slice_length_le f (lba * ss) (count * ss)) as Hs.
  destruct (stores_bytes n buf 0 (slice f (lba * ss) (count * ss))) as (q & -> & Hq);
    [lia|lia|by apply slice_bytes, Hf|done|].
  by eexists _, q.
Qed.

(** A write inside the file replaces its bytes. *)
Lemma file_write_inside f off data :
  0 <= off -> off + Z.of_nat (length data) <= Z.of_nat (length f) ->
  file_write f off data = written off data f.
Proof.
  intros H0 H1. unfold file_write. cbv zeta. by replace (Z.to_nat off - length f)%nat with 0%nat by lia.
Qed.

Lemma file_write_length f off data :
  0 <= off -> off + Z.of_nat (length data) <= Z.of_nat (length f) -> length (file_write f off data) = length f.
Proof. intros H0 H1. rewrite file_write_inside by done. by apply written_length. Qed.

Lemma file_write_bytes f off data : bytes f -> bytes data -> bytes (file_write f off data).
Proof.
  intros Hf Hd. unfold file_write, bytes. cbv zeta.
  apply Forall_app_2; [by apply Forall_take|]. apply Forall_app_2; [apply Forall_replicate; done|].
  apply Forall_app_2; [done|by apply Forall_drop].
Qed.

(** ** The invariant *)

(** The size of the hard disk's image. *)
Definition hdf_size (w : lide_media) : option nat := length <$> fp (hdf w).

(** The media of the board; [k] is the size of the hard disk's image, which has
    room for [sects] sectors. *)
Record media_ok (k : option nat) (sects : Z) (w : lide_media) : Prop := {
  mo_hdf : file_bytes (hdf w);
  mo_iso : file_bytes (iso w);
  mo_size : hdf_size w = k;
  mo_room : forall n, k = Some n -> sects * 512 <= Z.of_nat n;
  mo_sense : is_u8 (sense_key (atapi w)) /\ is_u8 (asc (atapi w)) /\ is_u8 (ascq (atapi w));
  mo_ops : ops (atapi w) = g_iso_ops;
}.

Lemma iso_reads_ok w n : file_bytes (iso w) -> media_reads_ok (iso w) n g_iso_ops.
Proof.
  intros Hf lba count out Hl Hc Hn Hb. apply media_read_ok; [done| |done]. unfold ATAPI_SECTOR_SIZE in *. lia.
Qed.

Section board.
Context (bootable : bool).

(** What the board has given its channel. *)
Definition wired (ch : AtaIdeChannel lide_media) : Prop :=
  atapi_exec ch = Some (lide_atapi_exec bootable) /\ atapi_reset ch = Some lide_atapi_reset /\
  ((disk_read ch = None /\ disk_write ch = None /\ disk_sectors ch = 0) \/
   (disk_read ch = Some hdf_read /\ disk_write ch = Some hdf_write)).

Lemma atapi_exec_keeps k n w pkt buf :
  bytes pkt -> buffer BUF buf -> media_ok k n w ->
  exists rc buf' len w', lide_atapi_exec bootable pkt buf ATA_XFER_BUF_SIZE w = Some (rc, buf', len, w') /\
    buffer BUF buf' /\ 0 <= len <= ATA_XFER_BUF_SIZE /\ media_ok k n w'.
Proof.
  intros Hp Hb [H1 H2 H3 H4 H5 H6]. unfold lide_atapi_exec.
  pose proof BUF_large as HB.
  destruct (exec_ok bootable (iso w) BUF ATA_XFER_BUF_SIZE g_iso_ops) with (pkt := pkt) (out := buf) (s := atapi w)
    as (rc & out & len & s & -> & Hb' & Hl & [Hs' Ho]); [rewrite buffer_size; lia|by apply iso_reads_ok|done|done|by split|].
  cbn [mbind option_bind]. eexists _, _, _, _. split; [done|]. split; [done|]. split; [done|].
  by split.
Qed.

Lemma atapi_reset_keeps k n w : media_ok k n w -> media_ok k n (lide_atapi_reset w).
Proof. intros [H1 H2 H3 H4 H5 H6]. by split. Qed.

Lemma hdf_read_keeps k n w lba count buf :
  in_disk n lba count -> buffer BUF buf -> media_ok k n w ->
  exists rc buf' w', hdf_read lba count buf w = Some (rc, buf', w') /\ buffer BUF buf' /\ media_ok k n w'.
Proof.
  intros [Hl [Hc Hn]] Hb Hw. unfold hdf_read. pose proof BUF_large as HB.
  destruct (media_read_ok (hdf w) 512 lba count buf BUF) as (rc & buf' & -> & Hb'); [apply Hw|lia|done|].
  cbn [mbind option_bind]. by eexists _, _, _.
Qed.

Lemma hdf_write_keeps k n w lba count buf :
  in_disk n lba count -> buffer BUF buf -> media_ok k n w ->
  exists rc w', hdf_write lba count buf w = Some (rc, w') /\ media_ok k n w'.
Proof.
  intros [Hl [Hc Hn]] [Hb Hbb] Hw. unfold hdf_write. cbv zeta. pose proof BUF_large as HB.
  destruct (fp (hdf w)) as [f|] eqn:E; [|by exists (-1), w].
  destruct (negb (media_present (hdf w))); [by exists (-1), w|].
  destruct (Z.ltb_spec (Z.of_nat (length buf)) (count * 512)) as [Hx|_]; [lia|].
  eexists _, _. split; [done|]. destruct Hw as [H1 H2 H3 H4 H5 H6].
  assert (Hs : Z.of_nat (length (slice buf 0 (count * 512))) = count * 512) by (rewrite slice_length; lia).
  assert (Hk : k = Some (length f)) by (rewrite <- H3; unfold hdf_size; by rewrite E).
  split; cbn; try done.
  - intros g [= <-]. apply file_write_bytes; [by apply H1|by apply slice_bytes].
  - rewrite Hk. f_equal. apply file_write_length; [lia|]. rewrite Hs. specialize (H4 _ Hk). lia.
Qed.

(** The channel may rely on its callbacks. *)
Lemma wired_ok k ch : wired ch -> callbacks_ok (media_ok k (disk_sectors ch)) ch.
Proof.
  intros (E1 & E2 & H). split.
  - intros f Hf pkt buf w _ Hp Hb Hw. rewrite E1 in Hf. injection Hf as <-. by apply atapi_exec_keeps.
  - intros f Hf w Hw. rewrite E2 in Hf. injection Hf as <-. by apply atapi_reset_keeps.
  - intros f Hf lba count buf w Hin Hb Hw. destruct H as [(E & _)|(E & _)]; rewrite E in Hf; [done|]. injection Hf as <-.
    by apply hdf_read_keeps.
  - intros f Hf lba count buf w Hin Hb Hw. destruct H as [(_ & E & _)|(_ & E)]; rewrite E in Hf; [done|]. injection Hf as <-.
    by apply hdf_write_keeps.
Qed.

Lemma wired_same a b : same_callbacks a b -> wired a -> wired b.
Proof. intros (E1 & E2 & E3 & E4 & E5). unfold wired. by rewrite E1, E2, E3, E4, E5. Qed.

(** A board; [k] is the size of its hard disk's image. *)
Record board_ok (k : option nat) (b : lide_board) : Prop := {
  bo_channel : channel_ok (ide b);
  bo_wired : wired (ide b);
  bo_media : media_ok k (disk_sectors (ide b)) (ide_media b);
}.

(** ** The operations *)

Lemma alloc_buffer : buffer BUF (replicate (Z.to_nat ATA_XFER_BUF_SIZE) 0).
Proof.
  split; [rewrite length_replicate; pose proof BUF_size; lia|]. by apply Forall_replicate.
Qed.

Lemma channel_init_ok (ch : AtaIdeChannel lide_media) : buffer BUF (xfer_buf ch) -> channel_ok (ata_ide_channel_init ch).
Proof.
  intros Hb. unfold ata_ide_channel_init. apply reset_channel_ok. split; cbn; try done.
  split_and!; [done|by repeat apply Forall_cons_2|done|done].
Qed.

Lemma board_op k b ch w :
  board_ok k b -> keeps (media_ok k (disk_sectors (ide b))) (ide b) (Some (ch, w)) ->
  board_ok k (b <| ide := ch |> <| ide_media := w |>).
Proof.
  intros [H1 H2 H3] (ch' & w' & [= <- <-] & Hc & Hs & Hw). split; cbn; [done|by eapply wired_same|].
  destruct Hs as (_ & _ & _ & _ & ->). done.
Qed.

Lemma keeps_bind I (ch : AtaIdeChannel lide_media) o f :
  keeps I ch o ->
  (forall ch' w', channel_ok ch' -> same_callbacks ch ch' -> I w' -> keeps I ch' (f (ch', w'))) ->
  keeps I ch (p ← o; f p).
Proof.
  intros (ch' & w' & -> & Hc & Hs & Hw) Hf. destruct (Hf ch' w' Hc Hs Hw) as (ch2 & w2 & E & Hc2 & Hs2 & Hw2).
  exists ch2, w2. split; [done|]. split; [done|]. split; [|done]. by eapply same_callbacks_trans.
Qed.

Lemma board_write k addr value size b :
  board_ok k b -> exists b', lide_write addr value size b = Some b' /\ board_ok k b'.
Proof.
  intros H. unfold lide_write. cbv zeta. destruct (negb (lb_configured b)); [by exists b|].
  pose proof (wired_ok k _ (bo_wired _ _ H)) as Hcb.
  assert (Hput : forall o, keeps (media_ok k (disk_sectors (ide b))) (ide b) o ->
    exists b', ('(ch, w) ← o; Some (b <| ide := ch |> <| ide_media := w |>)) = Some b' /\ board_ok k b').
  { intros o (ch & w & -> & Hc & Hs & Hw). eexists. split; [done|]. apply board_op; [done|]. by exists ch, w. }
  destruct (ata_ide_offset_to_reg _) as [reg|]; [|by exists b].
  destruct (_ && _).
  - apply Hput. apply keeps_bind.
    + apply write16_ok; [width|done|apply H|apply H].
    + intros ch w Hc Hs Hw. apply write16_ok; [width| |done|done]. by eapply same_callbacks_ok.
  - destruct (_ && _); apply Hput.
    + apply write16_ok; [width|done|apply H|apply H].
    + apply write8_ok; [width|done|apply H|apply H].
Qed.

Lemma board_read k addr size b :
  board_ok k b -> exists v b', lide_read addr size b = Some (v, b') /\ board_ok k b'.
Proof.
  intros H. unfold lide_read. cbv zeta. destruct (negb (lb_configured b)); [by eexists _, b|].
  assert (Hput : forall ch, channel_ok ch -> same_callbacks (ide b) ch -> board_ok k (b <| ide := ch |>)).
  { intros ch Hc Hs. change (b <| ide := ch |>) with (b <| ide := ch |> <| ide_media := ide_media b |>).
    apply board_op; [done|]. exists ch, (ide_media b). split_and!; [done|done|done|apply H]. }
  destruct (ata_ide_offset_to_reg _) as [reg|]; [|by eexists _, b].
  destruct (read16_ok 0 (ide b) (bo_channel _ _ H)) as (hi & ch & -> & Hhi & Hc & Hs). cbn [mbind option_bind].
  destruct (read16_ok 0 ch Hc) as (lo & ch2 & E & Hlo & Hc2 & Hs2).
  destruct (_ && _); [|destruct (_ && _)].
  - rewrite E. cbn [mbind option_bind]. eexists _, _. split; [done|]. apply Hput; [done|].
    by eapply same_callbacks_trans.
  - eexists _, _. split; [done|]. by apply Hput.
  - by eexists _, b.
Qed.

Lemma board_create_ok rom b : lide_create bootable rom = Some b -> board_ok None b.
Proof.
  unfold lide_create. destruct rom as [f|]; [|done]. cbn [mbind option_bind].
  destruct (Z.of_nat (length f) <=? 0); [done|]. destruct (zorro_autoconfig_build _ _) as [c|]; [|done].
  cbn [mbind option_bind]. intros [= <-]. split; cbn [ide ide_media].
  - apply with_atapi_ok. apply channel_init_ok. apply alloc_buffer.
  - split; [done|]. split; [done|]. by left.
  - by split.
Qed.

Lemma media_open_bytes file ss m ok m' :
  (forall f, file = Some f -> bytes f) -> media_open file ss m = (ok, m') -> file_bytes m'.
Proof.
  intros Hf. unfold media_open. destruct file as [f|]; [destruct (_ <=? _)|]; intros [= <- <-] g [= <-]. by apply Hf.
Qed.

Lemma attach_hdf_ok k file b :
  (forall f, file = Some f -> bytes f) -> board_ok k b -> exists k', board_ok k' (snd (lide_attach_hdf file b)).
Proof.
  intros Hf [Hc Hw [M1 M2 M3 M4 M5 M6]]. unfold lide_attach_hdf.
  destruct (media_open file 512 (hdf (ide_media b))) as [ok m] eqn:E.
  pose proof (media_open_bytes _ _ _ _ _ Hf E) as Hm. unfold media_open in E.
  destruct file as [f|]; [destruct (Z.leb_spec (Z.of_nat (length f)) 0)|]; injection E as <- <-; cbn [snd].
  1,3: by exists None; split; cbn; [..|split; cbn].
  exists (Some (length f)). split; cbn [ide ide_media].
  - apply new_disk_ok; [apply wrap_range; lia|done].
  - destruct Hw as (E1 & E2 & _). split; [done|]. split; [done|]. by right.
  - split; cbn; try done. intros n [= <-].
    assert (wrap 32 (Z.of_nat (length f) / 512) <= Z.of_nat (length f) / 512).
    { apply Z.mod_le; [|done]. apply Z.div_pos; lia. }
    pose proof (Z.mul_div_le (Z.of_nat (length f)) 512). lia.
Qed.

Lemma attach_iso_ok k file b :
  (forall f, file = Some f -> bytes f) -> board_ok k b -> board_ok k (snd (lide_attach_iso file b)).
Proof.
  intros Hf [Hc Hw [M1 M2 M3 M4 M5 M6]]. unfold lide_attach_iso. cbv zeta.
  destruct (media_open file ATAPI_SECTOR_SIZE (iso (ide_media b))) as [ok m] eqn:E.
  pose proof (media_open_bytes _ _ _ _ _ Hf E) as Hm.
  destruct ok; (split; cbn [snd ide ide_media]; [|done|by split]); [by apply reset_channel_ok|done].
Qed.

Lemma reset_ok_board k b : board_ok k b -> board_ok k (lide_reset b).
Proof.
  intros [Hc Hw Hm]. split; [by apply reset_channel_ok|done|]. by apply atapi_reset_keeps.
Qed.

(** What the machine and the host do with a board. *)
Inductive lide_op :=
  | op_read (addr size : Z) | op_write (addr value size : Z) | op_config (off value : Z) | op_reset
  | op_attach_hdf (file : option (list Z)) | op_attach_iso (file : option (list Z)) | op_load_odfs (file : option (list Z)).

Definition apply_op (b : lide_board) (op : lide_op) : option lide_board :=
  match op with
  | op_read addr size => '(_, b) ← lide_read addr size b; Some b
  | op_write addr value size => lide_write addr value size b
  | op_config off value => Some (lide_ac_write off value b)
  | op_reset => Some (lide_reset b)
  | op_attach_hdf file => Some (snd (lide_attach_hdf file b))
  | op_attach_iso file => Some (snd (lide_attach_iso file b))
  | op_load_odfs file => Some (snd (lide_load_odfs file b))
  end.

Definition run_ops (l : list lide_op) (b : lide_board) : option lide_board :=
  foldl (fun o op => b ← o; apply_op b op) (Some b) l.

(** The files of the host are bytes. *)
Definition host_files (op : lide_op) : Prop :=
  match op with op_attach_hdf (Some f) | op_attach_iso (Some f) => bytes f | _ => True end.

(** An operation of the emulated machine. *)
Definition guest_op (op : lide_op) : Prop :=
  match op with op_read _ _ | op_write _ _ _ | op_config _ _ | op_reset => True | _ => False end.

Lemma board_step_ok k b op :
  host_files op -> board_ok k b ->
  exists b' k', apply_op b op = Some b' /\ board_ok k' b' /\ (guest_op op -> k' = k).
Proof.
  intros Hf H. destruct op as [addr size|addr value size|off value| |file|file|file]; cbn [apply_op].
  - destruct (board_read k addr size b H) as (v & b' & -> & Hb'). cbn [mbind option_bind]. by exists b', k.
  - destruct (board_write k addr value size b H) as (b' & -> & Hb'). by exists b', k.
  - eexists _, k. split; [done|]. split; [|done]. unfold lide_ac_write. destruct H.
    destruct (_ =? _); [by split|]. destruct (_ =? _); by split.
  - eexists _, k. split; [done|]. split; [by apply reset_ok_board|done].
  - destruct (attach_hdf_ok k file b) as (k' & H'); [by destruct file; intros ? [= <-]|done|]. by exists (snd (lide_attach_hdf file b)), k'.
  - eexists _, k. split; [done|]. split; [|done]. apply attach_iso_ok; [by destruct file; intros ? [= <-]|done].
  - eexists _, k. split; [done|]. split; [|done]. unfold lide_load_odfs. destruct file; [|done]. destruct (_ <=? _); [done|].
    destruct H. by split.
Qed.

Lemma run_ok l : forall k b, Forall host_files l -> board_ok k b ->
  exists b' k', run_ops l b = Some b' /\ board_ok k' b' /\ (Forall guest_op l -> k' = k).
Proof.
  induction l as [|op l IH]; intros k b Hl H; [by exists b, k|]. apply Forall_cons in Hl as [Ho Hl].
  destruct (board_step_ok k b op Ho H) as (b1 & k1 & E1 & H1 & K1).
  destruct (IH k1 b1 Hl H1) as (b2 & k2 & E2 & H2 & K2). exists b2, k2.
  unfold run_ops in *. cbn [foldl mbind option_bind]. rewrite E1. split; [done|]. split; [done|].
  intros [G1 G2]%Forall_cons. rewrite K2, K1; done.
Qed.

(** C8: A board made by [lide_create] survives whatever the machine and the host do with it:
    no sequence of register accesses, configurations, resets and changes of media makes it
    access memory outside the transfer buffer or the command packet; and whatever the machine
    does with its hard disk (READ, WRITE and the other commands, in any order and at any
    address), the image file keeps its size. *)
Theorem disk_board_is_safe rom b0 before after :
  lide_create bootable rom = Some b0 -> Forall host_files before -> Forall guest_op after ->
  exists b b', run_ops before b0 = Some b /\ run_ops after b = Some b' /\
    hdf_size (ide_media b') = hdf_size (ide_media b).
Proof.
  intros H0 Hb Ha. destruct (run_ok before None b0 Hb (board_create_ok _ _ H0)) as (b & k & E & H & _).
  assert (Hf : Forall host_files after) by (eapply Forall_impl; [exact Ha|]; by intros []).
  destruct (run_ok after k b Hf H) as (b' & k' & E' & H' & K). exists b, b'. split; [done|]. split; [done|].
  rewrite (mo_size _ _ _ (bo_media _ _ H)), (mo_size _ _ _ (bo_media _ _ H')). by apply K.
Qed.

End board.
