(* ===== verification/LideTransfer.v ===== *)
(** * Transfers through the disk board

    The accesses a driver makes: the request in the registers, then the words of
    the sectors through the data port.  What comes back is the image file.  Then
    the answers of the CD-ROM drive: a change of disc is reported once and its
    sense data are read once; READ(10) returns the blocks of the image file. *)

From Stdlib Require Import String.
From S2P Require Import Prelude Bytes HostBytes Fastram Atapi Ata Lide AtaFacts LideFacts.

(** ** What a driver does *)

Inductive access := out8 (reg value : Z) | out16 (value : Z) | in16.

(** An access to the channel: the words read, the channel, the media. *)
Definition channel_access (a : access) (ch : AtaIdeChannel lide_media) (w : lide_media) :
    option (list Z * AtaIdeChannel lide_media * lide_media) :=
  match a with
  | out8 reg v => '(ch, w) ← ata_ide_write8 reg v ch w; Some ([], ch, w)
  | out16 v => '(ch, w) ← ata_ide_write16 0 v ch w; Some ([], ch, w)
  | in16 => '(v, ch) ← ata_ide_read16 0 ch; Some ([v], ch, w)
  end.

Fixpoint channel_run (l : list access) (ch : AtaIdeChannel lide_media) (w : lide_media) :
    option (list Z * AtaIdeChannel lide_media * lide_media) :=
  match l with
  | [] => Some ([], ch, w)
  | a :: l =>
      '(vs, ch, w) ← channel_access a ch w;
      '(us, ch, w) ← channel_run l ch w; Some (vs ++ us, ch, w)
  end.

(** The address of a register of the board. *)
Definition port (b : lide_board) (reg : Z) : Z := lb_base b + RIPPLE_CS1_OFFSET + RIPPLE_NEXT_REG * reg.

(** An access on the bus. *)
Definition board_access (a : access) (b : lide_board) : option (list Z * lide_board) :=
  match a with
  | out8 reg v => b ← lide_write (port b reg) v 1 b; Some ([], b)
  | out16 v => b ← lide_write (port b 0) v 2 b; Some ([], b)
  | in16 => '(v, b) ← lide_read (port b 0) 2 b; Some ([v], b)
  end.

Fixpoint board_run (l : list access) (b : lide_board) : option (list Z * lide_board) :=
  match l with
  | [] => Some ([], b)
  | a :: l =>
      '(vs, b) ← board_access a b;
      '(us, b) ← board_run l b; Some (vs ++ us, b)
  end.

(** The registers of a request for [count] sectors from [lba], device 0. *)
Definition request (cmd lba count : Z) : list access :=
  [out8 2 (u8 count); out8 3 (u8 lba); out8 4 (u8 (lba .>> 8)); out8 5 (u8 (lba .>> 16));
   out8 6 (0xe0 .| (lba .>> 24)); out8 7 cmd].

Definition in_registers (a : access) : Prop :=
  match a with out8 reg v => 0 <= reg <= 7 /\ is_u8 v | out16 v => is_u16 v | in16 => True end.

(** ** The bus reaches the channel *)

Lemma offset_port reg : 0 <= reg <= 7 -> ata_ide_offset_to_reg (RIPPLE_CS1_OFFSET + RIPPLE_NEXT_REG * reg) = Some reg.
Proof. intros H. cases_below reg 8; done. Qed.

Definition mapped (b : lide_board) : Prop := lb_configured b = true /\ 0 <= lb_base b <= 0xff0000.

Lemma port_offset b reg : mapped b -> 0 <= reg <= 7 ->
  ata_ide_offset_to_reg (u32 (port b reg - lb_base b)) = Some reg.
Proof.
  intros [_ Hb] Hr. unfold port, RIPPLE_CS1_OFFSET, RIPPLE_NEXT_REG. rewrite wrap_small by (unfold in_width; lia).
  rewrite <- (offset_port reg Hr). f_equal. unfold RIPPLE_CS1_OFFSET, RIPPLE_NEXT_REG. lia.
Qed.

Lemma board_access_channel a b :
  mapped b -> in_registers a ->
  board_access a b = '(vs, ch, w) ← channel_access a (ide b) (ide_media b);
                     Some (vs, b <| ide := ch |> <| ide_media := w |>).
Proof.
  intros Hm Ha. destruct a as [reg v|v|]; cbn [board_access channel_access in_registers] in *.
  - unfold lide_write. rewrite (proj1 Hm), port_offset by (done || lia). cbv zeta. cbn [negb].
    change (1 =? 4) with false. change (1 =? 2) with false. rewrite !andb_false_r, (wrap_small 8 v) by apply Ha.
    by destruct (ata_ide_write8 _ _ _ _) as [[ch w]|].
  - unfold lide_write. rewrite (proj1 Hm), port_offset by (done || lia). cbv zeta. cbn [negb].
    change ((0 =? 0) && (2 =? 4)) with false. change ((0 =? 0) && (2 =? 2)) with true. rewrite (wrap_small 16 v) by done.
    by destruct (ata_ide_write16 _ _ _ _) as [[ch w]|].
  - unfold lide_read. rewrite (proj1 Hm), port_offset by (done || lia). cbv zeta. cbn [negb].
    change ((0 =? 0) && (2 =? 4)) with false. change ((0 =? 0) && (2 =? 2)) with true.
    destruct (ata_ide_read16 _ _) as [[v ch]|]; [|done]. by destruct b.
Qed.

Lemma board_run_channel l : forall b,
  mapped b -> Forall in_registers l ->
  board_run l b = '(vs, ch, w) ← channel_run l (ide b) (ide_media b); Some (vs, b <| ide := ch |> <| ide_media := w |>).
Proof.
  induction l as [|a l IH]; intros b Hm Hl; cbn [board_run channel_run]; [by destruct b|].
  apply Forall_cons in Hl as [Ha Hl]. rewrite board_access_channel by done.
  destruct (channel_access a (ide b) (ide_media b)) as [[[vs ch] w]|]; [|done]. cbn [mbind option_bind].
  rewrite IH by done. cbn [ide ide_media].
  change (ide (b <|ide := ch|> <|ide_media := w|>)) with ch.
  change (ide_media (b <|ide := ch|> <|ide_media := w|>)) with w.
  by destruct (channel_run l ch w) as [[[us ch'] w']|].
Qed.

Lemma channel_run_cons a l ch w :
  channel_run (a :: l) ch w =
  '(vs, ch, w) ← channel_access a ch w; '(us, ch, w) ← channel_run l ch w; Some (vs ++ us, ch, w).
Proof. done. Qed.

Lemma channel_run_app l : forall l' ch w,
  channel_run (l ++ l') ch w =
  '(vs, ch, w) ← channel_run l ch w; '(us, ch, w) ← channel_run l' ch w; Some (vs ++ us, ch, w).
Proof.
  induction l as [|a l IH]; intros l' ch w; cbn [app channel_run mbind option_bind].
  - by destruct (channel_run l' ch w) as [[[us ch'] w']|].
  - destruct (channel_access a ch w) as [[[vs ch1] w1]|]; [|done]. cbn [mbind option_bind]. rewrite IH.
    destruct (channel_run l ch1 w1) as [[[us ch2] w2]|]; [|done]. cbn [mbind option_bind].
    destruct (channel_run l' ch2 w2) as [[[xs ch3] w3]|]; [|done]. cbn [mbind option_bind]. by rewrite app_assoc.
Qed.

(** ** Words through the data port *)

(** The bytes of words, big-endian. *)
Definition be_bytes (ws : list Z) : list Z := flat_map (fun v => [u8 (v .>> 8); u8 v]) ws.

Lemma be_bytes_length ws : length (be_bytes ws) = (2 * length ws)%nat.
Proof. induction ws as [|v ws IH]; [done|]. change (be_bytes (v :: ws)) with (u8 (v .>> 8) :: u8 v :: be_bytes ws). cbn [length]. lia. Qed.

Lemma be_bytes_bytes ws : bytes (be_bytes ws).
Proof.
  induction ws as [|v ws IH]; [by apply Forall_nil|].
  change (be_bytes (v :: ws)) with (u8 (v .>> 8) :: u8 v :: be_bytes ws).
  apply Forall_cons_2; [width|]. apply Forall_cons_2; [width|done].
Qed.

Lemma be16s_be_bytes ws : Forall is_u16 ws -> be16s (be_bytes ws) = ws.
Proof.
  induction ws as [|v ws IH]; [done|]. intros [Hv Hw]%Forall_cons.
  change (be_bytes (v :: ws)) with (u8 (v .>> 8) :: u8 v :: be_bytes ws). cbn [be16s]. rewrite IH by done. f_equal.
  rewrite Z.shiftr_div_pow2 by lia. unfold wrap, in_width in *. change (2 ^ 8) with 256 in *.
  rewrite Z.mod_small by (split; [apply Z.div_pos; lia|apply Z.div_lt_upper_bound; lia]).
  rewrite (Z.div_mod v 256) at 3 by lia. lia.
Qed.

Lemma lookup_middle {A} (l : list A) x r i : i = length l -> (l ++ x :: r) !! i = Some x.
Proof. intros ->. by apply list_lookup_middle. Qed.

Lemma done_at (p : Z) (ch : AtaIdeChannel lide_media) : data_in_done (ch <| xfer_pos := p |>) = data_in_done ch.
Proof. unfold data_in_done. cbv zeta. change (ata_state (ch <| xfer_pos := p |>)) with (ata_state ch). by destruct (ata_state ch). Qed.

(** One word, and what the channel is afterwards. *)
Lemma read16_word (ch : AtaIdeChannel lide_media) pre hi lo rest :
  sends_data (ata_state ch) = true -> xfer_buf ch = pre ++ hi :: lo :: rest -> xfer_pos ch = Z.of_nat (length pre) ->
  xfer_pos ch + 2 <= xfer_len ch -> is_u8 hi -> is_u8 lo ->
  ata_ide_read16 0 ch =
    Some (hi * 256 + lo, if xfer_len ch =? xfer_pos ch + 2 then data_in_done ch else ch <| xfer_pos := xfer_pos ch + 2 |>).
Proof.
  intros Hs Hb Hp Hl Hhi Hlo. unfold ata_ide_read16. cbn [Z.eqb negb].
  rewrite Hs, (proj2 (Z.ltb_lt _ _)) by lia. cbn [andb]. rewrite Hb, (lookup_middle pre hi (lo :: rest) (Z.to_nat (xfer_pos ch))) by lia. cbn [mbind option_bind].
  rewrite (cons_middle hi), app_assoc, (lookup_middle (pre ++ [hi]) lo rest (Z.to_nat (xfer_pos ch + 1)))
    by (rewrite length_app; cbn [length]; lia).
  cbn [mbind option_bind]. cbv zeta. rewrite (wrap_small 16 (hi .<< 8)), be16_word; [|done|done|width]. do 2 f_equal.
  rewrite done_at. change (xfer_len (ch <| xfer_pos := xfer_pos ch + 2 |>)) with (xfer_len ch).
  change (xfer_pos (ch <| xfer_pos := xfer_pos ch + 2 |>)) with (xfer_pos ch + 2).
  destruct (Z.leb_spec (xfer_len ch) (xfer_pos ch + 2)), (Z.eqb_spec (xfer_len ch) (xfer_pos ch + 2)); [done|lia|lia|done].
Qed.

(** The words of the bytes that are left, then the end of the transfer. *)
Lemma read_words n : forall data pre rest ch w,
  sends_data (ata_state ch) = true -> xfer_buf ch = pre ++ data ++ rest -> xfer_pos ch = Z.of_nat (length pre) ->
  xfer_len ch = Z.of_nat (length pre + length data) -> bytes data -> length data = (2 * S n)%nat ->
  channel_run (replicate (S n) in16) ch w = Some (be16s data, data_in_done ch, w).
Proof.
  induction n as [|n IH]; intros data pre rest ch w Hs Hb Hp Hl Hd Hn;
    (destruct data as [|hi [|lo data]]; [done|done|]); cbn [length] in *;
    apply Forall_cons in Hd as [Hhi Hd]; apply Forall_cons in Hd as [Hlo Hd];
    change (replicate (S ?k) in16) with (in16 :: replicate k in16); rewrite channel_run_cons; cbn [channel_access];
    rewrite (read16_word ch pre hi lo (data ++ rest)) by (done || lia); cbn [mbind option_bind].
  - destruct data; [|done]. rewrite (proj2 (Z.eqb_eq _ _)) by (cbn in Hl; lia). done.
  - rewrite (proj2 (Z.eqb_neq _ _)) by lia. set (ch1 := ch <| xfer_pos := xfer_pos ch + 2 |>).
    rewrite (IH data (pre ++ [hi; lo]) rest ch1 w);
      [by unfold ch1; rewrite done_at|done| |rewrite length_app; cbn; lia|rewrite length_app; cbn; lia|done|lia].
    change (xfer_buf ch1) with (xfer_buf ch). rewrite Hb, <- app_assoc. done.
Qed.

(** The words are put in the buffer, then the end of the transfer. *)
Lemma write16_word (ch : AtaIdeChannel lide_media) pre x y rest v w :
  ata_state ch = ATA_DATA_OUT -> xfer_buf ch = pre ++ x :: y :: rest -> xfer_pos ch = Z.of_nat (length pre) ->
  xfer_pos ch + 2 <= xfer_len ch ->
  ata_ide_write16 0 v ch w =
    let ch' := ch <| xfer_buf := pre ++ u8 (v .>> 8) :: u8 v :: rest |> <| xfer_pos := xfer_pos ch + 2 |> in
    if xfer_len ch =? xfer_pos ch + 2 then data_out_done ch' w else Some (ch', w).
Proof.
  intros Hs Hb Hp Hl. unfold ata_ide_write16. cbn [Z.eqb negb]. cbv zeta. rewrite Hs, (proj2 (Z.ltb_lt _ _)) by lia.
  rewrite Hb. replace (store8 (pre ++ x :: y :: rest) (xfer_pos ch) (u8 (v .>> 8))) with (Some (pre ++ u8 (v .>> 8) :: y :: rest))
    by (rewrite Hp; by rewrite store8_at). cbn [mbind option_bind].
  rewrite (cons_middle _ _ (_ :: _)), app_assoc.
  replace (xfer_pos ch + 1) with (Z.of_nat (length (pre ++ [u8 (v .>> 8)]))) by (rewrite length_app; cbn; lia).
  rewrite store8_at, <- app_assoc. cbn [mbind option_bind app].
  change 255 with 0xff. rewrite low_byte.
  set (ch1 := ch <| xfer_buf := _ |> <| xfer_pos := _ |>).
  change (xfer_len ch1) with (xfer_len ch). change (xfer_pos ch1) with (xfer_pos ch + 2).
  destruct (Z.leb_spec (xfer_len ch) (xfer_pos ch + 2)), (Z.eqb_spec (xfer_len ch) (xfer_pos ch + 2));
    [done|lia|lia|done].
Qed.

Lemma write_words ws : forall pre old rest ch w v,
  ata_state ch = ATA_DATA_OUT -> xfer_buf ch = pre ++ old ++ rest -> xfer_pos ch = Z.of_nat (length pre) ->
  xfer_len ch = Z.of_nat (length pre + length old) -> length old = length (be_bytes (v :: ws)) ->
  channel_run (map out16 (v :: ws)) ch w =
    '(ch, w) ← data_out_done (ch <| xfer_buf := pre ++ be_bytes (v :: ws) ++ rest |> <| xfer_pos := xfer_len ch |>) w;
    Some ([], ch, w).
Proof.
  induction ws as [|v2 ws IH]; intros pre old rest ch w v Hs Hb Hp Hl Ho;
    rewrite be_bytes_length in Ho; cbn [length] in Ho; (destruct old as [|x [|y old]]; [done|done|]);
    cbn [length] in *; rewrite map_cons, channel_run_cons; cbn [channel_access];
    rewrite (write16_word ch pre x y (old ++ rest)) by (done || lia); cbv zeta.
  - destruct old; [|cbn in Ho; lia]. cbn [length] in Hl. rewrite (proj2 (Z.eqb_eq _ _)) by lia.
    replace (xfer_len ch) with (xfer_pos ch + 2) by lia. cbn [app be_bytes flat_map].
    by destruct (data_out_done _ w) as [[ch' w']|].
  - rewrite (proj2 (Z.eqb_neq _ _)) by lia. cbn [mbind option_bind].
    set (ch1 := ch <| xfer_buf := _ |> <| xfer_pos := _ |>).
    rewrite (IH (pre ++ [u8 (v .>> 8); u8 v]) old rest ch1 w v2); [|done| |rewrite length_app; cbn; lia|rewrite length_app; cbn; lia|rewrite be_bytes_length; cbn [length]; lia].
    + change (xfer_len ch1) with (xfer_len ch). rewrite <- app_assoc.
      change (be_bytes (v :: v2 :: ws)) with ([u8 (v .>> 8); u8 v] ++ be_bytes (v2 :: ws)). rewrite <- app_assoc.
      unfold ch1. by destruct (data_out_done _ w) as [[ch' w']|].
    + unfold ch1. cbn [xfer_buf]. by rewrite <- app_assoc.
Qed.

(** ** A request *)

(** The channel with the registers of a request. *)
Definition requested (lba count : Z) (ch : AtaIdeChannel lide_media) : AtaIdeChannel lide_media :=
  ch <| sector_count := u8 count |> <| lba_low := u8 lba |> <| lba_mid := u8 (lba .>> 8) |>
     <| lba_high := u8 (lba .>> 16) |> <| dev_head := 0xe0 .| (lba .>> 24) |>.

Lemma request_run cmd lba count ch w :
  channel_run (request cmd lba count) ch w =
  '(ch, w) ← execute_command cmd (requested lba count ch) w; Some ([], ch, w).
Proof.
  by destruct (execute_command cmd (requested lba count ch) w) as [[ch' w']|] eqn:E; unfold requested in E; cbn; rewrite E.
Qed.

Lemma request_lba lba count ch : in_width 28 lba -> disk_lba (requested lba count ch) = lba.
Proof.
  intros H. transitivity (u32 ((lba .>> 24) .<< 24) .| (u8 (lba .>> 16) .<< 16) .| (u8 (lba .>> 8) .<< 8) .| u8 lba).
  - assert (E : (0xe0 .| (lba .>> 24)) .& 0x0f = lba .>> 24); [|unfold disk_lba, requested; cbn; by rewrite E].
    rewrite Z.land_lor_distr_l. change (0xe0 .& 0x0f) with 0. rewrite Z.lor_0_l. change 0x0f with (Z.ones 4).
    rewrite Z.land_ones, Z.shiftr_div_pow2 by lia. unfold in_width in H. apply Z.mod_small.
    split; [apply Z.div_pos; lia|apply Z.div_lt_upper_bound; lia].
  - assert (H32 : is_u32 lba) by (by apply (in_width_mono 28)). rewrite <- (be32_word lba H32) at 5.
    rewrite !low_byte. rewrite (wrap_small 8 (lba .>> 24)); [done|]. rewrite Z.shiftr_div_pow2 by lia.
    unfold in_width in *. split; [apply Z.div_pos; lia|apply Z.div_lt_upper_bound; lia].
Qed.

Lemma request_device lba count ch : in_width 28 lba -> ata_selected_dev (requested lba count ch) = 0.
Proof.
  intros H. change (b2u (has (0xe0 .| (lba .>> 24)) (2 ^ 4)) = 0).
  rewrite has_pow2, Z.lor_spec, Z.shiftr_spec by lia. by rewrite (testbit_high 28 lba) by (done || lia).
Qed.

(** What a driver may ask of a disk with [n] sectors. *)
Record request_ok (n lba count : Z) : Prop := {
  rq_lba : 0 <= lba; rq_count : 1 <= count <= 256; rq_disk : lba + count <= n; rq_width : lba + count <= 2 ^ 28;
}.

Lemma request_width n lba count : request_ok n lba count -> in_width 28 lba.
Proof. intros [H1 H2 H3 H4]. unfold in_width. lia. Qed.

Lemma request_count n lba count ch :
  request_ok n lba count -> (if sector_count (requested lba count ch) =? 0 then 256 else sector_count (requested lba count ch)) = count.
Proof.
  intros [H1 H2 H3 H4]. change (sector_count (requested lba count ch)) with (u8 count).
  destruct (decide (count = 256)) as [->|Hc]; [done|].
  rewrite wrap_small by (unfold in_width; lia). by rewrite (proj2 (Z.eqb_neq _ _)) by lia.
Qed.

(** The disk accepts the request. *)
Lemma request_accepted cmd lba count ch w :
  is_Some (disk_read ch) -> request_ok (disk_sectors ch) lba count ->
  cmd = ATA_CMD_READ_SECTORS \/ cmd = ATA_CMD_WRITE_SECTORS ->
  execute_command cmd (requested lba count ch) w =
    let ch := requested lba count ch in
    if cmd =? ATA_CMD_READ_SECTORS then
      match disk_read ch with
      | None => None
      | Some read =>
          '(rc, buf, w) ← read lba count (xfer_buf ch) w;
          let ch := ch <| xfer_buf := buf |> in
          if negb (rc =? 0) then Some (abort_command ch, w)
          else Some (data_phase ATA_DATA_IN (transfer buf (count * ATA_SECTOR_SIZE) ch), w)
      end
    else match disk_write ch with
      | None => Some (abort_command ch, w)
      | Some _ =>
          Some (data_phase ATA_DATA_OUT (transfer (xfer_buf ch) (count * ATA_SECTOR_SIZE)
                  (ch <| disk_wr_lba := lba |> <| disk_wr_count := count |>)), w)
      end.
Proof.
  intros [rd Hrd] Hr Hc. pose proof (request_width _ _ _ Hr) as Hw. pose proof (request_count _ _ _ ch Hr) as Ec.
  unfold execute_command. rewrite request_device by done. unfold ata_disk_present.
  change (disk_read (requested lba count ch)) with (disk_read ch). rewrite Hrd.
  assert (E : execute_disk_command cmd (requested lba count ch) w = disk_transfer cmd (requested lba count ch) w)
    by (by destruct Hc as [->| ->]).
  change (0 =? 0) with true. cbv iota. rewrite E. unfold disk_transfer. cbv zeta. rewrite Ec, request_lba by done.
  destruct Hr as [H1 H2 H3 H4]. change (disk_sectors (requested lba count ch)) with (disk_sectors ch).
  rewrite (wrap_small 32 (lba + count)) by (unfold in_width; lia). rewrite (proj2 (Z.ltb_ge _ _)) by lia.
  rewrite buffer_size. unfold ATA_SECTOR_SIZE at 1. rewrite (proj2 (Z.ltb_ge _ _)) by lia.
  cbn [orb]. change (disk_read (requested lba count ch)) with (disk_read ch). by rewrite Hrd.
Qed.

(** ** The image file *)

(** The hard disk of the media is the file [f]. *)
Definition attached (f : list Z) (w : lide_media) : Prop := fp (hdf w) = Some f /\ media_present (hdf w) = true.

(** The bytes of [count] sectors from [lba]. *)
Definition sector_bytes (f : list Z) (lba count : Z) : list Z := slice f (lba * 512) (count * 512).

Lemma sector_bytes_length f n lba count :
  request_ok n lba count -> n * 512 <= Z.of_nat (length f) ->
  length (sector_bytes f lba count) = (2 * (256 * Z.to_nat count))%nat.
Proof. intros [H1 H2 H3 H4] Hf. unfold sector_bytes. rewrite slice_length; lia. Qed.

Lemma hdf_read_sectors f n lba count buf w :
  attached f w -> request_ok n lba count -> n * 512 <= Z.of_nat (length f) -> count * 512 <= Z.of_nat (length buf) ->
  hdf_read lba count buf w =
    Some (0, sector_bytes f lba count ++ drop (length (sector_bytes f lba count)) buf, w).
Proof.
  intros [Hf Hp] Hr Hn Hb. pose proof (sector_bytes_length f n lba count Hr Hn) as Hl.
  unfold hdf_read, media_read. rewrite Hf, Hp. cbn [negb]. cbv zeta. fold (sector_bytes f lba count).
  destruct Hr as [H1 H2 H3 H4]. rewrite store_bytes_spec by lia. cbn [mbind option_bind].
  rewrite (proj2 (Z.eqb_eq _ _)) by lia. done.
Qed.

Lemma channel_reads f n lba count ch w :
  disk_read ch = Some hdf_read -> disk_sectors ch = n -> n * 512 <= Z.of_nat (length f) -> bytes f ->
  buffer BUF (xfer_buf ch) -> attached f w -> request_ok n lba count ->
  exists ch', channel_run (request ATA_CMD_READ_SECTORS lba count ++ replicate (256 * Z.to_nat count) in16) ch w =
    Some (be16s (sector_bytes f lba count), ch', w) /\
    ata_state ch' = ATA_IDLE /\ ata_status ch' = ATA_STATUS_RDY.
Proof.
  intros Hrd <- Hn Hfb [Hb Hbb] Hat Hr. pose proof BUF_large as HB.
  pose proof (sector_bytes_length _ _ _ _ Hr Hn) as Hl. pose proof (rq_count _ _ _ Hr) as Hc.
  rewrite channel_run_app, request_run, request_accepted by (by eauto). cbv zeta.
  change (ATA_CMD_READ_SECTORS =? ATA_CMD_READ_SECTORS) with true. cbv iota.
  change (disk_read (requested lba count ch)) with (disk_read ch). rewrite Hrd.
  change (xfer_buf (requested lba count ch)) with (xfer_buf ch).
  rewrite (hdf_read_sectors f (disk_sectors ch)) by (done || lia). cbn [mbind option_bind].
  change (negb (0 =? 0)) with false. cbv iota. set (buf := _ ++ _). cbn [mbind option_bind].
  set (ch1 := data_phase _ _).
  destruct (256 * Z.to_nat count)%nat as [|m] eqn:E; [lia|].
  rewrite (read_words m (sector_bytes f lba count) [] (drop (length (sector_bytes f lba count)) (xfer_buf ch)));
    [|done|done|done| |by apply slice_bytes|done].
  - cbn [mbind option_bind app]. eexists. split; [done|]. done.
  - change (xfer_len ch1) with (count * ATA_SECTOR_SIZE). unfold ATA_SECTOR_SIZE. cbn [length]. lia.
Qed.

Lemma hdf_write_sectors f lba count data rest w :
  attached f w -> Z.of_nat (length data) = count * 512 ->
  hdf_write lba count (data ++ rest) w =
    Some (0, w <| hdf := (hdf w) <| fp := Some (file_write f (lba * 512) data) |> |>).
Proof.
  intros [Hf Hp] Hl. unfold hdf_write. cbv zeta. rewrite Hf, Hp. cbn [negb].
  rewrite (proj2 (Z.ltb_ge _ _)) by (rewrite length_app; lia). do 5 f_equal.
  unfold slice. rewrite drop_0, <- Hl, Nat2Z.id. by rewrite take_app_length.
Qed.

Lemma channel_writes f n lba count ws ch w :
  disk_read ch = Some hdf_read -> disk_write ch = Some hdf_write -> disk_sectors ch = n ->
  buffer BUF (xfer_buf ch) -> attached f w -> request_ok n lba count -> length ws = (256 * Z.to_nat count)%nat ->
  exists ch', channel_run (request ATA_CMD_WRITE_SECTORS lba count ++ map out16 ws) ch w =
    Some ([], ch', w <| hdf := (hdf w) <| fp := Some (file_write f (lba * 512) (be_bytes ws)) |> |>) /\
    ata_state ch' = ATA_IDLE /\ ata_status ch' = ATA_STATUS_RDY /\
    disk_read ch' = disk_read ch /\ disk_write ch' = disk_write ch /\ disk_sectors ch' = disk_sectors ch.
Proof.
  intros Hrd Hwr <- [Hb Hbb] Hat Hr Hws. pose proof BUF_large as HB. pose proof (rq_count _ _ _ Hr) as Hc.
  rewrite channel_run_app, request_run, request_accepted by (by eauto). cbv zeta.
  change (ATA_CMD_WRITE_SECTORS =? ATA_CMD_READ_SECTORS) with false. cbv iota.
  change (disk_write (requested lba count ch)) with (disk_write ch). rewrite Hwr. cbn [mbind option_bind].
  set (ch1 := data_phase _ _). destruct ws as [|v ws]; [cbn in Hws; lia|].
  pose proof (be_bytes_length (v :: ws)) as Hbl.
  set (k := length (be_bytes (v :: ws))) in *.
  rewrite (write_words ws [] (take k (xfer_buf ch)) (drop k (xfer_buf ch)));
    [|done|by rewrite take_drop|done| |].
  - unfold data_out_done.
    change (disk_write (ch1 <| xfer_buf := _ |> <| xfer_pos := _ |>)) with (disk_write ch). rewrite Hwr.
    cbn [app]. set (ch2 := ch1 <| xfer_buf := _ |> <| xfer_pos := _ |>).
    change (disk_wr_lba ch2) with lba. change (disk_wr_count ch2) with count.
    change (xfer_buf ch2) with (be_bytes (v :: ws) ++ drop k (xfer_buf ch)).
    rewrite (hdf_write_sectors f) by (done || (fold k; lia)). cbn [mbind option_bind]. eexists. split; [done|]. done.
  - change (xfer_len ch1) with (count * ATA_SECTOR_SIZE). unfold ATA_SECTOR_SIZE. rewrite length_take. cbn [length]. lia.
  - rewrite length_take. fold k. lia.
Qed.

(** A write changes the sectors it names, and no other. *)
Lemma sector_bytes_written f lba count data :
  0 <= lba -> Z.of_nat (length data) = count * 512 -> lba * 512 + count * 512 <= Z.of_nat (length f) ->
  sector_bytes (file_write f (lba * 512) data) lba count = data.
Proof.
  intros H0 Hl Hn. rewrite file_write_inside by lia. unfold sector_bytes. rewrite <- Hl. apply slice_written; lia.
Qed.

Lemma sector_bytes_other f lba count data lba' count' :
  0 <= lba -> 0 <= lba' -> 0 <= count' -> Z.of_nat (length data) = count * 512 ->
  lba * 512 + count * 512 <= Z.of_nat (length f) -> lba' + count' <= lba \/ lba + count <= lba' ->
  sector_bytes (file_write f (lba * 512) data) lba' count' = sector_bytes f lba' count'.
Proof.
  intros H0 H1 H2 Hl Hn Hd. rewrite file_write_inside by lia. unfold sector_bytes. apply slice_elsewhere; lia.
Qed.

(** ** Through the board *)

Section board.
Context (bootable : bool).
#[local] Abbreviation board_ok := (board_ok bootable).

(** The words of a request to read, of a request to write. *)
Definition read_request (lba count : Z) : list access :=
  request ATA_CMD_READ_SECTORS lba count ++ replicate (256 * Z.to_nat count) in16.
Definition write_request (lba count : Z) (ws : list Z) : list access :=
  request ATA_CMD_WRITE_SECTORS lba count ++ map out16 ws.

(** The board carries the image [f]. *)
Record disk_ready (f : list Z) (b : lide_board) : Prop := {
  dr_mapped : mapped b;
  dr_file : attached f (ide_media b);
  dr_read : disk_read (ide b) = Some hdf_read;
  dr_write : disk_write (ide b) = Some hdf_write;
}.

Lemma request_registers cmd lba count : is_u8 cmd -> in_width 28 lba -> Forall in_registers (request cmd lba count).
Proof.
  intros Hc Hl. unfold request.
  assert (E : is_u8 (0xe0 .| (lba .>> 24))).
  { apply in_width_lor; [lia|done|]. rewrite Z.shiftr_div_pow2 by lia. unfold in_width in *.
    split; [apply Z.div_pos; lia|apply Z.div_lt_upper_bound; lia]. }
  repeat apply Forall_cons_2; try exact (conj (conj eq_refl eq_refl) E); try (split; [lia|try apply wrap_range; done]).
  by apply Forall_nil.
Qed.

Lemma board_accesses_ok k l : forall b vs b',
  board_ok k b -> board_run l b = Some (vs, b') -> board_ok k b'.
Proof.
  induction l as [|a l IH]; intros b vs b' Hb; cbn [board_run]; [by intros [= _ <-]|].
  destruct (board_access a b) as [[us b1]|] eqn:E; [|done]. cbn [mbind option_bind].
  destruct (board_run l b1) as [[xs b2]|] eqn:E2; [|done]. cbn [mbind option_bind]. intros [= _ <-].
  apply (IH b1 xs b2); [|done]. clear IH E2. destruct a as [reg v|v|]; cbn [board_access] in E.
  - destruct (board_write bootable k (port b reg) v 1 b Hb) as (b3 & E3 & H3). rewrite E3 in E. by injection E as _ <-.
  - destruct (board_write bootable k (port b 0) v 2 b Hb) as (b3 & E3 & H3). rewrite E3 in E. by injection E as _ <-.
  - destruct (board_read bootable k (port b 0) 2 b Hb) as (v & b3 & E3 & H3). rewrite E3 in E. by injection E as _ <-.
Qed.

Lemma room k b f : board_ok k b -> attached f (ide_media b) -> disk_sectors (ide b) * 512 <= Z.of_nat (length f) /\ bytes f.
Proof.
  intros [_ _ [M1 _ M3 M4 _ _]] [Hf _]. split; [|by apply M1]. apply M4. rewrite <- M3. unfold hdf_size. by rewrite Hf.
Qed.

Lemma board_reads k b f lba count :
  board_ok k b -> disk_ready f b -> request_ok (disk_sectors (ide b)) lba count ->
  exists b', board_run (read_request lba count) b = Some (be16s (sector_bytes f lba count), b').
Proof.
  intros Hb [Hm Hat Hrd Hwr] Hr. destruct (room k b f Hb Hat) as [Hn Hf].
  destruct (channel_reads f _ lba count (ide b) (ide_media b) Hrd eq_refl Hn Hf (co_buf _ (bo_channel _ _ _ Hb)) Hat Hr)
    as (ch' & E & _).
  unfold read_request. rewrite board_run_channel; [|done|].
  - rewrite E. cbn [mbind option_bind]. by eexists.
  - apply Forall_app_2; [|by apply Forall_replicate].
    apply request_registers; [done|]. by apply (request_width _ _ _ Hr).
Qed.

Lemma board_writes k b f lba count ws :
  board_ok k b -> disk_ready f b -> request_ok (disk_sectors (ide b)) lba count ->
  Forall is_u16 ws -> length ws = (256 * Z.to_nat count)%nat ->
  exists b', board_run (write_request lba count ws) b = Some ([], b') /\
    disk_ready (file_write f (lba * 512) (be_bytes ws)) b' /\ disk_sectors (ide b') = disk_sectors (ide b).
Proof.
  intros Hb [Hm Hat Hrd Hwr] Hr Hw Hl. destruct (room k b f Hb Hat) as [Hn Hf].
  destruct (channel_writes f _ lba count ws (ide b) (ide_media b) Hrd Hwr eq_refl (co_buf _ (bo_channel _ _ _ Hb)) Hat Hr Hl)
    as (ch' & E & _ & _ & E1 & E2 & E3).
  unfold write_request. rewrite board_run_channel; [|done|].
  - rewrite E. cbn [mbind option_bind]. eexists. split; [done|]. split; [|exact E3].
    split; [done|split; [done|apply Hat]|exact (eq_trans E1 Hrd)|exact (eq_trans E2 Hwr)].
  - apply Forall_app_2; [apply request_registers; [done|by apply (request_width _ _ _ Hr)]|].
    apply Forall_map. by eapply Forall_impl.
Qed.

(** C9: The words a driver writes to sectors of the hard disk through the data port are in the
    image file, big-endian, at the place of those sectors; the driver that reads the same
    sectors gets the same words back, and one that reads other sectors gets what it would
    have got before. *)
Theorem sectors_round_trip rom b0 before b f lba count ws :
  lide_create bootable rom = Some b0 -> Forall host_files before -> run_ops before b0 = Some b ->
  disk_ready f b -> request_ok (disk_sectors (ide b)) lba count ->
  Forall is_u16 ws -> length ws = (256 * Z.to_nat count)%nat ->
  exists b1 b2, board_run (write_request lba count ws) b = Some ([], b1) /\
    fp (hdf (ide_media b1)) = Some (file_write f (lba * 512) (be_bytes ws)) /\
    board_run (read_request lba count) b1 = Some (ws, b2) /\
    forall lba' count', request_ok (disk_sectors (ide b)) lba' count' -> lba' + count' <= lba \/ lba + count <= lba' ->
      exists vs b3 b4, board_run (read_request lba' count') b = Some (vs, b3) /\
        board_run (read_request lba' count') b1 = Some (vs, b4).
Proof.
  intros H0 Hf Hrun Hd Hr Hw Hl. destruct (run_ok bootable before None b0 Hf (board_create_ok _ _ _ H0)) as (b_ & k & E & Hb & _).
  rewrite Hrun in E. injection E as <-. destruct (room k b f Hb (dr_file _ _ Hd)) as [Hn _].
  destruct (board_writes k b f lba count ws Hb Hd Hr Hw Hl) as (b1 & E1 & Hd1 & Es).
  pose proof (board_accesses_ok k _ _ _ _ Hb E1) as Hb1. pose proof Hr as [R1 R2 R3 R4].
  assert (Hlen : Z.of_nat (length (be_bytes ws)) = count * 512) by (rewrite be_bytes_length; lia).
  destruct (board_reads k b1 _ lba count Hb1 Hd1) as (b2 & E2); [by rewrite Es|].
  rewrite sector_bytes_written, be16s_be_bytes in E2 by (done || lia).
  exists b1, b2. split; [done|]. split; [apply Hd1|]. split; [done|]. intros lba' count' Hr' Hdis.
  destruct (board_reads k b f lba' count' Hb Hd Hr') as (b3 & E3).
  destruct (board_reads k b1 _ lba' count' Hb1 Hd1) as (b4 & E4); [by rewrite Es|].
  destruct Hr'. rewrite (sector_bytes_other f lba count) in E4 by (done || lia). by eexists _, b3, b4.
Qed.

End board.

(** ** Witnesses *)

(** A driver of one byte, an image of two sectors, the board configured at 0xea0000. *)
Definition attach_ops : list lide_op :=
  [op_attach_hdf (Some (replicate 1024 7)); op_config ZORRO_AC_OFF_BASE_HI 0xea].

Lemma attach_files : Forall host_files attach_ops.
Proof. apply Forall_cons_2; [by apply (Forall_replicate (in_width 8))|]. by apply Forall_cons_2. Qed.

Lemma some_guest_ops : Forall guest_op [op_write 0xea1e00 0x30 1; op_reset].
Proof. by repeat apply Forall_cons_2. Qed.

Lemma some_words : Forall is_u16 (replicate 256 0x1234).
Proof. by apply (Forall_replicate is_u16). Qed.

Lemma attached_board :
  exists b0 b, lide_create false (Some [1]) = Some b0 /\ run_ops attach_ops b0 = Some b /\
    disk_ready (replicate 1024 7) b /\ disk_sectors (ide b) = 2.
Proof.
  eexists _, _. split; [reflexivity|]. split; [reflexivity|]. split; [|reflexivity].
  split; [split; [reflexivity|]|by split|reflexivity|reflexivity]. change (0 <= 0xea0000 <= 0xff0000); lia.
Qed.

Lemma disk_board_is_safe_witness :
  exists b0 b b', lide_create false (Some [1]) = Some b0 /\ run_ops attach_ops b0 = Some b /\
    run_ops [op_write 0xea1e00 0x30 1; op_reset] b = Some b' /\ hdf_size (ide_media b') = hdf_size (ide_media b).
Proof.
  destruct attached_board as (b0 & b & E & _).
  destruct (disk_board_is_safe false (Some [1]) b0 attach_ops [op_write 0xea1e00 0x30 1; op_reset])
    as (b1 & b' & E1 & E2 & E3); [exact E|exact attach_files|exact some_guest_ops|].
  exists b0, b1, b'. exact (conj E (conj E1 (conj E2 E3))).
Defined.

Lemma sectors_round_trip_witness :
  exists b0 b b1 b2, lide_create false (Some [1]) = Some b0 /\ run_ops attach_ops b0 = Some b /\
    board_run (write_request 1 1 (replicate 256 0x1234)) b = Some ([], b1) /\
    board_run (read_request 1 1) b1 = Some (replicate 256 0x1234, b2).
Proof.
  destruct attached_board as (b0 & b & E0 & E & Hr & Hs).
  destruct (sectors_round_trip false (Some [1]) b0 attach_ops b (replicate 1024 7) 1 1 (replicate 256 0x1234))
    as (b1 & b2 & E1 & _ & E2 & _); [exact E0|exact attach_files|exact E|exact Hr| |exact some_words|reflexivity|].
  - rewrite Hs. split; lia.
  - exists b0, b, b1, b2. exact (conj E0 (conj E (conj E1 E2))).
Defined.

(** ** The sense data *)

(** The answer to REQUEST SENSE. *)
Definition sense_data (key asc ascq : Z) : list Z :=
  [0x70; 0; key .& 0x0f; 0; 0; 0; 0; 10; 0; 0; 0; 0; asc; ascq; 0; 0; 0; 0].

(** Packets sent one after the other: the return code and the data of each answer. *)
Fixpoint answers {W} (bootable : bool) (media : W) (max : Z) (pkts : list (list Z)) (out : list Z)
    (s : AtapiCdromState W) : option (list (Z * list Z)) :=
  match pkts with
  | [] => Some []
  | pkt :: pkts =>
      '(rc, out, len, s) ← atapi_cdrom_exec bootable media pkt out max s;
      rest ← answers bootable media max pkts out s;
      Some ((rc, slice out 0 len) :: rest)
  end.

(** A store in the first bytes, the others being untouched. *)
Lemma store8_head i b pre rest :
  0 <= i < Z.of_nat (length pre) -> store8 (pre ++ rest) i b = Some (<[Z.to_nat i := b]> pre ++ rest).
Proof.
  intros H. unfold store8. rewrite length_app, (proj2 (Z.leb_le _ _)), (proj2 (Z.ltb_lt _ _)) by lia. cbn [andb].
  by rewrite insert_app_l by lia.
Qed.

Lemma request_sense_answer {W} out max (s : AtapiCdromState W) :
  18 <= max -> 18 <= Z.of_nat (length out) ->
  cmd_request_sense out max s =
    Some (0, sense_data (sense_key s) (asc s) (ascq s) ++ drop 18 out, 18, set_sense SK_NO_SENSE 0 0 s).
Proof.
  intros Hm Ho. unfold cmd_request_sense. rewrite (proj2 (Z.ltb_ge _ _)) by lia.
  unfold fill_bytes. rewrite store_bytes_spec by (rewrite ?length_replicate; lia). cbn [mbind option_bind].
  change (take (Z.to_nat 0) out) with (@nil Z). change (Z.to_nat 18) with 18%nat. change (Z.to_nat 0) with 0%nat.
  rewrite length_replicate. cbn [app Nat.add]. change ([] ++ ?l) with l. set (rest := drop 18 out). clearbody rest.
  do 5 (rewrite store8_head by (rewrite ?length_insert, ?length_replicate; lia); cbn [mbind option_bind]). done.
Qed.

Lemma sense_slice k a q rest : slice (sense_data k a q ++ rest) 0 18 = sense_data k a q.
Proof. done. Qed.

Lemma sense_room k a q (out : list Z) : 18 <= Z.of_nat (length out) -> 18 <= Z.of_nat (length (sense_data k a q ++ drop 18 out)).
Proof. rewrite length_app. cbn [length sense_data]. lia. Qed.

Definition test_unit_ready : list Z := [CMD_TEST_UNIT_READY; 0; 0; 0; 0; 0; 0; 0; 0; 0; 0; 0].
Definition request_sense : list Z := [CMD_REQUEST_SENSE; 0; 0; 0; 18; 0; 0; 0; 0; 0; 0; 0].

Lemma answers_cons {W} bootable (media : W) max pkt pkts out s :
  answers bootable media max (pkt :: pkts) out s =
  '(rc, out, len, s) ← atapi_cdrom_exec bootable media pkt out max s;
  rest ← answers bootable media max pkts out s; Some ((rc, slice out 0 len) :: rest).
Proof. done. Qed.

Lemma sense_exec {W} bootable (media : W) out max s :
  atapi_cdrom_exec bootable media request_sense out max s = cmd_request_sense out max s.
Proof. done. Qed.

Lemma ready_attention {W} bootable (media : W) out max s :
  present (ops s) media = true -> unit_attention s = true ->
  atapi_cdrom_exec bootable media test_unit_ready out max s =
    Some (-1, out, 0, set_sense SK_UNIT_ATTENTION ASC_MEDIUM_CHANGED 0 (s <| unit_attention := false |>)).
Proof.
  intros Hp Hu. change (atapi_cdrom_exec bootable media test_unit_ready out max s) with (cmd_test_unit_ready media out s).
  unfold cmd_test_unit_ready. by rewrite Hp, Hu.
Qed.

Lemma ready_no_attention {W} bootable (media : W) out max s :
  present (ops s) media = true -> unit_attention s = false ->
  atapi_cdrom_exec bootable media test_unit_ready out max s = Some (0, out, 0, set_sense SK_NO_SENSE 0 0 s).
Proof.
  intros Hp Hu. change (atapi_cdrom_exec bootable media test_unit_ready out max s) with (cmd_test_unit_ready media out s).
  unfold cmd_test_unit_ready. by rewrite Hp, Hu.
Qed.

(** C26: After a disc is put in, the first TEST UNIT READY fails and REQUEST SENSE gives the
    reason, UNIT ATTENTION with "medium changed"; the second TEST UNIT READY succeeds and
    REQUEST SENSE gives "no sense": the change is reported exactly once. *)
Theorem media_change_reported_once {W} bootable (media : W) max out s :
  present (ops s) media = true -> 18 <= max -> 18 <= Z.of_nat (length out) ->
  answers bootable media max [test_unit_ready; request_sense; test_unit_ready; request_sense] out (atapi_cdrom_insert s) =
    Some [(-1, []); (0, sense_data SK_UNIT_ATTENTION ASC_MEDIUM_CHANGED 0); (0, []);
          (0, sense_data SK_NO_SENSE 0 0)].
Proof.
  intros Hp Hm Ho.
  rewrite answers_cons, (ready_attention bootable media out max (atapi_cdrom_insert s)) by done. cbn [mbind option_bind].
  rewrite answers_cons, sense_exec, request_sense_answer by done. cbn [mbind option_bind].
  rewrite answers_cons, ready_no_attention by done. cbn [mbind option_bind].
  rewrite answers_cons, sense_exec, request_sense_answer by (done || by apply sense_room).
  cbn [mbind option_bind answers]. rewrite !sense_slice. done.
Qed.

(** ** Reading blocks *)

Definition read_10 (lba count : Z) : list Z :=
  [CMD_READ_10; 0] ++ be32 lba ++ [0; u8 (count .>> 8); u8 count; 0; 0; 0].

Lemma count_bytes count : is_u16 count -> u16 (u16 (u8 (count .>> 8) .<< 8) .| u8 count) = count.
Proof.
  intros H. rewrite (wrap_small 16 (u8 (count .>> 8) .<< 8)) by width. rewrite be16_word by width.
  rewrite Z.shiftr_div_pow2 by lia. unfold wrap, in_width in *. change (2 ^ 8) with 256 in *.
  rewrite (Z.mod_small (count / 256)) by (split; [apply Z.div_pos; lia|apply Z.div_lt_upper_bound; lia]).
  rewrite (Z.div_mod count 256) at 3 by lia. lia.
Qed.

(** The bytes of [count] blocks from [lba]. *)
Definition disc_blocks (f : list Z) (lba count : Z) : list Z :=
  slice f (lba * ATAPI_SECTOR_SIZE) (count * ATAPI_SECTOR_SIZE).

(** READ(10) inside the disc succeeds, reports the length of the blocks asked for and gives
    exactly the bytes of the image file; the rest of the buffer is untouched and the sense
    data are cleared.  (A disc that is made bootable has another System Identifier in its
    volume descriptor, which the request must not include.) *)
Theorem read_10_gives_the_blocks bootable (m : media_file) f lba count max out s :
  ops s = g_iso_ops -> fp m = Some f -> media_present m = true ->
  0 <= lba -> 1 <= count < 2 ^ 16 -> (lba + count) * ATAPI_SECTOR_SIZE <= Z.of_nat (length f) -> lba + count < 2 ^ 32 ->
  count * ATAPI_SECTOR_SIZE <= max <= Z.of_nat (length out) ->
  bootable = false \/ ISO9660_PVD_LBA < lba \/ lba + count <= ISO9660_PVD_LBA ->
  atapi_cdrom_exec bootable m (read_10 lba count) out max s =
    Some (0, disc_blocks f lba count ++ drop (length (disc_blocks f lba count)) out, count * ATAPI_SECTOR_SIZE,
          set_sense SK_NO_SENSE 0 0 s) /\
  Z.of_nat (length (disc_blocks f lba count)) = count * ATAPI_SECTOR_SIZE.
Proof.
  intros Ho Hf Hp Hl Hc Hn Hw Hm Hb. unfold disc_blocks, ATAPI_SECTOR_SIZE in *.
  assert (Hlen : Z.of_nat (length (slice f (lba * 2048) (count * 2048))) = count * 2048) by (rewrite slice_length; lia).
  split; [|exact Hlen]. change (atapi_cdrom_exec bootable m (read_10 lba count) out max s) with (cmd_read_10 bootable m (read_10 lba count) out max s).
  unfold cmd_read_10. rewrite Ho. change (present g_iso_ops m) with (media_present m). rewrite Hp. cbn [negb]. cbv zeta.
  replace (read_be32 (read_10 lba count) 2) with lba.
  2:{ unfold read_10. change 2 with (Z.of_nat (length [CMD_READ_10; 0]) + 0). rewrite read_be32_app_r by lia.
      rewrite read_be32_be32; [done|]. unfold in_width. lia. }
  change (rd8 (read_10 lba count) 7) with (u8 (count .>> 8)). change (rd8 (read_10 lba count) 8) with (u8 count).
  rewrite count_bytes by (unfold in_width; lia). rewrite (proj2 (Z.eqb_neq _ _)) by lia. unfold ATAPI_SECTOR_SIZE.
  rewrite (proj2 (Z.ltb_ge _ _)) by lia.
  change (read_sectors g_iso_ops m lba count out) with (media_read m 2048 lba count out).
  unfold media_read. rewrite Hf, Hp. cbn [negb]. cbv zeta. rewrite store_bytes_spec by lia. cbn [mbind option_bind].
  rewrite Hlen, Z.eqb_refl. change (negb (0 =? 0)) with false. cbv iota.
  rewrite (wrap_small 32 (lba + count)) by (unfold in_width; lia). set (out' := _ ++ _).
  assert (E : (if (lba <=? ISO9660_PVD_LBA) && (ISO9660_PVD_LBA <? lba + count)
    then patch_pvd_sysid bootable out' ((ISO9660_PVD_LBA - lba) * 2048) else Some out') = Some out').
  { destruct (Z.leb_spec lba ISO9660_PVD_LBA); [|done]. destruct (Z.ltb_spec ISO9660_PVD_LBA (lba + count)); [|done].
    destruct Hb as [->|Hb]; [done|lia]. }
  rewrite E. done.
Qed.

(** ** Witnesses *)

Lemma media_change_reported_once_witness :
  answers false tt 18 [test_unit_ready; request_sense; test_unit_ready; request_sense] (replicate 18 0)
    (atapi_cdrom_insert (atapi_cdrom_init (mkOps (fun _ : unit => true) (fun _ _ _ out => Some (0, out)) (fun _ => 0)))) =
  Some [(-1, []); (0, sense_data SK_UNIT_ATTENTION ASC_MEDIUM_CHANGED 0); (0, []); (0, sense_data SK_NO_SENSE 0 0)].
Proof. apply (media_change_reported_once false tt 18 (replicate 18 0)); [reflexivity|lia|cbn; lia]. Defined.

Lemma read_10_gives_the_blocks_witness :
  let f := replicate 4096 7 in
  atapi_cdrom_exec true (mkMedia (Some f) 2 true) (read_10 1 1) (replicate 4096 0) 4096 (atapi_cdrom_init g_iso_ops) =
    Some (0, disc_blocks f 1 1 ++ drop (length (disc_blocks f 1 1)) (replicate 4096 0), 2048,
          set_sense SK_NO_SENSE 0 0 (atapi_cdrom_init g_iso_ops)).
Proof.
  intros f.
  apply (read_10_gives_the_blocks true (mkMedia (Some f) 2 true) f 1 1 4096 (replicate 4096 0) (atapi_cdrom_init g_iso_ops));
    [reflexivity|reflexivity|reflexivity|lia|lia|unfold f; rewrite length_replicate; unfold ATAPI_SECTOR_SIZE; lia|lia
    |rewrite length_replicate; unfold ATAPI_SECTOR_SIZE; lia|right; right; unfold ISO9660_PVD_LBA; lia].
Defined.
