(* ===== verification/FastramFacts.v ===== *)
(** * The memory board is a memory, and can be identified

    What is written to an address the board owns is read back, nothing else
    changes and no access leaves the memory; the identification read through the
    configuration window is the one the board was built with. *)

From S2P Require Import Prelude Bytes HostBytes Fastram.

(** ** The memory *)

(** A board whose memory is in the address space. *)
Record memory_ok (b : fastram_board) : Prop := {
  mem_length : Z.of_nat (length (fr_ram b)) = fr_size b;
  mem_bytes : bytes (fr_ram b);
  mem_base : 0 <= fr_base b /\ fr_base b + fr_size b < 2 ^ 32;
}.

(** An access inside the memory. *)
Definition inside (addr size : Z) (b : fastram_board) : Prop :=
  fastram_owns addr b = true /\ (size = 1 \/ size = 2 \/ size = 4) /\ addr + size <= fr_base b + fr_size b.

Definition offset (addr : Z) (b : fastram_board) : Z := u32 (addr - fr_base b).

Lemma inside_offset addr size b :
  memory_ok b -> inside addr size b -> 0 <= offset addr b /\ offset addr b + size <= fr_size b /\ offset addr b = addr - fr_base b.
Proof.
  intros [H1 H2 H3] [Ho [Hs Ha]]. unfold fastram_owns in Ho. apply andb_true_iff in Ho as [Ho _].
  apply andb_true_iff in Ho as [_ Ho%Z.leb_le]. unfold offset. rewrite wrap_small by (unfold in_width; lia). lia.
Qed.

(** The bytes of a value, most significant first. *)
Definition value_bytes (size v : Z) : list Z :=
  if size =? 1 then [u8 v] else if size =? 2 then [u8 (v .>> 8); u8 v] else be32 v.

Lemma value_bytes_length size v : size = 1 \/ size = 2 \/ size = 4 -> Z.of_nat (length (value_bytes size v)) = size.
Proof. by intros [-> |[-> | ->]]. Qed.

Lemma value_bytes_bytes size v : bytes (value_bytes size v).
Proof.
  unfold value_bytes. destruct (size =? 1); [|destruct (size =? 2); [|apply be32_bytes]];
    repeat (apply Forall_cons_2; [apply wrap_range; lia|]); by apply Forall_nil.
Qed.

Lemma write_written addr v size b :
  memory_ok b -> inside addr size b ->
  fastram_write addr v size b = Some (b <| fr_ram := written (offset addr b) (value_bytes size v) (fr_ram b) |>).
Proof.
  intros Hm Hi. destruct (inside_offset _ _ _ Hm Hi) as (H0 & H1 & _). destruct Hm as [Hl _ Hb], Hi as [_ [Hs _]].
  pose proof (value_bytes_length size v Hs) as Hv.
  assert (E : store_bytes (fr_ram b) (offset addr b) (value_bytes size v) =
    Some (written (offset addr b) (value_bytes size v) (fr_ram b))) by (apply store_bytes_spec; lia).
  unfold fastram_write. fold (offset addr b). set (off := offset addr b) in *. clearbody off. cbv zeta.
  assert (Hw : forall i, 0 <= i < size -> u32 (off + i) = off + i) by (intros; apply wrap_small; unfold in_width; lia).
  destruct Hs as [-> |[-> | ->]]; [change (1 =? 1) with true|change (2 =? 1) with false|change (4 =? 1) with false];
    cbv iota.
  - rewrite Hw, Z.add_0_r by lia. unfold value_bytes in *. cbn [store_bytes] in E.
    change (1 =? 1) with true in *. cbv iota in *. cbn [store_bytes] in E. destruct (store8 _ off (u8 v)); [|done].
    by injection E as ->.
  - rewrite !Hw, Z.add_0_r by lia. rewrite (proj2 (Z.leb_gt _ _)) by lia.
    change (2 =? 2) with true. cbv iota. change (value_bytes 2 v) with [u8 (v .>> 8); u8 v] in *. cbn [store_bytes] in E.
    destruct (store8 _ off _) as [q|]; [|done]. cbn [mbind option_bind] in *. destruct (store8 q _ _); [|done]. by injection E as ->.
  - rewrite !Hw, Z.add_0_r by lia. rewrite !(proj2 (Z.leb_gt _ _)) by lia.
    change (4 =? 2) with false. cbv iota. change (value_bytes 4 v) with (be32 v) in *. unfold be32 in *. rewrite !low_byte in *.
    cbn [store_bytes] in E. rewrite <- !Z.add_assoc in E. cbn [Z.add Pos.add] in E.
    destruct (store8 _ off _) as [q|]; [|done]. cbn [mbind option_bind] in *.
    destruct (store8 q _ _) as [q1|]; [|done]. cbn [mbind option_bind] in *.
    destruct (store8 q1 _ _) as [q2|]; [|done]. cbn [mbind option_bind] in *.
    destruct (store8 q2 _ _) as [q3|]; [|done]. by injection E as ->.
Qed.

(** The value of the bytes read. *)
Definition bytes_value (l : list Z) : Z :=
  match l with
  | [b0] => b0
  | [b0; b1] => (b0 .<< 8) .| b1
  | [b0; b1; b2; b3] => u32 (b0 .<< 24) .| (b1 .<< 16) .| (b2 .<< 8) .| b3
  | _ => 0
  end.

Lemma bytes_value_of size v :
  size = 1 \/ size = 2 \/ size = 4 -> bytes_value (value_bytes size v) = wrap (8 * size) v.
Proof.
  intros [-> |[-> | ->]]; [done| |].
  - change (bytes_value (value_bytes 2 v)) with ((u8 (v .>> 8) .<< 8) .| u8 v). change (8 * 2) with 16. bitwise 16.
  - change (bytes_value (value_bytes 4 v)) with
      (u32 (u8 ((v .>> 24) .& 0xff) .<< 24) .| (u8 ((v .>> 16) .& 0xff) .<< 16) .| (u8 ((v .>> 8) .& 0xff) .<< 8) .| u8 (v .& 0xff)).
    change (8 * 4) with 32. bitwise 32.
Qed.

Lemma read_slice addr size b :
  memory_ok b -> inside addr size b ->
  fastram_read addr size b = Some (bytes_value (slice (fr_ram b) (offset addr b) size)).
Proof.
  intros Hm Hi. destruct (inside_offset _ _ _ Hm Hi) as (H0 & H1 & _). destruct Hm as [Hl _ Hb], Hi as [_ [Hs _]].
  unfold fastram_read. fold (offset addr b). set (off := offset addr b) in *. clearbody off. cbv zeta.
  assert (E : forall i, 0 <= i < size -> fr_ram b !! Z.to_nat (u32 (off + i)) = slice (fr_ram b) off size !! Z.to_nat i).
  { intros i Hi. rewrite wrap_small by (unfold in_width; lia). unfold slice. rewrite lookup_take_lt by lia.
    rewrite lookup_drop. f_equal. lia. }
  pose proof (slice_length (fr_ram b) off size H0 ltac:(lia) ltac:(lia)) as Hn. set (l := slice _ _ _) in *. clearbody l.
  destruct Hs as [-> |[-> | ->]].
  - change (1 =? 1) with true. cbv iota. rewrite E by lia. destruct l as [|b0 [|]]; done.
  - change (2 =? 1) with false. change (2 =? 2) with true. cbv iota. rewrite !E by lia.
    rewrite wrap_small by (unfold in_width; lia). rewrite (proj2 (Z.leb_gt _ _)) by lia. destruct l as [|b0 [|b1 [|]]]; done.
  - change (4 =? 1) with false. change (4 =? 2) with false. cbv iota. rewrite !E by lia.
    rewrite !wrap_small by (unfold in_width; lia). rewrite !(proj2 (Z.leb_gt _ _)) by lia.
    destruct l as [|b0 [|b1 [|b2 [|b3 [|]]]]]; done.
Qed.

Lemma fastram_is_memory addr v size b :
  memory_ok b -> inside addr size b ->
  exists b', fastram_write addr v size b = Some b' /\ memory_ok b' /\
    fastram_read addr size b' = Some (wrap (8 * size) v) /\
    (forall addr' size', inside addr' size' b -> addr' + size' <= addr \/ addr + size <= addr' ->
      fastram_read addr' size' b' = fastram_read addr' size' b) /\
    fr_configured b' = fr_configured b /\ fr_base b' = fr_base b /\ fr_size b' = fr_size b.
Proof.
  intros Hm Hi. destruct (inside_offset _ _ _ Hm Hi) as (H0 & H1 & E0).
  pose proof (value_bytes_length size v (proj1 (proj2 Hi))) as Hv. pose proof (mem_length _ Hm) as Hl.
  rewrite (write_written addr v size b Hm Hi). eexists. split; [done|]. set (b' := b <| fr_ram := _ |>).
  assert (Hm' : memory_ok b').
  { split; [cbn; rewrite written_length by lia; done| |apply Hm].
    unfold b', written. cbn [fr_ram]. apply Forall_app_2; [by apply Forall_take, Hm|].
    apply Forall_app_2; [apply value_bytes_bytes|by apply Forall_drop, Hm]. }
  split; [done|]. split; [|split; [|done]].
  - rewrite (read_slice addr size b' Hm' Hi). change (offset addr b') with (offset addr b).
    change (fr_ram b') with (written (offset addr b) (value_bytes size v) (fr_ram b)). rewrite <- Hv at 2.
    rewrite slice_written, bytes_value_of by (apply Hi || lia). done.
  - intros addr' size' Hi' Hd. destruct (inside_offset _ _ _ Hm Hi') as (H0' & H1' & E0').
    rewrite (read_slice addr' size' b' Hm' Hi'), (read_slice addr' size' b Hm Hi').
    change (offset addr' b') with (offset addr' b).
    change (fr_ram b') with (written (offset addr b) (value_bytes size v) (fr_ram b)).
    destruct (proj1 (proj2 Hi')) as [-> |[-> | ->]]; by rewrite slice_elsewhere by lia.
Qed.

(** A write to addresses the board owns succeeds and stays in the memory; the value is read
    back, big-endian and cut to the width of the access; what is read at any other address
    is what was read before. *)
Theorem fastram_is_a_memory addr v size b :
  memory_ok b -> inside addr size b ->
  exists b', fastram_write addr v size b = Some b' /\ memory_ok b' /\
    fastram_read addr size b' = Some (wrap (8 * size) v) /\
    forall addr' size', inside addr' size' b -> addr' + size' <= addr \/ addr + size <= addr' ->
      fastram_read addr' size' b' = fastram_read addr' size' b.
Proof.
  intros Hm Hi. destruct (fastram_is_memory addr v size b Hm Hi) as (b' & E & Hm' & Hr & Ho & _). by exists b'.
Qed.

(** A byte of the memory. *)
Lemma fastram_byte a b : memory_ok b -> inside a 1 b -> exists v, fastram_read a 1 b = Some v /\ is_u8 v.
Proof.
  intros Hm Hi. destruct (inside_offset _ _ _ Hm Hi) as (H0 & H1 & _). unfold fastram_read. cbn [Z.eqb Pos.eqb].
  fold (offset a b). rewrite Z.add_0_r, wrap_small by (pose proof (mem_base _ Hm); unfold in_width; lia).
  pose proof (mem_length _ Hm). destruct (lookup_lt_is_Some_2 (fr_ram b) (Z.to_nat (offset a b))) as [v Hv]; [lia|].
  exists v. split; [done|]. pose proof (mem_bytes _ Hm) as Hb. unfold bytes in Hb. rewrite Forall_forall in Hb.
  apply Hb. by eapply list_elem_of_lookup_2.
Qed.

(** ** The identification *)

(** What an expansion library reads: the two nibbles of a byte, inverted except for the
    first byte. *)
Definition config_byte (config : list Z) (i : Z) : Z :=
  let b := (rd8 config (i * 4) .& 0xf0) .| (rd8 config (i * 4 + 2) .>> 4) in
  if i =? 0 then b else u8 (~~ b).

Lemma store8_inside p i b : 0 <= i < Z.of_nat (length p) -> store8 p i b = Some (<[Z.to_nat i := b]> p).
Proof. intros H. unfold store8. by rewrite (proj2 (Z.leb_le _ _)), (proj2 (Z.ltb_lt _ _)) by lia. Qed.

Lemma rd8_insert p i j b : 0 <= i < Z.of_nat (length p) -> 0 <= j -> rd8 (<[Z.to_nat i := b]> p) j = if j =? i then b else rd8 p j.
Proof.
  intros Hi Hj. unfold rd8. destruct (Z.eqb_spec j i) as [->|Hn].
  - by rewrite list_lookup_insert_eq by lia.
  - by rewrite list_lookup_insert_ne by lia.
Qed.

Lemma nibbles b : is_u8 b -> (u8 (b .& 0xf0) .& 0xf0) .| (u8 ((b .& 0x0f) .<< 4) .>> 4) = b.
Proof. intros H. apply (byte_forall (fun b => (u8 (b .& 0xf0) .& 0xf0) .| (u8 ((b .& 0x0f) .<< 4) .>> 4) =? b) eq_refl) in H. by apply Z.eqb_eq. Qed.

Lemma not_not_byte b : is_u8 b -> u8 (~~ u8 (~~ b)) = b.
Proof. intros H. apply (byte_forall (fun b => u8 (~~ u8 (~~ b)) =? b) eq_refl) in H. by apply Z.eqb_eq. Qed.

(** The sixteen bytes a board identifies itself with are the ones the configuration reads
    nibble by nibble from the window built for it. *)
Theorem autoconfig_identity_read_back out identity :
  length out = 64%nat -> length identity = 16%nat -> bytes identity ->
  exists config, zorro_autoconfig_build out identity = Some config /\ length config = 64%nat /\
    map (config_byte config) (seqZ 0 16) = identity.
Proof.
  intros Ho Hi Hb. unfold zorro_autoconfig_build.
  unfold fill_bytes. rewrite store_bytes_spec by (rewrite ?length_replicate; unfold ZORRO_AC_DATA_SIZE; lia).
  cbn [mbind option_bind]. fold (written 0 (replicate (Z.to_nat ZORRO_AC_DATA_SIZE) 0) out). set (q := written _ _ _).
  assert (Hq : length q = length out) by (apply written_length; rewrite ?length_replicate; unfold ZORRO_AC_DATA_SIZE; lia).
  clearbody q.
  edestruct (loop_inv (fun i p => length p = 64%nat /\ forall j, 0 <= j < i ->
      config_byte p j = rd8 identity j)) as (config & E2 & Hc & H); [| |rewrite E2].
  - split; [by rewrite Hq|]. intros j Hj. lia.
  - intros j p Hj [Hp H]. change (Z.of_nat (Z.to_nat ZORRO_AC_ROM_BYTES)) with 16 in Hj. cbv beta zeta.
    set (b := if j =? 0 then rd8 identity j else u8 (~~ rd8 identity j)).
    assert (Hb8 : is_u8 b) by (unfold b; destruct (j =? 0); [by apply rd8_u8|apply wrap_range; lia]).
    rewrite store8_inside by lia. cbn [mbind option_bind]. rewrite store8_inside by (rewrite length_insert; lia).
    eexists. split; [done|]. split; [by rewrite !length_insert|]. intros k Hk. unfold config_byte.
    rewrite !rd8_insert by (rewrite ?length_insert; lia).
    destruct (Z.eqb_spec k j) as [->|Hn].
    + rewrite Z.eqb_refl, (proj2 (Z.eqb_neq (j * 4) (j * 4 + 2))), (proj2 (Z.eqb_neq (j * 4 + 2) (j * 4))), Z.eqb_refl by lia.
      rewrite nibbles by done. unfold b. destruct (j =? 0); [done|]. by apply not_not_byte, rd8_u8.
    + rewrite (proj2 (Z.eqb_neq (k * 4) (j * 4 + 2))), (proj2 (Z.eqb_neq (k * 4) (j * 4))),
        (proj2 (Z.eqb_neq (k * 4 + 2) (j * 4 + 2))), (proj2 (Z.eqb_neq (k * 4 + 2) (j * 4))) by lia.
      apply (H k). lia.
  - exists config. split; [done|]. split; [done|]. change (0 + Z.of_nat (Z.to_nat ZORRO_AC_ROM_BYTES)) with 16 in H.
    apply list_eq_same_length with 16%nat; [done|done|]. intros i x y Hlt Hx Hy.
    rewrite list_lookup_fmap, lookup_seqZ_lt in Hx by lia. injection Hx as <-.
    rewrite Z.add_0_l, H by lia. unfold rd8. by rewrite Nat2Z.id, Hy.
Qed.

(** ** Witnesses *)

Lemma created_board : exists b0, fastram_create 1 = Some b0 /\
  memory_ok (fastram_ac_write ZORRO_AC_OFF_BASE_HI 0x20 b0) /\
  inside 0x200010 4 (fastram_ac_write ZORRO_AC_OFF_BASE_HI 0x20 b0).
Proof.
  eexists. split; [reflexivity|]. set (ram := replicate (Z.to_nat (1 * 1024 * 1024)) 0).
  assert (Hr : Z.of_nat (length ram) = 1048576) by (unfold ram; rewrite length_replicate; lia).
  assert (Hb : bytes ram) by (apply (Forall_replicate (in_width 8)); split; [discriminate|reflexivity]).
  clearbody ram. split.
  - split; [exact Hr|exact Hb|split; [discriminate|reflexivity]].
  - split; [reflexivity|]. split; [right; right; reflexivity|discriminate].
Qed.

Lemma configured_board : exists b,
  memory_ok b /\ fr_configured b = true /\ fr_base b = 0x200000 /\ fr_size b = 0x100000.
Proof.
  eexists (mkFastram [] true false 0x200000 (replicate (Z.to_nat 0x100000) 0) 0x100000).
  split; [|split; [reflexivity|split; reflexivity]]. set (ram := replicate (Z.to_nat 0x100000) 0).
  assert (Hr : Z.of_nat (length ram) = 1048576) by (unfold ram; rewrite length_replicate; lia).
  assert (Hb : bytes ram) by (apply (Forall_replicate (in_width 8)); split; [discriminate|reflexivity]).
  clearbody ram. split; [exact Hr|exact Hb|split; [discriminate|reflexivity]].
Qed.

Lemma fastram_is_a_memory_witness :
  exists b b', memory_ok b /\ inside 0x200010 4 b /\ fastram_write 0x200010 0x12345678 4 b = Some b' /\
    fastram_read 0x200010 4 b' = Some 0x12345678.
Proof.
  destruct created_board as (b0 & _ & Hm & Hi).
  destruct (fastram_is_a_memory 0x200010 0x12345678 4 _ Hm Hi) as (b' & E & _ & R & _).
  exists (fastram_ac_write ZORRO_AC_OFF_BASE_HI 0x20 b0), b'. exact (conj Hm (conj Hi (conj E R))).
Defined.

Lemma autoconfig_identity_read_back_witness :
  exists config, zorro_autoconfig_build (replicate 64 0) (fastram_identity 0x800000) = Some config /\
    map (config_byte config) (seqZ 0 16) = fastram_identity 0x800000.
Proof.
  destruct (autoconfig_identity_read_back (replicate 64 0) (fastram_identity 0x800000)) as (c & E & _ & H);
    [reflexivity|reflexivity| |exists c; split; [exact E|exact H]].
  unfold fastram_identity. repeat (apply Forall_cons_2; [split; [discriminate|reflexivity]|]). apply Forall_nil_2.
Defined.
