(* ===== verification/Hunk.v ===== *)
(** * The program loader of the host program: [harness/hunk.c]

    A hunk file is placed in the guest's memory: the segments are reserved, zeroed
    and chained, their contents copied and relocated.  The memory is what the two
    callbacks reach, a type [W] with its operations ([GuestMemory]).  A load ends in
    an image, is rejected (with the memory as it is then), reads outside the file
    or an array ([Undefined]), or needs more loop iterations than the fuel it is
    given.  The text of an error is left out. *)

From S2P Require Import Prelude Bytes HostBytes.

(** C: [src/harness/hunk.c]:8-15 [HUNK_HEADER] *)
Definition HUNK_HEADER := 0x3f3.
Definition HUNK_CODE := 0x3e9.
Definition HUNK_DATA := 0x3ea.
Definition HUNK_BSS := 0x3eb.
Definition HUNK_RELOC32 := 0x3ec.
Definition HUNK_SYMBOL := 0x3f0.
Definition HUNK_DEBUG := 0x3f1.
Definition HUNK_END := 0x3f2.

(** C: [src/harness/hunk.c]:19-23 [MAX_HUNKS] *)
Definition MAX_HUNKS := 64.
Definition SEG_HEADER := 8.

(** The memory the callbacks reach.
    C: [src/harness/hunk.c]:49-53 [mem_t] *)
Class GuestMemory (W : Type) := { write8 : W -> Z -> Z -> W; read8 : W -> Z -> Z }.

(** C: [src/harness/hunk.h]:28-33 [hunk_image_t] *)
Record hunk_image := mkImage { entry : Z; base : Z; end_ : Z; hunk_count : Z }.

(** C: [src/harness/hunk.c]:26-31 [reader_t] *)
Record reader := mkReader { data : list Z; size : Z; pos : Z; overrun : bool }.

#[export] Instance eta_reader : Eta reader := fun r => mkReader (data r) (size r) (pos r) (overrun r).

(** ** What a piece of the loader gives *)

Inductive result (W A : Type) :=
  | Done (a : A) (m : W) | Rejected (m : W) | Undefined | OutOfFuel.
Arguments Done {W A}.
Arguments Rejected {W A}.
Arguments Undefined {W A}.
Arguments OutOfFuel {W A}.

Definition bind {W A B} (x : result W A) (f : A -> W -> result W B) : result W B :=
  match x with
  | Done a m => f a m
  | Rejected m => Rejected m
  | Undefined => Undefined
  | OutOfFuel => OutOfFuel
  end.

(** A value that may not be there. *)
Definition known {W A B} (o : option A) (f : A -> result W B) : result W B :=
  match o with Some a => f a | None => Undefined end.

(** ** The file *)

(** C: [src/harness/hunk.c] [rd32] *)
Definition rd32 (r : reader) : option (Z * reader) :=
  if size r <? u32 (pos r + 4) then Some (0, r <| overrun := true |>)
  else if Z.of_nat (length (data r)) <? pos r + 4 then None
  else Some (read_be32 (data r) (pos r), r <| pos := u32 (pos r + 4) |>).

Section loader.
Context {W : Type} `{GuestMemory W}.

(** C: [src/harness/hunk.c] [put32] *)
Definition put32 (m : W) (addr v : Z) : W :=
  let m := write8 m addr (u8 (v .>> 24)) in
  let m := write8 m (u32 (addr + 1)) (u8 (v .>> 16)) in
  let m := write8 m (u32 (addr + 2)) (u8 (v .>> 8)) in
  write8 m (u32 (addr + 3)) (u8 v).

(** C: [src/harness/hunk.c] [get32] *)
Definition get32 (m : W) (addr : Z) : Z :=
  u32 (read8 m addr .<< 24) .| (read8 m (u32 (addr + 1)) .<< 16) .| (read8 m (u32 (addr + 2)) .<< 8)
    .| read8 m (u32 (addr + 3)).

(** Bytes stored from an address on.
    C: [src/harness/hunk.c]:162-163 [hunk_load] *)
Fixpoint write_block (m : W) (addr : Z) (l : list Z) : W :=
  match l with
  | [] => m
  | b :: l => write_block (write8 m (u32 addr) b) (addr + 1) l
  end.

(** The list of resident libraries, up to its zero.
    C: [src/harness/hunk.c]:98-100 [hunk_load] *)
Fixpoint skip_names (fuel : nat) (r : reader) (m : W) : result W reader :=
  match fuel with
  | O => OutOfFuel
  | S fuel =>
      known (rd32 r) (fun '(v, r) =>
        if v =? 0 then Done r m
        else if overrun r then Rejected m
        else skip_names fuel r m)
  end.

(** The segments reserved so far, in order: address of the data and size. *)
#[local] Abbreviation segments := (list (Z * Z)).

(** The next address a segment may start at.
    C: [src/harness/hunk.c]:135-135 [hunk_load] *)
Definition next_cursor (cursor bytes : Z) : Z := u32 (cursor + SEG_HEADER + bytes + 31) .& u32 (~~ 31).

(** [n] more segments are reserved and zeroed.
    C: [src/harness/hunk.c]:116-136 [hunk_load] *)
Fixpoint reserve (n : nat) (limit : Z) (r : reader) (cursor : Z) (segs : segments) (m : W) :
    result W (reader * Z * segments) :=
  match n with
  | O => Done (r, cursor, segs) m
  | S n =>
      known (rd32 r) (fun '(v, r) =>
        let longs := v .& 0x3fffffff in
        let bytes := u32 (longs * 4) in
        if limit <? u32 (cursor + SEG_HEADER + bytes) then Rejected m
        else
          let m := put32 m cursor bytes in
          let m := put32 m (u32 (cursor + 4)) 0 in
          let seg := u32 (cursor + SEG_HEADER) in
          let m := write_block m seg (replicate (Z.to_nat bytes) 0) in
          reserve n limit r (next_cursor cursor bytes) (segs ++ [(seg, bytes)]) m)
  end.

(** C: [src/harness/hunk.c]:141-142 [hunk_load] *)
Fixpoint chain (segs : segments) (m : W) : W :=
  match segs with
  | (a, _) :: (((b, _) :: _) as rest) => chain rest (put32 m (u32 (a - 4)) (u32 (b - 4)))
  | _ => m
  end.

(** [n] longwords of the segment [seg] are moved by the address [target].
    C: [src/harness/hunk.c]:182-189 [hunk_load] *)
Fixpoint relocate (fuel : nat) (n : Z) (seg : Z * Z) (target : Z) (r : reader) (m : W) : result W reader :=
  match fuel with
  | O => OutOfFuel
  | S fuel =>
      if n =? 0 then Done r m
      else
        known (rd32 r) (fun '(off, r) =>
          if overrun r then Rejected m
          else if seg.2 <? u32 (off + 4) then Rejected m
          else
            let addr := u32 (seg.1 + off) in
            relocate fuel (n - 1) seg target r (put32 m addr (u32 (get32 m addr + target))))
  end.

(** C: [src/harness/hunk.c]:174-190 [hunk_load] *)
Fixpoint relocations (fuel : nat) (segs : segments) (seg : Z * Z) (r : reader) (m : W) : result W reader :=
  match fuel with
  | O => OutOfFuel
  | S fuel =>
      known (rd32 r) (fun '(n, r) =>
        if (n =? 0) || overrun r then Done r m
        else
          known (rd32 r) (fun '(target, r) =>
            if Z.of_nat (length segs) <=? target then Rejected m
            else
              known (segs !! Z.to_nat target) (fun t =>
                bind (relocate fuel n seg t.1 r m) (relocations fuel segs seg))))
  end.

(** C: [src/harness/hunk.c]:200-204 [hunk_load] *)
Fixpoint skip_symbols (fuel : nat) (r : reader) (m : W) : result W reader :=
  match fuel with
  | O => OutOfFuel
  | S fuel =>
      known (rd32 r) (fun '(n, r) =>
        if (n =? 0) || overrun r then Done r m
        else skip_symbols fuel (r <| pos := u32 (pos r + u32 (u32 (n * 4) + 4)) |>) m)
  end.

(** The contents of a CODE or DATA hunk.
    C: [src/harness/hunk.c]:153-165 [hunk_load] *)
Definition place (seg : Z * Z) (r : reader) (m : W) : result W reader :=
  known (rd32 r) (fun '(longs, r) =>
    let bytes := u32 (longs * 4) in
    if size r <? u32 (pos r + bytes) then Rejected m
    else if seg.2 <? bytes then Rejected m
    else if Z.of_nat (length (data r)) <? pos r + bytes then Undefined
    else Done (r <| pos := u32 (pos r + bytes) |>) (write_block m seg.1 (slice (data r) (pos r) bytes))).

(** One block of the file, of the given type, in the segment [seg].
    C: [src/harness/hunk.c]:150-218 [hunk_load] *)
Definition one_block (fuel : nat) (segs : segments) (seg : Z * Z) (type : Z) (r : reader) (m : W) : result W reader :=
  if (type =? HUNK_CODE) || (type =? HUNK_DATA) then place seg r m
  else if type =? HUNK_BSS then known (rd32 r) (fun '(_, r) => Done r m)
  else if type =? HUNK_RELOC32 then relocations fuel segs seg r m
  else if type =? HUNK_END then Done r m
  else if type =? HUNK_SYMBOL then skip_symbols fuel r m
  else if type =? HUNK_DEBUG then
    known (rd32 r) (fun '(longs, r) => Done (r <| pos := u32 (pos r + u32 (longs * 4)) |>) m)
  else Done (r <| pos := size r |>) m.

(** The second pass, from the segment [block].
    C: [src/harness/hunk.c]:145-219 [hunk_load] *)
Fixpoint second_pass (fuel : nat) (segs : segments) (block : nat) (r : reader) (m : W) : result W reader :=
  match fuel with
  | O => OutOfFuel
  | S fuel =>
      if (pos r <? size r) && (block <? length segs)%nat then
        known (rd32 r) (fun '(v, r) =>
          if overrun r then Done r m
          else
            let type := v .& 0x3fffffff in
            known (segs !! block) (fun seg =>
              bind (one_block fuel segs seg type r m)
                (second_pass fuel segs (if type =? HUNK_END then S block else block))))
      else Done r m
  end.

(** C: [src/harness/hunk.c]:77-226 [hunk_load] *)
Definition hunk_load (fuel : nat) (file : list Z) (file_size load_addr limit : Z) (m : W) : result W hunk_image :=
  known (rd32 (mkReader file file_size 0 false)) (fun '(magic, r) =>
  if negb (magic =? HUNK_HEADER) then Rejected m
  else bind (skip_names fuel r m) (fun r m =>
    known (rd32 r) (fun '(_, r) =>
    known (rd32 r) (fun '(first, r) =>
    known (rd32 r) (fun '(last, r) =>
    if overrun r then Rejected m
    else if last <? first then Rejected m
    else
      let count := u32 (last - first + 1) in
      if MAX_HUNKS <? count then Rejected m
      else bind (reserve (Z.to_nat count) limit r load_addr [] m) (fun '(r, cursor, segs) m =>
        if overrun r then Rejected m
        else bind (second_pass fuel segs 0 r (chain segs m)) (fun _ m =>
          known (segs !! 0%nat) (fun seg => Done (mkImage seg.1 load_addr cursor count) m)))))))).

End loader.
