(* ===== verification/HunkSpec.v ===== *)
(** * What loading a program means

    An executable as a list of hunks, its file, the layout of its segments and
    their contents after relocation: the specification the loader of [Hunk] is
    proved against in [HunkFacts].  Then the memory of the guest: the laws the
    callbacks obey, the blocks of bytes that are in it, and what the writes of the
    loader do to them: a block is changed in place, a new block comes after the
    others, and everything else is as it was. *)

From S2P Require Import Prelude Bytes HostBytes Hunk.

(** ** Executables *)

Inductive item :=
  | contents (code : bool) (ws : list Z)
  | bss (n : Z)
  | relocs (l : list (Z * list Z))
  | symbols (l : list (list Z * Z))
  | debug (ws : list Z).

(** A hunk: the memory flags and the longwords to reserve, and what the file says of it. *)
Record hunk := mkHunk { h_flags : Z; h_longs : Z; h_items : list item }.

(** ** The file, in longwords *)

Definition encode_relocs (l : list (Z * list Z)) : list Z :=
  flat_map (fun p => Z.of_nat (length p.2) :: p.1 :: p.2) l ++ [0].

Definition encode_symbols (l : list (list Z * Z)) : list Z :=
  flat_map (fun p => Z.of_nat (length p.1) :: p.1 ++ [p.2]) l ++ [0].

Definition encode_item (it : item) : list Z :=
  match it with
  | contents code ws => (if code then HUNK_CODE else HUNK_DATA) :: Z.of_nat (length ws) :: ws
  | bss n => [HUNK_BSS; n]
  | relocs l => HUNK_RELOC32 :: encode_relocs l
  | symbols l => HUNK_SYMBOL :: encode_symbols l
  | debug ws => HUNK_DEBUG :: Z.of_nat (length ws) :: ws
  end.

Definition encode_hunk (h : hunk) : list Z := flat_map encode_item (h_items h) ++ [HUNK_END].

Definition size_word (h : hunk) : Z := h_flags h * 2 ^ 30 + h_longs h.

(** [table] and [first] are words the loader does not depend on, [rest] is what follows the
    last hunk. *)
Definition encode (hunks : list hunk) (table first : Z) (rest : list Z) : list Z :=
  [HUNK_HEADER; 0; table; first; first + Z.of_nat (length hunks) - 1] ++ map size_word hunks ++
  flat_map encode_hunk hunks ++ rest.

(** ** The memory it describes *)

(** A segment: where its data start, the link to the next one, its data. *)
Record segment := mkSegment { s_addr : Z; s_next : Z; s_data : list Z }.

#[export] Instance eta_segment : Eta segment := fun s => mkSegment (s_addr s) (s_next s) (s_data s).

Definition s_size (s : segment) : Z := Z.of_nat (length (s_data s)).

(** Segments start at multiples of 32, except the first. *)
Definition align32 (x : Z) : Z := (x + 31) / 32 * 32.

(** The segments from [cursor] on, zeroed and not linked. *)
Fixpoint layout (cursor : Z) (hunks : list hunk) : list segment :=
  match hunks with
  | [] => []
  | h :: hunks =>
      mkSegment (cursor + 8) 0 (replicate (Z.to_nat (4 * h_longs h)) 0) ::
      layout (align32 (cursor + 8 + 4 * h_longs h)) hunks
  end.

Fixpoint layout_end (cursor : Z) (hunks : list hunk) : Z :=
  match hunks with
  | [] => cursor
  | h :: hunks => layout_end (align32 (cursor + 8 + 4 * h_longs h)) hunks
  end.

(** Every segment ends before the limit. *)
Fixpoint fits (limit cursor : Z) (hunks : list hunk) : Prop :=
  match hunks with
  | [] => True
  | h :: hunks => cursor + 8 + 4 * h_longs h <= limit /\ fits limit (align32 (cursor + 8 + 4 * h_longs h)) hunks
  end.

(** Each segment points to the link of the next one. *)
Fixpoint linked (l : list segment) : list segment :=
  match l with
  | s :: ((t :: _) as l) => mkSegment (s_addr s) (s_addr t - 4) (s_data s) :: linked l
  | l => l
  end.

(** A longword of [c] moved by [target]. *)
Definition move (target : Z) (c : list Z) (off : Z) : list Z :=
  written off (be32 (u32 (read_be32 c off + target))) c.

Definition apply_item (addrs : list Z) (c : list Z) (it : item) : list Z :=
  match it with
  | contents _ ws => written 0 (be32s ws) c
  | relocs l => foldl (fun c p => foldl (move (default 0 (addrs !! Z.to_nat p.1))) c p.2) c l
  | _ => c
  end.

(** The data of the segments of [hunks]. *)
Definition filled (addrs : list Z) (h : hunk) (s : segment) : segment :=
  mkSegment (s_addr s) (s_next s) (foldl (apply_item addrs) (s_data s) (h_items h)).

Definition load_spec (load_addr : Z) (hunks : list hunk) : list segment :=
  let segs := linked (layout load_addr hunks) in
  zip_with (filled (map s_addr segs)) hunks segs.

(** ** Well-formed executables *)

Definition item_ok (count longs : Z) (it : item) : Prop :=
  match it with
  | contents _ ws => Z.of_nat (length ws) <= longs
  | bss n => True
  | relocs l => Forall (fun p => 0 <= p.1 < count /\ p.2 <> [] /\ Forall (fun off => 0 <= off /\ off + 4 <= 4 * longs) p.2) l
  | symbols l => Forall (fun p => p.1 <> []) l
  | debug ws => True
  end.

Definition hunk_ok (count : Z) (h : hunk) : Prop :=
  0 <= h_flags h < 4 /\ 0 <= h_longs h < 2 ^ 30 /\ Forall (item_ok count (h_longs h)) (h_items h).

(** ** The memory of the guest *)

(** The callbacks keep bytes at the addresses of [lo, hi), in the states where [ok] holds,
    and a write there keeps [ok]. *)
Class MemoryLaws (W : Type) `{GuestMemory W} (lo hi : Z) (ok : W -> Prop) := {
  write_keeps : forall m a v, ok m -> lo <= a < hi -> is_u8 v -> ok (write8 m a v);
  read_write : forall m a v, ok m -> lo <= a < hi -> is_u8 v -> read8 (write8 m a v) a = v;
  read_other : forall m a b v, ok m -> lo <= a < hi -> lo <= b < hi -> is_u8 v -> a <> b -> read8 (write8 m a v) b = read8 m b;
}.

Section memory.
Context {W : Type} {lo hi : Z} {gm : GuestMemory W} {ok : W -> Prop} {laws : MemoryLaws W lo hi ok}.

(** The bytes [l] are in memory from [a] on. *)
Definition holds (m : W) (a : Z) (l : list Z) : Prop :=
  forall i b, l !! i = Some b -> read8 m (a + Z.of_nat i) = b.

Definition within (x : Z) (g : Z * list Z) : Prop := g.1 <= x < g.1 + Z.of_nat (length g.2).

(** The blocks [regs] are in memory, the rest of [lo, hi) is as in [m0]. *)
Record stored (m0 : W) (regs : list (Z * list Z)) (m : W) : Prop := {
  st_ok : ok m;
  st_blocks : Forall (fun g => holds m g.1 g.2) regs;
  st_rest : forall x, lo <= x < hi -> Forall (fun g => ~ within x g) regs -> read8 m x = read8 m0 x;
}.

(** The blocks are one after the other in [lo, hi). *)
Fixpoint ordered (from : Z) (regs : list (Z * list Z)) : Prop :=
  match regs with
  | [] => True
  | g :: regs => from <= g.1 /\ g.1 + Z.of_nat (length g.2) <= hi /\ ordered (g.1 + Z.of_nat (length g.2)) regs
  end.

End memory.

(** A segment with its header. *)
Definition region (s : segment) : Z * list Z := (s_addr s - 8, be32 (s_size s) ++ be32 (s_next s) ++ s_data s).

(** ** Blocks of bytes in memory *)

Section memory.
Context {W : Type} {lo hi : Z} {gm : GuestMemory W} {ok : W -> Prop} {laws : MemoryLaws W lo hi ok}.
Context (Hlo : 0 <= lo) (Hhi : hi <= 2 ^ 32).

#[local] Abbreviation stored := (stored (lo := lo) (hi := hi) (ok := ok)).

Lemma write_block_keeps l : forall m a,
  ok m -> lo <= a -> a + Z.of_nat (length l) <= hi -> bytes l -> ok (write_block m a l).
Proof.
  induction l as [|b l IH]; intros m a Hm Ha Hl Hb; cbn [write_block length] in *; [done|].
  apply Forall_cons in Hb as [Hb Hbs]. apply IH; [|lia|lia|done]. rewrite wrap_small by (unfold in_width; lia).
  apply write_keeps; [done|lia|done].
Qed.

Lemma write_block_at l : forall m a x,
  ok m -> lo <= x < hi -> lo <= a -> a + Z.of_nat (length l) <= hi -> bytes l ->
  read8 (write_block m a l) x =
    if (a <=? x) && (x <? a + Z.of_nat (length l)) then default 0 (l !! Z.to_nat (x - a)) else read8 m x.
Proof.
  induction l as [|b l IH]; intros m a x Hm Hx Ha Hl Hb; cbn [write_block length] in *.
  - destruct (Z.leb_spec a x), (Z.ltb_spec x (a + Z.of_nat 0)); try done. lia.
  - apply Forall_cons in Hb as [Hb Hbs]. rewrite wrap_small by (unfold in_width; lia).
    rewrite IH by (done || lia || (apply write_keeps; [done|lia|done])). destruct (decide (x = a)) as [->|Hn].
    + rewrite (proj2 (Z.leb_gt _ _)) by lia. cbn [andb]. rewrite (proj2 (Z.leb_le _ _)), (proj2 (Z.ltb_lt _ _)) by lia.
      cbn [andb]. rewrite Z.sub_diag. apply read_write; [done|lia|done].
    + rewrite read_other by (done || lia).
      destruct (Z.leb_spec (a + 1) x), (Z.ltb_spec x (a + 1 + Z.of_nat (length l))), (Z.leb_spec a x),
        (Z.ltb_spec x (a + Z.of_nat (S (length l)))); try lia; try done. cbn [andb].
      replace (Z.to_nat (x - a)) with (S (Z.to_nat (x - (a + 1)))) by lia. done.
Qed.

Lemma write_block_app l1 : forall m a l2, write_block m a (l1 ++ l2) = write_block (write_block m a l1) (a + Z.of_nat (length l1)) l2.
Proof.
  induction l1 as [|b l1 IH]; intros m a l2; cbn [app write_block length]; [by rewrite Z.add_0_r|].
  rewrite IH. f_equal. lia.
Qed.

(** A longword is a block of four bytes. *)
Lemma put32_block (m : W) addr v : 0 <= addr -> addr + 4 <= 2 ^ 32 -> put32 m addr v = write_block m addr (be32 v).
Proof.
  intros H0 H1. unfold put32, be32. cbn [write_block]. rewrite !low_byte, <- !Z.add_assoc. cbn [Z.add Pos.add].
  by rewrite (wrap_small 32 addr) by (unfold in_width; lia).
Qed.

Lemma write_word_block (m : W) addr v l :
  0 <= addr -> addr + 4 <= 2 ^ 32 -> write_block (put32 m addr v) (addr + 4) l = write_block m addr (be32 v ++ l).
Proof. intros H0 H1. by rewrite put32_block, write_block_app by lia. Qed.

(** What is in memory after a block is written over [c]. *)
Lemma holds_written (m : W) a c off d :
  ok m -> lo <= a -> 0 <= off -> off + Z.of_nat (length d) <= Z.of_nat (length c) -> a + Z.of_nat (length c) <= hi -> bytes d ->
  holds m a c -> holds (write_block m (a + off) d) a (written off d c).
Proof.
  intros Hm Ha H0 H1 H2 Hd Hc i b Hi.
  assert (Hlt : (i < length c)%nat) by (rewrite <- (written_length off d c) by lia; by eapply lookup_lt_Some).
  rewrite write_block_at by (done || lia). unfold written in Hi.
  destruct (Z.leb_spec (a + off) (a + Z.of_nat i)).
  - destruct (Z.ltb_spec (a + Z.of_nat i) (a + off + Z.of_nat (length d))); cbn [andb].
    + rewrite lookup_app_r in Hi by (rewrite length_take; lia). rewrite length_take in Hi.
      rewrite lookup_app_l in Hi by lia. replace (Z.to_nat _) with (i - (Z.to_nat off `min` length c))%nat by lia.
      by rewrite Hi.
    + rewrite lookup_app_r in Hi by (rewrite length_take; lia). rewrite length_take in Hi.
      rewrite lookup_app_r, lookup_drop in Hi by lia. apply Hc. rewrite <- Hi. f_equal. lia.
  - cbn [andb]. rewrite lookup_app_l in Hi by (rewrite length_take; lia). rewrite lookup_take_lt in Hi by lia. by apply Hc.
Qed.

Lemma holds_elsewhere (m : W) a c a' d :
  ok m -> lo <= a -> a + Z.of_nat (length c) <= hi -> lo <= a' -> a' + Z.of_nat (length d) <= hi -> bytes d ->
  a + Z.of_nat (length c) <= a' \/ a' + Z.of_nat (length d) <= a ->
  holds m a c -> holds (write_block m a' d) a c.
Proof.
  intros Hm Ha Hac H0 H1 Hd Hs Hc i b Hi. pose proof (lookup_lt_Some _ _ _ Hi).
  rewrite write_block_at by (done || lia).
  destruct (Z.leb_spec a' (a + Z.of_nat i)), (Z.ltb_spec (a + Z.of_nat i) (a' + Z.of_nat (length d))); cbn [andb];
    try (by apply Hc). lia.
Qed.

(** ** Ordered blocks *)

Lemma ordered_from regs : forall from, ordered (hi := hi) from regs -> Forall (fun g => from <= g.1 /\ g.1 + Z.of_nat (length g.2) <= hi) regs.
Proof.
  induction regs as [|g regs IH]; intros from Ho; [by apply Forall_nil|]. destruct Ho as (H1 & H2 & H3).
  apply Forall_cons_2; [done|]. eapply Forall_impl; [apply IH, H3|]. cbn. lia.
Qed.

(** The write of [d] at [off] of the block [i]. *)
Lemma stored_write (m0 m : W) regs : forall from i a c off d,
  ok m -> ordered (hi := hi) from regs -> lo <= from -> regs !! i = Some (a, c) ->
  0 <= off -> off + Z.of_nat (length d) <= Z.of_nat (length c) -> bytes d ->
  Forall (fun g => holds m g.1 g.2) regs ->
  Forall (fun g => holds (write_block m (a + off) d) g.1 g.2) (<[i := (a, written off d c)]> regs).
Proof.
  induction regs as [|g regs IH]; intros from i a c off d Hk Ho Hf Hi H0 H1 Hd Hm; [done|].
  destruct Ho as (Ho1 & Ho2 & Ho3). apply Forall_cons in Hm as [Hg Hm].
  destruct i as [|i]; cbn in Hi.
  - injection Hi as ->. cbn [fst snd] in *. apply Forall_cons_2; [cbn [fst snd]; apply holds_written; try done; try lia|].
    apply Forall_forall. intros g' Hg'. pose proof (ordered_from _ _ Ho3) as Hall.
    rewrite Forall_forall in Hall, Hm. destruct (Hall g' Hg'). apply holds_elsewhere; [done|lia|lia|lia|lia|done|lia|by apply Hm].
  - change (<[S i := (a, written off d c)]> (g :: regs)) with (g :: <[i := (a, written off d c)]> regs).
    pose proof (ordered_from _ _ Ho3) as Hall. rewrite Forall_forall in Hall.
    destruct (Hall (a, c)) as [Ha1 Ha2]; [by eapply list_elem_of_lookup_2|]. cbn [fst snd] in *.
    apply Forall_cons_2; [apply holds_elsewhere; [done|lia|lia|lia|lia|done|lia|done]|].
    by apply (IH (g.1 + Z.of_nat (length g.2))); [done| |lia|..].
Qed.

Lemma outside_block (m : W) a d x :
  ok m -> lo <= x < hi -> lo <= a -> a + Z.of_nat (length d) <= hi -> bytes d -> ~ (a <= x < a + Z.of_nat (length d)) ->
  read8 (write_block m a d) x = read8 m x.
Proof.
  intros Hm Hxr H0 H1 Hd Hx. rewrite write_block_at by done.
  destruct (Z.leb_spec a x), (Z.ltb_spec x (a + Z.of_nat (length d))); cbn [andb]; try done. lia.
Qed.

Lemma stored_update (m0 m : W) regs from i a c off d :
  ordered (hi := hi) from regs -> lo <= from -> regs !! i = Some (a, c) ->
  0 <= off -> off + Z.of_nat (length d) <= Z.of_nat (length c) -> bytes d ->
  stored m0 regs m -> stored m0 (<[i := (a, written off d c)]> regs) (write_block m (a + off) d).
Proof.
  intros Ho Hf Hi H0 H1 Hd [Hk Hm Hx]. pose proof (ordered_from _ _ Ho) as Hall. rewrite Forall_forall in Hall.
  destruct (Hall (a, c)) as [Ha1 Ha2]; [by eapply list_elem_of_lookup_2|]. cbn [fst snd] in *.
  split; [apply write_block_keeps; (done || lia)|by eapply stored_write|]. intros x Hxr Hout.
  pose proof (lookup_lt_Some _ _ _ Hi) as Hlt. rewrite Forall_forall in Hout.
  assert (Hmine : ~ within x (a, c)).
  { intros Hw. apply (Hout (a, written off d c)).
    - apply list_elem_of_lookup. exists i. by apply list_lookup_insert_eq.
    - unfold within in *. cbn [fst snd] in *. by rewrite written_length by lia. }
  rewrite outside_block; [|done|done|lia|lia|done|unfold within in Hmine; cbn in Hmine; lia].
  apply Hx; [done|]. apply Forall_forall. intros g Hg. apply list_elem_of_lookup in Hg as [j Hj].
  destruct (decide (j = i)) as [->|Hn]; [by rewrite Hi in Hj; injection Hj as <-|].
  apply Hout. apply list_elem_of_lookup. exists j. by rewrite list_lookup_insert_ne.
Qed.

Lemma stored_snoc (m0 m : W) regs a l :
  lo <= a -> a + Z.of_nat (length l) <= hi -> bytes l ->
  Forall (fun g => lo <= g.1 /\ g.1 + Z.of_nat (length g.2) <= a) regs ->
  stored m0 regs m -> stored m0 (regs ++ [(a, l)]) (write_block m a l).
Proof.
  intros H0 H1 Hl Hbefore [Hk Hm Hx]. split; [by apply write_block_keeps|..].
  - apply Forall_app_2.
    + apply Forall_forall. intros g Hg. rewrite Forall_forall in Hbefore, Hm. destruct (Hbefore g Hg).
      apply holds_elsewhere; [done|lia|lia|done|done|done|by left|by apply Hm].
    + apply Forall_singleton. cbn [fst snd]. intros i b Hi. pose proof (lookup_lt_Some _ _ _ Hi).
      rewrite write_block_at by (done || lia). rewrite (proj2 (Z.leb_le _ _)), (proj2 (Z.ltb_lt _ _)) by lia. cbn [andb].
      replace (Z.to_nat _) with i by lia. by rewrite Hi.
  - intros x Hxr [Hout Hlast]%Forall_app. rewrite Forall_singleton in Hlast.
    rewrite outside_block; [by apply Hx|done|done|done|done|done|exact Hlast].
Qed.

Lemma ordered_insert regs : forall from i a c c',
  ordered (hi := hi) from regs -> regs !! i = Some (a, c) -> length c' = length c ->
  ordered (hi := hi) from (<[i := (a, c')]> regs).
Proof.
  induction regs as [|g regs IH]; intros from i a c c' Ho Hi Hl; [done|]. destruct Ho as (H1 & H2 & H3).
  destruct i as [|i]; cbn in Hi.
  - injection Hi as ->. cbn [fst snd] in *. split; cbn [fst snd]; [done|]. by rewrite Hl.
  - change (<[S i := (a, c')]> (g :: regs)) with (g :: <[i := (a, c')]> regs). split; [done|]. split; [done|]. by eapply IH.
Qed.

Lemma ordered_snoc regs : forall from g,
  ordered (hi := hi) from regs -> Forall (fun g' => g'.1 + Z.of_nat (length g'.2) <= g.1) regs -> from <= g.1 ->
  g.1 + Z.of_nat (length g.2) <= hi -> ordered (hi := hi) from (regs ++ [g]).
Proof.
  induction regs as [|g' regs IH]; intros from g Ho Hall H0 H1; [by split|].
  destruct Ho as (O1 & O2 & O3). apply Forall_cons in Hall as [Hg' Hall]. split; [done|]. split; [done|]. by apply IH.
Qed.

(** A longword read from a block. *)
Lemma get32_block (m : W) a c off :
  lo <= a -> a + Z.of_nat (length c) <= hi -> 0 <= off -> off + 4 <= Z.of_nat (length c) -> holds m a c ->
  get32 m (a + off) = read_be32 c off.
Proof.
  intros H0 H1 H2 H3 Hc. unfold get32, read_be32.
  assert (E : forall i, 0 <= i < 4 -> read8 m (u32 (a + off + i)) = rd8 c (off + i)).
  { intros i Hi. rewrite wrap_small by (unfold in_width; lia). unfold rd8.
    destruct (lookup_lt_is_Some_2 c (Z.to_nat (off + i))) as [b Hb]; [lia|]. rewrite Hb. change (default 0 (Some b)) with b.
    rewrite <- (Hc _ _ Hb). f_equal. lia. }
  pose proof (E 0 ltac:(lia)) as E0. rewrite !Z.add_0_r, wrap_small in E0 by (unfold in_width; lia).
  rewrite E0, !E by lia. done.
Qed.

End memory.
