(* ===== verification/HunkFacts.v ===== *)
(** * The loader loads

    A well-formed executable that fits is loaded, whatever its hunks hold: the
    memory is then the one the specification [load_spec] describes, and nothing
    outside the segments has changed. *)

From S2P Require Import Prelude Bytes HostBytes Hunk HunkSpec.

(** ** Reading the file *)

(** The reader in front of the word [k]. *)
Definition at_word (ws : list Z) (k : nat) : reader :=
  mkReader (be32s ws) (4 * Z.of_nat (length ws)) (4 * Z.of_nat k) false.

Section reader.
Context (ws : list Z) (Hws : Forall (in_width 32) ws) (Hlen : 4 * Z.of_nat (length ws) + 4 < 2 ^ 32).

Lemma reads_cons k w rest : drop k ws = w :: rest -> ws !! k = Some w /\ drop (S k) ws = rest /\ (k < length ws)%nat.
Proof.
  intros E. assert (Hk : ws !! k = Some w) by (rewrite <- (Nat.add_0_r k), <- lookup_drop, E; done).
  split; [done|]. split; [|by eapply lookup_lt_Some].
  replace (S k) with (k + 1)%nat by lia. rewrite <- drop_drop, E. done.
Qed.

Lemma reads_app l : forall k rest, drop k ws = l ++ rest -> drop (k + length l) ws = rest /\ (k + length l <= length ws \/ l = [])%nat.
Proof.
  intros k rest E. rewrite <- drop_drop, E, drop_app_length. split; [done|].
  destruct l as [|x l]; [by right|left]. pose proof (f_equal length E) as El. rewrite length_drop, length_app in El.
  cbn [length] in *. lia.
Qed.

Lemma rd32_at k w rest : drop k ws = w :: rest -> rd32 (at_word ws k) = Some (w, at_word ws (S k)).
Proof.
  intros E. destruct (reads_cons k w rest E) as (Hk & _ & Hlt). unfold rd32, at_word. cbn [size pos data].
  rewrite (wrap_small 32 (4 * Z.of_nat k + 4)) by (unfold in_width; lia).
  rewrite (proj2 (Z.ltb_ge _ _)) by lia. rewrite length_be32s, (proj2 (Z.ltb_ge _ _)) by lia.
  rewrite <- (app_nil_r (be32s ws)) at 1. rewrite read_be32s by (done || lia). rewrite Nat2Z.id, Hk.
  change (default 0 (Some w)) with w. do 2 f_equal.
  change (mkReader (be32s ws) (4 * Z.of_nat (length ws)) (4 * Z.of_nat k + 4) false =
    mkReader (be32s ws) (4 * Z.of_nat (length ws)) (4 * Z.of_nat (S k)) false). f_equal. lia.
Qed.

(** Skipping [n] words. *)
Lemma skip_at k n : (k + n <= length ws)%nat ->
  (at_word ws k) <| pos := u32 (pos (at_word ws k) + u32 (Z.of_nat n * 4)) |> = at_word ws (k + n).
Proof.
  intros H.
  change (mkReader (be32s ws) (4 * Z.of_nat (length ws)) (u32 (4 * Z.of_nat k + u32 (Z.of_nat n * 4))) false =
    mkReader (be32s ws) (4 * Z.of_nat (length ws)) (4 * Z.of_nat (k + n)) false). f_equal. rewrite (wrap_small 32 (Z.of_nat n * 4)) by (unfold in_width; lia).
  rewrite wrap_small by (unfold in_width; lia). lia.
Qed.

Lemma more_words k w rest : drop k ws = w :: rest -> (pos (at_word ws k) <? size (at_word ws k)) = true.
Proof. intros E. destruct (reads_cons _ _ _ E) as (_ & _ & H). unfold at_word. cbn. apply Z.ltb_lt. lia. Qed.

End reader.

(** ** Segments in memory *)

(** What the loader keeps of a segment. *)
Definition seg_of (s : segment) : Z * Z := (s_addr s, s_size s).

Definition with_data (c : list Z) (s : segment) : segment := mkSegment (s_addr s) (s_next s) c.

(** Alignment and sizes. *)
Lemma low_bits_cleared x : is_u32 x -> x .& u32 (~~ 31) = x / 32 * 32.
Proof.
  intros H. replace (x / 32 * 32) with ((x .>> 5) .<< 5) by (by rewrite Z.shiftl_mul_pow2, Z.shiftr_div_pow2 by lia).
  rewrite <- Z.ldiff_ones_r, Z.ldiff_land by lia. change (Z.ones 5) with 31. apply Z.bits_inj'. intros i Hi.
  rewrite !Z.land_spec, testbit_wrap by lia. destruct (Z.ltb_spec i 32); [done|]. by rewrite (testbit_high 32 x) by done.
Qed.

Lemma align32_le x : x <= align32 x <= x + 31.
Proof. unfold align32. pose proof (Z.div_mod (x + 31) 32). pose proof (Z.mod_pos_bound (x + 31) 32). lia. Qed.

Lemma region_length s : Z.of_nat (length (region s).2) = 8 + s_size s.
Proof. unfold region, s_size. cbn [snd]. rewrite !length_app, !length_be32. lia. Qed.

Section loading.
Context {W : Type} {lo hi : Z} {gm : GuestMemory W} {ok : W -> Prop} {laws : MemoryLaws W lo hi ok}.
Context (Hlo : 0 <= lo) (Hhi : hi + 32 <= 2 ^ 32) (m0 : W).

Lemma below_4G : hi <= 2 ^ 32.
Proof. lia. Qed.

#[local] Abbreviation ordered := (ordered (hi := hi)).
#[local] Abbreviation stored := (stored (lo := lo) (hi := hi) (ok := ok)).

(** The segments are in memory, one after the other. *)
Definition in_memory (segs : list segment) (m : W) : Prop :=
  ordered lo (map region segs) /\ stored m0 (map region segs) m.

Lemma header_length s : length (be32 (s_size s) ++ be32 (s_next s)) = 8%nat.
Proof. done. Qed.

Lemma region_at segs b s m : in_memory segs m -> segs !! b = Some s ->
  lo + 8 <= s_addr s /\ s_addr s + s_size s <= hi.
Proof.
  intros [Ho _] Hb. pose proof (ordered_from _ _ Ho) as Hall. rewrite Forall_forall in Hall.
  destruct (Hall (region s)) as [H1 H2].
  { apply list_elem_of_lookup. exists b. by rewrite list_lookup_fmap, Hb. }
  rewrite region_length in H2. unfold region in *. cbn [fst] in *. lia.
Qed.

Lemma written_app pre d c off :
  0 <= off -> written (Z.of_nat (length pre) + off) d (pre ++ c) = pre ++ written off d c.
Proof.
  intros H0. unfold written. rewrite take_app_ge, <- app_assoc by lia. f_equal. f_equal; [f_equal; lia|].
  f_equal. rewrite drop_app_ge by lia. f_equal. lia.
Qed.

Lemma insert_map_region segs b s c :
  segs !! b = Some s -> length c = length (s_data s) ->
  map region (<[b := with_data c s]> segs) = <[b := (s_addr s - 8, (be32 (s_size s) ++ be32 (s_next s)) ++ c)]> (map region segs).
Proof.
  intros Hb Hl. rewrite list_fmap_insert. f_equal. unfold region, with_data, s_size. cbn. by rewrite Hl.
Qed.

(** A write inside a segment. *)
Lemma write_segment segs m b s off d :
  in_memory segs m -> segs !! b = Some s -> 0 <= off -> off + Z.of_nat (length d) <= s_size s -> bytes d ->
  in_memory (<[b := with_data (written off d (s_data s)) s]> segs) (write_block m (s_addr s + off) d).
Proof.
  intros [Ho Hs] Hb H0 H1 Hd. pose proof (region_length s) as Hr. unfold region in Hr. cbn [snd] in Hr.
  assert (Hreg : map region segs !! b = Some (s_addr s - 8, (be32 (s_size s) ++ be32 (s_next s)) ++ s_data s)).
  { rewrite list_lookup_fmap, Hb. unfold region. cbn. done. }
  unfold in_memory. rewrite insert_map_region by (done || (apply written_length; unfold s_size in *; lia)).
  rewrite <- written_app by done. rewrite header_length. split.
  - eapply ordered_insert; [done|done|]. apply written_length; [lia|]. rewrite app_assoc in Hr. lia.
  - replace (s_addr s + off) with (s_addr s - 8 + (Z.of_nat 8 + off)) by lia.
    eapply stored_update; [lia|lia|done|lia|done|lia| |done|done]. rewrite app_assoc in Hr. lia.
Qed.

(** A longword read in a segment. *)
Lemma read_segment segs m b s off :
  in_memory segs m -> segs !! b = Some s -> 0 <= off -> off + 4 <= s_size s ->
  get32 m (s_addr s + off) = read_be32 (s_data s) off.
Proof.
  intros Hm Hb H0 H1. destruct (region_at _ _ _ _ Hm Hb) as [Ha1 Ha2]. destruct Hm as [_ [_ Hs _]].
  rewrite Forall_forall in Hs. specialize (Hs (region s)).
  assert (Hh : holds m (s_addr s - 8) ((be32 (s_size s) ++ be32 (s_next s)) ++ s_data s)).
  { rewrite <- app_assoc. apply Hs. apply list_elem_of_lookup. exists b. by rewrite list_lookup_fmap, Hb. }
  replace (s_addr s + off) with (s_addr s - 8 + (Z.of_nat 8 + off)) by lia.
  rewrite (get32_block Hlo below_4G m _ ((be32 (s_size s) ++ be32 (s_next s)) ++ s_data s)).
  - rewrite <- (header_length s), read_be32_app_r by lia. done.
  - lia.
  - rewrite length_app, header_length. unfold s_size in *. lia.
  - lia.
  - rewrite length_app, header_length. unfold s_size in *. lia.
  - done.
Qed.

(** ** Reserving the segments *)

Section reserving.
Context (ws : list Z) (Hws : Forall (in_width 32) ws) (Hlen : 4 * Z.of_nat (length ws) + 4 < 2 ^ 32).
Context (limit : Z) (Hlimit : limit <= hi).

Lemma size_word_longs h count : hunk_ok count h -> size_word h .& 0x3fffffff = h_longs h.
Proof.
  intros (Hf & Hl & _). unfold size_word. change 0x3fffffff with (Z.ones 30). rewrite Z.land_ones by lia.
  rewrite Z.add_comm, Z_mod_plus_full. by apply Z.mod_small.
Qed.

Lemma next_cursor_align c bytes :
  0 <= c -> 0 <= bytes -> c + 8 + bytes <= hi -> next_cursor c bytes = align32 (c + 8 + bytes).
Proof.
  intros H0 H1 H2. unfold next_cursor, align32, SEG_HEADER.
  assert (Hx : is_u32 (c + 8 + bytes + 31)) by (unfold in_width; lia).
  rewrite (wrap_small 32 (c + 8 + bytes + 31)) by done. by apply low_bits_cleared.
Qed.

Lemma fresh_block m c b :
  0 <= c -> 0 <= b -> c + 8 + b <= 2 ^ 32 ->
  write_block (put32 (put32 m c b) (u32 (c + 4)) 0) (u32 (c + SEG_HEADER)) (replicate (Z.to_nat b) 0) =
  write_block m c (region (mkSegment (c + 8) 0 (replicate (Z.to_nat b) 0))).2.
Proof.
  intros H0 H1 H2. unfold SEG_HEADER, region, s_size. cbn [snd s_data s_next s_addr].
  rewrite length_replicate, Z2Nat.id by lia. destruct (decide (b = 0)) as [->|Hb].
  - rewrite (wrap_small 32 (c + 4)) by (unfold in_width; lia). change (Z.to_nat 0) with 0%nat. cbn [replicate].
    rewrite (write_block_app (be32 0)), !put32_block by lia. cbn [write_block]. rewrite app_nil_r. done.
  - rewrite !(wrap_small 32) by (unfold in_width; lia). rewrite !write_block_app, !put32_block by lia.
    rewrite !length_be32. change (Z.of_nat 4) with 4. by rewrite <- Z.add_assoc.
Qed.

Lemma reserve_ok count hunks : forall k c segs regs m rest,
  drop k ws = map size_word hunks ++ rest -> Forall (hunk_ok count) hunks -> fits limit c hunks -> lo <= c ->
  Forall (fun g => lo <= g.1 /\ g.1 + Z.of_nat (length g.2) <= c) regs -> ordered lo regs -> stored m0 regs m ->
  exists m', reserve (length hunks) limit (at_word ws k) c segs m =
    Done (at_word ws (k + length hunks), layout_end c hunks, segs ++ map seg_of (layout c hunks)) m' /\
    ordered lo (regs ++ map region (layout c hunks)) /\
    stored m0 (regs ++ map region (layout c hunks)) m'.
Proof.
  induction hunks as [|h hunks IH]; intros k c segs regs m rest Hk Hh Hf Hc Hr Ho Hm.
  - exists m. cbn. by rewrite Nat.add_0_r, !app_nil_r.
  - apply Forall_cons in Hh as [Hh Hhs]. destruct Hf as [Hf1 Hf2]. pose proof Hh as (_ & Hl & _).
    cbn [map app] in Hk. cbn [length reserve layout layout_end map].
    rewrite (rd32_at ws Hws Hlen k _ _ Hk). cbn [known]. rewrite (size_word_longs h count Hh).
    rewrite (wrap_small 32 (h_longs h * 4)) by (unfold in_width; lia).
    unfold SEG_HEADER at 1. rewrite (wrap_small 32 (c + 8 + h_longs h * 4)) by (unfold in_width; lia).
    rewrite (proj2 (Z.ltb_ge _ _)) by lia. cbv zeta.
    replace (h_longs h * 4) with (4 * h_longs h) by lia. rewrite fresh_block by lia.
    set (s := mkSegment (c + 8) 0 (replicate (Z.to_nat (4 * h_longs h)) 0)).
    assert (Hs : s_size s = 4 * h_longs h) by (unfold s_size, s; cbn [s_data]; rewrite length_replicate; lia).
    assert (Hreg : region s = (c, (region s).2)) by (unfold region, s; cbn [fst snd s_addr]; f_equal; lia).
    pose proof (region_length s) as Hrl. pose proof (align32_le (c + 8 + 4 * h_longs h)) as Ha.
    rewrite next_cursor_align by lia.
    destruct (IH (S k) (align32 (c + 8 + 4 * h_longs h)) (segs ++ [seg_of s]) (regs ++ [region s])
                (write_block m c (region s).2) rest) as (m' & E & Ho' & Hm').
    + by apply (reads_cons ws k _ _ Hk).
    + done.
    + done.
    + lia.
    + apply Forall_app_2; [eapply Forall_impl; [exact Hr|]; cbn; lia|].
      apply Forall_cons_2; [|done]. rewrite Hreg. cbn [fst snd]. lia.
    + apply ordered_snoc; [done| | |]; rewrite Hreg; cbn [fst snd]; [|done|lia].
      eapply Forall_impl; [exact Hr|]. cbn. lia.
    + rewrite Hreg. cbn [snd]. apply stored_snoc; [lia|lia|lia|lia| |done|done].
      unfold region. cbn [snd]. apply Forall_app_2; [apply be32_bytes|]. apply Forall_app_2; [apply be32_bytes|].
      by apply Forall_replicate.
    + exists m'. change (u32 (c + SEG_HEADER)) with (u32 (c + 8)). rewrite (wrap_small 32 (c + 8)) by (unfold in_width; lia).
      replace (c + 8, 4 * h_longs h) with (seg_of s) by (unfold seg_of; by rewrite Hs). rewrite E.
      rewrite <- !app_assoc in *. replace (k + S (length hunks))%nat with (S k + length hunks)%nat by lia. by split.
Qed.

End reserving.

(** ** Linking them *)

Lemma insert_middle {A} (l r : list A) x y : <[length l := y]> (l ++ x :: r) = l ++ y :: r.
Proof. by rewrite insert_app_r_alt, Nat.sub_diag by lia. Qed.

Lemma link_written s v :
  written 4 (be32 v) (region s).2 = (region (mkSegment (s_addr s) v (s_data s))).2.
Proof. done. Qed.

Lemma linked_cons s t l : linked (s :: t :: l) = mkSegment (s_addr s) (s_addr t - 4) (s_data s) :: linked (t :: l).
Proof. done. Qed.

Lemma chain_ok segs : forall pre m,
  ordered lo (pre ++ map region segs) -> stored m0 (pre ++ map region segs) m ->
  ordered lo (pre ++ map region (linked segs)) /\
  stored m0 (pre ++ map region (linked segs)) (chain (map seg_of segs) m).
Proof.
  induction segs as [|s segs IH]; intros pre m Ho Hm; [done|]. destruct segs as [|t segs]; [done|].
  rewrite linked_cons.
  change (chain (map seg_of (s :: t :: segs)) m) with
    (chain (map seg_of (t :: segs)) (put32 m (u32 (s_addr s - 4)) (u32 (s_addr t - 4)))).
  pose proof (ordered_from _ _ Ho) as Hall. rewrite Forall_forall in Hall.
  destruct (Hall (region s)) as [S1 S2]; [apply elem_of_app; right; apply list_elem_of_here|].
  destruct (Hall (region t)) as [T1 T2]; [apply elem_of_app; right; apply list_elem_of_further, list_elem_of_here|].
  rewrite region_length in S2, T2. unfold region in S1, S2, T1, T2. cbn [fst] in S1, S2, T1, T2.
  unfold s_size in S2, T2.
  rewrite !(wrap_small 32) by (unfold in_width; lia). set (s' := mkSegment (s_addr s) (s_addr t - 4) (s_data s)).
  assert (Hi : (pre ++ map region (s :: t :: segs)) !! length pre = Some (s_addr s - 8, (region s).2)).
  { cbn [map]. by rewrite list_lookup_middle. }
  pose proof (region_length s) as Hrl.
  specialize (IH (pre ++ [region s']) (put32 m (s_addr s - 4) (s_addr t - 4))). rewrite <- !app_assoc in IH.
  apply IH.
  - assert (E : pre ++ [region s'] ++ map region (t :: segs) =
      <[length pre := (s_addr s - 8, written 4 (be32 (s_addr t - 4)) (region s).2)]> (pre ++ map region (s :: t :: segs))).
    { cbn [map]. by rewrite insert_middle, link_written. }
    rewrite E. eapply ordered_insert; [done|done|].
    apply written_length; [lia|]. rewrite length_be32. unfold s_size in *. lia.
  - assert (E : pre ++ [region s'] ++ map region (t :: segs) =
      <[length pre := (s_addr s - 8, written 4 (be32 (s_addr t - 4)) (region s).2)]> (pre ++ map region (s :: t :: segs))).
    { cbn [map]. by rewrite insert_middle, link_written. }
    rewrite E. rewrite put32_block by lia. replace (s_addr s - 4) with (s_addr s - 8 + 4) by lia.
    eapply stored_update; [lia|lia|done|done|done|lia| |apply be32_bytes|done].
    rewrite length_be32. unfold s_size in *. lia.
Qed.

Lemma linked_seg_of segs : map seg_of (linked segs) = map seg_of segs.
Proof. induction segs as [|s [|t segs] IH]; [done|done|]. rewrite linked_cons. cbn [map] in *. by rewrite IH. Qed.

(** ** The blocks of the file *)

Section blocks.
Context (ws : list Z) (Hws : Forall (in_width 32) ws) (Hlen : 4 * Z.of_nat (length ws) + 4 < 2 ^ 32).

Lemma move_length target c off : 0 <= off -> off + 4 <= Z.of_nat (length c) -> length (move target c off) = length c.
Proof. intros H0 H1. apply written_length; [done|]. by rewrite length_be32. Qed.

Lemma seg_of_with_data c s : length c = length (s_data s) -> seg_of (with_data c s) = seg_of s.
Proof. intros H. unfold seg_of, with_data, s_size. cbn. by rewrite H. Qed.

Lemma update_twice (segs : list segment) b s c c' :
  <[b := with_data c' (with_data c s)]> (<[b := with_data c s]> segs) = <[b := with_data c' s]> segs.
Proof. by rewrite list_insert_insert_eq. Qed.

Lemma relocate_ok offs : forall fuel k m segs b s target rest,
  in_memory segs m -> segs !! b = Some s -> drop k ws = offs ++ rest ->
  Forall (fun off => 0 <= off /\ off + 4 <= s_size s) offs -> (length offs < fuel)%nat ->
  exists m', relocate fuel (Z.of_nat (length offs)) (seg_of s) target (at_word ws k) m =
      Done (at_word ws (k + length offs)) m' /\
    in_memory (<[b := with_data (foldl (move target) (s_data s) offs) s]> segs) m' /\
    length (foldl (move target) (s_data s) offs) = length (s_data s).
Proof.
  induction offs as [|off offs IH]; intros fuel k m segs b s target rest Hm Hb Hk Ho Hf;
    (destruct fuel as [|fuel]; [cbn in Hf; lia|]).
  - exists m. cbn [relocate length foldl]. rewrite Nat.add_0_r. split; [done|]. split; [|done].
    rewrite list_insert_id; [done|]. rewrite Hb. by destruct s.
  - apply Forall_cons in Ho as [[Ho1 Ho2] Ho]. cbn [app length] in *.
    destruct (region_at _ _ _ _ Hm Hb) as [Ha1 Ha2].
    cbn [relocate]. rewrite (proj2 (Z.eqb_neq _ _)) by lia. rewrite (rd32_at ws Hws Hlen k _ _ Hk). cbn [known].
    change (overrun (at_word ws (S k))) with false. cbv iota.
    change (seg_of s).2 with (s_size s). change (seg_of s).1 with (s_addr s).
    rewrite (wrap_small 32 (off + 4)) by (unfold in_width; lia). rewrite (proj2 (Z.ltb_ge _ _)) by lia. cbv zeta.
    rewrite (wrap_small 32 (s_addr s + off)) by (unfold in_width; lia).
    rewrite (read_segment segs m b s off Hm Hb Ho1 Ho2), put32_block by lia.
    set (d := be32 (u32 (read_be32 (s_data s) off + target))).
    pose proof (write_segment segs m b s off d Hm Hb Ho1 ltac:(by unfold d; rewrite length_be32) (be32_bytes _)) as Hm1.
    pose proof (move_length target (s_data s) off Ho1 Ho2) as Hl. unfold move in Hl. fold d in Hl.
    destruct (IH fuel (S k) _ _ b (with_data (written off d (s_data s)) s) target rest Hm1) as (m' & E & Hm' & Hl').
    + apply list_lookup_insert_eq. by eapply lookup_lt_Some.
    + by apply (reads_cons ws k _ _ Hk).
    + unfold s_size, with_data in *. cbn [s_data]. by rewrite Hl.
    + lia.
    + rewrite seg_of_with_data in E by done. rewrite update_twice in Hm'. exists m'.
      replace (Z.of_nat (S (length offs)) - 1) with (Z.of_nat (length offs)) by lia.
      replace (k + S (length offs))%nat with (S k + length offs)%nat by lia. split; [exact E|]. split; [exact Hm'|].
      cbn [foldl]. etransitivity; [exact Hl'|exact Hl].
Qed.

(** The address of the segment [i]. *)
Lemma seg_address (segs : list segment) i :
  0 <= i < Z.of_nat (length segs) ->
  exists z, map seg_of segs !! Z.to_nat i = Some (default 0 (map s_addr segs !! Z.to_nat i), z).
Proof.
  intros Hi. destruct (lookup_lt_is_Some_2 segs (Z.to_nat i)) as [t Ht]; [lia|].
  rewrite !list_lookup_fmap, Ht. by exists (s_size t).
Qed.

Lemma same_segments (segs : list segment) b s c :
  segs !! b = Some s -> length c = length (s_data s) ->
  map seg_of (<[b := with_data c s]> segs) = map seg_of segs /\ map s_addr (<[b := with_data c s]> segs) = map s_addr segs.
Proof.
  intros Hb Hl. rewrite !list_fmap_insert, seg_of_with_data by done. split; apply list_insert_id.
  - by rewrite list_lookup_fmap, Hb.
  - by rewrite list_lookup_fmap, Hb.
Qed.

Lemma relocations_ok l : forall fuel k m segs b s rest,
  in_memory segs m -> segs !! b = Some s -> drop k ws = encode_relocs l ++ rest ->
  Forall (fun p => 0 <= p.1 < Z.of_nat (length segs) /\ p.2 <> [] /\
                   Forall (fun off => 0 <= off /\ off + 4 <= s_size s) p.2) l ->
  (length (encode_relocs l) <= fuel)%nat ->
  exists m', relocations fuel (map seg_of segs) (seg_of s) (at_word ws k) m =
      Done (at_word ws (k + length (encode_relocs l))) m' /\
    in_memory (<[b := with_data (apply_item (map s_addr segs) (s_data s) (relocs l)) s]> segs) m' /\
    length (apply_item (map s_addr segs) (s_data s) (relocs l)) = length (s_data s).
Proof.
  induction l as [|[t offs] l IH]; intros fuel k m segs b s rest Hm Hb Hk Hl Hf;
    (destruct fuel as [|fuel]; [unfold encode_relocs in Hf; rewrite length_app in Hf; cbn in Hf; lia|]).
  - exists m. cbn [relocations]. rewrite (rd32_at ws Hws Hlen k _ _ Hk). cbn [known apply_item foldl].
    change (length (encode_relocs [])) with 1%nat. replace (k + 1)%nat with (S k) by lia. split; [done|]. split; [|done].
    rewrite list_insert_id; [done|]. rewrite Hb. by destruct s.
  - apply Forall_cons in Hl as [(Ht & Hne & Hoffs) Hl]. cbn [fst snd] in *.
    change (encode_relocs ((t, offs) :: l)) with (Z.of_nat (length offs) :: t :: (offs ++ flat_map (fun p => Z.of_nat (length p.2) :: p.1 :: p.2) l) ++ [0]) in *.
    rewrite <- (app_assoc offs) in *. fold (encode_relocs l) in *. cbn [app length] in Hk, Hf. rewrite length_app in Hf.
    destruct (reads_cons ws k _ _ Hk) as (_ & Hk1 & _). destruct (reads_cons ws (S k) _ _ Hk1) as (_ & Hk2 & _).
    rewrite <- app_assoc in Hk2.
    cbn [relocations]. rewrite (rd32_at ws Hws Hlen k _ _ Hk). cbn [known].
    change (overrun (at_word ws (S k))) with false.
    assert (Hn : Z.of_nat (length offs) <> 0) by (destruct offs; [done|cbn; lia]).
    rewrite (proj2 (Z.eqb_neq _ _)) by done. cbn [orb]. rewrite (rd32_at ws Hws Hlen (S k) _ _ Hk1). cbn [known].
    rewrite length_map, (proj2 (Z.leb_gt _ _)) by lia. destruct (seg_address segs t Ht) as [z Ez]. rewrite Ez. cbn [known fst].
    set (a := default 0 (map s_addr segs !! Z.to_nat t)) in *.
    destruct (relocate_ok offs fuel (S (S k)) m segs b s a _ Hm Hb Hk2 Hoffs) as (m1 & -> & Hm1 & Hl1); [lia|]. cbn [bind].
    set (c := foldl (move a) (s_data s) offs) in *. destruct (same_segments segs b s c Hb Hl1) as [Es Ea].
    destruct (reads_app ws offs _ _ Hk2) as [Hk3 _].
    destruct (IH fuel (S (S k) + length offs)%nat m1 (<[b := with_data c s]> segs) b (with_data c s) rest Hm1) as (m2 & E & Hm2 & Hl2).
    + apply list_lookup_insert_eq. by eapply lookup_lt_Some.
    + done.
    + rewrite length_insert. unfold s_size, with_data in *. cbn [s_data]. by rewrite Hl1.
    + lia.
    + rewrite Es, seg_of_with_data in E by done. rewrite Ea in Hm2, Hl2. rewrite update_twice in Hm2. exists m2.
      replace (k + _)%nat with (S (S k) + length offs + length (encode_relocs l))%nat
        by (cbn [length]; rewrite length_app; lia).
      split; [exact E|]. split; [exact Hm2|]. etransitivity; [exact Hl2|exact Hl1].
Qed.

Lemma symbols_ok l : forall fuel k (m : W) rest,
  drop k ws = encode_symbols l ++ rest -> Forall (fun p => p.1 <> []) l -> (length (encode_symbols l) <= fuel)%nat ->
  skip_symbols fuel (at_word ws k) m = Done (at_word ws (k + length (encode_symbols l))) m.
Proof.
  induction l as [|[name v] l IH]; intros fuel k m rest Hk Hl Hf;
    (destruct fuel as [|fuel]; [unfold encode_symbols in Hf; rewrite length_app in Hf; cbn in Hf; lia|]).
  - cbn [skip_symbols]. rewrite (rd32_at ws Hws Hlen k _ _ Hk). cbn [known]. change (length (encode_symbols [])) with 1%nat.
    by replace (k + 1)%nat with (S k) by lia.
  - apply Forall_cons in Hl as [Hne Hl]. cbn [fst] in Hne.
    change (encode_symbols ((name, v) :: l)) with (Z.of_nat (length name) :: ((name ++ [v]) ++ flat_map (fun p => Z.of_nat (length p.1) :: p.1 ++ [p.2]) l) ++ [0]) in *.
    rewrite <- (app_assoc (name ++ [v])) in *. fold (encode_symbols l) in *. cbn [app length] in Hk, Hf. rewrite length_app in Hf.
    destruct (reads_cons ws k _ _ Hk) as (_ & Hk1 & _). rewrite <- app_assoc in Hk1.
    destruct (reads_app ws (name ++ [v]) _ _ Hk1) as [Hk2 [Hbound|Hnil]]; [|by destruct name].
    rewrite length_app in *. cbn [length] in *.
    cbn [skip_symbols]. rewrite (rd32_at ws Hws Hlen k _ _ Hk). cbn [known].
    change (overrun (at_word ws (S k))) with false.
    rewrite (proj2 (Z.eqb_neq _ _)) by (destruct name; [done|cbn; lia]). cbn [orb].
    replace (u32 (u32 (Z.of_nat (length name) * 4) + 4)) with (u32 (Z.of_nat (length name + 1) * 4)).
    2:{ rewrite (wrap_small 32 (Z.of_nat (length name) * 4)) by (unfold in_width; lia). f_equal. lia. }
    rewrite skip_at by (done || lia). rewrite (IH fuel _ m rest Hk2 Hl) by lia. do 2 f_equal. rewrite !length_app. cbn [length]. lia.
Qed.

Lemma slice_words k l rest : drop k ws = l ++ rest -> slice (be32s ws) (4 * Z.of_nat k) (4 * Z.of_nat (length l)) = be32s l.
Proof.
  intros E. rewrite <- (take_drop k ws), E, be32s_app, be32s_app. unfold slice.
  destruct (decide (k <= length ws)%nat) as [Hk|Hk].
  - rewrite drop_app_length' by (rewrite length_be32s, length_take; lia).
    by rewrite take_app_length' by (rewrite length_be32s; lia).
  - assert (Hl : l = [] /\ rest = []).
    { apply app_eq_nil. rewrite <- E. apply length_zero_iff_nil. rewrite length_drop. lia. }
    destruct Hl as [-> ->]. change (Z.to_nat (4 * Z.of_nat (@length Z []))) with 0%nat. by rewrite take_0.
Qed.

Lemma place_ok wsd k m segs b s rest :
  in_memory segs m -> segs !! b = Some s -> drop k ws = Z.of_nat (length wsd) :: wsd ++ rest ->
  4 * Z.of_nat (length wsd) <= s_size s ->
  exists m', place (seg_of s) (at_word ws k) m = Done (at_word ws (k + S (length wsd))) m' /\
    in_memory (<[b := with_data (written 0 (be32s wsd) (s_data s)) s]> segs) m' /\
    length (written 0 (be32s wsd) (s_data s)) = length (s_data s).
Proof.
  intros Hm Hb Hk Hl. destruct (reads_cons ws k _ _ Hk) as (_ & Hk1 & Hk0).
  destruct (reads_app ws wsd (S k) rest Hk1) as [Hk2 Hbound].
  assert (Hle : (S k + length wsd <= length ws)%nat).
  { destruct Hbound as [?| ->]; [done|]. cbn [length]. lia. }
  exists (write_block m (s_addr s + 0) (be32s wsd)).
  assert (Hd : Z.of_nat (length (be32s wsd)) = 4 * Z.of_nat (length wsd)) by (rewrite length_be32s; lia).
  split; [|split].
  - unfold place. rewrite (rd32_at ws Hws Hlen k _ _ Hk). cbn [known].
    change (size (at_word ws (S k))) with (4 * Z.of_nat (length ws)). change (pos (at_word ws (S k))) with (4 * Z.of_nat (S k)).
    change (data (at_word ws (S k))) with (be32s ws).
    rewrite (wrap_small 32 (Z.of_nat (length wsd) * 4)) by (unfold in_width; lia).
    rewrite (wrap_small 32 (4 * Z.of_nat (S k) + Z.of_nat (length wsd) * 4)) by (unfold in_width; lia).
    rewrite (proj2 (Z.ltb_ge _ _)) by lia. change (seg_of s).2 with (s_size s). rewrite (proj2 (Z.ltb_ge _ _)) by lia.
    rewrite length_be32s, (proj2 (Z.ltb_ge _ _)) by lia.
    replace (Z.of_nat (length wsd) * 4) with (4 * Z.of_nat (length wsd)) by lia. rewrite (slice_words (S k) wsd rest Hk1).
    rewrite Z.add_0_r. f_equal.
    change (mkReader (be32s ws) (4 * Z.of_nat (length ws)) (4 * Z.of_nat (S k) + 4 * Z.of_nat (length wsd)) false =
      mkReader (be32s ws) (4 * Z.of_nat (length ws)) (4 * Z.of_nat (k + S (length wsd))) false). f_equal. lia.
  - apply write_segment; [done|done|done|lia|apply be32s_bytes].
  - apply written_length; [done|]. unfold s_size in Hl. lia.
Qed.

(** One block that is not the end of a hunk. *)
Lemma block_step fuel k m segs b s type rest :
  segs !! b = Some s -> drop k ws = type :: rest -> 0 <= type < 2 ^ 30 -> type <> HUNK_END ->
  second_pass (S fuel) (map seg_of segs) b (at_word ws k) m =
  bind (one_block fuel (map seg_of segs) (seg_of s) type (at_word ws (S k)) m) (second_pass fuel (map seg_of segs) b).
Proof.
  intros Hb Hk Ht Hne. cbn [second_pass]. rewrite (more_words ws k _ _ Hk), length_map.
  pose proof (lookup_lt_Some _ _ _ Hb) as Hlt. rewrite (proj2 (Nat.ltb_lt _ _)) by done. cbn [andb].
  rewrite (rd32_at ws Hws Hlen k _ _ Hk). cbn [known]. change (overrun (at_word ws (S k))) with false. cbv iota zeta.
  replace (type .& 0x3fffffff) with type.
  2:{ change 0x3fffffff with (Z.ones 30). rewrite Z.land_ones by lia. symmetry. by apply Z.mod_small. }
  rewrite list_lookup_fmap, Hb. change (known (seg_of <$> Some s)) with (@known W (Z * Z) reader (Some (seg_of s))).
  cbn [known]. by rewrite (proj2 (Z.eqb_neq _ _)).
Qed.

Lemma item_run it fuel k m segs b s longs rest :
  in_memory segs m -> segs !! b = Some s -> s_size s = 4 * longs -> drop k ws = encode_item it ++ rest ->
  item_ok (Z.of_nat (length segs)) longs it -> (length (encode_item it) <= S fuel)%nat ->
  exists m', second_pass (S fuel) (map seg_of segs) b (at_word ws k) m =
      second_pass fuel (map seg_of segs) b (at_word ws (k + length (encode_item it))) m' /\
    in_memory (<[b := with_data (apply_item (map s_addr segs) (s_data s) it) s]> segs) m' /\
    length (apply_item (map s_addr segs) (s_data s) it) = length (s_data s).
Proof.
  intros Hm Hb Hs Hk Hok Hf.
  assert (Hsame : in_memory (<[b := with_data (s_data s) s]> segs) m).
  { rewrite list_insert_id; [done|]. rewrite Hb. by destruct s. }
  destruct it as [code wsd|n|l|l|wsd]; cbn [encode_item app] in Hk; cbn [encode_item length] in *.
  - rewrite (block_step fuel k m segs b s _ _ Hb Hk) by (by destruct code). cbn [item_ok] in Hok.
    destruct (reads_cons ws k _ _ Hk) as (_ & Hk1 & _).
    destruct (place_ok wsd (S k) m segs b s rest Hm Hb Hk1) as (m' & E & Hm' & Hl); [lia|]. exists m'.
    split; [|by split]. replace (one_block _ _ _ _ _ _) with (place (seg_of s) (at_word ws (S k)) m) by (by destruct code).
    rewrite E. cbn [bind]. do 2 f_equal. lia.
  - exists m. split; [|by split]. rewrite (block_step fuel k m segs b s _ _ Hb Hk) by done.
    destruct (reads_cons ws k _ _ Hk) as (_ & Hk1 & _).
    change (one_block fuel ?ss ?sg HUNK_BSS ?r m) with (known (rd32 r) (fun '(_, q) => Done q m)).
    rewrite (rd32_at ws Hws Hlen (S k) _ _ Hk1). cbn [known bind]. do 2 f_equal. lia.
  - rewrite (block_step fuel k m segs b s _ _ Hb Hk) by done. destruct (reads_cons ws k _ _ Hk) as (_ & Hk1 & _).
    change (one_block fuel ?ss ?sg HUNK_RELOC32 ?r m) with (relocations fuel ss sg r m).
    destruct (relocations_ok l fuel (S k) m segs b s rest Hm Hb Hk1) as (m' & E & Hm' & Hl).
    + rewrite Hs. exact Hok.
    + lia.
    + exists m'. split; [|by split]. rewrite E. cbn [bind]. do 2 f_equal. lia.
  - exists m. split; [|by split]. rewrite (block_step fuel k m segs b s _ _ Hb Hk) by done.
    destruct (reads_cons ws k _ _ Hk) as (_ & Hk1 & _).
    change (one_block fuel ?ss ?sg HUNK_SYMBOL ?r m) with (skip_symbols fuel r m).
    rewrite (symbols_ok l fuel (S k) m rest Hk1 Hok) by lia. cbn [bind]. do 2 f_equal. lia.
  - exists m. split; [|by split]. rewrite (block_step fuel k m segs b s _ _ Hb Hk) by done.
    destruct (reads_cons ws k _ _ Hk) as (_ & Hk1 & _). destruct (reads_cons ws (S k) _ _ Hk1) as (_ & Hk2 & Hlt).
    destruct (reads_app ws wsd _ _ Hk2) as [Hk3 Hbound].
    change (one_block fuel ?ss ?sg HUNK_DEBUG ?r m) with
      (known (rd32 r) (fun '(longs, q) => Done (q <| pos := u32 (pos q + u32 (longs * 4)) |>) m)).
    rewrite (rd32_at ws Hws Hlen (S k) _ _ Hk1). cbn [known bind].
    rewrite (skip_at ws Hlen) by (destruct Hbound as [?| ->]; [done|cbn [length]; lia]). do 2 f_equal. lia.
Qed.

Lemma items_run its : forall fuel k m segs b s longs rest,
  in_memory segs m -> segs !! b = Some s -> s_size s = 4 * longs -> drop k ws = flat_map encode_item its ++ rest ->
  Forall (item_ok (Z.of_nat (length segs)) longs) its -> (length (flat_map encode_item its) <= fuel)%nat ->
  exists m' fuel', second_pass fuel (map seg_of segs) b (at_word ws k) m =
      second_pass fuel' (map seg_of segs) b (at_word ws (k + length (flat_map encode_item its))) m' /\
    (fuel - length (flat_map encode_item its) <= fuel')%nat /\
    in_memory (<[b := with_data (foldl (apply_item (map s_addr segs)) (s_data s) its) s]> segs) m' /\
    length (foldl (apply_item (map s_addr segs)) (s_data s) its) = length (s_data s).
Proof.
  induction its as [|it its IH]; intros fuel k m segs b s longs rest Hm Hb Hs Hk Hok Hf.
  - exists m, fuel. cbn [flat_map length foldl]. rewrite Nat.add_0_r. split; [done|]. split; [lia|]. split; [|done].
    rewrite list_insert_id; [done|]. rewrite Hb. by destruct s.
  - apply Forall_cons in Hok as [Hit Hok]. cbn [flat_map foldl] in *. rewrite <- app_assoc in Hk.
    rewrite length_app in *. destruct (reads_app ws _ _ _ Hk) as [Hk1 _].
    assert (Hpos : (1 <= length (encode_item it))%nat) by (destruct it; cbn; lia).
    destruct fuel as [|fuel]; [lia|].
    destruct (item_run it fuel k m segs b s longs _ Hm Hb Hs Hk Hit) as (m1 & -> & Hm1 & Hl1); [lia|].
    set (c := apply_item (map s_addr segs) (s_data s) it) in *. destruct (same_segments segs b s c Hb Hl1) as [Es Ea].
    destruct (IH fuel (k + length (encode_item it))%nat m1 (<[b := with_data c s]> segs) b (with_data c s) longs rest Hm1) as (m2 & fuel2 & E & Hf2 & Hm2 & Hl2).
    + apply list_lookup_insert_eq. by eapply lookup_lt_Some.
    + unfold s_size, with_data in *. cbn [s_data]. by rewrite Hl1.
    + exact Hk1.
    + by rewrite length_insert.
    + lia.
    + rewrite Es in E. rewrite Ea in Hm2, Hl2. rewrite update_twice in Hm2. exists m2, fuel2. rewrite Nat.add_assoc.
      split; [exact E|]. split; [lia|]. split; [exact Hm2|]. etransitivity; [exact Hl2|exact Hl1].
Qed.

Lemma end_step fuel k m segs b rest :
  (b < length segs)%nat -> drop k ws = HUNK_END :: rest ->
  second_pass (S fuel) (map seg_of segs) b (at_word ws k) m = second_pass fuel (map seg_of segs) (S b) (at_word ws (S k)) m.
Proof.
  intros Hlt Hk. destruct (lookup_lt_is_Some_2 segs b Hlt) as [s Hb]. cbn [second_pass].
  rewrite (more_words ws k _ _ Hk), length_map, (proj2 (Nat.ltb_lt _ _)) by done. cbn [andb].
  rewrite (rd32_at ws Hws Hlen k _ _ Hk). cbn [known]. change (overrun (at_word ws (S k))) with false. cbv iota zeta.
  rewrite list_lookup_fmap, Hb. done.
Qed.

Lemma hunks_run hunks : forall fuel k m pre todo rest,
  in_memory (pre ++ todo) m -> Forall2 (fun h s => s_size s = 4 * h_longs h) hunks todo ->
  drop k ws = flat_map encode_hunk hunks ++ rest ->
  Forall (hunk_ok (Z.of_nat (length (pre ++ todo)))) hunks -> (length (flat_map encode_hunk hunks) < fuel)%nat ->
  exists m' r, second_pass fuel (map seg_of (pre ++ todo)) (length pre) (at_word ws k) m = Done r m' /\
    in_memory (pre ++ zip_with (filled (map s_addr (pre ++ todo))) hunks todo) m'.
Proof.
  induction hunks as [|h hunks IH]; intros fuel k m pre todo rest Hm Hsz Hk Hok Hf.
  - inversion Hsz; subst. destruct fuel as [|fuel]; [lia|]. exists m, (at_word ws k). cbn [second_pass zip_with].
    rewrite app_nil_r in *. rewrite length_map, Nat.ltb_irrefl, andb_false_r. by split.
  - inversion Hsz as [|? s ? todo' Hs Hsz']; subst. apply Forall_cons in Hok as [Hh Hok].
    destruct Hh as (Hfl & Hlo' & Hits). cbn [flat_map zip_with] in *. 
    change (encode_hunk h) with (flat_map encode_item (h_items h) ++ [HUNK_END]) in Hk, Hf.
    rewrite <- !app_assoc in Hk. rewrite !length_app in Hf. cbn [length] in Hf.
    assert (Hb : (pre ++ s :: todo') !! length pre = Some s) by (by rewrite list_lookup_middle).
    destruct (items_run (h_items h) fuel k m _ _ s (h_longs h) _ Hm Hb Hs Hk Hits) as (m1 & fuel1 & -> & Hf1 & Hm1 & Hl1); [lia|].
    destruct (reads_app ws _ _ _ Hk) as [Hk1 _]. cbn [app] in Hk1. destruct (reads_cons ws _ _ _ Hk1) as (_ & Hk2 & _).
    set (addrs := map s_addr (pre ++ s :: todo')) in *.
    set (c := foldl (apply_item addrs) (s_data s) (h_items h)) in *.
    destruct (same_segments _ _ s c Hb Hl1) as [Es Ea]. rewrite insert_middle in Hm1, Es, Ea.
    destruct fuel1 as [|fuel1]; [lia|].
    rewrite (end_step fuel1 _ m1 (pre ++ s :: todo') (length pre) _) by (rewrite ?length_app; cbn [length]; (lia || exact Hk1)).
    specialize (IH fuel1 (S (k + length (flat_map encode_item (h_items h)))) m1 (pre ++ [with_data c s]) todo' rest).
    rewrite <- !app_assoc in IH. cbn [app] in IH. rewrite Ea, Es in IH.
    replace (length (pre ++ [with_data c s])) with (S (length pre)) in IH by (rewrite length_app; cbn; lia).
    apply IH; [done|done|done| |lia].
    replace (length (pre ++ with_data c s :: todo')) with (length (pre ++ s :: todo')) by (by rewrite !length_app). done.
Qed.

End blocks.

(** ** The whole file *)

Lemma linked_sizes segs : Forall2 (fun s t => s_size t = s_size s) segs (linked segs).
Proof.
  induction segs as [|s [|t segs] IH]; [constructor|by repeat constructor|]. rewrite linked_cons. constructor; [done|exact IH].
Qed.

Lemma layout_sizes count hunks : Forall (hunk_ok count) hunks ->
  forall c, Forall2 (fun h s => s_size s = 4 * h_longs h) hunks (layout c hunks).
Proof.
  induction 1 as [|h hunks (_ & Hl & _) _ IH]; intros c; cbn [layout]; constructor; [|apply IH].
  unfold s_size. cbn [s_data]. rewrite length_replicate. lia.
Qed.

Lemma linked_layout_sizes count hunks : Forall (hunk_ok count) hunks ->
  forall c, Forall2 (fun h s => s_size s = 4 * h_longs h) hunks (linked (layout c hunks)).
Proof.
  intros Hok c. pose proof (layout_sizes _ _ Hok c) as H1. pose proof (linked_sizes (layout c hunks)) as H2.
  revert H2. generalize (linked (layout c hunks)). induction H1 as [|h s hunks' segs E H1 IH]; intros l H2;
    inversion H2 as [|? t ? l' Et H2']; subst; constructor; [by rewrite Et|]. apply Forall_cons in Hok as [_ Hok].
  by apply IH.
Qed.

End loading.

(** The loader on a well-formed file. *)
Lemma loader_refines {W} {lo hi : Z} {gm : GuestMemory W} {ok : W -> Prop} {laws : MemoryLaws W lo hi ok}
    hunks table first rest load_addr limit fuel (m : W) :
  ok m -> 0 <= lo <= load_addr -> limit <= hi -> hi + 32 <= 2 ^ 32 ->
  1 <= Z.of_nat (length hunks) <= MAX_HUNKS -> Forall (hunk_ok (Z.of_nat (length hunks))) hunks ->
  fits limit load_addr hunks ->
  Forall (in_width 32) (encode hunks table first rest) -> 4 * Z.of_nat (length (encode hunks table first rest)) + 4 < 2 ^ 32 ->
  (length (encode hunks table first rest) < fuel)%nat ->
  exists m', hunk_load fuel (be32s (encode hunks table first rest))
      (4 * Z.of_nat (length (encode hunks table first rest))) load_addr limit m =
    Done (mkImage (load_addr + 8) load_addr (layout_end load_addr hunks) (Z.of_nat (length hunks))) m' /\
    ordered (hi := hi) lo (map region (load_spec load_addr hunks)) /\
    stored (lo := lo) (hi := hi) (ok := ok) m (map region (load_spec load_addr hunks)) m'.
Proof.
  intros Hm Hlo Hlim Hhi Hn Hok Hfit Hws Hlen Hfuel. set (ws := encode hunks table first rest) in *.
  assert (E0 : drop 0 ws = HUNK_HEADER :: [0; table; first; first + Z.of_nat (length hunks) - 1] ++
    map size_word hunks ++ flat_map encode_hunk hunks ++ rest) by done.
  clearbody ws. destruct (reads_cons ws _ _ _ E0) as (_ & E1 & _). cbn [app] in E1.
  destruct (reads_cons ws _ _ _ E1) as (_ & E2 & _). destruct (reads_cons ws _ _ _ E2) as (_ & E3 & _).
  destruct (reads_cons ws _ _ _ E3) as (K3 & E4 & _). destruct (reads_cons ws _ _ _ E4) as (K4 & E5 & _).
  unfold hunk_load. change (mkReader (be32s ws) (4 * Z.of_nat (length ws)) 0 false) with (at_word ws 0).
  rewrite (rd32_at ws Hws Hlen _ _ _ E0). cbn [known]. change (negb (HUNK_HEADER =? HUNK_HEADER)) with false. cbv iota.
  destruct fuel as [|fuel]; [lia|]. cbn [skip_names]. rewrite (rd32_at ws Hws Hlen _ _ _ E1). cbn [known bind].
  change (0 =? 0) with true. cbv iota. cbn [bind].
  rewrite (rd32_at ws Hws Hlen _ _ _ E2). cbn [known]. rewrite (rd32_at ws Hws Hlen _ _ _ E3). cbn [known].
  rewrite (rd32_at ws Hws Hlen _ _ _ E4). cbn [known]. change (overrun (at_word ws 5)) with false. cbv iota.
  rewrite (proj2 (Z.ltb_ge _ _)) by lia. cbv zeta.
  replace (first + Z.of_nat (length hunks) - 1 - first + 1) with (Z.of_nat (length hunks)) by lia.
  unfold MAX_HUNKS in *. rewrite wrap_small by (unfold in_width; lia). rewrite (proj2 (Z.ltb_ge _ _)) by lia. rewrite Nat2Z.id.
  destruct (reserve_ok (proj1 Hlo) Hhi m ws Hws Hlen limit Hlim (Z.of_nat (length hunks)) hunks 5 load_addr [] [] m _ E5 Hok Hfit)
    as (m1 & -> & Ho1 & Hm1); [lia|done|done|by split|]. cbn [app] in Ho1, Hm1. cbn [bind app].
  change (overrun (at_word ws (5 + length hunks))) with false. cbv iota.
  destruct (chain_ok (proj1 Hlo) Hhi m (layout load_addr hunks) [] m1 Ho1 Hm1) as [Ho2 Hm2]. cbn [app] in Ho2, Hm2.
  rewrite <- linked_seg_of in Hm2 |- *. set (segs := linked (layout load_addr hunks)) in *.
  pose proof (linked_layout_sizes _ _ Hok load_addr) as Hsz. fold segs in Hsz.
  assert (Hls : length segs = length hunks) by (symmetry; by eapply Forall2_length).
  destruct (reads_app ws _ _ _ E5) as [E6 _]. rewrite length_map in E6.
  destruct (hunks_run (proj1 Hlo) Hhi m ws Hws Hlen hunks (S fuel) (5 + length hunks) (chain (map seg_of segs) m1) [] segs rest)
    as (m2 & r & E & Hm3); [by split|done|done|by rewrite app_nil_l, Hls| |].
  { pose proof (f_equal length E6) as El. rewrite length_drop, length_app in El. lia. }
  cbn [app length] in E, Hm3. rewrite E. cbn [bind].
  destruct hunks as [|h hunks]; [cbn in Hn; lia|].
  assert (E7 : map seg_of segs !! 0%nat = Some (load_addr + 8, 4 * h_longs h)).
  { unfold segs. rewrite linked_seg_of.
    change (Some (load_addr + 8, Z.of_nat (length (replicate (Z.to_nat (4 * h_longs h)) 0))) = Some (load_addr + 8, 4 * h_longs h)).
    rewrite length_replicate.
    apply Forall_cons in Hok as [(_ & ? & _) _]. do 2 f_equal. lia. }
  rewrite E7. cbn [known fst]. exists m2. split; [done|]. exact Hm3.
Qed.

(** C5: Whatever the hunks of a well-formed executable hold (code or data, relocations towards any
    hunk, symbols, debug information, memory flags), the loader accepts its file when the
    segments end before [limit], given one unit of fuel per longword and one more.  The image
    starts at the first segment and ends where the next one would be; the memory holds every
    segment as the specification says, size, link to the next one, data with the relocations
    applied, and in the rest of [lo, hi) is as it was. *)
Theorem hunk_load_refines {W} {lo hi : Z} {gm : GuestMemory W} {ok : W -> Prop} {laws : MemoryLaws W lo hi ok}
    hunks table first rest load_addr limit fuel (m : W) :
  ok m -> 0 <= lo <= load_addr -> limit <= hi -> hi + 32 <= 2 ^ 32 ->
  1 <= Z.of_nat (length hunks) <= MAX_HUNKS -> Forall (hunk_ok (Z.of_nat (length hunks))) hunks ->
  fits limit load_addr hunks ->
  Forall (in_width 32) (encode hunks table first rest) -> 4 * Z.of_nat (length (encode hunks table first rest)) + 4 < 2 ^ 32 ->
  (length (encode hunks table first rest) < fuel)%nat ->
  exists m', hunk_load fuel (be32s (encode hunks table first rest))
      (4 * Z.of_nat (length (encode hunks table first rest))) load_addr limit m =
    Done (mkImage (load_addr + 8) load_addr (layout_end load_addr hunks) (Z.of_nat (length hunks))) m' /\
    ordered (hi := hi) lo (map region (load_spec load_addr hunks)) /\
    stored (lo := lo) (hi := hi) (ok := ok) m (map region (load_spec load_addr hunks)) m'.
Proof. by apply loader_refines. Qed.

(** ** Malformed files *)

Section malformed.
Context {W : Type} {gm : GuestMemory W}.

(** A header of one empty segment, and the words after it. *)
Definition one_segment (l : list Z) : list Z := [HUNK_HEADER; 0; 1; 0; 0; 0] ++ l.

Lemma one_segment_load l fuel load_addr limit (m : W) :
  Forall (in_width 32) l -> 4 * Z.of_nat (length (one_segment l)) + 4 < 2 ^ 32 ->
  0 <= load_addr -> load_addr + 8 <= limit -> limit < 2 ^ 32 ->
  exists m' img, hunk_load (S fuel) (be32s (one_segment l)) (4 * Z.of_nat (length (one_segment l))) load_addr limit m =
    bind (second_pass (S fuel) [(u32 (load_addr + SEG_HEADER), 0)] 0 (at_word (one_segment l) 6) m') (fun _ m => Done img m).
Proof.
  intros Hl Hlen H0 H1 H2. eexists _, _. unfold hunk_load. set (ws := one_segment l) in *.
  change (mkReader (be32s ws) (4 * Z.of_nat (length ws)) 0 false) with (at_word ws 0).
  assert (Hws : Forall (in_width 32) ws) by (unfold ws, one_segment; by repeat apply Forall_cons_2).
  do 5 (erewrite (rd32_at ws Hws Hlen); [|reflexivity]; cbn [known skip_names bind];
        change (negb (HUNK_HEADER =? HUNK_HEADER)) with false; change (0 =? 0) with true; cbv iota; cbn [bind]).
  change (overrun (at_word ws 5)) with false. change (0 <? 0) with false. cbv iota zeta.
  change (u32 (0 - 0 + 1)) with 1. change (MAX_HUNKS <? 1) with false. cbv iota. change (Z.to_nat 1) with 1%nat. cbn [reserve].
  rewrite (rd32_at ws Hws Hlen 5 0 l) by done. cbn [known]. change (0 .& 0x3fffffff) with 0. change (u32 (0 * 4)) with 0.
  unfold SEG_HEADER at 1. rewrite (wrap_small 32 (load_addr + 8 + 0)) by (unfold in_width; lia).
  rewrite (proj2 (Z.ltb_ge _ _)) by lia. cbv zeta. cbn [bind app]. change (overrun (at_word ws 6)) with false. cbv iota.
  change ([(?a, ?b)] !! 0%nat) with (Some (a, b)). cbn [known fst]. reflexivity.
Qed.

(** A debug block whose length takes the reader back to the start of the block. *)
Definition looping_file : list Z := one_segment [HUNK_DEBUG; 0x3ffffffe].

Lemma looping_pass fuel segs (m : W) : segs <> [] ->
  second_pass fuel segs 0 (at_word looping_file 6) m = OutOfFuel.
Proof.
  intros Hs. induction fuel as [|fuel IH]; [done|]. destruct segs as [|s segs]; [done|].
  change (second_pass (S fuel) (s :: segs) 0 (at_word looping_file 6) m) with
    (second_pass fuel (s :: segs) 0 (at_word looping_file 6) m). exact IH.
Qed.

(** A symbol whose name ends at the last longword of the address space. *)
Definition outside_file : list Z := one_segment [HUNK_SYMBOL; 0x3ffffff6].

Lemma outside_pass fuel segs (m : W) : segs <> [] ->
  second_pass (S (S (S fuel))) segs 0 (at_word outside_file 6) m = Undefined.
Proof. intros Hs. by destruct segs. Qed.

(** C24: The loader does not reject every malformed file: one of eight longwords makes it run for
    ever (no amount of fuel is enough), one makes it read outside the file, and one whose
    header counts no hunk at all makes it return an entry point it never computed. *)
Theorem malformed_files_are_not_rejected load_addr limit (m : W) :
  0 <= load_addr -> load_addr + 8 <= limit -> limit < 2 ^ 32 ->
  (forall fuel, hunk_load fuel (be32s looping_file) 32 load_addr limit m = OutOfFuel) /\
  (forall fuel, hunk_load (S (S (S fuel))) (be32s outside_file) 32 load_addr limit m = Undefined) /\
  (forall fuel, hunk_load (S fuel) (be32s [HUNK_HEADER; 0; 0; 0; 0xffffffff]) 20 load_addr limit m = Undefined).
Proof.
  intros H0 H1 H2. split; [|split]; intros fuel.
  - destruct fuel as [|fuel]; [done|].
    destruct (one_segment_load [HUNK_DEBUG; 0x3ffffffe] fuel load_addr limit m) as (m' & img & E);
      [by repeat apply Forall_cons_2|done|done|done|done|].
    change 32 with (4 * Z.of_nat (length looping_file)). fold looping_file in E. by rewrite E, looping_pass.
  - destruct (one_segment_load [HUNK_SYMBOL; 0x3ffffff6] (S (S fuel)) load_addr limit m) as (m' & img & E);
      [by repeat apply Forall_cons_2|done|done|done|done|].
    change 32 with (4 * Z.of_nat (length outside_file)). fold outside_file in E. by rewrite E, outside_pass.
  - done.
Qed.

End malformed.

(** ** Witnesses *)

(** A memory of bytes, as a function of the address. *)
Definition function_memory : GuestMemory (Z -> Z) :=
  {| write8 := fun m a v x => if x =? a then v else m x; read8 := fun m a => m a |}.

Lemma function_memory_laws lo hi : @MemoryLaws (Z -> Z) function_memory lo hi (fun _ => True).
Proof.
  split; cbn; [done|..].
  - intros m a v _ _ _. by rewrite Z.eqb_refl.
  - intros m a b v _ _ _ _ Hn. by rewrite (proj2 (Z.eqb_neq b a)) by congruence.
Qed.

(** Code that loads a longword of the data hunk, and the data: the second longword of the
    code is moved by the address of the data. *)
Definition small_program : list hunk :=
  [mkHunk 1 2 [contents true [0x20390000; 0x00000004]; relocs [(1, [4])]; symbols [([0x6d61696e], 0)]];
   mkHunk 2 2 [contents false [0x11111111; 0x22222222]; debug [1; 2]]].

Lemma small_program_spec :
  map region (load_spec 0x1000 small_program) =
    [(0x1000, be32 8 ++ be32 0x1024 ++ be32s [0x20390000; 0x102c]); (0x1020, be32 8 ++ be32 0 ++ be32s [0x11111111; 0x22222222])].
Proof. vm_compute. reflexivity. Qed.

Lemma small_program_ok : Forall (hunk_ok 2) small_program.
Proof.
  apply Forall_cons_2; [|apply Forall_cons_2; [|by apply Forall_nil]]; (split; [cbn; lia|]); (split; [cbn; lia|]).
  - apply Forall_cons_2; [cbn; lia|]. apply Forall_cons_2; [|apply Forall_cons_2; [by apply Forall_cons_2|by apply Forall_nil]].
    apply Forall_cons_2; [|by apply Forall_nil]. cbn [fst snd h_longs]. split; [lia|]. split; [done|].
    apply Forall_cons_2; [lia|by apply Forall_nil].
  - apply Forall_cons_2; [cbn; lia|]. apply Forall_cons_2; [done|by apply Forall_nil].
Qed.

Lemma hunk_load_refines_witness :
  let file := encode small_program 2 0 [] in
  let segments := [(0x1000, be32 8 ++ be32 0x1024 ++ be32s [0x20390000; 0x102c]);
                   (0x1020, be32 8 ++ be32 0 ++ be32s [0x11111111; 0x22222222])] in
  exists m', @hunk_load _ function_memory 60 (be32s file) (4 * Z.of_nat (length file)) 0x1000 0x2000 (fun _ => 0xff) =
      Done (mkImage 0x1008 0x1000 0x1040 2) m' /\
    ordered (hi := 0xffffffe0) 0 segments /\
    @stored _ 0 0xffffffe0 function_memory (fun _ => True) (fun _ => 0xff) segments m'.
Proof.
  intros file segments. unfold segments. rewrite <- small_program_spec.
  apply (@hunk_load_refines _ 0 0xffffffe0 function_memory _ (function_memory_laws 0 0xffffffe0) small_program 2 0 [] 0x1000 0x2000 60);
    [exact I|lia|lia|lia|cbn; unfold MAX_HUNKS; lia|exact small_program_ok|vm_compute; repeat split; discriminate| |cbn; lia|cbn; lia].
  unfold encode. cbn. repeat (apply Forall_cons_2; [split; [discriminate|reflexivity]|]). by apply Forall_nil.
Defined.

Lemma malformed_files_are_not_rejected_witness :
  @hunk_load _ function_memory 1000 (be32s looping_file) 32 0x1000 0x2000 (fun _ => 0) = OutOfFuel.
Proof.
  destruct (@malformed_files_are_not_rejected _ function_memory 0x1000 0x2000 (fun _ => 0)) as (H & _); [lia|lia|lia|].
  exact (H 1000%nat).
Defined.
