(* ===== verification/Host.v ===== *)
(** * The host: [harness/harness.c]

    The program around the chipset: chip RAM and the ROM, the address map of the
    processor, the boards, the clock that ties the processor to the chipset, and
    what the chipset sends to the host.  Chip RAM is the memory of the chipset's
    context, which both sides share.  The processor (Musashi) is third-party code:
    its registers, the number of cycles it has run and its execution are
    parameters; what the host tells it and its observers is the list [h_out].
    An access outside an array is [None]. *)

From S2P Require Import Prelude Bytes ChipRam HostBytes Denise Rtc Machine FloppyPort Mmio Rigel Fastram Ata Lide Hunk.

(** C: [src/harness/harness.h]:32-43 [HARNESS_ROM_SIZE] *)
Definition HARNESS_CHIP_RAM_SIZE := 512 * 1024.
Definition HARNESS_ROM_SIZE := 512 * 1024.
Definition HARNESS_ROM_MAX := 1024 * 1024.
Definition HARNESS_ROM_BASE := 0xf80000.
Definition HARNESS_ROM_EXT_BASE := 0xe00000.
Definition HARNESS_SLOW_RAM_BASE := 0xc00000.
Definition HARNESS_MAX_WIDTH := 1024.
Definition HARNESS_MAX_HEIGHT := 312.
Definition HARNESS_EXEC_EXIT_ADDR := 0x800.
(** C: [src/harness/expansions/zorro.h]:18-19 [ZORRO_AC_BASE] *)
Definition ZORRO_AC_BASE := 0xe80000.
Definition ZORRO_AC_WINDOW := 0x010000.
(** C: [src/harness/harness.c]:26-32 [HARNESS_HALT_STEPS] *)
Definition HARNESS_HALT_STEPS := 4096.

#[local] Abbreviation memory := (list Z).

(** ** Chip RAM *)

(** C: [src/harness/harness.c] [chip_ram_read16] *)
Definition chip_ram_read16 (m : memory) (addr : Z) : Z :=
  if Z.of_nat (length m) <=? u32 (addr + 1) then 0 else u16 ((rd8 m addr .<< 8) .| rd8 m (addr + 1)).

(** C: [src/harness/harness.c] [chip_ram_write16] *)
Definition chip_ram_write16 (m : memory) (addr value : Z) : memory :=
  if Z.of_nat (length m) <=? u32 (addr + 1) then m
  else <[Z.to_nat (addr + 1) := u8 (value .& 0xff)]> (<[Z.to_nat addr := u8 (value .>> 8)]> m).

(** The callbacks the host gives the chipset.
    C: [src/harness/harness.c]:671-673 [harness_create_ex] *)
Definition host_chip_ram : ChipRamIf memory := mkChipRam (Some chip_ram_read16) (Some chip_ram_write16).

(** ** The state *)

(** What the host sends: the interrupt level, serial bytes, observed register accesses,
    audio samples. *)
Inductive output :=
  | set_irq (ipl : Z)
  | serial_byte (b : Z)
  | mmio_seen (reg value : Z) (is_write : bool)
  | audio_sample (l r : Z).

(** C: [src/harness/harness.c]:35-91 [harness_t] *)
Record harness := mkHarness {
  h_rigel : RigelContext memory;
  h_slow_ram : memory;
  h_rom : memory; h_rom_size : Z;
  h_std_off : Z; h_std_size : Z; h_std_mask : Z;
  h_ext_off : Z; h_ext_size : Z; h_ext_mask : Z;
  h_ovl_off : Z; h_ovl_mask : Z;
  h_cpu_cycles_total : Z;
  h_cck_rem : Z; h_cycles_flushed : Z; h_pending_events : Z;
  h_last_pc : Z; h_pc_stall_steps : Z;
  h_last_ipl : Z; h_exec_mode : bool;
  h_exec_fb : Z; h_exec_fb_w : Z; h_exec_fb_h : Z; h_exec_fb_pitch : Z; h_exec_exit : Z;
  h_serial_fn : bool; h_mmio_fn : bool; h_audio_fn : bool;
  h_audio_step_q16 : Z; h_audio_accum_q16 : Z;
  h_lide : option lide_board; h_fastram : option fastram_board;
  h_out : list output;
}.

#[export] Instance eta_harness : Eta harness := fun h =>
  mkHarness (h_rigel h) (h_slow_ram h) (h_rom h) (h_rom_size h) (h_std_off h) (h_std_size h) (h_std_mask h)
    (h_ext_off h) (h_ext_size h) (h_ext_mask h) (h_ovl_off h) (h_ovl_mask h) (h_cpu_cycles_total h) (h_cck_rem h)
    (h_cycles_flushed h) (h_pending_events h) (h_last_pc h) (h_pc_stall_steps h) (h_last_ipl h) (h_exec_mode h)
    (h_exec_fb h) (h_exec_fb_w h) (h_exec_fb_h h) (h_exec_fb_pitch h) (h_exec_exit h)
    (h_serial_fn h) (h_mmio_fn h) (h_audio_fn h) (h_audio_step_q16 h) (h_audio_accum_q16 h) (h_lide h) (h_fastram h)
    (h_out h).

(** Chip RAM and its size. *)
Definition chip (h : harness) : memory := Machine.memory (bus (h_rigel h)).
Definition chip_size (h : harness) : Z := Z.of_nat (length (chip h)).
Definition with_chip (m : memory) (h : harness) : harness :=
  h <| h_rigel := (h_rigel h) <| bus := (bus (h_rigel h)) <| Machine.memory := m |> |> |>.

Definition say (o : list output) (h : harness) : harness := h <| h_out := h_out h ++ o |>.
Definition observe (reg value : Z) (is_write : bool) (h : harness) : harness :=
  if h_mmio_fn h then say [mmio_seen reg value is_write] h else h.

(** ** The chipset seen by the host *)

(** C: [src/harness/harness.c] [harness_sync_ipl] *)
Definition harness_sync_ipl (h : harness) : harness :=
  let ipl := rigel_get_ipl (h_rigel h) in
  if ipl =? h_last_ipl h then h else say [set_irq ipl] (h <| h_last_ipl := ipl |>).

(** [fuel]: the bytes that may be waiting.
    C: [src/harness/harness.c]:155-157 [harness_drain_serial] *)
Fixpoint drain_loop (fuel : nat) (h : harness) : harness :=
  match fuel with
  | O => h
  | S fuel =>
      if rigel_serial_tx_available (h_rigel h) then
        match rigel_serial_pop_tx_byte (h_rigel h) with
        | Some (b, c) => drain_loop fuel (say [serial_byte b] (h <| h_rigel := c |>))
        | None => h
        end
      else h
  end.

(** C: [src/harness/harness.c] [harness_drain_serial] *)
Definition harness_drain_serial (h : harness) : harness :=
  if negb (h_serial_fn h) then h
  else drain_loop (Z.to_nat (Serial.tx_fifo_count (Machine.serial (paula (h_rigel h))))) h.

(** C: [src/harness/harness.c]:176-179 [harness_advance_audio] *)
Fixpoint audio_loop (fuel : nat) (l r : Z) (h : harness) : harness :=
  match fuel with
  | O => h
  | S fuel =>
      if h_audio_step_q16 h <=? h_audio_accum_q16 h then
        audio_loop fuel l r
          (say [audio_sample l r] (h <| h_audio_accum_q16 := h_audio_accum_q16 h - h_audio_step_q16 h |>))
      else h
  end.

(** C: [src/harness/harness.c] [harness_advance_audio] *)
Definition harness_advance_audio (cck : Z) (h : harness) : harness :=
  if negb (h_audio_fn h) || (h_audio_step_q16 h =? 0) then h
  else
    let h := h <| h_audio_accum_q16 := u32 (h_audio_accum_q16 h + u32 (cck .<< 16)) |> in
    if h_audio_accum_q16 h <? h_audio_step_q16 h then h
    else
      let '(l, r) := rigel_get_audio_sample (h_rigel h) in
      audio_loop (Z.to_nat (h_audio_accum_q16 h / h_audio_step_q16 h)) (i16 l) (i16 r) h.

(** C: [src/harness/harness.c] [harness_absorb] *)
Definition harness_absorb (r : step_result) (h : harness) : harness :=
  harness_drain_serial (harness_sync_ipl (h <| h_pending_events := h_pending_events h .| res_events r |>)).

(** The processor ran [delta] cycles more, two for a clock of the chipset.
    C: [src/harness/harness.c]:200-207 [harness_flush] *)
Definition owe_cycles (delta : Z) (h : harness) : harness :=
  let scaled := h_cck_rem h + delta in
  let cck := scaled / 2 in
  let h := h <| h_cck_rem := scaled .& 1 |> in
  if cck =? 0 then h
  else
    let '(r, c) := rigel_step cck (h_rigel h) in
    harness_advance_audio cck (harness_absorb r (h <| h_rigel := c |>)).

(** [run]: what [m68k_cycles_run] gives.
    C: [src/harness/harness.c] [harness_flush] *)
Definition harness_flush (run : Z) (h : harness) : harness :=
  let delta := run - h_cycles_flushed h in
  if delta <=? 0 then h else owe_cycles delta (h <| h_cycles_flushed := run |>).

(** ** The address map *)

(** CIA-A's port A and its direction, read without side effect on the rest.
    C: [src/harness/harness.c] [harness_overlay] *)
Definition harness_overlay (h : harness) : bool * harness :=
  if h_exec_mode h then (false, h)
  else if h_rom_size h =? 0 then (false, h)
  else
    let '(ddra, c) := rigel_cia_read 0 0x2 (h_rigel h) in
    let h := h <| h_rigel := c |> in
    if negb (has ddra 0x01) then (true, h)
    else let '(pra, c) := rigel_cia_read 0 0x0 (h_rigel h) in (has pra 0x01, h <| h_rigel := c |>).

(** C: [src/harness/harness.c] [harness_overlay_read8] *)
Definition harness_overlay_read8 (h : harness) (addr : Z) : option Z :=
  h_rom h !! Z.to_nat (u32 (h_ovl_off h + (addr .& h_ovl_mask h))).

(** C: [src/harness/harness.c] [harness_rom_read8] *)
Definition harness_rom_read8 (h : harness) (addr : Z) : option Z :=
  if (HARNESS_ROM_BASE <=? addr) && negb (h_std_size h =? 0)
  then h_rom h !! Z.to_nat (u32 (h_std_off h + (addr .& h_std_mask h)))
  else if negb (h_ext_size h =? 0) && (HARNESS_ROM_EXT_BASE <=? addr) && (addr <? u32 (HARNESS_ROM_EXT_BASE + h_ext_size h))
  then h_rom h !! Z.to_nat (u32 (h_ext_off h + (addr .& h_ext_mask h)))
  else Some 0xff.

(** C: [src/harness/harness.c] [addr_in_autoconfig] *)
Definition addr_in_autoconfig (a : Z) : bool := (ZORRO_AC_BASE <=? a) && (a <? ZORRO_AC_BASE + ZORRO_AC_WINDOW).

(** A board that is there and waits for its configuration. *)
Definition fastram_waits (h : harness) : option fastram_board :=
  match h_fastram h with Some b => if fastram_pending b then Some b else None | None => None end.
Definition lide_waits (h : harness) : option lide_board :=
  match h_lide h with Some b => if lide_pending b then Some b else None | None => None end.

(** C: [src/harness/harness.c] [harness_autoconfig_read] *)
Definition harness_autoconfig_read (h : harness) (addr : Z) : Z :=
  let off := u32 (addr - ZORRO_AC_BASE) in
  match fastram_waits h with
  | Some b => fastram_ac_read off b
  | None => match lide_waits h with Some b => lide_ac_read off b | None => 0xff end
  end.

(** C: [src/harness/harness.c] [harness_autoconfig_write] *)
Definition harness_autoconfig_write (addr value : Z) (h : harness) : harness :=
  let off := u32 (addr - ZORRO_AC_BASE) in
  match fastram_waits h with
  | Some b => h <| h_fastram := Some (fastram_ac_write off value b) |>
  | None => match lide_waits h with Some b => h <| h_lide := Some (lide_ac_write off value b) |> | None => h end
  end.

(** C: [src/harness/harness.c] [harness_autoconfig_active] *)
Definition harness_autoconfig_active (h : harness) : bool :=
  match fastram_waits h, lide_waits h with None, None => false | _, _ => true end.

(** C: [src/harness/harness.c]:282-282 [addr_in_custom] *)
Definition addr_in_custom (a : Z) : bool := (0xdf0000 <=? a) && (a <? 0xe00000).
(** C: [src/harness/harness.c]:283-283 [addr_in_cia] *)
Definition addr_in_cia (a : Z) : bool := (0xa00000 <=? a) && (a <? 0xc00000).

Definition lane_a (addr : Z) : bool := negb (has addr 0x1000) && has addr 1.
Definition lane_b (addr : Z) : bool := negb (has addr 0x2000) && negb (has addr 1).

(** C: [src/harness/harness.c] [harness_cia_read8] *)
Definition harness_cia_read8 (run addr : Z) (h : harness) : Z * harness :=
  let reg := u8 ((addr .>> 8) .& 0x0f) in
  let h := harness_flush run h in
  if lane_a addr then
    let '(v, c) := rigel_cia_read 0 reg (h_rigel h) in (v, harness_sync_ipl (h <| h_rigel := c |>))
  else if lane_b addr then
    let '(v, c) := rigel_cia_read 1 reg (h_rigel h) in (v, harness_sync_ipl (h <| h_rigel := c |>))
  else (0xff, h).

(** C: [src/harness/harness.c] [harness_cia_write8] *)
Definition harness_cia_write8 (run addr value : Z) (h : harness) : harness :=
  let reg := u8 ((addr .>> 8) .& 0x0f) in
  let h := harness_flush run h in
  let h :=
    if lane_a addr then h <| h_rigel := rigel_cia_write 0 reg value (h_rigel h) |>
    else if lane_b addr then h <| h_rigel := rigel_cia_write 1 reg value (h_rigel h) |> else h in
  harness_sync_ipl h.

(** C: [src/harness/harness.c] [harness_custom_read] *)
Definition harness_custom_read (run reg : Z) (h : harness) : Z * harness :=
  let h := harness_flush run h in
  let '(v, c) := rigel_custom_read16 reg (h_rigel h) in
  (v, observe reg v false (h <| h_rigel := c |>)).

(** C: [src/harness/harness.c] [harness_custom_write] *)
Definition harness_custom_write (run reg value : Z) (h : harness) : harness :=
  let h := harness_flush run h in
  let h := h <| h_rigel := rigel_custom_write16 reg value (h_rigel h) |> in
  harness_sync_ipl (observe reg value true h).

Definition fastram_at (h : harness) (addr : Z) : option fastram_board :=
  match h_fastram h with Some b => if fastram_owns addr b then Some b else None | None => None end.
Definition lide_at (h : harness) (addr : Z) : option lide_board :=
  match h_lide h with Some b => if lide_owns addr b then Some b else None | None => None end.

Definition in_slow_ram (h : harness) (addr : Z) : bool :=
  negb (Z.of_nat (length (h_slow_ram h)) =? 0) && (HARNESS_SLOW_RAM_BASE <=? addr) &&
  (addr <? HARNESS_SLOW_RAM_BASE + Z.of_nat (length (h_slow_ram h))).

(** C: [src/harness/harness.c] [harness_read8] *)
Definition harness_read8 (run addr : Z) (h : harness) : option (Z * harness) :=
  let addr := addr .& 0x00ffffff in
  if addr <? chip_size h then
    let '(overlay, h) := harness_overlay h in
    if overlay then v ← harness_overlay_read8 h addr; Some (v, h)
    else v ← chip h !! Z.to_nat addr; Some (v, h)
  else match fastram_at h addr with
  | Some b => v ← fastram_read addr 1 b; Some (u8 v, h)
  | None =>
  match lide_at h addr with
  | Some b => '(v, b) ← lide_read addr 1 b; Some (u8 v, h <| h_lide := Some b |>)
  | None =>
      if addr_in_autoconfig addr && harness_autoconfig_active h then Some (harness_autoconfig_read h addr, h)
      else if addr_in_cia addr then Some (harness_cia_read8 run addr h)
      else if in_slow_ram h addr then v ← h_slow_ram h !! Z.to_nat (addr - HARNESS_SLOW_RAM_BASE); Some (v, h)
      else if addr_in_custom addr then
        let '(w, h) := harness_custom_read run (addr .& 0x1fe) h in
        Some (u8 (if has addr 1 then w .& 0xff else w .>> 8), h)
      else v ← harness_rom_read8 h addr; Some (v, h)
  end end.

(** C: [src/harness/harness.c] [harness_write8] *)
Definition harness_write8 (run addr value : Z) (h : harness) : option harness :=
  let addr := addr .& 0x00ffffff in
  if addr <? chip_size h then Some (with_chip (<[Z.to_nat addr := value]> (chip h)) h)
  else match fastram_at h addr with
  | Some b => b ← fastram_write addr value 1 b; Some (h <| h_fastram := Some b |>)
  | None =>
  match lide_at h addr with
  | Some b => b ← lide_write addr value 1 b; Some (h <| h_lide := Some b |>)
  | None =>
      if addr_in_autoconfig addr && harness_autoconfig_active h then Some (harness_autoconfig_write addr value h)
      else if addr_in_cia addr then Some (harness_cia_write8 run addr value h)
      else if in_slow_ram h addr
      then Some (h <| h_slow_ram := <[Z.to_nat (addr - HARNESS_SLOW_RAM_BASE) := value]> (h_slow_ram h) |>)
      else if addr_in_custom addr then
        let reg := addr .& 0x1fe in
        let '(cur, h) := harness_custom_read run reg h in
        Some (harness_custom_write run reg
                (if has addr 1 then u16 ((cur .& 0xff00) .| value) else u16 ((cur .& 0x00ff) .| (value .<< 8))) h)
      else Some h
  end end.

(** C: [src/harness/harness.c] [harness_read16] *)
Definition harness_read16 (run addr : Z) (h : harness) : option (Z * harness) :=
  let addr := addr .& 0x00ffffff in
  if addr_in_custom addr then Some (harness_custom_read run (addr .& 0x1fe) h)
  else if u32 (addr + 1) <? chip_size h then
    let '(overlay, h) := harness_overlay h in
    if overlay then
      b0 ← harness_overlay_read8 h addr; b1 ← harness_overlay_read8 h (u32 (addr + 1));
      Some (u16 ((b0 .<< 8) .| b1), h)
    else b0 ← chip h !! Z.to_nat addr; b1 ← chip h !! Z.to_nat (addr + 1); Some (u16 ((b0 .<< 8) .| b1), h)
  else match fastram_at h addr with
  | Some b => v ← fastram_read addr 2 b; Some (u16 v, h)
  | None =>
  match lide_at h addr with
  | Some b => '(v, b) ← lide_read addr 2 b; Some (u16 v, h <| h_lide := Some b |>)
  | None =>
      '(b0, h) ← harness_read8 run addr h;
      '(b1, h) ← harness_read8 run (u32 (addr + 1)) h;
      Some (u16 (u16 (b0 .<< 8) .| b1), h)
  end end.

(** C: [src/harness/harness.c] [harness_write16] *)
Definition harness_write16 (run addr value : Z) (h : harness) : option harness :=
  let addr := addr .& 0x00ffffff in
  if addr_in_custom addr then Some (harness_custom_write run (addr .& 0x1fe) value h)
  else if u32 (addr + 1) <? chip_size h then
    Some (with_chip (<[Z.to_nat (addr + 1) := u8 (value .& 0xff)]> (<[Z.to_nat addr := u8 (value .>> 8)]> (chip h))) h)
  else match fastram_at h addr with
  | Some b => b ← fastram_write addr value 2 b; Some (h <| h_fastram := Some b |>)
  | None =>
  match lide_at h addr with
  | Some b => b ← lide_write addr value 2 b; Some (h <| h_lide := Some b |>)
  | None =>
      h ← harness_write8 run addr (u8 (value .>> 8)) h;
      harness_write8 run (u32 (addr + 1)) (u8 (value .& 0xff)) h
  end end.

(** The order of the two halves is the one of a compiler that evaluates from left to right.
    C: [src/harness/harness.c] [m68k_read_memory_32] *)
Definition m68k_read_memory_32 (run addr : Z) (h : harness) : option (Z * harness) :=
  '(hi, h) ← harness_read16 run addr h;
  '(lo, h) ← harness_read16 run (u32 (addr + 2)) h;
  Some (u32 (hi .<< 16) .| lo, h).

(** C: [src/harness/harness.c] [m68k_write_memory_32] *)
Definition m68k_write_memory_32 (run addr value : Z) (h : harness) : option harness :=
  h ← harness_write16 run addr (u16 (value .>> 16)) h;
  harness_write16 run (u32 (addr + 2)) (u16 value) h.

(** Reads of a debugger.
    C: [src/harness/harness.c] [harness_peek16] *)
Definition harness_peek16 (addr : Z) (h : harness) : option (Z * harness) :=
  let addr := addr .& 0x00ffffff in
  if u32 (addr + 1) <? chip_size h then
    let '(overlay, h) := harness_overlay h in
    if overlay then
      b0 ← harness_overlay_read8 h addr; b1 ← harness_overlay_read8 h (u32 (addr + 1));
      Some (u16 ((b0 .<< 8) .| b1), h)
    else b0 ← chip h !! Z.to_nat addr; b1 ← chip h !! Z.to_nat (addr + 1); Some (u16 ((b0 .<< 8) .| b1), h)
  else if in_slow_ram h addr && in_slow_ram h (u32 (addr + 1)) then
    let off := addr - HARNESS_SLOW_RAM_BASE in
    b0 ← h_slow_ram h !! Z.to_nat off; b1 ← h_slow_ram h !! Z.to_nat (off + 1); Some (u16 ((b0 .<< 8) .| b1), h)
  else match fastram_at h addr, fastram_at h (u32 (addr + 1)) with
  | Some b, Some _ => v ← fastram_read addr 2 b; Some (u16 v, h)
  | _, _ =>
      if addr_in_cia addr || addr_in_custom addr then Some (0, h)
      else match lide_at h addr with
      | Some _ => Some (0, h)
      | None => b0 ← harness_rom_read8 h addr; b1 ← harness_rom_read8 h (u32 (addr + 1)); Some (u16 ((b0 .<< 8) .| b1), h)
      end
  end.

(** C: [src/harness/harness.c] [harness_peek8] *)
Definition harness_peek8 (addr : Z) (h : harness) : option (Z * harness) :=
  '(w, h) ← harness_peek16 (addr .& u32 (~~ 1)) h;
  Some (u8 (if has addr 1 then w .& 0xff else w .>> 8), h).

(** ** ROM images *)

(** C: [src/harness/harness.c] [harness_synth_reset_vector] *)
Definition harness_synth_reset_vector (h : harness) : option harness :=
  rom ← store_bytes (h_rom h) 0 (be32 (chip_size h) ++ be32 (HARNESS_ROM_BASE + 8)); Some (h <| h_rom := rom |>).

(** C: [src/harness/harness.c] [harness_load_rom] *)
Definition harness_load_rom (data : list Z) (size : Z) (h : harness) : option harness :=
  let size := if HARNESS_ROM_SIZE - 8 <? size then HARNESS_ROM_SIZE - 8 else size in
  rom ← store_bytes (h_rom h) 8 (slice data 0 size); Some (h <| h_rom := rom |>).

(** [pc]: the program counter of the processor after its reset.
    C: [src/harness/harness.c] [harness_load_kickstart] *)
Definition harness_load_kickstart (pc : Z) (data : list Z) (size : Z) (h : harness) : option (bool * harness) :=
  if negb (size =? 256 * 1024) && negb (size =? 512 * 1024) && negb (size =? 1024 * 1024) then Some (false, h)
  else
    rom ← fill_bytes (h_rom h) 0 0 HARNESS_ROM_MAX;
    rom ← store_bytes rom 0 (slice data 0 size);
    let h := h <| h_rom := rom |> <| h_rom_size := size |> in
    let h :=
      if size =? HARNESS_ROM_MAX then
        let half := size / 2 in
        h <| h_ext_off := 0 |> <| h_ext_size := half |> <| h_ext_mask := half - 1 |>
          <| h_std_off := half |> <| h_std_size := half |> <| h_std_mask := half - 1 |>
          <| h_ovl_off := 0 |> <| h_ovl_mask := half - 1 |>
      else
        h <| h_ext_off := 0 |> <| h_ext_size := 0 |> <| h_ext_mask := 0 |>
          <| h_std_off := 0 |> <| h_std_size := size |> <| h_std_mask := size - 1 |>
          <| h_ovl_off := 0 |> <| h_ovl_mask := size - 1 |> in
    Some (true, h <| h_last_pc := pc |> <| h_pc_stall_steps := 0 |>).

(** ** Creation and boards *)

(** [hc_framebuffer] is the address of the host's frame buffer, if one is wanted; the processor
    type and the log sink are left out.
    C: [src/harness/harness.h]:53-74 [harness_config_t] *)
Record harness_config := mkHarnessConfig {
  hc_chip_ram_size : Z; hc_slow_ram_size : Z; hc_video_pal : bool; hc_chipset_model : rigel_chipset_model;
  hc_cycle_exact : bool; hc_framebuffer : option Z; hc_serial_slow : bool;
}.

(** C: [src/harness/harness.c]:671-700 [harness_create_ex] *)
Definition host_rigel_config (chip_ram_size : Z) (cfg : harness_config) : rigel_config memory :=
  mkConfig 0 (mkRamConfig chip_ram_size (hc_chipset_model cfg)) host_chip_ram (negb (hc_serial_slow cfg))
    RIGEL_RTC_MODEL_NONE 0 (mkHost None None None) (hc_video_pal cfg)
    (match hc_framebuffer cfg with
     | Some p => mkTarget (Some p) HARNESS_MAX_WIDTH HARNESS_MAX_HEIGHT (HARNESS_MAX_WIDTH * 4) RIGEL_PIXEL_RGBA8888 true
     | None => mkTarget None 0 0 0 RIGEL_PIXEL_RGBA8888 false
     end)
    (hc_cycle_exact cfg).

(** Every allocation succeeds; [pc] is the processor's program counter after its reset.
    C: [src/harness/harness.c] [harness_create_ex] *)
Definition harness_create_ex (e : rigel_env) (pc : Z) (cfg : harness_config) : option harness :=
  let chip_ram_size := if negb (hc_chip_ram_size cfg =? 0) then hc_chip_ram_size cfg else HARNESS_CHIP_RAM_SIZE in
  h ← harness_synth_reset_vector
    (mkHarness
       (rigel_create e (host_rigel_config chip_ram_size cfg) (replicate (Z.to_nat chip_ram_size) 0))
       (replicate (Z.to_nat (hc_slow_ram_size cfg)) 0) (replicate (Z.to_nat HARNESS_ROM_MAX) 0) HARNESS_ROM_SIZE
       0 HARNESS_ROM_SIZE (HARNESS_ROM_SIZE - 1) 0 0 0 0 (HARNESS_ROM_SIZE - 1)
       0 0 0 0 0 0 0 false 0 0 0 0 0 false false false 0 0 None None []);
  Some (h <| h_last_pc := pc |>).

(** C: [src/harness/harness.c] [harness_attach_fastram] *)
Definition harness_attach_fastram (megabytes : Z) (h : harness) : bool * harness :=
  match h_fastram h with
  | Some _ => (false, h)
  | None => match fastram_create megabytes with
            | Some b => (true, h <| h_fastram := Some b |>)
            | None => (false, h)
            end
  end.

(** [rom_file]: the contents of the file, if it can be read; [bootable]: the environment's
    switch of the CD-ROM drive.
    C: [src/harness/harness.c] [harness_attach_lide] *)
Definition harness_attach_lide (bootable : bool) (rom_file : option (list Z)) (h : harness) : bool * harness :=
  match h_lide h with
  | Some _ => (true, h)
  | None => match lide_create bootable rom_file with
            | Some b => (true, h <| h_lide := Some b |>)
            | None => (false, h)
            end
  end.

(** An operation on the disk board, if there is one. *)
Definition on_lide (f : lide_board -> bool * lide_board) (h : harness) : bool * harness :=
  match h_lide h with
  | Some b => let '(r, b) := f b in (r, h <| h_lide := Some b |>)
  | None => (false, h)
  end.

(** C: [src/harness/harness.c] [harness_attach_hdf] *)
Definition harness_attach_hdf (file : option (list Z)) : harness -> bool * harness := on_lide (lide_attach_hdf file).
(** C: [src/harness/harness.c] [harness_attach_iso] *)
Definition harness_attach_iso (file : option (list Z)) : harness -> bool * harness := on_lide (lide_attach_iso file).
(** C: [src/harness/harness.c] [harness_load_odfs] *)
Definition harness_load_odfs (file : option (list Z)) : harness -> bool * harness := on_lide (lide_load_odfs file).

(** The copy of the image the drive reads is its bytes.
    C: [src/harness/harness.c] [harness_insert_adf] *)
Definition harness_insert_adf (drive : Z) (data : list Z) (size : Z) (h : harness) : bool * harness :=
  if size =? 0 then (false, h)
  else if 4 <=? drive then (false, h)
  else
    let '(status, c) := rigel_floppy_insert drive (Some (slice data 0 size)) size (h_rigel h) in
    (match status with RIGEL_STATUS_OK => true | _ => false end, h <| h_rigel := c |>).

(** ** Programs *)

(** The memory the loader is given: the byte paths of the host at the cycle [run].  A write
    outside an array leaves the host as it is, a read there gives 0.
    C: [src/harness/harness.c]:804-814 [hunk_write8] *)
Definition host_memory (run : Z) : GuestMemory harness :=
  {| write8 := fun h a v => default h (harness_write8 run a v h);
     read8 := fun h a => match harness_read8 run a h with Some (v, _) => v | None => 0 end |}.

(** Where a program may be placed.
    C: [src/harness/harness.c]:826-838 [harness_load_hunk] *)
Definition program_area (h : harness) : harness * Z * Z :=
  match h_fastram h with
  | Some b =>
      let b := fastram_force_configure 0x200000 b in
      (h <| h_fastram := Some b |>, fr_base b, u32 (fr_base b + fr_size b))
  | None => (h, 0x1000, chip_size h)
  end.

(** The return address, the branch it points to, and the reset vector.
    C: [src/harness/harness.c]:847-874 [harness_load_hunk] *)
Definition boot_vectors (entry : Z) (ram : memory) : option memory :=
  ram ← store_bytes ram HARNESS_EXEC_EXIT_ADDR [0x60; 0xfe];
  let sp := u32 (Z.of_nat (length ram) - 4) in
  ram ← store_bytes ram sp (be32 HARNESS_EXEC_EXIT_ADDR);
  store_bytes ram 0 (be32 sp ++ be32 entry).

(** The registers D0, A0, D1, D2 the program starts with; [pc] is the program counter after the
    processor's reset.
    C: [src/harness/harness.c] [harness_load_hunk] *)
Definition harness_load_hunk (fuel : nat) (run pc : Z) (data : list Z) (size fb_width fb_height : Z) (h : harness) :
    result harness (Z * Z * Z * Z) :=
  let gm := host_memory run in
  let '(h, load_addr, limit) := program_area h in
  bind (hunk_load fuel data size load_addr limit h) (fun img h =>
    let h := h <| h_exec_mode := true |> <| h_exec_exit := HARNESS_EXEC_EXIT_ADDR |> in
    known (boot_vectors (entry img) (chip h)) (fun ram =>
      let h := with_chip ram h in
      let pitch := u32 (fb_width * 2) in
      let fb_bytes := u32 (pitch * fb_height) in
      let fb := u32 (end_ img + 0x10000 + 31) .& u32 (~~ 31) in
      if limit <? u32 (fb + fb_bytes) then Rejected h
      else
        let h := write_block h fb (replicate (Z.to_nat fb_bytes) 0) in
        Done (pitch, fb, fb_width, fb_height)
          (h <| h_exec_fb := fb |> <| h_exec_fb_w := fb_width |> <| h_exec_fb_h := fb_height |>
             <| h_exec_fb_pitch := pitch |> <| h_last_pc := pc |> <| h_pc_stall_steps := 0 |>))).

(** C: [src/harness/harness.c] [harness_exec_framebuffer] *)
Definition harness_exec_framebuffer (h : harness) : option (Z * Z * Z * Z) :=
  if negb (h_exec_mode h) || (h_exec_fb h =? 0) then None
  else Some (h_exec_fb h, h_exec_fb_w h, h_exec_fb_h h, h_exec_fb_pitch h).

(** ** Running *)

(** C: [src/harness/harness.c] [harness_quantum_cpu_cycles] *)
Definition harness_quantum_cpu_cycles (max_cpu_cycles : Z) (h : harness) : Z :=
  let now := rigel_get_time (h_rigel h) in
  let deadline := rigel_get_next_observable_deadline (h_rigel h) in
  let cck := if now <? deadline then deadline - now else 1 in
  let cpu := u64 (cck * 2) in
  let cpu := if negb (h_cck_rem h =? 0) && (1 <? cpu) then cpu - 1 else cpu in
  let cpu := if negb (max_cpu_cycles =? 0) && (max_cpu_cycles <? cpu) then max_cpu_cycles else cpu in
  if negb (cpu =? 0) then u32 cpu else 1.

(** [execute budget h]: the processor runs; the cycles it used, its program counter, the
    host after the accesses it made.
    C: [src/harness/harness.c] [harness_step] *)
Definition harness_step (execute : Z -> harness -> option (Z * Z * harness)) (max_cpu_cycles : Z) (h : harness) :
    option (Z * harness) :=
  let h := h <| h_pending_events := 0 |> in
  let budget := harness_quantum_cpu_cycles max_cpu_cycles h in
  '(consumed, pc, h) ← execute budget (h <| h_cycles_flushed := 0 |>);
  let consumed := if consumed <? 0 then 0 else consumed in
  let leftover := consumed - h_cycles_flushed h in
  let h := if 0 <? leftover then owe_cycles leftover h else h in
  let h := h <| h_cpu_cycles_total := u64 (h_cpu_cycles_total h + consumed) |> in
  let h :=
    if (pc =? h_last_pc h) && negb (has (h_pending_events h) RIGEL_EVENT_IRQ_CHANGED)
    then (if h_pc_stall_steps h <? HARNESS_HALT_STEPS then h <| h_pc_stall_steps := h_pc_stall_steps h + 1 |> else h)
    else h <| h_pc_stall_steps := 0 |> <| h_last_pc := pc |> in
  Some (h_pending_events h, h <| h_pending_events := 0 |>).

(** C: [src/harness/harness.c] [harness_set_audio_sink] *)
Definition harness_set_audio_sink (rate_hz : Z) (h : harness) : harness :=
  if rate_hz =? 0 then h
  else
    let cck_hz := rigel_get_clock_hz (h_rigel h) / 2 in
    h <| h_audio_fn := true |> <| h_audio_accum_q16 := 0 |> <| h_audio_step_q16 := u32 ((cck_hz .<< 16) / rate_hz) |>.

(** C: [src/harness/harness.c] [harness_set_serial_sink] *)
Definition harness_set_serial_sink (on : bool) (h : harness) : harness := h <| h_serial_fn := on |>.

(** C: [src/harness/harness.c] [harness_set_mmio_sink] *)
Definition harness_set_mmio_sink (on : bool) (h : harness) : harness := h <| h_mmio_fn := on |>.

(** C: [src/harness/harness.c] [harness_serial_send] *)
Definition harness_serial_send (byte : Z) (h : harness) : harness :=
  h <| h_rigel := rigel_serial_receive_byte byte (h_rigel h) |>.

(** [fuel] bounds the number of steps.
    C: [src/harness/harness.c] [harness_run] *)
Fixpoint harness_run (fuel : nat) (execute : Z -> harness -> option (Z * Z * harness)) (stop : harness -> bool)
    (max_cycles : Z) (h : harness) : option harness :=
  match fuel with
  | O => None
  | S fuel =>
      if negb (stop h) && (h_cpu_cycles_total h <? max_cycles)
      then '(_, h) ← harness_step execute 0 h; harness_run fuel execute stop max_cycles h
      else Some h
  end.

(** C: [src/harness/harness.c] [harness_cpu_halted] *)
Definition harness_cpu_halted (h : harness) : bool := HARNESS_HALT_STEPS <=? h_pc_stall_steps h.
