(* ===== verification/HostFacts.v ===== *)
(** * The host keeps the processor's time

    Whatever the processor accesses, the chipset has advanced by half the cycles
    the processor has run, the odd cycle being carried over. *)

From S2P Require Import Prelude Bytes HostBytes Cia ChipRam Denise Framebuffer Rtc Machine FloppyPort Mmio.
From S2P Require Import Registers Rigel Chipset ChipsetFacts MachineInvariant Fastram Lide Host.

(** ** What advances the clock *)

Lemma clocks_cia_read id reg (c : RigelContext (list Z)) : clocks (rigel_cia_read id reg c).2 = clocks c.
Proof.
  unfold rigel_cia_read. destruct (2 <=? id); [done|]. destruct (cia_read_reg reg _) as [v w]. cbn [snd].
  unfold set_cia_board. by destruct (id =? 0).
Qed.

Lemma clocks_cia_write id reg v (c : RigelContext (list Z)) : clocks (rigel_cia_write id reg v c) = clocks c.
Proof.
  unfold rigel_cia_write. destruct (2 <=? id); [done|]. cbv zeta. rewrite <- (clocks_on_cia id (cia_write_reg reg v) c).
  set (c1 := on_cia _ _ _). clearbody c1. destruct (_ && _); [|done]. unfold cia_b_prb_update_floppy. cbv zeta.
  set (c2 := c1 <| floppy := _ |>). change (clocks c1) with (clocks c2). clearbody c2.
  by destruct (selected_drives _ _ _) as [a n].
Qed.

Lemma clocks_custom_write reg v (c : RigelContext (list Z)) : clocks (rigel_custom_write16 reg v c) = clocks c.
Proof.
  pose proof (outside_custom_write reg v c) as E. unfold outside in E. injection E as _ _ E1 _ _ E2 _ _.
  unfold clocks, rigel_custom_write16. by rewrite E1, E2.
Qed.

Lemma clocks_custom_read reg (c : RigelContext (list Z)) : clocks (rigel_custom_read16 reg c).2 = clocks c.
Proof.
  unfold rigel_custom_read16, custom_regs_read16, paula_read_reg, rigel_denise_read_reg. cbv zeta.
  repeat case_match; done.
Qed.

(** ** The time of the host *)

(** The chipset's clock and E clock, the odd cycle carried over, the cycles accounted for. *)
Definition hclock (h : harness) : Z * Z * Z * Z :=
  (cycles (h_rigel h), cia_eclock_rem (h_rigel h), h_cck_rem h, h_cycles_flushed h).

Definition owe (delta : Z) (t : Z * Z * Z * Z) : Z * Z * Z * Z :=
  let '(c, e, r, f) := t in
  (u64 (c + (r + delta) / 2), (e + (r + delta) / 2) mod 5, (r + delta) mod 2, f).

Lemma clocks_eq (h : harness) c :
  clocks c = clocks (h_rigel h) -> hclock (h <| h_rigel := c |>) = hclock h.
Proof. unfold clocks, hclock. intros [= E1 E2]. cbn. by rewrite E1, E2. Qed.

Lemma sync_clock h : hclock (harness_sync_ipl h) = hclock h.
Proof. unfold harness_sync_ipl. cbv zeta. by destruct (_ =? _). Qed.

Lemma observe_clock reg v w h : hclock (observe reg v w h) = hclock h.
Proof. unfold observe. by destruct (h_mmio_fn h). Qed.

Lemma drain_clock fuel : forall h, hclock (drain_loop fuel h) = hclock h.
Proof.
  induction fuel as [|fuel IH]; intros h; cbn [drain_loop]; [done|].
  destruct (rigel_serial_tx_available (h_rigel h)); [|done].
  destruct (rigel_serial_pop_tx_byte (h_rigel h)) as [[b c]|] eqn:E; [|done]. rewrite IH.
  change (hclock (say [serial_byte b] (h <| h_rigel := c |>))) with (hclock (h <| h_rigel := c |>)). apply clocks_eq.
  unfold rigel_serial_pop_tx_byte in E. destruct (Serial.serial_pop_tx_byte _) as [[b' s]|]; [|done]. by injection E as _ <-.
Qed.

Lemma audio_loop_clock fuel l r : forall h, hclock (audio_loop fuel l r h) = hclock h.
Proof.
  induction fuel as [|fuel IH]; intros h; cbn [audio_loop]; [done|]. destruct (_ <=? _); [|done]. by rewrite IH.
Qed.

Lemma audio_clock cck h : hclock (harness_advance_audio cck h) = hclock h.
Proof.
  unfold harness_advance_audio. destruct (_ || _); [done|]. cbv zeta. set (h1 := h <| h_audio_accum_q16 := _ |>).
  change (hclock h) with (hclock h1). clearbody h1. destruct (_ <? _); [done|].
  destruct (rigel_get_audio_sample _) as [l r]. apply audio_loop_clock.
Qed.

Lemma absorb_clock r h : hclock (harness_absorb r h) = hclock h.
Proof.
  unfold harness_absorb, harness_drain_serial. set (h1 := harness_sync_ipl _).
  assert (E : hclock h1 = hclock h) by (unfold h1; rewrite sync_clock; done). clearbody h1.
  destruct (negb (h_serial_fn h1)); [done|]. by rewrite drain_clock.
Qed.

(** The cycles a time slice may have. *)
Definition clock_ok (t : Z * Z * Z * Z) : Prop :=
  let '(c, e, r, f) := t in is_u64 c /\ 0 <= e < 5 /\ 0 <= r < 2 /\ 0 <= f < 2 ^ 31.

Lemma owe_clock delta h :
  clock_ok (hclock h) -> 0 <= delta < 2 ^ 31 -> hclock (owe_cycles delta h) = owe delta (hclock h).
Proof.
  intros (Hc & He & Hr & _) Hd. unfold owe_cycles. cbv zeta.
  replace ((h_cck_rem h + delta) .& 1) with ((h_cck_rem h + delta) mod 2) by (symmetry; exact (Z.land_ones _ 1 ltac:(lia))).
  set (n := (h_cck_rem h + delta) / 2).
  assert (Hn : 0 <= n < 2 ^ 31) by (unfold n; split; [apply Z.div_pos; lia|apply Z.div_lt_upper_bound; lia]).
  unfold hclock at 2, owe. fold n. destruct (Z.eqb_spec n 0) as [E|E].
  - rewrite E, !Z.add_0_r, wrap_small, (Z.mod_small (cia_eclock_rem _)) by done. done.
  - destruct (clocks_step n (h_rigel h) He) as [E1 E2]; [lia|lia|].
    change (h_rigel (h <| h_cck_rem := (h_cck_rem h + delta) mod 2 |>)) with (h_rigel h).
    destruct (rigel_step n (h_rigel h)) as [r c]. cbn [snd] in E1, E2. rewrite audio_clock, absorb_clock.
    unfold hclock. cbn. by rewrite E1, E2.
Qed.

(** What an access at the cycle [run] of the processor does to the time. *)
Definition tick (run : Z) (t : Z * Z * Z * Z) : Z * Z * Z * Z :=
  let '(c, e, r, f) := t in if run - f <=? 0 then t else owe (run - f) (c, e, r, run).

Lemma flush_clock run h :
  clock_ok (hclock h) -> 0 <= run < 2 ^ 31 -> hclock (harness_flush run h) = tick run (hclock h).
Proof.
  intros Hok Hr. unfold harness_flush, tick. cbv zeta. unfold hclock at 2.
  destruct (Z.leb_spec (run - h_cycles_flushed h) 0); [done|]. destruct Hok as (Hc & He & Hr' & Hf).
  rewrite owe_clock; [done| |lia]. exact (conj Hc (conj He (conj Hr' Hr))).
Qed.

Lemma tick_ok run t : clock_ok t -> 0 <= run < 2 ^ 31 -> clock_ok (tick run t).
Proof.
  destruct t as [[[c e] r] f]. intros (Hc & He & Hr & Hf) Hrun. unfold tick. destruct (Z.leb_spec (run - f) 0); [done|].
  unfold owe, clock_ok. split; [apply wrap_range; lia|]. split; [apply Z.mod_pos_bound; lia|].
  split; [apply Z.mod_pos_bound; lia|done].
Qed.

Lemma tick_twice run t : tick run (tick run t) = tick run t.
Proof.
  destruct t as [[[c e] r] f]. unfold tick at 2 3. destruct (Z.leb_spec (run - f) 0) as [H|H].
  - unfold tick. by rewrite (proj2 (Z.leb_le _ _)).
  - unfold owe, tick. by rewrite Z.sub_diag.
Qed.

(** ** Every access of the processor *)

(** An access at the cycle [run] either leaves the time as it is or brings it up to [run]. *)
Definition timely (run : Z) (h h' : harness) : Prop :=
  clock_ok (hclock h) -> hclock h' = hclock h \/ hclock h' = tick run (hclock h).

Lemma timely_trans run h1 h2 h3 :
  0 <= run < 2 ^ 31 -> timely run h1 h2 -> timely run h2 h3 -> timely run h1 h3.
Proof.
  intros Hr H12 H23 Hok. destruct (H12 Hok) as [E|E].
  - unfold timely in H23. rewrite E in H23. by apply H23.
  - assert (Hok2 : clock_ok (hclock h2)) by (rewrite E; by apply tick_ok). destruct (H23 Hok2) as [E2|E2]; right.
    + by rewrite E2.
    + by rewrite E2, E, tick_twice.
Qed.

Lemma timely_same run h h' : hclock h' = hclock h -> timely run h h'.
Proof. intros E _. by left. Qed.

Lemma timely_flush run h h' : 0 <= run < 2 ^ 31 -> hclock h' = hclock (harness_flush run h) -> timely run h h'.
Proof. intros Hr E Hok. right. rewrite E. by apply flush_clock. Qed.

Lemma overlay_clock h : hclock (harness_overlay h).2 = hclock h.
Proof.
  unfold harness_overlay. destruct (h_exec_mode h); [done|]. destruct (h_rom_size h =? 0); [done|].
  pose proof (clocks_cia_read 0 2 (h_rigel h)) as E1. destruct (rigel_cia_read 0 2 (h_rigel h)) as [ddra c].
  cbn [snd] in E1. pose proof (clocks_eq h c E1) as E2. set (h1 := h <| h_rigel := c |>) in *.
  destruct (negb (has ddra 1)); [exact E2|].
  pose proof (clocks_cia_read 0 0 (h_rigel h1)) as E3. destruct (rigel_cia_read 0 0 (h_rigel h1)) as [pra c2].
  cbn [snd] in E3. rewrite <- E2. exact (clocks_eq h1 c2 E3).
Qed.

Lemma custom_read_clock run reg h : hclock (harness_custom_read run reg h).2 = hclock (harness_flush run h).
Proof.
  unfold harness_custom_read. set (h1 := harness_flush run h). clearbody h1.
  pose proof (clocks_custom_read reg (h_rigel h1)) as E. destruct (rigel_custom_read16 reg (h_rigel h1)) as [v c].
  cbn [snd] in *. rewrite observe_clock. by apply clocks_eq.
Qed.

Lemma custom_write_clock run reg v h : hclock (harness_custom_write run reg v h) = hclock (harness_flush run h).
Proof.
  unfold harness_custom_write. set (h1 := harness_flush run h). clearbody h1. cbv zeta.
  rewrite sync_clock, observe_clock. apply clocks_eq, clocks_custom_write.
Qed.

Lemma cia_read8_clock run addr h : hclock (harness_cia_read8 run addr h).2 = hclock (harness_flush run h).
Proof.
  unfold harness_cia_read8. cbv zeta. set (h1 := harness_flush run h). clearbody h1. set (reg := u8 _). clearbody reg.
  assert (E : forall id, hclock (let '(v, c) := rigel_cia_read id reg (h_rigel h1) in
    (v, harness_sync_ipl (h1 <| h_rigel := c |>))).2 = hclock h1).
  { intros id. pose proof (clocks_cia_read id reg (h_rigel h1)) as E. destruct (rigel_cia_read id reg (h_rigel h1)) as [v c].
    cbn [snd] in *. rewrite sync_clock. by apply clocks_eq. }
  destruct (lane_a addr); [apply E|]. by destruct (lane_b addr); [apply E|].
Qed.

Lemma cia_write8_clock run addr v h : hclock (harness_cia_write8 run addr v h) = hclock (harness_flush run h).
Proof.
  unfold harness_cia_write8. cbv zeta. set (h1 := harness_flush run h). clearbody h1. rewrite sync_clock.
  destruct (lane_a addr); [apply clocks_eq, clocks_cia_write|].
  destruct (lane_b addr); [apply clocks_eq, clocks_cia_write|done].
Qed.

Lemma read8_timely run addr h v h' :
  0 <= run < 2 ^ 31 -> harness_read8 run addr h = Some (v, h') -> timely run h h'.
Proof.
  intros Hr. unfold harness_read8. cbv zeta. set (a := addr .& _). clearbody a.
  destruct (a <? chip_size h).
  { pose proof (overlay_clock h) as E. destruct (harness_overlay h) as [o h1]. cbn [snd] in E. destruct o.
    - destruct (harness_overlay_read8 h1 a); [|done]. cbn [mbind option_bind]. intros [= _ <-]. by apply timely_same.
    - destruct (chip h1 !! _); [|done]. cbn [mbind option_bind]. intros [= _ <-]. by apply timely_same. }
  destruct (fastram_at h a) as [b|].
  { destruct (fastram_read a 1 b); [|done]. cbn [mbind option_bind]. intros [= _ <-]. by apply timely_same. }
  destruct (lide_at h a) as [b|].
  { destruct (lide_read a 1 b) as [[? b']|]; [|done]. cbn [mbind option_bind]. intros [= _ <-]. by apply timely_same. }
  destruct (_ && _); [intros [= _ <-]; by apply timely_same|].
  destruct (addr_in_cia a).
  { pose proof (cia_read8_clock run a h) as E. destruct (harness_cia_read8 run a h) as [w h1]. intros [= _ <-].
    by apply timely_flush. }
  destruct (in_slow_ram h a).
  { destruct (h_slow_ram h !! _); [|done]. cbn [mbind option_bind]. intros [= _ <-]. by apply timely_same. }
  destruct (addr_in_custom a).
  { pose proof (custom_read_clock run (a .& 510) h) as E. destruct (harness_custom_read run (a .& 510) h) as [w h1].
    intros [= _ <-]. by apply timely_flush. }
  destruct (harness_rom_read8 h a); [|done]. cbn [mbind option_bind]. intros [= _ <-]. by apply timely_same.
Qed.

Lemma write8_timely run addr v h h' :
  0 <= run < 2 ^ 31 -> harness_write8 run addr v h = Some h' -> timely run h h'.
Proof.
  intros Hr. unfold harness_write8. cbv zeta. set (a := addr .& _). clearbody a.
  destruct (a <? chip_size h); [intros [= <-]; by apply timely_same|].
  destruct (fastram_at h a) as [b|].
  { destruct (fastram_write a v 1 b); [|done]. cbn [mbind option_bind]. intros [= <-]. by apply timely_same. }
  destruct (lide_at h a) as [b|].
  { destruct (lide_write a v 1 b) as [b'|]; [|done]. cbn [mbind option_bind]. intros [= <-]. by apply timely_same. }
  destruct (_ && _).
  { intros [= <-]. apply timely_same. unfold harness_autoconfig_write. cbv zeta.
    destruct (fastram_waits h); [done|]. by destruct (lide_waits h). }
  destruct (addr_in_cia a); [intros [= <-]; apply timely_flush; [done|apply cia_write8_clock]|].
  destruct (in_slow_ram h a); [intros [= <-]; by apply timely_same|].
  destruct (addr_in_custom a); [|intros [= <-]; by apply timely_same].
  pose proof (custom_read_clock run (a .& 510) h) as E. destruct (harness_custom_read run (a .& 510) h) as [cur h1].
  cbn [snd] in E. intros [= <-]. apply (timely_trans run h h1); [done|by apply timely_flush|].
  apply timely_flush; [done|]. apply custom_write_clock.
Qed.

Lemma read16_timely run addr h v h' :
  0 <= run < 2 ^ 31 -> harness_read16 run addr h = Some (v, h') -> timely run h h'.
Proof.
  intros Hr. unfold harness_read16. cbv zeta. set (a := addr .& _). clearbody a.
  destruct (addr_in_custom a).
  { pose proof (custom_read_clock run (a .& 510) h) as E. destruct (harness_custom_read run (a .& 510) h) as [w h1].
    intros [= _ <-]. by apply timely_flush. }
  destruct (_ <? chip_size h).
  { pose proof (overlay_clock h) as E. destruct (harness_overlay h) as [o h1]. cbn [snd] in E.
    intros H. apply timely_same. rewrite <- E. destruct o; simplify_option_eq; done. }
  destruct (fastram_at h a) as [b|].
  { destruct (fastram_read a 2 b); [|done]. cbn [mbind option_bind]. intros [= _ <-]. by apply timely_same. }
  destruct (lide_at h a) as [b|].
  { destruct (lide_read a 2 b) as [[? b']|]; [|done]. cbn [mbind option_bind]. intros [= _ <-]. by apply timely_same. }
  destruct (harness_read8 run a h) as [[b0 h1]|] eqn:E0; [|done]. cbn [mbind option_bind].
  destruct (harness_read8 run (u32 (a + 1)) h1) as [[b1 h2]|] eqn:E1; [|done]. cbn [mbind option_bind]. intros [= _ <-].
  apply (timely_trans run h h1); [done|by eapply read8_timely|by eapply read8_timely].
Qed.

Lemma write16_timely run addr v h h' :
  0 <= run < 2 ^ 31 -> harness_write16 run addr v h = Some h' -> timely run h h'.
Proof.
  intros Hr. unfold harness_write16. cbv zeta. set (a := addr .& _). clearbody a.
  destruct (addr_in_custom a); [intros [= <-]; apply timely_flush; [done|apply custom_write_clock]|].
  destruct (_ <? chip_size h); [intros [= <-]; by apply timely_same|].
  destruct (fastram_at h a) as [b|].
  { destruct (fastram_write a v 2 b); [|done]. cbn [mbind option_bind]. intros [= <-]. by apply timely_same. }
  destruct (lide_at h a) as [b|].
  { destruct (lide_write a v 2 b) as [b'|]; [|done]. cbn [mbind option_bind]. intros [= <-]. by apply timely_same. }
  destruct (harness_write8 run a _ h) as [h1|] eqn:E0; [|done]. cbn [mbind option_bind]. intros E1.
  apply (timely_trans run h h1); [done|by eapply write8_timely|by eapply write8_timely].
Qed.

(** What the processor does on the bus. *)
Inductive bus_access :=
  | get8 (addr : Z) | get16 (addr : Z) | get32 (addr : Z)
  | put8 (addr v : Z) | put16 (addr v : Z) | put32 (addr v : Z).

Definition bus_do (run : Z) (a : bus_access) (h : harness) : option harness :=
  match a with
  | get8 addr => '(_, h) ← harness_read8 run addr h; Some h
  | get16 addr => '(_, h) ← harness_read16 run addr h; Some h
  | get32 addr => '(_, h) ← m68k_read_memory_32 run addr h; Some h
  | put8 addr v => harness_write8 run addr v h
  | put16 addr v => harness_write16 run addr v h
  | put32 addr v => m68k_write_memory_32 run addr v h
  end.

Lemma bus_timely run a h h' : 0 <= run < 2 ^ 31 -> bus_do run a h = Some h' -> timely run h h'.
Proof.
  intros Hr. destruct a as [addr|addr|addr|addr v|addr v|addr v]; cbn [bus_do].
  - destruct (harness_read8 run addr h) as [[w h1]|] eqn:E; [|done]. intros [= <-]. by eapply read8_timely.
  - destruct (harness_read16 run addr h) as [[w h1]|] eqn:E; [|done]. intros [= <-]. by eapply read16_timely.
  - unfold m68k_read_memory_32. destruct (harness_read16 run addr h) as [[w h1]|] eqn:E; [|done]. cbn [mbind option_bind].
    destruct (harness_read16 run (u32 (addr + 2)) h1) as [[w2 h2]|] eqn:E2; [|done]. intros [= <-].
    apply (timely_trans run h h1); [done|by eapply read16_timely|by eapply read16_timely].
  - by apply write8_timely.
  - by apply write16_timely.
  - unfold m68k_write_memory_32. destruct (harness_write16 run addr _ h) as [h1|] eqn:E; [|done]. cbn [mbind option_bind].
    intros E2. apply (timely_trans run h h1); [done|by eapply write16_timely|by eapply write16_timely].
Qed.

(** The accesses of a time slice, each with the cycle it is made at. *)
Definition bus_run (l : list (Z * bus_access)) (h : harness) : option harness :=
  foldl (fun o p => h ← o; bus_do p.1 p.2 h) (Some h) l.

(** The time when the processor has run [f] cycles of a slice that began at [c], [e], [r]. *)
Definition slice_time (c e r f : Z) : Z * Z * Z * Z :=
  (u64 (c + (r + f) / 2), (e + (r + f) / 2) mod 5, (r + f) mod 2, f).

Lemma owe_slice n c e r f g :
  owe (n - f) (u64 (c + (r + f) / 2), (e + (r + f) / 2) mod 5, (r + f) mod 2, g) =
  (u64 (c + (r + n) / 2), (e + (r + n) / 2) mod 5, (r + n) mod 2, g).
Proof.
  unfold owe.
  assert (E : (r + f) / 2 + ((r + f) mod 2 + (n - f)) / 2 = (r + n) / 2).
  { rewrite <- Z.div_add_l by lia. f_equal. pose proof (Z.div_mod (r + f) 2). lia. }
  assert (E2 : ((r + f) mod 2 + (n - f)) mod 2 = (r + n) mod 2).
  { rewrite Z.add_mod_idemp_l by lia. f_equal. lia. }
  rewrite E2, wrap_add_l, Z.add_mod_idemp_l by lia. by rewrite <- !Z.add_assoc, E.
Qed.

Lemma tick_slice run c e r f :
  f <= run -> tick run (slice_time c e r f) = slice_time c e r run.
Proof.
  intros H. unfold tick, slice_time. destruct (Z.leb_spec (run - f) 0) as [H0|H0]; [by replace run with f by lia|].
  apply owe_slice.
Qed.

Lemma bus_run_time l : forall c e r f h h' limit,
  is_u64 c -> 0 <= e < 5 -> 0 <= r < 2 -> 0 <= f <= limit -> limit < 2 ^ 31 ->
  hclock h = slice_time c e r f -> Forall (fun p => f <= p.1 <= limit) l ->
  (forall i j p q, (i < j)%nat -> l !! i = Some p -> l !! j = Some q -> p.1 <= q.1) ->
  bus_run l h = Some h' -> exists f', f <= f' <= limit /\ hclock h' = slice_time c e r f'.
Proof.
  induction l as [|[run a] l IH]; intros c e r f h h' limit Hc He Hr Hf Hlim Hh Hl Hord.
  - intros [= <-]. exists f. split; [lia|done].
  - apply Forall_cons in Hl as [Hrun Hl]. cbn [fst] in Hrun. unfold bus_run. cbn [foldl mbind option_bind].
    destruct (bus_do run a h) as [h1|] eqn:E.
    2:{ assert (En : foldl (fun o p => h ← o; bus_do p.1 p.2 h) None l = None) by (clear; by induction l). cbn [fst snd].
        rewrite E. rewrite En. done. }
    cbn [fst snd]. rewrite E. intros Hrest.
    assert (Hok : clock_ok (hclock h)).
    { rewrite Hh. unfold slice_time, clock_ok. split; [apply wrap_range; lia|].
      split; [apply Z.mod_pos_bound; lia|]. split; [apply Z.mod_pos_bound; lia|lia]. }
    assert (H1 : exists f1, f <= f1 <= run /\ hclock h1 = slice_time c e r f1).
    { destruct (bus_timely run a h h1 ltac:(lia) E Hok) as [E1|E1]; rewrite E1, Hh.
      - exists f. split; [lia|done].
      - exists run. split; [lia|]. apply tick_slice. lia. }
    destruct H1 as (f1 & Hf1 & E1).
    destruct (IH c e r f1 h1 h' limit) as (f' & Hf' & E'); [done|done|done|lia|done|done| | |exact Hrest|].
    + apply Forall_forall. intros [q b] Hq. rewrite Forall_forall in Hl. specialize (Hl _ Hq). cbn [fst] in *.
      apply list_elem_of_lookup in Hq as [i Hi]. pose proof (Hord 0%nat (S i) (run, a) (q, b) ltac:(lia) eq_refl Hi).
      cbn [fst] in *. lia.
    + intros i j p q Hij Hi Hj. by apply (Hord (S i) (S j)); [lia|..].
    + exists f'. split; [lia|done].
Qed.

(** C21: One call of [harness_step], whatever the processor does in it (accesses [l], in the order
    of the cycles they are made at, in [consumed] cycles): the chipset has advanced by half the
    processor's cycles, the odd one being carried to the next call.  Accesses bring the chipset
    up to date before they are made and the rest is added at the end: nothing is lost or counted
    twice. *)
Theorem processor_time_is_kept l consumed pc max h h' ev :
  let execute (budget : Z) (h : harness) := h ← bus_run l h; Some (consumed, pc, h) in
  is_u64 (cycles (h_rigel h)) -> 0 <= cia_eclock_rem (h_rigel h) < 5 -> 0 <= h_cck_rem h < 2 ->
  0 <= consumed < 2 ^ 31 -> Forall (fun p => 0 <= p.1 <= consumed) l ->
  (forall i j p q, (i < j)%nat -> l !! i = Some p -> l !! j = Some q -> p.1 <= q.1) ->
  harness_step execute max h = Some (ev, h') ->
  cycles (h_rigel h') = u64 (cycles (h_rigel h) + (h_cck_rem h + consumed) / 2) /\
  h_cck_rem h' = (h_cck_rem h + consumed) mod 2.
Proof.
  intros execute Hc He Hr Hcons Hl Hord. unfold harness_step, execute. cbv zeta.
  set (h0 := (h <| h_pending_events := 0 |>) <| h_cycles_flushed := 0 |>).
  assert (E0 : hclock h0 = slice_time (cycles (h_rigel h)) (cia_eclock_rem (h_rigel h)) (h_cck_rem h) 0).
  { unfold slice_time. rewrite Z.add_0_r, Z.div_small, Z.add_0_r, Z.add_0_r, wrap_small by done.
    rewrite !Z.mod_small by lia. done. }
  destruct (bus_run l h0) as [h1|] eqn:Erun; [|done]. cbn [mbind option_bind].
  destruct (bus_run_time l _ _ _ 0 h0 h1 consumed Hc He Hr ltac:(lia) ltac:(lia) E0 Hl Hord Erun) as (f & Hf & E1).
  rewrite (proj2 (Z.ltb_ge consumed 0)) by lia.
  assert (Ef : h_cycles_flushed h1 = f) by (unfold hclock, slice_time in E1; by injection E1). rewrite Ef.
  set (h2 := if 0 <? consumed - f then owe_cycles (consumed - f) h1 else h1).
  assert (E2 : (cycles (h_rigel h2), h_cck_rem h2) =
    (u64 (cycles (h_rigel h) + (h_cck_rem h + consumed) / 2), (h_cck_rem h + consumed) mod 2)).
  { assert (Et : hclock h2 = owe (consumed - f) (hclock h1)).
    { unfold h2. destruct (Z.ltb_spec 0 (consumed - f)) as [Hp|Hp].
      - apply owe_clock; [|lia]. rewrite E1. unfold slice_time, clock_ok. split; [apply wrap_range; lia|].
        split; [apply Z.mod_pos_bound; lia|]. split; [apply Z.mod_pos_bound; lia|lia].
      - replace (consumed - f) with 0 by lia. rewrite E1. unfold slice_time, owe. rewrite Z.add_0_r, Z.mod_mod by lia.
        rewrite (Z.div_small (_ mod 2)) by (apply Z.mod_pos_bound; lia). rewrite !Z.add_0_r, Z.mod_mod, wrap_idemp by lia. done. }
    rewrite E1 in Et. unfold slice_time in Et. rewrite owe_slice in Et. unfold hclock in Et. by injection Et as -> _ -> _. }
  clearbody h2. intros H.
  assert (E3 : (cycles (h_rigel h'), h_cck_rem h') = (cycles (h_rigel h2), h_cck_rem h2)).
  { revert H. set (h3 := h2 <| h_cpu_cycles_total := _ |>).
    change (cycles (h_rigel h2), h_cck_rem h2) with (cycles (h_rigel h3), h_cck_rem h3). clearbody h3.
    destruct (_ && _); [destruct (_ <? _)|]; intros [= _ <-]; done. }
  rewrite E2 in E3. by injection E3.
Qed.

(** ** A host *)

(** A host with half a megabyte of chip RAM and no boards. *)
Definition demo_host_config : harness_config := mkHarnessConfig 0 0 true RIGEL_CHIPSET_OCS false None false.

(** Its state once it is created, up to the ROM. *)
Definition demo_host (rom : list Z) : harness :=
  mkHarness
    (rigel_create demo_env (host_rigel_config HARNESS_CHIP_RAM_SIZE demo_host_config)
       (replicate (Z.to_nat HARNESS_CHIP_RAM_SIZE) 0))
    [] rom HARNESS_ROM_SIZE 0 HARNESS_ROM_SIZE (HARNESS_ROM_SIZE - 1) 0 0 0 0 (HARNESS_ROM_SIZE - 1)
    0 0 0 0 0 0 0 false 0 0 0 0 0 false false false 0 0 None None [].

Lemma demo_created : exists rom, harness_create_ex demo_env 0 demo_host_config = Some (demo_host rom).
Proof.
  unfold harness_create_ex, harness_synth_reset_vector. cbv zeta. cbn [h_rom]. rewrite store_bytes_spec.
  - eexists. reflexivity.
  - lia.
  - rewrite length_replicate, length_app, !length_be32. unfold HARNESS_ROM_MAX. lia.
Qed.

Lemma demo_chip_size rom : chip_size (demo_host rom) = 0x80000.
Proof.
  unfold chip_size. change (chip (demo_host rom)) with (replicate (Z.to_nat 0x80000) 0). rewrite length_replicate. lia.
Qed.

(** ** Witnesses *)

(** The background colour is written in the tenth cycle of twenty. *)
Definition demo_accesses : list (Z * bus_access) := [(10, put16 0xdff180 0xfff)].

Lemma demo_run h : bus_run demo_accesses h = Some (harness_custom_write 10 0x180 0xfff h).
Proof. done. Qed.

Lemma demo_step h : exists ev h',
  harness_step (fun _ h => h ← bus_run demo_accesses h; Some (20, 0, h)) 0 h = Some (ev, h').
Proof.
  unfold harness_step. cbv zeta. rewrite demo_run. cbn [mbind option_bind].
  set (h1 := _ <| h_cpu_cycles_total := _ |>). clearbody h1.
  destruct (_ && _); [destruct (_ <? _)|]; by eexists _, _.
Qed.

Lemma processor_time_is_kept_witness : exists h ev h',
  harness_create_ex demo_env 0 demo_host_config = Some h /\
  harness_step (fun _ h => h ← bus_run demo_accesses h; Some (20, 0, h)) 0 h = Some (ev, h') /\
  cycles (h_rigel h') = 10.
Proof.
  destruct demo_created as [rom Ec]. destruct (demo_step (demo_host rom)) as (ev & h' & E).
  exists (demo_host rom), ev, h'. split; [exact Ec|]. split; [exact E|].
  destruct (processor_time_is_kept demo_accesses 20 0 0 (demo_host rom) h' ev) as [H _];
    [split; [discriminate|reflexivity]|split; [discriminate|reflexivity]|split; [discriminate|reflexivity]
    |split; [discriminate|reflexivity]|apply Forall_cons_2; [split; discriminate|apply Forall_nil_2]
    | |exact E|exact H].
  intros i j p q Hij Hi Hj. destruct j as [|j]; [lia|]. destruct j; discriminate Hj.
Defined.
