(* ===== verification/HostProgram.v ===== *)
(** * Programs in the host's memory

    Fast RAM behind the host's address map obeys the laws the program loader relies
    on, so a program is loaded as the specification says and the processor starts
    it; chip RAM does not obey them while the ROM overlays it. *)

From S2P Require Import Prelude Bytes HostBytes Cia ChipRam Machine FloppyPort Fastram FastramFacts Hunk HunkSpec.
From S2P Require Import HunkFacts MachineInvariant Host HostFacts.

(** ** Fast RAM behind the address map *)

(** [b] is the board of [h], configured at [lo, hi), above chip RAM. *)
Record board_at (lo hi : Z) (h : harness) (b : fastram_board) : Prop := {
  ba_board : h_fastram h = Some b;
  ba_memory : memory_ok b;
  ba_configured : fr_configured b = true;
  ba_base : fr_base b = lo;
  ba_size : lo + fr_size b = hi;
  ba_chip : chip_size h <= lo;
  ba_hi : hi <= 2 ^ 24;
}.

(** Fast RAM is at [lo, hi), and nothing but its contents differs from [h0]. *)
Definition fast_ram_at (lo hi : Z) (h0 h : harness) : Prop :=
  (exists b, board_at lo hi h b) /\ h <| h_fastram := None |> = h0 <| h_fastram := None |>.

Lemma mask24 a : 0 <= a < 2 ^ 24 -> a .& 0x00ffffff = a.
Proof. intros H. change 0x00ffffff with (Z.ones 24). rewrite Z.land_ones by lia. by apply Z.mod_small. Qed.

Lemma board_owns lo hi h b a : board_at lo hi h b -> lo <= a < hi -> fastram_at h a = Some b /\ inside a 1 b.
Proof.
  intros [Hb Hm Hc Hbase Hsize _ _] Ha. pose proof (mem_base _ Hm).
  assert (Ho : fastram_owns a b = true).
  { unfold fastram_owns. rewrite Hc, wrap_small by (unfold in_width; lia). cbn [andb].
    by rewrite (proj2 (Z.leb_le _ _)), (proj2 (Z.ltb_lt _ _)) by lia. }
  unfold fastram_at. rewrite Hb, Ho. split; [done|]. split; [done|]. split; [by left|lia].
Qed.

Lemma host_read_board run lo hi h b a :
  board_at lo hi h b -> lo <= a < hi -> harness_read8 run a h = v ← fastram_read a 1 b; Some (u8 v, h).
Proof.
  intros H Ha. destruct (board_owns lo hi h b a H Ha) as [E _]. destruct H as [_ Hm _ Hbase _ Hchip Hhi].
  pose proof (mem_base _ Hm). unfold harness_read8. cbv zeta. rewrite mask24 by lia.
  rewrite (proj2 (Z.ltb_ge _ _)) by lia. by rewrite E.
Qed.

Lemma host_write_board run lo hi h b a v :
  board_at lo hi h b -> lo <= a < hi ->
  harness_write8 run a v h = b ← fastram_write a v 1 b; Some (h <| h_fastram := Some b |>).
Proof.
  intros H Ha. destruct (board_owns lo hi h b a H Ha) as [E _]. destruct H as [_ Hm _ Hbase _ Hchip Hhi].
  pose proof (mem_base _ Hm). unfold harness_write8. cbv zeta. rewrite mask24 by lia.
  rewrite (proj2 (Z.ltb_ge _ _)) by lia. by rewrite E.
Qed.

Section fast.
Context (run : Z).
#[local] Instance memory_at_run : GuestMemory harness := host_memory run.

(** A byte write to Fast RAM gives a host with a new board. *)
Lemma write_board lo hi h b a v :
  board_at lo hi h b -> lo <= a < hi ->
  exists b', write8 h a v = h <| h_fastram := Some b' |> /\ board_at lo hi (h <| h_fastram := Some b' |>) b' /\
    fastram_read a 1 b' = Some (u8 v) /\
    forall a', lo <= a' < hi -> a' <> a -> fastram_read a' 1 b' = fastram_read a' 1 b.
Proof.
  intros H Ha. destruct (board_owns lo hi h b a H Ha) as [_ Hin].
  destruct (fastram_is_memory a v 1 b (ba_memory _ _ _ _ H) Hin) as (b' & E & Hm' & Hrd & Hother & K1 & K2 & K3).
  exists b'. cbn [write8 host_memory memory_at_run]. rewrite (host_write_board run lo hi h b a v H Ha), E.
  cbn [mbind option_bind default]. split; [done|]. split; [|split; [exact Hrd|]].
  - destruct H as [Hb Hm Hc Hbase Hsize Hchip Hhi]. split; [done|done|congruence|congruence|congruence|exact Hchip|exact Hhi].
  - intros a' Ha' Hne. destruct (board_owns lo hi h b a' H Ha') as [_ Hin']. apply Hother; [done|lia].
Qed.

#[local] Instance fast_ram_laws lo hi h0 : MemoryLaws harness lo hi (fast_ram_at lo hi h0).
Proof.
  split.
  - intros h a v [[b H] E] Ha _. destruct (write_board lo hi h b a v H Ha) as (b' & -> & H' & _).
    split; [by exists b'|]. exact E.
  - intros h a v [[b H] E] Ha Hv. destruct (write_board lo hi h b a v H Ha) as (b' & -> & H' & Hr & _).
    cbn [read8 host_memory memory_at_run]. rewrite (host_read_board run lo hi _ b' a H' Ha), Hr. cbn [mbind option_bind].
    by rewrite wrap_idemp, wrap_small by (done || lia).
  - intros h a a' v [[b H] E] Ha Ha' Hv Hne. destruct (write_board lo hi h b a v H Ha) as (b' & -> & H' & _ & Ho).
    cbn [read8 host_memory memory_at_run].
    rewrite (host_read_board run lo hi _ b' a' H' Ha'), (host_read_board run lo hi h b a' H Ha').
    rewrite Ho by (done || congruence). by destruct (fastram_read a' 1 b).
Qed.

(** The processor reads Fast RAM as the loader does, at whatever cycle, and changes nothing. *)
Lemma processor_reads run' lo hi h b a :
  board_at lo hi h b -> lo <= a < hi -> harness_read8 run' a h = Some (read8 h a, h).
Proof.
  intros H Ha. destruct (board_owns lo hi h b a H Ha) as [_ Hin].
  destruct (fastram_byte _ _ (ba_memory _ _ _ _ H) Hin) as (v & Ev & Hv).
  cbn [read8 host_memory memory_at_run]. by rewrite !(host_read_board _ lo hi h b a H Ha), Ev.
Qed.

(** What the memory of the board holds does not depend on the rest of the host. *)
Lemma read_same_board lo hi h h' b a :
  board_at lo hi h b -> board_at lo hi h' b -> lo <= a < hi -> read8 h' a = read8 h a.
Proof.
  intros H H' Ha. cbn [read8 host_memory memory_at_run].
  rewrite (host_read_board run lo hi h b a H Ha), (host_read_board run lo hi h' b a H' Ha).
  by destruct (fastram_read a 1 b).
Qed.

End fast.

(** ** Chip RAM under the overlay *)

(** Whether the ROM overlays chip RAM, from CIA-A's port. *)
Definition overlaid (h : harness) : bool :=
  let port r := default 0xff (cia_ports_read_reg (cia_a (h_rigel h)) r) in
  negb (h_exec_mode h) && negb (h_rom_size h =? 0) && (negb (has (port 2) 0x01) || has (port 0) 0x01).

Lemma port_read r (c : RigelContext (list Z)) :
  r = 0 \/ r = 2 ->
  rigel_cia_read 0 r c = (default 0xff (cia_ports_read_reg (cia_a c) r), set_cia_board 0 (cia_board 0 c) c).
Proof. by intros [-> | ->]. Qed.

Lemma overlay_spec h : (harness_overlay h).1 = overlaid h.
Proof.
  unfold harness_overlay, overlaid. destruct (h_exec_mode h); [done|]. destruct (h_rom_size h =? 0); [done|].
  cbn [negb andb]. rewrite (port_read 2) by by right. cbv zeta.
  set (c := set_cia_board 0 _ _). assert (Ec : cia_a c = cia_a (h_rigel h)) by done. clearbody c.
  destruct (has _ 1); cbn [negb orb]; [|done].
  change (h_rigel (h <| h_rigel := c |>)) with c. rewrite (port_read 0) by by left. cbn [fst]. by rewrite Ec.
Qed.

Lemma overlaid_with_chip m h : overlaid (with_chip m h) = overlaid h.
Proof. done. Qed.

Lemma overlay_state h :
  let h' := (harness_overlay h).2 in
  chip h' = chip h /\ h_rom h' = h_rom h /\ h_ovl_off h' = h_ovl_off h /\ h_ovl_mask h' = h_ovl_mask h.
Proof.
  cbv zeta. unfold harness_overlay. destruct (h_exec_mode h); [done|]. destruct (h_rom_size h =? 0); [done|].
  rewrite (port_read 2) by by right. set (c := set_cia_board 0 _ _).
  assert (Ec : Machine.memory (bus c) = Machine.memory (bus (h_rigel h))) by done. clearbody c.
  set (h1 := h <| h_rigel := c |>).
  assert (E1 : chip h1 = chip h) by (unfold chip; change (h_rigel h1) with c; by rewrite Ec).
  destruct (negb _); [done|]. rewrite (port_read 0) by by left. cbn [snd]. rewrite <- E1. done.
Qed.

(** The ROM byte, and the longword, that the overlay shows. *)
Definition rom_byte (h : harness) (a : Z) : Z := default 0 (harness_overlay_read8 h a).
Definition rom_long (h : harness) (a : Z) : Z :=
  u32 (rom_byte h a .<< 24) .| (rom_byte h (a + 1) .<< 16) .| (rom_byte h (a + 2) .<< 8) .| rom_byte h (a + 3).

Section overlay.
Context (run : Z).
#[local] Instance memory_under : GuestMemory harness := host_memory run.

Lemma read_under_overlay h a :
  overlaid h = true -> 0 <= a < chip_size h -> chip_size h <= 2 ^ 24 -> read8 h a = rom_byte h a.
Proof.
  intros Ho Ha Hs. cbn [read8 host_memory memory_under]. unfold harness_read8. cbv zeta. rewrite mask24 by lia.
  rewrite (proj2 (Z.ltb_lt _ _)) by lia. pose proof (overlay_spec h) as E. destruct (overlay_state h) as (_ & E1 & E2 & E3).
  destruct (harness_overlay h) as [o h1]. cbn [fst snd] in *. rewrite E, Ho. unfold rom_byte, harness_overlay_read8.
  rewrite E1, E2, E3. by destruct (h_rom h !! _).
Qed.

Lemma write_chip h a v :
  0 <= a < chip_size h -> chip_size h <= 2 ^ 24 -> write8 h a v = with_chip (<[Z.to_nat a := v]> (chip h)) h.
Proof.
  intros Ha Hs. cbn [write8 host_memory memory_under]. unfold harness_write8. cbv zeta. rewrite mask24 by lia.
  by rewrite (proj2 (Z.ltb_lt _ _)) by lia.
Qed.

Lemma chip_with_chip m h : chip (with_chip m h) = m.
Proof. done. Qed.

Lemma chip_size_with m h : length m = length (chip h) -> chip_size (with_chip m h) = chip_size h.
Proof. intros E. unfold chip_size. by rewrite chip_with_chip, E. Qed.

(** What a byte write to chip RAM leaves of chip RAM. *)
Lemma write_chip_bytes h a v :
  0 <= a < chip_size h -> chip_size h <= 2 ^ 24 ->
  chip (write8 h a v) = <[Z.to_nat a := v]> (chip h) /\ chip_size (write8 h a v) = chip_size h.
Proof.
  intros Ha Hs. rewrite write_chip by done. split; [apply chip_with_chip|apply chip_size_with, length_insert].
Qed.

End overlay.


(** ** The processor in chip RAM, without overlay *)

Lemma slice_lookup p i n k : 0 <= i -> (k < Z.to_nat n)%nat -> slice p i n !! k = p !! Z.to_nat (i + Z.of_nat k).
Proof.
  intros Hi Hk. unfold slice. rewrite lookup_take_lt by done. rewrite lookup_drop. f_equal. lia.
Qed.

Lemma chip_word run a b0 b1 h :
  h_exec_mode h = true -> chip_size h <= 0x200000 -> 0 <= a -> a + 2 <= chip_size h ->
  chip h !! Z.to_nat a = Some b0 -> chip h !! Z.to_nat (a + 1) = Some b1 ->
  harness_read16 run a h = Some (u16 ((b0 .<< 8) .| b1), h).
Proof.
  intros He Hs H0 H1 L0 L1. unfold harness_read16. cbv zeta. rewrite mask24 by lia.
  unfold addr_in_custom. rewrite (proj2 (Z.leb_gt 0xdf0000 a)) by lia. cbn [andb].
  rewrite (wrap_small 32 (a + 1)) by (unfold in_width; lia). rewrite (proj2 (Z.ltb_lt (a + 1) _)) by lia.
  unfold harness_overlay. rewrite He. by rewrite L0, L1.
Qed.

(** A longword that is in chip RAM is what the processor reads there. *)
Lemma chip_long run a v h :
  h_exec_mode h = true -> chip_size h <= 0x200000 -> 0 <= a -> a + 4 <= chip_size h -> is_u32 v ->
  slice (chip h) a 4 = be32 v -> m68k_read_memory_32 run a h = Some (v, h).
Proof.
  intros He Hs H0 H1 Hv E. unfold m68k_read_memory_32.
  assert (L : forall k, (k < 4)%nat -> chip h !! Z.to_nat (a + Z.of_nat k) = be32 v !! k).
  { intros k Hk. rewrite <- E. symmetry. apply slice_lookup; [done|lia]. }
  pose proof (L 0%nat ltac:(lia)) as L0. pose proof (L 1%nat ltac:(lia)) as L1.
  pose proof (L 2%nat ltac:(lia)) as L2. pose proof (L 3%nat ltac:(lia)) as L3.
  rewrite Z.add_0_r in L0. cbn in L0, L1, L2, L3. rewrite (wrap_small 32 (a + 2)) by (unfold in_width; lia).
  erewrite chip_word; [|done|done|done|lia|exact L0|exact L1]. cbn [mbind option_bind].
  erewrite chip_word; [|done|done|lia|lia|exact L2|rewrite <- Z.add_assoc; exact L3]. cbn [mbind option_bind].
  do 2 f_equal. bitwise 32.
Qed.

Lemma store_written l p i :
  0 <= i -> i + Z.of_nat (length l) <= Z.of_nat (length p) -> store_bytes p i l = Some (written i l p).
Proof. apply store_bytes_spec. Qed.

Lemma some_bind {A B} (a : A) (f : A -> option B) : Some a ≫= f = f a.
Proof. done. Qed.

Lemma boot_vectors_spec entry ram :
  0x1000 <= Z.of_nat (length ram) <= 0x200000 ->
  let sp := Z.of_nat (length ram) - 4 in
  boot_vectors entry ram = Some (written 0 (be32 sp ++ be32 entry)
    (written sp (be32 HARNESS_EXEC_EXIT_ADDR) (written HARNESS_EXEC_EXIT_ADDR [0x60; 0xfe] ram))).
Proof.
  intros Hl sp. unfold boot_vectors.
  assert (Hx : 8 <= HARNESS_EXEC_EXIT_ADDR <= 0x800) by (unfold HARNESS_EXEC_EXIT_ADDR; lia).
  set (x := HARNESS_EXEC_EXIT_ADDR) in *. clearbody x.
  assert (L1 : length (written x [0x60; 0xfe] ram) = length ram) by (apply written_length; cbn [length]; lia).
  assert (L2 : length (written sp (be32 x) (written x [0x60; 0xfe] ram)) = length ram)
    by (rewrite <- L1; apply written_length; rewrite ?length_be32; lia).
  rewrite store_written by (cbn [length]; lia). rewrite some_bind. cbv beta zeta. rewrite L1, wrap_small by (unfold in_width; lia).
  fold sp. rewrite store_written by (rewrite ?length_be32; lia). rewrite some_bind. apply store_written; [lia|].
  rewrite L2, length_app, !length_be32. lia.
Qed.

Lemma boot_vectors_written entry ram :
  0x1000 <= Z.of_nat (length ram) <= 0x200000 ->
  exists ram', boot_vectors entry ram = Some ram' /\ length ram' = length ram /\
    slice ram' 0 4 = be32 (Z.of_nat (length ram) - 4) /\ slice ram' 4 4 = be32 entry /\
    slice ram' (Z.of_nat (length ram) - 4) 4 = be32 HARNESS_EXEC_EXIT_ADDR /\
    slice ram' HARNESS_EXEC_EXIT_ADDR 2 = [0x60; 0xfe].
Proof.
  intros Hl. assert (Hx : 8 <= HARNESS_EXEC_EXIT_ADDR <= 0x800) by (unfold HARNESS_EXEC_EXIT_ADDR; lia).
  rewrite boot_vectors_spec by done. set (x := HARNESS_EXEC_EXIT_ADDR) in *. clearbody x. set (sp := Z.of_nat (length ram) - 4).
  set (r1 := written x [0x60; 0xfe] ram). pose proof (eq_refl : r1 = written x [0x60; 0xfe] ram) as E1. clearbody r1.
  assert (L1 : length r1 = length ram) by (rewrite E1; apply written_length; cbn [length]; lia).
  set (r2 := written sp (be32 x) r1). pose proof (eq_refl : r2 = written sp (be32 x) r1) as E2. clearbody r2.
  assert (L2 : length r2 = length ram) by (rewrite E2, <- L1; apply written_length; rewrite ?length_be32; lia).
  eexists. split; [reflexivity|].
  set (r3 := written 0 (be32 sp ++ be32 entry) r2).
  pose proof (eq_refl : r3 = written 0 (be32 sp ++ be32 entry) r2) as E3. clearbody r3.
  assert (H3 : length (be32 sp ++ be32 entry) = 8%nat) by done.
  assert (L3 : length r3 = length ram) by (rewrite E3, <- L2; apply written_length; lia).
  split; [exact L3|]. split; [by rewrite E3|]. split; [by rewrite E3|]. split.
  - rewrite E3, slice_elsewhere, E2 by (rewrite ?H3; lia). exact (slice_written sp (be32 x) r1 ltac:(lia) ltac:(rewrite length_be32; lia)).
  - rewrite E3, slice_elsewhere, E2, slice_elsewhere, E1 by (rewrite ?H3, ?length_be32; lia).
    exact (slice_written x [0x60; 0xfe] ram ltac:(lia) ltac:(cbn [length]; lia)).
Qed.

(** ** Where a program ends *)

Lemma layout_end_fits hunks : forall c,
  Forall (fun h => 0 <= h_longs h) hunks -> c <= layout_end c hunks /\ fits (layout_end c hunks) c hunks.
Proof.
  induction hunks as [|h hunks IH]; intros c Hl; cbn [layout_end fits]; [split; [lia|done]|].
  apply Forall_cons in Hl as [Hh Hl]. pose proof (align32_le (c + 8 + 4 * h_longs h)).
  destruct (IH (align32 (c + 8 + 4 * h_longs h)) Hl). split; [lia|]. split; [lia|done].
Qed.

Lemma fits_mono l l' hunks : l <= l' -> forall c, fits l c hunks -> fits l' c hunks.
Proof. intros Hl. induction hunks as [|h hunks IH]; intros c; [done|]. intros [H1 H2]. split; [lia|by apply IH]. Qed.

(** Every byte of a segment is below the end of the image. *)
Lemma segments_end lo hunks table first rest s i b :
  0 <= lo -> layout_end lo hunks + 32 <= 2 ^ 32 ->
  1 <= Z.of_nat (length hunks) <= MAX_HUNKS -> Forall (hunk_ok (Z.of_nat (length hunks))) hunks ->
  Forall (in_width 32) (encode hunks table first rest) -> 4 * Z.of_nat (length (encode hunks table first rest)) + 4 < 2 ^ 32 ->
  s ∈ load_spec lo hunks -> s_data s !! i = Some b -> lo <= s_addr s + Z.of_nat i < layout_end lo hunks.
Proof.
  intros Hlo Hend Hn Hok Hws Hlen Hs Hi.
  assert (Hl : Forall (fun h => 0 <= h_longs h) hunks) by (eapply Forall_impl; [exact Hok|]; intros h (_ & ? & _); lia).
  destruct (layout_end_fits hunks lo Hl) as [_ Hf].
  destruct (@loader_refines _ lo (layout_end lo hunks) function_memory _ (function_memory_laws _ _) hunks table first rest lo
    (layout_end lo hunks) (S (length (encode hunks table first rest))) (fun _ => 0)) as (_ & _ & Ho & _);
    [exact I|lia|lia|lia|done|done|done|done|done|lia|].
  pose proof (ordered_from _ _ Ho) as Hall. rewrite Forall_forall in Hall.
  destruct (Hall (region s)) as [Ha1 Ha2]; [by apply list_elem_of_fmap_2|]. rewrite region_length in Ha2.
  cbn [region fst] in Ha1, Ha2. unfold s_size in Ha2. pose proof (lookup_lt_Some _ _ _ Hi). lia.
Qed.

(** ** A program is loaded and started *)

Section start.
Context (run : Z).
#[local] Instance memory_to_load : GuestMemory harness := host_memory run.
#[local] Existing Instance fast_ram_laws.

(** The frame buffer's address. *)
Lemma frame_address e : 0 <= e -> e + 0x10000 + 31 < 2 ^ 32 -> u32 (e + 0x10000 + 31) .& u32 (~~ 31) = align32 (e + 0x10000).
Proof.
  intros H0 H1. rewrite (wrap_small 32 (e + 0x10000 + 31)) by (unfold in_width; lia). apply low_bits_cleared.
  unfold in_width. lia.
Qed.

(** Zeros written from [a] on, in Fast RAM. *)
Lemma zeros_written lo hi (h : harness) b a n :
  0 <= lo -> hi <= 2 ^ 24 -> board_at lo hi h b -> lo <= a -> 0 <= n -> a + n <= hi ->
  let h' := write_block h a (replicate (Z.to_nat n) 0) in
  fast_ram_at lo hi h h' /\
  forall x, lo <= x < hi -> read8 h' x = if (a <=? x) && (x <? a + n) then 0 else read8 h x.
Proof.
  intros Hlo Hhi Hb Ha Hn Hend h'.
  assert (Hl : Z.of_nat (length (replicate (Z.to_nat n) 0)) = n) by (rewrite length_replicate; lia).
  assert (Hz : bytes (replicate (Z.to_nat n) 0)) by (by apply Forall_replicate).
  assert (Hok : fast_ram_at lo hi h h) by (split; [by exists b|done]). split.
  - apply (write_block_keeps (lo := lo) (hi := hi)); [lia|lia|done|lia|lia|done].
  - intros x Hx. unfold h'. rewrite (write_block_at (lo := lo) (hi := hi) (ok := fast_ram_at lo hi h)) by (done || lia).
    rewrite Hl. destruct (Z.leb_spec a x), (Z.ltb_spec x (a + n)); cbn [andb]; try done.
    by rewrite lookup_replicate_2 by lia.
Qed.

(** The loader of the host in the Fast RAM of [h], up to the frame buffer. *)
Lemma program_in_board lo hi (h : harness) b hunks table first rest fuel :
  0 <= lo -> hi <= 2 ^ 24 -> board_at lo hi h b -> layout_end lo hunks <= hi ->
  1 <= Z.of_nat (length hunks) <= MAX_HUNKS -> Forall (hunk_ok (Z.of_nat (length hunks))) hunks ->
  Forall (in_width 32) (encode hunks table first rest) -> 4 * Z.of_nat (length (encode hunks table first rest)) + 4 < 2 ^ 32 ->
  (length (encode hunks table first rest) < fuel)%nat ->
  exists h1, hunk_load fuel (be32s (encode hunks table first rest))
      (4 * Z.of_nat (length (encode hunks table first rest))) lo hi h =
    Done (mkImage (lo + 8) lo (layout_end lo hunks) (Z.of_nat (length hunks))) h1 /\
    fast_ram_at lo hi h h1 /\
    forall s i v, s ∈ load_spec lo hunks -> s_data s !! i = Some v ->
      lo <= s_addr s + Z.of_nat i < layout_end lo hunks /\ read8 h1 (s_addr s + Z.of_nat i) = v.
Proof.
  intros Hlo Hhi Hb Hend Hn Hok Hws Hlen Hfuel.
  assert (Hl : Forall (fun h => 0 <= h_longs h) hunks) by (eapply Forall_impl; [exact Hok|]; intros x (_ & ? & _); lia).
  destruct (layout_end_fits hunks lo Hl) as [_ Hf].
  destruct (loader_refines (lo := lo) (hi := hi) (ok := fast_ram_at lo hi h) hunks table first rest lo hi fuel h)
    as (h1 & E & _ & Hs); [by split; [exists b|]|lia|lia|lia|done|done|by eapply fits_mono|done|done|done|].
  exists h1. split; [exact E|]. split; [exact (st_ok _ _ _ Hs)|]. intros s i v Hin Hi.
  split; [by eapply segments_end; [..|exact Hin|exact Hi]; try done; lia|].
  pose proof (st_blocks _ _ _ Hs) as Hblk. rewrite Forall_forall in Hblk.
  pose proof (Hblk (region s) ltac:(by apply list_elem_of_fmap_2) (8 + i)%nat v) as Hv. cbn [region fst snd] in Hv.
  replace (s_addr s + Z.of_nat i) with (s_addr s - 8 + Z.of_nat (8 + i)) by lia. by apply Hv.
Qed.

End start.

Lemma force_configured base b : fr_configured (fastram_force_configure base b) = true.
Proof. unfold fastram_force_configure. by destruct (fr_configured b) eqn:E. Qed.

(** What the processor finds in chip RAM when it is reset. *)
Lemma processor_starts run ram0 ram entry h :
  0x1000 <= Z.of_nat (length ram0) <= 0x200000 -> is_u32 entry -> boot_vectors entry ram0 = Some ram ->
  h_exec_mode h = true -> chip h = ram ->
  let top := Z.of_nat (length ram0) in
  m68k_read_memory_32 run 0 h = Some (top - 4, h) /\ m68k_read_memory_32 run 4 h = Some (entry, h) /\
  m68k_read_memory_32 run (top - 4) h = Some (HARNESS_EXEC_EXIT_ADDR, h) /\
  harness_read16 run HARNESS_EXEC_EXIT_ADDR h = Some (0x60fe, h).
Proof.
  intros Hl He Hb Hx Hc top. destruct (boot_vectors_written entry ram0 Hl) as (r & E & El & S0 & S4 & St & Se).
  rewrite Hb in E. injection E as <-. assert (Hs : chip_size h = top) by (unfold chip_size; by rewrite Hc, El).
  unfold HARNESS_EXEC_EXIT_ADDR in *.
  split; [|split; [|split]].
  - apply chip_long; [done|lia|lia|lia|unfold in_width; lia|by rewrite Hc].
  - apply chip_long; [done|lia|lia|lia|done|by rewrite Hc].
  - apply chip_long; [done|lia|lia|lia|unfold in_width; lia|by rewrite Hc].
  - pose proof (slice_lookup ram 0x800 2 0 ltac:(lia) ltac:(lia)) as L0. rewrite Se in L0.
    pose proof (slice_lookup ram 0x800 2 1 ltac:(lia) ltac:(lia)) as L1. rewrite Se in L1.
    rewrite (chip_word run 0x800 0x60 0xfe h);
      [reflexivity|done|lia|lia|lia|rewrite Hc; symmetry; exact L0|rewrite Hc; symmetry; exact L1].
Qed.

(** The host once the loader has accepted a program and there is room for the frame buffer. *)
Lemma load_hunk_done run pc file size width height fuel h h0 lo hi img h1 ram :
  let gm := host_memory run in
  let fb := align32 (end_ img + 0x10000) in
  program_area h = (h0, lo, hi) -> hunk_load fuel file size lo hi h0 = Done img h1 ->
  boot_vectors (entry img) (chip h1) = Some ram ->
  0 <= width <= 4096 -> 0 <= height <= 4096 -> 0 <= end_ img /\ fb + 2 * width * height < 2 ^ 31 ->
  fb + 2 * width * height <= hi ->
  harness_load_hunk fuel run pc file size width height h = Done (2 * width, fb, width, height)
    ((write_block (with_chip ram (h1 <| h_exec_mode := true |> <| h_exec_exit := HARNESS_EXEC_EXIT_ADDR |>)) fb
       (replicate (Z.to_nat (2 * width * height)) 0))
     <| h_exec_fb := fb |> <| h_exec_fb_w := width |> <| h_exec_fb_h := height |>
     <| h_exec_fb_pitch := 2 * width |> <| h_last_pc := pc |> <| h_pc_stall_steps := 0 |>).
Proof.
  intros gm fb Ha El Er Hw Hh [He Hfb] Hhi. pose proof (align32_le (end_ img + 0x10000)) as Hal. fold fb in Hal.
  unfold harness_load_hunk. rewrite Ha. cbv zeta. fold gm. rewrite El. cbn [bind].
  change (chip (h1 <| h_exec_mode := true |> <| h_exec_exit := HARNESS_EXEC_EXIT_ADDR |>)) with (chip h1). rewrite Er. cbn [known].
  replace (u32 (width * 2)) with (2 * width) by (rewrite wrap_small; unfold in_width; lia).
  rewrite (wrap_small 32 (2 * width * height)) by (unfold in_width; nia).
  rewrite frame_address by nia. fold fb. rewrite (wrap_small 32 (fb + _)) by (unfold in_width; nia).
  by rewrite (proj2 (Z.ltb_ge _ _)) by lia.
Qed.

(** C4: With Fast RAM, a host runs every well-formed executable that fits in the board together with
    its frame buffer.  [harness_load_hunk] succeeds; the processor, reset, finds its stack at the
    top of chip RAM and the first segment as its program counter; the return address it finds on
    the stack is a branch to itself; at every address of every segment it reads the byte the
    executable's specification gives, its code and data with the relocations applied; and the
    frame buffer is black and apart from the program.  The board need not have been configured. *)
Theorem harness_runs_program run run' pc h b lo hi hunks table first rest width height fuel :
  let b0 := fastram_force_configure 0x200000 b in
  let fb := align32 (layout_end lo hunks + 0x10000) in
  h_fastram h = Some b -> memory_ok b0 -> fr_base b0 = lo -> lo + fr_size b0 = hi -> hi <= 2 ^ 24 ->
  0x1000 <= chip_size h <= 0x200000 -> chip_size h <= lo ->
  1 <= Z.of_nat (length hunks) <= MAX_HUNKS -> Forall (hunk_ok (Z.of_nat (length hunks))) hunks ->
  Forall (in_width 32) (encode hunks table first rest) -> 4 * Z.of_nat (length (encode hunks table first rest)) + 4 < 2 ^ 32 ->
  (length (encode hunks table first rest) < fuel)%nat ->
  0 <= width <= 4096 -> 0 <= height <= 4096 -> fb + 2 * width * height <= hi ->
  exists h', harness_load_hunk fuel run pc (be32s (encode hunks table first rest))
      (4 * Z.of_nat (length (encode hunks table first rest))) width height h = Done (2 * width, fb, width, height) h' /\
    m68k_read_memory_32 run' 0 h' = Some (chip_size h - 4, h') /\
    m68k_read_memory_32 run' 4 h' = Some (lo + 8, h') /\
    m68k_read_memory_32 run' (chip_size h - 4) h' = Some (HARNESS_EXEC_EXIT_ADDR, h') /\
    harness_read16 run' HARNESS_EXEC_EXIT_ADDR h' = Some (0x60fe, h') /\
    (forall s i v, s ∈ load_spec lo hunks -> s_data s !! i = Some v ->
      harness_read8 run' (s_addr s + Z.of_nat i) h' = Some (v, h')) /\
    (forall i, 0 <= i < 2 * width * height -> harness_read8 run' (fb + i) h' = Some (0, h')).
Proof.
  intros b0 fb Hb Hm Hbase Hsize Hhi Hchip Hlo Hn Hok Hws Hlen Hfuel Hw Hh Hfb.
  set (file := be32s (encode hunks table first rest)). set (size := 4 * _).
  set (h0 := h <| h_fastram := Some b0 |>).
  assert (B0 : board_at lo hi h0 b0) by (split; [done|done|apply force_configured|done|done|exact Hlo|done]).
  assert (Hlb : Forall (fun x => 0 <= h_longs x) hunks) by (eapply Forall_impl; [exact Hok|]; intros x (_ & ? & _); lia).
  destruct (layout_end_fits hunks lo Hlb) as [Hle _]. pose proof (align32_le (layout_end lo hunks + 0x10000)) as Hal. fold fb in Hal.
  destruct (program_in_board run lo hi h0 b0 hunks table first rest fuel) as (h1 & E1 & [[b1 B1] D1] & Hprog);
    [lia|done|done|nia|done|done|done|done|done|]. fold file size in E1.
  assert (C1 : chip h1 = chip h) by exact (f_equal chip D1).
  destruct (boot_vectors_written (lo + 8) (chip h1)) as (ram & Er & Hrl & _); [rewrite C1; exact Hchip|].
  set (h2 := with_chip ram (h1 <| h_exec_mode := true |> <| h_exec_exit := HARNESS_EXEC_EXIT_ADDR |>)).
  assert (B2 : board_at lo hi h2 b1).
  { destruct B1 as [K1 K2 K3 K4 K5 K6 K7]. split; [done|done|done|done|done| |done].
    change (Z.of_nat (length ram) <= lo). rewrite Hrl. exact K6. }
  destruct (zeros_written run lo hi h2 b1 fb (2 * width * height)) as [[[b3 B3] D3] Hz];
    [lia|done|done|lia|nia|done|].
  set (h3 := write_block h2 fb _) in *.
  set (h' := h3 <| h_exec_fb := fb |> <| h_exec_fb_w := width |> <| h_exec_fb_h := height |>
    <| h_exec_fb_pitch := 2 * width |> <| h_last_pc := pc |> <| h_pc_stall_steps := 0 |>).
  assert (B4 : board_at lo hi h' b3) by (destruct B3; by split).
  exists h'. split.
  { apply (load_hunk_done run pc file size width height fuel h h0 lo hi
        (mkImage (lo + 8) lo (layout_end lo hunks) (Z.of_nat (length hunks))) h1 ram);
      [unfold program_area; rewrite Hb, <- Hbase; fold b0 h0; rewrite wrap_small by (unfold in_width; lia); by rewrite Hbase, Hsize
      |exact E1|exact Er|lia|lia|unfold fb in *; cbn [end_]; nia|exact Hfb]. }
  destruct (processor_starts run' (chip h1) ram (lo + 8) h') as (P0 & P4 & Pt & Pe);
    [rewrite C1; exact Hchip|unfold in_width; nia|exact Er|exact (f_equal h_exec_mode D3)|exact (f_equal chip D3)|].
  assert (Et : Z.of_nat (length (chip h1)) = chip_size h) by (by rewrite C1). rewrite Et in *.
  split; [exact P0|]. split; [exact P4|]. split; [exact Pt|]. split; [exact Pe|]. split.
  - intros s i v Hs Hi. destruct (Hprog s i v Hs Hi) as [Hr Hv].
    rewrite (processor_reads run run' lo hi h' b3) by (done || nia). do 2 f_equal.
    rewrite (read_same_board run lo hi h3 h' b3) by (done || nia). rewrite Hz by nia.
    rewrite (proj2 (Z.leb_gt fb _)) by lia. cbn [andb]. by rewrite (read_same_board run lo hi h1 h2 b1) by (done || nia).
  - intros i Hi. rewrite (processor_reads run run' lo hi h' b3) by (done || lia). do 2 f_equal.
    rewrite (read_same_board run lo hi h3 h' b3) by (done || lia). rewrite Hz by lia.
    by rewrite (proj2 (Z.leb_le fb _)), (proj2 (Z.ltb_lt (fb + i) _)) by lia.
Qed.

(** ** Witnesses *)

Lemma board_chip_size h fr : chip_size (h <| h_fastram := fr |>) = chip_size h.
Proof. done. Qed.

(** A host with the board. *)
Lemma host_with_board b : exists h, h_fastram h = Some b /\ chip_size h = 0x80000.
Proof.
  destruct demo_created as [rom _]. exists ((demo_host rom) <| h_fastram := Some b |>). split; [done|].
  rewrite board_chip_size. apply demo_chip_size.
Qed.

(** The program of two hunks of [HunkFacts], and a screen of 320 by 200. *)
Lemma harness_runs_program_witness : exists h b h',
  let file := encode small_program 2 0 [] in
  h_fastram h = Some b /\
  harness_load_hunk 60 0 0x200008 (be32s file) (4 * Z.of_nat (length file)) 320 200 h = Done (640, 0x210040, 320, 200) h' /\
  m68k_read_memory_32 0 4 h' = Some (0x200008, h') /\ harness_read8 0 0x20000f h' = Some (0x2c, h').
Proof.
  destruct configured_board as (b & Hm & Hc & Hb & Hs). destruct (host_with_board b) as (h & Hf & Hz).
  assert (Ef : fastram_force_configure 0x200000 b = b) by (unfold fastram_force_configure; by rewrite Hc).
  exists h, b.
  destruct (harness_runs_program 0 0 0x200008 h b 0x200000 0x300000 small_program 2 0 [] 320 200 60)
    as (h' & E & _ & P & _ & _ & H & _);
    [ exact Hf | rewrite Ef; exact Hm | rewrite Ef; exact Hb | rewrite Ef, Hs; reflexivity | lia | lia | lia
    | cbn; unfold MAX_HUNKS; lia | exact small_program_ok | | cbn; lia | cbn; lia | lia | lia | vm_compute; discriminate | ].
  - unfold encode. cbn. repeat (apply Forall_cons_2; [split; [discriminate|reflexivity]|]). by apply Forall_nil.
  - exists h'. split; [exact Hf|]. split; [exact E|]. split; [exact P|].
    refine (H (mkSegment 0x200008 0x200024 (be32s [0x20390000; 0x20002c])) 7%nat 0x2c _ eq_refl). vm_compute. by left.
Defined.

