(* ===== verification/HostIO.v ===== *)
(** * Sound, keys and the mouse of the host program: [harness_video.c], [main.c]

    The ring between the chipset's samples and the sound card, and the scripts that
    press keys and move the mouse in a run without a window.  The sound card calls
    [audio_callback] for a number of frames; both sides of the ring run one after
    the other.  Printing and the parsing of the command line are left out. *)

From S2P Require Import Prelude ChipRam Cia Denise Rtc Input Machine FloppyPort MachineInvariant.

(** ** The ring of samples *)

(** C: [src/harness/harness_video.c]:325-330 [AUDIO_RING_FRAMES] *)
Definition AUDIO_RING_FRAMES := 16384.

(** The device handle is left out.
    C: [src/harness/harness_video.c]:332-339 [audio_ring_t] *)
Record audio_ring := mkRing {
  r_buf : list Z; r_head : Z; r_tail : Z; r_underruns : Z; last_l : Z; last_r : Z;
}.

#[export] Instance eta_audio_ring : Eta audio_ring := fun a =>
  mkRing (r_buf a) (r_head a) (r_tail a) (r_underruns a) (last_l a) (last_r a).

(** C: [src/harness/harness_video.c]:341-341 [g_audio] *)
Definition g_audio : audio_ring := mkRing (replicate (Z.to_nat (AUDIO_RING_FRAMES * 2)) 0) 0 0 0 0 0.

(** C: [src/harness/harness_video.c] [harness_audio_push] *)
Definition harness_audio_push (l r : Z) (a : audio_ring) : audio_ring :=
  let next := u32 (r_head a + 1) mod AUDIO_RING_FRAMES in
  if next =? r_tail a then a
  else
    a <| r_buf := <[Z.to_nat (r_head a * 2 + 1) := r]> (<[Z.to_nat (r_head a * 2) := l]> (r_buf a)) |>
      <| r_head := next |>.

(** One frame for the sound card.
    C: [src/harness/harness_video.c]:350-365 [audio_callback] *)
Definition audio_frame (a : audio_ring) : (Z * Z) * audio_ring :=
  let tail := r_tail a in
  if tail =? r_head a then ((last_l a, last_r a), a <| r_underruns := u64 (r_underruns a + 1) |>)
  else
    let l := default 0 (r_buf a !! Z.to_nat (tail * 2)) in
    let r := default 0 (r_buf a !! Z.to_nat (tail * 2 + 1)) in
    ((l, r), a <| last_l := l |> <| last_r := r |> <| r_tail := u32 (tail + 1) mod AUDIO_RING_FRAMES |>).

(** C: [src/harness/harness_video.c] [audio_callback] *)
Fixpoint audio_callback (frames : nat) (a : audio_ring) : list (Z * Z) * audio_ring :=
  match frames with
  | O => ([], a)
  | S n => let '(s, a) := audio_frame a in let '(out, a) := audio_callback n a in (s :: out, a)
  end.

(** ** Scripted keys and buttons *)

Section scripts.
Context {M : Type}.
#[local] Abbreviation Ctx := (RigelContext M).

(** C: [src/harness/main.c]:368-374 [input_event_t] *)
Record input_event := mkInputEvent {
  ie_frame : Z; ie_code : Z; ie_hold : Z; ie_is_key : bool; ie_pressed : bool;
}.

(** The key or the left mouse button goes down or up.
    C: [src/harness/main.c]:425-433 [input_tick] *)
Definition deliver (e : input_event) (pressed : bool) (c : Ctx) : Ctx :=
  if ie_is_key e then rigel_keyboard_inject (ie_code e) pressed c else rigel_input_set_fire 0 pressed c.

(** C: [src/harness/main.c]:421-445 [input_tick] *)
Definition event_tick (frame : Z) (e : input_event) (c : Ctx) : input_event * Ctx :=
  if negb (ie_pressed e) && (frame =? ie_frame e)
  then (mkInputEvent (ie_frame e) (ie_code e) (ie_hold e) (ie_is_key e) true, deliver e true c)
  else if ie_pressed e && (frame =? u64 (ie_frame e + ie_hold e)) then (e, deliver e false c)
  else (e, c).

(** C: [src/harness/main.c] [input_tick] *)
Fixpoint input_tick (frame : Z) (s : list input_event) (c : Ctx) : list input_event * Ctx :=
  match s with
  | [] => ([], c)
  | e :: s =>
      let '(e, c) := event_tick frame e c in
      let '(s, c) := input_tick frame s c in (e :: s, c)
  end.

(** ** Scripted pointer movements *)

(** C: [src/harness/main.c]:466-466 [MOUSE_STEP] *)
Definition MOUSE_STEP := 60.
Definition MOUSE_HOME_FRAMES := 24.

(** C: [src/harness/main.c]:468-472 [mouse_event_t] *)
Record mouse_event := mkMouseEvent { me_frame : Z; me_x : Z; me_y : Z; me_started : bool }.

(** C: [src/harness/main.c]:474-481 [mouse_script_t] *)
Record mouse_script := mkMouse {
  ms_events : list mouse_event; ms_active : bool; ms_home_left : Z;
  ms_dx_left : Z; ms_dy_left : Z; ms_cx : Z; ms_cy : Z;
}.

#[export] Instance eta_mouse : Eta mouse_script := fun m =>
  mkMouse (ms_events m) (ms_active m) (ms_home_left m) (ms_dx_left m) (ms_dy_left m) (ms_cx m) (ms_cy m).

(** The first event of the frame that has not started yet: its position.
    C: [src/harness/main.c]:521-534 [mouse_tick] *)
Fixpoint start_event (frame : Z) (l : list mouse_event) : option (Z * Z * list mouse_event) :=
  match l with
  | [] => None
  | e :: l =>
      if negb (me_started e) && (frame =? me_frame e)
      then Some (me_x e, me_y e, mkMouseEvent (me_frame e) (me_x e) (me_y e) true :: l)
      else '(x, y, l) ← start_event frame l; Some (x, y, e :: l)
  end.

(** C: [src/harness/main.c]:520-534 [mouse_tick] *)
Definition mouse_start (frame : Z) (m : mouse_script) : mouse_script :=
  if ms_active m then m
  else match start_event frame (ms_events m) with
       | Some (x, y, l) =>
           m <| ms_events := l |> <| ms_active := true |> <| ms_home_left := MOUSE_HOME_FRAMES |>
             <| ms_dx_left := x |> <| ms_dy_left := y |>
       | None => m
       end.

(** The counters move by [dx] and [dy].
    C: [src/harness/main.c]:552-555 [mouse_tick] *)
Definition mouse_move (dx dy : Z) (m : mouse_script) (c : Ctx) : mouse_script * Ctx :=
  let m := m <| ms_cx := u8 (ms_cx m + dx) |> <| ms_cy := u8 (ms_cy m + dy) |> in
  (m, rigel_input_set_joydat 0 (u16 ((ms_cy m .<< 8) .| ms_cx m)) c).

(** C: [src/harness/main.c] [mouse_tick] *)
Definition mouse_tick (frame : Z) (m : mouse_script) (c : Ctx) : mouse_script * Ctx :=
  let m := mouse_start frame m in
  if negb (ms_active m) then (m, c)
  else if 0 <? ms_home_left m then
    mouse_move (- MOUSE_STEP) (- MOUSE_STEP) (m <| ms_home_left := ms_home_left m - 1 |>) c
  else
    let dx := if MOUSE_STEP <? ms_dx_left m then MOUSE_STEP else ms_dx_left m in
    let dy := if MOUSE_STEP <? ms_dy_left m then MOUSE_STEP else ms_dy_left m in
    let m := m <| ms_dx_left := ms_dx_left m - dx |> <| ms_dy_left := ms_dy_left m - dy |> in
    if (dx =? 0) && (dy =? 0) then (m <| ms_active := false |>, c) else mouse_move dx dy m c.

End scripts.

(** ** The ring is a bounded queue *)

(** What the two sides do. *)
Inductive ring_op := push (l r : Z) | play (frames : nat).

Definition ring_do (a : audio_ring) (op : ring_op) : list (Z * Z) * audio_ring :=
  match op with
  | push l r => ([], harness_audio_push l r a)
  | play n => audio_callback n a
  end.

Fixpoint ring_run (ops : list ring_op) (a : audio_ring) : list (Z * Z) :=
  match ops with
  | [] => []
  | op :: ops => let '(out, a) := ring_do a op in out ++ ring_run ops a
  end.

(** The specification: a queue of at most [AUDIO_RING_FRAMES - 1] frames, and the last frame played. *)
Definition play_one (q : list (Z * Z)) (last : Z * Z) : (Z * Z) * list (Z * Z) :=
  match q with [] => (last, []) | s :: q => (s, q) end.

Fixpoint play_spec (n : nat) (q : list (Z * Z)) (last : Z * Z) : list (Z * Z) * list (Z * Z) * (Z * Z) :=
  match n with
  | O => ([], q, last)
  | S n =>
      let '(s, q) := play_one q last in
      let '(out, q, last) := play_spec n q s in (s :: out, q, last)
  end.

Fixpoint queue_run (ops : list ring_op) (q : list (Z * Z)) (last : Z * Z) : list (Z * Z) :=
  match ops with
  | [] => []
  | push l r :: ops =>
      queue_run ops (if Z.of_nat (length q) <? AUDIO_RING_FRAMES - 1 then q ++ [(l, r)] else q) last
  | play n :: ops => let '(out, q, last) := play_spec n q last in out ++ queue_run ops q last
  end.

(** A position in the ring after a step. *)
Lemma ring_mod x :
  0 <= x < 2 * AUDIO_RING_FRAMES -> x mod AUDIO_RING_FRAMES = if x <? AUDIO_RING_FRAMES then x else x - AUDIO_RING_FRAMES.
Proof.
  intros H. destruct (Z.ltb_spec x AUDIO_RING_FRAMES); [by apply Z.mod_small; lia|].
  rewrite <- (Z.mod_small (x - AUDIO_RING_FRAMES) AUDIO_RING_FRAMES) by lia.
  replace x with (x - AUDIO_RING_FRAMES + 1 * AUDIO_RING_FRAMES) at 1 by lia. apply Z.mod_add. unfold AUDIO_RING_FRAMES. lia.
Qed.

(** The ring [a] holds the queue [q]; [last] was played last. *)
Record ring_holds (a : audio_ring) (q : list (Z * Z)) (last : Z * Z) : Prop := {
  rh_buf : Z.of_nat (length (r_buf a)) = 2 * AUDIO_RING_FRAMES;
  rh_tail : 0 <= r_tail a < AUDIO_RING_FRAMES;
  rh_length : Z.of_nat (length q) < AUDIO_RING_FRAMES;
  rh_head : r_head a = (r_tail a + Z.of_nat (length q)) mod AUDIO_RING_FRAMES;
  rh_frames : forall i s, q !! i = Some s ->
    let p := (r_tail a + Z.of_nat i) mod AUDIO_RING_FRAMES in
    r_buf a !! Z.to_nat (p * 2) = Some s.1 /\ r_buf a !! Z.to_nat (p * 2 + 1) = Some s.2;
  rh_last : last = (last_l a, last_r a);
}.

Lemma push_holds l r a q last :
  ring_holds a q last ->
  ring_holds (harness_audio_push l r a) (if Z.of_nat (length q) <? AUDIO_RING_FRAMES - 1 then q ++ [(l, r)] else q) last.
Proof.
  intros [Hb Ht Hl Hh Hf Hlast]. unfold harness_audio_push. cbv zeta.
  assert (Hhead : 0 <= r_head a < AUDIO_RING_FRAMES) by (rewrite Hh; apply Z.mod_pos_bound; unfold AUDIO_RING_FRAMES; lia).
  assert (HN : 0 < AUDIO_RING_FRAMES < 2 ^ 31) by (unfold AUDIO_RING_FRAMES; lia). set (N := AUDIO_RING_FRAMES) in *.
  rewrite (wrap_small 32) by (unfold in_width; lia).
  assert (En : (r_head a + 1) mod N = (r_tail a + Z.of_nat (length q) + 1) mod N) by (rewrite Hh; apply Z.add_mod_idemp_l; lia).
  rewrite En. destruct (Z.ltb_spec (Z.of_nat (length q)) (N - 1)) as [Hlt|Hge].
  - assert (Hne : (r_tail a + Z.of_nat (length q) + 1) mod N <> r_tail a).
    { unfold N in *. rewrite ring_mod by lia. destruct (Z.ltb_spec (r_tail a + Z.of_nat (length q) + 1) AUDIO_RING_FRAMES); lia. }
    rewrite (proj2 (Z.eqb_neq _ _)) by done. split; cbn.
    + by rewrite !length_insert.
    + done.
    + rewrite length_app. cbn. lia.
    + rewrite length_app. cbn. f_equal. lia.
    + intros i s Hi. assert (Hil : (i < length q)%nat \/ i = length q).
      { apply lookup_lt_Some in Hi. rewrite length_app in Hi. cbn in Hi. lia. }
      destruct Hil as [Hil|Hil].
      * rewrite lookup_app_l in Hi by done. specialize (Hf i s Hi). cbv zeta in Hf.
        assert (Hp : (r_tail a + Z.of_nat i) mod N <> r_head a /\ 0 <= (r_tail a + Z.of_nat i) mod N).
        { rewrite Hh. unfold N in *. rewrite !ring_mod by lia.
          destruct (Z.ltb_spec (r_tail a + Z.of_nat i) AUDIO_RING_FRAMES),
            (Z.ltb_spec (r_tail a + Z.of_nat (length q)) AUDIO_RING_FRAMES); lia. }
        fold N. set (p := (r_tail a + Z.of_nat i) mod N) in *. clearbody p. destruct Hf as [F1 F2], Hp as [P1 P2].
        split; (rewrite list_lookup_insert_ne; [rewrite list_lookup_insert_ne; [done|lia]|lia]).
      * subst i. rewrite list_lookup_middle in Hi by done. injection Hi as <-. fold N. rewrite <- Hh. cbn [fst snd]. split.
        -- rewrite list_lookup_insert_ne by lia. apply list_lookup_insert_eq. lia.
        -- apply list_lookup_insert_eq. rewrite length_insert. lia.
    + done.
  - assert (Heq : (r_tail a + Z.of_nat (length q) + 1) mod N = r_tail a).
    { unfold N in *. rewrite ring_mod by lia. destruct (Z.ltb_spec (r_tail a + Z.of_nat (length q) + 1) AUDIO_RING_FRAMES); lia. }
    rewrite (proj2 (Z.eqb_eq _ _)) by done. by split.
Qed.

Lemma frame_holds a q last :
  ring_holds a q last ->
  let '(s, q') := play_one q last in (audio_frame a).1 = s /\ ring_holds (audio_frame a).2 q' s.
Proof.
  intros [Hb Ht Hl Hh Hf Hlast]. unfold audio_frame. cbv zeta.
  assert (HN : 0 < AUDIO_RING_FRAMES < 2 ^ 31) by (unfold AUDIO_RING_FRAMES; lia). set (N := AUDIO_RING_FRAMES) in *.
  destruct q as [|s q]; cbn [play_one].
  - cbn [length] in Hh. rewrite Z.add_0_r, Z.mod_small in Hh by done. rewrite Hh, Z.eqb_refl. cbn [fst snd].
    split; [done|]. split; cbn; try done. by rewrite Hh, Z.add_0_r, Z.mod_small.
  - cbn [length] in *. assert (Hne : r_tail a <> r_head a).
    { rewrite Hh. unfold N in *. rewrite ring_mod by lia.
      destruct (Z.ltb_spec (r_tail a + Z.of_nat (S (length q))) AUDIO_RING_FRAMES); lia. }
    rewrite (proj2 (Z.eqb_neq _ _)) by done. destruct (Hf 0%nat s eq_refl) as [F1 F2].
    rewrite Z.add_0_r, Z.mod_small in F1, F2 by done. rewrite F1, F2. cbn [default fst snd].
    split; [by destruct s|]. rewrite (wrap_small 32) by (unfold in_width; lia).
    split; cbn; [done|apply Z.mod_pos_bound; lia|lia| | |by destruct s].
    + rewrite Hh. rewrite Z.add_mod_idemp_l by lia. f_equal. lia.
    + intros i t Hi. specialize (Hf (S i) t Hi). cbv zeta in Hf. rewrite Z.add_mod_idemp_l by lia.
      by replace (r_tail a + 1 + Z.of_nat i) with (r_tail a + Z.of_nat (S i)) by lia.
Qed.

Lemma callback_holds n : forall a q last,
  ring_holds a q last ->
  let '(out, q', last') := play_spec n q last in
  (audio_callback n a).1 = out /\ ring_holds (audio_callback n a).2 q' last'.
Proof.
  induction n as [|n IH]; intros a q last H; cbn [play_spec audio_callback]; [done|].
  pose proof (frame_holds a q last H) as Hf. destruct (play_one q last) as [s q1]. destruct Hf as [E1 H1].
  destruct (audio_frame a) as [s' a1]. cbn [fst snd] in E1, H1. subst s'.
  specialize (IH a1 q1 s H1). destruct (play_spec n q1 s) as [[out q2] last2]. destruct IH as [E2 H2].
  destruct (audio_callback n a1) as [out' a2]. cbn [fst snd] in *. by subst out'.
Qed.

(** C28: The sound card plays the samples in the order they are pushed, each once; when there is none
    it repeats the last one, and a sample that finds [AUDIO_RING_FRAMES - 1] samples waiting is
    dropped: whatever the two sides do, the ring is this bounded queue. *)
Theorem audio_ring_is_bounded_queue ops : ring_run ops g_audio = queue_run ops [] (0, 0).
Proof.
  assert (H0 : ring_holds g_audio [] (0, 0)).
  { split; [|cbn; unfold AUDIO_RING_FRAMES; lia|cbn; unfold AUDIO_RING_FRAMES; lia|done|done|done].
    cbn [r_buf g_audio]. rewrite length_replicate. unfold AUDIO_RING_FRAMES. lia. }
  revert H0. generalize g_audio (@nil (Z * Z)) (0, 0). induction ops as [|[l r|n] ops IH]; intros a q last H; [done|..].
  - cbn [ring_run ring_do queue_run app]. apply IH, push_holds, H.
  - cbn [ring_run ring_do queue_run]. pose proof (callback_holds n a q last H) as Hc.
    destruct (play_spec n q last) as [[out q'] last']. destruct Hc as [E H'].
    destruct (audio_callback n a) as [out' a']. cbn [fst snd] in *. subst out'. by rewrite (IH a' q' last').
Qed.

(** ** The pointer *)

(** What a program reads in JOY0DAT. *)
Definition joy0 {M} (c : RigelContext M) : Z := rigel_input_domain_read_reg (input (paula c)) 0x00a.

(** A pointer on a screen whose last column is [w] and last line [h]: it moves by the signed
    difference of two readings of the counters and stops at the borders. *)
Definition clamp (top v : Z) : Z := Z.max 0 (Z.min top v).

Definition pointer_step (w h : Z) (p : Z * Z) (old new : Z) : Z * Z :=
  (clamp w (p.1 + sign_extend 8 (new - old)), clamp h (p.2 + sign_extend 8 ((new .>> 8) - (old .>> 8)))).

(** [n] frames of the script, from the frame [f]; the program reads the counters once a frame. *)
Fixpoint mouse_frames {M} (n : nat) (f w h : Z) (p : Z * Z) (m : mouse_script) (c : RigelContext M) :
    (Z * Z) * mouse_script :=
  match n with
  | O => (p, m)
  | S n =>
      let '(m', c') := mouse_tick f m c in
      mouse_frames n (f + 1) w h (pointer_step w h p (joy0 c) (joy0 c')) m' c'
  end.

Lemma sign_extend_small v d : -128 <= d < 128 -> wrap 8 v = wrap 8 d -> sign_extend 8 v = d.
Proof.
  intros Hd E. unfold sign_extend. rewrite E. change (2 ^ (8 - 1)) with 128. change (2 ^ 8) with 256. unfold wrap.
  change (2 ^ 8) with 256. destruct (Z.leb_spec 0 d).
  - rewrite Z.mod_small by lia. by rewrite (proj2 (Z.ltb_lt _ _)) by lia.
  - replace (d mod 256) with (d + 256) by (rewrite <- (Z.mod_small (d + 256) 256), <- (Z.mod_add d 1 256) by lia; f_equal; lia).
    rewrite (proj2 (Z.ltb_ge _ _)) by lia. lia.
Qed.

Section pointer.
Context {M : Type}.

(** The counters of the script are those in the register. *)
Record counted (m : mouse_script) (c : RigelContext M) : Prop := {
  co_x : is_u8 (ms_cx m);
  co_y : is_u8 (ms_cy m);
  co_ports : length (joydat (input (paula c))) = 2%nat;
  co_reg : joy0 c = ms_cy m * 256 + ms_cx m;
}.

Lemma high_byte hi lo : is_u8 lo -> (hi * 256 + lo) .>> 8 = hi.
Proof.
  intros Hl. rewrite Z.shiftr_div_pow2 by lia. change (2 ^ 8) with 256. unfold in_width in Hl.
  rewrite Z.div_add_l by lia. rewrite Z.div_small by lia. lia.
Qed.

Lemma move_pointer w h p dx dy m c :
  counted m c -> -128 <= dx < 128 -> -128 <= dy < 128 ->
  let '(m', c') := mouse_move dx dy m c in
  m' = (m <| ms_cx := u8 (ms_cx m + dx) |> <| ms_cy := u8 (ms_cy m + dy) |>) /\ counted m' c' /\
  pointer_step w h p (joy0 c) (joy0 c') = (clamp w (p.1 + dx), clamp h (p.2 + dy)).
Proof.
  intros [Hx Hy Hp Hr] Hdx Hdy. unfold mouse_move. cbv zeta. set (m' := m <| ms_cx := _ |> <| ms_cy := _ |>).
  assert (Hx' : is_u8 (ms_cx m')) by (apply wrap_range; lia). assert (Hy' : is_u8 (ms_cy m')) by (apply wrap_range; lia).
  split; [done|]. set (v := u16 _). set (c' := rigel_input_set_joydat 0 v c).
  assert (Ev : v = ms_cy m' * 256 + ms_cx m').
  { unfold v. rewrite lor_shift8 by done. apply wrap_small. unfold in_width in *. lia. }
  assert (Ej : joydat (input (paula c')) = <[0%nat := v]> (joydat (input (paula c)))) by done.
  assert (E0 : joy0 c' = v).
  { change (joy0 c') with (default 0 (joydat (input (paula c')) !! 0%nat)). rewrite Ej.
    by rewrite list_lookup_insert_eq by lia. }
  split.
  - split; [done|done|by rewrite Ej, length_insert|by rewrite E0, Ev].
  - rewrite E0, Ev, Hr. unfold pointer_step. rewrite !high_byte by done.
    rewrite (sign_extend_small _ dx), (sign_extend_small _ dy); [done|done| |done|].
    + change (ms_cy m') with (u8 (ms_cy m + dy)). rewrite wrap_sub_l by lia. f_equal. lia.
    + change (ms_cx m') with (u8 (ms_cx m + dx)).
      replace (ms_cy m' * 256 + u8 (ms_cx m + dx) - (ms_cy m * 256 + ms_cx m)) with
        (u8 (ms_cx m + dx) - ms_cx m + (ms_cy m' - ms_cy m) * 2 ^ 8) by lia.
      unfold wrap at 1. rewrite Z.mod_add by lia. fold (u8 (u8 (ms_cx m + dx) - ms_cx m)). rewrite wrap_sub_l by lia. f_equal. lia.
Qed.

Lemma pointer_rests w h p v : 0 <= p.1 <= w -> 0 <= p.2 <= h -> pointer_step w h p v v = p.
Proof.
  intros Hx Hy. unfold pointer_step, clamp. rewrite !Z.sub_diag. change (sign_extend 8 0) with 0. destruct p. cbn in *.
  f_equal; lia.
Qed.

(** The script [k] frames after its only event, at [x], [y], has started with the pointer at [p0]. *)
Record on_the_way (x y : Z) (p0 : Z * Z) (k : Z) (p : Z * Z) (m : mouse_script) (c : RigelContext M) : Prop := {
  ow_counted : counted m c;
  ow_started : Forall (fun e => me_started e = true) (ms_events m);
  ow_home : ms_home_left m = Z.max 0 (24 - k);
  ow_active : ms_active m = true \/ (ms_dx_left m = 0 /\ ms_dy_left m = 0 /\ 24 <= k);
  ow_left : ms_dx_left m = Z.max 0 (x - 60 * Z.max 0 (k - 24)) /\ ms_dy_left m = Z.max 0 (y - 60 * Z.max 0 (k - 24));
  ow_pointer : p = if k <=? 24 then (Z.max 0 (p0.1 - 60 * k), Z.max 0 (p0.2 - 60 * k))
                   else (Z.min x (60 * (k - 24)), Z.min y (60 * (k - 24)));
}.

Lemma no_event_left f l : Forall (fun e => me_started e = true) l -> start_event f l = None.
Proof.
  induction l as [|e l IH]; intros H; [done|]. apply Forall_cons in H as [He Hl]. cbn [start_event].
  rewrite He. cbn [negb andb]. by rewrite IH.
Qed.

(** The arithmetic of one axis. *)
Lemma home_step w a k : 0 <= a <= w -> 0 <= k -> clamp w (Z.max 0 (a - 60 * k) + Z.opp 60) = Z.max 0 (a - 60 * (k + 1)).
Proof. unfold clamp. lia. Qed.

Lemma walk_step w x j d :
  0 <= x <= w -> 0 <= j -> d = Z.min 60 (Z.max 0 (x - 60 * j)) ->
  clamp w (Z.min x (60 * j) + d) = Z.min x (60 * (j + 1)) /\
  Z.max 0 (x - 60 * j) - d = Z.max 0 (x - 60 * (j + 1)).
Proof. unfold clamp. lia. Qed.

Context (w h x y : Z) (p0 : Z * Z) (Hx : 0 <= x <= w) (Hy : 0 <= y <= h) (Hw : w <= 1440) (Hh : h <= 1440).
Context (Hp1 : 0 <= p0.1 <= w) (Hp2 : 0 <= p0.2 <= h).

(** The pointer once it has been to the corner. *)
Lemma from_corner k p m c :
  24 <= k -> on_the_way x y p0 k p m c -> p = (Z.min x (60 * (k - 24)), Z.min y (60 * (k - 24))).
Proof. intros Hk H. rewrite (ow_pointer _ _ _ _ _ _ _ H). destruct (Z.leb_spec k 24); [|done]. f_equal; lia. Qed.

(** A frame towards the corner. *)
Lemma tick_home k p m c :
  0 <= k < 24 -> on_the_way x y p0 k p m c ->
  let '(m', c') := mouse_move (- MOUSE_STEP) (- MOUSE_STEP) (m <| ms_home_left := ms_home_left m - 1 |>) c in
  on_the_way x y p0 (k + 1) (pointer_step w h p (joy0 c) (joy0 c')) m' c'.
Proof.
  intros Hk [Hc He Hhome Ha [Hdx Hdy] Hp].
  pose proof (move_pointer w h p (- MOUSE_STEP) (- MOUSE_STEP) (m <| ms_home_left := ms_home_left m - 1 |>) c) as Hm.
  destruct (mouse_move _ _ _ c) as [m' c']. destruct Hm as (Em & Hc' & Es); [by destruct Hc|unfold MOUSE_STEP; lia..|].
  rewrite Es. subst m'. unfold MOUSE_STEP in *. rewrite (proj2 (Z.leb_le k 24)) in Hp by lia.
  split; cbn; [done|done|lia|destruct Ha as [Ha|(_ & _ & ?)]; [by left|lia]| |].
  - rewrite Hdx, Hdy, (Z.max_l 0 (k - 24)), (Z.max_l 0 (k + 1 - 24)) by lia. done.
  - rewrite (proj2 (Z.leb_le (k + 1) 24)) by lia. rewrite Hp. cbn [fst snd].
    by rewrite (home_step w p0.1 k Hp1), (home_step h p0.2 k Hp2) by lia.
Qed.

(** A frame towards the target. *)
Lemma tick_walk k p m c dx dy :
  24 <= k -> ms_active m = true -> on_the_way x y p0 k p m c -> dx = Z.min 60 (ms_dx_left m) -> dy = Z.min 60 (ms_dy_left m) ->
  let '(m', c') := mouse_move dx dy (m <| ms_dx_left := ms_dx_left m - dx |> <| ms_dy_left := ms_dy_left m - dy |>) c in
  on_the_way x y p0 (k + 1) (pointer_step w h p (joy0 c) (joy0 c')) m' c'.
Proof.
  intros Hk Hact H Edx Edy. pose proof (from_corner k p m c Hk H) as Ep. destruct H as [Hc He Hhome _ [Hdx Hdy] _].
  rewrite (Z.max_r 0 (k - 24)) in Hdx, Hdy by lia. rewrite Hdx in Edx. rewrite Hdy in Edy.
  destruct (walk_step w x (k - 24) dx Hx ltac:(lia) Edx) as [W1 L1], (walk_step h y (k - 24) dy Hy ltac:(lia) Edy) as [W2 L2].
  rewrite <- Z.add_sub_swap in W1, L1, W2, L2.
  pose proof (move_pointer w h p dx dy (m <| ms_dx_left := ms_dx_left m - dx |> <| ms_dy_left := ms_dy_left m - dy |>) c) as Hm.
  destruct (mouse_move _ _ _ c) as [m' c']. destruct Hm as (Em & Hc' & Es); [by destruct Hc|lia|lia|].
  rewrite Es. subst m'. split; cbn; [done|done|lia|by left| |].
  - rewrite Hdx, Hdy, (Z.max_r 0 (k + 1 - 24)) by lia. by rewrite L1, L2.
  - rewrite (proj2 (Z.leb_gt (k + 1) 24)) by lia. rewrite Ep. cbn [fst snd]. by rewrite W1, W2.
Qed.

(** A frame at the target. *)
Lemma tick_rest k p m m' c :
  24 <= k -> on_the_way x y p0 k p m c -> ms_dx_left m = 0 -> ms_dy_left m = 0 ->
  ms_events m' = ms_events m -> ms_home_left m' = ms_home_left m -> ms_dx_left m' = 0 -> ms_dy_left m' = 0 ->
  ms_cx m' = ms_cx m -> ms_cy m' = ms_cy m ->
  on_the_way x y p0 (k + 1) (pointer_step w h p (joy0 c) (joy0 c)) m' c.
Proof.
  intros Hk H Ex Ey Ee Eh Ex' Ey' Ecx Ecy. pose proof (from_corner k p m c Hk H) as Ep.
  destruct H as [Hc He Hhome _ [Hdx Hdy] _]. rewrite pointer_rests by (rewrite Ep; cbn; lia). split.
  - destruct Hc as [C1 C2 C3 C4]. split; rewrite ?Ecx, ?Ecy; done.
  - by rewrite Ee.
  - lia.
  - right. lia.
  - lia.
  - rewrite (proj2 (Z.leb_gt (k + 1) 24)) by lia. rewrite Ep. clear - Hdx Hdy Ex Ey Hx Hy Hk. f_equal; lia.
Qed.

(** A frame of the movement. *)
Lemma tick_on_the_way k p m c f :
  0 <= k -> on_the_way x y p0 k p m c ->
  let '(m', c') := mouse_tick f m c in
  on_the_way x y p0 (k + 1) (pointer_step w h p (joy0 c) (joy0 c')) m' c'.
Proof.
  intros Hk H. unfold mouse_tick, mouse_start. rewrite no_event_left by apply H.
  replace (if ms_active m then m else m) with m by (by destruct (ms_active m)). cbv zeta.
  pose proof (ow_home _ _ _ _ _ _ _ H) as Hhome. destruct (ms_active m) eqn:Eact; cbn [negb].
  - destruct (Z.ltb_spec 0 (ms_home_left m)) as [H0|H0]; [apply tick_home; [lia|done]|].
    pose proof (ow_left _ _ _ _ _ _ _ H) as [Hdx Hdy]. unfold MOUSE_STEP. set (dx := if 60 <? ms_dx_left m then _ else _).
    set (dy := if 60 <? ms_dy_left m then _ else _).
    assert (Edx : dx = Z.min 60 (ms_dx_left m)) by (unfold dx; destruct (Z.ltb_spec 60 (ms_dx_left m)); lia).
    assert (Edy : dy = Z.min 60 (ms_dy_left m)) by (unfold dy; destruct (Z.ltb_spec 60 (ms_dy_left m)); lia).
    clearbody dx dy. destruct ((dx =? 0) && (dy =? 0)) eqn:E0; [|by apply tick_walk; [lia|..]].
    apply andb_true_iff in E0 as [Ex%Z.eqb_eq Ey%Z.eqb_eq]. apply (tick_rest k p m); cbn; (done || lia).
  - destruct (ow_active _ _ _ _ _ _ _ H) as [Ha|(H1 & H2 & H3)]; [congruence|]. by apply (tick_rest k p m).
Qed.

Lemma frames_on_the_way n : forall f k p m c,
  0 <= k -> on_the_way x y p0 k p m c ->
  exists c', on_the_way x y p0 (k + Z.of_nat n) (mouse_frames n f w h p m c).1 (mouse_frames n f w h p m c).2 c'.
Proof.
  induction n as [|n IH]; intros f k p m c Hk H; cbn [mouse_frames].
  - exists c. by rewrite Z.add_0_r.
  - pose proof (tick_on_the_way k p m c f Hk H) as Ht. destruct (mouse_tick f m c) as [m' c'].
    destruct (IH (f + 1) (k + 1) _ m' c' ltac:(lia) Ht) as [c2 H2]. exists c2.
    by replace (k + Z.of_nat (S n)) with (k + 1 + Z.of_nat n) by lia.
Qed.

End pointer.


